(* ===== verification/_CoqProject ===== *)
-Q . S2P
Prelude.v
Python.v
Bytes.v
Effects.v
Errors.v
Metadata.v
Diagnostics.v
Schema.v
Store.v
Capability.v
Access.v
Framing.v
Scheduler.v
Fleet.v
Usage.v
Stream.v
Encoding.v
Signing.v
Grants.v
Maintenance.v
Broker.v
Scenario.v
Invariant.v
Lifecycle.v
Commands.v
Upkeep.v
Requests.v
Replay.v
Listing.v
Sessions.v
Auth.v
Enrollment.v
Envelope.v
Pins.v
Recipients.v
Onboard.v
Rekey.v
Reach.v
Fencing.v
Billing.v
Departure.v
Joining.v
Rotation.v
Exclusion.v
Lock.v
Provenance.v
Onboarding.v
Admission.v
Consumer.v
Release.v
Delivery.v
Home.v
Work.v
Spool.v
Worker.v
Local.v
Loss.v
Conduct.v
Receipts.v
Durable.v
Staging.v
Pending.v
Resume.v
Bench.v
