(* ===== verification/Prelude.v ===== *)
(** * A verified model of the VGen gateway control plane

    VGen distributes encrypted media-generation tasks of a workspace's members
    and services over workers that other members contribute.  The gateway keeps
    the only shared state, a SQLite database, and every other part (command
    line, SDKs, broker, worker process) talks to it over HTTP.  The development
    models the gateway's data and the methods that change it, the broker's handling
    of commands and the worker's handling of leases, and proves what they promise
    to the consumer of a task, to the owner of a worker and to the operator.

    ** The program and its model

    - [src/vgen/gateway/database.py]: the SQLite schema and the connection.
      [Schema] has one record per table (columns in order, [CHECK .. IN] columns
      as enumerations, nullable columns as options) and the constraints an
      INSERT evaluates; [Store] has the state-and-exception monad [M], the
      transaction that rolls back on an exception, the SQL statements as
      functions on lists of rows, and the environment [Env]: the clock and the
      random identifiers, and what third-party and library code provides to the
      program (SHA-256 of a JSON document, version comparison, [repr],
      [json.loads] of a text, the Ed25519 primitives, the Unicode table behind
      [str.isalnum]).  [Framing] relates the
      databases before and after an operation by a preorder.
    - [src/vgen/protocol/errors.py] and [diagnostics.py]: [Errors] has the whole
      registry of error codes, the sanitizer of error details and the envelope;
      [Diagnostics] the closed vocabulary of failure details and progress.
    - [src/vgen/gateway/public_metadata.py]: [Metadata] validates the plaintext
      the gateway accepts: requirements, media metadata, capability reports.
    - [src/vgen/gateway/repository.py], the repository methods: [Access] (guards
      of every operation), [Capability] (authorizations and the requirement
      matcher), [Scheduler] (preflight, prepare, commit, lease, attempt
      heartbeat, cancel, retry, rekey, expiry, sweep), [Fleet] (registration,
      offer, worker heartbeat, manager change, departure, the bundled bootstrap
      policy of [bootstrap_capabilities.py]), [Usage] (rates, artifact
      reservations, terminal reports and receipts, usage metrics, the hash
      chained ledger and its corrections), [Grants] (approval of allocations,
      authorizations recorded by maintenance jobs, deactivation), [Maintenance]
      (the life cycle of maintenance jobs, uploads, revocation of devices),
      [Listing] (the paged task list and its cursors), [Sessions] (sessions,
      login challenges, device recovery, idempotency records), [Enrollment]
      (invites, applications, claims, decisions, activation and revocation of
      users, devices, services and members, with [protocol/user_enrollment.py]),
      [Onboard] (the invites of workers, their claims, the decision that registers
      a worker and its replay), [Recipients] (owner-signed admissions, the verified recipients of a
      workspace key, rotation, grants and readers of key envelopes), [Broker]
      (brokers and their devices, their heartbeat, the queue of their commands).
    - [src/vgen/gateway/app.py], the routes that decide something themselves:
      [Requests] (the signature of every mutation and its replay cache; the
      gateway's switch [verify_mutations] is an argument), [Sessions]
      (authentication from the middleware, which resolves the session of a mutation
      before its body is read, to [current_principal]; login, recovery),
      [Enrollment], [Onboard] and [Recipients] (the enrollment routes, the
      validation of key grants).
    - [src/vgen/crypto]: [Stream] models [stream.py] (framed secretstream over
      readers that may return less than was asked), [Encoding] [encoding.py]
      (base64url and canonical JSON), [Signing] the signed statements of
      [identity.py], [maintenance.py] and [allocation.py], [Requests] the message
      signatures of [http_signatures.py], [Envelope] [envelope.py] (HPKE with its
      key schedule, task envelopes, wrapped workspace keys, associated data).
      The primitives of libsodium and of the cryptography package are parameters
      with the laws they document; [Stream.Plain], [Signing.Toy] and
      [Envelope.Sealed] are instances.
    - [src/vgen/cli/workspace_authorities.py] and [workspace_keys.py]: [Pins], the
      root keys and data keys a device keeps in its operating system's keyring, a
      parameter with its laws ([Pins.Ring] is an instance).
    - [src/vgen/broker]: [Rekey] has the broker's journal, its handler of rekey
      commands and the daemon's round, in the monad [Action] of [Effects].  The
      gateway the broker talks to is any function of the requests sent so far.
    - [src/vgen/worker]: [Work] has the data of [models.py], with the interfaces of
      [executors/base.py] and [artifacts/base.py]; [Spool] models [spool.py], the
      directories in which encrypted outputs wait, on a disk where any call may
      fail or be the last of the process; [Worker] models [WorkerCore] of [core.py]:
      [process_lease] is [process] and [resume_pending] its namesake, each with
      its keeper thread.  The gateway, the transports and the executor are
      functions of everything that happened before; an executor or a transport
      is a script of calls back into the worker, which it may go on with or end
      as it likes.  Between its steps the keeper runs as any schedule says; what
      the code does under the heartbeat lock is one step.
    - [Python] has the Python values all of them use: JSON documents with exact
      binary floats, dictionaries with insertion order, byte strings, and
      exceptions; a string holds its UTF-8 bytes, [code_points] its characters.
      [Bytes] has byte strings.  [Prelude], this file, has record update, the monad notation,
      SELECT / UPDATE / ORDER BY on lists, and the shared tactics and hints.

    An operation of the model is a whole method: its guards, its statements in
    the order of the code, and its transaction boundary, so that an error raised
    half-way is a value and the rollback is visible.  Timestamps are integers
    (microseconds).  A table is the list of its rows in insertion order, which is
    the order SQLite returns when a query does not fix one; every theorem that
    depends on an order names the ORDER BY of the code.

    ** What is proved

    - [Invariant], [Lifecycle], [Upkeep], [Reach]: an invariant of the tables tasks,
      attempts, leases and workers, kept by every operation whatever it returns
      or raises; [Reach.step] is the transition relation of the gateway and the
      theorems hold in every reachable state: one executing attempt per task,
      capacity respected, unique fencing tokens, leases exactly for executing
      attempts, final outcomes, at most one charge, final revocation.
    - [Exclusion]: a worker under a maintenance lease executes nothing and holds
      no second such lease.  [Lock]: the abstract specification of the
      scheduler, a fenced lock service, and the refinement: every run of the
      gateway is a run of the service, so a token that lost its lease never
      holds it again.
    - [Fencing]: the order of a worker's queue, what a lease grants and to whom,
      rejection of stale fences, idempotent terminal reports.
    - [Billing]: bounds of usage metrics, exactly one charge, exact and unique
      reversals, the hash chain of the ledger, one approved rate.
    - [Departure]: forced and graceful departure, the sweep, pruning.
    - [Admission]: only authorized and matching workers are chosen, the queue
      is balanced, preflight predicts prepare.
    - [Consumer]: what commit, cancel, retry and rekey guarantee.
    - [Provenance]: a workflow authorization needs the owner's signed intent, an
      allocation the admin's signed proof; completion is idempotent.
    - [Requests], [Replay]: an honestly signed mutation is accepted, and no
      signed mutation is accepted twice while the gateway requires signatures, over
      any interleaving with the other operations that touch the replay cache.
    - [Auth]: a session needs the registered key and an open, unexpired challenge, a
      challenge answers once, an authenticated request belongs to a live session
      of a live subject, whatever other requests did while its body arrived,
      recovery needs the root's signature.
    - [Joining]: the enrollment table implements an abstract life cycle
      ([enroll_step]); a membership needs an owner's decision or the secret of a
      direct invite; revocation withdraws what was given and locks the principal
      out; a device joins only under its user's root key.  [Onboarding]: a worker is
      registered only after a call that claimed its invite with the invite's secret
      under the worker's own key, and under two root signatures of the admin that
      invited it.
    - [Rotation]: a rotation of the workspace key reaches exactly the recovery
      keys and active devices of the active members, each admitted under the
      owner's signature; a grant leaves one live envelope; approving a member
      needs the owner's signed admission.
    - [Listing]: following the cursors enumerates the task list once, because the
      comparison of the WHERE clause agrees with the ORDER BY.
    - [Stream], [Encoding], [Signing]: encryption round trip, exact sizes,
      truncation detected, termination; canonical JSON ignores key order; signed
      intents verify and what an accepted intent binds.
    - [Envelope]: every reader an envelope was made for recovers the payload from
      its dictionary form, an envelope that opens was sealed under the same
      associated data, and associated data determines the task it names.
    - [Commands]: the queue of broker commands implements an abstract machine
      ([command_step]), and what an accepted report of a rekey says is so.
    - [Pins]: a pinned root key is never replaced, whatever the stores are asked.
    - [Release]: whatever the gateway answers, a broker releases a task key only
      to a worker its pinned authority allocated and its owner certified.
      [Delivery]: commands complete in the order of the queue, a restarted broker
      resumes the same reservation, and the gateway refuses the broker's report
      of a rekey it has committed.  [Home] runs a broker on concrete documents.
    - [Conduct]: the messages of a worker processing a lease follow an automaton,
      so it speaks for its own lease only, executes at most once and only after
      the gateway acknowledged the start, and sends nothing after a terminal
      report was accepted, with the one exception the theorem names.  [Local] and
      [Loss] trace exceptions to who raised them: a worker says that its lease is lost
      only when it was told.  [Receipts] and [Resume]: the outcome a worker returns is
      what was reported, a success after every output had been received whole;
      resuming executes nothing.
    - [Durable]: a manifest is replaced whole whatever the operating system does,
      and loading returns what was saved.  [Staging]: what the loop over the outputs
      leaves in the spool.  [Pending]: from the start of [process_lease] to its error
      handlers, an upload that can be retried ends as pending, and whenever an upload
      is pending the spool holds it whole.  [Bench] runs a worker, also where its code does not do what
      its comments say.
    - [Errors], [Diagnostics], [Access]: bounds of what may leave the gateway and
      the exact meaning of the consumer guard.

    [Scenario] drives a concrete control plane through the operations; its worlds
    are evaluated by the kernel and instantiate the theorems.

    ** Bounds

    The loops of the repository are folds over finite lists of rows, and the
    sanitizer recurses on a depth that the code itself limits to 5.  Only the
    loops of [Stream] run on fuel, one more than the bytes left in the source,
    each round of which consumes a byte; [Stream.streams_terminate] shows it is
    never exhausted.  A script of an executor or a transport is a well-founded
    tree, as long as it calls back and ends: an executor that never returns is
    outside the model.  The keeper takes a finite number of steps at each point
    where it may run.  Integers are unbounded as in Python; where SQLite, the
    frame format or the protocol limits them the limit is a condition of the
    code and of the model.

    ** Not modelled

    The rest of the HTTP layer ([app.py], [schemas.py]), which validates requests,
    refuses some for their size, protocol version or rate, and calls one repository
    method each; key derivation and recovery files; the
    first account, creation of workspaces and pools; of the worker process its
    capability reports, credentials, HTTP adapter, maintenance runner, updater and
    supervisor; the engines behind the executors, the adapters of
    artifact stores, the rest of the command line and the SDKs, which are
    input and output around the protocol;
    migrations of old databases, which run once before the first request; listing
    queries that only format rows.  [Reach.step] has a case for every operation
    that writes the tasks, attempts, leases, workers, the ledger or the maintenance
    jobs, the heartbeat of a broker included; every other request may rewrite any
    other table. *)

From stdpp Require Export base list strings option numbers sorting pretty.
From Stdlib Require Export ZArith.

(** ** Scope of the development's notations *)

Declare Scope vgen_scope.
Delimit Scope vgen_scope with vgen.
Open Scope vgen_scope.

(** ** Record update

    SQL [UPDATE t SET c=v] changes named columns of a row, and Python code
    assigns single attributes.  A row type registers its column-wise
    reconstruction once ([Eta]); the setter of each column is then derived by
    abstracting that column in the reconstruction. *)

Class Eta (R : Type) := eta : R -> R.

Class Setter {R T : Type} (proj : R -> T) := modify : (T -> T) -> R -> R.
Arguments modify {R T} proj {_} f r : assert.

Ltac derive_setter proj :=
  lazymatch type of proj with
  | ?R -> ?T =>
      let body :=
        constr:(fun (f : T -> T) (r : R) =>
          ltac:(let e := eval cbv beta iota zeta delta [eta] in (eta r) in
                let e := eval hnf in e in
                let p := eval pattern (proj r) in e in
                lazymatch p with
                | ?g (proj r) => exact (g (f (proj r)))
                end)) in
      let body := eval cbv beta in body in
      exact body
  end.

#[export] Hint Extern 1 (Setter ?proj) => derive_setter proj : typeclass_instances.

Notation "r <| proj := v |>" := (modify proj (fun _ => v) r)
  (at level 1, left associativity, proj at level 11, v at level 90,
   format "r  <| proj  :=  v |>") : vgen_scope.

(** ** Monadic binding

    The computation comes first, so that the type of the bound variable is
    known when the continuation is elaborated. *)

Definition bind {F : Type -> Type} `{!MBind F} {A B} (m : F A) (f : A -> F B) : F B := mbind f m.

Notation "x ← y ; z" := (bind y (fun x => z))
  (at level 20, y at level 100, z at level 200, only parsing) : vgen_scope.

(** ** Booleans and decisions *)

Notation "x =d y" := (bool_decide (x = y)) (at level 70, no associativity) : vgen_scope.
Notation "x ∈? l" := (existsb (fun y => bool_decide (x = y)) l)
  (at level 70, no associativity) : vgen_scope.

Lemma elem_b_spec {A} `{EqDecision A} (x : A) l : (x ∈? l) = true <-> x ∈ l.
Proof.
  rewrite existsb_exists. setoid_rewrite bool_decide_eq_true.
  rewrite list_elem_of_In. naive_solver.
Qed.

Lemma elem_b_false {A} `{EqDecision A} (x : A) l : (x ∈? l) = false <-> x ∉ l.
Proof. rewrite <- elem_b_spec. destruct (x ∈? l); naive_solver. Qed.

(** Split every boolean connective in the hypotheses. *)
Ltac split_bools :=
  repeat match goal with
  | H : (_ && _) = true |- _ => apply andb_true_iff in H; destruct H
  | H : (_ || _) = false |- _ => apply orb_false_iff in H; destruct H
  | H : negb _ = true |- _ => apply negb_true_iff in H
  | H : negb _ = false |- _ => apply negb_false_iff in H
  | H : bool_decide _ = true |- _ => apply bool_decide_eq_true_1 in H
  | H : bool_decide _ = false |- _ => apply bool_decide_eq_false_1 in H
  | H : (_ <? _)%Z = true |- _ => apply Z.ltb_lt in H
  | H : (_ <? _)%Z = false |- _ => apply Z.ltb_ge in H
  | H : (_ <=? _)%Z = true |- _ => apply Z.leb_le in H
  | H : (_ <=? _)%Z = false |- _ => apply Z.leb_gt in H
  | H : (_ =? _)%Z = true |- _ => apply Z.eqb_eq in H
  | H : (_ =? _)%Z = false |- _ => apply Z.eqb_neq in H
  end.

(** ** Lists as relations: the list functions the table layer uses *)

Section ListFacts.
Context {A : Type}.
Implicit Types (p q : A -> bool) (f : A -> A) (l : list A).

(** [WHERE p]. *)
Definition select (p : A -> bool) (l : list A) : list A := List.filter p l.

(** [UPDATE .. SET f WHERE p]. *)
Definition update (p : A -> bool) (f : A -> A) (l : list A) : list A :=
  List.map (fun r => if p r then f r else r) l.

(** [COUNT( * ) .. WHERE p]. *)
Definition count (p : A -> bool) (l : list A) : Z := Z.of_nat (length (select p l)).

(** Stable insertion sort: [ORDER BY], with ties left in table order. *)
Fixpoint insert_by (leb : A -> A -> bool) (x : A) (l : list A) : list A :=
  match l with
  | [] => [x]
  | y :: l' => if leb x y then x :: l else y :: insert_by leb x l'
  end.

Definition order_by (leb : A -> A -> bool) (l : list A) : list A :=
  List.fold_right (insert_by leb) [] l.

Lemma in_select p l x : In x (select p l) <-> In x l /\ p x = true.
Proof. apply filter_In. Qed.

Lemma in_update p f l x :
  In x (update p f l) <->
  exists y, In y l /\ ((p y = true /\ x = f y) \/ (p y = false /\ x = y)).
Proof.
  unfold update. rewrite in_map_iff. split.
  - intros (y & <- & Hy). exists y. destruct (p y); naive_solver.
  - intros (y & Hy & [[Hp ->]|[Hp ->]]); exists y; rewrite Hp; done.
Qed.

Lemma update_map_inv {B} (g : A -> B) p f l :
  (forall x, g (f x) = g x) -> map g (update p f l) = map g l.
Proof.
  intros Hg. unfold update. rewrite map_map. apply map_ext.
  intros x. destruct (p x); auto.
Qed.

Lemma length_update p f l : length (update p f l) = length l.
Proof. unfold update. apply length_map. Qed.

Lemma update_none p f l : (forall x, In x l -> p x = false) -> update p f l = l.
Proof.
  intros H. unfold update. rewrite <- (map_id l) at 2. apply map_ext_in.
  intros x Hx. by rewrite (H x Hx).
Qed.

Lemma select_nil p l : select p l = [] <-> forall x, In x l -> p x = false.
Proof.
  split.
  - intros H x Hx. destruct (p x) eqn:E; [|done].
    assert (In x (select p l)) as Hin by (apply in_select; auto).
    rewrite H in Hin. destruct Hin.
  - intros H. induction l as [|y l IH]; [done|]. simpl.
    rewrite (H y) by (left; done). apply IH. intros x Hx. apply H. by right.
Qed.

Lemma count_nonneg p l : (0 <= count p l)%Z.
Proof. unfold count. lia. Qed.

Lemma count_app p l1 l2 : count p (l1 ++ l2) = (count p l1 + count p l2)%Z.
Proof. unfold count, select. rewrite List.filter_app, length_app. lia. Qed.

Lemma count_zero p l : count p l = 0%Z <-> forall x, In x l -> p x = false.
Proof.
  rewrite <- select_nil. unfold count. split; intros H.
  - apply length_zero_iff_nil. lia.
  - by rewrite H.
Qed.

Lemma count_pos p l x : In x l -> p x = true -> (0 < count p l)%Z.
Proof.
  intros Hin Hp. pose proof (count_nonneg p l).
  assert (count p l <> 0%Z); [|lia].
  rewrite count_zero. intros H0. specialize (H0 x Hin). congruence.
Qed.

Lemma count_le_impl p q l :
  (forall x, In x l -> p x = true -> q x = true) -> (count p l <= count q l)%Z.
Proof.
  unfold count, select. induction l as [|x l IH]; intros H; simpl; [lia|].
  assert (Z.of_nat (length (List.filter p l)) <= Z.of_nat (length (List.filter q l)))%Z
    by (apply IH; intros; apply H; simpl; auto).
  destruct (p x) eqn:Ep; [rewrite (H x) by (simpl; auto); simpl; lia|].
  destruct (q x); simpl; lia.
Qed.

Lemma count_cons p x l : count p (x :: l) = ((if p x then 1 else 0) + count p l)%Z.
Proof. unfold count. simpl. destruct (p x); simpl; lia. Qed.

Lemma count_update_le p q f l :
  (forall x, In x l -> q (f x) = true -> q x = true) ->
  (count q (update p f l) <= count q l)%Z.
Proof.
  induction l as [|x l IH]; intros H; simpl; [done|].
  rewrite !count_cons.
  specialize (IH (fun y Hy => H y (or_intror Hy))). specialize (H x (or_introl eq_refl)).
  destruct (p x); destruct (q (f x)); destruct (q x); try lia; naive_solver.
Qed.

Lemma count_map_le p (F : A -> A) l :
  (forall x, In x l -> p (F x) = true -> p x = true) -> (count p (map F l) <= count p l)%Z.
Proof. apply (count_update_le (fun _ => true) p F). Qed.

(** Updating the single row that matches [p] raises [count q] by at most one. *)
Lemma count_update_one p q f l :
  (count p l <= 1)%Z -> (count q (update p f l) <= count q l + 1)%Z.
Proof.
  induction l as [|x l IH]; simpl; [unfold count; simpl; lia|].
  rewrite !count_cons. intros H. pose proof (count_nonneg p l).
  destruct (p x) eqn:Ep.
  - assert (update p f l = l) as ->.
    { apply update_none, count_zero. lia. }
    destruct (q (f x)), (q x); lia.
  - specialize (IH ltac:(lia)). lia.
Qed.

Lemma count_update_same p q f l :
  (forall x, In x l -> p x = true -> q (f x) = q x) -> count q (update p f l) = count q l.
Proof.
  induction l as [|x l IH]; intros H; simpl; [done|].
  rewrite !count_cons, IH by (intros; apply H; simpl; auto). f_equal.
  destruct (p x) eqn:E; [|done]. by rewrite H by (simpl; auto).
Qed.

Lemma in_insert_by leb x y l : In y (insert_by leb x l) <-> y = x \/ In y l.
Proof.
  induction l as [|z l IH]; simpl; [naive_solver|].
  destruct (leb x z); simpl; [naive_solver|]. rewrite IH. naive_solver.
Qed.

Lemma insert_by_perm leb x l : insert_by leb x l ≡ₚ x :: l.
Proof.
  induction l as [|z l IH]; simpl; [done|].
  destruct (leb x z); [done|]. rewrite IH. apply Permutation_swap.
Qed.

Lemma order_by_perm leb l : order_by leb l ≡ₚ l.
Proof. induction l as [|x l IH]; simpl; [done|]. by rewrite insert_by_perm, IH. Qed.

Lemma in_order_by leb l x : In x (order_by leb l) <-> In x l.
Proof.
  rewrite <- !list_elem_of_In. by rewrite order_by_perm.
Qed.

Definition total_preorder (leb : A -> A -> bool) : Prop :=
  (forall x y, leb x y = true \/ leb y x = true) /\
  (forall x y z, leb x y = true -> leb y z = true -> leb x z = true).

Lemma order_by_sorted leb l :
  total_preorder leb -> StronglySorted (fun x y => leb x y = true) (order_by leb l).
Proof.
  intros [Htot Htr]. induction l as [|x l IH]; simpl; [constructor|].
  induction (order_by leb l) as [|y l' IH']; simpl.
  - constructor; constructor.
  - apply StronglySorted_inv in IH as [Hs Hall].
    destruct (leb x y) eqn:E.
    + constructor; [by constructor|]. constructor; [done|].
      eapply Forall_impl; [exact Hall|]. naive_solver.
    + constructor; [auto|].
      apply List.Forall_forall. intros z Hz.
      apply in_insert_by in Hz as [->|Hz].
      * destruct (Htot x y); congruence.
      * rewrite List.Forall_forall in Hall. auto.
Qed.

(** [ORDER BY .. LIMIT 1] returns a least matching row. *)
(** Sorting commutes with selection. *)
Lemma select_insert_by leb p x l :
  total_preorder leb -> StronglySorted (fun x y => leb x y = true) l ->
  select p (insert_by leb x l) = if p x then insert_by leb x (select p l) else select p l.
Proof.
  intros [Htot Htr] Hs. induction Hs as [|y l Hs IH Hall]; simpl; [by destruct (p x)|].
  destruct (leb x y) eqn:Exy; simpl.
  - destruct (p x); [|done]. destruct (p y); simpl; [by rewrite Exy|].
    rewrite List.Forall_forall in Hall.
    destruct (select p l) as [|z l'] eqn:E; [done|]. simpl.
    assert (In z l) as Hz by (apply (in_select p); rewrite E; by left).
    by rewrite (Htr x y z Exy (Hall z Hz)).
  - rewrite IH. destruct (p y), (p x); simpl; by rewrite ?Exy.
Qed.

Lemma order_by_select leb p l :
  total_preorder leb -> order_by leb (select p l) = select p (order_by leb l).
Proof.
  intros Hpre. induction l as [|x l IH]; [done|].
  change (order_by leb (x :: l)) with (insert_by leb x (order_by leb l)).
  rewrite select_insert_by by auto using order_by_sorted.
  simpl. destruct (p x); [|done]. rewrite <- IH. done.
Qed.

Lemma order_by_head_min leb l x :
  total_preorder leb -> head (order_by leb l) = Some x ->
  In x l /\ forall y, In y l -> leb x y = true.
Proof.
  intros Hpre Hh. pose proof (order_by_sorted leb l Hpre) as Hs.
  destruct (order_by leb l) as [|z l'] eqn:E; [done|]. injection Hh as ->.
  split; [apply (in_order_by leb); rewrite E; by left|].
  intros y Hy. apply (in_order_by leb) in Hy. rewrite E in Hy.
  destruct Hy as [->|Hy]; [destruct Hpre as [Ht _]; destruct (Ht y y); done|].
  apply StronglySorted_inv in Hs as [_ Hall]. rewrite List.Forall_forall in Hall. auto.
Qed.

Lemma head_in (l : list A) x : head l = Some x -> In x l.
Proof. destruct l; naive_solver. Qed.

Lemma head_select_some p l x : head (select p l) = Some x -> In x l /\ p x = true.
Proof. intros H%head_in. by apply in_select. Qed.

Lemma head_order_select_some leb p l x :
  head (order_by leb (select p l)) = Some x -> In x l /\ p x = true.
Proof. intros H%head_in. by rewrite in_order_by, in_select in H. Qed.

Lemma head_order_select_none leb p l :
  head (order_by leb (select p l)) = None -> forall x, In x l -> p x = false.
Proof.
  intros H x Hx. destruct (p x) eqn:Ep; [|done].
  assert (In x (order_by leb (select p l))) as Hin by (rewrite in_order_by, in_select; done).
  by destruct (order_by leb (select p l)).
Qed.

Lemma existsb_false p l : existsb p l = false -> forall x, In x l -> p x = false.
Proof.
  intros H x Hx. destruct (p x) eqn:Ep; [|done].
  assert (existsb p l = true) by (apply existsb_exists; eauto). congruence.
Qed.

Lemma head_none (l : list A) : head l = None <-> l = [].
Proof. destruct l; naive_solver. Qed.

End ListFacts.

(** Two rows of a table with a unique key that agree on the key are equal. *)
Lemma NoDup_map_inj {A B} (g : A -> B) (l : list A) x y :
  NoDup (map g l) -> In x l -> In y l -> g x = g y -> x = y.
Proof.
  induction l as [|z l IH]; simpl; [done|].
  rewrite NoDup_cons. intros [Hn Hd] [->|Hx] [->|Hy] E; auto.
  - destruct Hn. rewrite E. apply list_elem_of_In, in_map, Hy.
  - destruct Hn. rewrite <- E. apply list_elem_of_In, in_map, Hx.
Qed.

(** The table after updating the one row [r] that [p] selects. *)
Lemma in_update_key {A B} (g : A -> B) (p : A -> bool) (f : A -> A) (l : list A) r x :
  NoDup (map g l) -> In r l -> p r = true ->
  (forall y, In y l -> p y = true -> g y = g r) ->
  In x (update p f l) <-> x = f r \/ (In x l /\ g x <> g r).
Proof.
  intros Hd Hr Hp Hkey. rewrite in_update. split.
  - intros (y & Hy & [[Hpy ->]|[Hpy ->]]).
    + left. by rewrite (NoDup_map_inj g l y r Hd Hy Hr (Hkey y Hy Hpy)).
    + right. split; [done|]. intros E.
      rewrite (NoDup_map_inj g l y r Hd Hy Hr E) in Hpy. congruence.
  - intros [->|[Hx Hne]]; [by eauto|]. exists x. split; [done|].
    destruct (p x) eqn:E; [|by auto]. by destruct Hne; apply Hkey.
Qed.

Lemma NoDup_map_select {A B} (f : A -> B) p l : NoDup (map f l) -> NoDup (map f (select p l)).
Proof.
  unfold select. induction l as [|x l IH]; [done|]. simpl. intros [Hn Hnd]%NoDup_cons.
  destruct (p x); [|by apply IH]. simpl. constructor; [|by apply IH]. intros Hin. apply Hn.
  apply list_elem_of_In, in_map_iff in Hin as (y & Hy & Hin). apply filter_In in Hin as [Hin _].
  apply list_elem_of_In, in_map_iff. by exists y.
Qed.

Lemma NoDup_map_snoc {A B} (g : A -> B) (l : list A) x :
  NoDup (map g l) -> (forall y, In y l -> g y <> g x) -> NoDup (map g (l ++ [x])).
Proof.
  intros Hd Hn. rewrite map_app. simpl. apply NoDup_app. split; [done|]. split.
  - intros b Hb Hb'. apply list_elem_of_singleton in Hb' as ->.
    apply list_elem_of_In, in_map_iff in Hb as (y & E & Hy). by apply (Hn y).
  - apply NoDup_singleton.
Qed.

(** At most one row carries a given value of a unique key. *)
Lemma count_key_le_one {A B} `{EqDecision B} (g : A -> B) (l : list A) k :
  NoDup (map g l) -> (count (fun x => g x =d k) l <= 1)%Z.
Proof.
  induction l as [|x l IH]; simpl; [unfold count; simpl; lia|].
  rewrite NoDup_cons. intros [Hn Hd]. rewrite count_cons. specialize (IH Hd).
  case_bool_decide as E; [|lia].
  assert (count (fun x => g x =d k) l = 0)%Z; [|lia].
  apply count_zero. intros y Hy. apply bool_decide_eq_false_2. intros E'.
  apply Hn. rewrite E, <- E'. apply list_elem_of_In, in_map, Hy.
Qed.

(** ** Strings: SQLite's BINARY collation is byte-wise lexicographic order *)

Section StringOrder.

Definition str_ltb (a b : string) : bool :=
  match String.compare a b with Lt => true | _ => false end.

Lemma str_compare_refl a : String.compare a a = Eq.
Proof.
  induction a as [|c a IH]; simpl; [done|].
  assert (Ascii.compare c c = Eq) as -> by (unfold Ascii.compare; apply N.compare_refl).
  done.
Qed.

Lemma str_ltb_irrefl a : str_ltb a a = false.
Proof. unfold str_ltb. by rewrite str_compare_refl. Qed.

Lemma str_ltb_trans a b c : str_ltb a b = true -> str_ltb b c = true -> str_ltb a c = true.
Proof.
  unfold str_ltb. revert b c.
  induction a as [|x a IH]; intros [|y b] [|z c]; simpl; try done.
  unfold Ascii.compare.
  destruct (N.compare_spec (Ascii.N_of_ascii x) (Ascii.N_of_ascii y)) as [E1|L1|G1];
  destruct (N.compare_spec (Ascii.N_of_ascii y) (Ascii.N_of_ascii z)) as [E2|L2|G2];
  destruct (N.compare_spec (Ascii.N_of_ascii x) (Ascii.N_of_ascii z)) as [E3|L3|G3];
  try done; try lia; apply IH.
Qed.

Lemma str_ltb_total a b : str_ltb a b = true \/ a = b \/ str_ltb b a = true.
Proof.
  unfold str_ltb. rewrite (String.compare_antisym b a).
  destruct (String.compare a b) eqn:E; simpl; auto.
  right; left. by apply String.compare_eq_iff.
Qed.

Lemma str_ltb_asym a b : str_ltb a b = true -> str_ltb b a = false.
Proof.
  intros H. destruct (str_ltb b a) eqn:E; [|done].
  by rewrite <- (str_ltb_irrefl a), (str_ltb_trans a b a H E).
Qed.

End StringOrder.

Create HintDb vgen.
#[export] Hint Resolve count_nonneg str_ltb_irrefl str_ltb_trans : vgen.

