(* ===== verification/Python.v ===== *)
(** * Python values and effects used by the gateway

    The JSON documents the gateway stores and exchanges, the string operations
    its validators use, and the exceptions its operations raise.  Floats are
    exact binary rationals [m * 2^e] with the two infinities and NaN, which is
    what [json.loads] can produce.  Strings are byte strings; the validators
    below accept ASCII only. *)

From S2P Require Import Prelude.
From Stdlib Require Export Ascii.

Open Scope Z_scope.

(** ** JSON documents *)

Inductive float :=
| FFin (m e : Z)
| FInf (negative : bool)
| FNan.

Inductive json :=
| JNull
| JBool (b : bool)
| JInt (z : Z)
| JFloat (f : float)
| JStr (s : string)
| JList (l : list json)
| JObj (fields : list (string * json)).

Definition dict := list (string * json).

#[export] Instance float_eq_dec : EqDecision float.
Proof. solve_decision. Defined.

(** The numeric value of a number or boolean as [m * 2^e]; NaN and the
    infinities have none. *)
Definition num_val (v : json) : option (Z * Z) :=
  match v with
  | JBool b => Some (if b then 1 else 0, 0)
  | JInt z => Some (z, 0)
  | JFloat (FFin m e) => Some (m, e)
  | _ => None
  end.

Definition scaled_eqb (m e m' e' : Z) : bool :=
  let lo := Z.min e e' in m * 2 ^ (e - lo) =? m' * 2 ^ (e' - lo).

(** Python's [==] on JSON values: numbers compare by value (so [True == 1] and
    [1 == 1.0]), NaN differs from itself, and dictionaries ignore key order. *)
Fixpoint json_eqb (x y : json) {struct x} : bool :=
  match x with
  | JNull => match y with JNull => true | _ => false end
  | JStr a => match y with JStr b => String.eqb a b | _ => false end
  | JFloat (FInf n) => match y with JFloat (FInf n') => Bool.eqb n n' | _ => false end
  | JFloat FNan => false
  | JList a =>
      match y with
      | JList b =>
          (fix go (a b : list json) : bool :=
             match a, b with
             | [], [] => true
             | x :: a, y :: b => json_eqb x y && go a b
             | _, _ => false
             end) a b
      | _ => false
      end
  | JObj a =>
      match y with
      | JObj b =>
          Nat.eqb (length a) (length b) &&
          (fix go (a : list (string * json)) : bool :=
             match a with
             | [] => true
             | (k, x) :: a =>
                 match List.find (fun kv => String.eqb (fst kv) k) b with
                 | Some (_, y) => json_eqb x y
                 | None => false
                 end && go a
             end) a
      | _ => false
      end
  | JBool _ | JInt _ | JFloat (FFin _ _) =>
      match num_val x, num_val y with
      | Some (m, e), Some (m', e') => scaled_eqb m e m' e'
      | _, _ => false
      end
  end.

(** Equality of the texts [json_text] prints: keys are sorted, so their order is
    immaterial, but [1], [1.0] and [true] print differently. *)
Fixpoint json_text_eqb (x y : json) {struct x} : bool :=
  match x, y with
  | JNull, JNull => true
  | JBool a, JBool b => Bool.eqb a b
  | JInt a, JInt b => a =? b
  | JFloat (FFin m e), JFloat (FFin m' e') => scaled_eqb m e m' e'
  | JFloat (FInf n), JFloat (FInf n') => Bool.eqb n n'
  | JFloat FNan, JFloat FNan => true
  | JStr a, JStr b => String.eqb a b
  | JList a, JList b =>
      (fix go (a b : list json) : bool :=
         match a, b with
         | [], [] => true
         | x :: a, y :: b => json_text_eqb x y && go a b
         | _, _ => false
         end) a b
  | JObj a, JObj b =>
      Nat.eqb (length a) (length b) &&
      (fix go (a : list (string * json)) : bool :=
         match a with
         | [] => true
         | (k, x) :: a =>
             match List.find (fun kv => String.eqb (fst kv) k) b with
             | Some (_, y) => json_text_eqb x y
             | None => false
             end && go a
         end) a
  | _, _ => false
  end.

(** A JSON column holds the text of a document, or text that does not parse. *)
Inductive jtext :=
| JDoc (v : json)
| JBad (s : string).

(** [d.get(k)], [k in d], [d[k] = v] (in place, or appended), [d.pop(k, None)]. *)
Definition jget (k : string) (d : dict) : option json :=
  match List.find (fun kv => String.eqb (fst kv) k) d with
  | Some kv => Some (snd kv)
  | None => None
  end.

Definition jmem (k : string) (d : dict) : bool :=
  match jget k d with Some _ => true | None => false end.

Fixpoint jset (k : string) (v : json) (d : dict) : dict :=
  match d with
  | [] => [(k, v)]
  | (k', v') :: d => if String.eqb k' k then (k, v) :: d else (k', v') :: jset k v d
  end.

Definition jpop (k : string) (d : dict) : dict :=
  List.filter (fun kv => negb (String.eqb (fst kv) k)) d.

(** [d.get(k, default)]. *)
Definition jget_or (k : string) (default : json) (d : dict) : json :=
  match jget k d with Some v => v | None => default end.

Definition json_opt_str (s : option string) : json :=
  match s with Some s => JStr s | None => JNull end.

(** [{**a, **b}]. *)
Definition jmerge (a b : dict) : dict :=
  List.fold_left (fun acc kv => jset (fst kv) (snd kv) acc) b a.

(** Python's [==] on documents: an absent value is [None]. *)
Definition json_opt_eqb (x y : option json) : bool :=
  json_eqb (match x with Some v => v | None => JNull end)
           (match y with Some v => v | None => JNull end).

(** Python truth of a value. *)
Definition truthy (v : json) : bool :=
  match v with
  | JNull => false
  | JBool b => b
  | JInt z => negb (z =? 0)
  | JFloat (FFin m _) => negb (m =? 0)
  | JFloat _ => true
  | JStr s => negb (String.eqb s EmptyString)
  | JList l => match l with [] => false | _ => true end
  | JObj d => match d with [] => false | _ => true end
  end.

(** [json.loads(text or fallback)]: [None] is [json.JSONDecodeError]; an empty
    text is falsy and is replaced by the fallback. *)
Definition json_loads_or (fallback : json) (t : jtext) : option json :=
  match t with
  | JDoc v => Some v
  | JBad s => if String.eqb s EmptyString then Some fallback else None
  end.

(** [int(m * 2^e)]: truncation toward zero. *)
Definition float_trunc (m e : Z) : Z :=
  if 0 <=? e then m * 2 ^ e else Z.quot m (2 ^ (- e)).

(** A finite double is below [2^1024]; a product at or above it overflows. *)
Definition float_overflows (m e : Z) : bool :=
  if 0 <=? e then 2 ^ 1024 <=? Z.abs m * 2 ^ e
  else 2 ^ 1024 * 2 ^ (- e) <=? Z.abs m.

(** ** Strings *)

Definition ascii_in (s : string) (c : ascii) : bool :=
  existsb (Ascii.eqb c) (String.list_ascii_of_string s).

Definition ascii_between (lo hi c : ascii) : bool :=
  (N.leb (Ascii.N_of_ascii lo) (Ascii.N_of_ascii c)) &&
  (N.leb (Ascii.N_of_ascii c) (Ascii.N_of_ascii hi)).

Definition is_digit (c : ascii) : bool := ascii_between "0" "9" c.
Definition is_lower (c : ascii) : bool := ascii_between "a" "z" c.
Definition is_upper (c : ascii) : bool := ascii_between "A" "Z" c.
Definition is_alnum (c : ascii) : bool := is_digit c || is_lower c || is_upper c.
Definition is_hex (c : ascii) : bool :=
  is_digit c || ascii_between "a" "f" c || ascii_between "A" "F" c.
Definition is_lower_hex (c : ascii) : bool := is_digit c || ascii_between "a" "f" c.

Definition str_forall (p : ascii -> bool) (s : string) : bool :=
  forallb p (String.list_ascii_of_string s).

Definition str_len (s : string) : Z := Z.of_nat (String.length s).

(** The characters of a text, as code points: a string holds the bytes of the
    text in UTF-8, where a byte from 128 to 191 continues the character before
    it. *)
Fixpoint points_from (p : Z) (s : list ascii) : list Z :=
  match s with
  | [] => [p]
  | c :: s =>
      let b := Z.of_N (Ascii.N_of_ascii c) in
      if b <? 128 then p :: points_from b s
      else if b <? 192 then points_from (p * 64 + (b - 128)) s
      else if b <? 224 then p :: points_from (b - 192) s
      else if b <? 240 then p :: points_from (b - 224) s
      else p :: points_from (b - 240) s
  end.

(** The leading 0 is the accumulator before the first character. *)
Definition code_points (s : string) : list Z := tl (points_from 0 (String.list_ascii_of_string s)).

(** [len(s)]: characters, where [str_len] counts bytes; they agree on ASCII. *)
Definition char_len (s : string) : Z := Z.of_nat (length (code_points s)).

(** The ASCII character of a code point below 128. *)
Definition ascii_point (p : Z) : ascii := Ascii.ascii_of_N (Z.to_N p).

Definition to_lower (c : ascii) : ascii :=
  if is_upper c then Ascii.ascii_of_N (Ascii.N_of_ascii c + 32) else c.

Fixpoint str_lower (s : string) : string :=
  match s with
  | EmptyString => EmptyString
  | String c s => String (to_lower c) (str_lower s)
  end.

Fixpoint str_startswith (pre s : string) : bool :=
  match pre, s with
  | EmptyString, _ => true
  | String a pre, String b s => Ascii.eqb a b && str_startswith pre s
  | _, EmptyString => false
  end.

Fixpoint str_drop (n : nat) (s : string) : string :=
  match n, s with
  | O, _ => s
  | S n, String _ s => str_drop n s
  | S _, EmptyString => EmptyString
  end.

(** [s.split(sep)] for a one-character separator. *)
Fixpoint str_split (sep : ascii) (s : string) : list string :=
  match s with
  | EmptyString => [EmptyString]
  | String c s =>
      if Ascii.eqb c sep then EmptyString :: str_split sep s
      else match str_split sep s with
           | [] => [String c EmptyString]
           | h :: t => String c h :: t
           end
  end.

Fixpoint str_lstrip (c : ascii) (s : string) : string :=
  match s with
  | String a s' => if Ascii.eqb a c then str_lstrip c s' else s
  | EmptyString => EmptyString
  end.

Definition str_rev (s : string) : string :=
  String.string_of_list_ascii (rev (String.list_ascii_of_string s)).

(** [s.strip(c)] for one character. *)
Definition str_strip (c : ascii) (s : string) : string :=
  str_rev (str_lstrip c (str_rev (str_lstrip c s))).

(** The regular expressions [^F R{lo,hi}$] the validators use: a first
    character of class [F] and between [lo] and [hi] further characters of
    class [R]. *)
Definition re_first_rest (first rest : ascii -> bool) (lo hi : Z) (s : string) : bool :=
  match s with
  | EmptyString => false
  | String c s => first c && str_forall rest s && (lo <=? str_len s) && (str_len s <=? hi)
  end.

(** [len(xs) == len(set(xs))]. *)
Fixpoint str_distinct (xs : list string) : bool :=
  match xs with
  | [] => true
  | x :: xs => negb (x ∈? xs) && str_distinct xs
  end.

(** ** Exceptions *)

Record repo_error := MkRepoError {
  e_code : Z;
  e_name : string;
  e_message : string;
  e_http_status : Z;
  e_retry_action : string;
  e_responsibility : string;
  e_details : option dict
}.

Inductive exc :=
| RepositoryError (e : repo_error)
| PublicMetadataError (field reason : string)
| IntegrityError
| ProgrammingError
| JSONDecodeError
| TypeError
| ValueError
| KeyError
| OverflowError
| AttributeError
| StructError
| VGenError (code : Z) (details : dict)
| VgenClientError (code : Z) (name retry_action : string)
| WorkspaceAuthorityError
| WorkspaceKeyError
| BrokerRekeyError
| OSError (class : string)
| UploadJournalError
| LeaseLostError
| GatewayUnavailableError
| GatewayRequestError (code : Z) (details : dict)
| UploadPendingError (attempt_id : string)
| ArtifactTransferError (operation : string) (retryable : bool) (status_code : option Z)
| ExecutorFailure (code : Z) (name message retry_action responsibility : string) (details : dict)
| OtherException (class : string)
(** The process ends: no handler of the code sees it. *)
| Killed.

(** [type(exc).__name__]. *)
Definition exc_name (e : exc) : string :=
  match e with
  | RepositoryError _ => "RepositoryError"
  | PublicMetadataError _ _ => "PublicMetadataError"
  | IntegrityError => "IntegrityError"
  | ProgrammingError => "ProgrammingError"
  | JSONDecodeError => "JSONDecodeError"
  | TypeError => "TypeError"
  | ValueError => "ValueError"
  | KeyError => "KeyError"
  | OverflowError => "OverflowError"
  | AttributeError => "AttributeError"
  | StructError => "error"
  | VGenError _ _ => "VGenError"
  | VgenClientError _ _ _ => "VgenClientError"
  | WorkspaceAuthorityError => "WorkspaceAuthorityError"
  | WorkspaceKeyError => "WorkspaceKeyError"
  | BrokerRekeyError => "BrokerRekeyError"
  | OSError c => c
  | UploadJournalError => "UploadJournalError"
  | LeaseLostError => "LeaseLostError"
  | GatewayUnavailableError => "GatewayUnavailableError"
  | GatewayRequestError _ _ => "GatewayRequestError"
  | UploadPendingError _ => "UploadPendingError"
  | ArtifactTransferError _ _ _ => "ArtifactTransferError"
  | ExecutorFailure _ _ _ _ _ _ => "ExecutorFailure"
  | OtherException c => c
  | Killed => ""
  end.

Inductive res (A : Type) :=
| Ok (a : A)
| Raise (e : exc).
Arguments Ok {A} a.
Arguments Raise {A} e.

#[export] Instance res_ret : MRet res := fun A a => Ok a.
#[export] Instance res_bind : MBind res :=
  fun A B f m => match m with Ok a => f a | Raise e => Raise e end.

(** [RepositoryError(code, name, message, status)] with its defaults. *)
Definition repo_err (code : Z) (name message : string) (status : Z) : exc :=
  RepositoryError (MkRepoError code name message status "none" "none" None).

Definition repo_err_full (code : Z) (name message : string) (status : Z)
    (retry_action responsibility : string) (details : option dict) : exc :=
  RepositoryError (MkRepoError code name message status retry_action responsibility details).

(** What a [for] loop over a JSON value yields. *)
Definition iterated (v : json) : res (list json) :=
  match v with
  | JList l => Ok l
  | JObj d => Ok (map (fun kv => JStr (fst kv)) d)
  | JStr s => Ok (map (fun c => JStr (String c EmptyString)) (String.list_ascii_of_string s))
  | _ => Raise TypeError
  end.

(** Run [f] over the elements of a list, stopping at the first exception. *)
Fixpoint res_map {A B} (f : A -> res B) (l : list A) : res (list B) :=
  match l with
  | [] => Ok []
  | x :: l => match f x with
              | Ok y => match res_map f l with Ok ys => Ok (y :: ys) | Raise e => Raise e end
              | Raise e => Raise e
              end
  end.

(** ** Facts *)

Lemma res_bind_ok {A B} (m : res A) (f : A -> res B) b :
  bind m f = Ok b -> exists a, m = Ok a /\ f a = Ok b.
Proof. unfold bind. destruct m; simpl; [eauto|done]. Qed.

Lemma res_map_ok {A B} (f : A -> res B) l ys :
  res_map f l = Ok ys -> Forall2 (fun x y => f x = Ok y) l ys.
Proof.
  revert ys. induction l as [|x l IH]; intros ys; simpl.
  - intros [= <-]. constructor.
  - destruct (f x) eqn:E; [|done]. destruct (res_map f l); [|done].
    intros [= <-]. constructor; auto.
Qed.

Lemma str_distinct_spec xs : str_distinct xs = true <-> NoDup xs.
Proof.
  induction xs as [|x xs IH]; simpl.
  - split; [constructor|done].
  - rewrite andb_true_iff, negb_true_iff, elem_b_false, IH, NoDup_cons. done.
Qed.

Lemma jget_jset_eq k v d : jget k (jset k v d) = Some v.
Proof.
  unfold jget. induction d as [|[k' v'] d IH]; simpl.
  - by rewrite String.eqb_refl.
  - destruct (String.eqb k' k) eqn:E; simpl; [by rewrite String.eqb_refl|by rewrite E].
Qed.

Lemma jget_jset_ne k k' v d : k <> k' -> jget k' (jset k v d) = jget k' d.
Proof.
  intros Hne. unfold jget. induction d as [|[k0 v0] d IH]; simpl.
  - destruct (String.eqb_spec k k'); [done|done].
  - destruct (String.eqb_spec k0 k) as [->|Hk]; simpl.
    + destruct (String.eqb_spec k k'); done.
    + destruct (String.eqb k0 k'); [done|apply IH].
Qed.

Ltac str_reduce := vm_compute; reflexivity.
#[export] Hint Resolve jget_jset_eq jget_jset_ne : vgen.
