(* ===== verification/Bytes.v ===== *)
(** * Byte strings

    Python's [bytes]: lists of bytes with their numeric values, the big-endian
    integers of [int.to_bytes] and [struct], and the conversions from the text
    strings of the model. *)

From S2P Require Import Prelude Python.
From Stdlib Require Export Strings.Byte.

Open Scope Z_scope.

Notation bytes := (list byte).

#[export] Instance byte_eq_dec : EqDecision byte := Byte.byte_eq_dec.

Definition byte_val (b : byte) : Z := Z.of_N (Byte.to_N b).

(** The byte of [z mod 256]. *)
Definition byte_of (z : Z) : byte :=
  match Byte.of_N (Z.to_N (z mod 256)) with Some b => b | None => x00 end.

Definition blen (b : bytes) : Z := Z.of_nat (length b).
Arguments blen : simpl never.
Arguments byte_of : simpl never.
Arguments byte_val : simpl never.

(** [s.encode()]: text is kept as its UTF-8 bytes. *)
Definition encode (s : string) : bytes := String.list_byte_of_string s.

(** [int.to_bytes(n, "big")]. *)
Fixpoint be_bytes (n : nat) (z : Z) : bytes :=
  match n with
  | O => []
  | S n => be_bytes n (z / 256) ++ [byte_of z]
  end.

Definition be_value (b : bytes) : Z := List.fold_left (fun acc x => acc * 256 + byte_val x) b 0.

(** [struct.pack(">I", n)]. *)
Definition pack_u32 (n : Z) : res bytes :=
  if (0 <=? n) && (n <? 2 ^ 32) then Ok (be_bytes 4 n) else Raise StructError.

Lemma blen_app a b : blen (a ++ b) = blen a + blen b.
Proof. unfold blen. rewrite length_app. lia. Qed.

Lemma blen_nonneg b : 0 <= blen b.
Proof. unfold blen. lia. Qed.

Lemma byte_val_of z : byte_val (byte_of z) = z mod 256.
Proof.
  pose proof (Z.mod_pos_bound z 256 ltac:(lia)) as Hz. unfold byte_val, byte_of.
  destruct (Byte.of_N (Z.to_N (z mod 256))) as [b|] eqn:E.
  - apply Byte.to_of_N in E. rewrite E. lia.
  - apply Byte.of_N_None_iff in E. lia.
Qed.

Lemma byte_val_bound b : 0 <= byte_val b < 256.
Proof. unfold byte_val. pose proof (Byte.to_N_bounded b). lia. Qed.

Lemma byte_of_val b : byte_of (byte_val b) = b.
Proof.
  unfold byte_of. rewrite Z.mod_small by apply byte_val_bound. unfold byte_val.
  by rewrite N2Z.id, Byte.of_to_N.
Qed.

Lemma be_bytes_length n z : length (be_bytes n z) = n.
Proof.
  revert z. induction n as [|n IH]; intros z; simpl; [done|]. rewrite length_app, IH. simpl. lia.
Qed.

Lemma be_roundtrip n z : 0 <= z < 256 ^ Z.of_nat n -> be_value (be_bytes n z) = z.
Proof.
  unfold be_value. revert z. induction n as [|n IH]; intros z Hz; simpl be_bytes.
  - simpl in *. lia.
  - rewrite fold_left_app. simpl. rewrite byte_val_of, IH.
    + pose proof (Z.div_mod z 256 ltac:(lia)). lia.
    + rewrite Nat2Z.inj_succ, Z.pow_succ_r in Hz by lia.
      split; [apply Z.div_pos; lia|apply Z.div_lt_upper_bound; lia].
Qed.

Lemma pack_u32_ok n : 0 <= n < 2 ^ 32 -> pack_u32 n = Ok (be_bytes 4 n) /\ be_value (be_bytes 4 n) = n.
Proof.
  intros Hn. split; [|by apply be_roundtrip]. unfold pack_u32.
  by rewrite (proj2 (Z.leb_le 0 n)), (proj2 (Z.ltb_lt n (2 ^ 32))) by lia.
Qed.
