(* ===== verification/Effects.v ===== *)
(** * Stateful client code

    The broker and the local stores run outside the gateway, over state of their own: a
    keyring, a journal, the requests already sent.  [Action S] is the state-and-exception
    monad they share; what was done before an exception stays done. *)

From S2P Require Import Prelude Python.

Definition Action (S A : Type) : Type := S -> res A * S.

#[export] Instance action_ret {S} : MRet (Action S) := fun A a s => (Ok a, s).
#[export] Instance action_bind {S} : MBind (Action S) := fun A B f m s =>
  match m s with
  | (Ok a, s') => f a s'
  | (Raise e, s') => (Raise e, s')
  end.

Section Actions.
Context {S : Type}.
Implicit Types s : S.

Definition fail {A} (e : exc) : Action S A := fun s => (Raise e, s).
Definition lift {A} (r : res A) : Action S A := fun s => (r, s).
Definition reading {A} (f : S -> A) : Action S A := fun s => (Ok (f s), s).
Definition writing (f : S -> S) : Action S unit := fun s => (Ok tt, f s).
Definition ensure (b : bool) (e : exc) : Action S unit := if b then mret tt else fail e.

(** [try: m except e: h(e)]; the end of the process is not caught. *)
Definition catching {A} (m : Action S A) (h : exc -> Action S A) : Action S A := fun s =>
  match m s with
  | (Raise Killed, s') => (Raise Killed, s')
  | (Raise e, s') => h e s'
  | r => r
  end.

(** [try: m finally: f]. *)
Definition finally {A} (m : Action S A) (f : Action S unit) : Action S A := fun s =>
  match m s with
  | (Raise Killed, s') => (Raise Killed, s')
  | (r, s') => match f s' with
               | (Ok _, s'') => (r, s'')
               | (Raise e, s'') => (Raise e, s'')
               end
  end.

(** *** Successful runs *)

Lemma action_bind_ok {A B} (m : Action S A) (f : A -> Action S B) s b s' :
  bind m f s = (Ok b, s') -> exists a s1, m s = (Ok a, s1) /\ f a s1 = (Ok b, s').
Proof. unfold bind, mbind, action_bind. destruct (m s) as [[a|e] s1]; [eauto|done]. Qed.

Lemma action_ret_ok {A} (a b : A) s s' : mret (M := Action S) a s = (Ok b, s') -> b = a /\ s' = s.
Proof. by intros [= -> ->]. Qed.
Lemma lift_ok {A} (r : res A) s a s' : lift r s = (Ok a, s') -> r = Ok a /\ s' = s.
Proof. unfold lift. by intros [= -> ->]. Qed.
Lemma reading_ok {A} (f : S -> A) s a s' : reading f s = (Ok a, s') -> a = f s /\ s' = s.
Proof. unfold reading. by intros [= -> ->]. Qed.
Lemma ensure_ok b e s u s' : ensure b e s = (Ok u, s') -> b = true /\ s' = s.
Proof. destruct b; [|done]. intros H. injection H. intros; subst; done. Qed.
Lemma fail_ok {A} e s (a : A) s' : fail e s = (Ok a, s') -> False.
Proof. done. Qed.

Lemma catching_ok {A} (m : Action S A) h s a s' :
  catching m h s = (Ok a, s') -> m s = (Ok a, s') \/ exists e s1, m s = (Raise e, s1) /\ h e s1 = (Ok a, s').
Proof. unfold catching. destruct (m s) as [[b|e] s1]; [auto|]. intros H. right. exists e, s1. by destruct e. Qed.

Lemma finally_ok {A} (m : Action S A) f s a s' :
  finally m f s = (Ok a, s') -> exists s1, m s = (Ok a, s1) /\ snd (f s1) = s'.
Proof.
  unfold finally. destruct (m s) as [[b|e] s1]; [|destruct e; destruct (f s1) as [[] ?]; done].
  destruct (f s1) as [[] s2] eqn:Hf; intros [= -> <-]. exists s1. by rewrite Hf.
Qed.

(** *** What every run does to the state, as a preorder *)

Definition follows (R : relation S) {A} (m : Action S A) : Prop := forall s, R s (snd (m s)).

Context (R : relation S) `{!PreOrder R}.

Lemma follows_same {A} (m : Action S A) : (forall s, snd (m s) = s) -> follows R m.
Proof using All. intros H s. by rewrite H. Qed.

Lemma follows_bind {A B} (m : Action S A) (f : A -> Action S B) :
  follows R m -> (forall a, follows R (f a)) -> follows R (bind m f).
Proof using All.
  intros Hm Hf s. specialize (Hm s). unfold bind, mbind, action_bind.
  destruct (m s) as [[a|e] s1]; simpl in *; [|done]. etransitivity; [exact Hm|apply Hf].
Qed.

(** The continuation may assume that the first action returned. *)
Lemma follows_bind_ok {A B} (m : Action S A) (f : A -> Action S B) :
  follows R m -> (forall a s s', m s = (Ok a, s') -> follows R (f a)) -> follows R (bind m f).
Proof using All.
  intros Hm Hf s. specialize (Hm s). unfold bind, mbind, action_bind.
  destruct (m s) as [[a|e] s1] eqn:Hr; simpl in *; [|done]. etransitivity; [exact Hm|]. by eapply Hf.
Qed.

Lemma follows_lift {A B} (r : res A) (f : A -> Action S B) :
  (forall a, r = Ok a -> follows R (f a)) -> follows R (bind (lift r) f).
Proof using All.
  intros Hf. apply follows_bind_ok; [by intros s|]. intros a s s' [Hr _]%lift_ok. by apply Hf.
Qed.

Lemma follows_catching {A} (m : Action S A) h :
  follows R m -> (forall e, follows R (h e)) -> follows R (catching m h).
Proof using All.
  intros Hm Hh s. specialize (Hm s). unfold catching.
  destruct (m s) as [[a|e] s1]; simpl in *; [done|].
  assert (R s (snd (h e s1))) by (etransitivity; [exact Hm|apply Hh]). by destruct e.
Qed.

Lemma follows_finally {A} (m : Action S A) (f : Action S unit) :
  follows R m -> follows R f -> follows R (finally m f).
Proof using All.
  intros Hm Hf s. specialize (Hm s). unfold finally. destruct (m s) as [[a|e] s1]; cbn in Hm.
  - specialize (Hf s1). destruct (f s1) as [[] ?]; by etransitivity.
  - specialize (Hf s1). destruct e, (f s1) as [[] ?]; first [exact Hm | by etransitivity].
Qed.
End Actions.

(** ** Assertions along a run

    From a state where [I] holds, a run that returns [a] ends where [Q a] holds, and a run
    that raises ends where [X] holds. *)
Section Assertions.
Context {S : Type}.

Definition during (I : S -> Prop) {A} (m : Action S A) (Q : A -> S -> Prop) (X : S -> Prop) : Prop :=
  forall s, I s -> match m s with (Ok a, s') => Q a s' | (Raise _, s') => X s' end.

Lemma during_bind (I : S -> Prop) {A B} (m : Action S A) (f : A -> Action S B) J Q (X : S -> Prop) :
  during I m J X -> (forall a, during (J a) (f a) Q X) -> during I (bind m f) Q X.
Proof.
  intros Hm Hf s Hs. specialize (Hm s Hs). unfold bind, mbind, action_bind.
  destruct (m s) as [[a|e] s1]; [by apply Hf|done].
Qed.

Lemma during_lift (I : S -> Prop) {A B} (r : res A) (f : A -> Action S B) Q (X : S -> Prop) :
  (forall s, I s -> X s) -> (forall a, r = Ok a -> during I (f a) Q X) -> during I (bind (lift r) f) Q X.
Proof.
  intros HX Hf s Hs. unfold bind, mbind, action_bind, lift. destruct r as [a|e]; [by apply Hf|auto].
Qed.

Lemma during_ret (I : S -> Prop) {A} (a : A) (Q : A -> S -> Prop) X :
  (forall s, I s -> Q a s) -> during I (mret a) Q X.
Proof. intros H s Hs. by apply H. Qed.

Lemma during_weaken (I I' : S -> Prop) {A} (m : Action S A) (Q Q' : A -> S -> Prop) (X X' : S -> Prop) :
  during I' m Q' X' -> (forall s, I s -> I' s) -> (forall a s, Q' a s -> Q a s) -> (forall s, X' s -> X s) ->
  during I m Q X.
Proof.
  intros H HI HQ HX s Hs. specialize (H s (HI s Hs)). destruct (m s) as [[a|e] s']; auto.
Qed.
End Assertions.

(** ** Assertions that tell exceptions apart

    As [during], with a postcondition for each exception. *)
Section Runs.
Context {S : Type}.

Definition runs (I : S -> Prop) {A} (m : Action S A) (Q : A -> S -> Prop) (X : exc -> S -> Prop) : Prop :=
  forall s, I s -> match m s with (Ok a, s') => Q a s' | (Raise e, s') => X e s' end.

(** Whatever it returns or raises, the action keeps [I]. *)
Definition keeps (I : S -> Prop) {A} (m : Action S A) : Prop := runs I m (fun _ => I) (fun _ => I).

Lemma runs_bind (I : S -> Prop) {A B} (m : Action S A) (f : A -> Action S B) J Q X :
  runs I m J X -> (forall a, runs (J a) (f a) Q X) -> runs I (bind m f) Q X.
Proof.
  intros Hm Hf s Hs. specialize (Hm s Hs). unfold bind, mbind, action_bind.
  destruct (m s) as [[a|e] s1]; [by apply Hf|done].
Qed.

Lemma runs_weaken (I I' : S -> Prop) {A} (m : Action S A) (Q Q' : A -> S -> Prop) (X X' : exc -> S -> Prop) :
  runs I' m Q' X' -> (forall s, I s -> I' s) -> (forall a s, Q' a s -> Q a s) -> (forall e s, X' e s -> X e s) ->
  runs I m Q X.
Proof.
  intros H HI HQ HX s Hs. specialize (H s (HI s Hs)). destruct (m s) as [[a|e] s']; auto.
Qed.

(** A step that keeps [I] in front of the rest. *)
Lemma runs_step (I : S -> Prop) {A B} (m : Action S A) (f : A -> Action S B) Q (X : exc -> S -> Prop) :
  keeps I m -> (forall e s, I s -> X e s) -> (forall a, runs I (f a) Q X) -> runs I (bind m f) Q X.
Proof.
  intros Hm HX Hf. eapply runs_bind; [|exact Hf]. eapply runs_weaken; [exact Hm|done|done|exact HX].
Qed.

Lemma runs_lift (I : S -> Prop) {A B} (v : res A) (f : A -> Action S B) Q (X : exc -> S -> Prop) :
  (forall e s, I s -> X e s) -> (forall a, v = Ok a -> runs I (f a) Q X) -> runs I (bind (lift v) f) Q X.
Proof.
  intros HX Hf s Hs. unfold bind, mbind, action_bind, lift. destruct v as [a|e]; [by apply Hf|auto].
Qed.

Lemma runs_ret (I : S -> Prop) {A} (a : A) (Q : A -> S -> Prop) X : (forall s, I s -> Q a s) -> runs I (mret a) Q X.
Proof. intros H s Hs. by apply H. Qed.

Lemma runs_fail (I : S -> Prop) {A} e (Q : A -> S -> Prop) X : (forall s, I s -> X e s) -> runs I (fail e) Q X.
Proof. intros H s Hs. by apply H. Qed.

Lemma runs_writing (I : S -> Prop) f (Q : unit -> S -> Prop) X :
  (forall s, I s -> Q tt (f s)) -> runs I (writing f) Q X.
Proof. intros H s Hs. by apply H. Qed.

Lemma runs_catching (I : S -> Prop) {A} (m : Action S A) h Q (X Y : exc -> S -> Prop) :
  runs I m Q Y -> (forall s, Y Killed s -> X Killed s) -> (forall e, e <> Killed -> runs (Y e) (h e) Q X) ->
  runs I (catching m h) Q X.
Proof.
  intros Hm HK Hh s Hs. specialize (Hm s Hs). unfold catching. destruct (m s) as [[a|e] s1]; [done|].
  destruct e; try (apply Hh; [discriminate|exact Hm]). by apply HK.
Qed.

Lemma runs_finally (I : S -> Prop) {A} (m : Action S A) f (Q Q' : A -> S -> Prop) (X X' : exc -> S -> Prop) :
  runs I m Q' X' -> (forall s, X' Killed s -> X Killed s) ->
  (forall a, runs (Q' a) f (fun _ => Q a) X) -> (forall e, runs (X' e) f (fun _ => X e) X) ->
  runs I (finally m f) Q X.
Proof.
  intros Hm HK HQ HX s Hs. specialize (Hm s Hs). unfold finally. destruct (m s) as [[a|e] s1].
  - specialize (HQ a s1 Hm). destruct (f s1) as [[]]; [done|done].
  - destruct e; try (specialize (HX _ s1 Hm); destruct (f s1) as [[] ?]; done). by apply HK.
Qed.

Lemma keeps_bind (I : S -> Prop) {A B} (m : Action S A) (f : A -> Action S B) :
  keeps I m -> (forall a, keeps I (f a)) -> keeps I (bind m f).
Proof. intros Hm Hf. eapply runs_step; [exact Hm|done|exact Hf]. Qed.

Lemma keeps_catching (I : S -> Prop) {A} (m : Action S A) h :
  keeps I m -> (forall e, keeps I (h e)) -> keeps I (catching m h).
Proof. intros Hm Hh. eapply runs_catching; [exact Hm|done|]. intros e _. apply Hh. Qed.

Lemma keeps_ensure (I : S -> Prop) b e : keeps I (ensure b e).
Proof. intros s Hs. by destruct b. Qed.

Lemma keeps_pure (I : S -> Prop) {A} (m : Action S A) : (forall s, snd (m s) = s) -> keeps I m.
Proof. intros H s Hs. specialize (H s). destruct (m s) as [[] ?]; cbn in H; by subst. Qed.
End Runs.

(** Walk an action that keeps an assertion; [leaf] closes its single steps. *)
Ltac solve_keeps leaf :=
  repeat first
    [ progress intros
    | solve [leaf]
    | apply keeps_bind
    | apply keeps_catching
    | match goal with
      | |- keeps _ (if ?b then _ else _) => destruct b
      | |- keeps _ (match ?v with _ => _ end) => destruct v
      end ].

(** Invert a successful run, one action at a time. *)
Ltac act_step :=
  match goal with
  | H : bind _ _ _ = (Ok _, _) |- _ => apply action_bind_ok in H; destruct H as (? & ? & ? & H)
  | H : mret _ _ = (Ok _, _) |- _ => apply action_ret_ok in H; destruct H as [? ?]; subst
  | H : lift _ _ = (Ok _, _) |- _ => apply lift_ok in H; destruct H as [? ?]; subst
  | H : reading _ _ = (Ok _, _) |- _ => apply reading_ok in H; destruct H as [? ?]; subst
  | H : ensure _ _ _ = (Ok _, _) |- _ => apply ensure_ok in H; destruct H as [? ?]; subst
  | H : fail _ _ = (Ok _, _) |- _ => destruct (fail_ok _ _ _ _ H)
  end.

(** Walk an action; [leaf] closes its single steps. *)
Ltac solve_follows leaf :=
  repeat first
    [ progress intros
    | solve [leaf]
    | apply follows_bind; [typeclasses eauto| |]
    | apply follows_catching; [typeclasses eauto| |]
    | apply follows_finally; [typeclasses eauto| |]
    | match goal with
      | |- follows _ (if ?b then _ else _) => destruct b
      | |- follows _ (match ?v with _ => _ end) => destruct v
      end ].
