(* ===== verification/Errors.v ===== *)
(** * The error registry ([src/vgen/protocol/errors.py])

    Error codes, the registry of their public metadata, and the sanitizer that
    bounds error details before they leave the gateway.  Constructors keep the
    source's enum member names. *)

From S2P Require Import Prelude Python.

Open Scope Z_scope.

(** ** Enumerations *)

Module RetryAction.
Inductive t := NONE | SAME_WORKER | ANOTHER_WORKER | LATER | REKEY_REQUIRED | RESUME_UPLOAD.
#[global] Instance eq_dec : EqDecision t.
Proof. solve_decision. Defined.
Definition value (r : t) : string :=
  match r with
  | NONE => "none"
  | SAME_WORKER => "same_worker"
  | ANOTHER_WORKER => "another_worker"
  | LATER => "later"
  | REKEY_REQUIRED => "rekey_required"
  | RESUME_UPLOAD => "resume_upload"
  end.
End RetryAction.

Module ErrorOrigin.
Inductive t := CLIENT | GATEWAY | BROKER | WORKER | EXECUTOR | STORAGE.
#[global] Instance eq_dec : EqDecision t.
Proof. solve_decision. Defined.
Definition value (o : t) : string :=
  match o with
  | CLIENT => "client"
  | GATEWAY => "gateway"
  | BROKER => "broker"
  | WORKER => "worker"
  | EXECUTOR => "executor"
  | STORAGE => "storage"
  end.
End ErrorOrigin.

Module Responsibility.
Inductive t := CONSUMER | PROVIDER | PLATFORM | UNKNOWN.
#[global] Instance eq_dec : EqDecision t.
Proof. solve_decision. Defined.
Definition value (r : t) : string :=
  match r with
  | CONSUMER => "consumer"
  | PROVIDER => "provider"
  | PLATFORM => "platform"
  | UNKNOWN => "unknown"
  end.
End Responsibility.

Module ErrorCode.

Inductive t :=
| AUTHENTICATION_REQUIRED
| SESSION_EXPIRED
| SIGNATURE_INVALID
| REPLAY_DETECTED
| DEVICE_REVOKED
| DEVICE_CERTIFICATE_INVALID
| PERMISSION_DENIED
| SCOPE_REQUIRED
| WORKSPACE_NOT_FOUND
| WORKSPACE_MEMBERSHIP_REQUIRED
| BROKER_DEVICE_OFFLINE
| BROKER_NOT_FOUND
| BROKER_DEVICE_NOT_FOUND
| BROKER_COMMAND_NOT_FOUND
| NO_ELIGIBLE_WORKER
| WORKER_OFFLINE
| WORKER_DRAINING
| WORKER_REVOKED
| WORKER_NOT_FOUND
| WORKER_MAINTENANCE_JOB_NOT_FOUND
| WORKER_MAINTENANCE_STATE_CONFLICT
| POOL_NOT_FOUND
| WORKER_ALLOCATION_REQUIRED
| WORKER_ALLOCATION_NOT_APPROVED
| ALLOCATION_PROOF_INVALID
| WORKER_ALLOCATION_NOT_FOUND
| INVITE_INVALID_OR_EXPIRED
| ENROLLMENT_APPROVAL_REQUIRED
| ENROLLMENT_CLOSED
| INVITE_ALREADY_USED
| ENROLLMENT_NOT_FOUND
| TASK_STATE_CONFLICT
| TASK_NOT_FOUND
| TASK_COMMIT_EXPIRED
| LEASE_LOST
| REKEY_REQUIRED
| RESERVATION_EXPIRED
| FENCING_TOKEN_STALE
| EXECUTOR_UNAVAILABLE
| UNSUPPORTED_PAYLOAD
| DEPENDENCY_MISSING
| EXECUTION_TIMEOUT
| GPU_OUT_OF_MEMORY
| WORKFLOW_NOT_FOUND
| WORKFLOW_SIGNATURE_INVALID
| EXECUTION_CANCELLED
| SYSTEM_OUT_OF_MEMORY
| INPUT_DOWNLOAD_FAILED
| OUTPUT_UPLOAD_FAILED
| ARTIFACT_NOT_FOUND
| ARTIFACT_INTEGRITY_FAILED
| SOURCE_NOT_ALLOWED
| DISK_SPACE_INSUFFICIENT
| PATH_CONFLICT
| DIGEST_MISMATCH
| DOWNLOAD_INTERRUPTED
| GATED_CREDENTIAL_UNAVAILABLE
| MAINTENANCE_POLICY_DENIED
| MANIFEST_UNTRUSTED
| MAINTENANCE_LEASE_LOST
| UPDATE_INCOMPATIBLE
| UPDATE_DOWNGRADE_DENIED
| UPDATE_ACTIVATION_FAILED
| CAPABILITY_ARCHIVE_INVALID
| CAPABILITY_VERSION_CONFLICT
| CAPABILITY_EXECUTABLE_CONTENT
| CAPABILITY_RELEASE_INVALID
| CAPABILITY_COMPILE_INVALID
| CAPABILITY_GRAPH_INVALID
| NODE_PACK_ARCHIVE_INVALID
| NODE_PACK_DEPENDENCY_INSTALL_FAILED
| NODE_PACK_ACTIVATION_FAILED
| NODE_PACK_ROLLBACK_FAILED
| DECRYPTION_FAILED
| KEY_VERSION_UNAVAILABLE
| KEY_MANIFEST_INVALID
| RECIPIENT_KEY_UNAVAILABLE
| KEY_RECIPIENT_NOT_FOUND
| USAGE_REPORT_INVALID
| RATE_NOT_APPROVED
| RATE_NOT_FOUND
| VALIDATION_FAILED
| IDEMPOTENCY_CONFLICT
| PROTOCOL_VERSION_UNSUPPORTED
| REQUEST_BODY_TOO_LARGE
| RATE_LIMITED
| GATEWAY_UNREACHABLE
| STORAGE_UNAVAILABLE
| EXTERNAL_DEPENDENCY_UNAVAILABLE
| INTERNAL_ERROR.

#[global] Instance eq_dec : EqDecision t.
Proof. solve_decision. Defined.

(** All members, in declaration order. *)
Definition all : list t :=
  [AUTHENTICATION_REQUIRED;
   SESSION_EXPIRED;
   SIGNATURE_INVALID;
   REPLAY_DETECTED;
   DEVICE_REVOKED;
   DEVICE_CERTIFICATE_INVALID;
   PERMISSION_DENIED;
   SCOPE_REQUIRED;
   WORKSPACE_NOT_FOUND;
   WORKSPACE_MEMBERSHIP_REQUIRED;
   BROKER_DEVICE_OFFLINE;
   BROKER_NOT_FOUND;
   BROKER_DEVICE_NOT_FOUND;
   BROKER_COMMAND_NOT_FOUND;
   NO_ELIGIBLE_WORKER;
   WORKER_OFFLINE;
   WORKER_DRAINING;
   WORKER_REVOKED;
   WORKER_NOT_FOUND;
   WORKER_MAINTENANCE_JOB_NOT_FOUND;
   WORKER_MAINTENANCE_STATE_CONFLICT;
   POOL_NOT_FOUND;
   WORKER_ALLOCATION_REQUIRED;
   WORKER_ALLOCATION_NOT_APPROVED;
   ALLOCATION_PROOF_INVALID;
   WORKER_ALLOCATION_NOT_FOUND;
   INVITE_INVALID_OR_EXPIRED;
   ENROLLMENT_APPROVAL_REQUIRED;
   ENROLLMENT_CLOSED;
   INVITE_ALREADY_USED;
   ENROLLMENT_NOT_FOUND;
   TASK_STATE_CONFLICT;
   TASK_NOT_FOUND;
   TASK_COMMIT_EXPIRED;
   LEASE_LOST;
   REKEY_REQUIRED;
   RESERVATION_EXPIRED;
   FENCING_TOKEN_STALE;
   EXECUTOR_UNAVAILABLE;
   UNSUPPORTED_PAYLOAD;
   DEPENDENCY_MISSING;
   EXECUTION_TIMEOUT;
   GPU_OUT_OF_MEMORY;
   WORKFLOW_NOT_FOUND;
   WORKFLOW_SIGNATURE_INVALID;
   EXECUTION_CANCELLED;
   SYSTEM_OUT_OF_MEMORY;
   INPUT_DOWNLOAD_FAILED;
   OUTPUT_UPLOAD_FAILED;
   ARTIFACT_NOT_FOUND;
   ARTIFACT_INTEGRITY_FAILED;
   SOURCE_NOT_ALLOWED;
   DISK_SPACE_INSUFFICIENT;
   PATH_CONFLICT;
   DIGEST_MISMATCH;
   DOWNLOAD_INTERRUPTED;
   GATED_CREDENTIAL_UNAVAILABLE;
   MAINTENANCE_POLICY_DENIED;
   MANIFEST_UNTRUSTED;
   MAINTENANCE_LEASE_LOST;
   UPDATE_INCOMPATIBLE;
   UPDATE_DOWNGRADE_DENIED;
   UPDATE_ACTIVATION_FAILED;
   CAPABILITY_ARCHIVE_INVALID;
   CAPABILITY_VERSION_CONFLICT;
   CAPABILITY_EXECUTABLE_CONTENT;
   CAPABILITY_RELEASE_INVALID;
   CAPABILITY_COMPILE_INVALID;
   CAPABILITY_GRAPH_INVALID;
   NODE_PACK_ARCHIVE_INVALID;
   NODE_PACK_DEPENDENCY_INSTALL_FAILED;
   NODE_PACK_ACTIVATION_FAILED;
   NODE_PACK_ROLLBACK_FAILED;
   DECRYPTION_FAILED;
   KEY_VERSION_UNAVAILABLE;
   KEY_MANIFEST_INVALID;
   RECIPIENT_KEY_UNAVAILABLE;
   KEY_RECIPIENT_NOT_FOUND;
   USAGE_REPORT_INVALID;
   RATE_NOT_APPROVED;
   RATE_NOT_FOUND;
   VALIDATION_FAILED;
   IDEMPOTENCY_CONFLICT;
   PROTOCOL_VERSION_UNSUPPORTED;
   REQUEST_BODY_TOO_LARGE;
   RATE_LIMITED;
   GATEWAY_UNREACHABLE;
   STORAGE_UNAVAILABLE;
   EXTERNAL_DEPENDENCY_UNAVAILABLE;
   INTERNAL_ERROR].

(** [int(code)]. *)
Definition to_int (c : t) : Z :=
  match c with
  | AUTHENTICATION_REQUIRED => 100001
  | SESSION_EXPIRED => 100002
  | SIGNATURE_INVALID => 100003
  | REPLAY_DETECTED => 100004
  | DEVICE_REVOKED => 110001
  | DEVICE_CERTIFICATE_INVALID => 110002
  | PERMISSION_DENIED => 120001
  | SCOPE_REQUIRED => 120002
  | WORKSPACE_NOT_FOUND => 200001
  | WORKSPACE_MEMBERSHIP_REQUIRED => 200002
  | BROKER_DEVICE_OFFLINE => 210001
  | BROKER_NOT_FOUND => 210002
  | BROKER_DEVICE_NOT_FOUND => 210003
  | BROKER_COMMAND_NOT_FOUND => 210004
  | NO_ELIGIBLE_WORKER => 220001
  | WORKER_OFFLINE => 220002
  | WORKER_DRAINING => 220003
  | WORKER_REVOKED => 220004
  | WORKER_NOT_FOUND => 220005
  | WORKER_MAINTENANCE_JOB_NOT_FOUND => 220006
  | WORKER_MAINTENANCE_STATE_CONFLICT => 220007
  | POOL_NOT_FOUND => 230001
  | WORKER_ALLOCATION_REQUIRED => 230002
  | WORKER_ALLOCATION_NOT_APPROVED => 230003
  | ALLOCATION_PROOF_INVALID => 230004
  | WORKER_ALLOCATION_NOT_FOUND => 230005
  | INVITE_INVALID_OR_EXPIRED => 240001
  | ENROLLMENT_APPROVAL_REQUIRED => 240002
  | ENROLLMENT_CLOSED => 240003
  | INVITE_ALREADY_USED => 240004
  | ENROLLMENT_NOT_FOUND => 240005
  | TASK_STATE_CONFLICT => 300001
  | TASK_NOT_FOUND => 300002
  | TASK_COMMIT_EXPIRED => 300003
  | LEASE_LOST => 310001
  | REKEY_REQUIRED => 310002
  | RESERVATION_EXPIRED => 310003
  | FENCING_TOKEN_STALE => 310004
  | EXECUTOR_UNAVAILABLE => 320001
  | UNSUPPORTED_PAYLOAD => 320002
  | DEPENDENCY_MISSING => 320003
  | EXECUTION_TIMEOUT => 320004
  | GPU_OUT_OF_MEMORY => 320005
  | WORKFLOW_NOT_FOUND => 320006
  | WORKFLOW_SIGNATURE_INVALID => 320007
  | EXECUTION_CANCELLED => 320008
  | SYSTEM_OUT_OF_MEMORY => 320009
  | INPUT_DOWNLOAD_FAILED => 330001
  | OUTPUT_UPLOAD_FAILED => 330002
  | ARTIFACT_NOT_FOUND => 330003
  | ARTIFACT_INTEGRITY_FAILED => 330004
  | SOURCE_NOT_ALLOWED => 340002
  | DISK_SPACE_INSUFFICIENT => 340003
  | PATH_CONFLICT => 340004
  | DIGEST_MISMATCH => 340005
  | DOWNLOAD_INTERRUPTED => 340006
  | GATED_CREDENTIAL_UNAVAILABLE => 340007
  | MAINTENANCE_POLICY_DENIED => 340008
  | MANIFEST_UNTRUSTED => 340009
  | MAINTENANCE_LEASE_LOST => 340010
  | UPDATE_INCOMPATIBLE => 340011
  | UPDATE_DOWNGRADE_DENIED => 340012
  | UPDATE_ACTIVATION_FAILED => 340013
  | CAPABILITY_ARCHIVE_INVALID => 340014
  | CAPABILITY_VERSION_CONFLICT => 340015
  | CAPABILITY_EXECUTABLE_CONTENT => 340016
  | CAPABILITY_RELEASE_INVALID => 340017
  | CAPABILITY_COMPILE_INVALID => 340018
  | CAPABILITY_GRAPH_INVALID => 340019
  | NODE_PACK_ARCHIVE_INVALID => 340020
  | NODE_PACK_DEPENDENCY_INSTALL_FAILED => 340021
  | NODE_PACK_ACTIVATION_FAILED => 340022
  | NODE_PACK_ROLLBACK_FAILED => 340023
  | DECRYPTION_FAILED => 400001
  | KEY_VERSION_UNAVAILABLE => 400002
  | KEY_MANIFEST_INVALID => 400003
  | RECIPIENT_KEY_UNAVAILABLE => 400004
  | KEY_RECIPIENT_NOT_FOUND => 400005
  | USAGE_REPORT_INVALID => 500001
  | RATE_NOT_APPROVED => 500002
  | RATE_NOT_FOUND => 500003
  | VALIDATION_FAILED => 600001
  | IDEMPOTENCY_CONFLICT => 600002
  | PROTOCOL_VERSION_UNSUPPORTED => 600003
  | REQUEST_BODY_TOO_LARGE => 600004
  | RATE_LIMITED => 600005
  | GATEWAY_UNREACHABLE => 700001
  | STORAGE_UNAVAILABLE => 700002
  | EXTERNAL_DEPENDENCY_UNAVAILABLE => 700003
  | INTERNAL_ERROR => 900001
  end.

(** [code.name]. *)
Definition name (c : t) : string :=
  match c with
  | AUTHENTICATION_REQUIRED => "AUTHENTICATION_REQUIRED"
  | SESSION_EXPIRED => "SESSION_EXPIRED"
  | SIGNATURE_INVALID => "SIGNATURE_INVALID"
  | REPLAY_DETECTED => "REPLAY_DETECTED"
  | DEVICE_REVOKED => "DEVICE_REVOKED"
  | DEVICE_CERTIFICATE_INVALID => "DEVICE_CERTIFICATE_INVALID"
  | PERMISSION_DENIED => "PERMISSION_DENIED"
  | SCOPE_REQUIRED => "SCOPE_REQUIRED"
  | WORKSPACE_NOT_FOUND => "WORKSPACE_NOT_FOUND"
  | WORKSPACE_MEMBERSHIP_REQUIRED => "WORKSPACE_MEMBERSHIP_REQUIRED"
  | BROKER_DEVICE_OFFLINE => "BROKER_DEVICE_OFFLINE"
  | BROKER_NOT_FOUND => "BROKER_NOT_FOUND"
  | BROKER_DEVICE_NOT_FOUND => "BROKER_DEVICE_NOT_FOUND"
  | BROKER_COMMAND_NOT_FOUND => "BROKER_COMMAND_NOT_FOUND"
  | NO_ELIGIBLE_WORKER => "NO_ELIGIBLE_WORKER"
  | WORKER_OFFLINE => "WORKER_OFFLINE"
  | WORKER_DRAINING => "WORKER_DRAINING"
  | WORKER_REVOKED => "WORKER_REVOKED"
  | WORKER_NOT_FOUND => "WORKER_NOT_FOUND"
  | WORKER_MAINTENANCE_JOB_NOT_FOUND => "WORKER_MAINTENANCE_JOB_NOT_FOUND"
  | WORKER_MAINTENANCE_STATE_CONFLICT => "WORKER_MAINTENANCE_STATE_CONFLICT"
  | POOL_NOT_FOUND => "POOL_NOT_FOUND"
  | WORKER_ALLOCATION_REQUIRED => "WORKER_ALLOCATION_REQUIRED"
  | WORKER_ALLOCATION_NOT_APPROVED => "WORKER_ALLOCATION_NOT_APPROVED"
  | ALLOCATION_PROOF_INVALID => "ALLOCATION_PROOF_INVALID"
  | WORKER_ALLOCATION_NOT_FOUND => "WORKER_ALLOCATION_NOT_FOUND"
  | INVITE_INVALID_OR_EXPIRED => "INVITE_INVALID_OR_EXPIRED"
  | ENROLLMENT_APPROVAL_REQUIRED => "ENROLLMENT_APPROVAL_REQUIRED"
  | ENROLLMENT_CLOSED => "ENROLLMENT_CLOSED"
  | INVITE_ALREADY_USED => "INVITE_ALREADY_USED"
  | ENROLLMENT_NOT_FOUND => "ENROLLMENT_NOT_FOUND"
  | TASK_STATE_CONFLICT => "TASK_STATE_CONFLICT"
  | TASK_NOT_FOUND => "TASK_NOT_FOUND"
  | TASK_COMMIT_EXPIRED => "TASK_COMMIT_EXPIRED"
  | LEASE_LOST => "LEASE_LOST"
  | REKEY_REQUIRED => "REKEY_REQUIRED"
  | RESERVATION_EXPIRED => "RESERVATION_EXPIRED"
  | FENCING_TOKEN_STALE => "FENCING_TOKEN_STALE"
  | EXECUTOR_UNAVAILABLE => "EXECUTOR_UNAVAILABLE"
  | UNSUPPORTED_PAYLOAD => "UNSUPPORTED_PAYLOAD"
  | DEPENDENCY_MISSING => "DEPENDENCY_MISSING"
  | EXECUTION_TIMEOUT => "EXECUTION_TIMEOUT"
  | GPU_OUT_OF_MEMORY => "GPU_OUT_OF_MEMORY"
  | WORKFLOW_NOT_FOUND => "WORKFLOW_NOT_FOUND"
  | WORKFLOW_SIGNATURE_INVALID => "WORKFLOW_SIGNATURE_INVALID"
  | EXECUTION_CANCELLED => "EXECUTION_CANCELLED"
  | SYSTEM_OUT_OF_MEMORY => "SYSTEM_OUT_OF_MEMORY"
  | INPUT_DOWNLOAD_FAILED => "INPUT_DOWNLOAD_FAILED"
  | OUTPUT_UPLOAD_FAILED => "OUTPUT_UPLOAD_FAILED"
  | ARTIFACT_NOT_FOUND => "ARTIFACT_NOT_FOUND"
  | ARTIFACT_INTEGRITY_FAILED => "ARTIFACT_INTEGRITY_FAILED"
  | SOURCE_NOT_ALLOWED => "SOURCE_NOT_ALLOWED"
  | DISK_SPACE_INSUFFICIENT => "DISK_SPACE_INSUFFICIENT"
  | PATH_CONFLICT => "PATH_CONFLICT"
  | DIGEST_MISMATCH => "DIGEST_MISMATCH"
  | DOWNLOAD_INTERRUPTED => "DOWNLOAD_INTERRUPTED"
  | GATED_CREDENTIAL_UNAVAILABLE => "GATED_CREDENTIAL_UNAVAILABLE"
  | MAINTENANCE_POLICY_DENIED => "MAINTENANCE_POLICY_DENIED"
  | MANIFEST_UNTRUSTED => "MANIFEST_UNTRUSTED"
  | MAINTENANCE_LEASE_LOST => "MAINTENANCE_LEASE_LOST"
  | UPDATE_INCOMPATIBLE => "UPDATE_INCOMPATIBLE"
  | UPDATE_DOWNGRADE_DENIED => "UPDATE_DOWNGRADE_DENIED"
  | UPDATE_ACTIVATION_FAILED => "UPDATE_ACTIVATION_FAILED"
  | CAPABILITY_ARCHIVE_INVALID => "CAPABILITY_ARCHIVE_INVALID"
  | CAPABILITY_VERSION_CONFLICT => "CAPABILITY_VERSION_CONFLICT"
  | CAPABILITY_EXECUTABLE_CONTENT => "CAPABILITY_EXECUTABLE_CONTENT"
  | CAPABILITY_RELEASE_INVALID => "CAPABILITY_RELEASE_INVALID"
  | CAPABILITY_COMPILE_INVALID => "CAPABILITY_COMPILE_INVALID"
  | CAPABILITY_GRAPH_INVALID => "CAPABILITY_GRAPH_INVALID"
  | NODE_PACK_ARCHIVE_INVALID => "NODE_PACK_ARCHIVE_INVALID"
  | NODE_PACK_DEPENDENCY_INSTALL_FAILED => "NODE_PACK_DEPENDENCY_INSTALL_FAILED"
  | NODE_PACK_ACTIVATION_FAILED => "NODE_PACK_ACTIVATION_FAILED"
  | NODE_PACK_ROLLBACK_FAILED => "NODE_PACK_ROLLBACK_FAILED"
  | DECRYPTION_FAILED => "DECRYPTION_FAILED"
  | KEY_VERSION_UNAVAILABLE => "KEY_VERSION_UNAVAILABLE"
  | KEY_MANIFEST_INVALID => "KEY_MANIFEST_INVALID"
  | RECIPIENT_KEY_UNAVAILABLE => "RECIPIENT_KEY_UNAVAILABLE"
  | KEY_RECIPIENT_NOT_FOUND => "KEY_RECIPIENT_NOT_FOUND"
  | USAGE_REPORT_INVALID => "USAGE_REPORT_INVALID"
  | RATE_NOT_APPROVED => "RATE_NOT_APPROVED"
  | RATE_NOT_FOUND => "RATE_NOT_FOUND"
  | VALIDATION_FAILED => "VALIDATION_FAILED"
  | IDEMPOTENCY_CONFLICT => "IDEMPOTENCY_CONFLICT"
  | PROTOCOL_VERSION_UNSUPPORTED => "PROTOCOL_VERSION_UNSUPPORTED"
  | REQUEST_BODY_TOO_LARGE => "REQUEST_BODY_TOO_LARGE"
  | RATE_LIMITED => "RATE_LIMITED"
  | GATEWAY_UNREACHABLE => "GATEWAY_UNREACHABLE"
  | STORAGE_UNAVAILABLE => "STORAGE_UNAVAILABLE"
  | EXTERNAL_DEPENDENCY_UNAVAILABLE => "EXTERNAL_DEPENDENCY_UNAVAILABLE"
  | INTERNAL_ERROR => "INTERNAL_ERROR"
  end.

(** [ErrorCode(n)]: [None] is [ValueError]. *)
Definition of_int (n : Z) : option t := List.find (fun c => to_int c =? n) all.
End ErrorCode.

(** ** The registry *)

Record ErrorSpec := MkSpec {
  s_code : ErrorCode.t;
  s_message : string;
  s_http_status : Z;
  s_origin : ErrorOrigin.t;
  s_retry_action : RetryAction.t;
  s_responsibility : Responsibility.t;
  s_default_retry_after_ms : option Z
}.

Definition retryable (s : ErrorSpec) : bool := negb (s_retry_action s =d RetryAction.NONE).

Definition _spec (code : ErrorCode.t) (message : string) (http_status : Z)
    (origin : ErrorOrigin.t) (retry : RetryAction.t) (responsibility : Responsibility.t)
    (retry_after_ms : option Z) : ErrorSpec :=
  MkSpec code message http_status origin retry responsibility retry_after_ms.

Import ErrorCode ErrorOrigin.

Definition error_specs_1 : list ErrorSpec :=
  [_spec AUTHENTICATION_REQUIRED
     "Authentication is required."
     401 GATEWAY RetryAction.NONE Responsibility.CONSUMER None;
   _spec SESSION_EXPIRED
     "The session has expired."
     401 GATEWAY RetryAction.LATER Responsibility.CONSUMER None;
   _spec SIGNATURE_INVALID
     "The request signature is invalid."
     401 GATEWAY RetryAction.NONE Responsibility.CONSUMER None;
   _spec REPLAY_DETECTED
     "The request has already been used."
     409 GATEWAY RetryAction.NONE Responsibility.CONSUMER None;
   _spec DEVICE_REVOKED
     "The device has been revoked."
     403 GATEWAY RetryAction.NONE Responsibility.CONSUMER None;
   _spec DEVICE_CERTIFICATE_INVALID
     "The device certificate is invalid."
     401 GATEWAY RetryAction.NONE Responsibility.CONSUMER None;
   _spec PERMISSION_DENIED
     "Permission is denied."
     403 GATEWAY RetryAction.NONE Responsibility.CONSUMER None;
   _spec SCOPE_REQUIRED
     "The session does not include the required scope."
     403 GATEWAY RetryAction.NONE Responsibility.CONSUMER None;
   _spec WORKSPACE_NOT_FOUND
     "The workspace was not found."
     404 GATEWAY RetryAction.NONE Responsibility.CONSUMER None;
   _spec WORKSPACE_MEMBERSHIP_REQUIRED
     "Workspace membership is required."
     403 GATEWAY RetryAction.NONE Responsibility.CONSUMER None;
   _spec BROKER_DEVICE_OFFLINE
     "The broker device is offline."
     503 BROKER RetryAction.LATER Responsibility.PLATFORM (Some 5000);
   _spec BROKER_NOT_FOUND
     "The logical broker was not found."
     404 GATEWAY RetryAction.NONE Responsibility.CONSUMER None;
   _spec BROKER_DEVICE_NOT_FOUND
     "The broker device was not found."
     404 GATEWAY RetryAction.NONE Responsibility.CONSUMER None;
   _spec BROKER_COMMAND_NOT_FOUND
     "The broker command was not found."
     404 GATEWAY RetryAction.NONE Responsibility.CONSUMER None;
   _spec NO_ELIGIBLE_WORKER
     "No eligible worker is currently available."
     503 GATEWAY RetryAction.LATER Responsibility.PLATFORM (Some 5000);
   _spec WORKER_OFFLINE
     "The worker is offline."
     503 WORKER RetryAction.ANOTHER_WORKER Responsibility.PROVIDER None;
   _spec WORKER_DRAINING
     "The worker is draining and cannot accept new work."
     409 WORKER RetryAction.ANOTHER_WORKER Responsibility.PROVIDER None;
   _spec WORKER_REVOKED
     "The worker has been revoked."
     403 GATEWAY RetryAction.NONE Responsibility.PROVIDER None;
   _spec WORKER_NOT_FOUND
     "The worker was not found."
     404 GATEWAY RetryAction.NONE Responsibility.CONSUMER None].

Definition error_specs_2 : list ErrorSpec :=
  [_spec WORKER_MAINTENANCE_JOB_NOT_FOUND
     "The worker maintenance job was not found."
     404 GATEWAY RetryAction.NONE Responsibility.CONSUMER None;
   _spec WORKER_MAINTENANCE_STATE_CONFLICT
     "The worker maintenance job is not in the required state."
     409 GATEWAY RetryAction.NONE Responsibility.CONSUMER None;
   _spec POOL_NOT_FOUND
     "The pool was not found."
     404 GATEWAY RetryAction.NONE Responsibility.CONSUMER None;
   _spec WORKER_ALLOCATION_REQUIRED
     "The worker is not allocated to this pool."
     403 GATEWAY RetryAction.NONE Responsibility.CONSUMER None;
   _spec WORKER_ALLOCATION_NOT_APPROVED
     "The worker allocation is awaiting approval."
     409 GATEWAY RetryAction.NONE Responsibility.CONSUMER None;
   _spec ALLOCATION_PROOF_INVALID
     "The Workspace allocation proof is invalid."
     422 GATEWAY RetryAction.NONE Responsibility.CONSUMER None;
   _spec WORKER_ALLOCATION_NOT_FOUND
     "The worker allocation was not found."
     404 GATEWAY RetryAction.NONE Responsibility.CONSUMER None;
   _spec INVITE_INVALID_OR_EXPIRED
     "The invite is invalid or has expired."
     400 GATEWAY RetryAction.NONE Responsibility.CONSUMER None;
   _spec ENROLLMENT_APPROVAL_REQUIRED
     "The enrollment is awaiting approval."
     202 GATEWAY RetryAction.LATER Responsibility.CONSUMER (Some 5000);
   _spec ENROLLMENT_CLOSED
     "Enrollment is closed."
     403 GATEWAY RetryAction.NONE Responsibility.CONSUMER None;
   _spec INVITE_ALREADY_USED
     "The invite has already been used."
     409 GATEWAY RetryAction.NONE Responsibility.CONSUMER None;
   _spec ENROLLMENT_NOT_FOUND
     "The enrollment was not found."
     404 GATEWAY RetryAction.NONE Responsibility.CONSUMER None;
   _spec TASK_STATE_CONFLICT
     "The task is not in the required state."
     409 GATEWAY RetryAction.NONE Responsibility.CONSUMER None;
   _spec TASK_NOT_FOUND
     "The task was not found."
     404 GATEWAY RetryAction.NONE Responsibility.CONSUMER None;
   _spec TASK_COMMIT_EXPIRED
     "The prepared task can no longer be committed."
     409 GATEWAY RetryAction.NONE Responsibility.CONSUMER None;
   _spec LEASE_LOST
     "The task lease is no longer valid."
     409 GATEWAY RetryAction.ANOTHER_WORKER Responsibility.PLATFORM None;
   _spec REKEY_REQUIRED
     "The task key must be wrapped for a replacement worker."
     409 GATEWAY RetryAction.REKEY_REQUIRED Responsibility.PLATFORM None;
   _spec RESERVATION_EXPIRED
     "The worker reservation has expired."
     409 GATEWAY RetryAction.LATER Responsibility.PLATFORM None;
   _spec FENCING_TOKEN_STALE
     "The fencing token is stale."
     409 GATEWAY RetryAction.NONE Responsibility.PROVIDER None].

Definition error_specs_3 : list ErrorSpec :=
  [_spec EXECUTOR_UNAVAILABLE
     "The executor is unavailable."
     503 EXECUTOR RetryAction.SAME_WORKER Responsibility.PROVIDER None;
   _spec UNSUPPORTED_PAYLOAD
     "The executor does not support this payload."
     422 EXECUTOR RetryAction.NONE Responsibility.CONSUMER None;
   _spec DEPENDENCY_MISSING
     "An executor dependency is missing."
     503 EXECUTOR RetryAction.NONE Responsibility.PROVIDER None;
   _spec EXECUTION_TIMEOUT
     "The executor timed out."
     504 EXECUTOR RetryAction.ANOTHER_WORKER Responsibility.PROVIDER None;
   _spec GPU_OUT_OF_MEMORY
     "The worker GPU does not have enough memory."
     503 EXECUTOR RetryAction.ANOTHER_WORKER Responsibility.PROVIDER None;
   _spec SYSTEM_OUT_OF_MEMORY
     "The worker does not have enough system memory."
     503 EXECUTOR RetryAction.ANOTHER_WORKER Responsibility.PROVIDER None;
   _spec WORKFLOW_NOT_FOUND
     "The workflow was not found."
     404 GATEWAY RetryAction.NONE Responsibility.CONSUMER None;
   _spec WORKFLOW_SIGNATURE_INVALID
     "The workflow signature is invalid."
     422 GATEWAY RetryAction.NONE Responsibility.CONSUMER None;
   _spec EXECUTION_CANCELLED
     "The execution was cancelled."
     409 EXECUTOR RetryAction.NONE Responsibility.UNKNOWN None;
   _spec INPUT_DOWNLOAD_FAILED
     "An input artifact could not be downloaded."
     502 WORKER RetryAction.SAME_WORKER Responsibility.PLATFORM None;
   _spec OUTPUT_UPLOAD_FAILED
     "An output artifact could not be uploaded."
     502 WORKER RetryAction.RESUME_UPLOAD Responsibility.PLATFORM None;
   _spec ARTIFACT_NOT_FOUND
     "The artifact was not found."
     404 STORAGE RetryAction.NONE Responsibility.CONSUMER None;
   _spec ARTIFACT_INTEGRITY_FAILED
     "Artifact integrity verification failed."
     422 STORAGE RetryAction.NONE Responsibility.PLATFORM None;
   _spec SOURCE_NOT_ALLOWED
     "The model source is not allowed by the local Worker policy."
     403 WORKER RetryAction.NONE Responsibility.CONSUMER None;
   _spec DISK_SPACE_INSUFFICIENT
     "The Worker does not have enough disk space for this maintenance task."
     507 WORKER RetryAction.NONE Responsibility.PROVIDER None;
   _spec PATH_CONFLICT
     "A protected local model or runtime path conflicts with this maintenance task."
     409 WORKER RetryAction.NONE Responsibility.PROVIDER None;
   _spec DIGEST_MISMATCH
     "The downloaded maintenance content does not match its authorized digest."
     422 WORKER RetryAction.NONE Responsibility.PLATFORM None;
   _spec DOWNLOAD_INTERRUPTED
     "The maintenance download was interrupted."
     503 WORKER RetryAction.LATER Responsibility.PLATFORM (Some 5000)].

Definition error_specs_4 : list ErrorSpec :=
  [_spec GATED_CREDENTIAL_UNAVAILABLE
     "This model requires a Worker-local credential or manual action."
     409 WORKER RetryAction.NONE Responsibility.PROVIDER None;
   _spec MAINTENANCE_POLICY_DENIED
     "The local Worker maintenance policy denied this task."
     403 WORKER RetryAction.NONE Responsibility.CONSUMER None;
   _spec MANIFEST_UNTRUSTED
     "The Worker update package or workflow manifest is not trusted."
     422 WORKER RetryAction.NONE Responsibility.CONSUMER None;
   _spec MAINTENANCE_LEASE_LOST
     "The Worker maintenance lease is no longer valid."
     409 GATEWAY RetryAction.LATER Responsibility.PLATFORM None;
   _spec UPDATE_INCOMPATIBLE
     "The Worker update package is incompatible with this runtime."
     422 WORKER RetryAction.NONE Responsibility.CONSUMER None;
   _spec UPDATE_DOWNGRADE_DENIED
     "Worker runtime downgrades and same-version reinstalls are not allowed remotely."
     409 WORKER RetryAction.NONE Responsibility.CONSUMER None;
   _spec UPDATE_ACTIVATION_FAILED
     "The updated Worker runtime did not activate and was rolled back."
     500 WORKER RetryAction.NONE Responsibility.PROVIDER None;
   _spec CAPABILITY_ARCHIVE_INVALID
     "The workflow capability archive is invalid or cannot be compiled."
     422 WORKER RetryAction.NONE Responsibility.CONSUMER None;
   _spec CAPABILITY_VERSION_CONFLICT
     "This immutable workflow version already exists with different content."
     409 WORKER RetryAction.NONE Responsibility.CONSUMER None;
   _spec CAPABILITY_EXECUTABLE_CONTENT
     "The workflow capability archive contains executable content."
     422 WORKER RetryAction.NONE Responsibility.CONSUMER None;
   _spec CAPABILITY_RELEASE_INVALID
     "An existing local workflow capability release is invalid."
     422 WORKER RetryAction.NONE Responsibility.PROVIDER None;
   _spec CAPABILITY_COMPILE_INVALID
     "The workflow capability graph or parameter mapping cannot be compiled."
     422 WORKER RetryAction.NONE Responsibility.CONSUMER None;
   _spec CAPABILITY_GRAPH_INVALID
     "The workflow capability graph, mapping, or model binding is invalid."
     422 WORKER RetryAction.NONE Responsibility.CONSUMER None;
   _spec NODE_PACK_ARCHIVE_INVALID
     "The reviewed Node Pack archive is invalid or does not match its manifest."
     422 WORKER RetryAction.NONE Responsibility.CONSUMER None;
   _spec NODE_PACK_DEPENDENCY_INSTALL_FAILED
     "The Node Pack offline dependencies are incompatible with the ComfyUI runtime."
     422 WORKER RetryAction.NONE Responsibility.CONSUMER None;
   _spec NODE_PACK_ACTIVATION_FAILED
     "ComfyUI did not load the reviewed Node Pack and the previous nodes were restored."
     500 WORKER RetryAction.NONE Responsibility.PROVIDER None;
   _spec NODE_PACK_ROLLBACK_FAILED
     "The previous ComfyUI node directory could not be restored automatically."
     500 WORKER RetryAction.NONE Responsibility.PROVIDER None;
   _spec DECRYPTION_FAILED
     "The encrypted content could not be decrypted."
     422 CLIENT RetryAction.NONE Responsibility.UNKNOWN None;
   _spec KEY_VERSION_UNAVAILABLE
     "The required key version is unavailable."
     409 CLIENT RetryAction.REKEY_REQUIRED Responsibility.CONSUMER None].

Definition error_specs_5 : list ErrorSpec :=
  [_spec KEY_MANIFEST_INVALID
     "The key manifest signature is invalid."
     422 CLIENT RetryAction.NONE Responsibility.PLATFORM None;
   _spec RECIPIENT_KEY_UNAVAILABLE
     "No key envelope exists for this recipient."
     403 CLIENT RetryAction.REKEY_REQUIRED Responsibility.CONSUMER None;
   _spec KEY_RECIPIENT_NOT_FOUND
     "The key recipient was not found."
     404 GATEWAY RetryAction.NONE Responsibility.CONSUMER None;
   _spec USAGE_REPORT_INVALID
     "The usage report is invalid."
     422 GATEWAY RetryAction.NONE Responsibility.PROVIDER None;
   _spec RATE_NOT_APPROVED
     "The worker rate has not been approved."
     409 GATEWAY RetryAction.NONE Responsibility.CONSUMER None;
   _spec RATE_NOT_FOUND
     "The rate card was not found."
     404 GATEWAY RetryAction.NONE Responsibility.CONSUMER None;
   _spec VALIDATION_FAILED
     "Request validation failed."
     422 GATEWAY RetryAction.NONE Responsibility.CONSUMER None;
   _spec IDEMPOTENCY_CONFLICT
     "The idempotency key was used for a different request."
     409 GATEWAY RetryAction.NONE Responsibility.CONSUMER None;
   _spec PROTOCOL_VERSION_UNSUPPORTED
     "The protocol version is not supported."
     400 GATEWAY RetryAction.NONE Responsibility.CONSUMER None;
   _spec REQUEST_BODY_TOO_LARGE
     "The request body is too large."
     413 GATEWAY RetryAction.NONE Responsibility.CONSUMER None;
   _spec RATE_LIMITED
     "Too many requests were sent in a short period."
     429 GATEWAY RetryAction.LATER Responsibility.CONSUMER (Some 1000);
   _spec GATEWAY_UNREACHABLE
     "The gateway could not be reached."
     503 CLIENT RetryAction.LATER Responsibility.PLATFORM (Some 5000);
   _spec STORAGE_UNAVAILABLE
     "Artifact storage is unavailable."
     503 STORAGE RetryAction.LATER Responsibility.PLATFORM (Some 5000);
   _spec EXTERNAL_DEPENDENCY_UNAVAILABLE
     "An external dependency is unavailable."
     503 GATEWAY RetryAction.LATER Responsibility.PLATFORM (Some 5000);
   _spec INTERNAL_ERROR
     "An internal error occurred."
     500 GATEWAY RetryAction.NONE Responsibility.PLATFORM None].

(** [_ERROR_SPECS]. *)
Definition error_specs : list ErrorSpec :=
  error_specs_1 ++ error_specs_2 ++ error_specs_3 ++ error_specs_4 ++ error_specs_5.

(** [ERROR_REGISTRY[code]]: the mapping built from [_ERROR_SPECS], the last
    entry of a code winning. *)
Definition ERROR_REGISTRY (c : ErrorCode.t) : option ErrorSpec :=
  List.find (fun s => s_code s =d c) (List.rev error_specs).

(** [get_error_spec]: [ValueError] on an unknown code. *)
Definition get_error_spec (n : Z) : res ErrorSpec :=
  match ErrorCode.of_int n with
  | None => Raise ValueError
  | Some c => match ERROR_REGISTRY c with Some s => Ok s | None => Raise KeyError end
  end.

(** [_validate_registry]. *)
Definition _validate_registry : bool :=
  forallb (fun c => match ERROR_REGISTRY c with
    | None => false
    | Some s =>
        (100000 <=? to_int c) && (to_int c <=? 999999) &&
        match s_default_retry_after_ms s with
        | Some _ => retryable s
        | None => true
        end
    end) ErrorCode.all.

(** ** Sanitized details *)

Fixpoint str_contains (part s : string) : bool :=
  str_startswith part s ||
  match s with EmptyString => false | String _ s => str_contains part s end.

Definition _SENSITIVE_KEY_PARTS : list string :=
  ["authorization"; "bearer"; "credential"; "mnemonic"; "passphrase"; "private"; "prompt";
   "recovery"; "secret"; "signed_url"; "token"; "upstream_body"; "upstream_response"].

Fixpoint str_map (f : ascii -> ascii) (s : string) : string :=
  match s with
  | EmptyString => EmptyString
  | String c s => String (f c) (str_map f s)
  end.

Definition _key_is_sensitive (key : string) : bool :=
  let normalized := str_map (fun c => if Ascii.eqb c "-" then "_"%char else c) (str_lower key) in
  existsb (fun part => str_contains part normalized) _SENSITIVE_KEY_PARTS.

(** [s[:n]]. *)
Definition str_take (n : nat) (s : string) : string := String.substring 0 n s.

Section Sanitize.

(** The loop of [sanitize_details] over the first 32 items, given the function
    applied to the values; the budget [n] counts the items left. *)
Fixpoint sanitize_items (f : json -> json) (n : nat) (details : dict) (sanitized : dict) : dict :=
  match n, details with
  | S n, (key, value) :: details =>
      let public_key := str_take 128 key in
      let v := if _key_is_sensitive public_key then JStr "<redacted>" else f value in
      sanitize_items f n details (jset public_key v sanitized)
  | _, _ => sanitized
  end.

(** [_sanitize_value(value, depth)], by recursion on the remaining depth
    [4 - depth]; a mapping calls [sanitize_details(value, _depth=depth+1)]. *)
Fixpoint sanitize_value_at (fuel : nat) (value : json) : json :=
  match fuel with
  | O => JStr "<truncated>"
  | S fuel =>
      match value with
      | JNull | JBool _ | JInt _ => value
      | JFloat (FFin _ _) => value
      | JFloat _ => JStr "<non-finite-number>"
      | JStr s =>
          if str_contains "://" s && str_contains "?" s then JStr "<redacted-url>"
          else JStr (str_take 512 s)
      | JObj d => JObj (sanitize_items (sanitize_value_at fuel) 32 d [])
      | JList l => JList (map (sanitize_value_at fuel) (take 32 l))
      end
  end.

Definition _sanitize_value (value : json) (depth : nat) : json :=
  sanitize_value_at (4 - depth) value.

Definition sanitize_details (details : option dict) (_depth : nat) : dict :=
  match details with
  | None => []
  | Some d => sanitize_items (fun v => _sanitize_value v _depth) 32 d []
  end.

End Sanitize.

(** [error_envelope]: the public body of an error. *)
Definition error_envelope (code : Z) (request_id task_id attempt_id : option string)
    (details : option dict) (retry_after_ms : option Z) (origin : option ErrorOrigin.t)
    : res json :=
  let jopt o := match o with Some s => JStr s | None => JNull end in
  spec ← get_error_spec code;
  let after_ms := match retry_after_ms with
                  | None => s_default_retry_after_ms spec
                  | Some n => Some n
                  end in
  Ok (JObj [("error", JObj
    [("code", JInt (to_int (s_code spec)));
     ("name", JStr (ErrorCode.name (s_code spec)));
     ("message", JStr (s_message spec));
     ("origin", JStr (ErrorOrigin.value
        (match origin with Some o => o | None => s_origin spec end)));
     ("retry", JObj
        [("allowed", JBool (retryable spec));
         ("action", JStr (RetryAction.value (s_retry_action spec)));
         ("after_ms", match after_ms with Some n => JInt n | None => JNull end)]);
     ("responsibility", JStr (Responsibility.value (s_responsibility spec)));
     ("request_id", jopt request_id);
     ("task_id", jopt task_id);
     ("attempt_id", jopt attempt_id);
     ("details", JObj (sanitize_details details 0))])]).

(** ** Theorems *)

(** Nothing in a sanitized document exceeds the public bounds: lists and
    mappings hold at most 32 entries, keys 128 characters, strings 512, and a
    key that names secret material carries the redaction marker. *)
Fixpoint json_bounded (depth : nat) (v : json) : Prop :=
  match v with
  | JStr s => (String.length s <= 512)%nat
  | JFloat f => exists m e, f = FFin m e
  | JList l =>
      match depth with
      | O => False
      | S depth => (length l <= 32)%nat /\ Forall (json_bounded depth) l
      end
  | JObj d =>
      match depth with
      | O => False
      | S depth =>
          (length d <= 32)%nat /\
          Forall (fun kv => (String.length kv.1 <= 128)%nat /\
                            (_key_is_sensitive kv.1 = true -> kv.2 = JStr "<redacted>") /\
                            json_bounded depth kv.2) d
      end
  | _ => True
  end.

Lemma length_str_take n s : (String.length (str_take n s) <= n)%nat.
Proof.
  unfold str_take. revert s.
  induction n as [|n IH]; intros [|c s]; simpl; try lia. specialize (IH s). lia.
Qed.

Lemma length_jset k v d : (length (jset k v d) <= S (length d))%nat.
Proof.
  induction d as [|[k' v'] d IH]; simpl; [lia|]. destruct (String.eqb k' k); simpl; lia.
Qed.

Lemma Forall_jset (P : string * json -> Prop) k v d :
  P (k, v) -> Forall P d -> Forall P (jset k v d).
Proof.
  intros Hkv Hd. induction Hd as [|[k' v'] d Hx Hd IH]; simpl.
  - by repeat constructor.
  - destruct (String.eqb k' k); by constructor.
Qed.

Lemma json_bounded_str depth s : (String.length s <= 512)%nat -> json_bounded depth (JStr s).
Proof. by destruct depth. Qed.

(** The item loop keeps a bound on its accumulator. *)
Lemma sanitize_items_bounded depth f n d acc :
  (forall v, json_bounded depth (f v)) ->
  Forall (fun kv => (String.length kv.1 <= 128)%nat /\
                    (_key_is_sensitive kv.1 = true -> kv.2 = JStr "<redacted>") /\
                    json_bounded depth kv.2) acc ->
  (length acc + n <= 32)%nat ->
  json_bounded (S depth) (JObj (sanitize_items f n d acc)).
Proof.
  intros Hf. revert d acc.
  induction n as [|n IH]; intros [|[k v] d] acc Hacc Hlen; simpl; try (split; [lia|done]).
  apply IH.
  - apply Forall_jset; [|done]. simpl. repeat split.
    + apply length_str_take.
    + by intros ->.
    + destruct (_key_is_sensitive _); [apply (json_bounded_str depth); simpl; lia|apply Hf].
  - pose proof (length_jset (str_take 128 k)
      (if _key_is_sensitive (str_take 128 k) then JStr "<redacted>" else f v) acc). lia.
Qed.

Lemma sanitize_value_bounded fuel v : json_bounded fuel (sanitize_value_at fuel v).
Proof.
  revert v. induction fuel as [|fuel IH]; intros v.
  - apply json_bounded_str. simpl. lia.
  - destruct v as [|b|z|[m e|n|]|s|l|d]; cbn [sanitize_value_at]; try exact I.
    + cbn. eauto.
    + apply json_bounded_str. simpl. lia.
    + apply json_bounded_str. simpl. lia.
    + destruct (_ && _); apply json_bounded_str; [simpl; lia|apply length_str_take].
    + cbn [json_bounded]. split; [rewrite length_map, length_take; lia|].
      apply List.Forall_forall. intros x (y & <- & _)%in_map_iff. apply IH.
    + apply sanitize_items_bounded; [apply IH|constructor|simpl; lia].
Qed.

(** Whatever the caller passes, the details of an error envelope are at
    most five levels deep, every mapping and list has at most 32 entries, every
    key at most 128 and every string at most 512 characters, floats are finite,
    and every key naming secret material is redacted. *)
Theorem sanitize_details_bounded (details : option dict) :
  json_bounded 5 (JObj (sanitize_details details 0)).
Proof.
  destruct details as [d|]; [|simpl; split; [lia|constructor]].
  apply sanitize_items_bounded; [intros v; apply sanitize_value_bounded|constructor|simpl; lia].
Qed.

(** The registry passes its own start-up check, so [get_error_spec]
    returns a specification for exactly the registered integers. *)
Theorem registry_total (n : Z) :
  _validate_registry = true /\
  ((exists s, get_error_spec n = Ok s /\ to_int (s_code s) = n) <->
   n ∈ map to_int ErrorCode.all).
Proof.
  split; [vm_compute; reflexivity|]. split.
  - intros (s & Hs & <-). apply list_elem_of_In, in_map.
    destruct (s_code s); vm_compute; tauto.
  - intros (c & -> & _)%list_elem_of_fmap.
    destruct c; eexists; (split; [vm_compute; reflexivity|reflexivity]).
Qed.
