(* ===== verification/Metadata.v ===== *)
(** * Public metadata validators ([src/vgen/gateway/public_metadata.py])

    The closed vocabulary of plaintext the gateway accepts: scheduling
    requirements, artifact media facts and worker capability reports.  Each
    regular expression is a boolean function on strings; every validator
    returns its canonical document or raises [PublicMetadataError]. *)

From S2P Require Import Prelude Python.

Open Scope Z_scope.

(** ** Vocabulary *)

Definition _PUBLIC_REQUIREMENT_KEYS : list string :=
  ["operation"; "payload_format"; "executor_min_version"; "runtime_min_version";
   "min_vram_bytes"; "min_ram_bytes"; "model_digests"; "output_count"].

Definition _MEDIA_METADATA_KEYS : list string :=
  ["filename"; "media_type"; "width"; "height"; "frames"; "duration_ms"; "denoise_steps";
   "output_count"].

(** [[A-Za-z0-9]] followed by characters of that class or of [extra]. *)
Definition alnum_or (extra : string) (c : ascii) : bool := is_alnum c || ascii_in extra c.

Definition _OPERATION : string -> bool := re_first_rest is_alnum (alnum_or "._:-") 0 63.
Definition _PAYLOAD_FORMAT : string -> bool := re_first_rest is_alnum (alnum_or "._+/-") 0 119.
Definition _VERSION : string -> bool := re_first_rest is_alnum (alnum_or "._+-") 0 63.
Definition _FILENAME : string -> bool := re_first_rest is_alnum (alnum_or "._-") 0 254.
Definition _WORKFLOW_REF : string -> bool := re_first_rest is_alnum (alnum_or "._+:/@-") 0 511.

(** [0|[1-9][0-9]{0,5}], joined by at most three dots. *)
Definition version_part (s : string) : bool :=
  String.eqb s "0" || re_first_rest (ascii_between "1" "9") is_digit 0 5 s.
Definition _REPORTED_VERSION (s : string) : bool :=
  let parts := str_split "." s in
  (Z.of_nat (length parts) <=? 4) && forallb version_part parts.

Definition hex64 (s : string) : bool := str_forall is_hex s && (str_len s =? 64).
Definition _SHA256 (s : string) : bool :=
  hex64 s || (str_startswith "sha256:" s && hex64 (str_drop 7 s)).

Definition _CUSTOM_NODE_PROVENANCE_ERROR (s : string) : bool :=
  let word w := str_forall (fun c => is_lower c || ascii_in "_" c) w && (1 <=? str_len w) in
  match str_split ":" s with
  | [w] => word w
  | [w; d] => word w && str_forall (alnum_or "_.-") d && (1 <=? str_len d) && (str_len d <=? 128)
  | _ => false
  end.

Definition _MEDIA_TYPE (s : string) : bool :=
  let token := re_first_rest is_alnum (alnum_or "!#$&^_.+-") 0 63 in
  match str_split "/" s with
  | [a; b] => token a && token b
  | _ => false
  end.

(** [MEDIA_TYPE_EXTENSIONS] of [artifacts/names.py]. *)
Definition MEDIA_TYPE_EXTENSIONS : list (string * string) :=
  [("audio/aac", ".aac"); ("audio/flac", ".flac"); ("audio/mpeg", ".mp3"); ("audio/ogg", ".ogg");
   ("audio/wav", ".wav"); ("image/gif", ".gif"); ("image/jpeg", ".jpg"); ("image/png", ".png");
   ("image/webp", ".webp"); ("video/mp4", ".mp4"); ("video/quicktime", ".mov");
   ("video/webm", ".webm"); ("video/x-matroska", ".mkv")].

Definition _PUBLIC_MEDIA_TYPES : list string :=
  map fst MEDIA_TYPE_EXTENSIONS ++ ["application/octet-stream"].

Definition _NODE_CLASS (s : string) : bool :=
  re_first_rest is_alnum (alnum_or "_.:-") 0 127 s || String.eqb s "Video Slice".

Definition _WORKFLOW_STATES : list string :=
  ["ready"; "missing_models"; "missing_nodes"; "node_probe_unavailable"; "executor_incompatible";
   "runtime_incompatible"; "insufficient_vram"; "insufficient_ram"].

Definition _MAINTENANCE_ACTIONS : list string :=
  ["worker_update"; "model_install"; "capability_install"; "node_pack_install"].

Definition _PAYLOAD_FORMATS : list string := ["comfyui-api-graph/v1"; "fake/v1"; "opaque/v1"].

Definition _OPERATIONS : list string :=
  ["t2v"; "i2v"; "flf"; "t2i"; "i2i"; "v2v"; "text-to-video"; "image-to-video"].

(** [MEDIA_PROBE_LIMITS] of [protocol/media.py]. *)
Definition MEDIA_PROBE_LIMITS : list (string * (Z * Z)) :=
  [("width", (1, 131072)); ("height", (1, 131072)); ("frames", (0, 10000000));
   ("duration_ms", (0, 604800000)); ("denoise_steps", (0, 100000)); ("output_count", (1, 8))].

(** ** Shared helpers *)

Definition pm_error {A} (field reason : string) : res A := Raise (PublicMetadataError field reason).

Definition _mapping (value : json) (field : string) : res dict :=
  match value with JObj d => Ok d | _ => pm_error field "object_required" end.

Definition _closed_keys (value : dict) (allowed : list string) (field : string) : res unit :=
  if existsb (fun kv => negb (fst kv ∈? allowed)) value
  then pm_error field "unsupported_field" else Ok tt.

Definition _bounded_int (value : json) (field : string) (minimum maximum : Z) : res Z :=
  match value with
  | JInt z => if (z <? minimum) || (maximum <? z) then pm_error field "integer_out_of_range"
              else Ok z
  | _ => pm_error field "integer_required"
  end.

Definition _protocol_string (value : json) (pattern : string -> bool) (field : string)
    : res string :=
  match value with
  | JStr s =>
      let canonical := str_strip " " s in
      if pattern canonical then Ok canonical else pm_error "capabilities" ("invalid_" +:+ field)
  | _ => pm_error "capabilities" ("invalid_" +:+ field)
  end.

(** The lower-case [sha256:] form of an accepted digest. *)
Definition canonical_digest (digest : string) : string :=
  let normalized := str_lower digest in
  if str_startswith "sha256:" normalized then normalized else "sha256:" +:+ normalized.

(** ** Scheduling requirements *)

(** One optional pattern-checked string of [validate_public_requirements]. *)
Definition requirement_string (raw : dict) (name : string) (pattern : string -> bool)
    (result : dict) : res dict :=
  match jget name raw with
  | None => Ok result
  | Some (JStr s) =>
      if pattern s then Ok (jset name (JStr s) result)
      else pm_error "public_requirements" ("invalid_" +:+ name)
  | Some _ => pm_error "public_requirements" ("invalid_" +:+ name)
  end.

(** One optional bounded integer. *)
Definition requirement_int (raw : dict) (name : string) (minimum maximum : Z) (result : dict)
    : res dict :=
  match jget name raw with
  | None => Ok result
  | Some v => z ← _bounded_int v "public_requirements" minimum maximum;
              Ok (jset name (JInt z) result)
  end.

(** The loop over [model_digests]: canonical form, then duplicate rejection. *)
Fixpoint requirement_digests (digests : list json) (canonical : list string)
    : res (list string) :=
  match digests with
  | [] => Ok canonical
  | JStr digest :: digests =>
      if _SHA256 digest then
        let normalized := canonical_digest digest in
        if normalized ∈? canonical
        then pm_error "public_requirements" "duplicate_model_digest"
        else requirement_digests digests (canonical ++ [normalized])
      else pm_error "public_requirements" "invalid_model_digests"
  | _ :: _ => pm_error "public_requirements" "invalid_model_digests"
  end.

Definition validate_public_requirements (value : json) : res dict :=
  raw ← _mapping value "public_requirements";
  _ ← _closed_keys raw _PUBLIC_REQUIREMENT_KEYS "public_requirements";
  if Z.of_nat (length _PUBLIC_REQUIREMENT_KEYS) <? Z.of_nat (length raw)
  then pm_error "public_requirements" "too_many_fields"
  else
    result ← requirement_string raw "operation" _OPERATION [];
    result ← requirement_string raw "payload_format" _PAYLOAD_FORMAT result;
    result ← requirement_string raw "executor_min_version" _VERSION result;
    result ← requirement_string raw "runtime_min_version" _VERSION result;
    result ← requirement_int raw "min_vram_bytes" 0 (2 ^ 60) result;
    result ← requirement_int raw "min_ram_bytes" 0 (2 ^ 60) result;
    result ← requirement_int raw "output_count" 1 8 result;
    match jget "model_digests" raw with
    | None => Ok result
    | Some (JList digests) =>
        if 128 <? Z.of_nat (length digests)
        then pm_error "public_requirements" "invalid_model_digests"
        else
          canonical ← requirement_digests digests [];
          Ok (jset "model_digests" (JList (map JStr canonical)) result)
    | Some _ => pm_error "public_requirements" "invalid_model_digests"
    end.

(** ** Artifact media metadata *)

(** The loop over [MEDIA_PROBE_LIMITS]. *)
Fixpoint media_probes (limits : list (string * (Z * Z))) (raw result : dict) : res dict :=
  match limits with
  | [] => Ok result
  | (name, (minimum, maximum)) :: limits =>
      match jget name raw with
      | None => media_probes limits raw result
      | Some JNull => media_probes limits raw (jset name JNull result)
      | Some v =>
          z ← _bounded_int v "media_metadata" minimum maximum;
          media_probes limits raw (jset name (JInt z) result)
      end
  end.

Definition _validate_artifact_media_metadata (value : json) (allow_unreviewed_type : bool)
    : res dict :=
  raw ← _mapping value "media_metadata";
  _ ← _closed_keys raw _MEDIA_METADATA_KEYS "media_metadata";
  if Z.of_nat (length _MEDIA_METADATA_KEYS) <? Z.of_nat (length raw)
  then pm_error "media_metadata" "too_many_fields"
  else
    result ← (match jget "filename" raw with
              | None => Ok []
              | Some (JStr filename) =>
                  if _FILENAME filename then Ok (jset "filename" (JStr filename) [])
                  else pm_error "media_metadata" "invalid_filename"
              | Some _ => pm_error "media_metadata" "invalid_filename"
              end : res dict);
    result ← (match jget "media_type" raw with
              | None => Ok result
              | Some (JStr media_type) =>
                  if negb (_MEDIA_TYPE media_type) ||
                     (negb allow_unreviewed_type &&
                      negb (str_lower media_type ∈? _PUBLIC_MEDIA_TYPES))
                  then pm_error "media_metadata" "invalid_media_type"
                  else Ok (jset "media_type" (JStr media_type) result)
              | Some _ => pm_error "media_metadata" "invalid_media_type"
              end : res dict);
    media_probes MEDIA_PROBE_LIMITS raw result.

Definition validate_artifact_media_metadata (value : json) : res dict :=
  _validate_artifact_media_metadata value false.

Definition validate_reported_artifact_media_metadata (value : json) : res dict :=
  _validate_artifact_media_metadata value true.

Definition project_reported_artifact_media_metadata (value : json) : res dict :=
  result ← validate_reported_artifact_media_metadata value;
  let result := jpop "filename" result in
  match jget "media_type" result with
  | Some (JStr media_type) =>
      if str_lower media_type ∈? _PUBLIC_MEDIA_TYPES
      then Ok (jset "media_type" (JStr (str_lower media_type)) result)
      else Ok (jpop "media_type" result)
  | _ => Ok (jpop "media_type" result)
  end.

(** ** Worker capability reports *)

Definition cap_error {A} (reason : string) : res A := pm_error "capabilities" reason.

Definition json_str (v : json) : option string := match v with JStr s => Some s | _ => None end.

(** The strings of a list all of whose items are strings. *)
Fixpoint json_strs (l : list json) : option (list string) :=
  match l with
  | [] => Some []
  | JStr s :: l => match json_strs l with Some ss => Some (s :: ss) | None => None end
  | _ :: _ => None
  end.

Definition _canonical_known_string_list (value : json) (allowed : list string) (field : string)
    (maximum : Z) : res (list string) :=
  match value with
  | JList l =>
      if maximum <? Z.of_nat (length l) then cap_error ("invalid_" +:+ field)
      else match json_strs l with
           | None => cap_error ("invalid_" +:+ field)
           | Some value =>
               let known := List.filter (fun item => item ∈? allowed) value in
               if negb (str_distinct known) then cap_error ("duplicate_" +:+ field)
               else Ok (List.filter (fun item => item ∈? known) allowed)
           end
  | _ => cap_error ("invalid_" +:+ field)
  end.

Definition _canonical_string_list (value : json) (pattern : string -> bool) (field : string)
    (maximum : Z) : res (list string) :=
  match value with
  | JList l =>
      if maximum <? Z.of_nat (length l) then cap_error ("invalid_" +:+ field)
      else
        result ← res_map (fun item => _protocol_string item pattern field) l;
        if negb (str_distinct result) then cap_error ("duplicate_" +:+ field) else Ok result
  | _ => cap_error ("invalid_" +:+ field)
  end.

Definition _canonical_digest_list (value : json) (field : string) (maximum : Z)
    : res (list string) :=
  match value with
  | JList l =>
      if maximum <? Z.of_nat (length l) then cap_error ("invalid_" +:+ field)
      else
        result ← res_map (fun item =>
          match item with
          | JStr s => if _SHA256 s then Ok (canonical_digest s) else cap_error ("invalid_" +:+ field)
          | _ => cap_error ("invalid_" +:+ field)
          end) l;
        if negb (str_distinct result) then cap_error ("duplicate_" +:+ field) else Ok result
  | _ => cap_error ("invalid_" +:+ field)
  end.

(** One readiness entry, in the order the source validates it; [None] of
    [custom_node_provenance_error] omits the key. *)
Record readiness := MkReadiness {
  rd_workflow_ref : string;
  rd_workflow_digest : string;
  rd_state : string;
  rd_missing_model_digests : list string;
  rd_missing_node_classes : list string;
  rd_provenance_error : option string
}.

Definition readiness_json (r : readiness) : json :=
  JObj ([("workflow_ref", JStr (rd_workflow_ref r));
         ("workflow_digest", JStr (rd_workflow_digest r));
         ("state", JStr (rd_state r));
         ("missing_model_digests", JList (map JStr (rd_missing_model_digests r)));
         ("missing_node_classes", JList (map JStr (rd_missing_node_classes r)))]
        ++ match rd_provenance_error r with
           | Some e => [("custom_node_provenance_error", JStr e)]
           | None => []
           end).

Definition canonical_readiness_entry (raw : json) : res readiness :=
  match raw with
  | JObj raw =>
      if negb (jmem "missing_model_digests" raw) || negb (jmem "missing_node_classes" raw)
      then cap_error "invalid_workflow_readiness"
      else
        workflow_ref ← _protocol_string (jget_or "workflow_ref" JNull raw) _WORKFLOW_REF
                         "workflow_ref";
        digests ← _canonical_digest_list (JList [jget_or "workflow_digest" JNull raw])
                    "workflow_digest" 1;
        state ← (match jget "state" raw with
                 | Some (JStr s) => if s ∈? _WORKFLOW_STATES then Ok s
                                    else cap_error "invalid_workflow_state"
                 | _ => cap_error "invalid_workflow_state"
                 end : res string);
        missing_models ← _canonical_digest_list (jget_or "missing_model_digests" (JList []) raw)
                           "missing_model_digests" 1024;
        missing_nodes ← _canonical_string_list (jget_or "missing_node_classes" (JList []) raw)
                          _NODE_CLASS "missing_node_classes" 512;
        provenance_error ←
          (match jget "custom_node_provenance_error" raw with
           | None | Some JNull => Ok None
           | Some v => s ← _protocol_string v _CUSTOM_NODE_PROVENANCE_ERROR
                             "custom_node_provenance_error"; Ok (Some s)
           end : res (option string));
        if (String.eqb state "ready") &&
           (negb (missing_models =d []) || negb (missing_nodes =d []))
        then cap_error "inconsistent_workflow_state"
        else Ok (MkReadiness workflow_ref (hd EmptyString digests) state missing_models
                   missing_nodes provenance_error)
  | _ => cap_error "invalid_workflow_readiness"
  end.

(** The loop of [_canonical_workflow_readiness]; [seen] holds the identities of
    the entries already accepted. *)
Fixpoint canonical_readiness_entries (value : list json) (seen : list (string * string))
    : res (list readiness) :=
  match value with
  | [] => Ok []
  | raw :: value =>
      r ← canonical_readiness_entry raw;
      let identity := (rd_workflow_ref r, rd_workflow_digest r) in
      if identity ∈? seen then cap_error "duplicate_workflow_readiness"
      else
        rest ← canonical_readiness_entries value (seen ++ [identity]);
        Ok (r :: rest)
  end.

Definition _canonical_workflow_readiness (value : json) : res (list readiness) :=
  match value with
  | JList l =>
      if 256 <? Z.of_nat (length l) then cap_error "invalid_workflow_readiness"
      else canonical_readiness_entries l []
  | _ => cap_error "invalid_workflow_readiness"
  end.

(** The video-memory total of one [gpus] entry: [None] contributes nothing.
    [math.isfinite] and [int] overflow on values beyond the double range. *)
Definition gpu_total (gpu : json) : res (option Z) :=
  match gpu with
  | JObj g =>
      let raw_total := jget_or "vram_bytes" (jget_or "vram_total" JNull g) g in
      let megabytes :=
        match jget_or "vram_total_mb" JNull g with
        | JInt z =>
            if 2 ^ 1024 - 2 ^ 970 <=? Z.abs z then Raise OverflowError
            else if 0 <=? z then Ok (Some (z * 1024 * 1024)) else Ok None
        | JFloat (FFin m e) =>
            if 0 <=? m then
              if float_overflows m (e + 20) then Raise OverflowError
              else Ok (Some (float_trunc m (e + 20)))
            else Ok None
        | _ => Ok None
        end in
      match raw_total with
      | JInt z => if 0 <=? z then Ok (Some z) else megabytes
      | _ => megabytes
      end
  | _ => cap_error "invalid_gpus"
  end.

Fixpoint gpu_totals (gpus : list json) : res (list Z) :=
  match gpus with
  | [] => Ok []
  | g :: gpus =>
      t ← gpu_total g;
      ts ← gpu_totals gpus;
      Ok (match t with Some z => z :: ts | None => ts end)
  end.

(** One optional resource total. *)
Definition capability_int (value : dict) (name : string) (result : dict) : res dict :=
  match jget name value with
  | None => Ok result
  | Some v => z ← _bounded_int v "capabilities" 0 (2 ^ 60); Ok (jset name (JInt z) result)
  end.

(** The derivation of totals from the descriptive [gpus] and [system] objects
    of older workers. *)
Definition derive_vram (value result : dict) : res dict :=
  if jmem "vram_bytes" result then Ok result
  else match jget_or "gpus" (JList []) value with
       | JList gpus =>
           if 16 <? Z.of_nat (length gpus) then cap_error "invalid_gpus"
           else
             totals ← gpu_totals gpus;
             match totals with
             | [] => Ok result
             | t :: ts =>
                 Ok (jset "vram_bytes" (JInt (Z.min (List.fold_left Z.max ts t) (2 ^ 60))) result)
             end
       | _ => cap_error "invalid_gpus"
       end.

Definition derive_ram (value result : dict) : res dict :=
  if jmem "ram_bytes" result then Ok result
  else match jget_or "system" JNull value with
       | JNull => Ok result
       | JObj system =>
           let result :=
             match jget_or "ram_bytes" (jget_or "ram_total" JNull system) system with
             | JInt z => if (0 <=? z) && (z <=? 2 ^ 60) then jset "ram_bytes" (JInt z) result
                         else result
             | _ => result
             end in
           if jmem "runtime_version" result then Ok result
           else match jget_or "runtime_version" JNull system with
                | JNull => Ok result
                | v => s ← _protocol_string v _REPORTED_VERSION "runtime_version";
                       Ok (jset "runtime_version" (JStr s) result)
                end
       | _ => cap_error "invalid_system"
       end.

Definition _canonical_executor_capabilities (value : dict) : res dict :=
  result ← (match jget_or "capability_schema_version" JNull value with
            | JNull => Ok []
            | JInt 2 => Ok [("capability_schema_version", JInt 2)]
            | _ => cap_error "invalid_capability_schema_version"
            end : res dict);
  model_digests ← _canonical_digest_list (jget_or "model_digests" (JList []) value)
                    "model_digests" 1024;
  let result := jset "model_digests" (JList (map JStr model_digests)) result in
  node_pack_digests ← _canonical_digest_list (jget_or "node_pack_digests" (JList []) value)
                        "node_pack_digests" 256;
  let result := jset "node_pack_digests" (JList (map JStr node_pack_digests)) result in
  readiness ← _canonical_workflow_readiness (jget_or "workflow_readiness" (JList []) value);
  let result := jset "workflow_readiness" (JList (map readiness_json readiness)) result in
  let derived_ready :=
    map rd_workflow_digest (List.filter (fun r => String.eqb (rd_state r) "ready") readiness) in
  _ ← (match jget "ready_workflow_digests" value with
       | None => Ok tt
       | Some v =>
           reported_ready ← _canonical_digest_list v "ready_workflow_digests" 256;
           if reported_ready =d derived_ready then Ok tt
           else cap_error "inconsistent_ready_workflows"
       end : res unit);
  let result := jset "ready_workflow_digests" (JList (map JStr derived_ready)) result in
  result ← capability_int value "vram_bytes" result;
  result ← capability_int value "ram_bytes" result;
  result ← (match jget_or "runtime_version" JNull value with
            | JNull => Ok result
            | v => s ← _protocol_string v _REPORTED_VERSION "runtime_version";
                   Ok (jset "runtime_version" (JStr s) result)
            end : res dict);
  result ← derive_vram value result;
  derive_ram value result.

Definition _canonical_executor_descriptor (descriptor : dict) (executor_type : string)
    : res dict :=
  let result := [("type", JStr executor_type)] in
  result ← (match jget "version" descriptor with
            | None => Ok result
            | Some v => s ← _protocol_string v _REPORTED_VERSION "executor_version";
                        Ok (jset "version" (JStr s) result)
            end : res dict);
  payload_formats ← _canonical_known_string_list
    (jget_or "payload_formats" (JList []) descriptor) _PAYLOAD_FORMATS "payload_formats" 32;
  let result := jset "payload_formats" (JList (map JStr payload_formats)) result in
  operations ← _canonical_known_string_list
    (jget_or "operations" (JList []) descriptor) _OPERATIONS "operations" 32;
  let result := jset "operations" (JList (map JStr operations)) result in
  concurrency ← _bounded_int (jget_or "max_concurrency" (JInt 1) descriptor) "capabilities" 1 64;
  let result := jset "max_concurrency" (JInt concurrency) result in
  match jget_or "capabilities" (JObj []) descriptor with
  | JObj nested =>
      capabilities ← _canonical_executor_capabilities nested;
      Ok (jset "capabilities" (JObj capabilities) result)
  | _ => cap_error "invalid_executor_capabilities"
  end.

(** An optional install-specification version pinned to one integer. *)
Definition pinned_version (raw : dict) (name reason : string) (expected : Z) (result : dict)
    : res dict :=
  match jget name raw with
  | None => Ok result
  | Some (JInt z) => if z =? expected then Ok (jset name (JInt z) result) else cap_error reason
  | Some _ => cap_error reason
  end.

Definition descriptor_has_type (executor_type : string) (descriptor : json) : bool :=
  match descriptor with
  | JObj d => match jget "type" d with Some (JStr t) => String.eqb t executor_type | _ => false end
  | _ => false
  end.

Definition canonical_worker_capabilities (value : json) (executor_type : string) : res dict :=
  raw ← _mapping value "capabilities";
  if match raw with [] => true | _ => false end then Ok []
  else
    result ← (match jget "worker_runtime_version" raw with
              | None => Ok []
              | Some v => s ← _protocol_string v _REPORTED_VERSION "worker_runtime_version";
                          Ok [("worker_runtime_version", JStr s)]
              end : res dict);
    result ← pinned_version raw "capability_install_spec_version"
               "invalid_capability_install_spec_version" 2 result;
    result ← pinned_version raw "node_pack_install_spec_version"
               "invalid_node_pack_install_spec_version" 1 result;
    result ← (match jget_or "maintenance_actions" (JList []) raw with
              | JList l =>
                  if Z.of_nat (length _MAINTENANCE_ACTIONS) <? Z.of_nat (length l)
                  then cap_error "invalid_maintenance_actions"
                  else match json_strs l with
                       | None => cap_error "invalid_maintenance_actions"
                       | Some actions =>
                           if existsb (fun a => negb (a ∈? _MAINTENANCE_ACTIONS)) actions
                           then cap_error "invalid_maintenance_actions"
                           else if negb (str_distinct actions)
                           then cap_error "duplicate_maintenance_action"
                           else Ok (jset "maintenance_actions"
                             (JList (map JStr (List.filter (fun a => a ∈? actions)
                                                 _MAINTENANCE_ACTIONS))) result)
                       end
              | _ => cap_error "invalid_maintenance_actions"
              end : res dict);
    match jget_or "executors" (JList []) raw with
    | JList executors =>
        if 8 <? Z.of_nat (length executors) then cap_error "invalid_executors"
        else
          match List.filter (descriptor_has_type executor_type) executors with
          | [] => Ok (jset "executors" (JList []) result)
          | [JObj d] =>
              e ← _canonical_executor_descriptor d executor_type;
              Ok (jset "executors" (JList [JObj e]) result)
          | _ => cap_error "duplicate_executor"
          end
    | _ => cap_error "invalid_executors"
    end.
