(* ===== verification/Diagnostics.v ===== *)
(** * Bounded task diagnostics ([src/vgen/protocol/diagnostics.py])

    The fixed vocabulary a worker may attach to a failed attempt or to its
    progress reports. *)

From S2P Require Import Prelude Python Errors.

Open Scope Z_scope.

(** ** Vocabulary *)

Definition _UNSUPPORTED_PAYLOAD_REASONS : list string :=
  ["cyclic_graph"; "dangling_node_connection"; "duplicate_input_binding"; "empty_graph";
   "graph_depth_limit"; "graph_edge_limit"; "graph_mapping_limit"; "graph_node_limit";
   "graph_sequence_limit"; "graph_value_depth_limit"; "graph_value_size_limit";
   "input_binding_limit"; "input_binding_target_not_allowed"; "invalid_input_binding";
   "invalid_input_binding_field"; "invalid_input_field"; "invalid_nested_field";
   "invalid_node_class"; "invalid_node_connection"; "invalid_node_identifier";
   "invalid_node_inputs"; "invalid_node_metadata"; "invalid_numeric_value";
   "node_class_not_allowed"; "node_input_limit"; "operation_not_allowed_by_workflow";
   "payload_size_limit"; "unbound_load_image"; "unexpected_node_structure"; "unsafe_local_path";
   "unsupported_graph_value"; "workflow_bindings_mismatch"; "workflow_graph_mismatch";
   "workflow_mapping_invalid"; "workflow_not_allowed"; "workflow_operation_mismatch";
   "workflow_parameters_invalid"; "workflow_parameters_not_canonical";
   "workflow_parameters_required"].

Definition _DEPENDENCY_MISSING_REASONS : list string :=
  ["history_missing"; "input_upload_rejected"; "invalid_input_upload_response";
   "invalid_prompt_response"; "local_execution_failed"; "model_integrity_unavailable";
   "model_load_incompatible"; "model_not_found"; "no_output"; "node_class_missing";
   "node_runtime_error"; "node_validation_failed"; "python_dependency_missing";
   "tensor_shape_mismatch"; "workflow_rejected"].

(** [_FAILURE_REASONS_BY_CODE.get(code, frozenset())]. *)
Definition _FAILURE_REASONS_BY_CODE (c : ErrorCode.t) : list string :=
  match c with
  | ErrorCode.UNSUPPORTED_PAYLOAD => _UNSUPPORTED_PAYLOAD_REASONS
  | ErrorCode.EXECUTOR_UNAVAILABLE => ["output_path_outside_root"; "policy_required"]
  | ErrorCode.DEPENDENCY_MISSING => _DEPENDENCY_MISSING_REASONS
  | ErrorCode.GPU_OUT_OF_MEMORY => ["gpu_out_of_memory"; "insufficient_vram"]
  | ErrorCode.SYSTEM_OUT_OF_MEMORY => ["insufficient_ram"; "system_out_of_memory"]
  | _ => []
  end.

Definition code_reason (c : ErrorCode.t) : string := str_lower (ErrorCode.name c).

Definition SAFE_TASK_FAILURE_REASONS : list string :=
  List.flat_map _FAILURE_REASONS_BY_CODE ErrorCode.all ++ map code_reason ErrorCode.all.

Definition SAFE_TASK_FAILURE_PHASES : list string := ["preparing"; "executing"; "uploading"].

Definition SAFE_TASK_FAILURE_COMPONENTS : list string :=
  ["decoder"; "encoder"; "model_loader"; "output"; "sampler"].

Definition SAFE_TASK_PROGRESS_STAGES : list string :=
  ["downloading_inputs"; "preparing"; "processing"; "queued"; "resuming_output_upload";
   "sampled"; "sampling"; "uploading_outputs"].

(** ** Failure details *)

(** Copy [details[name]] when it is a string of the vocabulary. *)
Definition keep_known (details : dict) (name : string) (vocabulary : list string)
    (canonical : dict) : dict :=
  match jget name details with
  | Some (JStr s) => if s ∈? vocabulary then jset name (JStr s) canonical else canonical
  | _ => canonical
  end.

(** [details] is [None] when it is not a mapping. *)
Definition canonical_task_failure_details (details : option dict) : dict :=
  match details with
  | None => []
  | Some details =>
      let canonical := keep_known details "reason" SAFE_TASK_FAILURE_REASONS [] in
      let canonical := keep_known details "phase" SAFE_TASK_FAILURE_PHASES canonical in
      keep_known details "component" SAFE_TASK_FAILURE_COMPONENTS canonical
  end.

Definition component_codes : list ErrorCode.t :=
  [ErrorCode.EXECUTOR_UNAVAILABLE; ErrorCode.DEPENDENCY_MISSING; ErrorCode.EXECUTION_TIMEOUT;
   ErrorCode.GPU_OUT_OF_MEMORY; ErrorCode.SYSTEM_OUT_OF_MEMORY].

Definition canonical_task_failure_details_for_code (details : option dict)
    (failure_code : option Z) (terminal_state : option string) : dict :=
  match failure_code with
  | None => []
  | Some n =>
      if (terminal_state =d Some "succeeded") || (terminal_state =d Some "cancelled") then []
      else match ErrorCode.of_int n with
      | None => []
      | Some code =>
          if code =d ErrorCode.EXECUTION_CANCELLED then []
          else
            let candidate := canonical_task_failure_details details in
            let canonical :=
              match jget "reason" candidate with
              | Some (JStr reason) =>
                  if reason ∈? (_FAILURE_REASONS_BY_CODE code ++ [code_reason code])
                  then [("reason", JStr reason)] else []
              | _ => []
              end in
            let canonical :=
              match jget "phase" candidate with
              | Some phase => if code =d ErrorCode.INTERNAL_ERROR
                              then jset "phase" phase canonical else canonical
              | None => canonical
              end in
            match jget "component" candidate with
            | Some component => if code ∈? component_codes
                                then jset "component" component canonical else canonical
            | None => canonical
            end
      end
  end.

(** ** Progress *)

(** A progress report: the fraction in hundredths, and its stage. *)
Record progress := MkProgress { p_hundredths : Z; p_stage : string }.

(** [round(m * 2^e, 2)] in hundredths: nearest, ties to even, of the exact
    value [100 * m * 2^e]. *)
Definition round_hundredths (m e : Z) : Z :=
  if 0 <=? e then 100 * m * 2 ^ e
  else
    let d := 2 ^ (- e) in
    let q := (100 * m) / d in
    let r := (100 * m) mod d in
    if 2 * r <? d then q
    else if d <? 2 * r then q + 1
    else if Z.even q then q else q + 1.

(** [0 <= m * 2^e <= 1]. *)
Definition in_unit (m e : Z) : bool :=
  (0 <=? m) && (if 0 <=? e then m * 2 ^ e <=? 1 else m <=? 2 ^ (- e)).

(** [canonical_task_progress]: [None] rejects the report. *)
Definition canonical_task_progress (report : json) : option progress :=
  match report with
  | JObj report =>
      let stage_of s := if s ∈? SAFE_TASK_PROGRESS_STAGES then s else "processing" in
      match jget_or "fraction" JNull report, jget_or "stage" JNull report with
      | JInt z, JStr s =>
          if in_unit z 0 then Some (MkProgress (round_hundredths z 0) (stage_of s)) else None
      | JFloat (FFin m e), JStr s =>
          if in_unit m e then Some (MkProgress (round_hundredths m e) (stage_of s)) else None
      | _, _ => None
      end
  | _ => None
  end.

(** ** Theorems *)

Lemma jget_keep_known k name vocabulary d c :
  jget k (keep_known d name vocabulary c) =
    if String.eqb k name then
      match jget name d with
      | Some (JStr s) => if s ∈? vocabulary then Some (JStr s) else jget k c
      | _ => jget k c
      end
    else jget k c.
Proof.
  unfold keep_known. destruct (String.eqb_spec k name) as [->|Hne].
  - destruct (jget name d) as [[]|]; try done. destruct (_ ∈? _); [apply jget_jset_eq|done].
  - destruct (jget name d) as [[]|]; try done. destruct (_ ∈? _); [|done].
    by apply jget_jset_ne.
Qed.

(** What the vocabulary-only projection can contain under each key. *)
Lemma canonical_details_lookup details k v :
  jget k (canonical_task_failure_details details) = Some v ->
  exists s, v = JStr s /\
    ((k = "phase" /\ s ∈ SAFE_TASK_FAILURE_PHASES) \/
     (k = "component" /\ s ∈ SAFE_TASK_FAILURE_COMPONENTS) \/ k = "reason").
Proof.
  destruct details as [d|]; [|done]. unfold canonical_task_failure_details.
  rewrite !jget_keep_known. intros H.
  repeat match type of H with
  | context [if String.eqb k ?n then _ else _] => destruct (String.eqb_spec k n) as [->|]
  | context [match jget ?n d with _ => _ end] => destruct (jget n d) as [[]|]
  | context [if ?s ∈? ?l then _ else _] => destruct (s ∈? l) eqn:?E
  end; try done; injection H as <-; eexists; (split; [done|]);
  try apply elem_b_spec in E; auto.
Qed.

Lemma jget_cons_eq k v d : jget k ((k, v) :: d) = Some v.
Proof. unfold jget. simpl. by rewrite String.eqb_refl. Qed.

(** Lookups in the code-bound projection, key by key. *)
Lemma jget_single_inv k k' v w : jget k [(k', w)] = Some v -> k = k' /\ v = w.
Proof.
  unfold jget. simpl. destruct (String.eqb_spec k' k) as [->|]; simpl; [by intros [= ->]|done].
Qed.

Lemma jget_jset_inv k k' v w d :
  jget k (jset k' w d) = Some v -> (k = k' /\ v = w) \/ jget k d = Some v.
Proof.
  destruct (decide (k = k')) as [->|Hne]; [rewrite jget_jset_eq; intros [= ->]; auto|].
  rewrite jget_jset_ne by done. auto.
Qed.

(** C37: a stored failure detail is always one of the fixed protocol words of
    the attempt's own error code; nothing else a worker sends survives, and
    successful or cancelled attempts keep no details. *)
Theorem failure_details_closed (details : option dict) (failure_code : option Z)
    (terminal_state : option string) (k : string) (v : json) :
  jget k (canonical_task_failure_details_for_code details failure_code terminal_state) = Some v ->
  terminal_state <> Some "succeeded" /\ terminal_state <> Some "cancelled" /\
  exists n c s, failure_code = Some n /\ ErrorCode.of_int n = Some c /\ v = JStr s /\
    ((k = "reason" /\ (s ∈ _FAILURE_REASONS_BY_CODE c \/ s = code_reason c)) \/
     (k = "phase" /\ c = ErrorCode.INTERNAL_ERROR /\ s ∈ SAFE_TASK_FAILURE_PHASES) \/
     (k = "component" /\ c ∈ component_codes /\ s ∈ SAFE_TASK_FAILURE_COMPONENTS)).
Proof.
  unfold canonical_task_failure_details_for_code.
  destruct failure_code as [n|]; [|done].
  destruct (_ || _) eqn:Et; [done|]. split_bools.
  destruct (ErrorCode.of_int n) as [c|] eqn:Hc; [|done].
  destruct (c =d ErrorCode.EXECUTION_CANCELLED); [done|].
  set (cand := canonical_task_failure_details details).
  set (base := match jget "reason" cand with Some (JStr _) => _ | _ => _ end).
  set (mid := match jget "phase" cand with Some _ => _ | None => _ end).
  intros Hk. split_and!; [done|done|]. exists n, c.
  assert (Hbase : forall v, jget k base = Some v -> k = "reason" /\ exists s, v = JStr s /\
            (s ∈ _FAILURE_REASONS_BY_CODE c \/ s = code_reason c)).
  { clear Hk. unfold base. intros w Hw. destruct (jget "reason" cand) as [[]|]; try done.
    destruct (_ ∈? _) eqn:E; [|done]. apply jget_single_inv in Hw as [-> ->].
    split; [done|]. apply elem_b_spec, elem_of_app in E as [E|E%list_elem_of_singleton]; eauto. }
  assert (Hmid : forall v, jget k mid = Some v -> jget k base = Some v \/
            (k = "phase" /\ c = ErrorCode.INTERNAL_ERROR /\ jget "phase" cand = Some v)).
  { clear Hk. unfold mid. intros w Hw. destruct (jget "phase" cand) as [ph|] eqn:Ep; [|auto].
    destruct (c =d ErrorCode.INTERNAL_ERROR) eqn:Ec; [|auto]. split_bools.
    apply jget_jset_inv in Hw as [[-> ->]|Hw]; auto. }
  assert (jget k mid = Some v \/ (k = "component" /\ c ∈ component_codes /\
            jget "component" cand = Some v)) as [[Hb|(-> & -> & Hp)]%Hmid|(-> & Hcc & Hp)].
  { clear -Hk. destruct (jget "component" cand) as [co|] eqn:Ep; [|auto].
    destruct (c ∈? component_codes) eqn:Ec; [|auto]. apply elem_b_spec in Ec.
    apply jget_jset_inv in Hk as [[-> ->]|Hk]; auto. }
  - apply Hbase in Hb as (-> & s & -> & Hs). eauto 10.
  - apply canonical_details_lookup in Hp as (s & -> & [[_ ?]|[[? _]|?]]); [|done|done]. eauto 10.
  - apply canonical_details_lookup in Hp as (s & -> & [[? _]|[[_ ?]|?]]); [done| |done].
    exists s. eauto 10.
Qed.

Lemma failure_details_closed_witness :
  (Some "failed" <> Some "succeeded" :> option string) /\ (Some "failed" <> Some "cancelled") /\
  exists n c s, Some 320005 = Some n /\ ErrorCode.of_int n = Some c /\
    JStr "insufficient_vram" = JStr s /\
    (("reason" = "reason" /\ (s ∈ _FAILURE_REASONS_BY_CODE c \/ s = code_reason c)) \/
     ("reason" = "phase" /\ c = ErrorCode.INTERNAL_ERROR /\ s ∈ SAFE_TASK_FAILURE_PHASES) \/
     ("reason" = "component" /\ c ∈ component_codes /\ s ∈ SAFE_TASK_FAILURE_COMPONENTS)).
Proof.
  apply (failure_details_closed
    (Some [("reason", JStr "insufficient_vram"); ("prompt", JStr "a cat")])).
  vm_compute. reflexivity.
Defined.

Lemma round_hundredths_unit m e :
  in_unit m e = true -> 0 <= round_hundredths m e <= 100.
Proof.
  unfold in_unit, round_hundredths. intros H. split_bools.
  destruct (0 <=? e) eqn:Ee; split_bools.
  - assert (0 < 2 ^ e) by (apply Z.pow_pos_nonneg; lia). nia.
  - assert (0 < 2 ^ (- e)) as Hd by (apply Z.pow_pos_nonneg; lia).
    set (d := 2 ^ (- e)) in *.
    pose proof (Z.div_mod (100 * m) d ltac:(lia)) as Hdm.
    pose proof (Z.mod_pos_bound (100 * m) d Hd) as Hmod.
    set (q := 100 * m / d) in *. set (r := (100 * m) mod d) in *.
    assert (0 <= q) by (apply Z.div_pos; lia).
    assert (q <= 100) by nia.
    destruct (2 * r <? d) eqn:E1; [lia|]. destruct (d <? 2 * r) eqn:E2; split_bools; [|].
    + assert (q <> 100) by nia. lia.
    + destruct (Z.even q) eqn:Ev; [lia|]. assert (q <> 100) by (intros ->; done). lia.
Qed.

(** An accepted progress report is a whole number of hundredths between
    0 and 100 together with a stage of the fixed vocabulary. *)
Theorem progress_bounded (report : json) (p : progress) :
  canonical_task_progress report = Some p ->
  0 <= p_hundredths p <= 100 /\ p_stage p ∈ SAFE_TASK_PROGRESS_STAGES.
Proof.
  assert (Hst : forall s, (if s ∈? SAFE_TASK_PROGRESS_STAGES then s else "processing")
            ∈ SAFE_TASK_PROGRESS_STAGES).
  { intros s. destruct (s ∈? _) eqn:E; [by apply elem_b_spec|]. by apply elem_b_spec. }
  unfold canonical_task_progress. destruct report as [| | | | | |d]; try done.
  destruct (jget_or "fraction" JNull d) as [| |z|[m e| |]| | |]; try done;
    destruct (jget_or "stage" JNull d); try done;
    (destruct (in_unit _ _) eqn:E; [|done]); intros [= <-];
    (split; [by apply round_hundredths_unit|apply Hst]).
Qed.

Lemma progress_bounded_witness :
  0 <= 50 <= 100 /\ "sampling" ∈ SAFE_TASK_PROGRESS_STAGES.
Proof.
  apply (progress_bounded (JObj [("fraction", JFloat (FFin 1 (-1))); ("stage", JStr "sampling")])
           (MkProgress 50 "sampling")).
  vm_compute. reflexivity.
Defined.
