(* ===== verification/Schema.v ===== *)
(** * The gateway database ([src/vgen/gateway/database.py])

    One record per table of the SQLite schema, with its columns in declaration
    order; a table is the list of its rows in insertion order.  A [TEXT] column
    restricted by a [CHECK .. IN] constraint is an enumeration, a nullable
    column an [option], a JSON column a [jtext], a [REAL] timestamp a number of
    microseconds.  The primary-key, unique, partial-unique and foreign-key
    constraints are the boolean functions an [INSERT] evaluates. *)

From S2P Require Import Prelude Python.

Open Scope Z_scope.

(** ** Enumerations of the CHECK constraints *)

(** [users.status]. *)
Inductive user_status :=
  | UActive | USuspended | URevoked.
#[export] Instance user_status_eq_dec : EqDecision user_status.
Proof. solve_decision. Defined.

(** [status of devices, brokers, broker devices and memberships]. *)
Inductive live_status :=
  | SActive | SRevoked.
#[export] Instance live_status_eq_dec : EqDecision live_status.
Proof. solve_decision. Defined.

(** [status of workspaces and pools]. *)
Inductive arch_status :=
  | SpActive | SpArchived.
#[export] Instance arch_status_eq_dec : EqDecision arch_status.
Proof. solve_decision. Defined.

(** [services.status]. *)
Inductive service_status :=
  | SvPending | SvActive | SvRevoked.
#[export] Instance service_status_eq_dec : EqDecision service_status.
Proof. solve_decision. Defined.

(** [memberships.role]. *)
Inductive member_role :=
  | RoleOwner | RoleAdmin | RoleMember.
#[export] Instance member_role_eq_dec : EqDecision member_role.
Proof. solve_decision. Defined.

(** [workers.status]. *)
Inductive worker_status :=
  | WPending | WActive | WOffline | WDraining | WRevoked.
#[export] Instance worker_status_eq_dec : EqDecision worker_status.
Proof. solve_decision. Defined.

(** [worker_allocations.status]. *)
Inductive alloc_status :=
  | AlOffered | AlPendingOwner | AlPendingWorkspace | AlActive | AlRevoked.
#[export] Instance alloc_status_eq_dec : EqDecision alloc_status.
Proof. solve_decision. Defined.

(** [worker_maintenance_jobs.kind]. *)
Inductive job_kind :=
  | KWorkerUpdate | KModelInstall | KCapabilityInstall | KNodePackInstall.
#[export] Instance job_kind_eq_dec : EqDecision job_kind.
Proof. solve_decision. Defined.

(** [worker_maintenance_jobs.state]. *)
Inductive job_state :=
  | MAwaitingUpload | MQueued | MLeased | MRunning | MRestarting | MSucceeded | MFailed | MCancelled | MExpired.
#[export] Instance job_state_eq_dec : EqDecision job_state.
Proof. solve_decision. Defined.

(** [broker_commands.state]. *)
Inductive command_state :=
  | CPending | CCompleted | CFailed | CExpired.
#[export] Instance command_state_eq_dec : EqDecision command_state.
Proof. solve_decision. Defined.

(** [tasks.state]. *)
Inductive task_state :=
  | TPrepared | TCommitted | TQueued | TReserved | TRunning | TRekeyRequired | TSucceeded | TFailed | TCancelled | TExpired.
#[export] Instance task_state_eq_dec : EqDecision task_state.
Proof. solve_decision. Defined.

(** [task_attempts.state]. *)
Inductive attempt_state :=
  | AReserved | ALeased | ARunning | ASucceeded | AFailed | ACancelled | AExpired.
#[export] Instance attempt_state_eq_dec : EqDecision attempt_state.
Proof. solve_decision. Defined.

(** [task_attempts.responsibility]. *)
Inductive responsibility :=
  | RConsumer | RProvider | RPlatform | RNone.
#[export] Instance responsibility_eq_dec : EqDecision responsibility.
Proof. solve_decision. Defined.

(** [artifacts.direction]. *)
Inductive direction :=
  | DInput | DOutput.
#[export] Instance direction_eq_dec : EqDecision direction.
Proof. solve_decision. Defined.

(** [artifacts.state and maintenance_artifacts.state]. *)
Inductive artifact_state :=
  | ArPending | ArUploaded | ArAvailable | ArFailed | ArDeleted.
#[export] Instance artifact_state_eq_dec : EqDecision artifact_state.
Proof. solve_decision. Defined.

(** [rate_cards.status]. *)
Inductive rate_status :=
  | RtProposed | RtApproved | RtRejected | RtSuperseded.
#[export] Instance rate_status_eq_dec : EqDecision rate_status.
Proof. solve_decision. Defined.

(** [usage_ledger.entry_type]. *)
Inductive entry_type :=
  | EnCharge | EnReversal.
#[export] Instance entry_type_eq_dec : EqDecision entry_type.
Proof. solve_decision. Defined.

(** [enrollments.kind]. *)
Inductive enroll_kind :=
  | EkUser | EkBrokerDevice | EkWorker | EkService | EkWorkspaceMember | EkWorkerAllocation.
#[export] Instance enroll_kind_eq_dec : EqDecision enroll_kind.
Proof. solve_decision. Defined.

(** [enrollments.method]. *)
Inductive enroll_method :=
  | EmDirectInvite | EmInviteApproval | EmApplyApproval.
#[export] Instance enroll_method_eq_dec : EqDecision enroll_method.
Proof. solve_decision. Defined.

(** [enrollments.state]. *)
Inductive enroll_state :=
  | EsIssued | EsClaimed | EsPending | EsActive | EsExpired | EsRejected | EsRevoked.
#[export] Instance enroll_state_eq_dec : EqDecision enroll_state.
Proof. solve_decision. Defined.

(** [sessions.principal_type]. *)
Inductive principal :=
  | PDevice | PService | PWorker.
#[export] Instance principal_eq_dec : EqDecision principal.
Proof. solve_decision. Defined.

(** [tasks.client_channel]. *)
Inductive client_channel :=
  | ChApi | ChCli | ChBroker.
#[export] Instance client_channel_eq_dec : EqDecision client_channel.
Proof. solve_decision. Defined.

(** ** Tables *)

Record user_row := Mk_user_row {
  u_id : string;
  u_display_name : string;
  u_root_signing_public_key : string;
  u_root_encryption_public_key : string;
  u_status : user_status;
  u_is_operator : bool;
  u_created_at : Z;
  u_updated_at : Z
}.
#[export] Instance user_row_eta : Eta user_row := fun r =>
  Mk_user_row
    (u_id r) (u_display_name r) (u_root_signing_public_key r) (u_root_encryption_public_key r)
    (u_status r) (u_is_operator r) (u_created_at r) (u_updated_at r).

Record device_row := Mk_device_row {
  dv_id : string;
  dv_user_id : string;
  dv_name : string;
  dv_signing_public_key : string;
  dv_encryption_public_key : string;
  dv_certificate : option string;
  dv_status : live_status;
  dv_created_at : Z;
  dv_last_seen_at : option Z;
  dv_revoked_at : option Z
}.
#[export] Instance device_row_eta : Eta device_row := fun r =>
  Mk_device_row
    (dv_id r) (dv_user_id r) (dv_name r) (dv_signing_public_key r) (dv_encryption_public_key r)
    (dv_certificate r) (dv_status r) (dv_created_at r) (dv_last_seen_at r) (dv_revoked_at r).

Record session_row := Mk_session_row {
  ss_id : string;
  ss_principal_type : principal;
  ss_principal_id : string;
  ss_user_id : option string;
  ss_token_hash : string;
  ss_scopes : jtext;
  ss_expires_at : Z;
  ss_revoked_at : option Z;
  ss_created_at : Z;
  ss_last_seen_at : option Z
}.
#[export] Instance session_row_eta : Eta session_row := fun r =>
  Mk_session_row
    (ss_id r) (ss_principal_type r) (ss_principal_id r) (ss_user_id r) (ss_token_hash r)
    (ss_scopes r) (ss_expires_at r) (ss_revoked_at r) (ss_created_at r) (ss_last_seen_at r).

Record service_row := Mk_service_row {
  sv_id : string;
  sv_workspace_id : string;
  sv_name : string;
  sv_signing_public_key : string;
  sv_encryption_public_key : string;
  sv_scopes : jtext;
  sv_status : service_status;
  sv_created_by_user_id : option string;
  sv_created_at : Z;
  sv_updated_at : Z;
  sv_revoked_at : option Z
}.
#[export] Instance service_row_eta : Eta service_row := fun r =>
  Mk_service_row
    (sv_id r) (sv_workspace_id r) (sv_name r) (sv_signing_public_key r)
    (sv_encryption_public_key r) (sv_scopes r) (sv_status r) (sv_created_by_user_id r)
    (sv_created_at r) (sv_updated_at r) (sv_revoked_at r).

Record nonce_row := Mk_nonce_row {
  rn_principal_type : string;
  rn_principal_id : string;
  rn_nonce : string;
  rn_signature_created_at : Z;
  rn_expires_at : Z;
  rn_claimed_at : Z
}.
#[export] Instance nonce_row_eta : Eta nonce_row := fun r =>
  Mk_nonce_row
    (rn_principal_type r) (rn_principal_id r) (rn_nonce r) (rn_signature_created_at r)
    (rn_expires_at r) (rn_claimed_at r).

Record broker_row := Mk_broker_row {
  br_id : string;
  br_owner_user_id : string;
  br_name : string;
  br_status : live_status;
  br_created_at : Z;
  br_updated_at : Z
}.
#[export] Instance broker_row_eta : Eta broker_row := fun r =>
  Mk_broker_row
    (br_id r) (br_owner_user_id r) (br_name r) (br_status r) (br_created_at r) (br_updated_at r).

Record broker_device_row := Mk_broker_device_row {
  bd_id : string;
  bd_broker_id : string;
  bd_device_id : string;
  bd_status : live_status;
  bd_approved_by_user_id : string;
  bd_runtime_version : option string;
  bd_protocol_version : option string;
  bd_build_commit : option string;
  bd_journal_pending : option Z;
  bd_heartbeat_at : option Z;
  bd_created_at : Z;
  bd_revoked_at : option Z
}.
#[export] Instance broker_device_row_eta : Eta broker_device_row := fun r =>
  Mk_broker_device_row
    (bd_id r) (bd_broker_id r) (bd_device_id r) (bd_status r) (bd_approved_by_user_id r)
    (bd_runtime_version r) (bd_protocol_version r) (bd_build_commit r) (bd_journal_pending r)
    (bd_heartbeat_at r) (bd_created_at r) (bd_revoked_at r).

Record broker_command_row := Mk_broker_command_row {
  bc_id : string;
  bc_broker_device_id : string;
  bc_command_key : option string;
  bc_command_type : string;
  bc_payload : jtext;
  bc_state : command_state;
  bc_result : option jtext;
  bc_created_at : Z;
  bc_expires_at : option Z;
  bc_completed_at : option Z
}.
#[export] Instance broker_command_row_eta : Eta broker_command_row := fun r =>
  Mk_broker_command_row
    (bc_id r) (bc_broker_device_id r) (bc_command_key r) (bc_command_type r) (bc_payload r)
    (bc_state r) (bc_result r) (bc_created_at r) (bc_expires_at r) (bc_completed_at r).

Record workspace_row := Mk_workspace_row {
  ws_id : string;
  ws_name : string;
  ws_owner_user_id : string;
  ws_founder_broker_id : option string;
  ws_enrollment_policy : jtext;
  ws_key_version : Z;
  ws_status : arch_status;
  ws_created_at : Z;
  ws_updated_at : Z
}.
#[export] Instance workspace_row_eta : Eta workspace_row := fun r =>
  Mk_workspace_row
    (ws_id r) (ws_name r) (ws_owner_user_id r) (ws_founder_broker_id r) (ws_enrollment_policy r)
    (ws_key_version r) (ws_status r) (ws_created_at r) (ws_updated_at r).

Record membership_row := Mk_membership_row {
  mb_workspace_id : string;
  mb_user_id : string;
  mb_role : member_role;
  mb_status : live_status;
  mb_created_at : Z;
  mb_revoked_at : option Z
}.
#[export] Instance membership_row_eta : Eta membership_row := fun r =>
  Mk_membership_row
    (mb_workspace_id r) (mb_user_id r) (mb_role r) (mb_status r) (mb_created_at r)
    (mb_revoked_at r).

Record pool_row := Mk_pool_row {
  po_id : string;
  po_workspace_id : string;
  po_name : string;
  po_policy : jtext;
  po_status : arch_status;
  po_created_at : Z;
  po_updated_at : Z
}.
#[export] Instance pool_row_eta : Eta pool_row := fun r =>
  Mk_pool_row
    (po_id r) (po_workspace_id r) (po_name r) (po_policy r) (po_status r) (po_created_at r)
    (po_updated_at r).

Record worker_row := Mk_worker_row {
  w_id : string;
  w_owner_user_id : string;
  w_manager_broker_id : option string;
  w_name : string;
  w_signing_public_key : string;
  w_encryption_public_key : string;
  w_certificate : option string;
  w_executor_type : string;
  w_executor_version : string;
  w_capabilities : jtext;
  w_capacity : Z;
  w_status : worker_status;
  w_fencing_counter : Z;
  w_last_seen_at : option Z;
  w_capability_auth_enforced_at : option Z;
  w_created_at : Z;
  w_updated_at : Z;
  w_revoked_at : option Z
}.
#[export] Instance worker_row_eta : Eta worker_row := fun r =>
  Mk_worker_row
    (w_id r) (w_owner_user_id r) (w_manager_broker_id r) (w_name r) (w_signing_public_key r)
    (w_encryption_public_key r) (w_certificate r) (w_executor_type r) (w_executor_version r)
    (w_capabilities r) (w_capacity r) (w_status r) (w_fencing_counter r) (w_last_seen_at r)
    (w_capability_auth_enforced_at r) (w_created_at r) (w_updated_at r) (w_revoked_at r).

Record workflow_auth_row := Mk_workflow_auth_row {
  wa_worker_id : string;
  wa_authorization_source_id : string;
  wa_workflow_ref : string;
  wa_workflow_digest : string;
  wa_spec_digest : string;
  wa_node_classes : jtext;
  wa_authorized_at : Z;
  wa_revoked_at : option Z
}.
#[export] Instance workflow_auth_row_eta : Eta workflow_auth_row := fun r =>
  Mk_workflow_auth_row
    (wa_worker_id r) (wa_authorization_source_id r) (wa_workflow_ref r) (wa_workflow_digest r)
    (wa_spec_digest r) (wa_node_classes r) (wa_authorized_at r) (wa_revoked_at r).

Record model_auth_row := Mk_model_auth_row {
  ma_worker_id : string;
  ma_authorization_source_id : string;
  ma_workflow_ref : string;
  ma_workflow_digest : string;
  ma_model_digest : string;
  ma_spec_digest : string;
  ma_authorized_at : Z;
  ma_revoked_at : option Z
}.
#[export] Instance model_auth_row_eta : Eta model_auth_row := fun r =>
  Mk_model_auth_row
    (ma_worker_id r) (ma_authorization_source_id r) (ma_workflow_ref r) (ma_workflow_digest r)
    (ma_model_digest r) (ma_spec_digest r) (ma_authorized_at r) (ma_revoked_at r).

Record job_row := Mk_job_row {
  mj_id : string;
  mj_worker_id : string;
  mj_broker_id : string;
  mj_issued_by_user_id : string;
  mj_issued_by_device_id : string;
  mj_kind : job_kind;
  mj_spec : jtext;
  mj_spec_digest : string;
  mj_authorization : jtext;
  mj_dedupe_key : string;
  mj_state : job_state;
  mj_progress : jtext;
  mj_result : option jtext;
  mj_fencing_token : Z;
  mj_lease_session_id : option string;
  mj_lease_expires_at : option Z;
  mj_heartbeat_at : option Z;
  mj_expires_at : Z;
  mj_created_at : Z;
  mj_updated_at : Z;
  mj_completed_at : option Z
}.
#[export] Instance job_row_eta : Eta job_row := fun r =>
  Mk_job_row
    (mj_id r) (mj_worker_id r) (mj_broker_id r) (mj_issued_by_user_id r)
    (mj_issued_by_device_id r) (mj_kind r) (mj_spec r) (mj_spec_digest r) (mj_authorization r)
    (mj_dedupe_key r) (mj_state r) (mj_progress r) (mj_result r) (mj_fencing_token r)
    (mj_lease_session_id r) (mj_lease_expires_at r) (mj_heartbeat_at r) (mj_expires_at r)
    (mj_created_at r) (mj_updated_at r) (mj_completed_at r).

Record receipt_row := Mk_receipt_row {
  mr_device_id : string;
  mr_nonce : string;
  mr_authorization_digest : string;
  mr_job_id : string;
  mr_expires_at : Z;
  mr_created_at : Z
}.
#[export] Instance receipt_row_eta : Eta receipt_row := fun r =>
  Mk_receipt_row
    (mr_device_id r) (mr_nonce r) (mr_authorization_digest r) (mr_job_id r) (mr_expires_at r)
    (mr_created_at r).

Record job_artifact_row := Mk_job_artifact_row {
  mf_id : string;
  mf_job_id : string;
  mf_kind : job_kind;
  mf_store_type : string;
  mf_object_ref : string;
  mf_expected_size : Z;
  mf_expected_sha256 : string;
  mf_observed_size : option Z;
  mf_observed_sha256 : option string;
  mf_state : artifact_state;
  mf_created_at : Z;
  mf_updated_at : Z
}.
#[export] Instance job_artifact_row_eta : Eta job_artifact_row := fun r =>
  Mk_job_artifact_row
    (mf_id r) (mf_job_id r) (mf_kind r) (mf_store_type r) (mf_object_ref r) (mf_expected_size r)
    (mf_expected_sha256 r) (mf_observed_size r) (mf_observed_sha256 r) (mf_state r)
    (mf_created_at r) (mf_updated_at r).

Record allocation_row := Mk_allocation_row {
  al_id : string;
  al_worker_id : string;
  al_workspace_id : string;
  al_pool_id : string;
  al_owner_consent_at : option Z;
  al_workspace_approved_at : option Z;
  al_approved_by_user_id : option string;
  al_allocation_proof : option jtext;
  al_status : alloc_status;
  al_created_at : Z;
  al_updated_at : Z;
  al_revoked_at : option Z
}.
#[export] Instance allocation_row_eta : Eta allocation_row := fun r =>
  Mk_allocation_row
    (al_id r) (al_worker_id r) (al_workspace_id r) (al_pool_id r) (al_owner_consent_at r)
    (al_workspace_approved_at r) (al_approved_by_user_id r) (al_allocation_proof r)
    (al_status r) (al_created_at r) (al_updated_at r) (al_revoked_at r).

Record enrollment_row := Mk_enrollment_row {
  en_id : string;
  en_kind : enroll_kind;
  en_method : enroll_method;
  en_state : enroll_state;
  en_workspace_id : option string;
  en_pool_id : option string;
  en_issuer_user_id : option string;
  en_subject_user_id : option string;
  en_subject_id : option string;
  en_subject_key_fingerprint : option string;
  en_scopes : jtext;
  en_relationship : option string;
  en_invite_secret_hash : option string;
  en_claim : option jtext;
  en_expires_at : option Z;
  en_claimed_at : option Z;
  en_decided_at : option Z;
  en_decided_by_user_id : option string;
  en_created_at : Z;
  en_updated_at : Z
}.
#[export] Instance enrollment_row_eta : Eta enrollment_row := fun r =>
  Mk_enrollment_row
    (en_id r) (en_kind r) (en_method r) (en_state r) (en_workspace_id r) (en_pool_id r)
    (en_issuer_user_id r) (en_subject_user_id r) (en_subject_id r)
    (en_subject_key_fingerprint r) (en_scopes r) (en_relationship r) (en_invite_secret_hash r)
    (en_claim r) (en_expires_at r) (en_claimed_at r) (en_decided_at r) (en_decided_by_user_id r)
    (en_created_at r) (en_updated_at r).

Record manifest_row := Mk_manifest_row {
  km_id : string;
  km_subject_type : string;
  km_subject_id : string;
  km_key_version : Z;
  km_manifest : jtext;
  km_signature : string;
  km_signer_user_id : option string;
  km_created_at : Z;
  km_revoked_at : option Z
}.
#[export] Instance manifest_row_eta : Eta manifest_row := fun r =>
  Mk_manifest_row
    (km_id r) (km_subject_type r) (km_subject_id r) (km_key_version r) (km_manifest r)
    (km_signature r) (km_signer_user_id r) (km_created_at r) (km_revoked_at r).

Record key_envelope_row := Mk_key_envelope_row {
  ke_id : string;
  ke_workspace_id : option string;
  ke_task_id : option string;
  ke_recipient_type : string;
  ke_recipient_id : string;
  ke_key_version : Z;
  ke_algorithm : string;
  ke_envelope : string;
  ke_created_at : Z;
  ke_revoked_at : option Z
}.
#[export] Instance key_envelope_row_eta : Eta key_envelope_row := fun r =>
  Mk_key_envelope_row
    (ke_id r) (ke_workspace_id r) (ke_task_id r) (ke_recipient_type r) (ke_recipient_id r)
    (ke_key_version r) (ke_algorithm r) (ke_envelope r) (ke_created_at r) (ke_revoked_at r).

Record task_row := Mk_task_row {
  t_id : string;
  t_workspace_id : string;
  t_pool_id : string;
  t_consumer_user_id : option string;
  t_consumer_principal_type : string;
  t_consumer_principal_id : string;
  t_client_channel : client_channel;
  t_workflow_ref : string;
  t_workflow_digest : string;
  t_executor_type : string;
  t_public_requirements : jtext;
  t_content_key_version : Z;
  t_encrypted_payload : option string;
  t_reader_envelope : option string;
  t_assigned_worker_id : option string;
  t_reservation_expires_at : option Z;
  t_state : task_state;
  t_priority : Z;
  t_created_at : Z;
  t_committed_at : option Z;
  t_finished_at : option Z;
  t_updated_at : Z
}.
#[export] Instance task_row_eta : Eta task_row := fun r =>
  Mk_task_row
    (t_id r) (t_workspace_id r) (t_pool_id r) (t_consumer_user_id r)
    (t_consumer_principal_type r) (t_consumer_principal_id r) (t_client_channel r)
    (t_workflow_ref r) (t_workflow_digest r) (t_executor_type r) (t_public_requirements r)
    (t_content_key_version r) (t_encrypted_payload r) (t_reader_envelope r)
    (t_assigned_worker_id r) (t_reservation_expires_at r) (t_state r) (t_priority r)
    (t_created_at r) (t_committed_at r) (t_finished_at r) (t_updated_at r).

Record attempt_row := Mk_attempt_row {
  a_id : string;
  a_task_id : string;
  a_attempt_number : Z;
  a_worker_id : string;
  a_provider_user_id : string;
  a_manager_broker_id : option string;
  a_executor_type : string;
  a_executor_version : string;
  a_state : attempt_state;
  a_responsibility : option responsibility;
  a_failure_code : option Z;
  a_safe_failure_details : option jtext;
  a_progress : jtext;
  a_rate_snapshot : jtext;
  a_fencing_token : Z;
  a_reserved_at : Z;
  a_leased_at : option Z;
  a_started_at : option Z;
  a_finished_at : option Z;
  a_finish_semantic_hash : option string;
  a_finish_receipt : option jtext
}.
#[export] Instance attempt_row_eta : Eta attempt_row := fun r =>
  Mk_attempt_row
    (a_id r) (a_task_id r) (a_attempt_number r) (a_worker_id r) (a_provider_user_id r)
    (a_manager_broker_id r) (a_executor_type r) (a_executor_version r) (a_state r)
    (a_responsibility r) (a_failure_code r) (a_safe_failure_details r) (a_progress r)
    (a_rate_snapshot r) (a_fencing_token r) (a_reserved_at r) (a_leased_at r) (a_started_at r)
    (a_finished_at r) (a_finish_semantic_hash r) (a_finish_receipt r).

Record lease_row := Mk_lease_row {
  l_id : string;
  l_attempt_id : string;
  l_worker_id : string;
  l_fencing_token : Z;
  l_encrypted_tdk_envelope : string;
  l_issued_at : Z;
  l_expires_at : Z;
  l_heartbeat_at : option Z;
  l_released_at : option Z
}.
#[export] Instance lease_row_eta : Eta lease_row := fun r =>
  Mk_lease_row
    (l_id r) (l_attempt_id r) (l_worker_id r) (l_fencing_token r) (l_encrypted_tdk_envelope r)
    (l_issued_at r) (l_expires_at r) (l_heartbeat_at r) (l_released_at r).

Record artifact_row := Mk_artifact_row {
  ar_id : string;
  ar_task_id : string;
  ar_attempt_id : option string;
  ar_kind : string;
  ar_direction : direction;
  ar_store_type : string;
  ar_object_ref : string;
  ar_content_digest : option string;
  ar_encrypted_size : option Z;
  ar_media_metadata : jtext;
  ar_state : artifact_state;
  ar_created_at : Z;
  ar_updated_at : Z
}.
#[export] Instance artifact_row_eta : Eta artifact_row := fun r =>
  Mk_artifact_row
    (ar_id r) (ar_task_id r) (ar_attempt_id r) (ar_kind r) (ar_direction r) (ar_store_type r)
    (ar_object_ref r) (ar_content_digest r) (ar_encrypted_size r) (ar_media_metadata r)
    (ar_state r) (ar_created_at r) (ar_updated_at r).

Record rate_row := Mk_rate_row {
  rt_id : string;
  rt_worker_id : string;
  rt_workspace_id : string;
  rt_proposed_by_user_id : string;
  rt_approved_by_user_id : option string;
  rt_rate_microtokens_per_second : Z;
  rt_rate_microtokens_per_gpu_second : Z;
  rt_traffic_microtokens_per_gib : Z;
  rt_formula_version : Z;
  rt_status : rate_status;
  rt_proposed_at : Z;
  rt_decided_at : option Z
}.
#[export] Instance rate_row_eta : Eta rate_row := fun r =>
  Mk_rate_row
    (rt_id r) (rt_worker_id r) (rt_workspace_id r) (rt_proposed_by_user_id r)
    (rt_approved_by_user_id r) (rt_rate_microtokens_per_second r)
    (rt_rate_microtokens_per_gpu_second r) (rt_traffic_microtokens_per_gib r)
    (rt_formula_version r) (rt_status r) (rt_proposed_at r) (rt_decided_at r).

Record usage_event_row := Mk_usage_event_row {
  ue_id : string;
  ue_attempt_id : string;
  ue_worker_id : string;
  ue_event_kind : string;
  ue_metrics : jtext;
  ue_worker_signature : option string;
  ue_idempotency_key : option string;
  ue_observed_at : Z;
  ue_created_at : Z
}.
#[export] Instance usage_event_row_eta : Eta usage_event_row := fun r =>
  Mk_usage_event_row
    (ue_id r) (ue_attempt_id r) (ue_worker_id r) (ue_event_kind r) (ue_metrics r)
    (ue_worker_signature r) (ue_idempotency_key r) (ue_observed_at r) (ue_created_at r).

Record ledger_row := Mk_ledger_row {
  ul_id : string;
  ul_attempt_id : string;
  ul_entry_type : entry_type;
  ul_metrics : jtext;
  ul_rate_snapshot : jtext;
  ul_compute_microtokens : Z;
  ul_traffic_microtokens : Z;
  ul_total_microtokens : Z;
  ul_billable : bool;
  ul_responsibility : string;
  ul_formula_version : Z;
  ul_previous_hash : option string;
  ul_integrity_hash : string;
  ul_reverses_ledger_id : option string;
  ul_reversal_reason_code : option string;
  ul_created_at : Z
}.
#[export] Instance ledger_row_eta : Eta ledger_row := fun r =>
  Mk_ledger_row
    (ul_id r) (ul_attempt_id r) (ul_entry_type r) (ul_metrics r) (ul_rate_snapshot r)
    (ul_compute_microtokens r) (ul_traffic_microtokens r) (ul_total_microtokens r)
    (ul_billable r) (ul_responsibility r) (ul_formula_version r) (ul_previous_hash r)
    (ul_integrity_hash r) (ul_reverses_ledger_id r) (ul_reversal_reason_code r)
    (ul_created_at r).

Record recovery_challenge_row := Mk_recovery_challenge_row {
  dc_id : string;
  dc_user_id : string;
  dc_device_id : string;
  dc_challenge_value : string;
  dc_challenge_hash : string;
  dc_expires_at : Z;
  dc_consumed_at : option Z;
  dc_created_at : Z
}.
#[export] Instance recovery_challenge_row_eta : Eta recovery_challenge_row := fun r =>
  Mk_recovery_challenge_row
    (dc_id r) (dc_user_id r) (dc_device_id r) (dc_challenge_value r) (dc_challenge_hash r)
    (dc_expires_at r) (dc_consumed_at r) (dc_created_at r).

Record challenge_row := Mk_challenge_row {
  ac_id : string;
  ac_principal_type : principal;
  ac_principal_id : string;
  ac_challenge_value : string;
  ac_challenge_hash : string;
  ac_expires_at : Z;
  ac_consumed_at : option Z;
  ac_created_at : Z
}.
#[export] Instance challenge_row_eta : Eta challenge_row := fun r =>
  Mk_challenge_row
    (ac_id r) (ac_principal_type r) (ac_principal_id r) (ac_challenge_value r)
    (ac_challenge_hash r) (ac_expires_at r) (ac_consumed_at r) (ac_created_at r).

Record service_challenge_row := Mk_service_challenge_row {
  sc_id : string;
  sc_service_id : string;
  sc_challenge_value : string;
  sc_challenge_hash : string;
  sc_expires_at : Z;
  sc_consumed_at : option Z;
  sc_created_at : Z
}.
#[export] Instance service_challenge_row_eta : Eta service_challenge_row := fun r =>
  Mk_service_challenge_row
    (sc_id r) (sc_service_id r) (sc_challenge_value r) (sc_challenge_hash r) (sc_expires_at r)
    (sc_consumed_at r) (sc_created_at r).

Record idempotency_row := Mk_idempotency_row {
  ir_principal_key : string;
  ir_method : string;
  ir_path : string;
  ir_idempotency_key : string;
  ir_request_hash : string;
  ir_response_status : Z;
  ir_response_headers : jtext;
  ir_response_body : string;
  ir_expires_at : Z;
  ir_created_at : Z
}.
#[export] Instance idempotency_row_eta : Eta idempotency_row := fun r =>
  Mk_idempotency_row
    (ir_principal_key r) (ir_method r) (ir_path r) (ir_idempotency_key r) (ir_request_hash r)
    (ir_response_status r) (ir_response_headers r) (ir_response_body r) (ir_expires_at r)
    (ir_created_at r).

Record ticket_use_row := Mk_ticket_use_row {
  tu_ticket_hash : string;
  tu_artifact_id : string;
  tu_used_at : Z
}.
#[export] Instance ticket_use_row_eta : Eta ticket_use_row := fun r =>
  Mk_ticket_use_row
    (tu_ticket_hash r) (tu_artifact_id r) (tu_used_at r).

Record audit_row := Mk_audit_row {
  ae_id : string;
  ae_actor_type : string;
  ae_actor_id : string;
  ae_workspace_id : option string;
  ae_action : string;
  ae_subject_type : option string;
  ae_subject_id : option string;
  ae_safe_details : jtext;
  ae_request_id : option string;
  ae_created_at : Z
}.
#[export] Instance audit_row_eta : Eta audit_row := fun r =>
  Mk_audit_row
    (ae_id r) (ae_actor_type r) (ae_actor_id r) (ae_workspace_id r) (ae_action r)
    (ae_subject_type r) (ae_subject_id r) (ae_safe_details r) (ae_request_id r)
    (ae_created_at r).

(** ** The database *)

Record db := MkDb {
  users : list user_row;
  devices : list device_row;
  sessions : list session_row;
  services : list service_row;
  request_nonces : list nonce_row;
  brokers : list broker_row;
  broker_devices : list broker_device_row;
  broker_commands : list broker_command_row;
  workspaces : list workspace_row;
  memberships : list membership_row;
  pools : list pool_row;
  workers : list worker_row;
  worker_workflow_authorizations : list workflow_auth_row;
  worker_model_authorizations : list model_auth_row;
  worker_maintenance_jobs : list job_row;
  maintenance_intent_receipts : list receipt_row;
  maintenance_artifacts : list job_artifact_row;
  worker_allocations : list allocation_row;
  enrollments : list enrollment_row;
  key_manifests : list manifest_row;
  key_envelopes : list key_envelope_row;
  tasks : list task_row;
  task_attempts : list attempt_row;
  leases : list lease_row;
  artifacts : list artifact_row;
  rate_cards : list rate_row;
  usage_events : list usage_event_row;
  usage_ledger : list ledger_row;
  device_recovery_challenges : list recovery_challenge_row;
  auth_challenges : list challenge_row;
  service_auth_challenges : list service_challenge_row;
  idempotency_records : list idempotency_row;
  transfer_ticket_uses : list ticket_use_row;
  audit_events : list audit_row
}.
#[export] Instance db_eta : Eta db := fun r =>
  MkDb
    (users r) (devices r) (sessions r) (services r) (request_nonces r) (brokers r)
    (broker_devices r) (broker_commands r) (workspaces r) (memberships r) (pools r) (workers r)
    (worker_workflow_authorizations r) (worker_model_authorizations r)
    (worker_maintenance_jobs r) (maintenance_intent_receipts r) (maintenance_artifacts r)
    (worker_allocations r) (enrollments r) (key_manifests r) (key_envelopes r) (tasks r)
    (task_attempts r) (leases r) (artifacts r) (rate_cards r) (usage_events r) (usage_ledger r)
    (device_recovery_challenges r) (auth_challenges r) (service_auth_challenges r)
    (idempotency_records r) (transfer_ticket_uses r) (audit_events r).

Definition empty_db : db :=
  MkDb [] [] [] [] [] [] [] [] [] [] [] [] [] [] [] [] [] [] [] [] [] [] [] [] [] [] [] [] [] [] [] [] [] [].
