(* ===== verification/Store.v ===== *)
(** * The store: connection, transactions and statements

    [GatewayDatabase] keeps one SQLite connection behind a re-entrant lock, so
    an operation runs alone; [transaction] commits on normal exit and rolls the
    database back on any exception.  An operation is a function of the world
    (the database, the number of clock readings and of random draws so far) in
    a state and exception monad.  Time and randomness are oracles of [Env]:
    [clock n] is the n-th reading of [time.time()] in microseconds, [uuid n]
    the n-th random identifier body. *)

From S2P Require Import Prelude Python Bytes Schema.

Open Scope Z_scope.

(** ** Environment *)

(** The Ed25519 and SHA-256 primitives of the [cryptography] package. *)
Class Ed25519 := {
  ed_public : bytes -> bytes;               (* raw public key of a raw private key *)
  ed_sign : bytes -> bytes -> bytes;        (* private key, message *)
  ed_verify : bytes -> bytes -> bytes -> bool; (* public key, signature, message *)
  sha256_digest : bytes -> bytes
}.

(** What the operations read from outside the repository: the clock, the
    random source, SHA-256 of a canonical JSON text (in hexadecimal), the
    ordering of [packaging.version] ([None] is [InvalidVersion]), and Python's
    [str()] of a float, list or dictionary, [json.loads] of a text, the
    Unicode table behind [str.isalnum] for the code points beyond ASCII, and
    the signature primitives. *)
Class Env := {
  clock : nat -> Z;
  uuid : nat -> string;
  sha256_json : json -> string;
  version_lt : string -> string -> option bool;
  py_repr : json -> string;
  json_loads : string -> jtext;
  alnum_beyond_ascii : Z -> bool;
  env_ed25519 :: Ed25519
}.

(** Stand-ins without security for concrete runs: a signature is the public key
    followed by the message's value. *)
Definition toy_ed25519 : Ed25519 := {|
  ed_public sk := be_bytes 32 (be_value sk);
  ed_sign sk m := be_bytes 32 (be_value sk) ++ be_bytes 32 (be_value m);
  ed_verify pk sig m := sig =d pk ++ be_bytes 32 (be_value m);
  sha256_digest m := be_bytes 32 (be_value m)
|}.

(** Seconds as microseconds. *)
Definition seconds (n : Z) : Z := n * 1000000.

Definition WORKER_ONLINE_WINDOW_SECONDS : Z := seconds 120.

Record world := MkWorld { wd_db : db; wd_ticks : nat; wd_draws : nat }.
#[export] Instance world_eta : Eta world := fun r => MkWorld (wd_db r) (wd_ticks r) (wd_draws r).

(** ** The monad *)

Definition M (A : Type) : Type := world -> res A * world.

#[export] Instance M_ret : MRet M := fun A a w => (Ok a, w).
#[export] Instance M_bind : MBind M := fun A B f m w =>
  match m w with
  | (Ok a, w') => f a w'
  | (Raise e, w') => (Raise e, w')
  end.

Definition raise {A} (e : exc) : M A := fun w => (Raise e, w).

(** [if not ok: raise e]. *)
Definition check (ok : bool) (e : exc) : M unit := if ok then mret tt else raise e.

(** [if x is None: raise e]. *)
Definition require {A} (o : option A) (e : exc) : M A :=
  match o with Some a => mret a | None => raise e end.

Definition lift_res {A} (r : res A) : M A := fun w => (r, w).

(** Read the database. *)
Definition query {A} (f : db -> A) : M A := fun w => (Ok (f (wd_db w)), w).

(** [for x in xs: body]. *)
Fixpoint for_each {A} (xs : list A) (body : A -> M unit) : M unit :=
  match xs with
  | [] => mret tt
  | x :: xs => _ ← body x; for_each xs body
  end.

(** [total += body(x)] over a list. *)
Fixpoint for_sum {A} (xs : list A) (body : A -> M Z) : M Z :=
  match xs with
  | [] => mret 0
  | x :: xs => n ← body x; rest ← for_sum xs body; mret (n + rest)
  end.

(** [with self.db.transaction(): body] *)
Definition transaction {A} (body : M A) : M A := fun w =>
  match body w with
  | (Ok a, w') => (Ok a, w')
  | (Raise e, w') => (Raise e, w' <| wd_db := wd_db w |>)
  end.

(** ** Statements *)

Section Statements.
Context {R : Type} (table : db -> list R) {set_table : Setter table}.

(** [UPDATE table SET f WHERE p]; the result is [cursor.rowcount]. *)
Definition sql_update (p : R -> bool) (f : R -> R) : M Z := fun w =>
  (Ok (count p (table (wd_db w))),
   w <| wd_db := modify table (update p f) (wd_db w) |>).

(** An [UPDATE] of a column under a uniqueness constraint: the statement fails
    when the updated table would violate it. *)
Definition sql_update_unique (valid : list R -> bool) (p : R -> bool) (f : R -> R) : M Z := fun w =>
  if valid (update p f (table (wd_db w)))
  then sql_update p f w else (Raise IntegrityError, w).

(** [INSERT INTO table VALUES (r)] under the table's constraints. *)
Definition sql_insert (ok : db -> R -> bool) (r : R) : M unit := fun w =>
  if ok (wd_db w) r
  then (Ok tt, w <| wd_db := modify table (fun t => t ++ [r]) (wd_db w) |>)
  else (Raise IntegrityError, w).

(** [DELETE FROM table WHERE p]. *)
Definition sql_delete (p : R -> bool) : M Z := fun w =>
  (Ok (count p (table (wd_db w))),
   w <| wd_db := modify table (select (fun r => negb (p r))) (wd_db w) |>).

End Statements.

(** A row with key [k] exists. *)
Definition has_key {R K} `{EqDecision K} (key : R -> K) (t : list R) (k : K) : bool :=
  existsb (fun r => key r =d k) t.

Definition has_key_opt {R K} `{EqDecision K} (key : R -> K) (t : list R) (k : option K) : bool :=
  match k with None => true | Some k => has_key key t k end.

(** [SELECT * FROM t WHERE key=k] on a unique key. *)
Definition find_by {R K} `{EqDecision K} (key : R -> K) (k : K) (t : list R) : option R :=
  head (select (fun r => key r =d k) t).

(** ** Constraints of the tables the operations insert into *)

Definition tasks_ok (d : db) (r : task_row) : bool :=
  negb (has_key t_id (tasks d) (t_id r)) &&
  has_key ws_id (workspaces d) (t_workspace_id r) &&
  has_key po_id (pools d) (t_pool_id r) &&
  has_key_opt u_id (users d) (t_consumer_user_id r) &&
  has_key_opt w_id (workers d) (t_assigned_worker_id r).

Definition attempts_ok (d : db) (r : attempt_row) : bool :=
  negb (has_key a_id (task_attempts d) (a_id r)) &&
  negb (has_key (fun a => (a_task_id a, a_attempt_number a)) (task_attempts d)
          (a_task_id r, a_attempt_number r)) &&
  negb (has_key (fun a => (a_worker_id a, a_fencing_token a)) (task_attempts d)
          (a_worker_id r, a_fencing_token r)) &&
  has_key t_id (tasks d) (a_task_id r) &&
  has_key w_id (workers d) (a_worker_id r) &&
  has_key u_id (users d) (a_provider_user_id r) &&
  has_key_opt br_id (brokers d) (a_manager_broker_id r).

(** [UNIQUE(worker_id, fencing_token)] after an [UPDATE] of the token. *)
Fixpoint distinct_by {R K} `{EqDecision K} (key : R -> K) (t : list R) : bool :=
  match t with
  | [] => true
  | r :: t => negb (has_key key t (key r)) && distinct_by key t
  end.

Definition attempt_fences_distinct (t : list attempt_row) : bool :=
  distinct_by (fun a => (a_worker_id a, a_fencing_token a)) t.

Definition leases_ok (d : db) (r : lease_row) : bool :=
  negb (has_key l_id (leases d) (l_id r)) &&
  negb (has_key l_attempt_id (leases d) (l_attempt_id r)) &&
  has_key a_id (task_attempts d) (l_attempt_id r) &&
  has_key w_id (workers d) (l_worker_id r).

Definition artifacts_ok (d : db) (r : artifact_row) : bool :=
  negb (has_key ar_id (artifacts d) (ar_id r)) &&
  has_key t_id (tasks d) (ar_task_id r) &&
  has_key_opt a_id (task_attempts d) (ar_attempt_id r).

Definition key_envelopes_ok (d : db) (r : key_envelope_row) : bool :=
  negb (has_key ke_id (key_envelopes d) (ke_id r)) &&
  has_key_opt ws_id (workspaces d) (ke_workspace_id r).

Definition rate_cards_ok (d : db) (r : rate_row) : bool :=
  negb (has_key rt_id (rate_cards d) (rt_id r)) &&
  has_key w_id (workers d) (rt_worker_id r) &&
  has_key ws_id (workspaces d) (rt_workspace_id r) &&
  has_key u_id (users d) (rt_proposed_by_user_id r) &&
  has_key_opt u_id (users d) (rt_approved_by_user_id r) &&
  (0 <=? rt_rate_microtokens_per_second r) &&
  (0 <=? rt_rate_microtokens_per_gpu_second r).

(** [UNIQUE(attempt_id, idempotency_key)] does not constrain NULL keys. *)
Definition usage_events_ok (d : db) (r : usage_event_row) : bool :=
  negb (has_key ue_id (usage_events d) (ue_id r)) &&
  match ue_idempotency_key r with
  | None => true
  | Some k => negb (has_key (fun e => (ue_attempt_id e, ue_idempotency_key e)) (usage_events d)
                      (ue_attempt_id r, Some k))
  end &&
  has_key a_id (task_attempts d) (ue_attempt_id r) &&
  has_key w_id (workers d) (ue_worker_id r).

Definition USAGE_REVERSAL_REASON_CODES : list string :=
  ["duplicate_charge"; "rate_correction"; "provider_fault"; "platform_fault"; "consumer_refund"].

(** The primary key, [integrity_hash UNIQUE], the partial unique index on
    [reverses_ledger_id], the reason CHECK and the references. *)
Definition usage_ledger_ok (d : db) (r : ledger_row) : bool :=
  negb (has_key ul_id (usage_ledger d) (ul_id r)) &&
  negb (has_key ul_integrity_hash (usage_ledger d) (ul_integrity_hash r)) &&
  match ul_reverses_ledger_id r with
  | None => true
  | Some k => negb (has_key ul_reverses_ledger_id (usage_ledger d) (Some k)) &&
              has_key ul_id (usage_ledger d) k
  end &&
  match ul_reversal_reason_code r with
  | None => true
  | Some c => c ∈? USAGE_REVERSAL_REASON_CODES
  end &&
  has_key a_id (task_attempts d) (ul_attempt_id r).

Definition audit_events_ok (d : db) (r : audit_row) : bool :=
  negb (has_key ae_id (audit_events d) (ae_id r)) &&
  has_key_opt ws_id (workspaces d) (ae_workspace_id r).

Definition broker_commands_ok (d : db) (r : broker_command_row) : bool :=
  negb (has_key bc_id (broker_commands d) (bc_id r)) &&
  match bc_command_key r with
  | None => true
  | Some k => negb (has_key bc_command_key (broker_commands d) (Some k))
  end &&
  has_key bd_id (broker_devices d) (bc_broker_device_id r).

(** ** Clock and identifiers *)

Section Effects.
Context {E : Env}.

(** [now()]. *)
Definition now : M Z := fun w => (Ok (clock (wd_ticks w)), w <| wd_ticks := S (wd_ticks w) |>).

(** The resource prefix of [new_id(prefix)]: the alias table of
    [database.new_id] composed with [ID_PREFIXES]. *)
Definition id_prefix (prefix : string) : option string :=
  if prefix ∈? ["usr"; "dev"; "brk"; "bdev"; "bcm"; "wsp"; "pol"; "wrk"; "mtj"; "inv"; "app";
                "enr"; "ses"; "tsk"; "atm"; "art"; "use"; "kmf"; "ken"; "aud"; "svc"]
  then Some prefix
  else if String.eqb prefix "alc" then Some "wal"
  else if String.eqb prefix "chl" then Some "ses"
  else if String.eqb prefix "lea" then Some "lse"
  else if String.eqb prefix "led" then Some "uld"
  else if String.eqb prefix "rat" then Some "rtc"
  else None.

(** [new_id(prefix)]: a fresh random body under the resource prefix. *)
Definition new_id (prefix : string) : M string := fun w =>
  match id_prefix prefix with
  | None => (Raise ValueError, w)
  | Some p => (Ok (p +:+ "_" +:+ uuid (wd_draws w)), w <| wd_draws := S (wd_draws w) |>)
  end.

(** [INSERT INTO audit_events]. *)
Definition audit (actor_type actor_id : string) (workspace_id : option string)
    (action subject_type subject_id : string) (details : dict) (stamp : Z) : M unit :=
  id ← new_id "aud";
  sql_insert audit_events audit_events_ok
    (Mk_audit_row id actor_type actor_id workspace_id action (Some subject_type)
       (Some subject_id) (JDoc (JObj details)) None stamp).

End Effects.

(** ** Reasoning about operations

    [hoare P m Q]: from a database satisfying [P], running [m] ends with a
    result and a database satisfying [Q]. *)

Definition hoare {A} (P : db -> Prop) (m : M A) (Q : res A -> db -> Prop) : Prop :=
  forall w, P (wd_db w) -> Q (fst (m w)) (wd_db (snd (m w))).

(** [m] keeps [I], whether it returns or raises. *)
Definition preserves {A} (I : db -> Prop) (m : M A) : Prop := hoare I m (fun _ => I).

Section Hoare.
Context {A B : Type}.
Implicit Types (P I : db -> Prop).

Lemma hoare_conseq P P' (m : M A) (Q Q' : res A -> db -> Prop) :
  hoare P' m Q' -> (forall d, P d -> P' d) -> (forall r d, Q' r d -> Q r d) -> hoare P m Q.
Proof. unfold hoare. eauto. Qed.

Lemma hoare_ret P (a : A) : hoare P (mret a) (fun r d => r = Ok a /\ P d).
Proof. by intros w. Qed.

Lemma hoare_bind P (m : M A) (f : A -> M B) (Mid : A -> db -> Prop) Q :
  hoare P m (fun r d => match r with Ok a => Mid a d | Raise e => Q (Raise e) d end) ->
  (forall a, hoare (Mid a) (f a) Q) ->
  hoare P (bind m f) Q.
Proof.
  intros Hm Hf w HP. specialize (Hm w HP). unfold bind, mbind, M_bind.
  destruct (m w) as [[a|e] w']; simpl in *; [by apply Hf|done].
Qed.

Lemma hoare_transaction P (m : M A) (Q : res A -> db -> Prop) :
  hoare P m (fun r d => match r with Ok a => Q (Ok a) d | Raise _ => True end) ->
  (forall e d, P d -> Q (Raise e) d) ->
  hoare P (transaction m) Q.
Proof.
  intros Hm He w HP. specialize (Hm w HP). unfold transaction.
  destruct (m w) as [[a|e] w']; simpl in *; auto.
Qed.

Lemma preserves_ret I (a : A) : preserves I (mret a).
Proof. by intros w. Qed.

Lemma preserves_raise I e : preserves I (raise e : M A).
Proof. by intros w. Qed.

Lemma preserves_check I b e : preserves I (check b e).
Proof. intros w. by destruct b. Qed.

Lemma preserves_require I (o : option A) e : preserves I (require o e).
Proof. intros w. by destruct o. Qed.

Lemma preserves_lift I (r : res A) : preserves I (lift_res r).
Proof. by intros w. Qed.

Lemma preserves_query I (f : db -> A) : preserves I (query f).
Proof. by intros w. Qed.

Lemma preserves_bind I (m : M A) (f : A -> M B) :
  preserves I m -> (forall a, preserves I (f a)) -> preserves I (bind m f).
Proof.
  intros Hm Hf. eapply (hoare_bind _ _ _ (fun _ => I)); [|apply Hf].
  eapply hoare_conseq; [apply Hm|done|]. by intros [|].
Qed.

Lemma preserves_transaction I (m : M A) : preserves I m -> preserves I (transaction m).
Proof.
  intros Hm. apply hoare_transaction; [|done].
  eapply hoare_conseq; [apply Hm|done|]. by intros [|].
Qed.

(** A transaction leaves the database as it was when it raises. *)
Lemma transaction_rollback (m : M A) w e w' :
  transaction m w = (Raise e, w') -> wd_db w' = wd_db w.
Proof. unfold transaction. destruct (m w) as [[a|e'] w0]; [done|]. by intros [= _ <-]. Qed.

(** A transaction preserves [I] as soon as every normal exit re-establishes it. *)
Lemma preserves_transaction_ok I (m : M A) :
  (forall w a w', I (wd_db w) -> m w = (Ok a, w') -> I (wd_db w')) ->
  preserves I (transaction m).
Proof.
  intros Hm w HI. unfold transaction. destruct (m w) as [[a|e] w'] eqn:E; simpl; [|done].
  by eapply Hm.
Qed.
End Hoare.

(** [m] leaves the database as it was when it raises. *)
Definition atomic {A} (m : M A) : Prop :=
  forall w e w', m w = (Raise e, w') -> wd_db w' = wd_db w.

(** [m] never writes the database. *)
Definition inert {A} (m : M A) : Prop := forall w, wd_db (snd (m w)) = wd_db w.

Section Atomic.
Context {A B : Type}.

Lemma inert_atomic (m : M A) : inert m -> atomic m.
Proof. intros H w e w' Hm. specialize (H w). by rewrite Hm in H. Qed.

Lemma atomic_transaction (m : M A) : atomic (transaction m).
Proof. intros w e w'. apply transaction_rollback. Qed.

Lemma atomic_bind (m : M A) (f : A -> M B) :
  inert m -> (forall a, atomic (f a)) -> atomic (bind m f).
Proof.
  intros Hm Hf w e w'. specialize (Hm w). unfold bind, mbind, M_bind.
  destruct (m w) as [[a|e'] w1]; simpl in Hm.
  - intros H%Hf. congruence.
  - by intros [= _ <-].
Qed.

Lemma inert_bind (m : M A) (f : A -> M B) :
  inert m -> (forall a, inert (f a)) -> inert (bind m f).
Proof.
  intros Hm Hf w. specialize (Hm w). unfold bind, mbind, M_bind.
  destruct (m w) as [[a|e] w1]; simpl in *; [|done]. by rewrite Hf.
Qed.

(** An atomic operation preserves what its normal exits preserve. *)
Lemma preserves_atomic (I : db -> Prop) (m : M A) :
  atomic m -> (forall w a w', I (wd_db w) -> m w = (Ok a, w') -> I (wd_db w')) -> preserves I m.
Proof.
  intros Ha Hk w HI. destruct (m w) as [[a|e] w'] eqn:Hm; simpl; [by eapply Hk|].
  by rewrite (Ha _ _ _ Hm).
Qed.
End Atomic.

Lemma inert_now `{Env} : inert now.
Proof. by intros w. Qed.

Lemma inert_new_id `{Env} p : inert (new_id p).
Proof. intros w. unfold new_id. by destruct (id_prefix p). Qed.

Lemma preserves_for_each {A} (I : db -> Prop) (xs : list A) body :
  (forall x, In x xs -> preserves I (body x)) -> preserves I (for_each xs body).
Proof.
  induction xs as [|x xs IH]; intros H; simpl; [apply preserves_ret|].
  apply preserves_bind; [by apply H; left|]. intros _. apply IH. intros y Hy. apply H. by right.
Qed.

Lemma preserves_for_sum {A} (I : db -> Prop) (xs : list A) body :
  (forall x, In x xs -> preserves I (body x)) -> preserves I (for_sum xs body).
Proof.
  induction xs as [|x xs IH]; intros H; simpl; [apply preserves_ret|].
  apply preserves_bind; [by apply H; left|]. intros n.
  apply preserves_bind; [|intros; apply preserves_ret].
  apply IH. intros y Hy. apply H. by right.
Qed.

Lemma preserves_now `{Env} (I : db -> Prop) : preserves I now.
Proof. by intros w. Qed.

Lemma preserves_new_id `{Env} (I : db -> Prop) p : preserves I (new_id p).
Proof. intros w. unfold new_id. by destruct (id_prefix p). Qed.

Lemma preserves_update {R} (table : db -> list R) `{!Setter table} (I : db -> Prop) p f :
  (forall d, I d -> I (modify table (update p f) d)) -> preserves I (sql_update table p f).
Proof. intros H w HI. simpl. by apply H. Qed.

Lemma preserves_insert {R} (table : db -> list R) `{!Setter table} (I : db -> Prop) ok r :
  (forall d, I d -> ok d r = true -> I (modify table (fun t => t ++ [r]) d)) ->
  preserves I (sql_insert table ok r).
Proof.
  intros H w HI. unfold sql_insert. destruct (ok (wd_db w) r) eqn:E; [|done]. simpl. by apply H.
Qed.

Lemma bind_ok {A B} (m : M A) (f : A -> M B) w a w1 : m w = (Ok a, w1) -> bind m f w = f a w1.
Proof. intros H. unfold bind, mbind, M_bind. by rewrite H. Qed.

Lemma has_key_spec {R K} `{EqDecision K} (key : R -> K) t k :
  has_key key t k = true <-> exists r, In r t /\ key r = k.
Proof. unfold has_key. rewrite existsb_exists. setoid_rewrite bool_decide_eq_true. done. Qed.

Lemma has_key_false {R K} `{EqDecision K} (key : R -> K) t k :
  has_key key t k = false <-> forall r, In r t -> key r <> k.
Proof.
  split.
  - intros H r Hr E. assert (has_key key t k = true) by (apply has_key_spec; eauto). congruence.
  - intros H. destruct (has_key key t k) eqn:E; [|done].
    apply has_key_spec in E as (r & Hr & E). by destruct (H r Hr).
Qed.

Lemma find_by_some {R K} `{EqDecision K} (key : R -> K) k t r :
  find_by key k t = Some r -> In r t /\ key r = k.
Proof. intros [Hin Hk]%head_select_some. split_bools. done. Qed.

Lemma find_by_none {R K} `{EqDecision K} (key : R -> K) k t :
  find_by key k t = None <-> forall r, In r t -> key r <> k.
Proof.
  unfold find_by. rewrite head_none, select_nil. setoid_rewrite bool_decide_eq_false. done.
Qed.

Lemma find_by_app_new {R K} `{EqDecision K} (key : R -> K) t r :
  (forall x, In x t -> key x <> key r) -> find_by key (key r) (t ++ [r]) = Some r.
Proof.
  intros Hn. unfold find_by, select. rewrite List.filter_app.
  assert (List.filter (fun x => key x =d key r) t = []) as ->.
  { apply select_nil. intros x Hx. apply bool_decide_eq_false_2. auto. }
  simpl. by rewrite bool_decide_eq_true_2.
Qed.

Lemma distinct_by_spec {R K} `{EqDecision K} (key : R -> K) t :
  distinct_by key t = true <-> NoDup (map key t).
Proof.
  induction t as [|r t IH]; simpl; [split; [constructor|done]|].
  rewrite andb_true_iff, negb_true_iff, has_key_false, NoDup_cons, IH.
  rewrite list_elem_of_In, in_map_iff. naive_solver.
Qed.

(** Case analysis on one operation step. *)
#[export] Hint Resolve preserves_ret preserves_raise preserves_check preserves_require
  preserves_lift preserves_query preserves_now preserves_new_id : vgen.

Ltac preserve_steps :=
  repeat first
    [ progress intros
    | apply preserves_transaction
    | apply preserves_bind
    | solve [auto with vgen]
    | match goal with
      | |- preserves _ (if ?b then _ else _) => destruct b
      | |- preserves _ (match ?o with Some _ => _ | None => _ end) => destruct o
      end ].
