(* ===== verification/Capability.v ===== *)
(** * Worker capabilities and requirement matching

    The repository's view of what a worker may run: owner-authorized workflows
    and models ([_authorization_sets], [_managed_workflow_refs]), the
    projection of a self-report onto them ([_authorized_worker_capabilities])
    and the predicate the scheduler applies to every candidate
    ([_matches_requirements]).  All of them only read the database, so they are
    functions of it. *)

From S2P Require Import Prelude Python Schema Store Metadata.

Open Scope Z_scope.

(** ** Python iteration and dictionaries of sets *)

(** [for x in v]: strings iterate over characters, dictionaries over keys. *)
Definition json_iter (v : json) : res (list json) :=
  match v with
  | JList l => Ok l
  | JObj d => Ok (map (fun kv => JStr (fst kv)) d)
  | JStr s => Ok (map (fun c => JStr (String c EmptyString)) (String.list_ascii_of_string s))
  | _ => Raise TypeError
  end.

(** [json in set_of_strings]. *)
Definition json_in (v : json) (s : list string) : bool :=
  match v with JStr x => x ∈? s | _ => false end.

(** A workflow identity [(workflow_ref, workflow_digest)]. *)
Definition identity : Type := string * string.

Definition idmap := list (identity * list string).

Definition idmap_get (k : identity) (m : idmap) : option (list string) :=
  match List.find (fun kv => fst kv =d k) m with Some kv => Some (snd kv) | None => None end.

(** [m.setdefault(k, set()).update(xs)]. *)
Fixpoint idmap_update (k : identity) (xs : list string) (m : idmap) : idmap :=
  match m with
  | [] => [(k, xs)]
  | (k', ys) :: m => if k' =d k then (k', ys ++ xs) :: m else (k', ys) :: idmap_update k xs m
  end.

(** The identity of a readiness item, when both fields are strings. *)
Definition item_identity (item : dict) : option identity :=
  match jget "workflow_ref" item, jget "workflow_digest" item with
  | Some (JStr r), Some (JStr d) => Some (r, d)
  | _, _ => None
  end.

(** ** Authorizations *)

Definition row_node_classes (row : workflow_auth_row) : res (list string) :=
  match json_loads_or (JList []) (wa_node_classes row) with
  | None => Ok []
  | Some values =>
      items ← json_iter values;
      Ok (List.flat_map (fun v => match v with JStr s => [s] | _ => [] end) items)
  end.

Fixpoint workflow_nodes_of (rows : list workflow_auth_row) (acc : idmap) : res idmap :=
  match rows with
  | [] => Ok acc
  | row :: rows =>
      nodes ← row_node_classes row;
      workflow_nodes_of rows
        (idmap_update (wa_workflow_ref row, wa_workflow_digest row) nodes acc)
  end.

Definition _authorization_sets (d : db) (worker_id : string)
    : res (idmap * idmap * list string) :=
  let workflow_rows := select (fun r => (wa_worker_id r =d worker_id) &&
                                        (wa_revoked_at r =d None))
                              (worker_workflow_authorizations d) in
  let model_rows := select (fun r => (ma_worker_id r =d worker_id) && (ma_revoked_at r =d None))
                           (worker_model_authorizations d) in
  workflow_nodes ← workflow_nodes_of workflow_rows [];
  let workflow_models :=
    List.fold_left (fun m r => idmap_update (ma_workflow_ref r, ma_workflow_digest r)
                                 [ma_model_digest r] m) model_rows [] in
  Ok (workflow_nodes, workflow_models, map ma_model_digest model_rows).

Definition _managed_workflow_refs (d : db) (worker_id : string) : list string :=
  map wa_workflow_ref
    (select (fun r => wa_worker_id r =d worker_id) (worker_workflow_authorizations d)).

Definition _capability_auth_is_enforced (d : db) (worker_id : string) : bool :=
  match find_by w_id worker_id (workers d) with
  | None => false
  | Some w => negb (w_capability_auth_enforced_at w =d None)
  end.

(** ** Projection of a capability report *)

Definition _fail_closed_worker_capabilities (value : json) (executor_type : string) : res dict :=
  match canonical_worker_capabilities value executor_type with
  | Raise (PublicMetadataError _ _) =>
      let actions := match value with
                     | JObj d => jget_or "maintenance_actions" (JList []) d
                     | _ => JList []
                     end in
      let safe_actions :=
        List.filter (fun action => match actions with
                                   | JList l => existsb (fun v => json_eqb v (JStr action)) l
                                   | _ => false
                                   end) _MAINTENANCE_ACTIONS in
      Ok [("maintenance_actions", JList (map JStr safe_actions)); ("executors", JList [])]
  | r => r
  end.

(** The readiness entries an authorization set lets through: identities of
    managed refs only, with dependency names limited to the authorized ones. *)
Fixpoint authorized_readiness (nodes models : idmap) (managed : list string) (items : list json)
    : res (list dict) :=
  match items with
  | [] => Ok []
  | JObj item :: items =>
      match item_identity item with
      | Some ident =>
          if (fst ident ∈? managed) then
            match idmap_get ident nodes with
            | Some node_set =>
                missing_models ← json_iter (jget_or "missing_model_digests" (JList []) item);
                missing_nodes ← json_iter (jget_or "missing_node_classes" (JList []) item);
                let model_set := match idmap_get ident models with Some s => s | None => [] end in
                let entry :=
                  jset "missing_node_classes"
                    (JList (List.filter (fun v => json_in v node_set) missing_nodes))
                    (jset "missing_model_digests"
                       (JList (List.filter (fun v => json_in v model_set) missing_models)) item) in
                rest ← authorized_readiness nodes models managed items;
                Ok (entry :: rest)
            | None => authorized_readiness nodes models managed items
            end
          else authorized_readiness nodes models managed items
      | None => authorized_readiness nodes models managed items
      end
  | _ :: items => authorized_readiness nodes models managed items
  end.

Definition item_is_ready (item : dict) : bool :=
  match jget "state" item with Some (JStr s) => String.eqb s "ready" | _ => false end.

Definition authorized_nested (nodes models : idmap) (all_models managed : list string)
    (nested : dict) : res dict :=
  digests ← json_iter (jget_or "model_digests" (JList []) nested);
  let nested := jset "model_digests"
                  (JList (List.filter (fun v => json_in v all_models) digests)) nested in
  items ← json_iter (jget_or "workflow_readiness" (JList []) nested);
  readiness ← authorized_readiness nodes models managed items;
  let nested := jset "workflow_readiness" (JList (map JObj readiness)) nested in
  ready ← res_map (fun item => match jget "workflow_digest" item with
                               | Some v => Ok v
                               | None => Raise KeyError
                               end) (List.filter item_is_ready readiness);
  Ok (jset "ready_workflow_digests" (JList ready) nested).

Definition authorized_descriptor (nodes models : idmap) (all_models managed : list string)
    (descriptor : json) : res json :=
  match descriptor with
  | JObj d =>
      match jget "capabilities" d with
      | Some (JObj nested) =>
          nested ← authorized_nested nodes models all_models managed nested;
          Ok (JObj (jset "capabilities" (JObj nested) d))
      | _ => Ok descriptor
      end
  | _ => Ok descriptor
  end.

Definition _authorized_worker_capabilities (d : db) (value : json) (worker_id executor_type : string)
    : res dict :=
  canonical ← _fail_closed_worker_capabilities value executor_type;
  if negb (_capability_auth_is_enforced d worker_id) then Ok canonical
  else
    sets ← _authorization_sets d worker_id;
    let '(nodes, models, all_models) := sets in
    let managed := _managed_workflow_refs d worker_id in
    match jget "executors" canonical with
    | Some (JList executors) =>
        executors ← res_map (authorized_descriptor nodes models all_models managed) executors;
        Ok (jset "executors" (JList executors) canonical)
    | _ => Ok canonical
    end.

(** ** Requirement matching *)

Section Matching.
Context {E : Env}.

(** [str(v)] of a JSON value. *)
Definition py_str (v : json) : string :=
  match v with
  | JStr s => s
  | JNull => "None"
  | JBool b => if b then "True" else "False"
  | JInt z => pretty z
  | _ => py_repr v
  end.

(** The identifier of one entry of a model list; [None] rejects the list. *)
Definition item_identifier (item : json) : option string :=
  match item with
  | JStr s => if String.eqb s "" then None else Some s
  | JObj d =>
      let candidates := List.filter (fun k => truthy (jget_or k JNull d))
                                    ["sha256"; "digest"; "id"; "filename"] in
      match candidates with
      | [] => None
      | k :: _ => let s := py_str (jget_or k JNull d) in if String.eqb s "" then None else Some s
      end
  | _ => None
  end.

Definition normalize_identifier (s : string) : string :=
  if (str_len s =? 64) && str_forall is_hex s then "sha256:" +:+ str_lower s else s.

(** [identifier_set]: [None] is an invalid list. *)
Definition identifier_set (value : json) : option (list string) :=
  match value with
  | JNull => Some []
  | JList l =>
      List.fold_right (fun item acc =>
        match item_identifier item, acc with
        | Some s, Some ss => Some (normalize_identifier s :: ss)
        | _, _ => None
        end) (Some []) l
  | _ => None
  end.

(** [required_integer]. *)
Definition required_integer (requirements : dict) (name : string) : option Z :=
  match jget_or name JNull requirements with
  | JNull => Some 0
  | JInt z => if z <? 0 then None else Some z
  | _ => None
  end.

(** [available_bytes]. *)
Definition available_bytes (nested : dict) (name : string) : Z :=
  match jget name nested with
  | Some (JInt z) => if 0 <=? z then z else 0
  | _ => 0
  end.

(** [operation in operations] when both are given; a falsy requirement is met. *)
Definition requirement_listed (requirement listed : option json) : bool :=
  match requirement with
  | None => true
  | Some r =>
      if truthy r then
        match listed with
        | Some (JList l) => existsb (fun v => json_eqb v r) l
        | _ => false
        end
      else true
  end.

(** [Version(actual) < Version(minimum)] is false; a missing requirement is met,
    an invalid version is not. *)
Definition version_at_least (minimum actual : option json) : bool :=
  match minimum with
  | None | Some JNull => true
  | Some (JStr m) =>
      match actual with
      | Some (JStr a) => match version_lt a m with Some lt => negb lt | None => false end
      | _ => false
      end
  | Some _ => false
  end.

(** ["sha256:"] followed by 64 lower-case hexadecimal digits. *)
Definition strict_digest (v : json) : bool :=
  match v with
  | JStr s => (str_len s =? 71) && str_startswith "sha256:" s &&
              str_forall is_lower_hex (str_drop 7 s)
  | _ => false
  end.

(** [character.isalnum()]: letters and digits of every script. *)
Definition is_alnum_point (p : Z) : bool :=
  if p <? 128 then is_alnum (ascii_point p) else alnum_beyond_ascii p.

Definition strict_node_class (v : json) : bool :=
  match v with
  | JStr s => (1 <=? char_len s) && (char_len s <=? 128) &&
              forallb (fun p => is_alnum_point p || ((p <? 128) && ascii_in "_.:-" (ascii_point p)))
                (code_points s)
  | _ => false
  end.

Definition json_distinct (l : list json) : bool :=
  match json_strs l with Some ss => str_distinct ss | None => false end.

Definition readiness_keys : list string :=
  ["workflow_ref"; "workflow_digest"; "state"; "missing_model_digests"; "missing_node_classes"].

(** [set(item) == {...}]. *)
Definition has_exact_keys (item : dict) (keys : list string) : bool :=
  forallb (fun kv => fst kv ∈? keys) item && forallb (fun k => jmem k item) keys.

(** The well-formedness test of one readiness item: its identity and state, or
    [None] when the whole report is rejected. *)
Definition readiness_item (item : json) : option (identity * string) :=
  match item with
  | JObj item =>
      if negb (has_exact_keys item readiness_keys) then None
      else
        match jget "workflow_ref" item, jget "workflow_digest" item, jget "state" item,
              jget "missing_model_digests" item, jget "missing_node_classes" item with
        | Some (JStr item_ref), Some (JStr item_digest), Some (JStr item_state),
          Some (JList missing_models), Some (JList missing_nodes) =>
            if (1 <=? char_len item_ref) && (char_len item_ref <=? 512) &&
               strict_digest (JStr item_digest) &&
               (item_state ∈? _WORKFLOW_STATES) &&
               (Z.of_nat (length missing_models) <=? 1024) &&
               forallb strict_digest missing_models && json_distinct missing_models &&
               (Z.of_nat (length missing_nodes) <=? 512) &&
               forallb strict_node_class missing_nodes && json_distinct missing_nodes &&
               negb (String.eqb item_state "ready" &&
                     (negb (Nat.eqb (length missing_models) 0) ||
                      negb (Nat.eqb (length missing_nodes) 0))) &&
               negb (String.eqb item_state "missing_models" &&
                     Nat.eqb (length missing_models) 0) &&
               negb (String.eqb item_state "missing_nodes" && Nat.eqb (length missing_nodes) 0)
            then Some ((item_ref, item_digest), item_state)
            else None
        | _, _, _, _, _ => None
        end
  | _ => None
  end.

(** The loop over the readiness list: [None] when an item is malformed or
    repeated, otherwise the states of the items of the requested workflow. *)
Fixpoint matching_readiness (target : identity) (items : list json) (seen : list identity)
    : option (list string) :=
  match items with
  | [] => Some []
  | item :: items =>
      match readiness_item item with
      | None => None
      | Some (ident, state) =>
          if ident ∈? seen then None
          else match matching_readiness target items (ident :: seen) with
               | None => None
               | Some states => Some (if ident =d target then state :: states else states)
               end
      end
  end.

(** The schema-2 readiness gate. *)
Definition workflow_is_ready (nested : dict) (target : identity) : bool :=
  if jmem "capability_schema_version" nested then
    match jget "capability_schema_version" nested, jget "workflow_readiness" nested with
    | Some (JInt 2), Some (JList items) =>
        if 256 <? Z.of_nat (length items) then false
        else match matching_readiness target items [] with
             | Some [state] => String.eqb state "ready"
             | _ => false
             end
    | _, _ => false
    end
  else true.

(** One [gpus] entry raises the video-memory estimate. *)
Definition gpu_vram (vram_bytes : Z) (gpu : json) : res Z :=
  match gpu with
  | JObj g =>
      let vram_bytes := match jget_or "vram_bytes" (jget_or "vram_total" JNull g) g with
                        | JInt z => Z.max vram_bytes z
                        | _ => vram_bytes
                        end in
      match jget_or "vram_total_mb" JNull g with
      | JInt z => Ok (Z.max vram_bytes (z * 1024 * 1024))
      | JFloat (FFin m e) => if float_overflows m (e + 20) then Raise OverflowError
                             else Ok (Z.max vram_bytes (float_trunc m (e + 20)))
      | JFloat (FInf _) => Raise OverflowError
      | JFloat FNan => Raise ValueError
      | _ => Ok vram_bytes
      end
  | _ => Ok vram_bytes
  end.

Fixpoint gpus_vram (vram_bytes : Z) (gpus : list json) : res Z :=
  match gpus with
  | [] => Ok vram_bytes
  | g :: gpus => v ← gpu_vram vram_bytes g; gpus_vram v gpus
  end.

(** The resource part of the predicate. *)
Definition resources_suffice (requirements nested : dict) : res bool :=
  match identifier_set (jget_or "model_digests" (jget_or "models" JNull requirements) requirements),
        identifier_set (jget_or "model_digests" (jget_or "models" JNull nested) nested) with
  | Some required_models, Some available_models =>
      if negb (forallb (fun m => m ∈? available_models) required_models) then Ok false
      else
        match required_integer requirements "min_vram_bytes",
              required_integer requirements "min_ram_bytes" with
        | Some minimum_vram, Some minimum_ram =>
            vram_bytes ← (match jget "gpus" nested with
                          | Some (JList gpus) => gpus_vram (available_bytes nested "vram_bytes") gpus
                          | _ => Ok (available_bytes nested "vram_bytes")
                          end : res Z);
            let ram_bytes := available_bytes nested "ram_bytes" in
            let ram_bytes :=
              match jget "system" nested with
              | Some (JObj system) =>
                  match jget_or "ram_bytes" (jget_or "ram_total" JNull system) system with
                  | JInt z => Z.max ram_bytes z
                  | _ => ram_bytes
                  end
              | _ => ram_bytes
              end in
            Ok ((minimum_vram <=? vram_bytes) && (minimum_ram <=? ram_bytes))
        | _, _ => Ok false
        end
  | _, _ => Ok false
  end.

(** The authorization gate: an enforced worker runs authorized workflows only. *)
Definition workflow_authorized (d : db) (worker_id : string) (target : identity) : res bool :=
  if _capability_auth_is_enforced d worker_id then
    sets ← _authorization_sets d worker_id;
    let '(authorized_workflows, _, _) := sets in
    Ok (match idmap_get target authorized_workflows with Some _ => true | None => false end)
  else Ok true.

Definition _matches_requirements (d : db) (worker : worker_row) (requirements : dict)
    (workflow_ref workflow_digest : string) : res bool :=
  match json_loads_or (JObj []) (w_capabilities worker) with
  | None => Ok false
  | Some capabilities =>
      authorized ← workflow_authorized d (w_id worker) (workflow_ref, workflow_digest);
      if negb authorized then Ok false
      else
        capabilities ← _authorized_worker_capabilities d capabilities (w_id worker)
                         (w_executor_type worker);
        match jget "executors" capabilities with
        | Some (JList executors) =>
            match List.find (descriptor_has_type (w_executor_type worker)) executors with
            | Some (JObj descriptor) =>
                if negb (requirement_listed (jget "operation" requirements)
                                            (jget "operations" descriptor)) then Ok false
                else if negb (requirement_listed (jget "payload_format" requirements)
                                                 (jget "payload_formats" descriptor)) then Ok false
                else if negb (version_at_least (jget "executor_min_version" requirements)
                                               (jget "version" descriptor)) then Ok false
                else
                  let nested := match jget "capabilities" descriptor with
                                | Some (JObj n) => n
                                | _ => []
                                end in
                  if negb (workflow_is_ready nested (workflow_ref, workflow_digest)) then Ok false
                  else if negb (version_at_least (jget "runtime_min_version" requirements)
                                                 (jget "runtime_version" nested)) then Ok false
                  else resources_suffice requirements nested
            | _ => Ok false
            end
        | _ => Ok false
        end
  end.

End Matching.
