(* ===== verification/Access.v ===== *)
(** * Authorization guards ([src/vgen/gateway/repository.py], "authorization")

    The guards every operation starts with: an active user, an active
    membership with a role, an active service, the consumer of a task. *)

From S2P Require Import Prelude Python Errors Schema Store.

Open Scope Z_scope.

(** ** Error codes bound by the repository *)

Definition FORBIDDEN : Z := ErrorCode.to_int ErrorCode.PERMISSION_DENIED.
Definition TASK_STATE_CONFLICT : Z := ErrorCode.to_int ErrorCode.TASK_STATE_CONFLICT.
Definition TASK_NOT_FOUND : Z := ErrorCode.to_int ErrorCode.TASK_NOT_FOUND.
Definition NO_ELIGIBLE_WORKER : Z := ErrorCode.to_int ErrorCode.NO_ELIGIBLE_WORKER.
Definition WORKER_OFFLINE : Z := ErrorCode.to_int ErrorCode.WORKER_OFFLINE.
Definition WORKER_DRAINING : Z := ErrorCode.to_int ErrorCode.WORKER_DRAINING.
Definition WORKER_REVOKED : Z := ErrorCode.to_int ErrorCode.WORKER_REVOKED.
Definition WORKER_NOT_FOUND : Z := ErrorCode.to_int ErrorCode.WORKER_NOT_FOUND.
Definition WORKER_MAINTENANCE_JOB_NOT_FOUND : Z :=
  ErrorCode.to_int ErrorCode.WORKER_MAINTENANCE_JOB_NOT_FOUND.
Definition WORKER_MAINTENANCE_STATE_CONFLICT : Z :=
  ErrorCode.to_int ErrorCode.WORKER_MAINTENANCE_STATE_CONFLICT.
Definition WORKSPACE_NOT_FOUND : Z := ErrorCode.to_int ErrorCode.WORKSPACE_NOT_FOUND.
Definition POOL_NOT_FOUND : Z := ErrorCode.to_int ErrorCode.POOL_NOT_FOUND.
Definition LEASE_LOST : Z := ErrorCode.to_int ErrorCode.LEASE_LOST.
Definition MAINTENANCE_LEASE_LOST : Z := ErrorCode.to_int ErrorCode.MAINTENANCE_LEASE_LOST.
Definition RESERVATION_EXPIRED : Z := ErrorCode.to_int ErrorCode.RESERVATION_EXPIRED.
Definition RATE_NOT_APPROVED : Z := ErrorCode.to_int ErrorCode.RATE_NOT_APPROVED.
Definition RATE_NOT_FOUND : Z := ErrorCode.to_int ErrorCode.RATE_NOT_FOUND.
Definition VALIDATION_FAILED : Z := ErrorCode.to_int ErrorCode.VALIDATION_FAILED.
Definition IDEMPOTENCY_CONFLICT : Z := ErrorCode.to_int ErrorCode.IDEMPOTENCY_CONFLICT.

(** ** Guards *)

(** The truth of an optional string: [None] and the empty string are falsy. *)
Definition truthy_id (o : option string) : option string :=
  match o with
  | Some s => if String.eqb s "" then None else Some s
  | None => None
  end.

Definition require_user (user_id : option string) : M user_row :=
  match truthy_id user_id with
  | None => raise (repo_err FORBIDDEN "ACCESS_DENIED" "A user principal is required." 403)
  | Some user_id =>
      row ← query (fun d => head (select (fun u => (u_id u =d user_id) &&
                                                  (u_status u =d UActive)) (users d)));
      require row (repo_err FORBIDDEN "ACCESS_DENIED" "The user is not active." 403)
  end.

Definition membership (d : db) (workspace_id : string) (user_id : option string)
    : option membership_row :=
  match truthy_id user_id with
  | None => None
  | Some user_id =>
      head (select (fun m => (mb_workspace_id m =d workspace_id) && (mb_user_id m =d user_id) &&
                             (mb_status m =d SActive)) (memberships d))
  end.

Definition require_member (workspace_id : string) (user_id : option string) : M membership_row :=
  row ← query (fun d => membership d workspace_id user_id);
  require row (repo_err FORBIDDEN "WORKSPACE_ACCESS_DENIED" "Workspace access denied." 403).

Definition is_admin_role (r : member_role) : bool :=
  match r with RoleOwner | RoleAdmin => true | RoleMember => false end.

Definition require_admin (workspace_id : string) (user_id : option string) : M membership_row :=
  row ← require_member workspace_id user_id;
  _ ← check (is_admin_role (mb_role row))
        (repo_err FORBIDDEN "WORKSPACE_ADMIN_REQUIRED" "Workspace admin access is required." 403);
  mret row.

Definition require_owner (workspace_id : string) (user_id : option string) : M membership_row :=
  row ← require_member workspace_id user_id;
  _ ← check (mb_role row =d RoleOwner)
        (repo_err FORBIDDEN "WORKSPACE_OWNER_REQUIRED"
           "Workspace Owner access is required for encryption recipients." 403);
  mret row.

Definition require_service (workspace_id service_id : string) : M service_row :=
  row ← query (fun d => head (select (fun s => (sv_id s =d service_id) &&
                                               (sv_workspace_id s =d workspace_id) &&
                                               (sv_status s =d SvActive)) (services d)));
  require row (repo_err FORBIDDEN "SERVICE_WORKSPACE_ACCESS_DENIED"
                 "Service Workspace access denied." 403).

Definition require_task_consumer (task : task_row) (principal_type principal_id : string)
    (user_id : option string) (allow_workspace_admin : bool) : M unit :=
  allowed ←
    (if String.eqb principal_type "service" then
       _ ← require_service (t_workspace_id task) principal_id;
       mret (String.eqb (t_consumer_principal_type task) "service" &&
             String.eqb (t_consumer_principal_id task) principal_id)
     else
       m ← require_member (t_workspace_id task) user_id;
       mret ((t_consumer_user_id task =d user_id) ||
             (allow_workspace_admin && is_admin_role (mb_role m))));
  check allowed (repo_err FORBIDDEN "TASK_ACCESS_DENIED" "Task access denied." 403).

(** ** Facts *)

(** The guards never write. *)
Definition reads_only {A} (m : M A) : Prop := forall w, snd (m w) = w.

Lemma reads_only_ret {A} (a : A) : reads_only (mret a).
Proof. done. Qed.
Lemma reads_only_raise {A} e : reads_only (raise e : M A).
Proof. done. Qed.
Lemma reads_only_check b e : reads_only (check b e).
Proof. by destruct b. Qed.
Lemma reads_only_require {A} (o : option A) e : reads_only (require o e).
Proof. by destruct o. Qed.
Lemma reads_only_query {A} (f : db -> A) : reads_only (query f).
Proof. done. Qed.
Lemma reads_only_lift {A} (r : res A) : reads_only (lift_res r).
Proof. done. Qed.
Lemma reads_only_bind {A B} (m : M A) (f : A -> M B) :
  reads_only m -> (forall a, reads_only (f a)) -> reads_only (bind m f).
Proof.
  intros Hm Hf w. specialize (Hm w). unfold bind, mbind, M_bind.
  destruct (m w) as [[a|e] w']; simpl in Hm; subst; [apply Hf|done].
Qed.

Create HintDb reads.
#[export] Hint Resolve reads_only_ret reads_only_raise reads_only_check reads_only_require
  reads_only_query reads_only_lift : reads.

Ltac solve_reads :=
  repeat first
    [ progress intros
    | solve [auto with reads]
    | apply reads_only_bind
    | match goal with
      | |- reads_only (if ?b then _ else _) => destruct b
      | |- reads_only (match ?o with Some _ => _ | None => _ end) => destruct o
      | |- reads_only (match ?o with (_, _) => _ end) => destruct o
      end ].

Lemma reads_only_require_user u : reads_only (require_user u).
Proof. unfold require_user. solve_reads. Qed.
Lemma reads_only_require_member ws u : reads_only (require_member ws u).
Proof. unfold require_member. solve_reads. Qed.
Lemma reads_only_require_service ws u : reads_only (require_service ws u).
Proof. unfold require_service. solve_reads. Qed.
#[export] Hint Resolve reads_only_require_user reads_only_require_member
  reads_only_require_service : reads.
Lemma reads_only_require_admin ws u : reads_only (require_admin ws u).
Proof. unfold require_admin. solve_reads. Qed.
Lemma reads_only_require_task_consumer t p i u a : reads_only (require_task_consumer t p i u a).
Proof. unfold require_task_consumer. solve_reads. Qed.
#[export] Hint Resolve reads_only_require_admin reads_only_require_task_consumer : reads.

Lemma preserves_reads {A} (I : db -> Prop) (m : M A) : reads_only m -> preserves I m.
Proof. intros H w HI. by rewrite H. Qed.

#[export] Hint Extern 2 (preserves _ _) => (apply preserves_reads; solve [auto with reads]) : vgen.

(** The consumer guard lets a user principal through exactly when the
    task is theirs (or, where admins are allowed, when they are an owner or
    admin of its workspace), always with an active membership, and a service
    principal exactly when the service is active in the task's workspace and
    submitted the task itself. *)
Theorem task_consumer_guard (w : world) (task : task_row) (principal_type principal_id : string)
    (user_id : option string) (allow_workspace_admin : bool) :
  fst (require_task_consumer task principal_type principal_id user_id allow_workspace_admin w)
    = Ok tt <->
  (if String.eqb principal_type "service"
   then (exists s, s ∈ services (wd_db w) /\ sv_id s = principal_id /\
                   sv_workspace_id s = t_workspace_id task /\ sv_status s = SvActive) /\
        t_consumer_principal_type task = "service" /\ t_consumer_principal_id task = principal_id
   else exists m, membership (wd_db w) (t_workspace_id task) user_id = Some m /\
        (t_consumer_user_id task = user_id \/
         (allow_workspace_admin = true /\ mb_role m <> RoleMember))).
Proof.
  unfold require_task_consumer, require_service, require_member, bind, mbind, M_bind, query, require,
    check, mret, M_ret, raise.
  destruct (String.eqb principal_type "service").
  - destruct (head _) as [s|] eqn:Hs; simpl.
    + apply head_select_some in Hs as [Hin Hs]. split_bools.
      destruct (String.eqb_spec (t_consumer_principal_type task) "service") as [E1|E1];
        destruct (String.eqb_spec (t_consumer_principal_id task) principal_id) as [E2|E2];
        simpl; split; try naive_solver.
      intros _. split; [|done]. exists s. rewrite list_elem_of_In. auto.
    + split; [done|]. intros ((s & Hin & H1 & H2 & H3) & _).
      apply head_none in Hs. rewrite select_nil in Hs.
      apply list_elem_of_In in Hin. apply Hs in Hin.
      by rewrite H1, H2, H3, !bool_decide_eq_true_2 in Hin.
  - destruct (membership _ _ _) as [m|]; simpl; [|naive_solver].
    destruct (bool_decide_reflect (t_consumer_user_id task = user_id)); simpl.
    + split; [intros _; eauto|done].
    + destruct allow_workspace_admin, (mb_role m) eqn:Er; simpl;
        split; try done; try naive_solver congruence.
      all: intros _; exists m; rewrite Er; auto.
Qed.
