(* ===== verification/Framing.v ===== *)
(** * What an operation does to the database, as a preorder

    [respects R m]: whatever [m] returns or raises, the database after it is
    related by [R] to the database before.  For a preorder this composes along
    the operations of the repository, so a fact about every request reduces to
    its single statements.  The instances are the framing of the scheduling
    tables ([frames]), views that stay fixed ([stable]), databases between which
    nothing was started ([quietly]) and the history of fenced locks. *)

From S2P Require Import Prelude Python Schema Store Access.

Definition respects (R : relation db) {A} (m : M A) : Prop :=
  forall w, R (wd_db w) (wd_db (snd (m w))).

Section Respects.
Context (R : relation db) `{!PreOrder R}.

Lemma respects_reads {A} (m : M A) : reads_only m -> respects R m.
Proof using All. intros Hm w. by rewrite Hm. Qed.

Lemma respects_bind {A B} (m : M A) (k : A -> M B) :
  respects R m -> (forall a, respects R (k a)) -> respects R (bind m k).
Proof using All.
  intros Hm Hk w. specialize (Hm w). unfold bind, mbind, M_bind.
  destruct (m w) as [[a|e] w1]; simpl in *; [|done]. by etransitivity; [|apply Hk].
Qed.

Lemma respects_transaction {A} (m : M A) : respects R m -> respects R (transaction m).
Proof using All.
  intros Hm w. specialize (Hm w). unfold transaction. by destruct (m w) as [[a|e] w1].
Qed.

Lemma respects_ret {A} (a : A) : respects R (mret a).
Proof using All. by intros w. Qed.

Lemma respects_for_each {A} (xs : list A) body :
  (forall x, respects R (body x)) -> respects R (for_each xs body).
Proof using All.
  intros Hb. induction xs as [|x xs IH]; cbn [for_each]; [apply respects_ret|].
  by apply respects_bind.
Qed.

Lemma respects_for_sum {A} (xs : list A) body :
  (forall x, respects R (body x)) -> respects R (for_sum xs body).
Proof using All.
  intros Hb. induction xs as [|x xs IH]; cbn [for_sum]; [apply respects_ret|].
  apply respects_bind; [done|]. intros n. apply respects_bind; [done|]. intros k. apply respects_ret.
Qed.

Lemma respects_now `{Env} : respects R now.
Proof using All. by intros w. Qed.

Lemma respects_new_id `{Env} p : respects R (new_id p).
Proof using All. intros w. unfold new_id. by destruct (id_prefix p). Qed.

(** A statement relates the databases as its table operation does. *)
Section Statements.
Context {T : Type} (table : db -> list T) {set_table : Setter table}.

Lemma respects_update p f :
  (forall d, R d (modify table (update p f) d)) -> respects R (sql_update table p f).
Proof using Type. intros H w. apply H. Qed.

Lemma respects_update_unique ok p f :
  (forall d, R d (modify table (update p f) d)) -> respects R (sql_update_unique table ok p f).
Proof using All. intros H w. unfold sql_update_unique. simpl. case_match; [apply H|done]. Qed.

Lemma respects_insert ok r :
  (forall d, ok d r = true -> R d (modify table (fun t => t ++ [r]) d)) ->
  respects R (sql_insert table ok r).
Proof using All.
  intros H w. unfold sql_insert. destruct (ok _ _) eqn:Hok; [by apply H|done].
Qed.

Lemma respects_delete p :
  (forall d, R d (modify table (select (fun r => negb (p r))) d)) -> respects R (sql_delete table p).
Proof using Type. intros H w. apply H. Qed.
End Statements.

Lemma run_respects {A} (m : M A) w a w' :
  respects R m -> m w = (Ok a, w') -> R (wd_db w) (wd_db w').
Proof using Type. intros Hm H. specialize (Hm w). by rewrite H in Hm. Qed.
End Respects.

(** Walk an operation; [leaf] closes statements and called operations. *)
Ltac solve_respects leaf :=
  repeat first
    [ progress intros
    | solve [leaf]
    | apply respects_bind; [typeclasses eauto| |]
    | apply respects_transaction; [typeclasses eauto|]
    | apply respects_for_each; [typeclasses eauto|]
    | apply respects_for_sum; [typeclasses eauto|]
    | match goal with
      | |- respects _ (if ?b then _ else _) => destruct b
      | |- respects _ (match ?v with _ => _ end) => destruct v
      end ].

(** ** The clock and the random source only advance *)

Definition forward {A} (m : M A) : Prop :=
  forall w, (wd_ticks w <= wd_ticks (snd (m w)))%nat /\ (wd_draws w <= wd_draws (snd (m w)))%nat.

Lemma forward_reads {A} (m : M A) : reads_only m -> forward m.
Proof. intros Hm w. by rewrite Hm. Qed.
Lemma forward_now `{Env} : forward now.
Proof. intros w. simpl. lia. Qed.
Lemma forward_new_id `{Env} p : forward (new_id p).
Proof. intros w. unfold new_id. destruct (id_prefix p); simpl; lia. Qed.
Lemma forward_bind {A B} (m : M A) (k : A -> M B) :
  forward m -> (forall a, forward (k a)) -> forward (bind m k).
Proof.
  intros Hm Hk w. specialize (Hm w). unfold bind, mbind, M_bind.
  destruct (m w) as [[a|e] w1]; simpl in *; [|done]. specialize (Hk a w1). lia.
Qed.
Lemma forward_transaction {A} (m : M A) : forward m -> forward (transaction m).
Proof. intros Hm w. specialize (Hm w). unfold transaction. by destruct (m w) as [[a|e] w1]. Qed.
Lemma forward_for_each {A} (xs : list A) body :
  (forall x, forward (body x)) -> forward (for_each xs body).
Proof.
  intros Hb. induction xs as [|x xs IH]; cbn [for_each]; [by intros w|]. by apply forward_bind.
Qed.
Lemma forward_for_sum {A} (xs : list A) body :
  (forall x, forward (body x)) -> forward (for_sum xs body).
Proof.
  intros Hb. induction xs as [|x xs IH]; cbn [for_sum]; [by intros w|].
  apply forward_bind; [done|]. intros n. apply forward_bind; [done|]. by intros k w.
Qed.
Lemma forward_update {R} (table : db -> list R) `{!Setter table} p f : forward (sql_update table p f).
Proof. by intros w. Qed.
Lemma forward_insert {R} (table : db -> list R) `{!Setter table} ok r :
  forward (sql_insert table ok r).
Proof. intros w. unfold sql_insert. by destruct (ok _ _). Qed.
Lemma forward_delete {R} (table : db -> list R) `{!Setter table} p : forward (sql_delete table p).
Proof. by intros w. Qed.

Create HintDb forward.
#[export] Hint Resolve forward_now forward_new_id forward_update forward_insert forward_delete : forward.
#[export] Hint Extern 4 (forward _) => (apply forward_reads; solve [auto with reads]) : forward.
Ltac solve_forward :=
  repeat first
    [ progress intros
    | solve [auto with forward]
    | apply forward_bind | apply forward_transaction | apply forward_for_each | apply forward_for_sum
    | match goal with
      | |- forward (if ?b then _ else _) => destruct b
      | |- forward (match ?v with _ => _ end) => destruct v
      end ].
