(* ===== verification/Scheduler.v ===== *)
(** * Task scheduling ([src/vgen/gateway/repository.py], "tasks/leases")

    Candidate selection, reservation and lease expiry, rekey commands, and the
    life cycle of a task up to its lease: prepare, commit, lease, heartbeat,
    cancel, retry and rekey.  Each operation is the whole repository method:
    its guards, its statements in order, and its transaction boundary. *)

From S2P Require Import Prelude Python Errors Schema Store Access Metadata Diagnostics.
From S2P Require Import Capability.

Open Scope Z_scope.

(** ** State sets of the SQL conditions *)

Definition task_reservable (s : task_state) : bool :=
  match s with TPrepared | TCommitted | TQueued | TRekeyRequired => true | _ => false end.
Definition task_waiting (s : task_state) : bool :=
  match s with TCommitted | TQueued => true | _ => false end.
Definition task_executing (s : task_state) : bool :=
  match s with TReserved | TRunning => true | _ => false end.
Definition task_terminal (s : task_state) : bool :=
  match s with TSucceeded | TFailed | TCancelled | TExpired => true | _ => false end.
Definition attempt_active (s : attempt_state) : bool :=
  match s with AReserved | ALeased | ARunning => true | _ => false end.
Definition attempt_executing (s : attempt_state) : bool :=
  match s with ALeased | ARunning => true | _ => false end.
Definition attempt_unstarted (s : attempt_state) : bool :=
  match s with AReserved | ALeased => true | _ => false end.
Definition job_blocks_scheduling (s : job_state) : bool :=
  match s with MQueued | MLeased | MRunning | MRestarting => true | _ => false end.
Definition job_active (s : job_state) : bool :=
  match s with MAwaitingUpload => true | _ => job_blocks_scheduling s end.
Definition job_leased (s : job_state) : bool :=
  match s with MLeased | MRunning | MRestarting => true | _ => false end.

(** [x > t] and [x <= t] on a nullable column: NULL satisfies neither. *)
Definition after (x : option Z) (t : Z) : bool :=
  match x with Some x => t <? x | None => false end.
Definition until (x : option Z) (t : Z) : bool :=
  match x with Some x => x <=? t | None => false end.

(** [x IS NOT NULL]. *)
Definition is_some {A} (x : option A) : bool := match x with Some _ => true | None => false end.

(** ** Candidate workers *)

(** A row of the [workers JOIN worker_allocations] queries. *)
Record candidate := MkCandidate {
  c_worker : worker_row;
  c_allocation : allocation_row;
  c_queued_load : Z
}.

Definition has_blocking_job (d : db) (worker_id : string) : bool :=
  existsb (fun j => (mj_worker_id j =d worker_id) && job_blocks_scheduling (mj_state j))
          (worker_maintenance_jobs d).

(** The [WHERE] clause shared by the candidate queries. *)
Definition schedulable (d : db) (pool_id executor_type : string) (stamp : Z)
    (w : worker_row) (a : allocation_row) : bool :=
  (al_worker_id a =d w_id w) && (al_pool_id a =d pool_id) && (al_status a =d AlActive) &&
  is_some (al_allocation_proof a) && (w_status w =d WActive) &&
  negb (has_blocking_job d (w_id w)) && (w_executor_type w =d executor_type) &&
  after (w_last_seen_at w) (stamp - WORKER_ONLINE_WINDOW_SECONDS).

(** Active attempts of a worker whose task reservation has not lapsed. *)
Definition reserved_load (d : db) (worker_id : string) (stamp : Z) : Z :=
  count (fun a => (a_worker_id a =d worker_id) && attempt_active (a_state a) &&
           match find_by t_id (a_task_id a) (tasks d) with
           | Some t => match t_reservation_expires_at t with
                       | None => true
                       | Some x => stamp <? x
                       end
           | None => false
           end) (task_attempts d).

Definition queued_load (d : db) (worker_id : string) : Z :=
  count (fun a => (a_worker_id a =d worker_id) && attempt_active (a_state a)) (task_attempts d).

(** The pairs of the join that satisfy [p]. *)
Definition join_candidates (d : db) (p : worker_row -> allocation_row -> bool) : list candidate :=
  List.flat_map (fun w =>
    List.map (fun a => MkCandidate w a (queued_load d (w_id w)))
      (select (p w) (worker_allocations d))) (workers d).

Definition last_seen (w : worker_row) : Z :=
  match w_last_seen_at w with Some x => x | None => 0 end.

(** [ORDER BY COALESCE(w.last_seen_at,0) DESC, w.created_at]. *)
Definition freshest_leb (x y : candidate) : bool :=
  let wx := c_worker x in let wy := c_worker y in
  (last_seen wy <? last_seen wx) ||
  ((last_seen wx =? last_seen wy) && (w_created_at wx <=? w_created_at wy)).

(** [ORDER BY queued_load ASC, COALESCE(w.last_seen_at,0) DESC, w.created_at]. *)
Definition least_loaded_leb (x y : candidate) : bool :=
  (c_queued_load x <? c_queued_load y) ||
  ((c_queued_load x =? c_queued_load y) && freshest_leb x y).

Definition _task_candidate_rows (d : db) (pool_id executor_type : string) (stamp : Z)
    : list candidate :=
  take 50 (order_by freshest_leb
    (join_candidates d (fun w a =>
       schedulable d pool_id executor_type stamp w a &&
       (reserved_load d (w_id w) stamp <? w_capacity w)))).

Definition _task_queue_candidate_rows (d : db) (pool_id executor_type : string) (stamp : Z)
    : list candidate :=
  take 50 (order_by least_loaded_leb
    (join_candidates d (schedulable d pool_id executor_type stamp))).

Definition _has_online_allocated_worker (d : db) (pool_id : string) (stamp : Z) : bool :=
  match join_candidates d (fun w a =>
          (al_worker_id a =d w_id w) && (al_pool_id a =d pool_id) && (al_status a =d AlActive) &&
          is_some (al_allocation_proof a) && (w_status w =d WActive) &&
          after (w_last_seen_at w) (stamp - WORKER_ONLINE_WINDOW_SECONDS) &&
          negb (has_blocking_job d (w_id w))) with
  | [] => false
  | _ => true
  end.

(** ** Expiry *)

Definition _expire_reservations (stamp : Z) : M unit :=
  task_ids ← query (fun d => map t_id
    (select (fun t => until (t_reservation_expires_at t) stamp && task_reservable (t_state t))
            (tasks d)));
  match task_ids with
  | [] => mret tt
  | _ =>
      _ ← sql_update task_attempts
            (fun a => (a_task_id a ∈? task_ids) && attempt_unstarted (a_state a))
            (fun a => a <| a_state := AExpired |> <| a_finished_at := Some stamp |>);
      attempt_ids ← query (fun d => map a_id
            (select (fun a => a_task_id a ∈? task_ids) (task_attempts d)));
      _ ← sql_update leases
            (fun l => (l_attempt_id l ∈? attempt_ids) && (l_released_at l =d None))
            (fun l => l <| l_released_at := Some stamp |>);
      _ ← sql_update tasks (fun t => t_id t ∈? task_ids)
            (fun t => t <| t_state := TExpired |> <| t_finished_at := Some stamp |>
                        <| t_updated_at := stamp |>);
      mret tt
  end.

Section Operations.
Context {E : Env}.

(** ** Rekey commands *)

(** The freshest active broker device of a user seen in the last 300 s:
    [ORDER BY d.last_seen_at DESC, bd.created_at DESC LIMIT 1]. *)
Definition freshest_broker_device (d : db) (user_id : string) (stamp : Z)
    : option (broker_device_row * device_row) :=
  let pairs := List.flat_map (fun bd => List.map (fun dv => (bd, dv))
      (select (fun dv => (dv_id dv =d bd_device_id bd) && (dv_status dv =d SActive) &&
                         match dv_last_seen_at dv with
                         | Some x => stamp - seconds 300 <=? x
                         | None => false
                         end) (devices d)))
    (select (fun bd => (bd_status bd =d SActive) &&
               existsb (fun b => (br_id b =d bd_broker_id bd) && (br_owner_user_id b =d user_id) &&
                                 (br_status b =d SActive)) (brokers d))
            (broker_devices d)) in
  let seen := fun p : broker_device_row * device_row =>
    match dv_last_seen_at (snd p) with Some x => x | None => 0 end in
  head (order_by (fun x y => (seen y <? seen x) ||
          ((seen x =? seen y) && (bd_created_at (fst y) <=? bd_created_at (fst x)))) pairs).

(** [INSERT INTO broker_commands .. ON CONFLICT(command_key) DO UPDATE]: an
    existing command is revived only when it has expired. *)
Definition upsert_command (r : broker_command_row) : M unit :=
  existing ← query (fun d => has_key bc_command_key (broker_commands d) (bc_command_key r));
  if existing then
    _ ← sql_update broker_commands
          (fun c => (bc_command_key c =d bc_command_key r) && (bc_state c =d CExpired))
          (fun c => c <| bc_payload := bc_payload r |>
                      <| bc_broker_device_id := bc_broker_device_id r |>
                      <| bc_state := CPending |>
                      <| bc_created_at := bc_created_at r |>
                      <| bc_expires_at := bc_expires_at r |>);
    mret tt
  else sql_insert broker_commands broker_commands_ok r.

Definition _enqueue_task_rekey_command (task_id source_attempt_id reason : string) (stamp : Z)
    : M Z :=
  task ← query (fun d => head (select (fun t => (t_id t =d task_id) &&
                                                (t_state t =d TRekeyRequired)) (tasks d)));
  match task with
  | None => mret 0
  | Some task =>
      match truthy_id (t_consumer_user_id task) with
      | None => mret 0
      | Some consumer =>
          broker_device ← query (fun d => freshest_broker_device d consumer stamp);
          match broker_device with
          | None => mret 0
          | Some (bd, _) =>
              id ← new_id "bcm";
              _ ← upsert_command (Mk_broker_command_row id (bd_id bd)
                    (Some ("task_rekey:" +:+ task_id +:+ ":" +:+ source_attempt_id))
                    "task_rekey"
                    (JDoc (JObj [("version", JInt 1);
                                 ("task_id", JStr task_id);
                                 ("workspace_id", JStr (t_workspace_id task));
                                 ("key_version", JInt (t_content_key_version task));
                                 ("source_attempt_id", JStr source_attempt_id);
                                 ("reason", JStr reason)]))
                    CPending None stamp (Some (stamp + seconds 3600)) None);
              mret 1
          end
      end
  end.

(** [ORDER BY a.attempt_number DESC LIMIT 1] over a task's attempts. *)
Definition latest_attempt (d : db) (task_id : string) : option attempt_row :=
  head (order_by (fun x y => a_attempt_number y <=? a_attempt_number x)
         (select (fun a => a_task_id a =d task_id) (task_attempts d))).

(** [str(id or "none")]. *)
Definition source_attempt (a : option attempt_row) : string :=
  match a with
  | Some a => if String.eqb (a_id a) "" then "none" else a_id a
  | None => "none"
  end.

Definition _ensure_rekey_commands (stamp : Z) (consumer_user_id : option string) : M Z :=
  rows ← query (fun d => map (fun t => (t_id t, source_attempt (latest_attempt d (t_id t))))
    (select (fun t =>
       (t_state t =d TRekeyRequired) && is_some (t_consumer_user_id t) &&
       negb (existsb (fun a => (a_task_id a =d t_id t) && (a_state a =d AReserved) &&
                               after (t_reservation_expires_at t) stamp) (task_attempts d)) &&
       match consumer_user_id with
       | None => true
       | Some u => t_consumer_user_id t =d Some u
       end) (tasks d)));
  for_sum rows (fun row =>
    _enqueue_task_rekey_command (fst row) (snd row) "rekey_required" stamp).

(** ** Worker drain, lease expiry and the sweep *)

Definition _finalize_drained_workers (stamp : Z) : M Z :=
  drained ← query (fun d => map w_id
    (select (fun w => (w_status w =d WDraining) &&
       negb (existsb (fun a => (a_worker_id a =d w_id w) && attempt_active (a_state a))
                     (task_attempts d))) (workers d)));
  _ ← for_each drained (fun worker_id =>
        _ ← sql_update workers (fun w => (w_id w =d worker_id) && (w_status w =d WDraining))
              (fun w => w <| w_status := WRevoked |> <| w_revoked_at := Some stamp |>
                          <| w_updated_at := stamp |>);
        _ ← sql_update sessions
              (fun s => (ss_principal_type s =d PWorker) && (ss_principal_id s =d worker_id) &&
                        (ss_revoked_at s =d None))
              (fun s => s <| ss_revoked_at := Some stamp |>);
        mret tt);
  mret (Z.of_nat (length drained)).

(** The body of the loop of [_expire_leases] for one lapsed lease. *)
Definition expire_lease (stamp : Z) (attempt_id task_id : string) : M Z :=
  _ ← sql_update leases (fun l => l_attempt_id l =d attempt_id)
        (fun l => l <| l_released_at := Some stamp |>);
  _ ← sql_update task_attempts
        (fun a => (a_id a =d attempt_id) && attempt_executing (a_state a))
        (fun a => a <| a_state := AExpired |> <| a_responsibility := Some RPlatform |>
                    <| a_failure_code := Some LEASE_LOST |> <| a_finished_at := Some stamp |>);
  rowcount ← sql_update tasks (fun t => (t_id t =d task_id) && task_executing (t_state t))
        (fun t => t <| t_state := TRekeyRequired |> <| t_updated_at := stamp |>);
  if rowcount =? 0 then mret 0
  else
    _ ← _enqueue_task_rekey_command task_id attempt_id "lease_expired" stamp;
    mret 1.

(** The [leases JOIN task_attempts] rows that have lapsed. *)
Definition lapsed_leases (d : db) (stamp : Z) : list (string * string) :=
  List.flat_map (fun l => List.map (fun a => (l_attempt_id l, a_task_id a))
      (select (fun a => a_id a =d l_attempt_id l) (task_attempts d)))
    (select (fun l => (l_released_at l =d None) && (l_expires_at l <=? stamp)) (leases d)).

Definition _expire_leases (stamp : Z) : M Z :=
  expired ← query (fun d => lapsed_leases d stamp);
  transitioned ← for_sum expired (fun row => expire_lease stamp (fst row) (snd row));
  _ ← _finalize_drained_workers stamp;
  mret transitioned.

Definition _expire_maintenance_jobs (stamp : Z) : M Z :=
  expired ← sql_update worker_maintenance_jobs
    (fun j => job_active (mj_state j) && (mj_expires_at j <=? stamp))
    (fun j => j <| mj_state := MExpired |> <| mj_completed_at := Some stamp |>
                <| mj_updated_at := stamp |> <| mj_lease_session_id := None |>
                <| mj_lease_expires_at := None |>);
  _ ← sql_update worker_maintenance_jobs
    (fun j => job_leased (mj_state j) && until (mj_lease_expires_at j) stamp &&
              (stamp <? mj_expires_at j))
    (fun j => j <| mj_state := MQueued |> <| mj_lease_session_id := None |>
                <| mj_lease_expires_at := None |> <| mj_heartbeat_at := None |>
                <| mj_updated_at := stamp |>);
  mret (Z.max 0 expired).

Definition TRANSFER_TICKET_REPLAY_RETENTION_SECONDS : Z := seconds 7200.

Definition job_terminal (s : job_state) : bool :=
  match s with MSucceeded | MFailed | MCancelled | MExpired => true | _ => false end.

(** [prune_expired_security_state]: the deletion counts in statement order. *)
Definition prune_expired_security_state (stamp : option Z) : M (list Z) :=
  cutoff ← (match stamp with None => now | Some s => mret s end : M Z);
  transaction (
    expired_sessions ← query (fun d => map ss_id
      (select (fun s => ss_expires_at s <=? cutoff) (sessions d)));
    _ ← sql_update worker_maintenance_jobs
          (fun j => job_terminal (mj_state j) &&
                    match mj_lease_session_id j with
                    | Some s => s ∈? expired_sessions
                    | None => false
                    end)
          (fun j => j <| mj_lease_session_id := None |>);
    n1 ← sql_delete device_recovery_challenges (fun c => dc_expires_at c <=? cutoff);
    n2 ← sql_delete auth_challenges (fun c => ac_expires_at c <=? cutoff);
    n3 ← sql_delete service_auth_challenges (fun c => sc_expires_at c <=? cutoff);
    n4 ← sql_delete request_nonces (fun r => rn_expires_at r <=? cutoff);
    n5 ← sql_delete maintenance_intent_receipts (fun r => mr_expires_at r <=? cutoff);
    n6 ← sql_delete idempotency_records (fun r => ir_expires_at r <=? cutoff);
    referenced ← query (fun d => List.flat_map (fun j => match mj_lease_session_id j with
                                                         | Some s => [s]
                                                         | None => []
                                                         end) (worker_maintenance_jobs d));
    n7 ← sql_delete sessions (fun s => (ss_expires_at s <=? cutoff) &&
                                       negb (ss_id s ∈? referenced));
    n8 ← sql_delete transfer_ticket_uses
           (fun u => tu_used_at u <=? cutoff - TRANSFER_TICKET_REPLAY_RETENTION_SECONDS);
    mret [n1; n2; n3; n4; n5; n6; n7; n8]).

(** [sweep_expired]: expired leases, expired maintenance jobs and queued
    broker commands. *)
Definition sweep_expired : M (Z * Z * Z) :=
  stamp ← now;
  counts ← transaction (
    _ ← sql_update broker_commands
          (fun c => (bc_state c =d CPending) && until (bc_expires_at c) stamp)
          (fun c => c <| bc_state := CExpired |>);
    _ ← _expire_reservations stamp;
    expired_leases ← _expire_leases stamp;
    expired_maintenance_jobs ← _expire_maintenance_jobs stamp;
    queued_commands ← _ensure_rekey_commands stamp None;
    mret (expired_leases, expired_maintenance_jobs, queued_commands));
  _ ← prune_expired_security_state (Some stamp);
  mret counts.

(** ** Prepare *)

Definition MAX_QUEUED_TASKS_PER_WORKER : Z := 100.

Definition _public_requirements (value : json) : M dict :=
  match validate_public_requirements value with
  | Raise (PublicMetadataError _ reason) =>
      raise (repo_err_full VALIDATION_FAILED "VALIDATION_FAILED"
               "Public scheduling requirements are invalid." 422 "none" "none"
               (Some [("field", JStr "public_requirements"); ("reason", JStr reason)]))
  | r => lift_res r
  end.

(** [next((row for row in rows if matches(row)), None)]. *)
Fixpoint first_match (d : db) (requirements : dict) (workflow_ref workflow_digest : string)
    (rows : list candidate) : res (option candidate) :=
  match rows with
  | [] => Ok None
  | row :: rows =>
      m ← _matches_requirements d (c_worker row) requirements workflow_ref workflow_digest;
      if m : bool then Ok (Some row)
      else first_match d requirements workflow_ref workflow_digest rows
  end.

(** [SELECT * FROM rate_cards .. status='approved' ORDER BY decided_at DESC LIMIT 1];
    NULL sorts last in descending order. *)
Definition approved_rate (d : db) (worker_id workspace_id : string) : option rate_row :=
  head (order_by (fun x y => match rt_decided_at y, rt_decided_at x with
                             | None, _ => true
                             | Some _, None => false
                             | Some b, Some a => b <=? a
                             end)
    (select (fun r => (rt_worker_id r =d worker_id) && (rt_workspace_id r =d workspace_id) &&
                      (rt_status r =d RtApproved)) (rate_cards d))).

Definition rate_snapshot (rate : rate_row) : json :=
  JObj [("rate_card_id", JStr (rt_id rate));
        ("rate_microtokens_per_second", JInt (rt_rate_microtokens_per_second rate));
        ("pricing_model", JStr "video_duration_and_generation_time");
        ("formula_version", JInt 0);
        ("formula_status", JStr "not_implemented")].

(** The allocation part of a prepare or retry answer. *)
Record allocation_view := MkAllocationView {
  av_id : string;
  av_owner_consent_at : option Z;
  av_proof : json;
  av_admin_user_id : string;
  av_admin_root_signing_public_key : string
}.

Definition _allocation_security_view (c : candidate) : M allocation_view :=
  let a := c_allocation c in
  let invalid := repo_err 230004 "ALLOCATION_PROOF_INVALID"
                   "The selected Worker allocation has no valid approval proof." 422 in
  match al_allocation_proof a with
  | Some (JDoc proof) =>
      approver ← query (fun d => head (select (fun u => (al_approved_by_user_id a =d Some (u_id u)) &&
                                                        (u_status u =d UActive)) (users d)));
      match approver with
      | None => raise (repo_err 230004 "ALLOCATION_PROOF_INVALID"
                         "The allocation proof signer is no longer active." 422)
      | Some u => mret (MkAllocationView (al_id a) (al_owner_consent_at a) proof
                          (u_id u) (u_root_signing_public_key u))
      end
  | _ => raise invalid
  end.

(** [fetchone("SELECT root_signing_public_key ..")[..]]: subscripting a missing
    row is a [TypeError]. *)
Definition owner_root_key (owner_user_id : string) : M string :=
  u ← query (fun d => find_by u_id owner_user_id (users d));
  match u with Some u => mret (u_root_signing_public_key u) | None => raise TypeError end.

(** The principal guard of [prepare_task] and [preflight_task]. *)
Definition require_submitter (workspace_id principal_type principal_id : string)
    (user_id : option string) : M unit :=
  if String.eqb principal_type "service" then
    _ ← require_service workspace_id principal_id;
    check (negb (is_some user_id))
      (repo_err FORBIDDEN "SERVICE_PRINCIPAL_INVALID"
         "Service sessions cannot impersonate users." 403)
  else
    _ ← require_member workspace_id user_id;
    mret tt.

Record prepare_request := MkPrepareRequest {
  pq_user_id : option string;
  pq_principal_type : string;
  pq_principal_id : string;
  pq_client_channel : client_channel;
  pq_workspace_id : string;
  pq_pool_id : string;
  pq_workflow_ref : string;
  pq_workflow_digest : string;
  pq_executor_type : string;
  pq_public_requirements : json;
  pq_priority : Z;
  pq_reservation_ttl_seconds : Z
}.

Record prepared_task := MkPrepared {
  pt_task : option task_row;
  pt_worker : worker_row;
  pt_owner_root_signing_public_key : string;
  pt_allocation : allocation_view;
  pt_rate_card_id : string;
  pt_attempt_id : string;
  pt_key_version : Z;
  pt_fencing_token : Z;
  pt_queue_expected : bool
}.

(** The candidate a task is prepared for: one with a free slot, else one whose
    queue it can join. *)
Definition choose_candidate (d : db) (pool_id executor_type : string) (requirements : dict)
    (workflow_ref workflow_digest : string) (stamp : Z) : res (option candidate * bool) :=
  c ← first_match d requirements workflow_ref workflow_digest
        (_task_candidate_rows d pool_id executor_type stamp);
  match c with
  | Some c => Ok (Some c, false)
  | None =>
      c ← first_match d requirements workflow_ref workflow_digest
            (_task_queue_candidate_rows d pool_id executor_type stamp);
      Ok (c, is_some c)
  end.

(** The statements that reserve a worker for a new task. *)
Definition reserve_task (q : prepare_request) (requirements : dict) (content_key_version : Z)
    (worker : worker_row) (rate : rate_row) (stamp : Z) : M (string * string * Z) :=
  task_id ← new_id "tsk";
  attempt_id ← new_id "atm";
  let fencing := w_fencing_counter worker + 1 in
  _ ← sql_insert tasks tasks_ok
        (Mk_task_row task_id (pq_workspace_id q) (pq_pool_id q) (pq_user_id q)
           (pq_principal_type q) (pq_principal_id q) (pq_client_channel q) (pq_workflow_ref q)
           (pq_workflow_digest q) (pq_executor_type q) (JDoc (JObj requirements))
           content_key_version None None (Some (w_id worker))
           (Some (stamp + seconds (pq_reservation_ttl_seconds q))) TPrepared (pq_priority q)
           stamp None None stamp);
  _ ← sql_update workers (fun w => w_id w =d w_id worker)
        (fun w => w <| w_fencing_counter := fencing |> <| w_updated_at := stamp |>);
  _ ← sql_insert task_attempts attempts_ok
        (Mk_attempt_row attempt_id task_id 1 (w_id worker) (w_owner_user_id worker)
           (w_manager_broker_id worker) (w_executor_type worker) (w_executor_version worker)
           AReserved None None None (JDoc (JObj [])) (JDoc (rate_snapshot rate)) fencing stamp
           None None None None None);
  mret (task_id, attempt_id, fencing).

Definition prepare_task (q : prepare_request) : M prepared_task :=
  requirements ← _public_requirements (pq_public_requirements q);
  _ ← require_submitter (pq_workspace_id q) (pq_principal_type q) (pq_principal_id q)
        (pq_user_id q);
  workspace ← query (fun d => head (select (fun x => (ws_id x =d pq_workspace_id q) &&
                                                    (ws_status x =d SpActive)) (workspaces d)));
  workspace ← require workspace
    (repo_err WORKSPACE_NOT_FOUND "WORKSPACE_NOT_FOUND" "Workspace not found." 404);
  let content_key_version := ws_key_version workspace in
  pool ← query (fun d => head (select (fun x => (po_id x =d pq_pool_id q) &&
                                               (po_workspace_id x =d pq_workspace_id q) &&
                                               (po_status x =d SpActive)) (pools d)));
  _ ← require pool (repo_err POOL_NOT_FOUND "POOL_NOT_FOUND" "Pool not found." 404);
  stamp ← now;
  r ← transaction (
    _ ← _expire_reservations stamp;
    _ ← _expire_leases stamp;
    d ← query (fun d => d);
    choice ← lift_res (choose_candidate d (pq_pool_id q) (pq_executor_type q) requirements
                         (pq_workflow_ref q) (pq_workflow_digest q) stamp);
    let details := Some [("pool_id", JStr (pq_pool_id q));
                         ("executor_type", JStr (pq_executor_type q))] in
    c ← require (fst choice)
      (repo_err_full NO_ELIGIBLE_WORKER "NO_ELIGIBLE_WORKER"
         "No eligible worker is currently available." 503 "later" "platform" details);
    _ ← check (negb (snd choice && (MAX_QUEUED_TASKS_PER_WORKER <=? c_queued_load c)))
      (repo_err_full NO_ELIGIBLE_WORKER "WORKER_QUEUE_FULL"
         "The matching Worker's task queue is full." 503 "later" "platform" details);
    rate ← query (fun d => approved_rate d (w_id (c_worker c)) (pq_workspace_id q));
    rate ← require rate (repo_err RATE_NOT_APPROVED "RATE_NOT_APPROVED"
                           "The selected worker has no approved rate." 409);
    ids ← reserve_task q requirements content_key_version (c_worker c) rate stamp;
    mret (c, snd choice, rate, ids));
  let '(c, queueing, rate, (task_id, attempt_id, fencing)) := r in
  task ← query (fun d => find_by t_id task_id (tasks d));
  root ← owner_root_key (w_owner_user_id (c_worker c));
  allocation ← _allocation_security_view c;
  mret (MkPrepared task (c_worker c) root allocation (rt_id rate) attempt_id
          content_key_version fencing queueing).

(** ** Preflight *)

Inductive preflight_state :=
  | no_allocated_worker | capability_mismatch | worker_offline_or_busy | queue_full
  | rate_not_approved | queue_available | ready.

#[export] Instance preflight_state_eq_dec : EqDecision preflight_state.
Proof. solve_decision. Defined.

(** [state in {"ready", "queue_available"}]. *)
Definition preflight_ready (s : preflight_state) : bool :=
  match s with ready | queue_available => true | _ => false end.

Definition preflight_task (q : prepare_request) : M preflight_state :=
  requirements ← _public_requirements (pq_public_requirements q);
  _ ← require_submitter (pq_workspace_id q) (pq_principal_type q) (pq_principal_id q)
        (pq_user_id q);
  workspace ← query (fun d => head (select (fun x => (ws_id x =d pq_workspace_id q) &&
                                                    (ws_status x =d SpActive)) (workspaces d)));
  _ ← require workspace
    (repo_err WORKSPACE_NOT_FOUND "WORKSPACE_NOT_FOUND" "Workspace not found." 404);
  pool ← query (fun d => head (select (fun x => (po_id x =d pq_pool_id q) &&
                                               (po_workspace_id x =d pq_workspace_id q) &&
                                               (po_status x =d SpActive)) (pools d)));
  _ ← require pool (repo_err POOL_NOT_FOUND "POOL_NOT_FOUND" "Pool not found." 404);
  d ← query (fun d => d);
  if negb (existsb (fun a => (al_pool_id a =d pq_pool_id q) && (al_status a =d AlActive) &&
                             is_some (al_allocation_proof a) &&
                             has_key w_id (workers d) (al_worker_id a)) (worker_allocations d))
  then mret no_allocated_worker
  else
    stamp ← now;
    choice ← lift_res (choose_candidate d (pq_pool_id q) (pq_executor_type q) requirements
                         (pq_workflow_ref q) (pq_workflow_digest q) stamp);
    match fst choice with
    | None => mret (if _has_online_allocated_worker d (pq_pool_id q) stamp
                    then capability_mismatch else worker_offline_or_busy)
    | Some c =>
        if snd choice && (MAX_QUEUED_TASKS_PER_WORKER <=? c_queued_load c)
        then mret queue_full
        else match approved_rate d (w_id (c_worker c)) (pq_workspace_id q) with
             | None => mret rate_not_approved
             | Some _ => mret (if snd choice then queue_available else ready)
             end
    end.

(** ** Commit *)

Definition insert_worker_envelope (task : task_row) (worker_id : option string)
    (algorithm envelope : string) (stamp : Z) : M unit :=
  id ← new_id "ken";
  match worker_id with
  | None => raise IntegrityError
  | Some recipient =>
      sql_insert key_envelopes key_envelopes_ok
        (Mk_key_envelope_row id (Some (t_workspace_id task)) (Some (t_id task)) "worker" recipient
           (t_content_key_version task) algorithm envelope stamp None)
  end.

(** The order of a worker's queue: [priority DESC, created_at, id]. *)
Definition queue_before (x y : task_row) : bool :=
  (t_priority y <? t_priority x) ||
  ((t_priority x =? t_priority y) &&
   ((t_created_at x <? t_created_at y) ||
    ((t_created_at x =? t_created_at y) && str_ltb (t_id x) (t_id y)))).

Definition _task_queue_position (d : db) (task : task_row) : option Z :=
  if task_waiting (t_state task) then
    match truthy_id (t_assigned_worker_id task) with
    | None => None
    | Some worker_id =>
        Some (count (fun t => (t_assigned_worker_id t =d Some worker_id) &&
                              task_waiting (t_state t) && queue_before t task) (tasks d) + 1)
    end
  else None.

Definition commit_task (task_id : string) (user_id : option string)
    (principal_type principal_id encrypted_payload worker_tdk_envelope reader_envelope
     key_algorithm : string) : M (task_row * option Z) :=
  stamp ← now;
  _ ← transaction (
    task ← query (fun d => find_by t_id task_id (tasks d));
    task ← require task (repo_err TASK_NOT_FOUND "TASK_NOT_FOUND" "Task not found." 404);
    _ ← require_task_consumer task principal_type principal_id user_id false;
    _ ← check (t_state task =d TPrepared)
          (repo_err TASK_STATE_CONFLICT "TASK_STATE_CONFLICT" "Task is not prepared." 409);
    match t_reservation_expires_at task with
    | None => raise TypeError
    | Some reservation_expires_at =>
        if reservation_expires_at <=? stamp then
          _ ← sql_update tasks (fun t => t_id t =d task_id)
                (fun t => t <| t_state := TExpired |> <| t_finished_at := Some stamp |>
                            <| t_updated_at := stamp |>);
          raise (repo_err_full RESERVATION_EXPIRED "RESERVATION_EXPIRED"
                   "Task reservation has expired." 409 "later" "none" None)
        else
          pending_inputs ← query (fun d => count (fun a =>
            (ar_task_id a =d task_id) && (ar_direction a =d DInput) &&
            negb (ar_state a =d ArUploaded)) (artifacts d));
          _ ← check (pending_inputs =? 0)
                (repo_err VALIDATION_FAILED "INPUT_ARTIFACT_NOT_UPLOADED"
                   "All encrypted input artifacts must be uploaded before commit." 409);
          _ ← sql_update tasks (fun t => t_id t =d task_id)
                (fun t => t <| t_encrypted_payload := Some encrypted_payload |>
                            <| t_reader_envelope := Some reader_envelope |>
                            <| t_state := TCommitted |>
                            <| t_committed_at := Some stamp |> <| t_updated_at := stamp |>);
          _ ← insert_worker_envelope task (t_assigned_worker_id task) key_algorithm
                worker_tdk_envelope stamp;
          _ ← sql_update tasks (fun t => (t_id t =d task_id) && (t_state t =d TCommitted))
                (fun t => t <| t_state := TQueued |> <| t_reservation_expires_at := None |>
                            <| t_updated_at := stamp |>);
          mret tt
    end);
  value ← query (fun d => find_by t_id task_id (tasks d));
  value ← require value TypeError;
  d ← query (fun d => d);
  mret (value, _task_queue_position d value).

(** ** Lease *)

(** [ORDER BY priority DESC, created_at, id]. *)
Definition queue_leb (x y : task_row) : bool := negb (queue_before y x).

(** [int(v)] of a JSON number; stored requirements hold no numeric strings. *)
Definition py_int (v : json) : res Z :=
  match v with
  | JInt z => Ok z
  | JBool b => Ok (if b then 1 else 0)
  | JFloat (FFin m e) => Ok (float_trunc m e)
  | JFloat (FInf _) => Raise OverflowError
  | JFloat FNan | JStr _ => Raise ValueError
  | _ => Raise TypeError
  end.

(** The view of an artifact: its row and its media metadata, projected again for
    the outputs a worker reported. *)
Definition artifact_view : Type := artifact_row * json.

Definition _artifact_value (row : artifact_row) : res artifact_view :=
  match ar_media_metadata row with
  | JBad _ => Raise JSONDecodeError
  | JDoc v =>
      if ar_direction row =d DOutput then
        match project_reported_artifact_media_metadata v with
        | Ok m => Ok (row, JObj m)
        | Raise (PublicMetadataError _ _) => Ok (row, JObj [])
        | Raise e => Raise e
        end
      else Ok (row, v)
  end.

Record lease_grant := MkGrant {
  g_lease_id : string;
  g_attempt_id : string;
  g_content_attempt_id : string;
  g_task : task_row;
  g_fencing_token : Z;
  g_expires_at : Z;
  g_payload_format : json;
  g_operation : json;
  g_output_count : Z;
  g_key_version : Z;
  g_encrypted_tdk_envelope : string;
  g_artifacts : list artifact_view
}.

(** The head of a worker's queue. *)
Definition queue_head (d : db) (worker_id : string) (stamp : Z) : option task_row :=
  head (order_by queue_leb
    (select (fun t => (t_assigned_worker_id t =d Some worker_id) && task_waiting (t_state t) &&
                      match t_reservation_expires_at t with
                      | None => true
                      | Some x => stamp <? x
                      end) (tasks d))).

Definition reserved_attempt (d : db) (task_id worker_id : string) : option attempt_row :=
  head (order_by (fun x y => a_attempt_number y <=? a_attempt_number x)
    (select (fun a => (a_task_id a =d task_id) && (a_worker_id a =d worker_id) &&
                      (a_state a =d AReserved)) (task_attempts d))).

Definition worker_envelope (d : db) (task_id worker_id : string) : option key_envelope_row :=
  head (order_by (fun x y => ke_created_at y <=? ke_created_at x)
    (select (fun k => (ke_task_id k =d Some task_id) && (ke_recipient_type k =d "worker") &&
                      (ke_recipient_id k =d worker_id) && (ke_revoked_at k =d None))
            (key_envelopes d))).

Definition first_attempt (d : db) (task_id : string) : option attempt_row :=
  head (order_by (fun x y => a_attempt_number x <=? a_attempt_number y)
    (select (fun a => a_task_id a =d task_id) (task_attempts d))).

Definition executing_count (d : db) (worker_id : string) : Z :=
  count (fun a => (a_worker_id a =d worker_id) && attempt_executing (a_state a))
        (task_attempts d).

(** The statements that grant a lease on the chosen task and attempt. *)
Definition grant_lease (worker : worker_row) (task : task_row) (attempt : attempt_row)
    (key : key_envelope_row) (lease_id : string) (stamp ttl_seconds : Z) : M Z :=
  let fencing := w_fencing_counter worker + 1 in
  _ ← sql_update_unique task_attempts attempt_fences_distinct
        (fun a => (a_id a =d a_id attempt) && (a_state a =d AReserved))
        (fun a => a <| a_state := ALeased |> <| a_fencing_token := fencing |>
                    <| a_leased_at := Some stamp |>);
  _ ← sql_update workers (fun w => w_id w =d w_id worker)
        (fun w => w <| w_fencing_counter := fencing |> <| w_updated_at := stamp |>);
  _ ← sql_insert leases leases_ok
        (Mk_lease_row lease_id (a_id attempt) (w_id worker) fencing (ke_envelope key) stamp
           (stamp + seconds ttl_seconds) (Some stamp) None);
  _ ← sql_update tasks (fun t => t_id t =d t_id task)
        (fun t => t <| t_state := TReserved |> <| t_updated_at := stamp |>);
  mret fencing.

(** What the transaction of [lease] decides: nothing to do, or a grant. *)
Definition lease_transaction (worker_id : string) (stamp ttl_seconds : Z)
    : M (option (task_row * attempt_row * key_envelope_row * string * Z)) :=
  _ ← _expire_reservations stamp;
  _ ← _expire_leases stamp;
  worker ← query (fun d => find_by w_id worker_id (workers d));
  worker ← require worker (repo_err WORKER_NOT_FOUND "WORKER_NOT_FOUND" "Worker not found." 404);
  _ ← check (negb (w_status worker =d WDraining))
        (repo_err WORKER_DRAINING "WORKER_DRAINING" "Worker is draining." 409);
  _ ← check (w_status worker =d WActive)
        (repo_err_full WORKER_OFFLINE "WORKER_OFFLINE" "Worker is not active." 409
           "later" "none" None);
  active_count ← query (fun d => executing_count d worker_id);
  if w_capacity worker <=? active_count then mret None
  else
    maintenance ← query (fun d => has_blocking_job d worker_id);
    task ← query (fun d => queue_head d worker_id stamp);
    if maintenance : bool then mret None
    else match task with
    | None => mret None
    | Some task =>
        attempt ← query (fun d => reserved_attempt d (t_id task) worker_id);
        attempt ← require attempt
          (repo_err TASK_STATE_CONFLICT "ATTEMPT_STATE_CONFLICT"
             "No reserved attempt exists for this task." 409);
        lease_id ← new_id "lea";
        key ← query (fun d => worker_envelope d (t_id task) worker_id);
        key ← require key
          (repo_err_full 310002 "REKEY_REQUIRED" "The task key must be wrapped for this worker."
             409 "rekey_required" "none" None);
        fencing ← grant_lease worker task attempt key lease_id stamp ttl_seconds;
        mret (Some (task, attempt, key, lease_id, fencing))
    end.

Definition lease (worker_id : string) (ttl_seconds : Z) : M (option lease_grant) :=
  stamp ← now;
  r ← transaction (lease_transaction worker_id stamp ttl_seconds);
  match r with
  | None => mret None
  | Some (task, attempt, key, lease_id, fencing) =>
      inputs ← query (fun d => select (fun a => (ar_task_id a =d t_id task) &&
                                               (ar_direction a =d DInput)) (artifacts d));
      inputs ← lift_res (res_map _artifact_value inputs);
      requirements ← require (json_loads_or (JObj []) (t_public_requirements task))
                       JSONDecodeError;
      requirements ← (match requirements with JObj r => mret r | _ => raise TypeError end : M dict);
      content_attempt ← query (fun d => first_attempt d (t_id task));
      content_attempt ← require content_attempt TypeError;
      output_count ← lift_res (py_int (jget_or "output_count" (JInt 1) requirements));
      mret (Some (MkGrant lease_id (a_id attempt) (a_id content_attempt) task fencing
              (stamp + seconds ttl_seconds)
              (jget_or "payload_format" (JStr "opaque/v1") requirements)
              (jget_or "operation" (JStr "unknown") requirements)
              (Z.min (Z.max output_count 1) 8)
              (ke_key_version key) (ke_envelope key) inputs))
  end.

(** ** Heartbeat *)

(** The double nearest to [k / 100], for the hundredths of a progress report. *)
Definition hundredths_float (k : Z) : float :=
  if k <=? 0 then FFin 0 0
  else
    let s := 59 - Z.log2 k in
    let s := if 2 ^ 53 <=? k * 2 ^ s / 100 then s - 1 else s in
    let n := k * 2 ^ s in
    let q := n / 100 in
    let r := n mod 100 in
    FFin (if (r <? 50) || ((r =? 50) && Z.even q) then q else q + 1) (- s).

Definition progress_json (p : progress) : json :=
  JObj [("fraction", JFloat (hundredths_float (p_hundredths p))); ("stage", JStr (p_stage p))].

Record heartbeat_result := MkHeartbeat { h_cancelled : bool; h_expires_at : Z }.

(** The unreleased lease with its attempt and task, for one exact fence. *)
Definition fenced_lease (d : db) (attempt_id worker_id : string) (fencing_token : Z)
    : option (lease_row * attempt_row * task_row) :=
  l ← head (select (fun l => (l_attempt_id l =d attempt_id) && (l_worker_id l =d worker_id) &&
                             (l_fencing_token l =d fencing_token) && (l_released_at l =d None))
                   (leases d));
  a ← find_by a_id attempt_id (task_attempts d);
  t ← find_by t_id (a_task_id a) (tasks d);
  Some (l, a, t).

(** The attempt and task of an exact fence, leased or not. *)
Definition fenced_attempt (d : db) (attempt_id worker_id : string) (fencing_token : Z)
    : option (attempt_row * task_row) :=
  a ← head (select (fun a => (a_id a =d attempt_id) && (a_worker_id a =d worker_id) &&
                             (a_fencing_token a =d fencing_token)) (task_attempts d));
  t ← find_by t_id (a_task_id a) (tasks d);
  Some (a, t).

(** The answer to a heartbeat whose lease is gone: an acknowledgement when the
    task was cancelled, [LEASE_LOST] otherwise. *)
Definition cancelled_ack (attempt_id worker_id : string) (fencing_token stamp : Z)
    : M heartbeat_result :=
  fenced ← query (fun d => fenced_attempt d attempt_id worker_id fencing_token);
  match fenced with
  | Some (_, t) =>
      if t_state t =d TCancelled then mret (MkHeartbeat true stamp)
      else raise (repo_err_full LEASE_LOST "LEASE_LOST" "Lease is no longer valid." 409
                    "none" "provider" None)
  | None => raise (repo_err_full LEASE_LOST "LEASE_LOST" "Lease is no longer valid." 409
                     "none" "provider" None)
  end.

Definition heartbeat_attempt (attempt_id worker_id : string) (fencing_token ttl_seconds : Z)
    (started : bool) (report : option json) : M heartbeat_result :=
  stamp ← now;
  transaction (
    lease ← query (fun d => fenced_lease d attempt_id worker_id fencing_token);
    let live := match lease with Some (l, _, _) => stamp <? l_expires_at l | None => false end in
    match lease with
    | Some (l, a, t) =>
        if live then
          _ ← sql_update workers (fun w => w_id w =d worker_id)
                (fun w => w <| w_last_seen_at := Some stamp |> <| w_updated_at := stamp |>);
          _ ← sql_update leases (fun l => l_attempt_id l =d attempt_id)
                (fun l => l <| l_heartbeat_at := Some stamp |>
                            <| l_expires_at := stamp + seconds ttl_seconds |>);
          if t_state t =d TCancelled then
            mret (MkHeartbeat true (stamp + seconds ttl_seconds))
          else
            _ ← (match report with
                 | None => mret tt
                 | Some report =>
                     match canonical_task_progress report with
                     | None => raise (repo_err VALIDATION_FAILED "PROGRESS_INVALID"
                                        "Progress is invalid." 422)
                     | Some p =>
                         _ ← sql_update task_attempts (fun a => a_id a =d attempt_id)
                               (fun a => a <| a_progress := JDoc (progress_json p) |>);
                         mret tt
                     end
                 end : M unit);
            _ ← (if started && (a_state a =d ALeased) then
                   _ ← sql_update task_attempts (fun a => a_id a =d attempt_id)
                         (fun a => a <| a_state := ARunning |> <| a_started_at := Some stamp |>);
                   _ ← sql_update tasks (fun t' => t_id t' =d t_id t)
                         (fun t => t <| t_state := TRunning |> <| t_updated_at := stamp |>);
                   mret tt
                 else mret tt : M unit);
            mret (MkHeartbeat false (stamp + seconds ttl_seconds))
        else
          cancelled_ack attempt_id worker_id fencing_token stamp
    | None => cancelled_ack attempt_id worker_id fencing_token stamp
    end).

(** ** Cancel *)

Definition cancel_task (task_id : string) (user_id : option string)
    (principal_type principal_id : string) : M task_state :=
  stamp ← now;
  transaction (
    task ← query (fun d => find_by t_id task_id (tasks d));
    task ← require task (repo_err 300002 "TASK_NOT_FOUND" "Task not found." 404);
    _ ← require_task_consumer task principal_type principal_id user_id true;
    if task_terminal (t_state task) then mret (t_state task)
    else
      _ ← sql_update tasks (fun t => t_id t =d task_id)
            (fun t => t <| t_state := TCancelled |> <| t_finished_at := Some stamp |>
                        <| t_updated_at := stamp |>);
      _ ← sql_update task_attempts
            (fun a => (a_task_id a =d task_id) && attempt_unstarted (a_state a))
            (fun a => a <| a_state := ACancelled |> <| a_responsibility := Some RConsumer |>
                        <| a_finished_at := Some stamp |>);
      attempt_ids ← query (fun d => map a_id
            (select (fun a => (a_task_id a =d task_id) && (a_state a =d ACancelled) &&
                              (a_started_at a =d None)) (task_attempts d)));
      _ ← sql_update leases
            (fun l => (l_attempt_id l ∈? attempt_ids) && (l_released_at l =d None))
            (fun l => l <| l_released_at := Some stamp |>);
      mret TCancelled).

(** ** Retry and rekey *)

(** The candidate query of [prepare_retry]; a NULL assigned worker compares to
    nothing. *)
Definition retry_candidate_rows (d : db) (task : task_row) (stamp : Z) : list candidate :=
  take 50 (order_by freshest_leb
    (join_candidates d (fun w a =>
       schedulable d (t_pool_id task) (t_executor_type task) stamp w a &&
       match t_assigned_worker_id task with
       | Some assigned => negb (w_id w =d assigned)
       | None => false
       end &&
       (reserved_load d (w_id w) stamp <? w_capacity w)))).

Definition next_attempt_number (d : db) (task_id : string) : Z :=
  List.fold_left (fun n a => Z.max n (a_attempt_number a))
    (select (fun a => a_task_id a =d task_id) (task_attempts d)) 0 + 1.

Record retry_plan := MkRetry {
  rp_task : task_row;
  rp_attempt_id : string;
  rp_content_attempt_id : string;
  rp_fencing_token : Z;
  rp_reservation_expires_at : Z;
  rp_worker : worker_row;
  rp_owner_root_signing_public_key : string;
  rp_allocation : allocation_view
}.

Definition task_retryable (s : task_state) : bool :=
  match s with TFailed | TRekeyRequired | TExpired => true | _ => false end.

(** The statements that reserve a replacement worker. *)
Definition reserve_retry (task : task_row) (worker : worker_row) (rate : rate_row)
    (stamp reservation_ttl_seconds : Z) : M (string * Z) :=
  let fencing := w_fencing_counter worker + 1 in
  attempt_number ← query (fun d => next_attempt_number d (t_id task));
  attempt_id ← new_id "atm";
  _ ← sql_update workers (fun w => w_id w =d w_id worker)
        (fun w => w <| w_fencing_counter := fencing |> <| w_updated_at := stamp |>);
  _ ← sql_insert task_attempts attempts_ok
        (Mk_attempt_row attempt_id (t_id task) attempt_number (w_id worker)
           (w_owner_user_id worker) (w_manager_broker_id worker) (w_executor_type worker)
           (w_executor_version worker) AReserved None None None (JDoc (JObj []))
           (JDoc (rate_snapshot rate)) fencing stamp None None None None None);
  _ ← sql_update tasks (fun t => t_id t =d t_id task)
        (fun t => t <| t_assigned_worker_id := Some (w_id worker) |>
                    <| t_reservation_expires_at :=
                         Some (stamp + seconds reservation_ttl_seconds) |>
                    <| t_state := TRekeyRequired |> <| t_finished_at := None |>
                    <| t_updated_at := stamp |>);
  mret (attempt_id, fencing).

Definition prepare_retry (task_id : string) (user_id : option string)
    (principal_type principal_id : string) (reservation_ttl_seconds : Z) : M retry_plan :=
  stamp ← now;
  r ← transaction (
    _ ← _expire_reservations stamp;
    task ← query (fun d => find_by t_id task_id (tasks d));
    task ← require task (repo_err 300002 "TASK_NOT_FOUND" "Task not found." 404);
    _ ← require_task_consumer task principal_type principal_id user_id true;
    _ ← check (task_retryable (t_state task))
          (repo_err TASK_STATE_CONFLICT "TASK_STATE_CONFLICT"
             "Task cannot be retried from its current state." 409);
    _ ← check (is_some (truthy_id (t_encrypted_payload task)) &&
               is_some (truthy_id (t_reader_envelope task)))
          (repo_err TASK_STATE_CONFLICT "TASK_RETRY_CONTENT_UNAVAILABLE"
             "An uncommitted or content-less task must be submitted again." 409);
    stored ← require (json_loads_or (JObj []) (t_public_requirements task)) JSONDecodeError;
    requirements ← _public_requirements stored;
    d ← query (fun d => d);
    c ← lift_res (first_match d requirements (t_workflow_ref task) (t_workflow_digest task)
                    (retry_candidate_rows d task stamp));
    c ← require c (repo_err NO_ELIGIBLE_WORKER "NO_ELIGIBLE_WORKER"
                     "No eligible worker is currently available." 503);
    rate ← query (fun d => approved_rate d (w_id (c_worker c)) (t_workspace_id task));
    rate ← require rate (repo_err RATE_NOT_APPROVED "RATE_NOT_APPROVED"
                           "The replacement worker has no approved rate." 409);
    ids ← reserve_retry task (c_worker c) rate stamp reservation_ttl_seconds;
    mret (task, c, ids));
  let '(task, c, (attempt_id, fencing)) := r in
  content_attempt ← query (fun d => first_attempt d task_id);
  content_attempt ← require content_attempt TypeError;
  root ← owner_root_key (w_owner_user_id (c_worker c));
  allocation ← _allocation_security_view c;
  mret (MkRetry task attempt_id (a_id content_attempt) fencing
          (stamp + seconds reservation_ttl_seconds) (c_worker c) root allocation).

Definition commit_rekey (task_id : string) (user_id : option string)
    (replacement_worker_id worker_tdk_envelope key_algorithm principal_type principal_id : string)
    : M (option Z) :=
  stamp ← now;
  _ ← transaction (
    task ← query (fun d => find_by t_id task_id (tasks d));
    task ← require task (repo_err 300002 "TASK_NOT_FOUND" "Task not found." 404);
    _ ← require_task_consumer task principal_type principal_id user_id false;
    _ ← check ((t_state task =d TRekeyRequired) &&
               (t_assigned_worker_id task =d Some replacement_worker_id))
          (repo_err TASK_STATE_CONFLICT "TASK_STATE_CONFLICT"
             "Task has no matching rekey reservation." 409);
    match t_reservation_expires_at task with
    | None => raise TypeError
    | Some reservation_expires_at =>
        _ ← check (stamp <? reservation_expires_at)
              (repo_err RESERVATION_EXPIRED "RESERVATION_EXPIRED"
                 "Rekey reservation has expired." 409);
        _ ← sql_update key_envelopes
              (fun k => (ke_task_id k =d Some task_id) && (ke_recipient_type k =d "worker") &&
                        (ke_revoked_at k =d None))
              (fun k => k <| ke_revoked_at := Some stamp |>);
        _ ← insert_worker_envelope task (Some replacement_worker_id) key_algorithm
              worker_tdk_envelope stamp;
        _ ← sql_update tasks (fun t => t_id t =d task_id)
              (fun t => t <| t_state := TQueued |> <| t_reservation_expires_at := None |>
                          <| t_updated_at := stamp |>);
        mret tt
    end);
  queued ← query (fun d => find_by t_id task_id (tasks d));
  queued ← require queued TypeError;
  d ← query (fun d => d);
  mret (_task_queue_position d queued).

End Operations.
