(* ===== verification/Fleet.v ===== *)
(** * The worker fleet ([src/vgen/gateway/repository.py], "workers")

    Registration, offers of a worker to a pool, worker heartbeats, change of the
    manager broker and departure.  A heartbeat is how a worker reports what it
    can run; what it may run is decided by the authorization tables, which a
    heartbeat never writes. *)

From S2P Require Import Prelude Python Errors Metadata Schema Store Capability Access.
From S2P Require Import Scheduler.

Open Scope Z_scope.

(** ** Bundled bootstrap policy ([bootstrap_capabilities.py]) *)

Record BootstrapWorkflowAuthorization := MkBootstrap {
  bw_workflow_ref : string;
  bw_workflow_digest : string;
  bw_model_digests : list string;
  bw_node_classes : list string
}.

Definition COMFYUI_BOOTSTRAP_WORKFLOWS : list BootstrapWorkflowAuthorization :=
  [MkBootstrap "vgen/minimax-h3-8step@1.0.0"
     "sha256:bd15cace959f6330626b47c07195b6f8a016e334683969c0d5b044b24debcb93"
     ["sha256:2339acdf19bfe123f46b971ea35d367a84adb85de43627e1eceafa5a5b2b111e";
      "sha256:35a88d51044231fe332301d7a62aa81e3f2cba62febeb446e2c1e3e0ef76f2c6";
      "sha256:7c1f131492e7eddacaac9069a61b81bdd39de5cc96561e677c5eab1cdce5e522";
      "sha256:8e505d95dd1561d47abd43d4238fd40d9bb1ae9e147ed0a4cba778d76ae4db48";
      "sha256:e889202c41dafb67b10d67b97f0d8541508036a6090af23425a5c2615d03c47a"]
     ["BasicGuider"; "CLIPLoader"; "LoadImage"; "LoraLoaderBypassModelOnly";
      "MiniMaxH3AVDecodeT8"; "MiniMaxH3AudioConditioningT8"; "MiniMaxH3DualClockSamplerT8";
      "RandomNoise"; "SamplerCustomAdvanced"; "UNETLoader"; "VAELoader"; "VHS_VideoCombine"]].

Definition bootstrap_source (b : BootstrapWorkflowAuthorization) : string :=
  "bundled-bootstrap:" +:+ bw_workflow_ref b.

(** [authorization_source_id LIKE 'bundled-bootstrap:%']; LIKE folds ASCII case. *)
Definition is_bootstrap_source (s : string) : bool :=
  str_startswith "bundled-bootstrap:" (str_lower s).

Definition workflow_auth_key (r : workflow_auth_row) : string * (string * identity) :=
  (wa_worker_id r, (wa_authorization_source_id r, (wa_workflow_ref r, wa_workflow_digest r))).

Definition model_auth_key (r : model_auth_row) : string * (string * (identity * string)) :=
  (ma_worker_id r,
   (ma_authorization_source_id r, ((ma_workflow_ref r, ma_workflow_digest r), ma_model_digest r))).

(** Constraints of the worker tables. *)
Definition workflow_auths_ok (d : db) (r : workflow_auth_row) : bool :=
  negb (has_key workflow_auth_key (worker_workflow_authorizations d) (workflow_auth_key r)) &&
  has_key w_id (workers d) (wa_worker_id r).

Definition model_auths_ok (d : db) (r : model_auth_row) : bool :=
  negb (has_key model_auth_key (worker_model_authorizations d) (model_auth_key r)) &&
  has_key w_id (workers d) (ma_worker_id r).

Definition workers_ok (d : db) (r : worker_row) : bool :=
  negb (has_key w_id (workers d) (w_id r)) &&
  negb (has_key w_signing_public_key (workers d) (w_signing_public_key r)) &&
  has_key u_id (users d) (w_owner_user_id r) &&
  has_key_opt br_id (brokers d) (w_manager_broker_id r) && (0 <? w_capacity r).

Definition allocations_ok (d : db) (r : allocation_row) : bool :=
  negb (has_key al_id (worker_allocations d) (al_id r)) &&
  has_key w_id (workers d) (al_worker_id r) &&
  has_key ws_id (workspaces d) (al_workspace_id r) &&
  has_key po_id (pools d) (al_pool_id r).

Section Operations.
Context {E : Env}.

(** [INSERT INTO worker_workflow_authorizations .. ON CONFLICT DO UPDATE]. *)
Definition upsert_workflow_auth (r : workflow_auth_row) : M unit :=
  existing ← query (fun d => has_key workflow_auth_key (worker_workflow_authorizations d)
                                     (workflow_auth_key r));
  if existing : bool then
    _ ← sql_update worker_workflow_authorizations
          (fun x => workflow_auth_key x =d workflow_auth_key r)
          (fun x => x <| wa_spec_digest := wa_spec_digest r |>
                      <| wa_node_classes := wa_node_classes r |> <| wa_revoked_at := None |>);
    mret tt
  else sql_insert worker_workflow_authorizations workflow_auths_ok r.

Definition upsert_model_auth (r : model_auth_row) : M unit :=
  existing ← query (fun d => has_key model_auth_key (worker_model_authorizations d)
                                     (model_auth_key r));
  if existing : bool then
    _ ← sql_update worker_model_authorizations
          (fun x => model_auth_key x =d model_auth_key r)
          (fun x => x <| ma_spec_digest := ma_spec_digest r |> <| ma_revoked_at := None |>);
    mret tt
  else sql_insert worker_model_authorizations model_auths_ok r.

(** The bootstrap grants of an executor type. *)
Definition desired_bootstrap (executor_type : string) : list BootstrapWorkflowAuthorization :=
  if String.eqb executor_type "comfyui" then COMFYUI_BOOTSTRAP_WORKFLOWS else [].

Definition desired_workflow (desired : list BootstrapWorkflowAuthorization)
    (r : workflow_auth_row) : bool :=
  existsb (fun b => (wa_authorization_source_id r =d bootstrap_source b) &&
                    (wa_workflow_ref r =d bw_workflow_ref b) &&
                    (wa_workflow_digest r =d bw_workflow_digest b)) desired.

Definition desired_model (desired : list BootstrapWorkflowAuthorization) (r : model_auth_row)
    : bool :=
  existsb (fun b => (ma_authorization_source_id r =d bootstrap_source b) &&
                    (ma_workflow_ref r =d bw_workflow_ref b) &&
                    (ma_workflow_digest r =d bw_workflow_digest b) &&
                    (ma_model_digest r ∈? bw_model_digests b)) desired.

Definition _reconcile_bundled_bootstrap_authorizations (worker_id executor_type : string)
    (authorized_at : Z) : M unit :=
  let desired := desired_bootstrap executor_type in
  stale ← query (fun d => select (fun r => (wa_worker_id r =d worker_id) &&
      is_bootstrap_source (wa_authorization_source_id r) && (wa_revoked_at r =d None) &&
      negb (desired_workflow desired r)) (worker_workflow_authorizations d));
  _ ← for_each stale (fun row =>
        _ ← sql_update worker_workflow_authorizations
              (fun r => (workflow_auth_key r =d (worker_id, snd (workflow_auth_key row))) &&
                        (wa_revoked_at r =d None))
              (fun r => r <| wa_revoked_at := Some authorized_at |>);
        mret tt);
  stale ← query (fun d => select (fun r => (ma_worker_id r =d worker_id) &&
      is_bootstrap_source (ma_authorization_source_id r) && (ma_revoked_at r =d None) &&
      negb (desired_model desired r)) (worker_model_authorizations d));
  _ ← for_each stale (fun row =>
        _ ← sql_update worker_model_authorizations
              (fun r => (model_auth_key r =d (worker_id, snd (model_auth_key row))) &&
                        (ma_revoked_at r =d None))
              (fun r => r <| ma_revoked_at := Some authorized_at |>);
        mret tt);
  for_each desired (fun b =>
    _ ← upsert_workflow_auth
          (Mk_workflow_auth_row worker_id (bootstrap_source b) (bw_workflow_ref b)
             (bw_workflow_digest b) (bw_workflow_digest b)
             (JDoc (JList (map JStr (bw_node_classes b)))) authorized_at None);
    for_each (bw_model_digests b) (fun digest =>
      upsert_model_auth
        (Mk_model_auth_row worker_id (bootstrap_source b) (bw_workflow_ref b)
           (bw_workflow_digest b) digest (bw_workflow_digest b) authorized_at None))).

Definition _reconcile_bundled_bootstrap_policy : M unit :=
  stamp ← now;
  transaction (
    fleet ← query (fun d => map (fun w => (w_id w, w_executor_type w)) (workers d));
    for_each fleet (fun w =>
      _reconcile_bundled_bootstrap_authorizations (fst w) (snd w) stamp)).

(** ** Registration *)

Definition _worker_capabilities (value : json) (executor_type : string) : res dict :=
  match canonical_worker_capabilities value executor_type with
  | Raise (PublicMetadataError _ reason) =>
      Raise (repo_err_full VALIDATION_FAILED "WORKER_CAPABILITIES_INVALID"
               "Worker capabilities are invalid." 422 "none" "none"
               (Some [("field", JStr "capabilities"); ("reason", JStr reason)]))
  | r => r
  end.

Definition _initialize_worker_capability_state (worker_id executor_type : string)
    (canonical_capabilities : dict) (initialized_at : Z) : M unit :=
  _ ← (if String.eqb executor_type "comfyui" then
         _ ← _reconcile_bundled_bootstrap_authorizations worker_id executor_type initialized_at;
         _ ← sql_update workers (fun w => w_id w =d worker_id)
               (fun w => w <| w_capability_auth_enforced_at := Some initialized_at |>);
         mret tt
       else mret tt : M unit);
  d ← query (fun d => d);
  projected ← lift_res (_authorized_worker_capabilities d (JObj canonical_capabilities) worker_id
                          executor_type);
  _ ← sql_update workers (fun w => w_id w =d worker_id)
        (fun w => w <| w_capabilities := JDoc (JObj projected) |>);
  mret tt.

(** The view of a worker: its row and its authorized capabilities. *)
Definition _worker_value (row : worker_row) : M (worker_row * dict) :=
  capabilities ← (match w_capabilities row with
                  | JDoc v => mret v
                  | JBad _ => raise JSONDecodeError
                  end : M json);
  d ← query (fun d => d);
  view ← lift_res (_authorized_worker_capabilities d capabilities (w_id row)
                     (w_executor_type row));
  mret (row, view).

Record worker_registration := MkRegistration {
  wr_owner_user_id : string;
  wr_manager_broker_id : option string;
  wr_name : string;
  wr_signing_public_key : string;
  wr_encryption_public_key : string;
  wr_certificate : option string;
  wr_executor_type : string;
  wr_executor_version : string;
  wr_capabilities : json;
  wr_capacity : Z
}.

(** The stored worker carries exactly the registration's attributes. *)
Definition registration_matches (r : worker_registration) (existing : worker_row)
    (projected : dict) : bool :=
  (w_owner_user_id existing =d wr_owner_user_id r) &&
  (w_manager_broker_id existing =d wr_manager_broker_id r) &&
  (w_name existing =d wr_name r) &&
  (w_encryption_public_key existing =d wr_encryption_public_key r) &&
  (w_certificate existing =d wr_certificate r) &&
  (w_executor_type existing =d wr_executor_type r) &&
  (w_executor_version existing =d wr_executor_version r) &&
  match w_capabilities existing with
  | JDoc v => json_text_eqb v (JObj projected)
  | JBad _ => false
  end &&
  (w_capacity existing =? wr_capacity r).

Definition create_worker (r : worker_registration) : M (worker_row * dict) :=
  _ ← require_user (Some (wr_owner_user_id r));
  _ ← (match truthy_id (wr_manager_broker_id r) with
       | None => mret tt
       | Some broker_id =>
           broker ← query (fun d => head (select (fun b => (br_id b =d broker_id) &&
             (br_owner_user_id b =d wr_owner_user_id r) && (br_status b =d SActive)) (brokers d)));
           _ ← require broker (repo_err FORBIDDEN "BROKER_ACCESS_DENIED"
                 "Manager broker is not owned by the worker owner." 403);
           mret tt
       end : M unit);
  stamp ← now;
  canonical_capabilities ← lift_res (_worker_capabilities (wr_capabilities r) (wr_executor_type r));
  outcome ← transaction (
    existing ← query (fun d => find_by w_signing_public_key (wr_signing_public_key r) (workers d));
    match existing with
    | Some existing =>
        d ← query (fun d => d);
        projected ← lift_res (_authorized_worker_capabilities d (JObj canonical_capabilities)
                                (w_id existing) (wr_executor_type r));
        _ ← check (registration_matches r existing projected)
              (repo_err 600002 "IDEMPOTENCY_CONFLICT"
                 "The Worker signing key is already registered with different attributes." 409);
        view ← _worker_value existing;
        mret (inl view)
    | None =>
        worker_id ← new_id "wrk";
        _ ← sql_insert workers workers_ok
              (Mk_worker_row worker_id (wr_owner_user_id r) (wr_manager_broker_id r) (wr_name r)
                 (wr_signing_public_key r) (wr_encryption_public_key r) (wr_certificate r)
                 (wr_executor_type r) (wr_executor_version r) (JDoc (JObj canonical_capabilities))
                 (wr_capacity r) WOffline 0 None None stamp stamp None);
        _ ← _initialize_worker_capability_state worker_id (wr_executor_type r)
              canonical_capabilities stamp;
        mret (inr worker_id)
    end);
  match outcome with
  | inl view => mret view
  | inr worker_id =>
      row ← query (fun d => find_by w_id worker_id (workers d));
      row ← require row TypeError;
      _worker_value row
  end.

(** ** Offers *)

Definition offer_worker (worker_id owner_user_id pool_id : string) : M (option allocation_row) :=
  worker ← query (fun d => head (select (fun w => (w_id w =d worker_id) &&
    (w_owner_user_id w =d owner_user_id) && negb (w_status w =d WRevoked)) (workers d)));
  _ ← require worker (repo_err FORBIDDEN "WORKER_ACCESS_DENIED" "Worker access denied." 403);
  pool ← query (fun d => head (select (fun p => (po_id p =d pool_id) && (po_status p =d SpActive))
                                      (pools d)));
  pool ← require pool (repo_err POOL_NOT_FOUND "POOL_NOT_FOUND" "Pool not found." 404);
  allocation_id ← new_id "alc";
  stamp ← now;
  existing ← query (fun d => has_key (fun a => (al_worker_id a, al_pool_id a))
                               (worker_allocations d) (worker_id, pool_id));
  _ ← (if existing : bool then
         _ ← sql_update worker_allocations
               (fun a => (al_worker_id a =d worker_id) && (al_pool_id a =d pool_id))
               (fun a => a <| al_owner_consent_at := Some stamp |>
                           <| al_workspace_approved_at := None |>
                           <| al_approved_by_user_id := None |> <| al_allocation_proof := None |>
                           <| al_status := AlPendingWorkspace |> <| al_updated_at := stamp |>
                           <| al_revoked_at := None |>);
         mret tt
       else
         sql_insert worker_allocations allocations_ok
           (Mk_allocation_row allocation_id worker_id (po_workspace_id pool) pool_id (Some stamp)
              None None None AlPendingWorkspace stamp stamp None) : M unit);
  query (fun d => head (select (fun a => (al_worker_id a =d worker_id) && (al_pool_id a =d pool_id))
                               (worker_allocations d))).

(** ** Heartbeat *)

Definition _EXECUTOR_VERSION_MAX_LENGTH : Z := 120.
Definition _EXECUTOR_VERSION_CHARACTERS (c : ascii) : bool := is_alnum c || ascii_in "._+-" c.

Definition _heartbeat_executor_version (capabilities : dict) (executor_type : string)
    : option string :=
  match jget "executors" capabilities with
  | Some (JList executors) =>
      match select (descriptor_has_type executor_type) executors with
      | [JObj descriptor] =>
          match jget "version" descriptor with
          | Some (JStr version) =>
              if String.eqb version "" || (_EXECUTOR_VERSION_MAX_LENGTH <? str_len version)
              then None
              else
                let version := str_strip " " version in
                if String.eqb version "" || negb (str_forall _EXECUTOR_VERSION_CHARACTERS version)
                then None else Some version
          | _ => None
          end
      | _ => None
      end
  | _ => None
  end.

(** The capabilities a heartbeat stores before authorization: a malformed
    report keeps the worker reachable with no executable descriptor. *)
Definition heartbeat_capabilities (capabilities : dict) (executor_type : string) : res dict :=
  match _worker_capabilities (JObj capabilities) executor_type with
  | Raise (RepositoryError e) =>
      if negb (String.eqb (e_name e) "WORKER_CAPABILITIES_INVALID") then Raise (RepositoryError e)
      else
        let allowed := List.filter (fun action =>
              match jget "maintenance_actions" capabilities with
              | Some (JList raw) => existsb (fun v => json_eqb v (JStr action)) raw
              | _ => false
              end)
            ["worker_update"; "model_install"; "capability_install"; "node_pack_install"] in
        Ok [("maintenance_actions", JList (map JStr allowed)); ("executors", JList [])]
  | r => r
  end.

Record worker_heartbeat_result := MkWorkerHeartbeat {
  wh_draining : bool;
  wh_workflow_authorizations : list identity
}.

(** [sorted(workflow_authorizations)]. *)
Definition identity_leb (x y : identity) : bool :=
  str_ltb (fst x) (fst y) || (String.eqb (fst x) (fst y) && negb (str_ltb (snd y) (snd x))).

Definition authorization_snapshot (worker_id : string) : M (list identity) :=
  d ← query (fun d => d);
  sets ← lift_res (_authorization_sets d worker_id);
  mret (order_by identity_leb (map fst (fst (fst sets)))).

Definition worker_heartbeat (worker_id : string) (capabilities : option dict)
    : M worker_heartbeat_result :=
  transaction (
    worker ← query (fun d => find_by w_id worker_id (workers d));
    worker ← require worker (repo_err WORKER_NOT_FOUND "WORKER_NOT_FOUND" "Worker not found." 404);
    _ ← check (negb (w_status worker =d WRevoked))
          (repo_err WORKER_REVOKED "WORKER_REVOKED" "Worker has been revoked." 403);
    stamp ← now;
    if w_status worker =d WDraining then
      _ ← sql_update workers (fun w => w_id w =d worker_id)
            (fun w => w <| w_last_seen_at := Some stamp |> <| w_updated_at := stamp |>);
      snapshot ← authorization_snapshot worker_id;
      mret (MkWorkerHeartbeat true snapshot)
    else
      capabilities ← (match capabilities with
                      | Some ((_ :: _) as c) => mret c
                      | _ => raise (repo_err VALIDATION_FAILED "WORKER_CAPABILITIES_REQUIRED"
                                      "A healthy capability report is required." 422)
                      end : M dict);
      canonical ← lift_res (heartbeat_capabilities capabilities (w_executor_type worker));
      d ← query (fun d => d);
      canonical ← lift_res (_authorized_worker_capabilities d (JObj canonical) worker_id
                              (w_executor_type worker));
      let executor_version := _heartbeat_executor_version canonical (w_executor_type worker) in
      _ ← sql_update workers (fun w => w_id w =d worker_id)
            (fun w => w <| w_status := WActive |> <| w_last_seen_at := Some stamp |>
                        <| w_capabilities := JDoc (JObj canonical) |>
                        <| w_executor_version := match executor_version with
                                                 | Some v => v
                                                 | None => w_executor_version w
                                                 end |>
                        <| w_updated_at := stamp |>);
      snapshot ← authorization_snapshot worker_id;
      mret (MkWorkerHeartbeat false snapshot)).

(** ** Departure *)

(** A task prepared for the worker has no ciphertext to rewrap: expire it. *)
Definition expire_prepared (worker_id : string) (stamp : Z) : M unit :=
  prepared_ids ← query (fun d => map t_id
    (select (fun t => (t_assigned_worker_id t =d Some worker_id) && (t_state t =d TPrepared))
            (tasks d)));
  match prepared_ids with
  | [] => mret tt
  | _ =>
      _ ← sql_update task_attempts
            (fun a => (a_task_id a ∈? prepared_ids) && (a_state a =d AReserved))
            (fun a => a <| a_state := AExpired |> <| a_finished_at := Some stamp |>);
      _ ← sql_update tasks (fun t => t_id t ∈? prepared_ids)
            (fun t => t <| t_state := TExpired |> <| t_finished_at := Some stamp |>
                        <| t_updated_at := stamp |>);
      mret tt
  end.

(** Work queued on the worker that nobody has leased, with its latest attempt. *)
Definition queued_on (d : db) (worker_id : string) : list (string * string) :=
  map (fun t => (t_id t, source_attempt (latest_attempt d (t_id t))))
    (select (fun t => (t_assigned_worker_id t =d Some worker_id) &&
               (task_waiting (t_state t) ||
                ((t_state t =d TRekeyRequired) &&
                 existsb (fun a => (a_task_id a =d t_id t) && (a_worker_id a =d worker_id) &&
                                   (a_state a =d AReserved)) (task_attempts d)))) (tasks d)).

(** A graceful departure returns the queued work to its consumers. *)
Definition return_queued (worker_id : string) (stamp : Z) : M unit :=
  queued ← query (fun d => queued_on d worker_id);
  let queued_ids := map fst queued in
  match queued with
  | [] => mret tt
  | _ =>
      _ ← sql_update task_attempts
            (fun a => (a_task_id a ∈? queued_ids) && (a_state a =d AReserved))
            (fun a => a <| a_state := ACancelled |> <| a_responsibility := Some RProvider |>
                        <| a_failure_code := Some WORKER_DRAINING |>
                        <| a_finished_at := Some stamp |>);
      _ ← sql_update tasks (fun t => t_id t ∈? queued_ids)
            (fun t => t <| t_state := TRekeyRequired |> <| t_reservation_expires_at := None |>
                        <| t_updated_at := stamp |>);
      for_each queued (fun row =>
        _ ← _enqueue_task_rekey_command (fst row) (snd row) "worker_draining" stamp;
        mret tt)
  end.

(** A forced departure revokes the worker's leases and takes its work back. *)
Definition revoke_work (worker_id : string) (stamp : Z) : M unit :=
  let affected t := (t_assigned_worker_id t =d Some worker_id) &&
                    (task_waiting (t_state t) || task_executing (t_state t)) in
  affected_ids ← query (fun d => map t_id (select affected (tasks d)));
  _ ← sql_update leases (fun l => (l_worker_id l =d worker_id) && (l_released_at l =d None))
        (fun l => l <| l_released_at := Some stamp |>);
  _ ← sql_update task_attempts
        (fun a => (a_worker_id a =d worker_id) && attempt_active (a_state a))
        (fun a => a <| a_state := ACancelled |> <| a_finished_at := Some stamp |>
                    <| a_responsibility := Some RProvider |>
                    <| a_failure_code := Some WORKER_OFFLINE |>);
  _ ← sql_update tasks affected
        (fun t => t <| t_state := TRekeyRequired |> <| t_updated_at := stamp |>);
  for_each affected_ids (fun task_id =>
    attempt ← query (fun d => latest_attempt d task_id);
    _ ← _enqueue_task_rekey_command task_id
          (match attempt with Some a => a_id a | None => "none" end) "worker_revoked" stamp;
    mret tt).

Definition leave_worker (worker_id owner_user_id : string) (force : bool) : M worker_status :=
  worker ← query (fun d => head (select (fun w => (w_id w =d worker_id) &&
                                                 (w_owner_user_id w =d owner_user_id)) (workers d)));
  _ ← require worker (repo_err FORBIDDEN "WORKER_ACCESS_DENIED" "Worker access denied." 403);
  stamp ← now;
  transaction (
    has_active_execution ← query (fun d =>
      existsb (fun a => (a_worker_id a =d worker_id) && attempt_executing (a_state a))
              (task_attempts d));
    let status := if force || negb has_active_execution then WRevoked else WDraining in
    _ ← expire_prepared worker_id stamp;
    _ ← (if force then mret tt else return_queued worker_id stamp : M unit);
    _ ← sql_update workers (fun w => w_id w =d worker_id)
          (fun w => w <| w_status := status |> <| w_updated_at := stamp |>
                      <| w_revoked_at := if status =d WRevoked then Some stamp
                                         else w_revoked_at w |>);
    _ ← sql_update worker_allocations
          (fun a => (al_worker_id a =d worker_id) && negb (al_status a =d AlRevoked))
          (fun a => a <| al_status := AlRevoked |> <| al_revoked_at := Some stamp |>
                      <| al_updated_at := stamp |>);
    _ ← sql_update worker_maintenance_jobs
          (fun j => (mj_worker_id j =d worker_id) && job_active (mj_state j))
          (fun j => j <| mj_state := MCancelled |> <| mj_completed_at := Some stamp |>
                      <| mj_updated_at := stamp |> <| mj_lease_session_id := None |>
                      <| mj_lease_expires_at := None |>
                      <| mj_fencing_token := mj_fencing_token j + 1 |>);
    _ ← (if status =d WRevoked then
           sql_update sessions
             (fun s => (ss_principal_type s =d PWorker) && (ss_principal_id s =d worker_id) &&
                       (ss_revoked_at s =d None))
             (fun s => s <| ss_revoked_at := Some stamp |>)
         else mret 0 : M Z);
    _ ← (if force then revoke_work worker_id stamp else mret tt : M unit);
    mret status).

(** ** Manager broker *)

Definition set_worker_manager (worker_id owner_user_id actor_device_id : string)
    (broker_id : option string) : M (worker_row * dict) :=
  _ ← require_user (Some owner_user_id);
  stamp ← now;
  outcome ← transaction (
    worker ← query (fun d => head (select (fun w => (w_id w =d worker_id) &&
      (w_owner_user_id w =d owner_user_id) && negb (w_status w =d WRevoked)) (workers d)));
    worker ← require worker (repo_err FORBIDDEN "WORKER_ACCESS_DENIED" "Worker access denied." 403);
    _ ← (match broker_id with
         | None => mret tt
         | Some b =>
             broker ← query (fun d => head (select (fun x => (br_id x =d b) &&
               (br_owner_user_id x =d owner_user_id) && (br_status x =d SActive)) (brokers d)));
             _ ← require broker (repo_err FORBIDDEN "BROKER_ACCESS_DENIED"
                   "The manager Broker is not owned by the Worker owner." 403);
             mret tt
         end : M unit);
    if w_manager_broker_id worker =d broker_id then
      view ← _worker_value worker;
      mret (Some view)
    else
      active ← query (fun d => existsb (fun j => (mj_worker_id j =d worker_id) &&
                                                 job_active (mj_state j))
                                       (worker_maintenance_jobs d));
      _ ← check (negb active)
            (repo_err WORKER_MAINTENANCE_STATE_CONFLICT "WORKER_MAINTENANCE_STATE_CONFLICT"
               "The manager Broker cannot change while maintenance is active." 409);
      _ ← sql_update workers (fun w => w_id w =d worker_id)
            (fun w => w <| w_manager_broker_id := broker_id |> <| w_updated_at := stamp |>);
      _ ← audit "device" actor_device_id None "worker.manager_changed" "worker" worker_id
            [("previous_broker_id", json_opt_str (w_manager_broker_id worker));
             ("manager_broker_id", json_opt_str broker_id)] stamp;
      mret None);
  match outcome with
  | Some view => mret view
  | None =>
      row ← query (fun d => find_by w_id worker_id (workers d));
      row ← require row TypeError;
      _worker_value row
  end.

End Operations.
