(* ===== verification/Usage.v ===== *)
(** * Attempt completion and the usage ledger ([src/vgen/gateway/repository.py])

    Rates, artifact reservations, the terminal report of an attempt with its
    receipt and replay, usage metrics, the hash-chained ledger and its
    corrections. *)

From S2P Require Import Prelude Python Errors Schema Store Access Metadata Diagnostics.
From S2P Require Import Capability Scheduler.

Open Scope Z_scope.

(** ** Outcome and metrics of a report *)

Definition resp_str (r : responsibility) : string :=
  match r with
  | RConsumer => "consumer"
  | RProvider => "provider"
  | RPlatform => "platform"
  | RNone => "none"
  end.

Definition usage_invalid (message reason : string) : exc :=
  repo_err_full (ErrorCode.to_int ErrorCode.USAGE_REPORT_INVALID) "USAGE_REPORT_INVALID" message 422
    "none" "none" (Some [("reason", JStr reason)]).

(** The responsibility the registry attributes to a failure code. *)
Definition registered_responsibility (c : ErrorCode.t) (spec : ErrorSpec) : responsibility :=
  if c =d ErrorCode.EXECUTION_CANCELLED then RConsumer
  else match s_responsibility spec with
       | Responsibility.CONSUMER => RConsumer
       | Responsibility.PROVIDER => RProvider
       | Responsibility.PLATFORM | Responsibility.UNKNOWN => RPlatform
       end.

Definition _canonical_attempt_outcome (succeeded : bool) (failure_code : option Z)
    (reported_responsibility : string) : res (option Z * responsibility) :=
  if succeeded then
    if is_some failure_code || negb (String.eqb reported_responsibility "none")
    then Raise (usage_invalid "A successful attempt must not report failure attribution."
                  "successful_attempt_attribution_invalid")
    else Ok (None, RNone)
  else
    match failure_code with
    | None => Raise (usage_invalid "A failed attempt must report a registered failure code."
                       "failure_code_required")
    | Some n =>
        match ErrorCode.of_int n, get_error_spec n with
        | Some c, Ok spec =>
            let canonical := registered_responsibility c spec in
            if negb (String.eqb reported_responsibility (resp_str canonical))
            then Raise (repo_err_full (ErrorCode.to_int ErrorCode.USAGE_REPORT_INVALID)
                          "USAGE_REPORT_INVALID"
                          "The reported failure responsibility does not match the error registry."
                          422 "none" "none"
                          (Some [("reason", JStr "responsibility_mismatch");
                                 ("canonical_responsibility", JStr (resp_str canonical));
                                 ("reported_responsibility", JStr reported_responsibility)]))
            else Ok (Some (ErrorCode.to_int c), canonical)
        | _, _ => Raise (usage_invalid "A failed attempt must report a registered failure code."
                           "failure_code_unregistered")
        end
    end.

Definition _USAGE_MAX_WALL_MS : Z := 30 * 24 * 60 * 60 * 1000.

(** [maxima]: the accepted metrics and their upper bounds. *)
Definition usage_maxima : list (string * Z) :=
  [("gpu_active_ms", 30 * 24 * 60 * 60 * 1000);
   ("executor_wall_ms", 30 * 24 * 60 * 60 * 1000);
   ("gateway_wall_ms", _USAGE_MAX_WALL_MS);
   ("gpu_count", 64);
   ("input_bytes", 1024 ^ 5);
   ("output_bytes", 1024 ^ 5);
   ("upload_bytes", 1024 ^ 5);
   ("download_bytes", 1024 ^ 5);
   ("egress_bytes", 1024 ^ 5);
   ("frames", 100000000);
   ("output_frames", 100000000);
   ("duration_ms", 30 * 24 * 60 * 60 * 1000);
   ("denoise_steps", 10000000)].

Definition usage_maximum (key : string) : option Z :=
  match List.find (fun kv => String.eqb (fst kv) key) usage_maxima with
  | Some kv => Some (snd kv)
  | None => None
  end.

(** Validated metrics: integers under the accepted names. *)
Definition metrics := list (string * Z).

Definition mget (k : string) (m : metrics) : option Z :=
  match List.find (fun kv => String.eqb (fst kv) k) m with
  | Some kv => Some (snd kv)
  | None => None
  end.

Definition mget_or (k : string) (default : Z) (m : metrics) : Z :=
  match mget k m with Some v => v | None => default end.

Fixpoint mset (k : string) (v : Z) (m : metrics) : metrics :=
  match m with
  | [] => [(k, v)]
  | (k', v') :: m => if String.eqb k' k then (k, v) :: m else (k', v') :: mset k v m
  end.

(** The range check of each reported metric, in report order. *)
Fixpoint normalize_metrics (m : dict) : res metrics :=
  match m with
  | [] => Ok []
  | (key, value) :: m =>
      let out_of_range := repo_err_full 500001 "USAGE_REPORT_INVALID"
        "Usage metric is outside its accepted range." 422 "none" "none"
        (Some [("field", JStr key)]) in
      match value, usage_maximum key with
      | JInt z, Some maximum =>
          if (z <? 0) || (maximum <? z) then Raise out_of_range
          else rest ← normalize_metrics m; Ok ((key, z) :: rest)
      | _, _ => Raise out_of_range
      end
  end.

Definition _validate_usage_metrics (value : json) : res metrics :=
  match value with
  | JObj reported =>
      let reported := List.filter (fun kv => negb (String.eqb (fst kv) "native")) reported in
      if existsb (fun kv => negb (is_some (usage_maximum (fst kv)))) reported
      then Raise (repo_err_full 500001 "USAGE_REPORT_INVALID"
                    "Usage metrics include unsupported fields." 422 "none" "none"
                    (Some [("reason", JStr "unsupported_usage_fields")]))
      else
        normalized ← normalize_metrics reported;
        match mget "gpu_count" normalized with
        | Some n => if n <? 1
                    then Raise (repo_err 500001 "USAGE_REPORT_INVALID"
                                  "gpu_count must be positive." 422)
                    else Ok normalized
        | None => Ok normalized
        end
  | _ => Raise (repo_err 500001 "USAGE_REPORT_INVALID" "Usage metrics must be an object." 422)
  end.

(** [math.ceil(delta_seconds * 1000)] of a difference in microseconds. *)
Definition ceil_ms (delta : Z) : Z := - ((- delta) / 1000).

Definition _canonical_usage_metrics (reported : metrics)
    (observed_started_at observed_finished_at : Z) : metrics * list string :=
  let observed_wall_ms :=
    Z.min _USAGE_MAX_WALL_MS (Z.max 0 (ceil_ms (observed_finished_at - observed_started_at))) in
  let wall_tolerance_ms := Z.max 1000 (observed_wall_ms / 10) in
  let wall_flags :=
    match mget "gateway_wall_ms" reported with
    | Some reported_wall_ms =>
        if wall_tolerance_ms <? Z.abs (reported_wall_ms - observed_wall_ms)
        then ["gateway_wall_report_mismatch"] else []
    | None => []
    end in
  let gpu_active_ms := mget_or "gpu_active_ms" 0 reported in
  let gpu_count := mget_or "gpu_count" 1 reported in
  let observed_capacity_ms := observed_wall_ms * gpu_count in
  let capacity_tolerance_ms := Z.max (1000 * gpu_count) (observed_capacity_ms / 10) in
  let gpu_flags :=
    if observed_capacity_ms + capacity_tolerance_ms <? gpu_active_ms
    then ["gpu_active_exceeds_observed_capacity"] else [] in
  (mset "gateway_wall_ms" observed_wall_ms reported, wall_flags ++ gpu_flags).

Definition metrics_json (m : metrics) : json := JObj (map (fun kv => (fst kv, JInt (snd kv))) m).

(** A cancelled attempt without a reported GPU time gets one derived from the
    executor's wall time, bounded by the observed capacity. *)
Definition cancelled_gpu_metrics (m : metrics * list string) : metrics * list string :=
  match mget "gpu_active_ms" (fst m) with
  | Some _ => m
  | None =>
      let gpu_count := mget_or "gpu_count" 1 (fst m) in
      let executor_wall_ms := mget_or "executor_wall_ms" 0 (fst m) in
      let observed_capacity_ms := mget_or "gateway_wall_ms" 0 (fst m) * gpu_count in
      (mset "gpu_active_ms" (Z.min (executor_wall_ms * gpu_count) observed_capacity_ms) (fst m),
       snd m ++ ["cancelled_gpu_active_derived_from_executor_wall"])
  end.

Section Operations.
Context {E : Env}.

(** ** Ledger *)

(** [ORDER BY created_at DESC, id DESC LIMIT 1]: the chain's last entry. *)
Definition ledger_tip (d : db) : option ledger_row :=
  head (order_by (fun x y => (ul_created_at y <? ul_created_at x) ||
                             ((ul_created_at x =? ul_created_at y) &&
                              negb (str_ltb (ul_id x) (ul_id y)))) (usage_ledger d)).

(** The time stamp inside a hashed payload. *)
Definition stamp_json (stamp : Z) : json := JInt stamp.

(** [json.loads] of a stored column, or [JSONDecodeError]. *)
Definition load_column (t : jtext) : M json :=
  match t with JDoc v => mret v | JBad _ => raise JSONDecodeError end.

Definition _append_ledger (attempt_id : string) (rate_snapshot_text : jtext) (m : metrics)
    (resp : responsibility) (stamp : Z) : M unit :=
  rate ← load_column rate_snapshot_text;
  rate ← (match rate with JObj r => mret r | _ => raise TypeError end : M dict);
  let billing_dimensions :=
    JObj [("output_video_duration_ms", JInt (Z.max 0 (mget_or "duration_ms" 0 m)));
          ("generation_elapsed_ms", JInt (Z.max 0 (mget_or "gateway_wall_ms" 0 m)));
          ("input_video_duration_ms", JNull)] in
  per_second ← lift_res (py_int (jget_or "rate_microtokens_per_second" (JInt 0) rate));
  let ledger_rate_snapshot :=
    JObj [("rate_card_id", jget_or "rate_card_id" JNull rate);
          ("rate_microtokens_per_second", JInt (Z.max 0 per_second));
          ("pricing_model", JStr "video_duration_and_generation_time");
          ("formula_version", JInt 0);
          ("formula_status", JStr "not_implemented")] in
  let compute := 0 in
  let traffic := 0 in
  let billable := false in
  prior ← query ledger_tip;
  let previous_hash := match prior with Some p => Some (ul_integrity_hash p) | None => None end in
  let payload :=
    JObj [("attempt_id", JStr attempt_id);
          ("entry_type", JStr "charge");
          ("metrics", billing_dimensions);
          ("rate_snapshot", ledger_rate_snapshot);
          ("compute_microtokens", JInt compute);
          ("traffic_microtokens", JInt traffic);
          ("billable", JBool billable);
          ("responsibility", JStr (resp_str resp));
          ("previous_hash", json_opt_str previous_hash);
          ("created_at", stamp_json stamp)] in
  id ← new_id "led";
  sql_insert usage_ledger usage_ledger_ok
    (Mk_ledger_row id attempt_id EnCharge (JDoc billing_dimensions) (JDoc ledger_rate_snapshot)
       compute traffic (compute + traffic) billable (resp_str resp) 0 previous_hash
       (sha256_json payload) None None stamp).

Definition entry_type_str (t : entry_type) : string :=
  match t with EnCharge => "charge" | EnReversal => "reversal" end.

Definition reversible (o : ledger_row) : bool :=
  (ul_entry_type o =d EnCharge) && ul_billable o && (0 <=? ul_compute_microtokens o) &&
  (0 <=? ul_traffic_microtokens o) && (0 <=? ul_total_microtokens o) &&
  (ul_total_microtokens o =? ul_compute_microtokens o + ul_traffic_microtokens o).

(** The ledger entry joined to its task's workspace. *)
Definition ledger_entry_in (d : db) (workspace_id ledger_id : string) : option ledger_row :=
  l ← find_by ul_id ledger_id (usage_ledger d);
  a ← find_by a_id (ul_attempt_id l) (task_attempts d);
  t ← find_by t_id (a_task_id a) (tasks d);
  if t_workspace_id t =d workspace_id then Some l else None.

Definition reverse_usage_charge (workspace_id ledger_id : string) (user_id : option string)
    (reason_code : string) : M ledger_row :=
  _ ← require_admin workspace_id user_id;
  _ ← check (reason_code ∈? USAGE_REVERSAL_REASON_CODES)
        (repo_err_full VALIDATION_FAILED "USAGE_REVERSAL_REASON_INVALID"
           "Usage reversal reason code is invalid." 422 "none" "none"
           (Some [("field", JStr "reason_code")]));
  stamp ← now;
  transaction (
    original ← query (fun d => ledger_entry_in d workspace_id ledger_id);
    original ← require original
      (repo_err VALIDATION_FAILED "USAGE_ENTRY_NOT_FOUND" "Usage ledger entry not found." 404);
    existing ← query (fun d => find_by ul_reverses_ledger_id (Some ledger_id) (usage_ledger d));
    match existing with
    | Some existing => mret existing
    | None =>
        _ ← check (reversible original)
              (repo_err VALIDATION_FAILED "USAGE_ENTRY_NOT_REVERSIBLE"
                 "Usage ledger entry is not a reversible billable charge." 409);
        prior ← query ledger_tip;
        let previous_hash :=
          match prior with Some p => Some (ul_integrity_hash p) | None => None end in
        m ← load_column (ul_metrics original);
        snapshot ← load_column (ul_rate_snapshot original);
        let compute := ul_compute_microtokens original in
        let traffic := ul_traffic_microtokens original in
        let total := ul_total_microtokens original in
        let payload :=
          JObj [("attempt_id", JStr (ul_attempt_id original));
                ("entry_type", JStr "reversal");
                ("metrics", m);
                ("rate_snapshot", snapshot);
                ("compute_microtokens", JInt (- compute));
                ("traffic_microtokens", JInt (- traffic));
                ("total_microtokens", JInt (- total));
                ("billable", JBool true);
                ("responsibility", JStr (ul_responsibility original));
                ("formula_version", JInt (ul_formula_version original));
                ("previous_hash", json_opt_str previous_hash);
                ("reverses_ledger_id", JStr ledger_id);
                ("reversal_reason_code", JStr reason_code);
                ("created_at", stamp_json stamp)] in
        reversal_id ← new_id "led";
        let reversal :=
          Mk_ledger_row reversal_id (ul_attempt_id original) EnReversal (ul_metrics original)
            (ul_rate_snapshot original) (- compute) (- traffic) (- total) true
            (ul_responsibility original) (ul_formula_version original) previous_hash
            (sha256_json payload) (Some ledger_id) (Some reason_code) stamp in
        _ ← sql_insert usage_ledger usage_ledger_ok reversal;
        _ ← audit "user" (match user_id with Some u => u | None => "" end) (Some workspace_id)
              "usage.charge_reversed" "usage_ledger" ledger_id
              [("reason_code", JStr reason_code); ("reversal_ledger_id", JStr reversal_id)] stamp;
        row ← query (fun d => find_by ul_id reversal_id (usage_ledger d));
        require row TypeError
    end).

(** ** Receipts *)

(** [re.fullmatch(r"[0-9a-f]{64}", s)]. *)
Definition is_semantic_hash (s : string) : bool := str_forall is_lower_hex s && (str_len s =? 64).

Definition semantics_invalid : exc :=
  repo_err VALIDATION_FAILED "VALIDATION_FAILED" "Attempt finish semantics are invalid." 422.

Definition attempt_state_str (s : attempt_state) : string :=
  match s with
  | AReserved => "reserved"
  | ALeased => "leased"
  | ARunning => "running"
  | ASucceeded => "succeeded"
  | AFailed => "failed"
  | ACancelled => "cancelled"
  | AExpired => "expired"
  end.

Definition attempt_finished (s : attempt_state) : bool :=
  match s with ASucceeded | AFailed | ACancelled => true | _ => false end.

Record receipt := MkReceipt { rc_attempt_id : string; rc_task_id : string; rc_state : string }.

Definition receipt_json (r : receipt) : json :=
  JObj [("attempt_id", JStr (rc_attempt_id r)); ("task_id", JStr (rc_task_id r));
        ("state", JStr (rc_state r))].

Definition receipt_invalid : exc :=
  repo_err_full (ErrorCode.to_int ErrorCode.INTERNAL_ERROR) "INTERNAL_ERROR"
    "Stored Attempt finish receipt is invalid." 500 "later" "platform" None.

Definition _decode_finished_attempt_receipt (row : attempt_row) (attempt_id finish_semantic_hash : string)
    : res (option receipt) :=
  match a_finish_semantic_hash row, a_finish_receipt row with
  | None, None => Ok None
  | Some stored_hash, Some stored_receipt =>
      if negb (String.eqb stored_hash finish_semantic_hash)
      then Raise (repo_err IDEMPOTENCY_CONFLICT "IDEMPOTENCY_CONFLICT"
                    "Attempt was already completed with different semantics." 409)
      else
        match stored_receipt with
        | JBad _ => Raise receipt_invalid
        | JDoc (JObj d) =>
            match jget "attempt_id" d, jget "state" d, jget "task_id" d with
            | Some (JStr a), Some (JStr s), Some (JStr t) =>
                if has_exact_keys d ["attempt_id"; "task_id"; "state"] &&
                   String.eqb a attempt_id && String.eqb s (attempt_state_str (a_state row))
                then Ok (Some (MkReceipt a t s)) else Raise receipt_invalid
            | _, _, _ => Raise receipt_invalid
            end
        | JDoc _ => Raise receipt_invalid
        end
  | _, _ => Raise receipt_invalid
  end.

Definition replay_finished_attempt (attempt_id worker_id : string) (fencing_token : Z)
    (finish_semantic_hash : string) : M (option receipt) :=
  _ ← check (is_semantic_hash finish_semantic_hash) semantics_invalid;
  row ← query (fun d => head (select (fun a => (a_id a =d attempt_id) &&
          (a_worker_id a =d worker_id) && (a_fencing_token a =d fencing_token))
          (task_attempts d)));
  match row with
  | None => mret None
  | Some row =>
      if negb (attempt_finished (a_state row)) then mret None
      else lift_res (_decode_finished_attempt_receipt row attempt_id finish_semantic_hash)
  end.

(** ** Finish *)

Definition _worker_artifact_media_metadata (value : json) : res dict :=
  match project_reported_artifact_media_metadata value with
  | Raise (PublicMetadataError _ reason) =>
      Raise (repo_err_full VALIDATION_FAILED "VALIDATION_FAILED"
               "Artifact media metadata is invalid." 422 "none" "none"
               (Some [("field", JStr "media_metadata"); ("reason", JStr reason)]))
  | r => r
  end.

Definition canonical_output (artifact : dict) : res dict :=
  m ← _worker_artifact_media_metadata (jget_or "media_metadata" (JObj []) artifact);
  Ok (jset "media_metadata" (JObj m) artifact).

Definition output_invalid (message : string) : exc :=
  repo_err VALIDATION_FAILED "OUTPUT_ARTIFACT_INVALID" message 422.

(** [reported is not None and reported != stored]. *)
Definition reported_differs (reported : json) (stored : option string) : bool :=
  match reported with
  | JNull => false
  | JStr s => negb (Some s =d stored)
  | _ => true
  end.

(** The comparison of a report with the uploaded object it claims. *)
Definition output_mismatch (artifact : dict) (reserved : artifact_row) : res bool :=
  if reported_differs (jget_or "store_type" JNull artifact) (Some (ar_store_type reserved)) ||
     reported_differs (jget_or "object_ref" JNull artifact) (Some (ar_object_ref reserved))
  then Ok true
  else
    size_differs ← (match jget_or "encrypted_size" JNull artifact with
                    | JNull => Ok false
                    | v => n ← py_int v;
                           match ar_encrypted_size reserved with
                           | None => Raise TypeError
                           | Some stored => Ok (negb (n =? stored))
                           end
                    end : res bool);
    if size_differs : bool then Ok true
    else
      let reported_digest :=
        match jget_or "content_digest" JNull artifact with
        | JStr s => JStr (if str_startswith "sha256:" s then s else "sha256:" +:+ s)
        | v => v
        end in
      Ok (reported_differs reported_digest (ar_content_digest reserved)).

(** The loop over the reported outputs; [seen] are the identifiers accepted so
    far.  Every accepted output is an uploaded reservation of this attempt. *)
Fixpoint validate_outputs (d : db) (task_id attempt_id : string) (outputs : list dict)
    (seen : list string) : res (list (string * dict)) :=
  match outputs with
  | [] => Ok []
  | artifact :: outputs =>
      match jget "artifact_id" artifact with
      | Some (JStr artifact_id) =>
          if String.eqb artifact_id "" || (artifact_id ∈? seen)
          then Raise (output_invalid "Output artifact does not match its reservation.")
          else
            match head (select (fun r => (ar_id r =d artifact_id) && (ar_task_id r =d task_id) &&
                                         (ar_attempt_id r =d Some attempt_id) &&
                                         (ar_direction r =d DOutput) &&
                                         (ar_state r =d ArUploaded)) (artifacts d)) with
            | None => Raise (output_invalid "Output artifact does not match its reservation.")
            | Some reserved =>
                if negb (match jget "kind" artifact with
                         | Some (JStr k) => String.eqb k (ar_kind reserved)
                         | _ => false
                         end)
                then Raise (output_invalid "Output artifact does not match its reservation.")
                else
                  mismatch ← output_mismatch artifact reserved;
                  if mismatch : bool
                  then Raise (output_invalid "Output artifact does not match its uploaded object.")
                  else
                    match json_loads_or (JObj []) (ar_media_metadata reserved),
                          jget "media_metadata" artifact with
                    | Some (JObj stored), Some (JObj reported) =>
                        rest ← validate_outputs d task_id attempt_id outputs (artifact_id :: seen);
                        Ok ((artifact_id, jmerge stored reported) :: rest)
                    | None, _ => Raise JSONDecodeError
                    | _, _ => Raise TypeError
                    end
            end
      | _ => Raise (output_invalid "Output artifact does not match its reservation.")
      end
  end.

(** [lease["started_at"] or lease["leased_at"] or lease["issued_at"]]. *)
Definition observed_start (a : attempt_row) (l : lease_row) : Z :=
  let nonzero o := match o with Some x => if x =? 0 then None else Some x | None => None end in
  match nonzero (a_started_at a) with
  | Some x => x
  | None => match nonzero (a_leased_at a) with Some x => x | None => l_issued_at l end
  end.

Record finish_report := MkReport {
  fr_attempt_id : string;
  fr_worker_id : string;
  fr_fencing_token : Z;
  fr_succeeded : bool;
  fr_output_artifacts : list dict;
  fr_metrics : json;
  fr_failure_code : option Z;
  fr_responsibility : string;
  fr_safe_failure_details : option dict;
  fr_finish_semantic_hash : option string
}.

(** The answer when the exact fence no longer holds a live lease: the stored
    receipt, an acknowledgement of a consumer cancellation, or [LEASE_LOST]. *)
Definition finish_without_lease (r : finish_report) (canonical_failure_code : option Z)
    : M receipt :=
  existing ← query (fun d => fenced_attempt d (fr_attempt_id r) (fr_worker_id r)
                               (fr_fencing_token r));
  let lost := repo_err LEASE_LOST "LEASE_LOST" "Lease is no longer valid." 409 in
  match existing with
  | None => raise lost
  | Some (a, t) =>
      replayed ←
        (match fr_finish_semantic_hash r with
         | Some h => if attempt_finished (a_state a)
                     then lift_res (_decode_finished_attempt_receipt a (fr_attempt_id r) h)
                     else mret None
         | None => mret None
         end : M (option receipt));
      match replayed with
      | Some receipt => mret receipt
      | None =>
          if (a_state a =d ACancelled) && (t_state t =d TCancelled) &&
             (canonical_failure_code =d
                Some (ErrorCode.to_int ErrorCode.EXECUTION_CANCELLED))
          then mret (MkReceipt (fr_attempt_id r) (t_id t) "cancelled")
          else raise lost
      end
  end.

(** The usage event and ledger entry of a finished attempt. *)
Definition record_usage (r : finish_report) (l : lease_row) (a : attempt_row)
    (reported_metrics : metrics) (cancellation : bool) (resp : responsibility) (stamp : Z)
    : M unit :=
  event_id ← new_id "use";
  _ ← sql_insert usage_events usage_events_ok
        (Mk_usage_event_row event_id (fr_attempt_id r) (fr_worker_id r) "final"
           (JDoc (metrics_json reported_metrics)) None None stamp stamp);
  let canonical := _canonical_usage_metrics reported_metrics (observed_start a l) stamp in
  let canonical := if cancellation then cancelled_gpu_metrics canonical else canonical in
  _append_ledger (fr_attempt_id r) (a_rate_snapshot a) (fst canonical) resp stamp.

(** Publish the accepted outputs; each must still be an uploaded reservation. *)
Definition publish_outputs (task_id attempt_id : string) (outputs : list (string * dict))
    (stamp : Z) : M unit :=
  for_each outputs (fun out =>
    updated ← sql_update artifacts
      (fun r => (ar_id r =d fst out) && (ar_task_id r =d task_id) &&
                (ar_attempt_id r =d Some attempt_id) && (ar_direction r =d DOutput) &&
                (ar_state r =d ArUploaded))
      (fun r => r <| ar_state := ArAvailable |> <| ar_media_metadata := JDoc (JObj (snd out)) |>
                  <| ar_updated_at := stamp |>);
    check (updated =? 1)
      (repo_err (ErrorCode.to_int ErrorCode.ARTIFACT_NOT_FOUND) "ARTIFACT_NOT_FOUND"
         "Uploaded output artifact not found." 404)).

(** The transaction body once the live lease of the exact fence is held. *)
Definition finish_with_lease (r : finish_report) (l : lease_row) (a : attempt_row) (t : task_row)
    (outputs : list dict) (reported_metrics : metrics) (failure_code : option Z)
    (resp : responsibility) (stamp : Z) : M receipt :=
  let cancelled_code := ErrorCode.to_int ErrorCode.EXECUTION_CANCELLED in
  let cancellation := t_state t =d TCancelled in
  _ ← check (negb ((failure_code =d Some cancelled_code) && negb cancellation))
        (usage_invalid "A consumer cancellation report requires a cancelled task."
           "cancellation_not_requested");
  let attempt_state := if cancellation then ACancelled
                       else if fr_succeeded r then ASucceeded else AFailed in
  let task_state := if fr_succeeded r then TSucceeded else TFailed in
  let failure_code := if cancellation then Some cancelled_code else failure_code in
  let resp := if cancellation then RConsumer else resp in
  let receipt := MkReceipt (fr_attempt_id r) (a_task_id a) (attempt_state_str attempt_state) in
  let details := canonical_task_failure_details_for_code (fr_safe_failure_details r) failure_code
                   (Some (attempt_state_str attempt_state)) in
  d ← query (fun d => d);
  validated ← lift_res (validate_outputs d (a_task_id a) (fr_attempt_id r)
                          (if cancellation then [] else outputs) []);
  _ ← sql_update task_attempts (fun x => a_id x =d fr_attempt_id r)
        (fun x => x <| a_state := attempt_state |> <| a_responsibility := Some resp |>
                    <| a_failure_code := failure_code |>
                    <| a_safe_failure_details := Some (JDoc (JObj details)) |>
                    <| a_finished_at := Some stamp |>
                    <| a_finish_semantic_hash := fr_finish_semantic_hash r |>
                    <| a_finish_receipt := match fr_finish_semantic_hash r with
                                           | Some _ => Some (JDoc (receipt_json receipt))
                                           | None => None
                                           end |>);
  _ ← sql_update leases (fun x => l_attempt_id x =d fr_attempt_id r)
        (fun x => x <| l_released_at := Some stamp |>);
  _ ← (if cancellation then mret 0
       else sql_update tasks (fun x => t_id x =d a_task_id a)
              (fun x => x <| t_state := task_state |> <| t_finished_at := Some stamp |>
                          <| t_updated_at := stamp |>) : M Z);
  _ ← publish_outputs (a_task_id a) (fr_attempt_id r) validated stamp;
  _ ← (if negb cancellation || is_some (a_started_at a)
       then record_usage r l a reported_metrics cancellation resp stamp
       else mret tt : M unit);
  worker ← query (fun d => find_by w_id (fr_worker_id r) (workers d));
  _ ← (match worker with
       | Some w => if w_status w =d WDraining then _finalize_drained_workers stamp else mret 0
       | None => mret 0
       end : M Z);
  mret receipt.

Definition finish_attempt (r : finish_report) : M receipt :=
  _ ← check (match fr_finish_semantic_hash r with
             | Some h => is_semantic_hash h
             | None => true
             end) semantics_invalid;
  outputs ← lift_res (res_map canonical_output (fr_output_artifacts r));
  reported_metrics ← lift_res (_validate_usage_metrics (fr_metrics r));
  outcome ← lift_res (_canonical_attempt_outcome (fr_succeeded r) (fr_failure_code r)
                        (fr_responsibility r));
  stamp ← now;
  transaction (
    lease ← query (fun d => fenced_lease d (fr_attempt_id r) (fr_worker_id r)
                              (fr_fencing_token r));
    match lease with
    | Some (l, a, t) =>
        if (stamp <? l_expires_at l) && attempt_executing (a_state a)
        then finish_with_lease r l a t outputs reported_metrics (fst outcome) (snd outcome) stamp
        else finish_without_lease r (fst outcome)
    | None => finish_without_lease r (fst outcome)
    end).

(** ** Rates *)

Definition propose_rate (worker_id workspace_id user_id : string)
    (rate_microtokens_per_second : Z) : M (option rate_row) :=
  worker ← query (fun d => find_by w_id worker_id (workers d));
  worker ← require worker (repo_err WORKER_NOT_FOUND "WORKER_NOT_FOUND" "Worker not found." 404);
  _ ← check (w_owner_user_id worker =d user_id)
        (repo_err FORBIDDEN "WORKER_ACCESS_DENIED"
           "Only the worker owner can propose its rate." 403);
  rate_id ← new_id "rat";
  stamp ← now;
  _ ← sql_insert rate_cards rate_cards_ok
        (Mk_rate_row rate_id worker_id workspace_id user_id None rate_microtokens_per_second
           0 0 0 RtProposed stamp None);
  query (fun d => find_by rt_id rate_id (rate_cards d)).

Definition approve_rate (rate_id admin_user_id : string) : M (option rate_row) :=
  rate ← query (fun d => find_by rt_id rate_id (rate_cards d));
  rate ← require rate (repo_err RATE_NOT_FOUND "RATE_NOT_FOUND" "Rate card not found." 404);
  _ ← require_admin (rt_workspace_id rate) (Some admin_user_id);
  stamp ← now;
  _ ← transaction (
    _ ← sql_update rate_cards
          (fun r => (rt_worker_id r =d rt_worker_id rate) &&
                    (rt_workspace_id r =d rt_workspace_id rate) && (rt_status r =d RtApproved))
          (fun r => r <| rt_status := RtSuperseded |>);
    sql_update rate_cards (fun r => rt_id r =d rate_id)
      (fun r => r <| rt_status := RtApproved |> <| rt_approved_by_user_id := Some admin_user_id |>
                  <| rt_decided_at := Some stamp |>));
  query (fun d => find_by rt_id rate_id (rate_cards d)).

(** ** Artifact reservations *)

Definition _artifact_media_metadata (value : json) : res dict :=
  match validate_artifact_media_metadata value with
  | Ok canonical =>
      Ok (match jget "media_type" canonical with
          | Some (JStr s) => jset "media_type" (JStr (str_lower s)) canonical
          | _ => canonical
          end)
  | Raise (PublicMetadataError _ reason) =>
      Raise (repo_err_full VALIDATION_FAILED "VALIDATION_FAILED"
               "Artifact media metadata is invalid." 422 "none" "none"
               (Some [("field", JStr "media_metadata"); ("reason", JStr reason)]))
  | Raise e => Raise e
  end.

(** An input descriptor: its kind, its encrypted size and its media metadata. *)
Record input_descriptor := MkInput {
  in_kind : string;
  in_encrypted_size : Z;
  in_media_metadata : json
}.

Fixpoint insert_inputs (task_id store_type : string) (inputs : list (input_descriptor * dict))
    (stamp : Z) : M (list artifact_view) :=
  match inputs with
  | [] => mret []
  | (descriptor, media_metadata) :: inputs =>
      artifact_id ← new_id "art";
      let row := Mk_artifact_row artifact_id task_id None (in_kind descriptor) DInput store_type
                   artifact_id None (Some (in_encrypted_size descriptor))
                   (JDoc (JObj media_metadata)) ArPending stamp stamp in
      _ ← sql_insert artifacts artifacts_ok row;
      value ← lift_res (_artifact_value row);
      rest ← insert_inputs task_id store_type inputs stamp;
      mret (value :: rest)
  end.

Definition reserve_input_artifacts (task_id : string) (inputs : list input_descriptor)
    (store_type : string) : M (list artifact_view) :=
  stamp ← now;
  canonical ← lift_res (res_map (fun i =>
    m ← _artifact_media_metadata (in_media_metadata i); Ok (i, m)) inputs);
  transaction (
    task ← query (fun d => head (select (fun t => (t_id t =d task_id) &&
                                                  (t_state t =d TPrepared)) (tasks d)));
    _ ← require task (repo_err TASK_STATE_CONFLICT "TASK_STATE_CONFLICT"
                        "Task is not prepared." 409);
    insert_inputs task_id store_type canonical stamp).

(** The live output reservations of an attempt, [ORDER BY created_at]. *)
Definition open_outputs (d : db) (attempt_id : string) : list artifact_row :=
  order_by (fun x y => ar_created_at x <=? ar_created_at y)
    (select (fun a => (ar_attempt_id a =d Some attempt_id) && (ar_direction a =d DOutput) &&
                      ((ar_state a =d ArPending) || (ar_state a =d ArUploaded))) (artifacts d)).

(** [for index in range(start, start + n)]: reserve the missing outputs. *)
Fixpoint insert_outputs (task_id attempt_id store_type : string) (start n : nat) (stamp : Z)
    : M unit :=
  match n with
  | O => mret tt
  | S n =>
      artifact_id ← new_id "art";
      _ ← sql_insert artifacts artifacts_ok
            (Mk_artifact_row artifact_id task_id (Some attempt_id)
               ("output_" +:+ pretty (Z.of_nat start)) DOutput store_type artifact_id None None
               (JDoc (JObj [])) ArPending stamp stamp);
      insert_outputs task_id attempt_id store_type (S start) n stamp
  end.

Definition reserve_output_artifacts (task_id attempt_id : string) (count : Z) (store_type : string)
    : M (list artifact_view) :=
  let count := Z.min (Z.max count 1) 8 in
  stamp ← now;
  _ ← transaction (
    existing ← query (fun d => length (open_outputs d attempt_id));
    insert_outputs task_id attempt_id store_type existing (Z.to_nat count - existing) stamp);
  rows ← query (fun d => take (Z.to_nat count) (open_outputs d attempt_id));
  lift_res (res_map _artifact_value rows).

Definition refresh_output_artifacts (attempt_id worker_id : string) : M (list artifact_view) :=
  stamp ← now;
  lease ← query (fun d => head (select (fun l => (l_attempt_id l =d attempt_id) &&
    (l_worker_id l =d worker_id) && (l_released_at l =d None) && (stamp <? l_expires_at l) &&
    has_key a_id (task_attempts d) (l_attempt_id l)) (leases d)));
  _ ← require lease (repo_err LEASE_LOST "LEASE_LOST" "Lease is no longer valid." 409);
  rows ← query (fun d => order_by (fun x y => ar_created_at x <=? ar_created_at y)
    (select (fun a => (ar_attempt_id a =d Some attempt_id) && (ar_direction a =d DOutput) &&
                      (ar_state a =d ArPending)) (artifacts d)));
  lift_res (res_map _artifact_value rows).

End Operations.
