(* ===== verification/Stream.v ===== *)
(** * Encrypted artifact streams ([src/vgen/crypto/stream.py])

    The framing of task artifacts: a magic number, the secretstream header, and
    frames of a length and a ciphertext, the last one tagged final.  libsodium's
    secretstream and SHA-256 are parameters ([Secretstream]) with their
    documented laws ([SecretstreamLaws]).  Both loops run until the source is
    exhausted; the model bounds them by the number of unread bytes and the
    theorems show that the bound is never reached. *)

From S2P Require Import Prelude Python Errors Bytes.

Open Scope Z_scope.

(** ** Binary sources

    [read(n)] returns at most [n] bytes and none only at the end.  A source may
    return fewer than asked for; [src_limits] says how many more than one the
    next reads return at most, and a source without limits is a buffered
    file. *)

Record source := MkSource { src_bytes : bytes; src_limits : list nat }.

Definition file (b : bytes) : source := MkSource b [].

Definition read (n : Z) (s : source) : bytes * source :=
  let asked := Z.to_nat n in
  let k := match src_limits s with [] => asked | l :: _ => Nat.min asked (S l) end in
  (take k (src_bytes s), MkSource (drop k (src_bytes s)) (tail (src_limits s))).

Arguments read : simpl never.

(** ** libsodium *)

Class Secretstream := {
  sstate : Type;
  KEYBYTES : Z;
  HEADERBYTES : Z;
  ABYTES : Z;
  TAG_MESSAGE : Z;
  TAG_FINAL : Z;
  (** [init_push(key)]; the header is drawn from the random source. *)
  init_push : bytes -> bytes -> sstate * bytes;
  push : sstate -> bytes -> bytes -> Z -> sstate * bytes;
  init_pull : bytes -> bytes -> option sstate;
  pull : sstate -> bytes -> bytes -> option (sstate * (bytes * Z));
  sha256 : bytes -> bytes
}.

(** Documented behaviour: a receiver initialised with the header decrypts what
    the sender pushed, in order and under the same associated data. *)
Class SecretstreamLaws `{Secretstream} := {
  synchronised : sstate -> sstate -> Prop;
  sizes_positive : 0 <= ABYTES /\ 0 <= HEADERBYTES /\ ABYTES <= 2 ^ 20;
  tags_distinct : TAG_MESSAGE <> TAG_FINAL;
  header_size key seed : blen (snd (init_push key seed)) = HEADERBYTES;
  push_size st m ad tag : blen (snd (push st m ad tag)) = blen m + ABYTES;
  init_sync key seed :
    exists st, init_pull (snd (init_push key seed)) key = Some st /\
               synchronised (fst (init_push key seed)) st;
  push_pull st st' m ad tag :
    synchronised st st' -> tag = TAG_MESSAGE \/ tag = TAG_FINAL ->
    exists st2, pull st' (snd (push st m ad tag)) ad = Some (st2, (m, tag)) /\
                synchronised (fst (push st m ad tag)) st2
}.

Section Stream.
Context {SS : Secretstream}.

Definition SECRETSTREAM_MAGIC : bytes := [x56; x47; x45; x4e; x53; x53; x30; x31].
Definition DEFAULT_CHUNK_SIZE : Z := 1024 * 1024.
Definition MAX_FRAME_SIZE : Z := 64 * 1024 * 1024.

Definition ARTIFACT_INTEGRITY_FAILED : exc :=
  VGenError (ErrorCode.to_int ErrorCode.ARTIFACT_INTEGRITY_FAILED) [].

Definition encrypted_stream_size (plaintext_bytes chunk_size : Z) : res Z :=
  if plaintext_bytes <? 0 then Raise ValueError
  else if (chunk_size <? 1) || (MAX_FRAME_SIZE / 2 <? chunk_size) then Raise ValueError
  else
    let chunks := Z.max 1 ((plaintext_bytes + chunk_size - 1) / chunk_size) in
    Ok (blen SECRETSTREAM_MAGIC + HEADERBYTES + plaintext_bytes + chunks * (4 + ABYTES)).

Record StreamStats := MkStats { plaintext_bytes : Z; ciphertext_bytes : Z; chunks : Z }.

(** What a call leaves in [destination], whatever it returns or raises; [None]
    is an exhausted bound. *)
Definition outcome (A : Type) : Type := bytes * option (res A).

(** [_read_exact]: [Raise] at the end of the source. *)
Fixpoint read_loop (fuel : nat) (length : Z) (value : bytes) (s : source)
    : option (res (bytes * source)) :=
  match fuel with
  | O => None
  | S fuel =>
      if blen value <? length then
        let '(part, s) := read (length - blen value) s in
        match part with
        | [] => Some (Raise ARTIFACT_INTEGRITY_FAILED)
        | _ => read_loop fuel length (value ++ part) s
        end
      else Some (Ok (value, s))
  end.

Definition _read_exact (s : source) (length : Z) : option (res (bytes * source)) :=
  read_loop (S (S (List.length (src_bytes s)))) length [] s.

(** The fixed-size digest that binds the context and the frame order;
    [index.to_bytes(8, "big")] overflows at [2^64]. *)
Definition frame_aad (aad : bytes) (index : Z) : bytes :=
  sha256 (encode "vgen-secretstream-frame-v1" ++ [x00] ++ aad ++ be_bytes 8 index).

Definition _chunk_aad (aad : bytes) (index : Z) : res bytes :=
  if (0 <=? index) && (index <? 2 ^ 64) then Ok (frame_aad aad index) else Raise OverflowError.

Definition nonempty (b : bytes) : bool := match b with [] => false | _ => true end.

Section Encrypt.
Variables (aad : bytes) (chunk_size : Z).

(** One frame per turn; [current] is the chunk read ahead. *)
Fixpoint encrypt_loop (fuel : nat) (st : sstate) (s : source) (current destination : bytes)
    (stats : StreamStats) : outcome StreamStats :=
  match fuel with
  | O => (destination, None)
  | S fuel =>
      let '(following, s) := if nonempty current then read chunk_size s else ([], s) in
      let final := negb (nonempty following) in
      let tag := if final then TAG_FINAL else TAG_MESSAGE in
      match _chunk_aad aad (chunks stats) with
      | Raise e => (destination, Some (Raise e))
      | Ok ad =>
          let '(st, encrypted) := push st current ad tag in
          match pack_u32 (blen encrypted) with
          | Raise e => (destination, Some (Raise e))
          | Ok size =>
              let destination := destination ++ size ++ encrypted in
              let stats := MkStats (plaintext_bytes stats + blen current)
                             (ciphertext_bytes stats + (4 + blen encrypted)) (chunks stats + 1) in
              if final then (destination, Some (Ok stats))
              else encrypt_loop fuel st s following destination stats
          end
      end
  end.

(** [seed] is the randomness [init_push] draws. *)
Definition encrypt_stream (s : source) (destination key seed : bytes) : outcome StreamStats :=
  if negb (blen key =? KEYBYTES) then (destination, Some (Raise ValueError))
  else if (chunk_size <? 1) || (MAX_FRAME_SIZE / 2 <? chunk_size)
  then (destination, Some (Raise ValueError))
  else
    let '(st, header) := init_push key seed in
    let '(current, s) := read chunk_size s in
    encrypt_loop (S (S (List.length (src_bytes s)))) st s current
      (destination ++ SECRETSTREAM_MAGIC ++ header)
      (MkStats 0 (blen SECRETSTREAM_MAGIC + blen header) 0).

End Encrypt.

Section Decrypt.
Variables (aad : bytes) (max_frame_size : Z).

Fixpoint decrypt_loop (fuel : nat) (st : sstate) (s : source) (destination : bytes)
    (stats : StreamStats) : outcome StreamStats :=
  match fuel with
  | O => (destination, None)
  | S fuel =>
      let '(length_bytes, s) := read 4 s in
      if negb (blen length_bytes =? 4) then (destination, Some (Raise ARTIFACT_INTEGRITY_FAILED))
      else
        let frame_length := be_value length_bytes in
        if (frame_length <? ABYTES) || (max_frame_size <? frame_length)
        then (destination, Some (Raise ARTIFACT_INTEGRITY_FAILED))
        else
          match _read_exact s frame_length with
          | None => (destination, None)
          | Some (Raise e) => (destination, Some (Raise e))
          | Some (Ok (encrypted, s)) =>
              match _chunk_aad aad (chunks stats) with
              | Raise e => (destination, Some (Raise e))
              | Ok ad =>
                  match pull st encrypted ad with
                  | None => (destination, Some (Raise ARTIFACT_INTEGRITY_FAILED))
                  | Some (st, (plaintext, tag)) =>
                      let stats' := MkStats (plaintext_bytes stats + blen plaintext)
                                      (ciphertext_bytes stats + (4 + frame_length))
                                      (chunks stats + 1) in
                      if tag =? TAG_FINAL then
                        let destination := destination ++ plaintext in
                        if nonempty (fst (read 1 s))
                        then (destination, Some (Raise ARTIFACT_INTEGRITY_FAILED))
                        else (destination, Some (Ok stats'))
                      else if negb (tag =? TAG_MESSAGE)
                      then (destination, Some (Raise ARTIFACT_INTEGRITY_FAILED))
                      else decrypt_loop fuel st s (destination ++ plaintext) stats'
                  end
              end
          end
  end.

Definition decrypt_stream (s : source) (destination key : bytes) : outcome StreamStats :=
  if negb (blen key =? KEYBYTES) then (destination, Some (Raise ValueError))
  else if max_frame_size <? ABYTES then (destination, Some (Raise ValueError))
  else
    match _read_exact s (blen SECRETSTREAM_MAGIC) with
    | None => (destination, None)
    | Some (Raise e) => (destination, Some (Raise e))
    | Some (Ok (magic, s)) =>
        if negb (magic =d SECRETSTREAM_MAGIC)
        then (destination, Some (Raise ARTIFACT_INTEGRITY_FAILED))
        else
          match _read_exact s HEADERBYTES with
          | None => (destination, None)
          | Some (Raise e) => (destination, Some (Raise e))
          | Some (Ok (header, s)) =>
              match init_pull header key with
              | None => (destination, Some (Raise ARTIFACT_INTEGRITY_FAILED))
              | Some st =>
                  decrypt_loop (S (List.length (src_bytes s))) st s destination
                    (MkStats 0 (blen SECRETSTREAM_MAGIC + blen header) 0)
              end
          end
    end.

End Decrypt.
End Stream.

(** ** Sources *)

Lemma read_file n b : read n (file b) = (take (Z.to_nat n) b, file (drop (Z.to_nat n) b)).
Proof. done. Qed.

(** A read splits the unread bytes; it is empty only at the end. *)
Lemma read_split n s p s' :
  read n s = (p, s') -> src_bytes s = p ++ src_bytes s' /\ blen p <= Z.max 0 n /\
  (1 <= n -> p = [] -> src_bytes s' = []) /\ (src_limits s = [] -> src_limits s' = []).
Proof.
  unfold read. set (k := match src_limits s with [] => _ | _ => _ end). intros [= <- <-]. simpl.
  split_and!.
  - by rewrite take_drop.
  - unfold blen. rewrite length_take. assert (k <= Z.to_nat n)%nat; [|lia].
    unfold k. destruct (src_limits s); lia.
  - intros Hn Hp. assert (1 <= k)%nat by (unfold k; destruct (src_limits s); lia).
    apply (f_equal length) in Hp. rewrite length_take in Hp. simpl in Hp.
    apply nil_length_inv. rewrite length_drop. lia.
  - by intros ->.
Qed.

Section Reading.
Context {SS : Secretstream}.

Lemma read_loop_total fuel n value s :
  (length (src_bytes s) < fuel)%nat ->
  exists r, read_loop fuel n value s = Some r /\
    match r with
    | Ok (_, s') => (length (src_bytes s') <= length (src_bytes s))%nat
    | Raise e => e = ARTIFACT_INTEGRITY_FAILED
    end.
Proof.
  revert value s. induction fuel as [|fuel IH]; intros value s Hf; [lia|].
  cbn [read_loop]. destruct (blen value <? n) eqn:E; [|eexists; split; [reflexivity|]; simpl; lia].
  destruct (read (n - blen value) s) as [p s'] eqn:Er.
  apply read_split in Er as (Es & _ & _). destruct p as [|x p]; [eexists; split; [reflexivity|done]|].
  apply (f_equal length) in Es. rewrite length_app in Es. simpl in Es.
  destruct (IH (value ++ x :: p) s') as (r & Hr & H); [lia|]. exists r. split; [done|].
  destruct r as [[? ?]|]; [lia|done].
Qed.

Lemma read_exact_total s n :
  exists r, _read_exact s n = Some r /\
    match r with
    | Ok (_, s') => (length (src_bytes s') <= length (src_bytes s))%nat
    | Raise e => e = ARTIFACT_INTEGRITY_FAILED
    end.
Proof. apply read_loop_total. lia. Qed.

(** On a buffered source one read suffices. *)
Lemma read_exact_file b n :
  0 <= n ->
  _read_exact (file b) n =
    Some (if n <=? blen b then Ok (take (Z.to_nat n) b, file (drop (Z.to_nat n) b))
          else Raise ARTIFACT_INTEGRITY_FAILED).
Proof.
  intros Hn. unfold _read_exact. cbn [src_bytes file]. set (f := length b). cbn [read_loop].
  destruct (blen [] <? n) eqn:E0; unfold blen in E0; simpl in E0.
  2: { assert (n = 0) as -> by (apply Z.ltb_ge in E0; lia). rewrite take_0, drop_0.
       assert (0 <=? blen b = true) as -> by (apply Z.leb_le, blen_nonneg). done. }
  apply Z.ltb_lt in E0. unfold blen at 1. simpl length. rewrite Z.sub_0_r, read_file.
  destruct (take (Z.to_nat n) b) as [|x p] eqn:Et.
  { destruct b; [|by destruct (Z.to_nat n) eqn:?; [lia|]]. unfold blen. simpl.
    by destruct (Z.leb_spec n (Z.of_nat 0)); [lia|]. }
  rewrite <- Et. clear x p Et. cbn [app].
  assert (blen (take (Z.to_nat n) b) = Z.min n (blen b)) as El
    by (unfold blen; rewrite length_take; lia). rewrite El.
  destruct (Z.leb_spec n (blen b)).
  - rewrite Z.min_l by done. by rewrite Z.ltb_irrefl.
  - rewrite Z.min_r by lia. assert (blen b <? n = true) as -> by (apply Z.ltb_lt; lia).
    rewrite read_file, drop_ge by (unfold blen in *; lia). by rewrite take_nil.
Qed.
End Reading.

(** ** The frames of a list of chunks *)

Section Frames.
Context {SS : Secretstream} {SL : SecretstreamLaws}.
Variable aad : bytes.

Definition frame_tag (rest : list bytes) : Z :=
  match rest with [] => TAG_FINAL | _ => TAG_MESSAGE end.

Fixpoint frames (st : sstate) (index : Z) (cs : list bytes) : bytes :=
  match cs with
  | [] => []
  | c :: rest =>
      let r := push st c (frame_aad aad index) (frame_tag rest) in
      be_bytes 4 (blen (snd r)) ++ snd r ++ frames (fst r) (index + 1) rest
  end.

Lemma frames_length st index cs :
  blen (frames st index cs) = blen (concat cs) + Z.of_nat (length cs) * (4 + ABYTES).
Proof.
  revert st index. induction cs as [|c cs IH]; intros st index; [done|]. cbn [frames concat length].
  rewrite !blen_app, push_size, IH. unfold blen at 1. rewrite be_bytes_length. lia.
Qed.

(** A frame fits its length field and the frame limit. *)
Lemma frame_bounds st m ad tag chunk_size :
  blen m <= chunk_size -> chunk_size <= MAX_FRAME_SIZE / 2 ->
  let n := blen (snd (push st m ad tag)) in ABYTES <= n <= chunk_size + ABYTES /\ 0 <= n < 2 ^ 32.
Proof.
  intros Hm Hc n. unfold n. rewrite push_size. destruct sizes_positive as (Ha & _ & Hb).
  pose proof (blen_nonneg m). change (MAX_FRAME_SIZE / 2) with 33554432 in Hc. lia.
Qed.

Lemma chunk_aad_ok i : 0 <= i < 2 ^ 64 -> _chunk_aad aad i = Ok (frame_aad aad i).
Proof.
  intros Hi. unfold _chunk_aad.
  by rewrite (proj2 (Z.leb_le 0 i)), (proj2 (Z.ltb_lt i (2 ^ 64))) by lia.
Qed.

(** The chunks the encryption loop reads, the first one being [current]. *)
Fixpoint chunk_list (chunk_size : Z) (fuel : nat) (s : source) (current : bytes) : list bytes :=
  match fuel with
  | O => []
  | S fuel =>
      let '(following, s) := if nonempty current then read chunk_size s else ([], s) in
      current :: (if nonempty following then chunk_list chunk_size fuel s following else [])
  end.

(** Reading ahead, from a source that ends no earlier than its current chunk. *)
Lemma read_ahead chunk_size s (current : bytes) following s' :
  1 <= chunk_size -> (current = [] -> src_bytes s = []) ->
  (if nonempty current then read chunk_size s else ([], s)) = (following, s') ->
  src_bytes s = following ++ src_bytes s' /\ blen following <= chunk_size /\
  (following = [] -> src_bytes s' = []) /\ (following <> [] -> current <> []) /\
  (following <> [] -> (length (src_bytes s') < length (src_bytes s))%nat) /\
  (src_limits s = [] -> src_limits s' = []).
Proof.
  intros Hc Hend H. destruct current as [|x current]; simpl in H.
  - injection H as <- <-. rewrite (Hend eq_refl). unfold blen. simpl. split_and!; try done; lia.
  - apply read_split in H as (H1 & H2 & H3 & H4). split_and!; try done; [lia| |].
    + intros. apply H3; [lia|done].
    + intros Hf. apply (f_equal length) in H1. rewrite length_app in H1. destruct following; [done|].
      simpl in H1. lia.
Qed.

Lemma chunk_list_spec chunk_size fuel s current :
  1 <= chunk_size -> (length (src_bytes s) < fuel)%nat -> (current = [] -> src_bytes s = []) ->
  blen current <= chunk_size ->
  let cs := chunk_list chunk_size fuel s current in
  concat cs = current ++ src_bytes s /\ Forall (fun c => blen c <= chunk_size) cs /\
  1 <= Z.of_nat (length cs) <= Z.max 1 (blen (current ++ src_bytes s)).
Proof.
  intros Hc. revert s current. induction fuel as [|fuel IH]; intros s current Hf Hend Hcur; [lia|].
  cbn [chunk_list]. destruct (if nonempty current then _ else _) as [following s'] eqn:Er.
  apply read_ahead in Er as (Es & Hfl & Hfe & Hne & Hlt & _); [|done..]. rewrite Es.
  destruct following as [|y following].
  - rewrite (Hfe eq_refl). cbn [nonempty concat length]. rewrite !app_nil_r. split_and!; auto; lia.
  - cbn [nonempty]. destruct (IH s' (y :: following)) as (H1 & H2 & H3); [|done|done|].
    { specialize (Hlt ltac:(done)). lia. }
    cbn [concat length]. rewrite H1. split_and!; [done|by constructor|lia|].
    rewrite !blen_app in *.
    assert (1 <= blen current) by (destruct current; [by destruct Hne|unfold blen; simpl; lia]).
    assert (1 <= blen (y :: following)) by (unfold blen; simpl; lia).
    pose proof (blen_nonneg (src_bytes s')). lia.
Qed.

(** A buffered source yields full chunks up to the last one. *)
Lemma chunk_list_buffered chunk_size fuel s current :
  1 <= chunk_size -> (length (src_bytes s) < fuel)%nat -> (current = [] -> src_bytes s = []) ->
  blen current <= chunk_size -> src_limits s = [] ->
  (src_bytes s <> [] -> blen current = chunk_size) ->
  let n := blen (current ++ src_bytes s) in
  Z.of_nat (length (chunk_list chunk_size fuel s current)) = Z.max 1 ((n + chunk_size - 1) / chunk_size).
Proof.
  intros Hc. revert s current.
  induction fuel as [|fuel IH]; intros s current Hf Hend Hcur Hb Hfull; [lia|].
  cbn [chunk_list]. destruct (if nonempty current then _ else _) as [following s'] eqn:Er.
  pose proof Er as Er'. apply read_ahead in Er' as (Es & Hfl & Hfe & Hne & Hlt & Hl'); [|done..].
  destruct following as [|y following].
  - cbn [nonempty length]. rewrite Es, (Hfe eq_refl), app_nil_r. cbv zeta.
    assert ((blen current + chunk_size - 1) / chunk_size <= 1); [|lia].
    apply Z.lt_succ_r, Z.div_lt_upper_bound; lia.
  - cbn [nonempty length]. specialize (Hne ltac:(done)). specialize (Hlt ltac:(done)).
    cbv zeta. rewrite Nat2Z.inj_succ, IH; [|lia|done|done|auto|].
    + rewrite Es, (blen_app current), Hfull by (intros Hnil; by rewrite Hnil in Es).
      set (m := blen _). assert (1 <= m) by (unfold m, blen; simpl; lia).
      replace (chunk_size + m + chunk_size - 1) with (m + chunk_size - 1 + 1 * chunk_size) by lia.
      rewrite Z.div_add by lia.
      assert (1 <= (m + chunk_size - 1) / chunk_size) by (apply Z.div_le_lower_bound; lia). lia.
    + intros Hmore. destruct current as [|x current]; [done|]. simpl in Er. unfold read in Er.
      rewrite Hb in Er. injection Er as Ef <-. rewrite <- Ef. unfold blen. rewrite length_take.
      simpl in Hmore. assert (drop (Z.to_nat chunk_size) (src_bytes s) <> []) by done.
      assert (Z.to_nat chunk_size <= length (src_bytes s))%nat; [|lia].
      destruct (le_lt_dec (length (src_bytes s)) (Z.to_nat chunk_size)); [|lia].
      by rewrite drop_ge in Hmore.
Qed.

(** The statistics after more chunks. *)
Definition grown (stats : StreamStats) (cs : list bytes) : StreamStats :=
  MkStats (plaintext_bytes stats + blen (concat cs))
    (ciphertext_bytes stats + (blen (concat cs) + Z.of_nat (length cs) * (4 + ABYTES)))
    (chunks stats + Z.of_nat (length cs)).

Lemma grown_cons stats c cs :
  grown (MkStats (plaintext_bytes stats + blen c) (ciphertext_bytes stats + (4 + (blen c + ABYTES)))
           (chunks stats + 1)) cs = grown stats (c :: cs).
Proof. unfold grown. cbn [concat length plaintext_bytes ciphertext_bytes chunks]. rewrite blen_app. f_equal; lia. Qed.

Lemma grown_nil stats : grown stats [] = stats.
Proof. destruct stats. unfold grown. cbn. f_equal; unfold blen; simpl; lia. Qed.

(** The encryption loop writes the frames of the chunks it reads. *)
Lemma encrypt_loop_frames chunk_size fuel st s current dest stats :
  1 <= chunk_size <= MAX_FRAME_SIZE / 2 ->
  (length (src_bytes s) < fuel)%nat -> (current = [] -> src_bytes s = []) ->
  blen current <= chunk_size -> 0 <= chunks stats ->
  let cs := chunk_list chunk_size fuel s current in
  chunks stats + Z.of_nat (length cs) <= 2 ^ 64 ->
  encrypt_loop aad chunk_size fuel st s current dest stats =
    (dest ++ frames st (chunks stats) cs, Some (Ok (grown stats cs))).
Proof.
  intros Hc. revert st s current dest stats.
  induction fuel as [|fuel IH]; intros st s current dest stats Hf Hend Hcur Hi; [lia|].
  cbn [encrypt_loop chunk_list]. destruct (if nonempty current then _ else _) as [following s'] eqn:Er.
  apply read_ahead in Er as (Es & Hfl & Hfe & Hne & Hlt & _); [|lia|done]. cbv zeta. cbn [length].
  intros Hn. rewrite chunk_aad_ok by lia. cbn [frames].
  set (rest := if nonempty following then _ else _).
  assert ((if negb (nonempty following) then TAG_FINAL else TAG_MESSAGE) = frame_tag rest) as ->.
  { unfold rest. destruct following; [done|]. specialize (Hlt ltac:(done)).
    cbn [nonempty negb]. destruct fuel; [lia|]. cbn [chunk_list]. by destruct (if _ : bool then _ else _). }
  pose proof (frame_bounds st current (frame_aad aad (chunks stats)) (frame_tag rest) chunk_size
    Hcur (proj2 Hc)) as Hb.
  pose proof (push_size st current (frame_aad aad (chunks stats)) (frame_tag rest)) as Hp.
  destruct (push st current _ (frame_tag rest)) as [st1 e]. cbn [fst snd] in *.
  destruct (pack_u32_ok (blen e)) as [-> _]; [lia|]. rewrite Hp.
  unfold rest in *. destruct following as [|y following]; cbn [nonempty negb] in *.
  - cbn [frames]. rewrite <- grown_cons, grown_nil, app_nil_r. done.
  - specialize (Hlt ltac:(done)). rewrite IH; cbn [chunks]; [|lia|done|done|lia|lia].
    by rewrite <- grown_cons, <- !app_assoc.
Qed.

(** ** Decrypting frames *)

Section Receiver.
Variables (chunk_size max_frame_size : Z).
Hypotheses (Hchunk : 1 <= chunk_size <= MAX_FRAME_SIZE / 2)
           (Hmax : chunk_size + ABYTES <= max_frame_size).

Lemma take_app_exact {A} (a b : list A) n : n = length a -> take n (a ++ b) = a /\ drop n (a ++ b) = b.
Proof. intros ->. by rewrite take_app_length, drop_app_length. Qed.

(** The length field of a frame and its ciphertext, at the head of the input. *)
Lemma frame_head e more :
  0 <= blen e < 2 ^ 32 ->
  read 4 (file (be_bytes 4 (blen e) ++ more)) = (be_bytes 4 (blen e), file more) /\
  blen (be_bytes 4 (blen e)) = 4 /\ be_value (be_bytes 4 (blen e)) = blen e.
Proof.
  intros He. rewrite read_file.
  destruct (take_app_exact (be_bytes 4 (blen e)) more (Z.to_nat 4)) as [-> ->];
    [by rewrite be_bytes_length|].
  split_and!; [done| |by apply pack_u32_ok]. unfold blen at 1. by rewrite be_bytes_length.
Qed.

Lemma decrypt_step fuel st e st2 m tag more dest stats :
  ABYTES <= blen e <= max_frame_size -> 0 <= blen e < 2 ^ 32 -> 0 <= chunks stats < 2 ^ 64 ->
  pull st e (frame_aad aad (chunks stats)) = Some (st2, (m, tag)) ->
  blen e = blen m + ABYTES -> tag = TAG_FINAL \/ tag = TAG_MESSAGE ->
  let stats' := MkStats (plaintext_bytes stats + blen m)
                  (ciphertext_bytes stats + (4 + (blen m + ABYTES))) (chunks stats + 1) in
  decrypt_loop aad max_frame_size (S fuel) st (file (be_bytes 4 (blen e) ++ e ++ more)) dest stats =
    if tag =? TAG_FINAL
    then (dest ++ m, Some (if nonempty more then Raise ARTIFACT_INTEGRITY_FAILED else Ok stats'))
    else decrypt_loop aad max_frame_size fuel st2 (file more) (dest ++ m) stats'.
Proof.
  intros Ha He Hi Hpull Hlen Htag stats'. cbn [decrypt_loop].
  destruct (frame_head e (e ++ more) He) as (-> & -> & ->). cbn [negb Z.eqb].
  rewrite (proj2 (Z.ltb_ge (blen e) ABYTES)), (proj2 (Z.ltb_ge max_frame_size (blen e))) by lia.
  cbn [orb negb]. rewrite read_exact_file, blen_app by lia.
  rewrite (proj2 (Z.leb_le (blen e) (blen e + blen more))) by (pose proof (blen_nonneg more); lia).
  destruct (take_app_exact e more (Z.to_nat (blen e))) as [-> ->]; [unfold blen; lia|].
  rewrite chunk_aad_ok, Hpull by done. cbv zeta. rewrite Hlen. fold stats'.
  pose proof tags_distinct as Ht. destruct Htag as [->| ->].
  - rewrite Z.eqb_refl, read_file. by destruct more.
  - by rewrite (proj2 (Z.eqb_neq TAG_MESSAGE TAG_FINAL)), Z.eqb_refl by done.
Qed.

Lemma decrypt_loop_frames cs st st' more fuel dest stats i :
  chunks stats = i -> synchronised st st' -> cs <> [] -> Forall (fun c => blen c <= chunk_size) cs ->
  0 <= i -> i + Z.of_nat (length cs) <= 2 ^ 64 -> (length cs <= fuel)%nat ->
  decrypt_loop aad max_frame_size fuel st' (file (frames st i cs ++ more)) dest stats =
    (dest ++ concat cs,
     Some (if nonempty more then Raise ARTIFACT_INTEGRITY_FAILED else Ok (grown stats cs))).
Proof.
  revert st st' fuel dest stats i.
  induction cs as [|c cs IH]; intros st st' fuel dest stats i Ei Hsync Hne Hall Hi Hn Hf; [done|]. subst i.
  apply Forall_cons in Hall as [Hc Hall]. cbn [length] in Hn, Hf. destruct fuel as [|fuel]; [lia|].
  pose proof (frame_bounds st c (frame_aad aad (chunks stats)) (frame_tag cs) chunk_size Hc
    (proj2 Hchunk)) as [Hb Hb'].
  destruct (push_pull st st' c (frame_aad aad (chunks stats)) (frame_tag cs) Hsync)
    as (st2 & Hpull & Hsync'); [by destruct cs; auto|].
  cbn [frames]. rewrite <- !app_assoc.
  rewrite (decrypt_step _ _ _ st2 c (frame_tag cs)); try done; try lia; [|apply push_size|by destruct cs; auto].
  destruct cs as [|c' cs].
  - cbn [frame_tag frames concat app]. rewrite Z.eqb_refl, <- grown_cons, grown_nil, app_nil_r. done.
  - cbn [frame_tag]. rewrite (proj2 (Z.eqb_neq TAG_MESSAGE TAG_FINAL)) by apply tags_distinct.
    rewrite IH; cbn [chunks]; try done; try lia. by rewrite grown_cons, <- app_assoc.
Qed.

Lemma cut_inside {A} (a b p r : list A) x :
  a ++ b = p ++ x :: r -> (length p < length a)%nat \/ exists p', p = a ++ p' /\ b = p' ++ x :: r.
Proof.
  intros [([|y k] & -> & H)|(k & -> & ->)]%app_eq_inv.
  - right. exists []. split; [by rewrite !app_nil_r|by simpl in *].
  - left. rewrite length_app. simpl. lia.
  - right. eauto.
Qed.

(** A stream cut short anywhere inside its frames. *)
Lemma decrypt_loop_truncated cs st st' p x r fuel dest stats i :
  chunks stats = i -> synchronised st st' -> Forall (fun c => blen c <= chunk_size) cs ->
  0 <= i -> i + Z.of_nat (length cs) <= 2 ^ 64 -> (length p < fuel)%nat ->
  frames st i cs = p ++ x :: r ->
  snd (decrypt_loop aad max_frame_size fuel st' (file p) dest stats) =
    Some (Raise ARTIFACT_INTEGRITY_FAILED).
Proof.
  revert st st' fuel dest stats i p.
  induction cs as [|c cs IH]; intros st st' fuel dest stats i p Ei Hsync Hall Hi Hn Hf Hp.
  { symmetry in Hp. by apply app_eq_nil in Hp as [_ ?]. }
  subst i. apply Forall_cons in Hall as [Hc Hall]. cbn [length] in Hn.
  destruct fuel as [|fuel]; [lia|].
  pose proof (frame_bounds st c (frame_aad aad (chunks stats)) (frame_tag cs) chunk_size Hc
    (proj2 Hchunk)) as [Hb Hb'].
  destruct (push_pull st st' c (frame_aad aad (chunks stats)) (frame_tag cs) Hsync)
    as (st2 & Hpull & Hsync'); [by destruct cs; auto|].
  cbn [frames] in Hp. pose proof (push_size st c (frame_aad aad (chunks stats)) (frame_tag cs)) as Hps.
  destruct (push st c _ (frame_tag cs)) as [st1 e]. cbn [fst snd] in *.
  apply cut_inside in Hp as [Hlt|(p1 & -> & Hp)].
  { cbn [decrypt_loop]. rewrite be_bytes_length in Hlt. rewrite read_file, take_ge by (simpl; lia).
    rewrite (proj2 (Z.eqb_neq (blen p) 4)) by (unfold blen; lia). done. }
  apply cut_inside in Hp as [Hlt|(p2 & -> & Hp)].
  { cbn [decrypt_loop]. destruct (frame_head e p1 Hb') as (-> & -> & ->). cbn [negb Z.eqb].
    rewrite (proj2 (Z.ltb_ge (blen e) ABYTES)), (proj2 (Z.ltb_ge max_frame_size (blen e))) by lia.
    cbn [orb negb]. rewrite read_exact_file by lia.
    by rewrite (proj2 (Z.leb_gt (blen e) (blen p1))) by (unfold blen; lia). }
  rewrite (decrypt_step _ _ _ st2 c (frame_tag cs)); try done; try lia; [|by destruct cs; auto].
  destruct cs as [|c' cs]; [symmetry in Hp; by apply app_eq_nil in Hp as [_ ?]|]. cbn [frame_tag].
  rewrite (proj2 (Z.eqb_neq TAG_MESSAGE TAG_FINAL)) by apply tags_distinct.
  rewrite !length_app, be_bytes_length in Hf.
  apply (IH st1 _ _ _ _ (chunks stats + 1)); cbn [chunks]; try done; lia.
Qed.
End Receiver.
End Frames.

(** ** Streams *)

Section Streams.
Context {SS : Secretstream} {SL : SecretstreamLaws}.
Variables (aad key : bytes) (chunk_size : Z).
Hypotheses (Hkey : blen key = KEYBYTES) (Hchunk : 1 <= chunk_size <= MAX_FRAME_SIZE / 2).

Lemma encrypt_run s dest seed :
  blen (src_bytes s) < 2 ^ 64 ->
  exists cs fuel current s',
    let '(st, header) := init_push key seed in
    encrypt_stream aad chunk_size s dest key seed =
      (dest ++ SECRETSTREAM_MAGIC ++ header ++ frames aad st 0 cs,
       Some (Ok (grown (MkStats 0 (8 + HEADERBYTES) 0) cs))) /\
    concat cs = src_bytes s /\ Forall (fun c => blen c <= chunk_size) cs /\
    1 <= Z.of_nat (length cs) <= 2 ^ 64 /\ read chunk_size s = (current, s') /\
    (length (src_bytes s') < fuel)%nat /\ cs = chunk_list chunk_size fuel s' current.
Proof.
  intros Hs. unfold encrypt_stream. pose proof (header_size key seed) as Hh.
  destruct (init_push key seed) as [st header] eqn:Ei. cbn [snd] in Hh.
  destruct (read chunk_size s) as [current s'] eqn:Er.
  pose proof (read_split _ _ _ _ Er) as (Es & Hl & Hend & _).
  set (fuel := S (S (length (src_bytes s')))). exists (chunk_list chunk_size fuel s' current), fuel, current, s'.
  assert (current = [] -> src_bytes s' = []) as Hend' by (apply Hend; lia).
  destruct (chunk_list_spec chunk_size fuel s' current) as (H1 & H2 & H3); [lia|lia|done|lia|].
  rewrite <- Es in H1, H3. pose proof (blen_nonneg (src_bytes s)).
  assert (Z.max 1 (blen (src_bytes s)) <= 2 ^ 64) by lia.
  rewrite Hkey, Z.eqb_refl. cbn [negb].
  rewrite (proj2 (Z.ltb_ge chunk_size 1)), (proj2 (Z.ltb_ge (MAX_FRAME_SIZE / 2) chunk_size)) by lia.
  cbn [orb]. split_and!; try done; try lia.
  rewrite encrypt_loop_frames; cbn [chunks]; try done; try lia.
  by rewrite <- !app_assoc, Hh.
Qed.

(** Past the magic number and the header the frames follow. *)
Lemma decrypt_open max_frame_size seed rest dest :
  ABYTES <= max_frame_size ->
  exists st', synchronised (fst (init_push key seed)) st' /\
  decrypt_stream aad max_frame_size (file (SECRETSTREAM_MAGIC ++ snd (init_push key seed) ++ rest)) dest key =
    decrypt_loop aad max_frame_size (S (length rest)) st' (file rest) dest (MkStats 0 (8 + HEADERBYTES) 0).
Proof.
  intros Hm. destruct (init_sync key seed) as (st' & Hp & Hsync). exists st'. split; [done|].
  pose proof (header_size key seed) as Hh. destruct sizes_positive as (_ & Hpos & _).
  unfold decrypt_stream. rewrite Hkey, Z.eqb_refl. cbn [negb].
  rewrite (proj2 (Z.ltb_ge max_frame_size ABYTES)) by done.
  rewrite read_exact_file, !blen_app by apply blen_nonneg.
  pose proof (blen_nonneg rest). rewrite (proj2 (Z.leb_le _ _)) by lia.
  destruct (take_app_exact SECRETSTREAM_MAGIC (snd (init_push key seed) ++ rest)
    (Z.to_nat (blen SECRETSTREAM_MAGIC))) as [-> ->]; [done|].
  rewrite bool_decide_eq_true_2 by done. cbn [negb].
  rewrite read_exact_file, blen_app, (proj2 (Z.leb_le _ _)) by lia.
  destruct (take_app_exact (snd (init_push key seed)) rest (Z.to_nat HEADERBYTES)) as [-> ->];
    [unfold blen in *; lia|].
  by rewrite Hp, Hh.
Qed.

Lemma frames_count st i cs : (length cs <= length (frames aad st i cs))%nat.
Proof.
  revert st i. induction cs as [|c cs IH]; intros st i; [done|]. cbn [frames length].
  rewrite !length_app, be_bytes_length.
  specialize (IH (fst (push st c (frame_aad aad i) (frame_tag cs))) (i + 1)). lia.
Qed.

(** C38: artifact encryption round-trips.  Whatever the source's reads return,
    encrypting it succeeds, and decrypting the result with the same key and
    context yields exactly the content of the source and the same statistics,
    which count the plaintext and the ciphertext. *)
Theorem stream_roundtrip s dest dest' seed max_frame_size :
  blen (src_bytes s) < 2 ^ 64 -> chunk_size + ABYTES <= max_frame_size ->
  exists c stats,
    encrypt_stream aad chunk_size s dest key seed = (dest ++ c, Some (Ok stats)) /\
    decrypt_stream aad max_frame_size (file c) dest' key = (dest' ++ src_bytes s, Some (Ok stats)) /\
    plaintext_bytes stats = blen (src_bytes s) /\ ciphertext_bytes stats = blen c.
Proof.
  intros Hs Hm. destruct (encrypt_run s dest seed Hs) as (cs & fuel & current & s' & H).
  pose proof (header_size key seed) as Hh.
  destruct (decrypt_open max_frame_size seed (frames aad (fst (init_push key seed)) 0 cs) dest')
    as (st' & Hsync & Hopen); [lia|].
  destruct (init_push key seed) as [st header]. cbn [fst snd] in *.
  destruct H as (Henc & Hcat & Hall & Hlen & _). eexists _, _. split; [exact Henc|].
  rewrite Hopen, <- (app_nil_r (frames aad st 0 cs)).
  rewrite (decrypt_loop_frames aad chunk_size max_frame_size Hchunk Hm cs st) by (try done; try lia;
    try (rewrite app_nil_r; pose proof (frames_count st 0 cs); lia);
    by intros ->; cbn [length] in Hlen; lia).
  rewrite Hcat. split; [done|]. unfold grown. cbn [plaintext_bytes ciphertext_bytes]. rewrite Hcat.
  split; [lia|]. rewrite app_nil_r, !blen_app, frames_length, Hh, Hcat.
  change (blen SECRETSTREAM_MAGIC) with 8. lia.
Qed.

(** The announced size is exact.  For a buffered source
    [encrypted_stream_size] computes, without encrypting, the number of bytes
    [encrypt_stream] writes. *)
Theorem stream_size_exact data dest seed :
  blen data < 2 ^ 64 ->
  exists c stats,
    encrypt_stream aad chunk_size (file data) dest key seed = (dest ++ c, Some (Ok stats)) /\
    encrypted_stream_size (blen data) chunk_size = Ok (blen c).
Proof.
  intros Hs. destruct (encrypt_run (file data) dest seed Hs) as (cs & fuel & current & s' & H).
  pose proof (header_size key seed) as Hh. destruct (init_push key seed) as [st header].
  cbn [fst snd] in *. destruct H as (Henc & Hcat & _ & _ & Hr & Hf & Ecs).
  eexists _, _. split; [exact Henc|].
  pose proof (read_split _ _ _ _ Hr) as (Es & Hl & Hend & Hlim). cbn [src_bytes file] in Es.
  unfold encrypted_stream_size. pose proof (blen_nonneg data).
  rewrite (proj2 (Z.ltb_ge (blen data) 0)) by lia.
  rewrite (proj2 (Z.ltb_ge chunk_size 1)), (proj2 (Z.ltb_ge (MAX_FRAME_SIZE / 2) chunk_size)) by lia.
  cbn [orb]. cbv zeta. f_equal. rewrite !blen_app, frames_length, Hh, Hcat. cbn [src_bytes file].
  rewrite Ecs, chunk_list_buffered; [rewrite <- Es; lia|lia|done|by apply Hend; lia|lia|by apply Hlim|].
  intros Hmore. rewrite read_file in Hr. injection Hr as <- <-. cbn [src_bytes file] in Hmore.
  unfold blen. rewrite length_take. destruct (le_lt_dec (length data) (Z.to_nat chunk_size)); [|lia].
  by rewrite drop_ge in Hmore.
Qed.

(** C39: an incomplete or extended artifact is never accepted.  Every proper
    prefix of an encrypted stream, and every extension of it, makes
    [decrypt_stream] raise ARTIFACT_INTEGRITY_FAILED. *)
Theorem stream_truncation_detected s dest dest' seed max_frame_size :
  blen (src_bytes s) < 2 ^ 64 -> chunk_size + ABYTES <= max_frame_size ->
  exists c stats,
    encrypt_stream aad chunk_size s dest key seed = (dest ++ c, Some (Ok stats)) /\
    (forall p x r, c = p ++ x :: r ->
       snd (decrypt_stream aad max_frame_size (file p) dest' key) =
         Some (Raise ARTIFACT_INTEGRITY_FAILED)) /\
    (forall x r, snd (decrypt_stream aad max_frame_size (file (c ++ x :: r)) dest' key) =
                   Some (Raise ARTIFACT_INTEGRITY_FAILED)).
Proof.
  intros Hs Hm. destruct (encrypt_run s dest seed Hs) as (cs & fuel & current & s' & H).
  pose proof (header_size key seed) as Hh. destruct sizes_positive as (Ha & Hpos & _).
  pose proof (fun rest => decrypt_open max_frame_size seed rest dest' ltac:(lia)) as Hopen.
  destruct (init_push key seed) as [st header]. cbn [fst snd] in *.
  destruct H as (Henc & Hcat & Hall & Hlen & _). eexists _, _. split; [exact Henc|]. split.
  - intros p x r [Hlt|(p1 & -> & Hp)]%cut_inside.
    { unfold decrypt_stream. rewrite Hkey, Z.eqb_refl, (proj2 (Z.ltb_ge max_frame_size ABYTES)) by lia.
      cbn [negb]. rewrite read_exact_file by apply blen_nonneg.
      by rewrite (proj2 (Z.leb_gt (blen SECRETSTREAM_MAGIC) (blen p))) by (unfold blen; lia). }
    apply cut_inside in Hp as [Hlt|(p2 & -> & Hp)].
    { unfold decrypt_stream. rewrite Hkey, Z.eqb_refl, (proj2 (Z.ltb_ge max_frame_size ABYTES)) by lia.
      cbn [negb]. rewrite read_exact_file, blen_app, (proj2 (Z.leb_le _ _))
        by (pose proof (blen_nonneg p1); first [apply blen_nonneg|lia]).
      destruct (take_app_exact SECRETSTREAM_MAGIC p1 (Z.to_nat (blen SECRETSTREAM_MAGIC)))
        as [-> ->]; [done|].
      rewrite bool_decide_eq_true_2 by done. cbn [negb]. rewrite read_exact_file by lia.
      by rewrite (proj2 (Z.leb_gt HEADERBYTES (blen p1))) by (unfold blen in *; lia). }
    destruct (Hopen p2) as (st' & Hsync & ->).
    eapply decrypt_loop_truncated with (chunk_size := chunk_size) (i := 0) (st := st); try done; lia.
  - intros x r. rewrite <- !app_assoc. destruct (Hopen (frames aad st 0 cs ++ x :: r)) as (st' & Hsync & ->).
    rewrite (decrypt_loop_frames aad chunk_size max_frame_size Hchunk Hm cs st); try done; try lia.
    + by intros ->; cbn [length] in Hlen; lia.
    + rewrite length_app. pose proof (frames_count st 0 cs). lia.
Qed.
End Streams.

(** ** Termination *)

Section Termination.
Context {SS : Secretstream}.

Lemma decrypt_loop_total aad max_frame_size fuel st s dest stats :
  (length (src_bytes s) < fuel)%nat ->
  exists r, snd (decrypt_loop aad max_frame_size fuel st s dest stats) = Some r.
Proof.
  revert st s dest stats. induction fuel as [|fuel IH]; intros st s dest stats Hf; [lia|].
  cbn [decrypt_loop]. destruct (read 4 s) as [b s1] eqn:Er. apply read_split in Er as (Es & _).
  destruct (blen b =? 4) eqn:E4; [|by eexists]. apply Z.eqb_eq in E4.
  apply (f_equal length) in Es. rewrite length_app in Es. unfold blen in E4. cbn [negb].
  destruct (_ || _); [by eexists|].
  destruct (read_exact_total s1 (be_value b)) as ([[e s2]|ex] & -> & Hs); [|by eexists].
  destruct (_chunk_aad _ _); [|by eexists]. destruct (pull _ _ _) as [[st2 [m tag]]|]; [|by eexists].
  destruct (tag =? TAG_FINAL); [by destruct (nonempty _); eexists|].
  destruct (negb _); [by eexists|]. apply IH. lia.
Qed.

Lemma encrypt_loop_total aad chunk_size fuel st s current dest stats :
  (length (src_bytes s) < fuel)%nat ->
  exists r, snd (encrypt_loop aad chunk_size fuel st s current dest stats) = Some r.
Proof.
  revert st s current dest stats. induction fuel as [|fuel IH]; intros st s current dest stats Hf; [lia|].
  cbn [encrypt_loop]. destruct (if nonempty current then _ else _) as [following s'] eqn:Er.
  destruct (_chunk_aad _ _); [|by eexists]. destruct (push _ _ _ _) as [st1 e].
  destruct (pack_u32 _); [|by eexists]. destruct following as [|y following]; [by eexists|].
  cbn [nonempty negb]. apply IH. destruct (nonempty current); [|done].
  apply read_split in Er as (Es & _). apply (f_equal length) in Es. rewrite length_app in Es.
  simpl in Es. lia.
Qed.

(** C40: both stream operations terminate.  On every source, key, context and
    parameter, encryption and decryption reach a result or an exception within
    the bound of their loops. *)
Theorem streams_terminate aad size s dest key seed :
  (exists r, snd (encrypt_stream aad size s dest key seed) = Some r) /\
  (exists r, snd (decrypt_stream aad size s dest key) = Some r).
Proof.
  split.
  - unfold encrypt_stream. destruct (negb _); [by eexists|]. destruct (_ || _); [by eexists|].
    destruct (init_push key seed). destruct (read size s) as [c s']. apply encrypt_loop_total. lia.
  - unfold decrypt_stream. destruct (negb _); [by eexists|]. destruct (_ <? _); [by eexists|].
    destruct (read_exact_total s (blen SECRETSTREAM_MAGIC)) as ([[m s1]|e] & -> & _); [|by eexists].
    destruct (negb _); [by eexists|].
    destruct (read_exact_total s1 HEADERBYTES) as ([[h s2]|e] & -> & _); [|by eexists].
    destruct (init_pull h key); [|by eexists]. apply decrypt_loop_total. lia.
Qed.
End Termination.

(** ** A concrete instance

    A stand-in without secrecy: a frame is its tag followed by the message. *)

Module Plain.
#[export] Instance plain : Secretstream := {|
  sstate := unit;
  KEYBYTES := 2;
  HEADERBYTES := 3;
  ABYTES := 1;
  TAG_MESSAGE := 0;
  TAG_FINAL := 3;
  init_push key seed := (tt, be_bytes 3 (be_value seed));
  push st m ad tag := (tt, (if tag =? 3 then x03 else x00) :: m);
  init_pull header key := Some tt;
  pull st c ad :=
    match c with
    | x00 :: m => Some (tt, (m, 0))
    | x03 :: m => Some (tt, (m, 3))
    | _ => None
    end;
  sha256 b := be_bytes 32 (be_value b)
|}.

#[export] Instance plain_laws : SecretstreamLaws.
Proof.
  refine {| synchronised _ _ := True |}; try done.
  - intros st m ad tag. simpl. unfold blen. simpl. lia.
  - intros. by exists tt.
  - intros st st' m ad tag _ [-> | ->]; by exists tt.
Qed.

(** Five bytes from a source whose reads return at most two, in chunks of four. *)
Definition key : bytes := [x01; x02].
Definition slow : source := MkSource [x0a; x0b; x0c; x0d; x0e] [1; 1; 1; 1]%nat.

Lemma stream_roundtrip_witness :
  exists c stats,
    encrypt_stream [] 4 slow [] key [x07] = (c, Some (Ok stats)) /\ blen c = 31 /\
    decrypt_stream [] 100 (file c) [] key = (src_bytes slow, Some (Ok stats)).
Proof.
  destruct (stream_roundtrip [] key 4) with (s := slow) (dest := @nil byte) (dest' := @nil byte)
    (seed := [x07]) (max_frame_size := 100) as (c & stats & H1 & H2 & _ & H4);
    [reflexivity|by vm_compute|by vm_compute|by vm_compute|].
  exists c, stats. split; [exact H1|]. split; [|exact H2].
  assert (ciphertext_bytes stats = 31) as E; [|rewrite <- H4; exact E].
  vm_compute in H1. injection H1 as _ <-. reflexivity.
Defined.

Lemma stream_size_exact_witness :
  exists c stats, encrypt_stream [] 4 (file (src_bytes slow)) [] key [x07] = (c, Some (Ok stats)) /\
                  encrypted_stream_size 5 4 = Ok (blen c).
Proof.
  apply (stream_size_exact [] key 4) with (data := src_bytes slow) (dest := @nil byte);
    [reflexivity|by vm_compute|by vm_compute].
Defined.

Lemma stream_truncation_detected_witness :
  exists c stats, encrypt_stream [] 4 slow [] key [x07] = (c, Some (Ok stats)) /\
    forall p x r, c = p ++ x :: r ->
      snd (decrypt_stream [] 100 (file p) [] key) = Some (Raise ARTIFACT_INTEGRITY_FAILED).
Proof.
  destruct (stream_truncation_detected [] key 4) with (s := slow) (dest := @nil byte)
    (dest' := @nil byte) (seed := [x07]) (max_frame_size := 100) as (c & stats & H1 & H2 & _);
    [reflexivity|by vm_compute|by vm_compute|by vm_compute|].
  exists c, stats. exact (conj H1 H2).
Defined.
End Plain.
