(* ===== verification/Encoding.v ===== *)
(** * Canonical encodings ([src/vgen/crypto/encoding.py])

    Base64url without padding and the canonical JSON text of signed objects.
    [base64.b64decode(.., validate=True)] is CPython's strict decoder, one
    character at a time; [json.dumps] with sorted keys and no spaces prints every
    document of the model, with [str()] of a finite float from the
    environment. *)

From S2P Require Import Prelude Python Store Capability Bytes.

Open Scope Z_scope.

(** ** Base64url *)

Definition b64_alphabet : string :=
  "ABCDEFGHIJKLMNOPQRSTUVWXYZabcdefghijklmnopqrstuvwxyz0123456789-_".

Definition b64_char (d : Z) : ascii :=
  match String.get (Z.to_nat d) b64_alphabet with Some c => c | None => "A"%char end.

(** The value of a character: [altchars] are translated, so the standard alphabet
    is read as well. *)
Definition b64_value (c : ascii) : option Z :=
  let n := Z.of_N (Ascii.N_of_ascii c) in
  if is_upper c then Some (n - 65)
  else if is_lower c then Some (n - 71)
  else if is_digit c then Some (n + 4)
  else if Ascii.eqb c "+" || Ascii.eqb c "-" then Some 62
  else if Ascii.eqb c "/" || Ascii.eqb c "_" then Some 63
  else None.

(** The six-bit groups of a byte string. *)
Fixpoint b64_digits (b : bytes) : list Z :=
  match b with
  | [] => []
  | [x] => [byte_val x / 4; (byte_val x mod 4) * 16]
  | [x; y] => [byte_val x / 4; (byte_val x mod 4) * 16 + byte_val y / 16; (byte_val y mod 16) * 4]
  | x :: y :: z :: b =>
      byte_val x / 4 :: (byte_val x mod 4) * 16 + byte_val y / 16 ::
      (byte_val y mod 16) * 4 + byte_val z / 64 :: byte_val z mod 64 :: b64_digits b
  end.

(** [base64.urlsafe_b64encode(value).rstrip(b"=")]. *)
Definition b64url_encode (value : bytes) : string :=
  String.string_of_list_ascii (map b64_char (b64_digits value)).

(** [binascii.a2b_base64(.., strict_mode=True)]: [quad] counts the characters of
    the current group of four, [left] holds the bits not yet written. *)
Fixpoint a2b_strict (s : list ascii) (quad left pads : Z) (padding_started : bool) : res bytes :=
  match s with
  | [] => if quad =? 0 then Ok [] else Raise ValueError
  | c :: s =>
      if Ascii.eqb c "=" then
        if (2 <=? quad) && (4 <=? quad + pads + 1) then
          match s with [] => Ok [] | _ => Raise ValueError end
        else a2b_strict s quad left (if 2 <=? quad then pads + 1 else pads) true
      else
        match b64_value c with
        | None => Raise ValueError
        | Some d =>
            if padding_started then Raise ValueError
            else if quad =? 0 then a2b_strict s 1 d 0 false
            else if quad =? 1 then
              rest ← a2b_strict s 2 (d mod 16) 0 false; Ok (byte_of (left * 4 + d / 16) :: rest)
            else if quad =? 2 then
              rest ← a2b_strict s 3 (d mod 4) 0 false; Ok (byte_of (left * 16 + d / 4) :: rest)
            else
              rest ← a2b_strict s 0 0 0 false; Ok (byte_of (left * 64 + d) :: rest)
        end
  end.

Definition a2b_base64 (s : list ascii) : res bytes :=
  match s with
  | c :: _ => if Ascii.eqb c "=" then Raise ValueError else a2b_strict s 0 0 0 false
  | [] => Ok []
  end.

Definition b64url_decode (value : string) (expected_length : option Z) : res bytes :=
  let s := String.list_ascii_of_string value in
  let padding := repeat "="%char (Z.to_nat (- str_len value mod 4)) in
  decoded ← a2b_base64 (s ++ padding);
  match expected_length with
  | Some n => if blen decoded =? n then Ok decoded else Raise ValueError
  | None => Ok decoded
  end.

(** ** Canonical JSON *)

Definition hex_digit (n : Z) : ascii :=
  match String.get (Z.to_nat n) "0123456789abcdef" with Some c => c | None => "0"%char end.

(** Two hexadecimal digits a byte. *)
Fixpoint hexlify (b : bytes) : list ascii :=
  match b with
  | [] => []
  | x :: b => hex_digit (byte_val x / 16) :: hex_digit (byte_val x mod 16) :: hexlify b
  end.

Section Canonical.
Context {E : Env}.

(** The escapes of [json.dumps(.., ensure_ascii=False)]. *)
Definition escape_char (c : ascii) : string :=
  let n := Z.of_N (Ascii.N_of_ascii c) in
  let backslash := Ascii.ascii_of_N 92 in
  let esc x := String backslash (String x EmptyString) in
  if n =? 34 then esc c
  else if n =? 92 then esc c
  else if n =? 10 then esc "n"%char
  else if n =? 13 then esc "r"%char
  else if n =? 9 then esc "t"%char
  else if n =? 12 then esc "f"%char
  else if n =? 8 then esc "b"%char
  else if n <? 32 then
    esc "u"%char +:+ "00" +:+ String (hex_digit (n / 16)) (String (hex_digit (n mod 16)) EmptyString)
  else String c EmptyString.

Fixpoint escape (s : string) : string :=
  match s with
  | EmptyString => EmptyString
  | String c s => escape_char c +:+ escape s
  end.

Definition dquote : string := String (Ascii.ascii_of_N 34) EmptyString.
Definition quote (s : string) : string := dquote +:+ escape s +:+ dquote.

Fixpoint join (sep : string) (l : list string) : string :=
  match l with
  | [] => EmptyString
  | [x] => x
  | x :: l => x +:+ sep +:+ join sep l
  end.

Definition key_leb (x y : string * string) : bool := negb (str_ltb (fst y) (fst x)).

Definition print_member (kv : string * string) : string := quote (fst kv) +:+ ":" +:+ snd kv.

Fixpoint json_dump (v : json) : res string :=
  match v with
  | JNull => Ok "null"
  | JBool b => Ok (if b then "true" else "false")
  | JInt z => Ok (pretty z)
  | JFloat (FFin m e) => Ok (py_repr (JFloat (FFin m e)))
  | JFloat _ => Raise ValueError
  | JStr s => Ok (quote s)
  | JList l =>
      items ← (fix go (l : list json) : res (list string) :=
                 match l with
                 | [] => Ok []
                 | v :: l => x ← json_dump v; rest ← go l; Ok (x :: rest)
                 end) l;
      Ok ("[" +:+ join "," items +:+ "]")
  | JObj d =>
      members ← (fix go (d : dict) : res (list (string * string)) :=
                   match d with
                   | [] => Ok []
                   | (k, v) :: d => x ← json_dump v; rest ← go d; Ok ((k, x) :: rest)
                   end) d;
      Ok ("{" +:+ join "," (map print_member (order_by key_leb members)) +:+ "}")
  end.

(** The printed members of an object, in their own order. *)
Fixpoint dump_members (d : dict) : res (list (string * string)) :=
  match d with
  | [] => Ok []
  | (k, v) :: d => x ← json_dump v; rest ← dump_members d; Ok ((k, x) :: rest)
  end.

Definition canonical_json (value : json) : res bytes := text ← json_dump value; Ok (encode text).

End Canonical.

(** ** Base64url round trip *)

Lemma bytes_ind3 (P : bytes -> Prop) :
  P [] -> (forall x, P [x]) -> (forall x y, P [x; y]) ->
  (forall x y z b, P b -> P (x :: y :: z :: b)) -> forall b, P b.
Proof.
  intros H0 H1 H2 H3. fix IH 1. intros [|x [|y [|z b]]]; [done|done|done|]. apply H3, IH.
Qed.

(** Every six-bit group reads back as itself, and is not padding. *)
Lemma b64_char_value d :
  0 <= d < 64 -> b64_value (b64_char d) = Some d /\ Ascii.eqb (b64_char d) "=" = false.
Proof.
  intros Hd.
  assert (forallb (fun n => bool_decide (b64_value (b64_char (Z.of_nat n)) = Some (Z.of_nat n)) &&
                            negb (Ascii.eqb (b64_char (Z.of_nat n)) "=")) (List.seq 0 64) = true) as H
    by (vm_compute; reflexivity).
  rewrite forallb_forall in H. specialize (H (Z.to_nat d)). rewrite Z2Nat.id in H by lia.
  rewrite in_seq in H. specialize (H ltac:(lia)). apply andb_true_iff in H as [H1 H2].
  split; [by apply bool_decide_eq_true in H1|by apply negb_true_iff in H2].
Qed.

Lemma a2b_digit d s quad left :
  0 <= d < 64 ->
  a2b_strict (b64_char d :: s) quad left 0 false =
    if quad =? 0 then a2b_strict s 1 d 0 false
    else if quad =? 1 then
      rest ← a2b_strict s 2 (d mod 16) 0 false; Ok (byte_of (left * 4 + d / 16) :: rest)
    else if quad =? 2 then
      rest ← a2b_strict s 3 (d mod 4) 0 false; Ok (byte_of (left * 16 + d / 4) :: rest)
    else rest ← a2b_strict s 0 0 0 false; Ok (byte_of (left * 64 + d) :: rest).
Proof. intros Hd. simpl. destruct (b64_char_value d Hd) as [-> ->]. done. Qed.

Ltac digit_arith := Z.to_euclidean_division_equations; lia.

(** A byte from the bits of two neighbouring groups. *)
Lemma byte_joined z b : z = byte_val b -> byte_of z = b.
Proof. intros ->. apply byte_of_val. Qed.

Lemma a2b_digits b :
  a2b_strict (map b64_char (b64_digits b) ++
              repeat "="%char (Z.to_nat (- Z.of_nat (length (b64_digits b)) mod 4))) 0 0 0 false = Ok b.
Proof.
  induction b as [|x|x y|x y z b IH] using bytes_ind3; [done|..];
    try pose proof (byte_val_bound x) as Hx; try pose proof (byte_val_bound y) as Hy;
    try pose proof (byte_val_bound z) as Hz; cbn [b64_digits map app length].
  - rewrite !a2b_digit by digit_arith. simpl. unfold bind, mbind, res_bind.
    f_equal. f_equal. apply byte_joined. digit_arith.
  - rewrite !a2b_digit by digit_arith. simpl. unfold bind, mbind, res_bind.
    f_equal. f_equal; [apply byte_joined; digit_arith|]. f_equal. apply byte_joined. digit_arith.
  - rewrite !a2b_digit by digit_arith. cbn [Z.eqb].
    replace (- Z.of_nat (S (S (S (S (length (b64_digits b)))))) mod 4)
      with (- Z.of_nat (length (b64_digits b)) mod 4) by digit_arith.
    rewrite IH. unfold bind, mbind, res_bind. simpl.
    f_equal. f_equal; [apply byte_joined; digit_arith|].
    f_equal; [apply byte_joined; digit_arith|]. f_equal. apply byte_joined. digit_arith.
Qed.

Lemma b64_digits_head b : b <> [] -> exists d l, b64_digits b = d :: l /\ 0 <= d < 64.
Proof.
  destruct b as [|x [|y [|z b]]]; [done|..]; intros _; pose proof (byte_val_bound x);
    eexists _, _; (split; [reflexivity|digit_arith]).
Qed.

Lemma b64url_encode_length b : str_len (b64url_encode b) = Z.of_nat (length (b64_digits b)).
Proof.
  unfold str_len, b64url_encode. rewrite <- (length_map b64_char).
  induction (map b64_char (b64_digits b)) as [|c l IH]; [done|]. simpl. lia.
Qed.

(** Decoding an encoded byte string returns it. *)
Lemma b64url_roundtrip b n :
  (n = None \/ n = Some (blen b)) -> b64url_decode (b64url_encode b) n = Ok b.
Proof.
  intros Hn. unfold b64url_decode. rewrite b64url_encode_length.
  unfold b64url_encode. rewrite String.list_ascii_of_string_of_list_ascii.
  assert (a2b_base64 (map b64_char (b64_digits b) ++
            repeat "="%char (Z.to_nat (- Z.of_nat (length (b64_digits b)) mod 4))) = Ok b) as ->.
  { pose proof (a2b_digits b) as H. destruct b as [|x b]; [done|].
    destruct (b64_digits_head (x :: b)) as (d & l & E & Hd); [done|]. rewrite E in *.
    unfold a2b_base64. cbn [map app]. destruct (b64_char_value d Hd) as [_ ->]. done. }
  unfold bind, mbind, res_bind. destruct Hn as [-> | ->]; [done|]. by rewrite Z.eqb_refl.
Qed.

(** ** Canonical texts do not depend on the order of members *)

Section Members.
Context {E : Env}.

Lemma json_dump_error : forall v e, json_dump v = Raise e -> e = ValueError.
Proof.
  fix IH 1. intros v e. destruct v as [|b|z|f|s|l|d]; simpl; try done.
  - by destruct f; [done|intros [= <-]..].
  - unfold bind at 1, mbind, res_bind.
    match goal with |- context [match ?g l with _ => _ end] => set (go := g) end.
    assert (forall l e, go l = Raise e -> e = ValueError) as H.
    { clear l e. induction l as [|v l IHl]; intros e; simpl; [done|].
      unfold bind at 1, mbind, res_bind. destruct (json_dump v) eqn:Ev;
        [|intros [= <-]; by apply (IH v)].
      unfold bind at 1, mbind, res_bind. destruct (go l) eqn:El; [done|intros [= <-]; by apply IHl]. }
    destruct (go l) eqn:El; [done|]. intros [= <-]. by apply (H l).
  - unfold bind at 1, mbind, res_bind.
    match goal with |- context [match ?g d with _ => _ end] => set (go := g) end.
    assert (forall d e, go d = Raise e -> e = ValueError) as H.
    { clear d e. induction d as [|[k v] d IHl]; intros e; simpl; [done|].
      unfold bind at 1, mbind, res_bind. destruct (json_dump v) eqn:Ev;
        [|intros [= <-]; by apply (IH v)].
      unfold bind at 1, mbind, res_bind. destruct (go d) eqn:El; [done|intros [= <-]; by apply IHl]. }
    destruct (go d) eqn:El; [done|]. intros [= <-]. by apply (H d).
Qed.

Lemma json_dump_obj d :
  json_dump (JObj d) =
  (members ← dump_members d;
   Ok ("{" +:+ join "," (map print_member (order_by key_leb members)) +:+ "}")).
Proof. reflexivity. Qed.

Lemma dump_members_cons k v d :
  dump_members ((k, v) :: d) =
  match json_dump v, dump_members d with
  | Ok x, Ok rest => Ok ((k, x) :: rest)
  | _, _ => Raise ValueError
  end.
Proof.
  simpl. unfold bind, mbind, res_bind. destruct (json_dump v) eqn:Ev.
  - destruct (dump_members d) as [|e] eqn:Ed; [done|].
    assert (json_dump (JObj d) = Raise e) as He by (rewrite json_dump_obj, Ed; done).
    by rewrite (json_dump_error _ _ He).
  - by rewrite (json_dump_error _ _ Ev).
Qed.

Lemma dump_members_keys d ms : dump_members d = Ok ms -> map fst ms = map fst d.
Proof.
  revert ms. induction d as [|[k v] d IH]; intros ms; [by intros [= <-]|].
  rewrite dump_members_cons. destruct (json_dump v); [|done]. destruct (dump_members d); [|done].
  intros [= <-]. simpl. by rewrite (IH _ eq_refl).
Qed.

Lemma dump_members_perm d d' :
  d ≡ₚ d' ->
  match dump_members d, dump_members d' with
  | Ok ms, Ok ms' => ms ≡ₚ ms'
  | Raise e, Raise e' => e = e'
  | _, _ => False
  end.
Proof.
  induction 1 as [|[k v] d d' _ IH|[k v] [k' v'] d|d1 d2 d3 _ IH1 _ IH2].
  - constructor.
  - rewrite !dump_members_cons. destruct (json_dump v); [|done].
    destruct (dump_members d), (dump_members d'); try done. by constructor.
  - rewrite !dump_members_cons. destruct (json_dump v), (json_dump v'), (dump_members d); try done.
    constructor.
  - destruct (dump_members d1), (dump_members d2), (dump_members d3); try done; [|congruence].
    by transitivity a0.
Qed.

Lemma key_leb_preorder : total_preorder key_leb.
Proof.
  unfold key_leb. split.
  - intros [a x] [b y]. simpl. destruct (str_ltb b a) eqn:Elt; [|by left].
    right. by rewrite (str_ltb_asym b a Elt).
  - intros [a x] [b y] [c z]. simpl. intros H1%negb_true_iff H2%negb_true_iff.
    apply negb_true_iff. destruct (str_ltb c a) eqn:Elt; [|done].
    destruct (str_ltb_total b c) as [H|[<-|H]]; [|congruence..].
    by rewrite (str_ltb_trans b c a H Elt) in H1.
Qed.

(** The canonical text is canonical.  Documents that differ only in the
    order of the members of an object have the same canonical text, so a
    signature over it survives storage and transport that reorder keys. *)
Theorem canonical_json_order d d' :
  NoDup (map fst d) -> d ≡ₚ d' -> canonical_json (JObj d) = canonical_json (JObj d').
Proof.
  intros Hnd Hp. unfold canonical_json. rewrite !json_dump_obj.
  pose proof (dump_members_perm d d' Hp) as H.
  destruct (dump_members d) as [ms|e] eqn:Ed, (dump_members d') as [ms'|e'] eqn:Ed'; try done;
    [|by rewrite H]. unfold bind, mbind, res_bind.
  assert (order_by key_leb ms = order_by key_leb ms') as ->; [|done].
  apply (StronglySorted_unique_strong (fun x y => key_leb x y = true));
    [|by apply order_by_sorted, key_leb_preorder..|by rewrite !order_by_perm].
  intros [k x] [k' y] Hx Hy H1 H2. unfold key_leb in *. simpl in *.
  apply negb_true_iff in H1, H2. assert (k = k') as <-.
  { destruct (str_ltb_total k k') as [?|[?|?]]; congruence. }
  assert (NoDup (map fst ms)) as Hms by (by rewrite (dump_members_keys _ _ Ed)).
  rewrite order_by_perm in Hx, Hy. rewrite <- H in Hy.
  apply (NoDup_map_inj fst ms); [done|by apply list_elem_of_In..|done].
Qed.
End Members.

(** ** A concrete environment *)

(** ** Canonical text determines what was printed *)

Lemma append_split (u v x y : string) :
  u +:+ x = v +:+ y -> String.prefix u v = true \/ String.prefix v u = true.
Proof.
  revert v. induction u as [|c u IH]; intros [|d v] H; [by left|by left|by right|].
  injection H as -> H. simpl. destruct (ascii_dec d d); [|done]. by apply IH in H.
Qed.

Lemma str_app_assoc (x y z : string) : x +:+ y +:+ z = (x +:+ y) +:+ z.
Proof. induction x as [|c x IH]; [done|]. exact (f_equal (String c) IH). Qed.

Definition all_chars : list ascii := map Ascii.ascii_of_nat (seq 0 256).

Lemma in_all_chars c : In c all_chars.
Proof.
  apply in_map_iff. exists (Ascii.nat_of_ascii c). split; [apply Ascii.ascii_nat_embedding|].
  apply in_seq. pose proof (Ascii.nat_ascii_bounded c). lia.
Qed.

(** No escape begins another, and none begins with a quote. *)
Lemma escapes_prefix_free :
  forallb (fun c => negb (String.prefix dquote (escape_char c)) &&
    forallb (fun d => negb (String.prefix (escape_char c) (escape_char d)) || Ascii.eqb c d) all_chars) all_chars = true.
Proof. vm_compute. reflexivity. Qed.

Lemma escape_char_prefix c d : String.prefix (escape_char c) (escape_char d) = true -> c = d.
Proof.
  intros H. pose proof escapes_prefix_free as Hf. rewrite forallb_forall in Hf.
  specialize (Hf c (in_all_chars c)). apply andb_true_iff in Hf as [_ Hf]. rewrite forallb_forall in Hf.
  specialize (Hf d (in_all_chars d)). rewrite H in Hf. by apply Ascii.eqb_eq.
Qed.

Lemma escape_not_quote c x y : escape_char c +:+ x <> dquote +:+ y.
Proof.
  intros H. pose proof escapes_prefix_free as Hf. rewrite forallb_forall in Hf.
  specialize (Hf c (in_all_chars c)). apply andb_true_iff in Hf as [Hf _].
  destruct (escape_char c) as [|d u] eqn:Hc.
  - assert (c = "a"%char) as -> by (apply escape_char_prefix; by rewrite Hc). discriminate Hc.
  - injection H as -> _. cbv in Hf. destruct u; discriminate Hf.
Qed.

Lemma escape_cancel s s' x y :
  escape s +:+ dquote +:+ x = escape s' +:+ dquote +:+ y -> s = s' /\ x = y.
Proof.
  revert s'. induction s as [|c s IH]; intros [|c' s'] H; simpl escape in H.
  - injection H as H. split; [done|exact H].
  - rewrite <- str_app_assoc in H. symmetry in H. by apply escape_not_quote in H.
  - rewrite <- str_app_assoc in H. by apply escape_not_quote in H.
  - rewrite <- !str_app_assoc in H. assert (c = c') as ->.
    { destruct (append_split _ _ _ _ H) as [Hp|Hp]; apply escape_char_prefix in Hp; done. }
    apply (inj _) in H. apply IH in H as [-> ->]. done.
Qed.

Lemma quote_cancel s s' x y : quote s +:+ x = quote s' +:+ y -> s = s' /\ x = y.
Proof.
  unfold quote. rewrite <- !str_app_assoc. intros H. apply (inj _) in H. by apply escape_cancel.
Qed.

Definition no_comma (s : string) : bool := str_forall (fun c => negb (Ascii.eqb c ",")) s.

Lemma comma_cancel u v x y :
  no_comma u = true -> no_comma v = true -> u +:+ "," +:+ x = v +:+ "," +:+ y -> u = v /\ x = y.
Proof.
  revert v. induction u as [|c u IH]; intros [|d v] Hu Hv H.
  - injection H as H. split; [done|exact H].
  - injection H as <- H. done.
  - injection H as -> H. done.
  - injection H as -> H. apply andb_true_iff in Hu as [_ Hu]. apply andb_true_iff in Hv as [_ Hv].
    by destruct (IH v Hu Hv H) as [-> ->].
Qed.

Lemma pretty_go_no_comma x s : no_comma s = true -> no_comma (pretty_N_go x s) = true.
Proof.
  revert s. induction (N.lt_wf_0 x) as [x _ IH]. intros s Hs.
  destruct (decide (x = 0)%N) as [->|Hx]; [done|]. rewrite pretty_N_go_step by lia.
  apply IH; [apply N.div_lt; lia|]. apply andb_true_iff. split; [|exact Hs].
  unfold pretty_N_char. by repeat case_match.
Qed.

Lemma pretty_no_comma (z : Z) : no_comma (pretty z) = true.
Proof.
  destruct z as [|p|p]; [done| |]; unfold pretty, pretty_Z, pretty, pretty_N; cbn;
    repeat case_decide; try done; by apply pretty_go_no_comma.
Qed.
Lemma encode_inj s s' : encode s = encode s' -> s = s'.
Proof.
  intros H. rewrite <- (String.string_of_list_byte_of_string s), <- (String.string_of_list_byte_of_string s').
  unfold encode in H. by rewrite H.
Qed.

Module Sample.
#[export] Instance sample_env : Env := {|
  clock n := seconds (Z.of_nat n);
  uuid n := pretty n;
  sha256_json v := "sha";
  version_lt _ _ := Some false;
  py_repr _ := "?";
  json_loads s := if String.eqb s "{}" then JDoc (JObj []) else JBad s;
  alnum_beyond_ascii _ := false;
  env_ed25519 := toy_ed25519
|}.

Lemma canonical_json_order_witness :
  canonical_json (JObj [("b", JInt 1); ("a", JStr "x")]) =
  canonical_json (JObj [("a", JStr "x"); ("b", JInt 1)]).
Proof.
  apply (canonical_json_order [("b", JInt 1); ("a", JStr "x")] [("a", JStr "x"); ("b", JInt 1)]).
  - apply (bool_decide_eq_true_1 (NoDup ["b"; "a"])). vm_compute. reflexivity.
  - apply Permutation_swap.
Defined.
End Sample.
