(* ===== verification/Signing.v ===== *)
(** * Signed objects ([src/vgen/crypto/identity.py], [maintenance.py], [allocation.py])

    Device certificates, maintenance intents and allocation proofs: canonical
    JSON payloads under an Ed25519 signature with a context.  The signature
    scheme and SHA-256 come from the [cryptography] package and [hashlib] and are
    parameters ([Ed25519]) with their documented laws ([Ed25519Laws]). *)

From S2P Require Import Prelude Python Store Metadata Capability Bytes Encoding.

Open Scope Z_scope.

Class Ed25519Laws `{Env} := {
  ed_public_size sk : blen (ed_public sk) = 32;
  ed_sign_size sk m : blen (ed_sign sk m) = 64;
  ed_sign_verify sk m : ed_verify (ed_public sk) (ed_sign sk m) m = true;
  sha256_size m : blen (sha256_digest m) = 32
}.

(** ** Conversions of Python the verifiers use *)

(** [int(s)] of a text: white space, a sign, digits with single underscores. *)
Definition is_space (c : ascii) : bool :=
  let n := Ascii.N_of_ascii c in
  (N.eqb n 32) || ((N.leb 9 n) && (N.leb n 13)) || ((N.leb 28 n) && (N.leb n 31)).

Fixpoint drop_spaces (l : list ascii) : list ascii :=
  match l with c :: l' => if is_space c then drop_spaces l' else l | [] => [] end.

Fixpoint read_digits (l : list ascii) (acc : Z) (after_digit : bool) : option Z :=
  match l with
  | [] => if after_digit then Some acc else None
  | c :: l =>
      if is_digit c then read_digits l (acc * 10 + Z.of_N (Ascii.N_of_ascii c) - 48) true
      else if Ascii.eqb c "_" && after_digit then read_digits l acc false
      else None
  end.

Definition int_of_text (s : string) : option Z :=
  let l := rev (drop_spaces (rev (drop_spaces (String.list_ascii_of_string s)))) in
  match l with
  | c :: l' =>
      if Ascii.eqb c "-" then option_map Z.opp (read_digits l' 0 false)
      else if Ascii.eqb c "+" then read_digits l' 0 false
      else read_digits l 0 false
  | [] => None
  end.

(** [int(v)]. *)
Definition json_int (v : json) : res Z :=
  match v with
  | JInt z => Ok z
  | JBool b => Ok (if b then 1 else 0)
  | JFloat (FFin m e) => Ok (float_trunc m e)
  | JFloat (FInf _) => Raise OverflowError
  | JFloat FNan => Raise ValueError
  | JStr s => match int_of_text s with Some z => Ok z | None => Raise ValueError end
  | _ => Raise TypeError
  end.

(** [dict(v)]: a mapping, or a sequence of pairs.  A pair whose key is not a
    string is refused here; the schema checks that follow would refuse the
    dictionary. *)
Definition pair_of (v : json) : res (string * json) :=
  match v with
  | JList [JStr k; x] => Ok (k, x)
  | JStr (String a (String b EmptyString)) =>
      Ok (String a EmptyString, JStr (String b EmptyString))
  | JList _ | JStr _ => Raise ValueError
  | _ => Raise TypeError
  end.

Definition py_dict (v : json) : res dict :=
  match v with
  | JObj d => Ok d
  | JList l => pairs ← res_map pair_of l;
               Ok (List.fold_left (fun d kv => jset (fst kv) (snd kv) d) pairs [])
  | JStr s => if String.eqb s EmptyString then Ok [] else Raise ValueError
  | _ => Raise TypeError
  end.

(** [d[k]]. *)
Definition jitem (k : string) (d : dict) : res json :=
  match jget k d with Some v => Ok v | None => Raise KeyError end.

(** [len(s)]: the code points of a UTF-8 text. *)
Definition str_chars (s : string) : Z :=
  count (fun c => let n := Ascii.N_of_ascii c in (N.ltb n 128) || (N.leb 192 n))
        (String.list_ascii_of_string s).

Definition json_is (v : json) (s : string) : bool := json_eqb v (JStr s).

(** [set(d) == fields]. *)
Definition same_keys (d : dict) (fields : list string) : bool :=
  forallb (fun kv => fst kv ∈? fields) d && forallb (fun k => jmem k d) fields.

Section Signatures.
Context {E : Env}.

(** ** Messages under a context *)

Definition SIGNATURE_CONTEXT : bytes := encode "vgen-message-signature-v1".
Definition DEVICE_CERT_CONTEXT : bytes := encode "vgen-device-certificate-v1".

Definition _signed_message (context message : bytes) : res bytes :=
  if negb (match context with [] => false | _ => true end) || existsb (Byte.eqb x00) context
  then Raise ValueError else Ok (context ++ [x00] ++ message).

Definition sign_message (private_key message context : bytes) : res bytes :=
  signed ← _signed_message context message; Ok (ed_sign private_key signed).

Definition verify_message (public_key message signature context : bytes) : res bool :=
  if negb (blen public_key =? 32) then Raise ValueError
  else signed ← _signed_message context message; Ok (ed_verify public_key signature signed).

Definition _key_id (signing_public_key : bytes) : string :=
  "root_" +:+ b64url_encode (take 20 (sha256_digest
    (encode "vgen-root-key-id-v1" ++ [x00] ++ signing_public_key))).

Definition device_key_id (signing_public_key : bytes) : res string :=
  if blen signing_public_key =? 32 then
    Ok ("devkey_" +:+ b64url_encode (take 20 (sha256_digest
          (encode "vgen-device-key-id-v1" ++ [x00] ++ signing_public_key))))
  else Raise ValueError.

(** ** Device certificates *)

Record DeviceCertificate := MkCertificate { dc_payload : dict; dc_signature : bytes }.

Definition certificate_to_dict (c : DeviceCertificate) : dict :=
  [("payload", JObj (dc_payload c)); ("signature", JStr (b64url_encode (dc_signature c)))].

Definition certificate_from_dict (value : dict) : res DeviceCertificate :=
  p ← jitem "payload" value;
  payload ← py_dict p;
  s ← jitem "signature" value;
  signature ← b64url_decode (py_str s) (Some 64);
  Ok (MkCertificate payload signature).

(** [serial] is given or drawn. *)
Definition issue_device_certificate (root_key signing_key encryption_public : bytes)
    (device_id serial : string) (issued_at expires_at : Z) : res DeviceCertificate :=
  if expires_at <=? issued_at then Raise ValueError
  else
    let payload :=
      [("version", JInt 1); ("device_id", JStr device_id);
       ("root_key_id", JStr (_key_id (ed_public root_key))); ("serial", JStr serial);
       ("issued_at", JInt issued_at); ("expires_at", JInt expires_at);
       ("signing_algorithm", JStr "Ed25519");
       ("signing_public_key", JStr (b64url_encode (ed_public signing_key)));
       ("encryption_algorithm", JStr "X25519");
       ("encryption_public_key", JStr (b64url_encode encryption_public))] in
    text ← canonical_json (JObj payload);
    signature ← sign_message root_key text DEVICE_CERT_CONTEXT;
    Ok (MkCertificate payload signature).

(** The checks inside the [try] of [verify_device_certificate]; a missing member
    or a malformed key makes the certificate invalid. *)
Definition certificate_schema (payload : dict) (root_public : bytes) : bool :=
  let same k v := match jget k payload with Some x => json_eqb x v | None => false end in
  let key k := match jget k payload with
               | Some v => match b64url_decode (py_str v) (Some 32) with Ok _ => true | _ => false end
               | None => false
               end in
  same "version" (JInt 1) &&
  match jget "device_id" payload with Some v => truthy v | None => false end &&
  same "root_key_id" (JStr (_key_id root_public)) && same "signing_algorithm" (JStr "Ed25519") &&
  same "encryption_algorithm" (JStr "X25519") && key "signing_public_key" && key "encryption_public_key".

(** With [require_time_valid=False]: the schema and the root's signature. *)
Definition certificate_signed (cert : DeviceCertificate) (root_public : bytes) : res bool :=
  if negb (blen root_public =? 32) then Raise ValueError
  else if negb (certificate_schema (dc_payload cert) root_public) then Ok false
  else
    text ← canonical_json (JObj (dc_payload cert));
    verify_message root_public text (dc_signature cert) DEVICE_CERT_CONTEXT.

Definition verify_device_certificate (cert : DeviceCertificate) (root_public : bytes) (current : Z)
    : res bool :=
  signed ← certificate_signed cert root_public;
  if negb signed then Ok false
  else
    let bounds := (i ← jitem "issued_at" (dc_payload cert); i ← json_int i;
                   if current <? i then Ok false
                   else e ← jitem "expires_at" (dc_payload cert); e ← json_int e;
                        Ok (current <? e)) in
    match bounds with
    | Raise KeyError | Raise TypeError | Raise ValueError => Ok false
    | r => r
    end.

(** ** Maintenance intents *)

Definition MAINTENANCE_INTENT_CONTEXT : bytes := encode "vgen-worker-maintenance-intent-v1".
Definition MAINTENANCE_INTENT_KIND : string := "vgen-worker-maintenance-intent".
Definition MAINTENANCE_ACTIONS : list string :=
  ["worker_update"; "model_install"; "capability_install"; "node_pack_install"].
Definition _PAYLOAD_FIELDS : list string :=
  ["version"; "kind"; "action"; "worker_id"; "broker_id"; "device_id"; "spec_digest"; "issued_at";
   "expires_at"; "nonce"].
Definition _INTENT_FIELDS : list string := ["payload"; "device_certificate"; "signature"].
Definition _MAX_CLOCK_SKEW_SECONDS : Z := 300.

Definition _DIGEST (s : string) : bool :=
  str_startswith "sha256:" s && (str_len s =? 71) && str_forall is_lower_hex (str_drop 7 s).

Definition maintenance_spec_digest (spec : dict) : res string :=
  _ ← canonical_json (JObj spec); Ok ("sha256:" +:+ sha256_json (JObj spec)).

Definition _valid_text (v : json) : bool :=
  match v with
  | JStr s => negb (String.eqb s EmptyString) && (str_chars s <=? 256) &&
              str_forall (fun c => negb (N.eqb (Ascii.N_of_ascii c) 0)) s
  | _ => false
  end.

Definition _valid_nonce (v : json) : bool :=
  match v with
  | JStr s => (16 <=? str_len s) && (str_len s <=? 128) &&
              str_forall (fun c => is_alnum c || ascii_in "-_" c) s
  | _ => false
  end.

Definition build_maintenance_intent_payload (worker_id broker_id kind : string) (spec : dict)
    (device_id : string) (issued expiry : Z) (nonce : string) : res dict :=
  if expiry <=? issued then Raise ValueError
  else if negb (_valid_text (JStr worker_id) && _valid_text (JStr broker_id) &&
                _valid_text (JStr device_id)) then Raise ValueError
  else if negb (kind ∈? MAINTENANCE_ACTIONS) then Raise ValueError
  else if negb (_valid_nonce (JStr nonce)) then Raise ValueError
  else
    digest ← maintenance_spec_digest spec;
    Ok [("version", JInt 1); ("kind", JStr MAINTENANCE_INTENT_KIND); ("action", JStr kind);
        ("worker_id", JStr worker_id); ("broker_id", JStr broker_id); ("device_id", JStr device_id);
        ("spec_digest", JStr digest); ("issued_at", JInt issued); ("expires_at", JInt expiry);
        ("nonce", JStr nonce)].

(** Every member is present and has its exact type; whatever raises is invalid. *)
Definition _valid_payload_schema (payload : dict) : bool :=
  let item k := jget_or k JNull payload in
  match item "issued_at", item "expires_at" with
  | JInt issued, JInt expiry =>
      same_keys payload _PAYLOAD_FIELDS &&
      match item "version" with JInt v => v =? 1 | _ => false end &&
      json_is (item "kind") MAINTENANCE_INTENT_KIND && _valid_text (item "worker_id") &&
      _valid_text (item "broker_id") && _valid_text (item "device_id") &&
      match item "action" with JStr a => a ∈? MAINTENANCE_ACTIONS | _ => false end &&
      match item "spec_digest" with JStr s => _DIGEST s | _ => false end &&
      (issued <? expiry) && _valid_nonce (item "nonce")
  | _, _ => false
  end.

Definition sign_maintenance_intent (signing_key : bytes) (cert : DeviceCertificate) (payload : dict)
    : res dict :=
  if negb (_valid_payload_schema payload) then Raise ValueError
  else
    k ← jitem "signing_public_key" (dc_payload cert);
    certificate_key ← b64url_decode (py_str k) (Some 32);
    device_id ← jitem "device_id" (dc_payload cert);
    if negb (certificate_key =d ed_public signing_key) then Raise ValueError
    else if negb (json_eqb (JStr (py_str device_id)) (jget_or "device_id" JNull payload))
    then Raise ValueError
    else
      text ← canonical_json (JObj payload);
      signature ← sign_message signing_key text MAINTENANCE_INTENT_CONTEXT;
      Ok [("payload", JObj payload); ("device_certificate", JObj (certificate_to_dict cert));
          ("signature", JStr (b64url_encode signature))].

(** The body of the [try] of [verify_maintenance_intent]. *)
Definition check_maintenance_intent (intent : json) (root_public_key expected_worker_id
    expected_broker_id expected_kind : string) (expected_spec : dict) (current : Z) : res bool :=
  match intent with
  | JObj intent =>
      if negb (same_keys intent _INTENT_FIELDS) then Ok false
      else
        match jget_or "payload" JNull intent, jget_or "device_certificate" JNull intent with
        | JObj payload, JObj certificate_value =>
            let item k := jget_or k JNull payload in
            if negb (_valid_payload_schema payload) then Ok false
            else
              match item "issued_at", item "expires_at" with
              | JInt issued, JInt expiry =>
                  if (current + _MAX_CLOCK_SKEW_SECONDS <? issued) || (expiry <=? current) ||
                     (expiry <=? issued) then Ok false
                  else
                    digest ← maintenance_spec_digest expected_spec;
                    if negb (json_is (item "worker_id") expected_worker_id &&
                             json_is (item "broker_id") expected_broker_id &&
                             json_is (item "action") expected_kind &&
                             json_is (item "spec_digest") digest) then Ok false
                    else
                      certificate ← certificate_from_dict certificate_value;
                      root ← b64url_decode root_public_key (Some 32);
                      certified ← verify_device_certificate certificate root current;
                      if negb certified then Ok false
                      else if negb (json_eqb (jget_or "device_id" JNull (dc_payload certificate))
                                      (item "device_id")) then Ok false
                      else
                        k ← jitem "signing_public_key" (dc_payload certificate);
                        device_public_key ← b64url_decode (py_str k) (Some 32);
                        signature ← b64url_decode (py_str (jget_or "signature" JNull intent)) (Some 64);
                        text ← canonical_json (JObj payload);
                        verify_message device_public_key text signature MAINTENANCE_INTENT_CONTEXT
              | _, _ => Raise TypeError
              end
        | _, _ => Ok false
        end
  | _ => Ok false
  end.

Definition verify_maintenance_intent (intent : json) (root_public_key expected_worker_id
    expected_broker_id expected_kind : string) (expected_spec : dict) (current : Z) : bool :=
  match check_maintenance_intent intent root_public_key expected_worker_id expected_broker_id
          expected_kind expected_spec current with
  | Ok b => b
  | Raise _ => false
  end.

(** ** Allocation proofs *)

Definition ALLOCATION_PROOF_CONTEXT : bytes := encode "vgen-workspace-allocation-proof-v1".
Definition ALLOCATION_PROOF_KIND : string := "vgen-workspace-worker-allocation".

Definition root_signing_key_id (public_key : bytes) : res string :=
  if blen public_key =? 32 then Ok (_key_id public_key) else Raise ValueError.

(** The certificate is stored as a JSON text. *)
Definition worker_certificate_digest (certificate : jtext) : res string :=
  match certificate with
  | JDoc (JObj value) => _ ← canonical_json (JObj value); Ok ("sha256:" +:+ sha256_json (JObj value))
  | _ => Raise ValueError
  end.

(** [int(round(t * 1000))] of a time in microseconds, rounding half to even. *)
Definition round_ms (t : Z) : Z :=
  let q := t / 1000 in
  let r := t mod 1000 in
  if r <? 500 then q else if 500 <? r then q + 1 else if Z.even q then q else q + 1.

(** The statement an admin signs, from the certificate's digest and the consent in ms. *)
Definition allocation_statement (allocation_id workspace_id pool_id worker_id worker_signing_public_key
    worker_encryption_public_key digest : string) (owner_consent_at_ms : Z) (approver_root_key_id : string)
    (issued_at : Z) : dict :=
  [("version", JInt 1); ("kind", JStr ALLOCATION_PROOF_KIND);
   ("allocation_id", JStr allocation_id); ("workspace_id", JStr workspace_id);
   ("pool_id", JStr pool_id); ("worker_id", JStr worker_id);
   ("worker_signing_public_key", JStr worker_signing_public_key);
   ("worker_encryption_public_key", JStr worker_encryption_public_key);
   ("worker_certificate_digest", JStr digest);
   ("owner_consent_at_ms", JInt owner_consent_at_ms);
   ("approver_root_key_id", JStr approver_root_key_id); ("issued_at", JInt issued_at)].

Definition build_allocation_proof_payload (allocation_id workspace_id pool_id worker_id
    worker_signing_public_key worker_encryption_public_key : string) (worker_certificate : jtext)
    (owner_consent_at : Z) (approver_root_key_id : string) (issued_at : Z) : res dict :=
  if owner_consent_at <=? 0 then Raise ValueError
  else
    digest ← worker_certificate_digest worker_certificate;
    Ok (allocation_statement allocation_id workspace_id pool_id worker_id worker_signing_public_key
          worker_encryption_public_key digest (round_ms owner_consent_at) approver_root_key_id issued_at).

Definition sign_allocation_proof (root_key : bytes) (payload : dict) : res dict :=
  let key_id := _key_id (ed_public root_key) in
  if negb (json_is (jget_or "approver_root_key_id" JNull payload) key_id) then Raise ValueError
  else
    text ← canonical_json (JObj payload);
    signature ← sign_message root_key text ALLOCATION_PROOF_CONTEXT;
    Ok [("payload", JObj payload); ("signer_key_id", JStr key_id);
        ("signature", JStr (b64url_encode signature))].

(** The parsed proof: its payload, signature, and issue time, once the schema
    holds; whatever raises KeyError, TypeError or ValueError is invalid. *)
Definition allocation_proof_parts (proof : dict) (public_bytes : bytes) : res (dict * bytes * Z) :=
  p ← jitem "payload" proof;
  payload ← py_dict p;
  s ← jitem "signature" proof;
  signature ← b64url_decode (py_str s) (Some 64);
  k ← jitem "signer_key_id" proof;
  let signer_key_id := py_str k in
  i ← jitem "issued_at" payload;
  issued_at ← json_int i;
  c ← jitem "owner_consent_at_ms" payload;
  owner_consent_at_ms ← json_int c;
  root_id ← root_signing_key_id public_bytes;
  let has k := truthy (jget_or k JNull payload) in
  if json_eqb (jget_or "version" JNull payload) (JInt 1) &&
     json_is (jget_or "kind" JNull payload) ALLOCATION_PROOF_KIND &&
     has "allocation_id" && has "workspace_id" && has "pool_id" && has "worker_id" &&
     has "worker_signing_public_key" && has "worker_encryption_public_key" &&
     jmem "worker_certificate_digest" payload &&
     str_startswith "sha256:" (py_str (jget_or "worker_certificate_digest" JNull payload)) &&
     (0 <? owner_consent_at_ms) &&
     json_is (jget_or "approver_root_key_id" JNull payload) signer_key_id &&
     String.eqb signer_key_id root_id
  then Ok (payload, signature, issued_at) else Raise ValueError.

Definition verify_allocation_proof (proof : dict) (public_bytes : bytes) (expected : dict)
    (current max_future_seconds : Z) : res bool :=
  match (if blen public_bytes =? 32 then allocation_proof_parts proof public_bytes
         else Raise ValueError) with
  | Raise KeyError | Raise TypeError | Raise ValueError => Ok false
  | Raise e => Raise e
  | Ok (payload, signature, issued_at) =>
      if current + max_future_seconds <? issued_at then Ok false
      else if existsb (fun kv => negb (json_eqb (jget_or (fst kv) JNull payload) (snd kv))) expected
      then Ok false
      else
        text ← canonical_json (JObj payload);
        verify_message public_bytes text signature ALLOCATION_PROOF_CONTEXT
  end.

End Signatures.

(** ** Signing and verifying *)

(** SHA-256 in hexadecimal. *)
Class HexDigest `{Env} :=
  sha256_json_hex v : str_len (sha256_json v) = 64 /\ str_forall is_lower_hex (sha256_json v) = true.

Section Verification.
Context {E : Env} {EL : Ed25519Laws}.

Definition printable (v : json) : Prop := exists t, json_dump v = Ok t.

Lemma canonical_printable d :
  Forall (fun kv => printable (snd kv)) d -> exists t, canonical_json (JObj d) = Ok t.
Proof.
  intros Hd. assert (exists ms, dump_members d = Ok ms) as [ms Hms].
  { induction Hd as [|[k v] d [t Ht] _ [ms Hms]]; [by eexists|].
    rewrite dump_members_cons. simpl in Ht. rewrite Ht, Hms. by eexists. }
  unfold canonical_json. rewrite json_dump_obj, Hms. by eexists.
Qed.

Lemma json_is_refl s : json_is (JStr s) s = true.
Proof. unfold json_is. simpl. apply String.eqb_refl. Qed.

Lemma json_is_spec v s : json_is v s = true <-> v = JStr s.
Proof.
  split; [|intros ->; apply json_is_refl]. unfold json_is.
  destruct v as [|b|z|[| |]|s'|l|d]; simpl; try done.
  intros ->%String.eqb_eq. done.
Qed.

Lemma sign_verify sk text context signed :
  sign_message sk text context = Ok signed ->
  blen signed = 64 /\ verify_message (ed_public sk) text signed context = Ok true.
Proof.
  unfold sign_message, verify_message. rewrite ed_public_size. simpl.
  intros (m & -> & H)%res_bind_ok. injection H as <-. unfold bind, mbind, res_bind.
  rewrite ed_sign_size, ed_sign_verify. done.
Qed.

(** A certificate that was issued verifies within its period, and survives its
    dictionary form. *)
Lemma issued_certificate root_key signing_key enc device_id serial issued expires cert :
  issue_device_certificate root_key signing_key enc device_id serial issued expires = Ok cert ->
  blen enc = 32 -> device_id <> EmptyString ->
  certificate_from_dict (certificate_to_dict cert) = Ok cert /\
  jget "device_id" (dc_payload cert) = Some (JStr device_id) /\
  jget "signing_public_key" (dc_payload cert) = Some (JStr (b64url_encode (ed_public signing_key))) /\
  forall current, issued <= current < expires ->
    verify_device_certificate cert (ed_public root_key) current = Ok true.
Proof.
  unfold issue_device_certificate. destruct (expires <=? issued); [done|].
  set (payload := [("version", _); _; _; _; _; _; _; _; _; _]).
  intros (text & Htext & (sig & [Hlen Hver]%sign_verify & [= <-])%res_bind_ok)%res_bind_ok Henc Hid.
  split_and!; try done.
  - unfold certificate_from_dict, certificate_to_dict. cbn -[b64url_decode b64url_encode].
    rewrite b64url_roundtrip by (right; by rewrite Hlen). done.
  - intros current Hcur. unfold verify_device_certificate, certificate_signed. rewrite ed_public_size. cbn [negb Z.eqb].
    assert (certificate_schema payload (ed_public root_key) = true) as Hs.
    { unfold certificate_schema, payload. cbn -[b64url_decode b64url_encode _key_id].
      rewrite String.eqb_refl, !b64url_roundtrip by (right; by rewrite ?ed_public_size, ?Henc).
      by destruct (String.eqb_spec device_id ""). }
    cbn [dc_payload dc_signature]. rewrite Hs. cbn [negb]. rewrite Htext.
    unfold bind, mbind, res_bind. rewrite Hver. cbn [negb]. unfold payload. cbn.
    rewrite (proj2 (Z.ltb_ge current issued)), (proj2 (Z.ltb_lt current expires)) by lia. done.
Qed.

Lemma digest_shape `{!HexDigest} v : _DIGEST ("sha256:" +:+ sha256_json v) = true.
Proof.
  destruct (sha256_json_hex v) as [Hl Hh]. unfold _DIGEST, str_len in *. cbn [str_startswith].
  assert (String.length ("sha256:" +:+ sha256_json v) = 7 + String.length (sha256_json v))%nat as ->
    by done.
  assert (str_drop 7 ("sha256:" +:+ sha256_json v) = sha256_json v) as -> by done.
  rewrite Hh, (proj2 (Z.eqb_eq _ _)) by lia. done.
Qed.

(** What [build_maintenance_intent_payload] returns passes the schema. *)
Lemma built_payload `{!HexDigest} wid bid kind spec did issued expiry nonce payload :
  build_maintenance_intent_payload wid bid kind spec did issued expiry nonce = Ok payload ->
  _valid_payload_schema payload = true /\ issued < expiry /\ did <> EmptyString /\
  (exists text, canonical_json (JObj payload) = Ok text) /\
  exists digest, maintenance_spec_digest spec = Ok digest /\
    payload = [("version", JInt 1); ("kind", JStr MAINTENANCE_INTENT_KIND); ("action", JStr kind);
        ("worker_id", JStr wid); ("broker_id", JStr bid); ("device_id", JStr did);
        ("spec_digest", JStr digest); ("issued_at", JInt issued); ("expires_at", JInt expiry);
        ("nonce", JStr nonce)].
Proof.
  unfold build_maintenance_intent_payload. destruct (expiry <=? issued) eqn:Et; [done|].
  apply Z.leb_gt in Et. destruct (_ && _) eqn:Ev; [|done]. destruct (kind ∈? _) eqn:Ek; [|done].
  destruct (_valid_nonce _) eqn:En; [|done]. cbn [negb].
  intros (digest & Hd & [= <-])%res_bind_ok. apply andb_true_iff in Ev as [Ev Hdid].
  apply andb_true_iff in Ev as [Hwid Hbid]. split_and!; [|lia| | |by exists digest].
  - unfold maintenance_spec_digest in Hd. apply res_bind_ok in Hd as (t & _ & [= <-]).
    unfold _valid_payload_schema. cbn -[_valid_text _valid_nonce _DIGEST MAINTENANCE_ACTIONS Z.ltb].
    rewrite Hwid, Hbid, Hdid, Ek, En, digest_shape, (proj2 (Z.ltb_lt issued expiry)) by done. done.
  - intros ->. done.
  - apply canonical_printable. repeat constructor; by eexists.
Qed.

(** A properly signed maintenance intent is accepted.  If a root key
    certifies a device and that device signs an intent it built, then
    [verify_maintenance_intent] accepts it for the same worker, broker, action
    and specification at every time inside the intent's and the certificate's
    validity, allowing for the clock skew. *)
Theorem intent_roundtrip `{!HexDigest} root_key signing_key enc serial cert_issued cert_expires cert
    wid bid kind spec did issued expiry nonce payload :
  issue_device_certificate root_key signing_key enc did serial cert_issued cert_expires = Ok cert ->
  blen enc = 32 ->
  build_maintenance_intent_payload wid bid kind spec did issued expiry nonce = Ok payload ->
  exists intent, sign_maintenance_intent signing_key cert payload = Ok intent /\
    forall current, cert_issued <= current < cert_expires -> issued - 300 <= current < expiry ->
      verify_maintenance_intent (JObj intent) (b64url_encode (ed_public root_key)) wid bid kind spec
        current = true.
Proof.
  intros Hcert Henc Hbuild.
  apply built_payload in Hbuild as (Hschema & Hie & Hdid & (text & Htext) & digest & Hdigest & Epay).
  apply issued_certificate in Hcert as (Hfrom & Hcd & Hck & Hver); [|done..].
  unfold sign_maintenance_intent, jitem. rewrite Hschema, Hck, Hcd. cbn [negb].
  unfold bind, mbind, res_bind. cbn [py_str]. rewrite b64url_roundtrip by (right; by rewrite ed_public_size).
  rewrite bool_decide_eq_true_2 by done. cbn [negb].
  assert (jget_or "device_id" JNull payload = JStr did) as Hpd by (rewrite Epay; done).
  rewrite Hpd, Htext. cbn [json_eqb]. rewrite String.eqb_refl. cbn [negb].
  destruct (sign_message signing_key text MAINTENANCE_INTENT_CONTEXT) as [sig|e] eqn:Esig.
  2: { by apply (f_equal (fun r => match r with Ok _ => true | Raise _ => false end)) in Esig. }
  apply sign_verify in Esig as [Hlen Hok]. eexists. split; [reflexivity|].
  intros current Hc Hi. unfold verify_maintenance_intent, check_maintenance_intent.
  change (same_keys [("payload", JObj payload); ("device_certificate", JObj (certificate_to_dict cert));
    ("signature", JStr (b64url_encode sig))] _INTENT_FIELDS) with true. cbn [negb].
  change (jget_or "payload" JNull _) with (JObj payload).
  change (jget_or "device_certificate" JNull _) with (JObj (certificate_to_dict cert)).
  change (jget_or "signature" JNull _) with (JStr (b64url_encode sig)).
  cbv beta iota zeta. rewrite Hschema, Hpd, Hdigest, Htext. cbn [negb].
  assert (jget_or "issued_at" JNull payload = JInt issued) as -> by (rewrite Epay; done).
  assert (jget_or "expires_at" JNull payload = JInt expiry) as -> by (rewrite Epay; done).
  assert (jget_or "worker_id" JNull payload = JStr wid) as -> by (rewrite Epay; done).
  assert (jget_or "broker_id" JNull payload = JStr bid) as -> by (rewrite Epay; done).
  assert (jget_or "action" JNull payload = JStr kind) as -> by (rewrite Epay; done).
  assert (jget_or "spec_digest" JNull payload = JStr digest) as -> by (rewrite Epay; done).
  unfold _MAX_CLOCK_SKEW_SECONDS. rewrite (proj2 (Z.ltb_ge (current + 300) issued)) by lia.
  rewrite (proj2 (Z.leb_gt expiry current)), (proj2 (Z.leb_gt expiry issued)) by lia. cbn [orb].
  unfold bind, mbind, res_bind. rewrite !json_is_refl. cbn [andb negb]. rewrite Hfrom.
  rewrite b64url_roundtrip by (right; by rewrite ed_public_size). rewrite Hver by done. cbn [negb].
  unfold jget_or, jitem. rewrite Hcd, Hck. cbn [json_eqb]. rewrite String.eqb_refl. cbn [negb py_str].
  rewrite !b64url_roundtrip by (right; by rewrite ?ed_public_size, ?Hlen). by rewrite Hok.
Qed.

Lemma jget_or_some k d v : jget_or k JNull d = v -> v <> JNull -> jget k d = Some v.
Proof. unfold jget_or. by destruct (jget k d) as [x|]; [intros ->|intros <- ?]. Qed.

Lemma verified_message pk text signature context :
  verify_message pk text signature context = Ok true ->
  ed_verify pk signature (context ++ [x00] ++ text) = true.
Proof.
  unfold verify_message. destruct (negb _); [done|]. intros (m & Hm & [= H])%res_bind_ok.
  unfold _signed_message in Hm. destruct (_ || _); [done|]. by injection Hm as <-.
Qed.

Lemma signed_certificate cert root :
  certificate_signed cert root = Ok true ->
  exists text, canonical_json (JObj (dc_payload cert)) = Ok text /\
    ed_verify root (dc_signature cert) (DEVICE_CERT_CONTEXT ++ [x00] ++ text) = true.
Proof.
  unfold certificate_signed. destruct (negb _); [done|]. destruct (negb _); [done|].
  intros (text & Ht & H)%res_bind_ok. exists text. split; [done|]. by apply verified_message.
Qed.

Lemma verified_certificate cert root current :
  verify_device_certificate cert root current = Ok true -> certificate_signed cert root = Ok true.
Proof. unfold verify_device_certificate. by intros ([] & Hb & H)%res_bind_ok. Qed.

(** An accepted maintenance intent is bound to its use.  When
    [verify_maintenance_intent] accepts, the signed payload names exactly the
    expected worker, broker and action and the digest of the expected
    specification, the current time lies within its validity, its signature
    verifies under the device key of a certificate for the same device, and that
    certificate verifies under the owner's root key. *)
Theorem intent_binding intent root_public_key wid bid kind spec current :
  verify_maintenance_intent intent root_public_key wid bid kind spec current = true ->
  exists members payload cert issued expiry digest root_key device_key signature text cert_text,
    intent = JObj members /\ jget "payload" members = Some (JObj payload) /\
    jget "worker_id" payload = Some (JStr wid) /\ jget "broker_id" payload = Some (JStr bid) /\
    jget "action" payload = Some (JStr kind) /\ jget "spec_digest" payload = Some (JStr digest) /\
    maintenance_spec_digest spec = Ok digest /\
    jget "issued_at" payload = Some (JInt issued) /\ jget "expires_at" payload = Some (JInt expiry) /\
    issued <= current + 300 /\ current < expiry /\
    b64url_decode root_public_key (Some 32) = Ok root_key /\
    canonical_json (JObj (dc_payload cert)) = Ok cert_text /\
    ed_verify root_key (dc_signature cert) (DEVICE_CERT_CONTEXT ++ [x00] ++ cert_text) = true /\
    json_eqb (jget_or "device_id" JNull (dc_payload cert)) (jget_or "device_id" JNull payload) = true /\
    (exists k, jget "signing_public_key" (dc_payload cert) = Some k /\
               b64url_decode (py_str k) (Some 32) = Ok device_key) /\
    canonical_json (JObj payload) = Ok text /\
    ed_verify device_key signature (MAINTENANCE_INTENT_CONTEXT ++ [x00] ++ text) = true.
Proof.
  unfold verify_maintenance_intent.
  destruct (check_maintenance_intent _ _ _ _ _ _ _) as [b|] eqn:H; [intros ->|done].
  unfold check_maintenance_intent in H. destruct intent as [| | | | | |members]; try done.
  destruct (same_keys _ _); [|done]. cbn [negb] in H.
  destruct (jget_or "payload" JNull members) as [| | | | | |payload] eqn:Ep; try done.
  destruct (jget_or "device_certificate" JNull members) as [| | | | | |cv]; try done.
  destruct (_valid_payload_schema payload); [|done]. cbn [negb] in H.
  destruct (jget_or "issued_at" JNull payload) as [| |issued| | | |] eqn:Ei; try done.
  destruct (jget_or "expires_at" JNull payload) as [| |expiry| | | |] eqn:Ee; try done.
  destruct (_ || _) eqn:Et; [done|]. apply orb_false_iff in Et as [Et _].
  apply orb_false_iff in Et as [Et1%Z.ltb_ge Et2%Z.leb_gt]. unfold _MAX_CLOCK_SKEW_SECONDS in Et1.
  apply res_bind_ok in H as (digest & Hdigest & H). destruct (_ && _) eqn:Eb; [|done].
  cbn [negb] in H. rewrite !andb_true_iff, !json_is_spec in Eb. destruct Eb as [[[Ew Ebr] Ea] Ed].
  apply res_bind_ok in H as (cert & _ & H). apply res_bind_ok in H as (root & Hroot & H).
  apply res_bind_ok in H as (certified & Hc & H). destruct certified; [|done]. cbn [negb] in H.
  destruct (json_eqb _ _) eqn:Eid; [|done]. cbn [negb] in H.
  apply res_bind_ok in H as (k & Hk & H). apply res_bind_ok in H as (device & Hdev & H).
  apply res_bind_ok in H as (signature & _ & H). apply res_bind_ok in H as (text & Htext & H).
  apply verified_certificate, signed_certificate in Hc as (ct & Hct & Hcv). apply verified_message in H.
  exists members, payload, cert, issued, expiry, digest, root, device, signature, text, ct.
  split_and!; try done; try (by apply jget_or_some). exists k. split; [|done].
  unfold jitem in Hk. destruct (jget _ _); [by injection Hk as ->|done].
Qed.
End Verification.

(** ** A concrete instance

    A stand-in without security: a signature is the public key followed by the
    message's value. *)

Module Toy.
#[export] Instance toy_env : Env := {|
  clock n := seconds (Z.of_nat n);
  uuid n := pretty n;
  sha256_json v := "0123456789abcdef0123456789abcdef0123456789abcdef0123456789abcdef";
  version_lt _ _ := Some false;
  py_repr _ := "?";
  json_loads s := if String.eqb s "{}" then JDoc (JObj []) else JBad s;
  alnum_beyond_ascii _ := false;
  env_ed25519 := toy_ed25519
|}.

#[export] Instance toy_hex : HexDigest.
Proof. intros v. by split. Qed.

#[export] Instance toy_laws : Ed25519Laws.
Proof.
  split; intros.
  - unfold blen, ed_public, env_ed25519, toy_env, toy_ed25519. by rewrite be_bytes_length.
  - unfold blen, ed_sign, env_ed25519, toy_env, toy_ed25519. by rewrite length_app, !be_bytes_length.
  - unfold ed_verify, ed_sign, ed_public, env_ed25519, toy_env, toy_ed25519. by apply bool_decide_eq_true_2.
  - unfold blen, sha256_digest, env_ed25519, toy_env, toy_ed25519. by rewrite be_bytes_length.
Qed.

Definition root : bytes := encode "root".
Definition device : bytes := encode "device".
Definition root_text : string := b64url_encode (ed_public root).
Definition certificate : DeviceCertificate :=
  Eval vm_compute in
    match issue_device_certificate root device (be_bytes 32 7) "dev_1" "s1" 1000 9000 with
    | Ok c => c
    | Raise _ => MkCertificate [] []
    end.
Definition spec : dict := [("target_version", JStr "1.2.0")].
Definition payload : dict :=
  Eval vm_compute in
    match build_maintenance_intent_payload "wrk_1" "brk_1" "worker_update" spec "dev_1" 2000 3000
            "0123456789abcdef" with
    | Ok p => p
    | Raise _ => []
    end.
Definition intent : dict :=
  Eval vm_compute in
    match sign_maintenance_intent device certificate payload with Ok i => i | Raise _ => [] end.

Lemma intent_roundtrip_witness :
  exists i, sign_maintenance_intent device certificate payload = Ok i /\
    verify_maintenance_intent (JObj i) root_text "wrk_1" "brk_1" "worker_update" spec 2500 = true.
Proof.
  destruct (intent_roundtrip root device (be_bytes 32 7) "s1" 1000 9000 certificate "wrk_1" "brk_1"
    "worker_update" spec "dev_1" 2000 3000 "0123456789abcdef" payload) as (i & Hi & Hv);
    [vm_compute; reflexivity..|].
  exists i. split; [exact Hi|]. apply (Hv 2500); lia.
Defined.

Lemma intent_binding_witness :
  exists members p, JObj intent = JObj members /\ jget "payload" members = Some (JObj p) /\
                    jget "worker_id" p = Some (JStr "wrk_1").
Proof.
  destruct (intent_binding (JObj intent) root_text "wrk_1" "brk_1" "worker_update" spec 2500)
    as (m & p & c & i & e & d & r & k & s & t & ct & H1 & H2 & H3 & _); [vm_compute; reflexivity|].
  exists m, p. exact (conj H1 (conj H2 H3)).
Defined.
End Toy.
