(* ===== verification/Grants.v ===== *)
(** * Grants to workers ([src/vgen/gateway/repository.py])

    The two ways a worker becomes eligible: a workspace admin approves its
    allocation to a pool with a signed proof, and its owner's maintenance jobs
    authorize workflows and models on it.  Deactivation revokes such
    authorizations. *)

From S2P Require Import Prelude Python Errors Metadata Schema Store Capability Access Scheduler Fleet.
From S2P Require Import Bytes Encoding Signing.

Open Scope Z_scope.

Definition WORKER_ALLOCATION_NOT_FOUND : Z := ErrorCode.to_int ErrorCode.WORKER_ALLOCATION_NOT_FOUND.

Definition job_kind_str (k : job_kind) : string :=
  match k with
  | KWorkerUpdate => "worker_update"
  | KModelInstall => "model_install"
  | KCapabilityInstall => "capability_install"
  | KNodePackInstall => "node_pack_install"
  end.

Definition grants_capabilities (k : job_kind) : bool :=
  match k with KCapabilityInstall | KModelInstall => true | _ => false end.

Section Grants.
Context {E : Env}.

(** ** Allocation approval *)

(** The statement the admin must have signed for this allocation. *)
Definition expected_allocation_proof (allocation : allocation_row) (worker : worker_row)
    (root_key : bytes) (proof : dict) : res dict :=
  p ← jitem "payload" proof;
  payload ← (match p with JObj d => Ok d | _ => Raise TypeError end : res dict);
  consent ← (match al_owner_consent_at allocation with Some c => Ok c | None => Raise TypeError end
             : res Z);
  root_id ← root_signing_key_id root_key;
  i ← jitem "issued_at" payload;
  issued_at ← json_int i;
  certificate ← (match w_certificate worker with
                 | Some text => Ok (json_loads text)
                 | None => Raise TypeError
                 end : res jtext);
  build_allocation_proof_payload (al_id allocation) (al_workspace_id allocation)
    (al_pool_id allocation) (al_worker_id allocation) (w_signing_public_key worker)
    (w_encryption_public_key worker) certificate consent root_id issued_at.

(** The [try] of [approve_allocation]. *)
Definition allocation_proof_valid (allocation : allocation_row) (worker : worker_row)
    (root_signing_public_key : string) (proof : dict) (current : Z) : res bool :=
  let r := root_key ← b64url_decode root_signing_public_key (Some 32);
           expected ← expected_allocation_proof allocation worker root_key proof;
           verify_allocation_proof proof root_key expected current 300 in
  match r with
  | Raise KeyError | Raise TypeError | Raise ValueError => Ok false
  | r => r
  end.

(** The verifier reads the clock in whole seconds. *)
Definition approve_allocation (allocation_id admin_user_id : string) (proof : dict)
    : M (option allocation_row) :=
  row ← query (fun d => a ← find_by al_id allocation_id (worker_allocations d);
                        w ← find_by w_id (al_worker_id a) (workers d); Some (a, w));
  row ← require row (repo_err WORKER_ALLOCATION_NOT_FOUND "WORKER_ALLOCATION_NOT_FOUND"
                       "Worker allocation not found." 404);
  let '(allocation, worker) := row in
  _ ← require_admin (al_workspace_id allocation) (Some admin_user_id);
  admin ← require_user (Some admin_user_id);
  current ← now;
  valid ← lift_res (allocation_proof_valid allocation worker (u_root_signing_public_key admin) proof
                      (current / 1000000));
  _ ← check valid (repo_err 230004 "ALLOCATION_PROOF_INVALID"
                     "The Workspace allocation proof is invalid." 422);
  stamp ← now;
  _ ← sql_update worker_allocations (fun a => al_id a =d allocation_id)
        (fun a => a <| al_workspace_approved_at := Some stamp |>
                    <| al_approved_by_user_id := Some admin_user_id |>
                    <| al_allocation_proof := Some (JDoc (JObj proof)) |>
                    <| al_status := AlActive |> <| al_updated_at := stamp |>);
  query (fun d => find_by al_id allocation_id (worker_allocations d)).

(** ** Authorizations recorded by maintenance jobs *)

(** Strings of a list, when it holds nothing else. *)
Definition json_texts (l : list json) : option (list string) :=
  List.fold_right (fun v acc => match v, acc with
                                | JStr s, Some t => Some (s :: t)
                                | _, _ => None
                                end) (Some []) l.

Definition str_leb (a b : string) : bool := negb (str_ltb b a).

(** [sorted(set(xs))]. *)
Definition sorted_set (l : list string) : list string := order_by str_leb (remove_dups l).

Definition _bound_capability_identifiers (spec : dict)
    : option (string * string * list string * list string) :=
  match jget "workflow_ref" spec, jget "workflow_digest" spec,
        jget_or "model_digests" (JList []) spec, jget_or "node_classes" (JList []) spec with
  | Some (JStr workflow_ref), Some (JStr workflow_digest), JList models, JList nodes =>
      if negb (_WORKFLOW_REF workflow_ref && _DIGEST workflow_digest) then None
      else
        match json_texts models, json_texts nodes with
        | Some models, Some nodes =>
            if (Z.of_nat (length models) <=? 128) && forallb _DIGEST models && str_distinct models &&
               (Z.of_nat (length nodes) <=? 512) && forallb _NODE_CLASS nodes &&
               (nodes =d sorted_set nodes) &&
               (negb (jmem "node_classes" spec) ||
                json_eqb (JStr (sha256_json (JList (map JStr nodes))))
                         (jget_or "node_classes_digest" JNull spec))
            then Some (workflow_ref, workflow_digest, order_by str_leb models, nodes)
            else None
        | _, _ => None
        end
  | _, _, _, _ => None
  end.

(** [INSERT OR IGNORE]: a row with the same key stays; a missing worker fails. *)
Definition insert_or_ignore {R K} `{EqDecision K} (table : db -> list R) `{!Setter table} (key : R -> K)
    (ok : db -> R -> bool) (r : R) : M unit :=
  existing ← query (fun d => has_key key (table d) (key r));
  if existing : bool then mret tt else sql_insert table ok r.

Definition _record_maintenance_authorizations (row : job_row) (spec : dict) (authorized_at : Z)
    : M unit :=
  match _bound_capability_identifiers spec with
  | None => mret tt
  | Some (workflow_ref, workflow_digest, models, nodes) =>
      _ ← (if mj_kind row =d KCapabilityInstall then
             insert_or_ignore worker_workflow_authorizations workflow_auth_key workflow_auths_ok
               (Mk_workflow_auth_row (mj_worker_id row) (mj_id row) workflow_ref workflow_digest
                  (mj_spec_digest row) (JDoc (JList (map JStr nodes))) authorized_at None)
           else mret tt : M unit);
      for_each models (fun digest =>
        insert_or_ignore worker_model_authorizations model_auth_key model_auths_ok
          (Mk_model_auth_row (mj_worker_id row) (mj_id row) workflow_ref workflow_digest digest
             (mj_spec_digest row) authorized_at None))
  end.

(** The signed intent of a job is valid at the time it was issued. *)
Definition _maintenance_intent_is_historically_valid (d : db) (row : job_row) (spec : dict) : bool :=
  match head (select (fun u => (u_id u =d mj_issued_by_user_id row) && (u_status u =d UActive))
                     (users d)), mj_authorization row with
  | Some owner, JDoc (JObj authorization) =>
      match jget "payload" authorization with
      | Some (JObj payload) =>
          match jget "issued_at" payload with
          | Some (JInt issued_at) =>
              verify_maintenance_intent (JObj authorization) (u_root_signing_public_key owner)
                (mj_worker_id row) (mj_broker_id row) (job_kind_str (mj_kind row)) spec issued_at
          | _ => false
          end
      | _ => false
      end
  | _, _ => false
  end.

(** Python set equality of two lists of hashable items. *)
Definition json_subset (a b : list json) : bool :=
  forallb (fun x => existsb (fun y => json_eqb x y) b) a.
Definition json_hashable (v : json) : bool := match v with JList _ | JObj _ => false | _ => true end.

(** [v in {..}]: an unhashable value raises. *)
Definition in_texts (v : json) (l : list string) : res bool :=
  if json_hashable v then Ok (match v with JStr s => s ∈? l | _ => false end) else Raise TypeError.

Definition is_none (v : option json) : bool :=
  match v with None | Some JNull => true | _ => false end.

(** Short-circuit conjunction of conditions that may raise. *)
Definition res_and (a : bool) (b : res bool) : res bool := if a then b else Ok false.

Definition _successful_maintenance_result_matches (kind : job_kind) (spec result : dict) : res bool :=
  let same k := json_opt_eqb (jget k result) (jget k spec) in
  let status := jget_or "status" JNull result in
  match kind with
  | KCapabilityInstall =>
      res_and (json_is (jget_or "kind" JNull result) "capability_install") (
        known ← in_texts status ["activated"; "already_active"; "repaired"];
        Ok (known && same "workflow_ref" && same "workflow_digest" && same "artifact_sha256" &&
            match jget "ready" result with Some (JBool _) => true | _ => false end &&
            is_none (jget "error_code" result)))
  | KModelInstall =>
      match jget_or "model_digests" JNull spec, jget_or "installed_model_digests" JNull result with
      | JList requested, JList installed =>
          res_and (json_is (jget_or "kind" JNull result) "model_install") (
            known ← in_texts status ["installed"; "already_installed"];
            res_and known (
              if forallb json_hashable installed && forallb json_hashable requested then
                Ok (json_subset installed requested && json_subset requested installed &&
                    is_none (jget "failed_model_digest" result))
              else Raise TypeError))
      | _, _ => Ok false
      end
  | _ => Ok false
  end.

(** [_rebuild_maintenance_authorizations]: the grants of every succeeded job whose
    intent still verifies. *)
Definition rebuild_job (row : job_row) : M unit :=
  match mj_spec row, match mj_result row with Some t => json_loads_or (JObj []) t | None => Some (JObj []) end with
  | JDoc (JObj spec), Some (JObj result) =>
      matches ← lift_res (_successful_maintenance_result_matches (mj_kind row) spec result);
      valid ← query (fun d => matches && _maintenance_intent_is_historically_valid d row spec);
      let at_time := match mj_completed_at row with
                     | Some t => if t =? 0 then mj_updated_at row else t
                     | None => mj_updated_at row
                     end in
      if valid : bool then
        _ ← _record_maintenance_authorizations row spec at_time;
        if mj_kind row =d KCapabilityInstall then
          _ ← sql_update workers (fun w => w_id w =d mj_worker_id row)
                (fun w => w <| w_capability_auth_enforced_at :=
                               match w_capability_auth_enforced_at w with
                               | Some t => Some t
                               | None => Some at_time
                               end |>);
          mret tt
        else mret tt
      else mret tt
  | _, _ => mret tt
  end.

Definition _rebuild_maintenance_authorizations : M unit :=
  rows ← query (fun d => select (fun j => (mj_state j =d MSucceeded) && grants_capabilities (mj_kind j))
                                (worker_maintenance_jobs d));
  for_each rows rebuild_job.

(** ** Deactivation *)

Record deactivation := MkDeactivation {
  dv_still_authorized : bool;
  dv_workflow_grants_revoked : Z;
  dv_model_grants_revoked : Z;
  dv_cancelled_jobs : list string
}.

(** The release named by a stored specification. *)
Definition spec_names (spec : jtext) (workflow_ref workflow_digest : string) : bool :=
  match spec with
  | JDoc (JObj spec) => json_is (jget_or "workflow_ref" JNull spec) workflow_ref &&
                        json_is (jget_or "workflow_digest" JNull spec) workflow_digest
  | _ => false
  end.

(** The source belongs to the release. *)
Definition source_matches (d : db) (worker_id source workflow_ref workflow_digest : string) : bool :=
  existsb (fun r => (wa_worker_id r =d worker_id) && (wa_authorization_source_id r =d source) &&
                    (wa_workflow_ref r =d workflow_ref) && (wa_workflow_digest r =d workflow_digest))
          (worker_workflow_authorizations d) ||
  existsb (fun r => (ma_worker_id r =d worker_id) && (ma_authorization_source_id r =d source) &&
                    (ma_workflow_ref r =d workflow_ref) && (ma_workflow_digest r =d workflow_digest))
          (worker_model_authorizations d) ||
  match head (select (fun j => (mj_id j =d source) && (mj_worker_id j =d worker_id) &&
                               grants_capabilities (mj_kind j)) (worker_maintenance_jobs d)) with
  | Some j => spec_names (mj_spec j) workflow_ref workflow_digest
  | None => false
  end.

(** Active installation jobs of the release (and of the source, if one is given). *)
Definition jobs_of_release (d : db) (worker_id : string) (source : option string)
    (workflow_ref workflow_digest : string) : list string :=
  map mj_id (select (fun j => (mj_worker_id j =d worker_id) && grants_capabilities (mj_kind j) &&
                              job_active (mj_state j) &&
                              match source with Some s => mj_id j =d s | None => true end &&
                              spec_names (mj_spec j) workflow_ref workflow_digest)
               (worker_maintenance_jobs d)).

Definition deactivate_worker_workflow (worker_id owner_user_id actor_device_id workflow_ref
    workflow_digest : string) (source : option string) : M deactivation :=
  stamp ← now;
  transaction (
    worker ← query (fun d => head (select (fun w => (w_id w =d worker_id) &&
      (w_owner_user_id w =d owner_user_id) && negb (w_status w =d WRevoked)) (workers d)));
    _ ← require worker (repo_err FORBIDDEN "WORKER_ACCESS_DENIED" "Worker access denied." 403);
    matches ← query (fun d => match source with
                              | Some s => source_matches d worker_id s workflow_ref workflow_digest
                              | None => true
                              end);
    _ ← check matches
          (repo_err WORKER_MAINTENANCE_STATE_CONFLICT "WORKFLOW_AUTHORIZATION_SOURCE_MISMATCH"
             "The authorization source does not belong to this workflow release." 409);
    bundled ← query (fun d => existsb (fun r => (wa_worker_id r =d worker_id) &&
      (wa_workflow_ref r =d workflow_ref) && (wa_workflow_digest r =d workflow_digest) &&
      is_bootstrap_source (wa_authorization_source_id r) && (wa_revoked_at r =d None))
      (worker_workflow_authorizations d));
    _ ← check (is_some source || negb bundled)
          (repo_err WORKER_MAINTENANCE_STATE_CONFLICT "BUNDLED_WORKFLOW_DEACTIVATE_UNSUPPORTED"
             "Bundled bootstrap workflows are managed by the Worker release." 409);
    let of_source s := negb (is_bootstrap_source s) &&
                       match source with Some x => s =d x | None => true end in
    workflows ← sql_update worker_workflow_authorizations
          (fun r => (wa_worker_id r =d worker_id) && (wa_workflow_ref r =d workflow_ref) &&
                    (wa_workflow_digest r =d workflow_digest) && (wa_revoked_at r =d None) &&
                    of_source (wa_authorization_source_id r))
          (fun r => r <| wa_revoked_at := Some stamp |>);
    models ← sql_update worker_model_authorizations
          (fun r => (ma_worker_id r =d worker_id) && (ma_workflow_ref r =d workflow_ref) &&
                    (ma_workflow_digest r =d workflow_digest) && (ma_revoked_at r =d None) &&
                    of_source (ma_authorization_source_id r))
          (fun r => r <| ma_revoked_at := Some stamp |>);
    still_authorized ← query (fun d => existsb (fun r => (wa_worker_id r =d worker_id) &&
      (wa_workflow_ref r =d workflow_ref) && (wa_workflow_digest r =d workflow_digest) &&
      (wa_revoked_at r =d None)) (worker_workflow_authorizations d));
    cancelled_jobs ← query (fun d => jobs_of_release d worker_id source workflow_ref workflow_digest);
    _ ← for_each cancelled_jobs (fun job_id =>
          _ ← sql_update worker_maintenance_jobs (fun j => mj_id j =d job_id)
                (fun j => j <| mj_state := MCancelled |> <| mj_completed_at := Some stamp |>
                            <| mj_updated_at := stamp |> <| mj_lease_session_id := None |>
                            <| mj_lease_expires_at := None |>
                            <| mj_fencing_token := mj_fencing_token j + 1 |>);
          _ ← sql_update maintenance_artifacts
                (fun f => (mf_job_id f =d job_id) &&
                          ((mf_state f =d ArPending) || (mf_state f =d ArUploaded)))
                (fun f => f <| mf_state := ArDeleted |> <| mf_updated_at := stamp |>);
          mret tt);
    _ ← audit "device" actor_device_id None "worker.workflow_deactivated" "worker" worker_id
          [("workflow_ref", JStr workflow_ref); ("workflow_digest", JStr workflow_digest);
           ("authorization_source_id", json_opt_str source);
           ("cancelled_jobs", JInt (Z.of_nat (length cancelled_jobs)))] stamp;
    mret (MkDeactivation still_authorized workflows models cancelled_jobs)).

End Grants.
