(* ===== verification/Maintenance.v ===== *)
(** * Worker maintenance jobs ([src/vgen/gateway/repository.py])

    The life cycle of a maintenance job: created from a signed intent, committed
    when its artifact is uploaded, claimed by the worker under a session and a
    fencing token, kept alive, completed or cancelled.  Each operation is the
    whole repository method. *)

From S2P Require Import Prelude Python Errors Metadata Schema Store Capability Access Scheduler Fleet.
From S2P Require Import Bytes Encoding Signing Grants.

Open Scope Z_scope.

Definition _MAINTENANCE_KINDS : list string :=
  ["worker_update"; "model_install"; "capability_install"; "node_pack_install"].

Definition job_kind_of (s : string) : option job_kind :=
  List.find (fun k => String.eqb (job_kind_str k) s)
    [KWorkerUpdate; KModelInstall; KCapabilityInstall; KNodePackInstall].

Definition _ARTIFACT_MAINTENANCE_KINDS (k : job_kind) : bool :=
  match k with KModelInstall => false | _ => true end.

Definition _MAINTENANCE_LEASE_STATES : job_state -> bool := job_leased.

(** Constraints of the maintenance tables. *)
Definition jobs_ok (d : db) (r : job_row) : bool :=
  negb (has_key mj_id (worker_maintenance_jobs d) (mj_id r)) &&
  has_key w_id (workers d) (mj_worker_id r) && has_key br_id (brokers d) (mj_broker_id r) &&
  has_key u_id (users d) (mj_issued_by_user_id r) &&
  has_key dv_id (devices d) (mj_issued_by_device_id r) &&
  negb (job_active (mj_state r) &&
        existsb (fun j => (mj_worker_id j =d mj_worker_id r) && (mj_dedupe_key j =d mj_dedupe_key r) &&
                          job_active (mj_state j)) (worker_maintenance_jobs d)).

Definition job_artifacts_ok (d : db) (r : job_artifact_row) : bool :=
  negb (has_key mf_id (maintenance_artifacts d) (mf_id r)) &&
  negb (has_key mf_job_id (maintenance_artifacts d) (mf_job_id r)) &&
  has_key mj_id (worker_maintenance_jobs d) (mf_job_id r) &&
  _ARTIFACT_MAINTENANCE_KINDS (mf_kind r) && (0 <? mf_expected_size r).

Definition receipts_ok (d : db) (r : receipt_row) : bool :=
  negb (has_key (fun x => (mr_device_id x, mr_nonce x)) (maintenance_intent_receipts d)
          (mr_device_id r, mr_nonce r)) &&
  has_key dv_id (devices d) (mr_device_id r) &&
  has_key mj_id (worker_maintenance_jobs d) (mr_job_id r).

Definition nonce_key (r : nonce_row) : string * (string * string) :=
  (rn_principal_type r, (rn_principal_id r, rn_nonce r)).

(** What callers see of a job: its row without the deduplication key and the
    session, its JSON columns decoded, and its artifact. *)
Record job_view := MkJobView {
  jv_job : job_row;
  jv_spec : json;
  jv_authorization : option json;
  jv_progress : json;
  jv_result : option json;
  jv_artifact : option job_artifact_row
}.

Definition load_json (t : jtext) : res json :=
  match t with JDoc v => Ok v | JBad _ => Raise JSONDecodeError end.

Section Maintenance.
Context {E : Env}.

Definition _maintenance_job_value (row : job_row) (include_authorization : bool) : res job_view :=
  spec ← load_json (mj_spec row);
  authorization ← load_json (mj_authorization row);
  progress ← load_json (mj_progress row);
  result ← (match mj_result row with
            | Some t => r ← load_json t; Ok (Some r)
            | None => Ok None
            end : res (option json));
  Ok (MkJobView (row <| mj_dedupe_key := EmptyString |> <| mj_lease_session_id := None |>) spec
        (if include_authorization then Some authorization else None) progress result None).

Definition artifact_of (d : db) (job_id : string) : option job_artifact_row :=
  find_by mf_job_id job_id (maintenance_artifacts d).

Definition _maintenance_job_with_artifact (row : job_row) (include_authorization : bool)
    : M job_view :=
  value ← lift_res (_maintenance_job_value row include_authorization);
  artifact ← query (fun d => artifact_of d (mj_id row));
  mret (MkJobView (jv_job value) (jv_spec value) (jv_authorization value) (jv_progress value)
          (jv_result value) artifact).

(** The view and whether the intent created the job or joined it. *)
Definition _maintenance_create_result (row : job_row) (authorization : dict) : M (job_view * bool) :=
  value ← _maintenance_job_with_artifact row false;
  mret (value, match mj_authorization row with
               | JDoc v => json_text_eqb v (JObj authorization)
               | JBad _ => false
               end).

(** An active device of an active broker of the user. *)
Definition broker_device_active (d : db) (broker_id user_id device_id : string) : bool :=
  existsb (fun b => (br_id b =d broker_id) && (br_owner_user_id b =d user_id) &&
                    (br_status b =d SActive)) (brokers d) &&
  existsb (fun bd => (bd_broker_id bd =d broker_id) && (bd_device_id bd =d device_id) &&
                     (bd_status bd =d SActive)) (broker_devices d) &&
  existsb (fun v => (dv_id v =d device_id) && (dv_user_id v =d user_id) && (dv_status v =d SActive))
          (devices d).

Definition broker_access_denied : exc :=
  repo_err FORBIDDEN "BROKER_DEVICE_ACCESS_DENIED"
    "The authenticated Device is not an active Device of this Broker." 403.

Definition _require_exact_broker_device (broker_id user_id device_id : string) : M unit :=
  ok ← query (fun d => broker_device_active d broker_id user_id device_id);
  check ok broker_access_denied.

(** A worker of the user that the broker manages. *)
Definition managed_worker (d : db) (worker_id user_id broker_id : string) : bool :=
  existsb (fun w => (w_id w =d worker_id) && (w_owner_user_id w =d user_id) &&
                    (w_manager_broker_id w =d Some broker_id) && negb (w_status w =d WRevoked))
          (workers d).

(** ** Creation *)

Record maintenance_request := MkMaintenance {
  mq_broker_id : string;
  mq_worker_id : string;
  mq_user_id : string;
  mq_device_id : string;
  mq_kind : string;
  mq_spec : dict;
  mq_spec_digest : string;
  mq_authorization : dict;
  mq_expires_at : Z;
  mq_intent_nonce : string;
  mq_intent_issued_at : Z;
  mq_artifact_store_type : string
}.

(** The authorization repeats every parameter of the request. *)
Definition authorization_matches (q : maintenance_request) : bool :=
  match jget "payload" (mq_authorization q) with
  | Some (JObj p) =>
      let same k v := json_eqb (jget_or k JNull p) v in
      same "worker_id" (JStr (mq_worker_id q)) && same "broker_id" (JStr (mq_broker_id q)) &&
      same "device_id" (JStr (mq_device_id q)) && same "action" (JStr (mq_kind q)) &&
      same "spec_digest" (JStr (mq_spec_digest q)) && same "nonce" (JStr (mq_intent_nonce q)) &&
      same "issued_at" (JInt (mq_intent_issued_at q)) && same "expires_at" (JInt (mq_expires_at q))
  | _ => false
  end.

(** Jobs that mint grants are scoped to their intent; updates share one job. *)
Definition job_dedupe_key (q : maintenance_request) (kind : job_kind) : string :=
  if kind =d KWorkerUpdate then mq_spec_digest q
  else "sha256:" +:+ sha256_json
         (JObj [("device_id", JStr (mq_device_id q)); ("intent_nonce", JStr (mq_intent_nonce q));
                ("spec_digest", JStr (mq_spec_digest q))]).

Definition insert_receipt (q : maintenance_request) (digest job_id : string) (stamp : Z) : M unit :=
  sql_insert maintenance_intent_receipts receipts_ok
    (Mk_receipt_row (mq_device_id q) (mq_intent_nonce q) digest job_id
       (seconds (mq_expires_at q)) stamp).

(** The same job, created from the same signed intent. *)
Definition exact_job (d : db) (q : maintenance_request) : option job_row :=
  head (order_by (fun x y => (mj_created_at x <? mj_created_at y) ||
                             ((mj_created_at x =? mj_created_at y) && str_leb (mj_id x) (mj_id y)))
    (select (fun j => (mj_worker_id j =d mq_worker_id q) && (mj_broker_id j =d mq_broker_id q) &&
       (mj_issued_by_user_id j =d mq_user_id q) && (mj_issued_by_device_id j =d mq_device_id q) &&
       String.eqb (job_kind_str (mj_kind j)) (mq_kind q) && (mj_spec_digest j =d mq_spec_digest q) &&
       match mj_spec j with JDoc v => json_text_eqb v (JObj (mq_spec q)) | JBad _ => false end &&
       match mj_authorization j with
       | JDoc v => json_text_eqb v (JObj (mq_authorization q))
       | JBad _ => false
       end) (worker_maintenance_jobs d))).

(** Insert the job, its artifact, the audit event and the receipt. *)
Definition insert_job (q : maintenance_request) (kind : job_kind) (digest : string) (stamp : Z)
    : M job_row :=
  job_id ← new_id "mtj";
  let state := if _ARTIFACT_MAINTENANCE_KINDS kind then MAwaitingUpload else MQueued in
  _ ← sql_insert worker_maintenance_jobs jobs_ok
        (Mk_job_row job_id (mq_worker_id q) (mq_broker_id q) (mq_user_id q) (mq_device_id q) kind
           (JDoc (JObj (mq_spec q))) (mq_spec_digest q) (JDoc (JObj (mq_authorization q)))
           (job_dedupe_key q kind) state (JDoc (JObj [])) None 0 None None None
           (seconds (mq_expires_at q)) stamp stamp None);
  artifact_id ← (if _ARTIFACT_MAINTENANCE_KINDS kind then
                   artifact_id ← new_id "art";
                   size ← lift_res (v ← jitem "artifact_size" (mq_spec q); json_int v);
                   sha ← lift_res (v ← jitem "artifact_sha256" (mq_spec q); Ok (py_str v));
                   _ ← sql_insert maintenance_artifacts job_artifacts_ok
                         (Mk_job_artifact_row artifact_id job_id kind (mq_artifact_store_type q)
                            artifact_id size sha None None ArPending stamp stamp);
                   mret (Some artifact_id)
                 else mret None : M (option string));
  _ ← audit "device" (mq_device_id q) None "worker.maintenance_created" "worker_maintenance_job" job_id
        [("worker_id", JStr (mq_worker_id q)); ("broker_id", JStr (mq_broker_id q));
         ("kind", JStr (mq_kind q)); ("spec_digest", JStr (mq_spec_digest q));
         ("artifact_id", json_opt_str artifact_id)] stamp;
  created ← query (fun d => find_by mj_id job_id (worker_maintenance_jobs d));
  _ ← insert_receipt q digest job_id stamp;
  require created TypeError.

(** The job an accepted intent leads to: replayed, joined or new. *)
Definition job_of_intent (q : maintenance_request) (kind : job_kind) (digest : string) (stamp : Z)
    : M job_row :=
  receipt ← query (fun d => head (select (fun r => (mr_device_id r =d mq_device_id q) &&
                                                   (mr_nonce r =d mq_intent_nonce q))
                                         (maintenance_intent_receipts d)));
  match receipt with
  | Some r =>
      _ ← check (String.eqb (mr_authorization_digest r) digest)
            (repo_err (ErrorCode.to_int ErrorCode.REPLAY_DETECTED) "REPLAY_DETECTED"
               "Maintenance authorization nonce was reused." 409);
      replayed ← query (fun d => find_by mj_id (mr_job_id r) (worker_maintenance_jobs d));
      require replayed
        (repo_err_full (ErrorCode.to_int ErrorCode.INTERNAL_ERROR) "INTERNAL_ERROR"
           "Stored maintenance authorization receipt is invalid." 500 "later" "platform" None)
  | None =>
      exact ← query (fun d => exact_job d q);
      match exact with
      | Some j => _ ← insert_receipt q digest (mj_id j) stamp; mret j
      | None =>
          _ ← sql_delete request_nonces (fun r => rn_expires_at r <=? stamp);
          let nonce := Mk_nonce_row "maintenance_intent" (mq_device_id q) (mq_intent_nonce q)
                         (mq_intent_issued_at q) (seconds (mq_expires_at q)) stamp in
          used ← query (fun d => has_key nonce_key (request_nonces d) (nonce_key nonce));
          _ ← check (negb used)
                (repo_err (ErrorCode.to_int ErrorCode.REPLAY_DETECTED) "REPLAY_DETECTED"
                   "Maintenance authorization was already used." 409);
          _ ← sql_insert request_nonces (fun _ _ => true) nonce;
          existing ← query (fun d => head (select (fun j => (mj_worker_id j =d mq_worker_id q) &&
             (mj_dedupe_key j =d job_dedupe_key q kind) && job_active (mj_state j))
             (worker_maintenance_jobs d)));
          match existing with
          | Some j => _ ← insert_receipt q digest (mj_id j) stamp; mret j
          | None => insert_job q kind digest stamp
          end
      end
  end.

Definition create_worker_maintenance (q : maintenance_request) : M (job_view * bool) :=
  kind ← require (job_kind_of (mq_kind q))
           (repo_err VALIDATION_FAILED "WORKER_MAINTENANCE_KIND_INVALID"
              "Worker maintenance kind is invalid." 422);
  _ ← check (authorization_matches q)
        (repo_err VALIDATION_FAILED "WORKER_MAINTENANCE_AUTHORIZATION_INVALID"
           "Worker maintenance authorization does not match the requested job." 422);
  stamp ← now;
  _ ← check (stamp <? seconds (mq_expires_at q))
        (repo_err VALIDATION_FAILED "WORKER_MAINTENANCE_AUTHORIZATION_EXPIRED"
           "Worker maintenance authorization has expired." 422);
  _ ← lift_res (canonical_json (JObj (mq_authorization q)));
  let digest := sha256_json (JObj (mq_authorization q)) in
  transaction (
    ok ← query (fun d => broker_device_active d (mq_broker_id q) (mq_user_id q) (mq_device_id q));
    _ ← check ok broker_access_denied;
    managed ← query (fun d => managed_worker d (mq_worker_id q) (mq_user_id q) (mq_broker_id q));
    _ ← check managed (repo_err FORBIDDEN "WORKER_MANAGER_BROKER_REQUIRED"
                         "This Broker is not the Worker's delegated manager." 403);
    _ ← _expire_maintenance_jobs stamp;
    job ← job_of_intent q kind digest stamp;
    _maintenance_create_result job (mq_authorization q)).

(** ** Commit, listing and cancellation *)

Definition job_not_found : exc :=
  repo_err WORKER_MAINTENANCE_JOB_NOT_FOUND "WORKER_MAINTENANCE_JOB_NOT_FOUND"
    "Worker maintenance job not found." 404.

Definition state_conflict (message : string) : exc :=
  repo_err WORKER_MAINTENANCE_STATE_CONFLICT "WORKER_MAINTENANCE_STATE_CONFLICT" message 409.

Definition job_by_id (d : db) (job_id : string) : option job_row :=
  find_by mj_id job_id (worker_maintenance_jobs d).

Definition _require_broker_maintenance_job (job_id user_id device_id : string) : M job_row :=
  job ← query (fun d => job_by_id d job_id);
  job ← require job job_not_found;
  _ ← _require_exact_broker_device (mj_broker_id job) user_id device_id;
  managed ← query (fun d => managed_worker d (mj_worker_id job) user_id (mj_broker_id job));
  _ ← check managed (repo_err FORBIDDEN "WORKER_MANAGER_BROKER_REQUIRED"
                       "This Broker is no longer the Worker's delegated manager." 403);
  mret job.

Definition maintenance_artifact_for_commit (job_id user_id device_id : string)
    : M job_artifact_row :=
  job ← _require_broker_maintenance_job job_id user_id device_id;
  artifact ← query (fun d => artifact_of d (mj_id job));
  require artifact (state_conflict "This maintenance job has no upload artifact.").

Definition commit_worker_maintenance (job_id user_id device_id : string) : M job_view :=
  _ ← _require_broker_maintenance_job job_id user_id device_id;
  stamp ← now;
  job ← transaction (
    _ ← _expire_maintenance_jobs stamp;
    job ← query (fun d => job_by_id d job_id);
    job ← require job TypeError;
    if mj_state job =d MQueued then _ ← lift_res (_maintenance_job_value job false); mret job
    else
      _ ← check (mj_state job =d MAwaitingUpload)
            (state_conflict "Worker maintenance cannot be committed from its current state.");
      artifact ← query (fun d => artifact_of d job_id);
      _ ← check (match artifact with Some f => mf_state f =d ArUploaded | None => false end)
            (repo_err VALIDATION_FAILED "MAINTENANCE_ARTIFACT_NOT_UPLOADED"
               "The Worker maintenance artifact has not been uploaded and verified." 409);
      _ ← sql_update worker_maintenance_jobs (fun j => mj_id j =d job_id)
            (fun j => j <| mj_state := MQueued |> <| mj_updated_at := stamp |>);
      _ ← audit "device" device_id None "worker.maintenance_committed" "worker_maintenance_job"
            job_id [] stamp;
      job ← query (fun d => job_by_id d job_id);
      require job TypeError);
  lift_res (_maintenance_job_value job false).

Definition list_worker_maintenance (worker_id owner_user_id : string) (limit : Z)
    : M (list job_view) :=
  owned ← query (fun d => existsb (fun w => (w_id w =d worker_id) &&
                                            (w_owner_user_id w =d owner_user_id)) (workers d));
  _ ← check owned (repo_err FORBIDDEN "WORKER_ACCESS_DENIED" "Worker access denied." 403);
  rows ← query (fun d => firstn (Z.to_nat (Z.min (Z.max limit 1) 500))
    (order_by (fun x y => mj_created_at y <=? mj_created_at x)
       (select (fun j => mj_worker_id j =d worker_id) (worker_maintenance_jobs d))));
  lift_res (res_map (fun row => _maintenance_job_value row false) rows).

(** The job, if the user owns its worker. *)
Definition owned_job (d : db) (job_id owner_user_id : string) : option job_row :=
  j ← job_by_id d job_id;
  w ← find_by w_id (mj_worker_id j) (workers d);
  if w_owner_user_id w =d owner_user_id then Some j else None.

Definition get_worker_maintenance (job_id owner_user_id : string) : M job_view :=
  row ← query (fun d => owned_job d job_id owner_user_id);
  row ← require row job_not_found;
  _maintenance_job_with_artifact row false.

Definition cancel_worker_maintenance (job_id owner_user_id actor_device_id : string) : M job_view :=
  stamp ← now;
  row ← transaction (
    row ← query (fun d => owned_job d job_id owner_user_id);
    row ← require row job_not_found;
    if mj_state row =d MCancelled then _ ← lift_res (_maintenance_job_value row false); mret row
    else
      _ ← check (negb (job_terminal (mj_state row)))
            (state_conflict "A completed maintenance job cannot be cancelled.");
      _ ← sql_update worker_maintenance_jobs (fun j => mj_id j =d job_id)
            (fun j => j <| mj_state := MCancelled |> <| mj_completed_at := Some stamp |>
                        <| mj_updated_at := stamp |> <| mj_lease_expires_at := None |>);
      _ ← audit "device" actor_device_id None "worker.maintenance_cancelled"
            "worker_maintenance_job" job_id [] stamp;
      row ← query (fun d => job_by_id d job_id);
      require row TypeError);
  lift_res (_maintenance_job_value row false).

(** ** The worker's side *)

(** The oldest leased job of the worker whose lease has not lapsed. *)
Definition leased_job (d : db) (worker_id : string) (stamp : Z) : option job_row :=
  head (order_by (fun x y => mj_created_at x <=? mj_created_at y)
    (select (fun j => (mj_worker_id j =d worker_id) && job_leased (mj_state j) &&
                      after (mj_lease_expires_at j) stamp) (worker_maintenance_jobs d))).

(** The oldest queued job of an allowed kind. *)
Definition claimable_job (d : db) (worker_id : string) (allowed : list string) (stamp : Z)
    : option job_row :=
  head (order_by (fun x y => mj_created_at x <=? mj_created_at y)
    (select (fun j => (mj_worker_id j =d worker_id) && (mj_state j =d MQueued) &&
                      (stamp <? mj_expires_at j) && (job_kind_str (mj_kind j) ∈? allowed))
            (worker_maintenance_jobs d))).

(** The transaction of [claim_worker_maintenance]. *)
Definition claim_transaction (worker_id session_id : string) (ttl_seconds : Z)
    (allowed : list string) (stamp : Z) : M (option job_view) :=
  _ ← _expire_reservations stamp;
  _ ← _expire_leases stamp;
  _ ← _expire_maintenance_jobs stamp;
  worker ← query (fun d => find_by w_id worker_id (workers d));
  worker ← require worker (repo_err WORKER_NOT_FOUND "WORKER_NOT_FOUND" "Worker not found." 404);
  _ ← check (negb (w_status worker =d WDraining))
        (repo_err WORKER_DRAINING "WORKER_DRAINING" "Worker is draining." 409);
  _ ← check (w_status worker =d WActive)
        (repo_err_full WORKER_OFFLINE "WORKER_OFFLINE" "Worker is not active." 409 "later" "none"
           None);
  existing ← query (fun d => leased_job d worker_id stamp);
  match existing with
  | Some job =>
      if negb (job_kind_str (mj_kind job) ∈? allowed) then mret None
      else if negb (mj_lease_session_id job =d Some session_id) then mret None
      else
        _ ← sql_update worker_maintenance_jobs (fun j => mj_id j =d mj_id job)
              (fun j => j <| mj_lease_expires_at :=
                             Some (Z.min (stamp + seconds ttl_seconds) (mj_expires_at job)) |>
                          <| mj_heartbeat_at := Some stamp |> <| mj_updated_at := stamp |>);
        renewed ← query (fun d => job_by_id d (mj_id job));
        renewed ← require renewed TypeError;
        view ← _maintenance_job_with_artifact renewed true;
        mret (Some view)
  | None =>
      busy ← query (fun d => existsb (fun a => (a_worker_id a =d worker_id) &&
                                               attempt_executing (a_state a)) (task_attempts d));
      if busy : bool then mret None
      else
        job ← query (fun d => claimable_job d worker_id allowed stamp);
        match job with
        | None => mret None
        | Some job =>
            _ ← sql_update worker_maintenance_jobs
                  (fun j => (mj_id j =d mj_id job) && (mj_state j =d MQueued))
                  (fun j => j <| mj_state := MLeased |>
                              <| mj_fencing_token := mj_fencing_token job + 1 |>
                              <| mj_lease_session_id := Some session_id |>
                              <| mj_lease_expires_at :=
                                 Some (Z.min (stamp + seconds ttl_seconds) (mj_expires_at job)) |>
                              <| mj_heartbeat_at := Some stamp |> <| mj_updated_at := stamp |>);
            claimed ← query (fun d => job_by_id d (mj_id job));
            claimed ← require claimed TypeError;
            view ← _maintenance_job_with_artifact claimed true;
            mret (Some view)
        end
  end.

Definition claim_worker_maintenance (worker_id session_id : string) (ttl_seconds : Z)
    (supported_actions : list string) : M (option job_view) :=
  let allowed := List.filter (fun action => action ∈? _MAINTENANCE_KINDS) supported_actions in
  _ ← check (match allowed with [] => false | _ => str_distinct allowed end)
        (repo_err VALIDATION_FAILED "WORKER_MAINTENANCE_ACTIONS_INVALID"
           "Worker maintenance actions are invalid." 422);
  stamp ← now;
  transaction (claim_transaction worker_id session_id ttl_seconds allowed stamp).

Definition active_worker_maintenance_lease (job_id worker_id session_id : string)
    (fencing_token : Z) : M (option job_view) :=
  stamp ← now;
  row ← query (fun d => head (select (fun j => (mj_id j =d job_id) && (mj_worker_id j =d worker_id) &&
      (mj_lease_session_id j =d Some session_id) && (mj_fencing_token j =? fencing_token) &&
      job_leased (mj_state j) && after (mj_lease_expires_at j) stamp) (worker_maintenance_jobs d)));
  match row with
  | None => mret None
  | Some row => view ← _maintenance_job_with_artifact row true; mret (Some view)
  end.

Definition maintenance_lease_lost : exc :=
  repo_err_full MAINTENANCE_LEASE_LOST "MAINTENANCE_LEASE_LOST"
    "Worker maintenance lease is no longer valid." 409 "later" "platform" None.

(** The job under the worker's fencing token. *)
Definition fenced_job (d : db) (job_id worker_id : string) (fencing_token : Z) : option job_row :=
  head (select (fun j => (mj_id j =d job_id) && (mj_worker_id j =d worker_id) &&
                         (mj_fencing_token j =? fencing_token)) (worker_maintenance_jobs d)).

(** Neither the lease nor the job has lapsed. *)
Definition lease_unexpired (j : job_row) (stamp : Z) : bool :=
  (stamp <? match mj_lease_expires_at j with Some t => t | None => 0 end) &&
  (stamp <? mj_expires_at j).

Record maintenance_beat := MkMaintenanceBeat {
  mb_cancelled : bool;
  mb_state : job_state;
  mb_lease_expires_at : option Z
}.

(** Who may extend the lease: its session, or a new session of a worker that
    restarts into an update. *)
Definition beat_valid (j : job_row) (session_id : string) (state : job_state)
    (adopt_restart_session : bool) (stamp : Z) : bool :=
  lease_unexpired j stamp &&
  (if adopt_restart_session then
     (mj_kind j =d KWorkerUpdate) && (mj_state j =d MRestarting) && (state =d MRestarting)
   else (mj_lease_session_id j =d Some session_id) && _MAINTENANCE_LEASE_STATES (mj_state j)).

Definition heartbeat_worker_maintenance (job_id worker_id session_id : string)
    (fencing_token ttl_seconds : Z) (state : job_state) (progress : option dict)
    (adopt_restart_session : bool) : M maintenance_beat :=
  stamp ← now;
  transaction (
    row ← query (fun d => fenced_job d job_id worker_id fencing_token);
    match row with
    | None => raise maintenance_lease_lost
    | Some row =>
        if mj_state row =d MCancelled then mret (MkMaintenanceBeat true MCancelled None)
        else
          worker ← query (fun d => find_by w_id worker_id (workers d));
          _ ← check (beat_valid row session_id state adopt_restart_session stamp &&
                     match worker with Some w => w_status w =d WActive | None => false end)
                maintenance_lease_lost;
          let lease_expires_at := Z.min (stamp + seconds ttl_seconds) (mj_expires_at row) in
          _ ← (if adopt_restart_session then
                 _ ← sql_update worker_maintenance_jobs (fun j => mj_id j =d job_id)
                       (fun j => j <| mj_lease_session_id := Some session_id |>);
                 mret tt
               else mret tt : M unit);
          _ ← sql_update worker_maintenance_jobs (fun j => mj_id j =d job_id)
                (fun j => j <| mj_state := state |>
                            <| mj_progress := JDoc (JObj (match progress with
                                                          | Some p => p
                                                          | None => []
                                                          end)) |>
                            <| mj_heartbeat_at := Some stamp |>
                            <| mj_lease_expires_at := Some lease_expires_at |>
                            <| mj_updated_at := stamp |>);
          refreshed ← sql_update workers
                (fun w => (w_id w =d worker_id) && (w_status w =d WActive))
                (fun w => w <| w_last_seen_at := Some stamp |> <| w_updated_at := stamp |>);
          _ ← check (refreshed =? 1) maintenance_lease_lost;
          mret (MkMaintenanceBeat false state (Some lease_expires_at))
    end).

(** ** Completion *)

(** [set(v)]: the elements of an iterable; unhashable ones raise. *)
Definition py_set (v : json) : res (list json) :=
  match v with
  | JList l => if forallb json_hashable l then Ok l else Raise TypeError
  | JObj d => Ok (map (fun kv => JStr (fst kv)) d)
  | JStr s => Ok (map (fun c => JStr (String c EmptyString)) (String.list_ascii_of_string s))
  | _ => Raise TypeError
  end.

(** [v in set]. *)
Definition in_set (v : json) (l : list json) : res bool :=
  if json_hashable v then Ok (existsb (json_eqb v) l) else Raise TypeError.

Definition as_dict (v : json) : res dict :=
  match v with JObj d => Ok d | _ => Raise AttributeError end.

(** The result agrees with the specification and with the claimed outcome. *)
Definition result_valid (kind : job_kind) (spec result : dict) (succeeded : bool) : res bool :=
  let same k := json_opt_eqb (jget k result) (jget k spec) in
  let status := jget_or "status" JNull result in
  let is_int v := match v with Some (JInt _) => true | _ => false end in
  match kind with
  | KWorkerUpdate =>
      Ok (same "target_version" && same "artifact_sha256" &&
          Bool.eqb succeeded (json_is status "activated"))
  | KCapabilityInstall =>
      success_status ← in_texts status ["activated"; "already_active"; "repaired"];
      Ok (same "workflow_ref" && same "workflow_digest" && same "artifact_sha256" &&
          Bool.eqb succeeded success_status &&
          ((success_status &&
            match jget "ready" result with Some (JBool _) => true | _ => false end &&
            is_none (jget "error_code" result)) ||
           (json_is status "failed" && is_none (jget "ready" result) &&
            is_int (jget "error_code" result))))
  | KNodePackInstall =>
      success_status ← in_texts status ["installed"; "already_installed"];
      Ok (same "node_pack_ref" && same "artifact_sha256" && Bool.eqb succeeded success_status &&
          ((success_status &&
            match jget "loaded" result with Some (JBool true) => true | _ => false end &&
            is_none (jget "error_code" result)) ||
           (json_is status "failed" && is_none (jget "loaded" result) &&
            is_int (jget "error_code" result))))
  | KModelInstall =>
      requested ← py_set (jget_or "model_digests" (JList []) spec);
      installed ← py_set (jget_or "installed_model_digests" (JList []) result);
      res_and (json_subset installed requested) (
        let failed := jget_or "failed_model_digest" JNull result in
        known ← (if is_none (Some failed) then Ok true else in_set failed requested : res bool);
        res_and known (
          success_status ← in_texts status ["installed"; "already_installed"];
          Ok (Bool.eqb succeeded success_status &&
              (negb succeeded || json_subset requested installed))))
  end.

(** The result has been stored already: replay it or refuse a different one. *)
Definition replay_completion (row : job_row) (succeeded : bool) (result : dict) : M job_row :=
  stored ← lift_res (match mj_result row with
                     | None => Ok (JObj [])
                     | Some t => match json_loads_or (JObj []) t with
                                 | Some v => Ok v
                                 | None => Raise JSONDecodeError
                                 end
                     end);
  if (mj_state row =d (if succeeded then MSucceeded else MFailed)) && json_eqb stored (JObj result)
  then _ ← lift_res (_maintenance_job_value row false); mret row
  else raise (state_conflict "Worker maintenance was already completed with a different result.").

(** Only the session that holds the lease completes the job; a new session may
    report that an update was rolled back. *)
Definition completion_allowed (row : job_row) (session_id : string) (succeeded : bool)
    (result : dict) (stamp : Z) : bool :=
  _MAINTENANCE_LEASE_STATES (mj_state row) && lease_unexpired row stamp &&
  ((mj_lease_session_id row =d Some session_id) ||
   ((mj_kind row =d KWorkerUpdate) && (mj_state row =d MRestarting) && negb succeeded &&
    json_is (jget_or "kind" JNull result) "worker_update" &&
    json_is (jget_or "status" JNull result) "rolled_back")).

(** Store the outcome, publish the artifact and record what the job grants. *)
Definition store_completion (row : job_row) (spec result : dict) (succeeded : bool)
    (worker_id : string) (stamp : Z) : M unit :=
  _ ← sql_update worker_maintenance_jobs (fun j => mj_id j =d mj_id row)
        (fun j => j <| mj_state := if succeeded then MSucceeded else MFailed |>
                    <| mj_result := Some (JDoc (JObj result)) |>
                    <| mj_completed_at := Some stamp |> <| mj_updated_at := stamp |>
                    <| mj_lease_expires_at := None |>);
  _ ← (if succeeded && _ARTIFACT_MAINTENANCE_KINDS (mj_kind row) then
         _ ← sql_update maintenance_artifacts
               (fun f => (mf_job_id f =d mj_id row) && (mf_state f =d ArUploaded))
               (fun f => f <| mf_state := ArAvailable |> <| mf_updated_at := stamp |>);
         mret tt
       else mret tt : M unit);
  _ ← (if succeeded && grants_capabilities (mj_kind row)
       then _record_maintenance_authorizations row spec stamp
       else mret tt : M unit);
  _ ← (if succeeded && (mj_kind row =d KCapabilityInstall) then
         _ ← sql_update workers (fun w => w_id w =d worker_id)
               (fun w => w <| w_capability_auth_enforced_at :=
                              match w_capability_auth_enforced_at w with
                              | Some t => Some t
                              | None => Some stamp
                              end |>);
         mret tt
       else mret tt : M unit);
  audit "worker" worker_id None "worker.maintenance_completed" "worker_maintenance_job" (mj_id row)
    [("kind", JStr (job_kind_str (mj_kind row))); ("status", jget_or "status" JNull result);
     ("succeeded", JBool succeeded)] stamp.

Definition result_invalid (message : string) : exc :=
  repo_err VALIDATION_FAILED "WORKER_MAINTENANCE_RESULT_INVALID" message 422.

Definition complete_worker_maintenance (job_id worker_id session_id : string) (fencing_token : Z)
    (succeeded : bool) (result : dict) : M job_view :=
  stamp ← now;
  row ← transaction (
    row ← query (fun d => fenced_job d job_id worker_id fencing_token);
    row ← require row maintenance_lease_lost;
    if (mj_state row =d MSucceeded) || (mj_state row =d MFailed)
    then replay_completion row succeeded result
    else
      _ ← check (completion_allowed row session_id succeeded result stamp) maintenance_lease_lost;
      spec ← lift_res (load_json (mj_spec row));
      _ ← check (json_is (jget_or "kind" JNull result) (job_kind_str (mj_kind row)))
            (result_invalid "Worker maintenance result kind does not match the job.");
      spec ← lift_res (as_dict spec);
      valid ← lift_res (result_valid (mj_kind row) spec result succeeded);
      authorized ← query (fun d =>
        if valid && succeeded && negb (mj_kind row =d KWorkerUpdate)
        then _maintenance_intent_is_historically_valid d row spec else valid);
      _ ← check authorized
            (result_invalid "Worker maintenance result does not match the authorized specification.");
      _ ← store_completion row spec result succeeded worker_id stamp;
      row ← query (fun d => job_by_id d job_id);
      require row TypeError);
  lift_res (_maintenance_job_value row false).

(** ** Uploads *)

(** The result stored for a job whose artifact did not verify. *)
Definition upload_failure (kind : job_kind) (spec : dict) : res dict :=
  let item k := v ← jitem k spec; Ok (k, v) in
  let code := ("error_code", JInt (ErrorCode.to_int ErrorCode.ARTIFACT_INTEGRITY_FAILED)) in
  let head k := [("kind", JStr k); ("status", JStr "failed")] in
  match kind with
  | KCapabilityInstall =>
      fields ← res_map item ["workflow_ref"; "workflow_digest"; "artifact_sha256"];
      Ok (head "capability_install" ++ fields ++ [code])
  | KNodePackInstall =>
      fields ← res_map item ["node_pack_ref"; "artifact_sha256"];
      Ok (head "node_pack_install" ++ fields ++ [code])
  | _ =>
      fields ← res_map item ["target_version"; "artifact_sha256"];
      Ok (head "worker_update" ++ fields ++ [code])
  end.

Definition open_artifact (s : artifact_state) : bool :=
  match s with ArPending | ArUploaded => true | _ => false end.

(** A task artifact, or the artifact of a maintenance job; a mismatch fails the
    job and is reported after the failure has been stored. *)
Definition mark_artifact_uploaded (artifact_id : string) (size : Z) (digest : option string)
    : M (artifact_view + job_artifact_row) :=
  stamp ← now;
  marked ← sql_update artifacts (fun r => (ar_id r =d artifact_id) && open_artifact (ar_state r))
             (fun r => r <| ar_state := ArUploaded |> <| ar_encrypted_size := Some size |>
                         <| ar_content_digest :=
                            match digest with Some s => Some ("sha256:" +:+ s) | None => None end |>
                         <| ar_updated_at := stamp |>);
  if marked =? 1 then
    row ← query (fun d => find_by ar_id artifact_id (artifacts d));
    row ← require row TypeError;
    view ← lift_res (_artifact_value row);
    mret (inl view)
  else
    row ← query (fun d => f ← find_by mf_id artifact_id (maintenance_artifacts d);
                          j ← job_by_id d (mf_job_id f); Some (f, j));
    let not_found := repo_err 330003 "ARTIFACT_NOT_FOUND" "Artifact not found." 404 in
    row ← require row not_found;
    let '(artifact, job) := row in
    _ ← check (open_artifact (mf_state artifact)) not_found;
    let digest_matches := match digest with
                          | Some s => String.eqb s (mf_expected_sha256 artifact)
                          | None => true
                          end in
    if (size =? mf_expected_size artifact) && digest_matches then
      stamp ← now;
      _ ← sql_update maintenance_artifacts
            (fun f => (mf_id f =d artifact_id) && open_artifact (mf_state f))
            (fun f => f <| mf_state := ArUploaded |> <| mf_observed_size := Some size |>
                        <| mf_observed_sha256 := digest |> <| mf_updated_at := stamp |>);
      row ← query (fun d => find_by mf_id artifact_id (maintenance_artifacts d));
      row ← require row TypeError;
      mret (inr row)
    else
      stamp ← now;
      spec ← lift_res (load_json (mj_spec job));
      spec ← lift_res (match spec with JObj d => Ok d | _ => Raise TypeError end : res dict);
      failure_result ← lift_res (upload_failure (mf_kind artifact) spec);
      _ ← transaction (
        _ ← sql_update maintenance_artifacts (fun f => mf_id f =d artifact_id)
              (fun f => f <| mf_state := ArFailed |> <| mf_observed_size := Some size |>
                          <| mf_observed_sha256 := digest |> <| mf_updated_at := stamp |>);
        _ ← sql_update worker_maintenance_jobs
              (fun j => (mj_id j =d mf_job_id artifact) && (mj_state j =d MAwaitingUpload))
              (fun j => j <| mj_state := MFailed |>
                          <| mj_result := Some (JDoc (JObj failure_result)) |>
                          <| mj_completed_at := Some stamp |> <| mj_updated_at := stamp |>);
        mret tt);
      raise (repo_err (ErrorCode.to_int ErrorCode.ARTIFACT_INTEGRITY_FAILED)
               "ARTIFACT_INTEGRITY_FAILED"
               "Worker maintenance artifact integrity verification failed." 422).

(** ** Revocation of the issuing device *)

Definition revoke_device (device_id user_id : string) : M Z :=
  device ← query (fun d => head (select (fun v => (dv_id v =d device_id) && (dv_user_id v =d user_id))
                                        (devices d)));
  _ ← require device (repo_err FORBIDDEN "DEVICE_ACCESS_DENIED" "Device access denied." 403);
  stamp ← now;
  transaction (
    _ ← sql_update devices (fun v => dv_id v =d device_id)
          (fun v => v <| dv_status := SRevoked |> <| dv_revoked_at := Some stamp |>);
    _ ← sql_update sessions
          (fun s => (ss_principal_type s =d PDevice) && (ss_principal_id s =d device_id) &&
                    (ss_revoked_at s =d None))
          (fun s => s <| ss_revoked_at := Some stamp |>);
    _ ← sql_update broker_devices (fun b => (bd_device_id b =d device_id) && (bd_status b =d SActive))
          (fun b => b <| bd_status := SRevoked |> <| bd_revoked_at := Some stamp |>);
    _ ← sql_update worker_maintenance_jobs
          (fun j => (mj_issued_by_device_id j =d device_id) && job_active (mj_state j))
          (fun j => j <| mj_state := MCancelled |> <| mj_completed_at := Some stamp |>
                      <| mj_updated_at := stamp |> <| mj_lease_session_id := None |>
                      <| mj_lease_expires_at := None |>
                      <| mj_fencing_token := mj_fencing_token j + 1 |>);
    mret stamp).

End Maintenance.
