(* ===== verification/Broker.v ===== *)
(** * Brokers and their command queue ([gateway/repository.py], "brokers")

    A broker is a user's own agent: a device that heartbeats, polls commands and
    completes them.  The gateway enqueues a [task_rekey] command when a task of the
    broker's owner needs a new worker; the queue of a device is what is pending, so a
    restarted broker sees every command it has not completed. *)

From S2P Require Import Prelude Python Errors Schema Store Framing Access Capability Scheduler Fleet Encoding.
From S2P Require Import Signing Grants Maintenance.

Open Scope Z_scope.

Definition BROKER_COMMAND_NOT_FOUND : Z := ErrorCode.to_int ErrorCode.BROKER_COMMAND_NOT_FOUND.

(** ** Constraints of the tables *)

Definition brokers_ok (d : db) (r : broker_row) : bool :=
  negb (has_key br_id (brokers d) (br_id r)) && has_key u_id (users d) (br_owner_user_id r).

Definition attachment (r : broker_device_row) : string * string := (bd_broker_id r, bd_device_id r).

Definition broker_devices_ok (d : db) (r : broker_device_row) : bool :=
  negb (has_key bd_id (broker_devices d) (bd_id r)) &&
  negb (has_key attachment (broker_devices d) (attachment r)) &&
  has_key br_id (brokers d) (bd_broker_id r) && has_key dv_id (devices d) (bd_device_id r) &&
  has_key u_id (users d) (bd_approved_by_user_id r).

Section Brokers.
Context {E : Env}.

(** ** Brokers and their devices *)

Definition create_broker (owner_user_id : option string) (name : string) : M broker_row :=
  owner ← require_user owner_user_id;
  broker_id ← new_id "brk";
  stamp ← now;
  _ ← sql_insert brokers brokers_ok (Mk_broker_row broker_id (u_id owner) name SActive stamp stamp);
  row ← query (fun d => find_by br_id broker_id (brokers d));
  require row TypeError.

Definition list_brokers (owner_user_id : option string)
    : M (list (broker_row * list (broker_device_row * string * option Z))) :=
  owner ← require_user owner_user_id;
  query (fun d => map (fun b => (b,
      List.flat_map (fun bd => map (fun v => (bd, dv_name v, dv_last_seen_at v))
                                 (select (fun v => dv_id v =d bd_device_id bd) (devices d)))
        (order_by (fun x y => bd_created_at x <=? bd_created_at y)
           (select (fun bd => bd_broker_id bd =d br_id b) (broker_devices d)))))
    (order_by (fun x y => br_created_at x <=? br_created_at y)
       (select (fun b => (br_owner_user_id b =d u_id owner) && (br_status b =d SActive)) (brokers d)))).

(** [try: INSERT except sqlite3.IntegrityError]: whether the row was stored. *)
Definition insert_attachment (r : broker_device_row) : M bool := fun w =>
  match sql_insert broker_devices broker_devices_ok r w with
  | (Raise IntegrityError, w') => (Ok false, w')
  | (Ok _, w') => (Ok true, w')
  | (Raise e, w') => (Raise e, w')
  end.

Definition attach_broker_device (broker_id device_id owner_user_id : string) : M broker_device_row :=
  broker ← query (fun d => head (select (fun b => (br_id b =d broker_id) && (br_owner_user_id b =d owner_user_id) &&
                                                  (br_status b =d SActive)) (brokers d)));
  device ← query (fun d => head (select (fun v => (dv_id v =d device_id) && (dv_user_id v =d owner_user_id) &&
                                                  (dv_status v =d SActive)) (devices d)));
  _ ← check (is_some broker && is_some device)
        (repo_err FORBIDDEN "BROKER_ACCESS_DENIED" "Broker or device access denied." 403);
  broker_device_id ← new_id "bdev";
  stamp ← now;
  inserted ← insert_attachment (Mk_broker_device_row broker_device_id broker_id device_id SActive owner_user_id
                                  None None None None None stamp None);
  row ← query (fun d => if inserted : bool then find_by bd_id broker_device_id (broker_devices d)
                        else find_by attachment (broker_id, device_id) (broker_devices d));
  require row TypeError.

(** The route: a broker may be created with its first device. *)
Definition create_broker_route (user_id : string) (name : string) (device_id : option string)
    : M (broker_row * option broker_device_row) :=
  broker ← create_broker (Some user_id) name;
  match truthy_id device_id with
  | None => mret (broker, None)
  | Some id => row ← attach_broker_device (br_id broker) id user_id; mret (broker, Some row)
  end.

(** [broker_devices JOIN brokers WHERE bd.id=? OR bd.device_id=?]. *)
Definition broker_device_named (d : db) (id : string) : option (broker_device_row * broker_row) :=
  head (List.flat_map (fun bd => map (fun b => (bd, b)) (select (fun b => br_id b =d bd_broker_id bd) (brokers d)))
          (select (fun bd => (bd_id bd =d id) || (bd_device_id bd =d id)) (broker_devices d))).

Definition broker_denied : exc :=
  repo_err FORBIDDEN "BROKER_DEVICE_ACCESS_DENIED" "Broker device access denied." 403.

Definition broker_device_heartbeat (broker_device_id user_id broker_id : string) (runtime_version : option string)
    (protocol_version : string) (build_commit : option string) (journal_pending : Z) : M Z :=
  stamp ← now;
  _ ← transaction (
    row ← query (fun d => broker_device_named d broker_device_id);
    row ← require row broker_denied;
    _ ← check ((br_owner_user_id (snd row) =d user_id) && (bd_status (fst row) =d SActive) &&
               (bd_broker_id (fst row) =d broker_id)) broker_denied;
    _ ← sql_update devices (fun v => dv_id v =d bd_device_id (fst row))
          (fun v => v <| dv_last_seen_at := Some stamp |>);
    _ ← sql_update broker_devices (fun bd => bd_id bd =d bd_id (fst row))
          (fun bd => bd <| bd_runtime_version := runtime_version |>
                        <| bd_protocol_version := Some protocol_version |>
                        <| bd_build_commit := build_commit |>
                        <| bd_journal_pending := Some journal_pending |>
                        <| bd_heartbeat_at := Some stamp |>);
    _ ← _expire_leases stamp;
    _ ← _ensure_rekey_commands stamp (Some (br_owner_user_id (snd row)));
    mret tt);
  mret stamp.

(** ** The command queue *)

Definition deliverable (d : db) (broker_device_id : string) (stamp : Z) : list broker_command_row :=
  take 100 (order_by (fun x y => bc_created_at x <=? bc_created_at y)
    (select (fun c => (bc_broker_device_id c =d broker_device_id) && (bc_state c =d CPending) &&
                      match bc_expires_at c with None => true | Some t => stamp <? t end)
       (broker_commands d))).

(** The parameter [after] is accepted and not used. *)
Definition broker_commands_for (broker_device_id user_id after : string) : M (list broker_command_row) :=
  row ← query (fun d => broker_device_named d broker_device_id);
  row ← require row broker_denied;
  _ ← check ((br_owner_user_id (snd row) =d user_id) && (bd_status (fst row) =d SActive)) broker_denied;
  stamp ← now;
  query (fun d => deliverable d (bd_id (fst row)) stamp).

(** [value in {..}]: a set lookup hashes the value. *)
Definition in_string_set (v : json) (l : list string) : res bool :=
  match v with
  | JList _ | JObj _ => Raise TypeError
  | _ => Ok (existsb (json_is v) l)
  end.

(** The value compared with a TEXT column as a bound parameter. *)
Definition bound_text (v : json) : res (option string) :=
  match v with
  | JNull => Ok None
  | JStr s => Ok (Some s)
  | JBool b => Ok (Some (if b then "1" else "0"))
  | JInt z => if (- 2 ^ 63 <=? z) && (z <? 2 ^ 63) then Ok (Some (pretty z)) else Raise OverflowError
  | JFloat _ => Ok (Some (py_repr v))
  | JList _ | JObj _ => Raise ProgrammingError
  end.

Definition rekey_result_fields : list string := ["status"; "task_id"; "attempt_id"; "worker_id"; "task_state"].
Definition rekey_task_states : list string :=
  ["committed"; "queued"; "reserved"; "running"; "succeeded"; "cancelled"].

(** The checks on the report of a [task_rekey] command; [true] is an invalid report. *)
Definition invalid_rekey_result (d : db) (command_payload result : dict) : res bool :=
  let get k := jget_or k JNull result in
  base ← (if existsb (fun kv => negb (fst kv ∈? rekey_result_fields)) result then Ok true
          else
            known ← in_string_set (get "status") ["rekeyed"; "not_needed"];
            if negb known || negb (json_eqb (get "task_id") (jget_or "task_id" JNull command_payload)) then Ok true
            else s ← in_string_set (get "task_state") rekey_task_states; Ok (negb s));
  if json_is (get "status") "rekeyed" then
    attempt_id ← bound_text (get "attempt_id");
    task_id ← bound_text (get "task_id");
    let attempt := head (select (fun a => (Some (a_id a) =d attempt_id) && (Some (a_task_id a) =d task_id))
                           (task_attempts d)) in
    Ok (base || negb (json_is (get "task_state") "committed") ||
        match attempt with
        | None => true
        | Some a => negb (json_is (get "worker_id") (a_worker_id a))
        end)
  else Ok (base || jmem "attempt_id" result || jmem "worker_id" result).

Definition command_missing : exc :=
  repo_err BROKER_COMMAND_NOT_FOUND "BROKER_COMMAND_NOT_FOUND" "Broker command not found or already completed." 404.

Definition rekey_result_invalid : exc :=
  repo_err VALIDATION_FAILED "BROKER_COMMAND_RESULT_INVALID" "Broker rekey result contains unsupported fields." 422.

(** [json.loads(command["payload"])] and its [get]. *)
Definition command_payload (c : broker_command_row) : res dict :=
  match bc_payload c with
  | JBad _ => Raise JSONDecodeError
  | JDoc (JObj p) => Ok p
  | JDoc _ => Raise AttributeError
  end.

Definition complete_broker_command (broker_device_id command_id user_id : string) (succeeded : bool)
    (result : dict) : M broker_command_row :=
  _ ← broker_commands_for broker_device_id user_id "";
  broker_device ← query (fun d => head (select (fun bd => (bd_id bd =d broker_device_id) ||
                                                          (bd_device_id bd =d broker_device_id)) (broker_devices d)));
  broker_device ← require broker_device TypeError;
  let mine c := (bc_id c =d command_id) && (bc_broker_device_id c =d bd_id broker_device) in
  command ← query (fun d => head (select mine (broker_commands d)));
  command ← require command command_missing;
  _ ← (if String.eqb (bc_command_type command) "task_rekey" then
         payload ← lift_res (command_payload command);
         d ← query (fun d => d);
         invalid ← lift_res (invalid_rekey_result d payload result);
         check (negb invalid) rekey_result_invalid
       else mret tt);
  stamp ← now;
  n ← sql_update broker_commands (fun c => mine c && (bc_state c =d CPending))
        (fun c => c <| bc_state := if succeeded then CCompleted else CFailed |>
                    <| bc_result := Some (JDoc (JObj result)) |>
                    <| bc_completed_at := Some stamp |>);
  _ ← check (n =? 1) command_missing;
  row ← query (fun d => find_by bc_id command_id (broker_commands d));
  require row TypeError.
End Brokers.
