(* ===== verification/Scenario.v ===== *)
(** * A concrete control plane

    One workspace with an owner, a consumer and a pool, driven through the
    operations: a worker registers, is offered and approved, reports its
    capabilities, and executes a task.  The worlds named here are evaluated by
    the kernel and instantiate the theorems of the later files. *)

From S2P Require Import Prelude Python Errors Schema Store Access Metadata Diagnostics.
From S2P Require Import Capability Scheduler Fleet Usage.

Open Scope Z_scope.

(** One second passes between clock readings; identifiers are counted. *)
#[export] Instance demo_env : Env := {|
  clock n := seconds (1000 + Z.of_nat n);
  uuid n := pretty n;
  sha256_json v := match v with
                   | JObj d => match jget "created_at" d with
                               | Some (JInt z) => "sha-" +:+ pretty z
                               | _ => "sha"
                               end
                   | _ => "sha"
                   end;
  version_lt _ _ := Some false;
  py_repr _ := "?";
  json_loads s := if String.eqb s "{}" then JDoc (JObj []) else JBad s;
  alnum_beyond_ascii _ := false;
  env_ed25519 := toy_ed25519
|}.

Definition demo_db : db := empty_db
  <| users := [Mk_user_row "usr_owner" "Owner" "root-owner" "enc-owner" UActive false 0 0;
               Mk_user_row "usr_alice" "Alice" "root-alice" "enc-alice" UActive false 0 0] |>
  <| devices := [Mk_device_row "dev_alice" "usr_alice" "Laptop" "sig" "enc" None SActive 0
                   (Some (seconds 1000)) None] |>
  <| brokers := [Mk_broker_row "brk_alice" "usr_alice" "Broker" SActive 0 0] |>
  <| broker_devices := [Mk_broker_device_row "bdev_alice" "brk_alice" "dev_alice" SActive
                          "usr_alice" None None None None None 0 None] |>
  <| workspaces := [Mk_workspace_row "wsp_1" "Studio" "usr_owner" None (JDoc (JObj [])) 1
                      SpActive 0 0] |>
  <| memberships := [Mk_membership_row "wsp_1" "usr_owner" RoleOwner SActive 0 None;
                     Mk_membership_row "wsp_1" "usr_alice" RoleMember SActive 0 None] |>
  <| pools := [Mk_pool_row "pol_1" "wsp_1" "Default" (JDoc (JObj [])) SpActive 0 0] |>.

Definition demo_ref : string := "vgen/minimax-h3-8step@1.0.0".
Definition demo_digest : string :=
  "sha256:bd15cace959f6330626b47c07195b6f8a016e334683969c0d5b044b24debcb93".

Definition demo_report : dict :=
  [("executors", JList [JObj
     [("type", JStr "comfyui"); ("version", JStr "0.3.40");
      ("payload_formats", JList [JStr "comfyui-api-graph/v1"]);
      ("operations", JList [JStr "i2v"]);
      ("capabilities", JObj
         [("capability_schema_version", JInt 2);
          ("workflow_readiness", JList [JObj
             [("workflow_ref", JStr demo_ref); ("workflow_digest", JStr demo_digest);
              ("state", JStr "ready"); ("missing_model_digests", JList []);
              ("missing_node_classes", JList [])]])])]])].

Definition demo_registration (n : string) : worker_registration :=
  MkRegistration "usr_owner" None ("Box " +:+ n) ("sign-" +:+ n) ("enc-" +:+ n) None "comfyui"
    "0.3.40" (JObj demo_report) 1.

(** The worker gets its approved allocation and rate. *)
Definition approve_demo (worker_id : string) (d : db) : db :=
  modify rate_cards (fun t => t ++
    [Mk_rate_row ("rtc_" +:+ worker_id) worker_id "wsp_1" "usr_owner" (Some "usr_owner") 10 0 0 0
       RtApproved 0 (Some 0)])
  (modify worker_allocations (update (fun a => al_worker_id a =d worker_id)
     (fun a => a <| al_status := AlActive |> <| al_allocation_proof := Some (JDoc (JObj [])) |>
                 <| al_approved_by_user_id := Some "usr_owner" |>)) d).

Definition run {A} (m : M A) (w : world) : world := snd (m w).

Lemma run_ok {A} (m : M A) w x : fst (m w) = Ok x -> m w = (Ok x, run m w).
Proof. unfold run. destruct (m w). simpl. by intros ->. Qed.

Definition demo_request : prepare_request :=
  MkPrepareRequest (Some "usr_alice") "user" "usr_alice" ChCli "wsp_1" "pol_1" demo_ref demo_digest
    "comfyui" (JObj [("operation", JStr "i2v"); ("output_count", JInt 1)]) 0 600.

Definition demo_start : world := MkWorld demo_db 0 0.

(** Worker [wrk_0]: registered, offered, approved, heard. *)
Definition demo_registered : world := run (create_worker (demo_registration "A")) demo_start.
Definition demo_offered : world := run (offer_worker "wrk_0" "usr_owner" "pol_1") demo_registered.
Definition demo_approved : world := modify wd_db (approve_demo "wrk_0") demo_offered.
Definition demo_ready : world := run (worker_heartbeat "wrk_0" (Some demo_report)) demo_approved.
Definition demo_prepared : world := run (prepare_task demo_request) demo_ready.

(** The task [tsk_2] with its attempt [atm_3]: committed, leased, started, finished. *)
Definition demo_committed : world :=
  run (commit_task "tsk_2" (Some "usr_alice") "user" "usr_alice" "payload" "env-worker"
         "env-reader" "hpke") demo_prepared.
Definition demo_leased : world := run (lease "wrk_0" 30) demo_committed.
Definition demo_running : world :=
  run (heartbeat_attempt "atm_3" "wrk_0" 2 30 true None) demo_leased.

Definition demo_hash : string :=
  "0123456789abcdef0123456789abcdef0123456789abcdef0123456789abcdef".

Definition demo_finish : finish_report :=
  MkReport "atm_3" "wrk_0" 2 true [] (JObj [("gpu_active_ms", JInt 900)]) None "none" None
    (Some demo_hash).
Definition demo_finished : world := run (finish_attempt demo_finish) demo_running.

(** What may follow: the consumer cancels too late, the maintenance sweep runs. *)
Definition demo_late_cancel : world :=
  run (cancel_task "tsk_2" (Some "usr_alice") "user" "usr_alice") demo_finished.
