(* ===== verification/Invariant.v ===== *)
(** * The scheduling invariant

    The invariant of the four scheduling tables (tasks, attempts, leases,
    workers), and the database transitions that keep it: rewriting rows in
    place, adding a task or a reserved attempt, granting a lease.  The inversion
    lemmas for normal runs of an operation, and the operations that leave the
    four tables alone, are here too. *)

From S2P Require Import Prelude Python Errors Schema Store Access Metadata Diagnostics.
From S2P Require Import Framing Capability Scheduler Usage.

Open Scope Z_scope.

(** ** Running an operation to a normal exit *)

Section Runs.
Context {A B : Type}.

Lemma run_bind (m : M A) (f : A -> M B) w b w' :
  bind m f w = (Ok b, w') -> exists a w1, m w = (Ok a, w1) /\ f a w1 = (Ok b, w').
Proof.
  unfold bind, mbind, M_bind. destruct (m w) as [[a|e] w1]; [eauto|done].
Qed.

Lemma run_ret (a b : A) w w' : mret (M := M) a w = (Ok b, w') -> b = a /\ w' = w.
Proof. by intros [= <- <-]. Qed.

Lemma run_raise e (b : A) w w' : raise e w = (Ok b, w') -> False.
Proof. done. Qed.

Lemma run_query (f : db -> A) w b w' : query f w = (Ok b, w') -> b = f (wd_db w) /\ w' = w.
Proof. by intros [= <- <-]. Qed.

Lemma run_require (o : option A) e w b w' : require o e w = (Ok b, w') -> o = Some b /\ w' = w.
Proof. destruct o; [by intros [= <- <-]|done]. Qed.

Lemma run_lift (r : res A) w b w' : lift_res r w = (Ok b, w') -> r = Ok b /\ w' = w.
Proof. by intros [= -> <-]. Qed.

Lemma run_transaction (m : M A) w b w' : transaction m w = (Ok b, w') -> m w = (Ok b, w').
Proof. unfold transaction. destruct (m w) as [[a|e] w1]; [by intros [= -> ->]|done]. Qed.

Lemma run_reads (m : M A) w b w' : reads_only m -> m w = (Ok b, w') -> w' = w.
Proof. intros Hm H. specialize (Hm w). by rewrite H in Hm. Qed.
End Runs.

Lemma run_check b e w u w' : check b e w = (Ok u, w') -> b = true /\ w' = w.
Proof. destruct b; [by intros [= _ <-]|done]. Qed.

Lemma run_now `{Env} w b w' : now w = (Ok b, w') -> wd_db w' = wd_db w.
Proof. by intros [= _ <-]. Qed.

Lemma run_new_id `{Env} p w b w' : new_id p w = (Ok b, w') -> wd_db w' = wd_db w.
Proof. unfold new_id. destruct (id_prefix p); [by intros [= _ <-]|done]. Qed.

Section RunStatements.
Context {R : Type} (table : db -> list R) {set_table : Setter table}.

Lemma run_update p f w n w' :
  sql_update table p f w = (Ok n, w') ->
  n = count p (table (wd_db w)) /\ wd_db w' = modify table (update p f) (wd_db w).
Proof. by intros [= <- <-]. Qed.

Lemma run_update_unique valid p f w n w' :
  sql_update_unique table valid p f w = (Ok n, w') ->
  valid (update p f (table (wd_db w))) = true /\
  wd_db w' = modify table (update p f) (wd_db w).
Proof. unfold sql_update_unique. destruct (valid _); [by intros [= _ <-]|done]. Qed.

Lemma run_insert ok r w u w' :
  sql_insert table ok r w = (Ok u, w') ->
  ok (wd_db w) r = true /\ wd_db w' = modify table (fun t => t ++ [r]) (wd_db w).
Proof. unfold sql_insert. destruct (ok _ _) eqn:E; [by intros [= _ <-]|done]. Qed.

Lemma run_delete p w n w' :
  sql_delete table p w = (Ok n, w') ->
  wd_db w' = modify table (select (fun r => negb (p r))) (wd_db w).
Proof. by intros [= _ <-]. Qed.
End RunStatements.

(** Invert a normal run, statement by statement. *)
Ltac run_step :=
  match goal with
  | H : bind _ _ _ = (Ok _, _) |- _ =>
      apply run_bind in H; destruct H as (? & ? & ? & H)
  | H : mret _ _ = (Ok _, _) |- _ => apply run_ret in H; destruct H as [? ?]; subst
  | H : raise _ _ = (Ok _, _) |- _ => destruct (run_raise _ _ _ _ H)
  | H : query _ _ = (Ok _, _) |- _ => apply run_query in H; destruct H as [? ?]; subst
  | H : require _ _ _ = (Ok _, _) |- _ => apply run_require in H; destruct H as [? ?]; subst
  | H : lift_res _ _ = (Ok _, _) |- _ => apply run_lift in H; destruct H as [? ?]; subst
  | H : check _ _ _ = (Ok _, _) |- _ => apply run_check in H; destruct H as [? ?]; subst
  | H : transaction _ _ = (Ok _, _) |- _ => apply run_transaction in H
  | H : now _ = (Ok _, _) |- _ => apply run_now in H
  | H : new_id _ _ = (Ok _, _) |- _ => apply run_new_id in H
  | H : sql_update _ _ _ _ = (Ok _, _) |- _ => apply run_update in H; destruct H as [? ?]
  | H : sql_update_unique _ _ _ _ _ = (Ok _, _) |- _ =>
      apply run_update_unique in H; destruct H as [? ?]
  | H : sql_insert _ _ _ _ = (Ok _, _) |- _ => apply run_insert in H; destruct H as [? ?]
  | H : sql_delete _ _ _ = (Ok _, _) |- _ => apply run_delete in H
  | H : ?m ?w = (Ok _, _) |- _ =>
      let Hr := fresh in
      assert (Hr : reads_only m) by solve [auto with reads];
      apply (run_reads _ _ _ _ Hr) in H; clear Hr; subst
  | H : (if ?b then _ else _) _ = (Ok _, _) |- _ => destruct b eqn:?
  | H : (match ?o with Some _ => _ | None => _ end) _ = (Ok _, _) |- _ => destruct o eqn:?
  | H : (match ?p with (_, _) => _ end) _ = (Ok _, _) |- _ => destruct p
  | H : (match ?v with _ => _ end) _ = (Ok _, _) |- _ => destruct v
  end.

(** ** The invariant *)

(** States in which a task is bound to an executing attempt. *)
Definition task_holds (s : task_state) : bool :=
  match s with TReserved | TRunning | TCancelled => true | _ => false end.

Definition executing (a : attempt_row) : bool := attempt_executing (a_state a).
Definition fence (a : attempt_row) : string * Z := (a_worker_id a, a_fencing_token a).
Definition live (l : lease_row) : bool := l_released_at l =d None.

(** Attempt and task states that no operation leaves. *)
Definition attempt_final (s : attempt_state) : bool := negb (attempt_active s).
Definition task_settled (s : task_state) : bool :=
  match s with TSucceeded | TCancelled => true | _ => false end.

Definition charge (e : ledger_row) : bool := ul_entry_type e =d EnCharge.

(** What the invariant remembers of an earlier database: the attempts and tasks
    that had reached a final state and the workers that had been revoked, by
    identifier. *)
Class Past := {
  past_attempts : list (string * attempt_state);
  past_tasks : list (string * task_state);
  past_revoked : list string
}.

Record Inv {P : Past} (d : db) : Prop := MkInv {
  inv_task_ids : NoDup (map t_id (tasks d));
  inv_attempt_ids : NoDup (map a_id (task_attempts d));
  inv_lease_attempts : NoDup (map l_attempt_id (leases d));
  inv_worker_ids : NoDup (map w_id (workers d));
  inv_fences : NoDup (map fence (task_attempts d));
  inv_fence_bound : forall a, In a (task_attempts d) ->
    exists w, In w (workers d) /\ w_id w = a_worker_id a /\
              a_fencing_token a <= w_fencing_counter w;
  inv_lease_attempt : forall l, In l (leases d) ->
    exists a, In a (task_attempts d) /\ a_id a = l_attempt_id l /\
              a_worker_id a = l_worker_id l /\ a_fencing_token a = l_fencing_token l /\
              a_state a <> AReserved;
  inv_live_executing : forall l a, In l (leases d) -> In a (task_attempts d) ->
    a_id a = l_attempt_id l -> live l = true -> executing a = true;
  inv_executing_live : forall a, In a (task_attempts d) -> executing a = true ->
    exists l, In l (leases d) /\ l_attempt_id l = a_id a /\ live l = true;
  inv_executing_task : forall a, In a (task_attempts d) -> executing a = true ->
    exists t, In t (tasks d) /\ t_id t = a_task_id a /\ task_holds (t_state t) = true /\
              t_assigned_worker_id t = Some (a_worker_id a);
  inv_exclusive : forall a b, In a (task_attempts d) -> In b (task_attempts d) ->
    executing a = true -> executing b = true -> a_task_id a = a_task_id b -> a_id a = a_id b;
  inv_unstarted : forall a, In a (task_attempts d) -> attempt_unstarted (a_state a) = true ->
    a_started_at a = None;
  inv_capacity : forall w, In w (workers d) -> executing_count d (w_id w) <= w_capacity w;
  inv_charges : NoDup (map ul_attempt_id (select charge (usage_ledger d)));
  inv_charged_final : forall e, In e (usage_ledger d) -> charge e = true ->
    exists a, In a (task_attempts d) /\ a_id a = ul_attempt_id e /\
              attempt_final (a_state a) = true;
  inv_past_attempts : forall i s, In (i, s) past_attempts -> attempt_final s = true /\
    exists a, In a (task_attempts d) /\ a_id a = i /\ a_state a = s;
  inv_past_tasks : forall i s, In (i, s) past_tasks -> task_settled s = true /\
    exists t, In t (tasks d) /\ t_id t = i /\ t_state t = s;
  inv_revoked_idle : forall w a, In w (workers d) -> w_status w = WRevoked ->
    In a (task_attempts d) -> a_worker_id a = w_id w -> executing a = false;
  inv_past_revoked : forall i, In i past_revoked ->
    exists w, In w (workers d) /\ w_id w = i /\ w_status w = WRevoked
}.

(** The invariant reads the four scheduling tables and the ledger only. *)
Definition core_eq (d d' : db) : Prop :=
  tasks d' = tasks d /\ task_attempts d' = task_attempts d /\ leases d' = leases d /\
  workers d' = workers d /\ usage_ledger d' = usage_ledger d.

Lemma inv_frame `{Past} d d' : core_eq d d' -> Inv d -> Inv d'.
Proof.
  intros (Ht & Ha & Hl & Hw & Hu) HI. destruct HI.
  constructor; unfold executing_count in *; rewrite ?Ht, ?Ha, ?Hl, ?Hw, ?Hu; auto.
Qed.

(** ** Transitions that rewrite rows in place

    [Ft], [Fa], [Fl] and [Fw] say what every row becomes.  Keys and fences are
    kept, counters grow; no attempt starts executing, no lease comes back, a
    revoked worker stays revoked and a newly revoked one executes nothing,
    leases and executing attempts end together, and a task bound to an attempt
    that keeps executing stays bound to it. *)

Section RowTransition.
Context {P : Past}.
Variables (d d' : db).
Variables (Ft : task_row -> task_row) (Fa : attempt_row -> attempt_row)
          (Fl : lease_row -> lease_row) (Fw : worker_row -> worker_row).

Record row_transition : Prop := MkRowTransition {
  rt_tasks : tasks d' = map Ft (tasks d);
  rt_attempts : task_attempts d' = map Fa (task_attempts d);
  rt_leases : leases d' = map Fl (leases d);
  rt_workers : workers d' = map Fw (workers d);
  rt_ledger : usage_ledger d' = usage_ledger d;
  rt_task_key : forall t, t_id (Ft t) = t_id t;
  rt_attempt_key : forall a, a_id (Fa a) = a_id a /\ a_task_id (Fa a) = a_task_id a /\
                             fence (Fa a) = fence a;
  rt_lease_key : forall l, l_attempt_id (Fl l) = l_attempt_id l /\
                           l_worker_id (Fl l) = l_worker_id l /\
                           l_fencing_token (Fl l) = l_fencing_token l;
  rt_worker_key : forall w, In w (workers d) ->
    w_id (Fw w) = w_id w /\ w_capacity (Fw w) = w_capacity w /\
    w_fencing_counter w <= w_fencing_counter (Fw w);
  rt_revoked_kept : forall w, In w (workers d) -> w_status w = WRevoked ->
    w_status (Fw w) = WRevoked;
  rt_revoked_idle : forall w a, In w (workers d) -> In a (task_attempts d) ->
    w_status w <> WRevoked -> w_status (Fw w) = WRevoked -> a_worker_id a = w_id w ->
    executing (Fa a) = false;
  rt_attempt_state : forall a, In a (task_attempts d) ->
    (executing (Fa a) = true -> executing a = true) /\
    (a_state (Fa a) = AReserved -> a_state a = AReserved) /\
    (attempt_unstarted (a_state (Fa a)) = true -> attempt_unstarted (a_state a) = true /\
                                                 a_started_at (Fa a) = a_started_at a);
  rt_final : forall a, In a (task_attempts d) -> attempt_final (a_state a) = true ->
    a_state (Fa a) = a_state a;
  rt_settled : forall t, In t (tasks d) -> task_settled (t_state t) = true ->
    t_state (Ft t) = t_state t;
  rt_no_revive : forall l, live (Fl l) = true -> live l = true;
  rt_lease_end : forall l a, In l (leases d) -> In a (task_attempts d) ->
    a_id a = l_attempt_id l -> live l = true -> executing a = true ->
    (live (Fl l) = true <-> executing (Fa a) = true);
  rt_bound : forall t a, In t (tasks d) -> In a (task_attempts d) ->
    t_id t = a_task_id a -> executing a = true -> executing (Fa a) = true ->
    task_holds (t_state t) = true ->
    t_assigned_worker_id t = Some (a_worker_id a) ->
    task_holds (t_state (Ft t)) = true /\
    t_assigned_worker_id (Ft t) = Some (a_worker_id a)
}.

Hypothesis HT : row_transition.

Lemma row_fence a : a_worker_id (Fa a) = a_worker_id a /\
                    a_fencing_token (Fa a) = a_fencing_token a.
Proof using HT.
  destruct (rt_attempt_key HT a) as (_ & _ & E). unfold fence in E. by injection E.
Qed.

Lemma row_no_start a : In a (task_attempts d) -> executing (Fa a) = true -> executing a = true.
Proof using HT. apply (rt_attempt_state HT). Qed.

Lemma row_count w : In w (workers d) -> executing_count d' (w_id w) <= executing_count d (w_id w).
Proof using HT.
  intros _. unfold executing_count. rewrite (rt_attempts HT). apply count_map_le.
  intros a Ha H. split_bools. destruct (row_fence a) as [E _].
  rewrite E in *. apply andb_true_iff. split; [by apply bool_decide_eq_true_2|].
  by apply row_no_start.
Qed.

Lemma row_transition_inv : Inv d -> Inv d'.
Proof using HT.
  intros HI. pose proof row_count as Hcount. pose proof row_no_start as Hstart.
  destruct HT. constructor; rewrite ?rt_tasks0, ?rt_attempts0, ?rt_leases0, ?rt_workers0, ?map_map.
  - rewrite (map_ext _ t_id) by done. apply HI.
  - rewrite (map_ext _ a_id) by apply rt_attempt_key0. apply HI.
  - rewrite (map_ext _ l_attempt_id) by apply rt_lease_key0. apply HI.
  - rewrite (map_ext_in _ w_id) by (intros; by apply rt_worker_key0). apply HI.
  - rewrite (map_ext _ fence) by apply rt_attempt_key0. apply HI.
  - intros a' (a & <- & Ha)%in_map_iff.
    destruct (inv_fence_bound d HI a Ha) as (w & Hw & Ew & Hle).
    exists (Fw w). rewrite in_map_iff. destruct (rt_worker_key0 w Hw) as (E1 & _ & E2).
    destruct (row_fence a) as [-> ->]. split; [eauto|]. split; [congruence|lia].
  - intros l' (l & <- & Hl)%in_map_iff.
    destruct (inv_lease_attempt d HI l Hl) as (a & Ha & E1 & E2 & E3 & E4).
    exists (Fa a). destruct (rt_lease_key0 l) as (-> & -> & ->).
    destruct (rt_attempt_key0 a) as (-> & _ & _). destruct (row_fence a) as [-> ->].
    destruct (rt_attempt_state0 a Ha) as (_ & Hr & _). rewrite in_map_iff. naive_solver.
  - intros l' a' (l & <- & Hl)%in_map_iff (a & <- & Ha)%in_map_iff.
    destruct (rt_lease_key0 l) as (-> & _). destruct (rt_attempt_key0 a) as (-> & _).
    intros E Hlive. apply (rt_lease_end0 l a); auto.
    apply (inv_live_executing d HI l a); auto.
  - intros a' (a & <- & Ha)%in_map_iff Hex. destruct (rt_attempt_key0 a) as (-> & _).
    destruct (inv_executing_live d HI a Ha (Hstart a Ha Hex)) as (l & Hl & E & Hlive).
    exists (Fl l). rewrite in_map_iff. destruct (rt_lease_key0 l) as (-> & _).
    split; [eauto|]. split; [done|]. by apply (rt_lease_end0 l a); auto.
  - intros a' (a & <- & Ha)%in_map_iff Hex. destruct (row_fence a) as [-> _].
    destruct (rt_attempt_key0 a) as (_ & -> & _).
    destruct (inv_executing_task d HI a Ha (Hstart a Ha Hex)) as (t & Ht & E & Hh & Hw).
    exists (Ft t). rewrite in_map_iff, rt_task_key0.
    destruct (rt_bound0 t a); eauto 10.
  - intros a' b' (a & <- & Ha)%in_map_iff (b & <- & Hb)%in_map_iff Hea Heb.
    destruct (rt_attempt_key0 a) as (-> & -> & _). destruct (rt_attempt_key0 b) as (-> & -> & _).
    apply (inv_exclusive d HI); auto.
  - intros a' (a & <- & Ha)%in_map_iff Hu.
    destruct (rt_attempt_state0 a Ha) as (_ & _ & Hs). destruct (Hs Hu) as [Hu' ->].
    by apply (inv_unstarted d HI).
  - intros w' (w & <- & Hw)%in_map_iff. destruct (rt_worker_key0 w Hw) as (-> & -> & _).
    etransitivity; [by apply Hcount|]. by apply (inv_capacity d HI).
  - rewrite rt_ledger0. apply HI.
  - rewrite rt_ledger0. intros e He Hc.
    destruct (inv_charged_final d HI e He Hc) as (a & Ha & Ea & Hf). exists (Fa a).
    rewrite in_map_iff, (rt_final0 a Ha Hf). destruct (rt_attempt_key0 a) as (-> & _). eauto.
  - intros i st Hin. destruct (inv_past_attempts d HI i st Hin) as (Hf & a & Ha & Ea & Es).
    split; [done|]. exists (Fa a). rewrite in_map_iff. destruct (rt_attempt_key0 a) as (-> & _).
    rewrite rt_final0; [eauto|done|congruence].
  - intros i st Hin. destruct (inv_past_tasks d HI i st Hin) as (Hf & t & Ht & Et & Es).
    split; [done|]. exists (Ft t). rewrite in_map_iff, rt_task_key0, rt_settled0; [eauto|done|congruence].
  - intros w' a' (w & <- & Hw)%in_map_iff Hr (a & <- & Ha)%in_map_iff.
    destruct (rt_worker_key0 w Hw) as (-> & _), (row_fence a) as [-> _]. intros Ew.
    destruct (decide (w_status w = WRevoked)) as [Hr0|Hr0]; [|by apply (rt_revoked_idle0 w)].
    destruct (executing (Fa a)) eqn:Ex; [|done].
    pose proof (Hstart a Ha Ex). by rewrite (inv_revoked_idle d HI w a) in *.
  - intros i Hin. destruct (inv_past_revoked d HI i Hin) as (w & Hw & Ew & Hr). exists (Fw w).
    rewrite in_map_iff, rt_revoked_kept0 by done. destruct (rt_worker_key0 w Hw) as (-> & _). eauto.
Qed.
End RowTransition.

(** ** Transitions that add rows *)

(** A new task, with a fresh identifier. *)
Lemma inv_add_task `{Past} d t :
  (forall t', In t' (tasks d) -> t_id t' <> t_id t) ->
  Inv d -> Inv (modify tasks (fun ts => ts ++ [t]) d).
Proof.
  intros Hnew HI. destruct HI. constructor; simpl; auto.
  - by apply NoDup_map_snoc.
  - intros a Ha Hex. destruct (inv_executing_task0 a Ha Hex) as (t' & Ht & Hrest).
    exists t'. rewrite in_app_iff. auto.
  - intros i st Hin. destruct (inv_past_tasks0 i st Hin) as (Hf & t' & Ht & Hrest).
    split; [done|]. exists t'. rewrite in_app_iff. auto.
Qed.

(** A reserved attempt, with a fresh identifier and a fresh fence within its
    worker's counter. *)
Lemma inv_add_attempt `{Past} d a :
  a_state a = AReserved -> a_started_at a = None ->
  (forall b, In b (task_attempts d) -> a_id b <> a_id a /\ fence b <> fence a) ->
  (exists w, In w (workers d) /\ w_id w = a_worker_id a /\
             a_fencing_token a <= w_fencing_counter w) ->
  Inv d -> Inv (modify task_attempts (fun ts => ts ++ [a]) d).
Proof.
  intros Hs Hstart Hnew Hw HI.
  assert (Hex : executing a = false) by (unfold executing; by rewrite Hs).
  destruct HI. constructor; simpl; auto; try (intros x Hx; apply in_app_iff in Hx;
    destruct Hx as [Hx|[<-|[]]]; [by eauto|rewrite ?Hex; try done; by eauto]).
  - apply NoDup_map_snoc; [done|]. intros b Hb. by apply Hnew.
  - apply NoDup_map_snoc; [done|]. intros b Hb. by apply Hnew.
  - intros l Hl. destruct (inv_lease_attempt0 l Hl) as (b & Hb & Hrest).
    exists b. rewrite in_app_iff. auto.
  - intros l b Hl [Hb|[<-|[]]]%in_app_iff E Hlive; [by eauto|].
    destruct (inv_lease_attempt0 l Hl) as (b & Hb & Eb & _).
    destruct (Hnew b Hb) as [Hne _]. congruence.
  - intros b c [Hb|[<-|[]]]%in_app_iff [Hc|[<-|[]]]%in_app_iff; try congruence; eauto.
  - intros w Hin. unfold executing_count. simpl. rewrite count_app, count_cons.
    unfold executing in Hex. rewrite Hex, andb_false_r. change (count _ []) with 0.
    specialize (inv_capacity0 w Hin). unfold executing_count in inv_capacity0. lia.
  - intros e He Hc. destruct (inv_charged_final0 e He Hc) as (b & Hb & Hrest).
    exists b. rewrite in_app_iff. auto.
  - intros i st Hin. destruct (inv_past_attempts0 i st Hin) as (Hf & b & Hb & Hrest).
    split; [done|]. exists b. rewrite in_app_iff. auto.
  - intros w b Hw' Hr [Hb|[<-|[]]]%in_app_iff; [by eauto|done].
Qed.

(** A charge for a final attempt that had none. *)
Lemma inv_add_charge `{Past} d e :
  (exists a, In a (task_attempts d) /\ a_id a = ul_attempt_id e /\
             attempt_final (a_state a) = true) ->
  (forall e', In e' (usage_ledger d) -> charge e' = true -> ul_attempt_id e' <> ul_attempt_id e) ->
  Inv d -> Inv (modify usage_ledger (fun t => t ++ [e]) d).
Proof.
  intros Hfin Hnew HI. destruct HI. constructor; simpl; auto.
  - unfold select. rewrite List.filter_app. simpl. destruct (charge e); [|by rewrite app_nil_r].
    apply NoDup_map_snoc; [done|]. intros e' [He Hc]%filter_In. auto.
  - intros e' [He|[<-|[]]]%in_app_iff Hc; auto.
Qed.

(** An entry that is not a charge. *)
Lemma inv_add_correction `{Past} d e :
  charge e = false -> Inv d -> Inv (modify usage_ledger (fun t => t ++ [e]) d).
Proof.
  intros Hc HI. destruct HI. constructor; simpl; auto.
  - unfold select. rewrite List.filter_app. simpl. by rewrite Hc, app_nil_r.
  - intros e' [He|[<-|[]]]%in_app_iff Hc'; [auto|congruence].
Qed.

(** ** Granting a lease *)

(** The rows a grant writes. *)
Definition granted_attempt (a : attempt_row) (fencing stamp : Z) : attempt_row :=
  a <| a_state := ALeased |> <| a_fencing_token := fencing |> <| a_leased_at := Some stamp |>.

Section Grant.
Context {P : Past}.
Variables (d d' : db) (worker : worker_row) (task : task_row) (attempt : attempt_row)
          (lease : lease_row) (fencing stamp : Z).

Record grant_transition : Prop := MkGrantTransition {
  gt_worker : In worker (workers d);
  gt_task : In task (tasks d);
  gt_attempt : In attempt (task_attempts d);
  gt_serving : w_status worker <> WRevoked;
  gt_fencing : fencing = w_fencing_counter worker + 1;
  gt_free : executing_count d (w_id worker) < w_capacity worker;
  gt_waiting : task_waiting (t_state task) = true;
  gt_assigned : t_assigned_worker_id task = Some (w_id worker);
  gt_reserved : a_state attempt = AReserved;
  gt_attempt_task : a_task_id attempt = t_id task;
  gt_attempt_worker : a_worker_id attempt = w_id worker;
  gt_lease : l_attempt_id lease = a_id attempt /\ l_worker_id lease = w_id worker /\
             l_fencing_token lease = fencing /\ live lease = true;
  gt_tasks : tasks d' = update (fun t => t_id t =d t_id task)
               (fun t => t <| t_state := TReserved |> <| t_updated_at := stamp |>) (tasks d);
  gt_attempts : task_attempts d' =
    update (fun a => (a_id a =d a_id attempt) && (a_state a =d AReserved))
           (fun a => granted_attempt a fencing stamp) (task_attempts d);
  gt_leases : leases d' = leases d ++ [lease];
  gt_workers : workers d' = update (fun w => w_id w =d w_id worker)
    (fun w => w <| w_fencing_counter := fencing |> <| w_updated_at := stamp |>) (workers d);
  gt_ledger : usage_ledger d' = usage_ledger d
}.

Hypothesis (HG : grant_transition) (HI : Inv d).

Lemma grant_in_attempts a :
  In a (task_attempts d') <->
  a = granted_attempt attempt fencing stamp \/ (In a (task_attempts d) /\ a_id a <> a_id attempt).
Proof using HG HI.
  rewrite (gt_attempts HG), (in_update_key a_id _ _ _ attempt); [done|apply HI|apply HG| |].
  - by rewrite (gt_reserved HG), !bool_decide_eq_true_2.
  - intros y _ Hy. by split_bools.
Qed.

Lemma grant_in_tasks t :
  In t (tasks d') <->
  t = task <| t_state := TReserved |> <| t_updated_at := stamp |> \/
  (In t (tasks d) /\ t_id t <> t_id task).
Proof using HG HI.
  rewrite (gt_tasks HG), (in_update_key t_id _ _ _ task); [done|apply HI|apply HG| |].
  - by apply bool_decide_eq_true_2.
  - intros y _ Hy. by split_bools.
Qed.

Lemma grant_in_workers w :
  In w (workers d') <->
  w = worker <| w_fencing_counter := fencing |> <| w_updated_at := stamp |> \/
  (In w (workers d) /\ w_id w <> w_id worker).
Proof using HG HI.
  rewrite (gt_workers HG), (in_update_key w_id _ _ _ worker); [done|apply HI|apply HG| |].
  - by apply bool_decide_eq_true_2.
  - intros y _ Hy. by split_bools.
Qed.

(** The granted fence is above every fence its worker ever issued. *)
Lemma grant_fence_fresh a :
  In a (task_attempts d) -> a_worker_id a = w_id worker -> a_fencing_token a < fencing.
Proof using HG HI.
  intros Ha Hw. destruct (inv_fence_bound d HI a Ha) as (w & Hin & Ew & Hle).
  assert (w = worker) as ->.
  { apply (NoDup_map_inj w_id (workers d)); try apply HI; try apply HG; congruence. }
  rewrite (gt_fencing HG). lia.
Qed.

(** No attempt of the granted task was executing. *)
Lemma grant_idle a :
  In a (task_attempts d) -> a_task_id a = t_id task -> executing a = false.
Proof using HG HI.
  intros Ha Et. destruct (executing a) eqn:E; [|done].
  destruct (inv_executing_task d HI a Ha E) as (t & Ht & Eid & Hh & _).
  assert (t = task) as ->.
  { apply (NoDup_map_inj t_id (tasks d)); try apply HI; try apply HG; congruence. }
  pose proof (gt_waiting HG). by destruct (t_state task).
Qed.

(** The attempt had no lease: a lease is only written when it is granted. *)
Lemma grant_unleased l : In l (leases d) -> l_attempt_id l <> a_id attempt.
Proof using HG HI.
  intros Hl E. destruct (inv_lease_attempt d HI l Hl) as (a & Ha & Ea & _ & _ & Hr).
  apply Hr. rewrite (NoDup_map_inj a_id (task_attempts d) a attempt);
    [apply HG|apply HI|done|apply HG|congruence].
Qed.

Lemma grant_count w : In w (workers d) ->
  executing_count d' (w_id w) <= executing_count d (w_id w) + (if w_id w =d w_id worker then 1 else 0).
Proof using HG HI.
  intros Hw. unfold executing_count. rewrite (gt_attempts HG).
  case_bool_decide as E.
  - apply count_update_one.
    etransitivity; [|apply (count_key_le_one a_id (task_attempts d) (a_id attempt)), HI].
    apply count_le_impl. intros x _ Hx. split_bools. by apply bool_decide_eq_true_2.
  - rewrite Z.add_0_r. apply Z.eq_le_incl, count_update_same. intros x Hx Hp. split_bools.
    assert (x = attempt) as ->.
    { apply (NoDup_map_inj a_id (task_attempts d)); [apply HI|done|apply HG|done]. }
    simpl. rewrite (gt_attempt_worker HG), bool_decide_eq_false_2 by congruence. done.
Qed.

(** The tasks, the fences and the executing attempts after a grant. *)
Lemma grant_executing_task a : In a (task_attempts d') -> executing a = true ->
  exists t, In t (tasks d') /\ t_id t = a_task_id a /\ task_holds (t_state t) = true /\
            t_assigned_worker_id t = Some (a_worker_id a).
Proof using HG HI.
  intros [->|[Ha _]]%grant_in_attempts Hex.
  - eexists. rewrite grant_in_tasks. split; [by left|]. simpl.
    rewrite (gt_attempt_task HG), (gt_attempt_worker HG), (gt_assigned HG). done.
  - destruct (inv_executing_task d HI a Ha Hex) as (t & Ht & Et & Hrest).
    exists t. rewrite grant_in_tasks. split; [|done]. right. split; [done|].
    intros E. by rewrite (grant_idle a Ha) in Hex by congruence.
Qed.

Lemma grant_exclusive a b : In a (task_attempts d') -> In b (task_attempts d') ->
  executing a = true -> executing b = true -> a_task_id a = a_task_id b -> a_id a = a_id b.
Proof using HG HI.
  pose proof (gt_attempt_task HG) as Et.
  intros [->|[Ha _]]%grant_in_attempts [->|[Hb _]]%grant_in_attempts Hea Heb; simpl.
  - done.
  - intros E. rewrite (grant_idle b Hb) in Heb; congruence.
  - intros E. rewrite (grant_idle a Ha) in Hea; congruence.
  - by apply (inv_exclusive d HI).
Qed.

Lemma grant_lease_attempt l : In l (leases d') ->
  exists a, In a (task_attempts d') /\ a_id a = l_attempt_id l /\
            a_worker_id a = l_worker_id l /\ a_fencing_token a = l_fencing_token l /\
            a_state a <> AReserved.
Proof using HG HI.
  rewrite (gt_leases HG). intros [Hl|[<-|[]]]%in_app_iff.
  - destruct (inv_lease_attempt d HI l Hl) as (a & Ha & Ea & Hrest).
    exists a. rewrite grant_in_attempts. split; [|done]. right. split; [done|].
    rewrite Ea. by apply grant_unleased.
  - destruct (gt_lease HG) as (-> & -> & -> & _).
    eexists. rewrite grant_in_attempts. split; [by left|]. simpl.
    by rewrite (gt_attempt_worker HG).
Qed.

Lemma grant_fence_bound a : In a (task_attempts d') ->
  exists w, In w (workers d') /\ w_id w = a_worker_id a /\ a_fencing_token a <= w_fencing_counter w.
Proof using HG HI.
  intros [->|[Ha _]]%grant_in_attempts.
  - eexists. rewrite grant_in_workers. split; [by left|]. simpl.
    rewrite (gt_attempt_worker HG). done.
  - destruct (inv_fence_bound d HI a Ha) as (w & Hw & Ew & Hle).
    destruct (decide (w_id w = w_id worker)) as [E|E].
    + eexists. rewrite grant_in_workers. split; [by left|]. simpl. split; [congruence|].
      apply Z.lt_le_incl, grant_fence_fresh; congruence.
    + exists w. rewrite grant_in_workers. auto.
Qed.

Lemma grant_leases_live :
  (forall l a, In l (leases d') -> In a (task_attempts d') ->
     a_id a = l_attempt_id l -> live l = true -> executing a = true) /\
  (forall a, In a (task_attempts d') -> executing a = true ->
     exists l, In l (leases d') /\ l_attempt_id l = a_id a /\ live l = true).
Proof using HG HI.
  destruct (gt_lease HG) as (El & _ & _ & Hlive).
  rewrite (gt_leases HG). setoid_rewrite in_app_iff. split.
  - intros l a [Hl|[<-|[]]] [->|[Ha Hne]]%grant_in_attempts E Hl'; simpl in *; try done.
    + by apply (inv_live_executing d HI l a).
    + congruence.
  - intros a [->|[Ha Hne]]%grant_in_attempts Hex.
    + exists lease. simpl. auto.
    + destruct (inv_executing_live d HI a Ha Hex) as (l & Hl & Hrest). exists l. auto.
Qed.

Lemma grant_keeps_final a :
  In a (task_attempts d) -> attempt_final (a_state a) = true -> In a (task_attempts d').
Proof using HG HI.
  intros Ha Hf. apply grant_in_attempts. right. split; [done|]. intros E.
  rewrite (NoDup_map_inj a_id (task_attempts d) a attempt) in Hf;
    [|apply HI|done|apply HG|done]. by rewrite (gt_reserved HG) in Hf.
Qed.

Lemma grant_inv : attempt_fences_distinct (task_attempts d') = true -> Inv d'.
Proof using HG HI.
  intros Hd. destruct grant_leases_live as [Hlx Hxl].
  constructor; auto using grant_executing_task, grant_exclusive, grant_lease_attempt,
    grant_fence_bound.
  - rewrite (gt_tasks HG), (update_map_inv t_id); [apply HI|done].
  - rewrite (gt_attempts HG), (update_map_inv a_id); [apply HI|done].
  - rewrite (gt_leases HG). apply NoDup_map_snoc; [apply HI|]. intros l Hl.
    destruct (gt_lease HG) as (-> & _). by apply grant_unleased.
  - rewrite (gt_workers HG), (update_map_inv w_id); [apply HI|done].
  - by apply distinct_by_spec.
  - intros a [->|[Ha _]]%grant_in_attempts; simpl; [|by apply HI].
    intros _. apply (inv_unstarted d HI); [apply HG|]. by rewrite (gt_reserved HG).
  - intros w [->|[Hw Hne]]%grant_in_workers; simpl.
    + etransitivity; [apply (grant_count worker), HG|].
      rewrite bool_decide_eq_true_2 by done. pose proof (gt_free HG). lia.
    + etransitivity; [apply (grant_count w Hw)|].
      rewrite bool_decide_eq_false_2 by done. rewrite Z.add_0_r. by apply HI.
  - rewrite (gt_ledger HG). apply HI.
  - rewrite (gt_ledger HG). intros e He Hc.
    destruct (inv_charged_final d HI e He Hc) as (a & Ha & Ea & Hf). exists a.
    split; [by apply grant_keeps_final|done].
  - intros i st Hin. destruct (inv_past_attempts d HI i st Hin) as (Hf & a & Ha & Ea & Es).
    split; [done|]. exists a. split; [|done]. apply grant_keeps_final; [done|congruence].
  - intros i st Hin. destruct (inv_past_tasks d HI i st Hin) as (Hf & t & Ht & Et & Es).
    split; [done|]. exists t. rewrite grant_in_tasks. split; [|done]. right. split; [done|].
    intros E. pose proof (gt_waiting HG) as Hw.
    rewrite (NoDup_map_inj t_id (tasks d) t task) in Es; [|apply HI|done|apply HG|done].
    rewrite Es in Hw. by destruct st.
  - intros w a [->|[Hw Hne]]%grant_in_workers Hr [->|[Ha _]]%grant_in_attempts; simpl in *.
    + by destruct (gt_serving HG).
    + by destruct (gt_serving HG).
    + rewrite (gt_attempt_worker HG). congruence.
    + by apply (inv_revoked_idle d HI).
  - intros i Hin. destruct (inv_past_revoked d HI i Hin) as (w & Hw & Ew & Hr). exists w.
    rewrite grant_in_workers. split; [|done]. right. split; [done|]. intros E.
    apply (gt_serving HG). rewrite <- Hr. f_equal.
    apply (NoDup_map_inj w_id (workers d)); [apply HI|apply HG|done|done].
Qed.

End Grant.

(** ** Operations that leave the scheduling tables alone *)

#[export] Instance core_eq_preorder : PreOrder core_eq.
Proof. split; [done|]. intros d1 d2 d3. unfold core_eq. naive_solver congruence. Qed.

Notation frames := (respects core_eq).

(** Helpers of the operations that only read. *)
Ltac solve_reads_match :=
  repeat first [ progress solve_reads
               | match goal with |- reads_only (match ?v with _ => _ end) => destruct v end ].

Lemma reads_only_public_requirements v : reads_only (_public_requirements v).
Proof. unfold _public_requirements. solve_reads_match. Qed.
Lemma reads_only_submitter ws p i u : reads_only (require_submitter ws p i u).
Proof. unfold require_submitter. solve_reads_match. Qed.
Lemma reads_only_security_view c : reads_only (_allocation_security_view c).
Proof. unfold _allocation_security_view. solve_reads_match. Qed.
Lemma reads_only_owner_key u : reads_only (owner_root_key u).
Proof. unfold owner_root_key. solve_reads_match. Qed.
Lemma reads_only_cancelled_ack a w f stamp : reads_only (cancelled_ack a w f stamp).
Proof. unfold cancelled_ack. solve_reads_match. Qed.
Lemma reads_only_finish_without_lease `{Env} r c : reads_only (finish_without_lease r c).
Proof. unfold finish_without_lease. solve_reads_match. Qed.
Lemma reads_only_load t : reads_only (load_column t).
Proof. unfold load_column. solve_reads_match. Qed.
#[export] Hint Resolve reads_only_public_requirements reads_only_submitter
  reads_only_security_view reads_only_owner_key reads_only_cancelled_ack
  reads_only_finish_without_lease reads_only_load : reads.

(** Atomic operations: guards that only read, then one transaction. *)
Create HintDb atomic.

Lemma inert_reads {A} (m : M A) : reads_only m -> inert m.
Proof. intros H w. by rewrite H. Qed.

#[export] Hint Resolve inert_now inert_new_id atomic_transaction : atomic.
#[export] Hint Extern 4 (inert _) => (apply inert_reads; solve [auto with reads]) : atomic.
#[export] Hint Extern 5 (atomic _) =>
  (apply inert_atomic, inert_reads; solve [auto with reads]) : atomic.

Ltac solve_atomic :=
  repeat first
    [ progress intros
    | solve [auto with atomic]
    | apply atomic_bind
    | apply inert_bind
    | match goal with
      | |- atomic (if ?b then _ else _) => destruct b
      | |- atomic (match ?v with _ => _ end) => destruct v
      | |- inert (if ?b then _ else _) => destruct b
      | |- inert (match ?v with _ => _ end) => destruct v
      end ].

Create HintDb frames.

Lemma frames_table {R} (table : db -> list R) `{!Setter table} :
  (forall f d, core_eq d (modify table f d)) ->
  (forall p f, frames (sql_update table p f)) /\ (forall ok r, frames (sql_insert table ok r)) /\
  (forall p, frames (sql_delete table p)).
Proof.
  intros H. split_and!; intros.
  - apply respects_update. intros d. apply H.
  - apply respects_insert; [typeclasses eauto|]. intros d _. apply H.
  - apply respects_delete. intros d. apply H.
Qed.

#[export] Hint Extern 1 (frames now) => (apply respects_now; typeclasses eauto) : frames.
#[export] Hint Extern 1 (frames (new_id _)) => (apply respects_new_id; typeclasses eauto) : frames.
#[export] Hint Extern 3 (frames (sql_update _ _ _)) => (apply frames_table; done) : frames.
#[export] Hint Extern 3 (frames (sql_insert _ _ _)) => (apply frames_table; done) : frames.
#[export] Hint Extern 3 (frames (sql_delete _ _)) => (apply frames_table; done) : frames.
#[export] Hint Extern 4 (frames _) =>
  (apply respects_reads; [typeclasses eauto|solve [auto with reads]]) : frames.

Ltac solve_frames := solve_respects ltac:(auto with frames).

Section FrameOperations.
Context {E : Env}.

Lemma frames_audit at_ ai ws ac st si de stamp : frames (audit at_ ai ws ac st si de stamp).
Proof. unfold audit. solve_frames. Qed.
Lemma frames_upsert_command r : frames (upsert_command r).
Proof. unfold upsert_command. solve_frames. Qed.
#[local] Hint Resolve frames_audit frames_upsert_command : frames.
Lemma frames_enqueue t s r stamp : frames (_enqueue_task_rekey_command t s r stamp).
Proof. unfold _enqueue_task_rekey_command. solve_frames. Qed.
#[local] Hint Resolve frames_enqueue : frames.
Lemma frames_ensure stamp u : frames (_ensure_rekey_commands stamp u).
Proof. unfold _ensure_rekey_commands. solve_frames. Qed.
Lemma frames_maintenance stamp : frames (_expire_maintenance_jobs stamp).
Proof. unfold _expire_maintenance_jobs. solve_frames. Qed.
Lemma frames_prune stamp : frames (prune_expired_security_state stamp).
Proof. unfold prune_expired_security_state. solve_frames. Qed.
Lemma frames_envelope t w a e stamp : frames (insert_worker_envelope t w a e stamp).
Proof. unfold insert_worker_envelope. solve_frames. Qed.
Lemma frames_publish t a o stamp : frames (publish_outputs t a o stamp).
Proof. unfold publish_outputs. solve_frames. Qed.
End FrameOperations.

#[export] Hint Resolve frames_audit frames_upsert_command frames_enqueue frames_ensure
  frames_maintenance frames_prune frames_envelope frames_publish : frames.

Lemma run_frames {A} (m : M A) w b w' :
  frames m -> m w = (Ok b, w') -> core_eq (wd_db w) (wd_db w').
Proof. apply run_respects. Qed.

Lemma preserves_frames `{Past} {A} (m : M A) : frames m -> preserves Inv m.
Proof. intros Hm w. apply inv_frame, Hm. Qed.

#[export] Hint Extern 3 (preserves Inv _) =>
  (apply preserves_frames; solve [auto with frames]) : vgen.
