(* ===== verification/Lifecycle.v ===== *)
(** * The task life cycle keeps the scheduling invariant

    Every operation of [Scheduler], [Fleet] and [Usage] that writes one of the four
    scheduling tables keeps [Inv], whatever its arguments, the clock and the
    random source, and whether it returns or raises.  [step] collects the
    operations as a transition relation; every reachable world satisfies
    [Inv]. *)

From S2P Require Import Prelude Python Errors Schema Store Access Metadata Diagnostics.
From S2P Require Import Capability Scheduler Fleet Usage Invariant.

Open Scope Z_scope.

(** Solve a table equation of a run from the equations of its statements. *)
Ltac tables :=
  repeat match goal with
  | H : wd_db ?w = _ |- context [wd_db ?w] => rewrite H; clear H; simpl
  | H : core_eq _ (wd_db ?w) |- context [wd_db ?w] =>
      let H1 := fresh in let H2 := fresh in let H3 := fresh in let H4 := fresh in
      let H5 := fresh in
      destruct H as (H1 & H2 & H3 & H4 & H5); rewrite ?H1, ?H2, ?H3, ?H4, ?H5;
      clear H1 H2 H3 H4 H5; simpl
  end;
  unfold update; rewrite ?map_map;
  first [ reflexivity | symmetry; apply map_id | idtac ].

(** Invert a run; a statement on another table becomes a frame fact. *)
Ltac run_all := repeat (first
  [ match goal with
    | H : ?m ?w = (Ok _, ?w') |- _ =>
        lazymatch m with sql_update _ _ _ => idtac | sql_insert _ _ _ => idtac end;
        let Hf := fresh in
        assert (Hf : frames m) by solve [auto with frames];
        apply (run_frames _ _ _ _ Hf) in H; clear Hf
    end
  | run_step
  | match goal with
    | H : ?m ?w = (Ok _, ?w') |- _ =>
        let Hf := fresh in
        assert (Hf : frames m) by solve [auto with frames];
        apply (run_frames _ _ _ _ Hf) in H; clear Hf
    end ]).

(** Case analysis on the updated row. *)
Ltac row_cases :=
  intros; unfold executing, live, attempt_final in *; repeat case_match; simpl in *; split_and?;
  try done; try lia;
  try (split_bools; match goal with
       | a : attempt_row |- _ => solve [destruct (a_state a); done]
       | t : task_row |- _ => solve [destruct (t_state t); done]
       end).

Section Expiry.
Context {E : Env} {P : Past}.

(** [m] keeps [I] on every normal exit. *)
Definition keeps {A} (I : db -> Prop) (m : M A) : Prop :=
  forall w a w', I (wd_db w) -> m w = (Ok a, w') -> I (wd_db w').

(** A task in a state that can be reserved has no executing attempt. *)
Lemma idle_unless_held d a t :
  Inv d -> In a (task_attempts d) -> In t (tasks d) -> t_id t = a_task_id a ->
  task_holds (t_state t) = false -> executing a = false.
Proof.
  intros HI Ha Ht Et Hh. destruct (executing a) eqn:Ex; [|done].
  destruct (inv_executing_task d HI a Ha Ex) as (t' & Ht' & Et' & Hh' & _).
  assert (t' = t) as -> by (apply (NoDup_map_inj t_id (tasks d)); [apply HI|done..|congruence]).
  congruence.
Qed.

Lemma keeps_expire_reservations stamp : keeps Inv (_expire_reservations stamp).
Proof.
  intros w u w' HI Hrun. unfold _expire_reservations in Hrun. run_step.
  run_step. match type of Hrun with (match ?l with _ => _ end) _ = _ => set (ids := l) in * end.
  assert (Hids : forall a, In a (task_attempts (wd_db w)) -> a_task_id a ∈ ids ->
                           executing a = false).
  { intros a Ha (t & Et & [Ht Hp]%in_select)%list_elem_of_In%in_map_iff. split_bools.
    apply (idle_unless_held (wd_db w) a t); auto. by destruct (t_state t). }
  assert (Hheld : forall t, In t (tasks (wd_db w)) -> t_id t ∈ ids ->
                            task_reservable (t_state t) = true).
  { intros t Ht (t' & Et & [Ht' Hp]%in_select)%list_elem_of_In%in_map_iff. split_bools.
    by assert (t' = t) as -> by (apply (NoDup_map_inj t_id (tasks (wd_db w))); auto; apply HI). }
  destruct ids as [|i0 ids0] eqn:Eids; [run_all; done|]. rewrite <- Eids in *. clear Eids.
  run_all.
  eapply (row_transition_inv (wd_db w)); [|done].
  constructor; [tables|tables|tables|tables|tables|..]; try (by row_cases).
  - intros t Ht Hs. cbv beta. destruct (t_id t ∈? ids) eqn:Ei; [|done].
    apply elem_b_spec in Ei. specialize (Hheld t Ht Ei). by destruct (t_state t).
  - intros l a Hl Ha Ea Hlive Hex.
    assert (a_task_id a ∈? ids = false) as En.
    { apply elem_b_false. intros Hin. by rewrite Hids in Hex. }
    cbv beta. rewrite En. simpl. split; [done|]. intros _.
    destruct (l_attempt_id l ∈? _) eqn:El; [|by case_match].
    apply elem_b_spec, list_elem_of_In, in_map_iff in El as (b & Eb & Hb).
    apply in_select in Hb as [(c & <- & Hc)%in_map_iff Hp].
    assert (a_id c = a_id a /\ a_task_id c ∈? ids = true) as [Ec Et] by (split; row_cases; congruence).
    assert (c = a) as ->
      by (apply (NoDup_map_inj a_id (task_attempts (wd_db w))); auto; apply HI).
    congruence.
  - intros t a Ht Ha Et Hex _ Hh Hw.
    cbv beta. assert (t_id t ∈? ids = false) as ->; [|done].
    apply elem_b_false. intros Hin. specialize (Hheld t Ht Hin). by destruct (t_state t).
Qed.

Lemma keeps_for_sum {A} (I : db -> Prop) (xs : list A) body :
  (forall x, In x xs -> keeps I (body x)) -> keeps I (for_sum xs body).
Proof.
  induction xs as [|x xs IH]; intros Hb w n w' HI Hrun; simpl in Hrun; run_all; [done|].
  eapply IH; [by intros; apply Hb; right| |eassumption].
  eapply (Hb x); [by left|done|eassumption].
Qed.

Lemma keeps_for_each {A} (I : db -> Prop) (xs : list A) body :
  (forall x, In x xs -> keeps I (body x)) -> keeps I (for_each xs body).
Proof.
  induction xs as [|x xs IH]; intros Hb w n w' HI Hrun; simpl in Hrun; run_all; [done|].
  eapply IH; [by intros; apply Hb; right| |eassumption].
  eapply (Hb x); [by left|done|eassumption].
Qed.

(** The attempt of [row] is the only one of its task that may be executing. *)
Definition sole (d : db) (row : string * string) : Prop :=
  forall b, In b (task_attempts d) -> executing b = true -> a_task_id b = snd row ->
            a_id b = fst row.

Lemma sole_row_transition d d' Ft Fa Fl Fw row :
  row_transition d d' Ft Fa Fl Fw -> sole d row -> sole d' row.
Proof.
  intros HT Hs b Hb Hex Et. rewrite (rt_attempts _ _ _ _ _ _ HT) in Hb.
  apply in_map_iff in Hb as (a & <- & Ha).
  destruct (rt_attempt_key _ _ _ _ _ _ HT a) as (Ei & Et' & _). rewrite Ei.
  apply Hs; [done|by apply (row_no_start _ _ _ _ _ _ HT)|congruence].
Qed.

Lemma keeps_expire_lease stamp rows attempt_id task_id :
  In (attempt_id, task_id) rows ->
  keeps (fun d => Inv d /\ forall row, In row rows -> sole d row)
        (expire_lease stamp attempt_id task_id).
Proof.
  intros Hin w n w' [HI Hsole] Hrun. unfold expire_lease in Hrun.
  assert (exists Ft Fa Fl Fw, row_transition (wd_db w) (wd_db w') Ft Fa Fl Fw)
    as (Ft & Fa & Fl & Fw & HT).
  { pose proof (Hsole _ Hin) as Hs. run_all; eexists _, _, _, _.
    all: constructor; [tables|tables|tables|tables|tables|by row_cases..| | |].
    all: [> by row_cases | | | by row_cases | | ].
    1, 3: intros l a Hl Ha Ea Hlive Hex; unfold executing, live in *; cbv beta;
      rewrite Ea, Hex, andb_true_r; destruct (l_attempt_id l =d attempt_id); simpl;
      by rewrite ?Hlive, ?Hex.
    all: intros t a Ht Ha Et Hex Hex' Hh Hw; cbv beta;
      destruct ((t_id t =d task_id) && task_executing (t_state t)) eqn:Ep; [|done]; split_bools;
      exfalso; unfold executing in *; rewrite (Hs a Ha Hex) in Hex' by (simpl; congruence);
      simpl in Hex'; rewrite bool_decide_eq_true_2, Hex in Hex' by done; done. }
  split; [by eapply row_transition_inv|].
  intros row Hrow. eapply sole_row_transition; [exact HT|auto].
Qed.

(** No attempt of worker [i] is executing. *)
Definition worker_idle (d : db) (i : string) : Prop :=
  forall a, In a (task_attempts d) -> a_worker_id a = i -> executing a = false.

Lemma keeps_finalize_drained stamp : keeps Inv (_finalize_drained_workers stamp).
Proof.
  intros w n w' HI Hrun. unfold _finalize_drained_workers in Hrun.
  apply run_bind in Hrun as (ids & w0 & [Eids ->]%run_query & Hrun).
  assert (Hidle : forall i, In i ids -> worker_idle (wd_db w) i).
  { subst ids. intros i (x & <- & [_ Hp]%in_select)%in_map_iff a Ha Ea. split_bools.
    destruct (executing a) eqn:Ex; [|done].
    match goal with H : existsb _ _ = false |- _ => rename H into Hn end.
    rewrite <- Hn. symmetry. apply existsb_exists. exists a. rewrite Ea, bool_decide_eq_true_2 by done.
    split; [done|]. unfold executing in Ex. by destruct (a_state a). }
  clear Eids. apply run_bind in Hrun as (u & w1 & Hloop & Hrun). apply run_ret in Hrun as [_ ->].
  eapply (keeps_for_each (fun d => Inv d /\ forall i, In i ids -> worker_idle d i)) in Hloop
    as [? _]; [done| |done].
  clear. intros wid Hin w1 u w2 [HI Hidle] Hrun. specialize (Hidle wid Hin) as Hw. run_all. split.
  - eapply (row_transition_inv (wd_db w1)); [|done].
    constructor; [tables|tables|tables|tables|tables|..]; try (by row_cases).
    + intros v a Hv Ha Hn Hr Ea. cbv beta in *. destruct (w_id v =d wid) eqn:Ei; [|done].
      split_bools. apply Hw; congruence.
  - intros i Hi a. specialize (Hidle i Hi a).
    match goal with H : core_eq _ _ |- _ => destruct H as (_ & -> & _) end.
    match goal with H : wd_db _ = modify workers _ _ |- _ => by rewrite H end.
Qed.

Lemma keeps_expire_leases stamp : keeps Inv (_expire_leases stamp).
Proof.
  intros w n w' HI Hrun. unfold _expire_leases in Hrun. run_all.
  eapply keeps_finalize_drained; [|eassumption].
  match goal with H : for_sum _ _ _ = _ |- _ => rename H into Hloop end.
  eapply (keeps_for_sum (fun d => Inv d /\ forall row,
            In row (lapsed_leases (wd_db w) stamp) -> sole d row)) in Hloop as [? _]; [done| |].
  - intros [aid tid] Hin. by apply keeps_expire_lease.
  - split; [done|]. intros row (l & Hl & Hr)%in_flat_map.
    apply in_select in Hl as [Hl Hp]. apply in_map_iff in Hr as (a & <- & Ha).
    apply in_select in Ha as [Ha Ea]. split_bools. intros b Hb Hex Et. simpl in *.
    rewrite <- Ea. apply (inv_exclusive _ HI); auto.
    apply (inv_live_executing _ HI l a); auto. unfold live. by apply bool_decide_eq_true_2.
Qed.
End Expiry.

Create HintDb keeps.
#[export] Hint Resolve keeps_expire_reservations keeps_expire_leases keeps_finalize_drained : keeps.

(** Carry the invariant over the parts of a run that keep it. *)
Ltac carry :=
  repeat match goal with
  | HI : Inv (wd_db ?w), H : ?m ?w = (Ok _, ?w') |- _ =>
      let Hk := fresh in
      assert (Hk : keeps Inv m) by solve [auto with keeps];
      apply (Hk _ _ _ HI) in H; clear Hk
  | HI : Inv (wd_db ?w), H : core_eq (wd_db ?w) (wd_db ?w') |- _ =>
      pose proof (inv_frame _ _ H HI);
      let H1 := fresh in let H2 := fresh in let H3 := fresh in let H4 := fresh in
      let H5 := fresh in
      destruct H as (H1 & H2 & H3 & H4 & H5)
  | H : wd_db ?w' = wd_db ?w |- _ => rewrite H in *; clear H
  end.

(** Walk an operation up to its transaction. *)
Ltac op_steps :=
  repeat first
    [ progress intros
    | solve [auto with vgen]
    | match goal with |- preserves _ (transaction _) =>
        apply preserves_transaction_ok; intros ? ? ? ?HI ?Hrun end
    | apply preserves_bind
    | match goal with
      | |- preserves _ (if ?b then _ else _) => destruct b
      | |- preserves _ (match ?o with Some _ => _ | None => _ end) => destruct o
      | |- preserves _ (match ?o with _ => _ end) => destruct o
      end ].

(** Express every database of a run through the first one. *)
Ltac flat_db := repeat match goal with H : wd_db _ = _ |- _ => rewrite H in *; clear H end.

Ltac same_tables :=
  repeat match goal with
  | H : ?f (wd_db ?w') = ?f (wd_db ?w) |- _ => rewrite H in *; clear H
  end.

Section Reserve.
Context {E : Env} {P : Past}.

(** Raising a worker's fencing counter keeps the invariant. *)
Lemma inv_bump d worker stamp :
  Inv d -> In worker (workers d) ->
  let d' := modify workers (update (fun w => w_id w =d w_id worker)
    (fun w => w <| w_fencing_counter := w_fencing_counter worker + 1 |>
                <| w_updated_at := stamp |>)) d in
  Inv d' /\ exists w, In w (workers d') /\ w_id w = w_id worker /\
                      w_fencing_counter worker + 1 <= w_fencing_counter w.
Proof.
  intros HI Hw d'. split.
  - eapply (row_transition_inv d); [|done]. unfold d'. constructor; simpl.
    { symmetry. apply map_id. } { symmetry. apply map_id. } { symmetry. apply map_id. }
    { reflexivity. } { reflexivity. }
    all: try (by row_cases).
    intros w Hin. cbv beta. case_bool_decide as Ew; [|repeat split; lia].
    rewrite (NoDup_map_inj w_id (workers d) w worker); auto; [|apply HI]. simpl.
    repeat split; lia.
  - exists (worker <| w_fencing_counter := w_fencing_counter worker + 1 |>
                   <| w_updated_at := stamp |>).
    unfold d'. simpl. split; [|split; [done|simpl; lia]].
    apply in_update. exists worker. rewrite bool_decide_eq_true_2 by done. auto.
Qed.

Lemma attempts_ok_fresh d r :
  attempts_ok d r = true ->
  forall b, In b (task_attempts d) -> a_id b <> a_id r /\ fence b <> fence r.
Proof.
  unfold attempts_ok. intros H b Hb. split_bools.
  repeat match goal with H : has_key _ _ _ = false |- _ => rewrite has_key_false in H end.
  unfold fence. auto.
Qed.

Lemma tasks_ok_fresh d r :
  tasks_ok d r = true -> forall t, In t (tasks d) -> t_id t <> t_id r.
Proof. unfold tasks_ok. intros H. split_bools. by apply has_key_false. Qed.

Lemma inv_reserve d worker a stamp :
  Inv d -> In worker (workers d) ->
  a_state a = AReserved -> a_started_at a = None ->
  a_worker_id a = w_id worker -> a_fencing_token a = w_fencing_counter worker + 1 ->
  let d' := modify workers (update (fun w => w_id w =d w_id worker)
    (fun w => w <| w_fencing_counter := w_fencing_counter worker + 1 |>
                <| w_updated_at := stamp |>)) d in
  attempts_ok d' a = true -> Inv (modify task_attempts (fun ts => ts ++ [a]) d').
Proof.
  intros HI Hw Hs Hst Ew Ef d' Hok. destruct (inv_bump d worker stamp HI Hw) as [HI' Hb].
  apply inv_add_attempt; auto; [by apply attempts_ok_fresh|].
  rewrite Ew, Ef. exact Hb.
Qed.

Lemma reserve_task_inv q req ckv worker rate stamp w ids w' :
  Inv (wd_db w) -> In worker (workers (wd_db w)) ->
  reserve_task q req ckv worker rate stamp w = (Ok ids, w') -> Inv (wd_db w').
Proof.
  intros HI Hw Hrun. unfold reserve_task in Hrun. run_all. flat_db. apply inv_reserve; auto.
  apply inv_add_task; [|done]. by apply tasks_ok_fresh.
Qed.

(** A candidate is a row of the workers table. *)
Lemma first_match_in d req ref digest rows c :
  first_match d req ref digest rows = Ok (Some c) -> In c rows.
Proof.
  induction rows as [|r rows IH]; simpl; [done|]. unfold bind at 1, mbind, res_bind.
  destruct (_matches_requirements _ _ _ _ _) as [[]|]; [|auto|done]. intros [= ->]. by left.
Qed.

Lemma in_take {A} (x : A) n l : In x (take n l) -> In x l.
Proof. rewrite <- !list_elem_of_In. intros H. by apply elem_of_take in H as (i & ? & _);
  eapply list_elem_of_lookup_2. Qed.

Lemma candidate_worker d p leb c :
  In c (take 50 (order_by leb (join_candidates d p))) ->
  In (c_worker c) (workers d) /\ In (c_allocation c) (worker_allocations d) /\
  p (c_worker c) (c_allocation c) = true.
Proof.
  intros H%in_take. rewrite in_order_by in H. apply in_flat_map in H as (w & Hw & Ha).
  apply in_map_iff in Ha as (a & <- & Ha). apply in_select in Ha as [Ha Hp]. done.
Qed.

Lemma choose_candidate_in d pool ex req ref digest stamp choice c :
  choose_candidate d pool ex req ref digest stamp = Ok choice -> fst choice = Some c ->
  In (c_worker c) (workers d) /\ In (c_allocation c) (worker_allocations d) /\
  schedulable d pool ex stamp (c_worker c) (c_allocation c) = true.
Proof.
  unfold choose_candidate, bind, mbind, res_bind.
  destruct (first_match _ _ _ _ (_task_candidate_rows _ _ _ _)) as [[c'|]|] eqn:E1; try done.
  - intros [= <-] [= ->]. apply first_match_in in E1.
    apply candidate_worker in E1 as (? & ? & ?). by split_bools.
  - destruct (first_match _ _ _ _ (_task_queue_candidate_rows _ _ _ _)) as [[c'|]|] eqn:E2;
      try done; try (by intros [= <-]).
    intros [= <-] [= ->]. apply first_match_in in E2. by apply candidate_worker in E2.
Qed.

Lemma preserves_prepare_task q : preserves Inv (prepare_task q).
Proof.
  unfold prepare_task. op_steps. run_all. carry.
  eapply reserve_task_inv; [eassumption| |eassumption].
  by eapply choose_candidate_in.
Qed.

(** States in which no attempt executes a task and it is not settled. *)
Definition task_idle (s : task_state) : bool := negb (task_holds s) && negb (task_settled s).

(** Rewriting idle tasks keeps the invariant. *)
Lemma inv_update_tasks d p f :
  (forall t, t_id (f t) = t_id t) ->
  (forall t, In t (tasks d) -> p t = true -> task_idle (t_state t) = true) ->
  Inv d -> Inv (modify tasks (update p f) d).
Proof.
  intros Hf Hp HI. eapply (row_transition_inv d); [|done]. constructor; simpl.
  { reflexivity. } { symmetry. apply map_id. } { symmetry. apply map_id. }
  { symmetry. apply map_id. } { reflexivity. }
  all: try (by row_cases).
  - intros t Ht Hs. cbv beta. destruct (p t) eqn:Ep; [|done].
    specialize (Hp t Ht Ep). unfold task_idle in Hp. rewrite Hs, andb_false_r in Hp. done.
  - intros t a Ht Ha Et _ _ Hh Hw. cbv beta. destruct (p t) eqn:Ep; [|done].
    specialize (Hp t Ht Ep). unfold task_idle in Hp. rewrite Hh in Hp. done.
Qed.

(** The row found by its identifier is the only one with that identifier. *)
Lemma found_task d task_id task t :
  Inv d -> find_by t_id task_id (tasks d) = Some task ->
  In t (tasks d) -> (t_id t =d task_id) = true -> t = task.
Proof.
  intros HI [Hin Hid]%find_by_some Ht Et. split_bools.
  apply (NoDup_map_inj t_id (tasks d)); [apply HI|done..|congruence].
Qed.

Lemma reserve_retry_inv task worker rate stamp ttl w ids w' :
  Inv (wd_db w) -> In worker (workers (wd_db w)) ->
  find_by t_id (t_id task) (tasks (wd_db w)) = Some task ->
  task_retryable (t_state task) = true ->
  reserve_retry task worker rate stamp ttl w = (Ok ids, w') -> Inv (wd_db w').
Proof.
  intros HI Hw Ht Hh Hrun. unfold reserve_retry in Hrun. run_all. flat_db.
  apply inv_update_tasks; [done| |by apply inv_reserve].
  simpl. intros t Hin Hp.
  rewrite (found_task (wd_db w) (t_id task) task t) by auto. by destruct (t_state task).
Qed.

Lemma preserves_prepare_retry task_id u pt pi ttl : preserves Inv (prepare_retry task_id u pt pi ttl).
Proof.
  unfold prepare_retry. op_steps. run_all. carry.
  match goal with H : find_by t_id task_id _ = Some ?t |- _ =>
    pose proof (find_by_some _ _ _ _ H) as [_ <-] end.
  eapply reserve_retry_inv; [eassumption| |eassumption..].
  match goal with H : first_match _ _ _ _ _ = _ |- _ =>
    apply first_match_in, candidate_worker in H; apply H end.
Qed.
End Reserve.

Section Progress.
Context {E : Env} {P : Past}.

Lemma core_eq_tasks d d' : core_eq d d' -> tasks d' = tasks d.
Proof. by intros [? _]. Qed.

Lemma preserves_commit_task task_id u pt pi ep we re ka :
  preserves Inv (commit_task task_id u pt pi ep we re ka).
Proof.
  unfold commit_task. op_steps. run_all; try done. split_bools.
  flat_db. apply inv_update_tasks; [done| |].
  - intros t _ Hp. split_bools. by assert (t_state t = TCommitted) as -> by done.
  - eapply inv_frame; [eassumption|]. apply inv_update_tasks; [done| |done].
    intros t Ht Hp. by erewrite (found_task (wd_db w) task_id _ t), H0 by eassumption.
Qed.

Lemma preserves_commit_rekey task_id u rw we ka pt pi :
  preserves Inv (commit_rekey task_id u rw we ka pt pi).
Proof.
  unfold commit_rekey. op_steps. run_all; try done. split_bools. carry. flat_db.
  apply inv_update_tasks; [done| |done].
  intros t Ht Hp. same_tables. by erewrite (found_task (wd_db w) task_id _ t), H0 by eassumption.
Qed.

(** What the decision part of [lease] hands to the grant. *)
Lemma queue_head_spec d worker_id stamp t :
  queue_head d worker_id stamp = Some t ->
  In t (tasks d) /\ t_assigned_worker_id t = Some worker_id /\ task_waiting (t_state t) = true.
Proof. intros [? ?]%head_order_select_some. by split_bools. Qed.

Lemma reserved_attempt_spec d task_id worker_id a :
  reserved_attempt d task_id worker_id = Some a ->
  In a (task_attempts d) /\ a_task_id a = task_id /\ a_worker_id a = worker_id /\
  a_state a = AReserved.
Proof. intros [? ?]%head_order_select_some. by split_bools. Qed.

Lemma grant_lease_run worker task attempt key lease_id stamp ttl w f w' :
  grant_lease worker task attempt key lease_id stamp ttl w = (Ok f, w') ->
  let fencing := w_fencing_counter worker + 1 in
  let lease := Mk_lease_row lease_id (a_id attempt) (w_id worker) fencing (ke_envelope key) stamp
                 (stamp + seconds ttl) (Some stamp) None in
  f = fencing /\
  attempt_fences_distinct (task_attempts (wd_db w')) = true /\
  tasks (wd_db w') = update (fun t => t_id t =d t_id task)
    (fun t => t <| t_state := TReserved |> <| t_updated_at := stamp |>) (tasks (wd_db w)) /\
  task_attempts (wd_db w') =
    update (fun a => (a_id a =d a_id attempt) && (a_state a =d AReserved))
           (fun a => granted_attempt a fencing stamp) (task_attempts (wd_db w)) /\
  leases (wd_db w') = leases (wd_db w) ++ [lease] /\
  workers (wd_db w') = update (fun w => w_id w =d w_id worker)
    (fun w => w <| w_fencing_counter := fencing |> <| w_updated_at := stamp |>) (workers (wd_db w)) /\
  usage_ledger (wd_db w') = usage_ledger (wd_db w).
Proof. unfold grant_lease. intros Hrun. run_all. flat_db. done. Qed.

(** A granting run of [lease]: the tables after expiry, what was chosen there,
    and the grant itself. *)
Lemma lease_transaction_grant worker_id stamp ttl w task attempt key lease_id f w' :
  Inv (wd_db w) ->
  lease_transaction worker_id stamp ttl w = (Ok (Some (task, attempt, key, lease_id, f)), w') ->
  exists w1 w2 n worker lease, let d := wd_db w2 in
    _expire_reservations stamp w = (Ok tt, w1) /\ _expire_leases stamp w1 = (Ok n, w2) /\
    Inv d /\ find_by w_id worker_id (workers d) = Some worker /\
    w_status worker = WActive /\ has_blocking_job d worker_id = false /\
    queue_head d worker_id stamp = Some task /\
    reserved_attempt d (t_id task) worker_id = Some attempt /\
    worker_envelope d (t_id task) worker_id = Some key /\
    l_expires_at lease = stamp + seconds ttl /\
    attempt_fences_distinct (task_attempts (wd_db w')) = true /\
    grant_transition d (wd_db w') worker task attempt lease f stamp.
Proof.
  intros HI Hrun. unfold lease_transaction in Hrun. run_all; try done. simplify_eq.
  match goal with H : grant_lease _ _ _ _ _ _ _ _ = _ |- _ =>
    apply grant_lease_run in H as (-> & Hd & Ht & Ha & Hl & Hw & Hu) end.
  match goal with H : _expire_reservations _ _ = (Ok ?u, _), H' : _expire_leases _ _ = _ |- _ =>
    destruct u; pose proof (conj H H') as Hexpiry end.
  carry. pose proof (queue_head_spec _ _ _ _ Heqo) as (Hin & Hassigned & Hwait).
  pose proof (reserved_attempt_spec _ _ _ _ H5) as (Hain & Hat & Haw & Has).
  pose proof (find_by_some _ _ _ _ H1) as (Hwin & Hwid). split_bools.
  match type of Hl with _ = _ ++ [?l] => eexists _, x2, _, x5, l end.
  destruct Hexpiry. cbv zeta. split_and!; try eassumption; try done. constructor; try done; congruence.
Qed.

Lemma keeps_lease_transaction worker_id stamp ttl :
  keeps Inv (lease_transaction worker_id stamp ttl).
Proof.
  intros w [[[[[task attempt] key] lease_id] f]|] w' HI Hrun.
  - apply lease_transaction_grant in Hrun as (w1 & w2 & n & worker & lease & Hrun); [|done].
    destruct Hrun as (_ & _ & HI' & _ & _ & _ & _ & _ & _ & _ & Hd & HG).
    by eapply grant_inv.
  - unfold lease_transaction in Hrun. run_all; carry; done.
Qed.

Lemma preserves_lease worker_id ttl : preserves Inv (lease worker_id ttl).
Proof.
  unfold lease. op_steps. by eapply keeps_lease_transaction.
Qed.

Lemma preserves_sweep : preserves Inv sweep_expired.
Proof. unfold sweep_expired. op_steps. run_all. carry. done. Qed.

Lemma fenced_lease_spec d aid wid f l a t :
  fenced_lease d aid wid f = Some (l, a, t) ->
  In l (leases d) /\ l_attempt_id l = aid /\ l_worker_id l = wid /\ l_fencing_token l = f /\
  live l = true /\ In a (task_attempts d) /\ a_id a = aid /\ In t (tasks d) /\
  t_id t = a_task_id a.
Proof.
  unfold fenced_lease, bind, mbind, option_bind. intros H.
  destruct (head _) as [l'|] eqn:El; [|done].
  destruct (find_by a_id _ _) as [a'|] eqn:Ea; [|done].
  destruct (find_by t_id _ _) as [t'|] eqn:Et; [|done]. simplify_eq.
  apply head_select_some in El as [Hl Hp]. apply find_by_some in Ea as [Ha Ea].
  apply find_by_some in Et as [Ht Et]. split_bools. unfold live.
  split_and!; try done. by apply bool_decide_eq_true_2.
Qed.

Lemma attempt_unique d a b :
  Inv d -> In a (task_attempts d) -> In b (task_attempts d) -> a_id a = a_id b -> a = b.
Proof. intros HI. apply (NoDup_map_inj a_id), HI. Qed.

(** The task of an executing attempt, found by its identifier, is held. *)
Lemma executing_held d a t t' :
  Inv d -> In a (task_attempts d) -> executing a = true -> In t (tasks d) ->
  t_id t = a_task_id a -> In t' (tasks d) -> t_id t' = t_id t ->
  t' = t /\ task_holds (t_state t) = true.
Proof.
  intros HI Ha Hex Ht Et Ht' Et'.
  destruct (inv_executing_task d HI a Ha Hex) as (t0 & H0 & E0 & Hh & _).
  assert (t0 = t) as -> by (apply (NoDup_map_inj t_id (tasks d)); [apply HI|done..|congruence]).
  split; [|done]. by apply (NoDup_map_inj t_id (tasks d)); [apply HI|..].
Qed.

Lemma preserves_heartbeat aid wid f ttl st rep :
  preserves Inv (heartbeat_attempt aid wid f ttl st rep).
Proof.
  unfold heartbeat_attempt. op_steps. run_all; try done.
  all: apply fenced_lease_spec in Heqo as (Hl & El & _ & _ & Hlive & Ha & Eaid & Ht & Et);
    assert (forall x, In x (task_attempts (wd_db w)) -> a_id x = aid ->
                      attempt_executing (a_state x) = true) as Hex
      by (intros ?y ?Hy ?Ey; apply (inv_live_executing _ HI l y); congruence);
    assert (t_state t <> TCancelled -> forall t', In t' (tasks (wd_db w)) -> t_id t' = t_id t ->
                                       task_settled (t_state t') = false) as Hopen
      by (intros Hn t' Ht' Et'; edestruct (executing_held (wd_db w)) as [-> Hh];
          [done|exact Ha|by apply Hex|exact Ht|exact Et|exact Ht'|exact Et'|];
          by destruct (t_state t)).
  all: eapply (row_transition_inv (wd_db w)); [|done].
  all: constructor; [tables|tables|tables|tables|tables|..]; try (by row_cases).
  all: try (intros x' Hx' Hf; specialize (Hex x' Hx'); row_cases; split_bools;
            destruct (a_state x'); naive_solver).
  all: try (intros t' Ht' Hs; cbv beta; destruct (t_id t' =d t_id _) eqn:Ei; [|done]; split_bools;
            by rewrite Hopen in Hs).
  all: intros; split_bools; row_cases; split_bools; try done; eauto.
Qed.

(** The leases that cancellation releases are those of the attempts it
    cancels: an attempt that was never started. *)
Lemma cancelled_leases d task_id stamp l a :
  Inv d -> In a (task_attempts d) -> a_id a = l_attempt_id l -> executing a = true ->
  let cancel := fun a => a <| a_state := ACancelled |> <| a_responsibility := Some RConsumer |>
                           <| a_finished_at := Some stamp |> in
  (l_attempt_id l ∈? map a_id
     (select (fun a => (a_task_id a =d task_id) && (a_state a =d ACancelled) &&
                       (a_started_at a =d None))
       (update (fun a => (a_task_id a =d task_id) && attempt_unstarted (a_state a)) cancel
          (task_attempts d)))) =
  (a_task_id a =d task_id) && attempt_unstarted (a_state a).
Proof.
  intros HI Ha Ea Hex cancel. apply eq_true_iff_eq.
  rewrite elem_b_spec, list_elem_of_In, in_map_iff. split.
  - intros (b & Eb & [Hb Hp]%in_select). split_bools.
    apply in_update in Hb as (c & Hc & Hcase).
    assert (c = a) as ->.
    { apply (attempt_unique d); auto. destruct Hcase as [[_ ->]|[_ ->]]; simpl in *; congruence. }
    destruct Hcase as [[Hp ->]|[_ ->]]; [done|].
    unfold executing in Hex. destruct (a_state a); done.
  - intros Hp. exists (cancel a). split; [done|]. apply in_select. split.
    + apply in_update. eauto.
    + split_bools. simpl. by rewrite (inv_unstarted d HI a Ha), !bool_decide_eq_true_2.
Qed.

Lemma preserves_cancel_task task_id u pt pi : preserves Inv (cancel_task task_id u pt pi).
Proof.
  unfold cancel_task. op_steps. run_all; try done.
  eapply (row_transition_inv (wd_db w)); [|done].
  constructor; [tables|tables|tables|tables|tables|..]; try (by row_cases).
  { intros t Ht Hs. cbv beta. destruct (t_id t =d task_id) eqn:Ei; [|done].
    rewrite (found_task (wd_db w) task_id x1 t) in Hs by done. by destruct (t_state x1). }
  intros l a' Hl Ha Ea Hlive Hex. cbv beta.
  pose proof (cancelled_leases (wd_db w) task_id a l a' HI Ha Ea Hex) as Hc.
  unfold update in Hc. cbv zeta in Hc. rewrite Hc. unfold live, executing in *.
  rewrite Hlive, andb_true_r. by destruct ((a_task_id a' =d task_id) && _); simpl; rewrite ?Hlive, ?Hex.
Qed.

(** Recording the usage of a finished attempt that has no charge yet. *)
Lemma record_usage_inv r l a m c p stamp w u w' :
  Inv (wd_db w) ->
  (exists b, In b (task_attempts (wd_db w)) /\ a_id b = fr_attempt_id r /\
             attempt_final (a_state b) = true) ->
  (forall e, In e (usage_ledger (wd_db w)) -> charge e = true ->
             ul_attempt_id e <> fr_attempt_id r) ->
  record_usage r l a m c p stamp w = (Ok u, w') -> Inv (wd_db w').
Proof.
  intros HI Hfin Hnew Hrun. unfold record_usage, _append_ledger in Hrun. run_all. carry. flat_db.
  all: apply inv_add_charge; [| |done]; simpl; same_tables; done.
Qed.

Section FinishRows.
Variables (d d' : db) (aid : string) (l : lease_row) (a : attempt_row) (t : task_row) (stamp : Z).
Variables (fa : attempt_row -> attempt_row) (ft : task_row -> task_row) (settle : bool).
Hypothesis HI : Inv d.
Hypothesis Hfenced : In l (leases d) /\ l_attempt_id l = aid /\ live l = true /\
  In a (task_attempts d) /\ a_id a = aid /\ In t (tasks d) /\ t_id t = a_task_id a.
Hypothesis Hopen : settle = true -> t_state t <> TCancelled.
Hypothesis Hfa : forall x, a_id (fa x) = a_id x /\ a_task_id (fa x) = a_task_id x /\
  fence (fa x) = fence x /\ attempt_final (a_state (fa x)) = true.
Hypothesis Hft : forall x, t_id (ft x) = t_id x.
Hypothesis Htasks : tasks d' =
  update (fun x => settle && (t_id x =d a_task_id a)) ft (tasks d).
Hypothesis Hattempts : task_attempts d' = update (fun x => a_id x =d aid) fa (task_attempts d).
Hypothesis Hleases : leases d' = update (fun x => l_attempt_id x =d aid)
  (fun x => x <| l_released_at := Some stamp |>) (leases d).
Hypothesis Hworkers : workers d' = workers d.
Hypothesis Hledger : usage_ledger d' = usage_ledger d.

Lemma finish_executing : executing a = true.
Proof using HI Hfenced.
  destruct Hfenced as (Hl & El & Hlive & Ha & Ea & _).
  apply (inv_live_executing d HI l a); congruence.
Qed.

(** Ending the fenced attempt: its lease is released with it, and its task,
    unless it was cancelled, moves to its outcome. *)
Lemma finish_rows_inv : Inv d'.
Proof using HI Hfenced Hopen Hfa Hft Htasks Hattempts Hleases Hworkers Hledger.
  destruct Hfenced as (Hl & El & Hlive & Ha & Ea & Ht & Et). pose proof finish_executing as Hex.
  assert (Hself : forall x, In x (task_attempts d) -> a_id x = aid -> x = a)
    by (intros x Hx Ex; apply (attempt_unique d); auto; congruence).
  assert (Hfinal : forall x, executing (fa x) = false /\ a_state (fa x) <> AReserved /\
                             attempt_unstarted (a_state (fa x)) = false).
  { intros x. destruct (Hfa x) as (_ & _ & _ & Hf). unfold executing.
    by destruct (a_state (fa x)). }
  eapply (row_transition_inv d); [|done]. constructor.
  { exact Htasks. } { exact Hattempts. } { exact Hleases. }
  { rewrite Hworkers. symmetry. apply map_id. } { exact Hledger. }
  all: try (by row_cases).
  - intros x. cbv beta. case_match; [|done]. by destruct (Hfa x) as (? & ? & ? & _).
  - intros x Hx. cbv beta. case_match; [|done]. destruct (Hfinal x) as (H1 & H2 & H3).
    rewrite H1, H3. done.
  - intros x Hx Hf. cbv beta. destruct (a_id x =d aid) eqn:Ex; [|done]. split_bools.
    rewrite (Hself x Hx Ex) in Hf. unfold executing in Hex. by destruct (a_state a).
  - intros x Hx Hs. cbv beta. destruct (settle && _) eqn:Ex; [|done]. split_bools.
    destruct (executing_held d a t x) as [-> Hh]; auto; [congruence|].
    assert (t_state t <> TCancelled) by auto. by destruct (t_state t).
  - intros l' a' _ _ E' Hlv Hx. cbv beta. rewrite E'. destruct (Hfinal a') as (Hf & _).
    destruct (l_attempt_id l' =d aid); simpl; by rewrite ?Hlv, ?Hx, ?Hf.
  - intros t' a' Ht' Ha' Et' Hx Hx' Hh Hw. cbv beta. destruct (settle && _) eqn:Ep; [|done].
    exfalso. split_bools.
    assert (a_id a' = a_id a) as Ea' by (apply (inv_exclusive d HI); auto; congruence).
    cbv beta in Hx'. rewrite Ea', Ea, bool_decide_eq_true_2 in Hx' by done.
    destruct (Hfinal a'). congruence.
Qed.

(** The finished attempt is final and had not been charged. *)
Lemma finish_rows_final :
  (exists b, In b (task_attempts d') /\ a_id b = aid /\ attempt_final (a_state b) = true) /\
  (forall e, In e (usage_ledger d') -> charge e = true -> ul_attempt_id e <> aid).
Proof using HI Hfenced Hfa Hattempts Hledger.
  destruct Hfenced as (_ & _ & _ & Ha & Ea & _). pose proof finish_executing as Hex. split.
  - exists (fa a). rewrite Hattempts. destruct (Hfa a) as (-> & _ & _ & Hf). split_and!; auto.
    apply in_update. exists a. rewrite Ea, bool_decide_eq_true_2 by done. auto.
  - rewrite Hledger. intros e He Hc Ee.
    destruct (inv_charged_final d HI e He Hc) as (b & Hb & Eb & Hf).
    assert (b = a) as -> by (apply (attempt_unique d); auto; congruence).
    unfold executing in Hex. by destruct (a_state a).
Qed.
End FinishRows.

(** The state and the row a finished attempt gets. *)
Definition outcome_state (r : finish_report) (t : task_row) : attempt_state :=
  if t_state t =d TCancelled then ACancelled
  else if fr_succeeded r then ASucceeded else AFailed.

Definition outcome_receipt (r : finish_report) (a : attempt_row) (t : task_row) : receipt :=
  MkReceipt (fr_attempt_id r) (a_task_id a) (attempt_state_str (outcome_state r t)).

Definition finished_row (r : finish_report) (a : attempt_row) (t : task_row)
    (fc : option Z) (resp : responsibility) (stamp : Z) (x : attempt_row) : attempt_row :=
  let cancellation := t_state t =d TCancelled in
  let fc := if cancellation then Some (ErrorCode.to_int ErrorCode.EXECUTION_CANCELLED) else fc in
  let resp := if cancellation then RConsumer else resp in
  x <| a_state := outcome_state r t |> <| a_responsibility := Some resp |>
    <| a_failure_code := fc |>
    <| a_safe_failure_details := Some (JDoc (JObj (canonical_task_failure_details_for_code
         (fr_safe_failure_details r) fc (Some (attempt_state_str (outcome_state r t)))))) |>
    <| a_finished_at := Some stamp |> <| a_finish_semantic_hash := fr_finish_semantic_hash r |>
    <| a_finish_receipt := match fr_finish_semantic_hash r with
                           | Some _ => Some (JDoc (receipt_json (outcome_receipt r a t)))
                           | None => None
                           end |>.

(** A normal run of the fenced branch: the rows it writes, then the published
    outputs, the usage record and the end of a drain. *)
Lemma finish_with_lease_run r l a t outs m fc resp stamp w rc w' :
  finish_with_lease r l a t outs m fc resp stamp w = (Ok rc, w') ->
  rc = outcome_receipt r a t /\
  exists w1 w2 w3,
    tasks (wd_db w1) =
      update (fun x => negb (t_state t =d TCancelled) && (t_id x =d a_task_id a))
        (fun x => x <| t_state := if fr_succeeded r then TSucceeded else TFailed |>
                    <| t_finished_at := Some stamp |> <| t_updated_at := stamp |>)
        (tasks (wd_db w)) /\
    task_attempts (wd_db w1) = update (fun x => a_id x =d fr_attempt_id r)
      (finished_row r a t fc resp stamp) (task_attempts (wd_db w)) /\
    leases (wd_db w1) = update (fun x => l_attempt_id x =d fr_attempt_id r)
      (fun x => x <| l_released_at := Some stamp |>) (leases (wd_db w)) /\
    workers (wd_db w1) = workers (wd_db w) /\
    usage_ledger (wd_db w1) = usage_ledger (wd_db w) /\
    core_eq (wd_db w1) (wd_db w2) /\
    (if negb (t_state t =d TCancelled) || is_some (a_started_at a)
     then record_usage r l a m (t_state t =d TCancelled)
            (if t_state t =d TCancelled then RConsumer else resp) stamp w2 = (Ok tt, w3)
     else w3 = w2) /\
    (w' = w3 \/ exists n, _finalize_drained_workers stamp w3 = (Ok n, w')).
Proof.
  unfold finish_with_lease. intros Hrun. cbv zeta in Hrun.
  apply run_bind in Hrun as (? & ? & Hcheck & Hrun). apply run_check in Hcheck as [_ ->].
  apply run_bind in Hrun as (? & ? & Hquery & Hrun). apply run_query in Hquery as [-> ->].
  apply run_bind in Hrun as (outputs & ? & Hvalid & Hrun). apply run_lift in Hvalid as [_ ->].
  apply run_bind in Hrun as (? & wa & Hattempts & Hrun).
  apply run_bind in Hrun as (? & wl & Hleases & Hrun).
  apply run_bind in Hrun as (? & w1 & Htasks & Hrun).
  apply run_bind in Hrun as (? & w2 & Hpublish & Hrun).
  apply run_bind in Hrun as ([] & w3 & Husage & Hrun).
  apply run_bind in Hrun as (? & ? & Hworker & Hrun). apply run_query in Hworker as [-> ->].
  apply run_bind in Hrun as (n & w4 & Hdrain & Hrun). apply run_ret in Hrun as [-> ->].
  apply run_update in Hattempts as [_ Hattempts]. apply run_update in Hleases as [_ Hleases].
  apply run_frames in Hpublish; [|auto with frames].
  split; [done|]. exists w1, w2, w3.
  assert (wd_db w1 = modify tasks
      (update (fun x => negb (t_state t =d TCancelled) && (t_id x =d a_task_id a))
        (fun x => x <| t_state := if fr_succeeded r then TSucceeded else TFailed |>
                    <| t_finished_at := Some stamp |> <| t_updated_at := stamp |>)) (wd_db wl))
    as Hw1.
  { destruct (t_state t =d TCancelled); simpl.
    - apply run_ret in Htasks as [_ ->]. destruct (wd_db wl). unfold modify. simpl. f_equal.
      symmetry. by apply update_none.
    - by apply run_update in Htasks as [_ ->]. }
  split_and!; try exact Hpublish; try (by rewrite Hw1, Hleases, Hattempts).
  - destruct (negb _ || _); [done|]. by apply run_ret in Husage as [_ ->].
  - destruct (find_by _ _ _) as [wk|]; [destruct (w_status wk =d WDraining)|].
    + right. eauto.
    + left. by apply run_ret in Hdrain as [_ ->].
    + left. by apply run_ret in Hdrain as [_ ->].
Qed.

Lemma finished_row_keys r a t fc resp stamp x :
  let y := finished_row r a t fc resp stamp x in
  a_id y = a_id x /\ a_task_id y = a_task_id x /\ fence y = fence x /\
  attempt_final (a_state y) = true.
Proof.
  unfold finished_row, outcome_state. simpl. split_and!; try done.
  by destruct (t_state t =d TCancelled), (fr_succeeded r).
Qed.

Lemma preserves_finish_attempt r : preserves Inv (finish_attempt r).
Proof.
  unfold finish_attempt. op_steps.
  apply run_bind in Hrun as (? & ? & Hq & Hrun). apply run_query in Hq as [-> ->].
  destruct (fenced_lease _ _ _ _) as [[[l at_] t]|] eqn:El;
    [|by run_all]. destruct (_ && _) eqn:Elive; [|by run_all].
  apply fenced_lease_spec in El as (Hl & El & _ & _ & Hlive & Ha & Eaid & Ht & Et).
  apply finish_with_lease_run in Hrun as (_ & w1 & w2 & w3 & Ht1 & Ha1 & Hl1 & Hw1 & Hu1 & Hc & Hu & Hd).
  assert (Hopen : negb (t_state t =d TCancelled) = true -> t_state t <> TCancelled)
    by (intros; by split_bools).
  assert (Hf : In l (leases (wd_db w)) /\ l_attempt_id l = fr_attempt_id r /\ live l = true /\
    In at_ (task_attempts (wd_db w)) /\ a_id at_ = fr_attempt_id r /\ In t (tasks (wd_db w)) /\
    t_id t = a_task_id at_) by done.
  unshelve epose proof (finish_rows_inv _ _ _ _ _ _ _ _ _ _ HI Hf Hopen
    (finished_row_keys r at_ t _ _ _) _ Ht1 Ha1 Hl1 Hw1 Hu1) as HI1; [done|].
  pose proof (finish_rows_final _ _ _ _ _ _ _ HI Hf (finished_row_keys r at_ t _ _ _) Ha1 Hu1)
    as [Hfin Hnew].
  pose proof (inv_frame _ _ Hc HI1) as HI2. destruct Hc as (_ & Ec & _ & _ & Eu).
  assert (Inv (wd_db w3)) as HI3.
  { destruct (negb _ || _); [|by subst]. eapply record_usage_inv; [exact HI2| | |exact Hu].
    - by rewrite Ec.
    - by rewrite Eu. }
  destruct Hd as [->|[n Hd]]; [done|]. by eapply keeps_finalize_drained.
Qed.
End Progress.

Section Corrections.
Context {E : Env} {P : Past}.

Lemma preserves_reverse_usage_charge ws i u c : preserves Inv (reverse_usage_charge ws i u c).
Proof.
  unfold reverse_usage_charge. op_steps. run_all; try done. carry.
  eapply inv_frame; [eassumption|]. flat_db. by apply inv_add_correction.
Qed.
End Corrections.

Section FleetOperations.
Context {E : Env} {P : Past}.

Lemma reads_only_worker_value r : reads_only (_worker_value r).
Proof. unfold _worker_value. solve_reads_match. Qed.
Lemma reads_only_snapshot i : reads_only (authorization_snapshot i).
Proof. unfold authorization_snapshot. solve_reads_match. Qed.
#[local] Hint Resolve reads_only_worker_value reads_only_snapshot : reads.

Lemma frames_reconcile i x stamp : frames (_reconcile_bundled_bootstrap_authorizations i x stamp).
Proof.
  unfold _reconcile_bundled_bootstrap_authorizations, upsert_workflow_auth, upsert_model_auth.
  solve_frames.
Qed.
#[local] Hint Resolve frames_reconcile : frames.

(** A new worker, with a fresh identifier: no attempt names it yet. *)
Lemma inv_add_worker d w :
  (forall w', In w' (workers d) -> w_id w' <> w_id w) -> 0 < w_capacity w ->
  w_status w <> WRevoked -> Inv d -> Inv (modify workers (fun ws => ws ++ [w]) d).
Proof.
  intros Hnew Hcap Hst HI. pose proof (inv_capacity d HI) as Hold. pose proof (inv_fence_bound d HI) as Hb.
  pose proof (inv_past_revoked d HI) as Hpast. destruct HI. constructor; simpl; auto.
  - by apply NoDup_map_snoc.
  - intros a Ha. destruct (Hb a Ha) as (w' & Hw & Hrest). exists w'. rewrite in_app_iff. auto.
  - intros w' [Hw|[<-|[]]]%in_app_iff; [by apply Hold|].
    unfold executing_count. simpl. rewrite (proj2 (count_zero _ _)); [lia|].
    intros a Ha. destruct (Hb a Ha) as (w' & Hw & Ew & _).
    by rewrite bool_decide_eq_false_2 by (rewrite <- Ew; auto).
  - intros w' a [Hw|[<-|[]]]%in_app_iff; [by eauto|done].
  - intros i Hin. destruct (Hpast i Hin) as (w' & Hw & Hrest). exists w'.
    rewrite in_app_iff. auto.
Qed.

(** Statements on the workers table that keep identifier, capacity and counter,
    and revoke only idle workers. *)
Lemma inv_update_workers d p f :
  (forall w, w_id (f w) = w_id w /\ w_capacity (f w) = w_capacity w /\
             w_fencing_counter (f w) = w_fencing_counter w) ->
  (forall w, In w (workers d) -> p w = true ->
     (w_status w = WRevoked -> w_status (f w) = WRevoked) /\
     (w_status (f w) = WRevoked -> w_status w = WRevoked \/ worker_idle d (w_id w))) ->
  Inv d -> Inv (modify workers (update p f) d).
Proof.
  intros Hf Hs HI. eapply (row_transition_inv d); [|done]. constructor; simpl.
  { symmetry. apply map_id. } { symmetry. apply map_id. } { symmetry. apply map_id. }
  { reflexivity. } { reflexivity. }
  all: try (by row_cases).
  - intros w _. cbv beta. destruct (p w); [|by repeat split].
    destruct (Hf w) as (-> & -> & ->). by repeat split.
  - intros w Hw Hr. cbv beta. destruct (p w) eqn:Ep; [|done]. by apply (Hs w Hw Ep).
  - intros w a Hw Ha Hn. cbv beta. destruct (p w) eqn:Ep; [|done]. intros Hr Ea.
    destruct (proj2 (Hs w Hw Ep) Hr) as [?|Hi]; [done|]. by apply Hi.
Qed.

(** A statement that does not touch the status. *)
Lemma inv_touch_workers d p f :
  (forall w, w_id (f w) = w_id w /\ w_capacity (f w) = w_capacity w /\
             w_fencing_counter (f w) = w_fencing_counter w /\ w_status (f w) = w_status w) ->
  Inv d -> Inv (modify workers (update p f) d).
Proof.
  intros Hf. apply inv_update_workers.
  - intros w. by destruct (Hf w) as (? & ? & ? & _).
  - intros w _ _. destruct (Hf w) as (_ & _ & _ & ->). auto.
Qed.

Lemma preserves_create_worker r : preserves Inv (create_worker r).
Proof.
  unfold create_worker. op_steps. unfold _initialize_worker_capability_state in *.
  run_all; try done; carry; flat_db.
  all: repeat (apply inv_touch_workers; [done|]).
  all: try (eapply inv_frame; [eassumption|]).
  all: unfold workers_ok in *; split_bools; apply inv_add_worker; try done; by apply has_key_false.
Qed.

Lemma preserves_offer_worker i o p : preserves Inv (offer_worker i o p).
Proof. apply preserves_frames. unfold offer_worker. solve_frames. Qed.

Lemma preserves_reconcile_policy : preserves Inv _reconcile_bundled_bootstrap_policy.
Proof. apply preserves_frames. unfold _reconcile_bundled_bootstrap_policy. solve_frames. Qed.

Lemma preserves_worker_heartbeat i c : preserves Inv (worker_heartbeat i c).
Proof.
  unfold worker_heartbeat. op_steps. run_all; try done; carry; flat_db.
  1: by apply inv_touch_workers.
  all: apply inv_update_workers; [done| |done]; intros v Hv Ei; split_bools.
  all: match goal with H : find_by w_id _ _ = Some ?r |- _ =>
    apply find_by_some in H as [Hr Er];
    assert (v = r) as -> by (apply (NoDup_map_inj w_id (workers (wd_db w))); auto; [apply HI|congruence])
  end.
  all: split; [done|]; by intros Hs.
Qed.

Lemma preserves_set_worker_manager i o a b : preserves Inv (set_worker_manager i o a b).
Proof.
  unfold set_worker_manager. op_steps. run_all; try done; carry; flat_db.
  all: try (eapply inv_frame; [eassumption|]).
  all: by apply inv_touch_workers.
Qed.

(** Ending reserved attempts and moving unheld tasks keeps the invariant. *)
Lemma inv_drop_reserved d p q f g :
  (forall a, a_id (f a) = a_id a /\ a_task_id (f a) = a_task_id a /\ fence (f a) = fence a /\
             attempt_active (a_state (f a)) = false) ->
  (forall a, p a = true -> a_state a = AReserved) ->
  (forall t, t_id (g t) = t_id t) ->
  (forall t, In t (tasks d) -> q t = true -> task_idle (t_state t) = true) ->
  Inv d -> Inv (modify tasks (update q g) (modify task_attempts (update p f) d)).
Proof.
  intros Hf Hp Hg Hq HI. apply inv_update_tasks; [done|done|].
  eapply (row_transition_inv d); [|done]. constructor; simpl.
  { symmetry. apply map_id. } { reflexivity. } { symmetry. apply map_id. }
  { symmetry. apply map_id. } { reflexivity. }
  all: try (by row_cases).
  - intros a. cbv beta. destruct (p a); [|done]. by destruct (Hf a) as (? & ? & ? & _).
  - intros a _. cbv beta. unfold executing. destruct (p a); [|done].
    destruct (Hf a) as (_ & _ & _ & Ha). by destruct (a_state (f a)).
  - intros a _ Hfin. cbv beta. destruct (p a) eqn:Ep; [|done]. by rewrite (Hp a Ep) in Hfin.
  - intros l a Hl Ha Ea Hlive Hex. cbv beta. unfold executing in *.
    destruct (p a) eqn:Ep; [|done]. by rewrite (Hp a Ep) in Hex.
Qed.

(** The tasks of [ids] are the selected ones, by uniqueness of identifiers. *)
Lemma ids_selected d (p : task_row -> bool) t :
  Inv d -> In t (tasks d) -> t_id t ∈? map t_id (select p (tasks d)) = true -> p t = true.
Proof.
  intros HI Ht (t' & Et & [Ht' Hp]%in_select)%elem_b_spec%list_elem_of_In%in_map_iff.
  by rewrite (NoDup_map_inj t_id (tasks d) t t'); [|apply HI|..].
Qed.

Lemma keeps_expire_prepared i stamp : keeps Inv (expire_prepared i stamp).
Proof.
  intros w u w' HI Hrun. unfold expire_prepared in Hrun. run_step. run_step.
  match type of Hrun with (match ?l with _ => _ end) _ = _ => destruct l eqn:El end;
    [by run_all|]. rewrite <- El in Hrun. run_all. flat_db.
  apply inv_drop_reserved; try done; [by intros a Ha; split_bools|].
  intros t Ht Hp%ids_selected; [|done..]. split_bools. by assert (t_state t = TPrepared) as -> by done.
Qed.

Lemma keeps_return_queued i stamp : keeps Inv (return_queued i stamp).
Proof.
  intros w u w' HI Hrun. unfold return_queued in Hrun. run_step. run_step.
  match type of Hrun with (match ?l with _ => _ end) _ = _ => destruct l eqn:El end;
    [by run_all|]. rewrite <- El in Hrun. run_all.
  all: match goal with H : for_each _ _ _ = _ |- _ => apply run_frames in H;
    [|solve_frames] end.
  all: eapply inv_frame; [eassumption|]; flat_db.
  all: apply inv_drop_reserved; try done; [by intros a Ha; split_bools|].
  all: unfold queued_on; rewrite map_map; simpl.
  all: intros t Ht Hp%ids_selected; [|done..].
  all: apply andb_true_iff in Hp as [_ Hp]; destruct (t_state t); done.
Qed.

(** The tables of the work itself. *)
Definition work_tables (d : db) := (tasks d, task_attempts d, leases d).

(** Taking the work of a worker back while revoking it keeps the invariant. *)
Lemma revoke_work_inv i stamp f d w u w' :
  (forall x, w_id (f x) = w_id x /\ w_capacity (f x) = w_capacity x /\
             w_fencing_counter (f x) = w_fencing_counter x /\ w_status (f x) = WRevoked) ->
  work_tables (wd_db w) = work_tables d -> usage_ledger (wd_db w) = usage_ledger d ->
  workers (wd_db w) = update (fun x => w_id x =d i) f (workers d) ->
  Inv d -> revoke_work i stamp w = (Ok u, w') -> Inv (wd_db w').
Proof.
  intros Hf [= Et Ea El] Eu Ew HI Hrun. unfold revoke_work in Hrun. run_all.
  match goal with H : for_each _ _ _ = _ |- _ => apply run_frames in H; [|solve_frames] end.
  eapply inv_frame; [eassumption|]. flat_db.
  eapply (row_transition_inv d); [|done]. constructor; simpl; rewrite ?Et, ?Ea, ?El, ?Eu, ?Ew;
    [reflexivity|reflexivity|reflexivity|reflexivity|reflexivity|..]; try (by row_cases).
  - intros x _. cbv beta. destruct (w_id x =d i); [|by repeat split].
    destruct (Hf x) as (-> & -> & -> & _). by repeat split.
  - intros x _ Hs. cbv beta. destruct (w_id x =d i); [|done]. apply Hf.
  - intros x a _ _ Hn Hs Eq. cbv beta in *. destruct (w_id x =d i) eqn:Ei; [|done]. split_bools.
    rewrite Eq, Ei, bool_decide_eq_true_2 by done. unfold executing. by destruct (a_state a) eqn:Es;
      simpl; rewrite ?Es.
  - intros l a Hl Ha Eal Hlive Hex. cbv beta.
    destruct (inv_lease_attempt _ HI l Hl) as (b & Hb & Eb & Ewb & _).
    assert (b = a) as -> by (apply (attempt_unique d); auto; congruence).
    rewrite Ewb. unfold live, executing in *. rewrite Hlive, andb_true_r.
    destruct (l_worker_id l =d i); simpl; [|by rewrite Hlive, Hex].
    destruct (a_state a); done.
  - intros t a Ht Ha Eta Hex Hex' Hh Hw. cbv beta. rewrite Hw.
    destruct (Some (a_worker_id a) =d Some i) eqn:Ewa; simpl; [|done].
    exfalso. split_bools. injection Ewa as Ewa. revert Hex'. unfold executing in *. cbv beta.
    rewrite Ewa, bool_decide_eq_true_2 by done. destruct (a_state a); done.
Qed.

(** The fleet tables after a departure with result [status]. *)
Definition departed (i : string) (status : worker_status) (stamp : Z) (d d' : db) : Prop :=
  workers d' = update (fun w => w_id w =d i)
    (fun w => w <| w_status := status |> <| w_updated_at := stamp |>
                <| w_revoked_at := if status =d WRevoked then Some stamp
                                   else w_revoked_at w |>) (workers d) /\
  worker_allocations d' = update (fun a => (al_worker_id a =d i) && negb (al_status a =d AlRevoked))
    (fun a => a <| al_status := AlRevoked |> <| al_revoked_at := Some stamp |>
                <| al_updated_at := stamp |>) (worker_allocations d) /\
  worker_maintenance_jobs d' = update (fun j => (mj_worker_id j =d i) && job_active (mj_state j))
    (fun j => j <| mj_state := MCancelled |> <| mj_completed_at := Some stamp |>
                <| mj_updated_at := stamp |> <| mj_lease_session_id := None |>
                <| mj_lease_expires_at := None |>
                <| mj_fencing_token := mj_fencing_token j + 1 |>) (worker_maintenance_jobs d) /\
  sessions d' = (if status =d WRevoked then
                   update (fun s => (ss_principal_type s =d PWorker) && (ss_principal_id s =d i) &&
                                    (ss_revoked_at s =d None))
                          (fun s => s <| ss_revoked_at := Some stamp |>) (sessions d)
                 else sessions d).

Definition executes (d : db) (i : string) : bool :=
  existsb (fun a => (a_worker_id a =d i) && attempt_executing (a_state a)) (task_attempts d).

Lemma leave_run i o force w status w' :
  leave_worker i o force w = (Ok status, w') ->
  let stamp := clock (wd_ticks w) in
  exists w0 w1 w2 w3,
    wd_db w0 = wd_db w /\
    status = (if force || negb (executes (wd_db w) i) then WRevoked else WDraining) /\
    expire_prepared i stamp w0 = (Ok tt, w1) /\
    (if force then w2 = w1 else return_queued i stamp w1 = (Ok tt, w2)) /\
    departed i status stamp (wd_db w2) (wd_db w3) /\
    work_tables (wd_db w3) = work_tables (wd_db w2) /\
    usage_ledger (wd_db w3) = usage_ledger (wd_db w2) /\
    (if force then revoke_work i stamp w3 = (Ok tt, w') else w' = w3).
Proof.
  intros Hrun. unfold leave_worker in Hrun.
  apply run_bind in Hrun as (ow & wq & Hq & Hrun). apply run_query in Hq as [-> ->].
  apply run_bind in Hrun as (worker & wq & Hq & Hrun). apply run_require in Hq as [_ ->].
  apply run_bind in Hrun as (stamp & w0 & Hnow & Hrun). injection Hnow as <- <-.
  apply run_transaction in Hrun. cbv zeta.
  exists (w <| wd_ticks := S (wd_ticks w) |>).
  apply run_bind in Hrun as (active & wq & Hq & Hrun). apply run_query in Hq as [-> ->].
  apply run_bind in Hrun as (u1 & w1 & H1 & Hrun). exists w1.
  apply run_bind in Hrun as (u2 & w2 & H2 & Hrun). exists w2. destruct u1, u2.
  set (status' := if _ : bool then _ else _) in Hrun.
  apply run_bind in Hrun as (n3 & w3 & [_ H3]%run_update & Hrun).
  apply run_bind in Hrun as (n4 & w4 & [_ H4]%run_update & Hrun).
  apply run_bind in Hrun as (n5 & w5 & [_ H5]%run_update & Hrun).
  apply run_bind in Hrun as (n6 & w6 & H6 & Hrun). exists w6.
  apply run_bind in Hrun as (u7 & w7 & H7 & Hrun). destruct u7.
  apply run_ret in Hrun as [-> ->].
  assert (wd_db w6 = wd_db w5 \/ exists g, wd_db w6 = modify sessions g (wd_db w5)) as H6'.
  { destruct (status' =d WRevoked); [right; apply run_update in H6 as [_ ->]; eauto|].
    apply run_ret in H6 as [_ ->]. auto. }
  assert (sessions (wd_db w6) = if status' =d WRevoked then
            update (fun s => (ss_principal_type s =d PWorker) && (ss_principal_id s =d i) &&
                             (ss_revoked_at s =d None))
              (fun s => s <| ss_revoked_at := Some (clock (wd_ticks w)) |>) (sessions (wd_db w2))
          else sessions (wd_db w2)) as Es.
  { destruct (status' =d WRevoked); [apply run_update in H6 as [_ ->]|apply run_ret in H6 as [_ ->]].
    all: by rewrite H5, H4, H3. }
  unfold departed, work_tables. rewrite Es. split_and!; try done.
  - by destruct force; [apply run_ret in H2 as [_ ->]|].
  - by destruct H6' as [->|[g ->]]; rewrite ?H5, ?H4, ?H3.
  - by destruct H6' as [->|[g ->]]; simpl; rewrite ?H5, ?H4, ?H3.
  - by destruct H6' as [->|[g ->]]; simpl; rewrite ?H5, ?H4, ?H3.
  - by destruct H6' as [->|[g ->]]; simpl; rewrite ?H5, ?H4, ?H3.
  - by destruct H6' as [->|[g ->]]; simpl; rewrite ?H5, ?H4, ?H3.
  - by destruct force; [|apply run_ret in H7 as [_ ->]].
Qed.

(** Ending unleased work starts nothing and changes no worker. *)
Definition workers_are (W : list worker_row) (d : db) : Prop := workers d = W.

Lemma unleased_stable (I : db -> Prop) i stamp :
  (forall d p q g, I d -> I (modify tasks (update q g) (modify task_attempts (update p
     (fun a => a <| a_state := AExpired |> <| a_finished_at := Some stamp |>)) d))) ->
  (forall d p q g, I d -> I (modify tasks (update q g) (modify task_attempts (update p
     (fun a => a <| a_state := ACancelled |> <| a_responsibility := Some RProvider |>
                 <| a_failure_code := Some WORKER_DRAINING |>
                 <| a_finished_at := Some stamp |>)) d))) ->
  (forall d d', core_eq d d' -> I d -> I d') ->
  keeps I (expire_prepared i stamp) /\ keeps I (return_queued i stamp).
Proof.
  intros H1 H2 Hf. split; intros w u w' HI Hrun; unfold expire_prepared, return_queued in Hrun;
    run_step; run_step.
  all: match type of Hrun with (match ?l with _ => _ end) _ = _ => destruct l eqn:El end;
    [by run_all|rewrite <- El in Hrun; clear El].
  - run_all. flat_db. by apply H1.
  - run_all. match goal with H : for_each _ _ _ = _ |- _ => apply run_frames in H; [|solve_frames] end.
    eapply Hf; [eassumption|]. flat_db. by apply H2.
Qed.

Lemma unleased_workers i stamp W :
  keeps (workers_are W) (expire_prepared i stamp) /\ keeps (workers_are W) (return_queued i stamp).
Proof.
  apply unleased_stable; unfold workers_are; try done. intros d d' (_ & _ & _ & -> & _). done.
Qed.

Lemma unleased_idle i stamp j :
  keeps (fun d => worker_idle d j) (expire_prepared i stamp) /\
  keeps (fun d => worker_idle d j) (return_queued i stamp).
Proof.
  apply unleased_stable; unfold worker_idle; simpl.
  1, 2: intros d p q g HI a' (a & Ha & [[_ ->]|[_ ->]])%in_update Ei; [done|by apply HI].
  intros d d' (_ & -> & _). done.
Qed.

Lemma preserves_leave_worker i o force : preserves Inv (leave_worker i o force).
Proof.
  apply preserves_atomic; [unfold leave_worker; solve_atomic|].
  intros w status w' HI (w0 & w1 & w2 & w3 & E0 & Es & Hp & Hq & Hd & Hw & Hu & Hr)%leave_run.
  rewrite <- E0 in HI. pose proof (keeps_expire_prepared _ _ _ _ _ HI Hp) as HI1.
  destruct Hd as (Ew & _). destruct force.
  { subst w2 status. eapply (revoke_work_inv i _ _ (wd_db w1)); [|done|done|exact Ew|done|exact Hr].
    by intros x. }
  pose proof (keeps_return_queued _ _ _ _ _ HI1 Hq) as HI2. subst w'.
  eapply (inv_frame (modify workers (update _ _) (wd_db w2))).
  { injection Hw as Et Ea El. split_and!; [exact Et|exact Ea|exact El|exact Ew|exact Hu]. }
  apply inv_update_workers; [done| |done]. intros x Hx Ei. split_bools.
  assert (workers (wd_db w2) = workers (wd_db w0)) as Ew2.
  { apply (proj1 (unleased_workers i _ (workers (wd_db w0)))) in Hp; [|done].
    by apply (proj2 (unleased_workers i _ (workers (wd_db w0)))) in Hq. }
  rewrite Es. destruct (executes (wd_db w) i) eqn:Ex; simpl; (split; [|]); try done.
  - intros Hrev. exfalso. unfold executes in Ex.
    apply existsb_exists in Ex as (a & Ha & Hpa). split_bools. rewrite <- E0 in Ha.
    rewrite Ew2 in Hx. pose proof (inv_revoked_idle _ HI x a Hx Hrev Ha ltac:(congruence)) as Hn.
    unfold executing in Hn. congruence.
  - intros _. right. rewrite Ei.
    apply (proj2 (unleased_idle i (clock (wd_ticks w)) i) w1 tt w2); [|exact Hq].
    apply (proj1 (unleased_idle i (clock (wd_ticks w)) i) w0 tt w1); [|exact Hp].
    rewrite E0. intros a Ha Ea. destruct (executing a) eqn:Hea; [|done].
    rewrite <- Ex. symmetry. unfold executes. apply existsb_exists. exists a.
    rewrite Ea, bool_decide_eq_true_2 by done. done.
Qed.
End FleetOperations.
