(* ===== verification/Commands.v ===== *)
(** * The broker command queue: life cycle and reports

    Every operation that writes the queue of broker commands moves each command along an
    abstract machine, and an accepted report of a rekey command agrees with the attempts. *)

From stdpp Require Import relations.
From S2P Require Import Prelude Python Errors Schema Store Framing Access Capability Scheduler Fleet Encoding.
From S2P Require Import Signing Grants Maintenance Invariant Lifecycle Broker.

Open Scope Z_scope.

(** ** The life of a command

    The abstract machine of one command: pending until it is completed, failed or
    lapses; a lapsed one may be revived for the same key; completion is final. *)

Inductive command_step : relation broker_command_row :=
| command_completes c (ok : bool) result stamp :
    bc_state c = CPending ->
    command_step c (c <| bc_state := if ok then CCompleted else CFailed |>
                      <| bc_result := Some result |> <| bc_completed_at := Some stamp |>)
| command_lapses c : bc_state c = CPending -> command_step c (c <| bc_state := CExpired |>)
| command_revived c payload device created expires :
    bc_state c = CExpired ->
    command_step c (c <| bc_payload := payload |> <| bc_broker_device_id := device |>
                      <| bc_state := CPending |> <| bc_created_at := created |> <| bc_expires_at := expires |>).

Definition queued_now (c : broker_command_row) : Prop :=
  bc_state c = CPending /\ bc_result c = None /\ bc_completed_at c = None.

(** Rows keep their place, each along the machine's steps; new rows follow them. *)
Definition advances (l l' : list broker_command_row) : Prop :=
  exists kept new, l' = kept ++ new /\ Forall2 (rtc command_step) l kept /\
    Forall (fun c => exists c0, queued_now c0 /\ rtc command_step c0 c) new.

#[export] Instance advances_preorder : PreOrder advances.
Proof.
  split.
  - intros l. exists l, []. rewrite app_nil_r. split_and!; [done| |done]. by apply Forall_Forall2_diag, Forall_true.
  - intros l1 l2 l3 (k1 & n1 & -> & Hk1 & Hn1) (k2 & n2 & -> & Hk2 & Hn2).
    apply Forall2_app_inv_l in Hk2 as (k1' & n1' & Hk & Hn & ->).
    exists k1', (n1' ++ n2). rewrite <- app_assoc. split_and!; [done| |].
    + by etrans.
    + apply Forall_app. split; [|done]. apply Forall_lookup. intros i c Hc.
      destruct (Forall2_lookup_r _ _ _ _ _ Hn Hc) as (c1 & Hc1 & Hs).
      destruct (proj1 (Forall_lookup _ _) Hn1 _ _ Hc1) as (c0 & Hq & Hs0). exists c0. split; [done|by etrans].
Qed.

Definition commands_advance : relation db := fun d d' => advances (broker_commands d) (broker_commands d').
#[export] Instance commands_advance_preorder : PreOrder commands_advance.
Proof. unfold commands_advance. split; [intros d|intros x y z]; [done|apply transitivity]. Qed.

Lemma advances_update p f l :
  (forall c, p c = true -> command_step c (f c)) -> advances l (update p f l).
Proof.
  intros H. exists (update p f l), []. rewrite app_nil_r. split_and!; [done| |done].
  unfold update. induction l as [|c l IH]; constructor; [|done].
  destruct (p c) eqn:Hp; [|done]. by apply rtc_once, H.
Qed.

Lemma advances_queued r l : queued_now r -> advances l (l ++ [r]).
Proof.
  intros Hr. exists l, [r]. split_and!; [done| |]; [by apply Forall_Forall2_diag, Forall_true|].
  constructor; [|done]. by exists r.
Qed.

(** A settled command is final. *)
Definition settled (c : broker_command_row) : Prop := bc_state c = CCompleted \/ bc_state c = CFailed.

Lemma settled_stays c c' : settled c -> rtc command_step c c' -> c' = c.
Proof. intros Hs Hp. destruct Hp as [|c c1 c2 Hst _]; [done|]. destruct Hs, Hst; congruence. Qed.

(** *** The operations that reach the queue *)

Create HintDb advance.

Lemma advance_other {A} (m : M A) :
  (forall w, broker_commands (wd_db (snd (m w))) = broker_commands (wd_db w)) -> respects commands_advance m.
Proof. intros H w. unfold commands_advance. by rewrite H. Qed.

Lemma advance_reads {A} (m : M A) : reads_only m -> respects commands_advance m.
Proof. apply respects_reads. apply _. Qed.

Lemma advance_update {R} (table : db -> list R) `{!Setter table} p f :
  (forall g d, broker_commands (modify table g d) = broker_commands d) ->
  respects commands_advance (sql_update table p f).
Proof. intros H. apply advance_other. intros w. simpl. apply H. Qed.

Lemma advance_update_unique {R} (table : db -> list R) `{!Setter table} v p f :
  (forall g d, broker_commands (modify table g d) = broker_commands d) ->
  respects commands_advance (sql_update_unique table v p f).
Proof.
  intros H. apply advance_other. intros w. unfold sql_update_unique. destruct (v _); [|done]. simpl. apply H.
Qed.

Lemma advance_insert {R} (table : db -> list R) `{!Setter table} ok r :
  (forall g d, broker_commands (modify table g d) = broker_commands d) ->
  respects commands_advance (sql_insert table ok r).
Proof.
  intros H. apply advance_other. intros w. unfold sql_insert. destruct (ok _ _); [|done]. simpl. apply H.
Qed.

Lemma advance_delete {R} (table : db -> list R) `{!Setter table} p :
  (forall g d, broker_commands (modify table g d) = broker_commands d) ->
  respects commands_advance (sql_delete table p).
Proof. intros H. apply advance_other. intros w. simpl. apply H. Qed.

Lemma advance_upsert r : queued_now r -> respects commands_advance (upsert_command r).
Proof.
  intros Hr. unfold upsert_command. apply respects_bind; [apply _|by apply advance_reads|]. intros [].
  - apply respects_bind; [apply _| |intros; by apply advance_reads]. apply respects_update. intros d.
    apply advances_update. intros c [_ Hc%bool_decide_eq_true]%andb_true_iff. by apply command_revived.
  - apply respects_insert; [apply _|]. intros d _. by apply advances_queued.
Qed.

Lemma advance_lapse (p : broker_command_row -> bool) :
  respects commands_advance (sql_update broker_commands (fun c => (bc_state c =d CPending) && p c)
    (fun c => c <| bc_state := CExpired |>)).
Proof.
  apply respects_update. intros d. apply advances_update.
  intros c [Hc%bool_decide_eq_true _]%andb_true_iff. by apply command_lapses.
Qed.

Lemma advance_settle (p : broker_command_row -> bool) (ok : bool) result stamp :
  respects commands_advance (sql_update broker_commands (fun c => p c && (bc_state c =d CPending))
    (fun c => c <| bc_state := if ok then CCompleted else CFailed |> <| bc_result := Some result |>
                <| bc_completed_at := Some stamp |>)).
Proof.
  apply respects_update. intros d. apply advances_update.
  intros c [_ Hc%bool_decide_eq_true]%andb_true_iff. by apply command_completes.
Qed.

Lemma advance_now `{Env} : respects commands_advance now.
Proof. apply respects_now. apply _. Qed.
Lemma advance_new_id `{Env} p : respects commands_advance (new_id p).
Proof. apply respects_new_id. apply _. Qed.

#[export] Hint Resolve advance_upsert advance_lapse advance_settle advance_now advance_new_id : advance.
#[export] Hint Resolve advance_update advance_update_unique advance_insert advance_delete : advance.
#[export] Hint Extern 4 (respects commands_advance _) => (apply advance_reads; solve [auto with reads]) : advance.
#[export] Hint Extern 1 (queued_now _) => done : advance.
#[export] Hint Extern 1 (forall _ _, broker_commands _ = _) => done : advance.
Ltac solve_advance := solve_respects ltac:(auto with advance).

Section Queue.
Context {E : Env}.

Lemma advance_enqueue t a r stamp : respects commands_advance (_enqueue_task_rekey_command t a r stamp).
Proof. unfold _enqueue_task_rekey_command. solve_advance. Qed.
#[local] Hint Resolve advance_enqueue : advance.
Lemma advance_ensure stamp u : respects commands_advance (_ensure_rekey_commands stamp u).
Proof. unfold _ensure_rekey_commands. solve_advance. Qed.
Lemma advance_expire_leases stamp : respects commands_advance (_expire_leases stamp).
Proof. unfold _expire_leases, expire_lease, _finalize_drained_workers. solve_advance. Qed.
Lemma advance_expire_reservations stamp : respects commands_advance (_expire_reservations stamp).
Proof. unfold _expire_reservations. solve_advance. Qed.
Lemma advance_expire_jobs stamp : respects commands_advance (_expire_maintenance_jobs stamp).
Proof. unfold _expire_maintenance_jobs. solve_advance. Qed.
#[local] Hint Resolve advance_ensure advance_expire_leases advance_expire_reservations advance_expire_jobs : advance.

Lemma advance_sweep : respects commands_advance sweep_expired.
Proof. unfold sweep_expired, prune_expired_security_state. solve_advance. Qed.
Lemma advance_heartbeat i u b rv pv bc n : respects commands_advance (broker_device_heartbeat i u b rv pv bc n).
Proof. unfold broker_device_heartbeat. solve_advance. Qed.
Lemma advance_poll i u a : respects commands_advance (broker_commands_for i u a).
Proof. unfold broker_commands_for. solve_advance. Qed.
#[local] Hint Resolve advance_poll : advance.
Lemma advance_complete i c u ok r : respects commands_advance (complete_broker_command i c u ok r).
Proof. unfold complete_broker_command. solve_advance. Qed.
Lemma advance_leave i u f : respects commands_advance (leave_worker i u f).
Proof. unfold leave_worker, expire_prepared, return_queued, revoke_work. solve_advance. Qed.
Lemma advance_prepare q : respects commands_advance (prepare_task q).
Proof.
  unfold prepare_task, reserve_task, _public_requirements, require_submitter, _allocation_security_view. solve_advance.
Qed.
Lemma advance_lease i t : respects commands_advance (lease i t).
Proof. unfold lease, lease_transaction, grant_lease. solve_advance. Qed.
Lemma advance_claim i s t a : respects commands_advance (claim_worker_maintenance i s t a).
Proof. unfold claim_worker_maintenance, claim_transaction. solve_advance. Qed.

(** The operations that write the queue. *)
Inductive queue_op :=
| QHeartbeat (id user broker : string) (runtime : option string) (protocol : string) (commit : option string)
    (pending : Z)
| QComplete (id command user : string) (ok : bool) (result : dict)
| QSweep
| QPrepare (q : prepare_request)
| QLease (worker : string) (ttl : Z)
| QClaim (worker session : string) (ttl : Z) (actions : list string)
| QLeave (worker owner : string) (force : bool).

Definition after_queue_op (op : queue_op) (w : world) : world :=
  match op with
  | QHeartbeat i u b rv pv bc n => snd (broker_device_heartbeat i u b rv pv bc n w)
  | QComplete i c u ok r => snd (complete_broker_command i c u ok r w)
  | QSweep => snd (sweep_expired w)
  | QPrepare q => snd (prepare_task q w)
  | QLease i t => snd (lease i t w)
  | QClaim i s t a => snd (claim_worker_maintenance i s t a w)
  | QLeave i o f => snd (leave_worker i o f w)
  end.

Lemma queue_op_advances op w : commands_advance (wd_db w) (wd_db (after_queue_op op w)).
Proof.
  destruct op; simpl; [apply advance_heartbeat|apply advance_complete|apply advance_sweep|apply advance_prepare|
    apply advance_lease|apply advance_claim|apply advance_leave].
Qed.

Lemma queue_ops_advance ops w :
  advances (broker_commands (wd_db w)) (broker_commands (wd_db (foldl (fun w op => after_queue_op op w) w ops))).
Proof.
  revert w. induction ops as [|op ops IH]; intros w; [done|]. simpl.
  etrans; [apply (queue_op_advances op w)|apply IH].
Qed.

(** C22: the command queue implements the abstract machine.  Over any sequence of operations
    that write it, whatever they return or raise, no command is lost, every command moves
    along the machine's steps from what it was or from a freshly queued one, and a completed
    or failed command keeps its outcome for good. *)
Theorem commands_follow_lifecycle ops w :
  let w' := foldl (fun w op => after_queue_op op w) w ops in
  (forall c, In c (broker_commands (wd_db w)) ->
     exists c', In c' (broker_commands (wd_db w')) /\ rtc command_step c c') /\
  (forall c', In c' (broker_commands (wd_db w')) ->
     exists c, (In c (broker_commands (wd_db w)) \/ queued_now c) /\ rtc command_step c c') /\
  (forall c, In c (broker_commands (wd_db w)) -> settled c -> In c (broker_commands (wd_db w'))).
Proof.
  intros w'. destruct (queue_ops_advance ops w) as (kept & new & Hl & Hk & Hn). fold w' in Hl. rewrite Hl.
  assert (forall c, In c (broker_commands (wd_db w)) -> exists c', In c' (kept ++ new) /\ rtc command_step c c')
    as Hkept.
  { intros c Hc. apply list_elem_of_In, list_elem_of_lookup in Hc as [i Hi].
    destruct (Forall2_lookup_l _ _ _ _ _ Hk Hi) as (c' & Hc' & Hs). exists c'. split; [|done].
    apply in_app_iff. left. apply list_elem_of_In, list_elem_of_lookup. by exists i. }
  split_and!; [done| |].
  - intros c' [Hin|Hin]%in_app_iff; apply list_elem_of_In, list_elem_of_lookup in Hin as [i Hi].
    + destruct (Forall2_lookup_r _ _ _ _ _ Hk Hi) as (c & Hc & Hs). exists c. split; [|done].
      left. apply list_elem_of_In, list_elem_of_lookup. by exists i.
    + destruct (proj1 (Forall_lookup _ _) Hn _ _ Hi) as (c & Hq & Hs). eauto.
  - intros c Hc Hs. destruct (Hkept c Hc) as (c' & Hc' & Hp). by rewrite (settled_stays _ _ Hs Hp) in Hc'.
Qed.

(** *** What an accepted report says *)

Lemma in_string_set_ok v l : in_string_set v l = Ok true -> exists s, In s l /\ v = JStr s.
Proof.
  unfold in_string_set. intros H. destruct v; try done; injection H as H;
    apply existsb_exists in H as (s' & Hin & Hs); apply json_is_spec in Hs; [done..|].
  injection Hs as ->. eauto.
Qed.

Lemma valid_rekey_result d p r :
  invalid_rekey_result d p r = Ok false ->
  (forall kv, In kv r -> In (fst kv) rekey_result_fields) /\
  json_eqb (jget_or "task_id" JNull r) (jget_or "task_id" JNull p) = true /\
  ((jget_or "status" JNull r = JStr "rekeyed" /\ jget_or "task_state" JNull r = JStr "committed" /\
    exists a, In a (task_attempts d) /\ bound_text (jget_or "attempt_id" JNull r) = Ok (Some (a_id a)) /\
      bound_text (jget_or "task_id" JNull r) = Ok (Some (a_task_id a)) /\
      jget_or "worker_id" JNull r = JStr (a_worker_id a)) \/
   (jget_or "status" JNull r = JStr "not_needed" /\ jmem "attempt_id" r = false /\ jmem "worker_id" r = false)).
Proof.
  unfold invalid_rekey_result. intros H. apply res_bind_ok in H as (base & Hb & H).
  assert (base = false) as ->.
  { destruct base; [|done]. destruct (json_is _ "rekeyed"); [|done].
    apply res_bind_ok in H as (x & _ & H). by apply res_bind_ok in H as (y & _ & H). }
  destruct (existsb _ r) eqn:Hf; [done|]. apply res_bind_ok in Hb as (known & Hk & Hb).
  destruct known; [|done]. destruct (json_eqb _ _) eqn:Ht; [|done]. simpl in Hb.
  split_and!; [|done|].
  { intros kv Hin. destruct (fst kv ∈? rekey_result_fields) eqn:Hm; [by apply elem_b_spec, list_elem_of_In in Hm|].
    apply not_true_iff_false in Hf. destruct Hf. apply existsb_exists. exists kv. by rewrite Hm. }
  destruct (json_is (jget_or "status" JNull r) "rekeyed") eqn:Hs.
  - left. apply json_is_spec in Hs. apply res_bind_ok in H as (ai & Ha & H). apply res_bind_ok in H as (ti & Hti & H).
    injection H as H. apply orb_false_iff in H as [Hc H]. apply negb_false_iff, json_is_spec in Hc.
    split_and!; [done..|]. destruct (head _) as [a|] eqn:Hh; [|done].
    apply head_select_some in Hh as [Hin [Hx Hy]%andb_true_iff]. apply bool_decide_eq_true in Hx, Hy. subst ai ti.
    apply negb_false_iff, json_is_spec in H. by exists a.
  - right. injection H as H. apply orb_false_iff in H as [H1 H2].
    apply in_string_set_ok in Hk as (s & Hin & Hst). rewrite Hst in Hs |- *.
    destruct Hin as [<-|[<-|[]]]; [by rewrite json_is_refl in Hs|done].
Qed.

(** A foreign key: every attached device names a broker. *)
Definition attached (d : db) : Prop :=
  forall bd, In bd (broker_devices d) -> exists b, In b (brokers d) /\ br_id b = bd_broker_id bd.

Lemma named_first d i bd b :
  attached d -> broker_device_named d i = Some (bd, b) ->
  head (select (fun bd => (bd_id bd =d i) || (bd_device_id bd =d i)) (broker_devices d)) = Some bd /\
  In b (brokers d) /\ br_id b = bd_broker_id bd.
Proof.
  intros Ha. unfold broker_device_named.
  destruct (select _ (broker_devices d)) as [|bd0 rest] eqn:Hs; [done|]. simpl.
  assert (In bd0 (broker_devices d)) as Hin.
  { eapply (in_select _ (broker_devices d)). rewrite Hs. by left. }
  destruct (Ha bd0 Hin) as (b0 & Hb0 & Hid).
  destruct (select (fun b => br_id b =d bd_broker_id bd0) (brokers d)) as [|b1 bs] eqn:Hb.
  { assert (In b0 []) as []. rewrite <- Hb. apply in_select. split; [done|by apply bool_decide_eq_true]. }
  simpl. intros [= <- <-]. split; [done|].
  assert (In b1 (b1 :: bs)) as H1 by (by left). rewrite <- Hb in H1. apply in_select in H1 as [? H1].
  by apply bool_decide_eq_true in H1.
Qed.

Lemma poll_allowed i u a w cs w' :
  broker_commands_for i u a w = (Ok cs, w') ->
  wd_db w' = wd_db w /\ exists bd b, broker_device_named (wd_db w) i = Some (bd, b) /\
    br_owner_user_id b = u /\ bd_status bd = SActive.
Proof.
  unfold broker_commands_for. intros H. repeat run_step. split_bools. split; [done|].
  match goal with Hx : broker_device_named _ _ = Some ?p |- _ => destruct p as [bd b]; by exists bd, b end.
Qed.

Lemma updated_row p f l c c0 :
  NoDup (map bc_id l) -> (forall c, bc_id (f c) = bc_id c) -> In c0 l -> p c0 = true ->
  find_by bc_id (bc_id c0) (update p f l) = Some c -> c = f c0.
Proof.
  intros Hd Hf Hin Hp Hfind. apply find_by_some in Hfind as [Hc Hid].
  apply in_update in Hc as (r & Hr & Hc).
  assert (r = c0) as ->. { apply (NoDup_map_inj bc_id l); [done..|]. destruct Hc as [[_ ->]|[_ ->]]; [by rewrite Hf in Hid|done]. }
  destruct Hc as [[_ ->]|[Hn ->]]; [done|congruence].
Qed.

(** A completed rekey command names the attempt that was made.  When the report of a
    [task_rekey] command is accepted, the caller owns the active broker device the command
    was queued for, the command was pending, the report names the command's task, and it
    either names an attempt of that task with its worker, or says that nothing was needed. *)
Theorem accepted_rekey_report i cid u ok r w c w' :
  attached (wd_db w) -> NoDup (map bc_id (broker_commands (wd_db w))) ->
  complete_broker_command i cid u ok r w = (Ok c, w') -> bc_command_type c = "task_rekey" ->
  exists bd b c0 p stamp,
    In b (brokers (wd_db w)) /\ br_id b = bd_broker_id bd /\ br_owner_user_id b = u /\ bd_status bd = SActive /\
    (bd_id bd = i \/ bd_device_id bd = i) /\
    In c0 (broker_commands (wd_db w)) /\ bc_id c0 = cid /\ bc_broker_device_id c0 = bd_id bd /\
    bc_state c0 = CPending /\ command_payload c0 = Ok p /\
    c = c0 <| bc_state := if ok then CCompleted else CFailed |> <| bc_result := Some (JDoc (JObj r)) |>
           <| bc_completed_at := Some stamp |> /\
    json_eqb (jget_or "task_id" JNull r) (jget_or "task_id" JNull p) = true /\
    ((jget_or "status" JNull r = JStr "rekeyed" /\ jget_or "task_state" JNull r = JStr "committed" /\
      exists a, In a (task_attempts (wd_db w)) /\ bound_text (jget_or "attempt_id" JNull r) = Ok (Some (a_id a)) /\
        bound_text (jget_or "task_id" JNull r) = Ok (Some (a_task_id a)) /\
        jget_or "worker_id" JNull r = JStr (a_worker_id a)) \/
     (jget_or "status" JNull r = JStr "not_needed" /\ jmem "attempt_id" r = false /\ jmem "worker_id" r = false)).
Proof.
  intros Ha Hd H Hty. unfold complete_broker_command in H. apply run_bind in H as (cs & w1 & Hp & H).
  apply poll_allowed in Hp as (Hdb & bd & b & Hn & Hu & Hst).
  destruct (named_first _ _ _ _ Ha Hn) as (Hfst & Hb & Hbid). rewrite <- Hdb in Hfst.
  destruct (head_select_some _ _ _ Hfst) as [_ Hi]. rewrite <- Hdb in *. clear cs Hdb.
  apply run_bind in H as (? & w2 & Hq & H). apply run_query in Hq as [-> ->].
  apply run_bind in H as (bd' & w2 & Hq & H). apply run_require in Hq as [Hbd ->].
  rewrite Hfst in Hbd. injection Hbd as <-. clear Hfst.
  apply run_bind in H as (? & w2 & Hq & H). apply run_query in Hq as [-> ->].
  apply run_bind in H as (c0 & w2 & Hq & H). apply run_require in Hq as [Hc0 ->].
  apply head_select_some in Hc0 as [Hin Hmine]. apply run_bind in H as (? & w2 & Hv & H).
  apply run_bind in H as (stamp & w3 & Hs & H). apply run_now in Hs.
  apply run_bind in H as (n & w4 & Hup & H). apply run_update in Hup as [-> Hup].
  apply run_bind in H as (? & ? & Hq & H). apply run_check in Hq as [Hn1%Z.eqb_eq ->].
  apply run_bind in H as (? & ? & Hq & H). apply run_query in Hq as [-> ->]. apply run_require in H as [Hc _].
  assert (wd_db w2 = wd_db w1) as Hw2.
  { destruct (String.eqb _ _); [|by apply run_ret in Hv as [_ ->]]. repeat run_step. done. }
  rewrite Hup, Hs, Hw2 in Hc. rewrite Hs, Hw2 in Hn1.
  assert (bc_state c0 = CPending) as Hpend.
  { destruct (bool_decide_reflect (bc_state c0 = CPending)) as [?|Hne]; [done|]. exfalso.
    rewrite (proj2 (count_zero _ _)) in Hn1; [done|]. intros c1 Hx. apply not_true_iff_false. intros Hm.
    split_bools. assert (c1 = c0) as -> by (apply (NoDup_map_inj bc_id (broker_commands (wd_db w1))); congruence).
    done. }
  split_bools. subst cid.
  apply (updated_row _ _ _ _ c0) in Hc; [|done..|by rewrite !bool_decide_true].
  assert (bc_command_type c0 = "task_rekey") as Hty0 by (by rewrite Hc in Hty).
  rewrite Hty0 in Hv. change ("task_rekey" =? "task_rekey")%string with true in Hv. cbv iota in Hv.
  repeat run_step. split_bools. subst.
  match goal with Hx : invalid_rekey_result _ ?p _ = Ok false |- _ =>
    apply valid_rekey_result in Hx as (_ & Htask & Hres); exists bd, b, c0, p, stamp end.
  split_and!; try done. apply orb_true_iff in Hi. by destruct Hi as [?%bool_decide_eq_true|?%bool_decide_eq_true]; auto.
Qed.
End Queue.
