(* ===== verification/Upkeep.v ===== *)
(** * Maintenance and grants keep the scheduling invariant

    The operations of [Grants] and [Maintenance] leave tasks, attempts and leases
    alone, except that claiming a job first expires what has lapsed; on the
    workers table they touch neither identity, capacity, counter nor status. *)

From S2P Require Import Prelude Python Errors Schema Store Access Metadata Diagnostics.
From S2P Require Import Capability Scheduler Fleet Usage Bytes Encoding Signing Grants.
From S2P Require Import Maintenance Invariant Lifecycle.

Open Scope Z_scope.

Section Upkeep.
Context {E : Env} {P : Past}.

(** ** Helpers that only read *)

Lemma reads_only_job_artifact row auth : reads_only (_maintenance_job_with_artifact row auth).
Proof. unfold _maintenance_job_with_artifact. solve_reads_match. Qed.
#[local] Hint Resolve reads_only_job_artifact : reads.
Lemma reads_only_create_result row auth : reads_only (_maintenance_create_result row auth).
Proof. unfold _maintenance_create_result. solve_reads_match. Qed.
Lemma reads_only_broker_device b u v : reads_only (_require_exact_broker_device b u v).
Proof. unfold _require_exact_broker_device. solve_reads_match. Qed.
#[local] Hint Resolve reads_only_create_result reads_only_broker_device : reads.
Lemma reads_only_broker_job j u v : reads_only (_require_broker_maintenance_job j u v).
Proof. unfold _require_broker_maintenance_job. solve_reads_match. Qed.
Lemma reads_only_replay_completion row s r : reads_only (replay_completion row s r).
Proof. unfold replay_completion. solve_reads_match. Qed.
#[local] Hint Resolve reads_only_broker_job reads_only_replay_completion : reads.

(** ** Operations outside the scheduling tables *)

Lemma frames_insert_receipt q g j stamp : frames (insert_receipt q g j stamp).
Proof. unfold insert_receipt. solve_frames. Qed.
#[local] Hint Resolve frames_insert_receipt : frames.
Lemma frames_insert_job q k g stamp : frames (insert_job q k g stamp).
Proof. unfold insert_job. solve_frames. Qed.
#[local] Hint Resolve frames_insert_job : frames.
Lemma frames_job_of_intent q k g stamp : frames (job_of_intent q k g stamp).
Proof. unfold job_of_intent. solve_frames. Qed.
#[local] Hint Resolve frames_job_of_intent : frames.
Lemma frames_create_maintenance q : frames (create_worker_maintenance q).
Proof. unfold create_worker_maintenance. solve_frames. Qed.
Lemma frames_commit_maintenance j u v : frames (commit_worker_maintenance j u v).
Proof. unfold commit_worker_maintenance. solve_frames. Qed.
Lemma frames_cancel_maintenance j o v : frames (cancel_worker_maintenance j o v).
Proof. unfold cancel_worker_maintenance. solve_frames. Qed.
Lemma frames_mark_uploaded i n g : frames (mark_artifact_uploaded i n g).
Proof. unfold mark_artifact_uploaded. solve_frames. Qed.
Lemma frames_revoke_device v u : frames (revoke_device v u).
Proof. unfold revoke_device. solve_frames. Qed.
Lemma frames_deactivate i o v r g s : frames (deactivate_worker_workflow i o v r g s).
Proof. unfold deactivate_worker_workflow. solve_frames. Qed.
Lemma frames_approve_allocation i u p : frames (approve_allocation i u p).
Proof. unfold approve_allocation. solve_frames. Qed.
Lemma frames_record_authorizations row spec stamp :
  frames (_record_maintenance_authorizations row spec stamp).
Proof. unfold _record_maintenance_authorizations, insert_or_ignore. solve_frames. Qed.
#[local] Hint Resolve frames_record_authorizations : frames.

(** ** Operations that touch the workers table *)

Lemma preserves_heartbeat_maintenance j i s f ttl st p a :
  preserves Inv (heartbeat_worker_maintenance j i s f ttl st p a).
Proof.
  unfold heartbeat_worker_maintenance. op_steps. run_all; try done; carry; flat_db.
  all: by apply inv_touch_workers.
Qed.

Lemma keeps_store_completion row spec result s i stamp :
  keeps Inv (store_completion row spec result s i stamp).
Proof.
  intros w u w' HI Hrun. unfold store_completion in Hrun. run_all; carry; try done; flat_db.
  all: eapply inv_frame; [eassumption|]; by apply inv_touch_workers.
Qed.
#[local] Hint Resolve keeps_store_completion : keeps.

Lemma preserves_complete_maintenance j i s f ok r :
  preserves Inv (complete_worker_maintenance j i s f ok r).
Proof. unfold complete_worker_maintenance. op_steps. run_all; carry; done. Qed.

Lemma preserves_claim_maintenance i s ttl acts :
  preserves Inv (claim_worker_maintenance i s ttl acts).
Proof.
  unfold claim_worker_maintenance. op_steps. unfold claim_transaction in *. run_all; carry; done.
Qed.

Lemma preserves_rebuild : preserves Inv _rebuild_maintenance_authorizations.
Proof.
  unfold _rebuild_maintenance_authorizations. apply preserves_bind; [auto with vgen|]. intros rows.
  apply preserves_for_each. intros row _. unfold rebuild_job. op_steps.
  by apply preserves_update; intros d HI; apply inv_touch_workers.
Qed.
End Upkeep.

#[export] Hint Resolve reads_only_job_artifact reads_only_create_result reads_only_broker_device
  reads_only_broker_job reads_only_replay_completion : reads.
#[export] Hint Resolve frames_insert_receipt frames_insert_job frames_job_of_intent
  frames_record_authorizations : frames.
