(* ===== verification/Requests.v ===== *)
(** * Signed requests ([src/vgen/crypto/http_signatures.py], [gateway/database.py], [gateway/app.py])

    The HTTP message signature profile of the gateway: the headers a device,
    worker or service attaches to a mutation, their strict verification, and the
    replay cache that claims each nonce.  [verify_mutation_signature] composes
    them for an authenticated session; a gateway may be started with the switch
    [verify_mutations] off, and then it verifies nothing. *)

From S2P Require Import Prelude Python Errors Schema Store Access Bytes Encoding Signing.
From S2P Require Import Grants Maintenance.

Open Scope Z_scope.

(** ** Text patterns *)

Definition chars (s : string) : list ascii := String.list_ascii_of_string s.
Definition text (l : list ascii) : string := String.string_of_list_ascii l.

(** The longest prefix of a class, and what follows. *)
Fixpoint span (p : ascii -> bool) (l : list ascii) : list ascii * list ascii :=
  match l with
  | [] => ([], [])
  | c :: l' => if p c then let '(a, b) := span p l' in (c :: a, b) else ([], l)
  end.

(** A literal, and what follows. *)
Fixpoint literal (s l : list ascii) : option (list ascii) :=
  match s, l with
  | [], _ => Some l
  | c :: s, d :: l => if Ascii.eqb c d then literal s l else None
  | _ :: _, [] => None
  end.

(** A run of a class whose length is in bounds. *)
Definition field (p : ascii -> bool) (lo hi : Z) (l : list ascii) : option (string * list ascii) :=
  let '(a, rest) := span p l in
  if (lo <=? Z.of_nat (length a)) && (Z.of_nat (length a) <=? hi) then Some (text a, rest) else None.

Definition label_char (c : ascii) : bool := is_lower c || is_digit c || Ascii.eqb c "_".
Definition nonce_char (c : ascii) : bool := is_alnum c || Ascii.eqb c "-" || Ascii.eqb c "_".
Definition key_id_char (c : ascii) : bool :=
  is_alnum c || Ascii.eqb c "." || Ascii.eqb c "_" || Ascii.eqb c ":" || Ascii.eqb c "-".
Definition std64_char (c : ascii) : bool := is_alnum c || Ascii.eqb c "+" || Ascii.eqb c "/".

Definition full_class (p : ascii -> bool) (lo hi : Z) (s : string) : bool :=
  str_forall p s && (lo <=? str_len s) && (str_len s <=? hi).

Definition SIGNATURE_LABEL : string := "sig1".
Definition _KEY_ID : string -> bool := full_class key_id_char 1 128.
Definition _NONCE : string -> bool := full_class nonce_char 16 128.

Definition quoted (s : string) : string := dquote +:+ s +:+ dquote.
Definition _COMPONENTS : string :=
  "(" +:+ quoted "@method" +:+ " " +:+ quoted "@path" +:+ " " +:+ quoted "content-digest" +:+ ")".

(** [[a-z][a-z0-9_]*]: the label before the separator. *)
Definition label (l : list ascii) : option (string * list ascii) :=
  let '(a, rest) := span label_char l in
  match a with
  | c :: _ => if is_lower c then Some (text a, rest) else None
  | [] => None
  end.

Record signature_input := MkInput {
  si_label : string;
  si_params : string;
  si_created : string;
  si_nonce : string;
  si_key_id : string
}.

(** [_SIGNATURE_INPUT.fullmatch]. *)
Definition _SIGNATURE_INPUT (s : string) : option signature_input :=
  '(name, l) ← label (chars s);
  params ← literal (chars "=") l;
  l ← literal (chars (_COMPONENTS +:+ ";created=")) params;
  '(created, l) ← field is_digit 1 12 l;
  l ← literal (chars (";nonce=" +:+ dquote)) l;
  '(nonce, l) ← field nonce_char 16 128 l;
  l ← literal (chars (dquote +:+ ";keyid=" +:+ dquote)) l;
  '(key_id, l) ← field key_id_char 1 128 l;
  l ← literal (chars (dquote +:+ ";alg=" +:+ quoted "ed25519")) l;
  match l with
  | [] => Some (MkInput name (text params) created nonce key_id)
  | _ => None
  end.

(** The base64 value between colons: [:(?P<value>[A-Za-z0-9+/]+={0,2}):$]. *)
Definition byte_sequence (l : list ascii) : option string :=
  l ← literal (chars ":") l;
  let '(a, l) := span std64_char l in
  let '(pads, l) := span (fun c => Ascii.eqb c "=") l in
  l ← literal (chars ":") l;
  match a, l with
  | _ :: _, [] => if Z.of_nat (length pads) <=? 2 then Some (text (a ++ pads)) else None
  | _, _ => None
  end.

(** [_SIGNATURE.fullmatch]: the label and the value. *)
Definition _SIGNATURE (s : string) : option (string * string) :=
  '(name, l) ← label (chars s);
  l ← literal (chars "=") l;
  value ← byte_sequence l;
  Some (name, value).

Definition _CONTENT_DIGEST (s : string) : option string :=
  l ← literal (chars "sha-256=") (chars s);
  byte_sequence l.

(** ** Standard base64 *)

Definition std64 (c : ascii) : ascii :=
  if Ascii.eqb c "-" then "+"%char else if Ascii.eqb c "_" then "/"%char else c.

Definition b64encode (value : bytes) : string :=
  let digits := map (fun d => std64 (b64_char d)) (b64_digits value) in
  text (digits ++ repeat "="%char (Z.to_nat (- Z.of_nat (length digits) mod 4))).

(** [base64.b64decode(.., validate=True)] of a text of the standard alphabet. *)
Definition b64decode (value : string) : res bytes := a2b_base64 (chars value).

(** ** The profile *)

Definition to_upper (c : ascii) : ascii :=
  if is_lower c then Ascii.ascii_of_N (Ascii.N_of_ascii c - 32) else c.

Definition _validate_request (method path : string) : res (string * string) :=
  let normalized := text (map to_upper (chars method)) in
  if negb (full_class is_upper 1 (str_len normalized) normalized) then Raise ValueError
  else if negb (str_startswith "/" path) || existsb (Ascii.eqb "#") (chars path) ||
          negb (str_forall (fun c => let n := Ascii.N_of_ascii c in N.leb 33 n && N.leb n 126) path)
  then Raise ValueError
  else Ok (normalized, path).

Record RequestSignatureHeaders := MkHeaders {
  content_digest : string;
  signature_input_header : string;
  signature_header : string
}.

Definition to_headers (h : RequestSignatureHeaders) : list (string * string) :=
  [("Content-Digest", content_digest h); ("Signature-Input", signature_input_header h);
   ("Signature", signature_header h)].

Record VerifiedRequestSignature := MkVerified { vr_key_id : string; vr_created : Z; vr_nonce : string }.

Definition SIGNATURE_INVALID (details : dict) : exc :=
  VGenError (ErrorCode.to_int ErrorCode.SIGNATURE_INVALID) details.

(** The first header of that name, in any case, stripped. *)
Definition _header (headers : list (string * string)) (name : string) : res string :=
  match List.find (fun kv => String.eqb (str_lower (fst kv)) (str_lower name)) headers with
  | Some (_, value) => Ok (text (rev (drop_spaces (rev (drop_spaces (chars value))))))
  | None => Raise (SIGNATURE_INVALID [("missing_header", JStr name)])
  end.

Definition _signature_params (created : Z) (nonce key_id : string) : string :=
  _COMPONENTS +:+ ";created=" +:+ pretty created +:+ ";nonce=" +:+ quoted nonce +:+ ";keyid=" +:+
  quoted key_id +:+ ";alg=" +:+ quoted "ed25519".

Definition newline : string := String (Ascii.ascii_of_N 10) EmptyString.

Definition _signature_base (method path digest params : string) : bytes :=
  encode (quoted "@method" +:+ ": " +:+ method +:+ newline +:+
          quoted "@path" +:+ ": " +:+ path +:+ newline +:+
          quoted "content-digest" +:+ ": " +:+ digest +:+ newline +:+
          quoted "@signature-params" +:+ ": " +:+ params).

(** [int(digits)]. *)
Definition digits_value (s : string) : Z :=
  List.fold_left (fun acc c => acc * 10 + (Z.of_N (Ascii.N_of_ascii c) - 48)) (chars s) 0.

Section Profile.
Context {E : Env}.

Definition _content_digest (body : bytes) : string :=
  "sha-256=:" +:+ b64encode (sha256_digest body) +:+ ":".

Definition sign_http_request (signing_key : bytes) (method path : string) (body : bytes)
    (key_id : string) (created : Z) (nonce : string) : res RequestSignatureHeaders :=
  '(method, path) ← _validate_request method path;
  if negb (_KEY_ID key_id) then Raise ValueError
  else if negb (_NONCE nonce) then Raise ValueError
  else
    let digest := _content_digest body in
    let params := _signature_params created nonce key_id in
    let signature := ed_sign signing_key (_signature_base method path digest params) in
    Ok (MkHeaders digest (SIGNATURE_LABEL +:+ "=" +:+ params)
          (SIGNATURE_LABEL +:+ "=:" +:+ b64encode signature +:+ ":")).

(** The checks on the headers alone: the parsed input and the signature. *)
Definition parse_signature (public_key : bytes) (method path : string) (body : bytes)
    (headers : list (string * string)) (expected_key_id : option string)
    (max_age_seconds max_future_skew_seconds current : Z) : res VerifiedRequestSignature :=
  '(method, path) ← _validate_request method path;
  if (max_age_seconds <? 1) || (max_future_skew_seconds <? 0) then Raise ValueError
  else
    digest_header ← _header headers "Content-Digest";
    input_header ← _header headers "Signature-Input";
    signature_header ← _header headers "Signature";
    match _CONTENT_DIGEST digest_header, _SIGNATURE_INPUT input_header, _SIGNATURE signature_header with
    | Some _, Some input, Some (signature_label, value) =>
        if negb (String.eqb (si_label input) signature_label) ||
           negb (String.eqb (si_label input) SIGNATURE_LABEL) then Raise (SIGNATURE_INVALID [])
        else if negb (String.eqb digest_header (_content_digest body))
        then Raise (SIGNATURE_INVALID [])
        else if match expected_key_id with
                | Some k => negb (String.eqb (si_key_id input) k)
                | None => false
                end then Raise (SIGNATURE_INVALID [])
        else
          let created := digits_value (si_created input) in
          if (current + max_future_skew_seconds <? created) || (max_age_seconds <? current - created)
          then Raise (SIGNATURE_INVALID [("reason", JStr "signature_time")])
          else
            match b64decode value with
            | Raise ValueError => Raise (SIGNATURE_INVALID [])
            | Raise e => Raise e
            | Ok signature =>
                if negb (blen signature =? 64) then Raise (SIGNATURE_INVALID [])
                else if negb (blen public_key =? 32) then Raise ValueError
                else if ed_verify public_key signature
                          (_signature_base method path digest_header (si_params input))
                then Ok (MkVerified (si_key_id input) created (si_nonce input))
                else Raise (SIGNATURE_INVALID [])
            end
    | _, _, _ => Raise (SIGNATURE_INVALID [])
    end.

(** [nonce_is_fresh] claims the nonce after everything else has been checked; the
    age check has its own reading of the clock. *)
Definition verify_http_request (public_key : bytes) (method path : string) (body : bytes)
    (headers : list (string * string)) (expected_key_id : option string)
    (max_age_seconds max_future_skew_seconds : Z) (nonce_is_fresh : string -> Z -> M bool)
    : M VerifiedRequestSignature :=
  stamp ← now;
  verified ← lift_res (parse_signature public_key method path body headers expected_key_id
                         max_age_seconds max_future_skew_seconds (stamp / 1000000));
  fresh ← nonce_is_fresh (vr_nonce verified) (vr_created verified);
  _ ← check fresh (VGenError (ErrorCode.to_int ErrorCode.REPLAY_DETECTED) []);
  mret verified.

(** ** The replay cache *)

Definition claimed_nonce (principal_type principal_id nonce : string)
    (signature_created_at ttl_seconds stamp : Z) : nonce_row :=
  Mk_nonce_row principal_type principal_id nonce signature_created_at
    (stamp + seconds ttl_seconds) stamp.

(** Insert the row; the [IntegrityError] of a used nonce is the answer [false]. *)
Definition insert_nonce (row : nonce_row) : M bool :=
  used ← query (fun d => has_key nonce_key (request_nonces d) (nonce_key row));
  if used : bool then mret false
  else _ ← sql_insert request_nonces (fun _ _ => true) row; mret true.

Definition claim_request_nonce (principal_type principal_id nonce : string)
    (signature_created_at ttl_seconds : Z) : M bool :=
  stamp ← now;
  transaction (
    _ ← sql_delete request_nonces (fun r => rn_expires_at r <=? stamp);
    insert_nonce (claimed_nonce principal_type principal_id nonce signature_created_at ttl_seconds
                    stamp)).

(** ** Mutations of an authenticated session *)

Definition principal_str (p : principal) : string :=
  match p with PDevice => "device" | PService => "service" | PWorker => "worker" end.

Definition principal_key (d : db) (session : session_row) : option string :=
  let i := ss_principal_id session in
  match ss_principal_type session with
  | PDevice => option_map dv_signing_public_key
      (head (select (fun v => (dv_id v =d i) && (dv_status v =d SActive)) (devices d)))
  | PWorker => option_map w_signing_public_key
      (head (select (fun w => (w_id w =d i) && negb (w_status w =d WRevoked)) (workers d)))
  | PService => option_map sv_signing_public_key
      (head (select (fun s => (sv_id s =d i) && (sv_status s =d SvActive)) (services d)))
  end.

(** The methods that change state. *)
Definition mutation (method : string) : bool :=
  text (map to_upper (chars method)) ∈? ["POST"; "PUT"; "PATCH"; "DELETE"].

(** [path] is the request target with its query; [verify_mutations] is the switch of
    the deployment ([VGEN_REQUIRE_REQUEST_SIGNATURES], on unless it is "0"). *)
Definition verify_mutation_signature (verify_mutations : bool) (session : session_row)
    (method path : string) (body : bytes) (headers : list (string * string)) : M unit :=
  if negb verify_mutations || negb (mutation method) then mret tt
  else
    key ← query (fun d => principal_key d session);
    key ← require key (SIGNATURE_INVALID []);
    public_key ← lift_res (b64url_decode key (Some 32));
    expected_key_id ← lift_res (device_key_id public_key);
    _ ← verify_http_request public_key method path body headers (Some expected_key_id) 300 30
          (fun nonce created =>
             claim_request_nonce (principal_str (ss_principal_type session)) (ss_principal_id session)
               nonce created 600);
    mret tt.
End Profile.


(** ** Reading back what was printed *)

Lemma chars_app a b : chars (a +:+ b) = chars a ++ chars b.
Proof. unfold chars. induction a as [|c a IH]; [done|]. simpl. by rewrite IH. Qed.
Lemma chars_text l : chars (text l) = l.
Proof. apply String.list_ascii_of_string_of_list_ascii. Qed.
Lemma text_chars s : text (chars s) = s.
Proof. apply String.string_of_list_ascii_of_string. Qed.
Lemma chars_length s : Z.of_nat (length (chars s)) = str_len s.
Proof. unfold str_len, chars. induction s as [|c s IH]; [done|]. simpl. lia. Qed.

Lemma literal_app s l : literal s (s ++ l) = Some l.
Proof. induction s as [|c s IH]; [done|]. simpl. by rewrite Ascii.eqb_refl. Qed.

(** A run of a class stops where the class stops. *)
Definition stops (p : ascii -> bool) (l : list ascii) : Prop :=
  match l with [] => True | c :: _ => p c = false end.

Lemma span_app p a l : forallb p a = true -> stops p l -> span p (a ++ l) = (a, l).
Proof.
  intros Ha Hl. induction a as [|c a IH]; simpl in *.
  - destruct l as [|d l]; [done|]. simpl in *. by rewrite Hl.
  - apply andb_true_iff in Ha as [-> Ha]. by rewrite (IH Ha).
Qed.

Lemma field_app p lo hi s l :
  full_class p lo hi s = true -> stops p l -> field p lo hi (chars s ++ l) = Some (s, l).
Proof.
  unfold full_class, str_forall, field. rewrite !andb_true_iff. intros [[Hp Hlo] Hhi] Hl.
  rewrite span_app by done. rewrite chars_length, Hlo, Hhi. simpl. by rewrite text_chars.
Qed.

(** Decimal numerals. *)
Definition digits_from (acc : Z) (l : list ascii) : Z :=
  List.fold_left (fun acc c => acc * 10 + (Z.of_N (Ascii.N_of_ascii c) - 48)) l acc.

Lemma pretty_digit x :
  (x < 10)%N -> is_digit (pretty_N_char x) = true /\
                Z.of_N (Ascii.N_of_ascii (pretty_N_char x)) - 48 = Z.of_N x.
Proof.
  intros Hx. assert (x = 0 \/ x = 1 \/ x = 2 \/ x = 3 \/ x = 4 \/ x = 5 \/ x = 6 \/ x = 7 \/ x = 8 \/
    x = 9)%N as H by lia. by destruct_or! H; subst.
Qed.

Lemma pretty_go_digits x s :
  exists ds, chars (pretty_N_go x s) = ds ++ chars s /\ forallb is_digit ds = true /\
    digits_from 0 ds = Z.of_N x /\ ((0 < x)%N -> ds <> []) /\
    forall k : nat, Z.of_N x < 10 ^ Z.of_nat k -> (length ds <= k)%nat.
Proof.
  revert s. induction (N.lt_wf_0 x) as [x _ IH]. intros s.
  destruct (decide (x = 0)%N) as [->|Hx]; [exists []; split_and!; simpl; auto; lia|].
  rewrite pretty_N_go_step by lia.
  destruct (IH (x `div` 10)%N ltac:(apply N.div_lt; lia) (String (pretty_N_char (x `mod` 10)) s))
    as (ds & Hc & Hd & Hv & _ & Hl).
  destruct (pretty_digit (x `mod` 10)) as [Hd1 Hv1]; [by apply N.mod_lt|].
  exists (ds ++ [pretty_N_char (x `mod` 10)]). rewrite Hc, <- app_assoc. split_and!; [done|..].
  - rewrite forallb_app, Hd. simpl. by rewrite Hd1.
  - unfold digits_from in *. rewrite fold_left_app, Hv. simpl. rewrite Hv1.
    rewrite (N.div_mod x 10) at 3 by done. lia.
  - by destruct ds.
  - intros k Hk. rewrite length_app. destruct k as [|k]; [simpl in Hk; lia|].
    rewrite Nat2Z.inj_succ, Z.pow_succ_r in Hk by lia.
    assert (length ds <= k)%nat; [|simpl; lia]. apply Hl. rewrite N2Z.inj_div.
    apply Z.div_lt_upper_bound; lia.
Qed.

(** A time of at most twelve digits is printed and read back. *)
Lemma created_roundtrip z :
  0 <= z < 10 ^ 12 -> full_class is_digit 1 12 (pretty z) = true /\ digits_value (pretty z) = z.
Proof.
  intros Hz. assert (exists ds, chars (pretty z) = ds /\ forallb is_digit ds = true /\
    digits_from 0 ds = z /\ ds <> [] /\ (length ds <= 12)%nat) as (ds & Hc & Hd & Hv & Hne & Hl).
  { destruct z as [|x|x]; [by exists ["0"%char]; vm_compute; split_and!; auto with lia| |lia].
    destruct (pretty_go_digits (N.pos x) "") as (ds & Hc & Hd & Hv & Hne & Hl).
    exists ds. rewrite app_nil_r in Hc. split_and!; [exact Hc|done|done|by apply Hne|].
    apply Hl. change (Z.of_nat 12) with 12. cbn [Z.of_N]. lia. }
  unfold full_class, str_forall, digits_value. rewrite <- chars_length. fold (chars (pretty z)).
  rewrite Hc, Hd. split; [|exact Hv]. destruct ds; [done|]. rewrite andb_true_l, andb_true_iff, !Z.leb_le.
  cbn [length] in *. lia.
Qed.

(** ** Standard base64 round trip *)

Lemma std64_value c : b64_value (std64 c) = b64_value c /\ Ascii.eqb (std64 c) "=" = Ascii.eqb c "=".
Proof. by destruct c as [[] [] [] [] [] [] [] []]. Qed.

Lemma a2b_std64 s : forall quad left pads started,
  a2b_strict (map std64 s) quad left pads started = a2b_strict s quad left pads started.
Proof.
  induction s as [|c s IH]; [done|]. intros quad left pads started. simpl.
  destruct (std64_value c) as [-> ->].
  destruct (b64_value c); rewrite !IH; by destruct s.
Qed.

Lemma b64_roundtrip b : b64decode (b64encode b) = Ok b.
Proof.
  unfold b64decode, b64encode. rewrite chars_text, length_map.
  set (n := Z.to_nat _). replace (map _ (b64_digits b) ++ repeat "="%char n)
    with (map std64 (map b64_char (b64_digits b) ++ repeat "="%char n)).
  2: { rewrite map_app, map_map, map_repeat. done. }
  pose proof (a2b_digits b) as H. fold n in H. rewrite <- a2b_std64 in H.
  destruct b as [|x b]; [done|]. destruct (b64_digits_head (x :: b)) as (d & l & E & Hd); [done|].
  rewrite E in *. unfold a2b_base64. cbn [map app] in *.
  destruct (std64_value (b64_char d)) as [_ ->]. by destruct (b64_char_value d Hd) as [_ ->].
Qed.

(** The digits are of the alphabet, and at most two pads follow them. *)
Lemma b64_digits_bound b : Forall (fun d => 0 <= d < 64) (b64_digits b).
Proof.
  induction b as [|x|x y|x y z b IH] using bytes_ind3;
    try pose proof (byte_val_bound x); try pose proof (byte_val_bound y);
    try pose proof (byte_val_bound z); cbn [b64_digits]; repeat constructor; try digit_arith; done.
Qed.

Lemma b64_digits_pads b : - Z.of_nat (length (b64_digits b)) mod 4 <= 2.
Proof.
  induction b as [|x|x y|x y z b IH] using bytes_ind3; [done..|]. cbn [b64_digits length].
  replace (- Z.of_nat (S (S (S (S (length (b64_digits b)))))) mod 4)
    with (- Z.of_nat (length (b64_digits b)) mod 4) by digit_arith. done.
Qed.

Lemma b64_char_class d : 0 <= d < 64 -> std64_char (std64 (b64_char d)) = true.
Proof.
  intros Hd. assert (forallb (fun n => std64_char (std64 (b64_char (Z.of_nat n)))) (List.seq 0 64) = true)
    as H by (vm_compute; reflexivity).
  rewrite forallb_forall in H. specialize (H (Z.to_nat d)). rewrite Z2Nat.id in H by lia.
  apply H, in_seq. lia.
Qed.

Lemma byte_sequence_encode b :
  b <> [] -> byte_sequence (chars (":" +:+ b64encode b +:+ ":")) = Some (b64encode b).
Proof.
  intros Hb. unfold byte_sequence. rewrite !chars_app, literal_app. unfold b64encode at 1.
  rewrite chars_text. set (ds := map _ (b64_digits b)). set (n := Z.to_nat _).
  assert (forallb std64_char ds = true) as Hds.
  { unfold ds. rewrite forallb_forall. intros c (d & <- & Hd)%in_map_iff.
    apply b64_char_class. pose proof (b64_digits_bound b) as H. rewrite List.Forall_forall in H.
    by apply H. }
  unfold bind, mbind, option_bind. rewrite <- app_assoc, span_app; [|done|by destruct n].
  rewrite (span_app _ (repeat _ _)); [|by induction n|done].
  change (literal (chars ":") (chars ":")) with (Some (@nil ascii)). cbv iota beta.
  rewrite repeat_length. pose proof (b64_digits_pads b) as Hp.
  destruct (b64_digits_head b Hb) as (d & l & E & _).
  destruct ds as [|c l'] eqn:Eds; [unfold ds in Eds; by rewrite E in Eds|].
  assert (n <= 2)%nat as Hn. { unfold n. rewrite <- Eds. unfold ds. rewrite length_map. lia. }
  destruct (Z.leb_spec (Z.of_nat n) 2); [|lia]. unfold n.
  rewrite <- Eds. reflexivity.
Qed.

(** ** What was signed is accepted *)

Section Roundtrip.
Context {E : Env} {EL : Ed25519Laws}.

(** A header value with no white space at its ends is not changed by [strip]. *)
Lemma header_strip c mid d :
  is_space c = false -> is_space d = false ->
  text (rev (drop_spaces (rev (drop_spaces (c :: mid ++ [d]))))) = text (c :: mid ++ [d]).
Proof.
  intros Hc Hd. simpl drop_spaces. rewrite Hc. cbn [rev]. rewrite rev_app_distr. simpl. rewrite Hd.
  cbn [rev]. by rewrite rev_app_distr, rev_involutive.
Qed.

Lemma _header_first k v c mid d rest name :
  str_lower k = str_lower name -> chars v = c :: mid ++ [d] ->
  is_space c = false -> is_space d = false -> _header ((k, v) :: rest) name = Ok v.
Proof.
  intros Hk Hv Hc Hd. unfold _header. cbn [List.find fst]. rewrite Hk, String.eqb_refl.
  by rewrite Hv, header_strip, <- Hv, text_chars by done.
Qed.

Lemma _header_skip k v rest name :
  String.eqb (str_lower k) (str_lower name) = false -> _header ((k, v) :: rest) name = _header rest name.
Proof. intros Hk. unfold _header. cbn [List.find fst]. by rewrite Hk. Qed.

Lemma signature_params_chars created nonce key_id :
  chars (_signature_params created nonce key_id) =
    chars (_COMPONENTS +:+ ";created=") ++ chars (pretty created) ++ chars (";nonce=" +:+ dquote) ++
    chars nonce ++ chars (dquote +:+ ";keyid=" +:+ dquote) ++ chars key_id ++
    chars (dquote +:+ ";alg=" +:+ quoted "ed25519").
Proof. unfold _signature_params, quoted. by rewrite !chars_app, <- !app_assoc. Qed.

Lemma signature_input_printed created nonce key_id :
  0 <= created < 10 ^ 12 -> _NONCE nonce = true -> _KEY_ID key_id = true ->
  _SIGNATURE_INPUT (SIGNATURE_LABEL +:+ "=" +:+ _signature_params created nonce key_id) =
    Some (MkInput SIGNATURE_LABEL (_signature_params created nonce key_id) (pretty created) nonce key_id).
Proof.
  intros Hc Hn Hk. destruct (created_roundtrip created Hc) as [Hcr _].
  unfold _SIGNATURE_INPUT. rewrite (chars_app SIGNATURE_LABEL), (chars_app "=").
  assert (forall l, label (chars SIGNATURE_LABEL ++ chars "=" ++ l) = Some (SIGNATURE_LABEL, chars "=" ++ l))
    as -> by done.
  cbv beta iota delta [bind mbind option_bind]. rewrite literal_app, text_chars.
  rewrite signature_params_chars, literal_app, field_app by done. rewrite literal_app.
  rewrite field_app by done. rewrite literal_app, field_app by done.
  done.
Qed.
Lemma signature_printed sk m :
  _SIGNATURE (SIGNATURE_LABEL +:+ "=:" +:+ b64encode (ed_sign sk m) +:+ ":") =
    Some (SIGNATURE_LABEL, b64encode (ed_sign sk m)).
Proof.
  unfold _SIGNATURE. set (value := ":" +:+ b64encode (ed_sign sk m) +:+ ":").
  change (chars (SIGNATURE_LABEL +:+ _)) with (chars SIGNATURE_LABEL ++ chars "=" ++ chars value).
  assert (forall l, label (chars SIGNATURE_LABEL ++ chars "=" ++ l) = Some (SIGNATURE_LABEL, chars "=" ++ l))
    as -> by done.
  cbv beta iota delta [bind mbind option_bind]. rewrite literal_app. unfold value.
  rewrite byte_sequence_encode; [done|]. intros H. pose proof (ed_sign_size sk m) as Hs.
  by rewrite H in Hs.
Qed.

Lemma content_digest_printed body :
  _CONTENT_DIGEST (_content_digest body) = Some (b64encode (sha256_digest body)).
Proof.
  unfold _CONTENT_DIGEST, _content_digest. set (value := ":" +:+ b64encode (sha256_digest body) +:+ ":").
  change (chars ("sha-256=:" +:+ _)) with (chars "sha-256=" ++ chars value).
  cbv beta iota delta [bind mbind option_bind]. rewrite literal_app. unfold value.
  apply byte_sequence_encode. intros H. pose proof (sha256_size body) as Hs. by rewrite H in Hs.
Qed.
(** Other headers of the request are skipped. *)
Definition other_header (kv : string * string) : bool :=
  negb (str_lower (fst kv) ∈? ["content-digest"; "signature-input"; "signature"]).

Lemma _header_extra extra headers name :
  forallb other_header extra = true ->
  (str_lower name ∈? ["content-digest"; "signature-input"; "signature"]) = true ->
  _header (extra ++ headers) name = _header headers name.
Proof.
  intros Hex Hname. induction extra as [|[k v] extra IH]; [done|]. cbn [forallb] in Hex.
  apply andb_true_iff in Hex as [Hk Hex]. cbn [app]. rewrite _header_skip; [by apply IH|].
  apply String.eqb_neq. intros Heq. unfold other_header in Hk. cbn [fst] in Hk.
  by rewrite Heq, Hname in Hk.
Qed.

Definition printed (sk : bytes) (method path : string) (body : bytes) (created : Z)
    (nonce key_id : string) : RequestSignatureHeaders :=
  let params := _signature_params created nonce key_id in
  MkHeaders (_content_digest body) (SIGNATURE_LABEL +:+ "=" +:+ params)
    (SIGNATURE_LABEL +:+ "=:" +:+
     b64encode (ed_sign sk (_signature_base method path (_content_digest body) params)) +:+ ":").

Lemma sign_http_request_ok sk method path body key_id created nonce h :
  sign_http_request sk method path body key_id created nonce = Ok h ->
  exists m p, _validate_request method path = Ok (m, p) /\ _KEY_ID key_id = true /\ _NONCE nonce = true /\
    h = printed sk m p body created nonce key_id.
Proof.
  unfold sign_http_request. destruct (_validate_request method path) as [[m p]|]; [|done].
  cbv beta iota delta [bind mbind res_bind].
  destruct (_KEY_ID key_id), (_NONCE nonce); simpl; try done. intros [= <-]. by exists m, p.
Qed.

Lemma _header_ends k v name (c d : ascii) mid rest :
  str_lower k = str_lower name -> v = String c mid +:+ String d EmptyString ->
  is_space c = false -> is_space d = false -> _header ((k, v) :: rest) name = Ok v.
Proof.
  intros Hk -> Hc Hd. eapply _header_first; [done| |exact Hc|exact Hd]. rewrite chars_app. done.
Qed.

Lemma params_end created nonce key_id :
  exists mid, _signature_params created nonce key_id = mid +:+ dquote.
Proof.
  exists (_COMPONENTS +:+ ";created=" +:+ pretty created +:+ ";nonce=" +:+ quoted nonce +:+ ";keyid=" +:+
          quoted key_id +:+ ";alg=" +:+ dquote +:+ "ed25519").
  match goal with |- ?a = ?b => rewrite <- (text_chars a), <- (text_chars b) end. f_equal.
  rewrite signature_params_chars. unfold quoted. rewrite !chars_app, <- !app_assoc. done.
Qed.

Lemma printed_headers extra sk m p body created nonce key_id :
  forallb other_header extra = true ->
  let h := printed sk m p body created nonce key_id in
  let headers := extra ++ to_headers h in
  _header headers "Content-Digest" = Ok (content_digest h) /\
  _header headers "Signature-Input" = Ok (signature_input_header h) /\
  _header headers "Signature" = Ok (signature_header h).
Proof.
  intros Hex h headers. unfold headers. rewrite !_header_extra by done. unfold to_headers.
  rewrite (_header_skip _ _ _ "Signature"), (_header_skip "Signature-Input" _ _ "Signature"),
    (_header_skip _ _ _ "Signature-Input") by done.
  split_and!.
  - by apply (_header_ends _ _ _ "s" ":" ("ha-256=:" +:+ b64encode (sha256_digest body))).
  - destruct (params_end created nonce key_id) as [mid Hmid].
    apply (_header_ends _ _ _ "s" (Ascii.ascii_of_N 34) ("ig1=" +:+ mid)); [done| |done|done].
    unfold h, printed. cbn [signature_input_header]. by rewrite Hmid.
  - by apply (_header_ends _ _ _ "s" ":" ("ig1=:" +:+ b64encode (ed_sign sk (_signature_base m p
      (_content_digest body) (_signature_params created nonce key_id))))).
Qed.

(** The verification of the headers accepts what the client signed. *)
Lemma signed_headers_verify extra sk method path body key_id created nonce h cur :
  sign_http_request sk method path body key_id created nonce = Ok h ->
  forallb other_header extra = true -> 0 <= created < 10 ^ 12 -> cur - 300 <= created <= cur + 30 ->
  parse_signature (ed_public sk) method path body (extra ++ to_headers h) (Some key_id) 300 30 cur =
    Ok (MkVerified key_id created nonce).
Proof.
  intros (m & p & Hv & Hk & Hn & ->)%sign_http_request_ok Hex Hc Hcur. unfold parse_signature.
  rewrite Hv. cbv beta iota delta [bind mbind res_bind]. change ((300 <? 1) || (30 <? 0)) with false.
  destruct (printed_headers extra sk m p body created nonce key_id Hex) as (-> & -> & ->).
  unfold printed. cbn [content_digest signature_input_header signature_header].
  rewrite content_digest_printed, signature_input_printed, signature_printed by done.
  cbn [si_label si_key_id si_created si_params si_nonce]. rewrite !String.eqb_refl. cbn [negb orb].
  destruct (created_roundtrip created Hc) as [_ ->].
  destruct (cur + 30 <? created) eqn:H1; [lia|]. destruct (300 <? cur - created) eqn:H2; [lia|].
  cbn [orb]. rewrite b64_roundtrip, ed_sign_size, ed_public_size, ed_sign_verify. done.
Qed.

(** A nonce that is not live in the cache is claimed. *)
Lemma claim_fresh pt pi n c ttl w :
  (forall r, In r (request_nonces (wd_db w)) -> nonce_key r = (pt, (pi, n)) ->
             rn_expires_at r <= clock (wd_ticks w)) ->
  exists w', claim_request_nonce pt pi n c ttl w = (Ok true, w').
Proof.
  intros Hfresh. unfold claim_request_nonce, insert_nonce, transaction.
  unfold bind, mbind, M_bind, now, sql_delete, query, sql_insert. simpl.
  match goal with |- context [has_key nonce_key ?l ?k] =>
    assert (has_key nonce_key l k = false) as -> end; [|by eexists].
  apply has_key_false. intros r [Hr He]%in_select Hk. apply Hfresh in Hr; [|done].
  apply negb_true_iff in He. simpl in *. lia.
Qed.

(** C12: the mutation of an honest client is accepted: the headers that
    [sign_http_request] makes for the key registered for the session's principal, sent
    among any other headers within the window of the clock and with a nonce that is
    not live in the replay cache, pass [verify_mutation_signature]. *)
Theorem honest_mutation_accepted verify_mutations session extra sk method path body key_id created nonce h w :
  principal_key (wd_db w) session = Some (b64url_encode (ed_public sk)) ->
  device_key_id (ed_public sk) = Ok key_id ->
  sign_http_request sk method path body key_id created nonce = Ok h ->
  forallb other_header extra = true ->
  0 <= created < 10 ^ 12 ->
  clock (wd_ticks w) / 1000000 - 300 <= created <= clock (wd_ticks w) / 1000000 + 30 ->
  (forall r, In r (request_nonces (wd_db w)) ->
     nonce_key r = (principal_str (ss_principal_type session), (ss_principal_id session, nonce)) ->
     rn_expires_at r <= clock (S (wd_ticks w))) ->
  exists w', verify_mutation_signature verify_mutations session method path body
               (extra ++ to_headers h) w = (Ok tt, w').
Proof.
  intros Hkey Hid Hsign Hex Hc Hcur Hfresh. unfold verify_mutation_signature.
  destruct (negb verify_mutations || _); [by eexists|].
  erewrite bind_ok by reflexivity. rewrite Hkey. erewrite bind_ok by reflexivity.
  erewrite bind_ok by (unfold lift_res; rewrite b64url_roundtrip; [reflexivity|];
    rewrite ed_public_size; auto).
  erewrite bind_ok by (unfold lift_res; rewrite Hid; reflexivity).
  pose (w1 := w <| wd_ticks := S (wd_ticks w) |>).
  destruct (claim_fresh (principal_str (ss_principal_type session)) (ss_principal_id session) nonce
    created 600 w1 Hfresh) as [w' Hw'].
  exists w'. erewrite bind_ok; [reflexivity|]. unfold verify_http_request.
  erewrite bind_ok by reflexivity.
  erewrite bind_ok by (unfold lift_res; erewrite signed_headers_verify by eauto; reflexivity).
  cbn [vr_nonce vr_created]. erewrite bind_ok by exact Hw'. reflexivity.
Qed.
End Roundtrip.

(** ** A device signs a request *)

Module Client.
Import Signing.Toy.

Definition laptop : device_row :=
  Mk_device_row "dev_1" "usr_1" "Laptop" (b64url_encode (ed_public device)) "enc" None SActive 0 None None.
Definition session : session_row :=
  Mk_session_row "ses_1" PDevice "dev_1" (Some "usr_1") "hash" (JDoc (JList [])) (seconds 9000) None 0 None.
Definition key_id : string :=
  Eval vm_compute in match device_key_id (ed_public device) with Ok k => k | Raise _ => "" end.
Definition start : world := MkWorld (empty_db <| devices := [laptop] |>) 0 0.
Definition body : bytes := encode "{}".
Definition nonce : string := "0123456789abcdef".
Definition headers : RequestSignatureHeaders :=
  Eval vm_compute in
    match sign_http_request device "post" "/api/v1/tasks?x=1" body key_id 10 nonce with
    | Ok h => h
    | Raise _ => MkHeaders "" "" ""
    end.
Definition request : list (string * string) := [("Host", "gateway"); ("Accept", "*/*")] ++ to_headers headers.

Lemma headers_signed :
  sign_http_request device "post" "/api/v1/tasks?x=1" body key_id 10 nonce = Ok headers.
Proof. vm_compute. reflexivity. Qed.
Lemma key_registered : principal_key (wd_db start) session = Some (b64url_encode (ed_public device)).
Proof. vm_compute. reflexivity. Qed.
Lemma key_id_derived : device_key_id (ed_public device) = Ok key_id.
Proof. vm_compute. reflexivity. Qed.

Lemma honest_mutation_accepted_witness :
  exists w', verify_mutation_signature true session "post" "/api/v1/tasks?x=1" body request start = (Ok tt, w').
Proof.
  exact (honest_mutation_accepted true session [("Host", "gateway"); ("Accept", "*/*")] device "post"
    "/api/v1/tasks?x=1" body key_id 10 nonce headers start key_registered key_id_derived headers_signed
    eq_refl ltac:(lia) ltac:(vm_compute; split; congruence) (fun r Hr => match Hr with end)).
Defined.
End Client.
