(* ===== verification/Replay.v ===== *)
(** * Replay protection of signed mutations ([gateway/database.py], [gateway/app.py])

    What every operation of the gateway does to the replay cache, and that a
    signed request of a principal is accepted at most once by a gateway that
    requires signatures. *)

From stdpp Require Import relations.
From S2P Require Import Prelude Python Errors Schema Store Access Framing Scheduler Bytes Encoding.
From S2P Require Import Signing Grants Maintenance Invariant Lifecycle Upkeep Requests.

Open Scope Z_scope.

(** ** What other operations do to the replay cache *)

(** Rows stay until [stamp] has passed their expiry. *)
Definition nonces_until (stamp : Z) : relation db := fun d d' =>
  forall r, In r (request_nonces d) -> In r (request_nonces d') \/ rn_expires_at r <= stamp.

#[export] Instance nonces_until_preorder stamp : PreOrder (nonces_until stamp).
Proof.
  split; [by left|]. intros d1 d2 d3 H12 H23 r Hr. destruct (H12 r Hr) as [H|H]; [|by right].
  by apply H23.
Qed.

Lemma nonces_same stamp d d' : request_nonces d' = request_nonces d -> nonces_until stamp d d'.
Proof. intros H r Hr. left. by rewrite H. Qed.

Create HintDb nonces.
#[export] Hint Extern 1 (respects (nonces_until _) now) => (apply respects_now; typeclasses eauto) : nonces.
#[export] Hint Extern 1 (respects (nonces_until _) (new_id _)) =>
  (apply respects_new_id; typeclasses eauto) : nonces.
#[export] Hint Extern 3 (respects (nonces_until _) (sql_update _ _ _)) =>
  (apply respects_update; intros; apply nonces_same; done) : nonces.
#[export] Hint Extern 3 (respects (nonces_until _) (sql_insert request_nonces _ _)) =>
  (apply respects_insert; [typeclasses eauto|]; intros ? _ ? ?; left; apply in_app_iff; by left)
  : nonces.
#[export] Hint Extern 4 (respects (nonces_until _) (sql_insert _ _ _)) =>
  (apply respects_insert; [typeclasses eauto|]; intros; apply nonces_same; done) : nonces.
#[export] Hint Extern 4 (respects (nonces_until _) (sql_delete _ _)) =>
  (apply respects_delete; intros; apply nonces_same; done) : nonces.
#[export] Hint Extern 5 (respects (nonces_until _) _) =>
  (apply respects_reads; [typeclasses eauto|solve [auto with reads]]) : nonces.

Lemma nonces_delete stamp :
  respects (nonces_until stamp) (sql_delete request_nonces (fun r => rn_expires_at r <=? stamp)).
Proof.
  apply respects_delete. intros d r Hr. simpl. rewrite in_select.
  destruct (rn_expires_at r <=? stamp) eqn:H; [right; lia|by left].
Qed.
#[export] Hint Resolve nonces_delete : nonces.

Ltac solve_nonces := solve_respects ltac:(auto with nonces).

Section Cache.
Context {E : Env}.

(** Between [w] and [w'] a nonce leaves the cache only after a clock reading that
    reached its expiry. *)
Definition nonces_kept (w w' : world) : Prop :=
  (wd_ticks w <= wd_ticks w')%nat /\
  forall r, In r (request_nonces (wd_db w)) ->
    In r (request_nonces (wd_db w')) \/
    exists n, (n < wd_ticks w')%nat /\ rn_expires_at r <= clock n.

#[export] Instance nonces_kept_preorder : PreOrder nonces_kept.
Proof.
  split; [split; [done|by left]|]. intros w1 w2 w3 [T12 H12] [T23 H23]. split; [lia|].
  intros r Hr. destruct (H12 r Hr) as [H|(n & Hn & He)]; [by apply H23|].
  right. exists n. split; [lia|done].
Qed.

Lemma kept_now {A} (k : Z -> M A) w :
  (forall stamp, respects (nonces_until stamp) (k stamp)) -> (forall stamp, forward (k stamp)) ->
  nonces_kept w (snd (bind now k w)).
Proof.
  intros Hk Hf. set (w1 := w <| wd_ticks := S (wd_ticks w) |>).
  change (snd (bind now k w)) with (snd (k (clock (wd_ticks w)) w1)).
  specialize (Hf (clock (wd_ticks w)) w1). specialize (Hk (clock (wd_ticks w)) w1). simpl in Hf.
  split; [lia|]. intros r Hr. destruct (Hk r Hr) as [?|He]; [by left|].
  right. exists (wd_ticks w). split; [lia|done].
Qed.

Lemma kept_reads {A B} (m : M A) (k : A -> M B) w :
  reads_only m -> (forall a, nonces_kept w (snd (k a w))) -> nonces_kept w (snd (bind m k w)).
Proof.
  intros Hm Hk. specialize (Hm w). unfold bind, mbind, M_bind.
  destruct (m w) as [[a|e] w1]; simpl in *; subst; [apply Hk|done].
Qed.

Lemma kept_claim pt pi n c ttl w : nonces_kept w (snd (claim_request_nonce pt pi n c ttl w)).
Proof. unfold claim_request_nonce, insert_nonce. apply kept_now; [solve_nonces|solve_forward]. Qed.

(** The sweep and the creation of maintenance jobs. *)
Ltac open_operations :=
  unfold _expire_reservations, _expire_leases, expire_lease, _finalize_drained_workers,
    _enqueue_task_rekey_command, upsert_command, _expire_maintenance_jobs, _ensure_rekey_commands,
    job_of_intent, insert_job, insert_receipt, _enqueue_task_rekey_command, upsert_command, audit.

Lemma nonces_prune stamp :
  respects (nonces_until stamp) (prune_expired_security_state (Some stamp)).
Proof.
  unfold prune_expired_security_state.
  match goal with |- respects ?R (bind (mret ?a) ?k) =>
    enough (respects R (k a)) as H by (intros w; exact (H w)) end.
  solve_nonces.
Qed.
Lemma forward_prune stamp : forward (prune_expired_security_state stamp).
Proof. unfold prune_expired_security_state. solve_forward. Qed.
#[local] Hint Resolve nonces_prune : nonces.
#[local] Hint Resolve forward_prune : forward.

Lemma kept_sweep w : nonces_kept w (snd (sweep_expired w)).
Proof.
  unfold sweep_expired. apply kept_now; intros stamp; open_operations; [solve_nonces|solve_forward].
Qed.

Lemma kept_create q w : nonces_kept w (snd (create_worker_maintenance q w)).
Proof.
  unfold create_worker_maintenance. apply kept_reads; [auto with reads|]. intros kind.
  apply kept_reads; [auto with reads|]. intros _.
  apply kept_now; intros stamp; open_operations; [solve_nonces|solve_forward].
Qed.

(** What may happen between two requests: other requests claim nonces, the sweep
    prunes, maintenance jobs are created; nothing else touches the cache. *)
Inductive between (w : world) : world -> Prop :=
| BetweenClaim pt pi n c ttl : between w (snd (claim_request_nonce pt pi n c ttl w))
| BetweenSweep : between w (snd (sweep_expired w))
| BetweenMaintenance q : between w (snd (create_worker_maintenance q w))
| BetweenOther w' : (wd_ticks w <= wd_ticks w')%nat ->
    request_nonces (wd_db w') = request_nonces (wd_db w) -> between w w'.

Lemma between_kept w w' : rtc between w w' -> nonces_kept w w'.
Proof.
  induction 1 as [|w1 w2 w3 Hb _ IH]; [done|]. etransitivity; [|exact IH].
  destruct Hb; [apply kept_claim|apply kept_sweep|apply kept_create|].
  split; [done|]. intros r Hr. left. congruence.
Qed.
End Cache.

(** ** A signed request is accepted once *)

Section Replay.
Context {E : Env}.

(** Which nonce and time the headers carry does not depend on key or clock. *)
Lemma parse_signature_headers pk pk' method path body headers k k' cur cur' v v' :
  parse_signature pk method path body headers k 300 30 cur = Ok v ->
  parse_signature pk' method path body headers k' 300 30 cur' = Ok v' ->
  vr_nonce v = vr_nonce v' /\ vr_created v = vr_created v' /\
  vr_created v <= cur + 30 /\ cur' - vr_created v <= 300.
Proof.
  unfold parse_signature. destruct (_validate_request method path) as [[m p]|]; [|done].
  unfold bind, mbind, res_bind. change ((300 <? 1) || (30 <? 0)) with false. cbv iota.
  destruct (_header headers "Content-Digest") as [dh|]; [|done].
  destruct (_header headers "Signature-Input") as [ih|]; [|done].
  destruct (_header headers "Signature") as [sh|]; [|done].
  destruct (_CONTENT_DIGEST dh); [|done]. destruct (_SIGNATURE_INPUT ih) as [input|]; [|done].
  destruct (_SIGNATURE sh) as [[sl value]|]; [|done].
  destruct (negb _ || negb _); [done|]. destruct (negb (String.eqb dh _)); [done|].
  destruct (match k with Some _ => _ | None => _ end); [done|].
  destruct (match k' with Some _ => _ | None => _ end); [intros _; done|].
  destruct ((cur + 30 <? _) || _) eqn:Ht; [done|].
  destruct ((cur' + 30 <? _) || _) eqn:Ht'; [intros _; done|].
  apply orb_false_iff in Ht as [Ht _], Ht' as [_ Ht'].
  destruct (b64decode value) as [sig|[]]; try done. destruct (negb (blen sig =? 64)); [done|].
  destruct (negb (blen pk =? 32)); [done|]. destruct (ed_verify pk _ _); [|done].
  intros [= <-]. destruct (negb (blen pk' =? 32)); [done|]. destruct (ed_verify pk' _ _); [|done].
  intros [= <-]. simpl. split_and!; try done; lia.
Qed.

(** A successful claim leaves its row in the cache. *)
Lemma claim_run pt pi n c ttl w w' :
  claim_request_nonce pt pi n c ttl w = (Ok true, w') ->
  In (claimed_nonce pt pi n c ttl (clock (wd_ticks w))) (request_nonces (wd_db w')).
Proof.
  unfold claim_request_nonce, insert_nonce. intros Hrun.
  apply run_bind in Hrun as (stamp & w0 & Hn & Hrun). unfold now in Hn. injection Hn as <- <-.
  repeat run_step; [done|]. flat_db. simpl. apply in_app_iff. right. by left.
Qed.

(** A claim fails while the nonce is in the cache and has not expired. *)
Lemma claim_used pt pi n c c' ttl ttl' stamp w :
  In (claimed_nonce pt pi n c ttl stamp) (request_nonces (wd_db w)) ->
  clock (wd_ticks w) < stamp + seconds ttl ->
  exists w', claim_request_nonce pt pi n c' ttl' w = (Ok false, w').
Proof.
  intros Hin Hlive. unfold claim_request_nonce, insert_nonce, bind, mbind, M_bind, now, transaction,
    sql_delete, query. simpl.
  match goal with |- context [has_key nonce_key ?l ?k] =>
    assert (has_key nonce_key l k = true) as -> end; [|by eexists].
  apply has_key_spec. exists (claimed_nonce pt pi n c ttl stamp). split; [|done].
  apply in_select. split; [done|]. simpl. apply negb_true_iff, Z.leb_gt. exact Hlive.
Qed.

(** Up to the verification of the headers. *)
Lemma verify_mutation_key session method path body headers w u w' :
  mutation method = true ->
  verify_mutation_signature true session method path body headers w = (Ok u, w') ->
  exists pk k v, verify_http_request pk method path body headers (Some k) 300 30
    (fun nonce created => claim_request_nonce (principal_str (ss_principal_type session))
                            (ss_principal_id session) nonce created 600) w = (Ok v, w').
Proof.
  unfold verify_mutation_signature. intros -> Hrun. cbn [negb orb] in Hrun.
  apply run_bind in Hrun as (o & w0 & Hq & Hrun). apply run_query in Hq as [_ ->].
  apply run_bind in Hrun as (key & w0 & Hq & Hrun). apply run_require in Hq as [_ ->].
  apply run_bind in Hrun as (pk & w0 & Hq & Hrun). apply run_lift in Hq as [_ ->].
  apply run_bind in Hrun as (k & w0 & Hq & Hrun). apply run_lift in Hq as [_ ->].
  apply run_bind in Hrun as (v & w0 & Hq & Hrun). apply run_ret in Hrun as [_ ->]. eauto.
Qed.

Lemma verify_mutation_run session method path body headers w u w' :
  mutation method = true ->
  verify_mutation_signature true session method path body headers w = (Ok u, w') ->
  exists pk k v, parse_signature pk method path body headers (Some k) 300 30
                   (clock (wd_ticks w) / 1000000) = Ok v /\
    In (claimed_nonce (principal_str (ss_principal_type session)) (ss_principal_id session)
          (vr_nonce v) (vr_created v) 600 (clock (S (wd_ticks w)))) (request_nonces (wd_db w')) /\
    (wd_ticks w < wd_ticks w')%nat.
Proof.
  intros Hm (pk & k & v' & Hv)%verify_mutation_key; [|done]. unfold verify_http_request in Hv. apply run_bind in Hv as (stamp & w0 & Hn & Hv).
  unfold now in Hn. injection Hn as <- <-.
  apply run_bind in Hv as (v0 & w0 & Hp & Hv). apply run_lift in Hp as [Hp ->].
  apply run_bind in Hv as (fresh & w0 & Hc & Hv). apply run_bind in Hv as ([] & w2 & Hk & Hv).
  apply run_check in Hk as [-> ->]. apply run_ret in Hv as [_ ->].
  exists pk, k, v0. split; [exact Hp|]. split; [exact (claim_run _ _ _ _ _ _ _ Hc)|].
  pose proof (kept_claim (principal_str (ss_principal_type session)) (ss_principal_id session)
    (vr_nonce v0) (vr_created v0) 600 (w <| wd_ticks := S (wd_ticks w) |>)) as [Ht _].
  rewrite Hc in Ht. simpl in Ht. lia.
Qed.

(** C11: a signed mutation is accepted at most once.  Where request signatures are
    required (the switch [verify_mutations], on by default), after a request of a
    principal has been accepted, whatever other requests, sweeps and maintenance jobs come
    between, the same headers for the same principal are rejected, now and for
    ever: while the signature is young its nonce is in the cache, and when the
    nonce may leave the cache the signature has become too old.  The clock never
    goes back, and the two readings of one verification are at most 269 seconds
    apart. *)
Theorem signed_mutation_accepted_once session session' method path body headers w u w1 w2 :
  (forall m n, (m <= n)%nat -> clock m <= clock n) ->
  mutation method = true ->
  verify_mutation_signature true session method path body headers w = (Ok u, w1) ->
  rtc between w1 w2 ->
  ss_principal_type session' = ss_principal_type session ->
  ss_principal_id session' = ss_principal_id session ->
  clock (S (wd_ticks w2)) <= clock (wd_ticks w2) + seconds 269 ->
  exists e w3, verify_mutation_signature true session' method path body headers w2 = (Raise e, w3).
Proof.
  intros Hmono Hm Hrun [Ht Hkept]%between_kept Ept Epi Hprompt.
  apply verify_mutation_run in Hrun as (pk & k & v & Hp & Hin & Ht1); [|done].
  destruct (verify_mutation_signature true session' method path body headers w2) as [[u2|e] w3] eqn:Hrun2;
    [exfalso|by eauto].
  apply verify_mutation_key in Hrun2 as (pk2 & k2 & v2 & Hv); [|done].
  unfold verify_http_request in Hv. apply run_bind in Hv as (stamp & w0 & Hn & Hv).
  unfold now in Hn. injection Hn as <- <-.
  apply run_bind in Hv as (v0 & w0 & Hp2 & Hv). apply run_lift in Hp2 as [Hp2 ->].
  destruct (parse_signature_headers _ _ _ _ _ _ _ _ _ _ _ _ Hp Hp2) as (En & _ & Hyoung & Hold).
  pose proof (Hmono (wd_ticks w) (S (wd_ticks w)) ltac:(lia)) as Hstamp.
  pose proof (Z.mul_div_le (clock (wd_ticks w)) 1000000 ltac:(lia)) as Hd1.
  pose proof (Z.mul_succ_div_gt (clock (wd_ticks w2)) 1000000 ltac:(lia)) as Hd2.
  unfold seconds in Hprompt.
  assert (clock (wd_ticks w2) < clock (S (wd_ticks w)) + 331 * 1000000) as Hnow by lia.
  destruct (Hkept _ Hin) as [Hin2|(n & Hn & He)].
  2: { specialize (Hmono n (wd_ticks w2) ltac:(lia)). simpl in He. unfold seconds in He. lia. }
  apply run_bind in Hv as (fresh & w0 & Hc & Hv). apply run_bind in Hv as ([] & w5 & Hk & _).
  apply run_check in Hk as [-> _]. rewrite Ept, Epi, <- En in Hc.
  enough (exists w6, (Ok true, w0) = (Ok false, w6)) as (? & ?) by done.
  rewrite <- Hc. eapply claim_used; [exact Hin2|]. cbn -[Z.mul]. unfold seconds. lia.
Qed.
End Replay.

(** ** The second copy of a request is refused *)

Module Second.
Import Signing.Toy Requests.Client.

Definition accepted : world :=
  Eval vm_compute in
    snd (verify_mutation_signature true session "post" "/api/v1/tasks?x=1" body request start).

Lemma first_accepted :
  verify_mutation_signature true session "post" "/api/v1/tasks?x=1" body request start = (Ok tt, accepted).
Proof. vm_compute. reflexivity. Qed.
Lemma clock_forward m n : (m <= n)%nat -> clock m <= clock n.
Proof. unfold clock, toy_env, seconds. lia. Qed.
Lemma sweep_between : rtc between accepted (snd (sweep_expired accepted)).
Proof. apply rtc_once, BetweenSweep. Qed.
Lemma readings_close :
  clock (S (wd_ticks (snd (sweep_expired accepted)))) <=
  clock (wd_ticks (snd (sweep_expired accepted))) + seconds 269.
Proof. vm_compute. congruence. Qed.

Lemma signed_mutation_accepted_once_witness :
  exists e w3, verify_mutation_signature true session "post" "/api/v1/tasks?x=1" body request
                 (snd (sweep_expired accepted)) = (Raise e, w3).
Proof.
  exact (signed_mutation_accepted_once session session "post" "/api/v1/tasks?x=1" body request start tt
    accepted (snd (sweep_expired accepted)) clock_forward eq_refl first_accepted sweep_between
    eq_refl eq_refl readings_close).
Defined.
End Second.
