(* ===== verification/Listing.v ===== *)
(** * Task listings ([src/vgen/gateway/repository.py])

    The pages of a workspace's task list: sorting, the opaque cursor that names
    the last row of a page, the rows each principal may see; the plain list and
    the reader's envelope.  Following the cursors enumerates the whole list. *)

From S2P Require Import Prelude Python Bytes Errors Schema Store Access Scheduler Encoding Signing.
From S2P Require Import Capability Requests.

Open Scope Z_scope.

(** ** Sorting *)

Inductive task_sort := SortCreated | SortUpdated | SortPriority | SortState.

(** [TASK_LIST_SORTS]. *)
Definition TASK_LIST_SORTS (sort : string) : option task_sort :=
  if String.eqb sort "created" then Some SortCreated
  else if String.eqb sort "updated" then Some SortUpdated
  else if String.eqb sort "priority" then Some SortPriority
  else if String.eqb sort "state" then Some SortState
  else None.

Definition task_state_str (s : task_state) : string :=
  match s with
  | TPrepared => "prepared" | TCommitted => "committed" | TQueued => "queued"
  | TReserved => "reserved" | TRunning => "running" | TRekeyRequired => "rekey_required"
  | TSucceeded => "succeeded" | TFailed => "failed" | TCancelled => "cancelled"
  | TExpired => "expired"
  end.

(** A value SQLite compares: a text, or a number [m * 2^e]. *)
Inductive sql_key := KText (s : string) | KNum (m e : Z).

Definition scaled_ltb (m e m' e' : Z) : bool :=
  let lo := Z.min e e' in m * 2 ^ (e - lo) <? m' * 2 ^ (e' - lo).

Definition key_ltb (x y : sql_key) : bool :=
  match x, y with
  | KText a, KText b => str_ltb a b
  | KNum m e, KNum m' e' => scaled_ltb m e m' e'
  | KNum _ _, KText _ => true
  | KText _, KNum _ _ => false
  end.

Definition key_eqb (x y : sql_key) : bool :=
  match x, y with
  | KText a, KText b => String.eqb a b
  | KNum m e, KNum m' e' => scaled_eqb m e m' e'
  | _, _ => false
  end.

(** The column a sort reads; times are numbers of microseconds. *)
Definition sort_key (sort : task_sort) (t : task_row) : sql_key :=
  match sort with
  | SortCreated => KNum (t_created_at t) 0
  | SortUpdated => KNum (t_updated_at t) 0
  | SortPriority => KNum (t_priority t) 0
  | SortState => KText (task_state_str (t_state t))
  end.

(** The position a cursor names. *)
Record position := MkPosition { ps_primary : sql_key; ps_created : Z * Z; ps_id : string }.

Definition position_of (sort : task_sort) (t : task_row) : position :=
  MkPosition (sort_key sort t) (t_created_at t, 0) (t_id t).

(** The rows after a position:
    [expr > ? OR (expr = ? AND (created_at < ? OR (created_at = ? AND id < ?)))]. *)
Definition row_after (sort : task_sort) (ascending : bool) (p : position) (t : task_row) : bool :=
  let k := sort_key sort t in
  let '(m, e) := ps_created p in
  (if ascending then key_ltb (ps_primary p) k else key_ltb k (ps_primary p)) ||
  (key_eqb k (ps_primary p) &&
   (scaled_ltb (t_created_at t) 0 m e ||
    (scaled_eqb (t_created_at t) 0 m e && str_ltb (t_id t) (ps_id p)))).

(** [ORDER BY expr direction, created_at DESC, id DESC]. *)
Definition page_leb (sort : task_sort) (ascending : bool) (x y : task_row) : bool :=
  let kx := sort_key sort x in
  let ky := sort_key sort y in
  if key_ltb kx ky then ascending
  else if key_ltb ky kx then negb ascending
  else if t_created_at y <? t_created_at x then true
  else if t_created_at x <? t_created_at y then false
  else negb (str_ltb (t_id x) (t_id y)).

(** ** Cursors *)

(** [bytes.decode("utf-8")] accepts the well-formed sequences. *)
Fixpoint utf8_ok (b : list Z) : bool :=
  let between lo hi c := (lo <=? c) && (c <=? hi) in
  match b with
  | [] => true
  | x :: b1 =>
      if x <? 128 then utf8_ok b1
      else match b1 with
      | [] => false
      | y :: b2 =>
          if between 194 223 x then between 128 191 y && utf8_ok b2
          else match b2 with
          | [] => false
          | z :: b3 =>
              if between 224 239 x then
                between (if x =? 224 then 160 else 128) (if x =? 237 then 159 else 191) y &&
                between 128 191 z && utf8_ok b3
              else match b3 with
              | [] => false
              | u :: b4 =>
                  between 240 244 x &&
                  between (if x =? 240 then 144 else 128) (if x =? 244 then 143 else 191) y &&
                  between 128 191 z && between 128 191 u && utf8_ok b4
              end
          end
      end
  end.

Definition decode_utf8 (b : bytes) : res string :=
  if utf8_ok (map byte_val b) then Ok (String.string_of_list_byte b) else Raise ValueError.

(** [float(n)] of an integer: rounded half to even to 53 bits. *)
Definition int_float (n : Z) : res float :=
  if Z.abs n <? 2 ^ 53 then Ok (FFin n 0)
  else
    let e := Z.log2 (Z.abs n) - 52 in
    let q := Z.abs n / 2 ^ e in
    let r := Z.abs n mod 2 ^ e in
    let half := 2 ^ (e - 1) in
    let up := (half <? r) || ((half =? r) && Z.odd q) in
    let m := Z.sgn n * (if up then q + 1 else q) in
    if float_overflows m e then Raise OverflowError else Ok (FFin m e).

Definition finite (f : float) : res (Z * Z) :=
  match f with FFin m e => Ok (m, e) | _ => Raise ValueError end.

Section Cursors.
Context {E : Env}.
(** [float(text)]: [None] is a [ValueError]. *)
Context (float_of_text : string -> option float).

Definition py_float (v : json) : res float :=
  match v with
  | JInt n => int_float n
  | JBool b => Ok (FFin (if b then 1 else 0) 0)
  | JFloat f => Ok f
  | JStr s => match float_of_text s with Some f => Ok f | None => Raise ValueError end
  | _ => Raise TypeError
  end.

(** A time as the float of the document. *)
Definition time_float (t : Z) : json := JFloat (FFin t 0).

Definition cursor_value (sort : task_sort) (t : task_row) : json :=
  match sort with
  | SortCreated => time_float (t_created_at t)
  | SortUpdated => time_float (t_updated_at t)
  | SortPriority => JInt (t_priority t)
  | SortState => JStr (task_state_str (t_state t))
  end.

Definition cursor_document (t : task_row) (sort : task_sort) (sort_name order : string) : dict :=
  [("v", JInt 2); ("sort", JStr sort_name); ("order", JStr order); ("value", cursor_value sort t);
   ("created_at", time_float (t_created_at t)); ("id", JStr (t_id t))].

Definition _encode_task_cursor (t : task_row) (sort : task_sort) (sort_name order : string)
    : res string :=
  document ← json_dump (JObj (cursor_document t sort sort_name order));
  Ok (b64url_encode (encode document)).

(** The primary value of a version 2 document. *)
Definition cursor_primary (sort : task_sort) (v : json) : res sql_key :=
  match sort with
  | SortState =>
      match v with
      | JStr s => if String.eqb s "" || (64 <? char_len s) then Raise ValueError else Ok (KText s)
      | _ => Raise ValueError
      end
  | SortPriority => match v with JInt n => Ok (KNum n 0) | _ => Raise ValueError end
  | _ => f ← py_float v; '(m, e) ← finite f; Ok (KNum m e)
  end.

(** The body of the [try] block. *)
Definition read_cursor (cursor : string) (sort : task_sort) (sort_name order : string) : res position :=
  raw ← b64url_decode cursor None;
  text ← decode_utf8 raw;
  match json_loads text with
  | JBad _ => Raise JSONDecodeError
  | JDoc (JObj value) =>
      primary ←
        (if same_keys value ["created_at"; "id"] && String.eqb sort_name "created" &&
            String.eqb order "desc" then
           f ← py_float (jget_or "created_at" JNull value);
           '(m, e) ← finite f; Ok (KNum m e)
         else if negb (same_keys value ["v"; "sort"; "order"; "value"; "created_at"; "id"]) ||
                 negb (json_eqb (jget_or "v" JNull value) (JInt 2)) ||
                 negb (json_is (jget_or "sort" JNull value) sort_name) ||
                 negb (json_is (jget_or "order" JNull value) order) then Raise ValueError
         else cursor_primary sort (jget_or "value" JNull value));
      created ← py_float (jget_or "created_at" JNull value);
      let task_id := py_str (jget_or "id" JNull value) in
      created_at ← finite created;
      if String.eqb task_id "" || (120 <? char_len task_id) then Raise ValueError
      else Ok (MkPosition primary created_at task_id)
  | JDoc _ => Raise TypeError
  end.

Definition _decode_task_cursor (cursor : string) (sort : task_sort) (sort_name order : string)
    : res position :=
  match read_cursor cursor sort sort_name order with
  | Raise (KeyError | TypeError | ValueError | JSONDecodeError) =>
      Raise (repo_err VALIDATION_FAILED "TASK_CURSOR_INVALID" "Task list cursor is invalid." 422)
  | r => r
  end.

(** [sqlite3] refuses integers beyond 64 bits. *)
Definition bind_key (sort : task_sort) (k : sql_key) : res unit :=
  match sort, k with
  | SortPriority, KNum n _ => if (- 2 ^ 63 <=? n) && (n <? 2 ^ 63) then Ok tt else Raise OverflowError
  | _, _ => Ok tt
  end.

(** ** Pages *)

(** The rows of a workspace a principal may list: a service and a plain member see
    what they submitted. *)
Definition list_guard (workspace_id : string) (user_id : option string)
    (principal_type principal_id : string) : M (task_row -> bool) :=
  if String.eqb principal_type "service" then
    _ ← require_service workspace_id principal_id;
    mret (fun t => (t_workspace_id t =d workspace_id) &&
                   (t_consumer_principal_type t =d "service") &&
                   (t_consumer_principal_id t =d principal_id))
  else
    member ← require_member workspace_id user_id;
    mret (fun t => (t_workspace_id t =d workspace_id) &&
                   (negb (mb_role member =d RoleMember) ||
                    (is_some user_id && (t_consumer_user_id t =d user_id)))).

Definition in_state (state : option string) (t : task_row) : bool :=
  match truthy_id state with
  | Some s => String.eqb (task_state_str (t_state t)) s
  | None => true
  end.

Record task_summary := MkSummary {
  ts_id : string;
  ts_state : task_state;
  ts_workflow_ref : string;
  ts_executor_type : string;
  ts_priority : Z;
  ts_created_at : Z;
  ts_updated_at : Z;
  ts_committed_at : option Z;
  ts_started_at : option Z;
  ts_finished_at : option Z;
  ts_principal_type : string;
  ts_principal_id : string;
  ts_user_id : option string;
  ts_display_name : option string;
  ts_worker : option (string * option string);
  ts_queue_position : option Z
}.

(** [SELECT MIN(started_at)] of the attempts that started. *)
Definition first_started (d : db) (task_id : string) : option Z :=
  List.fold_right (fun a acc => match a_started_at a, acc with
                                | Some s, Some m => Some (Z.min s m)
                                | Some s, None => Some s
                                | None, _ => acc
                                end) None
    (select (fun a => a_task_id a =d task_id) (task_attempts d)).

(** The names come from the [LEFT JOIN]s of the page query. *)
Definition _task_list_summary (d : db) (t : task_row) : task_summary :=
  let user_name := u ← t_consumer_user_id t; option_map u_display_name (find_by u_id u (users d)) in
  let service_name :=
    if String.eqb (t_consumer_principal_type t) "service"
    then option_map sv_name (find_by sv_id (t_consumer_principal_id t) (services d)) else None in
  let worker_name := w ← t_assigned_worker_id t; option_map w_name (find_by w_id w (workers d)) in
  MkSummary (t_id t) (t_state t) (t_workflow_ref t) (t_executor_type t) (t_priority t)
    (t_created_at t) (t_updated_at t) (t_committed_at t) (first_started d (t_id t)) (t_finished_at t)
    (t_consumer_principal_type t) (t_consumer_principal_id t) (t_consumer_user_id t)
    (match truthy_id user_name with Some n => Some n | None => service_name end)
    (w ← truthy_id (t_assigned_worker_id t); Some (w, worker_name))
    (_task_queue_position d t).

Record task_page := MkPage {
  pg_total : Z;
  pg_count : Z;
  pg_items : list task_summary;
  pg_next_cursor : option string
}.

Definition sort_invalid : exc :=
  repo_err VALIDATION_FAILED "TASK_SORT_INVALID" "Task list sort or order is invalid." 422.

(** The rows of the page query, one more than the page shows. *)
Definition page_rows (visible : list task_row) (sort : task_sort) (ascending : bool)
    (from : option position) (page_limit : Z) : list task_row :=
  take (Z.to_nat (page_limit + 1))
    (order_by (page_leb sort ascending)
       (select (fun t => match from with Some p => row_after sort ascending p t | None => true end) visible)).

Definition list_task_page (workspace_id : string) (user_id : option string)
    (principal_type principal_id : string) (state : option string) (sort order : string)
    (limit : Z) (cursor : option string) : M task_page :=
  s ← require (TASK_LIST_SORTS sort) sort_invalid;
  _ ← check (String.eqb order "asc" || String.eqb order "desc") sort_invalid;
  may_see ← list_guard workspace_id user_id principal_type principal_id;
  d ← query (fun d => d);
  let visible := select (fun t => may_see t && in_state state t) (tasks d) in
  from ← (match truthy_id cursor with
          | Some c => p ← lift_res (_decode_task_cursor c s sort order); mret (Some p)
          | None => mret None
          end : M (option position));
  let page_limit := Z.min (Z.max limit 1) 100 in
  _ ← lift_res (match from with Some p => bind_key s (ps_primary p) | None => Ok tt end);
  let rows := page_rows visible s (String.eqb order "asc") from page_limit in
  let shown := take (Z.to_nat page_limit) rows in
  next ← lift_res (if page_limit <? Z.of_nat (length rows) then
                     match last shown with
                     | Some t => c ← _encode_task_cursor t s sort order; Ok (Some c)
                     | None => Ok None
                     end
                   else Ok None);
  mret (MkPage (Z.of_nat (length visible)) (Z.of_nat (length shown))
          (map (_task_list_summary d) shown) next).

(** The plain list: newest first, without payload and envelope. *)
Definition list_tasks (workspace_id : string) (user_id : option string)
    (principal_type principal_id : string) (state : option string) (limit : Z) : M (list (task_row * json)) :=
  may_see ← list_guard workspace_id user_id principal_type principal_id;
  rows ← query (fun d => take (Z.to_nat (Z.min (Z.max limit 1) 500))
    (order_by (fun x y => t_created_at y <=? t_created_at x)
       (select (fun t => may_see t && in_state state t) (tasks d))));
  lift_res (res_map (fun t =>
    match t_public_requirements t with
    | JDoc v => Ok (t <| t_encrypted_payload := None |> <| t_reader_envelope := None |>, v)
    | JBad _ => Raise JSONDecodeError
    end) rows).

Record reader_view := MkReader {
  rd_task_id : string;
  rd_workspace_id : string;
  rd_reader_envelope : option string;
  rd_key_version : Z;
  rd_content_attempt_id : option string;
  rd_assigned_worker_id : option string
}.

Definition reader_envelope (task_id : string) (user_id : option string)
    (principal_type principal_id : string) : M reader_view :=
  task ← query (fun d => find_by t_id task_id (tasks d));
  task ← require task (repo_err 300002 "TASK_NOT_FOUND" "Task not found." 404);
  _ ← require_task_consumer task principal_type principal_id user_id true;
  content_attempt ← query (fun d => first_attempt d task_id);
  mret (MkReader task_id (t_workspace_id task) (t_reader_envelope task) (t_content_key_version task)
          (option_map a_id content_attempt) (t_assigned_worker_id task)).
End Cursors.

(** ** The order of a page is total *)

Lemma scaled_unit a b : scaled_ltb a 0 b 0 = (a <? b) /\ scaled_eqb a 0 b 0 = (a =? b).
Proof. unfold scaled_ltb, scaled_eqb. simpl. by rewrite !Z.mul_1_r. Qed.

Ltac open_keys := unfold sort_key, key_ltb, key_eqb; rewrite ?(proj1 (scaled_unit _ _)), ?(proj2 (scaled_unit _ _)).

Lemma key_irrefl s x : key_ltb (sort_key s x) (sort_key s x) = false.
Proof. destruct s; open_keys; [lia..|]. apply str_ltb_irrefl. Qed.

Lemma key_trans s x y z :
  key_ltb (sort_key s x) (sort_key s y) = true -> key_ltb (sort_key s y) (sort_key s z) = true ->
  key_ltb (sort_key s x) (sort_key s z) = true.
Proof. destruct s; open_keys; [lia..|]. apply str_ltb_trans. Qed.

Lemma key_asym s x y :
  key_ltb (sort_key s x) (sort_key s y) = true ->
  key_ltb (sort_key s y) (sort_key s x) = false /\ sort_key s x <> sort_key s y.
Proof.
  intros H. split.
  - destruct (key_ltb (sort_key s y) (sort_key s x)) eqn:H'; [|done].
    by rewrite <- (key_irrefl s x), (key_trans s x y x H H').
  - intros He. rewrite He, key_irrefl in H. done.
Qed.

Lemma key_total s x y :
  key_ltb (sort_key s x) (sort_key s y) = true \/ sort_key s x = sort_key s y \/
  key_ltb (sort_key s y) (sort_key s x) = true.
Proof.
  destruct s; open_keys; rewrite ?Z.ltb_lt.
  1-3: match goal with |- ?a < ?b \/ _ => destruct (Z.lt_total a b) as [?|[->|?]]; auto end.
  destruct (str_ltb_total (task_state_str (t_state x)) (task_state_str (t_state y))) as [?|[->|?]]; auto.
Qed.

Lemma key_eqb_spec s x y : key_eqb (sort_key s x) (sort_key s y) = true <-> sort_key s x = sort_key s y.
Proof.
  destruct s; open_keys; [rewrite Z.eqb_eq; split; [by intros ->|by intros [=]]..|].
  rewrite String.eqb_eq. split; [by intros ->|by intros [=]].
Qed.

Section Order.
Context (s : task_sort) (ascending : bool).
Implicit Types x y z : task_row.

(** [y] comes strictly after [x]. *)
Definition later x y : Prop :=
  (if ascending then key_ltb (sort_key s x) (sort_key s y) = true
   else key_ltb (sort_key s y) (sort_key s x) = true) \/
  (sort_key s x = sort_key s y /\
   (t_created_at y < t_created_at x \/
    (t_created_at y = t_created_at x /\ str_ltb (t_id y) (t_id x) = true))).

Lemma after_spec x y : row_after s ascending (position_of s x) y = true <-> later x y.
Proof.
  unfold row_after, position_of, later. cbn [ps_primary ps_created ps_id].
  rewrite !(proj1 (scaled_unit _ _)), !(proj2 (scaled_unit _ _)).
  rewrite orb_true_iff, andb_true_iff, key_eqb_spec, orb_true_iff, andb_true_iff, Z.ltb_lt, Z.eqb_eq.
  destruct ascending; naive_solver.
Qed.

Lemma later_irrefl x : ~ later x x.
Proof.
  intros [H|[_ [H|[_ H]]]]; [|lia|by rewrite str_ltb_irrefl in H].
  destruct ascending; by rewrite key_irrefl in H.
Qed.

Lemma later_trans x y z : later x y -> later y z -> later x z.
Proof.
  unfold later. intros [Hxy|[Exy Hxy]] [Hyz|[Eyz Hyz]].
  - left. destruct ascending; eauto using key_trans.
  - left. by rewrite <- Eyz.
  - left. by rewrite Exy.
  - right. split; [congruence|]. destruct Hxy as [?|[? ?]], Hyz as [?|[? ?]]; [left; lia..|].
    right. split; [lia|]. eauto using str_ltb_trans.
Qed.

Lemma later_total x y : later x y \/ later y x \/ position_of s x = position_of s y.
Proof.
  unfold later, position_of. destruct (key_total s x y) as [H|[H|H]]; [destruct ascending; auto| |].
  - rewrite H. destruct (Z.lt_total (t_created_at x) (t_created_at y)) as [?|[Hc|?]]; [by auto 10| |by auto 10].
    rewrite Hc. destruct (str_ltb_total (t_id x) (t_id y)) as [?|[Hi|?]]; [auto 10| |auto 10].
    rewrite Hi. auto.
  - destruct ascending; auto.
Qed.

Lemma later_position x y z : position_of s x = position_of s y -> later z x <-> later z y.
Proof. unfold position_of, later. intros [= -> -> ->]. done. Qed.

Lemma page_leb_spec x y : page_leb s ascending x y = true <-> ~ later y x.
Proof.
  unfold page_leb, later. cbv zeta. destruct (key_total s x y) as [H|[H|H]].
  - pose proof (key_asym _ _ _ H) as [Hn Hne]. rewrite H, Hn. destruct ascending; naive_solver.
  - rewrite H, key_irrefl. destruct (Z.ltb_spec (t_created_at y) (t_created_at x)).
    + split; [|done]. intros _ [Hk|[_ [?|[? _]]]]; [by destruct ascending|lia..].
    + destruct (Z.ltb_spec (t_created_at x) (t_created_at y)); [naive_solver|].
      destruct (str_ltb (t_id x) (t_id y)) eqn:Hi; simpl; [split; [done|]|split; [|done]].
      * intros Hn. destruct Hn. right. split; [done|]. right. split; [lia|done].
      * intros _ [Hk|[_ [?|[_ ?]]]]; [by destruct ascending|lia|congruence].
  - pose proof (key_asym _ _ _ H) as [Hn Hne]. rewrite H, Hn. destruct ascending; naive_solver.
Qed.

Lemma page_leb_preorder : total_preorder (page_leb s ascending).
Proof.
  split.
  - intros x y. rewrite !page_leb_spec. destruct (later_total x y) as [H|[H|H]].
    + left. intros H'. apply (later_irrefl x). eauto using later_trans.
    + right. intros H'. apply (later_irrefl x). eauto using later_trans.
    + left. intros H'. apply (later_irrefl y). by apply (later_position x y y H).
  - intros x y z. rewrite !page_leb_spec. intros Hxy Hyz Hzx.
    destruct (later_total x y) as [H|[H|H]]; [|done|].
    + apply Hyz. eauto using later_trans.
    + apply Hyz. by apply (later_position x y z H).
Qed.
End Order.

(** ** Following the cursors *)

Section Walk.
Context {E : Env} (float_of_text : string -> option float).

(** Read a page, then the pages its cursors name, at most [fuel] of them; [None] when
    a cursor is left. *)
Fixpoint follow (fuel : nat) (workspace_id : string) (user_id : option string)
    (principal_type principal_id : string) (state : option string) (sort order : string)
    (limit : Z) (cursor : option string) : M (option (list task_summary)) :=
  page ← list_task_page float_of_text workspace_id user_id principal_type principal_id state sort order
           limit cursor;
  match pg_next_cursor page, fuel with
  | None, _ => mret (Some (pg_items page))
  | Some _, O => mret None
  | Some c, S fuel =>
      rest ← follow fuel workspace_id user_id principal_type principal_id state sort order limit (Some c);
      mret (option_map (app (pg_items page)) rest)
  end.

(** What [json.dumps] wrote for the cursor of a row, [json.loads] reads back with the
    keys in sorted order; identifiers and priorities are in the ranges of the schema. *)
Definition cursor_readable (s : task_sort) (sort order : string) (t : task_row) : Prop :=
  let document := cursor_document t s sort order in
  (exists text, json_dump (JObj document) = Ok text /\ utf8_ok (map byte_val (encode text)) = true /\
     json_loads text = JDoc (JObj (order_by (fun x y => negb (str_ltb (fst y) (fst x))) document))) /\
  1 <= char_len (t_id t) <= 120 /\ - 2 ^ 63 <= t_priority t < 2 ^ 63.

Lemma primary_read s t : cursor_primary float_of_text s (cursor_value s t) = Ok (sort_key s t).
Proof. destruct s; try done. simpl. by destruct (t_state t). Qed.

Lemma encode_nonempty b : b64url_encode b = "" -> b = [].
Proof.
  intros H. pose proof (b64url_roundtrip b None (or_introl eq_refl)) as Hr. rewrite H in Hr.
  vm_compute in Hr. by injection Hr.
Qed.

Lemma cursor_roundtrip s sort order t :
  cursor_readable s sort order t ->
  exists c, _encode_task_cursor t s sort order = Ok c /\ truthy_id (Some c) = Some c /\
    _decode_task_cursor float_of_text c s sort order = Ok (position_of s t).
Proof.
  intros ((text & Hd & Hu & Hl) & Hid & Hp). unfold _encode_task_cursor. rewrite Hd.
  eexists. split; [reflexivity|]. split.
  - unfold truthy_id. destruct (String.eqb_spec (b64url_encode (encode text)) "") as [He|]; [|done].
    apply encode_nonempty in He. destruct text; [|done]. rewrite json_dump_obj in Hd.
    by destruct (dump_members _).
  - unfold _decode_task_cursor, read_cursor. rewrite b64url_roundtrip by auto.
    unfold bind at 1 2, mbind, res_bind, decode_utf8. rewrite Hu.
    unfold encode. rewrite String.string_of_list_byte_of_string, Hl.
    match goal with |- context [order_by ?leb ?l] =>
      let l' := eval lazy -[cursor_value time_float t_created_at t_id] in (order_by leb l) in
      change (order_by leb l) with l' end.
    change (same_keys _ ["created_at"; "id"]) with false. cbn [andb].
    change (same_keys _ ["v"; "sort"; "order"; "value"; "created_at"; "id"]) with true.
    change (json_eqb _ (JInt 2)) with true. unfold jget_or, jget. simpl List.find.
    unfold json_is. simpl json_eqb. rewrite !String.eqb_refl. cbn [negb orb option_map snd].
    rewrite primary_read. unfold time_float. cbn [py_float finite]. unfold bind, mbind, res_bind.
    cbn [py_str]. destruct (String.eqb_spec (t_id t) "") as [He|_]; [rewrite He in Hid; by destruct Hid as [[] _]|].
    destruct (Z.ltb_spec 120 (char_len (t_id t))); [lia|]. done.
Qed.

Lemma sorted_around {A} (leb : A -> A -> bool) pre x rest :
  StronglySorted (fun x y => leb x y = true) (pre ++ x :: rest) ->
  (forall y, In y pre -> leb y x = true) /\ (forall y, In y rest -> leb x y = true).
Proof.
  induction pre as [|z pre IH]; simpl; intros [Hs Hall]%StronglySorted_inv.
  - split; [done|]. by apply List.Forall_forall.
  - destruct (IH Hs) as [Hp Hr]. split; [|done]. intros y [->|Hy]; [|by apply Hp].
    rewrite List.Forall_forall in Hall. apply Hall, in_app_iff. right. by left.
Qed.

Lemma filter_all {A} (p : A -> bool) l : (forall x, In x l -> p x = true) -> List.filter p l = l.
Proof.
  induction l as [|x l IH]; [done|]. intros H. simpl. rewrite (H x) by (by left).
  f_equal. apply IH. intros y Hy. apply H. by right.
Qed.

(** A page shows the rows that follow the position. *)
Lemma rows_after s ascending visible pre x rest n :
  NoDup (map t_id visible) ->
  order_by (page_leb s ascending) visible = pre ++ x :: rest ->
  page_rows visible s ascending (Some (position_of s x)) n = take (Z.to_nat (n + 1)) rest.
Proof.
  intros Hnd HL. unfold page_rows. f_equal. rewrite order_by_select by apply page_leb_preorder.
  pose proof (order_by_sorted (page_leb s ascending) visible (page_leb_preorder s ascending)) as Hs.
  assert (NoDup (map t_id (pre ++ x :: rest))) as Hnd'.
  { rewrite <- HL. by rewrite order_by_perm. }
  rewrite HL in *. destruct (sorted_around _ _ _ _ Hs) as [Hpre Hrest].
  unfold select. rewrite List.filter_app. cbn [List.filter].
  destruct (row_after s ascending (position_of s x) x) eqn:Hx.
  { apply after_spec in Hx. by apply later_irrefl in Hx. }
  rewrite map_app, NoDup_app in Hnd'. destruct Hnd' as (_ & _ & [Hnx _]%NoDup_cons).
  assert (List.filter (fun t => row_after s ascending (position_of s x) t) pre = []) as ->.
  { apply select_nil. intros y Hy. apply Hpre, page_leb_spec in Hy. apply not_true_iff_false.
    by rewrite after_spec. }
  apply filter_all. intros y Hy. apply after_spec.
  destruct (later_total s ascending x y) as [?|[H|H]]; [done| |].
  - apply Hrest, page_leb_spec in Hy. done.
  - exfalso. apply Hnx. apply list_elem_of_In, in_map_iff. exists y. by injection H.
Qed.
(** One page of a list of which [pre] has been shown. *)
Section Page.
Context (workspace_id : string) (user_id : option string) (principal_type principal_id : string)
  (state : option string) (sort order : string) (limit : Z) (w : world)
  (s : task_sort) (may_see : task_row -> bool).
Notation ascending := (String.eqb order "asc").
Notation visible := (select (fun t => may_see t && in_state state t) (tasks (wd_db w))).
Notation listed := (order_by (page_leb s ascending) visible).
Notation page_limit := (Z.min (Z.max limit 1) 100).
Notation page := (list_task_page float_of_text workspace_id user_id principal_type principal_id state
                    sort order limit).
Context (Hsort : TASK_LIST_SORTS sort = Some s)
  (Horder : (String.eqb order "asc" || String.eqb order "desc") = true)
  (Hguard : list_guard workspace_id user_id principal_type principal_id w = (Ok may_see, w))
  (Hids : NoDup (map t_id (tasks (wd_db w))))
  (Hread : forall t, In t visible -> cursor_readable s sort order t).

(** The cursor names the last row of [pre]. *)
Definition cursor_at (cursor : option string) (pre : list task_row) : Prop :=
  match truthy_id cursor with
  | None => pre = []
  | Some c => exists pre' x, pre = pre' ++ [x] /\
      _decode_task_cursor float_of_text c s sort order = Ok (position_of s x)
  end.

Lemma visible_ids : NoDup (map t_id visible).
Proof. by apply NoDup_map_select. Qed.

Lemma listed_readable pre x rest : listed = pre ++ x :: rest -> cursor_readable s sort order x.
Proof. intros HL. apply Hread, (in_order_by (page_leb s ascending)). rewrite HL. apply in_elt. Qed.

(** The position a cursor is decoded to, and the rows after it. *)
Lemma cursor_rows cursor pre rest :
  listed = pre ++ rest -> cursor_at cursor pre ->
  exists from,
    (match truthy_id cursor with
     | Some c => p ← lift_res (_decode_task_cursor float_of_text c s sort order); mret (Some p)
     | None => mret None
     end : M (option position)) w = (Ok from, w) /\
    match from with Some p => bind_key s (ps_primary p) | None => Ok tt end = Ok tt /\
    page_rows visible s ascending from page_limit = take (Z.to_nat (page_limit + 1)) rest.
Proof.
  intros HL. unfold cursor_at. destruct (truthy_id cursor) as [c|].
  - intros (pre' & x & -> & Hc). rewrite <- app_assoc in HL. exists (Some (position_of s x)).
    unfold bind, mbind, M_bind, lift_res. rewrite Hc. split; [done|].
    destruct (listed_readable _ _ _ HL) as (_ & _ & Hp). split.
    + destruct s; try done. cbn [bind_key position_of ps_primary sort_key].
      destruct ((_ <=? _) && _) eqn:Hb; [done|]. lia.
    + by apply rows_after with pre'; [apply visible_ids|].
  - intros ->. exists None. split; [done|]. split; [done|]. unfold page_rows. f_equal.
    simpl in HL. rewrite <- HL. f_equal. by apply filter_all.
Qed.

Lemma page_shows cursor pre rest :
  listed = pre ++ rest -> cursor_at cursor pre ->
  exists next,
    page cursor w = (Ok (MkPage (Z.of_nat (length visible))
                          (Z.of_nat (length (take (Z.to_nat page_limit) rest)))
                          (map (_task_list_summary (wd_db w)) (take (Z.to_nat page_limit) rest)) next), w) /\
    match next with
    | None => (length rest <= Z.to_nat page_limit)%nat
    | Some c => (Z.to_nat page_limit < length rest)%nat /\
                cursor_at (Some c) (pre ++ take (Z.to_nat page_limit) rest)
    end.
Proof.
  intros HL Hat. unfold list_task_page. rewrite Hsort. erewrite bind_ok by reflexivity.
  rewrite Horder. erewrite bind_ok by reflexivity. erewrite bind_ok by exact Hguard.
  erewrite bind_ok by reflexivity. cbv zeta.
  destruct (cursor_rows cursor pre rest HL Hat) as (from & Hfrom & Hbind & Hrows).
  erewrite bind_ok by exact Hfrom. rewrite Hbind. erewrite bind_ok by reflexivity. rewrite Hrows.
  rewrite take_take, Nat.min_l by lia.
  rewrite length_take. set (n := Z.to_nat page_limit).
  destruct (Z.ltb_spec page_limit (Z.of_nat (Z.to_nat (page_limit + 1) `min` length rest))) as [Hlt|Hge].
  - assert (n < length rest)%nat as Hn by lia.
    destruct (exists_last (l := take n rest)) as (shown & x & Hx).
    { intros H%(f_equal length). rewrite length_take in H. simpl in H. lia. }
    destruct (cursor_roundtrip s sort order x) as (c & Hc & Ht & Hd).
    { apply (listed_readable (pre ++ shown) x (drop n rest)). rewrite HL, <- app_assoc. f_equal.
      rewrite <- (take_drop n rest) at 1. by rewrite Hx, <- app_assoc. }
    exists (Some c). rewrite Hx, last_snoc. split.
    + erewrite bind_ok by (unfold lift_res; rewrite Hc; reflexivity). done.
    + split; [done|]. unfold cursor_at. rewrite Ht. exists (pre ++ shown), x. by rewrite app_assoc.
  - exists None. split; [by erewrite bind_ok by reflexivity|]. lia.
Qed.

Lemma follow_shows fuel : forall cursor pre rest,
  listed = pre ++ rest -> cursor_at cursor pre -> (length rest <= fuel)%nat ->
  follow fuel workspace_id user_id principal_type principal_id state sort order limit cursor w =
    (Ok (Some (map (_task_list_summary (wd_db w)) rest)), w).
Proof.
  induction fuel as [|fuel IH]; intros cursor pre rest HL Hat Hfuel;
    destruct (page_shows cursor pre rest HL Hat) as (next & Hpage & Hnext); cbn [follow];
    erewrite bind_ok by exact Hpage; cbn [pg_next_cursor pg_items]; destruct next as [c|].
  - lia.
  - by rewrite take_ge.
  - destruct Hnext as [Hlt Hat']. set (n := Z.to_nat page_limit) in *.
    erewrite bind_ok by (apply (IH (Some c) (pre ++ take n rest) (drop n rest));
      [by rewrite <- app_assoc, take_drop|done|rewrite length_drop; lia]).
    cbn [option_map]. by rewrite <- map_app, take_drop.
  - by rewrite take_ge.
Qed.

End Page.

(** C33: following the cursors of a task listing returns every task the principal may
    see exactly once, in the order of the whole list: for each sort, direction, filter
    and page size, the pages put together are the summaries of the visible tasks in
    sorted order, and at most as many cursors are followed as there are tasks. *)
Theorem pages_enumerate workspace_id user_id principal_type principal_id state sort order limit w s may_see :
  TASK_LIST_SORTS sort = Some s ->
  (String.eqb order "asc" || String.eqb order "desc") = true ->
  list_guard workspace_id user_id principal_type principal_id w = (Ok may_see, w) ->
  NoDup (map t_id (tasks (wd_db w))) ->
  let visible := select (fun t => may_see t && in_state state t) (tasks (wd_db w)) in
  (forall t, In t visible -> cursor_readable s sort order t) ->
  follow (length (tasks (wd_db w))) workspace_id user_id principal_type principal_id state sort order
    limit None w =
  (Ok (Some (map (_task_list_summary (wd_db w))
               (order_by (page_leb s (String.eqb order "asc")) visible))), w).
Proof.
  intros Hsort Horder Hguard Hids visible Hread.
  apply (follow_shows _ _ _ _ _ _ _ _ _ s may_see Hsort Horder Hguard Hids Hread _ None []); [done|done|].
  rewrite (Permutation_length (order_by_perm _ _)). apply List.filter_length_le.
Qed.

(** What a cursor may raise: the documented rejection, or the [OverflowError] of a
    number beyond the floats, which the handler does not expect. *)
Lemma cursor_errors c s sort order e :
  _decode_task_cursor float_of_text c s sort order = Raise e ->
  e = repo_err VALIDATION_FAILED "TASK_CURSOR_INVALID" "Task list cursor is invalid." 422 \/
  read_cursor float_of_text c s sort order = Raise e.
Proof.
  unfold _decode_task_cursor. destruct (read_cursor _ _ _ _ _) as [|[]]; try done;
    intros [= <-]; auto.
Qed.
End Walk.

(** ** Three tasks, one a page *)

Module Tasks.
#[local] Instance printing_env : Env := {|
  clock n := seconds (Z.of_nat n);
  uuid n := pretty n;
  sha256_json v := "sha";
  version_lt _ _ := Some false;
  py_repr v := match v with JFloat (FFin m _) => pretty m +:+ ".0" | _ => "?" end;
  json_loads s := JBad s;
  alnum_beyond_ascii _ := false;
  env_ed25519 := toy_ed25519
|}.

Definition task (id : string) (priority created : Z) : task_row :=
  Mk_task_row id "wsp_1" "pol_1" (Some "usr_1") "device" "dev_1" ChCli "vgen/demo@1.0.0" "sha256:00"
    "comfyui" (JDoc (JObj [])) 1 None None None None TQueued priority created None None created.
Definition all_tasks : list task_row := [task "tsk_a" 0 10; task "tsk_b" 5 20; task "tsk_c" 0 20].
Definition document (t : task_row) : dict := cursor_document t SortPriority "priority" "desc".
Definition texts : list (string * dict) :=
  Eval vm_compute in
    map (fun t => (match json_dump (JObj (document t)) with Ok s => s | Raise _ => "" end,
                   order_by (fun x y => negb (str_ltb (fst y) (fst x))) (document t))) all_tasks.

#[local] Instance reading_env : Env := {|
  clock n := seconds (Z.of_nat n);
  uuid n := pretty n;
  sha256_json v := "sha";
  version_lt _ _ := Some false;
  py_repr v := match v with JFloat (FFin m _) => pretty m +:+ ".0" | _ => "?" end;
  json_loads s := match List.find (fun kv => String.eqb (fst kv) s) texts with
                  | Some (_, d) => JDoc (JObj d)
                  | None => JBad s
                  end;
  alnum_beyond_ascii _ := false;
  env_ed25519 := toy_ed25519
|}.

Definition member : membership_row := Mk_membership_row "wsp_1" "usr_1" RoleMember SActive 0 None.
Definition start : world :=
  MkWorld (empty_db <| memberships := [member] |> <| tasks := all_tasks |>) 0 0.
Definition no_text (s : string) : option float := None.
Definition sees (t : task_row) : bool :=
  (t_workspace_id t =d "wsp_1") &&
  (negb (mb_role member =d RoleMember) || (is_some (Some "usr_1") && (t_consumer_user_id t =d Some "usr_1"))).

Lemma guard_passed : list_guard "wsp_1" (Some "usr_1") "device" "dev_1" start = (Ok sees, start).
Proof. reflexivity. Qed.
Lemma ids_distinct : NoDup (map t_id (tasks (wd_db start))).
Proof. by apply (bool_decide_unpack _). Qed.
Lemma cursors_readable t :
  In t (select (fun t => sees t && in_state None t) (tasks (wd_db start))) ->
  cursor_readable SortPriority "priority" "desc" t.
Proof.
  intros [Hin _]%in_select. destruct Hin as [<-|[<-|[<-|[]]]];
    (split; [eexists; split; [vm_compute; reflexivity|split; vm_compute; reflexivity]|]);
    (split; [split; vm_compute; congruence|]); cbn [task t_priority]; lia.
Qed.

Lemma pages_enumerate_witness :
  follow no_text 3 "wsp_1" (Some "usr_1") "device" "dev_1" None "priority" "desc" 1 None start =
  (Ok (Some (map (_task_list_summary (wd_db start))
               [task "tsk_b" 5 20; task "tsk_c" 0 20; task "tsk_a" 0 10])), start).
Proof.
  exact (pages_enumerate no_text "wsp_1" (Some "usr_1") "device" "dev_1" None "priority" "desc" 1 start
    SortPriority sees eq_refl eq_refl guard_passed ids_distinct cursors_readable).
Defined.

(** A cursor whose priority has more than 64 bits is not rejected as invalid: binding it
    raises [OverflowError]. *)
#[local] Instance forged_env : Env := {|
  clock n := seconds (Z.of_nat n);
  uuid n := pretty n;
  sha256_json v := "sha";
  version_lt _ _ := Some false;
  py_repr _ := "?";
  json_loads s := JDoc (JObj [("v", JInt 2); ("sort", JStr "priority"); ("order", JStr "desc");
                              ("value", JInt (2 ^ 63)); ("created_at", JInt 0); ("id", JStr "x")]);
  alnum_beyond_ascii _ := false;
  env_ed25519 := toy_ed25519
|}.

Lemma forged_cursor_overflows :
  list_task_page no_text "wsp_1" (Some "usr_1") "device" "dev_1" None "priority" "desc" 20 (Some "e30")
    start = (Raise OverflowError, start).
Proof. vm_compute. reflexivity. Qed.
End Tasks.
