(* ===== verification/Sessions.v ===== *)
(** * Sessions and challenges ([gateway/database.py], [gateway/app.py], [gateway/repository.py])

    How a device, worker or service proves its key and gets a session, how every
    request is authenticated from the middleware to the routes, how a lost device is replaced under the root key, and
    the tables that remember one-time tickets and answers. *)

From stdpp Require Import relations.
From S2P Require Import Prelude Python Bytes Errors Schema Store Access Capability Encoding Signing.
From S2P Require Import Grants Maintenance Requests.

Open Scope Z_scope.

(** ** Constraints of the tables *)

Definition sessions_ok (d : db) (r : session_row) : bool :=
  negb (has_key ss_id (sessions d) (ss_id r)) &&
  negb (has_key ss_token_hash (sessions d) (ss_token_hash r)) &&
  has_key_opt u_id (users d) (ss_user_id r).

(** [CHECK(principal_type IN ('device','worker'))]. *)
Definition auth_challenges_ok (d : db) (r : challenge_row) : bool :=
  negb (has_key ac_id (auth_challenges d) (ac_id r)) && negb (ac_principal_type r =d PService).

Definition service_auth_challenges_ok (d : db) (r : service_challenge_row) : bool :=
  negb (has_key sc_id (service_auth_challenges d) (sc_id r)) &&
  has_key sv_id (services d) (sc_service_id r).

Definition recovery_challenges_ok (d : db) (r : recovery_challenge_row) : bool :=
  negb (has_key dc_id (device_recovery_challenges d) (dc_id r)) &&
  has_key u_id (users d) (dc_user_id r).

Definition devices_ok (d : db) (r : device_row) : bool :=
  negb (has_key dv_id (devices d) (dv_id r)) &&
  negb (has_key dv_signing_public_key (devices d) (dv_signing_public_key r)) &&
  has_key u_id (users d) (dv_user_id r).

(** ** Random texts and digests *)

Section Sessions.
Context {E : Env}.

Definition sha256_hex (s : string) : string := text (hexlify (sha256_digest (encode s))).

(** [secrets.token_urlsafe]: a draw of the random source. *)
Definition token_urlsafe : M string := fun w =>
  (Ok (uuid (wd_draws w)), w <| wd_draws := S (wd_draws w) |>).

(** [json_text]; a document with NaN or an infinity is printed with those tokens. *)
Definition json_text (v : json) : string :=
  match json_dump v with Ok s => s | Raise _ => py_repr v end.

(** ** Sessions *)

Definition create_session (principal_type : principal) (principal_id : string) (user_id : option string)
    (scopes : jtext) (ttl_seconds : Z) : M (string * session_row) :=
  token ← token_urlsafe;
  stamp ← now;
  session_id ← new_id "ses";
  let row := Mk_session_row session_id principal_type principal_id user_id (sha256_hex token) scopes
               (stamp + seconds ttl_seconds) None stamp (Some stamp) in
  _ ← sql_insert sessions sessions_ok row;
  found ← query (fun d => find_by ss_id session_id (sessions d));
  found ← require found TypeError;
  mret (token, found).

Definition resolve_session (token : string) : M (option session_row) :=
  stamp ← now;
  row ← query (fun d => head (select (fun s => (ss_token_hash s =d sha256_hex token) &&
                                               (ss_revoked_at s =d None) && (stamp <? ss_expires_at s))
                                (sessions d)));
  match row with
  | Some r =>
      _ ← sql_update sessions (fun s => ss_id s =d ss_id r) (fun s => s <| ss_last_seen_at := Some stamp |>);
      mret (Some r)
  | None => mret None
  end.

(** ** Challenges *)

Definition create_challenge (principal_type : principal) (principal_id : string) (ttl_seconds : Z)
    : M (string * string) :=
  challenge_id ← new_id "chl";
  challenge ← token_urlsafe;
  stamp ← now;
  _ ← (if principal_type =d PService then
         sql_insert service_auth_challenges service_auth_challenges_ok
           (Mk_service_challenge_row challenge_id principal_id challenge (sha256_hex challenge)
              (stamp + seconds ttl_seconds) None stamp)
       else
         sql_insert auth_challenges auth_challenges_ok
           (Mk_challenge_row challenge_id principal_type principal_id challenge (sha256_hex challenge)
              (stamp + seconds ttl_seconds) None stamp) : M unit);
  mret (challenge_id, challenge).

(** The open challenges of a principal under an identifier. *)
Definition open_challenge (d : db) (challenge_id principal_id : string) (principal_type : principal)
    (stamp : Z) : option challenge_row :=
  head (select (fun c => (ac_id c =d challenge_id) && (ac_principal_type c =d principal_type) &&
                         (ac_principal_id c =d principal_id) && (ac_consumed_at c =d None) &&
                         (stamp <? ac_expires_at c)) (auth_challenges d)).

Definition open_service_challenge (d : db) (challenge_id service_id : string) (stamp : Z)
    : option service_challenge_row :=
  head (select (fun c => (sc_id c =d challenge_id) && (sc_service_id c =d service_id) &&
                         (sc_consumed_at c =d None) && (stamp <? sc_expires_at c))
          (service_auth_challenges d)).

(** The value of the open challenge. *)
Definition get_challenge (challenge_id : string) (principal_type : principal) (principal_id : string)
    : M (option string) :=
  stamp ← now;
  query (fun d => if principal_type =d PService
                  then option_map sc_challenge_value (open_service_challenge d challenge_id principal_id stamp)
                  else option_map ac_challenge_value
                         (open_challenge d challenge_id principal_id principal_type stamp)).

Definition consume_challenge (challenge_id : string) (principal_type : principal) (principal_id : string)
    : M bool :=
  stamp ← now;
  transaction (
    if principal_type =d PService then
      row ← query (fun d => open_service_challenge d challenge_id principal_id stamp);
      match row with
      | None => mret false
      | Some _ =>
          _ ← sql_update service_auth_challenges (fun c => sc_id c =d challenge_id)
                (fun c => c <| sc_consumed_at := Some stamp |>);
          mret true
      end
    else
      row ← query (fun d => open_challenge d challenge_id principal_id principal_type stamp);
      match row with
      | None => mret false
      | Some _ =>
          _ ← sql_update auth_challenges (fun c => ac_id c =d challenge_id)
                (fun c => c <| ac_consumed_at := Some stamp |>);
          mret true
      end).

(** ** Subjects *)

Definition vgen_error (code : ErrorCode.t) : exc := VGenError (ErrorCode.to_int code) [].

Inductive subject :=
| SubDevice (r : device_row)
| SubWorker (r : worker_row)
| SubService (r : service_row).

Definition live_subject (d : db) (principal_type : principal) (principal_id : string) : option subject :=
  match principal_type with
  | PDevice => option_map SubDevice
      (head (select (fun v => (dv_id v =d principal_id) && (dv_status v =d SActive)) (devices d)))
  | PWorker => option_map SubWorker
      (head (select (fun w => (w_id w =d principal_id) && negb (w_status w =d WRevoked)) (workers d)))
  | PService => option_map SubService
      (head (select (fun s => (sv_id s =d principal_id) && (sv_status s =d SvActive)) (services d)))
  end.

Definition subject_key (s : subject) : string :=
  match s with
  | SubDevice r => dv_signing_public_key r
  | SubWorker r => w_signing_public_key r
  | SubService r => sv_signing_public_key r
  end.

Definition subject_id (s : subject) : string :=
  match s with SubDevice r => dv_id r | SubWorker r => w_id r | SubService r => sv_id r end.

Definition subject_user (s : subject) : option string :=
  match s with
  | SubDevice r => Some (dv_user_id r)
  | SubWorker r => Some (w_owner_user_id r)
  | SubService _ => None
  end.

(** [validate_id(value, "device")]. *)
Definition device_id_valid (value : string) : bool :=
  str_startswith "dev_" value && (str_len value =? 30) &&
  str_forall (fun c => is_lower c || ascii_between "2" "7" c) (str_drop 4 value).

(** [except (KeyError, TypeError, ValueError)]: the certificate is invalid. *)
Definition chain_valid (device_id : string) (certificate : json)
    (root_signing_public_key device_signing_public_key device_encryption_public_key : string)
    (current : Z) : res bool :=
  let r :=
    root_key ← b64url_decode root_signing_public_key (Some 32);
    match certificate with
    | JObj value =>
        cert ← certificate_from_dict value;
        valid ← verify_device_certificate cert root_key current;
        cert_payload ← jitem "payload" value;
        match cert_payload with
        | JObj cert_payload =>
            i ← jitem "device_id" cert_payload;
            if negb (json_is i device_id) then Ok false
            else
              k ← jitem "signing_public_key" cert_payload;
              if negb (json_is k device_signing_public_key) then Ok false
              else
                e ← jitem "encryption_public_key" cert_payload;
                Ok (valid && json_is e device_encryption_public_key)
        | _ => Raise TypeError
        end
    | _ => Raise TypeError
    end in
  match r with
  | Raise (KeyError | TypeError | ValueError) => Ok false
  | r => r
  end.

Definition validate_device_chain (device_id : string) (certificate : json)
    (root_signing_public_key device_signing_public_key device_encryption_public_key : string) : M unit :=
  stamp ← now;
  valid ← lift_res (chain_valid device_id certificate root_signing_public_key device_signing_public_key
                      device_encryption_public_key (stamp / 1000000));
  check (device_id_valid device_id && valid) (vgen_error ErrorCode.DEVICE_CERTIFICATE_INVALID).

(** [json.loads(certificate)] with its errors turned into an invalid certificate. *)
Definition stored_certificate (certificate : option string) : M json :=
  match certificate with
  | None => raise (vgen_error ErrorCode.DEVICE_CERTIFICATE_INVALID)
  | Some t => match json_loads t with
              | JDoc v => mret v
              | JBad _ => raise (vgen_error ErrorCode.DEVICE_CERTIFICATE_INVALID)
              end
  end.

Definition active_user (d : db) (user_id : string) : option user_row :=
  head (select (fun u => (u_id u =d user_id) && (u_status u =d UActive)) (users d)).

(** The certificate of a device is checked against its row and its user's root. *)
Definition validate_session_subject (session : session_row) : M unit :=
  match ss_principal_type session with
  | PService =>
      service ← query (fun d => live_subject d PService (ss_principal_id session));
      _ ← require service (vgen_error ErrorCode.SESSION_EXPIRED);
      mret tt
  | PWorker =>
      worker ← query (fun d => live_subject d PWorker (ss_principal_id session));
      _ ← require worker (vgen_error ErrorCode.SESSION_EXPIRED);
      mret tt
  | PDevice =>
      device ← query (fun d => head (select (fun v => (dv_id v =d ss_principal_id session) &&
                                                      (dv_status v =d SActive)) (devices d)));
      device ← require device (vgen_error ErrorCode.DEVICE_CERTIFICATE_INVALID);
      text ← require (truthy_id (dv_certificate device)) (vgen_error ErrorCode.DEVICE_CERTIFICATE_INVALID);
      user ← query (fun d => active_user d (dv_user_id device));
      user ← require user (vgen_error ErrorCode.DEVICE_CERTIFICATE_INVALID);
      certificate ← stored_certificate (Some text);
      validate_device_chain (dv_id device) certificate (u_root_signing_public_key user)
        (dv_signing_public_key device) (dv_encryption_public_key device)
  end.

(** ** Authentication of a request *)

Record Principal := MkPrincipal {
  pr_principal_type : principal;
  pr_principal_id : string;
  pr_user_id : option string;
  pr_scopes : json;
  pr_session_id : string
}.

(** The public routes, which are limited by rate instead of by a session. *)
Definition _public_rate_limit_category (path : string) : option string :=
  if path =d "/api/v1/auth/bootstrap" then Some "bootstrap"
  else if path ∈? ["/api/v1/auth/device-recovery/challenges"; "/api/v1/auth/device-recovery/complete"]
  then Some "device_recovery"
  else if path ∈? ["/api/v1/auth/challenges"; "/api/v1/auth/sessions"] then Some "session_challenge"
  else if path ∈? ["/api/v1/auth/enroll"; "/api/v1/devices/enroll"; "/api/v1/auth/services/enroll";
                   "/api/v1/worker-enrollments/claim"; "/api/v1/enrollments/claim"]
  then Some "public_enrollment"
  else None.

Definition is_control_mutation (method url_path : string) : bool :=
  mutation method && str_startswith "/api/v1/" url_path &&
  negb (str_startswith "/api/v1/artifacts/transfer/" url_path).

(** What the middleware does with a protected mutation before it reads the body; the
    row is kept as [request.state.pre_authenticated_session]. *)
Definition pre_authenticate (token : string) : M session_row :=
  row ← resolve_session token;
  row ← require row (vgen_error ErrorCode.SESSION_EXPIRED);
  _ ← validate_session_subject row;
  mret row.

(** The dependency of the routes: a session resolved before the body is kept as it
    was read then, its subject is validated again. *)
Definition current_principal (verify_mutations : bool) (pre_authenticated_session : option session_row)
    (token method path : string) (body : bytes) (headers : list (string * string)) : M Principal :=
  row ← (match pre_authenticated_session with
         | Some row => mret (Some row)
         | None => resolve_session token
         end : M (option session_row));
  row ← require row (vgen_error ErrorCode.SESSION_EXPIRED);
  _ ← validate_session_subject row;
  scopes ← lift_res (load_json (ss_scopes row));
  _ ← verify_mutation_signature verify_mutations row method path body headers;
  mret (MkPrincipal (ss_principal_type row) (ss_principal_id row) (ss_user_id row) scopes (ss_id row)).

(** [raw_path] of a request. *)
Definition request_target (url_path query : string) : string :=
  if query =d "" then url_path else url_path +:+ "?" +:+ query.

(** A request from the middleware to its handler; [meanwhile] is what other requests
    do while the body of a protected mutation arrives.  The middleware also refuses
    requests for their size, protocol version or rate, which only removes runs. *)
Definition authenticate (verify_mutations : bool) (meanwhile : M unit) (token method url_path query : string)
    (body : bytes) (headers : list (string * string)) : M Principal :=
  pre ← (if is_control_mutation method url_path && (_public_rate_limit_category url_path =d None) then
           row ← pre_authenticate token;
           _ ← meanwhile;
           mret (Some row)
         else mret None : M (option session_row));
  current_principal verify_mutations pre token method (request_target url_path query) body headers.

(** ** Login *)

Definition challenge (principal_type : principal) (principal_id : option string) : M (string * string) :=
  principal_id ← require (truthy_id principal_id)
    (VGenError (ErrorCode.to_int ErrorCode.VALIDATION_FAILED) [("field", JStr "principal_id")]);
  subject ← query (fun d => live_subject d principal_type principal_id);
  _ ← require subject (vgen_error ErrorCode.AUTHENTICATION_REQUIRED);
  create_challenge principal_type principal_id 120.

Record SessionRequest := MkSessionRequest {
  sr_principal_type : principal;
  sr_principal_id : option string;
  sr_challenge_id : string;
  sr_signature : string;
  sr_device_certificate : option dict;
  sr_root_signing_public_key : option string
}.

(** What a device shows besides its signature. *)
Definition device_login (device : device_row) (payload : SessionRequest) : M unit :=
  user ← query (fun d => active_user d (dv_user_id device));
  user ← require user (vgen_error ErrorCode.DEVICE_CERTIFICATE_INVALID);
  _ ← check (match truthy_id (sr_root_signing_public_key payload) with
             | Some k => String.eqb k (u_root_signing_public_key user)
             | None => true
             end) (vgen_error ErrorCode.DEVICE_CERTIFICATE_INVALID);
  certificate ← stored_certificate (dv_certificate device);
  _ ← (match sr_device_certificate payload with
       | None => mret tt
       | Some c =>
           given ← lift_res (canonical_json (JObj c));
           stored ← lift_res (canonical_json certificate);
           check (given =d stored) (vgen_error ErrorCode.DEVICE_CERTIFICATE_INVALID)
       end : M unit);
  validate_device_chain (dv_id device) certificate (u_root_signing_public_key user)
    (dv_signing_public_key device) (dv_encryption_public_key device).

(** [verify_message] with its [ValueError] turned into an invalid signature. *)
Definition signature_of_challenge (key value signature : string) : res bool :=
  let r :=
    public_key ← b64url_decode key (Some 32);
    raw ← b64url_decode signature (Some 64);
    verify_message public_key (encode value) raw SIGNATURE_CONTEXT in
  match r with
  | Raise ValueError => Raise (vgen_error ErrorCode.SIGNATURE_INVALID)
  | r => r
  end.

Definition WORKER_SCOPES : jtext :=
  JDoc (JList [JStr "worker:lease"; JStr "worker:heartbeat"; JStr "worker:complete";
               JStr "worker:maintenance:lease"; JStr "worker:maintenance:report"]).

Definition subject_scopes (s : subject) : res jtext :=
  match s with
  | SubDevice _ => Ok (JDoc (JList [JStr "*"]))
  | SubWorker _ => Ok WORKER_SCOPES
  | SubService r => match json_loads_or (JList []) (sv_scopes r) with
                    | Some v => Ok (JDoc v)
                    | None => Raise JSONDecodeError
                    end
  end.

Definition login (payload : SessionRequest) : M (string * session_row) :=
  principal_id ← require (truthy_id (sr_principal_id payload))
    (VGenError (ErrorCode.to_int ErrorCode.VALIDATION_FAILED) [("field", JStr "principal_id")]);
  subject ← query (fun d => live_subject d (sr_principal_type payload) principal_id);
  subject ← require subject (vgen_error ErrorCode.AUTHENTICATION_REQUIRED);
  _ ← (match subject with SubDevice device => device_login device payload | _ => mret tt end : M unit);
  value ← get_challenge (sr_challenge_id payload) (sr_principal_type payload) principal_id;
  value ← require value (vgen_error ErrorCode.REPLAY_DETECTED);
  signed ← lift_res (signature_of_challenge (subject_key subject) value (sr_signature payload));
  _ ← check signed (vgen_error ErrorCode.SIGNATURE_INVALID);
  consumed ← consume_challenge (sr_challenge_id payload) (sr_principal_type payload) principal_id;
  _ ← check consumed (vgen_error ErrorCode.REPLAY_DETECTED);
  scopes ← lift_res (subject_scopes subject);
  create_session (sr_principal_type payload) (subject_id subject) (subject_user subject) scopes 900.

(** ** Recovery of a device *)

Definition create_device_recovery_challenge (user_id device_id : string) (ttl_seconds : Z)
    : M (string * string) :=
  challenge_id ← new_id "chl";
  challenge ← token_urlsafe;
  stamp ← now;
  _ ← sql_insert device_recovery_challenges recovery_challenges_ok
        (Mk_recovery_challenge_row challenge_id user_id device_id challenge (sha256_hex challenge)
           (stamp + seconds ttl_seconds) None stamp);
  mret (challenge_id, challenge).

Definition open_recovery (d : db) (challenge_id user_id device_id : string) (stamp : Z)
    : option recovery_challenge_row :=
  head (select (fun c => (dc_id c =d challenge_id) && (dc_user_id c =d user_id) &&
                         (dc_device_id c =d device_id) && (dc_consumed_at c =d None) &&
                         (stamp <? dc_expires_at c)) (device_recovery_challenges d)).

Definition get_device_recovery_challenge (challenge_id user_id device_id : string)
    : M (option recovery_challenge_row) :=
  stamp ← now;
  query (fun d => open_recovery d challenge_id user_id device_id stamp).

Definition consume_device_recovery_challenge (challenge_id user_id device_id : string) : M bool :=
  stamp ← now;
  rowcount ← sql_update device_recovery_challenges
    (fun c => (dc_id c =d challenge_id) && (dc_user_id c =d user_id) && (dc_device_id c =d device_id) &&
              (dc_consumed_at c =d None) && (stamp <? dc_expires_at c))
    (fun c => c <| dc_consumed_at := Some stamp |>);
  mret (rowcount =? 1).

Definition device_recovery_challenge (root_signing_public_key device_id : string) : M (string * string) :=
  _ ← check (device_id_valid device_id)
        (VGenError (ErrorCode.to_int ErrorCode.VALIDATION_FAILED) [("field", JStr "device_id")]);
  _ ← lift_res (match b64url_decode root_signing_public_key (Some 32) with
                | Raise ValueError =>
                    Raise (VGenError (ErrorCode.to_int ErrorCode.VALIDATION_FAILED)
                             [("reason", JStr "invalid_public_key")])
                | r => r
                end);
  user ← query (fun d => head (select (fun u =>
           (u_root_signing_public_key u =d root_signing_public_key) && (u_status u =d UActive)) (users d)));
  used ← query (fun d => has_key dv_id (devices d) device_id);
  user ← require user (vgen_error ErrorCode.AUTHENTICATION_REQUIRED);
  _ ← check (negb used) (vgen_error ErrorCode.AUTHENTICATION_REQUIRED);
  create_device_recovery_challenge (u_id user) device_id 120.

Record Recovery := MkRecovery {
  rc_challenge_id : string;
  rc_root_signing_public_key : string;
  rc_root_encryption_public_key : string;
  rc_device_id : string;
  rc_device_name : string;
  rc_device_signing_public_key : string;
  rc_device_encryption_public_key : string;
  rc_device_certificate : dict;
  rc_root_signature : string;
  rc_device_signature : string
}.

Definition recovery_proof (p : Recovery) (value : string) : dict :=
  [("version", JInt 1); ("challenge_id", JStr (rc_challenge_id p)); ("challenge", JStr value);
   ("device_id", JStr (rc_device_id p)); ("device_name", JStr (rc_device_name p));
   ("device_signing_public_key", JStr (rc_device_signing_public_key p));
   ("device_encryption_public_key", JStr (rc_device_encryption_public_key p));
   ("root_signing_public_key", JStr (rc_root_signing_public_key p));
   ("root_encryption_public_key", JStr (rc_root_encryption_public_key p))].

(** Both signatures over the proof. *)
Definition recovery_signed (p : Recovery) (proof : bytes) : res bool :=
  let r :=
    root ← b64url_decode (rc_root_signing_public_key p) (Some 32);
    root_signature ← b64url_decode (rc_root_signature p) (Some 64);
    root_ok ← verify_message root proof root_signature (encode "vgen-device-recovery-root-v1");
    device ← b64url_decode (rc_device_signing_public_key p) (Some 32);
    device_signature ← b64url_decode (rc_device_signature p) (Some 64);
    device_ok ← verify_message device proof device_signature (encode "vgen-device-recovery-device-v1");
    Ok (root_ok && device_ok) in
  match r with
  | Raise ValueError => Raise (vgen_error ErrorCode.SIGNATURE_INVALID)
  | r => r
  end.

Definition register_recovered_device (user_id : string) (p : Recovery) : M device_row :=
  stamp ← now;
  _ ← transaction (
    challenge ← query (fun d => open_recovery d (rc_challenge_id p) user_id (rc_device_id p) stamp);
    _ ← require challenge (repo_err 100004 "CHALLENGE_INVALID_OR_EXPIRED"
          "The device recovery challenge is invalid or expired." 401);
    used ← query (fun d => has_key dv_id (devices d) (rc_device_id p));
    _ ← check (negb used) (repo_err VALIDATION_FAILED "DEVICE_ALREADY_EXISTS"
          "The device already exists." 409);
    let certificate := json_text (JObj (rc_device_certificate p)) in
    _ ← sql_insert devices devices_ok
          (Mk_device_row (rc_device_id p) user_id (rc_device_name p) (rc_device_signing_public_key p)
             (rc_device_encryption_public_key p) (Some certificate) SActive stamp (Some stamp) None);
    _ ← sql_update device_recovery_challenges (fun c => dc_id c =d rc_challenge_id p)
          (fun c => c <| dc_consumed_at := Some stamp |>);
    mret tt);
  row ← query (fun d => find_by dv_id (rc_device_id p) (devices d));
  require row TypeError.

Definition complete_device_recovery (p : Recovery) : M (string * session_row) :=
  user ← query (fun d => head (select (fun u =>
           (u_root_signing_public_key u =d rc_root_signing_public_key p) &&
           (u_root_encryption_public_key u =d rc_root_encryption_public_key p) &&
           (u_status u =d UActive)) (users d)));
  user ← require user (vgen_error ErrorCode.AUTHENTICATION_REQUIRED);
  challenge_row ← get_device_recovery_challenge (rc_challenge_id p) (u_id user) (rc_device_id p);
  challenge_row ← require challenge_row (vgen_error ErrorCode.REPLAY_DETECTED);
  _ ← validate_device_chain (rc_device_id p) (JObj (rc_device_certificate p))
        (rc_root_signing_public_key p) (rc_device_signing_public_key p)
        (rc_device_encryption_public_key p);
  proof ← lift_res (canonical_json (JObj (recovery_proof p (dc_challenge_value challenge_row))));
  signed ← lift_res (recovery_signed p proof);
  _ ← check signed (vgen_error ErrorCode.SIGNATURE_INVALID);
  device ← register_recovered_device (u_id user) p;
  create_session PDevice (dv_id device) (Some (u_id user)) (JDoc (JList [JStr "*"])) 900.

(** ** Tickets and answers *)

Definition claim_transfer_ticket (token artifact_id : string) : M bool :=
  stamp ← now;
  used ← query (fun d => has_key tu_ticket_hash (transfer_ticket_uses d) (sha256_hex token));
  if used : bool then mret false
  else
    _ ← sql_insert transfer_ticket_uses (fun _ _ => true)
          (Mk_ticket_use_row (sha256_hex token) artifact_id stamp);
    mret true.

Definition idempotency_of (r : idempotency_row) : string * (string * (string * string)) :=
  (ir_principal_key r, (ir_method r, (ir_path r, ir_idempotency_key r))).

Definition get_idempotency (principal_key method path key : string) : M (option idempotency_row) :=
  stamp ← now;
  query (fun d => head (select (fun r => (idempotency_of r =d (principal_key, (method, (path, key)))) &&
                                         (stamp <? ir_expires_at r)) (idempotency_records d))).

(** [INSERT OR IGNORE]. *)
Definition put_idempotency (principal_key method path key request_hash : string) (status : Z)
    (headers : jtext) (body : string) (ttl_seconds : Z) : M unit :=
  stamp ← now;
  insert_or_ignore idempotency_records idempotency_of (fun _ _ => true)
    (Mk_idempotency_row principal_key method path key request_hash status headers body
       (stamp + seconds ttl_seconds) stamp).
End Sessions.
