(* ===== verification/Auth.v ===== *)
(** * Authentication is sound

    A session needs the registered key and an open challenge that has not expired, a
    challenge answers once, every authenticated request belongs to a live session of a
    live subject, even when other requests run while its body arrives, and a device is recovered only under the root key. *)

From stdpp Require Import relations.
From S2P Require Import Prelude Python Bytes Errors Schema Store Access Framing Scheduler Capability.
From S2P Require Import Encoding Signing Grants Maintenance Invariant Lifecycle Upkeep Requests Replay.
From S2P Require Import Sessions.

Open Scope Z_scope.

(** ** Open challenges only disappear *)

(** An unanswered challenge of that identifier, of a service or of a device or worker. *)
Definition unspent (d : db) (service : bool) (challenge_id : string) : Prop :=
  if service
  then exists c, In c (service_auth_challenges d) /\ sc_id c = challenge_id /\ sc_consumed_at c = None
  else exists c, In c (auth_challenges d) /\ ac_id c = challenge_id /\ ac_consumed_at c = None.

Definition fades : relation db := fun d d' =>
  forall service challenge_id, unspent d' service challenge_id -> unspent d service challenge_id.

#[export] Instance fades_preorder : PreOrder fades.
Proof. split; [by intros d s c|]. intros d1 d2 d3 H12 H23 s c H. by apply H12, H23. Qed.

Lemma fades_same d d' :
  auth_challenges d' = auth_challenges d -> service_auth_challenges d' = service_auth_challenges d ->
  fades d d'.
Proof. intros Ha Hs [] c; unfold unspent; by rewrite ?Ha, ?Hs. Qed.

Lemma fades_rows d d' :
  (forall c, In c (auth_challenges d') -> ac_consumed_at c = None -> In c (auth_challenges d)) ->
  (forall c, In c (service_auth_challenges d') -> sc_consumed_at c = None ->
             In c (service_auth_challenges d)) -> fades d d'.
Proof. intros Ha Hs [] i (c & Hc & Hi & Hn); exists c; auto. Qed.

Create HintDb fades.
#[export] Hint Extern 1 (respects fades now) => (apply respects_now; typeclasses eauto) : fades.
#[export] Hint Extern 1 (respects fades (new_id _)) => (apply respects_new_id; typeclasses eauto) : fades.
#[export] Hint Extern 1 (respects fades token_urlsafe) => (by intros ?) : fades.
#[export] Hint Extern 4 (respects fades (sql_update _ _ _)) =>
  (apply respects_update; intros; apply fades_same; done) : fades.
#[export] Hint Extern 4 (respects fades (sql_insert _ _ _)) =>
  (apply respects_insert; [typeclasses eauto|]; intros; apply fades_same; done) : fades.
#[export] Hint Extern 4 (respects fades (sql_delete _ _)) =>
  (apply respects_delete; intros; apply fades_same; done) : fades.
#[export] Hint Extern 5 (respects fades _) =>
  (apply respects_reads; [typeclasses eauto|solve [auto with reads]]) : fades.

Lemma fades_answer p stamp :
  respects fades (sql_update auth_challenges p (fun c => c <| ac_consumed_at := Some stamp |>)).
Proof.
  apply respects_update. intros d. apply fades_rows; [|done]. intros c Hin Hn.
  apply in_update in Hin as (r & Hr & [[_ ->]|[_ ->]]); done.
Qed.
Lemma fades_service_answer p stamp :
  respects fades (sql_update service_auth_challenges p (fun c => c <| sc_consumed_at := Some stamp |>)).
Proof.
  apply respects_update. intros d. apply fades_rows; [done|]. intros c Hin Hn.
  apply in_update in Hin as (r & Hr & [[_ ->]|[_ ->]]); done.
Qed.
Lemma fades_delete p : respects fades (sql_delete auth_challenges p).
Proof. apply respects_delete. intros d. apply fades_rows; [|done]. by intros c [? _]%in_select. Qed.
Lemma fades_service_delete p : respects fades (sql_delete service_auth_challenges p).
Proof. apply respects_delete. intros d. apply fades_rows; [done|]. by intros c [? _]%in_select. Qed.
#[export] Hint Resolve fades_answer fades_service_answer fades_delete fades_service_delete : fades.

Ltac solve_fades := solve_respects ltac:(auto with fades).

Lemma forward_token `{Env} : forward token_urlsafe.
Proof. intros w. simpl. lia. Qed.
#[export] Hint Resolve forward_token : forward.

Section Challenges.
Context {E : Env}.

Lemma reads_only_chain d c r s e : respects fades (validate_device_chain d c r s e).
Proof. unfold validate_device_chain. solve_fades. Qed.
Lemma forward_chain d c r s e : forward (validate_device_chain d c r s e).
Proof. unfold validate_device_chain. solve_forward. Qed.
#[local] Hint Resolve reads_only_chain : fades.
#[local] Hint Resolve forward_chain : forward.

Lemma reads_only_stored c : reads_only (stored_certificate c).
Proof. unfold stored_certificate. destruct c as [t|]; [destruct (json_loads t)|]; by intros w. Qed.
#[local] Hint Resolve reads_only_stored : reads.

Lemma fades_login q : respects fades (login q).
Proof.
  unfold login, device_login, get_challenge, consume_challenge, create_session. solve_fades.
Qed.
Lemma forward_login q : forward (login q).
Proof.
  unfold login, device_login, get_challenge, consume_challenge, create_session. solve_forward.
Qed.
Lemma fades_consume i pt p : respects fades (consume_challenge i pt p).
Proof. unfold consume_challenge. solve_fades. Qed.
Lemma forward_consume i pt p : forward (consume_challenge i pt p).
Proof. unfold consume_challenge. solve_forward. Qed.
Lemma forward_session pt i u scopes ttl : forward (create_session pt i u scopes ttl).
Proof. unfold create_session. solve_forward. Qed.
Lemma forward_create pt p ttl : forward (create_challenge pt p ttl).
Proof. unfold create_challenge. solve_forward. Qed.
Lemma fades_sweep : respects fades sweep_expired.
Proof.
  unfold sweep_expired, prune_expired_security_state, _expire_reservations, _expire_leases, expire_lease,
    _finalize_drained_workers, _enqueue_task_rekey_command, upsert_command, _expire_maintenance_jobs,
    _ensure_rekey_commands, _enqueue_task_rekey_command, upsert_command, audit. solve_fades.
Qed.

(** ** Runs of the handlers *)

(** What a certificate says: it is in force, names the device and its two keys, and the
    root signed it. *)
Definition certifies (root_text device_id signing_key encryption_key : string) (certificate : dict)
    (current : Z) : Prop :=
  exists payload root signature text issued issued_at expires expires_at,
    jget "payload" certificate = Some (JObj payload) /\
    jget "device_id" payload = Some (JStr device_id) /\
    jget "signing_public_key" payload = Some (JStr signing_key) /\
    jget "encryption_public_key" payload = Some (JStr encryption_key) /\
    jget "issued_at" payload = Some issued /\ json_int issued = Ok issued_at /\ issued_at <= current /\
    jget "expires_at" payload = Some expires /\ json_int expires = Ok expires_at /\ current < expires_at /\
    b64url_decode root_text (Some 32) = Ok root /\ canonical_json (JObj payload) = Ok text /\
    ed_verify root signature (DEVICE_CERT_CONTEXT ++ [Byte.x00] ++ text) = true.

(** The device's stored certificate, under the root of its active user. *)
Definition device_certified (d : db) (device : device_row) (current : Z) : Prop :=
  exists user t certificate,
    In user (users d) /\ u_id user = dv_user_id device /\ u_status user = UActive /\
    dv_certificate device = Some t /\ json_loads t = JDoc (JObj certificate) /\
    certifies (u_root_signing_public_key user) (dv_id device) (dv_signing_public_key device)
      (dv_encryption_public_key device) certificate current.

Lemma item_ok k d v : jitem k d = Ok v -> jget k d = Some v.
Proof. unfold jitem. destruct (jget k d); [by intros [= ->]|done]. Qed.

Lemma certificate_in_force cert root current :
  verify_device_certificate cert root current = Ok true ->
  certificate_signed cert root = Ok true /\
  exists issued issued_at expires expires_at,
    jget "issued_at" (dc_payload cert) = Some issued /\ json_int issued = Ok issued_at /\
    issued_at <= current /\
    jget "expires_at" (dc_payload cert) = Some expires /\ json_int expires = Ok expires_at /\
    current < expires_at.
Proof.
  unfold verify_device_certificate. intros ([] & Hs & H)%res_bind_ok; [|done]. split; [done|]. simpl in H.
  match type of H with match ?b with _ => _ end = _ => assert (b = Ok true) as Hb by (by destruct b as [|[]]) end.
  clear H. apply res_bind_ok in Hb as (i & Hi & Hb). apply res_bind_ok in Hb as (ia & Hia & Hb).
  destruct (current <? ia) eqn:Hl; [done|]. apply res_bind_ok in Hb as (x & Hx & Hb).
  apply res_bind_ok in Hb as (ea & Hea & [= He]).
  exists i, ia, x, ea. apply item_ok in Hi, Hx. split_and!; try done; lia.
Qed.

Lemma chain_certifies i c r k e current :
  chain_valid i c r k e current = Ok true ->
  exists certificate, c = JObj certificate /\ certifies r i k e certificate current.
Proof.
  unfold chain_valid. intros H.
  match type of H with match ?b with _ => _ end = _ => assert (b = Ok true) as Hb by (by destruct b as [|[]]) end.
  clear H. apply res_bind_ok in Hb as (root & Hroot & Hb). destruct c as [| | | | | |d]; try done.
  exists d. split; [done|]. apply res_bind_ok in Hb as (cert & Hcert & Hb).
  apply res_bind_ok in Hb as (valid & Hv & Hb). apply res_bind_ok in Hb as (p & Hp & Hb).
  apply item_ok in Hp. destruct p as [| | | | | |payload]; try done.
  assert (dc_payload cert = payload) as Hpl.
  { unfold certificate_from_dict in Hcert. unfold jitem in Hcert. rewrite Hp in Hcert.
    apply res_bind_ok in Hcert as (? & [= <-] & Hcert). apply res_bind_ok in Hcert as (? & [= <-] & Hcert).
    apply res_bind_ok in Hcert as (? & _ & Hcert). apply res_bind_ok in Hcert as (? & _ & [= <-]). done. }
  apply res_bind_ok in Hb as (di & Hdi & Hb). destruct (json_is di i) eqn:Hi; [|done]. simpl in Hb.
  apply res_bind_ok in Hb as (sk & Hsk & Hb). destruct (json_is sk k) eqn:Hk; [|done]. simpl in Hb.
  apply res_bind_ok in Hb as (ek & Hek & [= He]). apply andb_true_iff in He as [-> He].
  apply json_is_spec in Hi as ->, Hk as ->, He as ->. apply item_ok in Hdi, Hsk, Hek.
  apply certificate_in_force in Hv as [(text & Ht & Hsig)%signed_certificate (x & xa & y & ya & H)].
  rewrite Hpl in *. exists payload, root, (dc_signature cert), text, x, xa, y, ya. naive_solver.
Qed.

Lemma chain_run i c r k e w u w' :
  validate_device_chain i c r k e w = (Ok u, w') ->
  wd_db w' = wd_db w /\ device_id_valid i = true /\
  chain_valid i c r k e (clock (wd_ticks w) / 1000000) = Ok true.
Proof.
  unfold validate_device_chain. intros H. apply run_bind in H as (stamp & w1 & Hn & H).
  unfold now in Hn. injection Hn as <- <-. apply run_bind in H as (v & w2 & Hv & H).
  apply run_lift in Hv as [Hv ->]. apply run_check in H as [Hc ->].
  apply andb_true_iff in Hc as [Hi ->]. done.
Qed.

Lemma chain_tick i c r k e w u w' :
  validate_device_chain i c r k e w = (Ok u, w') -> (wd_ticks w < wd_ticks w')%nat.
Proof.
  unfold validate_device_chain. intros H. apply run_bind in H as (stamp & w1 & Hn & H).
  unfold now in Hn. injection Hn as <- <-. apply run_bind in H as (v & w2 & Hv & H).
  apply run_lift in Hv as [_ ->]. apply run_check in H as [_ ->]. simpl. lia.
Qed.

Lemma stored_run c w v w' :
  stored_certificate c w = (Ok v, w') -> w' = w /\ exists t, c = Some t /\ json_loads t = JDoc v.
Proof.
  unfold stored_certificate. destruct c as [t|]; [|done]. destruct (json_loads t) eqn:Ht; [|done].
  intros [= -> <-]. eauto.
Qed.

Lemma device_login_run device q w u w' :
  device_login device q w = (Ok u, w') ->
  wd_db w' = wd_db w /\ device_certified (wd_db w) device (clock (wd_ticks w) / 1000000).
Proof.
  unfold device_login. intros H. apply run_bind in H as (o & w1 & Hq & H).
  apply run_query in Hq as [-> ->]. apply run_bind in H as (user & w1 & Hu & H).
  apply run_require in Hu as [Hu ->]. apply run_bind in H as ([] & w1 & Hc & H).
  apply run_check in Hc as [_ ->]. apply run_bind in H as (cert & w1 & Hs & H).
  apply stored_run in Hs as [-> Hs]. apply run_bind in H as ([] & w1 & Hg & H).
  assert (w1 = w) as ->. { destruct (sr_device_certificate q); repeat run_step; done. }
  apply chain_run in H as (Hd & _ & (certificate & -> & Hv)%chain_certifies). split; [done|].
  destruct Hs as (t & Ht & Hs). apply head_select_some in Hu as [Hin Hu]. split_bools.
  exists user, t, certificate. done.
Qed.

(** A challenge of that value was issued to the principal; it is unanswered and not yet
    expired at [stamp]. *)
Definition challenge_open (d : db) (challenge_id principal_id : string) (principal_type : principal)
    (stamp : Z) (value : string) : Prop :=
  match principal_type with
  | PService => exists c, In c (service_auth_challenges d) /\ sc_id c = challenge_id /\
      sc_service_id c = principal_id /\ sc_challenge_value c = value /\ sc_consumed_at c = None /\
      stamp < sc_expires_at c
  | _ => exists c, In c (auth_challenges d) /\ ac_id c = challenge_id /\
      ac_principal_type c = principal_type /\ ac_principal_id c = principal_id /\
      ac_challenge_value c = value /\ ac_consumed_at c = None /\ stamp < ac_expires_at c
  end.

Lemma challenge_found d i p pt stamp value :
  (if pt =d PService then option_map sc_challenge_value (open_service_challenge d i p stamp)
   else option_map ac_challenge_value (open_challenge d i p pt stamp)) = Some value ->
  challenge_open d i p pt stamp value.
Proof.
  unfold challenge_open. destruct pt; simpl; unfold open_challenge, open_service_challenge;
    destruct (head _) as [c|] eqn:Hc; try done; intros [= <-]; apply head_select_some in Hc as [Hin Hc];
    split_bools; exists c; split_and!; try done; lia.
Qed.

Lemma login_run q s w w' :
  login q w = (Ok s, w') ->
  exists principal_id subject value n wc w2 scopes,
    (wd_ticks w <= n < wd_ticks w2)%nat /\
    truthy_id (sr_principal_id q) = Some principal_id /\
    live_subject (wd_db w) (sr_principal_type q) principal_id = Some subject /\
    match subject with
    | SubDevice device => device_certified (wd_db w) device (clock (wd_ticks w) / 1000000)
    | _ => True
    end /\
    challenge_open (wd_db w) (sr_challenge_id q) principal_id (sr_principal_type q) (clock n) value /\
    signature_of_challenge (subject_key subject) value (sr_signature q) = Ok true /\
    wd_db wc = wd_db w /\
    consume_challenge (sr_challenge_id q) (sr_principal_type q) principal_id wc = (Ok true, w2) /\
    create_session (sr_principal_type q) (subject_id subject) (subject_user subject) scopes 900 w2 =
      (Ok s, w').
Proof.
  unfold login. intros H. apply run_bind in H as (pid & w1 & Hp & H). apply run_require in Hp as [Hp ->].
  apply run_bind in H as (o & w1 & Hq & H). apply run_query in Hq as [-> ->].
  apply run_bind in H as (subject & w1 & Hs & H). apply run_require in Hs as [Hs ->].
  apply run_bind in H as ([] & w1 & Hl & H).
  assert (wd_db w1 = wd_db w /\ (wd_ticks w <= wd_ticks w1)%nat /\
    match subject with
    | SubDevice device => device_certified (wd_db w) device (clock (wd_ticks w) / 1000000)
    | _ => True
    end) as (Hdb & Ht & Hdev).
  { destruct subject as [device| |]; [|by apply run_ret in Hl as [_ ->]..].
    pose proof Hl as Hl'. apply device_login_run in Hl' as [? ?]. split_and!; [done| |done].
    assert (forward (device_login device q)) as Hf by (unfold device_login; solve_forward).
    specialize (Hf w). rewrite Hl in Hf. by destruct Hf. }
  apply run_bind in H as (o & w2 & Hg & H). unfold get_challenge in Hg.
  apply run_bind in Hg as (stamp & w3 & Hn & Hg). unfold now in Hn. injection Hn as <- <-.
  apply run_query in Hg as [-> ->]. simpl in H. rewrite Hdb in H.
  apply run_bind in H as (value & w3 & Hv & H). apply run_require in Hv as [Hv ->].
  apply run_bind in H as (signed & w3 & Hsig & H). apply run_lift in Hsig as [Hsig ->].
  apply run_bind in H as ([] & w3 & Hk & H). apply run_check in Hk as [-> ->].
  apply run_bind in H as (consumed & w3 & Hc & H). apply run_bind in H as ([] & w4 & Hk & H).
  apply run_check in Hk as [-> ->]. apply run_bind in H as (scopes & w4 & Hsc & H).
  apply run_lift in Hsc as [_ ->].
  exists pid, subject, value, (wd_ticks w1), (w1 <| wd_ticks := S (wd_ticks w1) |>), w3, scopes.
  apply challenge_found in Hv. pose proof (forward_consume (sr_challenge_id q) (sr_principal_type q) pid
    (w1 <| wd_ticks := S (wd_ticks w1) |>)) as Hf. rewrite Hc in Hf. simpl in Hf.
  split_and!; try done; lia.
Qed.

Lemma consume_run i pt p w w' :
  consume_challenge i pt p w = (Ok true, w') ->
  unspent (wd_db w) (pt =d PService) i /\ ~ unspent (wd_db w') (pt =d PService) i /\
  sessions (wd_db w') = sessions (wd_db w).
Proof.
  unfold consume_challenge. intros H. apply run_bind in H as (stamp & w1 & Hn & H).
  unfold now in Hn. injection Hn as <- <-. apply run_transaction in H.
  destruct (pt =d PService) eqn:Hpt; apply run_bind in H as (o & w1 & Hq & H);
    apply run_query in Hq as [-> ->]; simpl in H.
  - destruct (open_service_challenge _ _ _ _) as [c|] eqn:Hc; [|done].
    apply run_bind in H as (k & w1 & Hu & H). apply run_ret in H as [_ ->].
    apply run_update in Hu as [_ Hu]. unfold open_service_challenge in Hc.
    apply head_select_some in Hc as [Hin Hc]. rewrite Hu. simpl in Hin |- *. split_and!; [|clear Hc|done].
    + exists c. split_bools. done.
    + intros (c' & Hin' & Hi & Hn). apply in_update in Hin' as (r & _ & [[_ ->]|[Hr ->]]); [done|].
      by rewrite bool_decide_eq_false in Hr.
  - destruct (open_challenge _ _ _ _ _) as [c|] eqn:Hc; [|done].
    apply run_bind in H as (k & w1 & Hu & H). apply run_ret in H as [_ ->].
    apply run_update in Hu as [_ Hu]. unfold open_challenge in Hc.
    apply head_select_some in Hc as [Hin Hc]. rewrite Hu. simpl in Hin |- *. split_and!; [|clear Hc|done].
    + exists c. split_bools. done.
    + intros (c' & Hin' & Hi & Hn). apply in_update in Hin' as (r & _ & [[_ ->]|[Hr ->]]); [done|].
      by rewrite bool_decide_eq_false in Hr.
Qed.

Lemma session_run pt i u scopes ttl w s w' :
  create_session pt i u scopes ttl w = (Ok s, w') ->
  exists token stamp id,
    s = (token, Mk_session_row id pt i u (sha256_hex token) scopes (stamp + seconds ttl) None stamp
                  (Some stamp)) /\
    sessions (wd_db w') = sessions (wd_db w) ++ [snd s] /\ fades (wd_db w) (wd_db w').
Proof.
  unfold create_session. intros H. apply run_bind in H as (token & w1 & Ht & H).
  unfold token_urlsafe in Ht. injection Ht as <- <-. apply run_bind in H as (stamp & w1 & Hn & H).
  unfold now in Hn. injection Hn as <- <-. apply run_bind in H as (id & w1 & Hi & H).
  apply run_new_id in Hi. simpl in Hi. apply run_bind in H as ([] & w2 & Hins & H).
  apply run_insert in Hins as [Hok Hdb]. rewrite Hi in Hok, Hdb.
  apply run_bind in H as (o & w3 & Hq & H). apply run_query in Hq as [-> ->].
  apply run_bind in H as (found & w3 & Hf & H). apply run_require in Hf as [Hf ->].
  apply run_ret in H as [-> ->]. rewrite Hdb in Hf |- *. simpl in Hf |- *.
  unfold sessions_ok in Hok. split_bools.
  match type of Hf with find_by ss_id _ (?t ++ [?r]) = _ =>
    change (find_by ss_id (ss_id r) (t ++ [r]) = Some found) in Hf;
    rewrite find_by_app_new in Hf by (by apply has_key_false)
  end.
  injection Hf as <-. eexists _, _, _. split_and!; [done|done|]. by apply fades_same.
Qed.

Lemma login_spends q s w w' :
  login q w = (Ok s, w') -> ~ unspent (wd_db w') (sr_principal_type q =d PService) (sr_challenge_id q).
Proof.
  intros (pid & subject & value & n & wc & w2 & scopes & _ & _ & _ & _ & _ & _ & _ & Hc & Hss)%login_run.
  apply consume_run in Hc as (_ & Hspent & _). apply session_run in Hss as (? & ? & ? & _ & _ & Hf).
  intros H. by apply Hspent, Hf.
Qed.

(** C13: a session needs the registered key and an open challenge.  When a login
    succeeds, its subject was live (an active device whose certificate is in force,
    names its keys and is signed by the root of its active user, a worker that is not
    revoked, an active service), the challenge was issued to that subject and at a
    clock reading of the call unexpired and unanswered, and the signature over it
    verifies under the subject's registered key; the only session it adds is the
    subject's, unrevoked and for fifteen minutes, and the challenge is answered. *)
Theorem login_proves_key q token s w w' :
  login q w = (Ok (token, s), w') ->
  exists principal_id subject value n public_key signature,
    (wd_ticks w <= n < wd_ticks w')%nat /\
    truthy_id (sr_principal_id q) = Some principal_id /\
    live_subject (wd_db w) (sr_principal_type q) principal_id = Some subject /\
    match subject with
    | SubDevice device => device_certified (wd_db w) device (clock (wd_ticks w) / 1000000)
    | _ => True
    end /\
    challenge_open (wd_db w) (sr_challenge_id q) principal_id (sr_principal_type q) (clock n) value /\
    b64url_decode (subject_key subject) (Some 32) = Ok public_key /\
    b64url_decode (sr_signature q) (Some 64) = Ok signature /\
    ed_verify public_key signature (SIGNATURE_CONTEXT ++ [Byte.x00] ++ encode value) = true /\
    sessions (wd_db w') = sessions (wd_db w) ++ [s] /\
    ss_principal_type s = sr_principal_type q /\ ss_principal_id s = subject_id subject /\
    ss_user_id s = subject_user subject /\ ss_token_hash s = sha256_hex token /\
    ss_revoked_at s = None /\ ss_expires_at s = ss_created_at s + seconds 900 /\
    ~ unspent (wd_db w') (sr_principal_type q =d PService) (sr_challenge_id q).
Proof.
  intros (pid & subject & value & n & wc & w2 & scopes & Hn & Hp & Hs & Hd & Hv & Hsig & Hwc & Hc & Hss)%login_run.
  assert (wd_ticks w2 <= wd_ticks w')%nat as Hle.
  { pose proof (forward_session (sr_principal_type q) (subject_id subject) (subject_user subject) scopes 900 w2)
      as Hf. rewrite Hss in Hf. apply Hf. }
  apply consume_run in Hc as (_ & Hspent & Hsess). rewrite Hwc in Hsess.
  apply session_run in Hss as (tk & stamp & id & [= -> ->] & Hadd & Hf). simpl in Hadd.
  unfold signature_of_challenge in Hsig.
  destruct (b64url_decode (subject_key subject) (Some 32)) as [pk|e] eqn:Hk; [|by destruct e].
  cbv beta iota delta [bind mbind res_bind] in Hsig.
  destruct (b64url_decode (sr_signature q) (Some 64)) as [raw|e] eqn:Hr; [|by destruct e].
  unfold verify_message in Hsig. destruct (negb (blen pk =? 32)); [done|].
  injection Hsig as Hsig. exists pid, subject, value, n, pk, raw.
  split_and!; try done; [lia|lia|congruence|].
  intros H. by apply Hspent, Hf.
Qed.

(** ** A challenge answers once *)

Inductive auth_step (w : world) : world -> Prop :=
| AuthChallenge pt p ttl : auth_step w (snd (create_challenge pt p ttl w))
| AuthLogin q : auth_step w (snd (login q w))
| AuthConsume i pt p : auth_step w (snd (consume_challenge i pt p w))
| AuthSweep : auth_step w (snd (sweep_expired w))
| AuthOther w' : (wd_draws w <= wd_draws w')%nat ->
    auth_challenges (wd_db w') = auth_challenges (wd_db w) ->
    service_auth_challenges (wd_db w') = service_auth_challenges (wd_db w) -> auth_step w w'.

(** What [create_challenge] leaves open is fresh or was open before. *)
Lemma create_unspent pt p ttl w service i :
  unspent (wd_db (snd (create_challenge pt p ttl w))) service i ->
  unspent (wd_db w) service i \/ i = "ses_" +:+ uuid (wd_draws w).
Proof.
  unfold create_challenge, bind, mbind, M_bind, token_urlsafe, now, new_id. simpl.
  destruct (pt =d PService); unfold sql_insert;
    match goal with |- context [if ?ok then (Ok tt, _) else _] => destruct ok end; simpl; auto;
    destruct service; simpl; auto; intros (c & Hin & <- & Hn); apply in_app_iff in Hin as [Hin|[<-|[]]];
    simpl; auto; left; by exists c.
Qed.

Lemma step_draws w w' : auth_step w w' -> (wd_draws w <= wd_draws w')%nat.
Proof.
  destruct 1 as [pt p ttl|q|i pt p| |]; [apply forward_create|apply forward_login|apply forward_consume| |done].
  assert (forward sweep_expired) as Hf; [|apply Hf].
  unfold sweep_expired, prune_expired_security_state, _expire_reservations, _expire_leases, expire_lease,
    _finalize_drained_workers, _enqueue_task_rekey_command, upsert_command, _expire_maintenance_jobs,
    _ensure_rekey_commands, _enqueue_task_rekey_command, upsert_command, audit. solve_forward.
Qed.

Lemma step_unspent w w' service i :
  auth_step w w' -> unspent (wd_db w') service i ->
  unspent (wd_db w) service i \/ i = "ses_" +:+ uuid (wd_draws w).
Proof.
  destruct 1 as [pt p ttl|q|j pt p| |w' _ Ha Hs]; intros H.
  - by apply create_unspent in H.
  - left. by apply (fades_login q w).
  - left. by apply (fades_consume j pt p w).
  - left. by apply (fades_sweep w).
  - left. by apply (fades_same (wd_db w) (wd_db w')).
Qed.

(** An answered challenge stays answered. *)
Lemma steps_spent (Hinj : forall m n, uuid m = uuid n -> m = n) w w' service n :
  rtc auth_step w w' -> (n < wd_draws w)%nat ->
  ~ unspent (wd_db w) service ("ses_" +:+ uuid n) -> ~ unspent (wd_db w') service ("ses_" +:+ uuid n).
Proof.
  induction 1 as [|w1 w2 w3 Hs _ IH]; [done|]. intros Hn Hsp. pose proof (step_draws _ _ Hs) as Hd.
  apply IH; [lia|]. intros H. apply (step_unspent _ _ _ _ Hs) in H as [H|H]; [done|].
  injection H as H. apply Hinj in H. lia.
Qed.

Lemma steps_draws w w' : rtc auth_step w w' -> (wd_draws w <= wd_draws w')%nat.
Proof. induction 1 as [|w1 w2 w3 Hs _ IH]; [done|]. apply step_draws in Hs. lia. Qed.

Lemma issued_id pt p ttl w i v w' :
  create_challenge pt p ttl w = (Ok (i, v), w') ->
  i = "ses_" +:+ uuid (wd_draws w) /\ (wd_draws w < wd_draws w')%nat.
Proof.
  unfold create_challenge, bind, mbind, M_bind, token_urlsafe, now, new_id. simpl.
  destruct (pt =d PService); unfold sql_insert;
    match goal with |- context [if ?ok then (Ok tt, _) else _] => destruct ok end; try done;
    intros [= <- _ <-]; (split; [done|simpl; lia]).
Qed.

(** A challenge answers once.  After a login with a challenge the gateway
    issued, whatever challenges, logins, sweeps and other requests come between, every
    later login with that challenge is refused, for its subject and for any other. *)
Theorem challenge_answers_once pt p ttl i v w0 w1 q s w2 w3 q' w4 :
  (forall m n, uuid m = uuid n -> m = n) ->
  create_challenge pt p ttl w0 = (Ok (i, v), w1) ->
  rtc auth_step w1 w2 ->
  sr_challenge_id q = i -> login q w2 = (Ok s, w3) ->
  rtc auth_step w3 w4 ->
  sr_challenge_id q' = i -> (sr_principal_type q' =d PService) = (sr_principal_type q =d PService) ->
  exists e w5, login q' w4 = (Raise e, w5).
Proof.
  intros Hinj Hissue H12 Hi Hlogin H34 Hi' Hpt.
  destruct (issued_id _ _ _ _ _ _ _ Hissue) as [Hid Hdraw]. apply steps_draws in H12.
  pose proof (forward_login q w2) as Hfw. rewrite Hlogin in Hfw. simpl in Hfw.
  apply login_spends in Hlogin as Hspent. rewrite Hi, Hid in Hspent.
  apply (steps_spent Hinj _ w4) in Hspent; [|done|lia].
  destruct (login q' w4) as [[s'|e] w5] eqn:Hagain; [exfalso|by eauto].
  apply login_run in Hagain as (pid & sub & val & n & wc & w6 & sc & _ & _ & _ & _ & _ & _ & Hwc & Hc & _).
  apply consume_run in Hc as [Hopen _]. apply Hspent. by rewrite <- Hwc, <- Hid, <- Hi', <- Hpt.
Qed.

(** ** Authenticated requests *)

Lemma principal_key_subject d session :
  principal_key d session = option_map subject_key
    (live_subject d (ss_principal_type session) (ss_principal_id session)).
Proof. unfold principal_key, live_subject. destruct (ss_principal_type session); by destruct (head _). Qed.

Lemma resolve_run token w s w' :
  resolve_session token w = (Ok (Some s), w') ->
  In s (sessions (wd_db w)) /\ ss_token_hash s = sha256_hex token /\ ss_revoked_at s = None /\
  clock (wd_ticks w) < ss_expires_at s /\
  users (wd_db w') = users (wd_db w) /\ devices (wd_db w') = devices (wd_db w) /\
  workers (wd_db w') = workers (wd_db w) /\ services (wd_db w') = services (wd_db w).
Proof.
  unfold resolve_session. intros H. apply run_bind in H as (stamp & w1 & Hn & H).
  unfold now in Hn. injection Hn as <- <-. apply run_bind in H as (o & w1 & Hq & H).
  apply run_query in Hq as [-> ->]. simpl in H. destruct (head _) as [r|] eqn:Hr; [|done].
  apply run_bind in H as (k & w1 & Hu & H). apply run_update in Hu as [_ Hu].
  apply run_ret in H as [[= ->] ->]. apply head_select_some in Hr as [Hin Hr]. split_bools. rewrite Hu.
  split_and!; done.
Qed.

Lemma live_subject_tables d d' pt i :
  devices d' = devices d -> workers d' = workers d -> services d' = services d ->
  live_subject d' pt i = live_subject d pt i.
Proof. unfold live_subject. by intros -> -> ->. Qed.

Lemma forward_resolve token : forward (resolve_session token).
Proof. unfold resolve_session. solve_forward. Qed.
Lemma forward_subject s : forward (validate_session_subject s).
Proof. unfold validate_session_subject. solve_forward. Qed.

Lemma subject_run s w u w' :
  validate_session_subject s w = (Ok u, w') ->
  wd_db w' = wd_db w /\ (wd_ticks w <= wd_ticks w')%nat /\
  exists subject, live_subject (wd_db w) (ss_principal_type s) (ss_principal_id s) = Some subject /\
    match subject with
    | SubDevice device => (wd_ticks w < wd_ticks w')%nat /\
                          device_certified (wd_db w) device (clock (wd_ticks w) / 1000000)
    | _ => True
    end.
Proof.
  intros H. pose proof (forward_subject s w) as Hf. rewrite H in Hf. simpl in Hf.
  destruct Hf as [Hf _]. revert H. unfold validate_session_subject. destruct (ss_principal_type s); intros H;
    apply run_bind in H as (o & w1 & Hq & H); apply run_query in Hq as [-> ->];
    apply run_bind in H as (x & w1 & Hr & H); apply run_require in Hr as [Hr ->].
  - apply run_bind in H as (text & w1 & Ht & H). apply run_require in Ht as [Ht ->].
    apply run_bind in H as (o & w1 & Hq & H). apply run_query in Hq as [-> ->].
    apply run_bind in H as (user & w1 & Hu & H). apply run_require in Hu as [Hu ->].
    apply run_bind in H as (cert & w1 & Hs & H). apply stored_run in Hs as [-> (t & [= ->] & Hs)].
    pose proof (chain_tick _ _ _ _ _ _ _ _ H) as Hlt.
    apply chain_run in H as (Hd & _ & (certificate & -> & Hv)%chain_certifies).
    split_and!; [done..|]. exists (SubDevice x).
    unfold live_subject. rewrite Hr. split_and!; [done..|].
    apply head_select_some in Hu as [Hin Hu]. split_bools.
    exists user, t, certificate. split_and!; try done. unfold truthy_id in Ht.
    destruct (dv_certificate x) as [c|]; [|done]. by destruct (String.eqb c "").
  - apply run_ret in H as [_ ->]. split_and!; [done..|]. exists x. split; [done|].
    unfold live_subject in Hr. destruct (head _); [|done]. by injection Hr as <-.
  - apply run_ret in H as [_ ->]. split_and!; [done..|]. exists x. split; [done|].
    unfold live_subject in Hr. destruct (head _); [|done]. by injection Hr as <-.
Qed.

(** What an accepted signature covers. *)
Lemma parse_covers pk method path body headers k cur v :
  parse_signature pk method path body headers k 300 30 cur = Ok v ->
  exists m input signature,
    _validate_request method path = Ok (m, path) /\ si_nonce input = vr_nonce v /\
    ed_verify pk signature (_signature_base m path (_content_digest body) (si_params input)) = true.
Proof.
  unfold parse_signature. destruct (_validate_request method path) as [[m p]|] eqn:Hv; [|done].
  assert (p = path) as ->. { unfold _validate_request in Hv. repeat case_match; by simplify_eq. }
  unfold bind, mbind, res_bind. change ((300 <? 1) || (30 <? 0)) with false. cbv iota.
  destruct (_header headers "Content-Digest") as [dh|]; [|done].
  destruct (_header headers "Signature-Input") as [ih|]; [|done].
  destruct (_header headers "Signature") as [sh|]; [|done].
  destruct (_CONTENT_DIGEST dh); [|done]. destruct (_SIGNATURE_INPUT ih) as [input|]; [|done].
  destruct (_SIGNATURE sh) as [[sl value]|]; [|done]. destruct (negb _ || negb _); [done|].
  destruct (String.eqb_spec dh (_content_digest body)) as [->|]; [|done]. simpl.
  destruct (match k with Some _ => _ | None => _ end); [done|].
  destruct ((cur + 30 <? _) || _); [done|].
  destruct (b64decode value) as [sig|[]]; try done. destruct (negb (blen sig =? 64)); [done|].
  destruct (negb (blen pk =? 32)); [done|]. destruct (ed_verify pk _ _) eqn:He; [|done].
  intros [= <-]. exists m, input, sig. done.
Qed.

(** The signature over method, target and body under the registered key. *)
Definition request_signed (key : string) (method path : string) (body : bytes) : Prop :=
  exists public_key m params signature,
    b64url_decode key (Some 32) = Ok public_key /\ _validate_request method path = Ok (m, path) /\
    ed_verify public_key signature (_signature_base m path (_content_digest body) params) = true.

Lemma mutation_run session method path body headers w u w' :
  mutation method = true -> verify_mutation_signature true session method path body headers w = (Ok u, w') ->
  exists key, principal_key (wd_db w) session = Some key /\ request_signed key method path body.
Proof.
  unfold verify_mutation_signature. intros -> H. cbn [negb orb] in H.
  apply run_bind in H as (o & w0 & Hq & H). apply run_query in Hq as [-> ->].
  apply run_bind in H as (key & w0 & Hq & H). apply run_require in Hq as [Hkey ->].
  apply run_bind in H as (pk & w0 & Hq & H). apply run_lift in Hq as [Hpk ->].
  apply run_bind in H as (k & w0 & Hq & H). apply run_lift in Hq as [_ ->].
  apply run_bind in H as (v & w0 & Hv & _). unfold verify_http_request in Hv.
  apply run_bind in Hv as (stamp & w1 & Hn & Hv). apply run_bind in Hv as (v0 & w2 & Hp & _).
  apply run_lift in Hp as [Hp _]. apply parse_covers in Hp as (m & input & signature & Hm & _ & He).
  exists key. split; [done|]. by exists pk, m, (si_params input), signature.
Qed.

Lemma forward_verify vm s method path body headers :
  forward (verify_mutation_signature vm s method path body headers).
Proof.
  unfold verify_mutation_signature, verify_http_request, claim_request_nonce, insert_nonce. solve_forward.
Qed.

(** What the dependency establishes about the state it runs in. *)
Lemma principal_run vm pre token method path body headers w p w' :
  current_principal vm pre token method path body headers w = (Ok p, w') ->
  exists s subject w1,
    match pre with
    | Some row => row = s /\ w1 = w
    | None => resolve_session token w = (Ok (Some s), w1)
    end /\
    pr_session_id p = ss_id s /\ pr_principal_type p = ss_principal_type s /\
    pr_principal_id p = ss_principal_id s /\ pr_user_id p = ss_user_id s /\
    live_subject (wd_db w) (pr_principal_type p) (pr_principal_id p) = Some subject /\
    match subject with
    | SubDevice device => exists n, (wd_ticks w <= n < wd_ticks w')%nat /\
        device_certified (wd_db w) device (clock n / 1000000)
    | _ => True
    end /\
    (vm = true -> mutation method = true -> request_signed (subject_key subject) method path body).
Proof.
  unfold current_principal. intros H. apply run_bind in H as (o & w1 & Hres & H).
  apply run_bind in H as (s & w2 & Hr & H). apply run_require in Hr as [-> ->].
  assert ((wd_ticks w <= wd_ticks w1)%nat /\ users (wd_db w1) = users (wd_db w) /\
    devices (wd_db w1) = devices (wd_db w) /\ workers (wd_db w1) = workers (wd_db w) /\
    services (wd_db w1) = services (wd_db w)) as (Hle & Hus & Hdv & Hwk & Hsv).
  { destruct pre as [row|]; [by apply run_ret in Hres as [_ ->]|].
    pose proof (forward_resolve token w) as Hf. rewrite Hres in Hf. apply resolve_run in Hres.
    destruct Hf. naive_solver. }
  apply run_bind in H as ([] & w2 & Hsub & H).
  apply subject_run in Hsub as (Hdb & Hlt & subject & Hlive & Hcert).
  apply run_bind in H as (scopes & w3 & Hsc & H). apply run_lift in Hsc as [_ ->].
  apply run_bind in H as ([] & w3 & Hsig & H). apply run_ret in H as [-> ->]. simpl.
  pose proof (forward_verify vm s method path body headers w2) as [Hf _].
  rewrite Hsig in Hf. simpl in Hf. rewrite (live_subject_tables (wd_db w)) in Hlive by done.
  exists s, subject, w1. split_and!; try done.
  - destruct pre; [|done]. by apply run_ret in Hres as [[= ->] ->].
  - destruct subject as [device| |]; try done. destruct Hcert as [Ht Hcert]. exists (wd_ticks w1).
    split; [lia|]. unfold device_certified in *. by rewrite <- Hus.
  - intros -> Hm. apply (mutation_run _ _ _ _ _ _ _ _ Hm) in Hsig as (key & Hkey & Hs).
    rewrite principal_key_subject, Hdb, (live_subject_tables (wd_db w)) in Hkey by done.
    rewrite Hlive in Hkey. by injection Hkey as ->.
Qed.

Lemma pre_run token w s w' :
  pre_authenticate token w = (Ok s, w') ->
  In s (sessions (wd_db w)) /\ ss_token_hash s = sha256_hex token /\ ss_revoked_at s = None /\
  clock (wd_ticks w) < ss_expires_at s.
Proof.
  unfold pre_authenticate. intros H. apply run_bind in H as (o & w1 & Hres & H).
  apply run_bind in H as (row & w2 & Hr & H). apply run_require in Hr as [-> ->].
  apply run_bind in H as ([] & w2 & _ & H). apply run_ret in H as [-> _].
  apply resolve_run in Hres. naive_solver.
Qed.

Lemma principal_subject vm pre token method path body headers w p w' :
  current_principal vm pre token method path body headers w = (Ok p, w') ->
  live_subject (wd_db w) (pr_principal_type p) (pr_principal_id p) <> None.
Proof. intros (s & subject & w1 & _ & _ & _ & _ & _ & -> & _)%principal_run. done. Qed.

(** C14: every authenticated request belongs to a live session of a live subject.
    When a request passes the middleware and [current_principal], whatever other
    requests do while its body arrives, the token is that of a session neither revoked
    nor expired when the request came in; once the body is read the session's device,
    worker or service is live (a device whose certificate is in force at a clock
    reading of the call, names its keys and is signed by the root of its active user),
    and, where request signatures are required, a mutation carries a signature over
    its method, target and body under the subject's registered key. *)
Theorem authenticated_request_is_live verify_mutations meanwhile token method url_path query body headers
    w p w' :
  authenticate verify_mutations meanwhile token method url_path query body headers w = (Ok p, w') ->
  exists s subject w1,
    In s (sessions (wd_db w)) /\ ss_token_hash s = sha256_hex token /\ ss_revoked_at s = None /\
    clock (wd_ticks w) < ss_expires_at s /\
    pr_session_id p = ss_id s /\ pr_principal_type p = ss_principal_type s /\
    pr_principal_id p = ss_principal_id s /\ pr_user_id p = ss_user_id s /\
    (if is_control_mutation method url_path && (_public_rate_limit_category url_path =d None)
     then exists w0, pre_authenticate token w = (Ok s, w0) /\ meanwhile w0 = (Ok tt, w1)
     else w1 = w) /\
    live_subject (wd_db w1) (pr_principal_type p) (pr_principal_id p) = Some subject /\
    match subject with
    | SubDevice device => exists n, (wd_ticks w1 <= n < wd_ticks w')%nat /\
        device_certified (wd_db w1) device (clock n / 1000000)
    | _ => True
    end /\
    (verify_mutations = true -> mutation method = true ->
     request_signed (subject_key subject) method (request_target url_path query) body).
Proof.
  unfold authenticate. intros H. apply run_bind in H as (pre & w1 & Hpre & H).
  apply principal_run in H as (s & subject & w2 & Hs & H1 & H2 & H3 & H4 & H).
  destruct (is_control_mutation method url_path && _).
  - apply run_bind in Hpre as (row & w0 & Hrow & Hpre). apply run_bind in Hpre as ([] & w3 & Hm & Hpre).
    apply run_ret in Hpre as [-> ->]. destruct Hs as [<- ->]. exists row, subject, w3.
    pose proof (pre_run _ _ _ _ Hrow) as (Hin & Hh & Hr & Hx).
    split_and!; try done; [by exists w0|naive_solver..].
  - apply run_ret in Hpre as [-> ->]. apply resolve_run in Hs as (Hin & Hh & Hr & Hx & _).
    exists s, subject, w. split_and!; try done; naive_solver.
Qed.

(** A revoked device is locked out: after [revoke_device], with whatever token and
    signature, no request is authenticated as that device, as long as the table of
    devices stands. *)
Theorem revoked_device_locked_out device_id user_id w n w1 w2 vm pre token method path body headers p w3 :
  revoke_device device_id user_id w = (Ok n, w1) -> devices (wd_db w2) = devices (wd_db w1) ->
  current_principal vm pre token method path body headers w2 = (Ok p, w3) ->
  pr_principal_type p = PDevice -> pr_principal_id p <> device_id.
Proof.
  intros Hrev Hdv Hrun Hpt Heq.
  apply principal_subject in Hrun as Hlive. rewrite Hpt, Heq in Hlive. unfold live_subject in Hlive.
  destruct (head _) as [v|] eqn:Hv; [|done]. apply head_select_some in Hv as [Hin Hv]. split_bools.
  unfold revoke_device in Hrev. repeat run_step. flat_db. rewrite Hdv in Hin. simpl in Hin.
  apply in_update in Hin as (r & _ & [[_ ->]|[Hr ->]]); [done|]. split_bools. done.
Qed.

Lemma verify_run pk message signature context :
  verify_message pk message signature context = Ok true ->
  ed_verify pk signature (context ++ [Byte.x00] ++ message) = true.
Proof.
  unfold verify_message. destruct (negb _); [done|]. unfold _signed_message. destruct (_ || _); [done|].
  by intros [= H].
Qed.

Lemma recovery_signed_run p proof :
  recovery_signed p proof = Ok true ->
  exists root root_signature device_key device_signature,
    b64url_decode (rc_root_signing_public_key p) (Some 32) = Ok root /\
    ed_verify root root_signature (encode "vgen-device-recovery-root-v1" ++ [Byte.x00] ++ proof) = true /\
    b64url_decode (rc_device_signing_public_key p) (Some 32) = Ok device_key /\
    ed_verify device_key device_signature
      (encode "vgen-device-recovery-device-v1" ++ [Byte.x00] ++ proof) = true.
Proof.
  unfold recovery_signed. intros H.
  match type of H with match ?r with _ => _ end = _ => assert (r = Ok true) as Hr end.
  { match type of H with match ?r with _ => _ end = _ => by destruct r as [|[]] end. }
  clear H. apply res_bind_ok in Hr as (root & Hroot & Hr). apply res_bind_ok in Hr as (rs & _ & Hr).
  apply res_bind_ok in Hr as (rok & Hrok & Hr). apply res_bind_ok in Hr as (dk & Hdk & Hr).
  apply res_bind_ok in Hr as (ds & _ & Hr). apply res_bind_ok in Hr as (dok & Hdok & [= Hr]).
  apply andb_true_iff in Hr as [-> ->]. exists root, rs, dk, ds. split_and!; auto using verify_run.
Qed.

Lemma register_run user_id p w row w' :
  register_recovered_device user_id p w = (Ok row, w') ->
  has_key dv_id (devices (wd_db w)) (rc_device_id p) = false /\
  devices (wd_db w') = devices (wd_db w) ++ [row] /\
  dv_id row = rc_device_id p /\ dv_user_id row = user_id /\
  dv_signing_public_key row = rc_device_signing_public_key p /\ dv_status row = SActive /\
  (forall c, In c (device_recovery_challenges (wd_db w')) -> dc_id c = rc_challenge_id p ->
             dc_consumed_at c <> None).
Proof.
  unfold register_recovered_device. intros H. repeat run_step. split_bools. flat_db. simpl in *.
  match goal with Hok : devices_ok _ ?r = true, Hf : find_by dv_id _ ?t = Some row |- _ =>
    change (find_by dv_id (dv_id r) t = Some row) in Hf;
    assert (find_by dv_id (dv_id r) t = Some r) as Hr
      by (apply find_by_app_new; by apply has_key_false); rewrite Hr in Hf end.
  simplify_eq. split_and!; try done. intros c Hin Hc.
  apply in_update in Hin as (r & _ & [[_ ->]|[Hr' ->]]); [done|]. split_bools. done.
Qed.

Lemma session_tables pt i u scopes ttl w s w' :
  create_session pt i u scopes ttl w = (Ok s, w') ->
  devices (wd_db w') = devices (wd_db w) /\
  device_recovery_challenges (wd_db w') = device_recovery_challenges (wd_db w).
Proof.
  unfold create_session. intros H. apply run_bind in H as (token & w1 & Ht & H).
  unfold token_urlsafe in Ht. injection Ht as <- <-. repeat run_step. by flat_db.
Qed.

(** A device is recovered only under the root key.  When a recovery completes, the
    root key belongs to an active user, the challenge was issued to that user for that
    device and was open, and the root key and the new device key both signed the proof
    that binds the challenge, the device and all four public keys; the device is new,
    certified under the root, the only one added, and the challenge is answered. *)
Theorem recovery_needs_root_signature p token s w w' :
  complete_device_recovery p w = (Ok (token, s), w') ->
  exists user challenge n proof root root_signature device_key device_signature row,
    In user (users (wd_db w)) /\ u_status user = UActive /\
    u_root_signing_public_key user = rc_root_signing_public_key p /\
    u_root_encryption_public_key user = rc_root_encryption_public_key p /\
    open_recovery (wd_db w) (rc_challenge_id p) (u_id user) (rc_device_id p) (clock n) = Some challenge /\
    canonical_json (JObj (recovery_proof p (dc_challenge_value challenge))) = Ok proof /\
    b64url_decode (rc_root_signing_public_key p) (Some 32) = Ok root /\
    ed_verify root root_signature (encode "vgen-device-recovery-root-v1" ++ [Byte.x00] ++ proof) = true /\
    b64url_decode (rc_device_signing_public_key p) (Some 32) = Ok device_key /\
    ed_verify device_key device_signature
      (encode "vgen-device-recovery-device-v1" ++ [Byte.x00] ++ proof) = true /\
    chain_valid (rc_device_id p) (JObj (rc_device_certificate p)) (rc_root_signing_public_key p)
      (rc_device_signing_public_key p) (rc_device_encryption_public_key p)
      (clock (S n) / 1000000) = Ok true /\
    has_key dv_id (devices (wd_db w)) (rc_device_id p) = false /\
    devices (wd_db w') = devices (wd_db w) ++ [row] /\ dv_id row = rc_device_id p /\
    dv_user_id row = u_id user /\ dv_signing_public_key row = rc_device_signing_public_key p /\
    dv_status row = SActive /\ ss_principal_id s = rc_device_id p /\
    (forall c, In c (device_recovery_challenges (wd_db w')) -> dc_id c = rc_challenge_id p ->
               dc_consumed_at c <> None).
Proof.
  unfold complete_device_recovery. intros H. apply run_bind in H as (o & w1 & Hq & H).
  apply run_query in Hq as [-> ->]. apply run_bind in H as (user & w1 & Hu & H).
  apply run_require in Hu as [Hu ->]. apply run_bind in H as (o & w1 & Hg & H).
  unfold get_device_recovery_challenge in Hg. apply run_bind in Hg as (stamp & w2 & Hn & Hg).
  unfold now in Hn. injection Hn as <- <-. apply run_query in Hg as [-> ->]. simpl in H.
  apply run_bind in H as (challenge & w1 & Hc & H). apply run_require in Hc as [Hc ->].
  apply run_bind in H as ([] & w1 & Hch & H). apply chain_run in Hch as (Hdb & _ & Hchain).
  apply run_bind in H as (proof & w2 & Hpr & H). apply run_lift in Hpr as [Hpr ->].
  apply run_bind in H as (signed & w2 & Hs & H). apply run_lift in Hs as [Hs ->].
  apply run_bind in H as ([] & w2 & Hk & H). apply run_check in Hk as [-> ->].
  apply run_bind in H as (row & w2 & Hreg & H).
  apply register_run in Hreg as (Hnew & Hdev & Hi & Huid & Hkey & Hst & Hans).
  apply recovery_signed_run in Hs as (root & rs & dk & ds & Hroot & Hrv & Hdk & Hdv).
  pose proof (session_tables _ _ _ _ _ _ _ _ H) as [Hd2 Hr2].
  apply session_run in H as (tk & st & id & [= -> ->] & _ & _).
  rewrite Hdb in Hnew, Hdev. apply head_select_some in Hu as [Hin Hu]. split_bools.
  exists user, challenge, (wd_ticks w), proof, root, rs, dk, ds, row.
  rewrite Hd2, Hr2. split_and!; try done.
Qed.
End Challenges.

(** ** A worker logs in, a device is revoked and replaced *)

Module Logins.
Definition first_id : string := "dev_abcdefghijklmnopqrstuvwxyz".
Definition second_id : string := "dev_bcdefghijklmnopqrstuvwxyza".
Definition root : bytes := encode "root".
Definition first_key : bytes := encode "first".
Definition second_key : bytes := encode "second".
Definition worker_key : bytes := encode "worker".
Definition sealed (k : bytes) (id : string) : dict :=
  match issue_device_certificate (E := Signing.Toy.toy_env) root k (be_bytes 32 7) id "s1" 0 9000 with
  | Ok c => certificate_to_dict c
  | Raise _ => []
  end.
Definition first_certificate : dict := Eval vm_compute in sealed first_key first_id.
Definition second_certificate : dict := Eval vm_compute in sealed second_key second_id.

#[local] Instance reading_env : Env := {|
  clock n := seconds (Z.of_nat n);
  uuid n := pretty n;
  sha256_json v := "sha";
  version_lt _ _ := Some false;
  py_repr _ := "?";
  json_loads s := if String.eqb s "first" then JDoc (JObj first_certificate)
                  else if String.eqb s "second" then JDoc (JObj second_certificate) else JBad s;
  alnum_beyond_ascii _ := false;
  env_ed25519 := toy_ed25519
|}.

Definition key_text (k : bytes) : string := b64url_encode (ed_public k).
Definition owner : user_row := Mk_user_row "usr_1" "Owner" (key_text root) "root-enc" UActive false 0 0.
Definition device (id name : string) (k : bytes) : device_row :=
  Mk_device_row id "usr_1" name (key_text k) (b64url_encode (be_bytes 32 7)) (Some name) SActive 0 None None.
Definition worker : worker_row :=
  Mk_worker_row "wrk_1" "usr_1" None "Box" (key_text worker_key) "enc" (Some "{}") "comfyui" "0.3.40"
    (JDoc (JObj [])) 1 WActive 0 None None 0 0 None.
Definition start : world :=
  MkWorld (empty_db <| users := [owner] |> <| workers := [worker] |>
             <| devices := [device first_id "first" first_key; device second_id "second" second_key] |>) 0 0.

(** A challenge for the worker, its answer, and the answer again after a sweep. *)
Definition issued : world := Eval vm_compute in snd (create_challenge PWorker "wrk_1" 120 start).
Definition answer : string :=
  Eval vm_compute in
    match sign_message worker_key (encode (uuid 1)) SIGNATURE_CONTEXT with
    | Ok s => b64url_encode s
    | Raise _ => ""
    end.
Definition request : SessionRequest :=
  MkSessionRequest PWorker (Some "wrk_1") "ses_0" answer None None.
Definition logged_in : world := Eval vm_compute in snd (login request issued).
Definition token : string := "2".
Definition granted : session_row :=
  Eval vm_compute in
    Mk_session_row "ses_3" PWorker "wrk_1" (Some "usr_1") (sha256_hex token) WORKER_SCOPES
      (seconds 903) None (seconds 3) (Some (seconds 3)).

Lemma challenge_issued : create_challenge PWorker "wrk_1" 120 start = (Ok ("ses_0", "1"), issued).
Proof. vm_compute. reflexivity. Qed.
Lemma login_accepted : login request issued = (Ok (token, granted), logged_in).
Proof. vm_compute. reflexivity. Qed.
Lemma draws_distinct m n : uuid m = uuid n -> m = n.
Proof. apply (inj pretty). Qed.
Lemma swept : rtc auth_step logged_in (snd (sweep_expired logged_in)).
Proof. apply rtc_once, AuthSweep. Qed.

Lemma login_proves_key_witness :
  sessions (wd_db logged_in) = sessions (wd_db issued) ++ [granted] /\
  ss_principal_id granted = "wrk_1".
Proof.
  destruct (login_proves_key request token granted issued logged_in login_accepted)
    as (pid & sub & v & n & pk & sg & _ & _ & _ & _ & _ & _ & _ & _ & Hs & _). split; [exact Hs|reflexivity].
Defined.

Lemma challenge_answers_once_witness :
  exists e w5, login request (snd (sweep_expired logged_in)) = (Raise e, w5).
Proof.
  exact (challenge_answers_once PWorker "wrk_1" 120 "ses_0" "1" start issued request (token, granted) issued
    logged_in request (snd (sweep_expired logged_in)) draws_distinct challenge_issued
    (rtc_refl auth_step issued) eq_refl login_accepted swept eq_refl eq_refl).
Defined.

(** The first device is revoked while the second has a session. *)
Definition second_session : session_row :=
  Eval vm_compute in
    Mk_session_row "ses_9" PDevice second_id (Some "usr_1") (sha256_hex "tok") (JDoc (JList [JStr "*"]))
      (seconds 900) None 0 None.
Definition two_devices : world :=
  Eval vm_compute in MkWorld ((wd_db start) <| sessions := [second_session] |>) 0 0.

(** The second device posts a task; the sweep runs while the body arrives. *)
Definition second_key_id : string :=
  Eval vm_compute in match device_key_id (ed_public second_key) with Ok k => k | Raise _ => "" end.
Definition task_headers : list (string * string) :=
  Eval vm_compute in
    match sign_http_request second_key "POST" "/api/v1/tasks?x=1" (encode "{}") second_key_id 1
            "0123456789abcdef" with
    | Ok h => to_headers h
    | Raise _ => []
    end.
Definition sweeping : M unit := _ ← sweep_expired; mret tt.
Definition after_post : world :=
  Eval vm_compute in
    snd (authenticate true sweeping "tok" "POST" "/api/v1/tasks" "x=1" (encode "{}") task_headers two_devices).
Definition second_principal : Principal :=
  MkPrincipal PDevice second_id (Some "usr_1") (JList [JStr "*"]) "ses_9".
Lemma post_accepted :
  authenticate true sweeping "tok" "POST" "/api/v1/tasks" "x=1" (encode "{}") task_headers two_devices =
  (Ok second_principal, after_post).
Proof. vm_compute. reflexivity. Qed.

Lemma authenticated_request_is_live_witness :
  exists s subject, In s (sessions (wd_db two_devices)) /\
    request_signed (subject_key subject) "POST" (request_target "/api/v1/tasks" "x=1") (encode "{}").
Proof.
  destruct (authenticated_request_is_live true sweeping "tok" "POST" "/api/v1/tasks" "x=1" (encode "{}")
    task_headers two_devices second_principal after_post post_accepted)
    as (s & subject & w1 & Hs & _ & _ & _ & _ & _ & _ & _ & _ & _ & _ & Hsig).
  exists s, subject. exact (conj Hs (Hsig eq_refl eq_refl)).
Defined.

Definition revoked : world := Eval vm_compute in snd (revoke_device first_id "usr_1" two_devices).
Definition after_read : world :=
  Eval vm_compute in snd (current_principal true None "tok" "GET" "/api/v1/tasks" [] [] revoked).
Definition revoked_at : Z :=
  Eval vm_compute in match fst (revoke_device first_id "usr_1" two_devices) with Ok n => n | Raise _ => 0 end.

Lemma first_revoked : revoke_device first_id "usr_1" two_devices = (Ok revoked_at, revoked).
Proof. vm_compute. reflexivity. Qed.
Lemma second_read :
  current_principal true None "tok" "GET" "/api/v1/tasks" [] [] revoked = (Ok second_principal, after_read).
Proof. vm_compute. reflexivity. Qed.

Lemma revoked_device_locked_out_witness : pr_principal_id second_principal <> first_id.
Proof.
  exact (revoked_device_locked_out first_id "usr_1" two_devices revoked_at revoked revoked true None "tok"
    "GET" "/api/v1/tasks" [] [] second_principal after_read first_revoked eq_refl second_read eq_refl).
Defined.

(** A third device is recovered under the root key. *)
Definition third_id : string := "dev_cdefghijklmnopqrstuvwxyzab".
Definition third_key : bytes := encode "third".
Definition third_certificate : dict := Eval vm_compute in sealed third_key third_id.
Definition recovering : world :=
  Eval vm_compute in snd (device_recovery_challenge (key_text root) third_id start).
Definition unsigned : Recovery :=
  MkRecovery "ses_0" (key_text root) "root-enc" third_id "Spare" (key_text third_key)
    (b64url_encode (be_bytes 32 7)) third_certificate "" "".
Definition signed_by (k : bytes) (context : string) : string :=
  match (proof ← canonical_json (JObj (recovery_proof unsigned "1")); sign_message k proof (encode context)) with
  | Ok s => b64url_encode s
  | Raise _ => ""
  end.
Definition recovery : Recovery :=
  Eval vm_compute in
    MkRecovery "ses_0" (key_text root) "root-enc" third_id "Spare" (key_text third_key)
      (b64url_encode (be_bytes 32 7)) third_certificate
      (signed_by root "vgen-device-recovery-root-v1")
      (signed_by third_key "vgen-device-recovery-device-v1").
Definition recovered : world := Eval vm_compute in snd (complete_device_recovery recovery recovering).
Definition third_session : session_row :=
  Eval vm_compute in
    match fst (complete_device_recovery recovery recovering) with
    | Ok (_, s) => s
    | Raise _ => second_session
    end.
Lemma recovery_accepted :
  complete_device_recovery recovery recovering = (Ok ("2", third_session), recovered).
Proof. vm_compute. reflexivity. Qed.

Lemma recovery_needs_root_signature_witness :
  exists user row, In user (users (wd_db recovering)) /\
    devices (wd_db recovered) = devices (wd_db recovering) ++ [row] /\ dv_user_id row = u_id user.
Proof.
  destruct (recovery_needs_root_signature recovery "2" third_session recovering recovered recovery_accepted)
    as (user & ch & n & proof & r & rs & dk & ds & row & Hu & _ & _ & _ & _ & _ & _ & _ & _ & _ & _ & _ &
        Hd & _ & Hi & _).
  exists user, row. exact (conj Hu (conj Hd Hi)).
Defined.
End Logins.
