(* ===== verification/Enrollment.v ===== *)
(** * Invitations and enrollments ([gateway/repository.py], [protocol/user_enrollment.py])

    How users, devices, services and members join: an invite with a secret, its
    claim, the owner's decision, the relationship an enrollment activates and its
    revocation.  An applicant without an invite asks by [apply]. *)

From S2P Require Import Prelude Python Bytes Errors Schema Store Access Capability Encoding Signing.
From S2P Require Import Grants Maintenance Requests Sessions.

Open Scope Z_scope.

(** ** Constraints of the tables *)

Definition users_ok (d : db) (r : user_row) : bool :=
  negb (has_key u_id (users d) (u_id r)) &&
  negb (has_key u_root_signing_public_key (users d) (u_root_signing_public_key r)).

Definition services_ok (d : db) (r : service_row) : bool :=
  negb (has_key sv_id (services d) (sv_id r)) &&
  negb (has_key sv_signing_public_key (services d) (sv_signing_public_key r)) &&
  has_key ws_id (workspaces d) (sv_workspace_id r) &&
  has_key_opt u_id (users d) (sv_created_by_user_id r).

Definition member_key (m : membership_row) : string * string := (mb_workspace_id m, mb_user_id m).

Definition memberships_ok (d : db) (r : membership_row) : bool :=
  negb (has_key member_key (memberships d) (member_key r)) &&
  has_key ws_id (workspaces d) (mb_workspace_id r) && has_key u_id (users d) (mb_user_id r).

Definition enrollments_ok (d : db) (r : enrollment_row) : bool :=
  negb (has_key en_id (enrollments d) (en_id r)) &&
  has_key_opt ws_id (workspaces d) (en_workspace_id r) &&
  has_key_opt po_id (pools d) (en_pool_id r) &&
  has_key_opt u_id (users d) (en_issuer_user_id r) &&
  has_key_opt u_id (users d) (en_subject_user_id r) &&
  has_key_opt u_id (users d) (en_decided_by_user_id r).

(** ** The claim of a joining user *)

Definition USER_ENROLLMENT_CONTEXT : bytes := encode "vgen-user-enrollment-v1".
Definition USER_CLAIM_KIND : string := "vgen-user-enrollment-claim".
Definition _CLAIM_FIELDS : list string :=
  ["version"; "kind"; "invite_id"; "display_name"; "root_key_id"; "root_signing_public_key";
   "root_encryption_public_key"; "device_id"; "device_name"; "device_signing_public_key";
   "device_encryption_public_key"; "device_certificate"].

Definition nonblank (s : string) : bool := existsb (fun c => negb (is_space c)) (chars s).

(** [json.loads(t or fallback)]. *)
Definition loads_or (fallback : json) (t : jtext) : res json :=
  match json_loads_or fallback t with Some v => Ok v | None => Raise JSONDecodeError end.

Section Enrollment.
Context {E : Env}.

(** [isinstance(v, str) and bool(v)]; a name is not blank and at most 120 characters. *)
Definition claim_text (v : json) : bool :=
  match v with JStr s => negb (String.eqb s "") | _ => false end.
Definition claim_name (v : json) : bool :=
  match v with JStr s => nonblank s && (str_chars s <=? 120) | _ => false end.

(** The body of the [try]; [current] is the clock when the certificate's period counts
    ([require_certificate_time_valid]). *)
Definition check_user_claim (claim : dict) (proof_signature : string) (current : option Z) : res bool :=
  if negb (same_keys claim _CLAIM_FIELDS) then Ok false
  else
    let item k := jget_or k JNull claim in
    root_signing ← b64url_decode (py_str (item "root_signing_public_key")) (Some 32);
    _ ← b64url_decode (py_str (item "root_encryption_public_key")) (Some 32);
    device_signing ← b64url_decode (py_str (item "device_signing_public_key")) (Some 32);
    _ ← b64url_decode (py_str (item "device_encryption_public_key")) (Some 32);
    match item "device_certificate" with
    | JObj certificate =>
        root_key_id ← root_signing_key_id root_signing;
        match jget_or "payload" JNull certificate with
        | JObj payload =>
            if negb (json_eqb (item "version") (JInt 1) && json_is (item "kind") USER_CLAIM_KIND &&
                     claim_text (item "invite_id") && claim_name (item "display_name") &&
                     claim_text (item "device_id") && claim_name (item "device_name") &&
                     json_is (item "root_key_id") root_key_id &&
                     json_eqb (jget_or "root_key_id" JNull payload) (item "root_key_id") &&
                     json_eqb (jget_or "device_id" JNull payload) (item "device_id") &&
                     json_eqb (jget_or "signing_public_key" JNull payload)
                       (item "device_signing_public_key") &&
                     json_eqb (jget_or "encryption_public_key" JNull payload)
                       (item "device_encryption_public_key")) then Ok false
            else
              cert ← certificate_from_dict certificate;
              certified ← (match current with
                           | Some t => verify_device_certificate cert root_signing t
                           | None => certificate_signed cert root_signing
                           end);
              if negb certified then Ok false
              else
                text ← canonical_json (JObj claim);
                signature ← b64url_decode proof_signature (Some 64);
                verify_message device_signing text signature USER_ENROLLMENT_CONTEXT
        | _ => Ok false
        end
    | _ => Ok false
    end.

Definition verify_user_registration_claim (claim : dict) (proof_signature : string) (current : option Z)
    : res bool :=
  match check_user_claim claim proof_signature current with
  | Raise (KeyError | TypeError | ValueError) => Ok false
  | r => r
  end.

(** [s.strip()]. *)
Definition strip_space (s : string) : string := text (rev (drop_spaces (rev (drop_spaces (chars s))))).

Definition build_user_registration_claim (invite_id display_name root_key_id root_signing_public_key
    root_encryption_public_key device_id device_name device_signing_public_key
    device_encryption_public_key : string) (device_certificate : dict) : dict :=
  [("version", JInt 1); ("kind", JStr USER_CLAIM_KIND); ("invite_id", JStr invite_id);
   ("display_name", JStr (strip_space display_name)); ("root_key_id", JStr root_key_id);
   ("root_signing_public_key", JStr root_signing_public_key);
   ("root_encryption_public_key", JStr root_encryption_public_key); ("device_id", JStr device_id);
   ("device_name", JStr (strip_space device_name));
   ("device_signing_public_key", JStr device_signing_public_key);
   ("device_encryption_public_key", JStr device_encryption_public_key);
   ("device_certificate", JObj device_certificate)].

Definition sign_user_registration_claim (signing_private_key : bytes) (claim : dict) : res string :=
  text ← canonical_json (JObj claim);
  signature ← sign_message signing_private_key text USER_ENROLLMENT_CONTEXT;
  Ok (b64url_encode signature).

(** The claim of [claim_invite] and [apply] names the authenticated user and device. *)
Definition claim_matches (claim : dict) (proof_signature application_id : string) (user : user_row)
    (device : option device_row) (current : Z) : res bool :=
  let item k := jget_or k JNull claim in
  match device with
  | None => Ok false
  | Some device =>
      if negb (json_is (item "invite_id") application_id &&
               json_is (item "root_signing_public_key") (u_root_signing_public_key user) &&
               json_is (item "root_encryption_public_key") (u_root_encryption_public_key user) &&
               json_is (item "device_id") (dv_id device) &&
               json_is (item "device_signing_public_key") (dv_signing_public_key device) &&
               json_is (item "device_encryption_public_key") (dv_encryption_public_key device))
      then Ok false
      else
        given ← canonical_json (jget_or "device_certificate" (JObj []) claim);
        stored ← (match dv_certificate device with
                  | None => Raise TypeError
                  | Some t => load_json (json_loads t)
                  end);
        stored ← canonical_json stored;
        if negb (given =d stored) then Ok false
        else verify_user_registration_claim claim proof_signature (Some current)
  end.

Definition own_device (d : db) (device_id user_id : string) : option device_row :=
  head (select (fun v => (dv_id v =d device_id) && (dv_user_id v =d user_id) && (dv_status v =d SActive))
          (devices d)).

Definition registration_record (claim : dict) (proof_signature : string) : dict :=
  [("registration_claim", JObj claim); ("proof_signature", JStr proof_signature)].

(** [canonical_json(json.loads(row["claim"] or "null")) == record], false on an error. *)
Definition same_record (row : enrollment_row) (record : bytes) : bool :=
  match match en_claim row with
        | None => Some JNull
        | Some t => json_loads_or JNull t
        end with
  | None => false
  | Some v => match canonical_json v with Ok stored => stored =d record | Raise _ => false end
  end.

(** ** Views *)

Record enrollment_view := MkEnrollment {
  ev_row : enrollment_row;
  ev_scopes : json;
  ev_claim : option json;
  ev_proof_signature : option json
}.

(** The stored record is shown as the claim and its proof; the verifier of the secret
    never is. *)
Definition enrollment (enrollment_id : string) : M enrollment_view :=
  row ← query (fun d => find_by en_id enrollment_id (enrollments d));
  row ← require row (repo_err (ErrorCode.to_int ErrorCode.ENROLLMENT_NOT_FOUND) "ENROLLMENT_NOT_FOUND"
                       "Enrollment not found." 404);
  scopes ← lift_res (load_json (en_scopes row));
  claim ← lift_res (match en_claim row with
                    | None => Ok None
                    | Some t => v ← load_json t; Ok (Some v)
                    end);
  let '(shown, proof) :=
    match en_kind row, claim with
    | (EkUser | EkWorkspaceMember), Some (JObj record) =>
        match jget "registration_claim" record with
        | Some (JObj c) => (Some (JObj c), Some (jget_or "proof_signature" JNull record))
        | _ => (claim, None)
        end
    | _, _ => (claim, None)
    end in
  mret (MkEnrollment (row <| en_invite_secret_hash := None |>) scopes shown proof).

(** ** Invites *)

Definition SERVICE_SCOPES : list string := ["task:submit"; "task:read"; "task:cancel"; "usage:read"].

Definition is_member_kind (k : enroll_kind) : bool := (k =d EkUser) || (k =d EkWorkspaceMember).

Definition create_invite (issuer_user_id : string) (workspace_id pool_id : option string)
    (kind : enroll_kind) (method : enroll_method) (scopes : list string) (relationship : option string)
    (subject_key_fingerprint : option string) (ttl_seconds : Z) : M (enrollment_view * string) :=
  _ ← (match truthy_id workspace_id with
       | Some ws =>
           if is_member_kind kind || (kind =d EkService)
           then _ ← require_owner ws (Some issuer_user_id); mret tt
           else _ ← require_admin ws (Some issuer_user_id); mret tt
       | None => _ ← require_user (Some issuer_user_id); mret tt
       end : M unit);
  _ ← check (negb (method =d EmApplyApproval))
        (repo_err VALIDATION_FAILED "INVALID_ENROLLMENT_METHOD"
           "Invite method must be direct_invite or invite_approval." 422);
  _ ← check (negb (kind =d EkWorkerAllocation))
        (repo_err_full (ErrorCode.to_int ErrorCode.ENROLLMENT_CLOSED) "ENROLLMENT_CLOSED"
           "Worker allocation uses owner offer and signed Workspace approval, not Invite claim." 403
           "never" "none" (Some [("reason", JStr "worker_allocation_requires_offer")]));
  _ ← check (negb (kind =d EkWorker))
        (repo_err VALIDATION_FAILED "INVALID_ENROLLMENT_KIND" "Unsupported Invite kind." 422);
  _ ← (if kind =d EkService then
         check (negb (forallb (fun _ => false) scopes) && forallb (fun s => s ∈? SERVICE_SCOPES) scopes)
           (repo_err_full VALIDATION_FAILED "INVALID_SERVICE_SCOPES"
              "A Service invite requires one or more supported least-privilege scopes." 422 "never" "none"
              (Some [("allowed_scopes", JList [JStr "task:cancel"; JStr "task:read"; JStr "task:submit";
                                               JStr "usage:read"])]))
       else
         check (match scopes with [] => true | _ => false end)
           (repo_err VALIDATION_FAILED "SCOPES_NOT_ALLOWED" "Only a Service invite may grant scopes." 422)
       : M unit);
  _ ← (if is_member_kind kind then
         check ((relationship =d None) || (relationship =d Some "admin") || (relationship =d Some "member"))
           (repo_err VALIDATION_FAILED "INVALID_MEMBERSHIP_RELATIONSHIP"
              "Membership relationship must be admin or member." 422)
       else
         check (relationship =d None)
           (repo_err VALIDATION_FAILED "RELATIONSHIP_NOT_ALLOWED"
              "This Invite kind does not accept a relationship." 422) : M unit);
  _ ← (match truthy_id pool_id with
       | None => mret tt
       | Some pool =>
           found ← query (fun d => existsb (fun p => (po_id p =d pool) &&
                                                     (Some (po_workspace_id p) =d workspace_id)) (pools d));
           check found (repo_err POOL_NOT_FOUND "POOL_NOT_FOUND" "Pool not found." 404)
       end : M unit);
  invite_id ← new_id "inv";
  secret ← token_urlsafe;
  stamp ← now;
  _ ← sql_insert enrollments enrollments_ok
        (Mk_enrollment_row invite_id kind method EsIssued workspace_id pool_id (Some issuer_user_id) None
           None subject_key_fingerprint (JDoc (JList (map JStr scopes))) relationship
           (Some (sha256_hex secret)) None (Some (stamp + seconds ttl_seconds)) None None None stamp stamp);
  view ← enrollment invite_id;
  mret (view, secret).

(** [row["state"] == "issued" and row["expires_at"] > stamp]. *)
Definition issued_open (row : enrollment_row) (stamp : Z) : bool :=
  (en_state row =d EsIssued) && match en_expires_at row with Some e => stamp <? e | None => false end.

Definition secret_matches (row : enrollment_row) (secret : string) : bool :=
  match en_invite_secret_hash row with Some h => String.eqb h (sha256_hex secret) | None => false end.

(** The invite names no key, or this one. *)
Definition fingerprint_allows (row : enrollment_row) (fingerprint : string) : bool :=
  match truthy_id (en_subject_key_fingerprint row) with
  | None => true
  | Some f => String.eqb f fingerprint
  end.

Definition invite_invalid (message : string) (status : Z) : exc :=
  repo_err (ErrorCode.to_int ErrorCode.INVITE_INVALID_OR_EXPIRED) "INVITE_INVALID_OR_EXPIRED" message status.

Definition claimed_state (row : enrollment_row) : enroll_state :=
  if en_method row =d EmDirectInvite then EsActive else EsPending.

(** ** Activation *)

Definition member_role_of (relationship : option string) : member_role :=
  if relationship =d Some "admin" then RoleAdmin else RoleMember.

(** [INSERT .. ON CONFLICT(workspace_id, user_id) DO UPDATE SET role, status, revoked_at]. *)
Definition upsert_membership (workspace_id user_id : string) (role : member_role) (stamp : Z) : M unit :=
  existing ← query (fun d => has_key member_key (memberships d) (workspace_id, user_id));
  if existing : bool then
    _ ← sql_update memberships (fun m => member_key m =d (workspace_id, user_id))
          (fun m => m <| mb_role := role |> <| mb_status := SActive |> <| mb_revoked_at := None |>);
    mret tt
  else sql_insert memberships memberships_ok (Mk_membership_row workspace_id user_id role SActive stamp None).

Definition text_item (k : string) (d : dict) : res string :=
  v ← jitem k d; match v with JStr s => Ok s | _ => Raise TypeError end.

Definition _activate_enrollment (row : enrollment_row) (subject_user_id subject_id : option string)
    (approver_id : option string) (stamp : Z) : M unit :=
  match en_kind row, truthy_id (en_workspace_id row), truthy_id subject_user_id, truthy_id subject_id with
  | (EkUser | EkWorkspaceMember), Some ws, Some user, _ =>
      upsert_membership ws user (member_role_of (en_relationship row)) stamp
  | EkBrokerDevice, _, Some user, Some device =>
      claim ← lift_res (match en_claim row with
                        | None => Ok (JObj [])
                        | Some t => loads_or (JObj []) t
                        end);
      claim ← lift_res (match claim with JObj c => Ok c | _ => Raise TypeError end);
      name ← lift_res (text_item "device_name" claim);
      signing ← lift_res (text_item "device_signing_public_key" claim);
      encryption ← lift_res (text_item "device_encryption_public_key" claim);
      certificate ← lift_res (jitem "device_certificate" claim);
      sql_insert devices devices_ok
        (Mk_device_row device user name signing encryption (Some (json_text certificate)) SActive stamp
           (Some stamp) None)
  | EkWorkerAllocation, _, _, Some worker =>
      match truthy_id (en_pool_id row) with
      | None => mret tt
      | Some pool =>
          allocation ← query (fun d => head (select (fun a => (al_worker_id a =d worker) &&
                                                              (al_pool_id a =d pool)) (worker_allocations d)));
          match allocation with
          | None => mret tt
          | Some a =>
              _ ← sql_update worker_allocations (fun x => al_id x =d al_id a)
                    (fun x => x <| al_workspace_approved_at := Some stamp |>
                                <| al_approved_by_user_id := approver_id |>
                                <| al_status := AlActive |> <| al_updated_at := stamp |>);
              mret tt
          end
      end
  | EkService, _, _, Some service =>
      _ ← sql_update services (fun s => (sv_id s =d service) && (sv_status s =d SvPending))
            (fun s => s <| sv_status := SvActive |> <| sv_updated_at := stamp |>);
      mret tt
  | _, _, _, _ => mret tt
  end.

(** ** Claims *)

(** The columns a first claim of an invite sets. *)
Definition claim_enrollment (invite_id : string) (state : enroll_state) (subject_user : option string)
    (subject : string) (claim : json) (stamp : Z) : M unit :=
  _ ← sql_update enrollments (fun e => en_id e =d invite_id)
        (fun e => e <| en_state := state |> <| en_subject_user_id := subject_user |>
                    <| en_subject_id := Some subject |> <| en_claim := Some (JDoc claim) |>
                    <| en_claimed_at := Some stamp |> <| en_updated_at := stamp |>);
  mret tt.

Definition claim_invite (invite_id secret subject_user_id subject_device_id subject_key_fingerprint : string)
    (claim : dict) (proof_signature : string) : M enrollment_view :=
  user ← require_user (Some subject_user_id);
  device ← query (fun d => own_device d subject_device_id subject_user_id);
  current ← now;
  matches ← lift_res (claim_matches claim proof_signature invite_id user device (current / 1000000));
  _ ← check matches (repo_err (ErrorCode.to_int ErrorCode.SIGNATURE_INVALID) "SIGNATURE_INVALID"
        "The Workspace member claim does not match the authenticated User and Device." 401);
  record_bytes ← lift_res (canonical_json (JObj (registration_record claim proof_signature)));
  stamp ← now;
  _ ← transaction (
    row ← query (fun d => find_by en_id invite_id (enrollments d));
    row ← require row (invite_invalid "The invite is invalid, expired, or already used." 410);
    _ ← check ((en_kind row =d EkWorkspaceMember) && secret_matches row secret &&
               fingerprint_allows row subject_key_fingerprint)
          (invite_invalid "The invite is invalid, expired, or already used." 410);
    if (en_state row =d EsPending) || (en_state row =d EsActive) then
      check (same_record row record_bytes && (en_subject_user_id row =d Some subject_user_id) &&
             (en_subject_id row =d Some subject_device_id))
        (repo_err IDEMPOTENCY_CONFLICT "IDEMPOTENCY_CONFLICT"
           "The Workspace Invite was already claimed with different identity material." 409)
    else
      _ ← check (issued_open row stamp) (invite_invalid "The invite is invalid, expired, or already used." 410);
      _ ← claim_enrollment invite_id (claimed_state row) (Some subject_user_id) subject_device_id
            (JObj (registration_record claim proof_signature)) stamp;
      if claimed_state row =d EsActive then
        _activate_enrollment row (Some subject_user_id) (Some subject_device_id) (en_issuer_user_id row) stamp
      else mret tt);
  enrollment invite_id.

(** ** New users *)

Definition str_or_empty (o : option string) : string := default "" o.

(** The rows a repeated claim of a user invite must still find. *)
Definition replayed_user (d : db) (invite : enrollment_row) (claim : dict) : res (option user_row) :=
  let user_id := str_or_empty (en_subject_user_id invite) in
  let stored_device_id := str_or_empty (en_subject_id invite) in
  let item k := jget_or k JNull claim in
  match active_user d user_id, own_device d stored_device_id user_id with
  | Some user, Some device =>
      if negb (json_is (item "device_id") stored_device_id &&
               json_is (item "display_name") (u_display_name user) &&
               json_is (item "root_signing_public_key") (u_root_signing_public_key user) &&
               json_is (item "root_encryption_public_key") (u_root_encryption_public_key user) &&
               json_is (item "device_name") (dv_name device) &&
               json_is (item "device_signing_public_key") (dv_signing_public_key device) &&
               json_is (item "device_encryption_public_key") (dv_encryption_public_key device))
      then Ok None
      else
        stored ← (match dv_certificate device with
                  | None => Raise TypeError
                  | Some t => load_json (json_loads t)
                  end);
        stored ← canonical_json stored;
        given ← canonical_json (item "device_certificate");
        Ok (if stored =d given then Some user else None)
  | _, _ => Ok None
  end.

(** The insertions of a first claim; the wire model types the claim's texts. *)
Definition register_user (invite : enrollment_row) (claim : dict) (proof_signature : string) (stamp : Z)
    : M string :=
  device_signing ← lift_res (text_item "device_signing_public_key" claim);
  _ ← check (fingerprint_allows invite (sha256_hex device_signing))
        (invite_invalid "The invite is not valid for this device key." 403);
  display_name ← lift_res (text_item "display_name" claim);
  root_signing ← lift_res (text_item "root_signing_public_key" claim);
  root_encryption ← lift_res (text_item "root_encryption_public_key" claim);
  device_id ← lift_res (text_item "device_id" claim);
  device_name ← lift_res (text_item "device_name" claim);
  device_encryption ← lift_res (text_item "device_encryption_public_key" claim);
  certificate ← lift_res (jitem "device_certificate" claim);
  user_id ← new_id "usr";
  _ ← sql_insert users users_ok
        (Mk_user_row user_id display_name root_signing root_encryption UActive false stamp stamp);
  _ ← sql_insert devices devices_ok
        (Mk_device_row device_id user_id device_name device_signing device_encryption
           (Some (json_text certificate)) SActive stamp (Some stamp) None);
  _ ← claim_enrollment (en_id invite) (claimed_state invite) (Some user_id) device_id
        (JObj (registration_record claim proof_signature)) stamp;
  _ ← (match claimed_state invite, truthy_id (en_workspace_id invite) with
       | EsActive, Some ws =>
           sql_insert memberships memberships_ok
             (Mk_membership_row ws user_id (member_role_of (en_relationship invite)) SActive stamp None)
       | _, _ => mret tt
       end : M unit);
  mret user_id.

Definition enroll_user (invite_id secret : string) (claim : dict) (proof_signature : string)
    : M (user_row * device_row * enrollment_view) :=
  current ← now;
  verified ← lift_res (if json_is (jget_or "invite_id" JNull claim) invite_id
                       then verify_user_registration_claim claim proof_signature (Some (current / 1000000))
                       else Ok false);
  _ ← check verified (repo_err (ErrorCode.to_int ErrorCode.SIGNATURE_INVALID) "SIGNATURE_INVALID"
        "The User enrollment claim or Device proof is invalid." 401);
  record_bytes ← lift_res (canonical_json (JObj (registration_record claim proof_signature)));
  stamp ← now;
  user_id ← transaction (
    invite ← query (fun d => find_by en_id invite_id (enrollments d));
    invite ← require invite (invite_invalid "The invite is invalid, expired, or already used." 410);
    _ ← check ((en_kind invite =d EkUser) && secret_matches invite secret)
          (invite_invalid "The invite is invalid, expired, or already used." 410);
    if (en_state invite =d EsPending) || (en_state invite =d EsActive) then
      _ ← check (same_record invite record_bytes)
            (repo_err IDEMPOTENCY_CONFLICT "IDEMPOTENCY_CONFLICT"
               "The User invite was already claimed with different identity material." 409);
      found ← query (fun d => replayed_user d invite claim);
      found ← lift_res found;
      user ← require found (repo_err VALIDATION_FAILED "USER_ENROLLMENT_RECORD_INVALID"
               "The User enrollment record is invalid." 409);
      mret (u_id user)
    else
      _ ← check (issued_open invite stamp)
            (invite_invalid "The invite is invalid, expired, or already used." 410);
      register_user invite claim proof_signature stamp);
  device_id ← lift_res (text_item "device_id" claim);
  user ← query (fun d => find_by u_id user_id (users d));
  user ← require user TypeError;
  device ← query (fun d => find_by dv_id device_id (devices d));
  device ← require device TypeError;
  view ← enrollment invite_id;
  mret (user, device, view).

(** ** New devices *)

Definition device_claim (device_id name signing encryption : string) (certificate : dict) : dict :=
  [("device_id", JStr device_id); ("device_name", JStr name);
   ("device_signing_public_key", JStr signing); ("device_encryption_public_key", JStr encryption);
   ("device_certificate", JObj certificate)].

(** The device of an invite that awaits approval is shown but not stored. *)
Definition enroll_device (invite_id secret root_signing_public_key root_encryption_public_key device_id
    device_name device_signing_public_key device_encryption_public_key : string)
    (device_certificate : dict) : M (user_row * option device_row * enrollment_view) :=
  stamp ← now;
  claimed ← transaction (
    invite ← query (fun d => find_by en_id invite_id (enrollments d));
    invite ← require invite (invite_invalid "The invite is invalid or expired." 410);
    _ ← check ((en_kind invite =d EkBrokerDevice) && issued_open invite stamp)
          (invite_invalid "The invite is invalid or expired." 410);
    hash ← require (en_invite_secret_hash invite) TypeError;
    _ ← check (String.eqb hash (sha256_hex secret))
          (invite_invalid "The invite is invalid or expired." 410);
    user ← query (fun d => head (select (fun u =>
             (u_root_signing_public_key u =d root_signing_public_key) &&
             (u_root_encryption_public_key u =d root_encryption_public_key) &&
             (u_status u =d UActive)) (users d)));
    user ← require user (repo_err FORBIDDEN "USER_IDENTITY_NOT_FOUND"
             "No active user owns this root key." 403);
    _ ← check (fingerprint_allows invite (sha256_hex device_signing_public_key))
          (invite_invalid "Invite key binding does not match." 403);
    _ ← (if claimed_state invite =d EsActive then
           sql_insert devices devices_ok
             (Mk_device_row device_id (u_id user) device_name device_signing_public_key
                device_encryption_public_key (Some (json_text (JObj device_certificate))) SActive stamp
                (Some stamp) None)
         else mret tt : M unit);
    _ ← claim_enrollment invite_id (claimed_state invite) (Some (u_id user)) device_id
          (JObj (device_claim device_id device_name device_signing_public_key device_encryption_public_key
                   device_certificate)) stamp;
    mret (u_id user, claimed_state invite));
  device ← query (fun d => if claimed.2 =d EsActive then find_by dv_id device_id (devices d) else None);
  user ← query (fun d => find_by u_id claimed.1 (users d));
  user ← require user TypeError;
  view ← enrollment invite_id;
  mret (user, device, view).

(** ** New services *)

(** [set(scopes) <= SERVICE_SCOPES]. *)
Definition scopes_allowed (scopes : json) : res bool :=
  items ← json_iter scopes;
  Ok (negb (forallb (fun _ => false) items) && forallb (fun v => json_in v SERVICE_SCOPES) items).

Definition service_state (s : enroll_state) : service_status :=
  if s =d EsActive then SvActive else SvPending.

Definition enroll_service (invite_id secret name signing_public_key encryption_public_key : string)
    : M (service_row * enrollment_view) :=
  stamp ← now;
  service_id ← transaction (
    invite ← query (fun d => find_by en_id invite_id (enrollments d));
    invite ← require invite
      (invite_invalid "The Service invite is invalid, expired, or already used." 410);
    workspace ← require (if (en_kind invite =d EkService) && issued_open invite stamp &&
                            secret_matches invite secret &&
                            fingerprint_allows invite (sha256_hex signing_public_key)
                         then en_workspace_id invite else None)
      (invite_invalid "The Service invite is invalid, expired, or already used." 410);
    scopes ← lift_res (loads_or (JList []) (en_scopes invite));
    allowed ← lift_res (scopes_allowed scopes);
    _ ← check allowed (repo_err VALIDATION_FAILED "INVALID_SERVICE_SCOPES"
          "The Service invite contains invalid scopes." 422);
    service_id ← new_id "svc";
    _ ← sql_insert services services_ok
          (Mk_service_row service_id workspace name signing_public_key encryption_public_key (JDoc scopes)
             (service_state (claimed_state invite)) (en_issuer_user_id invite) stamp stamp None);
    _ ← sql_update enrollments (fun e => en_id e =d invite_id)
          (fun e => e <| en_state := claimed_state invite |> <| en_subject_id := Some service_id |>
                      <| en_claim := Some (JDoc (JObj
                           [("name", JStr name); ("signing_public_key", JStr signing_public_key);
                            ("encryption_public_key", JStr encryption_public_key)])) |>
                      <| en_claimed_at := Some stamp |> <| en_updated_at := stamp |>);
    mret service_id);
  service ← query (fun d => find_by sv_id service_id (services d));
  service ← require service TypeError;
  view ← enrollment invite_id;
  mret (service, view).

(** ** Applications *)

Definition kind_text (k : enroll_kind) : string :=
  match k with
  | EkUser => "user" | EkBrokerDevice => "broker_device" | EkWorker => "worker" | EkService => "service"
  | EkWorkspaceMember => "workspace_member" | EkWorkerAllocation => "worker_allocation"
  end.

Definition apply (subject_user_id subject_device_id application_id workspace_id : string)
    (pool_id : option string) (kind : enroll_kind) (claim : dict) (proof_signature : string)
    (relationship : option string) : M enrollment_view :=
  user ← require_user (Some subject_user_id);
  device ← query (fun d => own_device d subject_device_id subject_user_id);
  current ← now;
  valid ← lift_res (claim_matches claim proof_signature application_id user device (current / 1000000));
  _ ← check valid (repo_err (ErrorCode.to_int ErrorCode.SIGNATURE_INVALID) "SIGNATURE_INVALID"
        "The Workspace application identity claim is invalid." 401);
  workspace ← query (fun d => head (select (fun s => (ws_id s =d workspace_id) &&
                                                    (ws_status s =d SpActive)) (workspaces d)));
  workspace ← require workspace (repo_err WORKSPACE_NOT_FOUND "WORKSPACE_NOT_FOUND"
                "Workspace not found." 404);
  policy ← lift_res (loads_or (JObj []) (ws_enrollment_policy workspace));
  policy ← lift_res (as_dict policy);
  _ ← check (negb (json_is (jget_or (kind_text kind) (JStr "closed") policy) "closed"))
        (repo_err 240003 "ENROLLMENT_CLOSED" "Enrollment is closed for this subject type." 403);
  _ ← check (str_startswith "app_" application_id)
        (repo_err VALIDATION_FAILED "APPLICATION_ID_INVALID" "The Workspace application ID is invalid." 422);
  stamp ← now;
  _ ← sql_insert enrollments enrollments_ok
        (Mk_enrollment_row application_id kind EmApplyApproval EsPending (Some workspace_id) pool_id None
           (Some subject_user_id) (Some subject_device_id) None (JDoc (JList [])) relationship None
           (Some (JDoc (JObj (registration_record claim proof_signature)))) None None None None stamp stamp);
  enrollment application_id.

(** ** Decisions *)

Definition enrollment_missing : exc :=
  repo_err (ErrorCode.to_int ErrorCode.ENROLLMENT_NOT_FOUND) "ENROLLMENT_NOT_FOUND" "Enrollment not found." 404.

(** The role of an active member of the enrollment's workspace. *)
Definition decider_role (d : db) (workspace_id user_id : string) : option member_role :=
  match head (select (fun m => (mb_workspace_id m =d workspace_id) && (mb_user_id m =d user_id) &&
                               (mb_status m =d SActive)) (memberships d)) with
  | Some m => Some (mb_role m)
  | None => None
  end.

(** A recipient of the workspace key is decided by an owner. *)
Definition owner_only (k : enroll_kind) : bool := is_member_kind k || (k =d EkService).

Definition may_decide (k : enroll_kind) (role : option member_role) : bool :=
  match role with
  | None => false
  | Some r => (r =d RoleOwner) || (negb (owner_only k) && (r =d RoleAdmin))
  end.

Definition decide_enrollment (enrollment_id admin_user_id : string) (approve : bool) : M enrollment_view :=
  stamp ← now;
  _ ← transaction (
    row ← query (fun d => find_by en_id enrollment_id (enrollments d));
    row ← require row enrollment_missing;
    _ ← (match truthy_id (en_workspace_id row) with
         | Some ws =>
             role ← query (fun d => decider_role d ws admin_user_id);
             check (may_decide (en_kind row) role)
               (if owner_only (en_kind row)
                then repo_err FORBIDDEN "WORKSPACE_OWNER_REQUIRED"
                       "Workspace Owner access is required for recipient enrollment." 403
                else repo_err FORBIDDEN "WORKSPACE_ADMIN_REQUIRED" "Workspace admin access is required." 403)
         | None => _ ← require_user (Some admin_user_id); mret tt
         end : M unit);
    _ ← check (en_state row =d EsPending)
          (repo_err VALIDATION_FAILED "ENROLLMENT_STATE_CONFLICT" "Enrollment is not pending." 409);
    _ ← sql_update enrollments (fun e => en_id e =d enrollment_id)
          (fun e => e <| en_state := if approve then EsActive else EsRejected |>
                      <| en_decided_at := Some stamp |>
                      <| en_decided_by_user_id := Some admin_user_id |> <| en_updated_at := stamp |>);
    if approve then
      _activate_enrollment row (en_subject_user_id row) (en_subject_id row) (Some admin_user_id) stamp
    else mret tt);
  enrollment enrollment_id.

(** ** Revocation *)

Definition revoke_sessions (principal_type : principal) (principal_id : string) (stamp : Z) : M unit :=
  _ ← sql_update sessions (fun s => (ss_principal_type s =d principal_type) &&
                                    (ss_principal_id s =d principal_id) && (ss_revoked_at s =d None))
        (fun s => s <| ss_revoked_at := Some stamp |>);
  mret tt.

(** The relationship an active enrollment created, withdrawn. *)
Definition withdraw_enrollment (row : enrollment_row) (stamp : Z) : M unit :=
  match en_kind row, truthy_id (en_workspace_id row), truthy_id (en_subject_user_id row),
        truthy_id (en_subject_id row), truthy_id (en_pool_id row) with
  | (EkWorkspaceMember | EkUser), Some ws, Some user, _, _ =>
      _ ← sql_update memberships (fun m => (mb_workspace_id m =d ws) && (mb_user_id m =d user) &&
                                           negb (mb_role m =d RoleOwner))
            (fun m => m <| mb_status := SRevoked |> <| mb_revoked_at := Some stamp |>);
      mret tt
  | EkWorkerAllocation, _, _, Some worker, Some pool =>
      _ ← sql_update worker_allocations (fun a => (al_worker_id a =d worker) && (al_pool_id a =d pool))
            (fun a => a <| al_status := AlRevoked |> <| al_revoked_at := Some stamp |>
                        <| al_updated_at := stamp |>);
      mret tt
  | EkBrokerDevice, _, _, Some device, _ =>
      _ ← sql_update devices (fun v => dv_id v =d device)
            (fun v => v <| dv_status := SRevoked |> <| dv_revoked_at := Some stamp |>);
      revoke_sessions PDevice device stamp
  | EkService, _, _, Some service, _ =>
      _ ← sql_update services (fun s => sv_id s =d service)
            (fun s => s <| sv_status := SvRevoked |> <| sv_revoked_at := Some stamp |>
                        <| sv_updated_at := stamp |>);
      revoke_sessions PService service stamp
  | _, _, _, _, _ => mret tt
  end.

Definition revocable (s : enroll_state) : bool :=
  match s with EsIssued | EsClaimed | EsPending | EsActive => true | _ => false end.

Definition revoke_enrollment (enrollment_id admin_user_id : string) : M enrollment_view :=
  stamp ← now;
  _ ← transaction (
    row ← query (fun d => find_by en_id enrollment_id (enrollments d));
    row ← require row enrollment_missing;
    _ ← (match truthy_id (en_workspace_id row) with
         | Some ws =>
             role ← query (fun d => decider_role d ws admin_user_id);
             check (match role with Some r => is_admin_role r | None => false end)
               (repo_err FORBIDDEN "WORKSPACE_ADMIN_REQUIRED" "Workspace admin access is required." 403)
         | None => _ ← require_user (Some admin_user_id); mret tt
         end : M unit);
    if en_state row =d EsRevoked then mret tt
    else
      _ ← check (revocable (en_state row))
            (repo_err VALIDATION_FAILED "ENROLLMENT_STATE_CONFLICT"
               "This enrollment cannot be revoked from its current state." 409);
      _ ← (if en_state row =d EsActive then withdraw_enrollment row stamp else mret tt : M unit);
      _ ← sql_update enrollments (fun e => en_id e =d enrollment_id)
            (fun e => e <| en_state := EsRevoked |> <| en_decided_at := Some stamp |>
                        <| en_decided_by_user_id := Some admin_user_id |> <| en_updated_at := stamp |>);
      mret tt);
  enrollment enrollment_id.

(** ** Routes ([gateway/app.py]) *)

Definition enroll_user_route (invite_id secret : string) (claim : dict) (proof_signature : string)
    : M (user_row * device_row * enrollment_view) :=
  current ← now;
  verified ← lift_res (if json_is (jget_or "invite_id" JNull claim) invite_id
                       then verify_user_registration_claim claim proof_signature (Some (current / 1000000))
                       else Ok false);
  _ ← check verified (vgen_error ErrorCode.SIGNATURE_INVALID);
  enroll_user invite_id secret claim proof_signature.

Record DeviceEnrollmentRequest := MkDeviceEnrollment {
  de_invite_id : string;
  de_secret : string;
  de_root_signing_public_key : string;
  de_root_encryption_public_key : string;
  de_device_id : string;
  de_device_name : string;
  de_device_signing_public_key : option string;
  de_device_encryption_public_key : option string;
  de_device_certificate : dict;
  de_proof_signature : string
}.

(** [given or str(cert_payload.get(k, ""))]. *)
Definition key_or_certified (given : option string) (k : string) (certificate : dict) : res string :=
  payload ← as_dict (jget_or "payload" (JObj []) certificate);
  Ok (match truthy_id given with Some t => t | None => py_str (jget_or k (JStr "") payload) end).

Definition device_proof (q : DeviceEnrollmentRequest) : dict :=
  [("version", JInt 1); ("invite_id", JStr (de_invite_id q)); ("device_id", JStr (de_device_id q))].

(** [try: verify_message(..) except ValueError: raise VGenError(SIGNATURE_INVALID)]. *)
Definition verify_proof (key signature : string) (message : json) (context : string) : res bool :=
  let r :=
    pk ← b64url_decode key (Some 32);
    text ← canonical_json message;
    sig ← b64url_decode signature (Some 64);
    verify_message pk text sig (encode context) in
  match r with
  | Raise ValueError => Raise (vgen_error ErrorCode.SIGNATURE_INVALID)
  | r => r
  end.

Definition enroll_device_route (q : DeviceEnrollmentRequest)
    : M (user_row * option device_row * enrollment_view) :=
  signing ← lift_res (key_or_certified (de_device_signing_public_key q) "signing_public_key"
                        (de_device_certificate q));
  encryption ← lift_res (key_or_certified (de_device_encryption_public_key q) "encryption_public_key"
                           (de_device_certificate q));
  _ ← validate_device_chain (de_device_id q) (JObj (de_device_certificate q))
        (de_root_signing_public_key q) signing encryption;
  proof_ok ← lift_res (verify_proof signing (de_proof_signature q) (JObj (device_proof q))
                         "vgen-device-enrollment-v1");
  _ ← check proof_ok (vgen_error ErrorCode.SIGNATURE_INVALID);
  enroll_device (de_invite_id q) (de_secret q) (de_root_signing_public_key q)
    (de_root_encryption_public_key q) (de_device_id q) (de_device_name q) signing encryption
    (de_device_certificate q).

Definition service_claim (invite_id name signing_public_key encryption_public_key : string) : dict :=
  [("version", JInt 1); ("invite_id", JStr invite_id); ("name", JStr name);
   ("signing_public_key", JStr signing_public_key); ("encryption_public_key", JStr encryption_public_key)].

Definition enroll_service_route (invite_id secret name signing_public_key encryption_public_key
    proof_signature : string) : M (service_row * enrollment_view) :=
  _ ← lift_res (match b64url_decode encryption_public_key (Some 32) with
                | Raise ValueError => Raise (vgen_error ErrorCode.SIGNATURE_INVALID)
                | r => r
                end);
  proof_ok ← lift_res (verify_proof signing_public_key proof_signature
               (JObj (service_claim invite_id name signing_public_key encryption_public_key))
               "vgen-service-enrollment-v1");
  _ ← check proof_ok (vgen_error ErrorCode.SIGNATURE_INVALID);
  enroll_service invite_id secret name signing_public_key encryption_public_key.

(** [user_id] and [device_id] are those of the authenticated principal. *)
Definition claim_invite_route (user_id device_id invite_id secret : string) (claim : dict)
    (proof_signature : string) : M enrollment_view :=
  device ← query (fun d => live_subject d PDevice device_id);
  device ← require device (vgen_error ErrorCode.AUTHENTICATION_REQUIRED);
  current ← now;
  verified ← lift_res (if json_is (jget_or "invite_id" JNull claim) invite_id
                       then verify_user_registration_claim claim proof_signature (Some (current / 1000000))
                       else Ok false);
  _ ← check verified (vgen_error ErrorCode.SIGNATURE_INVALID);
  claim_invite invite_id secret user_id device_id (sha256_hex (subject_key device)) claim proof_signature.
End Enrollment.
