(* ===== verification/Envelope.v ===== *)
(** * Key envelopes ([crypto/envelope.py])

    The payload of a task is encrypted once under a random key; the key is wrapped for
    the assigned worker and every reader with HPKE in base mode, and for the workspace
    under its data key.  The file writes HPKE out (labels, key schedule, seal and open);
    the curve, the hash functions, the two AEADs and the random source are the parameters
    of [Sealing]. *)

From S2P Require Import Prelude Python Bytes Errors Schema Store Capability Encoding Signing.

Open Scope Z_scope.

(** ** Primitives of the [cryptography] package and of libsodium *)

Class Sealing := {
  x25519_public : bytes -> bytes;                       (* raw public key of a raw private key *)
  x25519_exchange : bytes -> bytes -> option bytes;      (* private, public; None: low order *)
  hmac_sha256 : bytes -> bytes -> bytes;                 (* key, message *)
  hkdf_expand : bytes -> bytes -> Z -> bytes;            (* pseudo-random key, info, length *)
  chacha_encrypt : bytes -> bytes -> bytes -> bytes -> bytes;        (* key, nonce, text, aad *)
  chacha_decrypt : bytes -> bytes -> bytes -> bytes -> option bytes;
  xchacha_encrypt : bytes -> bytes -> bytes -> bytes -> bytes;       (* text, aad, nonce, key *)
  xchacha_decrypt : bytes -> bytes -> bytes -> bytes -> option bytes;
  random_bytes : nat -> Z -> bytes                       (* draw, length *)
}.

(** What the primitives document: both sides of an exchange agree, outputs have their
    length, and authenticated decryption inverts encryption and accepts nothing else. *)
Class SealingLaws `{Sealing} := {
  exchange_agrees : forall a b, x25519_exchange a (x25519_public b) = x25519_exchange b (x25519_public a);
  public_size : forall a, blen (x25519_public a) = 32;
  expand_size : forall prk info n, 0 <= n -> blen (hkdf_expand prk info n) = n;
  random_size : forall k n, 0 <= n -> blen (random_bytes k n) = n;
  chacha_opens : forall k n c a p, chacha_decrypt k n c a = Some p <-> c = chacha_encrypt k n p a;
  xchacha_opens : forall c a n k p, xchacha_decrypt c a n k = Some p <-> c = xchacha_encrypt p a n k
}.

(** ** The random source as state *)

Definition Draw (A : Type) : Type := nat -> res A * nat.
#[export] Instance draw_ret : MRet Draw := fun A a n => (Ok a, n).
#[export] Instance draw_bind : MBind Draw := fun A B f m n =>
  match m n with (Ok a, n') => f a n' | (Raise e, n') => (Raise e, n') end.
Definition of_res {A} (r : res A) : Draw A := fun n => (r, n).

Definition TASK_DATA_KEY_BYTES : Z := 32.
Definition XCHACHA_NONCE_BYTES : Z := 24.
Definition PAYLOAD_ALGORITHM : string := "XChaCha20-Poly1305-IETF".
Definition HPKE_ALGORITHM : string := "HPKE-Base-X25519-HKDF-SHA256-ChaCha20Poly1305".
Definition _HPKE_VERSION : bytes := encode "HPKE-v1".
Definition _KEM_ID : Z := 32.
Definition _KDF_ID : Z := 1.
Definition _AEAD_ID : Z := 3.
Definition _NSECRET : Z := 32.
Definition _NK : Z := 32.
Definition _NN : Z := 12.
Definition _KEM_SUITE_ID : bytes := encode "KEM" ++ be_bytes 2 _KEM_ID.
Definition _HPKE_SUITE_ID : bytes :=
  encode "HPKE" ++ be_bytes 2 _KEM_ID ++ be_bytes 2 _KDF_ID ++ be_bytes 2 _AEAD_ID.
Definition _TASK_WRAP_INFO : bytes := encode "vgen-task-key-wrap-v1".
Definition _WORKSPACE_KEY_WRAP_INFO : bytes := encode "vgen-workspace-key-wrap-v1".
Definition _WORKSPACE_READER_AAD : bytes := encode "vgen-workspace-reader-envelope-v1".

(** [if len(value) != length: raise ValueError]. *)
Definition _require_bytes (value : bytes) (length : Z) : res unit :=
  if blen value =? length then Ok tt else Raise ValueError.

(** ** Envelopes as data *)

Record HpkeCiphertext := MkHpke { hc_encapsulated_key : bytes; hc_ciphertext : bytes }.

(** The field [algorithm]: [__post_init__] admits one value. *)
Definition hc_algorithm (c : HpkeCiphertext) : string := HPKE_ALGORITHM.

Definition hpke_to_dict (c : HpkeCiphertext) : dict :=
  [("algorithm", JStr (hc_algorithm c)); ("encapsulated_key", JStr (b64url_encode (hc_encapsulated_key c)));
   ("ciphertext", JStr (b64url_encode (hc_ciphertext c)))].

Record PayloadCiphertext := MkPayload { pc_nonce : bytes; pc_ciphertext : bytes }.

Definition pc_algorithm (c : PayloadCiphertext) : string := PAYLOAD_ALGORITHM.

Definition payload_to_dict (c : PayloadCiphertext) : dict :=
  [("algorithm", JStr (pc_algorithm c)); ("nonce", JStr (b64url_encode (pc_nonce c)));
   ("ciphertext", JStr (b64url_encode (pc_ciphertext c)))].

Record TaskEnvelope := MkTaskEnvelope {
  te_payload : PayloadCiphertext;
  te_recipients : list (string * HpkeCiphertext);
  te_workspace_reader : option PayloadCiphertext
}.

(** [sorted(recipients.items())]: the identifiers are distinct. *)
Definition recipient_order (x y : string * HpkeCiphertext) : bool := negb (str_ltb (fst y) (fst x)).

Definition task_envelope_to_dict (e : TaskEnvelope) : dict :=
  [("version", JInt 1); ("payload", JObj (payload_to_dict (te_payload e)));
   ("recipients", JObj (map (fun kv => (fst kv, JObj (hpke_to_dict (snd kv))))
                          (order_by recipient_order (te_recipients e))));
   ("workspace_reader", match te_workspace_reader e with
                        | None => JNull
                        | Some r => JObj (payload_to_dict r)
                        end)].

(** [value[k]] of a value that may be no mapping. *)
Definition mapping (v : json) : res dict := match v with JObj d => Ok d | _ => Raise TypeError end.

Section Parsing.
Context {E : Env}.

Definition hpke_from_dict (v : json) : res HpkeCiphertext :=
  value ← mapping v;
  algorithm ← jitem "algorithm" value;
  k ← jitem "encapsulated_key" value;
  key ← b64url_decode (py_str k) (Some 32);
  c ← jitem "ciphertext" value;
  ciphertext ← b64url_decode (py_str c) None;
  if String.eqb (py_str algorithm) HPKE_ALGORITHM then Ok (MkHpke key ciphertext) else Raise ValueError.

Definition payload_from_dict (v : json) : res PayloadCiphertext :=
  value ← mapping v;
  algorithm ← jitem "algorithm" value;
  k ← jitem "nonce" value;
  nonce ← b64url_decode (py_str k) (Some XCHACHA_NONCE_BYTES);
  c ← jitem "ciphertext" value;
  ciphertext ← b64url_decode (py_str c) None;
  if String.eqb (py_str algorithm) PAYLOAD_ALGORITHM then Ok (MkPayload nonce ciphertext) else Raise ValueError.

(** [__post_init__]: version 1, at least one recipient, no empty identifier. *)
Definition make_task_envelope (version : Z) (payload : PayloadCiphertext)
    (recipients : list (string * HpkeCiphertext)) (reader : option PayloadCiphertext) : res TaskEnvelope :=
  if negb (version =? 1) then Raise ValueError
  else if match recipients with [] => true | _ => false end then Raise ValueError
  else if existsb (fun kv => String.eqb (fst kv) "") recipients then Raise ValueError
  else Ok (MkTaskEnvelope payload recipients reader).

Definition reader_from_dict (v : json) : res (option PayloadCiphertext) :=
  match v with
  | JNull => Ok None
  | _ => c ← payload_from_dict v; Ok (Some c)
  end.

Definition task_envelope_from_dict (value : dict) : res TaskEnvelope :=
  match jget "recipients" value with
  | Some (JObj recipients) =>
      version ← json_int (jget_or "version" (JInt 0) value);
      p ← jitem "payload" value;
      payload ← payload_from_dict p;
      wrapped ← res_map (fun kv => c ← hpke_from_dict (snd kv); Ok (fst kv, c)) recipients;
      reader ← reader_from_dict (jget_or "workspace_reader" JNull value);
      make_task_envelope version payload wrapped reader
  | _ => Raise ValueError
  end.
End Parsing.

(** ** HPKE in base mode *)

Section Hpke.
Context {E : Env} {S : Sealing}.

Definition token_bytes (n : Z) : Draw bytes := fun k => (Ok (random_bytes k n), Datatypes.S k).

Definition _labeled_extract (salt suite_id label ikm : bytes) : bytes :=
  hmac_sha256 salt (_HPKE_VERSION ++ suite_id ++ label ++ ikm).

Definition _labeled_expand (prk suite_id label info : bytes) (length : Z) : res bytes :=
  if (length <? 0) || (65535 <? length) then Raise ValueError
  else Ok (hkdf_expand prk (be_bytes 2 length ++ _HPKE_VERSION ++ suite_id ++ label ++ info) length).

Definition _extract_and_expand (dh kem_context : bytes) : res bytes :=
  _labeled_expand (_labeled_extract [] _KEM_SUITE_ID (encode "eae_prk") dh) _KEM_SUITE_ID
    (encode "shared_secret") kem_context _NSECRET.

Definition _key_schedule (shared_secret info : bytes) : res (bytes * bytes) :=
  let psk_id_hash := _labeled_extract [] _HPKE_SUITE_ID (encode "psk_id_hash") [] in
  let info_hash := _labeled_extract [] _HPKE_SUITE_ID (encode "info_hash") info in
  let context := [x00] ++ psk_id_hash ++ info_hash in
  let secret := _labeled_extract shared_secret _HPKE_SUITE_ID (encode "secret") [] in
  key ← _labeled_expand secret _HPKE_SUITE_ID (encode "key") context _NK;
  nonce ← _labeled_expand secret _HPKE_SUITE_ID (encode "base_nonce") context _NN;
  Ok (key, nonce).

(** The key and nonce both sides derive from the exchanged secret. *)
Definition hpke_context (dh encapsulated_key recipient_bytes info : bytes) : res (bytes * bytes) :=
  shared_secret ← _extract_and_expand dh (encapsulated_key ++ recipient_bytes);
  _key_schedule shared_secret info.

Definition hpke_seal (recipient_public_key plaintext info aad : bytes) : Draw HpkeCiphertext :=
  _ ← of_res (_require_bytes recipient_public_key 32);
  ephemeral ← token_bytes 32;
  let encapsulated_key := x25519_public ephemeral in
  dh ← of_res (match x25519_exchange ephemeral recipient_public_key with
               | Some dh => Ok dh
               | None => Raise ValueError
               end);
  keys ← of_res (hpke_context dh encapsulated_key recipient_public_key info);
  mret (MkHpke encapsulated_key (chacha_encrypt keys.1 keys.2 plaintext aad)).

Definition decryption_failed : exc := VGenError (ErrorCode.to_int ErrorCode.DECRYPTION_FAILED) [].

Definition hpke_open (recipient_private_key : bytes) (wrapped : HpkeCiphertext) (info aad : bytes) : res bytes :=
  _ ← _require_bytes recipient_private_key 32;
  let recipient_bytes := x25519_public recipient_private_key in
  match (dh ← (match x25519_exchange recipient_private_key (hc_encapsulated_key wrapped) with
               | Some dh => Ok dh
               | None => Raise ValueError
               end);
         keys ← hpke_context dh (hc_encapsulated_key wrapped) recipient_bytes info;
         match chacha_decrypt keys.1 keys.2 (hc_ciphertext wrapped) aad with
         | Some p => Ok p
         | None => Raise decryption_failed
         end) with
  | Raise ValueError => Raise decryption_failed
  | r => r
  end.

(** ** Payloads *)

Definition encrypt_payload (key plaintext aad : bytes) : Draw PayloadCiphertext :=
  _ ← of_res (_require_bytes key TASK_DATA_KEY_BYTES);
  nonce ← token_bytes XCHACHA_NONCE_BYTES;
  mret (MkPayload nonce (xchacha_encrypt plaintext aad nonce key)).

Definition decrypt_payload (key : bytes) (payload : PayloadCiphertext) (aad : bytes) : res bytes :=
  _ ← _require_bytes key TASK_DATA_KEY_BYTES;
  match xchacha_decrypt (pc_ciphertext payload) aad (pc_nonce payload) key with
  | Some p => Ok p
  | None => Raise decryption_failed
  end.

(** ** What an envelope is bound to *)

Definition task_aad (workspace_id task_id attempt_id artifact_id : string) (key_version : Z) : res bytes :=
  if key_version <? 1 then Raise ValueError
  else canonical_json (JObj
    [("protocol_version", JStr "v1"); ("workspace_id", JStr workspace_id); ("task_id", JStr task_id);
     ("attempt_id", JStr attempt_id); ("artifact_id", JStr artifact_id); ("key_version", JInt key_version)]).

Definition hex_text (s : string) : bool :=
  (str_len s =? 64) && str_forall (fun c => is_digit c || ascii_between "a" "f" c) s.

Definition workspace_key_aad (workspace_id recipient_type recipient_id : string) (key_version : Z)
    (recipient_binding_digest : option string) : res bytes :=
  if existsb (fun s => String.eqb s "") [workspace_id; recipient_type; recipient_id] then Raise ValueError
  else if key_version <? 1 then Raise ValueError
  else
    let value version :=
      [("protocol_version", JStr version); ("workspace_id", JStr workspace_id);
       ("recipient_type", JStr recipient_type); ("recipient_id", JStr recipient_id);
       ("key_version", JInt key_version)] in
    match recipient_binding_digest with
    | None => canonical_json (JObj (value "v1"))
    | Some d =>
        if hex_text d then canonical_json (JObj (value "v2" ++ [("recipient_binding_digest", JStr d)]))
        else Raise ValueError
    end.

Definition _wrap_info (aad : bytes) : bytes := _TASK_WRAP_INFO ++ [x00] ++ sha256_digest aad.
Definition workspace_wrap_info (aad : bytes) : bytes :=
  _WORKSPACE_KEY_WRAP_INFO ++ [x00] ++ sha256_digest aad.

Definition wrap_task_key (recipient_public_key task_data_key aad : bytes) : Draw HpkeCiphertext :=
  _ ← of_res (_require_bytes task_data_key TASK_DATA_KEY_BYTES);
  hpke_seal recipient_public_key task_data_key (_wrap_info aad) aad.

Definition unwrap_task_key (recipient_private_key : bytes) (wrapped : HpkeCiphertext) (aad : bytes) : res bytes :=
  key ← hpke_open recipient_private_key wrapped (_wrap_info aad) aad;
  _ ← _require_bytes key TASK_DATA_KEY_BYTES;
  Ok key.

Definition wrap_workspace_key (recipient_public_key workspace_data_key aad : bytes) : Draw HpkeCiphertext :=
  _ ← of_res (_require_bytes workspace_data_key TASK_DATA_KEY_BYTES);
  hpke_seal recipient_public_key workspace_data_key (workspace_wrap_info aad) aad.

Definition unwrap_workspace_key (recipient_private_key : bytes) (wrapped : HpkeCiphertext) (aad : bytes)
    : res bytes :=
  key ← hpke_open recipient_private_key wrapped (workspace_wrap_info aad) aad;
  _ ← _require_bytes key TASK_DATA_KEY_BYTES;
  Ok key.

Definition wrap_task_key_for_workspace (workspace_data_key task_data_key aad : bytes) : Draw PayloadCiphertext :=
  _ ← of_res (_require_bytes workspace_data_key TASK_DATA_KEY_BYTES);
  _ ← of_res (_require_bytes task_data_key TASK_DATA_KEY_BYTES);
  encrypt_payload workspace_data_key task_data_key (_WORKSPACE_READER_AAD ++ [x00] ++ aad).

Definition unwrap_task_key_for_workspace (workspace_data_key : bytes) (wrapped : PayloadCiphertext)
    (aad : bytes) : res bytes :=
  _ ← _require_bytes workspace_data_key TASK_DATA_KEY_BYTES;
  key ← decrypt_payload workspace_data_key wrapped (_WORKSPACE_READER_AAD ++ [x00] ++ aad);
  _ ← _require_bytes key TASK_DATA_KEY_BYTES;
  Ok key.

(** ** Task envelopes *)

Fixpoint draw_map {A B} (f : A -> Draw B) (l : list A) : Draw (list B) :=
  match l with
  | [] => mret []
  | x :: l => y ← f x; ys ← draw_map f l; mret (y :: ys)
  end.

Definition create_task_envelope (plaintext : bytes) (recipients : list (string * bytes)) (aad : bytes)
    (workspace_data_key : option bytes) : Draw TaskEnvelope :=
  if match recipients with [] => true | _ => false end then of_res (Raise ValueError)
  else
    key ← token_bytes TASK_DATA_KEY_BYTES;
    payload ← encrypt_payload key plaintext aad;
    wrapped ← draw_map (fun kv => c ← wrap_task_key (snd kv) key aad; mret (fst kv, c)) recipients;
    reader ← (match workspace_data_key with
              | None => mret None
              | Some k => c ← wrap_task_key_for_workspace k key aad; mret (Some c)
              end : Draw (option PayloadCiphertext));
    of_res (make_task_envelope 1 payload wrapped reader).

Definition recipient_unavailable (details : dict) : exc :=
  VGenError (ErrorCode.to_int ErrorCode.RECIPIENT_KEY_UNAVAILABLE) details.

Definition open_task_envelope (task : TaskEnvelope) (recipient_id : string) (recipient_private_key aad : bytes)
    : res bytes :=
  match List.find (fun kv => String.eqb (fst kv) recipient_id) (te_recipients task) with
  | None => Raise (recipient_unavailable [("recipient_id", JStr recipient_id)])
  | Some (_, wrapped) =>
      key ← unwrap_task_key recipient_private_key wrapped aad;
      decrypt_payload key (te_payload task) aad
  end.

Definition open_task_envelope_with_workspace_key (task : TaskEnvelope) (workspace_data_key aad : bytes)
    : res bytes :=
  match te_workspace_reader task with
  | None => Raise (recipient_unavailable [])
  | Some r =>
      key ← unwrap_task_key_for_workspace workspace_data_key r aad;
      decrypt_payload key (te_payload task) aad
  end.
End Hpke.

(** ** Draws *)

Lemma draw_bind_ok {A B} (m : Draw A) (f : A -> Draw B) n b n' :
  bind m f n = (Ok b, n') -> exists a n1, m n = (Ok a, n1) /\ f a n1 = (Ok b, n').
Proof.
  unfold bind, mbind, draw_bind. destruct (m n) as [[a|e] n1]; [eauto|done].
Qed.

Lemma of_res_ok {A} (r : res A) n a n' : of_res r n = (Ok a, n') -> r = Ok a /\ n' = n.
Proof. unfold of_res. by intros [= -> ->]. Qed.

Lemma draw_map_ok {A B} (P : A -> B -> Prop) (f : A -> Draw B) l n ys n' :
  (forall x n y n', f x n = (Ok y, n') -> P x y) -> draw_map f l n = (Ok ys, n') -> Forall2 P l ys.
Proof.
  intros Hf. revert n ys. induction l as [|x l IH]; intros n ys H; cbn [draw_map] in H.
  { injection H as <- <-. constructor. }
  apply draw_bind_ok in H as (y & n1 & Hy & H). apply draw_bind_ok in H as (rest & n2 & Hr & H).
  injection H as <- <-. constructor; eauto.
Qed.

Section Laws.
Context {E : Env} {S : Sealing} {L : SealingLaws}.

Lemma require_ok b n : _require_bytes b n = Ok tt <-> blen b = n.
Proof. unfold _require_bytes. destruct (Z.eqb_spec (blen b) n); split; congruence. Qed.

(** What is sealed to a key opens with it. *)
Lemma hpke_roundtrip sk p info aad n c n' :
  blen sk = 32 -> hpke_seal (x25519_public sk) p info aad n = (Ok c, n') ->
  hpke_open sk c info aad = Ok p /\ blen (hc_encapsulated_key c) = 32.
Proof.
  intros Hsk H. unfold hpke_seal in H. apply draw_bind_ok in H as ([] & n1 & _ & H).
  apply draw_bind_ok in H as (eph & n2 & _ & H). apply draw_bind_ok in H as (dh & n3 & Hdh & H).
  apply draw_bind_ok in H as (keys & n4 & Hk & H). injection H as <- _.
  apply of_res_ok in Hk as [Hk _]. apply of_res_ok in Hdh as [Hdh _].
  assert (x25519_exchange eph (x25519_public sk) = Some dh) as Hx.
  { destruct (x25519_exchange _ _); congruence. }
  split; [|apply public_size]. unfold hpke_open. cbn [hc_encapsulated_key hc_ciphertext].
  rewrite (proj2 (require_ok sk 32) Hsk). unfold bind, mbind, res_bind.
  rewrite exchange_agrees, Hx, Hk. by rewrite (proj2 (chacha_opens _ _ _ _ p) eq_refl).
Qed.

Lemma payload_roundtrip key p aad n c n' :
  encrypt_payload key p aad n = (Ok c, n') -> decrypt_payload key c aad = Ok p /\ blen (pc_nonce c) = 24.
Proof.
  unfold encrypt_payload. intros H. apply draw_bind_ok in H as ([] & n1 & Hk & H).
  apply draw_bind_ok in H as (nonce & n2 & Hn & H). injection H as <- _. injection Hn as <- _.
  apply of_res_ok in Hk as [Hk _]. split; [|by apply random_size]. unfold decrypt_payload. rewrite Hk.
  cbn. by rewrite (proj2 (xchacha_opens _ _ _ _ p) eq_refl).
Qed.

(** *** The dictionary form *)

Lemma hpke_dict_roundtrip c :
  blen (hc_encapsulated_key c) = 32 -> hpke_from_dict (JObj (hpke_to_dict c)) = Ok c.
Proof.
  intros Hl. unfold hpke_from_dict, hpke_to_dict. cbn -[b64url_decode b64url_encode].
  rewrite !b64url_roundtrip by (rewrite ?Hl; auto). cbn. by destruct c.
Qed.

Lemma payload_dict_roundtrip c :
  blen (pc_nonce c) = 24 -> payload_from_dict (JObj (payload_to_dict c)) = Ok c.
Proof.
  intros Hl. unfold payload_from_dict, payload_to_dict, XCHACHA_NONCE_BYTES. cbn -[b64url_decode b64url_encode].
  rewrite !b64url_roundtrip by (rewrite ?Hl; auto). cbn. by destruct c.
Qed.

Lemma find_entry {A} (l : list (string * A)) k v :
  NoDup (map fst l) -> In (k, v) l -> List.find (fun kv => String.eqb (fst kv) k) l = Some (k, v).
Proof.
  induction l as [|[k' v'] l IH]; [done|]. simpl. intros [Hn Hd]%NoDup_cons [[= -> ->]|Hin].
  - by rewrite String.eqb_refl.
  - destruct (String.eqb_spec k' k) as [->|_]; [|by apply IH]. destruct Hn.
    apply list_elem_of_In, in_map_iff. by exists (k, v).
Qed.

(** What a constructed envelope satisfies. *)
Record envelope_ok (e : TaskEnvelope) : Prop := {
  ok_payload : blen (pc_nonce (te_payload e)) = 24;
  ok_some : te_recipients e <> [];
  ok_recipients : forall k c, In (k, c) (te_recipients e) -> k <> "" /\ blen (hc_encapsulated_key c) = 32;
  ok_reader : forall r, te_workspace_reader e = Some r -> blen (pc_nonce r) = 24
}.

Lemma recipients_dict_roundtrip l :
  (forall k c, In (k, c) l -> k <> "" /\ blen (hc_encapsulated_key c) = 32) ->
  res_map (fun kv => c ← hpke_from_dict (snd kv); Ok (fst kv, c))
    (map (fun kv => (fst kv, JObj (hpke_to_dict (snd kv)))) l) = Ok l.
Proof.
  induction l as [|[k c] l IH]; intros H; [done|]. cbn [map res_map fst snd].
  rewrite hpke_dict_roundtrip by (by destruct (H k c (or_introl eq_refl))).
  cbn. rewrite IH; [done|]. intros k' c' Hin. apply H. by right.
Qed.

(** Reading the dictionary of an envelope returns it with its recipients sorted. *)
Lemma envelope_dict_roundtrip e :
  envelope_ok e ->
  task_envelope_from_dict (task_envelope_to_dict e) =
  Ok (MkTaskEnvelope (te_payload e) (order_by recipient_order (te_recipients e)) (te_workspace_reader e)).
Proof.
  intros [Hp Hs Hr Hw]. unfold task_envelope_from_dict, task_envelope_to_dict.
  set (sorted := order_by recipient_order (te_recipients e)).
  assert (forall k c, In (k, c) sorted -> k <> "" /\ blen (hc_encapsulated_key c) = 32) as Hr'
    by (intros k c Hin%in_order_by; eauto).
  assert (sorted <> []) as Hs'.
  { intros Hnil. pose proof (order_by_perm recipient_order (te_recipients e)) as Hperm.
    fold sorted in Hperm. rewrite Hnil in Hperm. by apply Hs, Permutation_nil. }
  change (jget "recipients" _) with (Some (JObj (map (fun kv => (fst kv, JObj (hpke_to_dict (snd kv)))) sorted))).
  change (jget_or "version" (JInt 0) _) with (JInt 1). cbv iota. unfold jitem.
  change (jget "payload" _) with (Some (JObj (payload_to_dict (te_payload e)))).
  change (jget_or "workspace_reader" JNull _) with
    (match te_workspace_reader e with None => JNull | Some r => JObj (payload_to_dict r) end).
  unfold bind at 1 2 3 4 5, mbind, res_bind. cbn [json_int]. rewrite payload_dict_roundtrip by done.
  rewrite recipients_dict_roundtrip by done.
  assert (reader_from_dict (match te_workspace_reader e with None => JNull | Some r => JObj (payload_to_dict r) end)
          = Ok (te_workspace_reader e)) as ->.
  { destruct (te_workspace_reader e) as [r|]; [|done]. unfold reader_from_dict.
    by rewrite payload_dict_roundtrip by auto. }
  unfold make_task_envelope. cbn [negb Z.eqb]. destruct sorted as [|[k c] l] eqn:Hsort; [done|].
  destruct (existsb _ _) eqn:Hx; [|done].
  apply existsb_exists in Hx as ([k' c'] & Hin & Hk%String.eqb_eq). by destruct (Hr' _ _ Hin).
Qed.

(** ** Creating and opening *)

Lemma unwrap_wrapped sk key aad n c n' :
  blen sk = 32 -> wrap_task_key (x25519_public sk) key aad n = (Ok c, n') ->
  unwrap_task_key sk c aad = Ok key /\ blen key = 32.
Proof.
  intros Hsk H. unfold wrap_task_key in H. apply draw_bind_ok in H as ([] & n1 & Hk & H).
  apply of_res_ok in Hk as [Hk _]. apply hpke_roundtrip in H as [Ho _]; [|done].
  split; [|by apply require_ok in Hk]. unfold unwrap_task_key. rewrite Ho. cbn. by rewrite Hk.
Qed.

Lemma hpke_seal_size pk p info aad n c n' :
  hpke_seal pk p info aad n = (Ok c, n') -> blen (hc_encapsulated_key c) = 32.
Proof.
  intros H. unfold hpke_seal in H. apply draw_bind_ok in H as ([] & n1 & _ & H).
  apply draw_bind_ok in H as (eph & n2 & _ & H). apply draw_bind_ok in H as (dh & n3 & Hdh & H).
  apply draw_bind_ok in H as (keys & n4 & Hk & H). injection H as <- _. apply public_size.
Qed.

Lemma wrap_task_key_size pk key aad n c n' :
  wrap_task_key pk key aad n = (Ok c, n') -> blen (hc_encapsulated_key c) = 32.
Proof. intros H. apply draw_bind_ok in H as ([] & n1 & _ & H). by eapply hpke_seal_size. Qed.

Lemma unwrap_workspace_wrapped wk key aad n c n' :
  wrap_task_key_for_workspace wk key aad n = (Ok c, n') ->
  unwrap_task_key_for_workspace wk c aad = Ok key /\ blen (pc_nonce c) = 24.
Proof.
  unfold wrap_task_key_for_workspace. intros H. apply draw_bind_ok in H as ([] & n1 & Hw & H).
  apply draw_bind_ok in H as ([] & n2 & Hk & H). apply of_res_ok in Hw as [Hw _]. apply of_res_ok in Hk as [Hk _].
  apply payload_roundtrip in H as [Hd Hn]. split; [|done]. unfold unwrap_task_key_for_workspace.
  rewrite Hw. unfold bind, mbind, res_bind. by rewrite Hd, Hk.
Qed.

(** What [create_task_envelope] makes: one key, the payload under it, and the key wrapped
    for each recipient and for the workspace. *)
Lemma create_parts p recipients aad wk n e n' :
  create_task_envelope p recipients aad wk n = (Ok e, n') ->
  exists key, decrypt_payload key (te_payload e) aad = Ok p /\ envelope_ok e /\
    Forall2 (fun kv kc => fst kc = fst kv /\
               forall sk, blen sk = 32 -> snd kv = x25519_public sk -> unwrap_task_key sk (snd kc) aad = Ok key)
      recipients (te_recipients e) /\
    forall k, wk = Some k -> exists r, te_workspace_reader e = Some r /\
      unwrap_task_key_for_workspace k r aad = Ok key.
Proof.
  unfold create_task_envelope. intros H. destruct recipients as [|kv recipients]; [done|].
  set (l := kv :: recipients) in *. apply draw_bind_ok in H as (key & n1 & _ & H).
  apply draw_bind_ok in H as (payload & n2 & Hp & H). apply draw_bind_ok in H as (wrapped & n3 & Hw & H).
  apply draw_bind_ok in H as (reader & n4 & Hr & H). apply of_res_ok in H as [H _].
  apply payload_roundtrip in Hp as [Hp Hnonce]. unfold make_task_envelope in H. cbn [negb Z.eqb] in H.
  assert (wrapped <> []) as Hsome by (by destruct wrapped).
  assert (existsb (fun kv => String.eqb (fst kv) "") wrapped = false) as Hx
    by (destruct wrapped; [done|]; by destruct (existsb _ _)).
  rewrite Hx in H. assert (e = MkTaskEnvelope payload wrapped reader) as -> by (destruct wrapped; simpl in H; congruence).
  assert (Forall2 (fun kv kc => exists n n', wrap_task_key (snd kv) key aad n = (Ok (snd kc), n') /\ fst kc = fst kv)
            l wrapped) as Hall.
  { refine (draw_map_ok _ _ _ _ _ _ _ Hw). intros x m y m' Hc.
    apply draw_bind_ok in Hc as (c & m1 & Hc & Hy). injection Hy as <- _. eauto. }
  exists key. cbn [te_payload te_recipients te_workspace_reader]. split; [done|]. split; [|split].
  - constructor; cbn [te_payload te_recipients te_workspace_reader]; [done|done| |].
    + intros k c Hin. split.
      * intros ->. apply not_true_iff_false in Hx. apply Hx, existsb_exists. by exists ("", c).
      * apply list_elem_of_In in Hin. apply list_elem_of_lookup in Hin as [i Hi].
        destruct (Forall2_lookup_r _ _ _ _ _ Hall Hi) as (x & _ & m & m' & Hc & _). by eapply wrap_task_key_size.
    + intros r ->. destruct wk as [k|]; [|done]. apply draw_bind_ok in Hr as (c & m & Hc & Hr).
      injection Hr as -> _. by apply unwrap_workspace_wrapped in Hc as [_ ?].
  - refine (Forall2_impl _ _ _ _ Hall _). intros x y (m & m' & Hc & Hf). split; [done|].
    intros sk Hsk Hpk. rewrite Hpk in Hc. by eapply unwrap_wrapped.
  - intros k ->. apply draw_bind_ok in Hr as (c & m & Hc & Hr). injection Hr as <- _.
    exists c. split; [done|]. by apply unwrap_workspace_wrapped in Hc as [? _].
Qed.

(** C17: every reader named when an envelope is created recovers the plaintext from its
    dictionary form with its own private key, and the workspace with its data key. *)
Theorem task_envelope_roundtrip p recipients aad wk n e n' :
  NoDup (map fst recipients) -> create_task_envelope p recipients aad wk n = (Ok e, n') ->
  exists e', task_envelope_from_dict (task_envelope_to_dict e) = Ok e' /\
    (forall id sk, In (id, x25519_public sk) recipients -> blen sk = 32 ->
       open_task_envelope e' id sk aad = Ok p) /\
    (forall k, wk = Some k -> open_task_envelope_with_workspace_key e' k aad = Ok p).
Proof.
  intros Hd H. apply create_parts in H as (key & Hp & Hok & Hall & Hw).
  eexists. split; [by apply envelope_dict_roundtrip|]. split.
  - intros id sk Hin Hsk. apply list_elem_of_In, list_elem_of_lookup in Hin as [i Hi].
    destruct (Forall2_lookup_l _ _ _ _ _ Hall Hi) as ([id' c] & Hc & Hf & Hu). simpl in Hf. subst id'.
    unfold open_task_envelope. cbn [te_recipients te_payload]. rewrite (find_entry _ id c).
    + specialize (Hu sk Hsk eq_refl). simpl in Hu. rewrite Hu. exact Hp.
    + rewrite (Permutation_map fst (order_by_perm recipient_order (te_recipients e))).
      assert (map fst (te_recipients e) = map fst recipients) as ->; [|done].
      clear - Hall. induction Hall as [|x y l k [Hf _] _ IH]; simpl; congruence.
    + apply in_order_by, list_elem_of_In, list_elem_of_lookup. by exists i.
  - intros k Hk. destruct (Hw k Hk) as (r & Hr & Hu). unfold open_task_envelope_with_workspace_key.
    cbn [te_workspace_reader te_payload]. rewrite Hr, Hu. exact Hp.
Qed.

(** *** Authenticity *)

Lemma hpke_open_ok sk c info aad p :
  hpke_open sk c info aad = Ok p ->
  exists dh keys, x25519_exchange sk (hc_encapsulated_key c) = Some dh /\
    hpke_context dh (hc_encapsulated_key c) (x25519_public sk) info = Ok keys /\
    hc_ciphertext c = chacha_encrypt keys.1 keys.2 p aad.
Proof.
  unfold hpke_open. intros H. apply res_bind_ok in H as ([] & _ & H).
  destruct (x25519_exchange _ _) as [dh|]; [|done]. unfold bind, mbind, res_bind in H.
  destruct (hpke_context _ _ _ _) as [keys|[]] eqn:Hk; try done.
  destruct (chacha_decrypt _ _ _ _) as [q|] eqn:Hd; [|done]. injection H as ->. apply chacha_opens in Hd. eauto.
Qed.

Lemma decrypt_payload_ok key c aad p :
  decrypt_payload key c aad = Ok p ->
  blen key = 32 /\ pc_ciphertext c = xchacha_encrypt p aad (pc_nonce c) key.
Proof.
  unfold decrypt_payload. intros H. apply res_bind_ok in H as ([] & Hk & H). apply require_ok in Hk.
  destruct (xchacha_decrypt _ _ _ _) as [q|] eqn:Hd; [|done]. injection H as ->. by apply xchacha_opens in Hd.
Qed.

(** C18: an envelope that opens was sealed under the same context: the recipient's entry is the
    HPKE encryption, to its key and under the label and hash of the associated data, of a
    32-byte key, and the payload is the encryption of what was read under that key and the
    same associated data. *)
Theorem opened_envelope_authentic e id sk aad p :
  open_task_envelope e id sk aad = Ok p ->
  exists wrapped dh keys key,
    In (id, wrapped) (te_recipients e) /\
    x25519_exchange sk (hc_encapsulated_key wrapped) = Some dh /\
    hpke_context dh (hc_encapsulated_key wrapped) (x25519_public sk)
      (encode "vgen-task-key-wrap-v1" ++ [x00] ++ sha256_digest aad) = Ok keys /\
    hc_ciphertext wrapped = chacha_encrypt keys.1 keys.2 key aad /\ blen key = 32 /\
    pc_ciphertext (te_payload e) = xchacha_encrypt p aad (pc_nonce (te_payload e)) key.
Proof.
  unfold open_task_envelope. destruct (List.find _ _) as [[id' wrapped]|] eqn:Hf; [|done]. intros H.
  apply find_some in Hf as [Hin Hid%String.eqb_eq]. simpl in Hid. subst id'.
  apply res_bind_ok in H as (key & Hu & H). unfold unwrap_task_key in Hu.
  apply res_bind_ok in Hu as (key' & Ho & Hu). apply res_bind_ok in Hu as ([] & Hk & Hu). injection Hu as ->.
  apply hpke_open_ok in Ho as (dh & keys & Hx & Hc & Ht). apply decrypt_payload_ok in H as [Hl Hp].
  exists wrapped, dh, keys, key. done.
Qed.
End Laws.

(** ** What the associated data binds *)

Section Binding.
Context {E : Env}.

(** Each member is a fixed label, a value and the rest. *)
Lemma task_aad_text w t a f k b :
  task_aad w t a f k = Ok b ->
  b = encode ("{" +:+ quote "artifact_id" +:+ ":" +:+ quote f +:+ "," +:+ quote "attempt_id" +:+ ":" +:+ quote a +:+
    "," +:+ quote "key_version" +:+ ":" +:+ pretty k +:+ "," +:+ quote "protocol_version" +:+ ":" +:+ quote "v1" +:+
    "," +:+ quote "task_id" +:+ ":" +:+ quote t +:+ "," +:+ quote "workspace_id" +:+ ":" +:+ quote w +:+ "}").
Proof.
  unfold task_aad. destruct (k <? 1); [done|]. unfold canonical_json. 
  change (json_dump (JObj _)) with (Ok ("{" +:+ join "," (map print_member
    [("artifact_id", quote f); ("attempt_id", quote a); ("key_version", pretty k);
     ("protocol_version", quote "v1"); ("task_id", quote t); ("workspace_id", quote w)]) +:+ "}")).
  intros [= <-]. f_equal. unfold join, print_member, map, fst, snd. by rewrite <- !str_app_assoc.
Qed.

(** Two tasks' associated data differ unless every identifier and the key version agree. *)
Theorem task_aad_binds w t a f k w' t' a' f' k' b :
  task_aad w t a f k = Ok b -> task_aad w' t' a' f' k' = Ok b ->
  w = w' /\ t = t' /\ a = a' /\ f = f' /\ k = k'.
Proof.
  intros Hb%task_aad_text Hb'%task_aad_text. rewrite Hb in Hb'. clear Hb. apply encode_inj in Hb'.
  do 3 apply (inj _) in Hb'. apply quote_cancel in Hb' as [<- H].
  do 3 apply (inj _) in H. apply quote_cancel in H as [<- H]. do 3 apply (inj _) in H.
  apply comma_cancel in H as [Hk H]; [|apply pretty_no_comma..]. apply (inj _) in Hk as <-.
  do 6 apply (inj _) in H. apply quote_cancel in H as [<- H]. do 3 apply (inj _) in H.
  by apply quote_cancel in H as [<- _].
Qed.
End Binding.

(** ** A concrete run *)

Module Sealed.
Import Sample.

Definition strip (p c : bytes) : option bytes :=
  if take (length p) c =d p then Some (drop (length p) c) else None.

Lemma strip_spec p c q : strip p c = Some q <-> c = p ++ q.
Proof.
  unfold strip. split.
  - case_bool_decide as H; [|done]. intros [= <-]. rewrite <- H at 1. by rewrite take_drop.
  - intros ->. rewrite take_app_length, bool_decide_true, drop_app_length; done.
Qed.

(** Stand-ins without security: keys add up, hashes keep a prefix, and a sealed text is
    the key and associated data followed by the text. *)
#[export] Instance toy_sealing : Sealing := {|
  x25519_public a := be_bytes 32 (be_value a);
  x25519_exchange a B := Some (be_bytes 32 (be_value (be_bytes 32 (be_value a)) + be_value B));
  hmac_sha256 k m := take 32 (k ++ m);
  hkdf_expand prk info n := take (Z.to_nat n) (prk ++ repeat x00 (Z.to_nat n));
  chacha_encrypt k n p a := (k ++ n ++ a) ++ p;
  chacha_decrypt k n c a := strip (k ++ n ++ a) c;
  xchacha_encrypt p a n k := (k ++ a) ++ p;
  xchacha_decrypt c a n k := strip (k ++ a) c;
  random_bytes k n := be_bytes (Z.to_nat n) (Z.of_nat k + 1)
|}.

#[export] Instance toy_sealing_laws : SealingLaws.
Proof.
  constructor.
  - intros a b. cbn. by rewrite Z.add_comm.
  - intros a. exact (f_equal Z.of_nat (be_bytes_length 32 (be_value a))).
  - intros prk info n Hn. unfold blen. cbn. rewrite length_take, length_app, repeat_length. lia.
  - intros k n Hn. rewrite <- (Z2Nat.id n Hn) at 2. exact (f_equal Z.of_nat (be_bytes_length _ _)).
  - intros. apply strip_spec.
  - intros. apply strip_spec.
Qed.

Definition alice : bytes := be_bytes 32 7.
Definition worker : bytes := be_bytes 32 11.
Definition workspace_key : bytes := be_bytes 32 13.
Definition readers : list (string * bytes) := [("wrk_1", x25519_public worker); ("usr_1", x25519_public alice)].
Definition text : bytes := encode "payload".
Definition context : bytes := encode "task".
Definition envelope : TaskEnvelope :=
  match create_task_envelope text readers context (Some workspace_key) 0%nat with
  | (Ok e, _) => e
  | _ => MkTaskEnvelope (MkPayload [] []) [] None
  end.

Lemma envelope_created : create_task_envelope text readers context (Some workspace_key) 0%nat = (Ok envelope, 5%nat).
Proof. vm_compute. reflexivity. Qed.

Lemma task_envelope_roundtrip_witness :
  exists e', task_envelope_from_dict (task_envelope_to_dict envelope) = Ok e' /\
    open_task_envelope e' "usr_1" alice context = Ok text /\
    open_task_envelope_with_workspace_key e' workspace_key context = Ok text.
Proof.
  destruct (task_envelope_roundtrip text readers context (Some workspace_key) 0%nat envelope 5%nat)
    as (e' & Hd & Hr & Hw).
  - apply (bool_decide_eq_true_1 (NoDup ["wrk_1"; "usr_1"])). vm_compute. reflexivity.
  - exact envelope_created.
  - exists e'. split; [exact Hd|]. split; [|exact (Hw workspace_key eq_refl)].
    apply Hr; [right; left; reflexivity|vm_compute; reflexivity].
Defined.

Lemma opened_envelope_authentic_witness :
  exists wrapped key, In ("wrk_1", wrapped) (te_recipients envelope) /\ blen key = 32 /\
    pc_ciphertext (te_payload envelope) = xchacha_encrypt text context (pc_nonce (te_payload envelope)) key.
Proof.
  destruct (opened_envelope_authentic envelope "wrk_1" worker context text)
    as (w & dh & keys & key & H1 & _ & _ & _ & H2 & H3); [vm_compute; reflexivity|].
  exists w, key. exact (conj H1 (conj H2 H3)).
Defined.

Lemma task_aad_binds_witness :
  exists b, task_aad "wsp_1" "tsk_1" "att_1" "payload" 1 = Ok b /\ ("att_1" : string) = "att_1".
Proof.
  eexists. split; [vm_compute; reflexivity|].
  refine (proj1 (proj2 (proj2 (task_aad_binds "wsp_1" "tsk_1" "att_1" "payload" 1
    "wsp_1" "tsk_1" "att_1" "payload" 1 _ _ _)))); vm_compute; reflexivity.
Defined.
End Sealed.
