(* ===== verification/Pins.v ===== *)
(** * Local trust anchors ([cli/workspace_authorities.py], [cli/workspace_keys.py])

    A device keeps, in the keyring of its operating system, the root keys of the owners
    and admins it trusts for a workspace, and the workspace's data keys.  What the gateway
    presents is compared with a pin and never replaces one. *)

From S2P Require Import Prelude Python Bytes Effects Schema Store Capability Encoding Signing Envelope.

Open Scope Z_scope.

(** ** The keyring package *)

Class Keyring := {
  keyring : Type;
  get_password : keyring -> string -> string -> option string;
  set_password : keyring -> string -> string -> string -> keyring;
  delete_password : keyring -> string -> string -> keyring
}.

(** An entry is what was last stored under its service and user name. *)
Class KeyringLaws `{Keyring} := {
  get_set : forall k s u p, get_password (set_password k s u p) s u = Some p;
  get_set_other : forall k s u p s' u',
    (s, u) <> (s', u') -> get_password (set_password k s u p) s' u' = get_password k s' u';
  get_delete_other : forall k s u s' u',
    (s, u) <> (s', u') -> get_password (delete_password k s u) s' u' = get_password k s' u'
}.

Record WorkspaceAuthorityPin := MkPin {
  pin_workspace_id : string;
  pin_user_id : json;
  pin_root_signing_public_key : string;
  pin_root_key_id : string;
  pin_source : json
}.

Definition AUTHORITY_SERVICE : string := "vgen.workspace-authority.v1".
Definition OWNER_SERVICE : string := "vgen.workspace-owner-authority.v1".
Definition KEY_SERVICE : string := "vgen.workspace-key.v1".

Definition pin_fields : list string :=
  ["workspace_id"; "user_id"; "root_signing_public_key"; "root_key_id"; "source"].

Definition pin_to_dict (p : WorkspaceAuthorityPin) : dict :=
  [("workspace_id", JStr (pin_workspace_id p)); ("user_id", pin_user_id p);
   ("root_signing_public_key", JStr (pin_root_signing_public_key p)); ("root_key_id", JStr (pin_root_key_id p));
   ("source", pin_source p)].

(** [if not raw]. *)
Definition stored (raw : option string) : option string :=
  match raw with
  | Some t => if String.eqb t "" then None else Some t
  | None => None
  end.

Section Stores.
Context {E : Env} {K : Keyring}.

(** ** Authorities *)

Definition _authority_username (workspace_id user_id : string) : res string :=
  if String.eqb workspace_id "" || String.eqb user_id "" then Raise ValueError
  else Ok (workspace_id +:+ ":" +:+ user_id).

(** [WorkspaceAuthorityPin] from its stored text, and the raw key. *)
Definition parse_pin (raw : string) : res (dict * string * bytes) :=
  value ← (match json_loads raw with JDoc v => Ok v | JBad _ => Raise ValueError end);
  members ← mapping value;
  _ ← (if same_keys members pin_fields then Ok tt else Raise TypeError);
  k ← jitem "root_signing_public_key" members;
  text ← (match k with JStr s => Ok s | _ => Raise TypeError end);
  public_key ← b64url_decode text (Some 32);
  Ok (members, text, public_key).

Definition read_pin (raw : string) : res (dict * string * bytes) :=
  match parse_pin raw with
  | Raise (TypeError | ValueError) => Raise WorkspaceAuthorityError
  | r => r
  end.

Definition load (ring : keyring) (workspace_id user_id : string) : res (option WorkspaceAuthorityPin) :=
  name ← _authority_username workspace_id user_id;
  match stored (get_password ring AUTHORITY_SERVICE name) with
  | None => Ok None
  | Some raw =>
      parsed ← read_pin raw;
      let m k := jget_or k JNull parsed.1.1 in
      id ← root_signing_key_id parsed.2;
      if json_is (m "workspace_id") workspace_id && json_is (m "user_id") user_id && json_is (m "root_key_id") id
      then Ok (Some (MkPin workspace_id (JStr user_id) parsed.1.2 id (m "source")))
      else Raise WorkspaceAuthorityError
  end.

(** The owner's pin is stored under the workspace alone; the user it names is not checked. *)
Definition load_owner (ring : keyring) (workspace_id : string) : res (option WorkspaceAuthorityPin) :=
  match stored (get_password ring OWNER_SERVICE workspace_id) with
  | None => Ok None
  | Some raw =>
      parsed ← read_pin raw;
      let m k := jget_or k JNull parsed.1.1 in
      id ← root_signing_key_id parsed.2;
      if json_is (m "workspace_id") workspace_id && json_is (m "root_key_id") id
      then Ok (Some (MkPin workspace_id (m "user_id") parsed.1.2 id (m "source")))
      else Raise WorkspaceAuthorityError
  end.

(** The key presented is the one of the identifier presented, if any. *)
Definition presented_key_id (root_signing_public_key : string) (root_key_id : option string) : res string :=
  public_key ← b64url_decode root_signing_public_key (Some 32);
  derived ← root_signing_key_id public_key;
  match root_key_id with
  | Some id => if String.eqb id derived then Ok derived else Raise WorkspaceAuthorityError
  | None => Ok derived
  end.

Definition pin (workspace_id user_id root_signing_public_key : string) (root_key_id : option string)
    (source : string) : Action keyring WorkspaceAuthorityPin :=
  derived_key_id ← lift (presented_key_id root_signing_public_key root_key_id);
  let p := MkPin workspace_id (JStr user_id) root_signing_public_key derived_key_id (JStr source) in
  ring ← reading (fun ring => ring);
  existing ← lift (load ring workspace_id user_id);
  match existing with
  | Some q =>
      _ ← ensure (String.eqb (pin_root_signing_public_key q) root_signing_public_key &&
                  String.eqb (pin_root_key_id q) derived_key_id) WorkspaceAuthorityError;
      mret q
  | None =>
      name ← lift (_authority_username workspace_id user_id);
      text ← lift (json_dump (JObj (pin_to_dict p)));
      _ ← writing (fun ring => set_password ring AUTHORITY_SERVICE name text);
      mret p
  end.

Definition require_authority (ring : keyring) (workspace_id user_id presented_root_signing_public_key : string)
    (presented_root_key_id : option string) : res WorkspaceAuthorityPin :=
  found ← load ring workspace_id user_id;
  match found with
  | None => Raise WorkspaceAuthorityError
  | Some p =>
      if negb (String.eqb (pin_root_signing_public_key p) presented_root_signing_public_key)
      then Raise WorkspaceAuthorityError
      else if match presented_root_key_id with
              | Some id => negb (String.eqb (pin_root_key_id p) id)
              | None => false
              end then Raise WorkspaceAuthorityError
      else Ok p
  end.

Definition pin_owner (workspace_id user_id root_signing_public_key : string) (root_key_id : option string)
    (source : string) : Action keyring WorkspaceAuthorityPin :=
  derived_key_id ← lift (presented_key_id root_signing_public_key root_key_id);
  let p := MkPin workspace_id (JStr user_id) root_signing_public_key derived_key_id (JStr source) in
  ring ← reading (fun ring => ring);
  existing ← lift (load_owner ring workspace_id);
  match existing with
  | Some q =>
      _ ← ensure (json_is (pin_user_id q) user_id &&
                  String.eqb (pin_root_signing_public_key q) root_signing_public_key &&
                  String.eqb (pin_root_key_id q) derived_key_id) WorkspaceAuthorityError;
      mret q
  | None =>
      text ← lift (json_dump (JObj (pin_to_dict p)));
      _ ← writing (fun ring => set_password ring OWNER_SERVICE workspace_id text);
      _ ← pin workspace_id user_id root_signing_public_key (Some derived_key_id) source;
      mret p
  end.

Definition require_owner_identity (ring : keyring) (workspace_id user_id root_signing_public_key
    root_key_id : string) : res WorkspaceAuthorityPin :=
  found ← load_owner ring workspace_id;
  match found with
  | None => Raise WorkspaceAuthorityError
  | Some p =>
      if json_is (pin_user_id p) user_id &&
         String.eqb (pin_root_signing_public_key p) root_signing_public_key &&
         String.eqb (pin_root_key_id p) root_key_id
      then Ok p else Raise WorkspaceAuthorityError
  end.

(** ** Workspace data keys *)

Definition _key_username (workspace_id : string) (version : Z) : res string :=
  if String.eqb workspace_id "" || (version <? 1) then Raise ValueError
  else Ok (workspace_id +:+ ":v" +:+ pretty version).

Definition save_key (workspace_id : string) (version : Z) (key : bytes) : Action keyring unit :=
  _ ← ensure (blen key =? 32) ValueError;
  name ← lift (_key_username workspace_id version);
  writing (fun ring => set_password ring KEY_SERVICE name (b64url_encode key)).

(** [create]: the new key is the next draw of the random source. *)
Definition create_key (workspace_id : string) (version : Z) (fresh : bytes) : Action keyring bytes :=
  _ ← save_key workspace_id version fresh;
  mret fresh.

Definition load_key (ring : keyring) (workspace_id : string) (version : Z) : res bytes :=
  name ← _key_username workspace_id version;
  match stored (get_password ring KEY_SERVICE name) with
  | None => Raise WorkspaceKeyError
  | Some encoded =>
      match b64url_decode encoded (Some 32) with
      | Raise ValueError => Raise WorkspaceKeyError
      | r => r
      end
  end.

(** Whatever the backend raises is ignored; the arguments are evaluated inside the [try]. *)
Definition delete_key (workspace_id : string) (version : Z) : Action keyring unit :=
  match _key_username workspace_id version with
  | Ok name => writing (fun ring => delete_password ring KEY_SERVICE name)
  | Raise _ => mret tt
  end.
End Stores.

(** ** Pins are written once *)

Section WriteOnce.
Context {E : Env} {K : Keyring} {L : KeyringLaws}.

Definition anchor_service (s : string) : Prop := s = AUTHORITY_SERVICE \/ s = OWNER_SERVICE.

(** Every stored authority is still there, unchanged. *)
Definition keeps_anchors : relation keyring := fun k k' =>
  forall s u raw, anchor_service s -> stored (get_password k s u) = Some raw ->
    stored (get_password k' s u) = Some raw.
#[export] Instance keeps_anchors_preorder : PreOrder keeps_anchors.
Proof. split; [by intros k s u raw|]. intros k1 k2 k3 H12 H23 s u raw Hs H. by apply H23, H12. Qed.

Lemma keeps_set_free k s u t :
  stored (get_password k s u) = None -> keeps_anchors k (set_password k s u t).
Proof.
  intros Hn s' u' raw _ H. destruct (decide ((s, u) = (s', u'))) as [[= -> ->]|Hne]; [congruence|].
  by rewrite get_set_other.
Qed.

Lemma keeps_set_key k u t : keeps_anchors k (set_password k KEY_SERVICE u t).
Proof. intros s' u' raw Hs H. rewrite get_set_other; [done|]. intros [= <- _]. by destruct Hs. Qed.
Lemma keeps_delete_key k u : keeps_anchors k (delete_password k KEY_SERVICE u).
Proof. intros s' u' raw Hs H. rewrite get_delete_other; [done|]. intros [= <- _]. by destruct Hs. Qed.

Lemma load_none ring w u name :
  load ring w u = Ok None -> _authority_username w u = Ok name ->
  stored (get_password ring AUTHORITY_SERVICE name) = None.
Proof.
  unfold load. intros H Hn. rewrite Hn in H. cbn in H.
  destruct (stored _) as [raw|]; [|done]. apply res_bind_ok in H as (x & _ & H).
  apply res_bind_ok in H as (y & _ & H). by destruct (_ && _).
Qed.

Lemma load_owner_none ring w :
  load_owner ring w = Ok None -> stored (get_password ring OWNER_SERVICE w) = None.
Proof.
  unfold load_owner. intros H. destruct (stored _) as [raw|]; [|done]. apply res_bind_ok in H as (x & _ & H).
  apply res_bind_ok in H as (y & _ & H). by destruct (_ && _).
Qed.

Lemma pin_keeps w u k i src : follows keeps_anchors (pin w u k i src).
Proof.
  intros ring. unfold pin, bind, mbind, action_bind, lift, reading, writing, ensure.
  destruct (presented_key_id _ _); [|done]. destruct (load ring w u) as [[q|]|] eqn:Hl; [by destruct (_ && _)| |done].
  destruct (_authority_username w u) eqn:Hn; [|done]. destruct (json_dump _); [|done].
  apply keeps_set_free. by eapply load_none.
Qed.

Lemma pin_owner_keeps w u k i src : follows keeps_anchors (pin_owner w u k i src).
Proof.
  intros ring. unfold pin_owner, bind at 1 2 3, mbind, action_bind, lift, reading, ensure.
  destruct (presented_key_id _ _) as [derived|]; [|done].
  destruct (load_owner ring w) as [[q|]|] eqn:Hl; [by destruct (_ && _)| |done].
  apply load_owner_none in Hl. unfold bind at 1. unfold writing.
  destruct (json_dump _) as [text|]; [|done].
  etransitivity; [by apply (keeps_set_free _ _ _ text) in Hl|].
  refine (follows_bind keeps_anchors (pin w u k (Some derived) src) _ (pin_keeps _ _ _ _ _) _ _).
  by intros a s.
Qed.

Lemma keeps_load k k' w u p : keeps_anchors k k' -> load k w u = Ok (Some p) -> load k' w u = Ok (Some p).
Proof.
  intros Hk. unfold load. destruct (_authority_username w u) as [name|]; [|done]. unfold bind, mbind, res_bind.
  destruct (stored (get_password k _ name)) as [raw|] eqn:Hs; [|done].
  by rewrite (Hk _ _ raw (or_introl eq_refl) Hs).
Qed.

Lemma keeps_load_owner k k' w p :
  keeps_anchors k k' -> load_owner k w = Ok (Some p) -> load_owner k' w = Ok (Some p).
Proof.
  intros Hk. unfold load_owner. destruct (stored (get_password k _ w)) as [raw|] eqn:Hs; [|done].
  by rewrite (Hk _ _ raw (or_intror eq_refl) Hs).
Qed.

(** What a user of the stores may do. *)
Inductive store_op :=
| OpPin (w u k : string) (i : option string) (src : string)
| OpPinOwner (w u k : string) (i : option string) (src : string)
| OpSaveKey (w : string) (v : Z) (key : bytes)
| OpCreateKey (w : string) (v : Z) (key : bytes)
| OpDeleteKey (w : string) (v : Z).

Definition after_store_op (op : store_op) (ring : keyring) : keyring :=
  match op with
  | OpPin w u k i src => snd (pin w u k i src ring)
  | OpPinOwner w u k i src => snd (pin_owner w u k i src ring)
  | OpSaveKey w v key => snd (save_key w v key ring)
  | OpCreateKey w v key => snd (create_key w v key ring)
  | OpDeleteKey w v => snd (delete_key w v ring)
  end.

Lemma save_key_keeps w v key : follows keeps_anchors (save_key w v key).
Proof.
  unfold save_key. intros ring. unfold bind, mbind, action_bind, ensure, lift, writing.
  destruct (_ =? _); [|done]. cbn. destruct (_key_username w v); [|done]. apply keeps_set_key.
Qed.

Lemma store_op_keeps op ring : keeps_anchors ring (after_store_op op ring).
Proof.
  destruct op; simpl; [apply pin_keeps|apply pin_owner_keeps|apply save_key_keeps| |].
  - refine (follows_bind keeps_anchors (save_key w v key) _ (save_key_keeps _ _ _) _ _). by intros a s.
  - unfold delete_key. destruct (_key_username w v); [|done]. apply keeps_delete_key.
Qed.

Lemma store_ops_keep ops ring : keeps_anchors ring (foldl (fun r op => after_store_op op r) ring ops).
Proof.
  revert ring. induction ops as [|op ops IH]; intros ring; [done|]. simpl.
  etransitivity; [apply store_op_keeps|apply IH].
Qed.

Lemma load_binds ring w u p :
  load ring w u = Ok (Some p) ->
  exists pk, b64url_decode (pin_root_signing_public_key p) (Some 32) = Ok pk /\
    root_signing_key_id pk = Ok (pin_root_key_id p).
Proof.
  unfold load. intros H. apply res_bind_ok in H as (name & _ & H). destruct (stored _) as [raw|]; [|done].
  apply res_bind_ok in H as ([[m t] pk] & Hp & H). apply res_bind_ok in H as (id & Hid & H). cbn in Hid, H.
  destruct (_ && _); [|done]. injection H as <-. exists pk. split; [|done]. cbn.
  unfold read_pin in Hp. destruct (parse_pin raw) as [x|[]] eqn:Hpp; try done. injection Hp as ->.
  unfold parse_pin in Hpp. apply res_bind_ok in Hpp as (v & _ & Hpp). apply res_bind_ok in Hpp as (ms & _ & Hpp).
  apply res_bind_ok in Hpp as ([] & _ & Hpp). apply res_bind_ok in Hpp as (k & _ & Hpp).
  apply res_bind_ok in Hpp as (text & _ & Hpp). apply res_bind_ok in Hpp as (key & Hd & Hpp).
  by injection Hpp as <- <- <-.
Qed.

(** C29: a pinned authority is permanent.  Once a root key is pinned for a user of a workspace,
    no sequence of calls to the stores, whatever they return or raise and whatever names
    they are called with, lets another key pass for it: [require_authority] answers with
    the first pin, and only for that key and its own identifier. *)
Theorem pinned_authority_is_permanent ops ring w u p key id q :
  load ring w u = Ok (Some p) ->
  require_authority (foldl (fun r op => after_store_op op r) ring ops) w u key id = Ok q <->
  q = p /\ key = pin_root_signing_public_key p /\ (id = None \/ id = Some (pin_root_key_id p)).
Proof.
  intros Hl. unfold require_authority. rewrite (keeps_load _ _ _ _ _ (store_ops_keep ops ring) Hl).
  unfold bind, mbind, res_bind. destruct (String.eqb_spec (pin_root_signing_public_key p) key) as [<-|Hne]; cbn [negb].
  2: { split; [done|]. by intros (_ & -> & _). }
  destruct id as [id|]; [|naive_solver]. destruct (String.eqb_spec (pin_root_key_id p) id) as [<-|Hne]; cbn [negb].
  - naive_solver.
  - split; [done|]. intros (_ & _ & [?|[= ->]]); done.
Qed.

(** The single owner of a workspace is pinned once: later calls, with any user or key,
    leave the pin and accept only that user with that key. *)
Theorem pinned_owner_is_permanent ops ring w p u key id q :
  load_owner ring w = Ok (Some p) ->
  require_owner_identity (foldl (fun r op => after_store_op op r) ring ops) w u key id = Ok q ->
  q = p /\ pin_user_id p = JStr u /\ key = pin_root_signing_public_key p /\ id = pin_root_key_id p.
Proof.
  intros Hl. unfold require_owner_identity. rewrite (keeps_load_owner _ _ _ _ (store_ops_keep ops ring) Hl).
  cbn. destruct (_ && _) eqn:Hc; [|done]. intros [= <-]. split_bools.
  apply json_is_spec in H. by repeat match goal with Hx : String.eqb _ _ = true |- _ => apply String.eqb_eq in Hx end.
Qed.
End WriteOnce.

(** ** A concrete keyring *)

Module Ring.
Import Sample.

#[export] Instance listed_keyring : Keyring := {|
  keyring := list (string * string * string);
  get_password k s u := snd <$> List.find (fun e => (fst e) =d (s, u)) k;
  set_password k s u p := (s, u, p) :: k;
  delete_password k s u := List.filter (fun e => negb (fst e =d (s, u))) k
|}.

#[export] Instance listed_keyring_laws : KeyringLaws.
Proof.
  constructor; cbn.
  - intros. by rewrite bool_decide_true.
  - intros k s u p s' u' Hne. by rewrite bool_decide_false.
  - intros k s u s' u' Hne. induction k as [|[e t] k IH]; [done|]. cbn.
    destruct (bool_decide_reflect (e = (s, u))) as [->|He]; cbn.
    + by rewrite IH, (bool_decide_false _ Hne).
    + destruct (bool_decide (e = (s', u'))); [done|exact IH].
Qed.

Definition root_text : string := Eval vm_compute in b64url_encode (be_bytes 32 5).
Definition admin : WorkspaceAuthorityPin :=
  Eval vm_compute in
    MkPin "wsp_1" (JStr "usr_1") root_text
      (match root_signing_key_id (be_bytes 32 5) with Ok i => i | Raise _ => "" end) (JStr "signed_invite_fragment").
Definition admin_text : string :=
  Eval vm_compute in match json_dump (JObj (pin_to_dict admin)) with Ok t => t | Raise _ => "" end.

(** [json.loads] on the one text that is stored. *)
#[export] Instance ring_env : Env := {|
  clock := clock; uuid := uuid; sha256_json := sha256_json; version_lt := version_lt; py_repr := py_repr;
  json_loads s := if String.eqb s admin_text then JDoc (JObj (pin_to_dict admin)) else JBad s;
  alnum_beyond_ascii := alnum_beyond_ascii;
  env_ed25519 := toy_ed25519
|}.

Definition pinned_ring : list (string * string * string) :=
  Eval vm_compute in snd (pin "wsp_1" "usr_1" root_text None "signed_invite_fragment" ([] : keyring)).
Definition owner_ring : list (string * string * string) :=
  Eval vm_compute in snd (pin_owner "wsp_1" "usr_1" root_text None "signed_invite_fragment" ([] : keyring)).
Definition attack : list store_op :=
  [OpPin "wsp_1" "usr_1" (b64url_encode (be_bytes 32 6)) None "gateway"; OpPin "wsp_1:usr_1" "x" root_text None "y";
   OpPinOwner "wsp_1" "usr_2" (b64url_encode (be_bytes 32 6)) None "gateway"].

Lemma pinned_authority_is_permanent_witness :
  load (pinned_ring : keyring) "wsp_1" "usr_1" = Ok (Some admin) /\
  require_authority (foldl (fun r op => after_store_op op r) (pinned_ring : keyring) attack) "wsp_1" "usr_1" root_text
    None = Ok admin.
Proof.
  assert (load (pinned_ring : keyring) "wsp_1" "usr_1" = Ok (Some admin)) as H by (vm_compute; reflexivity).
  split; [exact H|]. apply (pinned_authority_is_permanent (K := listed_keyring) attack pinned_ring "wsp_1" "usr_1" admin root_text None admin H).
  split; [reflexivity|]. split; [reflexivity|left; reflexivity].
Defined.

Lemma pinned_owner_is_permanent_witness :
  load_owner (owner_ring : keyring) "wsp_1" = Ok (Some admin) /\ pin_user_id admin = JStr "usr_1".
Proof.
  assert (load_owner (owner_ring : keyring) "wsp_1" = Ok (Some admin)) as H by (vm_compute; reflexivity).
  split; [exact H|].
  refine (proj1 (proj2 (pinned_owner_is_permanent (K := listed_keyring) attack owner_ring "wsp_1" admin "usr_1" root_text
    (pin_root_key_id admin) admin H _))). vm_compute. reflexivity.
Defined.
End Ring.
