(* ===== verification/Recipients.v ===== *)
(** * Recipients of the workspace key ([gateway/repository.py], [protocol/user_enrollment.py])

    A workspace key is wrapped for its recipients: the recovery key and the devices of
    every active member, each under an admission the owner signed.  The gateway stores
    the wrapped keys and their signed manifests; it re-verifies the whole chain from its
    tables whenever it lists recipients, and a rotation must cover exactly them. *)

From S2P Require Import Prelude Python Bytes Errors Schema Store Access Capability Encoding Signing.
From S2P Require Import Grants Maintenance Requests Sessions Enrollment Envelope.

Open Scope Z_scope.

(** ** Constraints of the tables *)

Definition manifest_key (r : manifest_row) : string * (string * Z) :=
  (km_subject_type r, (km_subject_id r, km_key_version r)).

Definition key_manifests_ok (d : db) (r : manifest_row) : bool :=
  negb (has_key km_id (key_manifests d) (km_id r)) &&
  negb (has_key manifest_key (key_manifests d) (manifest_key r)) &&
  has_key_opt u_id (users d) (km_signer_user_id r).

Definition MANIFEST_CONTEXT : bytes := encode "vgen-key-manifest-v1".
Definition WORKSPACE_RECIPIENT_ADMISSION_KIND : string := "vgen-workspace-recipient-admission".
Definition _ADMISSION_FIELDS : list string :=
  ["version"; "kind"; "workspace_id"; "owner_user_id"; "owner_root_key_id"; "subject_user_id";
   "subject_device_id"; "enrollment_id"; "claim_sha256"; "root_key_id"; "root_signing_public_key";
   "root_encryption_public_key"; "device_signing_public_key"; "device_encryption_public_key";
   "device_certificate_sha256"; "registration_claim"; "registration_proof_signature"; "issued_at"].

Definition KEY_RECIPIENT_NOT_FOUND : Z := ErrorCode.to_int ErrorCode.KEY_RECIPIENT_NOT_FOUND.
Definition SIGNATURE_CODE : Z := ErrorCode.to_int ErrorCode.SIGNATURE_INVALID.

Section Recipients.
Context {E : Env}.

Definition digest_hex (b : bytes) : string := text (hexlify (sha256_digest b)).
Definition json_digest (v : json) : res string := t ← canonical_json v; Ok (digest_hex t).

(** ** Signed manifests *)

Definition sign_key_manifest (root_key : bytes) (manifest : dict) : res dict :=
  t ← canonical_json (JObj manifest);
  signature ← sign_message root_key t MANIFEST_CONTEXT;
  root_key_id ← root_signing_key_id (ed_public root_key);
  Ok [("manifest", JObj manifest); ("signer_key_id", JStr root_key_id);
      ("signature", JStr (b64url_encode signature))].

(** The [try] of [verify_key_manifest]: the payload, its signature and the signer. *)
Definition manifest_parts (signed : dict) (root_public : bytes) : res (option (dict * bytes)) :=
  m ← jitem "manifest" signed;
  payload ← py_dict m;
  s ← jitem "signature" signed;
  signature ← b64url_decode (py_str s) (Some 64);
  k ← jitem "signer_key_id" signed;
  Ok (if json_is k (_key_id root_public) then Some (payload, signature) else None).

Definition verify_key_manifest (signed : dict) (root_public : bytes) : res bool :=
  if negb (blen root_public =? 32) then Raise ValueError
  else
    match manifest_parts signed root_public with
    | Raise (KeyError | TypeError | ValueError) | Ok None => Ok false
    | Raise e => Raise e
    | Ok (Some (payload, signature)) =>
        t ← canonical_json (JObj payload);
        verify_message root_public t signature MANIFEST_CONTEXT
    end.

(** ** Admissions *)

Definition user_claim_digest (claim : dict) : res string := json_digest (JObj claim).

Definition build_workspace_recipient_admission_manifest (workspace_id owner_user_id owner_root_key_id
    subject_user_id : string) (enrollment_id : option string) (claim : dict)
    (registration_proof_signature : string) (issued_at : Z) : res dict :=
  device_id ← jitem "device_id" claim;
  claim_sha256 ← user_claim_digest claim;
  root_key_id ← jitem "root_key_id" claim;
  root_signing ← jitem "root_signing_public_key" claim;
  root_encryption ← jitem "root_encryption_public_key" claim;
  device_signing ← jitem "device_signing_public_key" claim;
  device_encryption ← jitem "device_encryption_public_key" claim;
  certificate ← jitem "device_certificate" claim;
  certificate_sha256 ← json_digest certificate;
  Ok [("version", JInt 1); ("kind", JStr WORKSPACE_RECIPIENT_ADMISSION_KIND);
      ("workspace_id", JStr workspace_id); ("owner_user_id", JStr owner_user_id);
      ("owner_root_key_id", JStr owner_root_key_id); ("subject_user_id", JStr subject_user_id);
      ("subject_device_id", device_id);
      ("enrollment_id", match enrollment_id with Some i => JStr i | None => JNull end);
      ("claim_sha256", JStr claim_sha256); ("root_key_id", root_key_id);
      ("root_signing_public_key", root_signing); ("root_encryption_public_key", root_encryption);
      ("device_signing_public_key", device_signing); ("device_encryption_public_key", device_encryption);
      ("device_certificate_sha256", JStr certificate_sha256); ("registration_claim", JObj claim);
      ("registration_proof_signature", JStr registration_proof_signature); ("issued_at", JInt issued_at)].

(** [expected is None or v == expected]. *)
Definition unless_none (expected : option string) (v : json) : bool :=
  match expected with None => true | Some s => json_is v s end.

(** The comparisons of the manifest with its expected values and with the claim. *)
Definition admission_binds (manifest claim : dict) (owner_key_id claim_digest certificate_digest : string)
    (workspace_id owner_user_id : string) (subject_user_id enrollment_id : option string) : bool :=
  let m k := jget_or k JNull manifest in
  let c k := jget_or k JNull claim in
  json_eqb (m "version") (JInt 1) && json_is (m "kind") WORKSPACE_RECIPIENT_ADMISSION_KIND &&
  json_is (m "workspace_id") workspace_id && json_is (m "owner_user_id") owner_user_id &&
  json_is (m "owner_root_key_id") owner_key_id && unless_none subject_user_id (m "subject_user_id") &&
  unless_none enrollment_id (m "enrollment_id") &&
  (json_eqb (m "enrollment_id") JNull || json_eqb (m "enrollment_id") (c "invite_id")) &&
  json_eqb (m "subject_device_id") (c "device_id") && json_is (m "claim_sha256") claim_digest &&
  json_eqb (m "root_key_id") (c "root_key_id") &&
  json_eqb (m "root_signing_public_key") (c "root_signing_public_key") &&
  json_eqb (m "root_encryption_public_key") (c "root_encryption_public_key") &&
  json_eqb (m "device_signing_public_key") (c "device_signing_public_key") &&
  json_eqb (m "device_encryption_public_key") (c "device_encryption_public_key") &&
  json_is (m "device_certificate_sha256") certificate_digest &&
  match m "issued_at" with JInt n => 0 <? n | _ => false end.

(** The body of the [try]. *)
Definition check_recipient_admission (signed : dict) (owner_root_signing_public_key workspace_id
    owner_user_id : string) (subject_user_id enrollment_id : option string) : res bool :=
  if negb (same_keys signed ["manifest"; "signer_key_id"; "signature"]) then Ok false
  else
    owner_public ← b64url_decode owner_root_signing_public_key (Some 32);
    match jget_or "manifest" JNull signed with
    | JObj manifest =>
        if negb (same_keys manifest _ADMISSION_FIELDS) then Ok false
        else
          match jget_or "registration_claim" JNull manifest,
                jget_or "registration_proof_signature" JNull manifest with
          | JObj claim, JStr proof =>
              certificate ← jitem "device_certificate" claim;
              signed_ok ← verify_key_manifest signed owner_public;
              owner_key_id ← root_signing_key_id owner_public;
              claim_digest ← user_claim_digest claim;
              certificate_digest ← json_digest certificate;
              if negb (signed_ok && json_is (jget_or "signer_key_id" JNull signed) owner_key_id &&
                       admission_binds manifest claim owner_key_id claim_digest certificate_digest
                         workspace_id owner_user_id subject_user_id enrollment_id) then Ok false
              else verify_user_registration_claim claim proof None
          | _, _ => Ok false
          end
    | _ => Ok false
    end.

Definition verify_workspace_recipient_admission (signed : dict) (owner_root_signing_public_key workspace_id
    owner_user_id : string) (subject_user_id enrollment_id : option string) : res bool :=
  match check_recipient_admission signed owner_root_signing_public_key workspace_id owner_user_id
          subject_user_id enrollment_id with
  | Raise (KeyError | TypeError | ValueError) => Ok false
  | r => r
  end.

Definition workspace_recipient_admission_digest (signed : dict) : res string := json_digest (JObj signed).

(** ** The stored admission, re-verified *)

Definition _workspace_admission_subject_id (workspace_id user_id : string) : string :=
  workspace_id +:+ ":" +:+ user_id.

(** [memberships m JOIN users u ON u.id=m.user_id], both active. *)
Definition active_members (d : db) (p : membership_row -> bool) : list user_row :=
  flat_map (fun m => select (fun u => (u_id u =d mb_user_id m) && (u_status u =d UActive)) (users d))
    (select (fun m => p m && (mb_status m =d SActive)) (memberships d)).

(** The first owner in table order. *)
Definition workspace_owner (d : db) (workspace_id : string) : option user_row :=
  head (active_members d (fun m => (mb_workspace_id m =d workspace_id) && (mb_role m =d RoleOwner))).

Definition stored_admission (d : db) (workspace_id user_id : string) : option manifest_row :=
  head (select (fun r => (km_subject_type r =d "workspace_recipient_admission") &&
                         (km_subject_id r =d _workspace_admission_subject_id workspace_id user_id) &&
                         (km_key_version r =? 1) && (km_revoked_at r =d None)) (key_manifests d)).

Record admission := MkAdmission {
  ad_signed : dict;
  ad_digest : string;
  ad_owner_user_id : string;
  ad_owner_root_signing_public_key : string;
  ad_claim : dict
}.

(** The [try]: whether the admission verifies, with its parts. *)
Definition load_admission (row : manifest_row) (owner : user_row) (workspace_id subject_user_id : string)
    : res (bool * dict * dict * json * json) :=
  v ← load_json (km_manifest row);
  manifest ← (match v with JObj m => Ok m | _ => Raise TypeError end);
  key_id ← jitem "owner_root_key_id" manifest;
  let signed := [("manifest", JObj manifest); ("signer_key_id", key_id);
                 ("signature", JStr (km_signature row))] in
  valid ← verify_workspace_recipient_admission signed (u_root_signing_public_key owner) workspace_id
            (u_id owner) (Some subject_user_id) None;
  claim ← jitem "registration_claim" manifest;
  proof ← jitem "registration_proof_signature" manifest;
  Ok (valid, signed, manifest, claim, proof).

(** The enrollment an admission was signed for. *)
Definition admitted_enrollment (d : db) (enrollment_id workspace_id subject_user_id subject_id : json)
    : option enrollment_row :=
  head (select (fun e => json_is enrollment_id (en_id e) &&
                         match en_workspace_id e with Some s => json_is workspace_id s | None => false end &&
                         is_member_kind (en_kind e) &&
                         match en_subject_user_id e with Some s => json_is subject_user_id s | None => false end &&
                         match en_subject_id e with Some s => json_is subject_id s | None => false end &&
                         ((en_state e =d EsPending) || (en_state e =d EsActive))) (enrollments d)).

(** [canonical_json(json.loads(row["claim"] or "null")) == canonical_json(record)]; no row
    or an error of reading makes it false. *)
Definition enrollment_records (row : option enrollment_row) (record : dict) : res bool :=
  match row with
  | None => Ok false
  | Some row =>
      let r :=
        v ← (match en_claim row with None => Ok JNull | Some t => loads_or JNull t end);
        stored ← canonical_json v;
        given ← canonical_json (JObj record);
        Ok (stored =d given) in
      match r with
      | Raise (TypeError | ValueError | JSONDecodeError) => Ok false
      | r => r
      end
  end.

(** The rows of the subject carry the keys of the claim. *)
Definition subject_binds (subject_user : option user_row) (device : option device_row) (claim : dict)
    : res bool :=
  let c k := jget_or k JNull claim in
  match subject_user, device with
  | Some user, Some device =>
      if negb (json_is (c "root_signing_public_key") (u_root_signing_public_key user) &&
               json_is (c "root_encryption_public_key") (u_root_encryption_public_key user) &&
               json_is (c "device_signing_public_key") (dv_signing_public_key device) &&
               json_is (c "device_encryption_public_key") (dv_encryption_public_key device)) then Ok false
      else
        v ← (match dv_certificate device with None => Raise TypeError | Some t => load_json (json_loads t) end);
        stored ← canonical_json v;
        given ← canonical_json (jget_or "device_certificate" (JObj []) claim);
        Ok (stored =d given)
  | _, _ => Ok false
  end.

Definition owner_self (workspace_id : string) : string := "workspace-owner-self:" +:+ workspace_id.

Definition _verified_workspace_admission (d : db) (workspace_id subject_user_id : string) : res admission :=
  match workspace_owner d workspace_id, stored_admission d workspace_id subject_user_id with
  | Some owner, Some row =>
      if negb (km_signer_user_id row =d Some (u_id owner)) then
        Raise (repo_err KEY_RECIPIENT_NOT_FOUND "RECIPIENT_ADMISSION_REQUIRED"
                 "A verified Workspace Owner admission is required for this key recipient." 409)
      else
        parts ← (match load_admission row owner workspace_id subject_user_id with
                 | Raise (KeyError | TypeError | ValueError | JSONDecodeError) =>
                     Ok (false, [], [], JObj [], JStr "")
                 | r => r
                 end : res (bool * dict * dict * json * json));
        let '(valid, signed, manifest, claim, proof) := parts in
        claim ← as_dict claim;
        let device_id := jget_or "device_id" JNull claim in
        let device := head (select (fun v => json_is device_id (dv_id v) && (dv_user_id v =d subject_user_id))
                              (devices d)) in
        bound ← (if valid : bool then subject_binds (active_user d subject_user_id) device claim else Ok false);
        let enrollment_id := jget_or "enrollment_id" JNull manifest in
        bound ← (if negb bound then Ok false
                 else if negb (json_eqb enrollment_id JNull) then
                   enrollment_records
                     (admitted_enrollment d enrollment_id (JStr workspace_id) (JStr subject_user_id) device_id)
                     [("registration_claim", JObj claim); ("proof_signature", proof)]
                 else Ok ((subject_user_id =d u_id owner) &&
                          json_is (jget_or "invite_id" JNull claim) (owner_self workspace_id)));
        if negb bound then
          Raise (repo_err SIGNATURE_CODE "RECIPIENT_ADMISSION_INVALID"
                   "The Workspace recipient admission identity chain is invalid." 409)
        else
          digest ← workspace_recipient_admission_digest signed;
          Ok (MkAdmission signed digest (u_id owner) (u_root_signing_public_key owner) claim)
  | _, _ =>
      Raise (repo_err KEY_RECIPIENT_NOT_FOUND "RECIPIENT_ADMISSION_REQUIRED"
               "A verified Workspace Owner admission is required for this key recipient." 409)
  end.

(** ** The recipients of a workspace *)

Record recipient := MkRecipient {
  rp_type : string;
  rp_id : string;
  rp_subject_user_id : string;
  rp_encryption_public_key : string;
  rp_key_sha256 : string;
  rp_certificate : option (json * string);
  rp_binding_digest : string;
  rp_admission : admission
}.

(** The members the binding digest covers. *)
Definition recipient_binding (type id subject key key_digest admission_digest : string)
    (certificate_digest : option string) : dict :=
  [("recipient_type", JStr type); ("recipient_id", JStr id); ("subject_user_id", JStr subject);
   ("encryption_public_key", JStr key); ("recipient_key_sha256", JStr key_digest);
   ("admission_digest", JStr admission_digest)] ++
  match certificate_digest with Some c => [("device_certificate_sha256", JStr c)] | None => [] end.

Definition make_recipient (type id subject key : string) (admitted : admission) (certificate : option json)
    : res recipient :=
  raw ← b64url_decode key (Some 32);
  let key_digest := digest_hex raw in
  cert ← (match certificate with
          | None => Ok None
          | Some c => h ← json_digest c; Ok (Some (c, h))
          end);
  binding ← json_digest (JObj (recipient_binding type id subject key key_digest (ad_digest admitted)
                                 (option_map snd cert)));
  Ok (MkRecipient type id subject key key_digest cert binding admitted).

Definition recipient_json (r : recipient) : json :=
  JObj (recipient_binding (rp_type r) (rp_id r) (rp_subject_user_id r) (rp_encryption_public_key r)
          (rp_key_sha256 r) (ad_digest (rp_admission r)) (option_map snd (rp_certificate r)) ++
        [("recipient_binding_digest", JStr (rp_binding_digest r))] ++
        match rp_certificate r with Some (c, _) => [("device_certificate", c)] | None => [] end ++
        [("signed_admission", JObj (ad_signed (rp_admission r)));
         ("admission_signer_user_id", JStr (ad_owner_user_id (rp_admission r)));
         ("admission_signer_root_signing_public_key",
            JStr (ad_owner_root_signing_public_key (rp_admission r)))]).

(** The device's certificate chains to the admitted root and names the row's keys;
    an error of reading makes it false. *)
Definition recipient_chain (device : device_row) (root_signing : bytes) (current : Z) : res (bool * json) :=
  let r :=
    certificate ← (match dv_certificate device with
                   | None => Raise TypeError
                   | Some t => load_json (json_loads t)
                   end);
    members ← (match certificate with JObj c => Ok c | _ => Raise TypeError end);
    payload ← jitem "payload" members;
    cert ← certificate_from_dict members;
    valid ← verify_device_certificate cert root_signing current;
    if negb valid then Ok (false, certificate)
    else
      p ← as_dict payload;
      Ok (json_is (jget_or "device_id" JNull p) (dv_id device) &&
          json_is (jget_or "signing_public_key" JNull p) (dv_signing_public_key device) &&
          json_is (jget_or "encryption_public_key" JNull p) (dv_encryption_public_key device), certificate) in
  match r with
  | Raise (KeyError | TypeError | ValueError | JSONDecodeError) => Ok (false, JObj [])
  | r => r
  end.

(** Run [body] over a list and collect the results. *)
Fixpoint for_collect {A B} (xs : list A) (body : A -> M B) : M (list B) :=
  match xs with
  | [] => mret []
  | x :: xs => y ← body x; ys ← for_collect xs body; mret (y :: ys)
  end.

Definition device_recipient (user_id : string) (admitted : admission) (root_signing : bytes)
    (device : device_row) : M recipient :=
  current ← now;
  chain ← lift_res (recipient_chain device root_signing (current / 1000000));
  _ ← check chain.1 (repo_err SIGNATURE_CODE "DEVICE_RECIPIENT_CERTIFICATE_INVALID"
        "A Device recipient certificate does not chain to its admitted User root." 409);
  lift_res (make_recipient "device" (dv_id device) user_id (dv_encryption_public_key device) admitted
              (Some chain.2)).

Definition user_recipients (workspace_id : string) (user : user_row) : M (list recipient) :=
  admitted ← query (fun d => _verified_workspace_admission d workspace_id (u_id user));
  admitted ← lift_res admitted;
  root ← lift_res (make_recipient "user_recovery" (u_id user) (u_id user) (u_root_encryption_public_key user)
                     admitted None);
  key ← lift_res (jitem "root_signing_public_key" (ad_claim admitted));
  root_signing ← lift_res (b64url_decode (py_str key) (Some 32));
  owned ← query (fun d => order_by (fun x y => str_leb (dv_id x) (dv_id y))
                            (select (fun v => (dv_user_id v =d u_id user) && (dv_status v =d SActive)) (devices d)));
  rest ← for_collect owned (device_recipient (u_id user) admitted root_signing);
  mret (root :: rest).

Definition recipient_leb (x y : recipient) : bool :=
  str_ltb (rp_type x) (rp_type y) || ((rp_type x =d rp_type y) && str_leb (rp_id x) (rp_id y)).

Definition _workspace_key_recipient_set (workspace_id : string) : M (list recipient) :=
  members ← query (fun d => order_by (fun x y => str_leb (u_id x) (u_id y))
                     (active_members d (fun m => mb_workspace_id m =d workspace_id)));
  groups ← for_collect members (user_recipients workspace_id);
  mret (order_by recipient_leb (concat groups)).

Definition _workspace_key_recipient_digest (recipients : list recipient) : res string :=
  json_digest (JList (map recipient_json recipients)).

(** ** Storing an admission *)

Definition admission_invalid (message : string) (status : Z) : exc :=
  repo_err SIGNATURE_CODE "RECIPIENT_ADMISSION_INVALID" message status.

(** The first [try]: the manifest and its subject, for this enrollment. *)
Definition presented_manifest (signed : dict) (enrollment_id : option string) : res (dict * string) :=
  m ← jitem "manifest" signed;
  manifest ← (match m with JObj m => Ok m | _ => Raise TypeError end);
  subject ← jitem "subject_user_id" manifest;
  if json_opt_eqb (jget "enrollment_id" manifest) (option_map JStr enrollment_id)
  then Ok (manifest, py_str subject) else Raise ValueError.

(** [valid_subject]: an owner's own admission, or one that repeats its enrollment's claim. *)
Definition valid_subject (d : db) (manifest : dict) (workspace_id owner_user_id subject_user_id : string)
    (enrollment_id : option string) : res bool :=
  match enrollment_id with
  | None =>
      claim ← as_dict (jget_or "registration_claim" (JObj []) manifest);
      Ok ((subject_user_id =d owner_user_id) &&
          json_is (jget_or "invite_id" JNull claim) (owner_self workspace_id))
  | Some i =>
      enrollment_records
        (admitted_enrollment d (JStr i) (JStr workspace_id) (JStr subject_user_id)
           (jget_or "subject_device_id" JNull manifest))
        [("registration_claim", jget_or "registration_claim" JNull manifest);
         ("proof_signature", jget_or "registration_proof_signature" JNull manifest)]
  end.

(** A stored admission for the same user may differ in its time only. *)
Definition same_semantics (stored : manifest_row) (manifest : dict) : res bool :=
  v ← load_json (km_manifest stored);
  m ← py_dict v;
  x ← canonical_json (JObj (jpop "issued_at" m));
  y ← canonical_json (JObj (jpop "issued_at" manifest));
  Ok (x =d y).

Definition put_workspace_recipient_admission (workspace_id owner_user_id : string)
    (enrollment_id : option string) (signed_admission : dict) : M admission :=
  _ ← require_owner workspace_id (Some owner_user_id);
  presented ← lift_res (match presented_manifest signed_admission enrollment_id with
                        | Raise (KeyError | TypeError | ValueError) =>
                            Raise (admission_invalid "The Workspace recipient admission is invalid." 422)
                        | r => r
                        end);
  let '(manifest, subject_user_id) := presented in
  stamp ← now;
  transaction (
    owner ← query (fun d => head (active_members d (fun m => (mb_workspace_id m =d workspace_id) &&
                                   (mb_user_id m =d owner_user_id) && (mb_role m =d RoleOwner))));
    valid ← lift_res (match owner with
                      | None => Ok false
                      | Some o => verify_workspace_recipient_admission signed_admission
                                    (u_root_signing_public_key o) workspace_id owner_user_id
                                    (Some subject_user_id) enrollment_id
                      end);
    _ ← check valid (admission_invalid "The Workspace recipient admission signature or binding is invalid." 422);
    bound ← query (fun d => valid_subject d manifest workspace_id owner_user_id subject_user_id enrollment_id);
    bound ← lift_res bound;
    _ ← check bound (admission_invalid "The admission does not match its User enrollment." 409);
    existing ← query (fun d => stored_admission d workspace_id subject_user_id);
    _ ← (match existing with
         | Some row =>
             same ← lift_res (same_semantics row manifest);
             check same (repo_err IDEMPOTENCY_CONFLICT "RECIPIENT_ADMISSION_CONFLICT"
               "A different admission is already pinned for this Workspace User." 409)
         | None =>
             signature ← lift_res (text_item "signature" signed_admission);
             id ← new_id "kmf";
             sql_insert key_manifests key_manifests_ok
               (Mk_manifest_row id "workspace_recipient_admission"
                  (_workspace_admission_subject_id workspace_id subject_user_id) 1 (JDoc (JObj manifest))
                  signature (Some owner_user_id) stamp None)
         end : M unit);
    bundle ← query (fun d => _verified_workspace_admission d workspace_id subject_user_id);
    lift_res bundle).

Definition workspace_recipient_admission (workspace_id owner_user_id subject_user_id : string) : M admission :=
  _ ← require_owner workspace_id (Some owner_user_id);
  bundle ← query (fun d => _verified_workspace_admission d workspace_id subject_user_id);
  lift_res bundle.

(** The decision route stores the owner's admission before it approves a member. *)
Definition decide_enrollment_route (enrollment_id user_id : string) (approve : bool)
    (signed_admission : option dict) : M enrollment_view :=
  view ← enrollment enrollment_id;
  _ ← (if approve && is_member_kind (en_kind (ev_row view)) then
         signed ← require signed_admission
           (SIGNATURE_INVALID [("reason", JStr "owner_signed_recipient_admission_required")]);
         _ ← put_workspace_recipient_admission
               (match en_workspace_id (ev_row view) with Some ws => ws | None => "None" end)
               user_id (Some enrollment_id) signed;
         mret tt
       else mret tt : M unit);
  decide_enrollment enrollment_id user_id approve.

(** ** Rotation *)

Definition active_workspace (d : db) (workspace_id : string) : option workspace_row :=
  head (select (fun s => (ws_id s =d workspace_id) && (ws_status s =d SpActive)) (workspaces d)).

Definition workspace_missing : exc :=
  repo_err WORKSPACE_NOT_FOUND "WORKSPACE_NOT_FOUND" "Workspace not found." 404.

Definition workspace_key_rotation_recipients (workspace_id user_id : string)
    : M (Z * string * list recipient) :=
  _ ← require_owner workspace_id (Some user_id);
  found ← transaction (
    workspace ← query (fun d => active_workspace d workspace_id);
    workspace ← require workspace workspace_missing;
    recipients ← _workspace_key_recipient_set workspace_id;
    mret (ws_key_version workspace, recipients));
  digest ← lift_res (_workspace_key_recipient_digest found.2);
  mret (found.1, digest, found.2).

Record KeyGrant := MkGrant {
  gr_recipient_type : string;
  gr_recipient_id : string;
  gr_key_version : Z;
  gr_algorithm : string;
  gr_envelope : dict;
  gr_signed_manifest : dict
}.

Definition grant_pair (g : KeyGrant) : string * string := (gr_recipient_type g, gr_recipient_id g).
Definition recipient_pair (r : recipient) : string * string := (rp_type r, rp_id r).
Definition envelope_pair (e : key_envelope_row) : string * string := (ke_recipient_type e, ke_recipient_id e).

Definition key_unavailable (message : string) : exc :=
  repo_err 400002 "KEY_VERSION_UNAVAILABLE" message 409.

(** One grant per recipient, all of the new version. *)
Definition grants_valid (new_key_version : Z) (grants : list KeyGrant) : bool :=
  distinct_by grant_pair grants && forallb (fun g => gr_key_version g =? new_key_version) grants.

Definition envelope_subject_id (workspace_id type id : string) : string :=
  workspace_id +:+ ":" +:+ type +:+ ":" +:+ id.

(** The envelopes of a version joined with their manifests. *)
Definition stored_rotation (d : db) (workspace_id : string) (key_version : Z)
    : list (key_envelope_row * manifest_row) :=
  flat_map (fun e => map (fun m => (e, m)) (select (fun m =>
      (km_subject_type m =d "workspace_key_envelope") &&
      (km_subject_id m =d envelope_subject_id workspace_id (ke_recipient_type e) (ke_recipient_id e)) &&
      (km_key_version m =? ke_key_version e) && (km_revoked_at m =d None)) (key_manifests d)))
    (select (fun e => (ke_workspace_id e =d Some workspace_id) && (ke_task_id e =d None) &&
                      (ke_key_version e =? key_version) && (ke_revoked_at e =d None)) (key_envelopes d)).

(** One stored row agrees with the grant of its recipient. *)
Definition stored_grant_matches (user_id : string) (grants : list KeyGrant)
    (row : key_envelope_row * manifest_row) : res bool :=
  let '(e, m) := row in
  match List.find (fun g => grant_pair g =d envelope_pair e) grants with
  | None => Ok false
  | Some g =>
      if negb (ke_algorithm e =d gr_algorithm g) then Ok false
      else
        stored ← load_json (json_loads (ke_envelope e));
        if negb (json_eqb stored (JObj (gr_envelope g))) then Ok false
        else
          stored ← load_json (km_manifest m);
          given ← jitem "manifest" (gr_signed_manifest g);
          if negb (json_eqb stored given) then Ok false
          else
            signature ← jitem "signature" (gr_signed_manifest g);
            Ok (json_is signature (km_signature m) && (km_signer_user_id m =d Some user_id))
  end.

Fixpoint all_match {A} (f : A -> res bool) (l : list A) : res bool :=
  match l with
  | [] => Ok true
  | x :: l => ok ← f x; if ok : bool then all_match f l else Ok false
  end.

Definition _stored_rotation_matches (d : db) (workspace_id : string) (key_version : Z) (user_id : string)
    (grants : list KeyGrant) : res bool :=
  let rows := stored_rotation d workspace_id key_version in
  if negb (Nat.eqb (length rows) (length grants)) then Ok false
  else all_match (stored_grant_matches user_id grants) rows.

(** The envelope and the manifest of one recipient. *)
Definition store_grant (workspace_id user_id : string) (new_key_version stamp : Z) (grants : list KeyGrant)
    (r : recipient) : M unit :=
  g ← require (List.find (fun g => grant_pair g =d recipient_pair r) grants) KeyError;
  id ← new_id "ken";
  _ ← sql_insert key_envelopes key_envelopes_ok
        (Mk_key_envelope_row id (Some workspace_id) None (rp_type r) (rp_id r) new_key_version
           (gr_algorithm g) (json_text (JObj (gr_envelope g))) stamp None);
  id ← new_id "kmf";
  manifest ← lift_res (jitem "manifest" (gr_signed_manifest g));
  signature ← lift_res (text_item "signature" (gr_signed_manifest g));
  sql_insert key_manifests key_manifests_ok
    (Mk_manifest_row id "workspace_key_envelope" (envelope_subject_id workspace_id (rp_type r) (rp_id r))
       new_key_version (JDoc manifest) signature (Some user_id) stamp None).

(** [set(grants) == {recipients}]. *)
Definition covers (grants : list KeyGrant) (recipients : list recipient) : bool :=
  forallb (fun g => existsb (fun r => recipient_pair r =d grant_pair g) recipients) grants &&
  forallb (fun r => existsb (fun g => grant_pair g =d recipient_pair r) grants) recipients.

(** The count of recipients and whether the call replayed an earlier rotation. *)
Definition rotate_workspace_key (workspace_id user_id rotation_id : string)
    (expected_key_version new_key_version : Z) (recipient_set_digest : string) (grants : list KeyGrant)
    : M (Z * bool) :=
  _ ← require_owner workspace_id (Some user_id);
  _ ← check (new_key_version =? expected_key_version + 1)
        (key_unavailable "Workspace key rotations must advance exactly one version.");
  _ ← check (grants_valid new_key_version grants)
        (repo_err VALIDATION_FAILED "VALIDATION_FAILED"
           "Workspace key rotation envelope set is invalid." 422);
  stamp ← now;
  transaction (
    admin ← query (fun d => existsb (fun m => (mb_workspace_id m =d workspace_id) && (mb_user_id m =d user_id) &&
                                              (mb_status m =d SActive) && (mb_role m =d RoleOwner)) (memberships d));
    workspace ← query (fun d => active_workspace d workspace_id);
    _ ← check admin (repo_err FORBIDDEN "WORKSPACE_OWNER_REQUIRED"
          "Workspace Owner access is required for key rotation." 403);
    workspace ← require workspace workspace_missing;
    recipients ← _workspace_key_recipient_set workspace_id;
    current_digest ← lift_res (_workspace_key_recipient_digest recipients);
    _ ← check (String.eqb current_digest recipient_set_digest && covers grants recipients)
          (key_unavailable "Workspace key recipients changed; fetch a new rotation snapshot.");
    replayed ← query (fun d => if ws_key_version workspace =? new_key_version
                               then _stored_rotation_matches d workspace_id new_key_version user_id grants
                               else Ok false);
    replayed ← lift_res replayed;
    if replayed : bool then mret (Z.of_nat (length recipients), true)
    else
      _ ← check (ws_key_version workspace =? expected_key_version)
            (key_unavailable "The Workspace key version changed during rotation.");
      existing ← query (fun d => existsb (fun e => (ke_workspace_id e =d Some workspace_id) &&
                                   (ke_task_id e =d None) && (ke_key_version e =? new_key_version)) (key_envelopes d));
      _ ← check (negb existing)
            (key_unavailable "The target Workspace key version already contains envelopes.");
      _ ← for_each recipients (store_grant workspace_id user_id new_key_version stamp grants);
      updated ← sql_update workspaces (fun s => (ws_id s =d workspace_id) &&
                                                (ws_key_version s =? expected_key_version) &&
                                                (ws_status s =d SpActive))
                  (fun s => s <| ws_key_version := new_key_version |> <| ws_updated_at := stamp |>);
      _ ← check (updated =? 1) (key_unavailable "The Workspace key version changed during rotation.");
      _ ← audit "user" user_id (Some workspace_id) "workspace.key_rotated" "workspace" workspace_id
            [("rotation_id", JStr rotation_id); ("previous_key_version", JInt expected_key_version);
             ("key_version", JInt new_key_version);
             ("recipient_count", JInt (Z.of_nat (length recipients)))] stamp;
      mret (Z.of_nat (length recipients), false)).

(** ** Single grants *)

Definition recipient_missing : exc :=
  repo_err KEY_RECIPIENT_NOT_FOUND "KEY_RECIPIENT_NOT_FOUND" "Key recipient not found." 404.

Definition workspace_key_recipient (workspace_id user_id recipient_type recipient_id : string)
    : M (recipient * Z) :=
  _ ← require_owner workspace_id (Some user_id);
  _ ← check (negb (String.eqb recipient_type "service"))
        (repo_err KEY_RECIPIENT_NOT_FOUND "SERVICE_RECIPIENT_ADMISSION_UNSUPPORTED"
           "Service WDK recipients require a future verifiable admission protocol." 409);
  recipients ← _workspace_key_recipient_set workspace_id;
  workspace ← query (fun d => active_workspace d workspace_id);
  r ← require (List.find (fun r => recipient_pair r =d (recipient_type, recipient_id)) recipients)
        recipient_missing;
  workspace ← require workspace recipient_missing;
  mret (r, ws_key_version workspace).

(** The manifest names the recipient's key, admission and binding. *)
Definition manifest_names (manifest : dict) (r : recipient) : bool :=
  json_is (jget_or "recipient_public_key_sha256" JNull manifest) (rp_key_sha256 r) &&
  json_is (jget_or "recipient_admission_sha256" JNull manifest) (ad_digest (rp_admission r)) &&
  json_is (jget_or "recipient_binding_digest" JNull manifest) (rp_binding_digest r).

Definition same_recipient (x y : recipient) : bool :=
  (rp_encryption_public_key x =d rp_encryption_public_key y) && (rp_key_sha256 x =d rp_key_sha256 y) &&
  (ad_digest (rp_admission x) =d ad_digest (rp_admission y)) && (rp_binding_digest x =d rp_binding_digest y).

(** [INSERT .. ON CONFLICT(subject_type,subject_id,key_version) DO UPDATE]. *)
Definition upsert_manifest (r : manifest_row) : M unit :=
  existing ← query (fun d => has_key manifest_key (key_manifests d) (manifest_key r));
  if existing : bool then
    _ ← sql_update key_manifests (fun m => manifest_key m =d manifest_key r)
          (fun m => m <| km_manifest := km_manifest r |> <| km_signature := km_signature r |>
                      <| km_signer_user_id := km_signer_user_id r |> <| km_created_at := km_created_at r |>
                      <| km_revoked_at := None |>);
    mret tt
  else sql_insert key_manifests key_manifests_ok r.

Definition grant_workspace_key (workspace_id user_id : string) (g : KeyGrant) : M string :=
  found ← workspace_key_recipient workspace_id user_id (gr_recipient_type g) (gr_recipient_id g);
  let '(r, version) := found in
  _ ← check (gr_key_version g =? version) (key_unavailable "The Workspace key version is not current.");
  _ ← check (match jget "manifest" (gr_signed_manifest g) with
             | Some (JObj manifest) => manifest_names manifest r
             | _ => false
             end)
        (repo_err SIGNATURE_CODE "KEY_RECIPIENT_BINDING_INVALID"
           "The key envelope is not bound to the verified recipient admission." 422);
  stamp ← now;
  envelope_id ← new_id "ken";
  _ ← transaction (
    recipients ← _workspace_key_recipient_set workspace_id;
    _ ← check (match List.find (fun x => recipient_pair x =d grant_pair g) recipients with
               | Some current => same_recipient current r
               | None => false
               end)
          (repo_err 400002 "KEY_RECIPIENT_CHANGED"
             "The verified key recipient changed before the envelope was stored." 409);
    _ ← sql_update key_envelopes (fun e => (ke_workspace_id e =d Some workspace_id) && (ke_task_id e =d None) &&
                                           (envelope_pair e =d grant_pair g) &&
                                           (ke_key_version e =? gr_key_version g) && (ke_revoked_at e =d None))
          (fun e => e <| ke_revoked_at := Some stamp |>);
    _ ← sql_insert key_envelopes key_envelopes_ok
          (Mk_key_envelope_row envelope_id (Some workspace_id) None (gr_recipient_type g) (gr_recipient_id g)
             (gr_key_version g) (gr_algorithm g) (json_text (JObj (gr_envelope g))) stamp None);
    id ← new_id "kmf";
    manifest ← lift_res (jitem "manifest" (gr_signed_manifest g));
    signature ← lift_res (text_item "signature" (gr_signed_manifest g));
    upsert_manifest (Mk_manifest_row id "workspace_key_envelope"
                       (envelope_subject_id workspace_id (gr_recipient_type g) (gr_recipient_id g))
                       (gr_key_version g) (JDoc manifest) signature (Some user_id) stamp None));
  mret envelope_id.

(** ** Reading envelopes *)

Definition envelope_denied : exc :=
  repo_err FORBIDDEN "KEY_ENVELOPE_ACCESS_DENIED" "Key envelope access denied." 403.

(** A principal reads its own envelopes only. *)
Definition envelope_reader (workspace_id : string) (principal_type : principal) (principal_id : string)
    (user_id : option string) (recipient_type recipient_id : string) : M unit :=
  match principal_type with
  | PService =>
      service ← query (fun d => existsb (fun s => (sv_id s =d principal_id) && (sv_workspace_id s =d workspace_id) &&
                                                  (sv_status s =d SvActive)) (services d));
      check (service && String.eqb recipient_type "service" && String.eqb recipient_id principal_id)
        envelope_denied
  | _ =>
      _ ← require_member workspace_id user_id;
      allowed ← query (fun d =>
        if String.eqb recipient_type "user_recovery" then Some recipient_id =d user_id
        else if String.eqb recipient_type "device" then
          match head (select (fun v => (dv_id v =d recipient_id) && (dv_status v =d SActive)) (devices d)) with
          | Some device => (Some (dv_user_id device) =d user_id) && String.eqb recipient_id principal_id
          | None => false
          end
        else false);
      check allowed envelope_denied
  end.

(** The envelopes of a recipient, newest first. *)
Definition envelopes_of (d : db) (workspace_id recipient_type recipient_id : string)
    (key_version : option Z) : list key_envelope_row :=
  order_by (fun x y => (ke_key_version y <? ke_key_version x) ||
                       ((ke_key_version x =? ke_key_version y) && (ke_created_at y <=? ke_created_at x)))
    (select (fun e => (ke_workspace_id e =d Some workspace_id) && (ke_task_id e =d None) &&
                      (ke_recipient_type e =d recipient_type) && (ke_recipient_id e =d recipient_id) &&
                      (ke_revoked_at e =d None) &&
                      match key_version with Some v => ke_key_version e =? v | None => true end)
       (key_envelopes d)).

(** The signed manifest shown with an envelope, with its signer's root key and role. *)
Definition manifest_of (d : db) (workspace_id : string) (e : key_envelope_row)
    : option (manifest_row * option string * option member_role) :=
  match head (select (fun m => (km_subject_type m =d "workspace_key_envelope") &&
                (km_subject_id m =d envelope_subject_id workspace_id (ke_recipient_type e) (ke_recipient_id e)) &&
                (km_key_version m =? ke_key_version e) && (km_revoked_at m =d None)) (key_manifests d)) with
  | None => None
  | Some m =>
      let signer := str_or_empty (km_signer_user_id m) in
      Some (m, option_map u_root_signing_public_key (active_user d signer), decider_role d workspace_id signer)
  end.

Definition workspace_key_envelopes (workspace_id : string) (principal_type : principal) (principal_id : string)
    (user_id : option string) (recipient_type recipient_id : string) (key_version : option Z)
    : M (list (key_envelope_row * option (manifest_row * option string * option member_role))) :=
  _ ← envelope_reader workspace_id principal_type principal_id user_id recipient_type recipient_id;
  query (fun d => map (fun e => (e, manifest_of d workspace_id e))
                    (envelopes_of d workspace_id recipient_type recipient_id key_version)).

(** ** The grants a route accepts ([gateway/app.py]) *)

Definition grant_fields (rotation : bool) : list string :=
  ["version"; "kind"; "workspace_id"; "recipient_type"; "recipient_id"; "key_version"; "algorithm";
   "envelope_sha256"; "signer_root_key_id"; "recipient_public_key_sha256"; "recipient_admission_sha256";
   "recipient_binding_digest"; "issued_at"] ++ if rotation then ["rotation_id"; "recipient_set_digest"] else [].

(** The second [try]: the signed manifest of a grant, at clock [current]. *)
Definition grant_manifest_valid (workspace_id : string) (g : KeyGrant) (user : option user_row) (r : recipient)
    (envelope_digest : string) (rotation : option (string * string)) (current : Z) : res bool :=
  v ← jitem "manifest" (gr_signed_manifest g);
  manifest ← (match v with JObj m => Ok m | _ => Raise TypeError end);
  issued_at ← jitem "issued_at" manifest;
  let m k := jget_or k JNull manifest in
  if negb (match issued_at with
           | JInt n => (0 <? n) && (n <=? current + 300) &&
                       (match rotation with Some _ => true | None => current - 600 <=? n end)
           | _ => false
           end && same_keys manifest (grant_fields (match rotation with Some _ => true | None => false end)))
  then Ok false
  else
    match user with
    | None => Ok false
    | Some user =>
        root ← b64url_decode (u_root_signing_public_key user) (Some 32);
        signed ← verify_key_manifest (gr_signed_manifest g) root;
        Ok (signed && json_eqb (m "version") (JInt 1) && json_is (m "kind") "vgen-workspace-key-envelope" &&
            json_is (m "workspace_id") workspace_id && json_is (m "recipient_type") (gr_recipient_type g) &&
            json_is (m "recipient_id") (gr_recipient_id g) &&
            json_eqb (m "key_version") (JInt (gr_key_version g)) && json_is (m "algorithm") (gr_algorithm g) &&
            json_is (m "envelope_sha256") envelope_digest &&
            json_opt_eqb (jget "signer_root_key_id" manifest) (jget "signer_key_id" (gr_signed_manifest g)) &&
            manifest_names manifest r &&
            match rotation with
            | None => true
            | Some (id, set_digest) =>
                json_is (m "rotation_id") id && json_is (m "recipient_set_digest") set_digest
            end)
    end.

Definition validate_workspace_key_grant (workspace_id user_id : string) (g : KeyGrant)
    (rotation : option (string * string)) : M unit :=
  let invalid reason := VGenError VALIDATION_FAILED [("reason", JStr reason)] in
  wrapped ← lift_res (match (c ← hpke_from_dict (JObj (gr_envelope g));
                             h ← json_digest (JObj (gr_envelope g)); Ok (c, h)) with
                      | Raise (KeyError | TypeError | ValueError) => Raise (invalid "invalid_hpke_envelope")
                      | r => r
                      end);
  _ ← check (String.eqb (gr_algorithm g) HPKE_ALGORITHM && String.eqb (hc_algorithm wrapped.1) HPKE_ALGORITHM &&
             (blen (hc_ciphertext wrapped.1) =? 48)) (invalid "invalid_workspace_key_ciphertext");
  user ← query (fun d => active_user d user_id);
  found ← workspace_key_recipient workspace_id user_id (gr_recipient_type g) (gr_recipient_id g);
  current ← now;
  valid ← lift_res (match grant_manifest_valid workspace_id g user found.1 wrapped.2 rotation
                            (current / 1000000) with
                    | Raise (KeyError | TypeError | ValueError) => Ok false
                    | r => r
                    end);
  check valid (vgen_error ErrorCode.SIGNATURE_INVALID).

Definition rotate_workspace_key_route (workspace_id user_id rotation_id : string)
    (expected_key_version new_key_version : Z) (recipient_set_digest : string) (grants : list KeyGrant)
    : M (Z * bool) :=
  _ ← require_owner workspace_id (Some user_id);
  _ ← for_each grants (fun g => validate_workspace_key_grant workspace_id user_id g
                                  (Some (rotation_id, recipient_set_digest)));
  rotate_workspace_key workspace_id user_id rotation_id expected_key_version new_key_version
    recipient_set_digest grants.

Definition grant_workspace_key_route (workspace_id user_id : string) (g : KeyGrant) : M string :=
  _ ← validate_workspace_key_grant workspace_id user_id g None;
  grant_workspace_key workspace_id user_id g.
End Recipients.
