(* ===== verification/Onboard.v ===== *)
(** * Worker enrollment ([src/vgen/gateway/repository.py], "worker invites")

    A workspace admin invites a worker with a one-use secret, the worker claims the invite
    under its own key, and the same admin approves it with an owner certificate and an
    allocation proof under their root key; the approval registers the worker.  A time inside
    a stored record is in microseconds, as in the columns of the tables. *)

From S2P Require Import Prelude Python Bytes Errors Metadata Schema Store Capability Access Scheduler Fleet.
From S2P Require Import Usage Encoding Signing Maintenance Invariant Lifecycle Requests Sessions Enrollment Recipients.

Open Scope Z_scope.

Definition _WORKER_ENROLLMENT_CONTEXT : bytes := encode "vgen-worker-enrollment-v1".

Definition WORKER_CLAIM_FIELDS : list string :=
  ["version"; "kind"; "invite_id"; "worker_key_id"; "name"; "signing_public_key"; "encryption_public_key";
   "executor_type"; "executor_version"; "capabilities"; "capacity"].

(** The identity facts of a claim that are stored. *)
Definition SAFE_CLAIM_FIELDS : list string :=
  ["version"; "kind"; "invite_id"; "worker_key_id"; "name"; "signing_public_key"; "encryption_public_key";
   "executor_type"; "executor_version"; "capacity"].

Definition OWNER_CERTIFICATE_FIELDS : list string :=
  ["version"; "kind"; "owner_root_key_id"; "worker_key_id"; "worker_signing_public_key";
   "worker_encryption_public_key"; "issued_at"].

(** [except (KeyError, TypeError, ValueError, json.JSONDecodeError)]. *)
Definition or_invalid {A} (invalid : A) (r : res A) : res A :=
  match r with
  | Raise (KeyError | TypeError | ValueError | JSONDecodeError) => Ok invalid
  | r => r
  end.

(** [float(v)] of a time in a record; the code stores no text there. *)
Definition record_time (v : json) : res Z :=
  match v with
  | JFloat (FFin m e) => Ok (float_trunc m e)
  | JInt z => Ok z
  | JBool b => Ok (if b then 1 else 0)
  | JFloat (FInf false) => Raise OverflowError
  | JFloat _ | JStr _ => Raise ValueError
  | _ => Raise TypeError
  end.

Definition stored_time (t : Z) : json := JFloat (FFin t 0).

(** [isinstance(v, (int, float))]. *)
Definition is_number (v : json) : bool := match v with JInt _ | JFloat _ | JBool _ => true | _ => false end.

Definition invite_refused (status : Z) : exc :=
  invite_invalid "The Worker invite is invalid, expired, or already used." status.

Definition record_invalid (message : string) : exc :=
  repo_err VALIDATION_FAILED "WORKER_ENROLLMENT_RECORD_INVALID" message 409.

Definition already_claimed : exc :=
  repo_err IDEMPOTENCY_CONFLICT "IDEMPOTENCY_CONFLICT"
    "The Worker invite was already claimed with different key material." 409.

Definition not_reloaded : exc := OtherException "RuntimeError".

(** The columns of an enrollment shown to a worker or an admin. *)
Record worker_enrollment := MkWorkerEnrollment {
  we_id : string;
  we_kind : enroll_kind;
  we_method : enroll_method;
  we_state : enroll_state;
  we_workspace_id : option string;
  we_pool_id : option string;
  we_issuer_user_id : option string;
  we_subject_user_id : option string;
  we_subject_id : option string;
  we_expires_at : option Z;
  we_claimed_at : option Z;
  we_decided_at : option Z;
  we_decided_by_user_id : option string;
  we_created_at : Z;
  we_updated_at : Z
}.

Record worker_enrollment_view := MkWorkerEnrollmentView {
  wv_enrollment : worker_enrollment;
  wv_worker_key_id : option json;
  wv_claim : option dict;
  (** The stored allocation, or the pending one as a document. *)
  wv_allocation : option (allocation_row + dict);
  wv_worker : option (worker_row * dict)
}.

Section Onboard.
Context {E : Env}.

(** ** Records and claims *)

(** The record of an enrollment, and its configuration. *)
Definition _worker_enrollment_record (row : enrollment_row) : res (dict * dict) :=
  match loads_or (JObj []) (default (JBad EmptyString) (en_claim row)) with
  | Ok (JObj value) =>
      match jget "config" value with
      | Some (JObj config) => Ok (value, config)
      | _ => Raise (record_invalid "The Worker enrollment record is invalid.")
      end
  | _ => Raise (record_invalid "The Worker enrollment record is invalid.")
  end.

(** [record.get("worker_claim")], when it is an object. *)
Definition claim_in (record : dict) : option dict :=
  match jget "worker_claim" record with Some (JObj claim) => Some claim | _ => None end.

Definition _safe_worker_enrollment_claim (claim : dict) : res dict :=
  executor_type ← jitem "executor_type" claim;
  items ← res_map (fun k => v ← jitem k claim; Ok (k, v)) SAFE_CLAIM_FIELDS;
  capabilities ← _worker_capabilities (JObj []) (py_str executor_type);
  Ok (jset "capabilities" (JObj capabilities) items).

(** The body of the [try]. *)
Definition check_worker_claim (claim : dict) (proof_signature : string) : res (option (bytes * bytes)) :=
  signing_text ← jitem "signing_public_key" claim;
  signing_key ← b64url_decode (py_str signing_text) (Some 32);
  encryption_text ← jitem "encryption_public_key" claim;
  encryption_key ← b64url_decode (py_str encryption_text) (Some 32);
  signature ← b64url_decode proof_signature (Some 64);
  key_id ← device_key_id signing_key;
  let item k := jget_or k JNull claim in
  if negb (same_keys claim WORKER_CLAIM_FIELDS && json_eqb (item "version") (JInt 1) &&
           json_is (item "kind") "vgen-worker-enrollment-claim" && json_is (item "worker_key_id") key_id &&
           claim_text (item "invite_id") &&
           match item "name" with JStr s => nonblank s | _ => false end &&
           match item "executor_type" with JStr s => nonblank s | _ => false end &&
           match item "executor_version" with JStr _ => true | _ => false end &&
           match item "capabilities" with JObj _ => true | _ => false end &&
           match item "capacity" with JInt n => (1 <=? n) && (n <=? 64) | _ => false end)
  then Ok None
  else
    text ← canonical_json (JObj claim);
    signed ← verify_message signing_key text signature _WORKER_ENROLLMENT_CONTEXT;
    Ok (if signed : bool then Some (signing_key, encryption_key) else None).

Definition _verify_worker_enrollment_claim (claim : dict) (proof_signature : string) : res (bytes * bytes) :=
  keys ← or_invalid None (check_worker_claim claim proof_signature);
  match keys with
  | Some keys => Ok keys
  | None => Raise (repo_err (ErrorCode.to_int ErrorCode.SIGNATURE_INVALID) "SIGNATURE_INVALID"
                     "The Worker enrollment proof is invalid." 401)
  end.

(** ** Views *)

Definition pending_allocation (row : enrollment_row) (record config : dict) : dict :=
  [("id", jget_or "allocation_id" JNull config); ("worker_id", jget_or "worker_id" JNull config);
   ("workspace_id", json_opt_str (en_workspace_id row)); ("pool_id", json_opt_str (en_pool_id row));
   ("owner_consent_at", jget_or "owner_consent_at" JNull record); ("workspace_approved_at", JNull);
   ("approved_by_user_id", JNull); ("status", JStr "pending_workspace")].

(** The row a text identifies. *)
Definition find_json {R} (key : R -> string) (id : json) (rows : list R) : option R :=
  match id with JStr i => find_by key i rows | _ => None end.

Definition shown_enrollment (row : enrollment_row) : worker_enrollment :=
  MkWorkerEnrollment (en_id row) (en_kind row) (en_method row) (en_state row) (en_workspace_id row) (en_pool_id row)
    (en_issuer_user_id row) (en_subject_user_id row) (en_subject_id row) (en_expires_at row) (en_claimed_at row)
    (en_decided_at row) (en_decided_by_user_id row) (en_created_at row) (en_updated_at row).

Definition _worker_enrollment_value (row : enrollment_row) (include_claim : bool) : M worker_enrollment_view :=
  parts ← lift_res (_worker_enrollment_record row);
  let '(record, config) := parts : dict * dict in
  let claim := claim_in record in
  allocation ← (match claim, jget_or "owner_consent_at" JNull record with
                | None, _ | _, JNull => mret None
                | Some _, _ =>
                    stored ← query (fun d => find_json al_id (jget_or "allocation_id" JNull config) (worker_allocations d));
                    match stored with
                    | None => mret (Some (inr (pending_allocation row record config)))
                    | Some a =>
                        _ ← lift_res (match al_allocation_proof a with Some t => load_json t | None => Ok JNull end);
                        mret (Some (inl a))
                    end
                end : M (option (allocation_row + dict)));
  worker ← (if (en_state row =d EsActive) && truthy (jget_or "worker_id" JNull config) then
              stored ← query (fun d => find_json w_id (jget_or "worker_id" JNull config) (workers d));
              match stored with
              | Some w => view ← _worker_value w; mret (Some view)
              | None => mret None
              end
            else mret None : M (option (worker_row * dict)));
  mret (MkWorkerEnrollmentView (shown_enrollment row)
          (match claim with Some c => Some (jget_or "worker_key_id" JNull c) | None => None end)
          (if include_claim then claim else None) allocation worker).

(** ** Invites *)

(** A manager broker the admin owns, if one is named. *)
Definition own_broker (broker_id : json) (user_id : string) (message : string) : M unit :=
  match broker_id with
  | JNull => mret tt
  | _ =>
      broker ← query (fun d => match find_json br_id broker_id (brokers d) with
                               | Some b => (br_owner_user_id b =d user_id) && (br_status b =d SActive)
                               | None => false
                               end);
      check broker (repo_err FORBIDDEN "BROKER_ACCESS_DENIED" message 403)
  end.

Definition active_pool (d : db) (pool_id workspace_id : option string) : bool :=
  existsb (fun p => (Some (po_id p) =d pool_id) && (Some (po_workspace_id p) =d workspace_id) &&
                    (po_status p =d SpActive)) (pools d).

Definition worker_config (worker_id allocation_id name executor_type executor_version : string) (capacity : Z)
    (manager_broker_id : option string) (rate_microtokens_per_second : Z) : dict :=
  [("version", JInt 1); ("worker_id", JStr worker_id); ("allocation_id", JStr allocation_id); ("name", JStr name);
   ("executor_type", JStr executor_type); ("executor_version", JStr executor_version); ("capacity", JInt capacity);
   ("manager_broker_id", json_opt_str manager_broker_id);
   ("rate_microtokens_per_second", JInt rate_microtokens_per_second)].

Definition create_worker_invite (issuer_user_id workspace_id pool_id method name executor_type
    executor_version : string) (capacity : Z) (manager_broker_id : option string)
    (rate_microtokens_per_second ttl_seconds : Z) : M (worker_enrollment_view * string) :=
  _ ← require_user (Some issuer_user_id);
  _ ← require_admin workspace_id (Some issuer_user_id);
  _ ← check (String.eqb method "invite_approval")
        (repo_err VALIDATION_FAILED "INVALID_ENROLLMENT_METHOD" "Worker enrollment requires invite_approval." 422);
  pool ← query (fun d => active_pool d (Some pool_id) (Some workspace_id));
  _ ← check pool (repo_err POOL_NOT_FOUND "POOL_NOT_FOUND" "Pool not found." 404);
  _ ← own_broker (json_opt_str manager_broker_id) issuer_user_id "Manager broker is not owned by the Worker owner.";
  invite_id ← new_id "inv";
  worker_id ← new_id "wrk";
  allocation_id ← new_id "alc";
  secret ← token_urlsafe;
  stamp ← now;
  let record := [("config", JObj (worker_config worker_id allocation_id name executor_type executor_version capacity
                                    manager_broker_id rate_microtokens_per_second))] in
  _ ← transaction (
    _ ← sql_insert enrollments enrollments_ok
          (Mk_enrollment_row invite_id EkWorker EmInviteApproval EsIssued (Some workspace_id) (Some pool_id)
             (Some issuer_user_id) None None None (JDoc (JList [])) None (Some (sha256_hex secret))
             (Some (JDoc (JObj record))) (Some (stamp + seconds ttl_seconds)) None None None stamp stamp);
    audit "user" issuer_user_id (Some workspace_id) "worker.enrollment_invited" "enrollment" invite_id
      [("pool_id", JStr pool_id); ("worker_id", JStr worker_id)] stamp);
  row ← query (fun d => find_by en_id invite_id (enrollments d));
  row ← require row not_reloaded;
  view ← _worker_enrollment_value row false;
  mret (view, secret).

(** ** Claims *)

(** Whether an earlier claim of the invite, if any, was this one. *)
Definition same_claim (existing : option dict) (claim : dict) : res (option bool) :=
  match existing with
  | None => Ok None
  | Some c => a ← canonical_json (JObj c); b ← canonical_json (JObj claim); Ok (Some (bool_decide (a = b)))
  end.

Definition claim_matches_config (claim config : dict) (key_id : string) : bool :=
  let same k := json_eqb (jget_or k JNull claim) (jget_or k JNull config) in
  same "executor_type" && same "executor_version" && same "capacity" &&
  json_is (jget_or "worker_key_id" JNull claim) key_id.

Definition claimed_record (record safe_claim : dict) (stamp : Z) : dict :=
  jset "owner_consent_at" (stored_time stamp)
    (jset "claim_verified_at" (stored_time stamp) (jset "worker_claim" (JObj safe_claim) record)).

Definition claim_worker_invite (invite_id secret : string) (claim : dict) (proof_signature : string)
    : M worker_enrollment_view :=
  keys ← lift_res (_verify_worker_enrollment_claim claim proof_signature);
  safe_claim ← lift_res (_safe_worker_enrollment_claim claim);
  _ ← check (json_is (jget_or "invite_id" JNull claim) invite_id) (invite_refused 410);
  stamp ← now;
  replayed ← transaction (
    row ← query (fun d => find_by en_id invite_id (enrollments d));
    row ← require row (invite_refused 410);
    _ ← check ((en_kind row =d EkWorker) && (en_method row =d EmInviteApproval) && secret_matches row secret)
          (invite_refused 410);
    parts ← lift_res (_worker_enrollment_record row);
    let '(record, config) := parts : dict * dict in
    same ← lift_res (same_claim (claim_in record) safe_claim);
    _ ← check (negb (same =d Some false)) already_claimed;
    if (en_state row =d EsPending) || (en_state row =d EsActive) then
      _ ← check (same =d Some true) already_claimed;
      view ← _worker_enrollment_value row false;
      mret (Some view)
    else
      _ ← check (issued_open row stamp) (invite_refused 410);
      _ ← check (fingerprint_allows row (sha256_hex (py_str (jget_or "signing_public_key" JNull claim))))
            (invite_invalid "The Worker invite is not valid for this signing key." 403);
      key_id ← lift_res (device_key_id (fst (keys : bytes * bytes)));
      _ ← check (claim_matches_config claim config key_id)
            (repo_err VALIDATION_FAILED "WORKER_INVITE_CONFIGURATION_MISMATCH"
               "The Worker claim does not match the invited Executor configuration." 422);
      worker_id ← lift_res (text_item "worker_id" config);
      _ ← sql_update enrollments (fun e => en_id e =d invite_id)
            (fun e => e <| en_state := EsPending |> <| en_subject_user_id := en_issuer_user_id e |>
                        <| en_subject_id := Some worker_id |>
                        <| en_claim := Some (JDoc (JObj (claimed_record record safe_claim stamp))) |>
                        <| en_claimed_at := Some stamp |> <| en_updated_at := stamp |>);
      digest ← lift_res (json_digest (JObj safe_claim));
      _ ← audit "worker" key_id (en_workspace_id row) "worker.enrollment_claimed" "enrollment" invite_id
            [("claim_digest", JStr ("sha256:" +:+ digest)); ("worker_id", JStr worker_id)] stamp;
      mret None);
  match replayed : option worker_enrollment_view with
  | Some view => mret view
  | None =>
      row ← query (fun d => find_by en_id invite_id (enrollments d));
      row ← require row not_reloaded;
      _worker_enrollment_value row false
  end.

(** ** Status *)

Definition worker_enrollment_row (enrollment_id : string) : M enrollment_row :=
  row ← query (fun d => head (select (fun e => (en_id e =d enrollment_id) && (en_kind e =d EkWorker)) (enrollments d)));
  require row enrollment_missing.

Definition worker_enrollment_signing_material (enrollment_id : string) : M (string * string) :=
  row ← worker_enrollment_row enrollment_id;
  parts ← lift_res (_worker_enrollment_record row);
  claim ← require (claim_in (fst (parts : dict * dict)))
            (repo_err (ErrorCode.to_int ErrorCode.ENROLLMENT_APPROVAL_REQUIRED) "ENROLLMENT_APPROVAL_REQUIRED"
               "The Worker has not claimed this enrollment." 409);
  key_id ← lift_res (jitem "worker_key_id" claim);
  key ← lift_res (jitem "signing_public_key" claim);
  mret (py_str key_id, py_str key).

(** [claim.get("worker_key_id") or ""]. *)
Definition claimed_key_id (claim : dict) : string :=
  let v := jget_or "worker_key_id" JNull claim in if truthy v then py_str v else "".

Definition worker_enrollment_status (enrollment_id : string) (admin_user_id worker_key_id : option string)
    : M worker_enrollment_view :=
  row ← worker_enrollment_row enrollment_id;
  parts ← lift_res (_worker_enrollment_record row);
  match admin_user_id with
  | Some admin =>
      _ ← require_admin (str_or_empty (en_workspace_id row)) (Some admin);
      _ ← check (en_issuer_user_id row =d Some admin)
            (repo_err FORBIDDEN "WORKER_ENROLLMENT_ISSUER_REQUIRED"
               "Only the inviting Workspace admin may review this Worker." 403);
      _worker_enrollment_value row true
  | None =>
      _ ← check (match worker_key_id, claim_in (fst (parts : dict * dict)) with
                 | Some key_id, Some claim => String.eqb (claimed_key_id claim) key_id
                 | _, _ => false
                 end)
            (repo_err FORBIDDEN "WORKER_ENROLLMENT_ACCESS_DENIED" "Worker enrollment access is denied." 403);
      _worker_enrollment_value row false
  end.

(** ** Decisions *)

(** [set(certificate) == {"manifest", "signer_key_id", "signature"}]. *)
Definition SIGNED_FIELDS : list string := ["manifest"; "signer_key_id"; "signature"].
Definition PROOF_FIELDS : list string := ["payload"; "signer_key_id"; "signature"].

(** [claim[k]] and [manifest[k']] are there and equal. *)
Definition bound (claim : dict) (k : string) (manifest : dict) (k' : string) : bool :=
  match jget k claim, jget k' manifest with Some v, Some v' => json_eqb v' v | _, _ => false end.

(** Five minutes around the claim and now, in whole seconds. *)
Definition issued_in_time (issued_at : Z) (claimed_at : option Z) (stamp : Z) : bool :=
  match claimed_at with
  | Some t => (t / 1000000 - 300 <=? issued_at) && (issued_at <=? stamp / 1000000 + 300)
  | None => false
  end.

Definition manifest_binds (manifest claim : dict) (root_key_id : string) : bool :=
  let m k := jget_or k JNull manifest in
  json_eqb (m "version") (JInt 1) && json_is (m "kind") "vgen-worker-owner-certificate" &&
  json_is (m "owner_root_key_id") root_key_id && bound claim "worker_key_id" manifest "worker_key_id" &&
  bound claim "signing_public_key" manifest "worker_signing_public_key" &&
  bound claim "encryption_public_key" manifest "worker_encryption_public_key".

(** The body of the [try]: the certificate, the root key and its identifier. *)
Definition check_owner_certificate (owner_certificate root_signing_public_key : string) (claim : dict)
    (claimed_at : option Z) (stamp : Z) : res (option (dict * bytes * string)) :=
  document ← load_json (json_loads owner_certificate);
  certificate ← (match document with JObj d => Ok d | _ => Raise TypeError end : res dict);
  m ← jitem "manifest" certificate;
  root_key ← b64url_decode root_signing_public_key (Some 32);
  root_id ← root_signing_key_id root_key;
  manifest ← (match m with JObj d => Ok d | _ => Raise TypeError end : res dict);
  issued_at ← jitem "issued_at" manifest;
  if negb (same_keys certificate SIGNED_FIELDS && same_keys manifest OWNER_CERTIFICATE_FIELDS &&
           match issued_at with JInt i => issued_in_time i claimed_at stamp | _ => false end &&
           json_is (jget_or "signer_key_id" JNull certificate) root_id &&
           manifest_binds manifest claim root_id) then Ok None
  else
    signed ← verify_key_manifest certificate root_key;
    Ok (if signed : bool then Some (certificate, root_key, root_id) else None).

(** What the admin must have signed to admit this worker to the pool. *)
Definition expected_worker_allocation (row : enrollment_row) (record config claim certificate proof : dict)
    (root_id : string) : res (dict * dict * Z) :=
  p ← jitem "payload" proof;
  payload ← (match p with JObj d => Ok d | _ => Raise TypeError end : res dict);
  allocation_id ← text_item "allocation_id" config;
  worker_id ← text_item "worker_id" config;
  signing ← text_item "signing_public_key" claim;
  encryption ← text_item "encryption_public_key" claim;
  c ← jitem "owner_consent_at" record;
  consent ← record_time c;
  i ← jitem "issued_at" payload;
  issued_at ← json_int i;
  expected ← build_allocation_proof_payload allocation_id (str_or_empty (en_workspace_id row))
               (str_or_empty (en_pool_id row)) worker_id signing encryption (JDoc (JObj certificate)) consent root_id
               issued_at;
  Ok (payload, expected, issued_at).

Definition worker_allocation_valid (row : enrollment_row) (record config claim certificate : dict)
    (root_key : bytes) (root_id : string) (proof : dict) (current : Z) : res bool :=
  or_invalid false
    (parts ← expected_worker_allocation row record config claim certificate proof root_id;
     let '(payload, expected, issued_at) := parts : dict * dict * Z in
     if negb (same_keys proof PROOF_FIELDS && same_keys payload (map fst expected) &&
              match en_claimed_at row with Some t => t / 1000000 - 300 <=? issued_at | None => false end)
     then Ok false
     else verify_allocation_proof proof root_key expected current 300).

(** The approval that is repeated carries the stored material. *)
Definition same_material (certificate proof : json) (owner_certificate : option string)
    (allocation_proof : option dict) : res bool :=
  or_invalid false
    (match owner_certificate, allocation_proof with
     | Some given, Some given_proof =>
         a ← canonical_json certificate;
         document ← load_json (json_loads given);
         b ← canonical_json document;
         if negb (bool_decide (a = b)) then Ok false
         else
           a ← canonical_json proof;
           b ← canonical_json (JObj given_proof);
           Ok (bool_decide (a = b))
     | _, _ => Ok false
     end).

(** [json.loads(column)], [None] included. *)
Definition stored_document (column : option jtext) : res json :=
  match column with
  | Some (JDoc v) => Ok v
  | _ => Raise (record_invalid "The approved Worker enrollment record is invalid.")
  end.

Definition replayed_approval (row : enrollment_row) (config : dict) (owner_certificate : option string)
    (allocation_proof : option dict) : M worker_enrollment_view :=
  worker_id ← lift_res (text_item "worker_id" config);
  worker ← query (fun d => find_by w_id worker_id (workers d));
  allocation_id ← lift_res (text_item "allocation_id" config);
  allocation ← query (fun d => find_by al_id allocation_id (worker_allocations d));
  worker ← require worker (record_invalid "The approved Worker enrollment record is incomplete.");
  allocation ← require allocation (record_invalid "The approved Worker enrollment record is incomplete.");
  certificate ← lift_res (stored_document (json_loads <$> w_certificate worker));
  proof ← lift_res (stored_document (al_allocation_proof allocation));
  same ← lift_res (same_material certificate proof owner_certificate allocation_proof);
  _ ← check same (repo_err IDEMPOTENCY_CONFLICT "IDEMPOTENCY_CONFLICT"
                    "The Worker enrollment was already approved with different material." 409);
  _worker_enrollment_value row true.

Definition int_item (k : string) (d : dict) : res Z :=
  v ← jitem k d; match v with JInt z => Ok z | _ => Raise TypeError end.

(** [config.get("rate_microtokens_per_second", config.get("rate_microtokens_per_gpu_second", 0))]. *)
Definition invited_rate (config : dict) : res Z :=
  match jget_or "rate_microtokens_per_second" (jget_or "rate_microtokens_per_gpu_second" (JInt 0) config) config with
  | JInt z => Ok z
  | _ => Raise TypeError
  end.

(** The rows of an approved worker. *)
Definition register_invited_worker (row : enrollment_row) (record config claim certificate proof : dict)
    (admin_user_id : string) (stamp : Z) : M unit :=
  worker_id ← lift_res (text_item "worker_id" config);
  name ← lift_res (text_item "name" claim);
  signing ← lift_res (text_item "signing_public_key" claim);
  encryption ← lift_res (text_item "encryption_public_key" claim);
  executor_type ← lift_res (text_item "executor_type" claim);
  executor_version ← lift_res (text_item "executor_version" claim);
  reported ← lift_res (jitem "capabilities" claim);
  capabilities ← lift_res (_worker_capabilities reported executor_type);
  capacity ← lift_res (int_item "capacity" claim);
  _ ← sql_insert workers workers_ok
        (Mk_worker_row worker_id admin_user_id
           (match jget_or "manager_broker_id" JNull config with JStr b => Some b | _ => None end) name signing encryption
           (Some (json_text (JObj certificate))) executor_type executor_version (JDoc (JObj capabilities)) capacity
           WOffline 0 None None stamp stamp None);
  _ ← _initialize_worker_capability_state worker_id executor_type capabilities stamp;
  allocation_id ← lift_res (text_item "allocation_id" config);
  consent ← lift_res (c ← jitem "owner_consent_at" record; record_time c);
  claimed_at ← require (en_claimed_at row) IntegrityError;
  _ ← sql_insert worker_allocations allocations_ok
        (Mk_allocation_row allocation_id worker_id (str_or_empty (en_workspace_id row)) (str_or_empty (en_pool_id row))
           (Some consent) (Some stamp) (Some admin_user_id) (Some (JDoc (JObj proof))) AlActive claimed_at stamp None);
  _ ← sql_update rate_cards
        (fun r => (rt_worker_id r =d worker_id) && (Some (rt_workspace_id r) =d en_workspace_id row) &&
                  (rt_status r =d RtApproved))
        (fun r => r <| rt_status := RtSuperseded |>);
  rate_id ← new_id "rat";
  rate ← lift_res (invited_rate config);
  sql_insert rate_cards rate_cards_ok
    (Mk_rate_row rate_id worker_id (str_or_empty (en_workspace_id row)) admin_user_id (Some admin_user_id) rate 0 0 0
       RtApproved stamp (Some stamp)).

Definition decided (enrollment_id admin_user_id : string) (state : enroll_state) (stamp : Z) : M unit :=
  _ ← sql_update enrollments (fun e => en_id e =d enrollment_id)
        (fun e => e <| en_state := state |> <| en_decided_at := Some stamp |>
                    <| en_decided_by_user_id := Some admin_user_id |> <| en_updated_at := stamp |>);
  mret tt.

Definition approve_worker (row : enrollment_row) (record config claim : dict) (admin_user_id : string)
    (owner_certificate : option string) (allocation_proof : option dict) (stamp : Z) : M unit :=
  let missing := repo_err VALIDATION_FAILED "WORKER_ENROLLMENT_APPROVAL_MATERIAL_REQUIRED"
                   "Approving a Worker requires its owner certificate and allocation proof." 422 in
  given ← require owner_certificate missing;
  proof ← require allocation_proof missing;
  pool ← query (fun d => active_pool d (en_pool_id row) (en_workspace_id row));
  _ ← check pool (repo_err POOL_NOT_FOUND "POOL_NOT_FOUND" "The invited Pool is no longer active." 404);
  _ ← own_broker (jget_or "manager_broker_id" JNull config) admin_user_id
        "The invited manager Broker is no longer active.";
  owner ← query (fun d => head (select (fun u => (u_id u =d admin_user_id) && (u_status u =d UActive)) (users d)));
  owner ← require owner (repo_err FORBIDDEN "ACCESS_DENIED" "User is not active." 403);
  certified ← lift_res (or_invalid None (check_owner_certificate given (u_root_signing_public_key owner) claim
                                           (en_claimed_at row) stamp));
  certified ← require certified (repo_err (ErrorCode.to_int ErrorCode.DEVICE_CERTIFICATE_INVALID)
                "DEVICE_CERTIFICATE_INVALID" "The Worker owner certificate is invalid." 401);
  let '(certificate, root_key, root_id) := certified : dict * bytes * string in
  current ← now;
  valid ← lift_res (worker_allocation_valid row record config claim certificate root_key root_id proof
                      (current / 1000000));
  _ ← check valid (repo_err 230004 "ALLOCATION_PROOF_INVALID" "The Workspace allocation proof is invalid." 422);
  _ ← register_invited_worker row record config claim certificate proof admin_user_id stamp;
  _ ← decided (en_id row) admin_user_id EsActive stamp;
  worker_id ← lift_res (text_item "worker_id" config);
  allocation_id ← lift_res (jitem "allocation_id" config);
  audit "user" admin_user_id (en_workspace_id row) "worker.enrollment_approved" "worker" worker_id
    [("allocation_id", allocation_id); ("pool_id", json_opt_str (en_pool_id row))] stamp.

Definition decide_worker_enrollment (enrollment_id admin_user_id : string) (approve : bool)
    (owner_certificate : option string) (allocation_proof : option dict) : M worker_enrollment_view :=
  stamp ← now;
  replayed ← transaction (
    row ← worker_enrollment_row enrollment_id;
    role ← query (fun d => decider_role d (str_or_empty (en_workspace_id row)) admin_user_id);
    _ ← check (match role with Some r => is_admin_role r | None => false end &&
               (en_issuer_user_id row =d Some admin_user_id))
          (repo_err FORBIDDEN "WORKER_ENROLLMENT_ISSUER_REQUIRED"
             "Only the inviting Workspace admin may decide this Worker enrollment." 403);
    parts ← lift_res (_worker_enrollment_record row);
    let '(record, config) := parts : dict * dict in
    claim ← require (if is_number (jget_or "claim_verified_at" JNull record) then claim_in record else None)
              (repo_err (ErrorCode.to_int ErrorCode.ENROLLMENT_APPROVAL_REQUIRED) "ENROLLMENT_APPROVAL_REQUIRED"
                 "The Worker must claim the Invite before it can be decided." 409);
    if (en_state row =d EsRejected) && negb approve then
      view ← _worker_enrollment_value row true;
      mret (Some view)
    else if (en_state row =d EsActive) && approve then
      view ← replayed_approval row config owner_certificate allocation_proof;
      mret (Some view)
    else
      _ ← check (en_state row =d EsPending)
            (repo_err VALIDATION_FAILED "ENROLLMENT_STATE_CONFLICT" "The Worker enrollment is not pending." 409);
      _ ← (if approve then approve_worker row record config claim admin_user_id owner_certificate allocation_proof stamp
           else
             _ ← decided enrollment_id admin_user_id EsRejected stamp;
             audit "user" admin_user_id (en_workspace_id row) "worker.enrollment_rejected" "enrollment" enrollment_id []
               stamp : M unit);
      mret None);
  match replayed : option worker_enrollment_view with
  | Some view => mret view
  | None =>
      row ← query (fun d => find_by en_id enrollment_id (enrollments d));
      row ← require row not_reloaded;
      _worker_enrollment_value row true
  end.

(** ** Route ([gateway/app.py]) *)

(** The inviting admin reads the status with a session, the worker with a signed request. *)
Definition worker_enrollment_status_route (enrollment_id : string) (token : option string) (raw_path : string)
    (headers : list (string * string)) : M worker_enrollment_view :=
  match token with
  | Some token =>
      session ← resolve_session token;
      session ← require session (vgen_error ErrorCode.SESSION_EXPIRED);
      _ ← validate_session_subject session;
      user ← require (if ss_principal_type session =d PDevice then truthy_id (ss_user_id session) else None)
               (vgen_error ErrorCode.PERMISSION_DENIED);
      worker_enrollment_status enrollment_id (Some user) None
  | None =>
      material ← worker_enrollment_signing_material enrollment_id;
      let '(key_id, key) := material : string * string in
      public_key ← lift_res (b64url_decode key (Some 32));
      _ ← verify_http_request public_key "GET" raw_path [] headers (Some key_id) 300 30
            (fun nonce created => claim_request_nonce "worker_enrollment" enrollment_id nonce created 600);
      worker_enrollment_status enrollment_id None (Some key_id)
  end.
End Onboard.

(** ** What the operations leave alone *)

Section Frames.
Context {E : Env}.

#[local] Hint Resolve reads_only_worker_value : reads.
Lemma reads_only_worker_view row c : reads_only (_worker_enrollment_value row c).
Proof. unfold _worker_enrollment_value. solve_reads_match. Qed.
Lemma reads_only_own_broker b u m : reads_only (own_broker b u m).
Proof. unfold own_broker. solve_reads_match. Qed.
#[local] Hint Resolve reads_only_worker_view reads_only_own_broker : reads.
Lemma reads_only_replayed row config c p : reads_only (replayed_approval row config c p).
Proof. unfold replayed_approval. solve_reads_match. Qed.
#[local] Hint Resolve reads_only_replayed : reads.
Lemma reads_only_worker_row i : reads_only (worker_enrollment_row i).
Proof. unfold worker_enrollment_row. solve_reads_match. Qed.
#[local] Hint Resolve reads_only_worker_row : reads.

#[local] Hint Resolve frames_reconcile : frames.

(** The approval of an invited worker registers it, idle and with a counter of zero. *)
Lemma preserves_decide_worker {P : Past} i u ok c p : preserves Inv (decide_worker_enrollment i u ok c p).
Proof.
  unfold decide_worker_enrollment, approve_worker, decided, register_invited_worker. op_steps.
  unfold _initialize_worker_capability_state in *. run_all; try done; flat_db.
  all: repeat first [ done | eapply inv_frame; [eassumption|] | apply inv_touch_workers; [done|] ].
  all: unfold workers_ok in *; split_bools; apply inv_add_worker; try done; by apply has_key_false.
Qed.
End Frames.

#[export] Hint Resolve reads_only_worker_view reads_only_own_broker reads_only_replayed reads_only_worker_row : reads.
