(* ===== verification/Rekey.v ===== *)
(** * The broker process ([broker/journal.py], [broker/rekey.py], [broker/daemon.py])

    A broker polls the gateway for commands and completes them.  A rekey command asks it
    to wrap the key of a task for a replacement worker: the broker recovers the task key
    with the workspace key of its own keyring, checks that the worker and its allocation
    are signed by keys it has pinned, and only then sends the wrapped key.  The gateway is
    not trusted: it is an arbitrary function from the requests sent so far to a reply. *)

From S2P Require Import Prelude Python Bytes Errors Effects Schema Store Capability Encoding Signing Envelope.
From S2P Require Import Recipients Pins.

Open Scope Z_scope.

(** ** Requests and replies *)

Record request := MkRequest {
  rq_method : string;
  rq_path : string;
  rq_body : option json;
  rq_params : dict;
  rq_idempotency_key : option string
}.

Inductive reply :=
| Answer (v : json)
| Failed (e : exc).

(** What the process cannot see inside of: the gateway, and [float] of a text. *)
Class Outside := {
  gateway : list (request * reply) -> request -> reply;
  float_of_text : string -> option float
}.

(** ** The journal *)

Record event_row := MkEvent {
  ev_id : string;
  ev_kind : string;
  ev_payload : json;
  ev_created_at : Z;
  ev_delivered_at : option Z
}.
#[export] Instance event_row_eta : Eta event_row := fun r =>
  MkEvent (ev_id r) (ev_kind r) (ev_payload r) (ev_created_at r) (ev_delivered_at r).

(** The tables [events] and [state], the requests already sent, the clock and the random
    source. *)
Record process := MkProcess {
  pr_events : list event_row;
  pr_state : list (string * json);
  pr_sent : list (request * reply);
  pr_ticks : nat;
  pr_draws : nat
}.
#[export] Instance process_eta : Eta process := fun r =>
  MkProcess (pr_events r) (pr_state r) (pr_sent r) (pr_ticks r) (pr_draws r).

Section Process.
Context {E : Env} {S : Sealing} {O : Outside} {K : Keyring}.

Definition time_now : Action process Z := fun s =>
  (Ok (clock (pr_ticks s)), s <| pr_ticks := Datatypes.S (pr_ticks s) |>).

Definition drawing {A} (m : Draw A) : Action process A := fun s =>
  let r := m (pr_draws s) in (fst r, s <| pr_draws := snd r |>).

Definition append (kind : string) (payload : dict) : Action process string :=
  id ← drawing (fun k => (Ok ("bev_" +:+ uuid k), Datatypes.S k));
  stamp ← time_now;
  _ ← writing (fun s => s <| pr_events := pr_events s ++ [MkEvent id kind (JObj payload) stamp None] |>);
  mret id.

Definition pending (s : process) (limit : Z) : list event_row :=
  take (Z.to_nat limit) (order_by (fun x y => ev_created_at x <=? ev_created_at y)
    (select (fun r => ev_delivered_at r =d None) (pr_events s))).

Definition mark_delivered (event_id : string) : Action process unit :=
  stamp ← time_now;
  writing (fun s => s <| pr_events := update (fun r => (ev_id r =d event_id) && (ev_delivered_at r =d None))
                                        (fun r => r <| ev_delivered_at := Some stamp |>) (pr_events s) |>).

(** [INSERT .. ON CONFLICT(key) DO UPDATE]: the table is a map from keys to documents. *)
Definition set_state (key : string) (value : json) : Action process unit :=
  writing (fun s => s <| pr_state := jset key value (pr_state s) |>).

Definition get_state (key : string) (default : json) (s : process) : json := jget_or key default (pr_state s).

(** [client.request(method, path, ..)]. *)
Definition send (rq : request) : Action process json := fun s =>
  let r := gateway (pr_sent s) rq in
  let s' := s <| pr_sent := pr_sent s ++ [(rq, r)] |> in
  match r with
  | Answer v => (Ok v, s')
  | Failed e => (Raise e, s')
  end.

Definition get (path : string) : request := MkRequest "GET" path None [] None.
Definition post (path : string) (body : dict) (key : string) : request :=
  MkRequest "POST" path (Some (JObj body)) [] (Some key).

(** ** Fields of the gateway's documents *)

Definition _required_string (value : dict) (key : string) : res string :=
  match jget key value with
  | Some (JStr s) => if String.eqb s "" then Raise BrokerRekeyError else Ok s
  | _ => Raise BrokerRekeyError
  end.

Definition _required_integer (value : dict) (key : string) : res Z :=
  match jget key value with
  | Some (JInt z) => if z <? 1 then Raise BrokerRekeyError else Ok z
  | _ => Raise BrokerRekeyError
  end.

(** [if not isinstance(v, Mapping): raise BrokerRekeyError]. *)
Definition as_mapping (v : json) : res dict :=
  match v with JObj d => Ok d | _ => Raise BrokerRekeyError end.

(** [str(d.get(k) or "")]. *)
Definition text_or_empty (d : dict) (k : string) : string :=
  let v := jget_or k JNull d in if truthy v then py_str v else "".

Definition refuse_unless (b : bool) : res unit := if b then Ok tt else Raise BrokerRekeyError.

Definition _verify_reader (reader : dict) (task_id workspace_id : string) (key_version : Z) : res unit :=
  refuse_unless (String.eqb (text_or_empty reader "task_id") task_id &&
                 String.eqb (text_or_empty reader "workspace_id") workspace_id &&
                 json_eqb (jget_or "key_version" JNull reader) (JInt key_version)).

Definition _verify_retry (retry : dict) (task_id workspace_id : string) (key_version : Z) (worker : dict)
    : res unit :=
  refuse_unless (String.eqb (text_or_empty retry "task_id") task_id &&
                 String.eqb (text_or_empty retry "workspace_id") workspace_id &&
                 json_eqb (jget_or "key_version" JNull retry) (JInt key_version) &&
                 truthy (jget_or "attempt_id" JNull retry) && truthy (jget_or "id" JNull worker)).

(** [except (KeyError, TypeError, ValueError, ..): raise BrokerRekeyError]. *)
Definition or_refuse {A} (r : res A) : res A :=
  match r with
  | Raise (KeyError | TypeError | ValueError | JSONDecodeError) => Raise BrokerRekeyError
  | r => r
  end.

(** [json.loads(v) if isinstance(v, str) else v]. *)
Definition loaded (v : json) : res json :=
  match v with
  | JStr s => match json_loads s with JDoc d => Ok d | JBad _ => Raise JSONDecodeError end
  | _ => Ok v
  end.

(** ** The replacement worker's certificate *)

Definition certificate_parts (worker : dict) : res (dict * bytes * string * json) :=
  certificate ← loaded (jget_or "certificate" JNull worker);
  root_text ← _required_string worker "owner_root_signing_public_key";
  root_key ← b64url_decode root_text (Some 32);
  signing_public_key ← _required_string worker "signing_public_key";
  members ← mapping certificate;
  manifest ← jitem "manifest" members;
  Ok (members, root_key, signing_public_key, manifest).

Definition certificate_expected (certificate worker : dict) (signing_public_key : string) : res dict :=
  key ← b64url_decode signing_public_key (Some 32);
  worker_key_id ← device_key_id key;
  Ok [("kind", JStr "vgen-worker-owner-certificate");
      ("owner_root_key_id", jget_or "signer_key_id" JNull certificate);
      ("worker_key_id", JStr worker_key_id);
      ("worker_signing_public_key", JStr signing_public_key);
      ("worker_encryption_public_key", jget_or "encryption_public_key" JNull worker)].

(** [manifest.get(key) == item] for every item. *)
Definition binds_all (manifest expected : dict) : bool :=
  forallb (fun kv => json_eqb (jget_or (fst kv) JNull manifest) (snd kv)) expected.

Definition _verify_worker_certificate (worker : dict) : res unit :=
  parts ← or_refuse (certificate_parts worker);
  let '(certificate, root_key, signing_public_key, manifest) := parts in
  signed ← verify_key_manifest certificate root_key;
  _ ← refuse_unless signed;
  expected ← (match certificate_expected certificate worker signing_public_key with
              | Raise ValueError => Raise BrokerRekeyError
              | r => r
              end);
  refuse_unless (match manifest with JObj m => binds_all m expected | _ => false end).

(** ** Floats *)

(** The nearest float of 53 bits to [m * 2^e], ties to even; [None] beyond the floats. *)
Definition round53 (m e : Z) : option (Z * Z) :=
  let a := Z.abs m in
  let in_range m' e' := if (m' =? 0) || (Z.log2 (Z.abs m') + e' <? 1024) then Some (m', e') else None in
  if a <? 2 ^ 53 then in_range m e
  else
    let k := Z.log2 a - 52 in
    let q := a / 2 ^ k in
    let r := a mod 2 ^ k in
    let half := 2 ^ (k - 1) in
    let q' := if (half <? r) || ((r =? half) && Z.odd q) then q + 1 else q in
    in_range (Z.sgn m * q') (e + k).

(** [round(m * 2^e)]: ties to even. *)
Definition round_int (m e : Z) : Z :=
  if 0 <=? e then m * 2 ^ e
  else
    let d := 2 ^ (- e) in
    let q := m / d in
    let r := m mod d in
    if 2 * r <? d then q else if d <? 2 * r then q + 1 else if Z.even q then q else q + 1.

(** [float(v)]. *)
Definition python_float (v : json) : res float :=
  match v with
  | JFloat f => Ok f
  | JBool b => Ok (FFin (if b then 1 else 0) 0)
  | JInt z => match round53 z 0 with Some (m, e) => Ok (FFin m e) | None => Raise OverflowError end
  | JStr s => match float_of_text s with Some f => Ok f | None => Raise ValueError end
  | _ => Raise TypeError
  end.

(** [int(round(x * 1000))] of a positive time; [x <= 0] was refused. *)
Definition float_ms (f : float) : res Z :=
  match f with
  | FFin m e => match round53 (m * 1000) e with
                | Some (m', e') => Ok (round_int m' e')
                | None => Raise OverflowError
                end
  | FInf _ => Raise OverflowError
  | FNan => Raise ValueError
  end.

Definition float_not_positive (f : float) : bool :=
  match f with
  | FFin m _ => m <=? 0
  | FInf negative => negative
  | FNan => false
  end.

(** ** The allocation of the replacement worker *)

(** [worker_certificate_digest] of a document or a text. *)
Definition presented_digest (v : json) : res string :=
  match v with
  | JStr s => worker_certificate_digest (json_loads s)
  | _ => d ← py_dict v; worker_certificate_digest (JDoc (JObj d))
  end.

(** The [try] of [_verify_allocation]: the pinned authority's key and the statement the
    proof must make. *)
Definition allocation_expected (ring : keyring) (retry worker allocation proof : dict) : res (bytes * dict) :=
  admin_user_id ← _required_string allocation "admin_user_id";
  root_public_text ← _required_string allocation "admin_root_signing_public_key";
  root_key ← b64url_decode root_public_text (Some 32);
  p ← jitem "payload" proof;
  workspace_id ← _required_string retry "workspace_id";
  payload ← mapping p;
  approver ← jitem "approver_root_key_id" payload;
  _ ← require_authority ring workspace_id admin_user_id root_public_text (Some (py_str approver));
  allocation_id ← _required_string allocation "id";
  pool_id ← _required_string retry "pool_id";
  worker_id ← _required_string worker "id";
  signing ← _required_string worker "signing_public_key";
  encryption ← _required_string worker "encryption_public_key";
  certificate ← jitem "certificate" worker;
  c ← jitem "owner_consent_at" allocation;
  consent ← python_float c;
  i ← jitem "issued_at" payload;
  issued_at ← json_int i;
  _ ← (if float_not_positive consent then Raise ValueError else Ok tt);
  digest ← presented_digest certificate;
  ms ← float_ms consent;
  Ok (root_key, allocation_statement allocation_id workspace_id pool_id worker_id signing encryption digest ms
                  (py_str approver) issued_at).

Definition _verify_allocation (ring : keyring) (retry worker : dict) : Action process unit :=
  allocation ← lift (as_mapping (jget_or "allocation" JNull retry));
  proof ← lift (as_mapping (jget_or "proof" JNull allocation));
  expected ← lift (match allocation_expected ring retry worker allocation proof with
                   | Raise WorkspaceAuthorityError => Raise BrokerRekeyError
                   | r => or_refuse r
                   end);
  current ← time_now;
  valid ← lift (verify_allocation_proof proof expected.1 expected.2 (current / 1000000) 300);
  lift (refuse_unless valid).

(** ** Rekeying *)

Definition _RETRYABLE_TASK_STATES : list string := ["failed"; "rekey_required"; "expired"].
Definition _ALREADY_HANDLED_STATES : list string :=
  ["committed"; "queued"; "reserved"; "running"; "succeeded"; "cancelled"].

Definition task_path (task_id : string) : string := "/api/v1/tasks/" +:+ task_id.
Definition command_state_key (command_id : string) : string := "command:" +:+ command_id.

(** The retry generation of a command in the journal. *)
Definition generation_of (command_state : json) : Z :=
  match command_state with
  | JObj d => match jget "retry_generation" d with
              | Some (JInt z) => if z <? 0 then 0 else z
              | _ => 0
              end
  | _ => 0
  end.

Definition unwrapped_task_key (workspace_key : bytes) (reader : dict) (aad : bytes) : res bytes :=
  match (raw ← jitem "reader_envelope" reader;
         document ← loaded raw;
         envelope ← payload_from_dict document;
         unwrap_task_key_for_workspace workspace_key envelope aad) with
  | Raise (VGenError _ _) => Raise BrokerRekeyError
  | r => or_refuse r
  end.

(** [json.dumps] of a dictionary of ASCII strings, in its own order. *)
Definition dumps_strings (d : list (string * string)) : string :=
  "{" +:+ join "," (map (fun kv => print_member (fst kv, quote (snd kv))) d) +:+ "}".

Definition hpke_dumps (c : HpkeCiphertext) : string :=
  dumps_strings [("algorithm", hc_algorithm c); ("encapsulated_key", b64url_encode (hc_encapsulated_key c));
                 ("ciphertext", b64url_encode (hc_ciphertext c))].

Definition task_context (workspace_id task_id attempt_id : string) (key_version : Z) : res bytes :=
  task_aad workspace_id task_id attempt_id "payload" key_version.

Definition wrapped_for_worker (worker : dict) (task_data_key : bytes) (workspace_id task_id attempt_id : string)
    (key_version : Z) : Draw HpkeCiphertext := fun k =>
  match (text ← of_res (_required_string worker "encryption_public_key");
         worker_public_key ← of_res (b64url_decode text (Some 32));
         aad ← of_res (task_context workspace_id task_id attempt_id key_version);
         wrap_task_key worker_public_key task_data_key aad) k with
  | (Raise (TypeError | ValueError), k') => (Raise BrokerRekeyError, k')
  | r => r
  end.

(** The replacement the gateway reserved, once everything it presents is checked. *)
Definition reserve_replacement (ring : keyring) (command_id task_id workspace_id : string) (key_version generation : Z)
    : Action process (dict * dict) :=
  v ← send (post (task_path task_id +:+ "/retry") []
              ("broker-retry:" +:+ command_id +:+ ":" +:+ pretty generation));
  retry ← lift (as_mapping v);
  worker ← lift (as_mapping (jget_or "worker" JNull retry));
  _ ← lift (_verify_retry retry task_id workspace_id key_version worker);
  _ ← lift (_verify_worker_certificate worker);
  _ ← _verify_allocation ring retry worker;
  mret (retry, worker).

(** The commit of the wrapped key; an expired reservation advances the generation. *)
Definition commit_replacement (command_id task_id attempt_id worker_id : string) (generation : Z)
    (worker_envelope : HpkeCiphertext) : Action process dict :=
  v ← catching
        (send (post (task_path task_id +:+ "/rekey")
                 [("replacement_worker_id", JStr worker_id); ("worker_tdk_envelope", JStr (hpke_dumps worker_envelope));
                  ("key_algorithm", JStr HPKE_ALGORITHM)]
                 ("broker-rekey:" +:+ command_id +:+ ":" +:+ attempt_id)))
        (fun e =>
           _ ← (match e with
                | VgenClientError code _ _ =>
                    if code =? 310003 then
                      set_state (command_state_key command_id)
                        (JObj [("retry_generation", JInt (generation + 1)); ("last_attempt_id", JStr attempt_id)])
                    else mret tt
                | _ => mret tt
                end);
           fail e);
  committed ← lift (as_mapping v);
  _ ← set_state (command_state_key command_id)
        (JObj [("retry_generation", JInt generation); ("last_attempt_id", JStr attempt_id); ("completed", JBool true)]);
  mret committed.

Definition rekey_task (ring : keyring) (command_id : string) (payload : dict) : Action process dict :=
  version ← lift (_required_integer payload "version");
  _ ← lift (refuse_unless (version =? 1));
  task_id ← lift (_required_string payload "task_id");
  workspace_id ← lift (_required_string payload "workspace_id");
  key_version ← lift (_required_integer payload "key_version");
  t ← send (get (task_path task_id));
  task ← lift (as_mapping t);
  let task_state := text_or_empty task "state" in
  if task_state ∈? _ALREADY_HANDLED_STATES then
    mret [("status", JStr "not_needed"); ("task_id", JStr task_id); ("task_state", JStr task_state)]
  else
    _ ← lift (refuse_unless (task_state ∈? _RETRYABLE_TASK_STATES));
    _ ← lift (refuse_unless (String.eqb (text_or_empty task "workspace_id") workspace_id));
    workspace_key ← lift (load_key ring workspace_id key_version);
    r ← send (get (task_path task_id +:+ "/reader-envelope"));
    reader ← lift (as_mapping r);
    _ ← lift (_verify_reader reader task_id workspace_id key_version);
    command_state ← reading (get_state (command_state_key command_id) (JObj []));
    let generation := generation_of command_state in
    replacement ← reserve_replacement ring command_id task_id workspace_id key_version generation;
    let (retry, worker) := replacement in
    content_attempt_id ← lift (_required_string reader "content_attempt_id");
    reader_aad ← lift (task_context workspace_id task_id content_attempt_id key_version);
    task_data_key ← lift (unwrapped_task_key workspace_key reader reader_aad);
    attempt_id ← lift (_required_string retry "attempt_id");
    replacement_worker_id ← lift (_required_string worker "id");
    worker_envelope ← drawing (wrapped_for_worker worker task_data_key workspace_id task_id attempt_id key_version);
    committed ← commit_replacement command_id task_id attempt_id replacement_worker_id generation worker_envelope;
    mret [("status", JStr "rekeyed"); ("task_id", JStr task_id); ("attempt_id", JStr attempt_id);
          ("worker_id", JStr replacement_worker_id);
          ("task_state", JStr (let v := jget_or "state" JNull committed in if truthy v then py_str v else "committed"))].

(** [BrokerRekeyHandler.__call__]. *)
Definition handle_command (ring : keyring) (command : dict) : Action process dict :=
  let command_type := text_or_empty command "command_type" in
  if negb (String.eqb command_type "task_rekey") then
    mret [("status", JStr "unsupported"); ("command_type", JStr command_type)]
  else
    command_id ← lift (_required_string command "id");
    payload ← lift (as_mapping (jget_or "payload" JNull command));
    rekey_task ring command_id payload.

(** ** The daemon

    The polling interval, which only the endless loop around [run_once] reads, is left out. *)

Record BrokerDaemonConfig := MkDaemonConfig {
  cfg_broker_id : string;
  cfg_device_id : string;
  cfg_runtime_version : string;
  cfg_protocol_version : string;
  cfg_build_commit : option string
}.

Definition device_path (config : BrokerDaemonConfig) : string := "/api/v1/broker-devices/" +:+ cfg_device_id config.

Definition completion (config : BrokerDaemonConfig) (command_id : string) (result : dict) : request :=
  post (device_path config +:+ "/commands/" +:+ command_id +:+ "/complete") [("result", JObj result)]
    ("broker-command:" +:+ command_id).

Definition _execute (config : BrokerDaemonConfig) (ring : keyring) (command : json) : Action process bool :=
  command ← lift (match command with JObj d => Ok d | _ => Raise AttributeError end);
  let command_id := text_or_empty command "id" in
  if String.eqb command_id "" then mret false
  else
    catching
      (result ← handle_command ring command;
       _ ← send (completion config command_id result);
       _ ← set_state "last_command" (JStr command_id);
       mret true)
      (fun e =>
         _ ← append "command_failed" [("command_id", JStr command_id); ("error_type", JStr (exc_name e))];
         mret false).

(** [for command in items: if not self._execute(command): break]. *)
Fixpoint execute_all (config : BrokerDaemonConfig) (ring : keyring) (items : list json) : Action process unit :=
  match items with
  | [] => mret tt
  | c :: items =>
      ok ← _execute config ring c;
      if ok : bool then execute_all config ring items else mret tt
  end.

Definition heartbeat_body (config : BrokerDaemonConfig) (journal_pending : Z) : dict :=
  [("broker_id", JStr (cfg_broker_id config)); ("status", JStr "online");
   ("runtime_version", JStr (cfg_runtime_version config)); ("protocol_version", JStr (cfg_protocol_version config));
   ("build_commit", json_opt_str (cfg_build_commit config)); ("journal_pending", JInt journal_pending)].

Definition poll (config : BrokerDaemonConfig) : Action process json :=
  journal_pending ← reading (fun s => Z.of_nat (length (pending s 100)));
  current ← time_now;
  _ ← send (post (device_path config +:+ "/heartbeat") (heartbeat_body config journal_pending)
              ("heartbeat:" +:+ cfg_device_id config +:+ ":" +:+ pretty (current / 1000000)));
  after ← reading (get_state "last_command" (JStr ""));
  send (MkRequest "GET" (device_path config +:+ "/commands") None [("after", after)] None).

Definition run_once (config : BrokerDaemonConfig) (ring : keyring) : Action process unit :=
  commands ← catching (v ← poll config; mret (Some v))
    (fun e => match e with
              | VgenClientError code name retry_action =>
                  _ ← append "gateway_error" [("code", JInt code); ("name", JStr name);
                                              ("retry_action", JStr retry_action)];
                  mret None
              | _ => fail e
              end);
  match commands with
  | None => mret tt
  | Some (JObj d) =>
      items ← lift (iterated (jget_or "items" (JList []) d));
      execute_all config ring items
  | Some _ => mret tt
  end.
End Process.
