(* ===== verification/Reach.v ===== *)
(** * Reachable control planes

    [step] is the transition relation of the gateway: one constructor per
    operation that writes the tasks, attempts, leases, workers, ledger or maintenance
    jobs, run as a whole (one connection behind a lock), whatever it returns or
    raises; [StepOther] stands for every other request, which may rewrite the
    remaining tables, the clock and the random source, but none of these six.  The
    migrations of older databases run once, before the first request, and find
    these tables empty in a new control plane, so they are no step.  A maintenance heartbeat reports
    a running or restarting job, as its request schema demands.  A world is reachable from an empty control plane.  The
    theorems are the safety properties of every reachable world: exclusive
    execution, bounded capacity, unique fences and the agreement of leases with
    executing attempts,
    finality of outcomes and one charge per attempt. *)

From stdpp Require Import relations.
From S2P Require Import Prelude Python Errors Schema Store Access Metadata Diagnostics.
From S2P Require Import Capability Scheduler Fleet Usage Grants Maintenance Scenario Invariant.
From S2P Require Import Lifecycle Upkeep Enrollment Onboard Broker.

Open Scope Z_scope.

Section Reachability.
Context {E : Env}.

Inductive step (w : world) : world -> Prop :=
| StepPrepare q : step w (snd (prepare_task q w))
| StepCommit task_id user ptype pid payload worker_envelope reader_envelope algorithm :
    step w (snd (commit_task task_id user ptype pid payload worker_envelope reader_envelope
                   algorithm w))
| StepLease worker_id ttl : step w (snd (lease worker_id ttl w))
| StepHeartbeat attempt_id worker_id token ttl started report :
    step w (snd (heartbeat_attempt attempt_id worker_id token ttl started report w))
| StepFinish r : step w (snd (finish_attempt r w))
| StepCancel task_id user ptype pid : step w (snd (cancel_task task_id user ptype pid w))
| StepRetry task_id user ptype pid ttl : step w (snd (prepare_retry task_id user ptype pid ttl w))
| StepRekey task_id user worker_id envelope algorithm ptype pid :
    step w (snd (commit_rekey task_id user worker_id envelope algorithm ptype pid w))
| StepSweep : step w (snd (sweep_expired w))
| StepRegister r : step w (snd (create_worker r w))
| StepOffer worker_id owner pool_id : step w (snd (offer_worker worker_id owner pool_id w))
| StepWorkerHeartbeat worker_id report : step w (snd (worker_heartbeat worker_id report w))
| StepManager worker_id owner device broker :
    step w (snd (set_worker_manager worker_id owner device broker w))
| StepLeave worker_id owner force : step w (snd (leave_worker worker_id owner force w))
| StepBootstrap : step w (snd (_reconcile_bundled_bootstrap_policy w))
| StepReverse workspace_id ledger_id user reason :
    step w (snd (reverse_usage_charge workspace_id ledger_id user reason w))
| StepApproveAllocation allocation_id user proof :
    step w (snd (approve_allocation allocation_id user proof w))
| StepMaintenance q : step w (snd (create_worker_maintenance q w))
| StepMaintenanceCommit job_id user device :
    step w (snd (commit_worker_maintenance job_id user device w))
| StepMaintenanceCancel job_id owner device :
    step w (snd (cancel_worker_maintenance job_id owner device w))
| StepMaintenanceClaim worker_id session ttl actions :
    step w (snd (claim_worker_maintenance worker_id session ttl actions w))
| StepMaintenanceHeartbeat job_id worker_id session token ttl state progress adopt :
    state = MRunning \/ state = MRestarting ->
    step w (snd (heartbeat_worker_maintenance job_id worker_id session token ttl state progress
                   adopt w))
| StepMaintenanceComplete job_id worker_id session token succeeded result :
    step w (snd (complete_worker_maintenance job_id worker_id session token succeeded result w))
| StepUploaded artifact_id size digest : step w (snd (mark_artifact_uploaded artifact_id size digest w))
| StepRebuild : step w (snd (_rebuild_maintenance_authorizations w))
| StepDeactivate worker_id owner device ref digest source :
    step w (snd (deactivate_worker_workflow worker_id owner device ref digest source w))
| StepDecideWorker enrollment_id admin approve certificate proof :
    step w (snd (decide_worker_enrollment enrollment_id admin approve certificate proof w))
| StepBrokerHeartbeat broker_device user broker runtime protocol commit pending :
    step w (snd (broker_device_heartbeat broker_device user broker runtime protocol commit pending w))
| StepRevokeDevice device user : step w (snd (revoke_device device user w))
| StepOther w' : core_eq (wd_db w) (wd_db w') ->
    worker_maintenance_jobs (wd_db w') = worker_maintenance_jobs (wd_db w) -> step w w'.

(** An empty control plane: nothing scheduled or charged, no worker registered. *)
Definition initial (w : world) : Prop :=
  tasks (wd_db w) = [] /\ task_attempts (wd_db w) = [] /\ leases (wd_db w) = [] /\
  workers (wd_db w) = [] /\ usage_ledger (wd_db w) = [] /\ worker_maintenance_jobs (wd_db w) = [].

Definition reachable (w : world) : Prop := exists w0, initial w0 /\ rtc step w0 w.

(** Nothing to remember. *)
#[export] Instance no_past : Past | 100 := {| past_attempts := []; past_tasks := []; past_revoked := [] |}.

Lemma inv_initial w : initial w -> Inv (wd_db w).
Proof.
  intros (Ht & Ha & Hl & Hw & Hu & _).
  constructor; unfold executing_count; rewrite ?Ht, ?Ha, ?Hl, ?Hw, ?Hu; simpl; try done; constructor.
Qed.

(** The heartbeat of a broker device expires leases. *)
Lemma preserves_broker_heartbeat {P : Past} i u b rv pv bc n :
  preserves Inv (broker_device_heartbeat i u b rv pv bc n).
Proof. unfold broker_device_heartbeat. op_steps. run_all. carry. done. Qed.

Lemma inv_step (P : Past) w w' : step w w' -> Inv (P := P) (wd_db w) -> Inv (P := P) (wd_db w').
Proof.
  destruct 1; intros HI.
  - by apply preserves_prepare_task.
  - by apply preserves_commit_task.
  - by apply preserves_lease.
  - by apply preserves_heartbeat.
  - by apply preserves_finish_attempt.
  - by apply preserves_cancel_task.
  - by apply preserves_prepare_retry.
  - by apply preserves_commit_rekey.
  - by apply preserves_sweep.
  - by apply preserves_create_worker.
  - by apply preserves_offer_worker.
  - by apply preserves_worker_heartbeat.
  - by apply preserves_set_worker_manager.
  - by apply preserves_leave_worker.
  - by apply preserves_reconcile_policy.
  - by apply preserves_reverse_usage_charge.
  - apply preserves_frames; [apply frames_approve_allocation|done].
  - apply preserves_frames; [apply frames_create_maintenance|done].
  - apply preserves_frames; [apply frames_commit_maintenance|done].
  - apply preserves_frames; [apply frames_cancel_maintenance|done].
  - by apply preserves_claim_maintenance.
  - by apply preserves_heartbeat_maintenance.
  - by apply preserves_complete_maintenance.
  - apply preserves_frames; [apply frames_mark_uploaded|done].
  - by apply preserves_rebuild.
  - apply preserves_frames; [apply frames_deactivate|done].
  - by apply preserves_decide_worker.
  - by apply preserves_broker_heartbeat.
  - apply preserves_frames; [apply frames_revoke_device|done].
  - by eapply inv_frame.
Qed.

Lemma inv_steps (P : Past) w w' :
  rtc step w w' -> Inv (P := P) (wd_db w) -> Inv (P := P) (wd_db w').
Proof.
  induction 1 as [|w1 w2 w3 Hstep _ IH]; [done|]. intros HI. by apply IH, (inv_step P w1).
Qed.

Lemma inv_reachable w : reachable w -> Inv (wd_db w).
Proof.
  intros (w0 & H0 & Hrtc). apply inv_initial in H0. by apply (inv_steps no_past w0).
Qed.

(** The invariant remembers any final attempts, settled tasks and revoked workers
    it holds for. *)
Lemma inv_remember (P : Past) d :
  Inv (P := no_past) d ->
  (forall i s, In (i, s) past_attempts -> attempt_final s = true /\
     exists a, In a (task_attempts d) /\ a_id a = i /\ a_state a = s) ->
  (forall i s, In (i, s) past_tasks -> task_settled s = true /\
     exists t, In t (tasks d) /\ t_id t = i /\ t_state t = s) ->
  (forall i, In i past_revoked ->
     exists w, In w (workers d) /\ w_id w = i /\ w_status w = WRevoked) ->
  Inv (P := P) d.
Proof. intros HI Ha Ht Hw. destruct HI. constructor; auto. Qed.

(** C1: at most one attempt of a task is leased or running, in every reachable
    control plane, whatever operations, retries, expiries and departures led
    there. *)
Theorem exclusive_execution w a b :
  reachable w -> In a (task_attempts (wd_db w)) -> In b (task_attempts (wd_db w)) ->
  attempt_executing (a_state a) = true -> attempt_executing (a_state b) = true ->
  a_task_id a = a_task_id b -> a = b.
Proof.
  intros HI%inv_reachable Ha Hb Hea Heb Et.
  apply (attempt_unique (wd_db w)); auto. by apply (inv_exclusive _ HI).
Qed.

(** C2: a worker never executes more attempts than its registered capacity. *)
Theorem capacity_respected w worker :
  reachable w -> In worker (workers (wd_db w)) ->
  executing_count (wd_db w) (w_id worker) <= w_capacity worker.
Proof. intros HI%inv_reachable. apply HI. Qed.

(** Fencing tokens identify attempts: two attempts of one worker never
    carry the same token, and no token exceeds the worker's counter, so the
    next token it issues is new. *)
Theorem fences_unique w a :
  reachable w -> In a (task_attempts (wd_db w)) ->
  (forall b, In b (task_attempts (wd_db w)) -> a_worker_id b = a_worker_id a ->
             a_fencing_token b = a_fencing_token a -> b = a) /\
  exists worker, In worker (workers (wd_db w)) /\ w_id worker = a_worker_id a /\
                 a_fencing_token a < w_fencing_counter worker + 1.
Proof.
  intros HI%inv_reachable Ha. split.
  - intros b Hb Ew Ef. apply (NoDup_map_inj fence (task_attempts (wd_db w))); auto; [apply HI|].
    unfold fence. congruence.
  - destruct (inv_fence_bound _ HI a Ha) as (worker & Hw & Ew & Hle). exists worker.
    split_and!; try done. lia.
Qed.

(** C3: leases and execution agree.  An attempt is leased or running exactly
    when an unreleased lease exists for it, and that lease carries the
    attempt's worker and token; its task is then reserved, running or
    cancelled, and assigned to that worker. *)
Theorem lease_iff_executing w a :
  reachable w -> In a (task_attempts (wd_db w)) ->
  (attempt_executing (a_state a) = true <->
   exists l, In l (leases (wd_db w)) /\ l_attempt_id l = a_id a /\ l_released_at l = None /\
             l_worker_id l = a_worker_id a /\ l_fencing_token l = a_fencing_token a) /\
  (attempt_executing (a_state a) = true ->
   exists t, In t (tasks (wd_db w)) /\ t_id t = a_task_id a /\
             t_assigned_worker_id t = Some (a_worker_id a) /\
             (t_state t = TReserved \/ t_state t = TRunning \/ t_state t = TCancelled)).
Proof.
  intros HI%inv_reachable Ha. split; [split|].
  - intros Hex. destruct (inv_executing_live _ HI a Ha Hex) as (l & Hl & El & Hlive).
    destruct (inv_lease_attempt _ HI l Hl) as (b & Hb & Eb & Ew & Ef & _).
    assert (b = a) as -> by (apply (attempt_unique (wd_db w)); auto; congruence).
    exists l. unfold live in Hlive. split_bools. done.
  - intros (l & Hl & El & Hr & _). apply (inv_live_executing _ HI l a); auto.
    unfold live. by apply bool_decide_eq_true_2.
  - intros Hex. destruct (inv_executing_task _ HI a Ha Hex) as (t & Ht & Et & Hh & Hw).
    exists t. split_and!; try done. destruct (t_state t); auto; done.
Qed.

(** C4: outcomes are final.  From any reachable control plane, whatever happens
    next, an attempt that has ended (succeeded, failed, cancelled or expired)
    keeps its state, and a task that has succeeded or been cancelled keeps its
    own: no late report, retry, rekey, expiry or departure revives them. *)
Theorem outcomes_final w w' :
  reachable w -> rtc step w w' ->
  (forall a, In a (task_attempts (wd_db w)) -> attempt_active (a_state a) = false ->
     exists a', In a' (task_attempts (wd_db w')) /\ a_id a' = a_id a /\ a_state a' = a_state a) /\
  (forall t, In t (tasks (wd_db w)) -> t_state t = TSucceeded \/ t_state t = TCancelled ->
     exists t', In t' (tasks (wd_db w')) /\ t_id t' = t_id t /\ t_state t' = t_state t).
Proof.
  intros HI%inv_reachable Hsteps. split.
  - intros a Ha Hf. pose (P := {| past_attempts := [(a_id a, a_state a)]; past_tasks := [];
                                 past_revoked := [] |}).
    apply (inv_steps P) in Hsteps.
    + by apply (inv_past_attempts _ Hsteps (a_id a) (a_state a)); left.
    + apply inv_remember; [done| |done|done]. intros i s [[= <- <-]|[]].
      unfold attempt_final. rewrite Hf. eauto.
  - intros t Ht Hs. pose (P := {| past_attempts := []; past_tasks := [(t_id t, t_state t)];
                                past_revoked := [] |}).
    apply (inv_steps P) in Hsteps.
    + by apply (inv_past_tasks _ Hsteps (t_id t) (t_state t)); left.
    + apply inv_remember; [done|done| |done]. intros i s [[= <- <-]|[]].
      split; [by destruct Hs as [->| ->]|eauto].
Qed.

(** C5: usage is charged at most once per attempt, and only when the attempt
    has ended: two charges of the ledger for the same attempt are the same
    entry. *)
Theorem charged_once w e e' :
  reachable w -> In e (usage_ledger (wd_db w)) -> In e' (usage_ledger (wd_db w)) ->
  ul_entry_type e = EnCharge -> ul_entry_type e' = EnCharge ->
  ul_attempt_id e = ul_attempt_id e' ->
  e = e' /\
  exists a, In a (task_attempts (wd_db w)) /\ a_id a = ul_attempt_id e /\
            attempt_active (a_state a) = false.
Proof.
  intros HI%inv_reachable He He' Hc Hc' Eid.
  assert (charge e = true /\ charge e' = true) as [Hce Hce']
    by (unfold charge; by rewrite Hc, Hc', !bool_decide_eq_true_2). split.
  - apply (NoDup_map_inj ul_attempt_id (select charge (usage_ledger (wd_db w))));
      [apply HI|apply in_select; auto..|done].
  - destruct (inv_charged_final _ HI e He Hce) as (a & Ha & Ea & Hf). exists a.
    split_and!; try done. unfold attempt_final in Hf. by apply negb_true_iff.
Qed.

(** C6: revocation is permanent.  From any reachable control plane, whatever
    happens next, a worker that has been revoked stays revoked, and no attempt
    of it is ever leased or running. *)
Theorem revocation_final w w' worker :
  reachable w -> rtc step w w' -> In worker (workers (wd_db w)) -> w_status worker = WRevoked ->
  (exists worker', In worker' (workers (wd_db w')) /\ w_id worker' = w_id worker /\
                   w_status worker' = WRevoked) /\
  (forall a, In a (task_attempts (wd_db w')) -> a_worker_id a = w_id worker ->
             attempt_executing (a_state a) = false).
Proof.
  intros HI%inv_reachable Hsteps Hin Hs.
  pose (P := {| past_attempts := []; past_tasks := []; past_revoked := [w_id worker] |}).
  apply (inv_steps P) in Hsteps.
  - destruct (inv_past_revoked _ Hsteps (w_id worker)) as (x & Hx & Ex & Hr); [by left|].
    split; [eauto|]. intros a Ha Ea. apply (inv_revoked_idle _ Hsteps x a); congruence.
  - apply inv_remember; [done|done|done|]. intros i [<-|[]]. eauto.
Qed.

End Reachability.

(** ** The concrete control plane is reachable *)

Lemma reachable_step `{Env} w w' : reachable w -> step w w' -> reachable w'.
Proof. intros (w0 & H0 & Hr) Hs. exists w0. split; [done|]. by eapply rtc_r. Qed.

(** Time passes. *)
Lemma reachable_later `{Env} w n : reachable w -> reachable (w <| wd_ticks := n |>).
Proof. intros Hw. apply (reachable_step w); [done|]. by apply StepOther. Qed.

Lemma demo_start_reachable : reachable demo_start.
Proof. exists demo_start. split; [by repeat split|apply rtc_refl]. Qed.

Lemma demo_ready_reachable : reachable demo_ready.
Proof.
  apply (reachable_step demo_approved); [|unfold demo_ready, run; apply StepWorkerHeartbeat].
  apply (reachable_step demo_offered); [|apply StepOther; by vm_compute].
  apply (reachable_step demo_registered); [|unfold demo_offered, run; apply StepOffer].
  apply (reachable_step demo_start); [|unfold demo_registered, run; apply StepRegister].
  apply demo_start_reachable.
Qed.

Lemma demo_running_reachable : reachable demo_running.
Proof.
  apply (reachable_step demo_leased); [|unfold demo_running, run; apply StepHeartbeat].
  apply (reachable_step demo_committed); [|unfold demo_leased, run; apply StepLease].
  apply (reachable_step demo_prepared); [|unfold demo_committed, run; apply StepCommit].
  apply (reachable_step demo_ready); [|unfold demo_prepared, run; apply StepPrepare].
  apply demo_ready_reachable.
Qed.

(** The running attempt of the concrete control plane. *)
Definition demo_attempt : attempt_row :=
  Eval vm_compute in
    match task_attempts (wd_db demo_running) with
    | a :: _ => a
    | [] => Mk_attempt_row "" "" 0 "" "" None "" "" AReserved None None None (JDoc JNull)
              (JDoc JNull) 0 0 None None None None None
    end.

Definition demo_worker : worker_row :=
  Eval vm_compute in
    match workers (wd_db demo_running) with
    | w :: _ => w
    | [] => Mk_worker_row "" "" None "" "" "" None "" "" (JDoc JNull) 0 WOffline 0 None None 0 0 None
    end.

Lemma demo_attempt_in : In demo_attempt (task_attempts (wd_db demo_running)).
Proof. vm_compute. by left. Qed.

Lemma exclusive_execution_witness :
  attempt_executing (a_state demo_attempt) = true /\
  forall b, In b (task_attempts (wd_db demo_running)) ->
    attempt_executing (a_state b) = true -> a_task_id b = "tsk_2" -> demo_attempt = b.
Proof.
  split; [by vm_compute|]. intros b Hb Hex Et.
  apply (exclusive_execution demo_running);
    [apply demo_running_reachable|apply demo_attempt_in|done|by vm_compute|done|by rewrite Et].
Defined.

Lemma capacity_respected_witness :
  executing_count (wd_db demo_running) "wrk_0" = 1 /\
  executing_count (wd_db demo_running) "wrk_0" <= w_capacity demo_worker.
Proof.
  split; [by vm_compute|].
  apply (capacity_respected demo_running demo_worker); [apply demo_running_reachable|].
  vm_compute. by left.
Defined.

Lemma fences_unique_witness :
  a_fencing_token demo_attempt = 2 /\
  exists worker, In worker (workers (wd_db demo_running)) /\ w_id worker = "wrk_0" /\
                 2 < w_fencing_counter worker + 1.
Proof.
  split; [by vm_compute|].
  apply (fences_unique demo_running demo_attempt);
    [apply demo_running_reachable|apply demo_attempt_in].
Defined.

Lemma lease_iff_executing_witness :
  exists l, In l (leases (wd_db demo_running)) /\ l_attempt_id l = "atm_3" /\
            l_released_at l = None /\ l_worker_id l = "wrk_0" /\ l_fencing_token l = 2.
Proof.
  apply (lease_iff_executing demo_running demo_attempt);
    [apply demo_running_reachable|apply demo_attempt_in|by vm_compute].
Defined.

Lemma demo_finished_reachable : reachable demo_finished.
Proof.
  apply (reachable_step demo_running); [apply demo_running_reachable|].
  unfold demo_finished, run. apply StepFinish.
Qed.

Definition demo_done : attempt_row :=
  Eval vm_compute in
    match task_attempts (wd_db demo_finished) with a :: _ => a | [] => demo_attempt end.

Lemma outcomes_final_witness :
  exists a', In a' (task_attempts (wd_db demo_late_cancel)) /\ a_id a' = "atm_3" /\
             a_state a' = ASucceeded.
Proof.
  apply (outcomes_final demo_finished demo_late_cancel) with (a := demo_done).
  - apply demo_finished_reachable.
  - apply rtc_once. unfold demo_late_cancel, run. apply StepCancel.
  - vm_compute. by left.
  - by vm_compute.
Defined.

Definition demo_charge : ledger_row :=
  Eval vm_compute in
    match usage_ledger (wd_db demo_finished) with
    | e :: _ => e
    | [] => Mk_ledger_row "" "" EnReversal (JDoc JNull) (JDoc JNull) 0 0 0 false "" 0 None "" None
              None 0
    end.

Lemma charged_once_witness :
  ul_entry_type demo_charge = EnCharge /\
  exists a, In a (task_attempts (wd_db demo_finished)) /\ a_id a = "atm_3" /\
            attempt_active (a_state a) = false.
Proof.
  split; [by vm_compute|].
  apply (charged_once demo_finished demo_charge demo_charge);
    [apply demo_finished_reachable|vm_compute; by left|vm_compute; by left|by vm_compute..|done].
Defined.

(** The worker leaves at once, and its late heartbeat is refused. *)
Definition demo_departed : world := run (leave_worker "wrk_0" "usr_owner" true) demo_running.
Definition demo_late_heartbeat : world :=
  run (worker_heartbeat "wrk_0" (Some demo_report)) demo_departed.
Definition demo_revoked : worker_row :=
  Eval vm_compute in
    match workers (wd_db demo_departed) with w :: _ => w | [] => demo_worker end.

Lemma revocation_final_witness :
  exists worker, In worker (workers (wd_db demo_late_heartbeat)) /\ w_id worker = "wrk_0" /\
                 w_status worker = WRevoked.
Proof.
  destruct (revocation_final demo_departed demo_late_heartbeat demo_revoked) as [H _].
  - apply (reachable_step demo_running); [apply demo_running_reachable|].
    unfold demo_departed, run. apply StepLeave.
  - apply rtc_once. unfold demo_late_heartbeat, run. apply StepWorkerHeartbeat.
  - vm_compute. by left.
  - vm_compute. reflexivity.
  - exact H.
Defined.
