(* ===== verification/Fencing.v ===== *)
(** * Queueing, leasing and fencing

    What a lease grant, a heartbeat and a terminal report do, as functional
    properties of the operations: the order of a worker's queue, the freshness
    of the granted fence, the rejection of stale fences, and the receipts that
    make reports idempotent. *)

From S2P Require Import Prelude Python Errors Schema Store Access Metadata Diagnostics.
From S2P Require Import Capability Scheduler Fleet Usage Scenario Invariant Lifecycle Reach.

Open Scope Z_scope.

(** ** The queue order *)

Lemma queue_before_irrefl t : queue_before t t = false.
Proof. unfold queue_before. rewrite !Z.ltb_irrefl, str_ltb_irrefl, !andb_false_r. done. Qed.

Lemma queue_before_spec x y :
  queue_before x y = true <->
  t_priority y < t_priority x \/
  (t_priority x = t_priority y /\
   (t_created_at x < t_created_at y \/
    (t_created_at x = t_created_at y /\ str_ltb (t_id x) (t_id y) = true))).
Proof.
  unfold queue_before.
  rewrite orb_true_iff, andb_true_iff, orb_true_iff, andb_true_iff, !Z.ltb_lt, !Z.eqb_eq. done.
Qed.

Lemma queue_before_trans x y z :
  queue_before x y = true -> queue_before y z = true -> queue_before x z = true.
Proof.
  rewrite !queue_before_spec.
  intros [?|(? & [?|(? & ?)])] [?|(? & [?|(? & ?)])]; try (left; lia);
    right; (split; [lia|]); try (left; lia).
  right. split; [lia|]. by eapply str_ltb_trans.
Qed.

Lemma queue_before_total x y :
  queue_before x y = true \/ queue_before y x = true \/
  (t_priority x = t_priority y /\ t_created_at x = t_created_at y /\ t_id x = t_id y).
Proof.
  rewrite !queue_before_spec.
  destruct (Z.lt_trichotomy (t_priority x) (t_priority y)) as [?|[?|?]]; [by auto| |by auto].
  destruct (Z.lt_trichotomy (t_created_at x) (t_created_at y)) as [?|[?|?]]; [by auto 6| |].
  - destruct (str_ltb_total (t_id x) (t_id y)) as [?|[?|?]]; auto 8.
  - right; left; right. auto.
Qed.

Lemma queue_leb_preorder : total_preorder queue_leb.
Proof.
  unfold queue_leb. split.
  - intros x y. destruct (queue_before y x) eqn:E1; [|by auto].
    destruct (queue_before x y) eqn:E2; [|by auto].
    pose proof (queue_before_trans _ _ _ E1 E2). by rewrite queue_before_irrefl in *.
  - intros x y z. rewrite !negb_true_iff. intros H1 H2. destruct (queue_before z x) eqn:H3; [|done].
    destruct (queue_before_total x y) as [H|[H|H]]; [|congruence|].
    + rewrite (queue_before_trans z x y) in H2; done.
    + destruct H as (Ep & Ec & Ei). unfold queue_before in H2, H3. rewrite Ep, Ec, Ei in H3.
      congruence.
Qed.

(** ** Positions *)

Definition ahead_of (d : db) (worker_id : string) (task : task_row) : Z :=
  count (fun t => (t_assigned_worker_id t =d Some worker_id) && task_waiting (t_state t) &&
                  queue_before t task) (tasks d).

Lemma queue_position_waiting d t worker_id :
  t_assigned_worker_id t = Some worker_id -> worker_id <> "" -> task_waiting (t_state t) = true ->
  _task_queue_position d t = Some (ahead_of d worker_id t + 1).
Proof.
  intros Ha Hne Hw. unfold _task_queue_position, truthy_id. rewrite Hw, Ha.
  destruct (String.eqb_spec worker_id ""); [done|]. done.
Qed.

(** Counting with a strictly larger predicate. *)
Lemma count_lt_impl {A} (p q : A -> bool) l x :
  (forall y, In y l -> p y = true -> q y = true) -> In x l -> p x = false -> q x = true ->
  count p l < count q l.
Proof.
  intros Hpq. induction l as [|y l IH]; [done|]. intros Hin Hp Hq. rewrite !count_cons.
  assert (count p l <= count q l) by (apply count_le_impl; intros; apply Hpq; simpl; auto).
  destruct Hin as [->|Hin].
  - rewrite Hp, Hq. lia.
  - assert (count p l < count q l) by (apply IH; auto; intros; apply Hpq; simpl; auto).
    pose proof (Hpq y (or_introl eq_refl)). destruct (p y), (q y); try lia; naive_solver.
Qed.

(** Queue positions follow the queue.  Of two waiting tasks of a worker the
    one that comes first (by priority, then age, then identifier) has the
    smaller position, positions start at 1, and so no two waiting tasks of a
    worker share one. *)
Theorem queue_positions_ordered d t t' worker_id :
  In t (tasks d) -> In t' (tasks d) -> worker_id <> "" ->
  t_assigned_worker_id t = Some worker_id -> t_assigned_worker_id t' = Some worker_id ->
  task_waiting (t_state t) = true -> task_waiting (t_state t') = true ->
  queue_before t t' = true ->
  exists p p', _task_queue_position d t = Some p /\ _task_queue_position d t' = Some p' /\
               1 <= p < p'.
Proof.
  intros Ht Ht' Hne Ha Ha' Hw Hw' Hb.
  rewrite !(queue_position_waiting d _ worker_id) by done. eexists _, _. split; [done|].
  split; [done|]. unfold ahead_of. split; [pose proof (count_nonneg (fun t0 : task_row =>
    (t_assigned_worker_id t0 =d Some worker_id) && task_waiting (t_state t0) && queue_before t0 t)
    (tasks d)); lia|].
  apply Z.add_lt_mono_r, (count_lt_impl _ _ _ t); [|done|..].
  - intros y _ Hy. split_bools. rewrite (queue_before_trans y t t') by done.
    rewrite bool_decide_eq_true_2 by done. by rewrite andb_true_r.
  - by rewrite queue_before_irrefl, andb_false_r.
  - by rewrite Ha, Hw, Hb, bool_decide_eq_true_2.
Qed.

(** ** The grant *)

Section Grant.
Context {E : Env}.

Definition fences (d : db) : list (string * (string * Z)) :=
  map (fun a => (a_id a, fence a)) (task_attempts d).

Definition fences_are (F : list (string * (string * Z))) (d : db) : Prop := fences d = F.

Lemma fences_update F p f d d' :
  (forall a, a_id (f a) = a_id a /\ fence (f a) = fence a) ->
  task_attempts d' = update p f (task_attempts d) -> fences_are F d -> fences_are F d'.
Proof.
  intros Hf E0 <-. unfold fences_are, fences. rewrite E0. apply update_map_inv.
  intros a. by destruct (Hf a) as [-> ->].
Qed.

Lemma fences_same F d d' : task_attempts d' = task_attempts d -> fences_are F d -> fences_are F d'.
Proof. unfold fences_are, fences. by intros ->. Qed.

(** Expiry changes no attempt's identity or fence. *)
Lemma keeps_fences_reservations F stamp : keeps (fences_are F) (_expire_reservations stamp).
Proof.
  intros w u w' HF Hrun. unfold _expire_reservations in Hrun. run_all; [done|].
  eapply (fences_update F _ _ (wd_db w)); [|tables|exact HF]; done.
Qed.

Lemma keeps_fences_leases F stamp : keeps (fences_are F) (_expire_leases stamp).
Proof.
  intros w u w' HF Hrun. unfold _expire_leases, _finalize_drained_workers in Hrun. run_all.
  match goal with H : for_each _ _ _ = _ |- _ => revert H end.
  match goal with H : for_sum _ _ _ = _ |- _ =>
    apply (keeps_for_sum (fences_are F)) in H; [|clear|done] end.
  - apply keeps_for_each; [|done]. clear. intros i _ w1 u1 w2 HF Hrun. run_all.
    eapply fences_same; [|exact HF]. tables.
  - intros row _ w1 u1 w2 HF Hrun. unfold expire_lease in Hrun. run_all.
    all: eapply (fences_update F _ _ (wd_db w1)); [|tables|exact HF]; done.
Qed.

(** A granting call of [lease]: its transaction, and the answer built from it. *)
Lemma lease_run worker_id ttl w g w' :
  lease worker_id ttl w = (Ok (Some g), w') ->
  let stamp := clock (wd_ticks w) in
  exists w0 w1 attempt key,
    wd_db w0 = wd_db w /\ wd_db w' = wd_db w1 /\
    lease_transaction worker_id stamp ttl w0 =
      (Ok (Some (g_task g, attempt, key, g_lease_id g, g_fencing_token g)), w1) /\
    g_attempt_id g = a_id attempt /\ g_expires_at g = stamp + seconds ttl /\
    1 <= g_output_count g <= 8.
Proof.
  unfold lease. intros Hrun. apply run_bind in Hrun as (stamp & w0 & Hnow & Hrun).
  injection Hnow as <- <-. apply run_bind in Hrun as (o & w1 & Htx & Hrun).
  unfold transaction in Htx. destruct (lease_transaction _ _ _ _) as [[o'|e] w1'] eqn:Hl; [|done].
  injection Htx as -> ->. destruct o as [[[[[task attempt] key] lease_id] f]|]; [|by run_all].
  run_all. simplify_eq. eexists _, _, attempt, key. split; [|split; [|split; [exact Hl|]]]; simpl;
    try done.
  split_and!; try done; lia.
Qed.

(** A granted lease fences out every earlier holder.  Its token is greater
    than every token the worker's attempts ever carried, and after the grant
    the attempt is leased, its lease is the unreleased one that carries that
    token and expires [ttl] after the grant, and its task is reserved. *)
Theorem lease_grants_fresh_fence w worker_id ttl g w' :
  reachable w -> lease worker_id ttl w = (Ok (Some g), w') ->
  (forall a, In a (task_attempts (wd_db w)) -> a_worker_id a = worker_id ->
             a_fencing_token a < g_fencing_token g) /\
  (exists a, In a (task_attempts (wd_db w')) /\ a_id a = g_attempt_id g /\
             a_task_id a = t_id (g_task g) /\ a_worker_id a = worker_id /\
             a_fencing_token a = g_fencing_token g /\ a_state a = ALeased) /\
  (exists l, In l (leases (wd_db w')) /\ l_attempt_id l = g_attempt_id g /\
             l_worker_id l = worker_id /\ l_fencing_token l = g_fencing_token g /\
             l_released_at l = None /\ l_expires_at l = clock (wd_ticks w) + seconds ttl /\
             l_expires_at l = g_expires_at g) /\
  (exists t, In t (tasks (wd_db w')) /\ t_id t = t_id (g_task g) /\ t_state t = TReserved).
Proof.
  intros HI%inv_reachable (w0 & w1 & attempt & key & E0 & E1 & Hrun & Ea & Eexp & _)%lease_run.
  rewrite <- E0 in HI. pose proof (lease_transaction_grant _ _ _ _ _ _ _ _ _ _ HI Hrun)
    as (wr & wl & n & worker & l & Hres & Hexp & HI' & Hw & _ & _ & _ & _ & _ & El & _ & HG).
  apply find_by_some in Hw as [Hw Ew]. rewrite E1.
  destruct (gt_lease _ _ _ _ _ _ _ _ HG) as (El1 & El2 & El3 & Hlive).
  split_and!.
  - intros a Ha Ewa.
    assert (fences_are (fences (wd_db w0)) (wd_db wl)) as HF.
    { eapply keeps_fences_leases; [|exact Hexp].
      eapply keeps_fences_reservations; [|exact Hres]. done. }
    assert (In (a_id a, fence a) (fences (wd_db wl))) as Hin.
    { rewrite HF. unfold fences. rewrite E0. by apply (in_map (fun a => (a_id a, fence a))). }
    apply in_map_iff in Hin as (b & [= Eb Ebw Ebf] & Hb). rewrite <- Ebf.
    eapply grant_fence_fresh; [exact HG|exact HI'|exact Hb|congruence].
  - exists (granted_attempt attempt (g_fencing_token g) (clock (wd_ticks w))).
    split; [eapply grant_in_attempts; [exact HG|exact HI'|by left]|]. simpl.
    rewrite (gt_attempt_task _ _ _ _ _ _ _ _ HG), (gt_attempt_worker _ _ _ _ _ _ _ _ HG). done.
  - exists l. rewrite (gt_leases _ _ _ _ _ _ _ _ HG), in_app_iff. unfold live in Hlive.
    split_bools. split_and!; try congruence. right. by left.
  - eexists. split; [eapply grant_in_tasks; [exact HG|exact HI'|by left]|]. done.
Qed.

(** Leasing respects the queue, the worker's state and its capacity.  When
    a lease is granted the worker is active and has no maintenance job that
    blocks scheduling, the task was waiting in its queue, no task still waiting
    there precedes the granted one, and the grant keeps the worker within its
    capacity. *)
Theorem lease_takes_queue_head w worker_id ttl g w' :
  reachable w -> lease worker_id ttl w = (Ok (Some g), w') ->
  (exists worker, In worker (workers (wd_db w')) /\ w_id worker = worker_id /\
                  w_status worker = WActive /\
                  executing_count (wd_db w') worker_id <= w_capacity worker) /\
  task_waiting (t_state (g_task g)) = true /\
  t_assigned_worker_id (g_task g) = Some worker_id /\
  (forall t, In t (tasks (wd_db w')) -> t_assigned_worker_id t = Some worker_id ->
     task_waiting (t_state t) = true -> t_reservation_expires_at t = None ->
     queue_before t (g_task g) = false).
Proof.
  intros HI%inv_reachable (w0 & w1 & attempt & key & E0 & E1 & Hrun & _)%lease_run.
  rewrite <- E0 in HI. pose proof (lease_transaction_grant _ _ _ _ _ _ _ _ _ _ HI Hrun)
    as (wr & wl & n & worker & l & _ & _ & HI' & Hw & Hact & Hjob & Hhead & _ & _ & _ & Hd & HG).
  apply find_by_some in Hw as [Hw Ew]. rewrite E1.
  pose proof (queue_head_spec _ _ _ _ Hhead) as (Hin & Hasg & Hwait).
  split_and!; try done.
  - eexists. split; [eapply grant_in_workers; [exact HG|exact HI'|by left]|]. simpl.
    split_and!; try done. pose proof (grant_inv _ _ _ _ _ _ _ _ HG HI' Hd) as HI1.
    pose proof (inv_capacity _ HI1 (worker <| w_fencing_counter := g_fencing_token g |>
      <| w_updated_at := clock (wd_ticks w) |>)) as Hc. simpl in Hc. rewrite Ew in Hc. apply Hc.
    eapply grant_in_workers; [exact HG|exact HI'|by left].
  - intros t Ht Hta Htw Htr.
    destruct (proj1 (grant_in_tasks _ _ _ _ _ _ _ _ HG HI' t) Ht) as [->|[Ht' Hne]]; [done|].
    apply order_by_head_min in Hhead as [_ Hmin]; [|apply queue_leb_preorder].
    specialize (Hmin t). rewrite in_select in Hmin. unfold queue_leb in Hmin.
    apply negb_true_iff, Hmin. split; [done|].
    by rewrite Hta, Htw, Htr, bool_decide_eq_true_2.
Qed.
End Grant.

(** ** Reports under a fence *)

(** At time [stamp], worker [wid] holds attempt [aid] under token [tok]: the
    attempt carries that worker and token, is leased or running, and has an
    unreleased, unexpired lease. *)
Definition holds_fence (d : db) (stamp : Z) (aid wid : string) (tok : Z) : Prop :=
  exists l a, In l (leases d) /\ In a (task_attempts d) /\
    l_attempt_id l = aid /\ l_released_at l = None /\ stamp < l_expires_at l /\
    a_id a = aid /\ a_worker_id a = wid /\ a_fencing_token a = tok /\
    attempt_executing (a_state a) = true.

Lemma fenced_lease_holds `{Past} d stamp aid wid tok l a t :
  Inv d -> fenced_lease d aid wid tok = Some (l, a, t) -> stamp < l_expires_at l ->
  holds_fence d stamp aid wid tok.
Proof.
  intros HI (Hl & E1 & E2 & E3 & Hlive & Ha & Ea & _)%fenced_lease_spec Hexp.
  destruct (inv_lease_attempt _ HI l Hl) as (b & Hb & Eb & Ew & Ef & _).
  assert (b = a) as -> by (apply (attempt_unique d); auto; congruence).
  pose proof (inv_live_executing _ HI l a Hl Ha Eb Hlive).
  unfold live in Hlive. split_bools. exists l, a. split_and!; try done; congruence.
Qed.

Section Finish.
Context {E : Env}.

(** The body of the transaction of [finish_attempt]. *)
Definition finish_body (r : finish_report) (outs : list dict) (m : metrics)
    (oc : option Z * responsibility) (stamp : Z) : M receipt :=
  lease ← query (fun d => fenced_lease d (fr_attempt_id r) (fr_worker_id r) (fr_fencing_token r));
  match lease with
  | Some (l, a, t) =>
      if (stamp <? l_expires_at l) && attempt_executing (a_state a)
      then finish_with_lease r l a t outs m (fst oc) (snd oc) stamp
      else finish_without_lease r (fst oc)
  | None => finish_without_lease r (fst oc)
  end.

(** The checks of a report that precede the transaction. *)
Record valid_report (r : finish_report) (outs : list dict) (m : metrics)
    (oc : option Z * responsibility) : Prop := MkValid {
  vr_hash : match fr_finish_semantic_hash r with
            | Some h => is_semantic_hash h
            | None => true
            end = true;
  vr_outputs : res_map canonical_output (fr_output_artifacts r) = Ok outs;
  vr_metrics : _validate_usage_metrics (fr_metrics r) = Ok m;
  vr_outcome : _canonical_attempt_outcome (fr_succeeded r) (fr_failure_code r)
                 (fr_responsibility r) = Ok oc
}.

Lemma finish_attempt_eq r outs m oc w :
  valid_report r outs m oc ->
  finish_attempt r w =
  transaction (finish_body r outs m oc (clock (wd_ticks w)))
              (w <| wd_ticks := S (wd_ticks w) |>).
Proof.
  intros [Hh Ho Hm Hc]. unfold finish_attempt, bind at 1, mbind, M_bind, check.
  rewrite Hh. simpl. unfold bind at 1, mbind, M_bind, lift_res. rewrite Ho. simpl.
  unfold bind at 1, mbind, M_bind. rewrite Hm. simpl.
  unfold bind at 1, mbind, M_bind. rewrite Hc. done.
Qed.

(** An invalid report raises before it touches the database. *)
Lemma finish_attempt_cases r w :
  (exists outs m oc, valid_report r outs m oc) \/
  (exists e, finish_attempt r w = (Raise e, w)).
Proof.
  unfold finish_attempt, bind at 1, mbind, M_bind, check.
  destruct (match fr_finish_semantic_hash r with Some h => _ | None => _ end) eqn:Hh;
    [|right; eexists; done].
  simpl. unfold bind at 1, mbind, M_bind, lift_res.
  destruct (res_map _ _) as [outs|] eqn:Ho; [|right; eexists; done].
  simpl. unfold bind at 1, mbind, M_bind.
  destruct (_validate_usage_metrics _) as [m|] eqn:Hm; [|right; eexists; done].
  simpl. unfold bind at 1, mbind, M_bind.
  destruct (_canonical_attempt_outcome _ _ _) as [oc|] eqn:Hc; [|right; eexists; done].
  left. exists outs, m, oc. by constructor.
Qed.

Lemma finish_run r w rc w' :
  finish_attempt r w = (Ok rc, w') ->
  exists outs m oc, valid_report r outs m oc /\
    finish_body r outs m oc (clock (wd_ticks w)) (w <| wd_ticks := S (wd_ticks w) |>) = (Ok rc, w').
Proof.
  intros Hrun. destruct (finish_attempt_cases r w) as [(outs & m & oc & Hv)|(e & He)];
    [|congruence]. exists outs, m, oc. split; [done|].
  rewrite (finish_attempt_eq r outs m oc w Hv) in Hrun. unfold transaction in Hrun.
  by destruct (finish_body _ _ _ _ _ _) as [[] ?].
Qed.

(** Without a live lease of the exact fence a report only reads. *)
Lemma finish_body_unfenced r outs m oc stamp w :
  match fenced_lease (wd_db w) (fr_attempt_id r) (fr_worker_id r) (fr_fencing_token r) with
  | Some (l, a, _) => (stamp <? l_expires_at l) && attempt_executing (a_state a) = false
  | None => True
  end ->
  finish_body r outs m oc stamp w = finish_without_lease r (fst oc) w.
Proof.
  intros H. unfold finish_body, bind at 1, mbind, M_bind, query.
  destruct (fenced_lease _ _ _ _) as [[[l a] t]|]; [|done]. by rewrite H.
Qed.

Lemma transaction_reads {A} (m : M A) w : snd (m w) = w -> wd_db (snd (transaction m w)) = wd_db w.
Proof. unfold transaction. destruct (m w) as [[] w']; simpl; [by intros ->|done]. Qed.

(** Only the holder of the exact fence can report.  If a terminal report
    changes the database at all, then at that moment an unreleased, unexpired
    lease carried exactly the reported attempt, worker and token, and that
    attempt was leased or running.  A worker whose lease expired, was revoked
    or was granted again under a newer token changes nothing. *)
Theorem finish_writes_under_lease r w :
  reachable w -> wd_db (snd (finish_attempt r w)) <> wd_db w ->
  holds_fence (wd_db w) (clock (wd_ticks w)) (fr_attempt_id r) (fr_worker_id r)
    (fr_fencing_token r).
Proof.
  intros HI%inv_reachable Hne.
  destruct (finish_attempt_cases r w) as [(outs & m & oc & Hv)|(e & He)];
    [|by rewrite He in Hne].
  rewrite (finish_attempt_eq r outs m oc w Hv) in Hne.
  destruct (fenced_lease (wd_db w) (fr_attempt_id r) (fr_worker_id r) (fr_fencing_token r))
    as [[[l a] t]|] eqn:El; [destruct ((clock (wd_ticks w) <? l_expires_at l) &&
                                       attempt_executing (a_state a)) eqn:Ec|].
  - split_bools. by eapply fenced_lease_holds.
  - destruct Hne. etransitivity; [apply transaction_reads|done]. rewrite finish_body_unfenced; [|by simpl; rewrite El].
    apply reads_only_finish_without_lease.
  - destruct Hne. etransitivity; [apply transaction_reads|done]. rewrite finish_body_unfenced; [|by simpl; rewrite El].
    apply reads_only_finish_without_lease.
Qed.
End Finish.

(** ** Heartbeats under a fence *)

Section Heartbeat.
Context {E : Env}.

(** Without a live lease of the exact fence a heartbeat only reads. *)
Lemma heartbeat_unfenced aid wid tok ttl started report w :
  match fenced_lease (wd_db w) aid wid tok with
  | Some (l, _, _) => (clock (wd_ticks w) <? l_expires_at l) = false
  | None => True
  end ->
  heartbeat_attempt aid wid tok ttl started report w =
  transaction (cancelled_ack aid wid tok (clock (wd_ticks w))) (w <| wd_ticks := S (wd_ticks w) |>).
Proof.
  intros H. unfold heartbeat_attempt, bind at 1, mbind, M_bind, now, transaction.
  unfold bind at 1, mbind, M_bind, query. simpl.
  destruct (fenced_lease _ _ _ _) as [[[l a] t]|]; [|done]. by rewrite H.
Qed.

(** Only the holder of the exact fence keeps a lease alive.  A heartbeat
    that changes the database, or that is answered without the cancellation
    flag, comes from a worker that holds the attempt under exactly the reported
    token; in the second case the lease now expires [ttl] after the heartbeat,
    as the answer says. *)
Theorem heartbeat_under_fence aid wid tok ttl started report w :
  reachable w ->
  let w' := snd (heartbeat_attempt aid wid tok ttl started report w) in
  (wd_db w' <> wd_db w -> holds_fence (wd_db w) (clock (wd_ticks w)) aid wid tok) /\
  (forall expires, fst (heartbeat_attempt aid wid tok ttl started report w) =
                     Ok (MkHeartbeat false expires) ->
     holds_fence (wd_db w) (clock (wd_ticks w)) aid wid tok /\
     expires = clock (wd_ticks w) + seconds ttl /\
     exists l, In l (leases (wd_db w')) /\ l_attempt_id l = aid /\ l_released_at l = None /\
               l_expires_at l = expires).
Proof.
  intros HI%inv_reachable w'.
  destruct (fenced_lease (wd_db w) aid wid tok) as [[[l a] t]|] eqn:El;
    [destruct (clock (wd_ticks w) <? l_expires_at l) eqn:Ec|].
  2,3: unfold w'; rewrite heartbeat_unfenced by (by rewrite El);
    pose proof (reads_only_cancelled_ack aid wid tok (clock (wd_ticks w))
                  (w <| wd_ticks := S (wd_ticks w) |>)) as Hr;
    split; [intros []; by apply (transaction_reads _ _ Hr)|];
    unfold transaction, cancelled_ack, bind, mbind, M_bind, query; simpl;
    destruct (fenced_attempt _ _ _ _) as [[? t']|]; [destruct (t_state t' =d TCancelled)|]; done.
  split_bools. pose proof (fenced_lease_holds _ _ _ _ _ _ _ _ HI El Ec) as Hf.
  split; [done|]. intros expires Hok. split; [done|].
  destruct (heartbeat_attempt aid wid tok ttl started report w) as [res w1] eqn:Hrun.
  simpl in Hok. subst res w'. simpl.
  pose proof (fenced_lease_spec _ _ _ _ _ _ _ El) as (Hl & El1 & _ & _ & Hlive & _).
  unfold live in Hlive. unfold heartbeat_attempt in Hrun. apply run_bind in Hrun as (stamp & w0 & Hnow & Hrun).
  injection Hnow as <- <-. apply run_transaction in Hrun.
  apply run_bind in Hrun as (o & w2 & Hq & Hrun). apply run_query in Hq as [-> ->]. simpl in Hrun.
  rewrite El, (proj2 (Z.ltb_lt _ _) Ec) in Hrun. run_all; simplify_eq; split_bools.
  all: split; [done|]; exists (l <| l_heartbeat_at := Some (clock (wd_ticks w)) |>
                       <| l_expires_at := clock (wd_ticks w) + seconds ttl |>).
  all: split; [|done]; flat_db; simpl; apply in_update; exists l;
    rewrite bool_decide_eq_true_2 by done; auto.
Qed.
End Heartbeat.

(** ** Receipts *)

Section Receipts.
Context {E : Env}.

(** The tables that hold the outcome of a task. *)
Definition outcome_tables (d : db) : list task_row * list attempt_row * list lease_row :=
  (tasks d, task_attempts d, leases d).

Definition outcome_is T (d : db) : Prop := outcome_tables d = T.

Lemma keeps_outcome_drain T stamp : keeps (outcome_is T) (_finalize_drained_workers stamp).
Proof.
  intros w n w' HT Hrun. unfold _finalize_drained_workers in Hrun. run_all.
  match goal with H : for_each _ _ _ = _ |- _ => revert H end.
  apply keeps_for_each; [|done]. clear. intros i _ w1 u w2 HT Hrun. run_all.
  unfold outcome_is, outcome_tables in *. rewrite <- HT. f_equal; [f_equal|]; tables.
Qed.

Lemma keeps_ledger_drain L stamp :
  keeps (fun d => Forall2 eq (usage_ledger d) L) (_finalize_drained_workers stamp).
Proof.
  intros w n w' HT Hrun. unfold _finalize_drained_workers in Hrun. run_all.
  match goal with H : for_each _ _ _ = _ |- _ => revert H end.
  apply (keeps_for_each (fun d => Forall2 eq (usage_ledger d) L)); [|done].
  clear. intros i _ w1 u w2 HT Hrun. run_all.
  destruct H0 as (_ & _ & _ & _ & Eu). flat_db. by rewrite Eu.
Qed.

Lemma record_usage_outcome r l a m c p stamp w u w' :
  record_usage r l a m c p stamp w = (Ok u, w') ->
  outcome_tables (wd_db w') = outcome_tables (wd_db w).
Proof.
  intros Hrun. unfold record_usage, _append_ledger in Hrun. run_all.
  all: unfold outcome_tables; f_equal; [f_equal|]; tables.
Qed.

(** After the fenced branch: the tables of the outcome. *)
Lemma finish_fenced_tables r l a t outs m fc resp stamp w rc w' :
  finish_with_lease r l a t outs m fc resp stamp w = (Ok rc, w') ->
  rc = outcome_receipt r a t /\
  map t_id (tasks (wd_db w')) = map t_id (tasks (wd_db w)) /\
  task_attempts (wd_db w') = update (fun x => a_id x =d fr_attempt_id r)
      (finished_row r a t fc resp stamp) (task_attempts (wd_db w)) /\
  leases (wd_db w') = update (fun x => l_attempt_id x =d fr_attempt_id r)
      (fun x => x <| l_released_at := Some stamp |>) (leases (wd_db w)).
Proof.
  intros (-> & w1 & w2 & w3 & Ht & Ha & Hl & _ & _ & Hc & Hu & Hd)%finish_with_lease_run.
  split; [done|].
  assert (outcome_is (outcome_tables (wd_db w1)) (wd_db w')) as Ho.
  { assert (outcome_is (outcome_tables (wd_db w1)) (wd_db w3)) as H3.
    { assert (outcome_tables (wd_db w2) = outcome_tables (wd_db w1)) as <-
        by (destruct Hc as (E1 & E2 & E3 & _); unfold outcome_tables; congruence).
      destruct (negb _ || _); [by eapply record_usage_outcome|by subst]. }
    destruct Hd as [->|[n Hd]]; [done|]. by eapply keeps_outcome_drain. }
  injection Ho as -> -> ->. rewrite Ht, Ha, Hl, update_map_inv by done. done.
Qed.

(** The one row a unique key selects. *)
Lemma head_select_unique {A K} (key : A -> K) (p : A -> bool) l x :
  NoDup (map key l) -> In x l -> p x = true -> (forall y, In y l -> p y = true -> key y = key x) ->
  head (select p l) = Some x.
Proof.
  intros Hd Hx Hp Hk. destruct (head (select p l)) as [y|] eqn:Eh.
  - apply head_select_some in Eh as [Hy Hpy]. f_equal.
    by apply (NoDup_map_inj key l); auto.
  - apply head_none in Eh. rewrite select_nil in Eh. rewrite Eh in Hp; done.
Qed.

Lemma find_by_map {R K} `{EqDecision K} (key : R -> K) k t t' :
  map key t' = map key t -> is_some (find_by key k t) = is_some (find_by key k t').
Proof.
  intros Hm. destruct (find_by key k t) as [r|] eqn:E1, (find_by key k t') as [r'|] eqn:E2; try done.
  - apply find_by_some in E1 as [Hin <-]. rewrite find_by_none in E2.
    apply (in_map key) in Hin. rewrite <- Hm in Hin. apply in_map_iff in Hin as (y & Ey & Hy).
    by destruct (E2 y Hy).
  - apply find_by_some in E2 as [Hin <-]. rewrite find_by_none in E1.
    apply (in_map key) in Hin. rewrite Hm in Hin. apply in_map_iff in Hin as (y & Ey & Hy).
    by destruct (E1 y Hy).
Qed.

(** After a fenced report the fence has no lease left, and the attempt carries
    the outcome and its receipt. *)
Lemma finish_fenced_after r l a t outs m fc resp stamp w rc w' :
  Inv (wd_db w) ->
  fenced_lease (wd_db w) (fr_attempt_id r) (fr_worker_id r) (fr_fencing_token r) =
    Some (l, a, t) ->
  finish_with_lease r l a t outs m fc resp stamp w = (Ok rc, w') ->
  fenced_lease (wd_db w') (fr_attempt_id r) (fr_worker_id r) (fr_fencing_token r) = None /\
  exists t', fenced_attempt (wd_db w') (fr_attempt_id r) (fr_worker_id r) (fr_fencing_token r) =
    Some (finished_row r a t fc resp stamp a, t').
Proof.
  intros HI El (-> & Ht & Ha & Hl)%finish_fenced_tables.
  pose proof (fenced_lease_spec _ _ _ _ _ _ _ El) as (Hin & E1 & E2 & E3 & Hlive & Hain & Ea & Htin & Et).
  destruct (inv_lease_attempt _ HI l Hin) as (b & Hb & Eb & Ew & Ef & _).
  assert (b = a) as -> by (apply (attempt_unique (wd_db w)); auto; congruence). split.
  - unfold fenced_lease, bind, mbind, option_bind.
    destruct (head _) as [l'|] eqn:Eh; [|done]. apply head_select_some in Eh as [Hl' Hp].
    split_bools. rewrite Hl in Hl'. apply in_update in Hl' as (y & _ & [[_ ->]|[Hf ->]]); [done|].
    split_bools. done.
  - unfold fenced_attempt, bind, mbind, option_bind.
    set (a' := finished_row r a t fc resp stamp a).
    assert (a_id a' = a_id a /\ a_task_id a' = a_task_id a /\ a_worker_id a' = a_worker_id a /\
            a_fencing_token a' = a_fencing_token a) as (K1 & K2 & K3 & K4) by done.
    rewrite (head_select_unique a_id _ _ a').
    + rewrite K2. pose proof (find_by_map t_id (a_task_id a) _ _ Ht) as Hs.
      destruct (find_by t_id (a_task_id a) (tasks (wd_db w'))) as [t'|]; [by eauto|].
      destruct (find_by t_id (a_task_id a) (tasks (wd_db w))) as [t'|] eqn:Ef'; [done|].
      rewrite find_by_none in Ef'. by destruct (Ef' t Htin).
    + rewrite Ha, (update_map_inv a_id); [apply HI|].
      exact (fun x => proj1 (finished_row_keys r a t fc resp stamp x)).
    + rewrite Ha. apply in_update. exists a. rewrite Ea, bool_decide_eq_true_2 by done. auto.
    + rewrite K1, K3, K4, !bool_decide_eq_true_2 by congruence. done.
    + intros y _ Hy. split_bools. congruence.
Qed.

(** What an unfenced report answers depends on the database only. *)
Lemma finish_without_lease_db r c w w' :
  wd_db w' = wd_db w -> fst (finish_without_lease r c w') = fst (finish_without_lease r c w).
Proof.
  intros Ed. unfold finish_without_lease, bind, mbind, M_bind, query. rewrite Ed.
  destruct (fenced_attempt _ _ _ _) as [[a t]|]; [|done].
  destruct (fr_finish_semantic_hash r) as [h|]; [destruct (attempt_finished (a_state a))|];
    unfold lift_res; [destruct (_decode_finished_attempt_receipt _ _ _) as [[]|]|..];
    simpl; repeat case_match; done.
Qed.

Lemma finish_unfenced r outs m oc w :
  valid_report r outs m oc ->
  match fenced_lease (wd_db w) (fr_attempt_id r) (fr_worker_id r) (fr_fencing_token r) with
  | Some (l, a, _) => (clock (wd_ticks w) <? l_expires_at l) && attempt_executing (a_state a) = false
  | None => True
  end ->
  fst (finish_attempt r w) = fst (finish_without_lease r (fst oc) w) /\
  wd_db (snd (finish_attempt r w)) = wd_db w.
Proof.
  intros Hv Hl. rewrite (finish_attempt_eq r outs m oc w Hv).
  set (w0 := w <| wd_ticks := S (wd_ticks w) |>).
  assert (finish_body r outs m oc (clock (wd_ticks w)) w0 = finish_without_lease r (fst oc) w0) as Hb
    by by apply finish_body_unfenced.
  split.
  - rewrite <- (finish_without_lease_db r (fst oc) w w0) by done. unfold transaction. rewrite Hb.
    by destruct (finish_without_lease _ _ _) as [[] ?].
  - change (wd_db w) with (wd_db w0). apply transaction_reads. rewrite Hb.
    apply reads_only_finish_without_lease.
Qed.

(** The receipt of an outcome decodes to itself under its own hash. *)
Lemma receipt_decodes r a t fc resp stamp h :
  fr_finish_semantic_hash r = Some h ->
  _decode_finished_attempt_receipt (finished_row r a t fc resp stamp a) (fr_attempt_id r) h =
  Ok (Some (outcome_receipt r a t)).
Proof.
  intros Eh. unfold _decode_finished_attempt_receipt, finished_row. cbv zeta.
  cbn [modify a_finish_semantic_hash a_finish_receipt a_state]. simpl a_finish_semantic_hash.
  rewrite Eh. simpl. rewrite !String.eqb_refl. done.
Qed.

Lemma outcome_finished r t : attempt_finished (outcome_state r t) = true.
Proof. unfold outcome_state. by destruct (t_state t =d TCancelled), (fr_succeeded r). Qed.

(** Terminal reports are idempotent.  When a report that carries a semantic
    hash has been accepted, sending it again (at any later time, while the
    database is as the first report left it) returns the same receipt and
    changes nothing: the attempt is not finished, charged or published twice. *)
Theorem finish_replay r h w rc w1 w2 :
  reachable w -> fr_finish_semantic_hash r = Some h -> finish_attempt r w = (Ok rc, w1) ->
  wd_db w2 = wd_db w1 -> clock (wd_ticks w) <= clock (wd_ticks w2) ->
  fst (finish_attempt r w2) = Ok rc /\ wd_db (snd (finish_attempt r w2)) = wd_db w1.
Proof.
  intros HI%inv_reachable Eh (outs & m & oc & Hv & Hbody)%finish_run E2 Hclock.
  set (w0 := w <| wd_ticks := S (wd_ticks w) |>) in Hbody.
  destruct (fenced_lease (wd_db w) (fr_attempt_id r) (fr_worker_id r) (fr_fencing_token r))
    as [[[l a] t]|] eqn:El; [destruct ((clock (wd_ticks w) <? l_expires_at l) &&
                                       attempt_executing (a_state a)) eqn:Ec|].
  - assert (finish_with_lease r l a t outs m (fst oc) (snd oc) (clock (wd_ticks w)) w0 =
            (Ok rc, w1)) as Hrun.
    { unfold finish_body, bind at 1, mbind, M_bind, query in Hbody. simpl in Hbody.
      by rewrite El, Ec in Hbody. }
    destruct (finish_fenced_after r l a t _ _ _ _ _ w0 rc w1 HI El Hrun) as (Hnone & t' & Hsome).
    apply finish_fenced_tables in Hrun as (-> & _). rewrite <- E2 in Hnone, Hsome.
    destruct (finish_unfenced r outs m oc w2 Hv) as [-> ->]; [by rewrite Hnone|]. split; [|done].
    unfold finish_without_lease, bind, mbind, M_bind, query. rewrite Hsome, Eh.
    assert (attempt_finished (a_state (finished_row r a t (fst oc) (snd oc) (clock (wd_ticks w)) a))
            = true) as -> by apply outcome_finished. unfold lift_res. by rewrite receipt_decodes.
  - rewrite finish_body_unfenced in Hbody by (by simpl; rewrite El).
    pose proof (reads_only_finish_without_lease r (fst oc) w0) as Hr. rewrite Hbody in Hr.
    simpl in Hr. subst w1. apply fenced_lease_spec in El as Hsp.
    destruct Hsp as (Hl & E1 & _ & _ & Hlive & Ha & Ea & _).
    pose proof (inv_live_executing _ HI l a Hl Ha ltac:(congruence) Hlive) as Hex.
    unfold executing in Hex. rewrite Hex, andb_true_r in Ec.
    destruct (finish_unfenced r outs m oc w2 Hv) as [-> ->].
    { rewrite E2. simpl. rewrite El, Hex, andb_true_r. split_bools. apply Z.ltb_ge. lia. }
    by rewrite (finish_without_lease_db _ _ w0 w2), Hbody.
  - rewrite finish_body_unfenced in Hbody by (by simpl; rewrite El).
    pose proof (reads_only_finish_without_lease r (fst oc) w0) as Hr. rewrite Hbody in Hr.
    simpl in Hr. subst w1.
    destruct (finish_unfenced r outs m oc w2 Hv) as [-> ->]; [by rewrite E2; simpl; rewrite El|].
    by rewrite (finish_without_lease_db _ _ w0 w2), Hbody.
Qed.

(** One outcome per attempt.  Once an attempt is finished with a stored
    semantic hash, a valid report for the same fence whose hash differs is
    rejected with IDEMPOTENCY_CONFLICT and changes nothing. *)
Theorem finish_conflict r h h' a stored w outs m oc :
  reachable w -> In a (task_attempts (wd_db w)) -> attempt_finished (a_state a) = true ->
  a_finish_semantic_hash a = Some h -> a_finish_receipt a = Some stored ->
  a_id a = fr_attempt_id r -> a_worker_id a = fr_worker_id r ->
  a_fencing_token a = fr_fencing_token r ->
  (exists t, In t (tasks (wd_db w)) /\ t_id t = a_task_id a) ->
  valid_report r outs m oc -> fr_finish_semantic_hash r = Some h' -> h <> h' ->
  fst (finish_attempt r w) =
    Raise (repo_err IDEMPOTENCY_CONFLICT "IDEMPOTENCY_CONFLICT"
             "Attempt was already completed with different semantics." 409) /\
  wd_db (snd (finish_attempt r w)) = wd_db w.
Proof.
  intros HI%inv_reachable Ha Hfin Eh Es Ei Ew Ef (t & Ht & Et) Hv Eh' Hne.
  assert (Hx : executing a = false) by (unfold executing; by destruct (a_state a)).
  destruct (finish_unfenced r outs m oc w Hv) as [-> ->].
  { destruct (fenced_lease _ _ _ _) as [[[l b] t']|] eqn:El; [|done].
    apply fenced_lease_spec in El as (_ & _ & _ & _ & _ & Hb & Eb & _).
    rewrite (attempt_unique (wd_db w) b a) by (auto; congruence).
    unfold executing in Hx. by rewrite Hx, andb_false_r. }
  split; [|done]. unfold finish_without_lease, bind, mbind, M_bind, query, fenced_attempt.
  rewrite (head_select_unique a_id _ _ a); [|apply HI|done| |].
  - simpl. unfold bind, mbind, option_bind.
    destruct (find_by t_id (a_task_id a) (tasks (wd_db w))) as [t'|] eqn:Eft.
    + rewrite Eh', Hfin. unfold lift_res, _decode_finished_attempt_receipt. rewrite Eh, Es.
      destruct (String.eqb_spec h h'); done.
    + rewrite find_by_none in Eft. by destruct (Eft t Ht).
  - by rewrite Ei, Ew, Ef, !bool_decide_eq_true_2.
  - intros y _ Hy. split_bools. congruence.
Qed.
End Receipts.

(** ** The concrete control plane *)

(** A second, more urgent task behind the first. *)
Definition demo_backlog : world :=
  run (prepare_task (MkPrepareRequest (Some "usr_alice") "user" "usr_alice" ChCli "wsp_1" "pol_1"
         demo_ref demo_digest "comfyui"
         (JObj [("operation", JStr "i2v"); ("output_count", JInt 1)]) 5 600)) demo_committed.

Definition demo_task (w : world) (task_id : string) : task_row :=
  match find_by t_id task_id (tasks (wd_db w)) with
  | Some t => t
  | None => Mk_task_row "" "" "" None "" "" ChCli "" "" "" (JDoc JNull) 0 None None None None
              TPrepared 0 0 None None 0
  end.

Definition demo_slow : task_row := Eval vm_compute in demo_task demo_backlog "tsk_2".
Definition demo_urgent : task_row :=
  Eval vm_compute in ((demo_task demo_backlog "tsk_5") <| t_state := TQueued |>).

Lemma queue_positions_ordered_witness :
  let d := (wd_db demo_backlog) <| tasks := [demo_slow; demo_urgent] |> in
  exists p p', _task_queue_position d demo_urgent = Some p /\
               _task_queue_position d demo_slow = Some p' /\ 1 <= p < p'.
Proof.
  intros d. apply (queue_positions_ordered d demo_urgent demo_slow "wrk_0");
    by vm_compute; auto.
Defined.

Definition demo_grant : option lease_grant :=
  Eval vm_compute in
    match fst (lease "wrk_0" 30 demo_committed) with Ok (Some g) => Some g | _ => None end.

Lemma demo_committed_reachable : reachable demo_committed.
Proof.
  apply (reachable_step demo_prepared); [|unfold demo_committed, run; apply StepCommit].
  apply (reachable_step demo_ready); [|unfold demo_prepared, run; apply StepPrepare].
  apply demo_ready_reachable.
Qed.

Lemma demo_lease_run :
  exists g, demo_grant = Some g /\ lease "wrk_0" 30 demo_committed = (Ok (Some g), demo_leased) /\
            g_attempt_id g = "atm_3" /\ g_fencing_token g = 2 /\ t_id (g_task g) = "tsk_2".
Proof.
  eexists. split; [reflexivity|]. split.
  { unfold demo_leased. apply (run_ok (lease "wrk_0" 30) demo_committed). vm_compute. reflexivity. }
  repeat split.
Qed.

Lemma lease_grants_fresh_fence_witness :
  (forall a, In a (task_attempts (wd_db demo_committed)) -> a_worker_id a = "wrk_0" ->
             a_fencing_token a < 2) /\
  exists a, In a (task_attempts (wd_db demo_leased)) /\ a_id a = "atm_3" /\
            a_task_id a = "tsk_2" /\ a_worker_id a = "wrk_0" /\
            a_fencing_token a = 2 /\ a_state a = ALeased.
Proof.
  destruct demo_lease_run as (g & _ & Hrun & Ea & Ef & Et).
  destruct (lease_grants_fresh_fence demo_committed "wrk_0" 30 g demo_leased
              demo_committed_reachable Hrun) as (H1 & H2 & _).
  rewrite Ef in H1, H2. rewrite Ea, Et in H2. exact (conj H1 H2).
Defined.

Lemma lease_takes_queue_head_witness :
  exists worker, In worker (workers (wd_db demo_leased)) /\ w_id worker = "wrk_0" /\
                 w_status worker = WActive /\
                 executing_count (wd_db demo_leased) "wrk_0" <= w_capacity worker.
Proof.
  destruct demo_lease_run as (g & _ & Hrun & _).
  apply (lease_takes_queue_head demo_committed "wrk_0" 30 g demo_leased
           demo_committed_reachable Hrun).
Defined.

Lemma finish_writes_under_lease_witness :
  holds_fence (wd_db demo_running) (seconds 1007) "atm_3" "wrk_0" 2.
Proof.
  replace (seconds 1007) with (clock (wd_ticks demo_running)) by (vm_compute; reflexivity).
  apply (finish_writes_under_lease demo_finish demo_running); [apply demo_running_reachable|].
  intros Heq. apply (f_equal usage_ledger) in Heq. revert Heq. by vm_compute.
Defined.

Lemma heartbeat_under_fence_witness :
  holds_fence (wd_db demo_running) (seconds 1007) "atm_3" "wrk_0" 2 /\
  exists l, In l (leases (wd_db (snd (heartbeat_attempt "atm_3" "wrk_0" 2 30 true None
                                        demo_running)))) /\
            l_attempt_id l = "atm_3" /\ l_released_at l = None /\ l_expires_at l = seconds 1037.
Proof.
  replace (seconds 1007) with (clock (wd_ticks demo_running)) by (vm_compute; reflexivity).
  destruct (heartbeat_under_fence "atm_3" "wrk_0" 2 30 true None demo_running
              demo_running_reachable) as [_ H].
  destruct (H (seconds 1037)) as (H1 & _ & H2); [vm_compute; reflexivity|]. exact (conj H1 H2).
Defined.

Lemma finish_replay_witness :
  fst (finish_attempt demo_finish demo_finished) =
    Ok (MkReceipt "atm_3" "tsk_2" "succeeded") /\
  wd_db (snd (finish_attempt demo_finish demo_finished)) = wd_db demo_finished.
Proof.
  apply (finish_replay demo_finish demo_hash demo_running
           (MkReceipt "atm_3" "tsk_2" "succeeded") demo_finished demo_finished);
    [apply demo_running_reachable|vm_compute; reflexivity| |reflexivity|by vm_compute].
  unfold demo_finished. apply (run_ok (finish_attempt demo_finish)). vm_compute. reflexivity.
Defined.

(** A second report of the same attempt, with another outcome. *)
Definition demo_hash' : string :=
  "fedcba9876543210fedcba9876543210fedcba9876543210fedcba9876543210".
Definition demo_contradiction : finish_report :=
  MkReport "atm_3" "wrk_0" 2 true [] (JObj []) None "none" None (Some demo_hash').

Lemma finish_conflict_witness :
  fst (finish_attempt demo_contradiction demo_finished) =
    Raise (repo_err IDEMPOTENCY_CONFLICT "IDEMPOTENCY_CONFLICT"
             "Attempt was already completed with different semantics." 409).
Proof.
  eapply (finish_conflict demo_contradiction demo_hash demo_hash' demo_done).
  1: apply demo_finished_reachable.
  1: vm_compute; by left.
  1-6: by vm_compute.
  1: exists (demo_task demo_finished "tsk_2"); split; vm_compute; by auto.
  1: constructor; by vm_compute.
  1-2: by vm_compute.
Defined.
