(* ===== verification/Billing.v ===== *)
(** * The usage ledger

    What a terminal report and a correction write to the ledger: exactly one
    charge per executed attempt, none for work that never started, amounts and
    metrics in range, an intact hash chain, corrections that cancel their charge
    exactly once, and a single approved rate per worker and workspace. *)

From S2P Require Import Prelude Python Errors Schema Store Access Metadata Diagnostics.
From S2P Require Import Capability Scheduler Fleet Usage Scenario Invariant Lifecycle Reach.
From S2P Require Import Fencing.

Open Scope Z_scope.

(** ** Metrics *)

Lemma mget_mset_eq k v m : mget k (mset k v m) = Some v.
Proof.
  unfold mget. induction m as [|[k' v'] m IH]; simpl; [by rewrite String.eqb_refl|].
  destruct (String.eqb_spec k' k) as [->|Hne]; simpl; [by rewrite String.eqb_refl|].
  destruct (String.eqb_spec k' k); [done|]. exact IH.
Qed.

Lemma mget_mset_ne k k' v m : k <> k' -> mget k' (mset k v m) = mget k' m.
Proof.
  intros Hne. unfold mget. induction m as [|[k0 v0] m IH]; simpl.
  - by destruct (String.eqb_spec k k').
  - destruct (String.eqb_spec k0 k) as [->|H0]; simpl.
    + by destruct (String.eqb_spec k k').
    + destruct (String.eqb_spec k0 k'); [done|]. exact IH.
Qed.

Lemma normalize_metrics_range reported m k z :
  normalize_metrics reported = Ok m -> mget k m = Some z ->
  exists maximum, usage_maximum k = Some maximum /\ 0 <= z <= maximum.
Proof.
  revert m. induction reported as [|[key v] reported IH]; intros m H Hg.
  - by injection H as <-.
  - simpl in H. destruct v; try done. destruct (usage_maximum key) as [mx|] eqn:Emx; [|done].
    destruct ((z0 <? 0) || (mx <? z0)) eqn:Er; [done|].
    apply res_bind_ok in H as (rest & Hr & H). injection H as <-.
    unfold mget in Hg. simpl in Hg. destruct (String.eqb_spec key k) as [->|Hne].
    + injection Hg as <-. split_bools. exists mx. split; [done|lia].
    + by eapply IH.
Qed.

Lemma validated_metrics_range v m k z :
  _validate_usage_metrics v = Ok m -> mget k m = Some z ->
  exists maximum, usage_maximum k = Some maximum /\ 0 <= z <= maximum /\
                  (k = "gpu_count" -> 1 <= z).
Proof.
  intros H Hg. destruct v; try done. unfold _validate_usage_metrics in H.
  destruct (existsb _ _); [done|]. apply res_bind_ok in H as (n & Hn & H).
  destruct (mget "gpu_count" n) as [c|] eqn:Ec.
  - destruct (c <? 1) eqn:Ec1; [done|]. injection H as <-.
    destruct (normalize_metrics_range _ _ _ _ Hn Hg) as (mx & Emx & Hr). exists mx.
    split_and!; [done|lia..|]. intros ->. split_bools. rewrite Ec in Hg. injection Hg as <-. lia.
  - injection H as <-. destruct (normalize_metrics_range _ _ _ _ Hn Hg) as (mx & Emx & Hr).
    exists mx. split_and!; [done|lia..|]. intros ->. congruence.
Qed.

(** The document the gateway accepts: under every name but the legacy ["native"] an
    integer in the range of that name, and at least one GPU where the count is given. *)
Definition acceptable_metrics (v : json) (reported : dict) : Prop :=
  v = JObj reported /\
  (forall k x, In (k, x) reported -> k <> "native" ->
     exists z maximum, x = JInt z /\ usage_maximum k = Some maximum /\ 0 <= z <= maximum) /\
  (forall z, jget "gpu_count" reported = Some (JInt z) -> 1 <= z).

Definition metrics_refused (e : exc) : Prop :=
  exists message details,
    e = RepositoryError (MkRepoError 500001 "USAGE_REPORT_INVALID" message 422 "none" "none" details).

Definition metrics_document (m : metrics) : dict := map (fun kz => (fst kz, JInt (snd kz))) m.

Lemma normalize_spec reported :
  match normalize_metrics reported with
  | Ok m => metrics_document m = reported /\
      forall k x, In (k, x) reported ->
        exists z maximum, x = JInt z /\ usage_maximum k = Some maximum /\ 0 <= z <= maximum
  | Raise e => metrics_refused e /\
      exists k x, In (k, x) reported /\
        ~ exists z maximum, x = JInt z /\ usage_maximum k = Some maximum /\ 0 <= z <= maximum
  end.
Proof.
  induction reported as [|[k v] reported IH]; [by split|]. cbn [normalize_metrics]. cbv zeta.
  assert (forall e, metrics_refused e ->
    (~ exists z maximum, v = JInt z /\ usage_maximum k = Some maximum /\ 0 <= z <= maximum) ->
    metrics_refused e /\ exists k0 x, In (k0, x) ((k, v) :: reported) /\
      ~ exists z maximum, x = JInt z /\ usage_maximum k0 = Some maximum /\ 0 <= z <= maximum) as Hbad
    by (intros e He Hn; split; [done|exists k, v; split; [by left|done]]).
  destruct v; try (apply Hbad; [by eexists _, _|by intros (? & ? & ? & _)]).
  destruct (usage_maximum k) as [mx|] eqn:Emx; [|apply Hbad; [by eexists _, _|by intros (? & ? & _ & ? & _)]].
  destruct ((z <? 0) || (mx <? z)) eqn:Er.
  { apply Hbad; [by eexists _, _|]. intros (z' & mx' & [= <-] & [= <-] & Hr).
    apply orb_true_iff in Er. lia. }
  apply orb_false_iff in Er. destruct (normalize_metrics reported) as [m|e].
  - destruct IH as [Hm Hall]. split; [by rewrite <- Hm|].
    intros k' x [[= <- <-]|Hin]; [|by apply Hall]. exists z, mx. split_and!; [done|done|lia..].
  - destruct IH as [He (k' & x & Hin & Hn)]. split; [done|]. exists k', x. split; [by right|done].
Qed.

Lemma jget_select k p reported : p k = true ->
  jget k (List.filter (fun kv => p (fst kv)) reported) = jget k reported.
Proof.
  intros Hp. unfold jget. induction reported as [|[k' x] reported IH]; [done|]. simpl.
  destruct (String.eqb_spec k' k) as [->|Hne]; [by rewrite Hp; simpl; rewrite String.eqb_refl|].
  destruct (p k'); simpl; [|done]. by destruct (String.eqb_spec k' k).
Qed.

Lemma jget_document k m : jget k (metrics_document m) = option_map JInt (mget k m).
Proof.
  unfold jget, mget, metrics_document. induction m as [|[k' z] m IH]; [done|]. simpl.
  by destruct (String.eqb k' k).
Qed.

Lemma metrics_accepted v m :
  _validate_usage_metrics v = Ok m -> exists reported, acceptable_metrics v reported /\
    metrics_document m = List.filter (fun kv => negb (String.eqb (fst kv) "native")) reported.
Proof.
  intros Hv.
  pose proof (fun k z => validated_metrics_range v m k z Hv) as Hrange.
  destruct v as [| | | | | |reported]; try done. unfold _validate_usage_metrics in Hv. cbv zeta in Hv.
  destruct (existsb _ _); [done|]. apply res_bind_ok in Hv as (n & Hn & Hv).
  assert (n = m) as -> by (destruct (mget _ n) as [c|]; [destruct (c <? 1); [done|]|]; congruence).
  pose proof (normalize_spec (List.filter (fun kv => negb (String.eqb (fst kv) "native")) reported)) as Hs.
  rewrite Hn in Hs. destruct Hs as [Hdoc Hall]. exists reported. split; [|done].
  split_and!; [done| |].
  - intros k x Hin Hne. apply Hall, List.filter_In. split; [done|]. simpl. by destruct (String.eqb_spec k "native").
  - intros z Hz. rewrite <- (jget_select "gpu_count" (fun k => negb (String.eqb k "native"))), <- Hdoc in Hz by done.
    rewrite jget_document in Hz. destruct (mget "gpu_count" m) as [c|] eqn:Ec; [|done]. injection Hz as ->.
    destruct (Hrange _ _ Ec) as (? & _ & _ & Hp). by apply Hp.
Qed.

Lemma metrics_rejected v e :
  _validate_usage_metrics v = Raise e -> metrics_refused e /\ forall reported, ~ acceptable_metrics v reported.
Proof.
  intros Hv.
  unfold acceptable_metrics.
  destruct v as [| | | | | |reported];
    try (injection Hv as <-; split; [by eexists _, _|]; by intros ? [? _]).
  unfold _validate_usage_metrics in Hv. cbv zeta in Hv.
  set (kept := List.filter _ reported) in Hv. pose proof (normalize_spec kept) as Hs.
  destruct (existsb _ kept) eqn:Hex.
  { injection Hv as <-. split; [by eexists _, _|]. intros r ([= <-] & Hall & _).
    apply existsb_exists in Hex as ([k x] & [Hin Hne]%List.filter_In & Hk). simpl in Hne, Hk.
    destruct (String.eqb_spec k "native") as [|Hn]; [done|].
    destruct (Hall k x Hin Hn) as (z & mx & _ & Hmx & _). by rewrite Hmx in Hk. }
  destruct (normalize_metrics kept) as [m|e'] eqn:Hn.
  - cbn in Hv. destruct (mget "gpu_count" m) as [c|] eqn:Ec; [|done]. destruct (c <? 1) eqn:Hc; [|done].
    injection Hv as <-. split; [by eexists _, _|]. intros r ([= <-] & _ & Hgpu). destruct Hs as [Hdoc _].
    assert (1 <= c); [|lia]. apply Hgpu.
    rewrite <- (jget_select "gpu_count" (fun k => negb (String.eqb k "native"))) by done.
    fold kept. by rewrite <- Hdoc, jget_document, Ec.
  - injection Hv as <-. destruct Hs as [He (k & x & [Hin Hne]%List.filter_In & Hbad)]. split; [done|].
    intros r ([= <-] & Hall & _). apply Hbad, Hall; [done|]. simpl in Hne. by destruct (String.eqb_spec k "native").
Qed.

(** C34: usage metrics are validated exactly.  A report is accepted precisely when it is an
    object in which every field but the legacy one named native is one of the thirteen
    accepted names with an integer between 0 and that name's maximum, and a reported GPU
    count is positive; what is kept is the report without the legacy field, and every
    other report is refused with the code of an invalid usage report. *)
Theorem usage_metrics_in_range v :
  match _validate_usage_metrics v with
  | Ok m => exists reported, acceptable_metrics v reported /\
      metrics_document m = List.filter (fun kv => negb (String.eqb (fst kv) "native")) reported /\
      forall k z, mget k m = Some z ->
        exists maximum, usage_maximum k = Some maximum /\ 0 <= z <= maximum /\ (k = "gpu_count" -> 1 <= z)
  | Raise e => metrics_refused e /\ forall reported, ~ acceptable_metrics v reported
  end.
Proof.
  destruct (_validate_usage_metrics v) as [m|e] eqn:Hv; [|by apply metrics_rejected].
  destruct (metrics_accepted _ _ Hv) as (reported & Ha & Hd). exists reported.
  split_and!; try done. intros k z. by apply (validated_metrics_range v).
Qed.

(** ** Charges *)

Section Charges.
Context {E : Env}.

Definition tip_hash (d : db) : option string :=
  match ledger_tip d with Some p => Some (ul_integrity_hash p) | None => None end.

(** A charge entry of an attempt that started (or was leased) at [start]: free,
    not billable, chained to the previous tip, with bounded dimensions. *)
Record charge_entry (d : db) (attempt_id : string) (start stamp : Z) (e : ledger_row) : Prop := {
  ce_attempt : ul_attempt_id e = attempt_id;
  ce_type : ul_entry_type e = EnCharge;
  ce_amounts : ul_compute_microtokens e = 0 /\ ul_traffic_microtokens e = 0 /\
               ul_total_microtokens e = 0;
  ce_billable : ul_billable e = false;
  ce_chain : ul_previous_hash e = tip_hash d;
  ce_created : ul_created_at e = stamp;
  ce_metrics : exists duration elapsed,
    ul_metrics e = JDoc (JObj [("output_video_duration_ms", JInt duration);
                               ("generation_elapsed_ms", JInt elapsed);
                               ("input_video_duration_ms", JNull)]) /\
    0 <= duration <= _USAGE_MAX_WALL_MS /\
    elapsed = Z.min _USAGE_MAX_WALL_MS (Z.max 0 (ceil_ms (stamp - start)))
}.

(** The canonical wall time, whatever the worker reported. *)
Lemma canonical_wall reported start stamp (cancellation : bool) :
  let c := _canonical_usage_metrics reported start stamp in
  let c := if cancellation then cancelled_gpu_metrics c else c in
  mget_or "gateway_wall_ms" 0 (fst c) =
    Z.min _USAGE_MAX_WALL_MS (Z.max 0 (ceil_ms (stamp - start))) /\
  mget "duration_ms" (fst c) = mget "duration_ms" reported.
Proof.
  assert (forall v, mget_or "gateway_wall_ms" 0 (mset "gateway_wall_ms" v reported) = v /\
                    mget "duration_ms" (mset "gateway_wall_ms" v reported) =
                    mget "duration_ms" reported) as H.
  { intros v. unfold mget_or. rewrite mget_mset_eq, mget_mset_ne by done. done. }
  destruct cancellation; [|apply H]. unfold cancelled_gpu_metrics. cbv zeta. simpl fst.
  destruct (mget "gpu_active_ms" _); [apply H|]. simpl fst. unfold mget_or.
  rewrite !(mget_mset_ne "gpu_active_ms") by done. apply H.
Qed.

Lemma record_usage_run v r l a m c p stamp w u w' :
  _validate_usage_metrics v = Ok m ->
  record_usage r l a m c p stamp w = (Ok u, w') ->
  exists e, usage_ledger (wd_db w') = usage_ledger (wd_db w) ++ [e] /\
            charge_entry (wd_db w) (fr_attempt_id r) (observed_start a l) stamp e.
Proof.
  intros Hv Hrun. unfold record_usage in Hrun.
  pose proof (canonical_wall m (observed_start a l) stamp c) as [Hwall Hdur]. cbv zeta in Hrun.
  set (cm := if c then _ else _) in Hrun, Hwall, Hdur.
  apply run_bind in Hrun as (id1 & w1 & H1 & Hrun). apply run_new_id in H1.
  apply run_bind in Hrun as (u1 & w2 & H2 & Hrun).
  assert (usage_ledger (wd_db w2) = usage_ledger (wd_db w)) as E2.
  { rewrite <- H1. apply run_insert in H2 as [_ ->]. done. }
  unfold _append_ledger in Hrun. clear H1 H2.
  run_all. match goal with H : _ = modify usage_ledger _ _ |- _ => rename H into Hins end.
  match goal with H : wd_db ?x = wd_db w2 |- _ => rename H into Hid end.
  rewrite Hins. simpl. rewrite Hid, E2. eexists. split; [reflexivity|].
  constructor; simpl; try done.
  - unfold tip_hash, ledger_tip. by rewrite E2.
  - eexists _, _. split; [reflexivity|]. rewrite Hwall. unfold _USAGE_MAX_WALL_MS. split; [|lia].
    unfold mget_or. rewrite Hdur. destruct (mget "duration_ms" m) as [z|] eqn:Ez.
    + destruct (validated_metrics_range v m "duration_ms" z Hv Ez) as (mx & Emx & Hr & _).
      injection Emx as <-. lia.
    + lia.
Qed.

(** An unfenced report about an attempt that is still executing is refused. *)
Lemma finish_without_lease_executing r c w a rc w' :
  Inv (wd_db w) -> In a (task_attempts (wd_db w)) -> executing a = true ->
  a_id a = fr_attempt_id r -> finish_without_lease r c w = (Ok rc, w') -> False.
Proof.
  intros HI Ha Hex Ea. unfold finish_without_lease, bind, mbind, M_bind, query.
  destruct (fenced_attempt _ _ _ _) as [[b t]|] eqn:Ef; [|done].
  unfold fenced_attempt, bind, mbind, option_bind in Ef.
  destruct (head _) as [b'|] eqn:Eh; [|done]. destruct (find_by t_id _ _); [|done]. simplify_eq.
  apply head_select_some in Eh as [Hb Hp]. split_bools.
  assert (b = a) as -> by (apply (attempt_unique (wd_db w)); auto; congruence).
  unfold executing in Hex. destruct (a_state a); try done.
  all: destruct (fr_finish_semantic_hash r); simpl; done.
Qed.

Lemma finish_with_lease_ledger v r l a t outs m fc resp stamp w rc w' :
  _validate_usage_metrics v = Ok m ->
  finish_with_lease r l a t outs m fc resp stamp w = (Ok rc, w') ->
  if (t_state t =d TCancelled) && negb (is_some (a_started_at a))
  then usage_ledger (wd_db w') = usage_ledger (wd_db w)
  else exists e, usage_ledger (wd_db w') = usage_ledger (wd_db w) ++ [e] /\
                 charge_entry (wd_db w) (fr_attempt_id r) (observed_start a l) stamp e.
Proof.
  intros Hv (_ & w1 & w2 & w3 & _ & _ & _ & _ & Hu1 & Hc & Hu & Hd)%finish_with_lease_run.
  destruct Hc as (_ & _ & _ & _ & Ec).
  assert (usage_ledger (wd_db w') = usage_ledger (wd_db w3)) as ->.
  { destruct Hd as [->|[n Hd]]; [done|].
    apply list_eq_Forall2. eapply keeps_ledger_drain; [|exact Hd]. by apply list_eq_Forall2. }
  assert (negb (t_state t =d TCancelled) || is_some (a_started_at a) =
          negb ((t_state t =d TCancelled) && negb (is_some (a_started_at a)))) as Eb
    by by destruct (t_state t =d TCancelled), (is_some (a_started_at a)).
  rewrite Eb in Hu. destruct ((t_state t =d TCancelled) && _); simpl in Hu.
  - subst. congruence.
  - apply (record_usage_run v) in Hu as (e & -> & He); [|done]. exists e.
    split; [congruence|]. destruct He as [? ? ? ? Htip ? ?]. constructor; auto.
    rewrite Htip. unfold tip_hash, ledger_tip. by rewrite Ec, Hu1.
Qed.

Lemma finish_ledger r w rc w' :
  reachable w -> finish_attempt r w = (Ok rc, w') ->
  match fenced_lease (wd_db w) (fr_attempt_id r) (fr_worker_id r) (fr_fencing_token r) with
  | Some (l, a, t) =>
      if (t_state t =d TCancelled) && negb (is_some (a_started_at a))
      then usage_ledger (wd_db w') = usage_ledger (wd_db w)
      else exists e, usage_ledger (wd_db w') = usage_ledger (wd_db w) ++ [e] /\
             charge_entry (wd_db w) (fr_attempt_id r) (observed_start a l) (clock (wd_ticks w)) e
  | None => usage_ledger (wd_db w') = usage_ledger (wd_db w)
  end.
Proof.
  intros HI%inv_reachable (outs & m & oc & Hv & Hbody)%finish_run.
  set (w0 := w <| wd_ticks := S (wd_ticks w) |>) in Hbody.
  destruct (fenced_lease _ _ _ _) as [[[l a] t]|] eqn:El.
  - destruct ((clock (wd_ticks w) <? l_expires_at l) && attempt_executing (a_state a)) eqn:Ec.
    + unfold finish_body, bind at 1, mbind, M_bind, query in Hbody. simpl in Hbody.
      rewrite El, Ec in Hbody.
      by apply (finish_with_lease_ledger (fr_metrics r)) in Hbody; [|apply Hv].
    + rewrite finish_body_unfenced in Hbody by (by simpl; rewrite El).
      apply fenced_lease_spec in El as (Hl & El & _ & _ & Hlive & Ha & Ea & _).
      destruct (finish_without_lease_executing r (fst oc) w0 a rc w'); auto.
      apply (inv_live_executing _ HI l a); congruence.
  - rewrite finish_body_unfenced in Hbody by (by simpl; rewrite El).
    pose proof (reads_only_finish_without_lease r (fst oc) w0) as Hr. rewrite Hbody in Hr.
    simpl in Hr. by subst w'.
Qed.

(** A terminal report charges exactly once and only for work.  An accepted
    report of the holder of the fence appends one entry to the ledger: a free,
    non-billable charge for that attempt, chained to the previous tip, whose
    elapsed time is the one the gateway observed (not the reported one), cut to
    [0, 30 days].  Nothing is appended when the task was cancelled before the
    attempt started, nor by a replayed report. *)
Theorem finish_charges r w rc w' :
  reachable w -> finish_attempt r w = (Ok rc, w') ->
  match fenced_lease (wd_db w) (fr_attempt_id r) (fr_worker_id r) (fr_fencing_token r) with
  | Some (l, a, t) =>
      if (t_state t =d TCancelled) && negb (is_some (a_started_at a))
      then usage_ledger (wd_db w') = usage_ledger (wd_db w)
      else exists e, usage_ledger (wd_db w') = usage_ledger (wd_db w) ++ [e] /\
             charge_entry (wd_db w) (fr_attempt_id r) (observed_start a l) (clock (wd_ticks w)) e
  | None => usage_ledger (wd_db w') = usage_ledger (wd_db w)
  end.
Proof. apply finish_ledger. Qed.
End Charges.

(** ** Corrections *)

Section Corrections.
Context {E : Env}.

(** A correction: the original's amounts negated, pointing at it. *)
Record reversal_entry (d : db) (o e : ledger_row) (reason : string) (stamp : Z) : Prop := {
  re_type : ul_entry_type e = EnReversal;
  re_attempt : ul_attempt_id e = ul_attempt_id o;
  re_compute : ul_compute_microtokens e = - ul_compute_microtokens o;
  re_traffic : ul_traffic_microtokens e = - ul_traffic_microtokens o;
  re_total : ul_total_microtokens e = - ul_total_microtokens o;
  re_reverses : ul_reverses_ledger_id e = Some (ul_id o);
  re_reason : ul_reversal_reason_code e = Some reason;
  re_chain : ul_previous_hash e = tip_hash d;
  re_created : ul_created_at e = stamp
}.

Lemma reverse_run ws lid user reason w e w' :
  reverse_usage_charge ws lid user reason w = (Ok e, w') ->
  (find_by ul_reverses_ledger_id (Some lid) (usage_ledger (wd_db w)) = Some e /\
   wd_db w' = wd_db w) \/
  (find_by ul_reverses_ledger_id (Some lid) (usage_ledger (wd_db w)) = None /\
   exists o, In o (usage_ledger (wd_db w)) /\ ul_id o = lid /\ reversible o = true /\
             usage_ledger (wd_db w') = usage_ledger (wd_db w) ++ [e] /\
             reversal_entry (wd_db w) o e reason (clock (wd_ticks w))).
Proof.
  intros Hrun. unfold reverse_usage_charge in Hrun.
  apply run_bind in Hrun as (mb & w1 & H1 & Hrun).
  apply (run_reads _ _ _ _ (reads_only_require_admin _ _)) in H1. subst w1.
  apply run_bind in Hrun as (u & w1 & H1 & Hrun). apply run_check in H1 as [_ ->].
  apply run_bind in Hrun as (stamp & w1 & Hnow & Hrun). injection Hnow as <- <-.
  apply run_transaction in Hrun. set (w0 := w <| wd_ticks := S (wd_ticks w) |>) in Hrun.
  assert (wd_db w0 = wd_db w) as E0 by done. clearbody w0.
  run_all; [left; split; congruence|]. right. split; [congruence|].
  match goal with H : ledger_entry_in _ _ _ = Some ?o |- _ => rename H into Ho; exists o end.
  unfold ledger_entry_in, bind, mbind, option_bind in Ho.
  destruct (find_by ul_id lid _) as [o'|] eqn:Ef; [|done].
  destruct (find_by a_id _ _); [|done]. destruct (find_by t_id _ _); [|done].
  destruct (_ =d _); [|done]. injection Ho as ->. apply find_by_some in Ef as [Hin Eid].
  rewrite E0 in Hin.
  match goal with H : usage_ledger_ok _ ?row = true |- _ => set (rev := row) in *; rename H into Hok end.
  match goal with H : core_eq _ _ |- _ => destruct H as (_ & _ & _ & _ & Eu) end.
  match goal with H : wd_db ?x = modify usage_ledger _ _ |- _ => rewrite H in Eu; simpl in Eu end.
  match goal with H : wd_db _ = wd_db w0 |- _ => rewrite H, E0 in Eu, Hok end.
  match goal with H : find_by ul_id ?i _ = Some e |- _ =>
    rewrite Eu in H; change i with (ul_id rev) in H; rename H into Hfind end.
  rewrite find_by_app_new in Hfind.
  - injection Hfind as <-. split_and!; try done. constructor; try done; simpl; [congruence|].
    unfold tip_hash, ledger_tip. by rewrite E0.
  - unfold usage_ledger_ok in Hok. split_bools. by apply has_key_false.
Qed.

Lemma reverse_rollback ws lid user reason w e w' :
  reverse_usage_charge ws lid user reason w = (Raise e, w') -> wd_db w' = wd_db w.
Proof.
  intros Hrun. unfold reverse_usage_charge, bind at 1, mbind, M_bind in Hrun.
  pose proof (reads_only_require_admin ws user w) as Hr.
  destruct (require_admin ws user w) as [[mb|e1] w1]; simpl in Hr; subst w1;
    [|by injection Hrun as _ <-].
  unfold bind at 1, mbind, M_bind, check in Hrun. destruct (reason ∈? _); [|by injection Hrun as _ <-].
  simpl in Hrun. unfold bind at 1, mbind, M_bind in Hrun. simpl in Hrun.
  by apply transaction_rollback in Hrun.
Qed.

(** A charge is reversed at most once and exactly.  An accepted correction
    either finds the charge already reversed, and then returns that reversal
    and changes nothing, or appends one entry that points at a billable charge,
    carries the reason and negates its amounts, so that charge and correction
    sum to zero.  Asking again returns the same entry. *)
Theorem reversal_cancels_once ws lid user reason w e w' :
  reverse_usage_charge ws lid user reason w = (Ok e, w') ->
  ul_reverses_ledger_id e = Some lid /\
  find_by ul_reverses_ledger_id (Some lid) (usage_ledger (wd_db w')) = Some e /\
  (wd_db w' = wd_db w \/
   exists o, In o (usage_ledger (wd_db w)) /\ ul_id o = lid /\ ul_billable o = true /\
     ul_entry_type o = EnCharge /\
     usage_ledger (wd_db w') = usage_ledger (wd_db w) ++ [e] /\
     ul_compute_microtokens o + ul_compute_microtokens e = 0 /\
     ul_traffic_microtokens o + ul_traffic_microtokens e = 0 /\
     ul_total_microtokens o + ul_total_microtokens e = 0 /\
     ul_reversal_reason_code e = Some reason).
Proof.
  intros [[Hf Ed]|(Hn & o & Ho & Eid & Hr & Eu & He)]%reverse_run.
  - rewrite Ed. split_and!; try done; [apply (find_by_some _ _ _ _ Hf)|by left].
  - destruct He. rewrite Eid in re_reverses0. split_and!; try done.
    + rewrite Eu, <- re_reverses0. apply find_by_app_new. rewrite re_reverses0.
      by apply (proj1 (find_by_none _ _ _)).
    + right. unfold reversible in Hr. split_bools. exists o. split_and!; try done; lia.
Qed.
End Corrections.

(** ** The hash chain *)

Section Chain.
Context {E : Env}.

(** Every entry carries the hash of the entry before it. *)
Fixpoint chained (previous : option string) (l : list ledger_row) : Prop :=
  match l with
  | [] => True
  | e :: l => ul_previous_hash e = previous /\ chained (Some (ul_integrity_hash e)) l
  end.

Definition older (x y : ledger_row) : Prop := ul_created_at x < ul_created_at y.

Definition ledger_chain (d : db) : Prop :=
  chained None (usage_ledger d) /\ StronglySorted older (usage_ledger d).

Definition last_hash (previous : option string) (l : list ledger_row) : option string :=
  List.fold_left (fun _ e => Some (ul_integrity_hash e)) l previous.

Lemma chained_snoc previous l e :
  chained previous l -> ul_previous_hash e = last_hash previous l -> chained previous (l ++ [e]).
Proof.
  revert previous. induction l as [|x l IH]; intros previous; simpl; [by intros _ ->|].
  intros [Hx Hl] He. split; [done|]. by apply IH.
Qed.

Lemma exists_last_or {A} (l : list A) : l = [] \/ exists l' x, l = l' ++ [x].
Proof. induction l as [|x l _] using rev_ind; eauto. Qed.

Lemma last_hash_snoc previous l e :
  last_hash previous (l ++ [e]) = Some (ul_integrity_hash e).
Proof. unfold last_hash. by rewrite fold_left_app. Qed.

Lemma sorted_snoc l e :
  StronglySorted older l -> (forall x, In x l -> older x e) -> StronglySorted older (l ++ [e]).
Proof.
  induction 1 as [|x l Hs IH Hall]; intros Hlt; simpl.
  - constructor; constructor.
  - constructor; [apply IH; intros; apply Hlt; by right|].
    apply Forall_app. split; [done|]. constructor; [apply Hlt; by left|constructor].
Qed.

Definition tip_leb (x y : ledger_row) : bool :=
  (ul_created_at y <? ul_created_at x) ||
  ((ul_created_at x =? ul_created_at y) && negb (str_ltb (ul_id x) (ul_id y))).

Lemma tip_leb_preorder : total_preorder tip_leb.
Proof.
  unfold tip_leb. split.
  - intros x y. destruct (Z.lt_trichotomy (ul_created_at x) (ul_created_at y)) as [?|[Ec|?]].
    + right. rewrite (proj2 (Z.ltb_lt _ _)) by done. done.
    + rewrite Ec, Z.ltb_irrefl, Z.eqb_refl. simpl.
      destruct (str_ltb (ul_id x) (ul_id y)) eqn:Es; [|by left]. right.
      by rewrite (str_ltb_asym _ _ Es).
    + left. rewrite (proj2 (Z.ltb_lt _ _)) by done. done.
  - intros x y z. rewrite !orb_true_iff, !andb_true_iff, !Z.ltb_lt, !Z.eqb_eq, !negb_true_iff.
    intros [?|[? Hxy]] [?|[? Hyz]]; [left; lia..|]. right. split; [lia|].
    destruct (str_ltb (ul_id x) (ul_id z)) eqn:Exz; [|done].
    destruct (str_ltb_total (ul_id y) (ul_id x)) as [H1|[H1|H1]]; [|congruence..].
    by rewrite (str_ltb_trans _ _ _ H1 Exz) in Hyz.
Qed.

(** In a ledger in time order the chain's tip is the last entry. *)
Lemma tip_hash_last d :
  StronglySorted older (usage_ledger d) -> tip_hash d = last_hash None (usage_ledger d).
Proof.
  unfold tip_hash, ledger_tip. fold tip_leb.
  destruct (exists_last_or (usage_ledger d)) as [->|(l & x & ->)]; [done|]. intros Hs.
  rewrite last_hash_snoc.
  destruct (head (order_by tip_leb (l ++ [x]))) as [y|] eqn:Eh.
  - apply order_by_head_min in Eh as [Hy Hmin]; [|apply tip_leb_preorder].
    apply in_app_iff in Hy as [Hy|[->|[]]]; [|done].
    assert (older y x) as Hlt.
    { clear Hmin. induction l as [|z l IH]; [done|]. simpl in Hs.
      apply StronglySorted_inv in Hs as [Hs Hall]. destruct Hy as [->|Hy]; [|auto].
      rewrite List.Forall_forall in Hall. apply Hall, in_app_iff. simpl. auto. }
    specialize (Hmin x). unfold older in Hlt. unfold tip_leb in Hmin.
    rewrite (proj2 (Z.ltb_ge _ _)), (proj2 (Z.eqb_neq _ _)) in Hmin by lia.
    by specialize (Hmin ltac:(apply in_app_iff; simpl; auto)).
  - apply head_none in Eh. assert (In x []) as []. rewrite <- Eh. apply in_order_by, in_app_iff.
    simpl. auto.
Qed.

Lemma chain_append d d' e :
  usage_ledger d' = usage_ledger d ++ [e] -> ul_previous_hash e = tip_hash d ->
  (forall x, In x (usage_ledger d) -> ul_created_at x < ul_created_at e) ->
  ledger_chain d -> ledger_chain d'.
Proof.
  intros Eu He Hlt [Hc Hs]. unfold ledger_chain. rewrite Eu. split.
  - apply chained_snoc; [done|]. rewrite He. by apply tip_hash_last.
  - by apply sorted_snoc.
Qed.

(** The ledger stays a hash chain.  As long as the clock reads later than
    every existing entry, a terminal report and a correction keep the chain:
    each entry carries the hash of the entry before it, in order of creation.
    Accepted or refused, no operation forks or truncates it. *)
Theorem ledger_chain_kept w :
  reachable w -> ledger_chain (wd_db w) ->
  (forall x, In x (usage_ledger (wd_db w)) -> ul_created_at x < clock (wd_ticks w)) ->
  (forall r, ledger_chain (wd_db (snd (finish_attempt r w)))) /\
  (forall ws lid user reason,
     ledger_chain (wd_db (snd (reverse_usage_charge ws lid user reason w)))).
Proof.
  intros Hreach Hc Hlt. split.
  - intros r. destruct (finish_attempt r w) as [[rc|e] w'] eqn:Hrun; simpl.
    + pose proof (finish_ledger r w rc w' Hreach Hrun) as Hl.
      destruct (fenced_lease _ _ _ _) as [[[l a] t]|];
        [destruct ((t_state t =d TCancelled) && _)|].
      * unfold ledger_chain. by rewrite Hl.
      * destruct Hl as (e & Eu & He). destruct He. eapply chain_append; eauto.
        intros x Hx. rewrite ce_created0. auto.
      * unfold ledger_chain. by rewrite Hl.
    + assert (wd_db w' = wd_db w) as ->; [|done].
      destruct (finish_attempt_cases r w) as [(outs & m & oc & Hv)|(e' & He')]; [|congruence].
      rewrite (finish_attempt_eq r outs m oc w Hv) in Hrun. by apply transaction_rollback in Hrun.
  - intros ws lid user reason.
    destruct (reverse_usage_charge ws lid user reason w) as [[e|e] w'] eqn:Hrun; simpl.
    + apply reverse_run in Hrun as [[_ Ed]|(_ & o & _ & _ & _ & Eu & He)]; [by rewrite Ed|].
      destruct He. eapply chain_append; eauto. intros x Hx. rewrite re_created0. auto.
    + assert (wd_db w' = wd_db w) as ->; [|done]. by eapply reverse_rollback.
Qed.
End Chain.

(** ** Rates *)

Section Rates.
Context {E : Env}.

(** Approving a rate supersedes the previous one.  Afterwards the approved
    rate of the worker in that workspace is exactly the one just approved: it is
    the rate scheduling reads, and no other approved rate is left for the
    pair. *)
Theorem approval_is_exclusive rate_id admin w r w' :
  NoDup (map rt_id (rate_cards (wd_db w))) ->
  approve_rate rate_id admin w = (Ok (Some r), w') ->
  rt_id r = rate_id /\ rt_status r = RtApproved /\
  (forall x, In x (rate_cards (wd_db w')) -> rt_worker_id x = rt_worker_id r ->
     rt_workspace_id x = rt_workspace_id r -> rt_status x = RtApproved -> x = r) /\
  approved_rate (wd_db w') (rt_worker_id r) (rt_workspace_id r) = Some r.
Proof.
  intros Hd Hrun. unfold approve_rate in Hrun. repeat run_step.
  match goal with H : find_by rt_id rate_id (rate_cards (wd_db w)) = Some ?q |- _ =>
    rename H into Hq; rename q into q0 end.
  match goal with H : Some r = find_by rt_id rate_id _ |- _ => symmetry in H; rename H into Hr end.
  apply find_by_some in Hq as [Hq Eq]. pose proof Hr as Hr'. apply find_by_some in Hr as [Hr Er].
  flat_db. simpl in Hr, Hr'. set (t1 := update _ _ (rate_cards (wd_db w))) in *.
  assert (Hd1 : NoDup (map rt_id t1)) by (unfold t1; by rewrite (update_map_inv rt_id)).
  set (t2 := update _ _ t1) in *.
  assert (Hd2 : NoDup (map rt_id t2)) by (unfold t2; by rewrite (update_map_inv rt_id)).
  assert (Hpair : forall x, In x t2 -> rt_id x = rate_id ->
    rt_worker_id x = rt_worker_id q0 /\ rt_workspace_id x = rt_workspace_id q0 /\
    rt_status x = RtApproved).
  { intros x (y & (z & Hz & Hcz)%in_update & Hcy)%in_update Ex.
    assert (rt_id z = rt_id x) as Ez by (destruct Hcy as [[_ ->]|[_ ->]], Hcz as [[_ ->]|[_ ->]]; done).
    assert (z = q0) as -> by (apply (NoDup_map_inj rt_id (rate_cards (wd_db w))); auto; congruence).
    destruct Hcy as [[_ ->]|[Hf ->]], Hcz as [[_ ->]|[_ ->]]; try done.
    all: split_bools; simpl in *; congruence. }
  assert (Honly : forall x, In x t2 -> rt_worker_id x = rt_worker_id q0 ->
    rt_workspace_id x = rt_workspace_id q0 -> rt_status x = RtApproved -> rt_id x = rate_id).
  { intros x (y & (z & Hz & Hcz)%in_update & Hcy)%in_update Ew Es Ea.
    destruct Hcy as [[Hi ->]|[_ ->]]; [by split_bools|].
    destruct Hcz as [[_ ->]|[Hf ->]]; [done|].
    by rewrite Ew, Es, Ea, !bool_decide_eq_true_2 in Hf. }
  destruct (Hpair r Hr Er) as (Ew & Es & Ea). rewrite Ew, Es.
  assert (Huniq : forall x, In x t2 -> rt_worker_id x = rt_worker_id q0 ->
    rt_workspace_id x = rt_workspace_id q0 -> rt_status x = RtApproved -> x = r).
  { intros x Hx ? ? ?. apply (NoDup_map_inj rt_id t2); auto. rewrite Er. auto. }
  split_and!; try done. unfold approved_rate. simpl. fold t1. fold t2.
  destruct (head _) as [x|] eqn:Eh.
  - apply head_order_select_some in Eh as [Hx Hp]. split_bools. by rewrite (Huniq x).
  - apply head_none in Eh. assert (In r []) as []. rewrite <- Eh. apply in_order_by, in_select.
    split; [done|]. by rewrite Ew, Es, Ea, !bool_decide_eq_true_2.
Qed.
End Rates.

(** ** The concrete control plane *)

Lemma finish_charges_witness :
  exists e, usage_ledger (wd_db demo_finished) = usage_ledger (wd_db demo_running) ++ [e] /\
            charge_entry (wd_db demo_running) "atm_3" (seconds 1006) (seconds 1007) e.
Proof.
  assert (finish_attempt demo_finish demo_running =
          (Ok (MkReceipt "atm_3" "tsk_2" "succeeded"), demo_finished)) as Hrun
    by (unfold demo_finished; apply (run_ok (finish_attempt demo_finish)); vm_compute; reflexivity).
  assert (exists l a t, fenced_lease (wd_db demo_running) (fr_attempt_id demo_finish)
            (fr_worker_id demo_finish) (fr_fencing_token demo_finish) = Some (l, a, t) /\
            (t_state t =d TCancelled) && negb (is_some (a_started_at a)) = false /\
            observed_start a l = seconds 1006) as (l & a & t & El & Ec & Es)
    by (eexists _, _, _; split; [vm_compute; reflexivity|by repeat split]).
  pose proof (finish_charges demo_finish demo_running _ _ demo_running_reachable Hrun) as H.
  rewrite El, Ec, Es in H.
  replace (seconds 1007) with (clock (wd_ticks demo_running)) by (vm_compute; reflexivity).
  exact H.
Defined.

(** A billable charge, as an earlier pricing formula wrote it. *)
Definition demo_billed : world :=
  modify wd_db (modify usage_ledger (map (fun e => e <| ul_billable := true |>
    <| ul_compute_microtokens := 70 |> <| ul_total_microtokens := 70 |>))) demo_finished.

Definition demo_charge_id : string := Eval vm_compute in ul_id demo_charge.

Lemma reversal_cancels_once_witness :
  exists e w', reverse_usage_charge "wsp_1" demo_charge_id (Some "usr_owner") "duplicate_charge"
                 demo_billed = (Ok e, w') /\
    ul_total_microtokens e = -70 /\ ul_reverses_ledger_id e = Some demo_charge_id /\
    find_by ul_reverses_ledger_id (Some demo_charge_id) (usage_ledger (wd_db w')) = Some e.
Proof.
  assert (exists e w', reverse_usage_charge "wsp_1" demo_charge_id (Some "usr_owner")
    "duplicate_charge" demo_billed = (Ok e, w') /\ ul_total_microtokens e = -70)
    as (e & w' & Hrun & Htotal)
    by (eexists _, (run _ _); split;
        [eapply (run_ok (reverse_usage_charge "wsp_1" demo_charge_id (Some "usr_owner")
                           "duplicate_charge")); vm_compute; reflexivity|reflexivity]).
  exists e, w'. split; [exact Hrun|]. split; [exact Htotal|].
  destruct (reversal_cancels_once "wsp_1" demo_charge_id (Some "usr_owner") "duplicate_charge"
              demo_billed e w' Hrun) as (H1 & H2 & _). exact (conj H1 H2).
Defined.

Lemma ledger_chain_kept_witness : ledger_chain (wd_db demo_finished).
Proof.
  unfold demo_finished, run.
  assert (usage_ledger (wd_db demo_running) = []) as Hu by (vm_compute; reflexivity).
  assert (ledger_chain (wd_db demo_running)) as Hc
    by (unfold ledger_chain; rewrite Hu; split; [exact I|constructor]).
  destruct (ledger_chain_kept demo_running demo_running_reachable Hc) as [H _].
  - rewrite Hu. intros x [].
  - exact (H demo_finish).
Defined.

(** The worker's owner proposes a second rate; the administrator approves it. *)
Definition demo_proposed : world :=
  run (propose_rate "wrk_0" "wsp_1" "usr_owner" 25) demo_ready.
Definition demo_rate_id : string :=
  Eval vm_compute in
    match fst (propose_rate "wrk_0" "wsp_1" "usr_owner" 25 demo_ready) with
    | Ok (Some r) => rt_id r
    | _ => ""
    end.

Lemma approval_is_exclusive_witness :
  exists r w', approve_rate demo_rate_id "usr_owner" demo_proposed = (Ok (Some r), w') /\
    rt_rate_microtokens_per_second r = 25 /\
    approved_rate (wd_db w') "wrk_0" "wsp_1" = Some r.
Proof.
  assert (exists r w', approve_rate demo_rate_id "usr_owner" demo_proposed = (Ok (Some r), w') /\
    rt_rate_microtokens_per_second r = 25 /\ rt_worker_id r = "wrk_0" /\
    rt_workspace_id r = "wsp_1") as (r & w' & Hrun & Hrate & Ew & Es)
    by (eexists _, (run _ _); split; [eapply (run_ok (approve_rate demo_rate_id "usr_owner"));
        vm_compute; reflexivity|by repeat split]).
  exists r, w'. split; [exact Hrun|]. split; [exact Hrate|]. rewrite <- Ew, <- Es.
  apply (approval_is_exclusive demo_rate_id "usr_owner" demo_proposed r w'); [|exact Hrun].
  apply (bool_decide_unpack _). vm_compute. exact I.
Defined.
