(* ===== verification/Departure.v ===== *)
(** * Departures, expiry and the sweep

    What remains of a worker after it leaves, forced or gracefully, and what the
    maintenance sweep guarantees: no lapsed lease stays unreleased, no lapsed
    reservation stays open, and a drained worker is revoked with its
    sessions. *)

From S2P Require Import Prelude Python Errors Schema Store Access Framing Metadata Diagnostics.
From S2P Require Import Capability Scheduler Fleet Usage Scenario Invariant Lifecycle Reach.
From S2P Require Import Fencing.

Open Scope Z_scope.

(** ** Tables an operation leaves alone *)

(** [stable f m]: [m] leaves the view [f] of the database as it is. *)
Definition same {T} (f : db -> T) : relation db := fun d d' => f d' = f d.
#[export] Instance same_preorder {T} (f : db -> T) : PreOrder (same f).
Proof. split; [done|]. intros d1 d2 d3 H12 H23. unfold same in *. congruence. Qed.

Notation stable f := (respects (same f)).

Lemma run_stable {A T} (f : db -> T) (m : M A) w a w' :
  stable f m -> m w = (Ok a, w') -> f (wd_db w') = f (wd_db w).
Proof. apply run_respects. Qed.

Create HintDb stable.
#[export] Hint Extern 1 (stable _ now) => (apply respects_now; typeclasses eauto) : stable.
#[export] Hint Extern 1 (stable _ (new_id _)) => (apply respects_new_id; typeclasses eauto) : stable.
#[export] Hint Extern 3 (stable _ (sql_update _ _ _)) => (apply respects_update; unfold same; done) : stable.
#[export] Hint Extern 3 (stable _ (sql_update_unique _ _ _ _)) =>
  (apply respects_update_unique; [typeclasses eauto|unfold same; done]) : stable.
#[export] Hint Extern 3 (stable _ (sql_insert _ _ _)) =>
  (apply respects_insert; [typeclasses eauto|unfold same; done]) : stable.
#[export] Hint Extern 3 (stable _ (sql_delete _ _)) => (apply respects_delete; unfold same; done) : stable.
#[export] Hint Extern 4 (stable _ _) =>
  (apply respects_reads; [typeclasses eauto|solve [auto with reads]]) : stable.

Ltac solve_stable := solve_respects ltac:(auto with stable).

(** What belongs to a worker outside the scheduling tables. *)
Definition fleet_tables (d : db) :=
  (workers d, worker_allocations d, worker_maintenance_jobs d, sessions d).

Section Fleet.
Context {E : Env}.

(** Queueing a command for a broker writes the command table only. *)
Lemma stable_upsert_command {T} (f : db -> T) r :
  (forall g d, f (modify broker_commands g d) = f d) -> stable f (upsert_command r).
Proof. intros H. unfold upsert_command. solve_stable. Qed.

Lemma stable_enqueue {T} (f : db -> T) t s r stamp :
  (forall g d, f (modify broker_commands g d) = f d) ->
  stable f (_enqueue_task_rekey_command t s r stamp).
Proof.
  intros H. unfold _enqueue_task_rekey_command.
  repeat first [ progress solve_stable | apply stable_upsert_command ]; auto.
Qed.
#[local] Hint Extern 3 (stable _ (_enqueue_task_rekey_command _ _ _ _)) =>
  (apply stable_enqueue; done) : stable.

Lemma fleet_expire_prepared i stamp : stable fleet_tables (expire_prepared i stamp).
Proof. unfold expire_prepared. solve_stable. Qed.
Lemma fleet_return_queued i stamp : stable fleet_tables (return_queued i stamp).
Proof. unfold return_queued. solve_stable. Qed.
Lemma fleet_revoke_work i stamp : stable fleet_tables (revoke_work i stamp).
Proof. unfold revoke_work. solve_stable. Qed.

(** No task stays prepared for the worker, and only its own reserved attempts end. *)
Lemma expire_prepared_run i stamp w w' :
  expire_prepared i stamp w = (Ok tt, w') ->
  (forall t, In t (tasks (wd_db w')) -> t_assigned_worker_id t = Some i ->
             t_state t <> TPrepared) /\
  (forall a, In a (task_attempts (wd_db w)) -> attempt_executing (a_state a) = true ->
             In a (task_attempts (wd_db w'))) /\
  leases (wd_db w') = leases (wd_db w) /\ usage_ledger (wd_db w') = usage_ledger (wd_db w).
Proof.
  intros Hrun. unfold expire_prepared in Hrun. run_step. run_step.
  match type of Hrun with (match ?l with _ => _ end) _ = _ => destruct l eqn:El end.
  - run_all. split_and!; try done. intros t Ht Ha Hs.
    apply map_eq_nil, select_nil with (x := t) in El; [|done].
    by rewrite Ha, Hs, !bool_decide_eq_true_2 in El.
  - rewrite <- El in Hrun. clear El. run_all. flat_db. simpl. split_and!; try done.
    + intros t' (t & Ht & [[_ ->]|[Hn ->]])%in_update Ha Hs; [done|].
      apply elem_b_false in Hn. apply Hn, list_elem_of_In, in_map, in_select. split; [done|].
      by rewrite Ha, Hs, !bool_decide_eq_true_2.
    + intros a Ha Hex. apply in_update. exists a. split; [done|]. right. split; [|done].
      destruct (a_state a); try done; by rewrite bool_decide_eq_false_2, andb_false_r.
Qed.

Lemma return_queued_run i stamp w w' :
  return_queued i stamp w = (Ok tt, w') ->
  (forall t, In t (tasks (wd_db w')) -> t_assigned_worker_id t = Some i ->
     task_waiting (t_state t) = false /\
     ((forall t, In t (tasks (wd_db w)) -> t_assigned_worker_id t = Some i ->
                 t_state t <> TPrepared) -> t_state t <> TPrepared)) /\
  (forall a, In a (task_attempts (wd_db w)) -> attempt_executing (a_state a) = true ->
             In a (task_attempts (wd_db w'))) /\
  leases (wd_db w') = leases (wd_db w) /\ usage_ledger (wd_db w') = usage_ledger (wd_db w).
Proof.
  intros Hrun. unfold return_queued in Hrun. run_step. run_step.
  match type of Hrun with (match ?l with _ => _ end) _ = _ => destruct l eqn:El end.
  - run_all. split_and!; try done. intros t Ht Ha. split; [|by auto].
    apply map_eq_nil, select_nil with (x := t) in El; [|done].
    rewrite Ha, bool_decide_eq_true_2 in El by done. simpl in El.
    by apply orb_false_iff in El as [El _].
  - rewrite <- El in Hrun. clear El. run_all.
    match goal with H : for_each _ _ _ = _ |- _ => apply run_frames in H; [|solve_frames];
      destruct H as (Et & Ea & Elt & _ & Eu) end.
    rewrite Et, Ea, Elt, Eu. flat_db. simpl. split_and!; try done.
    + intros t' (t & Ht & [[_ ->]|[Hn ->]])%in_update Ha; [done|]. split; [|by auto].
      apply elem_b_false in Hn. destruct (task_waiting (t_state t)) eqn:Hs; [|done]. exfalso.
      apply Hn, list_elem_of_In. unfold queued_on. rewrite map_map. simpl.
      apply (in_map t_id), in_select. split; [done|]. rewrite Ha, Hs, bool_decide_eq_true_2 by done.
      done.
    + intros a Ha Hex. apply in_update. exists a. split; [done|]. right. split; [|done].
      destruct (a_state a); try done; by rewrite bool_decide_eq_false_2, andb_false_r.
Qed.

Lemma revoke_work_run i stamp w w' :
  revoke_work i stamp w = (Ok tt, w') ->
  (forall a, In a (task_attempts (wd_db w')) -> a_worker_id a = i ->
             attempt_active (a_state a) = false) /\
  (forall l, In l (leases (wd_db w')) -> l_worker_id l = i -> l_released_at l <> None) /\
  (forall t', In t' (tasks (wd_db w')) -> t_assigned_worker_id t' = Some i ->
     t_state t' = TRekeyRequired \/
     (In t' (tasks (wd_db w)) /\ task_waiting (t_state t') || task_executing (t_state t') = false)) /\
  usage_ledger (wd_db w') = usage_ledger (wd_db w).
Proof.
  intros Hrun. unfold revoke_work in Hrun. run_all.
  match goal with H : for_each _ _ _ = _ |- _ => apply run_frames in H; [|solve_frames];
    destruct H as (Et & Ea & Elt & _ & Eu) end.
  rewrite Et, Ea, Elt, Eu. flat_db. simpl. split_and!; try done.
  - intros a' (a & Ha & [[_ ->]|[Hn ->]])%in_update Ew; [done|].
    rewrite Ew, bool_decide_eq_true_2 in Hn by done. done.
  - intros l' (l & Hl & [[_ ->]|[Hn ->]])%in_update Ew; [done|]. intros Hr.
    by rewrite Ew, Hr, !bool_decide_eq_true_2 in Hn.
  - intros t' (t & Ht & [[_ ->]|[Hn ->]])%in_update Ew; [by left|]. right. split; [done|].
    by rewrite Ew, bool_decide_eq_true_2 in Hn.
Qed.

(** What any departure leaves of the worker's standing. *)
Definition stood_down (i : string) (status : worker_status) (d : db) : Prop :=
  (forall w, In w (workers d) -> w_id w = i -> w_status w = status) /\
  (forall a, In a (worker_allocations d) -> al_worker_id a = i -> al_status a = AlRevoked) /\
  (forall j, In j (worker_maintenance_jobs d) -> mj_worker_id j = i ->
             job_active (mj_state j) = false) /\
  (status = WRevoked -> forall s, In s (sessions d) -> ss_principal_type s = PWorker ->
     ss_principal_id s = i -> ss_revoked_at s <> None).

Lemma departed_stood_down i status stamp d d' :
  departed i status stamp d d' -> stood_down i status d'.
Proof.
  intros (Ew & Ea & Ej & Es). unfold stood_down. rewrite Ew, Ea, Ej, Es. split_and!.
  - intros w' (w & _ & [[_ ->]|[Hn ->]])%in_update Hi; [done|].
    by rewrite Hi, bool_decide_eq_true_2 in Hn.
  - intros a' (a & _ & [[_ ->]|[Hn ->]])%in_update Hi; [done|].
    rewrite Hi, bool_decide_eq_true_2 in Hn by done. simpl in Hn. by split_bools.
  - intros j' (j & _ & [[_ ->]|[Hn ->]])%in_update Hi; [done|].
    by rewrite Hi, bool_decide_eq_true_2 in Hn.
  - intros -> s' Hs Hp Hi. rewrite bool_decide_eq_true_2 in Hs by done.
    apply in_update in Hs as (s & _ & [[_ ->]|[Hn ->]]); [done|]. intros Hr.
    by rewrite Hp, Hi, Hr, !bool_decide_eq_true_2 in Hn.
Qed.

Lemma stood_down_stable i status d d' :
  fleet_tables d' = fleet_tables d -> stood_down i status d -> stood_down i status d'.
Proof. unfold fleet_tables, stood_down. by intros [= -> -> -> ->]. Qed.

(** A forced departure is a complete revocation.  Afterwards the worker is
    revoked, every allocation and every session of it is revoked, every
    maintenance job has ended, none of its attempts is reserved, leased or
    running, none of its leases is live, and no task assigned to it is prepared,
    waiting or executing.  Nothing is charged. *)
Theorem forced_departure_revokes i o w status w' :
  leave_worker i o true w = (Ok status, w') ->
  status = WRevoked /\ stood_down i WRevoked (wd_db w') /\
  (forall a, In a (task_attempts (wd_db w')) -> a_worker_id a = i ->
             attempt_active (a_state a) = false) /\
  (forall l, In l (leases (wd_db w')) -> l_worker_id l = i -> l_released_at l <> None) /\
  (forall t, In t (tasks (wd_db w')) -> t_assigned_worker_id t = Some i ->
             t_state t <> TPrepared /\ task_waiting (t_state t) = false /\
             task_executing (t_state t) = false) /\
  usage_ledger (wd_db w') = usage_ledger (wd_db w).
Proof.
  intros (w0 & w1 & w2 & w3 & E0 & -> & Hp & -> & Hd & Hw & Hu & Hr)%leave_run.
  apply expire_prepared_run in Hp as (Hprep & _ & _ & Hu1).
  apply departed_stood_down in Hd.
  apply (stood_down_stable _ _ _ (wd_db w')) in Hd;
    [|by eapply run_stable; [apply fleet_revoke_work|exact Hr]].
  apply revoke_work_run in Hr as (Ha & Hl & Ht & Hu3). injection Hw as Et _ _.
  split_and!; try done; [|congruence]. intros t Hin Hi.
  destruct (Ht t Hin Hi) as [->|[Hin3 Hs]]; [done|]. rewrite Et in Hin3.
  split; [by apply Hprep|]. by apply orb_false_iff.
Qed.

(** A graceful departure finishes what is running and nothing else.  The
    worker drains exactly when it is executing, and is revoked at once
    otherwise; every attempt it is executing keeps its state and its lease; no
    task stays prepared for it or waiting in its queue; its allocations are
    revoked and its maintenance jobs have ended.  Nothing is charged. *)
Theorem graceful_departure_drains i o w status w' :
  leave_worker i o false w = (Ok status, w') ->
  status = (if executes (wd_db w) i then WDraining else WRevoked) /\
  stood_down i status (wd_db w') /\
  (forall a, In a (task_attempts (wd_db w)) -> attempt_executing (a_state a) = true ->
             In a (task_attempts (wd_db w'))) /\
  leases (wd_db w') = leases (wd_db w) /\
  (forall t, In t (tasks (wd_db w')) -> t_assigned_worker_id t = Some i ->
             t_state t <> TPrepared /\ task_waiting (t_state t) = false) /\
  usage_ledger (wd_db w') = usage_ledger (wd_db w).
Proof.
  intros (w0 & w1 & w2 & w3 & E0 & Es & Hp & Hq & Hd & Hw & Hu & ->)%leave_run.
  apply expire_prepared_run in Hp as (Hprep & Hex1 & Hl1 & Hu1). rewrite E0 in Hex1, Hl1, Hu1.
  apply return_queued_run in Hq as (Hwait & Hex2 & Hl2 & Hu2).
  injection Hw as Et Ea El. rewrite Et, Ea, El. split_and!; try congruence.
  - rewrite Es. simpl. by destruct (executes _ _).
  - by eapply departed_stood_down.
  - auto.
  - intros t Hin Hi. destruct (Hwait t Hin Hi) as [H1 H2]. auto.
Qed.

(** ** Expiry and the sweep *)

(** Releasing the lapsed leases one by one: a lease that is still live was there
    and is none of them; a task that was not executing is untouched. *)
Lemma expire_lease_loop stamp rows w n w' :
  for_sum rows (fun row => expire_lease stamp (fst row) (snd row)) w = (Ok n, w') ->
  (forall l, In l (leases (wd_db w')) -> l_released_at l = None ->
             In l (leases (wd_db w)) /\ l_attempt_id l ∉ map fst rows) /\
  (forall t, In t (tasks (wd_db w)) -> task_executing (t_state t) = false ->
             In t (tasks (wd_db w'))) /\
  fleet_tables (wd_db w') = fleet_tables (wd_db w).
Proof.
  revert w n. induction rows as [|[aid tid] rows IH]; intros w n Hrun; simpl in Hrun.
  { run_all. split_and!; try done. intros l Hl Hr. split; [done|]. apply not_elem_of_nil. }
  apply run_bind in Hrun as (n1 & w1 & H1 & Hrun). apply run_bind in Hrun as (n2 & w2 & H2 & Hrun).
  apply run_ret in Hrun as [_ ->]. apply IH in H2 as (Hl & Ht & Hf).
  assert (leases (wd_db w1) = update (fun l => l_attempt_id l =d aid)
            (fun l => l <| l_released_at := Some stamp |>) (leases (wd_db w)) /\
          tasks (wd_db w1) = update (fun t => (t_id t =d tid) && task_executing (t_state t))
            (fun t => t <| t_state := TRekeyRequired |> <| t_updated_at := stamp |>)
            (tasks (wd_db w))) as [El Et].
  { unfold expire_lease in H1. run_all.
    all: repeat match goal with H : core_eq _ _ |- _ => destruct H as (? & ? & ? & ? & ?) end.
    all: same_tables; flat_db; done. }
  assert (fleet_tables (wd_db w1) = fleet_tables (wd_db w)) as Hf1.
  { eapply run_stable; [|exact H1]. unfold expire_lease. solve_stable. }
  rewrite Hf1 in Hf. rewrite El in Hl. rewrite Et in Ht. split_and!; [| |done].
  - intros l Hin Hr. destruct (Hl l Hin Hr) as [Hin1 Hn].
    apply in_update in Hin1 as (l0 & Hl0 & [[_ ->]|[Hp ->]]); [done|]. split; [done|].
    apply bool_decide_eq_false in Hp. simpl. rewrite not_elem_of_cons. split; [done|done].
  - intros t Hin Hs. apply Ht; [|done]. apply in_update. exists t. split; [done|]. right.
    by rewrite Hs, andb_false_r.
Qed.

(** Revoking the drained workers one by one. *)
Lemma drain_loop stamp ids w u w' :
  for_each ids (fun worker_id =>
    _ ← sql_update workers (fun w => (w_id w =d worker_id) && (w_status w =d WDraining))
          (fun w => w <| w_status := WRevoked |> <| w_revoked_at := Some stamp |>
                      <| w_updated_at := stamp |>);
    _ ← sql_update sessions
          (fun s => (ss_principal_type s =d PWorker) && (ss_principal_id s =d worker_id) &&
                    (ss_revoked_at s =d None))
          (fun s => s <| ss_revoked_at := Some stamp |>);
    mret tt) w = (Ok u, w') ->
  forall x, In x (workers (wd_db w')) -> w_status x = WDraining ->
            In x (workers (wd_db w)) /\ w_id x ∉ ids.
Proof.
  revert w. induction ids as [|i ids IH]; intros w Hrun x Hin Hs; cbn [for_each] in Hrun.
  { apply run_ret in Hrun as [_ ->]. split; [done|]. apply not_elem_of_nil. }
  apply run_bind in Hrun as (u1 & w1 & H1 & Hrun).
  destruct (IH _ Hrun x Hin Hs) as [Hin1 Hn]. repeat run_step. flat_db. simpl in Hin1.
  apply in_update in Hin1 as (y & Hy & [[_ ->]|[Hp ->]]); [done|]. split; [done|].
  rewrite Hs, (bool_decide_eq_true_2 (WDraining = WDraining)), andb_true_r in Hp by done.
  apply bool_decide_eq_false in Hp. rewrite not_elem_of_cons. done.
Qed.

Lemma finalize_drained_run stamp w n w' :
  _finalize_drained_workers stamp w = (Ok n, w') ->
  work_tables (wd_db w') = work_tables (wd_db w) /\
  worker_maintenance_jobs (wd_db w') = worker_maintenance_jobs (wd_db w) /\
  forall x, In x (workers (wd_db w')) -> w_status x = WDraining ->
    exists a, In a (task_attempts (wd_db w')) /\ a_worker_id a = w_id x /\
              attempt_active (a_state a) = true.
Proof.
  intros Hrun. assert (work_tables (wd_db w') = work_tables (wd_db w)) as Hw.
  { eapply run_stable; [|exact Hrun]. unfold _finalize_drained_workers. solve_stable. }
  split; [done|]. split.
  { eapply run_stable; [|exact Hrun]. unfold _finalize_drained_workers. solve_stable. }
  intros x Hx Hs. unfold _finalize_drained_workers in Hrun.
  apply run_bind in Hrun as (ids & w0 & Hq & Hrun). apply run_query in Hq as [-> ->].
  apply run_bind in Hrun as (u & w1 & Hloop & Hrun). apply run_ret in Hrun as [_ ->].
  destruct (drain_loop _ _ _ _ _ Hloop x Hx Hs) as [Hin Hn].
  injection Hw as _ -> _.
  destruct (existsb (fun a => (a_worker_id a =d w_id x) && attempt_active (a_state a))
              (task_attempts (wd_db w))) eqn:Ex.
  - apply existsb_exists in Ex as (a & Ha & Hp). split_bools. eauto.
  - destruct Hn. apply list_elem_of_In, (in_map w_id), in_select. split; [done|].
    by rewrite Hs, Ex, bool_decide_eq_true_2.
Qed.

Lemma expire_reservations_run stamp w u w' :
  _expire_reservations stamp w = (Ok u, w') ->
  (forall t, In t (tasks (wd_db w)) -> task_reservable (t_state t) = true ->
     until (t_reservation_expires_at t) stamp = true ->
     exists t', In t' (tasks (wd_db w')) /\ t_id t' = t_id t /\ t_state t' = TExpired) /\
  fleet_tables (wd_db w') = fleet_tables (wd_db w).
Proof.
  intros Hrun. split; [|by eapply run_stable; [|exact Hrun]; unfold _expire_reservations; solve_stable].
  unfold _expire_reservations in Hrun. run_step. run_step.
  intros t Ht Hs Hu.
  assert (In t (select (fun t => until (t_reservation_expires_at t) stamp &&
                                 task_reservable (t_state t)) (tasks (wd_db w)))) as Hsel
    by (apply in_select; by rewrite Hs, Hu).
  apply (in_map t_id) in Hsel.
  match type of Hrun with (match ?l with _ => _ end) _ = _ => destruct l eqn:El end.
  { done. }
  rewrite <- El in Hrun, Hsel. clear El. run_all. flat_db. simpl.
  eexists. split; [apply in_update; exists t; split; [done|]; left|].
  { split; [|reflexivity]. by apply elem_b_spec, list_elem_of_In. }
  done.
Qed.

(** Jobs after their expiry: an active job has time left. *)
Lemma expire_jobs_run stamp w n w' :
  _expire_maintenance_jobs stamp w = (Ok n, w') ->
  forall j, In j (worker_maintenance_jobs (wd_db w')) -> job_active (mj_state j) = true ->
            stamp < mj_expires_at j.
Proof.
  intros Hrun. unfold _expire_maintenance_jobs in Hrun. repeat run_step. flat_db. simpl.
  intros j (j2 & (j1 & _ & Hc1)%in_update & Hc2)%in_update Hs.
  assert (forall k, job_active (mj_state k) && (mj_expires_at k <=? stamp) = false ->
                    job_active (mj_state k) = true -> stamp < mj_expires_at k) as Hend.
  { intros k Hk Hk'. rewrite Hk' in Hk. simpl in Hk. by apply Z.leb_gt. }
  destruct Hc2 as [[Hp ->]|[_ ->]]; [split_bools; simpl in *; lia|].
  destruct Hc1 as [[_ ->]|[Hp ->]]; [done|]. auto.
Qed.

(** Pruning keeps the state and the expiry of every job. *)
Lemma prune_jobs stamp w l w' :
  prune_expired_security_state (Some stamp) w = (Ok l, w') ->
  (forall j', In j' (worker_maintenance_jobs (wd_db w')) ->
     exists j, In j (worker_maintenance_jobs (wd_db w)) /\ mj_state j' = mj_state j /\
               mj_expires_at j' = mj_expires_at j) /\
  core_eq (wd_db w) (wd_db w').
Proof.
  intros Hrun. split; [|by eapply run_frames; [|exact Hrun]; auto with frames].
  unfold prune_expired_security_state in Hrun. repeat run_step. flat_db. simpl.
  intros j' (j & Hj & [[_ ->]|[_ ->]])%in_update; eauto.
Qed.

(** The sweep settles what has lapsed.  After an accepted sweep at time
    [stamp] every unreleased lease still has time left, every task whose
    reservation had lapsed in a state that can be reserved is expired, every
    worker still draining has an active attempt, and every active maintenance
    job has time left. *)
Theorem sweep_settles w counts w' :
  reachable w -> sweep_expired w = (Ok counts, w') ->
  let stamp := clock (wd_ticks w) in
  (forall l, In l (leases (wd_db w')) -> l_released_at l = None -> stamp < l_expires_at l) /\
  (forall t, In t (tasks (wd_db w)) -> task_reservable (t_state t) = true ->
     until (t_reservation_expires_at t) stamp = true ->
     exists t', In t' (tasks (wd_db w')) /\ t_id t' = t_id t /\ t_state t' = TExpired) /\
  (forall x, In x (workers (wd_db w')) -> w_status x = WDraining ->
     exists a, In a (task_attempts (wd_db w')) /\ a_worker_id a = w_id x /\
               attempt_active (a_state a) = true) /\
  (forall j, In j (worker_maintenance_jobs (wd_db w')) -> job_active (mj_state j) = true ->
             stamp < mj_expires_at j).
Proof.
  intros HI%inv_reachable Hrun stamp. unfold sweep_expired in Hrun.
  apply run_bind in Hrun as (s & w0 & Hnow & Hrun). injection Hnow as <- <-. fold stamp in Hrun.
  apply run_bind in Hrun as (c & w7 & Htx & Hrun). apply run_transaction in Htx.
  apply run_bind in Hrun as (l & w8 & Hprune & Hrun). apply run_ret in Hrun as [_ ->].
  apply run_bind in Htx as (n1 & w1 & H1 & Htx).
  apply run_frames in H1; [|auto with frames].
  apply run_bind in Htx as (u2 & w2 & H2 & Htx). apply run_bind in Htx as (n3 & w3 & H3 & Htx).
  apply run_bind in Htx as (n4 & w4 & H4 & Htx). apply run_bind in Htx as (n5 & w5 & H5 & Htx).
  apply run_ret in Htx as [_ ->].
  pose proof (inv_frame _ _ H1 HI) as HI1. destruct H1 as (Et1 & _).
  pose proof (keeps_expire_reservations _ _ _ _ HI1 H2) as HI2.
  apply expire_reservations_run in H2 as (Hres & _). simpl in Et1. rewrite Et1 in Hres.
  unfold _expire_leases in H3. apply run_bind in H3 as (rows & wq & Hq & H3).
  apply run_query in Hq as [-> ->]. apply run_bind in H3 as (tr & wl & Hloop & H3).
  apply run_bind in H3 as (nd & wd & Hdrain & H3). apply run_ret in H3 as [_ ->].
  apply expire_lease_loop in Hloop as (Hl & Ht & _).
  apply finalize_drained_run in Hdrain as (Hw & _ & Hd). injection Hw as Ewt _ Ewl.
  pose proof (expire_jobs_run _ _ _ _ H4) as Hj. apply run_frames in H4; [|auto with frames].
  assert (worker_maintenance_jobs (wd_db w5) = worker_maintenance_jobs (wd_db w4)) as Ej.
  { eapply run_stable; [|exact H5]. unfold _ensure_rekey_commands. solve_stable. }
  apply run_frames in H5; [|auto with frames]. apply prune_jobs in Hprune as [Hpj H8].
  destruct H4 as (E4t & E4a & E4l & E4w & _), H5 as (E5t & E5a & E5l & E5w & _),
    H8 as (E8t & E8a & E8l & E8w & _).
  rewrite E8t, E5t, E4t, Ewt, E8l, E5l, E4l, Ewl, E8w, E5w, E4w, E8a, E5a, E4a.
  split_and!; [| |exact Hd|].
  - intros l0 Hin Hr. destruct (Hl l0 Hin Hr) as [Hin0 Hn]. apply Z.lt_nge. intros Hle.
    apply Hn, list_elem_of_In. destruct (inv_lease_attempt _ HI2 l0 Hin0) as (a & Ha & Ea & _).
    unfold lapsed_leases. apply (in_map fst _ (l_attempt_id l0, a_task_id a)), in_flat_map.
    exists l0. rewrite in_select. split.
    + split; [done|]. rewrite Hr, bool_decide_eq_true_2 by done. by apply Z.leb_le.
    + apply (in_map (fun a => (l_attempt_id l0, a_task_id a))), in_select.
      split; [done|]. by apply bool_decide_eq_true_2.
  - intros t Hin Hs Hu. destruct (Hres t Hin Hs Hu) as (t' & Hin' & Ei & Es). exists t'.
    split_and!; try done. apply Ht; [done|]. by rewrite Es.
  - intros j Hin Hs. destruct (Hpj j Hin) as (j0 & Hin0 & Es & Ee). rewrite Ee.
    apply Hj; [|congruence]. by rewrite <- Ej.
Qed.

Lemma in_kept {A} (p : A -> bool) l x : In x (select (fun r => negb (p r)) l) <-> In x l /\ p x = false.
Proof. by rewrite in_select, negb_true_iff. Qed.

(** Pruning removes exactly what has expired.  Challenges, request nonces,
    intent receipts and idempotency records disappear when and only when their
    time has come; a used transfer ticket is remembered for two hours after its
    use; an expired session is removed unless a maintenance job still refers to
    it, and a session that has time left is never removed.  No active job loses
    its session. *)
Theorem prune_exact stamp w counts w' :
  prune_expired_security_state (Some stamp) w = (Ok counts, w') ->
  (forall c, In c (auth_challenges (wd_db w')) <->
             In c (auth_challenges (wd_db w)) /\ stamp < ac_expires_at c) /\
  (forall c, In c (service_auth_challenges (wd_db w')) <->
             In c (service_auth_challenges (wd_db w)) /\ stamp < sc_expires_at c) /\
  (forall c, In c (device_recovery_challenges (wd_db w')) <->
             In c (device_recovery_challenges (wd_db w)) /\ stamp < dc_expires_at c) /\
  (forall n, In n (request_nonces (wd_db w')) <->
             In n (request_nonces (wd_db w)) /\ stamp < rn_expires_at n) /\
  (forall r, In r (maintenance_intent_receipts (wd_db w')) <->
             In r (maintenance_intent_receipts (wd_db w)) /\ stamp < mr_expires_at r) /\
  (forall r, In r (idempotency_records (wd_db w')) <->
             In r (idempotency_records (wd_db w)) /\ stamp < ir_expires_at r) /\
  (forall u, In u (transfer_ticket_uses (wd_db w')) <->
             In u (transfer_ticket_uses (wd_db w)) /\ stamp < tu_used_at u + seconds 7200) /\
  (forall s, In s (sessions (wd_db w')) <->
     In s (sessions (wd_db w)) /\
     (stamp < ss_expires_at s \/
      exists j, In j (worker_maintenance_jobs (wd_db w')) /\
                mj_lease_session_id j = Some (ss_id s))) /\
  (forall j, In j (worker_maintenance_jobs (wd_db w)) -> job_active (mj_state j) = true ->
             In j (worker_maintenance_jobs (wd_db w'))).
Proof.
  intros Hrun. unfold prune_expired_security_state in Hrun. repeat run_step. flat_db. simpl.
  assert (forall z, (z <=? stamp) = false <-> stamp < z) as Hz by (intros z; apply Z.leb_gt).
  split_and!; intros; rewrite ?in_kept, ?Hz; try done.
  - rewrite Z.leb_gt. unfold TRANSFER_TICKET_REPLAY_RETENTION_SECONDS. split; intros []; split; auto; lia.
  - rewrite andb_false_iff, negb_false_iff, Hz, elem_b_spec, list_elem_of_In, in_flat_map.
    split; intros [Hs Hor]; (split; [done|]); (destruct Hor as [?|(j & Hj & He)]; [by left|right]).
    + exists j. split; [done|]. destruct (mj_lease_session_id j); [|done].
      by destruct He as [->|[]].
    + exists j. split; [done|]. rewrite He. by left.
  - apply in_update. eexists. split; [eassumption|]. right. split; [|done].
    by destruct (mj_state j).
Qed.
End Fleet.

(** ** The concrete control plane *)

Lemma forced_departure_revokes_witness :
  stood_down "wrk_0" WRevoked (wd_db demo_departed) /\
  (forall a, In a (task_attempts (wd_db demo_departed)) -> a_worker_id a = "wrk_0" ->
             attempt_active (a_state a) = false).
Proof.
  destruct (forced_departure_revokes "wrk_0" "usr_owner" demo_running WRevoked demo_departed)
    as (_ & H1 & H2 & _).
  - unfold demo_departed. apply (run_ok (leave_worker "wrk_0" "usr_owner" true)).
    vm_compute. reflexivity.
  - exact (conj H1 H2).
Defined.

Definition demo_draining : world := run (leave_worker "wrk_0" "usr_owner" false) demo_running.

Lemma graceful_departure_drains_witness :
  stood_down "wrk_0" WDraining (wd_db demo_draining) /\
  In demo_attempt (task_attempts (wd_db demo_draining)).
Proof.
  destruct (graceful_departure_drains "wrk_0" "usr_owner" demo_running WDraining demo_draining)
    as (_ & H1 & H2 & _).
  - unfold demo_draining. apply (run_ok (leave_worker "wrk_0" "usr_owner" false)).
    vm_compute. reflexivity.
  - exact (conj H1 (H2 demo_attempt demo_attempt_in eq_refl)).
Defined.

(** The worker falls silent; minutes later the sweep runs. *)
Definition demo_silent : world := demo_running <| wd_ticks := 500%nat |>.
Definition demo_swept : world := run sweep_expired demo_silent.

Lemma demo_silent_reachable : reachable demo_silent.
Proof. apply reachable_later, demo_running_reachable. Qed.

Definition demo_lapsed : lease_row :=
  Eval vm_compute in
    match leases (wd_db demo_silent) with
    | l :: _ => l
    | [] => Mk_lease_row "" "" "" 0 "" 0 0 None None
    end.

Lemma sweep_settles_witness :
  l_released_at demo_lapsed = None /\ l_expires_at demo_lapsed < clock 500 /\
  (forall l, In l (leases (wd_db demo_swept)) -> l_released_at l = None ->
             clock 500 < l_expires_at l).
Proof.
  split; [vm_compute; reflexivity|]. split; [vm_compute; reflexivity|].
  assert (exists c, fst (sweep_expired demo_silent) = Ok c) as [c Hc]
    by (eexists; vm_compute; reflexivity).
  apply (run_ok sweep_expired) in Hc. unfold demo_swept.
  destruct (sweep_settles demo_silent c _ demo_silent_reachable Hc) as [H _]. exact H.
Defined.

Lemma prune_exact_witness :
  exists w', forall n, In n (request_nonces (wd_db w')) <->
    In n (request_nonces (wd_db demo_silent)) /\ 0 < rn_expires_at n.
Proof.
  exists (run (prune_expired_security_state (Some 0)) demo_silent).
  assert (exists c, fst (prune_expired_security_state (Some 0) demo_silent) = Ok c) as [c Hc]
    by (eexists; vm_compute; reflexivity).
  apply (run_ok (prune_expired_security_state (Some 0))) in Hc.
  destruct (prune_exact 0 demo_silent c _ Hc) as (_ & _ & _ & H & _). exact H.
Defined.
