(* ===== verification/Joining.v ===== *)
(** * The life of an enrollment

    Every operation of [Enrollment] and [Onboard] moves the rows of its table along one
    small state machine: an invite is issued and claimed once, an application is filed
    pending, a pending row is decided, a row is revoked, and nothing leaves a
    rejected or revoked state. *)

From stdpp Require Import relations.
From S2P Require Import Prelude Python Bytes Errors Schema Store Access Framing Capability Encoding.
From S2P Require Import Signing Grants Maintenance Invariant Lifecycle Requests Sessions Auth Enrollment Departure.
From S2P Require Import Fleet Recipients Onboard.

Open Scope Z_scope.

(** ** The machine *)

Section Machine.
Context {E : Env}.

Inductive enroll_step (method : enroll_method) : enroll_state -> enroll_state -> Prop :=
| step_admitted : method = EmDirectInvite -> enroll_step method EsIssued EsActive
| step_claimed : method <> EmDirectInvite -> enroll_step method EsIssued EsPending
| step_approved : enroll_step method EsPending EsActive
| step_rejected : enroll_step method EsPending EsRejected
| step_revoked s : revocable s = true -> enroll_step method s EsRevoked.

(** What the issuer fixed. *)
Definition offer_of (e : enrollment_row) :=
  (en_id e, en_kind e, en_method e, en_workspace_id e, en_pool_id e, en_issuer_user_id e,
   en_subject_key_fingerprint e, en_scopes e, en_relationship e, en_invite_secret_hash e,
   en_expires_at e, en_created_at e).

(** Who claimed it, with what material. *)
Definition claim_of (e : enrollment_row) :=
  (en_subject_user_id e, en_subject_id e, en_claim e, en_claimed_at e).

(** The claim of a worker its enrollment holds. *)
Definition worker_claim (e : enrollment_row) (claim : dict) : Prop :=
  exists record config, _worker_enrollment_record e = Ok (record, config) /\ claim_in record = Some claim.

(** The claim was presented under the invite's secret and the worker's signing key. *)
Definition presented (e : enrollment_row) (safe : dict) : Prop :=
  exists claim proof keys secret,
    _verify_worker_enrollment_claim claim proof = Ok keys /\ _safe_worker_enrollment_claim claim = Ok safe /\
    json_is (jget_or "invite_id" JNull claim) (en_id e) = true /\ en_invite_secret_hash e = Some (sha256_hex secret).

(** One claim of a worker, with its arguments. *)
Definition claims (invite_id secret : string) (claim : dict) (proof : string) (e : enrollment_row) (safe : dict) : Prop :=
  en_id e = invite_id /\ en_invite_secret_hash e = Some (sha256_hex secret) /\
  json_is (jget_or "invite_id" JNull claim) invite_id = true /\ _safe_worker_enrollment_claim claim = Ok safe /\
  exists keys, _verify_worker_enrollment_claim claim proof = Ok keys.

Lemma claims_presented i s c p e safe : claims i s c p e safe -> presented e safe.
Proof. intros (<- & Hh & Hi & Hs & keys & Hv). by exists c, p, keys, s. Qed.

(** The steps of a row; [witnessed] tells the claims that may be stored. *)
Context (witnessed : enrollment_row -> dict -> Prop).

Record row_step_by (e e' : enrollment_row) : Prop := {
  step_offer : offer_of e' = offer_of e;
  step_state : enroll_step (en_method e) (en_state e) (en_state e');
  step_claim : en_state e <> EsIssued -> claim_of e' = claim_of e;
  step_worker : en_kind e = EkWorker -> forall claim, worker_claim e' claim -> worker_claim e claim \/ witnessed e' claim
}.

(** A step that keeps the stored record. *)
Lemma same_record_step e e' claim : en_claim e' = en_claim e -> worker_claim e' claim -> worker_claim e claim.
Proof.
  intros H (record & config & Hr & Hc). exists record, config. split; [|done]. unfold _worker_enrollment_record in *.
  by rewrite <- H.
Qed.

(** A new row: an unclaimed invite with its verifier (a worker's carries the
    configuration of the worker), or an application; no worker has claimed it. *)
Definition born (e : enrollment_row) : Prop :=
  (forall claim, ~ worker_claim e claim) /\
  match en_method e with
  | EmApplyApproval => en_state e = EsPending /\ en_invite_secret_hash e = None
  | _ => en_state e = EsIssued /\ en_subject_user_id e = None /\ en_subject_id e = None /\
         (en_kind e = EkWorker \/ en_claim e = None) /\ is_Some (en_invite_secret_hash e)
  end.

Record evolves (l l' : list enrollment_row) : Prop := {
  rows_kept : forall e, In e l -> exists e', In e' l' /\ rtc row_step_by e e';
  rows_from : forall e', In e' l' -> exists e, (In e l \/ born e) /\ rtc row_step_by e e'
}.

(** Tables with distinct identifiers evolve, and stay so. *)
Definition moves (l l' : list enrollment_row) : Prop :=
  NoDup (map en_id l) -> NoDup (map en_id l') /\ evolves l l'.

#[export] Instance moves_preorder : PreOrder moves.
Proof.
  split.
  - intros l Hd. split; [done|]. split; intros e He; exists e; auto using rtc_refl.
  - intros l1 l2 l3 H12 H23 Hd. destruct (H12 Hd) as [Hd2 [K12 F12]].
    destruct (H23 Hd2) as [Hd3 [K23 F23]]. split; [done|]. split.
    + intros e He. destruct (K12 e He) as (e2 & He2 & S12). destruct (K23 e2 He2) as (e3 & He3 & S23).
      exists e3. split; [done|by etrans].
    + intros e3 He3. destruct (F23 e3 He3) as (e2 & [He2|Hb] & S23); [|by eauto].
      destruct (F12 e2 He2) as (e1 & H1 & S12). exists e1. split; [done|by etrans].
Qed.

Lemma moves_update l id row f :
  find_by en_id id l = Some row -> row_step_by row (f row) -> (forall e, en_id (f e) = en_id e) ->
  moves l (update (fun e => en_id e =d id) f l).
Proof.
  intros Hf Hs Hid Hd. destruct (find_by_some _ _ _ _ Hf) as [Hin Hrow]. split.
  { unfold update. rewrite map_map. erewrite map_ext; [exact Hd|]. intros e. simpl.
    destruct (en_id e =d id); [apply Hid|done]. }
  assert (Hone : forall e, In e l -> (en_id e =d id) = true -> e = row).
  { intros e He Hk. split_bools. apply (NoDup_map_inj en_id l); [done..|]. congruence. }
  split.
  - intros e He. destruct (en_id e =d id) eqn:Hk.
    + exists (f row). rewrite (Hone e He Hk). split; [|by apply rtc_once].
      apply in_update. exists row. split; [done|]. left. split; [|done].
      by rewrite <- (Hone e He Hk).
    + exists e. split; [|apply rtc_refl]. apply in_update. eauto.
  - intros e' (e & He & [[Hk ->]|[Hk ->]])%in_update; exists e; split; auto; [|apply rtc_refl].
    rewrite (Hone e He Hk). by apply rtc_once.
Qed.

Lemma moves_insert l r : ~ In (en_id r) (map en_id l) -> born r -> moves l (l ++ [r]).
Proof.
  intros Hn Hb Hd. split.
  - rewrite map_app, NoDup_app. split; [done|]. split; [|apply NoDup_singleton].
    intros i Hi. simpl. rewrite list_elem_of_singleton. intros ->. by apply Hn, list_elem_of_In.
  - split; [intros e He; exists e; split; [apply in_app_iff; auto|apply rtc_refl]|].
    intros e [He|[<-|[]]]%in_app_iff; [exists e|exists r]; split; auto using rtc_refl.
Qed.

End Machine.

Notation row_step := (row_step_by presented).

(** ** Operations *)

(** [P] relates the view [f] of the database before and after [m], on every exit. *)
Section Effect.
Context {T : Type} (f : db -> T) (P : T -> T -> Prop) `{!Reflexive P}.

Definition effect {A} (m : M A) (w : world) : Prop := P (f (wd_db w)) (f (wd_db (snd (m w)))).

Lemma effect_stable {A} (m : M A) w : stable f m -> effect m w.
Proof using Type*. intros Hm. unfold effect. by rewrite (Hm w). Qed.

Lemma effect_prefix {A B} (m : M A) (k : A -> M B) w :
  stable f m -> (forall a w1, m w = (Ok a, w1) -> effect (k a) w1) -> effect (bind m k) w.
Proof using Type*.
  intros Hm Hk. specialize (Hm w). unfold effect, same, bind, mbind, M_bind in *.
  destruct (m w) as [[a|e] w1] eqn:E; simpl in *; [|by rewrite Hm]. rewrite <- Hm. by apply Hk.
Qed.

Lemma effect_suffix {A B} (m : M A) (k : A -> M B) w :
  effect m w -> (forall a, stable f (k a)) -> effect (bind m k) w.
Proof using Type.
  unfold effect, bind, mbind, M_bind. destruct (m w) as [[a|e] w1]; simpl; [|done].
  intros Hm Hk. specialize (Hk a w1). unfold same in Hk. by rewrite Hk.
Qed.

Lemma effect_transaction {A} (m : M A) w :
  (forall a w', m w = (Ok a, w') -> P (f (wd_db w)) (f (wd_db w'))) -> effect (transaction m) w.
Proof using Type*.
  unfold effect, transaction. destruct (m w) as [[a|e] w1]; intros H; [by eapply H|done].
Qed.
End Effect.

(** Walk to the statement or transaction that writes. *)
Ltac to_write := repeat (apply effect_prefix; [typeclasses eauto|solve [solve_stable]|]; intros).
Ltac to_transaction :=
  repeat (apply effect_prefix; [typeclasses eauto|solve [solve_stable]|]; intros ? ? _);
  apply effect_suffix; [apply effect_transaction; [typeclasses eauto|]; intros ? ? Hrun|solve_stable].

Section Operations.
Context {E : Env}.

Lemma reads_only_enrollment i : reads_only (enrollment i).
Proof. unfold enrollment. solve_reads_match. Qed.
#[local] Hint Resolve reads_only_enrollment : reads.
#[local] Hint Extern 1 (stable _ token_urlsafe) => (by intros ?) : stable.

Lemma reads_only_require_owner ws u : reads_only (require_owner ws u).
Proof. unfold require_owner. solve_reads_match. Qed.
#[local] Hint Resolve reads_only_require_owner : reads.

Lemma stable_activate row u i a stamp : stable enrollments (_activate_enrollment row u i a stamp).
Proof. unfold _activate_enrollment, upsert_membership. solve_stable. Qed.
Lemma stable_withdraw row stamp : stable enrollments (withdraw_enrollment row stamp).
Proof. unfold withdraw_enrollment, revoke_sessions. solve_stable. Qed.
#[local] Hint Resolve stable_activate stable_withdraw : stable.

(** A statement or call that leaves the table alone, in a run. *)
Ltac run_stable_step :=
  match goal with
  | H : ?m ?w = (Ok _, ?w') |- _ =>
      let Hf := fresh in
      assert (Hf : stable enrollments m) by solve_stable;
      apply (run_stable _ _ _ _ _ Hf) in H; clear Hf
  end.
Ltac run_guard :=
  match goal with
  | H : bind _ _ _ = (Ok _, _) |- _ => apply run_bind in H; destruct H as (? & ? & ? & H)
  | H : mret _ _ = (Ok _, _) |- _ => apply run_ret in H; destruct H as [? ?]; subst
  | H : query _ _ = (Ok _, _) |- _ => apply run_query in H; destruct H as [? ?]; subst
  | H : require _ _ _ = (Ok _, _) |- _ => apply run_require in H; destruct H as [? ?]; subst
  | H : lift_res _ _ = (Ok _, _) |- _ => apply run_lift in H; destruct H as [_ ?]; subst
  | H : check _ _ _ = (Ok _, _) |- _ => apply run_check in H; destruct H as [? ?]; subst
  end.
Ltac run_body := repeat first [run_guard | run_stable_step | run_step].

Section Steps.
Context (witnessed : enrollment_row -> dict -> Prop).
Notation moves := (moves witnessed).
Notation row_step := (row_step_by witnessed).
Notation advances := (effect enrollments moves).

Lemma moves_new d r : enrollments_ok d r = true -> born r -> moves (enrollments d) (enrollments d ++ [r]).
Proof.
  intros Hok Hb. apply moves_insert; [|done]. unfold enrollments_ok in Hok. split_bools.
  intros (e & Heq & He)%in_map_iff. by eapply has_key_false.
Qed.

Lemma advances_insert r w : born r -> advances (sql_insert enrollments enrollments_ok r) w.
Proof.
  intros Hb. unfold effect, sql_insert. destruct (enrollments_ok (wd_db w) r) eqn:Hok; [|done]. by apply moves_new.
Qed.

Lemma advances_create_invite u ws pool k m sc rel fp ttl w :
  advances (create_invite u ws pool k m sc rel fp ttl) w.
Proof.
  unfold create_invite. to_write. apply effect_suffix; [|solve_stable].
  apply advances_insert. split; [by intros claim (? & ? & ? & _)|]. simpl. destruct m; try done; split_and!; eauto.
Qed.

Lemma advances_apply u dv i ws pool k c sig rel w : advances (apply u dv i ws pool k c sig rel) w.
Proof. unfold apply. to_write. apply effect_suffix; [|solve_stable]. apply advances_insert. by split; [intros claim (? & ? & ? & _)|]. Qed.

Lemma claim_step row stamp row' :
  issued_open row stamp = true -> offer_of row' = offer_of row ->
  en_state row' = claimed_state row ->
  (en_kind row = EkWorker -> forall claim, worker_claim row' claim -> worker_claim row claim \/ witnessed row' claim) ->
  row_step row row'.
Proof.
  unfold issued_open, claimed_state. intros [Hs _]%andb_true_iff Ho Hst Hw. split_bools.
  split; [done| |congruence|exact Hw].
  rewrite Hst, Hs. destruct (en_method row =d EmDirectInvite) eqn:Hm; split_bools; by constructor.
Qed.

(** A claim of another kind. *)
Ltac other_claim :=
  split_bools; (eapply moves_update; [eassumption| |done]); (eapply claim_step; [eassumption|done|done|]);
  intros ?; congruence.

(** A decision keeps the record. *)
Ltac decision := split; simpl; [done| |done|left; by eapply same_record_step].

(** The row a transaction writes is the one it read. *)
Ltac written :=
  repeat match goal with
  | H : enrollments (wd_db ?w) = _ |- context [enrollments (wd_db ?w)] => rewrite H; clear H
  | H : wd_db ?w = modify _ _ _ |- context [enrollments (wd_db ?w)] => rewrite H; simpl
  end; try reflexivity.

Lemma advances_claim_invite i s u dv fp c sig w : advances (claim_invite i s u dv fp c sig) w.
Proof.
  unfold claim_invite, claim_enrollment. to_transaction. run_body; written. other_claim.
Qed.

Lemma advances_enroll_user i s c sig w : advances (enroll_user i s c sig) w.
Proof.
  unfold enroll_user, register_user, claim_enrollment. to_transaction.
  run_body; written; match goal with H : find_by _ _ _ = Some ?r |- _ =>
    destruct (find_by_some _ _ _ _ H) as [_ <-] end.
  all: other_claim.
Qed.

Lemma advances_enroll_device i s rs re dv n ds de c w : advances (enroll_device i s rs re dv n ds de c) w.
Proof.
  unfold enroll_device, claim_enrollment. to_transaction. run_body; written.
  all: other_claim.
Qed.

Lemma advances_enroll_service i s n sk ek w : advances (enroll_service i s n sk ek) w.
Proof.
  unfold enroll_service. to_transaction. run_body; written.
  match goal with H : (if ?b then _ else _) = Some _ |- _ => destruct b eqn:?; [|done] end.
  other_claim.
Qed.

Lemma advances_decide i u ok w : advances (decide_enrollment i u ok) w.
Proof.
  unfold decide_enrollment. to_transaction. run_body; written; split_bools.
  eapply moves_update; [done| |done]. decision. rewrite H0. by destruct ok; constructor.
Qed.

Lemma advances_revoke i u w : advances (revoke_enrollment i u) w.
Proof.
  unfold revoke_enrollment. to_transaction. run_body; written.
  all: (eapply moves_update; [done| |done]); decision; by constructor.
Qed.

(** *** Workers *)

Lemma stable_register row record config claim c p u stamp :
  stable enrollments (register_invited_worker row record config claim c p u stamp).
Proof.
  unfold register_invited_worker, _initialize_worker_capability_state, _reconcile_bundled_bootstrap_authorizations,
    upsert_workflow_auth, upsert_model_auth. solve_stable.
Qed.
#[local] Hint Resolve stable_register : stable.

Lemma advances_worker_invite u ws pool m n t v cap b rate ttl w :
  advances (create_worker_invite u ws pool m n t v cap b rate ttl) w.
Proof.
  unfold create_worker_invite. cbv zeta. to_write. apply effect_suffix; [|solve_stable].
  apply effect_transaction; [typeclasses eauto|]. intros x w' Hrun.
  apply run_bind in Hrun as ([] & wi & Hi & Ha). apply run_insert in Hi as [Hok Hi].
  apply (run_stable enrollments) in Ha; [|solve_stable]. rewrite Ha, Hi. apply moves_new; [done|].
  split; [|split_and!; eauto]. intros claim (record & config & [= <- <-] & Hc). discriminate Hc.
Qed.

Lemma secret_known row secret :
  secret_matches row secret = true -> en_invite_secret_hash row = Some (sha256_hex secret).
Proof. unfold secret_matches. destruct (en_invite_secret_hash row); [|done]. by intros ->%String.eqb_eq. Qed.

Lemma claimed_worker_record record safe stamp e claim :
  en_claim e = Some (JDoc (JObj (claimed_record record safe stamp))) -> worker_claim e claim -> claim = safe.
Proof.
  intros He (r & config & Hr & Hc). unfold _worker_enrollment_record in Hr. rewrite He in Hr. simpl in Hr.
  destruct (jget "config" _) as [[]|]; simplify_eq. unfold claim_in, claimed_record in Hc.
  rewrite !jget_jset_ne, jget_jset_eq in Hc by done. by simplify_eq.
Qed.

Lemma advances_claim_worker i s c sig w :
  (forall e safe, claims i s c sig e safe -> witnessed e safe) -> advances (claim_worker_invite i s c sig) w.
Proof.
  intros Hw. unfold claim_worker_invite. apply effect_prefix; [typeclasses eauto|solve_stable|]. intros keys w1 [Hk ->]%run_lift.
  apply effect_prefix; [typeclasses eauto|solve_stable|]. intros safe w1 [Hs ->]%run_lift.
  apply effect_prefix; [typeclasses eauto|solve_stable|]. intros [] w1 [Hi ->]%run_check.
  to_transaction. run_body; written.
  eapply moves_update; [done| |done]. split_bools. eapply claim_step; [eassumption|done|..].
  { cbn. unfold claimed_state. by destruct (en_method _). }
  intros _ claim Hc. right. eapply claimed_worker_record in Hc as ->; [|reflexivity].
  match goal with H : find_by _ _ _ = Some _ |- _ => apply find_by_some in H as [_ Hid] end.
  apply Hw. split_and!; cbn; [done|by apply secret_known|done|done|by exists keys].
Qed.

(** The row a decision read, in a table with distinct identifiers. *)
Lemma moves_update_in l row f :
  In row l -> row_step row (f row) -> (forall e, en_id (f e) = en_id e) ->
  moves l (update (fun e => en_id e =d en_id row) f l).
Proof.
  intros Hin Hs Hid Hd. eapply moves_update; [|exact Hs|exact Hid|exact Hd].
  destruct (find_by en_id (en_id row) l) as [e|] eqn:He; [|by rewrite find_by_none in He; destruct (He row Hin)].
  apply find_by_some in He as [He Hk]. f_equal. by apply (NoDup_map_inj en_id l).
Qed.

Lemma advances_decide_worker i u ok c p w : advances (decide_worker_enrollment i u ok c p) w.
Proof.
  unfold decide_worker_enrollment, approve_worker, decided, worker_enrollment_row. to_transaction. run_body; written.
  all: match goal with H : head (select _ (enrollments _)) = Some _ |- _ => apply head_select_some in H as [Hin Hid] end.
  all: split_bools.
  - apply moves_update_in; [done| |done]. decision. rewrite H2. by constructor.
  - match goal with H : en_id x = i |- _ => rewrite <- H end. apply moves_update_in; [done| |done]. decision. rewrite H2. by constructor.
Qed.

End Steps.

(** ** Histories *)

Inductive enrollment_op : Type :=
| OpInvite (issuer : string) (workspace_id pool_id : option string) (kind : enroll_kind)
    (method : enroll_method) (scopes : list string) (relationship fingerprint : option string) (ttl : Z)
| OpApply (user device application workspace_id : string) (pool_id : option string) (kind : enroll_kind)
    (claim : dict) (proof : string) (relationship : option string)
| OpClaim (invite secret user device fingerprint : string) (claim : dict) (proof : string)
| OpUser (invite secret : string) (claim : dict) (proof : string)
| OpDevice (invite secret root_signing root_encryption device name signing encryption : string)
    (certificate : dict)
| OpService (invite secret name signing encryption : string)
| OpDecide (enrollment_id admin : string) (approve : bool)
| OpRevoke (enrollment_id admin : string)
| OpWorkerInvite (issuer workspace_id pool_id method name executor_type executor_version : string) (capacity : Z)
    (manager_broker_id : option string) (rate ttl : Z)
| OpWorkerClaim (invite secret : string) (claim : dict) (proof : string)
| OpWorkerDecide (enrollment_id admin : string) (approve : bool) (certificate : option string) (proof : option dict).

(** The world after a call, whatever it returns or raises. *)
Definition after_call (op : enrollment_op) (w : world) : world :=
  match op with
  | OpInvite u ws pool k m sc rel fp ttl => snd (create_invite u ws pool k m sc rel fp ttl w)
  | OpApply u dv i ws pool k c sig rel => snd (apply u dv i ws pool k c sig rel w)
  | OpClaim i s u dv fp c sig => snd (claim_invite i s u dv fp c sig w)
  | OpUser i s c sig => snd (enroll_user i s c sig w)
  | OpDevice i s rs re dv n ds de c => snd (enroll_device i s rs re dv n ds de c w)
  | OpService i s n sk ek => snd (enroll_service i s n sk ek w)
  | OpDecide i u ok => snd (decide_enrollment i u ok w)
  | OpRevoke i u => snd (revoke_enrollment i u w)
  | OpWorkerInvite u ws pool m n t v cap b rate ttl => snd (create_worker_invite u ws pool m n t v cap b rate ttl w)
  | OpWorkerClaim i s c sig => snd (claim_worker_invite i s c sig w)
  | OpWorkerDecide i u ok c p => snd (decide_worker_enrollment i u ok c p w)
  end.

(** The claim of a worker that is the call. *)
Definition claimed_by (op : enrollment_op) (e : enrollment_row) (safe : dict) : Prop :=
  match op with OpWorkerClaim i secret claim proof => claims i secret claim proof e safe | _ => False end.

Lemma call_moves witnessed op w :
  (forall e safe, claimed_by op e safe -> witnessed e safe) ->
  moves witnessed (enrollments (wd_db w)) (enrollments (wd_db (after_call op w))).
Proof.
  intros Hw. destruct op; cbn [after_call];
    [ apply advances_create_invite | apply advances_apply | apply advances_claim_invite
    | apply advances_enroll_user | apply advances_enroll_device | apply advances_enroll_service
    | apply advances_decide | apply advances_revoke | apply advances_worker_invite | apply (advances_claim_worker _ _ _ _ _ _ Hw)
    | apply advances_decide_worker ].
Qed.

Lemma claimed_presented op e safe : claimed_by op e safe -> presented e safe.
Proof. destruct op; try done. apply claims_presented. Qed.

Lemma calls_move ops w :
  moves presented (enrollments (wd_db w)) (enrollments (wd_db (foldl (fun w op => after_call op w) w ops))).
Proof.
  revert w. induction ops as [|op ops IH]; intros w; [done|]. simpl.
  etrans; [apply call_moves; intros ? ?; apply claimed_presented|apply IH].
Qed.

Lemma settled_row_stays e e' :
  en_state e = EsRejected \/ en_state e = EsRevoked \/ en_state e = EsExpired ->
  rtc row_step e e' -> e' = e.
Proof.
  intros Hs Hp. destruct Hp as [|e e1 e2 [_ Hst _] _]; [done|].
  destruct Hs as [Hs|[Hs|Hs]]; rewrite Hs in Hst; by inversion Hst.
Qed.

Lemma path_offer witnessed e e' : rtc (row_step_by witnessed) e e' -> offer_of e' = offer_of e.
Proof. induction 1 as [|e e1 e2 [Ho _ _] _ IH]; [done|]. congruence. Qed.

Lemma path_claim e e' :
  en_state e <> EsIssued -> rtc row_step e e' -> claim_of e' = claim_of e /\ en_state e' <> EsIssued.
Proof.
  intros Hs Hp. induction Hp as [|e e1 e2 [_ Hst Hc] _ IH]; [done|].
  destruct IH as [IH ?]; [by inversion Hst|]. split; [|done]. rewrite IH. by apply Hc.
Qed.

(** The claim a worker's row holds was there before the call, or is the call. *)
Lemma call_claim op w e' safe :
  NoDup (map en_id (enrollments (wd_db w))) -> In e' (enrollments (wd_db (after_call op w))) ->
  en_kind e' = EkWorker -> worker_claim e' safe ->
  (exists e, In e (enrollments (wd_db w)) /\ offer_of e = offer_of e' /\ worker_claim e safe) \/ claimed_by op e' safe.
Proof.
  intros Hd Hin Hk Hc. destruct (call_moves (claimed_by op) op w ltac:(done) Hd) as [_ [_ Hfrom]].
  destruct (Hfrom e' Hin) as (e & He & Hp).
  assert (offer_of e = offer_of e' /\ (worker_claim e safe \/ claimed_by op e' safe)) as [Ho [Hw|?]]; [|left|by right].
  { clear He Hin. revert Hk Hc. induction Hp as [e'|e e1 e' [Ho _ _ Hw] _ IH]; [auto|]. intros Hk Hc.
    destruct (IH Hk Hc) as [Ho1 H1]. split; [congruence|]. destruct H1 as [H1|?]; [|by right].
    assert (en_kind e = EkWorker) as Hk0 by (unfold offer_of in Ho, Ho1; congruence).
    destruct (Hw Hk0 safe H1) as [?|Hb]; [by left|]. right. unfold claimed_by in *. destruct op; try done.
    destruct Hb as (Hi & Hh & Hb). unfold offer_of in Ho1. split_and!; [congruence..|apply Hb|apply Hb|apply Hb]. }
  exists e. split_and!; [|done|done]. destruct He as [He|[Hb _]]; [done|]. by destruct (Hb safe).
Qed.

(** Over a history: there from the start, or one of its calls. *)
Lemma history_claim ops w e' safe :
  NoDup (map en_id (enrollments (wd_db w))) ->
  In e' (enrollments (wd_db (foldl (fun w op => after_call op w) w ops))) ->
  en_kind e' = EkWorker -> worker_claim e' safe ->
  (exists e, In e (enrollments (wd_db w)) /\ worker_claim e safe) \/ exists op, In op ops /\ claimed_by op e' safe.
Proof.
  intros Hd Hin Hk Hc.
  enough ((exists e, In e (enrollments (wd_db w)) /\ offer_of e = offer_of e' /\ worker_claim e safe) \/
    exists op, In op ops /\ claimed_by op e' safe) as [(e & He & _ & Hw)|?]; [left; by exists e|by right|].
  revert w Hd Hin. induction ops as [|op ops IH]; intros w Hd Hin; [left; by exists e'|]. simpl in Hin.
  destruct (call_moves presented op w ltac:(intros ? ?; apply claimed_presented) Hd) as [Hd1 _].
  destruct (IH _ Hd1 Hin) as [(e1 & H1 & Ho & Hw)|(op' & Hop & H')]; [|right; exists op'; split; [by right|done]].
  assert (en_kind e1 = EkWorker) as Hk1 by (unfold offer_of in Ho; congruence).
  destruct (call_claim op w e1 safe Hd H1 Hk1 Hw) as [(e & He & Ho' & Hw')|Hb].
  - left. exists e. split_and!; [done|congruence|done].
  - right. exists op. split; [by left|]. unfold claimed_by in *. destruct op; try done.
    destruct Hb as (Hi & Hh & Hb). unfold offer_of in Ho. split_and!; [congruence..|apply Hb|apply Hb|apply Hb].
Qed.

(** C32: the enrollment table implements the abstract life cycle.  Over any sequence of
    invites, applications, claims, decisions and revocations, those of workers included,
    whatever they return or raise, identifiers stay distinct, no row is lost, and every row is reached from a row
    of before or from a freshly born one along the machine's steps. *)
Theorem enrollments_follow_lifecycle ops w :
  NoDup (map en_id (enrollments (wd_db w))) ->
  let w' := foldl (fun w op => after_call op w) w ops in
  NoDup (map en_id (enrollments (wd_db w'))) /\
  (forall e, In e (enrollments (wd_db w)) ->
     exists e', In e' (enrollments (wd_db w')) /\ rtc row_step e e') /\
  (forall e', In e' (enrollments (wd_db w')) ->
     exists e, (In e (enrollments (wd_db w)) \/ born e) /\ rtc row_step e e').
Proof. intros Hd w'. by destruct (calls_move ops w Hd) as [? [? ?]]. Qed.

(** A claimed enrollment is bound for good.  Once claimed, a row keeps its offer,
    its subject and its claim through every later sequence of operations, so an invite
    admits one identity; a rejected or revoked row does not change at all. *)
Theorem claimed_enrollment_is_bound ops w e e' :
  NoDup (map en_id (enrollments (wd_db w))) -> In e (enrollments (wd_db w)) -> en_state e <> EsIssued ->
  In e' (enrollments (wd_db (foldl (fun w op => after_call op w) w ops))) -> en_id e' = en_id e ->
  offer_of e' = offer_of e /\ claim_of e' = claim_of e /\ en_state e' <> EsIssued /\
  (en_state e = EsRejected \/ en_state e = EsRevoked -> e' = e).
Proof.
  intros Hd He Hs He' Hid. destruct (calls_move ops w Hd) as [Hd' [Hk _]].
  destruct (Hk e He) as (r & Hr & Hp). pose proof (path_offer _ _ _ Hp) as Ho.
  assert (r = e') as -> by (eapply (NoDup_map_inj en_id); [exact Hd'|done..|]; unfold offer_of in Ho; congruence).
  destruct (path_claim _ _ Hs Hp) as [Hc Hn]. split_and!; try done.
  intros [H|H]; eapply settled_row_stays; eauto.
Qed.

(** ** Who becomes a member *)

Definition member (d : db) (workspace_id user_id : string) (role : member_role) : Prop :=
  exists m, In m (memberships d) /\ mb_workspace_id m = workspace_id /\ mb_user_id m = user_id /\
    mb_role m = role /\ mb_status m = SActive.

(** The enrollment of the call admitted the user in that role. *)
Definition admits (e e' : enrollment_row) (workspace_id user_id : string) (role : member_role) : Prop :=
  is_member_kind (en_kind e) = true /\ en_workspace_id e = Some workspace_id /\
  role = member_role_of (en_relationship e) /\
  offer_of e' = offer_of e /\ en_state e' = EsActive /\ en_subject_user_id e' = Some user_id.

(** Why a call may add a member: an owner approved a pending enrollment, or the
    secret of an open direct invite was presented. *)
Definition authorized_by (op : enrollment_op) (d : db) (e : enrollment_row) (workspace_id : string) : Prop :=
  match op with
  | OpDecide i admin true =>
      en_id e = i /\ en_state e = EsPending /\ decider_role d workspace_id admin = Some RoleOwner
  | OpClaim i secret _ _ _ _ _ | OpUser i secret _ _ =>
      en_id e = i /\ en_state e = EsIssued /\ en_method e = EmDirectInvite /\
      en_invite_secret_hash e = Some (sha256_hex secret)
  | _ => False
  end.

Definition joins (op : enrollment_op) (d d' : db) : Prop :=
  forall ws u r, member d' ws u r ->
    member d ws u r \/
    exists e e', In e (enrollments d) /\ In e' (enrollments d') /\ admits e e' ws u r /\
      authorized_by op d e ws.

#[local] Instance joins_refl op : Reflexive (joins op).
Proof. by left. Qed.

Lemma member_same d d' ws u r : memberships d' = memberships d -> member d' ws u r -> member d ws u r.
Proof. unfold member. by intros ->. Qed.

Lemma truthy_some o s : truthy_id o = Some s -> o = Some s.
Proof. destruct o as [t|]; [|done]. simpl. by destruct (String.eqb t ""). Qed.

Lemma upsert_member ws0 u0 role stamp w x w' ws u r :
  upsert_membership ws0 u0 role stamp w = (Ok x, w') -> member (wd_db w') ws u r ->
  member (wd_db w) ws u r \/ (ws = ws0 /\ u = u0 /\ r = role).
Proof.
  unfold upsert_membership. intros Hrun (m & Hm & <- & <- & <- & Hs).
  repeat run_step; flat_db; simpl in Hm.
  - apply in_update in Hm as (y & Hy & [[Hk ->]|[_ ->]]); [|left; by exists y].
    right. apply bool_decide_eq_true in Hk. unfold member_key in Hk. simpl. by injection Hk as -> ->.
  - apply in_app_iff in Hm as [Hm|[<-|[]]]; [left; by exists m|by right].
Qed.

Lemma activate_member row user i a stamp w x w' ws u r :
  _activate_enrollment row user i a stamp w = (Ok x, w') -> member (wd_db w') ws u r ->
  member (wd_db w) ws u r \/
  (is_member_kind (en_kind row) = true /\ truthy_id (en_workspace_id row) = Some ws /\
   user = Some u /\ r = member_role_of (en_relationship row)).
Proof.
  intros Hrun Hm. destruct (is_member_kind (en_kind row)) eqn:Hk.
  - unfold _activate_enrollment in Hrun. destruct (en_kind row); try discriminate Hk;
      destruct (truthy_id (en_workspace_id row)) as [ws0|], (truthy_id user) as [u0|] eqn:Hu;
      try (apply run_ret in Hrun as [_ ->]; by left);
      (destruct (upsert_member _ _ _ _ _ _ _ _ _ _ Hrun Hm) as [?|(-> & -> & ->)];
        [by left|right; split_and!; auto using truthy_some]).
  - left. eapply member_same; [|exact Hm]. refine (run_stable memberships _ _ _ _ _ Hrun).
    unfold _activate_enrollment. destruct (en_kind row); try discriminate Hk; solve_stable.
Qed.

(** The row of the call after its write of the table. *)
Lemma written_row l id f row :
  find_by en_id id l = Some row -> In (f row) (update (fun e => en_id e =d id) f l).
Proof.
  intros Hf. destruct (find_by_some _ _ _ _ Hf) as [Hin <-].
  apply in_update. exists row. split; [done|]. left. by rewrite bool_decide_eq_true_2.
Qed.

(** A call that activates the row it has just written. *)
Lemma joins_activation op d w w' x row id f user i a stamp :
  find_by en_id id (enrollments d) = Some row -> wd_db w = modify enrollments (update (fun e => en_id e =d id) f) d ->
  _activate_enrollment row user i a stamp w = (Ok x, w') ->
  offer_of (f row) = offer_of row -> en_state (f row) = EsActive -> en_subject_user_id (f row) = user ->
  (forall ws, is_member_kind (en_kind row) = true -> truthy_id (en_workspace_id row) = Some ws ->
     authorized_by op d row ws) ->
  joins op d (wd_db w').
Proof.
  intros Hrow Hw Hact Ho Hs Hu Hauth ws u r Hm.
  destruct (activate_member _ _ _ _ _ _ _ _ _ _ _ Hact Hm) as [H|(Hk & Hws & -> & ->)].
  { left. eapply member_same; [|exact H]. by rewrite Hw. }
  right. pose proof (run_stable _ _ _ _ _ (stable_activate _ _ _ _ _) Hact) as Hen.
  exists row, (f row). unfold admits. split_and!; auto using truthy_some.
  - by apply find_by_some in Hrow as [? _].
  - rewrite Hen, Hw. by apply written_row.
Qed.

Lemma joins_decide i u ok w : effect (fun d => d) (joins (OpDecide i u ok)) (decide_enrollment i u ok) w.
Proof.
  unfold decide_enrollment. to_transaction.
  apply run_bind in Hrun as (o & w2 & Hq & Hrun). apply run_query in Hq as [-> ->].
  apply run_bind in Hrun as (row & w2 & Hq & Hrun). apply run_require in Hq as [Hrow ->].
  apply run_bind in Hrun as ([] & w2 & Hauth & Hrun).
  assert (w2 = w1 /\ (forall ws, truthy_id (en_workspace_id row) = Some ws ->
            may_decide (en_kind row) (decider_role (wd_db w1) ws u) = true)) as [-> Hmay].
  { destruct (truthy_id _) as [ws|]; repeat run_step; split; try done; by intros ? [= <-]. }
  apply run_bind in Hrun as ([] & w2 & Hp & Hrun). apply run_check in Hp as [Hp ->]. split_bools.
  apply run_bind in Hrun as (n & w2 & Hup & Hrun). apply run_update in Hup as [_ Hup].
  destruct ok.
  - eapply joins_activation; [done|exact Hup|exact Hrun|done..|]. intros ws Hk Hws.
    destruct (find_by_some _ _ _ _ Hrow) as [_ Hid]. split_and!; [done..|].
    specialize (Hmay ws Hws). unfold may_decide, owner_only in Hmay. rewrite Hk in Hmay. simpl in Hmay.
    destruct (decider_role _ _ _) as [role|]; [|done]. rewrite orb_false_r in Hmay. by split_bools; subst.
  - apply run_ret in Hrun as [_ ->]. intros ws' u' r Hm. left. eapply member_same; [|exact Hm]. by rewrite Hup.
Qed.

Lemma joins_claim i s u dv fp c sig w :
  effect (fun d => d) (joins (OpClaim i s u dv fp c sig)) (claim_invite i s u dv fp c sig) w.
Proof.
  unfold claim_invite, claim_enrollment. to_transaction.
  apply run_bind in Hrun as (o & w8 & Hq & Hrun). apply run_query in Hq as [-> ->].
  apply run_bind in Hrun as (row & w8 & Hq & Hrun). apply run_require in Hq as [Hrow ->].
  apply run_bind in Hrun as ([] & w8 & Hg & Hrun). apply run_check in Hg as [Hg ->].
  destruct (_ || _); [by apply run_check in Hrun as [_ ->]|].
  apply run_bind in Hrun as ([] & w8 & Hi & Hrun). apply run_check in Hi as [Hi ->].
  apply run_bind in Hrun as ([] & w8 & Hup & Hrun). apply run_bind in Hup as (n & w9 & Hup & Hr).
  apply run_ret in Hr as [_ ->]. apply run_update in Hup as [_ Hup].
  destruct (claimed_state row =d EsActive) eqn:Hst.
  - split_bools. eapply joins_activation; [done|exact Hup|exact Hrun|done..|]. intros ws _ _.
    destruct (find_by_some _ _ _ _ Hrow) as [_ Hid]. unfold issued_open, claimed_state in *. split_bools.
    destruct (en_method row =d EmDirectInvite) eqn:Hm; [|done]. split_bools.
    split_and!; auto using secret_known.
  - apply run_ret in Hrun as [_ ->]. intros ws' u' r Hm. left. eapply member_same; [|exact Hm]. by rewrite Hup.
Qed.

(** Calls that add no member. *)
Lemma joins_same op d d' : memberships d' = memberships d -> joins op d d'.
Proof. intros H ws u r Hm. left. by eapply member_same. Qed.

Lemma joins_register op i invite c sig stamp w x w' :
  find_by en_id i (enrollments (wd_db w)) = Some invite -> is_member_kind (en_kind invite) = true ->
  (claimed_state invite = EsActive -> forall ws, authorized_by op (wd_db w) invite ws) ->
  register_user invite c sig stamp w = (Ok x, w') -> joins op (wd_db w) (wd_db w').
Proof.
  unfold register_user, claim_enrollment. intros Hrow Hk Hauth Hrun.
  destruct (find_by_some _ _ _ _ Hrow) as [_ Hid]. subst i.
  repeat run_guard. repeat match goal with
    | H : new_id _ _ = _ |- _ => apply run_new_id in H
    | H : sql_insert _ _ _ _ = _ |- _ => apply run_insert in H as [_ H]
    | H : sql_update _ _ _ _ = _ |- _ => apply run_update in H as [_ H]
    end.
  destruct (claimed_state invite) eqn:Hst; try (repeat run_guard; apply joins_same; flat_db; done).
  destruct (truthy_id (en_workspace_id invite)) as [ws0|] eqn:Hws;
    [|repeat run_guard; apply joins_same; flat_db; done].
  repeat match goal with H : sql_insert _ _ _ _ = _ |- _ => apply run_insert in H as [_ H] end.
  flat_db. intros ws u r (m & Hm & <- & <- & <- & Hs). simpl in Hm.
  apply in_app_iff in Hm as [Hm|[<-|[]]]; [left; by exists m|]. right.
  eexists invite, _. split; [by apply find_by_some in Hrow as [? _]|].
  split; [simpl; by apply written_row|]. split; [|by apply Hauth].
  unfold admits. split_and!; auto using truthy_some.
Qed.

Lemma joins_user i s c sig w : effect (fun d => d) (joins (OpUser i s c sig)) (enroll_user i s c sig) w.
Proof.
  unfold enroll_user. to_transaction.
  apply run_bind in Hrun as (o & w8 & Hq & Hrun). apply run_query in Hq as [-> ->].
  apply run_bind in Hrun as (row & w8 & Hq & Hrun). apply run_require in Hq as [Hrow ->].
  apply run_bind in Hrun as ([] & w8 & Hg & Hrun). apply run_check in Hg as [Hg ->].
  destruct (_ || _); [by repeat run_step|].
  apply run_bind in Hrun as ([] & w8 & Hi & Hrun). apply run_check in Hi as [Hi ->].
  split_bools. eapply joins_register; [exact Hrow| | |exact Hrun].
  { unfold is_member_kind. by rewrite H. }
  intros Hst ws. destruct (find_by_some _ _ _ _ Hrow) as [_ Hid].
  unfold issued_open, claimed_state in *. split_bools.
  destruct (en_method row =d EmDirectInvite) eqn:Hm; [|done]. split_bools.
  split_and!; auto using secret_known.
Qed.

Definition leaves : relation db := fun d d' => forall ws u r, member d' ws u r -> member d ws u r.
#[local] Instance leaves_preorder : PreOrder leaves.
Proof. split; [by intros d ws u r|]. intros d1 d2 d3 H12 H23 ws u r H. by apply H12, H23. Qed.
Lemma leaves_withdraw row stamp : respects leaves (withdraw_enrollment row stamp).
Proof.
  unfold withdraw_enrollment, revoke_sessions. solve_respects ltac:(first
    [ by intros ?
    | apply respects_update; intros d ws u r; apply member_same; done
    | apply respects_update; intros d ws u r (m & Hm & H); simpl in Hm;
      apply in_update in Hm as (y & Hy & [[_ ->]|[_ ->]]); [by destruct H as (_ & _ & _ & H)|by exists y] ]).
Qed.

Lemma joins_revoke i u w : effect (fun d => d) (joins (OpRevoke i u)) (revoke_enrollment i u) w.
Proof.
  assert (respects leaves (revoke_enrollment i u)) as H.
  { unfold revoke_enrollment. solve_respects ltac:(first
      [ apply leaves_withdraw
      | apply respects_now; typeclasses eauto
      | apply respects_update; intros d ws u0 r; apply member_same; done
      | apply respects_reads; [typeclasses eauto|solve [auto with reads]] ]). }
  intros ws u' r Hm. left. by apply (H w).
Qed.

Lemma calls_quiet :
  (forall u ws pool k m sc rel fp ttl, stable memberships (create_invite u ws pool k m sc rel fp ttl)) /\
  (forall u dv i ws pool k c sig rel, stable memberships (apply u dv i ws pool k c sig rel)) /\
  (forall i s rs re dv n ds de c, stable memberships (enroll_device i s rs re dv n ds de c)) /\
  (forall i s n sk ek, stable memberships (enroll_service i s n sk ek)) /\
  (forall u ws pool m n t v cap b rate ttl,
     stable memberships (create_worker_invite u ws pool m n t v cap b rate ttl)) /\
  (forall i s c sig, stable memberships (claim_worker_invite i s c sig)) /\
  (forall i u ok c p, stable memberships (decide_worker_enrollment i u ok c p)).
Proof.
  unfold create_invite, apply, enroll_device, enroll_service, claim_enrollment, create_worker_invite,
    claim_worker_invite, decide_worker_enrollment, approve_worker, decided, register_invited_worker,
    _initialize_worker_capability_state, _reconcile_bundled_bootstrap_authorizations, upsert_workflow_auth,
    upsert_model_auth. split_and!; solve_stable.
Qed.

(** C31: a membership is an owner's act.  Whatever an enrollment call returns or raises,
    a user who holds an active role after it and not before was admitted by one
    enrollment of that workspace, in the role its offer names (never owner): either an
    active owner of the workspace approved it while pending, or the call presented the
    secret of an unclaimed direct invite. *)
Theorem membership_needs_owner_or_invite op w ws u r :
  member (wd_db (after_call op w)) ws u r -> ~ member (wd_db w) ws u r ->
  exists e e', In e (enrollments (wd_db w)) /\ In e' (enrollments (wd_db (after_call op w))) /\
    admits e e' ws u r /\ r <> RoleOwner /\ authorized_by op (wd_db w) e ws.
Proof.
  intros Hm Hn.
  assert (joins op (wd_db w) (wd_db (after_call op w))) as H.
  { destruct calls_quiet as (Hi & Ha & Hd & Hs & Hwi & Hwc & Hwd). destruct op; cbn [after_call].
    - apply joins_same, Hi.
    - apply joins_same, Ha.
    - apply joins_claim.
    - apply joins_user.
    - apply joins_same, Hd.
    - apply joins_same, Hs.
    - apply joins_decide.
    - apply joins_revoke.
    - apply joins_same, Hwi.
    - apply joins_same, Hwc.
    - apply joins_same, Hwd. }
  destruct (H ws u r Hm) as [?|(e & e' & He & He' & Ha & Hauth)]; [done|].
  exists e, e'. split_and!; try done. destruct Ha as (_ & _ & -> & _).
  unfold member_role_of. by destruct (_ =d _).
Qed.

(** An activation writes the role over whatever row the user had. *)
Lemma activated_role row u i a stamp w x w' ws :
  _activate_enrollment row (Some u) i a stamp w = (Ok x, w') ->
  is_member_kind (en_kind row) = true -> truthy_id (en_workspace_id row) = Some ws -> u <> "" ->
  (exists r, member (wd_db w) ws u r) ->
  forall r, member (wd_db w') ws u r <-> r = member_role_of (en_relationship row).
Proof.
  intros Hrun Hk Hws Hu (r0 & m0 & Hm0 & <- & <- & _ & Hs0).
  assert (upsert_membership (mb_workspace_id m0) (mb_user_id m0) (member_role_of (en_relationship row)) stamp w
          = (Ok x, w')) as Hup.
  { unfold _activate_enrollment in Hrun. rewrite Hws in Hrun. simpl in Hrun.
    destruct (String.eqb_spec (mb_user_id m0) "") as [|_]; [done|]. by destruct (en_kind row). }
  unfold upsert_membership in Hup. apply run_bind in Hup as (b & w1 & Hq & Hup).
  apply run_query in Hq as [-> ->].
  assert (has_key member_key (memberships (wd_db w)) (mb_workspace_id m0, mb_user_id m0) = true) as Hex
    by (apply has_key_spec; by exists m0).
  rewrite Hex in Hup. repeat run_step; flat_db.
  intros r. unfold member. simpl. split.
  - intros (m & Hm & Hw & Hmu & <- & _). apply in_update in Hm as (y & _ & [[_ ->]|[Hn ->]]); [done|].
    unfold member_key in Hn. by rewrite Hw, Hmu, bool_decide_eq_true_2 in Hn.
  - intros ->. eexists. split; [apply in_update; exists m0; split; [done|]; left; split;
      [by apply bool_decide_eq_true_2|reflexivity]|done].
Qed.

(** An owner who claims an invite of the own workspace loses it.  The activation
    overwrites the owner's role with the invite's; afterwards the user is not an owner. *)
Theorem owner_claim_drops_ownership i s u dv fp c sig w v w' e ws :
  claim_invite i s u dv fp c sig w = (Ok v, w') ->
  find_by en_id i (enrollments (wd_db w)) = Some e -> en_state e = EsIssued -> en_method e = EmDirectInvite ->
  truthy_id (en_workspace_id e) = Some ws -> u <> "" -> member (wd_db w) ws u RoleOwner ->
  forall r, member (wd_db w') ws u r <-> r = member_role_of (en_relationship e).
Proof.
  unfold claim_invite, claim_enrollment. intros H He Hs Hm Hws Hu Howner.
  apply run_bind in H as (user & w1 & H1 & H). apply run_reads in H1 as ->; [|auto with reads].
  apply run_bind in H as (device & w1 & H1 & H). apply run_query in H1 as [_ ->].
  apply run_bind in H as (current & w1 & H1 & H). apply run_now in H1.
  apply run_bind in H as (matched & w2 & H2 & H). apply run_lift in H2 as [_ ->].
  apply run_bind in H as ([] & w2 & H2 & H). apply run_check in H2 as [_ ->].
  apply run_bind in H as (record & w2 & H2 & H). apply run_lift in H2 as [_ ->].
  apply run_bind in H as (stamp & w2 & H2 & H). apply run_now in H2. rewrite H1 in H2. clear H1 w1.
  apply run_bind in H as ([] & w3 & H & Hv). apply run_reads in Hv as ->; [|auto with reads].
  apply run_transaction in H.
  apply run_bind in H as (o & w1 & H1 & H). apply run_query in H1 as [-> ->].
  apply run_bind in H as (row & w1 & H1 & H). apply run_require in H1 as [Hrow ->].
  rewrite H2, He in Hrow. injection Hrow as <-.
  apply run_bind in H as ([] & w1 & H1 & H). apply run_check in H1 as [Hg ->].
  apply andb_true_iff in Hg as [[Hk _]%andb_true_iff _]. apply bool_decide_eq_true_1 in Hk.
  rewrite Hs in H. simpl in H.
  apply run_bind in H as ([] & w1 & H1 & H). apply run_check in H1 as [_ ->].
  unfold claimed_state in H. rewrite Hm in H. simpl in H.
  apply run_bind in H as ([] & w1 & H1 & H). repeat run_guard.
  match goal with Hup : sql_update _ _ _ _ = _ |- _ => apply run_update in Hup as [_ Hup] end.
  eapply activated_role; [exact H|by rewrite Hk|done..|].
  exists RoleOwner. eapply member_same; [|exact Howner]. by flat_db.
Qed.

(** ** Revocation *)

(** The principal can no longer act: it is not live and none of its sessions is. *)
Definition locked_out (d : db) (principal_type : principal) (principal_id : string) : Prop :=
  live_subject d principal_type principal_id = None /\
  forall s, In s (sessions d) -> ss_principal_type s = principal_type ->
    ss_principal_id s = principal_id -> ss_revoked_at s <> None.

(** What an active enrollment gave is gone. *)
Definition withdrawn (d : db) (e : enrollment_row) : Prop :=
  match en_kind e with
  | EkUser | EkWorkspaceMember => forall ws u r,
      truthy_id (en_workspace_id e) = Some ws -> truthy_id (en_subject_user_id e) = Some u ->
      member d ws u r -> r = RoleOwner
  | EkBrokerDevice => forall i, truthy_id (en_subject_id e) = Some i -> locked_out d PDevice i
  | EkService => forall i, truthy_id (en_subject_id e) = Some i -> locked_out d PService i
  | EkWorkerAllocation => forall i pool a,
      truthy_id (en_subject_id e) = Some i -> truthy_id (en_pool_id e) = Some pool ->
      In a (worker_allocations d) -> al_worker_id a = i -> al_pool_id a = pool -> al_status a = AlRevoked
  | EkWorker => True
  end.

(** A row that satisfies [q] was not selected by [p], when [f] falsifies [q]. *)
Lemma update_clears {R} (p q : R -> bool) (f : R -> R) l x :
  In x (update p f l) -> q x = true -> (forall y, p y = true -> q (f y) = false) ->
  In x l /\ p x = false.
Proof.
  intros (y & Hy & [[Hp ->]|[Hp ->]])%in_update Hq Hf; [|done]. by rewrite (Hf y Hp) in Hq.
Qed.

Lemma none_live {R} (p q : R -> bool) (f : R -> R) l :
  (forall y, q (f y) = false) -> (forall y, q y = true -> p y = true) -> head (select q (update p f l)) = None.
Proof.
  intros Hf Hqp. destruct (head _) as [x|] eqn:Hx; [|done]. apply head_select_some in Hx as [Hin Hq].
  apply (update_clears _ q) in Hin as [_ Hp]; [|done..]. by rewrite (Hqp x Hq) in Hp.
Qed.

Lemma members_withdrawn ws u stamp d r :
  member (modify memberships (update (fun m => (mb_workspace_id m =d ws) && (mb_user_id m =d u) &&
      negb (mb_role m =d RoleOwner)) (fun m => m <| mb_status := SRevoked |> <| mb_revoked_at := Some stamp |>)) d)
    ws u r -> r = RoleOwner.
Proof.
  intros (m & Hm & Hws & Hu & <- & Hs). simpl in Hm.
  apply (update_clears _ (fun m => mb_status m =d SActive)) in Hm as [_ Hp]; [|by rewrite Hs|done].
  rewrite !bool_decide_eq_true_2 in Hp by done. simpl in Hp. by split_bools.
Qed.

Lemma sessions_cut pt i stamp (d : db) s :
  In s (update (fun s => (ss_principal_type s =d pt) && (ss_principal_id s =d i) && (ss_revoked_at s =d None))
          (fun s => s <| ss_revoked_at := Some stamp |>) (sessions d)) ->
  ss_principal_type s = pt -> ss_principal_id s = i -> ss_revoked_at s <> None.
Proof.
  intros Hs Hpt Hi Hn. apply (update_clears _ (fun s => ss_revoked_at s =d None)) in Hs as [_ Hp];
    [|by rewrite Hn|done]. by rewrite !bool_decide_eq_true_2 in Hp by done.
Qed.

Lemma withdraw_run row stamp w x w' :
  withdraw_enrollment row stamp w = (Ok x, w') -> withdrawn (wd_db w') row.
Proof.
  unfold withdraw_enrollment, withdrawn, revoke_sessions, locked_out. intros H.
  destruct (en_kind row); [| |done| | |]; intros i; intros.
  all: repeat match goal with Ht : truthy_id ?o = Some _ |- _ => rewrite Ht in H; clear Ht end.
  all: repeat run_step; flat_db.
  1, 4: by eapply members_withdrawn.
  1, 2: split; [|by eapply sessions_cut]; simpl; rewrite none_live; [done| |]; intros; split_bools;
        rewrite ?bool_decide_eq_true_2 by done; try done; simpl; by rewrite andb_false_r.
  simpl in *. match goal with Ha : In _ _ |- _ => apply in_update in Ha as (y & _ & [[_ ->]|[Hp ->]]) end; [done|].
  by rewrite !bool_decide_eq_true_2 in Hp by done.
Qed.

Lemma withdrawn_later row f d : withdrawn d row -> withdrawn (modify enrollments f d) row.
Proof. done. Qed.

(** Revocation withdraws what the enrollment gave.  When an active enrollment is
    revoked, the member is no longer active in the workspace unless as its owner, the
    allocation is revoked, and a device or service is locked out: it is not live, no
    session of it is open, and no request is authenticated as it. *)
Theorem revocation_withdraws enrollment_id admin w v w' e :
  revoke_enrollment enrollment_id admin w = (Ok v, w') ->
  find_by en_id enrollment_id (enrollments (wd_db w)) = Some e -> en_state e = EsActive ->
  withdrawn (wd_db w') e /\
  (forall vm pre token method path body headers p w2 i,
     current_principal vm pre token method path body headers w' = (Ok p, w2) ->
     truthy_id (en_subject_id e) = Some i -> pr_principal_id p = i ->
     match en_kind e with
     | EkBrokerDevice => pr_principal_type p <> PDevice
     | EkService => pr_principal_type p <> PService
     | _ => True
     end).
Proof.
  intros Hrun He Hs.
  assert (withdrawn (wd_db w') e) as Hw.
  { unfold revoke_enrollment in Hrun. apply run_bind in Hrun as (stamp & w1 & Hn & Hrun).
    apply run_now in Hn. apply run_bind in Hrun as ([] & w2 & Ht & Hv). apply run_transaction in Ht.
    assert (w' = w2) as -> by (apply run_reads in Hv; auto with reads). clear Hv.
    apply run_bind in Ht as (o & w3 & Hq & Ht). apply run_query in Hq as [-> ->].
    apply run_bind in Ht as (row & w3 & Hq & Ht). apply run_require in Hq as [Hrow ->].
    rewrite Hn, He in Hrow. injection Hrow as <-. apply run_bind in Ht as ([] & w3 & _ & Ht).
    rewrite Hs in Ht. simpl in Ht. repeat run_guard.
    match goal with H : sql_update _ _ _ _ = _ |- _ => apply run_update in H as [_ ->] end.
    apply withdrawn_later. by eapply withdraw_run. }
  split; [done|]. intros vm pre token method path body headers p w2 i Hp Hi <-.
  apply principal_subject in Hp. unfold withdrawn in Hw.
  destruct (en_kind e); try done; intros Hpt; destruct (Hw _ Hi) as [Hl _]; congruence.
Qed.

(** ** New devices *)

(** A signature of [key] over the canonical text of [message], both as sent. *)
Definition proved (key signature : string) (message : json) (context : string) : Prop :=
  exists pk sig text, b64url_decode key (Some 32) = Ok pk /\ b64url_decode signature (Some 64) = Ok sig /\
    canonical_json message = Ok text /\ ed_verify pk sig (encode context ++ [Byte.x00] ++ text) = true.

Lemma verify_proof_run key signature message context :
  verify_proof key signature message context = Ok true -> proved key signature message context.
Proof.
  unfold verify_proof, proved. intros H.
  destruct (b64url_decode key (Some 32)) as [pk|[]]; try discriminate H.
  destruct (canonical_json message) as [text|[]]; try discriminate H.
  destruct (b64url_decode signature (Some 64)) as [sig|[]]; try discriminate H.
  exists pk, sig, text. split_and!; try done. apply verify_run.
  cbn in H. destruct (verify_message _ _ _ _) as [b|[]]; try discriminate H. exact H.
Qed.

(** The repository's part: the invite is open and its secret known, the root belongs to
    an active user, and only a direct invite stores the device. *)
Lemma enroll_device_run i s rs re dv n ds de c w user device v w' :
  enroll_device i s rs re dv n ds de c w = (Ok (user, device, v), w') ->
  exists invite owner,
    find_by en_id i (enrollments (wd_db w)) = Some invite /\ en_kind invite = EkBrokerDevice /\
    en_state invite = EsIssued /\ en_invite_secret_hash invite = Some (sha256_hex s) /\
    In owner (users (wd_db w)) /\ u_status owner = UActive /\ u_root_signing_public_key owner = rs /\
    u_root_encryption_public_key owner = re /\
    (exists e', In e' (enrollments (wd_db w')) /\ en_id e' = i /\ en_subject_user_id e' = Some (u_id owner) /\
       en_subject_id e' = Some dv /\ en_state e' = claimed_state invite) /\
    (if en_method invite =d EmDirectInvite
     then exists row, devices (wd_db w') = devices (wd_db w) ++ [row] /\ dv_id row = dv /\
       dv_user_id row = u_id owner /\ dv_signing_public_key row = ds /\ dv_encryption_public_key row = de
     else devices (wd_db w') = devices (wd_db w)).
Proof.
  unfold enroll_device, claim_enrollment. intros H.
  apply run_bind in H as (stamp & w1 & Hn & H). apply run_now in Hn. rewrite <- Hn. clear Hn.
  apply run_bind in H as ([uid st] & w2 & Ht & H). apply run_transaction in Ht.
  assert (w' = w2) as -> by (refine (run_reads _ _ _ _ _ H); solve_reads_match). clear H.
  repeat run_guard. split_bools.
  match goal with H : head _ = Some _ |- _ => apply head_select_some in H as [Hin Hu] end.
  match goal with H : find_by _ _ _ = Some _ |- _ => pose proof H as Hrow end.
  unfold issued_open in *. split_bools.
  repeat match goal with
    | H : sql_update _ _ _ _ = _ |- _ => apply run_update in H as [_ H]
    | H : String.eqb _ _ = true |- _ => apply String.eqb_eq in H; subst
    end.
  destruct (find_by_some _ _ _ _ Hrow) as [_ Hid].
  eexists _, _. do 4 (split; [eassumption|]). split; [exact Hin|].
  unfold claimed_state in *. destruct (en_method _ =d EmDirectInvite) eqn:Hm; simpl in *;
    [match goal with H : sql_insert _ _ _ _ = _ |- _ => apply run_insert in H as [_ H] end|run_guard].
  all: flat_db; split_bools; split_and!; try done.
  all: try (eexists; split; [simpl; by apply written_row|done]).
  by eexists.
Qed.

(** A device joins a user only under the user's root key.  When the enrollment of a
    device succeeds, the invite was open and its secret presented, an active user owns the
    root key, the root signed a certificate of exactly the device's identifier and keys,
    and the device proved its key over the invite; the device is stored with these keys
    only under a direct invite, and is bound to the invite in every case. *)
Theorem device_joins_under_root q w user device v w' :
  enroll_device_route q w = (Ok (user, device, v), w') ->
  exists signing encryption invite owner current,
    chain_valid (de_device_id q) (JObj (de_device_certificate q)) (de_root_signing_public_key q)
      signing encryption current = Ok true /\
    proved signing (de_proof_signature q) (JObj (device_proof q)) "vgen-device-enrollment-v1" /\
    find_by en_id (de_invite_id q) (enrollments (wd_db w)) = Some invite /\
    en_kind invite = EkBrokerDevice /\ en_state invite = EsIssued /\
    en_invite_secret_hash invite = Some (sha256_hex (de_secret q)) /\
    In owner (users (wd_db w)) /\ u_status owner = UActive /\
    u_root_signing_public_key owner = de_root_signing_public_key q /\
    u_root_encryption_public_key owner = de_root_encryption_public_key q /\
    (exists e', In e' (enrollments (wd_db w')) /\ en_id e' = de_invite_id q /\
       en_subject_user_id e' = Some (u_id owner) /\ en_subject_id e' = Some (de_device_id q) /\
       en_state e' = claimed_state invite) /\
    (if en_method invite =d EmDirectInvite
     then exists row, devices (wd_db w') = devices (wd_db w) ++ [row] /\ dv_id row = de_device_id q /\
       dv_user_id row = u_id owner /\ dv_signing_public_key row = signing /\
       dv_encryption_public_key row = encryption
     else devices (wd_db w') = devices (wd_db w)).
Proof.
  unfold enroll_device_route. intros H.
  apply run_bind in H as (signing & w1 & H1 & H). apply run_lift in H1 as [_ ->].
  apply run_bind in H as (encryption & w1 & H1 & H). apply run_lift in H1 as [_ ->].
  apply run_bind in H as ([] & w1 & Hc & H). apply chain_run in Hc as (Hdb & _ & Hc).
  apply run_bind in H as (ok & w2 & Hp & H). apply run_lift in Hp as [Hp ->].
  apply run_bind in H as ([] & w2 & Hok & H). apply run_check in Hok as [-> ->].
  apply enroll_device_run in H as (invite & owner & H). rewrite Hdb in H.
  exists signing, encryption, invite, owner, (clock (wd_ticks w) / 1000000).
  split; [exact Hc|]. split; [by apply verify_proof_run|exact H].
Qed.
End Operations.

(** ** A member joins by invite, applies and is approved, and is revoked *)

Module Guests.
#[local] Existing Instance Auth.Logins.reading_env.
Import Auth.Logins.

Definition host : user_row := Mk_user_row "usr_0" "Host" "host-root" "host-enc" UActive false 0 0.
Definition space : workspace_row :=
  Mk_workspace_row "ws_1" "Studio" "usr_0" None
    (JDoc (JObj [("workspace_member", JStr "apply_approval")])) 1 SpActive 0 0.
Definition opened : world :=
  MkWorld ((wd_db start) <| users := [host; owner <| u_root_encryption_public_key := key_text root |>] |>
             <| workspaces := [space] |>
             <| memberships := [Mk_membership_row "ws_1" "usr_0" RoleOwner SActive 0 None] |>) 0 0.

(** The host's direct invite for an admin, claimed by the guest's device. *)
Definition invite : enrollment_op :=
  OpInvite "usr_0" (Some "ws_1") None EkWorkspaceMember EmDirectInvite [] (Some "admin") None 3600.
Definition invited : world := Eval vm_compute in after_call invite opened.
Definition claim : dict :=
  Eval vm_compute in
    match root_signing_key_id (ed_public root) with
    | Ok k => build_user_registration_claim "inv_0" "Guest" k (key_text root) (key_text root) first_id "first"
                (key_text first_key) (b64url_encode (be_bytes 32 7)) first_certificate
    | Raise _ => []
    end.
Definition proof : string :=
  Eval vm_compute in match sign_user_registration_claim first_key claim with Ok s => s | Raise _ => "" end.
Definition claiming : enrollment_op := OpClaim "inv_0" "1" "usr_1" first_id "fp" claim proof.
Definition joined : world := Eval vm_compute in after_call claiming invited.
Definition revoked : world := Eval vm_compute in after_call (OpRevoke "inv_0" "usr_0") joined.

Lemma opened_distinct : NoDup (map en_id (enrollments (wd_db opened))).
Proof. constructor. Qed.
Lemma joined_distinct : NoDup (map en_id (enrollments (wd_db joined))).
Proof. apply NoDup_singleton. Qed.

Definition member_row : enrollment_row :=
  Eval vm_compute in
    default (Mk_enrollment_row "" EkWorker EmDirectInvite EsIssued None None None None None None (JDoc JNull)
               None None None None None None None 0 0) (head (enrollments (wd_db joined))).
Definition revoked_row : enrollment_row :=
  Eval vm_compute in default member_row (head (enrollments (wd_db revoked))).

Lemma claimed : after_call claiming invited = joined.
Proof. vm_compute. reflexivity. Qed.
Lemma history : foldl (fun w op => after_call op w) opened [invite; claiming] = joined.
Proof. vm_compute. reflexivity. Qed.
Lemma history_end : foldl (fun w op => after_call op w) joined [OpRevoke "inv_0" "usr_0"] = revoked.
Proof. vm_compute. reflexivity. Qed.

Lemma enrollments_follow_lifecycle_witness :
  exists e0, born e0 /\ rtc row_step e0 member_row.
Proof.
  pose proof (enrollments_follow_lifecycle [invite; claiming] opened opened_distinct) as H.
  cbv zeta in H. rewrite history in H. destruct H as (_ & _ & H).
  destruct (H member_row (or_introl eq_refl)) as (e & [[]|Hb] & Hp). exists e. exact (conj Hb Hp).
Defined.

Lemma claimed_enrollment_is_bound_witness : claim_of revoked_row = claim_of member_row.
Proof.
  pose proof (claimed_enrollment_is_bound [OpRevoke "inv_0" "usr_0"] joined member_row revoked_row
    joined_distinct (or_introl eq_refl)) as H. rewrite history_end in H.
  refine (proj1 (proj2 (H _ (or_introl eq_refl) eq_refl))). discriminate.
Defined.

Lemma guest_joined : member (wd_db joined) "ws_1" "usr_1" RoleAdmin.
Proof. eexists. split; [right; left; reflexivity|]. repeat split. Qed.
Lemma guest_was_not : ~ member (wd_db invited) "ws_1" "usr_1" RoleAdmin.
Proof. intros (m & [<-|[]] & _ & Hu & _). discriminate Hu. Qed.

Lemma membership_needs_owner_or_invite_witness :
  exists e, In e (enrollments (wd_db invited)) /\ en_invite_secret_hash e = Some (sha256_hex "1").
Proof.
  pose proof (membership_needs_owner_or_invite claiming invited "ws_1" "usr_1" RoleAdmin) as H.
  rewrite claimed in H. destruct (H guest_joined guest_was_not) as (e & e' & He & _ & _ & _ & _ & _ & _ & Hs).
  exists e. exact (conj He Hs).
Defined.

Definition revoked_view : enrollment_view :=
  Eval vm_compute in
    match fst (revoke_enrollment "inv_0" "usr_0" joined) with
    | Ok v => v
    | Raise _ => MkEnrollment member_row JNull None None
    end.
Lemma guest_revoked : revoke_enrollment "inv_0" "usr_0" joined = (Ok revoked_view, revoked).
Proof. vm_compute. reflexivity. Qed.

Lemma revocation_withdraws_witness : ~ member (wd_db revoked) "ws_1" "usr_1" RoleAdmin.
Proof.
  intros Hm. destruct (revocation_withdraws "inv_0" "usr_0" joined revoked_view revoked member_row
    guest_revoked eq_refl eq_refl) as [Hw _]. discriminate (Hw "ws_1" "usr_1" RoleAdmin eq_refl eq_refl Hm).
Defined.

(** A second device of the guest joins under the guest's root. *)
Definition device_invited : world :=
  Eval vm_compute in snd (create_invite "usr_0" (Some "ws_1") None EkBrokerDevice EmDirectInvite [] None None
    3600 opened).
Definition device_request : DeviceEnrollmentRequest :=
  Eval vm_compute in
    let q sig := MkDeviceEnrollment "inv_0" "1" (key_text root) (key_text root) third_id "Spare" None None
                   third_certificate sig in
    match (text ← canonical_json (JObj (device_proof (q "")));
           sign_message third_key text (encode "vgen-device-enrollment-v1")) with
    | Ok sig => q (b64url_encode sig)
    | Raise _ => q ""
    end.
Definition device_joined : world := Eval vm_compute in snd (enroll_device_route device_request device_invited).
Definition device_answer : user_row * option device_row * enrollment_view :=
  Eval vm_compute in
    match fst (enroll_device_route device_request device_invited) with
    | Ok v => v
    | Raise _ => (host, None, revoked_view)
    end.
Lemma device_enrolled : enroll_device_route device_request device_invited = (Ok device_answer, device_joined).
Proof. vm_compute. reflexivity. Qed.

Lemma device_joins_under_root_witness :
  exists owner, In owner (users (wd_db device_invited)) /\ u_root_signing_public_key owner = key_text root.
Proof.
  destruct (device_joins_under_root device_request device_invited device_answer.1.1 device_answer.1.2
    device_answer.2 device_joined device_enrolled)
    as (sk & ek & inv & owner & t & _ & _ & _ & _ & _ & _ & Hin & _ & Hk & _).
  exists owner. exact (conj Hin Hk).
Defined.

(** The guest, now the owner, claims the same invite. *)
Definition own_invite : world :=
  Eval vm_compute in MkWorld ((wd_db invited)
    <| memberships := [Mk_membership_row "ws_1" "usr_1" RoleOwner SActive 0 None] |>) 1 2.
Definition own_claim : world := Eval vm_compute in after_call claiming own_invite.
Definition own_view : enrollment_view :=
  Eval vm_compute in
    match fst (claim_invite "inv_0" "1" "usr_1" first_id "fp" claim proof own_invite) with
    | Ok v => v
    | Raise _ => revoked_view
    end.
Lemma owner_claimed :
  claim_invite "inv_0" "1" "usr_1" first_id "fp" claim proof own_invite = (Ok own_view, own_claim).
Proof. vm_compute. reflexivity. Qed.
Lemma guest_owns : member (wd_db own_invite) "ws_1" "usr_1" RoleOwner.
Proof. eexists. split; [left; reflexivity|]. repeat split. Qed.
Definition own_row : enrollment_row :=
  Eval vm_compute in default member_row (head (enrollments (wd_db own_invite))).

Lemma owner_claim_drops_ownership_witness : ~ member (wd_db own_claim) "ws_1" "usr_1" RoleOwner.
Proof.
  intros Hm. apply (owner_claim_drops_ownership "inv_0" "1" "usr_1" first_id "fp" claim proof own_invite
    own_view own_claim own_row "ws_1" owner_claimed eq_refl eq_refl eq_refl eq_refl ltac:(discriminate)
    guest_owns) in Hm. discriminate Hm.
Defined.
End Guests.
