(* ===== verification/Rotation.v ===== *)
(** * Workspace keys reach exactly the admitted members

    What the verified recipient set of a workspace holds, and what a rotation and a
    grant store: one envelope for each recovery key and device of the active members,
    each under an admission signed by the owner's root, and none for anyone else. *)

From S2P Require Import Prelude Python Bytes Errors Schema Store Access Framing Capability Encoding.
From S2P Require Import Signing Grants Maintenance Invariant Lifecycle Requests Sessions Auth Enrollment.
From S2P Require Import Departure Envelope Recipients.

Open Scope Z_scope.

Lemma Forall2_in_l {A B} (P : A -> B -> Prop) xs ys x :
  Forall2 P xs ys -> In x xs -> exists y, In y ys /\ P x y.
Proof. induction 1 as [|a b xs ys Hp _ IH]; [done|]. intros [<-|Hx]; [|destruct (IH Hx) as (y & ? & ?)]; simpl; eauto. Qed.
Lemma Forall2_in_r {A B} (P : A -> B -> Prop) xs ys y :
  Forall2 P xs ys -> In y ys -> exists x, In x xs /\ P x y.
Proof. induction 1 as [|a b xs ys Hp _ IH]; [done|]. intros [<-|Hy]; [|destruct (IH Hy) as (x & ? & ?)]; simpl; eauto. Qed.

Section Keys.
Context {E : Env}.

(** ** Signed manifests and admissions *)

(** The root's signature over a manifest. *)
Definition manifest_signed (root : bytes) (manifest : dict) : Prop :=
  exists t signature, canonical_json (JObj manifest) = Ok t /\
    ed_verify root signature (MANIFEST_CONTEXT ++ [Byte.x00] ++ t) = true.

Lemma key_manifest_run signed root manifest :
  verify_key_manifest signed root = Ok true -> jget "manifest" signed = Some (JObj manifest) ->
  manifest_signed root manifest.
Proof.
  unfold verify_key_manifest. destruct (negb _); [done|].
  destruct (manifest_parts signed root) as [[[payload signature]|]|[]] eqn:Hp; try done.
  intros (t & Ht & Hv)%res_bind_ok Hm. exists t, signature.
  unfold manifest_parts, jitem in Hp. rewrite Hm in Hp. cbn in Hp.
  repeat apply res_bind_ok in Hp as (? & _ & Hp). injection Hp as Hp.
  destruct (json_is _ _); [|done]. injection Hp as <- _. split; [done|]. by apply verify_run.
Qed.

(** The owner of the workspace signed, under the root key the gateway holds, a manifest
    that names the workspace, the user and the user's root keys. *)
Definition owner_admits (d : db) (workspace_id : string) (user : user_row) : Prop :=
  exists owner root manifest,
    workspace_owner d workspace_id = Some owner /\
    b64url_decode (u_root_signing_public_key owner) (Some 32) = Ok root /\ manifest_signed root manifest /\
    jget_or "workspace_id" JNull manifest = JStr workspace_id /\
    jget_or "owner_user_id" JNull manifest = JStr (u_id owner) /\
    jget_or "subject_user_id" JNull manifest = JStr (u_id user) /\
    jget_or "root_signing_public_key" JNull manifest = JStr (u_root_signing_public_key user) /\
    jget_or "root_encryption_public_key" JNull manifest = JStr (u_root_encryption_public_key user).

(** An accepted admission is signed, and its manifest repeats the claim's root keys. *)
Lemma admission_run signed root_key ws owner subject enrollment claim :
  verify_workspace_recipient_admission signed root_key ws owner (Some subject) enrollment = Ok true ->
  (forall manifest, jget "manifest" signed = Some (JObj manifest) ->
     jget_or "registration_claim" JNull manifest = JObj claim) ->
  exists root manifest, b64url_decode root_key (Some 32) = Ok root /\ manifest_signed root manifest /\
    jget_or "workspace_id" JNull manifest = JStr ws /\ jget_or "owner_user_id" JNull manifest = JStr owner /\
    jget_or "subject_user_id" JNull manifest = JStr subject /\
    forall k s, In k ["root_signing_public_key"; "root_encryption_public_key"] ->
      jget_or k JNull claim = JStr s -> jget_or k JNull manifest = JStr s.
Proof.
  unfold verify_workspace_recipient_admission. intros H Hclaim.
  destruct (check_recipient_admission _ _ _ _ _ _) as [b|[]] eqn:Hc; try discriminate H.
  injection H as ->. unfold check_recipient_admission in Hc. destruct (negb _); [done|].
  apply res_bind_ok in Hc as (root & Hroot & H). exists root.
  unfold jget_or in H at 1. destruct (jget "manifest" signed) as [[| | | | | |manifest]|] eqn:Hm; try done.
  exists manifest. specialize (Hclaim _ eq_refl). destruct (negb _); [done|]. rewrite Hclaim in H.
  destruct (jget_or "registration_proof_signature" JNull _) as [| | | |proof| |]; try done.
  apply res_bind_ok in H as (certificate & _ & H). apply res_bind_ok in H as (signed_ok & Hs & H).
  apply res_bind_ok in H as (owner_key & _ & H). apply res_bind_ok in H as (claim_digest & _ & H).
  apply res_bind_ok in H as (cert_digest & _ & H). destruct (negb _) eqn:Hb; [done|]. clear H.
  unfold admission_binds in Hb. cbv zeta in Hb. split_bools. subst.
  split; [done|]. split; [by eapply key_manifest_run|].
  unfold unless_none in *. rewrite json_is_spec in *. split_and!; try done.
  intros k s [<-|[<-|[]]] Hk; rewrite Hk in *; by apply json_is_spec.
Qed.

Lemma active_user_some d i user :
  active_user d i = Some user -> In user (users d) /\ u_id user = i /\ u_status user = UActive.
Proof. intros [Hin H]%head_select_some. by split_bools. Qed.

Lemma subject_binds_run o device claim :
  subject_binds o device claim = Ok true -> exists user, o = Some user /\
    jget_or "root_signing_public_key" JNull claim = JStr (u_root_signing_public_key user) /\
    jget_or "root_encryption_public_key" JNull claim = JStr (u_root_encryption_public_key user).
Proof.
  unfold subject_binds. destruct o as [user|], device as [device|]; try done.
  destruct (negb _) eqn:Hb; [done|]. intros _. split_bools. rewrite json_is_spec in *. eauto.
Qed.

Lemma load_admission_run row owner ws subject signed manifest claim proof :
  load_admission row owner ws subject = Ok (true, signed, manifest, JObj claim, proof) ->
  verify_workspace_recipient_admission signed (u_root_signing_public_key owner) ws (u_id owner)
    (Some subject) None = Ok true /\
  forall m, jget "manifest" signed = Some (JObj m) -> jget_or "registration_claim" JNull m = JObj claim.
Proof.
  unfold load_admission. intros (v & _ & H)%res_bind_ok. apply res_bind_ok in H as (m & _ & H).
  apply res_bind_ok in H as (key & _ & H). apply res_bind_ok in H as (valid & Hv & H).
  apply res_bind_ok in H as (c & Hc & H). apply res_bind_ok in H as (p & _ & H).
  injection H as -> <- <- -> <-. split; [exact Hv|]. intros m' [= <-].
  unfold jitem in Hc. unfold jget_or. destruct (jget "registration_claim" m); [|done]. by injection Hc.
Qed.

Lemma verified_admission_run d ws subject adm :
  _verified_workspace_admission d ws subject = Ok adm ->
  exists user, active_user d subject = Some user /\ owner_admits d ws user /\
    jget_or "root_signing_public_key" JNull (ad_claim adm) = JStr (u_root_signing_public_key user).
Proof.
  unfold _verified_workspace_admission.
  destruct (workspace_owner d ws) as [owner|] eqn:Ho; [|done].
  destruct (stored_admission d ws subject) as [row|]; [|done]. destruct (negb _); [done|].
  intros ([[[[valid signed] manifest] claim] proof] & Hl & H)%res_bind_ok.
  apply res_bind_ok in H as (c & Hc & H). apply res_bind_ok in H as (bound & Hb & H).
  apply res_bind_ok in H as (bound' & Hb' & H). destruct bound'; [|done].
  apply res_bind_ok in H as (digest & _ & [= <-]). cbn [ad_claim].
  destruct bound; [|done]. destruct valid; [|done].
  destruct claim; try done. injection Hc as ->.
  assert (load_admission row owner ws subject = Ok (true, signed, manifest, JObj c, proof)) as Hload.
  { destruct (load_admission _ _ _ _) as [?|[]]; congruence. }
  apply load_admission_run in Hload as [Hv Hm]. apply subject_binds_run in Hb as (user & Hu & Hs & He).
  exists user. destruct (active_user_some _ _ _ Hu) as (_ & <- & _).
  destruct (admission_run _ _ _ _ _ _ _ Hv Hm) as (root & m & Hr & Hsig & Hws & How & Hsub & Hk).
  split; [done|]. split; [|done]. exists owner, root, m.
  split_and!; try done; apply Hk; try done; [by left|by right; left].
Qed.

(** ** The recipient set *)

Lemma collect_run {A B} (Q : db -> A -> B -> Prop) (body : A -> M B) xs w ys w' :
  (forall x w y w', body x w = (Ok y, w') -> wd_db w' = wd_db w /\ Q (wd_db w) x y) ->
  for_collect xs body w = (Ok ys, w') -> wd_db w' = wd_db w /\ Forall2 (Q (wd_db w)) xs ys.
Proof.
  intros Hb. revert w ys. induction xs as [|x xs IH]; intros w ys H; cbn [for_collect] in H.
  { apply run_ret in H as [-> ->]. split; [done|constructor]. }
  apply run_bind in H as (y & w1 & Hy & H). apply run_bind in H as (rest & w2 & Hr & H).
  apply run_ret in H as [-> ->]. apply Hb in Hy as [Hd Hq]. apply IH in Hr as [Hd' Hf].
  rewrite Hd in *. split; [done|]. by constructor.
Qed.

Lemma make_recipient_run type id subject key adm cert r :
  make_recipient type id subject key adm cert = Ok r ->
  rp_type r = type /\ rp_id r = id /\ rp_subject_user_id r = subject /\ rp_encryption_public_key r = key /\
  rp_admission r = adm.
Proof.
  unfold make_recipient. intros (raw & _ & H)%res_bind_ok. apply res_bind_ok in H as (c & _ & H).
  apply res_bind_ok in H as (b & _ & [= <-]). done.
Qed.

(** The root that the user's admission names signed a certificate of the device's
    identifier and keys, valid at some reading of the clock. *)
Definition device_chained (user : user_row) (device : device_row) : Prop :=
  exists root n c, b64url_decode (u_root_signing_public_key user) (Some 32) = Ok root /\
    recipient_chain device root (clock n / 1000000) = Ok (true, c).

(** What a member's recipients are. *)
Definition recovery_of (user : user_row) (r : recipient) : Prop :=
  rp_type r = "user_recovery" /\ rp_id r = u_id user /\
  rp_encryption_public_key r = u_root_encryption_public_key user.
Definition device_of (user : user_row) (device : device_row) (r : recipient) : Prop :=
  rp_type r = "device" /\ rp_id r = dv_id device /\
  rp_encryption_public_key r = dv_encryption_public_key device /\ device_chained user device.

Definition devices_of (d : db) (user : user_row) : list device_row :=
  order_by (fun x y => str_leb (dv_id x) (dv_id y))
    (select (fun v => (dv_user_id v =d u_id user) && (dv_status v =d SActive)) (devices d)).

Lemma device_recipient_run user adm root device w r w' :
  b64url_decode (u_root_signing_public_key user) (Some 32) = Ok root ->
  device_recipient (u_id user) adm root device w = (Ok r, w') ->
  wd_db w' = wd_db w /\ device_of user device r.
Proof.
  unfold device_recipient. intros Hroot H. apply run_bind in H as (t & w1 & Hn & H).
  unfold now in Hn. injection Hn as <- <-. apply run_bind in H as ([ok c] & w1 & Hc & H).
  apply run_lift in Hc as [Hc ->]. apply run_bind in H as ([] & w1 & Hok & H).
  apply run_check in Hok as [Hok ->]. apply run_lift in H as [Hr ->]. simpl in Hok, Hr. subst ok.
  apply make_recipient_run in Hr as (? & ? & _ & ? & _). split; [done|]. split_and!; try done.
  by exists root, (wd_ticks w), c.
Qed.

(** The members' rows, and each member's group of recipients. *)
Definition members_of (d : db) (workspace_id : string) : list user_row :=
  order_by (fun x y => str_leb (u_id x) (u_id y))
    (active_members d (fun m => mb_workspace_id m =d workspace_id)).

Definition group_of (d : db) (workspace_id : string) (user : user_row) (l : list recipient) : Prop :=
  exists r rest known, l = r :: rest /\ active_user d (u_id user) = Some known /\
    owner_admits d workspace_id known /\ recovery_of user r /\
    Forall2 (device_of known) (devices_of d user) rest.

Lemma user_recipients_run ws user w l w' :
  user_recipients ws user w = (Ok l, w') -> wd_db w' = wd_db w /\ group_of (wd_db w) ws user l.
Proof.
  unfold user_recipients. intros H. apply run_bind in H as (o & w1 & Hq & H). apply run_query in Hq as [-> ->].
  apply run_bind in H as (adm & w1 & Ha & H). apply run_lift in Ha as [Ha ->].
  apply run_bind in H as (r & w1 & Hr & H). apply run_lift in Hr as [Hr ->].
  apply run_bind in H as (k & w1 & Hk & H). apply run_lift in Hk as [Hk ->].
  apply run_bind in H as (root & w1 & Hroot & H). apply run_lift in Hroot as [Hroot ->].
  apply run_bind in H as (owned & w1 & Hq & H). apply run_query in Hq as [-> ->].
  apply run_bind in H as (rest & w1 & Hc & H). apply run_ret in H as [-> ->].
  apply verified_admission_run in Ha as (known & Hu & Ho & Hc').
  destruct (active_user_some _ _ _ Hu) as (_ & Hid & _).
  assert (k = JStr (u_root_signing_public_key known)) as ->.
  { unfold jitem in Hk. unfold jget_or in Hc'. destruct (jget _ _); [|done]. congruence. }
  simpl in Hroot. rewrite <- Hid in Hc.
  apply (collect_run (fun _ => device_of known)) in Hc as [Hd Hf].
  2: { intros x w2 y w3 H. by eapply device_recipient_run. }
  apply make_recipient_run in Hr as (? & ? & _ & ? & _). split; [done|].
  exists r, rest, known. split_and!; try done. unfold devices_of. by rewrite <- Hid.
Qed.

Lemma recipient_set_run ws w l w' :
  _workspace_key_recipient_set ws w = (Ok l, w') -> wd_db w' = wd_db w /\
  exists groups, Forall2 (group_of (wd_db w) ws) (members_of (wd_db w) ws) groups /\
    forall r, In r l <-> In r (concat groups).
Proof.
  unfold _workspace_key_recipient_set. intros H. apply run_bind in H as (m & w1 & Hq & H).
  apply run_query in Hq as [-> ->]. apply run_bind in H as (groups & w1 & Hc & H).
  apply run_ret in H as [-> ->].
  apply (collect_run (fun d => group_of d ws)) in Hc as [Hd Hf]; [|intros *; apply user_recipients_run].
  split; [done|]. exists groups. split; [done|]. intros r. apply in_order_by.
Qed.

(** ** Who is entitled to the key *)

Definition member_of (d : db) (workspace_id : string) (user : user_row) : Prop :=
  In user (users d) /\ u_status user = UActive /\
  exists m, In m (memberships d) /\ mb_workspace_id m = workspace_id /\ mb_user_id m = u_id user /\
    mb_status m = SActive.

Definition active_device (d : db) (user : user_row) (device : device_row) : Prop :=
  In device (devices d) /\ dv_user_id device = u_id user /\ dv_status device = SActive.

Lemma members_spec d ws user : In user (members_of d ws) <-> member_of d ws user.
Proof.
  unfold members_of, active_members, member_of. rewrite in_order_by, in_flat_map. split.
  - intros (m & [Hm Hp]%in_select & [Hu Hq]%in_select). split_bools. eauto 10.
  - intros (Hu & Hs & m & Hm & Hw & Hmu & Hms). exists m. rewrite !in_select.
    rewrite !bool_decide_eq_true_2 by done. done.
Qed.

Lemma devices_spec d user device : In device (devices_of d user) <-> active_device d user device.
Proof.
  unfold devices_of, active_device. rewrite in_order_by, in_select. split.
  - intros [? ?]. by split_bools.
  - intros (? & ? & ?). split; [done|]. by rewrite !bool_decide_eq_true_2 by done.
Qed.

(** A recovery key of an admitted member, or a certified device of one. *)
Definition entitled (d : db) (workspace_id : string) (r : recipient) : Prop :=
  exists user, member_of d workspace_id user /\ owner_admits d workspace_id user /\
    (recovery_of user r \/ exists device, active_device d user device /\ device_of user device r).

(** Exactly the members' recovery keys and active devices. *)
Definition exact_set (d : db) (workspace_id : string) (l : list recipient) : Prop :=
  (forall r, In r l -> entitled d workspace_id r) /\
  (forall user, member_of d workspace_id user ->
     (exists r, In r l /\ recovery_of user r) /\
     (forall device, active_device d user device -> exists r, In r l /\ device_of user device r)).

Lemma group_exact d ws user l :
  NoDup (map u_id (users d)) -> member_of d ws user -> group_of d ws user l ->
  (forall r, In r l -> entitled d ws r) /\
  (exists r, In r l /\ recovery_of user r) /\
  (forall device, active_device d user device -> exists r, In r l /\ device_of user device r).
Proof.
  intros Hnd Hm (r & rest & known & -> & Hk & Ho & Hr & Hf).
  destruct (active_user_some _ _ _ Hk) as (Hin & Hid & _).
  assert (known = user) as -> by (eapply (NoDup_map_inj u_id); eauto; apply Hm).
  split_and!.
  - intros x [<-|Hx]; exists user; split_and!; auto. right.
    apply (Forall2_in_r _ _ _ _ Hf) in Hx as (device & Hd%devices_spec & Hx). by exists device.
  - exists r. split; [by left|done].
  - intros device Hd%devices_spec. destruct (Forall2_in_l _ _ _ _ Hf Hd) as (x & Hx & Hdx).
    exists x. split; [by right|done].
Qed.

Lemma recipient_set_exact ws w l w' :
  NoDup (map u_id (users (wd_db w))) -> _workspace_key_recipient_set ws w = (Ok l, w') ->
  wd_db w' = wd_db w /\ exact_set (wd_db w) ws l.
Proof.
  intros Hnd H. apply recipient_set_run in H as (Hd & groups & Hf & Hl). split; [done|]. split.
  - intros r Hr%Hl. apply in_concat in Hr as (g & Hg & Hr).
    apply (Forall2_in_r _ _ _ _ Hf) in Hg as (user & Hu%members_spec & Hg). by apply (group_exact _ _ _ _ Hnd Hu Hg).
  - intros user Hu. pose proof Hu as Hin. apply members_spec in Hin.
    destruct (Forall2_in_l _ _ _ _ Hf Hin) as (g & Hg & Hgo).
    destruct (group_exact _ _ _ _ Hnd Hu Hgo) as (_ & (r & Hr & Hrec) & Hdev).
    assert (forall x, In x g -> In x l) as Hsub by (intros x Hx; apply Hl, in_concat; eauto).
    split; [eauto|]. intros device Hd'. destruct (Hdev device Hd') as (x & Hx & ?). eauto.
Qed.

(** ** Rotation *)

(** A live envelope of a workspace key version. *)
Definition fresh_envelope (ws : string) (version : Z) (e : key_envelope_row) : Prop :=
  ke_workspace_id e = Some ws /\ ke_task_id e = None /\ ke_key_version e = version /\ ke_revoked_at e = None.

Lemma store_grants_run ws u v stamp grants rs w x w' :
  for_each rs (store_grant ws u v stamp grants) w = (Ok x, w') ->
  workspaces (wd_db w') = workspaces (wd_db w) /\
  exists new, key_envelopes (wd_db w') = key_envelopes (wd_db w) ++ new /\
    map envelope_pair new = map recipient_pair rs /\ Forall (fresh_envelope ws v) new.
Proof.
  revert w. induction rs as [|r rs IH]; intros w H; cbn [for_each] in H.
  { apply run_ret in H as [_ ->]. split; [done|]. exists []. by rewrite app_nil_r. }
  apply run_bind in H as ([] & w1 & Hs & H). apply IH in H as (Hw & new & Hn & Hp & Hf).
  unfold store_grant in Hs. repeat run_step. flat_db. rewrite Hw, Hn. simpl. split; [done|].
  eexists (_ :: new). rewrite <- app_assoc. split; [reflexivity|]. simpl. rewrite Hp. split; [done|].
  by constructor.
Qed.

Lemma head_select_update {R} (p q : R -> bool) (f : R -> R) l :
  (forall x, q (f x) = q x) ->
  head (select q (update p f l)) = option_map (fun x => if p x then f x else x) (head (select q l)).
Proof.
  intros Hq. induction l as [|x l IH]; [done|]. unfold select, update in *. simpl.
  destruct (p x) eqn:Hp; simpl; rewrite ?Hq; destruct (q x); simpl; rewrite ?Hp; auto.
Qed.

Lemma owner_run ws u w m w' :
  require_owner ws (Some u) w = (Ok m, w') -> w' = w /\ decider_role (wd_db w) ws u = Some RoleOwner.
Proof.
  unfold require_owner, require_member, membership. intros H.
  apply run_bind in H as (r & w1 & Hr & H). apply run_bind in Hr as (o & w2 & Hq & Hr).
  apply run_query in Hq as [-> ->]. apply run_require in Hr as [Hr ->].
  apply run_bind in H as ([] & w1 & Hc & H). apply run_check in Hc as [Hc ->]. apply run_ret in H as [-> ->].
  split; [done|]. unfold decider_role. destruct (truthy_id (Some u)) as [v|] eqn:Hv; [|done].
  apply (f_equal (fun o => match o with Some x => x | None => "" end)) in Hv as Hv'. simpl in Hv, Hv'.
  destruct (String.eqb u ""); [done|]. simpl in Hv'. subst v. rewrite Hr. split_bools. by rewrite Hc.
Qed.

(** The envelopes and the version the writing half of a rotation leaves. *)
Lemma rotation_writes ws user stamp expected version grants rs details s w n w' :
  active_workspace (wd_db w) ws = Some s -> ws_key_version s = expected ->
  (_ ← for_each rs (store_grant ws user version stamp grants);
   updated ← sql_update workspaces (fun s => (ws_id s =d ws) && (ws_key_version s =? expected) &&
                                             (ws_status s =d SpActive))
               (fun s => s <| ws_key_version := version |> <| ws_updated_at := stamp |>);
   _ ← check (updated =? 1) (key_unavailable "The Workspace key version changed during rotation.");
   _ ← audit "user" user (Some ws) "workspace.key_rotated" "workspace" ws details stamp;
   mret (M := M) (Z.of_nat (length rs), false)) w = (Ok n, w') ->
  n = (Z.of_nat (length rs), false) /\
  exists new s', key_envelopes (wd_db w') = key_envelopes (wd_db w) ++ new /\
    map envelope_pair new = map recipient_pair rs /\ Forall (fresh_envelope ws version) new /\
    active_workspace (wd_db w') ws = Some s' /\ ws_key_version s' = version.
Proof.
  intros Hs Hv H. apply run_bind in H as ([] & w1 & Hg & H). apply store_grants_run in Hg as (Hw & new & Hn & Hp & Hf).
  apply run_bind in H as (k & w2 & Hu & H). apply run_update in Hu as [_ Hu].
  apply run_bind in H as ([] & w3 & Hc & H). apply run_check in Hc as [_ ->].
  apply run_bind in H as ([] & w4 & Ha & H). apply run_ret in H as [-> ->]. split; [done|].
  unfold audit in Ha. repeat run_step. flat_db. simpl in *. rewrite Hn in *.
  exists new, (s <| ws_key_version := version |> <| ws_updated_at := stamp |>). split_and!; try done.
  unfold active_workspace in *. simpl. rewrite head_select_update by done. rewrite Hw, Hs. simpl.
  apply head_select_some in Hs as [_ Hs]. split_bools.
  rewrite !bool_decide_eq_true_2 by done. by rewrite Hv, Z.eqb_refl.
Qed.

(** C15: a rotation reaches exactly the admitted members.  A rotation that is not a replay
    stores one new live envelope of the next version for every recovery key and active
    device of the workspace's active members and for nothing else; each member was admitted
    under the owner's signature and each device certified by the member's root.  It keeps
    all earlier envelopes, finds none of the new version before it, and moves the key
    version by one; a replayed rotation changes nothing. *)
Theorem rotation_covers_exactly ws user rotation expected version digest grants w n replay w' :
  NoDup (map u_id (users (wd_db w))) ->
  rotate_workspace_key ws user rotation expected version digest grants w = (Ok (n, replay), w') ->
  if replay : bool then wd_db w' = wd_db w
  else exists rs new s s',
    exact_set (wd_db w) ws rs /\ n = Z.of_nat (length rs) /\
    key_envelopes (wd_db w') = key_envelopes (wd_db w) ++ new /\
    map envelope_pair new = map recipient_pair rs /\ Forall (fresh_envelope ws version) new /\
    (forall e, In e (key_envelopes (wd_db w)) -> ~ fresh_envelope ws version e) /\
    active_workspace (wd_db w) ws = Some s /\ ws_key_version s = expected /\
    active_workspace (wd_db w') ws = Some s' /\ ws_key_version s' = expected + 1 /\
    decider_role (wd_db w) ws user = Some RoleOwner.
Proof.
  unfold rotate_workspace_key. intros Hnd H.
  apply run_bind in H as (m & w1 & Ho & H). apply owner_run in Ho as [-> Ho].
  apply run_bind in H as ([] & w1 & Hv & H). apply run_check in Hv as [Hv%Z.eqb_eq ->].
  apply run_bind in H as ([] & w1 & Hg & H). apply run_check in Hg as [_ ->].
  apply run_bind in H as (stamp & w1 & Hn & H). apply run_now in Hn. apply run_transaction in H.
  apply run_bind in H as (admin & w2 & Hq & H). apply run_query in Hq as [-> ->].
  apply run_bind in H as (o & w2 & Hq & H). apply run_query in Hq as [-> ->].
  apply run_bind in H as ([] & w2 & Hc & H). apply run_check in Hc as [_ ->].
  apply run_bind in H as (s & w2 & Hs & H). apply run_require in Hs as [Hs ->].
  apply run_bind in H as (rs & w2 & Hrs & H).
  apply recipient_set_exact in Hrs as [Hd Hrs]; [|by rewrite Hn].
  apply run_bind in H as (cd & w3 & Hc & H). apply run_lift in Hc as [_ ->].
  apply run_bind in H as ([] & w3 & Hc & H). apply run_check in Hc as [_ ->].
  apply run_bind in H as (r & w3 & Hq & H). apply run_query in Hq as [-> ->].
  apply run_bind in H as (b & w3 & Hb & H). apply run_lift in Hb as [_ ->].
  destruct b; [apply run_ret in H as [[= -> ->] ->]; congruence|].
  apply run_bind in H as ([] & w3 & Hc & H). apply run_check in Hc as [Hx%Z.eqb_eq ->].
  apply run_bind in H as (ex & w3 & Hq & H). apply run_query in Hq as [-> ->].
  apply run_bind in H as ([] & w3 & Hc & H). apply run_check in Hc as [He ->].
  apply rotation_writes with (s := s) in H as (Heq & new & s' & Hnew & Hp & Hf & Hs' & Hver);
    [|by rewrite Hd|done].
  injection Heq as -> ->. rewrite Hd, Hn in *. exists rs, new, s, s'. subst version. split_and!; try done.
  intros e Hin (H1 & H2 & H3 & _). apply negb_true_iff, existsb_false with (x := e) in He; [|done].
  by rewrite H1, H2, H3, !bool_decide_eq_true_2, Z.eqb_refl in He.
Qed.

(** ** Grants *)

Definition live_grant (ws : string) (pair : string * string) (version : Z) (e : key_envelope_row) : bool :=
  (ke_workspace_id e =d Some ws) && (ke_task_id e =d None) && (envelope_pair e =d pair) &&
  (ke_key_version e =? version) && (ke_revoked_at e =d None).

Lemma select_revoked {R} (p : R -> bool) (f : R -> R) l :
  (forall x, p (f x) = false) -> select p (update p f l) = [].
Proof.
  intros Hf. unfold select, update. induction l as [|x l IH]; [done|]. simpl.
  destruct (p x) eqn:Hp; simpl; [by rewrite Hf|by rewrite Hp].
Qed.

Lemma key_recipient_run ws u type id w r version w' :
  NoDup (map u_id (users (wd_db w))) ->
  workspace_key_recipient ws u type id w = (Ok (r, version), w') ->
  wd_db w' = wd_db w /\ decider_role (wd_db w) ws u = Some RoleOwner /\ entitled (wd_db w) ws r /\
  recipient_pair r = (type, id) /\
  exists s, active_workspace (wd_db w) ws = Some s /\ ws_key_version s = version.
Proof.
  unfold workspace_key_recipient. intros Hnd H.
  apply run_bind in H as (m & w1 & Ho & H). apply owner_run in Ho as [-> Ho].
  apply run_bind in H as ([] & w1 & Hc & H). apply run_check in Hc as [_ ->].
  apply run_bind in H as (rs & w1 & Hrs & H). apply recipient_set_exact in Hrs as [Hd [Hrs _]]; [|done].
  apply run_bind in H as (o & w2 & Hq & H). apply run_query in Hq as [-> ->].
  apply run_bind in H as (x & w2 & Hx & H). apply run_require in Hx as [Hx ->].
  apply run_bind in H as (s & w2 & Hs & H). apply run_require in Hs as [Hs ->].
  apply run_ret in H as [[= -> ->] ->]. apply List.find_some in Hx as [Hin Hp]. rewrite Hd in *.
  apply bool_decide_eq_true in Hp. split_and!; eauto.
Qed.

(** A grant replaces the recipient's envelope.  A grant is made by an owner, for the
    current key version and an entitled recipient; afterwards exactly one live envelope of
    that version is stored for the recipient, the granted one. *)
Theorem grant_leaves_one_envelope ws u g w id w' :
  NoDup (map u_id (users (wd_db w))) -> grant_workspace_key ws u g w = (Ok id, w') ->
  exists r s e, decider_role (wd_db w) ws u = Some RoleOwner /\ entitled (wd_db w) ws r /\
    recipient_pair r = grant_pair g /\ active_workspace (wd_db w) ws = Some s /\
    ws_key_version s = gr_key_version g /\
    select (live_grant ws (grant_pair g) (gr_key_version g)) (key_envelopes (wd_db w')) = [e] /\
    ke_id e = id /\ ke_algorithm e = gr_algorithm g /\ ke_envelope e = json_text (JObj (gr_envelope g)).
Proof.
  unfold grant_workspace_key. intros Hnd H.
  apply run_bind in H as ([r version] & w1 & Hr & H).
  apply key_recipient_run in Hr as (Hd & Ho & He & Hp & s & Hs & Hv); [|done].
  apply run_bind in H as ([] & w2 & Hc & H). apply run_check in Hc as [Hc%Z.eqb_eq ->].
  apply run_bind in H as ([] & w2 & Hc' & H). apply run_check in Hc' as [_ ->].
  apply run_bind in H as (stamp & w2 & Hn & H). apply run_now in Hn.
  apply run_bind in H as (eid & w3 & Hn' & H). apply run_new_id in Hn'.
  apply run_bind in H as ([] & w4 & Ht & H). apply run_transaction in Ht. apply run_ret in H as [-> ->].
  apply run_bind in Ht as (rs & w5 & Hrs & H). apply recipient_set_run in Hrs as [Hd5 _].
  apply run_bind in H as ([] & w6 & Hc' & H). apply run_check in Hc' as [_ ->].
  apply run_bind in H as (k & w6 & Hu & H). apply run_update in Hu as [_ Hu].
  apply run_bind in H as ([] & w7 & Hi & H). apply run_insert in Hi as [_ Hi].
  apply run_bind in H as (mid & w8 & Hn8 & H). apply run_new_id in Hn8.
  apply run_bind in H as (manifest & w9 & Hm & H). apply run_lift in Hm as [_ ->].
  apply run_bind in H as (signature & w9 & Hm & H). apply run_lift in Hm as [_ ->].
  assert (key_envelopes (wd_db w4) = key_envelopes (wd_db w8)) as Hk.
  { refine (run_stable key_envelopes _ _ _ _ _ H). unfold upsert_manifest. solve_stable. }
  eexists r, s, _. split_and!; try done; [congruence|..].
  - rewrite Hk, Hn8, Hi, Hu. simpl. unfold select. rewrite List.filter_app.
    change (List.filter ?p ?l) with (select p l).
    rewrite select_revoked; [|intros x; unfold live_grant; simpl; by rewrite andb_false_r].
    unfold select, live_grant, envelope_pair, grant_pair. simpl.
    by rewrite !bool_decide_eq_true_2, Z.eqb_refl by done.
  - done.
  - done.
  - done.
Qed.

(** ** Approvals *)

Lemma reads_only_view i : reads_only (enrollment i).
Proof. unfold enrollment. solve_reads_match. Qed.

Lemma owner_admits_same d d' ws user :
  users d' = users d -> memberships d' = memberships d -> owner_admits d' ws user -> owner_admits d ws user.
Proof.
  unfold owner_admits, workspace_owner, active_members. by intros -> ->.
Qed.

(** The enrollment whose claim an admission repeats. *)
Lemma records_run o record :
  enrollment_records o record = Ok true -> exists e, o = Some e.
Proof. unfold enrollment_records. destruct o; [eauto|done]. Qed.

Lemma put_admission_run ws u i signed w adm w' :
  put_workspace_recipient_admission ws u (Some i) signed w = (Ok adm, w') ->
  enrollments (wd_db w') = enrollments (wd_db w) /\ users (wd_db w') = users (wd_db w) /\
  memberships (wd_db w') = memberships (wd_db w) /\ decider_role (wd_db w) ws u = Some RoleOwner /\
  exists user e, In e (enrollments (wd_db w)) /\ en_id e = i /\ en_workspace_id e = Some ws /\
    en_subject_user_id e = Some (u_id user) /\ In user (users (wd_db w)) /\ u_status user = UActive /\
    owner_admits (wd_db w) ws user.
Proof.
  unfold put_workspace_recipient_admission. intros H.
  apply run_bind in H as (m & w1 & Ho & H). apply owner_run in Ho as [-> Ho].
  apply run_bind in H as ([manifest subject] & w1 & Hp & H). apply run_lift in Hp as [_ ->].
  apply run_bind in H as (stamp & w1 & Hn & H). apply run_now in Hn. apply run_transaction in H.
  apply run_bind in H as (o & w2 & Hq & H). apply run_query in Hq as [-> ->].
  apply run_bind in H as (valid & w2 & Hq & H). apply run_lift in Hq as [_ ->].
  apply run_bind in H as ([] & w2 & Hq & H). apply run_check in Hq as [_ ->].
  apply run_bind in H as (b & w2 & Hq & H). apply run_query in Hq as [-> ->].
  apply run_bind in H as (b & w2 & Hb & H). apply run_lift in Hb as [Hb ->].
  apply run_bind in H as ([] & w2 & Hq & H). apply run_check in Hq as [-> ->].
  apply run_bind in H as (ex & w2 & Hq & H). apply run_query in Hq as [-> ->].
  apply run_bind in H as ([] & w2 & Hw & H).
  apply run_bind in H as (o2 & w3 & Hq & H). apply run_query in Hq as [-> ->]. apply run_lift in H as [Hv ->].
  assert (same (fun d => (enrollments d, users d, memberships d)) (wd_db w1) (wd_db w2)) as Hs.
  { refine (run_stable _ _ _ _ _ _ Hw). solve_stable. }
  unfold same in Hs. rewrite Hn in Hs. injection Hs as He Hu Hm.
  split_and!; try done. rewrite Hn in Hb. unfold valid_subject in Hb.
  apply records_run in Hb as (e & [Hin Hp]%head_select_some). split_bools.
  apply verified_admission_run in Hv as (user & Hau & Hadm & _).
  apply active_user_some in Hau as (Huin & <- & Hst). rewrite Hu in Huin.
  exists user, e. destruct (en_workspace_id e) as [ws'|]; [|done].
  destruct (en_subject_user_id e) as [s'|]; [|done]. rewrite json_is_spec in *. simplify_eq.
  split_and!; try done. by eapply owner_admits_same.
Qed.

(** C16: a member is approved only under the owner's signature.  When the decision route
    approves the enrollment of a member, the caller owns the workspace and an active user,
    the subject of that enrollment, was admitted by a manifest that the owner's root signed
    over the workspace, the user and the user's root keys. *)
Theorem approval_needs_signed_admission i u signed w v w' e :
  NoDup (map en_id (enrollments (wd_db w))) ->
  decide_enrollment_route i u true signed w = (Ok v, w') ->
  find_by en_id i (enrollments (wd_db w)) = Some e -> is_member_kind (en_kind e) = true ->
  exists ws user, en_workspace_id e = Some ws /\ en_subject_user_id e = Some (u_id user) /\
    In user (users (wd_db w)) /\ u_status user = UActive /\
    decider_role (wd_db w) ws u = Some RoleOwner /\ owner_admits (wd_db w) ws user.
Proof.
  unfold decide_enrollment_route. intros Hnd H He Hk.
  apply run_bind in H as (view & w1 & Hview & H).
  assert (en_kind (ev_row view) = en_kind e /\ en_workspace_id (ev_row view) = en_workspace_id e /\ w1 = w)
    as (Hkv & Hwv & ->).
  { pose proof (run_reads _ _ _ _ (reads_only_view i) Hview) as ->. unfold enrollment in Hview.
    apply run_bind in Hview as (o & w2 & Hq & Hv). apply run_query in Hq as [-> ->]. rewrite He in Hv.
    apply run_bind in Hv as (row & w2 & Hq & Hv). apply run_require in Hq as [[= <-] ->].
    apply run_bind in Hv as (sc & w2 & Hq & Hv). apply run_lift in Hq as [_ ->].
    apply run_bind in Hv as (c & w2 & Hq & Hv). apply run_lift in Hq as [_ ->].
    match type of Hv with context [match ?p with (_, _) => _ end] => destruct p as [x y] end.
    by apply run_ret in Hv as [-> _]. }
  apply run_bind in H as ([] & w1 & Hput & _). rewrite Hkv, Hk, Hwv in Hput. simpl in Hput.
  apply run_bind in Hput as (s & w2 & Hs & Hput). apply run_require in Hs as [-> ->].
  apply run_bind in Hput as (adm & w2 & Hput & _).
  apply put_admission_run in Hput as (_ & _ & _ & Hrole & user & e' & He' & Hid & Hws & Hsub & Huin & Hst & Hadm).
  destruct (find_by_some _ _ _ _ He) as [Hin Heid].
  assert (e' = e) as -> by (eapply (NoDup_map_inj en_id); [exact Hnd|done..|congruence]).
  rewrite Hws in *. eauto 10.
Qed.
End Keys.

(** ** A guest applies, is admitted, and the key is rotated *)

Module Studio.
Import Auth.Logins.
Definition guest_root : bytes := encode "guest-root".
Definition guest_key : bytes := encode "guest".
Definition guest_device : string := "dev_guestguestguestguestguesta".
Definition enc : string := b64url_encode (be_bytes 32 7).
Definition guest_certificate : dict :=
  Eval vm_compute in
    match issue_device_certificate (E := Signing.Toy.toy_env) guest_root guest_key (be_bytes 32 7) guest_device
            "s1" 0 9000 with
    | Ok c => certificate_to_dict c
    | Raise _ => []
    end.

(** The stand-ins of [toy_ed25519] on the last 32 bytes of a message only. *)
Definition tail32 (m : bytes) : bytes := be_bytes 32 (be_value (skipn (length m - 32) m)).
Definition short_ed25519 : Ed25519 := {|
  ed_public sk := be_bytes 32 (be_value sk);
  ed_sign sk m := be_bytes 32 (be_value sk) ++ tail32 m;
  ed_verify pk sig m := sig =d pk ++ tail32 m;
  sha256_digest := tail32
|}.

#[local] Instance studio_env : Env := {|
  clock n := seconds (Z.of_nat n + 1);
  uuid n := pretty n;
  sha256_json v := "sha";
  version_lt _ _ := Some false;
  py_repr _ := "?";
  json_loads s := if String.eqb s "first" then JDoc (JObj first_certificate)
                  else if String.eqb s "guest" then JDoc (JObj guest_certificate) else JBad s;
  alnum_beyond_ascii _ := false;
  env_ed25519 := short_ed25519
|}.

Definition or_nil (r : res dict) : dict := match r with Ok d => d | Raise _ => [] end.
Definition or_empty (r : res string) : string := match r with Ok s => s | Raise _ => "" end.

Definition person (id : string) (k : bytes) : user_row :=
  Mk_user_row id id (b64url_encode (ed_public k)) enc UActive false 0 0.
Definition equipment (id user : string) (name : string) (k : bytes) : device_row :=
  Mk_device_row id user name (b64url_encode (ed_public k)) enc (Some name) SActive 0 None None.
Definition opening : world :=
  MkWorld (empty_db <| users := [person "usr_1" root; person "usr_2" guest_root] |>
             <| devices := [equipment first_id "usr_1" "first" first_key;
                            equipment guest_device "usr_2" "guest" guest_key] |>
             <| workspaces := [Mk_workspace_row "ws_1" "Studio" "usr_1" None
                  (JDoc (JObj [("workspace_member", JStr "apply_approval")])) 1 SpActive 0 0] |>
             <| memberships := [Mk_membership_row "ws_1" "usr_1" RoleOwner SActive 0 None] |>) 0 0.

Definition claim_for (invite name device : string) (rk dk : bytes) (certificate : dict) : dict :=
  build_user_registration_claim invite name (or_empty (root_signing_key_id (ed_public rk)))
    (b64url_encode (ed_public rk)) enc device name (b64url_encode (ed_public dk)) enc certificate.
Definition admission_for (subject : string) (enrollment : option string) (claim : dict) (dk : bytes) : dict :=
  or_nil (m ← build_workspace_recipient_admission_manifest "ws_1" "usr_1"
                (or_empty (root_signing_key_id (ed_public root))) subject enrollment claim
                (or_empty (sign_user_registration_claim dk claim)) 5;
          sign_key_manifest root m).

Definition guest_claim : dict :=
  Eval vm_compute in claim_for "app_1" "guest" guest_device guest_root guest_key guest_certificate.
Definition guest_proof : string := Eval vm_compute in or_empty (sign_user_registration_claim guest_key guest_claim).
Definition self_claim : dict :=
  Eval vm_compute in claim_for "workspace-owner-self:ws_1" "first" first_id root first_key first_certificate.
Definition self_admission : dict := Eval vm_compute in admission_for "usr_1" None self_claim first_key.
Definition guest_admission : dict := Eval vm_compute in admission_for "usr_2" (Some "app_1") guest_claim guest_key.

Definition applied : world :=
  Eval vm_compute in snd (apply "usr_2" guest_device "app_1" "ws_1" None EkWorkspaceMember guest_claim
    guest_proof None opening).
Definition settled : world :=
  Eval vm_compute in snd (put_workspace_recipient_admission "ws_1" "usr_1" None self_admission applied).
Definition approved : world :=
  Eval vm_compute in snd (decide_enrollment_route "app_1" "usr_1" true (Some guest_admission) settled).

(** The rotation to version 2 and a later grant to the guest's device. *)
Definition snapshot : list recipient :=
  Eval vm_compute in match fst (_workspace_key_recipient_set "ws_1" approved) with Ok l => l | Raise _ => [] end.
Definition set_digest : string := Eval vm_compute in or_empty (_workspace_key_recipient_digest snapshot).
Definition wrapped (r : recipient) : KeyGrant :=
  MkGrant (rp_type r) (rp_id r) 2 HPKE_ALGORITHM [("ciphertext", JStr (rp_id r))]
    (or_nil (sign_key_manifest root
       [("recipient_public_key_sha256", JStr (rp_key_sha256 r));
        ("recipient_admission_sha256", JStr (ad_digest (rp_admission r)));
        ("recipient_binding_digest", JStr (rp_binding_digest r))])).
Definition grants : list KeyGrant := Eval vm_compute in map wrapped snapshot.
Definition rotated : world :=
  Eval vm_compute in snd (rotate_workspace_key "ws_1" "usr_1" "wkr_1" 1 2 set_digest grants approved).
Definition regrant : KeyGrant :=
  Eval vm_compute in default (MkGrant "" "" 0 "" [] []) (head (List.tl grants)).
Definition regranted : world := Eval vm_compute in snd (grant_workspace_key "ws_1" "usr_1" regrant rotated).
Definition regrant_id : string :=
  Eval vm_compute in or_empty (fst (grant_workspace_key "ws_1" "usr_1" regrant rotated)).
Definition approved_view : enrollment_view :=
  Eval vm_compute in
    match fst (decide_enrollment_route "app_1" "usr_1" true (Some guest_admission) settled) with
    | Ok v => v
    | Raise _ => MkEnrollment (Mk_enrollment_row "" EkWorker EmDirectInvite EsIssued None None None None None
                   None (JDoc JNull) None None None None None None None 0 0) JNull None None
    end.
Definition application : enrollment_row :=
  Eval vm_compute in default (ev_row approved_view) (head (enrollments (wd_db settled))).

Lemma approval : decide_enrollment_route "app_1" "usr_1" true (Some guest_admission) settled
  = (Ok approved_view, approved).
Proof. vm_compute. reflexivity. Qed.
Lemma rotation : rotate_workspace_key "ws_1" "usr_1" "wkr_1" 1 2 set_digest grants approved
  = (Ok (4, false), rotated).
Proof. vm_compute. reflexivity. Qed.
Lemma regranting : grant_workspace_key "ws_1" "usr_1" regrant rotated = (Ok regrant_id, regranted).
Proof. vm_compute. reflexivity. Qed.
Lemma people_distinct : NoDup ["usr_1"; "usr_2"].
Proof. repeat constructor; by rewrite ?list_elem_of_In; simpl; intros; intuition discriminate. Qed.

Lemma rotation_covers_exactly_witness :
  exists new, key_envelopes (wd_db rotated) = new /\ Forall (fresh_envelope "ws_1" 2) new /\
    exists rs, exact_set (wd_db approved) "ws_1" rs /\ map envelope_pair new = map recipient_pair rs.
Proof.
  destruct (rotation_covers_exactly "ws_1" "usr_1" "wkr_1" 1 2 set_digest grants approved 4 false rotated
    people_distinct rotation) as (rs & new & s & s' & Hx & _ & Hn & Hp & Hf & _).
  exists new. split; [exact Hn|]. split; [exact Hf|]. exists rs. exact (conj Hx Hp).
Defined.

Lemma grant_leaves_one_envelope_witness :
  exists e, select (live_grant "ws_1" ("device", guest_device) 2) (key_envelopes (wd_db regranted)) = [e] /\
    ke_id e = regrant_id.
Proof.
  destruct (grant_leaves_one_envelope "ws_1" "usr_1" regrant rotated regrant_id regranted people_distinct
    regranting) as (r & s & e & _ & _ & _ & _ & _ & Hs & Hi & _).
  exists e. exact (conj Hs Hi).
Defined.

Lemma approval_needs_signed_admission_witness :
  exists user, In user (users (wd_db settled)) /\ owner_admits (wd_db settled) "ws_1" user.
Proof.
  destruct (approval_needs_signed_admission "app_1" "usr_1" (Some guest_admission) settled approved_view approved
    application ltac:(apply NoDup_singleton) approval eq_refl eq_refl)
    as (ws & user & [= <-] & _ & Hin & _ & _ & Hadm).
  exists user. exact (conj Hin Hadm).
Defined.
End Studio.
