(* ===== verification/Exclusion.v ===== *)
(** * Maintenance excludes execution

    While a worker holds the lease of a maintenance job (it may be replacing its
    own runtime or the models of a workflow) it executes no task attempt, and it
    holds at most one such lease.  [Calm] is the invariant; [quiet] relates two
    databases between which nothing was started, and most operations are shown
    quiet statement by statement. *)

From S2P Require Import Prelude Python Errors Schema Store Access Framing Metadata Diagnostics.
From S2P Require Import Capability Scheduler Fleet Usage Bytes Encoding Signing Grants.
From S2P Require Import Maintenance Scenario Invariant Lifecycle Upkeep Enrollment Onboard Broker Reach Fencing Departure.

Open Scope Z_scope.

Definition leased (j : job_row) : bool := job_leased (mj_state j).

Record Calm (d : db) : Prop := MkCalm {
  calm_ids : NoDup (map mj_id (worker_maintenance_jobs d));
  calm_timed : forall j, In j (worker_maintenance_jobs d) -> leased j = true ->
                         is_some (mj_lease_expires_at j) = true;
  calm_one : forall i j, In i (worker_maintenance_jobs d) -> In j (worker_maintenance_jobs d) ->
               leased i = true -> leased j = true -> mj_worker_id i = mj_worker_id j ->
               mj_id i = mj_id j;
  calm_idle : forall j a, In j (worker_maintenance_jobs d) -> leased j = true ->
                In a (task_attempts d) -> a_worker_id a = mj_worker_id j -> executing a = false
}.

(** The attempt is past its reservation: its fencing token has been spent. *)
Definition spent (a : attempt_row) : bool := negb (a_state a =d AReserved).

(** Between [d] and [d'] no job was leased and no attempt started; no spent token
    was forgotten. *)
Record quiet (d d' : db) : Prop := MkQuiet {
  quiet_ids : NoDup (map mj_id (worker_maintenance_jobs d)) ->
              NoDup (map mj_id (worker_maintenance_jobs d'));
  quiet_jobs : forall j', In j' (worker_maintenance_jobs d') -> leased j' = true ->
    exists j, In j (worker_maintenance_jobs d) /\ leased j = true /\ mj_id j = mj_id j' /\
              mj_worker_id j = mj_worker_id j' /\
              (is_some (mj_lease_expires_at j) = true -> is_some (mj_lease_expires_at j') = true);
  quiet_attempts : forall a', In a' (task_attempts d') -> executing a' = true ->
    exists a, In a (task_attempts d) /\ executing a = true /\ a_task_id a = a_task_id a' /\
              fence a = fence a';
  quiet_spent : forall a, In a (task_attempts d) -> spent a = true ->
    exists a', In a' (task_attempts d') /\ spent a' = true /\ fence a' = fence a
}.

Lemma quiet_same d d' :
  worker_maintenance_jobs d' = worker_maintenance_jobs d -> task_attempts d' = task_attempts d ->
  quiet d d'.
Proof. intros Hj Ha. constructor; rewrite ?Hj, ?Ha; eauto 10. Qed.

#[export] Instance quiet_preorder : PreOrder quiet.
Proof.
  split; [intros d; by apply quiet_same|].
  intros d1 d2 d3 [I1 J1 A1 S1] [I2 J2 A2 S2]. constructor; [auto|..].
  - intros j3 Hj3 L3. destruct (J2 _ Hj3 L3) as (j2 & Hj2 & L2 & <- & <- & ?).
    destruct (J1 _ Hj2 L2) as (j1 & ? & ? & ? & ? & ?). exists j1. auto 10.
  - intros a3 Ha3 X3. destruct (A2 _ Ha3 X3) as (a2 & Ha2 & X2 & <- & <-). by apply A1.
  - intros a1 Ha1 X1. destruct (S1 _ Ha1 X1) as (a2 & Ha2 & X2 & <-). by apply S2.
Qed.

Lemma calm_quiet d d' : quiet d d' -> Calm d -> Calm d'.
Proof.
  intros [HI HJ HA _] [C1 C2 C3 C4]. constructor; [auto|..].
  - intros j' Hj' L'. destruct (HJ _ Hj' L') as (j & ? & ? & _ & _ & S). auto.
  - intros i' j' Hi' Hj' Li' Lj' Hw. destruct (HJ _ Hi' Li') as (i & Hi & Li & <- & Ew & _).
    destruct (HJ _ Hj' Lj') as (j & Hj & Lj & <- & Ew' & _). apply C3; auto. congruence.
  - intros j' a' Hj' Lj' Ha' Hw. destruct (executing a') eqn:X; [|done].
    destruct (HJ _ Hj' Lj') as (j & Hj & Lj & _ & Ew & _).
    destruct (HA _ Ha' X) as (a & Ha & Xa & _ & [= Ewa _]).
    rewrite (C4 j a) in Xa; congruence.
Qed.

(** ** Operations that start nothing *)

Notation quietly := (respects quiet).

(** Statements on other tables. *)
Lemma quietly_table {R} (table : db -> list R) `{!Setter table} :
  (forall f d, worker_maintenance_jobs (modify table f d) = worker_maintenance_jobs d /\
               task_attempts (modify table f d) = task_attempts d) ->
  (forall f d, quiet d (modify table f d)) /\
  (forall p f, quietly (sql_update table p f)) /\ (forall ok r, quietly (sql_insert table ok r)) /\
  (forall p, quietly (sql_delete table p)).
Proof.
  intros H. assert (forall f d, quiet d (modify table f d)) as Hq
    by (intros f d; destruct (H f d); by apply quiet_same).
  split_and!; intros; [apply Hq|..].
  - apply respects_update. intros d. apply Hq.
  - apply respects_insert; [typeclasses eauto|]. intros d _. apply Hq.
  - apply respects_delete. intros d. apply Hq.
Qed.

(** Statements on attempts that start none. *)
Lemma quiet_attempt_rows d d' F :
  worker_maintenance_jobs d' = worker_maintenance_jobs d ->
  task_attempts d' = map F (task_attempts d) ->
  (forall a, In a (task_attempts d) -> a_task_id (F a) = a_task_id a /\ fence (F a) = fence a /\
     (executing (F a) = true -> executing a = true) /\ (spent a = true -> spent (F a) = true)) ->
  quiet d d'.
Proof.
  intros Hj Ha HF. constructor; rewrite ?Hj, ?Ha; [done|eauto 10|..].
  - intros a' (a & <- & Hin)%in_map_iff X. destruct (HF a Hin) as (-> & -> & Hx & _). eauto 10.
  - intros a Hin X. destruct (HF a Hin) as (_ & Ef & _ & Hs). exists (F a). split; [by apply in_map|].
    auto.
Qed.

Lemma quietly_update_attempts p f :
  (forall a, a_task_id (f a) = a_task_id a) -> (forall a, fence (f a) = fence a) ->
  (forall a, executing (f a) = true -> executing a = true) ->
  (forall a, spent a = true -> spent (f a) = true) ->
  quietly (sql_update task_attempts p f).
Proof.
  intros. apply respects_update. intros d. eapply quiet_attempt_rows; [done|reflexivity|].
  intros a Ha. cbv beta. destruct (p a); auto.
Qed.

Lemma quietly_insert_attempt ok r : executing r = false -> quietly (sql_insert task_attempts ok r).
Proof.
  intros Hx. apply respects_insert; [typeclasses eauto|]. intros d _. constructor; simpl; [done|eauto 10|..].
  - intros a [Ha|[<-|[]]]%in_app_iff X; [eauto 10|congruence].
  - intros a Ha X. exists a. rewrite in_app_iff. auto.
Qed.

(** Statements on jobs that lease none. *)
Lemma quietly_update_jobs p f :
  (forall j, mj_id (f j) = mj_id j) -> (forall j, mj_worker_id (f j) = mj_worker_id j) ->
  (forall j, leased (f j) = true -> leased j = true /\
     (is_some (mj_lease_expires_at j) = true -> is_some (mj_lease_expires_at (f j)) = true)) ->
  quietly (sql_update worker_maintenance_jobs p f).
Proof.
  intros Hi Hw Hl. apply respects_update. intros d. constructor; simpl.
  - by rewrite update_map_inv.
  - intros j' (j & Hj & [[_ ->]|[_ ->]])%in_update L; [|eauto 10].
    apply Hl in L as [L S]. exists j. split_and!; auto.
  - eauto 10.
  - eauto.
Qed.

Lemma quietly_insert_job r : leased r = false -> quietly (sql_insert worker_maintenance_jobs jobs_ok r).
Proof.
  intros Hl. apply respects_insert; [typeclasses eauto|]. intros d Hok. constructor; simpl; [|intros j [Hj|[<-|[]]]%in_app_iff L; [eauto 10|congruence]|eauto 10|eauto].
  unfold jobs_ok in Hok. split_bools. intros Hd. apply NoDup_map_snoc; [done|]. by apply has_key_false.
Qed.

Create HintDb quiet.

(** The effect of a statement on one row. *)
Ltac row_effect :=
  intros; unfold executing, leased, spent, fence in *; simpl in *; repeat case_match; try done; auto.

#[export] Hint Extern 1 (quietly now) => (apply respects_now; typeclasses eauto) : quiet.
#[export] Hint Extern 1 (quietly (new_id _)) => (apply respects_new_id; typeclasses eauto) : quiet.
#[export] Hint Extern 2 (quietly (sql_update task_attempts _ _)) =>
  (apply quietly_update_attempts; solve [row_effect]) : quiet.
#[export] Hint Extern 2 (quietly (sql_insert task_attempts _ _)) =>
  (apply quietly_insert_attempt; solve [row_effect]) : quiet.
#[export] Hint Extern 2 (quietly (sql_update worker_maintenance_jobs _ _)) =>
  (apply quietly_update_jobs; solve [row_effect]) : quiet.
#[export] Hint Extern 2 (quietly (sql_insert worker_maintenance_jobs _ _)) =>
  (apply quietly_insert_job; solve [row_effect]) : quiet.
#[export] Hint Extern 3 (quietly (sql_update _ _ _)) => (apply quietly_table; done) : quiet.
#[export] Hint Extern 3 (quietly (sql_insert _ _ _)) => (apply quietly_table; done) : quiet.
#[export] Hint Extern 3 (quietly (sql_delete _ _)) => (apply quietly_table; done) : quiet.
#[export] Hint Extern 4 (quietly _) =>
  (apply respects_reads; [typeclasses eauto|solve [auto with reads]]) : quiet.

Ltac solve_quiet := solve_respects ltac:(auto with quiet).

Section Operations.
Context {E : Env}.

Lemma quietly_audit at_ ai ws ac st si de stamp : quietly (audit at_ ai ws ac st si de stamp).
Proof. unfold audit. solve_quiet. Qed.
Lemma quietly_upsert_command r : quietly (upsert_command r).
Proof. unfold upsert_command. solve_quiet. Qed.
#[local] Hint Resolve quietly_audit quietly_upsert_command : quiet.
Lemma quietly_enqueue t s r stamp : quietly (_enqueue_task_rekey_command t s r stamp).
Proof. unfold _enqueue_task_rekey_command. solve_quiet. Qed.
#[local] Hint Resolve quietly_enqueue : quiet.
Lemma quietly_ensure stamp u : quietly (_ensure_rekey_commands stamp u).
Proof. unfold _ensure_rekey_commands. solve_quiet. Qed.
Lemma quietly_expire_reservations stamp : quietly (_expire_reservations stamp).
Proof. unfold _expire_reservations. solve_quiet. Qed.
Lemma quietly_finalize stamp : quietly (_finalize_drained_workers stamp).
Proof. unfold _finalize_drained_workers. solve_quiet. Qed.
#[local] Hint Resolve quietly_ensure quietly_expire_reservations quietly_finalize : quiet.
Lemma quietly_expire_leases stamp : quietly (_expire_leases stamp).
Proof. unfold _expire_leases, expire_lease. solve_quiet. Qed.
Lemma quietly_expire_jobs stamp : quietly (_expire_maintenance_jobs stamp).
Proof. unfold _expire_maintenance_jobs. solve_quiet. Qed.
Lemma quietly_prune stamp : quietly (prune_expired_security_state stamp).
Proof. unfold prune_expired_security_state. solve_quiet. Qed.
#[local] Hint Resolve quietly_expire_leases quietly_expire_jobs quietly_prune : quiet.
Lemma quietly_sweep : quietly sweep_expired.
Proof. unfold sweep_expired. solve_quiet. Qed.
Lemma quietly_prepare q : quietly (prepare_task q).
Proof. unfold prepare_task, reserve_task. solve_quiet. Qed.
Lemma quietly_envelope t w a e stamp : quietly (insert_worker_envelope t w a e stamp).
Proof. unfold insert_worker_envelope. solve_quiet. Qed.
#[local] Hint Resolve quietly_envelope : quiet.
Lemma quietly_commit t u pt pi ep we re ka : quietly (commit_task t u pt pi ep we re ka).
Proof. unfold commit_task. solve_quiet. Qed.
Lemma quietly_cancel t u pt pi : quietly (cancel_task t u pt pi).
Proof. unfold cancel_task. solve_quiet. Qed.
Lemma quietly_retry t u pt pi ttl : quietly (prepare_retry t u pt pi ttl).
Proof. unfold prepare_retry, reserve_retry. solve_quiet. Qed.
Lemma quietly_rekey t u rw we ka pt pi : quietly (commit_rekey t u rw we ka pt pi).
Proof. unfold commit_rekey. solve_quiet. Qed.

Lemma quietly_publish t a o stamp : quietly (publish_outputs t a o stamp).
Proof. unfold publish_outputs. solve_quiet. Qed.
Lemma quietly_record_usage r l a m c p stamp : quietly (record_usage r l a m c p stamp).
Proof. unfold record_usage, _append_ledger. solve_quiet. Qed.
#[local] Hint Resolve quietly_publish quietly_record_usage : quiet.
Lemma quietly_finish_with_lease r l a t o m f p stamp :
  quietly (finish_with_lease r l a t o m f p stamp).
Proof. unfold finish_with_lease. solve_quiet. Qed.
#[local] Hint Resolve quietly_finish_with_lease : quiet.
Lemma quietly_finish r : quietly (finish_attempt r).
Proof. unfold finish_attempt. solve_quiet. Qed.
Lemma quietly_reverse ws i u c : quietly (reverse_usage_charge ws i u c).
Proof. unfold reverse_usage_charge, _append_ledger. solve_quiet. Qed.

Lemma quietly_reconcile i x stamp : quietly (_reconcile_bundled_bootstrap_authorizations i x stamp).
Proof.
  unfold _reconcile_bundled_bootstrap_authorizations, upsert_workflow_auth, upsert_model_auth.
  solve_quiet.
Qed.
#[local] Hint Resolve quietly_reconcile : quiet.
Lemma quietly_bootstrap : quietly _reconcile_bundled_bootstrap_policy.
Proof. unfold _reconcile_bundled_bootstrap_policy. solve_quiet. Qed.
Lemma quietly_register r : quietly (create_worker r).
Proof. unfold create_worker, _initialize_worker_capability_state. solve_quiet. Qed.
Lemma quietly_offer i o p : quietly (offer_worker i o p).
Proof. unfold offer_worker. solve_quiet. Qed.
Lemma quietly_worker_heartbeat i r : quietly (worker_heartbeat i r).
Proof. unfold worker_heartbeat. solve_quiet. Qed.
Lemma quietly_manager i o a b : quietly (set_worker_manager i o a b).
Proof. unfold set_worker_manager. solve_quiet. Qed.
Lemma quietly_leave i o force : quietly (leave_worker i o force).
Proof. unfold leave_worker, expire_prepared, return_queued, revoke_work. solve_quiet. Qed.

Lemma quietly_decide_worker i u ok c p : quietly (decide_worker_enrollment i u ok c p).
Proof.
  unfold decide_worker_enrollment, approve_worker, decided, register_invited_worker, _initialize_worker_capability_state.
  solve_quiet.
Qed.
Lemma quietly_broker_heartbeat i u b rv pv bc n : quietly (broker_device_heartbeat i u b rv pv bc n).
Proof. unfold broker_device_heartbeat. solve_quiet. Qed.
Lemma quietly_approve_allocation i u p : quietly (approve_allocation i u p).
Proof. unfold approve_allocation. solve_quiet. Qed.
Lemma quietly_insert_receipt q g j stamp : quietly (insert_receipt q g j stamp).
Proof. unfold insert_receipt. solve_quiet. Qed.
#[local] Hint Resolve quietly_insert_receipt : quiet.
Lemma quietly_create_job q k g stamp : quietly (insert_job q k g stamp).
Proof.
  unfold insert_job. destruct (_ARTIFACT_MAINTENANCE_KINDS k); solve_quiet.
Qed.
#[local] Hint Resolve quietly_create_job : quiet.
Lemma quietly_create q : quietly (create_worker_maintenance q).
Proof. unfold create_worker_maintenance, job_of_intent. solve_quiet. Qed.
Lemma quietly_commit_job j u v : quietly (commit_worker_maintenance j u v).
Proof. unfold commit_worker_maintenance. solve_quiet. Qed.
Lemma quietly_cancel_job j o v : quietly (cancel_worker_maintenance j o v).
Proof. unfold cancel_worker_maintenance. solve_quiet. Qed.
Lemma quietly_uploaded i n g : quietly (mark_artifact_uploaded i n g).
Proof. unfold mark_artifact_uploaded. solve_quiet. Qed.
Lemma quietly_record_authorizations row spec stamp :
  quietly (_record_maintenance_authorizations row spec stamp).
Proof. unfold _record_maintenance_authorizations, insert_or_ignore. solve_quiet. Qed.
#[local] Hint Resolve quietly_record_authorizations : quiet.
Lemma quietly_rebuild : quietly _rebuild_maintenance_authorizations.
Proof. unfold _rebuild_maintenance_authorizations, rebuild_job. solve_quiet. Qed.
Lemma quietly_complete j i s f ok r : quietly (complete_worker_maintenance j i s f ok r).
Proof. unfold complete_worker_maintenance, store_completion. destruct ok; solve_quiet. Qed.
Lemma quietly_deactivate i o v r g s : quietly (deactivate_worker_workflow i o v r g s).
Proof. unfold deactivate_worker_workflow. solve_quiet. Qed.
Lemma quietly_revoke_device v u : quietly (revoke_device v u).
Proof. unfold revoke_device. solve_quiet. Qed.
End Operations.

#[export] Hint Resolve quietly_audit quietly_ensure quietly_expire_reservations quietly_finalize
  quietly_expire_leases quietly_expire_jobs quietly_prune : quiet.

(** Invert a run; what starts nothing becomes a [quiet] fact. *)
Ltac run_hush :=
  repeat first
    [ run_step
    | match goal with
      | H : ?m ?w = (Ok _, ?w') |- _ =>
          let Hq := fresh in
          assert (Hq : quietly m) by solve [auto with quiet];
          apply (run_respects _ _ _ _ _ Hq) in H; clear Hq
      end ].

(** Carry calm over the quiet parts of a run. *)
Ltac calm_down :=
  repeat match goal with
  | H : wd_db ?w' = wd_db ?w |- _ => rewrite H in *; clear H
  | C : Calm (wd_db ?w), H : quiet (wd_db ?w) (wd_db ?w') |- _ =>
      apply (calm_quiet _ _ H) in C; clear H
  end.

Section Starting.
Context {E : Env} {P : Past}.

(** ** Granting a lease on a task *)

#[local] Hint Extern 3 (stable _ (_enqueue_task_rekey_command _ _ _ _)) =>
  (apply stable_enqueue; done) : stable.

Lemma jobs_expire_leases stamp : stable worker_maintenance_jobs (_expire_leases stamp).
Proof. unfold _expire_leases, expire_lease, _finalize_drained_workers. solve_stable. Qed.
Lemma jobs_expire_reservations stamp : stable worker_maintenance_jobs (_expire_reservations stamp).
Proof. unfold _expire_reservations. solve_stable. Qed.
#[local] Hint Resolve jobs_expire_leases jobs_expire_reservations : stable.
Lemma jobs_lease_transaction i stamp ttl :
  stable worker_maintenance_jobs (lease_transaction i stamp ttl).
Proof. unfold lease_transaction, grant_lease. solve_stable. Qed.

Lemma has_blocking_leased d j :
  In j (worker_maintenance_jobs d) -> leased j = true -> has_blocking_job d (mj_worker_id j) = true.
Proof.
  intros Hj Hl. apply existsb_exists. exists j. split; [done|].
  rewrite bool_decide_eq_true_2 by done. unfold leased in Hl. by destruct (mj_state j).
Qed.

Lemma calm_lease_transaction i stamp ttl w r w' :
  Inv (wd_db w) -> Calm (wd_db w) -> lease_transaction i stamp ttl w = (Ok r, w') ->
  Calm (wd_db w').
Proof.
  intros HI HC Hrun. destruct r as [[[[[task attempt] key] lid] f]|].
  - pose proof (run_stable _ _ _ _ _ (jobs_lease_transaction i stamp ttl) Hrun) as Hj.
    apply lease_transaction_grant in Hrun as (w1 & w2 & n & worker & l & H1 & H2 & HI2 & Hw & _ &
      Hfree & _ & _ & _ & _ & _ & HG); [|done].
    pose proof (run_stable _ _ _ _ _ (jobs_expire_reservations stamp) H1) as Hj1.
    pose proof (run_stable _ _ _ _ _ (jobs_expire_leases stamp) H2) as Hj2.
    apply (run_respects _ _ _ _ _ (quietly_expire_reservations stamp)) in H1.
    apply (run_respects _ _ _ _ _ (quietly_expire_leases stamp)) in H2. calm_down.
    assert (worker_maintenance_jobs (wd_db w') = worker_maintenance_jobs (wd_db w2)) as Hjobs
      by congruence.
    apply find_by_some in Hw as [_ Hwid].
    destruct HC as [C1 C2 C3 C4]. constructor; rewrite ?Hjobs; auto.
    intros j a' Hjin Hl Ha Ew. rewrite (gt_attempts _ _ _ _ _ _ _ _ HG) in Ha.
    apply in_update in Ha as (a & Ha & [[Hp ->]|[_ ->]]); [|eauto].
    split_bools. destruct (executing _) eqn:X; [|done].
    assert (a = attempt) as -> by (eapply attempt_unique; [exact HI2|done|apply HG|done]).
    simpl in Ew. rewrite (gt_attempt_worker _ _ _ _ _ _ _ _ HG) in Ew.
    rewrite <- Hwid, Ew, (has_blocking_leased _ j) in Hfree; done.
  - unfold lease_transaction in Hrun. run_hush; try done; by calm_down.
Qed.

Definition Safe (d : db) : Prop := Inv d /\ Calm d.

Lemma safe_quietly {A} (m : M A) : preserves Inv m -> quietly m -> preserves Safe m.
Proof. intros Hi Hq w [HI HC]. split; [by apply Hi|]. by eapply calm_quiet; [apply Hq|]. Qed.

Lemma safe_lease i ttl : preserves Safe (lease i ttl).
Proof.
  unfold lease. op_steps. destruct HI as [HI HC]. split; [by eapply keeps_lease_transaction|].
  by eapply calm_lease_transaction.
Qed.

(** ** Starting a leased attempt *)

Lemma heartbeat_quiet aid wid f ttl st rep w :
  Inv (wd_db w) ->
  quiet (wd_db w) (wd_db (snd (heartbeat_attempt aid wid f ttl st rep w))).
Proof.
  intros HI. destruct (heartbeat_attempt aid wid f ttl st rep w) as [[u|e] w'] eqn:Hrun; simpl.
  2: { assert (atomic (heartbeat_attempt aid wid f ttl st rep)) as Hat
         by (unfold heartbeat_attempt; solve_atomic). by rewrite (Hat _ _ _ Hrun). }
  unfold heartbeat_attempt in Hrun. run_all; flat_db; try done.
  all: match goal with H : fenced_lease _ _ _ _ = Some _ |- _ =>
         apply fenced_lease_spec in H as (Hl & El & _ & _ & Hlive & Ha & Eaid & _) end.
  all: assert (forall y, In y (task_attempts (wd_db w)) -> a_id y = aid -> executing y = true) as Hex
         by (intros y Hy Ey; apply (inv_live_executing _ HI l y); congruence).
  all: eapply quiet_attempt_rows; [done|simpl; tables|].
  all: intros y Hy; cbv beta; unfold spent, fence; repeat case_match; split_bools; simpl in *; auto.
Qed.

(** An atomic operation is safe when it keeps [Inv] and its normal exits keep calm. *)
Lemma safe_atomic {A} (m : M A) :
  atomic m -> preserves Inv m ->
  (forall w a w', Inv (wd_db w) -> Calm (wd_db w) -> m w = (Ok a, w') -> Calm (wd_db w')) ->
  preserves Safe m.
Proof.
  intros Ha Hi Hc. apply preserves_atomic; [done|]. intros w a w' [HI HC] Hrun.
  split; [|by eapply Hc]. specialize (Hi w HI). by rewrite Hrun in Hi.
Qed.

Lemma safe_heartbeat aid wid f ttl st rep :
  preserves Safe (heartbeat_attempt aid wid f ttl st rep).
Proof.
  intros w [HI HC]. split; [by apply preserves_heartbeat|].
  by eapply calm_quiet; [apply heartbeat_quiet|].
Qed.

(** ** Claiming a job *)

(** After expiry every leased job has an unlapsed lease. *)
Lemma expire_jobs_live stamp w n w' :
  Calm (wd_db w) -> _expire_maintenance_jobs stamp w = (Ok n, w') ->
  forall j, In j (worker_maintenance_jobs (wd_db w')) -> leased j = true ->
            after (mj_lease_expires_at j) stamp = true.
Proof.
  intros HC Hrun. unfold _expire_maintenance_jobs in Hrun. repeat run_step. flat_db. simpl. intros j Hj L.
  apply in_update in Hj as (j1 & Hj & [[_ ->]|[Hp2 ->]]); [done|].
  apply in_update in Hj as (j0 & Hj & [[_ ->]|[Hp1 ->]]); [done|].
  pose proof (calm_timed _ HC j0 Hj L) as Ht. unfold leased in *. rewrite L in Hp2.
  assert (job_active (mj_state j0) = true) as Ha by (by destruct (mj_state j0)). rewrite Ha in Hp1.
  destruct (mj_lease_expires_at j0); [|done]. simpl in *. lia.
Qed.

Lemma calm_claimed d job i stamp ttl s :
  Calm d -> In job (worker_maintenance_jobs d) -> mj_worker_id job = i ->
  (forall j, In j (worker_maintenance_jobs d) -> mj_worker_id j = i -> leased j = false) ->
  (forall a, In a (task_attempts d) -> a_worker_id a = i -> executing a = false) ->
  Calm (modify worker_maintenance_jobs
          (update (fun j => (mj_id j =d mj_id job) && (mj_state j =d MQueued))
             (fun j => j <| mj_state := MLeased |> <| mj_fencing_token := mj_fencing_token job + 1 |>
                         <| mj_lease_session_id := Some s |>
                         <| mj_lease_expires_at := Some (Z.min (stamp + seconds ttl)
                                                           (mj_expires_at job)) |>
                         <| mj_heartbeat_at := Some stamp |> <| mj_updated_at := stamp |>)) d).
Proof.
  intros [C1 C2 C3 C4] Hjob Hi Hfree Hidle.
  assert (forall j, In j (worker_maintenance_jobs d) -> mj_id j = mj_id job -> mj_worker_id j = i) as Hw.
  { intros j Hj Ej. rewrite <- Hi. f_equal. by apply (NoDup_map_inj mj_id (worker_maintenance_jobs d)). }
  constructor; simpl.
  - by rewrite update_map_inv.
  - intros j' (j & Hj & [[_ ->]|[_ ->]])%in_update L; [done|auto].
  - intros a' b' (a & Ha & [[Hpa ->]|[_ ->]])%in_update (b & Hb & [[Hpb ->]|[_ ->]])%in_update La Lb Ew;
      simpl in *; split_bools; [congruence|..|auto].
    + rewrite (Hfree b) in Lb; [done|done|]. rewrite <- Ew. auto.
    + rewrite (Hfree a) in La; [done|done|]. rewrite Ew. auto.
  - intros j' a (j & Hj & [[Hp ->]|[_ ->]])%in_update L Ha Ew; [|eauto].
    split_bools. apply Hidle; [done|]. rewrite Ew. simpl. auto.
Qed.

Lemma leased_job_none d i stamp :
  leased_job d i stamp = None ->
  (forall j, In j (worker_maintenance_jobs d) -> leased j = true ->
             after (mj_lease_expires_at j) stamp = true) ->
  forall j, In j (worker_maintenance_jobs d) -> mj_worker_id j = i -> leased j = false.
Proof.
  intros H Hlive j Hj Ew. destruct (leased j) eqn:L; [|done].
  pose proof (head_order_select_none _ _ _ H j Hj) as Hp. cbv beta in Hp.
  rewrite Ew, (Hlive j Hj L), bool_decide_eq_true_2 in Hp by done.
  unfold leased in L. by rewrite L in Hp.
Qed.

Lemma calm_claim_transaction i s ttl allowed stamp w r w' :
  Calm (wd_db w) -> claim_transaction i s ttl allowed stamp w = (Ok r, w') -> Calm (wd_db w').
Proof.
  intros HC Hrun. unfold claim_transaction in Hrun.
  apply run_bind in Hrun as (u1 & w1 & H1 & Hrun). apply run_bind in Hrun as (u2 & w2 & H2 & Hrun).
  apply run_bind in Hrun as (u3 & w3 & H3 & Hrun).
  apply (run_respects _ _ _ _ _ (quietly_expire_reservations stamp)) in H1.
  apply (run_respects _ _ _ _ _ (quietly_expire_leases stamp)) in H2. calm_down.
  pose proof (expire_jobs_live _ _ _ _ HC H3) as Hlive.
  apply (run_respects _ _ _ _ _ (quietly_expire_jobs stamp)) in H3. calm_down.
  repeat run_step; try done; flat_db.
  - eapply calm_quiet; [|exact HC].
    match goal with |- quiet _ (modify _ (update ?p ?f) _) =>
      assert (Hq : quietly (sql_update worker_maintenance_jobs p f)) by auto with quiet end.
    apply (Hq w3).
  - match goal with H : claimable_job _ _ _ _ = Some _ |- _ =>
      apply head_order_select_some in H as [Hin Hp] end.
    split_bools. apply (calm_claimed _ _ i); auto.
    + by apply (leased_job_none _ _ stamp).
    + intros a Ha Ew. match goal with H : existsb _ _ = false |- _ =>
        pose proof (existsb_false _ _ H a Ha) as Hx end.
      unfold executing. cbv beta in Hx. by rewrite Ew, bool_decide_eq_true_2 in Hx.
Qed.

Lemma safe_claim i s ttl acts : preserves Safe (claim_worker_maintenance i s ttl acts).
Proof.
  apply safe_atomic; [unfold claim_worker_maintenance; solve_atomic|
                      apply preserves_claim_maintenance|].
  intros w u w' _ HC Hrun. unfold claim_worker_maintenance in Hrun.
  apply run_bind in Hrun as (u1 & w1 & H1 & Hrun). apply run_check in H1 as [_ ->].
  apply run_bind in Hrun as (stamp & w1 & H1 & Hrun). apply run_now in H1.
  apply run_transaction in Hrun. eapply calm_claim_transaction; [|exact Hrun]. by rewrite H1.
Qed.

(** ** Extending a job's lease *)

Lemma quiet_extend d i f :
  (forall j, In j (worker_maintenance_jobs d) -> mj_id j = i -> leased j = true) ->
  (forall j, mj_id (f j) = mj_id j /\ mj_worker_id (f j) = mj_worker_id j /\
             is_some (mj_lease_expires_at (f j)) = true) ->
  quiet d (modify worker_maintenance_jobs (update (fun j => mj_id j =d i) f) d).
Proof.
  intros Hl Hf. constructor; simpl; [| |eauto 10|eauto].
  - by rewrite update_map_inv by (intros; apply Hf).
  - intros j' (j & Hin & [[Hp ->]|[_ ->]])%in_update L; [|eauto 10]. split_bools.
    exists j. destruct (Hf j) as (-> & -> & Hs). auto.
Qed.

Lemma beat_valid_leased j s st adopt stamp : beat_valid j s st adopt stamp = true -> leased j = true.
Proof.
  unfold beat_valid, _MAINTENANCE_LEASE_STATES, leased. intros H. split_bools.
  destruct adopt; split_bools; [|done]. by match goal with H : mj_state _ = _ |- _ => rewrite H end.
Qed.

Lemma safe_beat j i s f ttl st p a :
  preserves Safe (heartbeat_worker_maintenance j i s f ttl st p a).
Proof.
  apply safe_atomic; [unfold heartbeat_worker_maintenance; solve_atomic|
                      apply preserves_heartbeat_maintenance|].
  intros w u w' _ HC Hrun. unfold heartbeat_worker_maintenance in Hrun. run_hush; flat_db; try done.
  all: match goal with H : fenced_job _ _ _ _ = Some _ |- _ =>
         apply head_select_some in H as [Hin Hp] end.
  all: split_bools; match goal with H : beat_valid _ _ _ _ _ = true |- _ =>
         apply beat_valid_leased in H end.
  all: eapply calm_quiet; [|exact HC].
  all: assert (forall x, In x (worker_maintenance_jobs (wd_db w)) -> mj_id x = j -> leased x = true)
         as Hl by (intros y Hy Ey; by assert (y = j0) as -> by
                     (apply (NoDup_map_inj mj_id (worker_maintenance_jobs (wd_db w)));
                      [apply HC|done|done|congruence])).
  all: etransitivity; [|by apply quietly_table].
  - etransitivity; [|apply quiet_extend; [|done]].
    + match goal with |- quiet _ (modify _ (update ?p ?f) _) =>
        assert (Hq : quietly (sql_update worker_maintenance_jobs p f)) by auto with quiet end.
      apply (Hq w).
    + simpl. intros z (y & Hy & [[_ ->]|[_ ->]])%in_update Ez; exact (Hl y Hy Ez).
  - by apply quiet_extend.
Qed.
End Starting.

(** Operations that start nothing. *)
Create HintDb starts_nothing.
#[export] Hint Resolve quietly_prepare quietly_commit quietly_finish quietly_cancel quietly_retry
  quietly_rekey quietly_sweep quietly_register quietly_offer quietly_worker_heartbeat
  quietly_manager quietly_leave quietly_bootstrap quietly_reverse quietly_approve_allocation
  quietly_create quietly_commit_job quietly_cancel_job quietly_complete quietly_uploaded
  quietly_rebuild quietly_deactivate quietly_revoke_device quietly_decide_worker
  quietly_broker_heartbeat : starts_nothing.

(** ** Every reachable control plane *)

Section Reachable.
Context {E : Env}.

Lemma calm_initial w : initial w -> Calm (wd_db w).
Proof.
  intros (_ & _ & _ & _ & _ & Hj).
  constructor; rewrite Hj; simpl; [constructor|done..].
Qed.

Lemma calm_quietly {A} (m : M A) w : quietly m -> Calm (wd_db w) -> Calm (wd_db (snd (m w))).
Proof. intros Hm. apply calm_quiet, Hm. Qed.

Lemma calm_step {P : Past} w w' : step w w' -> Inv (wd_db w) -> Calm (wd_db w) -> Calm (wd_db w').
Proof.
  intros Hstep HI HC. assert (Safe (wd_db w)) as HS by done.
  destruct Hstep; try (apply calm_quietly; [solve [auto with starts_nothing]|done]).
  - by apply safe_lease.
  - by apply safe_heartbeat.
  - by apply safe_claim.
  - by apply safe_beat.
  - match goal with H : core_eq _ _ |- _ => destruct H as (_ & ? & _) end.
    by eapply calm_quiet; [apply quiet_same|].
Qed.

Lemma calm_reachable w : reachable w -> Calm (wd_db w).
Proof.
  intros (w0 & H0 & Hrtc). pose proof (inv_initial _ H0) as HI. apply calm_initial in H0.
  induction Hrtc as [|w1 w2 w3 Hstep _ IH]; [done|].
  apply IH; [by eapply calm_step|by eapply inv_step].
Qed.

(** C8: maintenance and execution exclude each other.  In every reachable
    control plane, a worker that holds the lease of a maintenance job executes no
    attempt, and it holds the lease of no other job, whatever claims, leases,
    heartbeats, expiries and restarts led there. *)
Theorem maintenance_excludes_execution w j :
  reachable w -> In j (worker_maintenance_jobs (wd_db w)) -> job_leased (mj_state j) = true ->
  (forall a, In a (task_attempts (wd_db w)) -> a_worker_id a = mj_worker_id j ->
             attempt_executing (a_state a) = false) /\
  (forall i, In i (worker_maintenance_jobs (wd_db w)) -> job_leased (mj_state i) = true ->
             mj_worker_id i = mj_worker_id j -> i = j).
Proof.
  intros HC%calm_reachable Hj Hl. split.
  - intros a Ha Ew. by apply (calm_idle _ HC j a).
  - intros i Hi Hli Ew. apply (NoDup_map_inj mj_id (worker_maintenance_jobs (wd_db w))); auto;
      [apply HC|]. by apply (calm_one _ HC).
Qed.
End Reachable.

(** ** A concrete run

    The owner's broker manages the worker of the concrete control plane; a model
    installation is created, claimed and reported running. *)

Definition demo_broker : world :=
  modify wd_db (fun d => d
    <| devices := devices d ++ [Mk_device_row "dev_owner" "usr_owner" "Desk" "sig-o" "enc-o" None SActive
                                  0 (Some (seconds 1000)) None] |>
    <| brokers := brokers d ++ [Mk_broker_row "brk_owner" "usr_owner" "Broker" SActive 0 0] |>
    <| broker_devices := broker_devices d ++
         [Mk_broker_device_row "bdev_owner" "brk_owner" "dev_owner" SActive "usr_owner" None None
            None None None 0 None] |>) demo_ready.
Definition demo_managed : world :=
  run (set_worker_manager "wrk_0" "usr_owner" "dev_owner" (Some "brk_owner")) demo_broker.

Definition demo_install_spec : dict :=
  [("workflow_ref", JStr demo_ref); ("workflow_digest", JStr demo_digest);
   ("model_digests", JList [JStr demo_digest])].
Definition demo_install : maintenance_request :=
  MkMaintenance "brk_owner" "wrk_0" "usr_owner" "dev_owner" "model_install" demo_install_spec
    "digest"
    [("payload", JObj [("worker_id", JStr "wrk_0"); ("broker_id", JStr "brk_owner");
       ("device_id", JStr "dev_owner"); ("action", JStr "model_install");
       ("spec_digest", JStr "digest"); ("nonce", JStr "n1"); ("issued_at", JInt 1000);
       ("expires_at", JInt 5000)])] 5000 "n1" 1000 "local".
Definition demo_created : world := run (create_worker_maintenance demo_install) demo_managed.
Definition demo_claimed : world :=
  run (claim_worker_maintenance "wrk_0" "ses_w" 60 ["model_install"]) demo_created.
Definition demo_job : job_row :=
  Eval vm_compute in
    match worker_maintenance_jobs (wd_db demo_claimed) with
    | j :: _ => j
    | [] => Mk_job_row "" "" "" "" "" KModelInstall (JDoc JNull) "" (JDoc JNull) "" MQueued
              (JDoc JNull) None 0 None None None 0 0 0 None
    end.

Lemma demo_claimed_reachable : reachable demo_claimed.
Proof.
  apply (reachable_step demo_created); [|unfold demo_claimed, run; apply StepMaintenanceClaim].
  apply (reachable_step demo_managed); [|unfold demo_created, run; apply StepMaintenance].
  apply (reachable_step demo_broker); [|unfold demo_managed, run; apply StepManager].
  apply (reachable_step demo_ready); [apply demo_ready_reachable|].
  apply StepOther; vm_compute; auto 10.
Qed.

Lemma demo_job_in : In demo_job (worker_maintenance_jobs (wd_db demo_claimed)).
Proof. vm_compute. left. reflexivity. Qed.

Lemma maintenance_excludes_execution_witness :
  mj_state demo_job = MLeased /\
  (forall a, In a (task_attempts (wd_db demo_claimed)) -> a_worker_id a = mj_worker_id demo_job ->
             attempt_executing (a_state a) = false).
Proof.
  split; [vm_compute; reflexivity|].
  exact (proj1 (maintenance_excludes_execution demo_claimed demo_job demo_claimed_reachable
                  demo_job_in eq_refl)).
Defined.
