(* ===== verification/Lock.v ===== *)
(** * The gateway refines a fenced lock service

    What the rest of the system relies on is small: at any time a task is held by
    at most one worker under one fencing token, holders may lose their lease, and
    a lease is only ever granted on a free task with a token that was never used
    before.  [lock_step] is that service; [service_of] reads it off the tables.
    Every operation of the gateway is a run of the service, so what holds of the
    service holds of the gateway: a token that lost its lease never holds it
    again. *)

From stdpp Require Import relations gmap.
From S2P Require Import Prelude Python Errors Schema Store Access Framing Metadata Diagnostics.
From S2P Require Import Capability Scheduler Fleet Usage Bytes Encoding Signing Grants.
From S2P Require Import Maintenance Scenario Invariant Lifecycle Upkeep Reach Exclusion.

Open Scope Z_scope.

(** ** The abstract service *)

(** A token is issued by a worker's counter: the worker and the number. *)
Definition token : Type := string * Z.

Record service := MkService {
  holder : gmap string token;    (* who holds each task *)
  used : gset token              (* tokens that can hold nothing new *)
}.

Inductive lock_step (s : service) : service -> Prop :=
| Acquire t f : holder s !! t = None -> f ∉ used s ->
    lock_step s (MkService (<[t := f]> (holder s)) ({[f]} ∪ used s))
| Lapse h : h ⊆ holder s -> lock_step s (MkService h (used s))
| Retire u : used s ⊆ u -> lock_step s (MkService (holder s) u).

(** Held tokens are used ones. *)
Definition service_wf (s : service) : Prop := forall t f, holder s !! t = Some f -> f ∈ used s.

Lemma lock_step_wf s s' : lock_step s s' -> service_wf s -> service_wf s'.
Proof.
  intros Hs Hwf. destruct Hs as [t f Hf Hn|h Hh|u Hu]; intros t' f' Hl; simpl in *.
  - apply lookup_insert_Some in Hl as [[-> ->]|[_ Hl]]; [set_solver|].
    apply elem_of_union_r. by eapply Hwf.
  - eapply Hwf. by eapply lookup_weaken.
  - apply Hu. by eapply Hwf.
Qed.

(** A used token that holds nothing never holds anything again. *)
Lemma lock_step_stale s s' f :
  lock_step s s' -> f ∈ used s -> (forall t, holder s !! t <> Some f) ->
  f ∈ used s' /\ (forall t, holder s' !! t <> Some f).
Proof.
  intros Hs Hu Hn. destruct Hs as [t g Hf Hfresh|h Hh|u Hsub]; simpl; split; auto.
  - set_solver.
  - intros t' [[-> ->]|[_ Hl]]%lookup_insert_Some; [done|by eapply Hn].
  - intros t Hl. eapply Hn. by eapply lookup_weaken.
Qed.

Lemma lock_steps_stale s s' f :
  rtc lock_step s s' -> f ∈ used s -> (forall t, holder s !! t <> Some f) ->
  forall t, holder s' !! t <> Some f.
Proof.
  induction 1 as [s|s1 s2 s3 Hstep _ IH]; [done|]. intros Hu Hn.
  by destruct (lock_step_stale _ _ f Hstep Hu Hn); apply IH.
Qed.

(** ** The service in the tables *)

Definition service_of (d : db) : service :=
  MkService (list_to_map (map (fun a => (a_task_id a, fence a)) (select executing (task_attempts d))))
            (list_to_set (map fence (select spent (task_attempts d)))).

Lemma holder_spec {P : Past} d t f :
  Inv d ->
  holder (service_of d) !! t = Some f <->
  exists a, In a (task_attempts d) /\ executing a = true /\ a_task_id a = t /\ fence a = f.
Proof.
  intros HI. simpl.
  assert (forall g, (t, g) ∈ map (fun a => (a_task_id a, fence a)) (select executing (task_attempts d))
                    <-> exists a, In a (task_attempts d) /\ executing a = true /\ a_task_id a = t /\
                                  fence a = g) as Hin.
  { intros g. rewrite list_elem_of_In, in_map_iff. setoid_rewrite in_select. naive_solver. }
  rewrite <- elem_of_list_to_map'; [apply Hin|].
  intros g (a & Ha & Xa & Ea & <-)%Hin (b & Hb & Xb & Eb & <-)%Hin. f_equal.
  apply (attempt_unique d); auto. apply (inv_exclusive _ HI); congruence.
Qed.

Lemma used_spec d f :
  f ∈ used (service_of d) <-> exists a, In a (task_attempts d) /\ spent a = true /\ fence a = f.
Proof.
  simpl. rewrite elem_of_list_to_set, list_elem_of_In, in_map_iff. setoid_rewrite in_select.
  naive_solver.
Qed.

Lemma service_of_wf {P : Past} d : Inv d -> service_wf (service_of d).
Proof.
  intros HI t f (a & Ha & X & _ & Ef)%holder_spec; [|done]. apply used_spec. exists a.
  split_and!; [done| |done]. unfold executing, spent in *. by destruct (a_state a).
Qed.

(** ** Operations that acquire nothing *)

(** Attempts only leave execution, and spent tokens stay spent. *)
Record ebb (d d' : db) : Prop := MkEbb {
  ebb_holders : forall a', In a' (task_attempts d') -> executing a' = true ->
    exists a, In a (task_attempts d) /\ executing a = true /\ a_task_id a = a_task_id a' /\
              fence a = fence a';
  ebb_spent : forall a, In a (task_attempts d) -> spent a = true ->
    exists a', In a' (task_attempts d') /\ spent a' = true /\ fence a' = fence a
}.

Lemma ebb_same d d' : task_attempts d' = task_attempts d -> ebb d d'.
Proof. intros H. split; rewrite H; eauto 10. Qed.

Lemma quiet_ebb d d' : quiet d d' -> ebb d d'.
Proof. intros [_ _ H1 H2]. by split. Qed.

#[export] Instance ebb_preorder : PreOrder ebb.
Proof.
  split; [intros d; by apply ebb_same|].
  intros d1 d2 d3 [A1 S1] [A2 S2]. split.
  - intros a3 Ha3 X3. destruct (A2 _ Ha3 X3) as (a2 & Ha2 & X2 & <- & <-). by apply A1.
  - intros a1 Ha1 X1. destruct (S1 _ Ha1 X1) as (a2 & Ha2 & X2 & <-). by apply S2.
Qed.

Lemma ebb_lock {P : Past} d d' :
  Inv d -> Inv d' -> ebb d d' -> rtc lock_step (service_of d) (service_of d').
Proof.
  intros HI HI' [HA HS]. eapply rtc_l; [apply (Lapse _ (holder (service_of d')))|].
  - apply map_subseteq_spec. intros t f (a' & Ha' & X' & <- & <-)%holder_spec; [|done].
    apply holder_spec; [done|]. eauto.
  - apply rtc_once. apply (Retire (MkService (holder (service_of d')) (used (service_of d)))
                             (used (service_of d'))).
    intros f (a & Ha & X & <-)%used_spec. apply used_spec. eauto.
Qed.

(** ** Granting a lease *)

Section Granting.
Context {P : Past} (d d' : db) (worker : worker_row) (task : task_row) (attempt : attempt_row)
        (lease : lease_row) (fencing stamp : Z).
Hypothesis (HG : grant_transition d d' worker task attempt lease fencing stamp).
Hypothesis (HI : Inv d) (HI' : Inv d').

Let granted : attempt_row := granted_attempt attempt fencing stamp.

Lemma granted_in : In granted (task_attempts d').
Proof using HG HI. apply (grant_in_attempts _ _ _ _ _ _ _ _ HG HI). by left. Qed.

Lemma granted_fence_fresh : fence granted ∉ used (service_of d).
Proof using HG HI.
  intros (a & Ha & _ & Ef)%used_spec. injection Ef as Ew Et. simpl in *.
  rewrite (gt_attempt_worker _ _ _ _ _ _ _ _ HG) in Ew.
  pose proof (grant_fence_fresh _ _ _ _ _ _ _ _ HG HI a Ha Ew). lia.
Qed.

Lemma grant_holder :
  holder (service_of d') = <[a_task_id attempt := fence granted]> (holder (service_of d)).
Proof using All.
  pose proof (gt_attempt_task _ _ _ _ _ _ _ _ HG) as Etask.
  apply map_eq. intros t. apply option_eq. intros f.
  rewrite holder_spec, lookup_insert_Some, holder_spec by done. split.
  - intros (a & [->|[Ha Hne]]%(grant_in_attempts _ _ _ _ _ _ _ _ HG HI) & X & <- & <-); [by left|].
    right. split; [|eauto]. intros E. rewrite (grant_idle _ _ _ _ _ _ _ _ HG HI a) in X; congruence.
  - intros [[<- <-]|[Hne (a & Ha & X & <- & <-)]].
    + exists granted. split; [apply granted_in|done].
    + exists a. split; [|done]. apply (grant_in_attempts _ _ _ _ _ _ _ _ HG HI). right.
      split; [done|]. intros E. apply Hne. f_equal. symmetry.
      by apply (attempt_unique d); [done|done|apply HG|].
Qed.

Lemma grant_used : used (service_of d') = {[fence granted]} ∪ used (service_of d).
Proof using All.
  apply set_eq. intros f. rewrite elem_of_union, elem_of_singleton, !used_spec. split.
  - intros (a & [->|[Ha _]]%(grant_in_attempts _ _ _ _ _ _ _ _ HG HI) & X & <-); eauto.
  - intros [->|(a & Ha & X & <-)]; [exists granted; split; [apply granted_in|done]|].
    exists a. split; [|done]. apply (grant_in_attempts _ _ _ _ _ _ _ _ HG HI). right.
    split; [done|]. intros E. assert (a = attempt) as -> by
      (by apply (attempt_unique d); [done|done|apply HG|]).
    unfold spent in X. by rewrite (gt_reserved _ _ _ _ _ _ _ _ HG) in X.
Qed.

Lemma grant_lock : lock_step (service_of d) (service_of d').
Proof using All.
  assert (service_of d' = MkService (<[a_task_id attempt := fence granted]> (holder (service_of d)))
                            ({[fence granted]} ∪ used (service_of d))) as ->
    by (rewrite <- grant_holder, <- grant_used; by destruct (service_of d')).
  apply Acquire; [|apply granted_fence_fresh].
  destruct (holder (service_of d) !! a_task_id attempt) eqn:E; [|done].
  apply holder_spec in E as (a & Ha & X & Ea & _); [|done].
  rewrite (grant_idle _ _ _ _ _ _ _ _ HG HI a) in X; [done|done|].
  by rewrite Ea, (gt_attempt_task _ _ _ _ _ _ _ _ HG).
Qed.
End Granting.

Section Refinement.
Context {E : Env} {P : Past}.

Lemma lease_lock i stamp ttl w r w' :
  Inv (wd_db w) -> lease_transaction i stamp ttl w = (Ok r, w') ->
  rtc lock_step (service_of (wd_db w)) (service_of (wd_db w')).
Proof.
  intros HI Hrun. pose proof (keeps_lease_transaction i stamp ttl w r w' HI Hrun) as HI'.
  destruct r as [[[[[task attempt] key] lid] f]|].
  - apply lease_transaction_grant in Hrun as (w1 & w2 & n & worker & l & H1 & H2 & HI2 & _ & _ & _ &
      _ & _ & _ & _ & _ & HG); [|done].
    apply (run_respects _ _ _ _ _ (quietly_expire_reservations stamp)) in H1.
    apply (run_respects _ _ _ _ _ (quietly_expire_leases stamp)) in H2.
    eapply rtc_r; [apply ebb_lock|by eapply grant_lock]; [done|done|]. apply quiet_ebb.
    by etransitivity.
  - apply ebb_lock; [done|done|]. unfold lease_transaction in Hrun. run_hush; try done.
    all: flat_db; repeat match goal with H : quiet _ _ |- _ => apply quiet_ebb in H end.
    all: by etransitivity.
Qed.

(** [d] satisfies the invariant and its service came from [s] by lock steps. *)
Definition locked (s : service) (d : db) : Prop := Inv d /\ rtc lock_step s (service_of d).

Lemma locked_lease s i ttl : preserves (locked s) (lease i ttl).
Proof.
  unfold lease. op_steps. destruct HI as [HI Hs]. split; [by eapply keeps_lease_transaction|].
  etransitivity; [exact Hs|by eapply lease_lock].
Qed.

Lemma locked_ebb s {A} (m : M A) : preserves Inv m -> respects ebb m -> preserves (locked s) m.
Proof.
  intros Hm He w [HI Hs]. split; [by apply Hm|].
  etransitivity; [exact Hs|]. apply ebb_lock; [done|by apply Hm|apply He].
Qed.

Lemma ebb_quietly {A} (m : M A) : quietly m -> respects ebb m.
Proof. intros Hm w. apply quiet_ebb, Hm. Qed.

Lemma ebb_jobs p f : respects ebb (sql_update worker_maintenance_jobs p f).
Proof. apply respects_update. intros d. by apply ebb_same. Qed.
Lemma ebb_workers p f : respects ebb (sql_update workers p f).
Proof. apply respects_update. intros d. by apply ebb_same. Qed.

Create HintDb ebb.
#[local] Hint Resolve ebb_jobs ebb_workers : ebb.
#[local] Hint Extern 3 (respects ebb _) => (apply ebb_quietly; solve [auto with quiet]) : ebb.
Ltac solve_ebb := solve_respects ltac:(auto with ebb).

Lemma ebb_claim i s ttl acts : respects ebb (claim_worker_maintenance i s ttl acts).
Proof. unfold claim_worker_maintenance, claim_transaction. solve_ebb. Qed.
Lemma ebb_beat j i s f ttl st p a : respects ebb (heartbeat_worker_maintenance j i s f ttl st p a).
Proof. unfold heartbeat_worker_maintenance. solve_ebb. Qed.
End Refinement.

Section Reachable.
Context {E : Env}.

Lemma locked_step (P : Past) s w w' :
  step w w' -> locked (P := P) s (wd_db w) -> locked (P := P) s (wd_db w').
Proof.
  intros Hstep HL. pose proof (inv_step P _ _ Hstep (proj1 HL)) as HI'. destruct HL as [HI Hs].
  assert (ebb (wd_db w) (wd_db w') -> locked (P := P) s (wd_db w')) as Hebb.
  { intros He. split; [done|]. etransitivity; [exact Hs|by apply ebb_lock]. }
  destruct Hstep; try (apply Hebb, ebb_quietly; solve [auto with starts_nothing]).
  - by apply locked_lease.
  - by apply Hebb, quiet_ebb, (heartbeat_quiet (P := P)).
  - apply Hebb, ebb_claim.
  - apply Hebb, ebb_beat.
  - match goal with H : core_eq _ _ |- _ => destruct H as (_ & ? & _) end. by apply Hebb, ebb_same.
Qed.

Lemma steps_lock w w' :
  reachable w -> rtc step w w' -> rtc lock_step (service_of (wd_db w)) (service_of (wd_db w')).
Proof.
  intros HI%inv_reachable Hsteps.
  assert (locked (P := no_past) (service_of (wd_db w)) (wd_db w)) as HL by (split; [done|reflexivity]).
  revert HL. generalize (service_of (wd_db w)) as s. clear HI. intros s.
  induction Hsteps as [|w1 w2 w3 Hstep _ IH]; [by intros [_ ?]|].
  intros HL. by apply IH, (locked_step no_past s w1).
Qed.

(** C7: the gateway refines the fenced lock service.  Any run of operations from
    a reachable control plane (tasks, attempts, retries, expiries, departures,
    maintenance) is a run of the service on the holders and used tokens read off
    the tables: leases are acquired only on free tasks with tokens never used
    before, and otherwise only lapse. *)
Theorem gateway_refines_lock_service w w' :
  reachable w -> rtc step w w' ->
  service_wf (service_of (wd_db w)) /\
  rtc lock_step (service_of (wd_db w)) (service_of (wd_db w')) /\
  service_wf (service_of (wd_db w')).
Proof.
  intros Hw Hsteps. split_and!; [by apply service_of_wf, inv_reachable|by apply steps_lock|].
  apply service_of_wf, inv_reachable. destruct Hw as (w0 & H0 & Hr). exists w0.
  split; [done|by etransitivity].
Qed.

(** A lost lease never comes back.  Once an attempt that was leased under a
    token has ended, no attempt of any task executes under that token again,
    whatever happens next; a worker that was cut off cannot regain its authority. *)
Theorem stale_tokens_stay_stale w w' a b :
  reachable w -> rtc step w w' -> In a (task_attempts (wd_db w)) -> a_state a <> AReserved ->
  attempt_executing (a_state a) = false ->
  In b (task_attempts (wd_db w')) -> a_worker_id b = a_worker_id a ->
  a_fencing_token b = a_fencing_token a -> attempt_executing (a_state b) = false.
Proof.
  intros Hw Hsteps Ha Hres Hend Hb Ew Ef. pose proof (inv_reachable _ Hw) as HI.
  destruct (attempt_executing (a_state b)) eqn:Hex; [|done]. exfalso.
  assert (reachable w') as HI'%inv_reachable.
  { destruct Hw as (w0 & H0 & Hr). exists w0. split; [done|by etransitivity]. }
  apply (lock_steps_stale (service_of (wd_db w)) (service_of (wd_db w')) (fence a))
    with (t := a_task_id b).
  - by apply steps_lock.
  - apply used_spec. exists a. split_and!; [done| |done]. unfold spent.
    by rewrite bool_decide_eq_false_2.
  - intros t (x & Hx & X & _ & Efx)%holder_spec; [|done].
    assert (x = a) as -> by (apply (NoDup_map_inj fence (task_attempts (wd_db w))); auto; apply HI).
    unfold executing in X. congruence.
  - apply holder_spec; [done|]. exists b. split_and!; try done. unfold fence. congruence.
Qed.
End Reachable.

(** ** A concrete run *)

Lemma demo_steps : rtc step demo_ready demo_finished.
Proof.
  apply (rtc_l _ _ demo_prepared); [unfold demo_prepared, run; apply StepPrepare|].
  apply (rtc_l _ _ demo_committed); [unfold demo_committed, run; apply StepCommit|].
  apply (rtc_l _ _ demo_leased); [unfold demo_leased, run; apply StepLease|].
  apply (rtc_l _ _ demo_running); [unfold demo_running, run; apply StepHeartbeat|].
  apply rtc_once. unfold demo_finished, run. apply StepFinish.
Qed.

Lemma gateway_refines_lock_service_witness :
  holder (service_of (wd_db demo_leased)) !! "tsk_2" = Some ("wrk_0", 2) /\
  rtc lock_step (service_of (wd_db demo_ready)) (service_of (wd_db demo_finished)).
Proof.
  split; [vm_compute; reflexivity|].
  exact (proj1 (proj2 (gateway_refines_lock_service demo_ready demo_finished demo_ready_reachable
                         demo_steps))).
Defined.

Lemma demo_late_step : rtc step demo_finished demo_late_cancel.
Proof. apply rtc_once. unfold demo_late_cancel, run. apply StepCancel. Qed.

Lemma demo_done_in : In demo_done (task_attempts (wd_db demo_finished)).
Proof. vm_compute. left. reflexivity. Qed.

Lemma demo_done_ended : a_state demo_done <> AReserved.
Proof. vm_compute. discriminate. Qed.

Lemma stale_tokens_stay_stale_witness :
  a_state demo_done = ASucceeded /\
  forall b, In b (task_attempts (wd_db demo_late_cancel)) ->
            a_worker_id b = a_worker_id demo_done -> a_fencing_token b = a_fencing_token demo_done ->
            attempt_executing (a_state b) = false.
Proof.
  split; [vm_compute; reflexivity|]. intros b.
  exact (stale_tokens_stay_stale demo_finished demo_late_cancel demo_done b demo_finished_reachable
           demo_late_step demo_done_in demo_done_ended eq_refl).
Defined.
