(* ===== verification/Provenance.v ===== *)
(** * Where grants come from

    A worker may run a workflow of its owner only after a maintenance job whose
    specification the owner's root key signed (through a certified device) has
    completed under its lease; it serves a workspace only after an admin's root
    key signed its keys and pool.  Completion is idempotent: a retried report is
    answered like the first and writes nothing. *)

From S2P Require Import Prelude Python Errors Schema Store Access Framing Metadata Diagnostics.
From S2P Require Import Capability Scheduler Fleet Usage Bytes Encoding Signing Grants.
From S2P Require Import Maintenance Scenario Invariant Lifecycle Upkeep Reach Fencing Departure.

Open Scope Z_scope.

Section Completion.
Context {E : Env}.

(** What the stored intent of a job was checked against. *)
Lemma intent_valid_spec d row spec :
  _maintenance_intent_is_historically_valid d row spec = true ->
  exists owner authorization issued_at,
    In owner (users d) /\ u_id owner = mj_issued_by_user_id row /\ u_status owner = UActive /\
    mj_authorization row = JDoc (JObj authorization) /\
    verify_maintenance_intent (JObj authorization) (u_root_signing_public_key owner)
      (mj_worker_id row) (mj_broker_id row) (job_kind_str (mj_kind row)) spec issued_at = true.
Proof.
  unfold _maintenance_intent_is_historically_valid.
  destruct (head _) as [owner|] eqn:Ho; [|done].
  apply head_select_some in Ho as [Hin Hp]. split_bools.
  destruct (mj_authorization row) as [[| | | | | |auth]|]; try done.
  destruct (jget "payload" auth) as [[| | | | | |payload]|]; try done.
  destruct (jget "issued_at" payload) as [[| |issued| | | |]|]; try done.
  intros Hv. by exists owner, auth, issued.
Qed.

(** The rows a job adds to the workflow authorizations. *)
Lemma insert_or_ignore_run {R K} `{EqDecision K} (table : db -> list R) `{!Setter table}
    (key : R -> K) ok r w u w' :
  (forall f d, table (modify table f d) = f (table d)) ->
  insert_or_ignore table key ok r w = (Ok u, w') ->
  forall x, In x (table (wd_db w')) -> In x (table (wd_db w)) \/ x = r.
Proof.
  intros Hset Hrun x Hx. unfold insert_or_ignore in Hrun. run_step. run_step.
  destruct (has_key _ _ _); run_step; [by left|]. flat_db. rewrite Hset in Hx.
  apply in_app_iff in Hx as [?|[<-|[]]]; auto.
Qed.

Lemma record_run row spec stamp w u w' :
  _record_maintenance_authorizations row spec stamp w = (Ok u, w') ->
  forall r, In r (worker_workflow_authorizations (wd_db w')) ->
    In r (worker_workflow_authorizations (wd_db w)) \/
    (mj_kind row = KCapabilityInstall /\
     exists ref digest models nodes,
       _bound_capability_identifiers spec = Some (ref, digest, models, nodes) /\
       r = Mk_workflow_auth_row (mj_worker_id row) (mj_id row) ref digest (mj_spec_digest row)
             (JDoc (JList (map JStr nodes))) stamp None).
Proof.
  intros Hrun r Hr. unfold _record_maintenance_authorizations in Hrun.
  destruct (_bound_capability_identifiers spec) as [[[[ref digest] models] nodes]|].
  2: { run_step. by left. }
  apply run_bind in Hrun as (u1 & w1 & H1 & H2).
  assert (worker_workflow_authorizations (wd_db w') = worker_workflow_authorizations (wd_db w1)) as Hs.
  { eapply run_stable; [|exact H2]. unfold insert_or_ignore. solve_stable. }
  rewrite Hs in Hr. clear Hs H2. destruct (mj_kind row =d KCapabilityInstall) eqn:Ek.
  - eapply insert_or_ignore_run in H1 as [?| ->]; [by left| |done|exact Hr]. right.
    split_bools. eauto 10.
  - run_step. by left.
Qed.

Lemma store_run row spec result succeeded worker_id stamp w u w' :
  store_completion row spec result succeeded worker_id stamp w = (Ok u, w') ->
  forall r, In r (worker_workflow_authorizations (wd_db w')) ->
    In r (worker_workflow_authorizations (wd_db w)) \/
    (mj_kind row = KCapabilityInstall /\ succeeded = true /\
     exists ref digest models nodes,
       _bound_capability_identifiers spec = Some (ref, digest, models, nodes) /\
       r = Mk_workflow_auth_row (mj_worker_id row) (mj_id row) ref digest (mj_spec_digest row)
             (JDoc (JList (map JStr nodes))) stamp None).
Proof.
  intros Hrun r Hr. unfold store_completion in Hrun.
  apply run_bind in Hrun as (u1 & w1 & H1 & Hrun). apply run_bind in Hrun as (u2 & w2 & H2 & Hrun).
  apply run_bind in Hrun as (u3 & w3 & H3 & Hrun).
  assert (worker_workflow_authorizations (wd_db w2) = worker_workflow_authorizations (wd_db w)) as Hb.
  { etransitivity; eapply run_stable; [|exact H2| |exact H1]; [solve_stable|solve_stable]. }
  assert (worker_workflow_authorizations (wd_db w') = worker_workflow_authorizations (wd_db w3)) as Hc.
  { eapply run_stable; [|exact Hrun]. unfold audit. solve_stable. }
  rewrite Hc in Hr. rewrite <- Hb. destruct (succeeded && grants_capabilities (mj_kind row)) eqn:Hs.
  - destruct (record_run _ _ _ _ _ _ H3 r Hr) as [?|[Hk Hx]]; [by left|]. right. split_bools. done.
  - apply run_ret in H3 as [_ ->]. by left.
Qed.

Lemma bound_identifiers spec ref digest models nodes :
  _bound_capability_identifiers spec = Some (ref, digest, models, nodes) ->
  jget "workflow_ref" spec = Some (JStr ref) /\ jget "workflow_digest" spec = Some (JStr digest).
Proof.
  unfold _bound_capability_identifiers. repeat case_match; try done. intros [= <- <- _ _].
  split; f_equal; done.
Qed.

(** Answering a repeated report reads the stored job only. *)
Lemma replay_run row succeeded result w stored w' :
  replay_completion row succeeded result w = (Ok stored, w') ->
  stored = row /\ w' = w /\ mj_state row = (if succeeded then MSucceeded else MFailed) /\
  forall w0, replay_completion row succeeded result w0 = (Ok row, w0).
Proof.
  unfold replay_completion, bind, mbind, M_bind, lift_res, raise, mret, M_ret.
  match goal with |- context [match mj_result row with _ => _ end] =>
    destruct (match mj_result row with
              | None => Ok (JObj [])
              | Some t => match json_loads_or (JObj []) t with
                          | Some v => Ok v
                          | None => Raise JSONDecodeError
                          end
              end) as [v|e] end; [|done].
  destruct (_ && _) eqn:Hb; [|done].
  destruct (_maintenance_job_value row false); [|done]. intros [= <- <-]. split_bools. done.
Qed.

(** A completion that was not a replay: what was checked before anything was
    written. *)
Lemma complete_run job_id worker_id session token succeeded result w v w' :
  complete_worker_maintenance job_id worker_id session token succeeded result w = (Ok v, w') ->
  exists row, fenced_job (wd_db w) job_id worker_id token = Some row /\
  ((mj_state row = (if succeeded then MSucceeded else MFailed) /\ wd_db w' = wd_db w /\
    (forall w0, replay_completion row succeeded result w0 = (Ok row, w0)) /\
    _maintenance_job_value row false = Ok v) \/
   (exists spec w1 w2 stored,
      completion_allowed row session succeeded result (clock (wd_ticks w)) = true /\
      mj_spec row = JDoc (JObj spec) /\
      result_valid (mj_kind row) spec result succeeded = Ok true /\
      (succeeded = true -> mj_kind row <> KWorkerUpdate ->
       _maintenance_intent_is_historically_valid (wd_db w) row spec = true) /\
      wd_db w1 = wd_db w /\
      store_completion row spec result succeeded worker_id (clock (wd_ticks w)) w1 = (Ok tt, w2) /\
      wd_db w' = wd_db w2 /\ job_by_id (wd_db w2) job_id = Some stored /\
      _maintenance_job_value stored false = Ok v)).
Proof.
  unfold complete_worker_maintenance. intros Hrun.
  apply run_bind in Hrun as (stamp & w0 & Hnow & Hrun). unfold now in Hnow. injection Hnow as <- <-.
  apply run_bind in Hrun as (stored & w9 & Hrun & Hview). apply run_lift in Hview as [Hview ->].
  apply run_transaction in Hrun. run_step. run_step. run_step. run_step. simpl in *.
  match goal with H : fenced_job _ _ _ _ = Some ?r |- _ => exists r; split; [exact H|] end.
  match type of Hrun with (if ?b then _ else _) _ = _ => destruct b eqn:Hfinal end.
  - left. apply replay_run in Hrun as (-> & -> & Hst & Hreplay). done.
  - right. run_all.
    match goal with H : (if ?b && _ && _ then _ else _) = true |- _ =>
      rename H into Hauth; assert (b = true) as -> by (by destruct b) end.
    match goal with H : load_json _ = Ok ?j, H' : as_dict ?j = Ok ?spec |- _ =>
      unfold load_json in H; destruct (mj_spec _); [|done]; injection H as ->;
      destruct j; try done; injection H' as ->; exists spec end.
    match goal with H : store_completion _ _ _ _ _ _ ?w1 = (Ok ?u, ?w2) |- _ =>
      destruct u; exists w1, w2, stored end.
    split_and!; try done. intros -> Hk.
    by rewrite bool_decide_eq_false_2 in Hauth.
Qed.

(** C9: a workflow becomes authorized on a worker only by its owner's
    signature.  When a completion adds a workflow authorization, the worker
    reported the success of a capability installation it held under an unlapsed
    lease and the current fencing token, and the job carries an intent for exactly
    this worker, broker, action and specification that verifies under the root
    key of the active user who issued it; the authorization names the release of
    that specification. *)
Theorem grants_need_signed_intent job_id worker_id session token succeeded result w v w' r :
  complete_worker_maintenance job_id worker_id session token succeeded result w = (Ok v, w') ->
  In r (worker_workflow_authorizations (wd_db w')) ->
  ~ In r (worker_workflow_authorizations (wd_db w)) ->
  exists row spec owner authorization issued_at,
    In row (worker_maintenance_jobs (wd_db w)) /\ mj_id row = job_id /\
    mj_worker_id row = worker_id /\ mj_fencing_token row = token /\
    job_leased (mj_state row) = true /\ lease_unexpired row (clock (wd_ticks w)) = true /\
    mj_kind row = KCapabilityInstall /\ succeeded = true /\
    wa_worker_id r = worker_id /\ wa_authorization_source_id r = job_id /\ wa_revoked_at r = None /\
    mj_spec row = JDoc (JObj spec) /\
    jget "workflow_ref" spec = Some (JStr (wa_workflow_ref r)) /\
    jget "workflow_digest" spec = Some (JStr (wa_workflow_digest r)) /\
    In owner (users (wd_db w)) /\ u_id owner = mj_issued_by_user_id row /\
    u_status owner = UActive /\ mj_authorization row = JDoc (JObj authorization) /\
    verify_maintenance_intent (JObj authorization) (u_root_signing_public_key owner) worker_id
      (mj_broker_id row) "capability_install" spec issued_at = true.
Proof.
  intros Hrun Hr Hnew. apply complete_run in Hrun as (row & Hrow & [(_ & Hd & _)|Hrun]);
    [by rewrite Hd in Hr|].
  destruct Hrun as (spec & w1 & w2 & stored & Hallow & Hspec & _ & Hauth & Hw1 & Hstore & Hw2 & _).
  apply head_select_some in Hrow as [Hin Hp]. rewrite Hw2 in Hr. rewrite <- Hw1 in Hnew.
  destruct (store_run _ _ _ _ _ _ _ _ _ Hstore r Hr)
    as [?|(Hk & -> & ref & dg & ms & ns & Hb & ->)]; [done|].
  destruct (intent_valid_spec _ _ _ (Hauth eq_refl ltac:(by rewrite Hk)))
    as (owner & auth & issued & Ho & Eo & Hact & Ha & Hv).
  unfold completion_allowed, _MAINTENANCE_LEASE_STATES in Hallow. split_bools.
  apply bound_identifiers in Hb as [Href Hdg].
  match goal with H : mj_worker_id row = _ |- _ => rewrite <- H end.
  rewrite Hk in Hv. exists row, spec, owner, auth, issued. by split_and!.
Qed.

(** ** Repeated reports *)

(** The row of a job after its completion was stored. *)
Definition completed_row (result : dict) (succeeded : bool) (stamp : Z) (j : job_row) : job_row :=
  j <| mj_state := if succeeded then MSucceeded else MFailed |>
    <| mj_result := Some (JDoc (JObj result)) |>
    <| mj_completed_at := Some stamp |> <| mj_updated_at := stamp |> <| mj_lease_expires_at := None |>.

Lemma store_jobs row spec result succeeded worker_id stamp w u w' :
  store_completion row spec result succeeded worker_id stamp w = (Ok u, w') ->
  worker_maintenance_jobs (wd_db w') =
  update (fun j => mj_id j =d mj_id row) (completed_row result succeeded stamp)
    (worker_maintenance_jobs (wd_db w)).
Proof.
  intros Hrun. unfold store_completion in Hrun. apply run_bind in Hrun as (u1 & w1 & H1 & Hrun).
  apply run_update in H1 as [_ H1].
  assert (worker_maintenance_jobs (wd_db w') = worker_maintenance_jobs (wd_db w1)) as ->.
  { eapply run_stable; [|exact Hrun]. unfold audit, _record_maintenance_authorizations,
      insert_or_ignore. solve_stable. }
  by rewrite H1.
Qed.

(** In a table with unique identifiers, a query that fixes the identifier finds the
    row it names. *)
Lemma head_select_id (l : list job_row) p j :
  NoDup (map mj_id l) -> In j l -> p j = true ->
  (forall x, In x l -> p x = true -> mj_id x = mj_id j) -> head (select p l) = Some j.
Proof.
  intros Hd Hj Hp Hid. destruct (head (select p l)) as [x|] eqn:Hx.
  - apply head_select_some in Hx as [Hin Hpx]. f_equal.
    apply (NoDup_map_inj mj_id l); auto.
  - apply head_none, select_nil with (x := j) in Hx; [congruence|done].
Qed.

(** Completion is idempotent.  Once a report has been accepted, the same
    report under the same fencing token, from any session and at any later time, is
    answered with the same view of the job and writes nothing. *)
Theorem completion_replay job_id worker_id session session' token succeeded result w v w' ticks draws :
  NoDup (map mj_id (worker_maintenance_jobs (wd_db w))) ->
  json_eqb (JObj result) (JObj result) = true ->
  complete_worker_maintenance job_id worker_id session token succeeded result w = (Ok v, w') ->
  exists w'',
    complete_worker_maintenance job_id worker_id session' token succeeded result
      (MkWorld (wd_db w') ticks draws) = (Ok v, w'') /\ wd_db w'' = wd_db w'.
Proof.
  intros Hd Hrefl Hrun. apply complete_run in Hrun as (row & Hrow & Hcase).
  assert (exists final, fenced_job (wd_db w') job_id worker_id token = Some final /\
            mj_state final = (if succeeded then MSucceeded else MFailed) /\
            (forall w0, replay_completion final succeeded result w0 = (Ok final, w0)) /\
            _maintenance_job_value final false = Ok v) as (final & Hf & Hst & Hreplay & Hview).
  { destruct Hcase as [(Hst & -> & Hreplay & Hview)|Hrun]; [by eauto|].
    destruct Hrun as (spec & w1 & w2 & stored & _ & _ & _ & _ & Hw1 & Hstore & -> & Hst & Hview).
    apply store_jobs in Hstore. rewrite Hw1 in Hstore.
    pose proof Hrow as [Hin Hp]%head_select_some. split_bools.
    set (final := completed_row result succeeded (clock (wd_ticks w)) row).
    assert (In final (worker_maintenance_jobs (wd_db w2))) as Hfin.
    { rewrite Hstore. apply in_update. exists row. split; [done|]. left.
      by rewrite bool_decide_eq_true_2. }
    assert (NoDup (map mj_id (worker_maintenance_jobs (wd_db w2)))) as Hd2
      by (by rewrite Hstore, update_map_inv).
    assert (stored = final) as ->.
    { apply find_by_some in Hst as [Hs Es].
      apply (NoDup_map_inj mj_id (worker_maintenance_jobs (wd_db w2))); auto. simpl. congruence. }
    exists final. split_and!; [|done| |done].
    - apply head_select_id; auto.
      + simpl. rewrite !bool_decide_eq_true_2 by done. simpl. lia.
      + intros x _ Hx. split_bools. simpl. congruence.
    - intros w0. unfold replay_completion, bind, mbind, M_bind, lift_res, mret, M_ret.
      change (mj_result final) with (Some (JDoc (JObj result))). cbn [json_loads_or].
      by rewrite bool_decide_eq_true_2, Hrefl, Hview. }
  eexists (MkWorld (wd_db w') (S ticks) draws). split; [|done].
  unfold complete_worker_maintenance, bind, mbind, M_bind, now, transaction, query, require. simpl.
  rewrite Hf. simpl.
  assert ((mj_state final =d MSucceeded) || (mj_state final =d MFailed) = true) as ->
    by (rewrite Hst; by destruct succeeded).
  rewrite Hreplay. unfold lift_res. by rewrite Hview.
Qed.
End Completion.

(** ** Allocations *)

Section Allocation.
Context {E : Env}.

(** The signed payload of an accepted proof agrees with every expected field. *)
Lemma allocation_proof_accepted proof key expected current skew :
  verify_allocation_proof proof key expected current skew = Ok true ->
  exists payload signature text,
    (p ← jitem "payload" proof; py_dict p) = Ok payload /\
    (forall k v, In (k, v) expected -> json_eqb (jget_or k JNull payload) v = true) /\
    canonical_json (JObj payload) = Ok text /\
    ed_verify key signature (ALLOCATION_PROOF_CONTEXT ++ [x00] ++ text) = true.
Proof.
  unfold verify_allocation_proof. destruct (blen key =? 32); [|done].
  destruct (allocation_proof_parts proof key) as [[[payload signature] issued]|e] eqn:Hparts;
    [|by destruct e].
  destruct (_ <? _); [done|]. destruct (existsb _ _) eqn:Hex; [done|].
  intros (text & Ht & Hv%verified_message)%res_bind_ok.
  exists payload, signature, text. split_and!; try done.
  - unfold allocation_proof_parts in Hparts. apply res_bind_ok in Hparts as (p & -> & Hparts).
    apply res_bind_ok in Hparts as (q & Hq & Hparts). unfold bind, mbind, res_bind.
    assert (q = payload) as <-; [|done].
    repeat apply res_bind_ok in Hparts as (? & _ & Hparts). cbv zeta in Hparts.
    destruct (_ && _); [by injection Hparts|done].
  - intros k v Hin. pose proof (existsb_false _ _ Hex (k, v) Hin) as H. simpl in H.
    by destruct (json_eqb _ _).
Qed.

Lemma json_eqb_str v s : json_eqb v (JStr s) = true -> v = JStr s.
Proof. by apply json_is_spec. Qed.

Lemma jget_or_str k d s : jget_or k JNull d = JStr s -> jget k d = Some (JStr s).
Proof. unfold jget_or. by destruct (jget k d) as [v|]; [intros ->|]. Qed.

Lemma allocation_proof_binds allocation worker root proof current :
  allocation_proof_valid allocation worker root proof current = Ok true ->
  exists key payload signature text,
    b64url_decode root (Some 32) = Ok key /\ jget "payload" proof = Some (JObj payload) /\
    jget "allocation_id" payload = Some (JStr (al_id allocation)) /\
    jget "workspace_id" payload = Some (JStr (al_workspace_id allocation)) /\
    jget "pool_id" payload = Some (JStr (al_pool_id allocation)) /\
    jget "worker_id" payload = Some (JStr (al_worker_id allocation)) /\
    jget "worker_signing_public_key" payload = Some (JStr (w_signing_public_key worker)) /\
    jget "worker_encryption_public_key" payload = Some (JStr (w_encryption_public_key worker)) /\
    canonical_json (JObj payload) = Ok text /\
    ed_verify key signature (ALLOCATION_PROOF_CONTEXT ++ [x00] ++ text) = true.
Proof.
  unfold allocation_proof_valid. intros Hv.
  match type of Hv with match ?r with _ => _ end = _ =>
    assert (r = Ok true) as H by (destruct r as [|[]]; done) end.
  clear Hv. apply res_bind_ok in H as (key & Hkey & H). apply res_bind_ok in H as (expected & He & H).
  apply allocation_proof_accepted in H as (payload & signature & text & Hp & Hfields & Ht & Hs).
  unfold expected_allocation_proof in He. apply res_bind_ok in He as (p & Hitem & He).
  apply res_bind_ok in He as (q & Hq & He). destruct p as [| | | | | |fields]; try done.
  injection Hq as <-. rewrite Hitem in Hp. injection Hp as ->.
  do 5 apply res_bind_ok in He as (? & _ & He). unfold build_allocation_proof_payload in He.
  destruct (_ <=? 0); [done|]. apply res_bind_ok in He as (digest & _ & [= <-]).
  exists key, payload, signature, text. unfold jitem in Hitem.
  destruct (jget "payload" proof); [injection Hitem as ->|done].
  split_and!; try done; apply jget_or_str, json_eqb_str, Hfields; simpl; auto 10.
Qed.

Lemma require_admin_run ws user w m w' :
  require_admin ws (Some user) w = (Ok m, w') ->
  w' = w /\ In m (memberships (wd_db w)) /\ mb_workspace_id m = ws /\ mb_user_id m = user /\
  mb_status m = SActive /\ is_admin_role (mb_role m) = true.
Proof.
  unfold require_admin, require_member, membership, truthy_id. intros Hrun. repeat run_step.
  destruct (String.eqb user ""); [done|].
  match goal with H : head _ = Some _ |- _ => apply head_select_some in H as [? ?] end.
  split_bools. done.
Qed.

Lemma require_user_run user w u w' :
  require_user (Some user) w = (Ok u, w') ->
  w' = w /\ In u (users (wd_db w)) /\ u_id u = user /\ u_status u = UActive.
Proof.
  unfold require_user, truthy_id. intros Hrun. destruct (String.eqb user ""); [by run_step|].
  repeat run_step.
  match goal with H : head _ = Some _ |- _ => apply head_select_some in H as [? ?] end.
  split_bools. done.
Qed.

(** C10: a worker serves a pool only by an admin's signature.  When
    [approve_allocation] returns, the acting user is active and an owner or admin
    of the allocation's workspace, the proof is a statement signed under that
    user's root key that names this allocation, its workspace, pool and worker and
    the worker's current signing and encryption keys, and exactly this allocation
    has been activated. *)
Theorem allocation_needs_admin_signature allocation_id user proof w r w' :
  approve_allocation allocation_id user proof w = (Ok r, w') ->
  exists allocation worker admin member payload key signature text stamp,
    In allocation (worker_allocations (wd_db w)) /\ al_id allocation = allocation_id /\
    In worker (workers (wd_db w)) /\ w_id worker = al_worker_id allocation /\
    In admin (users (wd_db w)) /\ u_id admin = user /\ u_status admin = UActive /\
    In member (memberships (wd_db w)) /\ mb_workspace_id member = al_workspace_id allocation /\
    mb_user_id member = user /\ mb_status member = SActive /\ is_admin_role (mb_role member) = true /\
    jget "payload" proof = Some (JObj payload) /\
    jget "allocation_id" payload = Some (JStr allocation_id) /\
    jget "workspace_id" payload = Some (JStr (al_workspace_id allocation)) /\
    jget "pool_id" payload = Some (JStr (al_pool_id allocation)) /\
    jget "worker_id" payload = Some (JStr (al_worker_id allocation)) /\
    jget "worker_signing_public_key" payload = Some (JStr (w_signing_public_key worker)) /\
    jget "worker_encryption_public_key" payload = Some (JStr (w_encryption_public_key worker)) /\
    b64url_decode (u_root_signing_public_key admin) (Some 32) = Ok key /\
    canonical_json (JObj payload) = Ok text /\
    ed_verify key signature (ALLOCATION_PROOF_CONTEXT ++ [x00] ++ text) = true /\
    worker_allocations (wd_db w') =
      update (fun a => al_id a =d allocation_id)
        (fun a => a <| al_workspace_approved_at := Some stamp |>
                    <| al_approved_by_user_id := Some user |>
                    <| al_allocation_proof := Some (JDoc (JObj proof)) |>
                    <| al_status := AlActive |> <| al_updated_at := stamp |>)
        (worker_allocations (wd_db w)).
Proof.
  intros Hrun. unfold approve_allocation in Hrun.
  apply run_bind in Hrun as (row & w0 & Hq & Hrun). apply run_query in Hq as [-> ->].
  apply run_bind in Hrun as ([allocation worker] & w0 & Hq & Hrun).
  apply run_require in Hq as [Hq ->]. unfold bind at 1 2, mbind, option_bind in Hq.
  destruct (find_by al_id _ _) as [a|] eqn:Ha; [|done].
  destruct (find_by w_id _ _) as [x|] eqn:Hx; [|done]. injection Hq as -> ->.
  apply find_by_some in Ha as [Ha Ea]. apply find_by_some in Hx as [Hx Ex].
  apply run_bind in Hrun as (member & w1 & Hm & Hrun).
  apply require_admin_run in Hm as (-> & Hm).
  apply run_bind in Hrun as (admin & w1 & Hu & Hrun).
  apply require_user_run in Hu as (-> & Hu).
  apply run_bind in Hrun as (current & w1 & Hn%run_now & Hrun).
  apply run_bind in Hrun as (valid & w2 & Hv & Hrun). apply run_lift in Hv as [Hv ->].
  apply run_bind in Hrun as ([] & w2 & Hc & Hrun). apply run_check in Hc as [-> ->].
  apply run_bind in Hrun as (stamp & w2 & Hn2%run_now & Hrun).
  apply run_bind in Hrun as (n & w3 & Hs & Hrun). apply run_update in Hs as [_ Hs].
  apply run_query in Hrun as [_ ->].
  apply allocation_proof_binds in Hv as (key & payload & signature & text & Hv).
  exists allocation, worker, admin, member, payload, key, signature, text, stamp.
  rewrite Hs, Hn2, Hn. destruct Hm as (? & ? & ? & ? & ?), Hu as (? & ? & ?).
  destruct Hv as (? & ? & ? & ? & ? & ? & ? & ? & ? & ?). rewrite Ea in *. by split_and!.
Qed.
End Allocation.

(** ** Concrete runs

    Under the stand-in primitives of [Signing.Toy]: an owner whose root key
    certifies a device, a worker with a claimed capability installation, and an
    offered allocation. *)

Module Concrete.
Import Signing.Toy.

Definition release : string := "sha256:0123456789abcdef0123456789abcdef0123456789abcdef0123456789abcdef".
Definition install : dict :=
  [("workflow_ref", JStr "vgen/demo@1.0.0"); ("workflow_digest", JStr release);
   ("artifact_sha256", JStr release); ("model_digests", JList [])].
Definition install_intent : dict :=
  Eval vm_compute in
    match (p ← build_maintenance_intent_payload "wrk_1" "brk_1" "capability_install" install "dev_1"
                 2000 3000 "0123456789abcdef";
           sign_maintenance_intent device certificate p) with
    | Ok i => i
    | Raise _ => []
    end.

Definition owner : user_row := Mk_user_row "usr_1" "Owner" root_text "enc" UActive false 0 0.
Definition worker : worker_row :=
  Mk_worker_row "wrk_1" "usr_1" (Some "brk_1") "Box" "sign-1" "enc-1" (Some "{}") "comfyui" "0.3.40"
    (JDoc (JObj [])) 1 WActive 0 None None 0 0 None.
Definition job : job_row :=
  Mk_job_row "mtj_1" "wrk_1" "brk_1" "usr_1" "dev_1" KCapabilityInstall (JDoc (JObj install)) release
    (JDoc (JObj install_intent)) "dedupe" MRunning (JDoc (JObj [])) None 1 (Some "ses_1")
    (Some (seconds 60)) (Some 0) (seconds 3000) 0 0 None.
Definition offer : allocation_row :=
  Mk_allocation_row "wal_1" "wrk_1" "wsp_1" "pol_1" (Some (seconds 1)) None None None AlOffered 0 0
    None.
Definition start : world :=
  MkWorld (empty_db <| users := [owner] |> <| workers := [worker] |>
             <| memberships := [Mk_membership_row "wsp_1" "usr_1" RoleOwner SActive 0 None] |>
             <| worker_allocations := [offer] |> <| worker_maintenance_jobs := [job] |>) 0 0.

Definition report : dict :=
  [("kind", JStr "capability_install"); ("status", JStr "activated");
   ("workflow_ref", JStr "vgen/demo@1.0.0"); ("workflow_digest", JStr release);
   ("artifact_sha256", JStr release); ("ready", JBool true)].
Definition outcome : job_view :=
  Eval vm_compute in
    match fst (complete_worker_maintenance "mtj_1" "wrk_1" "ses_1" 1 true report start) with
    | Ok v => v
    | Raise _ => MkJobView job JNull None JNull None None
    end.
Definition granted : workflow_auth_row :=
  Mk_workflow_auth_row "wrk_1" "mtj_1" "vgen/demo@1.0.0" release release (JDoc (JList [])) 0 None.

Lemma report_accepted :
  complete_worker_maintenance "mtj_1" "wrk_1" "ses_1" 1 true report start =
  (Ok outcome, run (complete_worker_maintenance "mtj_1" "wrk_1" "ses_1" 1 true report) start).
Proof. apply run_ok. vm_compute. reflexivity. Qed.

Lemma grants_need_signed_intent_witness :
  exists row o authorization issued_at,
    In row (worker_maintenance_jobs (wd_db start)) /\ In o (users (wd_db start)) /\
    mj_authorization row = JDoc (JObj authorization) /\
    verify_maintenance_intent (JObj authorization) (u_root_signing_public_key o) "wrk_1"
      (mj_broker_id row) "capability_install" install issued_at = true.
Proof.
  destruct (grants_need_signed_intent "mtj_1" "wrk_1" "ses_1" 1 true report start outcome
              (run (complete_worker_maintenance "mtj_1" "wrk_1" "ses_1" 1 true report) start) granted)
    as (row & spec & o & auth & issued & H1 & _ & _ & _ & _ & _ & _ & _ & _ & _ & _ & Hspec & _ & _ &
        H2 & _ & _ & H3 & H4).
  - exact report_accepted.
  - vm_compute. left. reflexivity.
  - vm_compute. intros [].
  - destruct H1 as [<-|[]]. injection Hspec as <-. exists job, o, auth, issued.
    split; [left; reflexivity|]. split; [exact H2|]. split; [exact H3|exact H4].
Defined.

Lemma completion_replay_witness :
  exists w'', complete_worker_maintenance "mtj_1" "wrk_1" "ses_2" 1 true report
    (MkWorld (wd_db (run (complete_worker_maintenance "mtj_1" "wrk_1" "ses_1" 1 true report) start))
       9 9) = (Ok outcome, w'').
Proof.
  destruct (completion_replay "mtj_1" "wrk_1" "ses_1" "ses_2" 1 true report start outcome
              (run (complete_worker_maintenance "mtj_1" "wrk_1" "ses_1" 1 true report) start) 9 9)
    as (w'' & H & _).
  - apply (bool_decide_eq_true_1 (NoDup ["mtj_1"])). vm_compute. reflexivity.
  - vm_compute. reflexivity.
  - exact report_accepted.
  - exists w''. exact H.
Defined.

Definition proof : dict :=
  Eval vm_compute in
    match (id ← root_signing_key_id (ed_public root);
           p ← build_allocation_proof_payload "wal_1" "wsp_1" "pol_1" "wrk_1" "sign-1" "enc-1"
                 (JDoc (JObj [])) (seconds 1) id 10;
           sign_allocation_proof root p) with
    | Ok p => p
    | Raise _ => []
    end.

Lemma allocation_needs_admin_signature_witness :
  exists payload, jget "payload" proof = Some (JObj payload) /\
    jget "worker_signing_public_key" payload = Some (JStr "sign-1").
Proof.
  destruct (allocation_needs_admin_signature "wal_1" "usr_1" proof start
              (Some (offer <| al_workspace_approved_at := Some (seconds 1) |>
                           <| al_approved_by_user_id := Some "usr_1" |>
                           <| al_allocation_proof := Some (JDoc (JObj proof)) |>
                           <| al_status := AlActive |> <| al_updated_at := seconds 1 |>))
              (run (approve_allocation "wal_1" "usr_1" proof) start))
    as (a & x & u & m & payload & key & sig & text & stamp & Ha & _ & Hx & Ex & _ & _ & _ & _ & _ & _ &
        _ & _ & Hp & _ & _ & _ & _ & Hk & _).
  - apply run_ok. vm_compute. reflexivity.
  - exists payload. split; [exact Hp|]. destruct Hx as [<-|[]]. exact Hk.
Defined.
End Concrete.
