(* ===== verification/Onboarding.v ===== *)
(** * What admits a worker

    A worker is registered by an approval only under the signatures of its owner and of the
    admin that invited it, with the keys that claimed the invite; and an admin that did not
    invite it can still end its enrollment through the decisions of other kinds. *)

From stdpp Require Import relations.
From S2P Require Import Prelude Python Bytes Errors Schema Store Access Metadata Framing Capability Scheduler Fleet.
From S2P Require Import Encoding Signing Grants Maintenance Invariant Lifecycle Requests Sessions Enrollment Recipients.
From S2P Require Import Auth Fencing Departure Onboard Joining Rotation Provenance.

Open Scope Z_scope.

Section Onboarding.
Context {E : Env}.

(** ** The registration *)

(** What stays of a worker under the later statements of the registration. *)
Definition identity_of (w : worker_row) :=
  (w_id w, w_owner_user_id w, w_signing_public_key w, w_encryption_public_key w, w_certificate w, w_status w).

Lemma identity_update p f l :
  (forall w, identity_of (f w) = identity_of w) -> map identity_of (update p f l) = map identity_of l.
Proof. intros Hf. unfold update. rewrite map_map. apply map_ext. intros w. by destruct (p w). Qed.

#[local] Hint Resolve frames_reconcile : frames.

Lemma registered_worker row record config claim certificate proof u stamp w x w' worker :
  register_invited_worker row record config claim certificate proof u stamp w = (Ok x, w') ->
  In worker (workers (wd_db w')) -> ~ In (w_id worker) (map w_id (workers (wd_db w))) ->
  text_item "worker_id" config = Ok (w_id worker) /\ w_owner_user_id worker = u /\
  text_item "signing_public_key" claim = Ok (w_signing_public_key worker) /\
  text_item "encryption_public_key" claim = Ok (w_encryption_public_key worker) /\
  w_certificate worker = Some (json_text (JObj certificate)).
Proof.
  intros Hrun Hin Hnew. unfold register_invited_worker, _initialize_worker_capability_state in Hrun. run_all.
  all: repeat match goal with H : core_eq _ _ |- _ => destruct H as (_ & _ & _ & H & _) end.
  all: match goal with H : wd_db _ = modify workers (fun t => t ++ [?r]) (wd_db ?w), _ : In _ (workers (wd_db ?w')) |- _ =>
    assert (map identity_of (workers (wd_db w')) = map identity_of (workers (wd_db w)) ++ [identity_of r]) as Hids
      by (repeat match goal with
          | H : workers (wd_db ?a) = _ |- context [workers (wd_db ?a)] => rewrite H
          | H : wd_db ?a = _ |- context [workers (wd_db ?a)] => rewrite H; simpl
          end; rewrite ?identity_update by (intros ?; done); by rewrite map_app) end.
  all: apply (in_map identity_of) in Hin; rewrite Hids in Hin; apply in_app_iff in Hin as [(o & Ho & Hin)%in_map_iff|Hin];
    [destruct Hnew; apply in_map_iff; exists o; unfold identity_of in Ho; split; congruence|].
  all: destruct Hin as [Hin|[]]; unfold identity_of in Hin; simpl in Hin; injection Hin as <- <- <- <- <- _; by split_and!.
Qed.

(** ** What was signed *)

(** The claim names the invite and the signing key, and the key signed the claim. *)
Definition worker_proved (claim : dict) (proof invite_id signing_public_key : string) : Prop :=
  exists text key signature,
    jget "invite_id" claim = Some (JStr invite_id) /\
    jget "signing_public_key" claim = Some (JStr signing_public_key) /\
    b64url_decode signing_public_key (Some 32) = Ok key /\ b64url_decode proof (Some 64) = Ok signature /\
    canonical_json (JObj claim) = Ok text /\
    ed_verify key signature (_WORKER_ENROLLMENT_CONTEXT ++ [Byte.x00] ++ text) = true.

(** The root key certified the keys of the worker. *)
Definition owner_certified (root : bytes) (w : worker_row) : Prop :=
  exists manifest, manifest_signed root manifest /\
    jget "kind" manifest = Some (JStr "vgen-worker-owner-certificate") /\
    jget "worker_signing_public_key" manifest = Some (JStr (w_signing_public_key w)) /\
    jget "worker_encryption_public_key" manifest = Some (JStr (w_encryption_public_key w)).

(** The root key admitted the worker, under its keys, to the workspace and pool of the enrollment. *)
Definition pool_admitted (root : bytes) (e : enrollment_row) (proof : dict) (w : worker_row) : Prop :=
  exists payload signature text,
    jget "payload" proof = Some (JObj payload) /\
    jget "workspace_id" payload = Some (JStr (str_or_empty (en_workspace_id e))) /\
    jget "pool_id" payload = Some (JStr (str_or_empty (en_pool_id e))) /\
    jget "worker_id" payload = Some (JStr (w_id w)) /\
    jget "worker_signing_public_key" payload = Some (JStr (w_signing_public_key w)) /\
    jget "worker_encryption_public_key" payload = Some (JStr (w_encryption_public_key w)) /\
    canonical_json (JObj payload) = Ok text /\
    ed_verify root signature (ALLOCATION_PROOF_CONTEXT ++ [Byte.x00] ++ text) = true.

Lemma text_item_jget k d s : text_item k d = Ok s -> jget k d = Some (JStr s).
Proof. unfold text_item, jitem. destruct (jget k d) as [[]|]; cbn; congruence. Qed.

Lemma or_invalid_ok {A} (d : A) r x : or_invalid d r = Ok x -> x <> d -> r = Ok x.
Proof. destruct r as [|[]]; simpl; intros [= <-]; done. Qed.

Lemma bound_text claim k manifest k' s :
  bound claim k manifest k' = true -> jget k claim = Some (JStr s) -> jget k' manifest = Some (JStr s).
Proof. unfold bound. intros Hb Hc. rewrite Hc in Hb. destruct (jget k' manifest); [|done]. by apply json_eqb_str in Hb as ->. Qed.

Lemma item_text k d s : json_is (jget_or k JNull d) s = true -> jget k d = Some (JStr s).
Proof. intros H. by apply jget_or_str, json_is_spec. Qed.

(** A stored field of the claim is the field presented. *)
Lemma safe_claim_field claim safe k s :
  _safe_worker_enrollment_claim claim = Ok safe -> In k SAFE_CLAIM_FIELDS -> jget k safe = Some (JStr s) ->
  jitem k claim = Ok (JStr s).
Proof.
  unfold _safe_worker_enrollment_claim. intros H Hk Hs.
  apply res_bind_ok in H as (executor & _ & H). apply res_bind_ok in H as (items & Hi & H).
  apply res_bind_ok in H as (capabilities & _ & [= <-]).
  rewrite jget_jset_ne in Hs by (intros <-; cbn in Hk; naive_solver). apply res_map_ok in Hi. clear Hk.
  unfold jget in Hs. induction Hi as [|k0 [k1 v] ks items Hf Hi IH]; [done|]. simpl in Hf, Hs.
  apply res_bind_ok in Hf as (v0 & Hv & [= <- <-]).
  destruct (String.eqb_spec k0 k) as [->|_]; [by injection Hs as ->|by apply IH].
Qed.

Lemma claims_proved i secret claim proof e safe key :
  claims i secret claim proof e safe -> jget "signing_public_key" safe = Some (JStr key) ->
  worker_proved claim proof i key.
Proof.
  intros (_ & _ & Hi & Hs & keys & Hv) Hk.
  apply (safe_claim_field claim) in Hk; [|done|simpl; auto 10].
  assert (jget "signing_public_key" claim = Some (JStr key)) as Hsk
    by (unfold jitem in Hk; destruct (jget "signing_public_key" claim); [by injection Hk as ->|done]).
  unfold _verify_worker_enrollment_claim in Hv. apply res_bind_ok in Hv as ([x|] & Hv & H); [injection H as ->|done].
  apply or_invalid_ok in Hv; [|done]. unfold check_worker_claim in Hv. rewrite Hk in Hv.
  apply res_bind_ok in Hv as (v & [= <-] & Hv). apply res_bind_ok in Hv as (signing & Hpk & Hv).
  apply res_bind_ok in Hv as (v & _ & Hv). apply res_bind_ok in Hv as (encryption & _ & Hv).
  apply res_bind_ok in Hv as (signature & Hpf & Hv). apply res_bind_ok in Hv as (key_id & _ & Hv). cbv zeta in Hv.
  destruct (negb _); [done|]. apply res_bind_ok in Hv as (text & Ht & Hv).
  apply res_bind_ok in Hv as (signed & Hsig & Hv). destruct signed; [|done].
  exists text, signing, signature. split_and!; [by apply item_text|done..|by apply verify_run].
Qed.

Lemma certificate_run given root claim claimed_at stamp certificate key root_id w :
  check_owner_certificate given root claim claimed_at stamp = Ok (Some (certificate, key, root_id)) ->
  text_item "signing_public_key" claim = Ok (w_signing_public_key w) ->
  text_item "encryption_public_key" claim = Ok (w_encryption_public_key w) ->
  b64url_decode root (Some 32) = Ok key /\ owner_certified key w.
Proof.
  unfold check_owner_certificate. intros H Hsk Hek. apply text_item_jget in Hsk, Hek.
  apply res_bind_ok in H as (document & _ & H). apply res_bind_ok in H as (c & _ & H).
  apply res_bind_ok in H as (m & Hm & H). apply res_bind_ok in H as (k & Hk & H).
  apply res_bind_ok in H as (i & _ & H). apply res_bind_ok in H as (manifest & Hd & H).
  apply res_bind_ok in H as (issued & _ & H). destruct (negb _) eqn:Hg; [done|].
  apply res_bind_ok in H as (signed & Hs & H). destruct signed; [|done]. injection H as -> -> ->.
  split; [done|]. destruct m as [| | | | | |fields]; try done. injection Hd as ->.
  unfold jitem in Hm. destruct (jget "manifest" certificate) as [v|] eqn:Hj; [|done]. injection Hm as ->.
  exists manifest. split; [by eapply key_manifest_run|]. unfold manifest_binds in Hg. split_bools.
  split_and!; [by apply item_text|by eapply bound_text..].
Qed.

Lemma allocation_run row record config claim certificate key root_id proof current w :
  worker_allocation_valid row record config claim certificate key root_id proof current = Ok true ->
  text_item "worker_id" config = Ok (w_id w) ->
  text_item "signing_public_key" claim = Ok (w_signing_public_key w) ->
  text_item "encryption_public_key" claim = Ok (w_encryption_public_key w) ->
  pool_admitted key row proof w.
Proof.
  unfold worker_allocation_valid. intros H%or_invalid_ok Hw Hs He; [|done].
  apply res_bind_ok in H as ([[payload expected] issued_at] & Hx & H). destruct (negb _); [done|].
  apply allocation_proof_accepted in H as (q & signature & text & Hp & Hf & Ht & Hv).
  unfold expected_worker_allocation in Hx. apply res_bind_ok in Hx as (p & Hitem & Hx).
  apply res_bind_ok in Hx as (d & Hd & Hx). destruct p as [| | | | | |fields]; try done. injection Hd as ->.
  rewrite Hitem in Hp. injection Hp as ->. apply res_bind_ok in Hx as (allocation & _ & Hx).
  rewrite Hw, Hs, He in Hx. do 3 apply res_bind_ok in Hx as (? & [= <-] & Hx).
  do 4 apply res_bind_ok in Hx as (? & _ & Hx). apply res_bind_ok in Hx as (built & Hb & [= _ -> _]).
  unfold build_allocation_proof_payload in Hb. destruct (_ <=? 0); [done|].
  apply res_bind_ok in Hb as (digest & _ & [= <-]). exists q, signature, text.
  unfold jitem in Hitem. destruct (jget "payload" proof); [injection Hitem as ->|done].
  split_and!; try done; apply item_text, Hf; simpl; auto 10.
Qed.

(** ** The approval *)

(** What an approval that registers a worker has verified. *)
Record worker_admission (d : db) (row : enrollment_row) (claim : dict) (user : string) (proof : option dict)
    (worker : worker_row) : Prop := {
  adm_owner : exists owner key given,
    In owner (users d) /\ u_id owner = user /\ u_status owner = UActive /\
    b64url_decode (u_root_signing_public_key owner) (Some 32) = Ok key /\ owner_certified key worker /\
    proof = Some given /\ pool_admitted key row given worker;
  adm_user : w_owner_user_id worker = user;
  adm_key : jget "signing_public_key" claim = Some (JStr (w_signing_public_key worker))
}.

Lemma approve_run row record config claim user given proof stamp w x w' worker :
  approve_worker row record config claim user given proof stamp w = (Ok x, w') ->
  In worker (workers (wd_db w')) -> ~ In (w_id worker) (map w_id (workers (wd_db w))) ->
  worker_admission (wd_db w) row claim user proof worker.
Proof.
  unfold approve_worker. cbv zeta. intros H Hin Hnew.
  apply run_bind in H as (certificate & w1 & H1 & H). apply run_require in H1 as [_ ->].
  apply run_bind in H as (payload & w1 & H1 & H). apply run_require in H1 as [-> ->].
  apply run_bind in H as (pool & w1 & H1 & H). apply run_query in H1 as [_ ->].
  apply run_bind in H as ([] & w1 & H1 & H). apply run_check in H1 as [_ ->].
  apply run_bind in H as ([] & w1 & H1 & H). apply run_reads in H1 as ->; [|auto with reads].
  apply run_bind in H as (o & w1 & H1 & H). apply run_query in H1 as [-> ->].
  apply run_bind in H as (owner & w1 & H1 & H). apply run_require in H1 as [Ho ->].
  apply head_select_some in Ho as [Ho [Huid Hst]%andb_prop]. apply bool_decide_eq_true_1 in Huid, Hst.
  apply run_bind in H as (certified & w1 & H1 & H). apply run_lift in H1 as [Hc ->].
  apply run_bind in H as ([[c key] root_id] & w1 & H1 & H). apply run_require in H1 as [-> ->].
  apply or_invalid_ok in Hc; [|done].
  apply run_bind in H as (current & w1 & H1 & H). apply run_now in H1. rewrite <- H1 in *. clear H1.
  apply run_bind in H as (valid & w2 & H1 & H). apply run_lift in H1 as [Hv ->].
  apply run_bind in H as ([] & w2 & H1 & H). apply run_check in H1 as [-> ->].
  apply run_bind in H as ([] & w2 & H1 & H).
  assert (workers (wd_db w') = workers (wd_db w2)) as Hw.
  { refine (run_stable workers _ _ _ _ _ H). unfold decided. solve_stable. }
  rewrite Hw in Hin. eapply registered_worker in H1 as (Hid & Hown & Hs & He & _); [|exact Hin|exact Hnew].
  eapply certificate_run in Hc as [Hk Hcert]; [|done..]. eapply allocation_run in Hv; [|done..].
  split; [|done|by apply text_item_jget]. by exists owner, key, payload.
Qed.

Lemma decide_run i user approve given proof w v w' worker :
  decide_worker_enrollment i user approve given proof w = (Ok v, w') ->
  In worker (workers (wd_db w')) -> ~ In (w_id worker) (map w_id (workers (wd_db w))) ->
  exists row claim role,
    In row (enrollments (wd_db w)) /\ en_id row = i /\ en_kind row = EkWorker /\ en_state row = EsPending /\
    en_issuer_user_id row = Some user /\ worker_claim row claim /\
    decider_role (wd_db w) (str_or_empty (en_workspace_id row)) user = Some role /\ is_admin_role role = true /\
    worker_admission (wd_db w) row claim user proof worker.
Proof.
  unfold decide_worker_enrollment. intros H Hin Hnew.
  apply run_bind in H as (stamp & w1 & H1 & H). apply run_now in H1. rewrite <- H1 in *. clear H1 w.
  apply run_bind in H as (replayed & w2 & H1 & H). apply run_transaction in H1.
  assert (w' = w2) as ->.
  { destruct replayed; [by apply run_ret in H as [_ ->]|]. eapply run_reads; [|exact H]. solve_reads_match. }
  clear H. rename H1 into H. apply run_bind in H as (row & w & H1 & H). unfold worker_enrollment_row in H1.
  apply run_bind in H1 as (o & w3 & H1 & H2). apply run_query in H1 as [-> ->]. apply run_require in H2 as [Hr ->].
  apply head_select_some in Hr as [Hr [Hid Hk]%andb_prop]. apply bool_decide_eq_true_1 in Hid, Hk.
  apply run_bind in H as (role & w & H1 & H). apply run_query in H1 as [Hrole ->].
  apply run_bind in H as ([] & w & H1 & H). apply run_check in H1 as [[Hadmin Hi]%andb_prop ->].
  apply bool_decide_eq_true_1 in Hi. destruct role as [role|]; [|done].
  apply run_bind in H as ([record config] & w & H1 & H). apply run_lift in H1 as [Hrec ->].
  apply run_bind in H as (claim & w & H1 & H). apply run_require in H1 as [Hclaim ->].
  destruct (is_number _); [|done].
  destruct (_ && negb approve).
  { apply run_bind in H as (view & w & H1 & H). apply run_reads in H1 as ->; [|auto with reads].
    apply run_ret in H as [_ ->]. destruct Hnew. by apply in_map. }
  destruct (_ && approve).
  { apply run_bind in H as (view & w & H1 & H). apply run_reads in H1 as ->; [|auto with reads].
    apply run_ret in H as [_ ->]. destruct Hnew. by apply in_map. }
  apply run_bind in H as ([] & w & H1 & H). apply run_check in H1 as [Hp%bool_decide_eq_true_1 ->].
  apply run_bind in H as ([] & w & H1 & H). apply run_ret in H as [_ ->].
  exists row, claim, role. destruct approve.
  - split_and!; try done; [by exists record, config|]. by eapply approve_run.
  - destruct Hnew. apply in_map. replace (workers (wd_db w1)) with (workers (wd_db w)); [done|].
    refine (run_stable workers _ _ _ _ _ H1). unfold decided. solve_stable.
Qed.

(** C30: a worker joins only under the invite's secret and three signatures.  Whatever
    enrollment calls came before, when a decision returns and a worker is registered that was
    not, the enrollment was a pending worker invite of a workspace the deciding user
    administers and issued by that user; one of the calls before was a claim of that invite
    with the secret whose digest the invite holds, and the key the worker is registered with
    signed that claim; and the user's root key certified exactly the registered keys, and
    admitted the worker under them to the invited workspace and pool. *)
Theorem worker_joins_under_signatures ops w0 i user approve given proof v w' worker :
  let w := foldl (fun w op => after_call op w) w0 ops in
  NoDup (map en_id (enrollments (wd_db w0))) ->
  (forall e claim, In e (enrollments (wd_db w0)) -> ~ worker_claim e claim) ->
  decide_worker_enrollment i user approve given proof w = (Ok v, w') ->
  In worker (workers (wd_db w')) -> ~ In (w_id worker) (map w_id (workers (wd_db w))) ->
  w_owner_user_id worker = user /\
  exists e role owner key admitted secret claim claim_proof,
    In e (enrollments (wd_db w)) /\ en_id e = i /\ en_kind e = EkWorker /\ en_state e = EsPending /\
    en_issuer_user_id e = Some user /\
    decider_role (wd_db w) (str_or_empty (en_workspace_id e)) user = Some role /\ is_admin_role role = true /\
    In (OpWorkerClaim i secret claim claim_proof) ops /\ en_invite_secret_hash e = Some (sha256_hex secret) /\
    worker_proved claim claim_proof i (w_signing_public_key worker) /\
    In owner (users (wd_db w)) /\ u_id owner = user /\ u_status owner = UActive /\
    b64url_decode (u_root_signing_public_key owner) (Some 32) = Ok key /\ owner_certified key worker /\
    proof = Some admitted /\ pool_admitted key e admitted worker.
Proof.
  intros w Hd Hno Hrun Hin Hnew.
  eapply decide_run in Hrun as (e & claim & role & He & <- & Hk & Hs & Hi & Hc & Hr & Ha & Hadm); [|done..].
  destruct Hadm as [(owner & key & given_proof & Hown) Hu Hkey]. split; [done|].
  destruct (history_claim ops w0 e claim Hd He Hk Hc) as [(e0 & H0 & Hw)|(op & Hop & Hcl)];
    [by destruct (Hno e0 claim H0)|].
  destruct op; try done. pose proof (claims_proved _ _ _ _ _ _ _ Hcl Hkey) as Hproved. destruct Hcl as (<- & Hh & _).
  do 8 eexists. split_and!; [exact He|done|done|done|done|exact Hr|done|exact Hop|exact Hh|exact Hproved|naive_solver..].
Qed.
End Onboarding.

(** ** A worker is invited, claims and is approved *)

Module Invited.
Definition root : bytes := encode "root".
Definition worker_key : bytes := encode "worker".
Definition key_text (k : bytes) : string := b64url_encode (ed_public (Ed25519 := toy_ed25519) k).
Definition encryption_text : string := Eval vm_compute in b64url_encode (be_bytes 32 7).

Definition ids : string * string :=
  Eval vm_compute in
    match root_signing_key_id (E := Signing.Toy.toy_env) (ed_public (Ed25519 := toy_ed25519) root),
          device_key_id (E := Signing.Toy.toy_env) (ed_public (Ed25519 := toy_ed25519) worker_key) with
    | Ok r, Ok w => (r, w)
    | _, _ => ("", "")
    end.
Definition manifest : dict :=
  [("version", JInt 1); ("kind", JStr "vgen-worker-owner-certificate"); ("owner_root_key_id", JStr ids.1);
   ("worker_key_id", JStr ids.2); ("worker_signing_public_key", JStr (key_text worker_key));
   ("worker_encryption_public_key", JStr encryption_text); ("issued_at", JInt 1001)].
Definition certificate : dict :=
  Eval vm_compute in match sign_key_manifest (E := Signing.Toy.toy_env) root manifest with Ok d => d | Raise _ => [] end.

#[local] Instance signing_env : Env := {|
  clock n := seconds (Z.of_nat n);
  uuid n := pretty n;
  sha256_json v := "0123456789abcdef0123456789abcdef0123456789abcdef0123456789abcdef";
  version_lt _ _ := Some false;
  py_repr _ := "?";
  json_loads s := if String.eqb s "certificate" then JDoc (JObj certificate) else JBad s;
  alnum_beyond_ascii _ := false;
  env_ed25519 := toy_ed25519
|}.

Definition admin : user_row := Mk_user_row "usr_1" "Admin" (key_text root) "root-enc" UActive false 0 0.
Definition opened : world :=
  MkWorld (empty_db <| users := [admin] |>
             <| workspaces := [Mk_workspace_row "ws_1" "Studio" "usr_1" None (JDoc (JObj [])) 1 SpActive 0 0] |>
             <| pools := [Mk_pool_row "pol_1" "ws_1" "Main" (JDoc (JObj [])) SpActive 0 0] |>
             <| memberships := [Mk_membership_row "ws_1" "usr_1" RoleOwner SActive 0 None] |>) 1000 0.

Definition inviting : enrollment_op :=
  OpWorkerInvite "usr_1" "ws_1" "pol_1" "invite_approval" "Box" "custom" "1.0" 1 None 5 3600.
Definition invited : world := Eval vm_compute in after_call inviting opened.
Definition claim : dict :=
  [("version", JInt 1); ("kind", JStr "vgen-worker-enrollment-claim"); ("invite_id", JStr "inv_0");
   ("worker_key_id", JStr ids.2); ("name", JStr "Box"); ("signing_public_key", JStr (key_text worker_key));
   ("encryption_public_key", JStr encryption_text); ("executor_type", JStr "custom");
   ("executor_version", JStr "1.0"); ("capabilities", JObj []); ("capacity", JInt 1)].
Definition proof : string :=
  Eval vm_compute in
    match (text ← canonical_json (JObj claim); sign_message worker_key text _WORKER_ENROLLMENT_CONTEXT) with
    | Ok s => b64url_encode s
    | Raise _ => ""
    end.
Definition claiming : enrollment_op := OpWorkerClaim "inv_0" "3" claim proof.
Definition pending : world := Eval vm_compute in after_call claiming invited.
Definition allocation : dict :=
  Eval vm_compute in
    match (p ← build_allocation_proof_payload "wal_2" "ws_1" "pol_1" "wrk_1" (key_text worker_key) encryption_text
                 (JDoc (JObj certificate)) (seconds 1001) ids.1 1001;
           sign_allocation_proof root p) with
    | Ok d => d
    | Raise _ => []
    end.
Definition approval : res worker_enrollment_view * world :=
  Eval vm_compute in
    decide_worker_enrollment "inv_0" "usr_1" true (Some "certificate") (Some allocation) pending.
Definition approved_view : worker_enrollment_view :=
  Eval vm_compute in
    match fst approval with
    | Ok v => v
    | Raise _ => MkWorkerEnrollmentView (MkWorkerEnrollment "" EkWorker EmInviteApproval EsIssued None None None None None
                   None None None None 0 0) None None None None
    end.
Definition box : worker_row :=
  Eval vm_compute in
    default (Mk_worker_row "" "" None "" "" "" None "" "" (JDoc JNull) 0 WOffline 0 None None 0 0 None)
      (head (workers (wd_db (snd approval)))).

Lemma worker_claimed : foldl (fun w op => after_call op w) opened [inviting; claiming] = pending.
Proof. vm_compute. reflexivity. Qed.
Lemma approved :
  decide_worker_enrollment "inv_0" "usr_1" true (Some "certificate") (Some allocation) pending =
  (Ok approved_view, snd approval).
Proof. vm_compute. reflexivity. Qed.

Lemma worker_joins_under_signatures_witness :
  exists owner key, In owner (users (wd_db pending)) /\
    b64url_decode (u_root_signing_public_key owner) (Some 32) = Ok key /\ owner_certified key box /\
    worker_proved claim proof "inv_0" (key_text worker_key).
Proof.
  pose proof (worker_joins_under_signatures [inviting; claiming] opened "inv_0" "usr_1" true (Some "certificate")
    (Some allocation) approved_view (snd approval) box) as H.
  cbv zeta in H. rewrite worker_claimed in H.
  destruct H as (_ & e & role & owner & key & adm & secret & cl & pf & _ & _ & _ & _ & _ & _ & _ & Hop & _ & Hp & Ho & _ & _ &
    Hk & Hc & _).
  - constructor.
  - intros e c [].
  - exact approved.
  - left. reflexivity.
  - intros [].
  - destruct Hop as [Hop|[Hop|[]]]; [discriminate Hop|]. injection Hop as _ <- <-.
    exists owner, key. exact (conj Ho (conj Hk (conj Hc Hp))).
Defined.

(** Another admin decides the pending enrollment through the decisions of other kinds: it
    becomes active, no worker is registered, and the inviting admin can no longer approve. *)
Definition second_admin : world :=
  pending <| wd_db := (wd_db pending)
    <| users := [admin; Mk_user_row "usr_2" "Second" "second-root" "second-enc" UActive false 0 0] |>
    <| memberships := memberships (wd_db pending) ++ [Mk_membership_row "ws_1" "usr_2" RoleAdmin SActive 0 None] |> |>.
Definition stranded : world := Eval vm_compute in after_call (OpDecide "inv_0" "usr_2" true) second_admin.

Lemma foreign_decision_strands_worker :
  map en_state (enrollments (wd_db stranded)) = [EsActive] /\ workers (wd_db stranded) = [] /\
  fst (decide_worker_enrollment "inv_0" "usr_1" true (Some "certificate") (Some allocation) stranded) =
  Raise (record_invalid "The approved Worker enrollment record is incomplete.").
Proof. vm_compute. by split_and!. Qed.
End Invited.
