(* ===== verification/Admission.v ===== *)
(** * Admission of tasks

    Which worker a task is prepared for, that the preflight answer agrees with
    what a submission would do, and that an enforced worker is only scheduled
    for workflows that are authorized for it. *)

From S2P Require Import Prelude Python Errors Schema Store Access Metadata Diagnostics.
From S2P Require Import Capability Scheduler Fleet Usage Scenario Invariant Lifecycle Reach.

Open Scope Z_scope.

(** ** Authorization *)

Lemma idmap_get_update k xs m k' :
  is_some (idmap_get k' (idmap_update k xs m)) = is_some (idmap_get k' m) || (k =d k').
Proof.
  unfold idmap_get. induction m as [|[k0 ys] m IH]; simpl.
  - by destruct (k =d k').
  - destruct (k0 =d k) eqn:E0; simpl.
    + destruct (k0 =d k') eqn:E1; [done|]. apply bool_decide_eq_true in E0 as ->. rewrite E1.
      by rewrite orb_false_r.
    + destruct (k0 =d k'); [done|]. exact IH.
Qed.

(** The authorized workflows are exactly the unrevoked rows of the table. *)
Lemma workflow_nodes_of_spec rows acc nodes k :
  workflow_nodes_of rows acc = Ok nodes -> is_some (idmap_get k nodes) = true ->
  is_some (idmap_get k acc) = true \/
  exists r, In r rows /\ (wa_workflow_ref r, wa_workflow_digest r) = k.
Proof.
  revert acc. induction rows as [|r rows IH]; intros acc; simpl.
  { intros [= ->]. auto. }
  intros (ns & Hns & H)%res_bind_ok Hk. destruct (IH _ H Hk) as [Hg|(r' & Hr & Ek)]; [|by eauto].
  rewrite idmap_get_update in Hg. apply orb_true_iff in Hg as [Hg|Hg]; [by auto|].
  apply bool_decide_eq_true in Hg. right. exists r. auto.
Qed.

Section Matching.
Context {E : Env}.

(** C35: an enforced worker is only scheduled for what it is authorized for.  If
    a worker under capability enforcement matches a task, then an unrevoked
    authorization row names that worker and exactly the task's workflow and
    digest, whatever the worker reported about itself. *)
Theorem scheduled_only_if_authorized d worker requirements ref digest :
  _matches_requirements d worker requirements ref digest = Ok true ->
  _capability_auth_is_enforced d (w_id worker) = true ->
  exists r, In r (worker_workflow_authorizations d) /\ wa_worker_id r = w_id worker /\
            wa_workflow_ref r = ref /\ wa_workflow_digest r = digest /\ wa_revoked_at r = None.
Proof.
  unfold _matches_requirements. destruct (json_loads_or _ _) as [caps|]; [|done].
  intros (authorized & Ha & H)%res_bind_ok Henf. destruct authorized; [|done]. clear H.
  unfold workflow_authorized in Ha. rewrite Henf in Ha.
  apply res_bind_ok in Ha as ([[nodes models] all] & Hs & [= Hn]).
  unfold _authorization_sets in Hs. apply res_bind_ok in Hs as (ns & Hns & [= -> _ _]).
  destruct (workflow_nodes_of_spec _ _ _ (ref, digest) Hns) as [|(r & Hr & [= Er Ed])].
  - by destruct (idmap_get _ _).
  - done.
  - apply in_select in Hr as [Hr Hp]. split_bools. eauto 10.
Qed.
End Matching.

(** ** The chosen worker *)

Section Choice.
Context {E : Env}.

Lemma first_match_spec d req ref digest rows c :
  first_match d req ref digest rows = Ok (Some c) ->
  exists before after, rows = before ++ c :: after /\
    _matches_requirements d (c_worker c) req ref digest = Ok true /\
    forall b, In b before -> _matches_requirements d (c_worker b) req ref digest = Ok false.
Proof.
  induction rows as [|r rows IH]; simpl; [done|]. intros (m & Hm & H)%res_bind_ok. destruct m.
  - injection H as ->. exists [], rows. done.
  - destruct (IH H) as (before & after & -> & Hc & Hb). exists (r :: before), after.
    split_and!; try done. by intros b [<-|?]; auto.
Qed.

Lemma first_match_none d req ref digest rows :
  first_match d req ref digest rows = Ok None ->
  forall b, In b rows -> _matches_requirements d (c_worker b) req ref digest = Ok false.
Proof.
  induction rows as [|r rows IH]; simpl; [done|]. intros (m & Hm & H)%res_bind_ok.
  destruct m; [done|]. by intros b [<-|?]; auto.
Qed.

(** The two ways a candidate is chosen. *)
Lemma choose_candidate_cases d pool ex req ref digest stamp c queueing :
  choose_candidate d pool ex req ref digest stamp = Ok (Some c, queueing) ->
  (queueing = false /\
   first_match d req ref digest (_task_candidate_rows d pool ex stamp) = Ok (Some c)) \/
  (queueing = true /\
   first_match d req ref digest (_task_candidate_rows d pool ex stamp) = Ok None /\
   first_match d req ref digest (_task_queue_candidate_rows d pool ex stamp) = Ok (Some c)).
Proof.
  unfold choose_candidate. intros (c1 & H1 & H)%res_bind_ok. destruct c1 as [c1|].
  - injection H as -> <-. auto.
  - apply res_bind_ok in H as (c2 & H2 & [= -> <-]). auto.
Qed.

Lemma freshest_leb_preorder : total_preorder freshest_leb.
Proof.
  unfold freshest_leb. split.
  - intros x y. rewrite !orb_true_iff, !andb_true_iff, !Z.ltb_lt, !Z.eqb_eq, !Z.leb_le. lia.
  - intros x y z. rewrite !orb_true_iff, !andb_true_iff, !Z.ltb_lt, !Z.eqb_eq, !Z.leb_le. lia.
Qed.

Lemma least_loaded_leb_preorder : total_preorder least_loaded_leb.
Proof.
  destruct freshest_leb_preorder as [Htot Htr]. unfold least_loaded_leb. split.
  - intros x y. rewrite !orb_true_iff, !andb_true_iff, !Z.ltb_lt, !Z.eqb_eq.
    destruct (Htot x y); destruct (Z.lt_trichotomy (c_queued_load x) (c_queued_load y)) as [?|[?|?]];
      naive_solver lia.
  - intros x y z. rewrite !orb_true_iff, !andb_true_iff, !Z.ltb_lt, !Z.eqb_eq.
    intros [?|[? H1]] [?|[? H2]]; [left; lia..|]. right. split; [lia|]. eauto.
Qed.

Lemma sorted_take {A} (R : A -> A -> Prop) n l : StronglySorted R l -> StronglySorted R (take n l).
Proof.
  intros Hs. revert n. induction Hs as [|x l Hs IH Hall]; intros [|n]; simpl; try constructor; auto.
  rewrite List.Forall_forall in *. intros y Hy%in_take. auto.
Qed.

Lemma sorted_middle {A} (R : A -> A -> Prop) before x after :
  StronglySorted R (before ++ x :: after) -> forall y, In y after -> R x y.
Proof.
  induction before as [|z before IH]; simpl; intros [Hs Hall]%StronglySorted_inv; [|auto].
  by rewrite List.Forall_forall in Hall.
Qed.

(** A waiting task joins the least loaded queue.  When the scheduler queues
    a task, no worker it considered with a free slot met the requirements, and
    among the considered workers that meet them none has fewer active attempts
    than the chosen one; when it does not queue, the chosen worker has a free
    slot.  Either way the chosen worker meets the requirements. *)
Theorem least_loaded_chosen d pool ex req ref digest stamp c queueing :
  choose_candidate d pool ex req ref digest stamp = Ok (Some c, queueing) ->
  _matches_requirements d (c_worker c) req ref digest = Ok true /\
  if queueing then
    (forall b, In b (_task_candidate_rows d pool ex stamp) ->
       _matches_requirements d (c_worker b) req ref digest = Ok false) /\
    (forall b, In b (_task_queue_candidate_rows d pool ex stamp) ->
       _matches_requirements d (c_worker b) req ref digest = Ok true ->
       c_queued_load c <= c_queued_load b)
  else reserved_load d (w_id (c_worker c)) stamp < w_capacity (c_worker c).
Proof.
  intros [[-> H]|(-> & H1 & H2)]%choose_candidate_cases.
  - pose proof (first_match_in _ _ _ _ _ _ H) as Hin.
    apply first_match_spec in H as (_ & _ & _ & Hm & _). split; [done|].
    apply candidate_worker in Hin as (_ & _ & Hp). split_bools. lia.
  - pose proof (first_match_none _ _ _ _ _ H1) as Hn.
    apply first_match_spec in H2 as (before & after & Erows & Hm & Hb). split_and!; try done.
    intros b Hin Hmb. rewrite Erows in Hin.
    apply in_app_iff in Hin as [Hin|[->|Hin]]; [by rewrite Hb in Hmb|done|].
    assert (least_loaded_leb c b = true) as Hle.
    { eapply (sorted_middle (fun x y => least_loaded_leb x y = true) before); [|exact Hin].
      rewrite <- Erows.
      apply sorted_take, order_by_sorted, least_loaded_leb_preorder. }
    unfold least_loaded_leb in Hle.
    rewrite orb_true_iff, andb_true_iff, Z.ltb_lt, Z.eqb_eq in Hle. lia.
Qed.

(** What happens before a worker is chosen. *)
Definition settle (stamp : Z) : M unit :=
  _ ← _expire_reservations stamp;
  _ ← _expire_leases stamp;
  mret tt.

(** The statements that reserve a worker, when they succeed. *)
Lemma reserve_task_run q req ckv worker rate stamp w tid aid f w' :
  reserve_task q req ckv worker rate stamp w = (Ok (tid, aid, f), w') ->
  f = w_fencing_counter worker + 1 /\
  (exists t, find_by t_id tid (tasks (wd_db w')) = Some t /\ t_state t = TPrepared /\
     t_assigned_worker_id t = Some (w_id worker) /\
     t_reservation_expires_at t = Some (stamp + seconds (pq_reservation_ttl_seconds q)) /\
     t_public_requirements t = JDoc (JObj req)) /\
  (exists a, In a (task_attempts (wd_db w')) /\ a_id a = aid /\ a_task_id a = tid /\
     a_worker_id a = w_id worker /\ a_state a = AReserved /\ a_fencing_token a = f).
Proof.
  intros Hrun. unfold reserve_task in Hrun. repeat run_step.
  match goal with H : (tid, aid, f) = _ |- _ => injection H as -> -> -> end.
  match goal with H : tasks_ok _ _ = true |- _ => rename H into Hok end.
  match goal with H1 : wd_db ?a = wd_db w, H2 : wd_db ?b = wd_db ?a |- _ =>
    rewrite H1 in H2; rewrite H2 in Hok end.
  flat_db. simpl. split_and!; [done| |].
  - eexists. split.
    { unfold find_by, select. rewrite List.filter_app.
      assert (List.filter (fun r => t_id r =d x) (tasks (wd_db w)) = []) as ->.
      { apply select_nil. intros t Ht. apply bool_decide_eq_false_2.
        by apply (tasks_ok_fresh _ _ Hok). }
      simpl. rewrite bool_decide_eq_true_2 by done. reflexivity. }
    by repeat split.
  - eexists. split; [apply in_app_iff; right; by left|]. by repeat split.
Qed.

Lemma run_public_requirements v w r w' :
  _public_requirements v w = (Ok r, w') -> validate_public_requirements v = Ok r /\ w' = w.
Proof.
  unfold _public_requirements. destruct (validate_public_requirements v) as [x|e].
  - by intros [[= ->] ->]%run_lift.
  - by destruct e.
Qed.

(** The guards and the transaction of an accepted [prepare_task]. *)
Lemma prepare_run q w p w' :
  prepare_task q w = (Ok p, w') ->
  let stamp := clock (wd_ticks w) in
  exists requirements w1 c queueing rate ckv w2 tid w3,
    validate_public_requirements (pq_public_requirements q) = Ok requirements /\
    settle stamp (w <| wd_ticks := S (wd_ticks w) |>) = (Ok tt, w1) /\
    choose_candidate (wd_db w1) (pq_pool_id q) (pq_executor_type q) requirements
      (pq_workflow_ref q) (pq_workflow_digest q) stamp = Ok (Some c, queueing) /\
    (queueing = true -> c_queued_load c < MAX_QUEUED_TASKS_PER_WORKER) /\
    approved_rate (wd_db w1) (w_id (c_worker c)) (pq_workspace_id q) = Some rate /\
    reserve_task q requirements ckv (c_worker c) rate stamp w2 =
      (Ok (tid, pt_attempt_id p, pt_fencing_token p), w3) /\
    wd_db w2 = wd_db w1 /\ wd_db w' = wd_db w3 /\
    pt_worker p = c_worker c /\ pt_rate_card_id p = rt_id rate /\ pt_queue_expected p = queueing /\
    pt_task p = find_by t_id tid (tasks (wd_db w3)).
Proof.
  intros Hrun. unfold prepare_task in Hrun.
  apply run_bind in Hrun as (requirements & w0 & H1 & Hrun).
  apply run_public_requirements in H1 as [Hreq ->].
  apply run_bind in Hrun as (u & w0 & H1 & Hrun).
  apply (run_reads _ _ _ _ (reads_only_submitter _ _ _ _)) in H1 as ->.
  do 4 (apply run_bind in Hrun as (? & ? & H1 & Hrun);
        apply run_reads in H1 as ->; [|by auto with reads]).
  apply run_bind in Hrun as (stamp & w0 & Hnow & Hrun). injection Hnow as <- <-. cbv zeta.
  apply run_bind in Hrun as ([[[c queueing] rate] [[tid aid] f]] & w3 & Htx & Hrun).
  apply run_transaction in Htx.
  apply run_bind in Htx as (u1 & wa & Ha & Htx). apply run_bind in Htx as (n1 & w1 & Hb & Htx).
  assert (settle (clock (wd_ticks w)) (w <| wd_ticks := S (wd_ticks w) |>) = (Ok tt, w1)) as Hset.
  { unfold settle, bind, mbind, M_bind. by rewrite Ha, Hb. }
  clear Ha Hb.
  apply run_bind in Htx as (d & wq & [-> ->]%run_query & Htx).
  apply run_bind in Htx as ([oc qs] & wq & [Hc ->]%run_lift & Htx).
  apply run_bind in Htx as (c0 & wq & [Hoc ->]%run_require & Htx). simpl in Hoc. subst oc.
  apply run_bind in Htx as (u2 & wq & [Hfull ->]%run_check & Htx).
  apply run_bind in Htx as (orate & wq & [-> ->]%run_query & Htx).
  apply run_bind in Htx as (rate0 & wq & [Hrate ->]%run_require & Htx).
  apply run_bind in Htx as (ids & w3' & Hres & Htx). apply run_ret in Htx as [[= -> -> -> <-] ->].
  apply run_bind in Hrun as (ot & wq & [-> ->]%run_query & Hrun).
  apply run_bind in Hrun as (root & wq & H1 & Hrun).
  apply (run_reads _ _ _ _ (reads_only_owner_key _)) in H1 as ->.
  apply run_bind in Hrun as (alloc & wq & H1 & Hrun).
  apply (run_reads _ _ _ _ (reads_only_security_view _)) in H1 as ->.
  apply run_ret in Hrun as [-> ->]. simpl.
  exists requirements, w1, c0, qs, rate0. eexists _, w1, tid, w3'.
  split_and!; try done. intros ->. simpl in Hfull. split_bools. lia.
Qed.

(** A task is prepared for an eligible worker only.  When [prepare_task]
    succeeds, then at that moment (after lapsed reservations and leases were
    settled) the chosen worker is active, was seen within two minutes, runs the
    requested executor type, has no maintenance job in the way, holds an active
    and proven allocation to the pool and an approved rate in the workspace, and
    meets the validated requirements; it has a free slot, or fewer than 100
    active attempts when the task is queued.  Afterwards the task is prepared
    and assigned to it until the reservation lapses, with a reserved attempt
    under the worker's next fencing token. *)
Theorem prepared_for_eligible_worker q w p w' :
  prepare_task q w = (Ok p, w') ->
  let stamp := clock (wd_ticks w) in
  let worker := pt_worker p in
  exists requirements w1 a rate,
    validate_public_requirements (pq_public_requirements q) = Ok requirements /\
    settle stamp (w <| wd_ticks := S (wd_ticks w) |>) = (Ok tt, w1) /\
    In worker (workers (wd_db w1)) /\ In a (worker_allocations (wd_db w1)) /\
    al_worker_id a = w_id worker /\ al_pool_id a = pq_pool_id q /\ al_status a = AlActive /\
    al_allocation_proof a <> None /\
    w_status worker = WActive /\ w_executor_type worker = pq_executor_type q /\
    (exists seen, w_last_seen_at worker = Some seen /\ stamp - seconds 120 < seen) /\
    has_blocking_job (wd_db w1) (w_id worker) = false /\
    _matches_requirements (wd_db w1) worker requirements (pq_workflow_ref q)
      (pq_workflow_digest q) = Ok true /\
    approved_rate (wd_db w1) (w_id worker) (pq_workspace_id q) = Some rate /\
    pt_rate_card_id p = rt_id rate /\
    (if pt_queue_expected p then queued_load (wd_db w1) (w_id worker) < 100
     else reserved_load (wd_db w1) (w_id worker) stamp < w_capacity worker) /\
    pt_fencing_token p = w_fencing_counter worker + 1 /\
    (exists t at', pt_task p = Some t /\ In t (tasks (wd_db w')) /\ t_state t = TPrepared /\
       t_assigned_worker_id t = Some (w_id worker) /\
       t_reservation_expires_at t = Some (stamp + seconds (pq_reservation_ttl_seconds q)) /\
       In at' (task_attempts (wd_db w')) /\ a_id at' = pt_attempt_id p /\ a_task_id at' = t_id t /\
       a_worker_id at' = w_id worker /\ a_state at' = AReserved /\
       a_fencing_token at' = pt_fencing_token p).
Proof.
  intros (requirements & w1 & c & queueing & rate & ckv & w2 & tid & w3 & Hreq & Hset & Hc & Hq &
          Hrate & Hres & E2 & E3 & Ew & Er & Eq & Et)%prepare_run stamp worker.
  unfold worker. rewrite Ew, E3. clear worker.
  pose proof (choose_candidate_in _ _ _ _ _ _ _ _ c Hc eq_refl) as (Hin & Hal & Hs).
  unfold schedulable in Hs. split_bools.
  destruct (w_last_seen_at (c_worker c)) as [seen|] eqn:Eseen; [|done].
  unfold after in *. split_bools.
  apply reserve_task_run in Hres as (Ef & (t & Hft & Hst & Has & Hrs & _) & at' & Hat & Hid & Htk & Hat').
  pose proof (find_by_some _ _ _ _ Hft) as [Htin Htid].
  assert (al_allocation_proof (c_allocation c) <> None) as Hproof
    by by destruct (al_allocation_proof (c_allocation c)).
  exists requirements, w1, (c_allocation c), rate. split_and!; try done; try congruence.
  - exists seen. split; [done|]. unfold WORKER_ONLINE_WINDOW_SECONDS in *. lia.
  - destruct (choose_candidate_cases _ _ _ _ _ _ _ _ _ Hc) as [[_ Hf]|(_ & _ & Hf)];
      by apply first_match_spec in Hf as (_ & _ & _ & Hm & _).
  - rewrite Eq. destruct (choose_candidate_cases _ _ _ _ _ _ _ _ _ Hc) as [[-> Hf]|(-> & _ & Hf)];
      apply first_match_in in Hf.
    + apply candidate_worker in Hf as (_ & _ & Hp). simpl. apply andb_true_iff in Hp as [_ Hp]. by apply Z.ltb_lt in Hp.
    + specialize (Hq eq_refl). apply in_take in Hf. rewrite in_order_by in Hf.
      apply in_flat_map in Hf as (wk & _ & Hf). apply in_map_iff in Hf as (al & <- & _). exact Hq.
  - exists t, at'. destruct Hat' as (? & ? & ?). split_and!; try done; congruence.
Qed.

(** ** Preflight *)

Lemma transaction_raises {A B} (m : M A) (f : A -> M B) w e w1 :
  m w = (Raise e, w1) ->
  fst (bind (transaction m) f w) = Raise e /\ wd_db (snd (bind (transaction m) f w)) = wd_db w.
Proof. unfold bind, mbind, M_bind, transaction. by intros ->. Qed.

(** What follows the guards in [prepare_task]. *)
Definition prepare_body (q : prepare_request) (requirements : dict) (content_key_version stamp : Z)
    : M (candidate * bool * rate_row * (string * string * Z)) :=
  _ ← _expire_reservations stamp;
  _ ← _expire_leases stamp;
  d ← query (fun d => d);
  choice ← lift_res (choose_candidate d (pq_pool_id q) (pq_executor_type q) requirements
                       (pq_workflow_ref q) (pq_workflow_digest q) stamp);
  let details := Some [("pool_id", JStr (pq_pool_id q));
                       ("executor_type", JStr (pq_executor_type q))] in
  c ← require (fst choice)
    (repo_err_full NO_ELIGIBLE_WORKER "NO_ELIGIBLE_WORKER"
       "No eligible worker is currently available." 503 "later" "platform" details);
  _ ← check (negb (snd choice && (MAX_QUEUED_TASKS_PER_WORKER <=? c_queued_load c)))
    (repo_err_full NO_ELIGIBLE_WORKER "WORKER_QUEUE_FULL"
       "The matching Worker's task queue is full." 503 "later" "platform" details);
  rate ← query (fun d => approved_rate d (w_id (c_worker c)) (pq_workspace_id q));
  rate ← require rate (repo_err RATE_NOT_APPROVED "RATE_NOT_APPROVED"
                         "The selected worker has no approved rate." 409);
  ids ← reserve_task q requirements content_key_version (c_worker c) rate stamp;
  mret (c, snd choice, rate, ids).

Definition prepare_answer (content_key_version : Z)
    (r : candidate * bool * rate_row * (string * string * Z)) : M prepared_task :=
  let '(c, queueing, rate, (task_id, attempt_id, fencing)) := r in
  task ← query (fun d => find_by t_id task_id (tasks d));
  root ← owner_root_key (w_owner_user_id (c_worker c));
  allocation ← _allocation_security_view c;
  mret (MkPrepared task (c_worker c) root allocation (rt_id rate) attempt_id
          content_key_version fencing queueing).

(** Past the guards, what [preflight_task] and [prepare_task] go on with. *)
Lemma preflight_run q w s w1 :
  preflight_task q w = (Ok s, w1) ->
  exists requirements ckv,
    prepare_task q w =
      bind (transaction (prepare_body q requirements ckv (clock (wd_ticks w))))
           (prepare_answer ckv) (w <| wd_ticks := S (wd_ticks w) |>) /\
    (s = no_allocated_worker ->
     forall a, In a (worker_allocations (wd_db w)) -> al_pool_id a = pq_pool_id q ->
       al_status a = AlActive -> is_some (al_allocation_proof a) = true ->
       has_key w_id (workers (wd_db w)) (al_worker_id a) = false) /\
    (s <> no_allocated_worker ->
     exists choice,
       choose_candidate (wd_db w) (pq_pool_id q) (pq_executor_type q) requirements
         (pq_workflow_ref q) (pq_workflow_digest q) (clock (wd_ticks w)) = Ok choice /\
       s = match fst choice with
           | None => if _has_online_allocated_worker (wd_db w) (pq_pool_id q) (clock (wd_ticks w))
                     then capability_mismatch else worker_offline_or_busy
           | Some c =>
               if snd choice && (MAX_QUEUED_TASKS_PER_WORKER <=? c_queued_load c) then queue_full
               else match approved_rate (wd_db w) (w_id (c_worker c)) (pq_workspace_id q) with
                    | None => rate_not_approved
                    | Some _ => if snd choice then queue_available else ready
                    end
           end).
Proof.
  intros Hrun. unfold preflight_task in Hrun.
  apply run_bind in Hrun as (requirements & w0 & H1 & Hrun).
  pose proof (run_reads _ _ _ _ (reads_only_public_requirements _) H1) as ->.
  apply run_bind in Hrun as (u & w0 & H2 & Hrun).
  pose proof (run_reads _ _ _ _ (reads_only_submitter _ _ _ _) H2) as ->.
  apply run_bind in Hrun as (ows & w0 & H3 & Hrun). pose proof (run_query _ _ _ _ H3) as [_ ->].
  apply run_bind in Hrun as (ws & w0 & H4 & Hrun). pose proof (run_require _ _ _ _ _ H4) as [_ ->].
  apply run_bind in Hrun as (opo & w0 & H5 & Hrun). pose proof (run_query _ _ _ _ H5) as [_ ->].
  apply run_bind in Hrun as (po & w0 & H6 & Hrun). pose proof (run_require _ _ _ _ _ H6) as [_ ->].
  apply run_bind in Hrun as (d & w0 & [-> ->]%run_query & Hrun).
  exists requirements, (ws_key_version ws). split.
  { unfold prepare_task. rewrite (bind_ok _ _ _ _ _ H1), (bind_ok _ _ _ _ _ H2),
      (bind_ok _ _ _ _ _ H3), (bind_ok _ _ _ _ _ H4), (bind_ok _ _ _ _ _ H5),
      (bind_ok _ _ _ _ _ H6). reflexivity. }
  clear H1 H2 H3 H4 H5 H6. destruct (existsb _ _) eqn:Ex; simpl in Hrun.
  - apply run_bind in Hrun as (stamp & w0 & Hnow & Hrun). injection Hnow as <- <-.
    apply run_bind in Hrun as (choice & w0 & [Hc ->]%run_lift & Hrun).
    assert (s = match fst choice with
           | None => if _has_online_allocated_worker (wd_db w) (pq_pool_id q) (clock (wd_ticks w))
                     then capability_mismatch else worker_offline_or_busy
           | Some c =>
               if snd choice && (MAX_QUEUED_TASKS_PER_WORKER <=? c_queued_load c) then queue_full
               else match approved_rate (wd_db w) (w_id (c_worker c)) (pq_workspace_id q) with
                    | None => rate_not_approved
                    | Some _ => if snd choice then queue_available else ready
                    end
           end) as Es.
    { destruct (fst choice) as [c|]; [|by apply run_ret in Hrun as [-> _]].
      destruct (snd choice && _); [by apply run_ret in Hrun as [-> _]|].
      destruct (approved_rate _ _ _); by apply run_ret in Hrun as [-> _]. }
    split; [|by eauto]. intros ->. exfalso. repeat case_match; done.
  - apply run_ret in Hrun as [-> _]. split; [|done]. intros _ a Ha Hp Hs Hpr.
    destruct (has_key w_id _ _) eqn:Hk; [|done]. rewrite <- Ex. symmetry. apply existsb_exists.
    exists a. by rewrite Hp, Hs, Hpr, Hk, !bool_decide_eq_true_2.
Qed.

Lemma no_candidate d pool ex req ref digest stamp :
  (forall a, In a (worker_allocations d) -> al_pool_id a = pool -> al_status a = AlActive ->
     is_some (al_allocation_proof a) = true -> has_key w_id (workers d) (al_worker_id a) = false) ->
  choose_candidate d pool ex req ref digest stamp = Ok (None, false).
Proof.
  intros Hn. assert (forall w a, In w (workers d) -> In a (worker_allocations d) ->
                     schedulable d pool ex stamp w a = true -> False) as Hno.
  { intros w a Hw Ha Hs. unfold schedulable in Hs. split_bools.
    assert (has_key w_id (workers d) (al_worker_id a) = true) as Hk.
    { apply has_key_spec. eexists. split; [exact Hw|]. congruence. }
    rewrite Hn in Hk; auto. done. }
  assert (forall l : list candidate, (forall c, In c l -> False) -> l = []) as Hnil.
  { intros [|c l] H; [done|]. destruct (H c). by left. }
  assert (_task_candidate_rows d pool ex stamp = []) as E1.
  { apply Hnil. intros c (Hw & Ha & Hp)%candidate_worker. apply andb_true_iff in Hp as [Hp _]. eauto. }
  assert (_task_queue_candidate_rows d pool ex stamp = []) as E2.
  { apply Hnil. intros c (Hw & Ha & Hp)%candidate_worker. eauto. }
  unfold choose_candidate. by rewrite E1, E2.
Qed.

(** Reserving fails only on a constraint. *)
Lemma reserve_task_raises q req ckv worker rate stamp w e w' :
  reserve_task q req ckv worker rate stamp w = (Raise e, w') -> e = IntegrityError.
Proof.
  unfold reserve_task, bind, mbind, M_bind, new_id, sql_insert, sql_update. simpl.
  destruct (tasks_ok _ _); simpl; [|by intros [= <-]].
  destruct (attempts_ok _ _); simpl; [done|by intros [= <-]].
Qed.

Lemma prepare_answer_raises ckv r w e w' :
  prepare_answer ckv r w = (Raise (RepositoryError e), w') -> e_code e = 230004.
Proof.
  destruct r as [[[c queueing] rate] [[tid aid] f]].
  unfold prepare_answer, owner_root_key, _allocation_security_view, bind, mbind, M_bind, query.
  simpl. destruct (find_by u_id _ _); simpl; [|done].
  destruct (al_allocation_proof _) as [[proof|]|]; simpl; [|by intros [= <-]..].
  destruct (head _); simpl; [done|by intros [= <-]].
Qed.

(** The error a submission answers when preflight reports [s]. *)
Definition preflight_error (q : prepare_request) (s : preflight_state) : option exc :=
  let details := Some [("pool_id", JStr (pq_pool_id q));
                       ("executor_type", JStr (pq_executor_type q))] in
  match s with
  | ready | queue_available => None
  | queue_full => Some (repo_err_full NO_ELIGIBLE_WORKER "WORKER_QUEUE_FULL"
                          "The matching Worker's task queue is full." 503 "later" "platform" details)
  | rate_not_approved => Some (repo_err RATE_NOT_APPROVED "RATE_NOT_APPROVED"
                                 "The selected worker has no approved rate." 409)
  | _ => Some (repo_err_full NO_ELIGIBLE_WORKER "NO_ELIGIBLE_WORKER"
                 "No eligible worker is currently available." 503 "later" "platform" details)
  end.

(** The choice the answer of preflight stands for. *)
Lemma preflight_choice q requirements w s :
  (s = no_allocated_worker ->
   forall a, In a (worker_allocations (wd_db w)) -> al_pool_id a = pq_pool_id q ->
     al_status a = AlActive -> is_some (al_allocation_proof a) = true ->
     has_key w_id (workers (wd_db w)) (al_worker_id a) = false) ->
  (s <> no_allocated_worker ->
   exists choice,
     choose_candidate (wd_db w) (pq_pool_id q) (pq_executor_type q) requirements
       (pq_workflow_ref q) (pq_workflow_digest q) (clock (wd_ticks w)) = Ok choice /\
     s = match fst choice with
         | None => if _has_online_allocated_worker (wd_db w) (pq_pool_id q) (clock (wd_ticks w))
                   then capability_mismatch else worker_offline_or_busy
         | Some c =>
             if snd choice && (MAX_QUEUED_TASKS_PER_WORKER <=? c_queued_load c) then queue_full
             else match approved_rate (wd_db w) (w_id (c_worker c)) (pq_workspace_id q) with
                  | None => rate_not_approved
                  | Some _ => if snd choice then queue_available else ready
                  end
         end) ->
  exists choice,
    choose_candidate (wd_db w) (pq_pool_id q) (pq_executor_type q) requirements (pq_workflow_ref q)
      (pq_workflow_digest q) (clock (wd_ticks w)) = Ok choice /\
    match fst choice with
    | None => preflight_error q s = preflight_error q capability_mismatch
    | Some c =>
        s = if snd choice && (MAX_QUEUED_TASKS_PER_WORKER <=? c_queued_load c) then queue_full
            else match approved_rate (wd_db w) (w_id (c_worker c)) (pq_workspace_id q) with
                 | None => rate_not_approved
                 | Some _ => if snd choice then queue_available else ready
                 end
    end.
Proof.
  intros Hnone Hsome. destruct (decide (s = no_allocated_worker)) as [->|Hne].
  - exists (None, false). split; [|done]. apply no_candidate. auto.
  - destruct (Hsome Hne) as (choice & Hc & ->). exists choice. split; [done|].
    destruct (fst choice); [done|]. by destruct (_has_online_allocated_worker _ _ _).
Qed.

(** The submission when nothing is due to expire, after the candidate is chosen. *)
Lemma prepare_body_settled q requirements ckv stamp w0 choice :
  settle stamp w0 = (Ok tt, w0) ->
  choose_candidate (wd_db w0) (pq_pool_id q) (pq_executor_type q) requirements (pq_workflow_ref q)
    (pq_workflow_digest q) stamp = Ok choice ->
  prepare_body q requirements ckv stamp w0 =
    match fst choice with
    | None => (Raise (repo_err_full NO_ELIGIBLE_WORKER "NO_ELIGIBLE_WORKER"
                 "No eligible worker is currently available." 503 "later" "platform"
                 (Some [("pool_id", JStr (pq_pool_id q));
                        ("executor_type", JStr (pq_executor_type q))])), w0)
    | Some c => bind (check (negb (snd choice && (MAX_QUEUED_TASKS_PER_WORKER <=? c_queued_load c)))
                  (repo_err_full NO_ELIGIBLE_WORKER "WORKER_QUEUE_FULL"
                     "The matching Worker's task queue is full." 503 "later" "platform"
                     (Some [("pool_id", JStr (pq_pool_id q));
                            ("executor_type", JStr (pq_executor_type q))])))
                 (fun _ =>
                    bind (require (approved_rate (wd_db w0) (w_id (c_worker c)) (pq_workspace_id q))
                            (repo_err RATE_NOT_APPROVED "RATE_NOT_APPROVED"
                               "The selected worker has no approved rate." 409))
                      (fun rate => bind (reserve_task q requirements ckv (c_worker c) rate stamp)
                                     (fun ids => mret (c, snd choice, rate, ids)))) w0
    end.
Proof.
  intros Hset Hc. unfold settle in Hset. apply run_bind in Hset as (u1 & wa & Ha & Hset).
  apply run_bind in Hset as (n1 & wb & Hb & Hset). apply run_ret in Hset as [_ Ewb].
  unfold prepare_body. rewrite (bind_ok _ _ _ _ _ Ha), (bind_ok _ _ _ _ _ Hb), <- Ewb.
  rewrite (bind_ok (query (fun d => d)) _ w0 (wd_db w0) w0) by done.
  rewrite (bind_ok _ _ w0 choice w0) by (unfold lift_res; by rewrite Hc). cbv zeta.
  destruct (fst choice) as [c|]; [|reflexivity]. rewrite (bind_ok _ _ w0 c w0) by done.
  unfold check. by destruct (negb _).
Qed.

(** Preflight agrees with submission.  At a moment when nothing is due to
    expire, a submission fails exactly as preflight announces: with
    NO_ELIGIBLE_WORKER, WORKER_QUEUE_FULL or RATE_NOT_APPROVED for the states
    that are not ready, leaving the database as it was; and when preflight says
    ready or queue available, the only error a submission can still answer is
    an allocation proof that does not hold. *)
Theorem preflight_agrees q w s w1 :
  preflight_task q w = (Ok s, w1) ->
  let w0 := w <| wd_ticks := S (wd_ticks w) |> in
  settle (clock (wd_ticks w)) w0 = (Ok tt, w0) ->
  wd_db w1 = wd_db w /\
  match preflight_error q s with
  | Some e => fst (prepare_task q w) = Raise e /\ wd_db (snd (prepare_task q w)) = wd_db w
  | None => forall e, fst (prepare_task q w) = Raise (RepositoryError e) -> e_code e = 230004
  end.
Proof.
  intros Hpre w0 Hset. split.
  { assert (inert (preflight_task q)) as Hi by (unfold preflight_task; solve_atomic).
    specialize (Hi w). by rewrite Hpre in Hi. }
  apply preflight_run in Hpre as (requirements & ckv & -> & Hnone & Hsome). fold w0.
  destruct (preflight_choice _ _ _ _ Hnone Hsome) as (choice & Hc & Hs).
  pose proof (prepare_body_settled _ _ ckv _ _ _ Hset Hc) as Hbody.
  change (wd_db w0) with (wd_db w) in Hbody.
  destruct (fst choice) as [c|]; [|rewrite Hs; exact (transaction_raises _ _ _ _ _ Hbody)].
  destruct (snd choice && _) eqn:Efull; [subst s; exact (transaction_raises _ _ _ _ _ Hbody)|].
  destruct (approved_rate (wd_db w) _ _) as [rate|] eqn:Erate; [|subst s; exact (transaction_raises _ _ _ _ _ Hbody)].
  assert (preflight_error q s = None) as -> by (rewrite Hs; by destruct (snd choice)).
  rewrite (bind_ok _ _ w0 tt w0), (bind_ok _ _ w0 rate w0) in Hbody by done. intros e.
  destruct (reserve_task q requirements ckv (c_worker c) rate (clock (wd_ticks w)) w0)
    as [[ids|e'] w2] eqn:Er.
  - rewrite (bind_ok _ _ _ _ _ Er) in Hbody. unfold bind, mbind, M_bind, transaction.
    rewrite Hbody. cbn [mret M_ret].
    destruct (prepare_answer ckv (c, snd choice, rate, ids) w2) as [[p|e2] w3] eqn:Ep; [done|].
    intros [= ->]. by eapply prepare_answer_raises.
  - apply reserve_task_raises in Er as Ee. subst e'.
    unfold bind, mbind, M_bind in Hbody. rewrite Er in Hbody.
    unfold bind, mbind, M_bind, transaction. by rewrite Hbody.
Qed.
End Choice.

(** ** The concrete control plane *)

Definition demo_fresh : worker_row :=
  Eval vm_compute in
    match workers (wd_db demo_ready) with w :: _ => w | [] => demo_worker end.
Definition demo_requirements : dict := [("operation", JStr "i2v"); ("output_count", JInt 1)].

Lemma scheduled_only_if_authorized_witness :
  exists r, In r (worker_workflow_authorizations (wd_db demo_ready)) /\ wa_worker_id r = "wrk_0" /\
            wa_workflow_ref r = demo_ref /\ wa_workflow_digest r = demo_digest /\
            wa_revoked_at r = None.
Proof.
  apply (scheduled_only_if_authorized (wd_db demo_ready) demo_fresh demo_requirements);
    vm_compute; reflexivity.
Defined.

Lemma least_loaded_chosen_witness :
  exists c, choose_candidate (wd_db demo_ready) "pol_1" "comfyui" demo_requirements demo_ref
              demo_digest (clock 3) = Ok (Some c, false) /\
            reserved_load (wd_db demo_ready) (w_id (c_worker c)) (clock 3) <
            w_capacity (c_worker c).
Proof.
  assert (exists c, choose_candidate (wd_db demo_ready) "pol_1" "comfyui" demo_requirements demo_ref
                      demo_digest (clock 3) = Ok (Some c, false)) as [c Hc]
    by (eexists; vm_compute; reflexivity).
  exists c. split; [exact Hc|].
  destruct (least_loaded_chosen (wd_db demo_ready) "pol_1" "comfyui" demo_requirements demo_ref
              demo_digest (clock 3) c false Hc) as [_ H]. exact H.
Defined.

Lemma prepared_for_eligible_worker_witness :
  exists p, fst (prepare_task demo_request demo_ready) = Ok p /\
            w_status (pt_worker p) = WActive /\
            pt_fencing_token p = w_fencing_counter (pt_worker p) + 1.
Proof.
  assert (exists p, fst (prepare_task demo_request demo_ready) = Ok p) as [p Hp]
    by (eexists; vm_compute; reflexivity).
  exists p. split; [exact Hp|]. apply (run_ok (prepare_task demo_request)) in Hp.
  destruct (prepared_for_eligible_worker demo_request demo_ready p _ Hp)
    as (r & w1 & a & rate & _ & _ & _ & _ & _ & _ & _ & _ & Hs & _ & _ & _ & _ & _ & _ & _ & Hf & _).
  exact (conj Hs Hf).
Defined.

Lemma preflight_agrees_witness :
  fst (preflight_task demo_request demo_ready) = Ok ready /\
  forall e, fst (prepare_task demo_request demo_ready) = Raise (RepositoryError e) ->
            e_code e = 230004.
Proof.
  assert (fst (preflight_task demo_request demo_ready) = Ok ready) as Hp
    by (vm_compute; reflexivity).
  split; [exact Hp|]. apply (run_ok (preflight_task demo_request)) in Hp.
  destruct (preflight_agrees demo_request demo_ready ready _ Hp) as [_ H].
  - vm_compute. reflexivity.
  - exact H.
Defined.
