(* ===== verification/Consumer.v ===== *)
(** * The consumer's operations

    What commit, cancel, retry and rekey guarantee to the principal that owns a
    task: when a task enters a queue, what a cancellation stops and how the
    worker learns of it, whom a retry chooses, and which key envelopes a rekey
    leaves valid.  Two statements describe error paths that do not do what they
    set out to do. *)

From S2P Require Import Prelude Python Errors Schema Store Access Metadata Diagnostics.
From S2P Require Import Capability Scheduler Fleet Usage Scenario Invariant Lifecycle Reach.
From S2P Require Import Fencing Departure Admission.

Open Scope Z_scope.

(** ** Commit *)

Section Commit.
Context {E : Env}.

Lemma find_by_update {R K} `{EqDecision K} (key : R -> K) k p f t r :
  (forall x, key (f x) = key x) -> find_by key k t = Some r ->
  find_by key k (update p f t) = Some (if p r then f r else r).
Proof.
  intros Hf. unfold find_by, select. induction t as [|x t IH]; simpl; [done|].
  assert (key (if p x then f x else x) = key x) as Hk by (destruct (p x); auto).
  rewrite Hk. destruct (key x =d k); simpl; [|exact IH]. by intros [= ->].
Qed.

(** The inserted envelope wraps the task key for one worker. *)
Definition worker_envelope_row (id : string) (task : task_row) (recipient algorithm envelope : string)
    (stamp : Z) : key_envelope_row :=
  Mk_key_envelope_row id (Some (t_workspace_id task)) (Some (t_id task)) "worker" recipient
    (t_content_key_version task) algorithm envelope stamp None.

Lemma insert_envelope_run task wid alg env stamp w u w' :
  insert_worker_envelope task wid alg env stamp w = (Ok u, w') ->
  exists id recipient, wid = Some recipient /\
    wd_db w' = modify key_envelopes (fun t => t ++
                 [worker_envelope_row id task recipient alg env stamp]) (wd_db w).
Proof.
  unfold insert_worker_envelope. intros (id & w1 & Hid%run_new_id & H)%run_bind.
  destruct wid as [recipient|]; [|done]. apply run_insert in H as [_ ->]. rewrite Hid. eauto.
Qed.

(** A task found by its identifier, after it was rewritten. *)
Lemma find_rewritten tid f d t :
  (forall x, t_id (f x) = t_id x) -> find_by t_id tid (tasks d) = Some t ->
  find_by t_id tid (update (fun x => t_id x =d tid) f (tasks d)) = Some (f t).
Proof.
  intros Hf Ht. rewrite (find_by_update _ _ _ _ _ t) by done.
  apply find_by_some in Ht as [_ ->]. by rewrite bool_decide_eq_true_2.
Qed.

(** The committed and the queued version of a task. *)
Definition committed (payload reader : string) (stamp : Z) (t : task_row) : task_row :=
  t <| t_state := TCommitted |> <| t_encrypted_payload := Some payload |>
    <| t_reader_envelope := Some reader |> <| t_committed_at := Some stamp |>
    <| t_updated_at := stamp |>.
Definition queued (stamp : Z) (t : task_row) : task_row :=
  t <| t_state := TQueued |> <| t_reservation_expires_at := None |> <| t_updated_at := stamp |>.

Lemma commit_run tid u pt pi payload wenv renv alg w t pos w' :
  commit_task tid u pt pi payload wenv renv alg w = (Ok (t, pos), w') ->
  let stamp := clock (wd_ticks w) in
  exists t0 expires worker_id kid,
    find_by t_id tid (tasks (wd_db w)) = Some t0 /\ t_state t0 = TPrepared /\
    t_reservation_expires_at t0 = Some expires /\ stamp < expires /\
    count (fun a => (ar_task_id a =d tid) && (ar_direction a =d DInput) &&
                    negb (ar_state a =d ArUploaded)) (artifacts (wd_db w)) = 0 /\
    t_assigned_worker_id t0 = Some worker_id /\
    t = queued stamp (committed payload renv stamp t0) /\
    find_by t_id tid (tasks (wd_db w')) = Some t /\ pos = _task_queue_position (wd_db w') t /\
    key_envelopes (wd_db w') =
      key_envelopes (wd_db w) ++ [worker_envelope_row kid t0 worker_id alg wenv stamp].
Proof.
  intros Hrun stamp. unfold commit_task in Hrun.
  apply run_bind in Hrun as (s & w0 & Hnow & Hrun). injection Hnow as <- <-. fold stamp in Hrun.
  apply run_bind in Hrun as (u1 & w9 & Htx & Hrun). apply run_transaction in Htx.
  apply run_bind in Htx as (ot & wq & [-> ->]%run_query & Htx). simpl in Htx.
  apply run_bind in Htx as (t0 & wq & [Hf ->]%run_require & Htx).
  apply run_bind in Htx as (u2 & wq & H1 & Htx).
  apply (run_reads _ _ _ _ (reads_only_require_task_consumer _ _ _ _ _)) in H1 as ->.
  apply run_bind in Htx as (u3 & wq & [Hst ->]%run_check & Htx).
  destruct (t_reservation_expires_at t0) as [expires|] eqn:Eexp; [|done].
  destruct (expires <=? stamp) eqn:Ele; [by repeat run_step|]. apply Z.leb_gt in Ele.
  apply run_bind in Htx as (n & wq & [-> ->]%run_query & Htx). simpl in Htx.
  apply run_bind in Htx as (u4 & wq & [Hn ->]%run_check & Htx).
  apply run_bind in Htx as (n5 & w5 & [_ H5]%run_update & Htx).
  apply run_bind in Htx as (u6 & w6 & H6 & Htx).
  apply insert_envelope_run in H6 as (kid & worker_id & Eas & H6).
  apply run_bind in Htx as (n8 & w8 & [_ H8]%run_update & Htx). apply run_ret in Htx as [_ ->].
  apply run_bind in Hrun as (ov & wq & [-> ->]%run_query & Hrun).
  apply run_bind in Hrun as (v & wq & [Hv ->]%run_require & Hrun).
  apply run_bind in Hrun as (d & wq & [-> ->]%run_query & Hrun).
  apply run_ret in Hrun as [[= -> ->] ->]. exists t0, expires, worker_id, kid. split_bools.
  assert (v = queued stamp (committed payload renv stamp t0)) as Ev.
  { rewrite H8, H6, H5 in Hv. simpl in Hv. apply find_by_some in Hf as Hid. destruct Hid as [_ Hid].
    erewrite find_by_update in Hv; [|done|by apply find_by_update; [|exact Hf]].
    rewrite Hid, (bool_decide_eq_true_2 (tid = tid)) in Hv by done. simpl in Hv.
    rewrite Hid, !bool_decide_eq_true_2 in Hv by done. by injection Hv as <-. }
  split_and!; try done. by rewrite H8, H6, H5.
Qed.

(** Committing queues a complete task.  [commit_task] succeeds only for a
    prepared task whose reservation has not lapsed and whose input artifacts are
    all uploaded; the task is then queued without a reservation, with its
    encrypted payload and reader envelope, its assigned worker has a valid key
    envelope with the key version of the task, and the answer carries its
    position in the queue. *)
Theorem commit_queues_complete_task tid u pt pi payload wenv renv alg w t pos w' :
  commit_task tid u pt pi payload wenv renv alg w = (Ok (t, pos), w') ->
  let stamp := clock (wd_ticks w) in
  exists t0 expires worker_id,
    find_by t_id tid (tasks (wd_db w)) = Some t0 /\ t_state t0 = TPrepared /\
    t_reservation_expires_at t0 = Some expires /\ stamp < expires /\
    (forall a, In a (artifacts (wd_db w)) -> ar_task_id a = tid -> ar_direction a = DInput ->
               ar_state a = ArUploaded) /\
    find_by t_id tid (tasks (wd_db w')) = Some t /\ t_state t = TQueued /\
    t_reservation_expires_at t = None /\ t_encrypted_payload t = Some payload /\
    t_reader_envelope t = Some renv /\ t_assigned_worker_id t = Some worker_id /\
    pos = _task_queue_position (wd_db w') t /\
    (exists k, In k (key_envelopes (wd_db w')) /\ ke_task_id k = Some tid /\
       ke_recipient_type k = "worker" /\ ke_recipient_id k = worker_id /\ ke_envelope k = wenv /\
       ke_key_version k = t_content_key_version t /\ ke_revoked_at k = None).
Proof.
  intros (t0 & expires & worker_id & kid & Hf & Hs & He & Hlt & Hn & Has & -> & Hf' & Hp & Hk)%commit_run
    stamp. exists t0, expires, worker_id. split_and!; try done.
  - intros a Ha Et Ed. rewrite count_zero in Hn. specialize (Hn a Ha).
    rewrite Et, Ed, !bool_decide_eq_true_2 in Hn by done. simpl in Hn. by split_bools.
  - rewrite Hk. eexists. split; [apply in_app_iff; right; by left|]. simpl.
    by apply find_by_some in Hf as [_ ->].
Qed.

(** The consumer guard reads the database only. *)
Lemma consumer_guard_run t pt pi u adm w w0 :
  wd_db w0 = wd_db w -> fst (require_task_consumer t pt pi u adm w) = Ok tt ->
  require_task_consumer t pt pi u adm w0 = (Ok tt, w0).
Proof.
  intros Ed Hc. pose proof (reads_only_require_task_consumer t pt pi u adm w0) as Hr.
  assert (fst (require_task_consumer t pt pi u adm w0) = fst (require_task_consumer t pt pi u adm w))
    as Ef.
  { unfold require_task_consumer, require_service, require_member, bind, mbind, M_bind, query.
    destruct (String.eqb pt "service"); rewrite Ed.
    - destruct (head _); simpl; [|done]. unfold check. by destruct (_ && _).
    - destruct (membership _ _ _); simpl; [|done]. unfold check. by destruct (_ || _). }
  destruct (require_task_consumer t pt pi u adm w0) as [r w1]. simpl in *. congruence.
Qed.

(** A commit after the reservation has lapsed is refused with
    RESERVATION_EXPIRED, but does not expire the task: the statement that marks
    it expired is rolled back with the transaction, and the task stays
    prepared until the next sweep. *)
Theorem lapsed_commit_leaves_prepared tid u pt pi payload wenv renv alg w t expires :
  find_by t_id tid (tasks (wd_db w)) = Some t -> t_state t = TPrepared ->
  fst (require_task_consumer t pt pi u false w) = Ok tt ->
  t_reservation_expires_at t = Some expires -> expires <= clock (wd_ticks w) ->
  fst (commit_task tid u pt pi payload wenv renv alg w) =
    Raise (repo_err_full RESERVATION_EXPIRED "RESERVATION_EXPIRED"
             "Task reservation has expired." 409 "later" "none" None) /\
  find_by t_id tid (tasks (wd_db (snd (commit_task tid u pt pi payload wenv renv alg w)))) = Some t.
Proof.
  intros Hf Hs Hc He Hle. set (w0 := w <| wd_ticks := S (wd_ticks w) |>).
  pose proof (consumer_guard_run t pt pi u false w w0 eq_refl Hc) as Hc0.
  unfold commit_task. rewrite (bind_ok now _ w (clock (wd_ticks w)) w0) by done.
  match goal with |- fst (bind (transaction ?b) ?k _) = Raise ?e /\ _ =>
    assert (exists w1, b w0 = (Raise e, w1)) as (w1 & Hb);
    [|destruct (transaction_raises b k w0 e w1 Hb) as [-> ->]] end; [|done].
  eexists. rewrite (bind_ok (query _) _ w0 (Some t) w0) by (unfold query; by rewrite <- Hf).
  rewrite (bind_ok _ _ w0 t w0), (bind_ok _ _ _ _ _ Hc0), (bind_ok _ _ w0 tt w0)
    by (try done; by rewrite Hs). rewrite He, (proj2 (Z.leb_le _ _) Hle). reflexivity.
Qed.
End Commit.

(** ** Cancel *)

Section Cancel.
Context {E : Env}.

Lemma cancel_run tid u pt pi w s w' :
  cancel_task tid u pt pi w = (Ok s, w') ->
  let stamp := clock (wd_ticks w) in
  exists t0, find_by t_id tid (tasks (wd_db w)) = Some t0 /\
  if task_terminal (t_state t0) then s = t_state t0 /\ wd_db w' = wd_db w
  else
    s = TCancelled /\ usage_ledger (wd_db w') = usage_ledger (wd_db w) /\
    tasks (wd_db w') = update (fun t => t_id t =d tid)
      (fun t => t <| t_state := TCancelled |> <| t_finished_at := Some stamp |>
                  <| t_updated_at := stamp |>) (tasks (wd_db w)) /\
    task_attempts (wd_db w') =
      update (fun a => (a_task_id a =d tid) && attempt_unstarted (a_state a))
        (fun a => a <| a_state := ACancelled |> <| a_responsibility := Some RConsumer |>
                    <| a_finished_at := Some stamp |>) (task_attempts (wd_db w)) /\
    leases (wd_db w') =
      update (fun l => (l_attempt_id l ∈? map a_id
                          (select (fun a => (a_task_id a =d tid) && (a_state a =d ACancelled) &&
                                            (a_started_at a =d None)) (task_attempts (wd_db w')))) &&
                       (l_released_at l =d None))
             (fun l => l <| l_released_at := Some stamp |>) (leases (wd_db w)).
Proof.
  intros Hrun stamp. unfold cancel_task in Hrun.
  apply run_bind in Hrun as (st & w0 & Hnow & Hrun). injection Hnow as <- <-. fold stamp in Hrun.
  apply run_transaction in Hrun.
  apply run_bind in Hrun as (ot & wq & [-> ->]%run_query & Hrun). simpl in Hrun.
  apply run_bind in Hrun as (t0 & wq & [Hf ->]%run_require & Hrun). exists t0. split; [done|].
  apply run_bind in Hrun as (u2 & wq & H1 & Hrun).
  apply (run_reads _ _ _ _ (reads_only_require_task_consumer _ _ _ _ _)) in H1 as ->.
  destruct (task_terminal (t_state t0)); [by apply run_ret in Hrun as [-> ->]|].
  apply run_bind in Hrun as (n3 & w3 & [_ H3]%run_update & Hrun).
  apply run_bind in Hrun as (n4 & w4 & [_ H4]%run_update & Hrun).
  apply run_bind in Hrun as (ids & wq & [-> ->]%run_query & Hrun).
  apply run_bind in Hrun as (n5 & w5 & [_ H5]%run_update & Hrun).
  apply run_ret in Hrun as [-> ->]. rewrite H5. simpl. rewrite H4. simpl. rewrite H3. done.
Qed.

(** Cancelling stops what has not started and only asks for the rest.  A
    cancelled task is cancelled for good and none of its attempts is reserved or
    leased any more, their leases are released and nothing is charged; an
    attempt that is running keeps running under its lease, so that its worker
    can report what it used.  A task that had already ended keeps its outcome
    and nothing changes. *)
Theorem cancel_stops_unstarted tid u pt pi w s w' :
  reachable w -> cancel_task tid u pt pi w = (Ok s, w') ->
  exists t0, find_by t_id tid (tasks (wd_db w)) = Some t0 /\
  if task_terminal (t_state t0) then s = t_state t0 /\ wd_db w' = wd_db w
  else
    s = TCancelled /\ usage_ledger (wd_db w') = usage_ledger (wd_db w) /\
    (forall t, In t (tasks (wd_db w')) -> t_id t = tid -> t_state t = TCancelled) /\
    (forall a, In a (task_attempts (wd_db w')) -> a_task_id a = tid ->
       a_state a <> AReserved /\ a_state a <> ALeased) /\
    (forall a, In a (task_attempts (wd_db w)) -> a_state a = ARunning ->
       In a (task_attempts (wd_db w')) /\
       exists l, In l (leases (wd_db w')) /\ l_attempt_id l = a_id a /\ l_released_at l = None).
Proof.
  intros HI%inv_reachable (t0 & Hf & H)%cancel_run. exists t0. split; [done|].
  destruct (task_terminal (t_state t0)); [done|]. destruct H as (-> & Eu & Et & Ea & El).
  split_and!; try done.
  - rewrite Et. intros t' (t & _ & [[_ ->]|[Hn ->]])%in_update Ei; [done|].
    by rewrite Ei, bool_decide_eq_true_2 in Hn.
  - rewrite Ea. intros a' (a & _ & [[_ ->]|[Hn ->]])%in_update Ei; [done|].
    rewrite Ei, bool_decide_eq_true_2 in Hn by done. by destruct (a_state a).
  - intros a Ha Hs. split.
    + rewrite Ea. apply in_update. exists a. split; [done|]. right. by rewrite Hs, andb_false_r.
    + assert (executing a = true) as Hex by (unfold executing; by rewrite Hs).
      destruct (inv_executing_live _ HI a Ha Hex) as (l & Hl & Eid & Hlive). exists l.
      unfold live in Hlive. split_bools. split_and!; try done. rewrite El. apply in_update.
      exists l. split; [done|]. right. split; [|done]. apply andb_false_iff. left.
      rewrite Ea. pose proof (cancelled_leases _ tid (clock (wd_ticks w)) l a HI Ha
        (eq_sym Eid) Hex) as Hc. cbv zeta in Hc. by rewrite Hc, Hs, andb_false_r.
Qed.

(** C36: a worker learns of a cancellation.  In every reachable control plane, once its
    task is cancelled, every heartbeat of an attempt under its own fence, whether its lease is still
    live or not, is answered with the cancellation flag; progress and start
    reports in it have no effect on the task or the attempt. *)
Theorem cancellation_reaches_worker w a t ttl started report :
  reachable w -> In a (task_attempts (wd_db w)) -> In t (tasks (wd_db w)) ->
  t_id t = a_task_id a -> t_state t = TCancelled ->
  let m := heartbeat_attempt (a_id a) (a_worker_id a) (a_fencing_token a) ttl started report in
  (exists expires, fst (m w) = Ok (MkHeartbeat true expires)) /\
  tasks (wd_db (snd (m w))) = tasks (wd_db w) /\
  task_attempts (wd_db (snd (m w))) = task_attempts (wd_db w).
Proof.
  intros HI%inv_reachable Ha Ht Et Hs m.
  assert (find_by t_id (a_task_id a) (tasks (wd_db w)) = Some t) as Hft.
  { apply (head_select_unique t_id); [apply HI|done|by apply bool_decide_eq_true_2|].
    intros y _ Hy. split_bools. congruence. }
  assert (fenced_attempt (wd_db w) (a_id a) (a_worker_id a) (a_fencing_token a) = Some (a, t)) as Hfa.
  { unfold fenced_attempt. unfold bind, mbind, option_bind.
    rewrite (head_select_unique a_id _ _ a); [by rewrite Hft|apply HI|done| |].
    - by rewrite !bool_decide_eq_true_2.
    - intros y _ Hy. by split_bools. }
  assert (forall w0 stamp, wd_db w0 = wd_db w ->
    cancelled_ack (a_id a) (a_worker_id a) (a_fencing_token a) stamp w0 =
    (Ok (MkHeartbeat true stamp), w0)) as Hack.
  { intros w0 stamp Ed. unfold cancelled_ack, bind, mbind, M_bind, query.
    rewrite Ed, Hfa, Hs, bool_decide_eq_true_2 by done. done. }
  unfold m. destruct (fenced_lease (wd_db w) (a_id a) (a_worker_id a) (a_fencing_token a))
    as [[[l b] t']|] eqn:El; [destruct (clock (wd_ticks w) <? l_expires_at l) eqn:Ex|].
  2, 3: rewrite heartbeat_unfenced by (by rewrite El); unfold transaction;
    rewrite Hack by done; simpl; eauto.
  apply fenced_lease_spec in El as Hsp. destruct Hsp as (_ & _ & _ & _ & _ & Hb & Eb & Ht' & Et').
  assert (b = a) as -> by (apply (attempt_unique (wd_db w)); auto).
  assert (t' = t) as -> by (apply (NoDup_map_inj t_id (tasks (wd_db w))); [apply HI|done|done|congruence]).
  unfold heartbeat_attempt, bind, mbind, M_bind, now, transaction, query. simpl. rewrite El, Ex, Hs.
  rewrite bool_decide_eq_true_2 by done. simpl. split; [eauto|]. done.
Qed.
End Cancel.

(** ** Retry and rekey *)

Section Rekey.
Context {E : Env}.

Lemma next_attempt_number_fresh d tid a :
  In a (task_attempts d) -> a_task_id a = tid -> a_attempt_number a < next_attempt_number d tid.
Proof.
  intros Ha Et. unfold next_attempt_number.
  assert (In a (select (fun x => a_task_id x =d tid) (task_attempts d))) as Hin.
  { apply in_select. split; [done|]. by apply bool_decide_eq_true_2. }
  assert (forall l n, n <= List.fold_left (fun n x => Z.max n (a_attempt_number x)) l n /\
    (In a l -> a_attempt_number a <= List.fold_left (fun n x => Z.max n (a_attempt_number x)) l n))
    as H.
  { induction l as [|x l IH]; intros n; simpl; [lia|].
    destruct (IH (Z.max n (a_attempt_number x))) as [H1 H2]. split; [lia|].
    intros [<-|Hl]; [lia|auto]. }
  destruct (H (select (fun x => a_task_id x =d tid) (task_attempts d)) 0) as [_ H2].
  specialize (H2 Hin). lia.
Qed.

(** The task as a pending retry leaves it. *)
Definition retried (worker_id : string) (expires stamp : Z) (t : task_row) : task_row :=
  t <| t_assigned_worker_id := Some worker_id |> <| t_reservation_expires_at := Some expires |>
    <| t_state := TRekeyRequired |> <| t_finished_at := None |> <| t_updated_at := stamp |>.

Lemma reserve_retry_run task worker rate stamp ttl w aid f w' :
  find_by t_id (t_id task) (tasks (wd_db w)) = Some task ->
  reserve_retry task worker rate stamp ttl w = (Ok (aid, f), w') ->
  f = w_fencing_counter worker + 1 /\
  find_by t_id (t_id task) (tasks (wd_db w')) =
    Some (retried (w_id worker) (stamp + seconds ttl) stamp task) /\
  (exists a, task_attempts (wd_db w') = task_attempts (wd_db w) ++ [a] /\ a_id a = aid /\
     a_task_id a = t_id task /\ a_worker_id a = w_id worker /\ a_state a = AReserved /\
     a_fencing_token a = f /\
     a_attempt_number a = next_attempt_number (wd_db w) (t_id task)) /\
  workers (wd_db w') =
    update (fun x => w_id x =d w_id worker)
      (fun x => x <| w_fencing_counter := f |> <| w_updated_at := stamp |>) (workers (wd_db w)).
Proof.
  intros Hf Hrun. unfold reserve_retry in Hrun. repeat run_step.
  match goal with H : (aid, f) = _ |- _ => injection H as -> -> end.
  flat_db. simpl. split_and!; [done|by apply find_rewritten| |done].
  eexists. split; [done|]. by repeat split.
Qed.

(** The run of an accepted retry. *)
Lemma retry_run tid u pt pi ttl w p w' :
  prepare_retry tid u pt pi ttl w = (Ok p, w') ->
  let stamp := clock (wd_ticks w) in
  exists w1 stored requirements c rate w2 w3,
    _expire_reservations stamp (w <| wd_ticks := S (wd_ticks w) |>) = (Ok tt, w1) /\
    find_by t_id tid (tasks (wd_db w1)) = Some (rp_task p) /\
    task_retryable (t_state (rp_task p)) = true /\
    json_loads_or (JObj []) (t_public_requirements (rp_task p)) = Some stored /\
    validate_public_requirements stored = Ok requirements /\
    first_match (wd_db w1) requirements (t_workflow_ref (rp_task p)) (t_workflow_digest (rp_task p))
      (retry_candidate_rows (wd_db w1) (rp_task p) stamp) = Ok (Some c) /\ rp_worker p = c_worker c /\
    approved_rate (wd_db w1) (w_id (c_worker c)) (t_workspace_id (rp_task p)) = Some rate /\
    wd_db w2 = wd_db w1 /\ wd_db w3 = wd_db w' /\
    reserve_retry (rp_task p) (c_worker c) rate stamp ttl w2 =
      (Ok (rp_attempt_id p, rp_fencing_token p), w3).
Proof.
  intros Hrun stamp. unfold prepare_retry in Hrun.
  apply run_bind in Hrun as (s & w0 & Hnow & Hrun). injection Hnow as <- <-. fold stamp in Hrun.
  apply run_bind in Hrun as ([[task c] [aid f]] & w9 & Htx & Hrun). apply run_transaction in Htx.
  apply run_bind in Htx as ([] & w1 & Hx & Htx).
  repeat first
    [ match goal with H : _public_requirements _ _ = (Ok _, _) |- _ =>
        apply run_public_requirements in H as [? ->] end
    | run_step ].
  exists w1. do 6 eexists. split_and!; try done; simplify_eq; try eassumption; done.
Qed.

(** A retry moves a task to another eligible worker.  When [prepare_retry]
    succeeds the task had failed, expired or lost its worker, and the replacement
    is not the worker it was assigned to; it is active, was seen within two
    minutes, runs the task's executor type, has no maintenance job in the way,
    holds an active and proven allocation to the task's pool, has a free slot
    and meets the task's stored requirements.  The task then waits for a rekey
    with a new reserved attempt whose number exceeds all earlier ones and whose
    fencing token is the worker's new counter. *)
Theorem retry_reserves_elsewhere tid u pt pi ttl w p w' :
  prepare_retry tid u pt pi ttl w = (Ok p, w') ->
  let stamp := clock (wd_ticks w) in
  let task := rp_task p in
  let worker := rp_worker p in
  exists w1 stored requirements a at' assigned,
    _expire_reservations stamp (w <| wd_ticks := S (wd_ticks w) |>) = (Ok tt, w1) /\
    find_by t_id tid (tasks (wd_db w1)) = Some task /\ task_retryable (t_state task) = true /\
    t_assigned_worker_id task = Some assigned /\ w_id worker <> assigned /\
    In worker (workers (wd_db w1)) /\ In a (worker_allocations (wd_db w1)) /\
    schedulable (wd_db w1) (t_pool_id task) (t_executor_type task) stamp worker a = true /\
    reserved_load (wd_db w1) (w_id worker) stamp < w_capacity worker /\
    json_loads_or (JObj []) (t_public_requirements task) = Some stored /\
    validate_public_requirements stored = Ok requirements /\
    _matches_requirements (wd_db w1) worker requirements (t_workflow_ref task)
      (t_workflow_digest task) = Ok true /\
    find_by t_id tid (tasks (wd_db w')) =
      Some (retried (w_id worker) (stamp + seconds ttl) stamp task) /\
    task_attempts (wd_db w') = task_attempts (wd_db w1) ++ [at'] /\ a_id at' = rp_attempt_id p /\
    a_task_id at' = tid /\ a_worker_id at' = w_id worker /\ a_state at' = AReserved /\
    a_fencing_token at' = w_fencing_counter worker + 1 /\
    (forall b, In b (task_attempts (wd_db w1)) -> a_task_id b = tid ->
               a_attempt_number b < a_attempt_number at').
Proof.
  intros (w1 & stored & req & c & rate & w2 & w3 & Hx & Hf & Hr & Hst & Hv & Hm & Ew & _ & E2 & E3 & Hres)%retry_run
    stamp task worker. unfold worker, task in *. rewrite Ew.
  pose proof (find_by_some _ _ _ _ Hf) as [_ Etid].
  apply first_match_in in Hm as Hc. apply candidate_worker in Hc as (Hw & Ha & Hs). split_bools.
  destruct (t_assigned_worker_id (rp_task p)) as [assigned|] eqn:Eas; [|done]. split_bools.
  apply reserve_retry_run in Hres as (Ef & Ht & (at' & Eat & G1 & G2 & G3 & G4 & G5 & G6) & _);
    [|by rewrite E2, Etid].
  rewrite E2 in Eat, G6. rewrite E3, Etid in *.
  exists w1, stored, req, (c_allocation c), at', assigned. split_and!; try done; try congruence.
  - apply first_match_spec in Hm as (_ & _ & _ & Hm & _). done.
  - intros b Hb Eb. rewrite G6. by apply next_attempt_number_fresh.
Qed.

Lemma rekey_run tid u rw env alg pt pi w pos w' :
  commit_rekey tid u rw env alg pt pi w = (Ok pos, w') ->
  let stamp := clock (wd_ticks w) in
  exists t0 expires kid,
    find_by t_id tid (tasks (wd_db w)) = Some t0 /\ t_state t0 = TRekeyRequired /\
    t_assigned_worker_id t0 = Some rw /\ t_reservation_expires_at t0 = Some expires /\
    stamp < expires /\ find_by t_id tid (tasks (wd_db w')) = Some (queued stamp t0) /\
    pos = _task_queue_position (wd_db w') (queued stamp t0) /\
    key_envelopes (wd_db w') =
      update (fun k => (ke_task_id k =d Some tid) && (ke_recipient_type k =d "worker") &&
                       (ke_revoked_at k =d None))
             (fun k => k <| ke_revoked_at := Some stamp |>) (key_envelopes (wd_db w)) ++
      [worker_envelope_row kid t0 rw alg env stamp].
Proof.
  intros Hrun stamp. unfold commit_rekey in Hrun.
  apply run_bind in Hrun as (s & w0 & Hnow & Hrun). injection Hnow as <- <-. fold stamp in Hrun.
  apply run_bind in Hrun as (u1 & w9 & Htx & Hrun). apply run_transaction in Htx.
  apply run_bind in Htx as (ot & wq & [-> ->]%run_query & Htx). simpl in Htx.
  apply run_bind in Htx as (t0 & wq & [Hf ->]%run_require & Htx).
  apply run_bind in Htx as (u2 & wq & H1 & Htx).
  apply (run_reads _ _ _ _ (reads_only_require_task_consumer _ _ _ _ _)) in H1 as ->.
  apply run_bind in Htx as (u3 & wq & [Hst ->]%run_check & Htx).
  destruct (t_reservation_expires_at t0) as [expires|] eqn:Eexp; [|done].
  apply run_bind in Htx as (u4 & wq & [Hlt ->]%run_check & Htx).
  apply run_bind in Htx as (n5 & w5 & [_ H5]%run_update & Htx).
  apply run_bind in Htx as (u6 & w6 & H6 & Htx).
  apply insert_envelope_run in H6 as (kid & r & [= <-] & H6).
  apply run_bind in Htx as (n8 & w8 & [_ H8]%run_update & Htx). apply run_ret in Htx as [_ ->].
  apply run_bind in Hrun as (ov & wq & [-> ->]%run_query & Hrun).
  apply run_bind in Hrun as (v & wq & [Hv ->]%run_require & Hrun).
  apply run_bind in Hrun as (d & wq & [-> ->]%run_query & Hrun).
  apply run_ret in Hrun as [-> ->]. exists t0, expires, kid. split_bools.
  assert (find_by t_id tid (tasks (wd_db w8)) = Some (queued stamp t0)) as Hq
    by (rewrite H8, H6, H5; simpl; by apply find_rewritten).
  rewrite Hq in Hv. injection Hv as <-. split_and!; try done. by rewrite H8, H6, H5.
Qed.

(** A rekey leaves exactly one usable key.  [commit_rekey] succeeds only for
    a task that waits for a rekey under a live reservation of the named worker.
    Afterwards the task is queued, every key envelope of the task that some
    worker could use before is revoked, and the one valid worker envelope is the
    new one, for the replacement and under the task's key version; envelopes of
    readers and of other tasks are untouched. *)
Theorem rekey_leaves_one_key tid u rw env alg pt pi w pos w' :
  commit_rekey tid u rw env alg pt pi w = (Ok pos, w') ->
  let stamp := clock (wd_ticks w) in
  let usable k := ke_task_id k = Some tid /\ ke_recipient_type k = "worker" /\
                  ke_revoked_at k = None in
  exists t0 expires,
    find_by t_id tid (tasks (wd_db w)) = Some t0 /\ t_state t0 = TRekeyRequired /\
    t_assigned_worker_id t0 = Some rw /\ t_reservation_expires_at t0 = Some expires /\
    stamp < expires /\ find_by t_id tid (tasks (wd_db w')) = Some (queued stamp t0) /\
    pos = _task_queue_position (wd_db w') (queued stamp t0) /\
    (exists k, In k (key_envelopes (wd_db w')) /\ usable k /\ ke_recipient_id k = rw /\
       ke_envelope k = env /\ ke_key_version k = t_content_key_version t0 /\
       forall k', In k' (key_envelopes (wd_db w')) -> usable k' -> k' = k) /\
    (forall k, In k (key_envelopes (wd_db w)) -> ~ usable k -> In k (key_envelopes (wd_db w'))).
Proof.
  intros (t0 & expires & kid & Hf & Hs & Ha & He & Hlt & Hf' & Hp & Hk)%rekey_run stamp usable.
  exists t0, expires. split_and!; try done.
  - pose proof (find_by_some _ _ _ _ Hf) as [_ Etid]. unfold usable. rewrite Hk. eexists.
    split; [apply in_app_iff; right; by left|]. simpl. rewrite Etid. split_and!; try done.
    intros k' [Hin|[<-|[]]]%in_app_iff (H1 & H2 & H3); [|done].
    apply in_update in Hin as (k & _ & [[_ ->]|[Hn ->]]); [done|].
    by rewrite H1, H2, H3, !bool_decide_eq_true_2 in Hn.
  - intros k Hin Hn. rewrite Hk. apply in_app_iff. left. apply in_update. exists k. split; [done|].
    right. split; [|done]. unfold usable in Hn.
    destruct (ke_task_id k =d Some tid) eqn:E1; [|done].
    destruct (ke_recipient_type k =d "worker") eqn:E2; [|done].
    destruct (ke_revoked_at k =d None) eqn:E3; [|done]. split_bools. by destruct Hn.
Qed.

(** Naming the worker a task was taken from, while no retry is pending, is not
    refused but crashes: the missing reservation time cannot be compared. *)
Lemma rekey_without_reservation_crashes tid u rw env alg pt pi w t :
  find_by t_id tid (tasks (wd_db w)) = Some t -> t_state t = TRekeyRequired ->
  t_assigned_worker_id t = Some rw -> t_reservation_expires_at t = None ->
  fst (require_task_consumer t pt pi u false w) = Ok tt ->
  fst (commit_rekey tid u rw env alg pt pi w) = Raise TypeError.
Proof.
  intros Hf Hs Ha Hr Hc. set (w0 := w <| wd_ticks := S (wd_ticks w) |>).
  pose proof (consumer_guard_run t pt pi u false w w0 eq_refl Hc) as Hc0.
  unfold commit_rekey. rewrite (bind_ok now _ w (clock (wd_ticks w)) w0) by done.
  match goal with |- fst (bind (transaction ?b) ?k _) = Raise ?e =>
    assert (exists w1, b w0 = (Raise e, w1)) as (w1 & Hb);
    [|by destruct (transaction_raises b k w0 e w1 Hb) as [-> _]] end.
  eexists. rewrite (bind_ok (query _) _ w0 (Some t) w0) by (unfold query; by rewrite <- Hf).
  rewrite (bind_ok _ _ w0 t w0), (bind_ok _ _ _ _ _ Hc0), (bind_ok _ _ w0 tt w0)
    by (try done; by rewrite Hs, Ha, !bool_decide_eq_true_2). rewrite Hr. reflexivity.
Qed.
End Rekey.

(** ** The statements on the concrete control plane *)

Lemma commit_queues_complete_task_witness :
  exists t, find_by t_id "tsk_2" (tasks (wd_db demo_committed)) = Some t /\ t_state t = TQueued /\
            t_reservation_expires_at t = None /\ t_encrypted_payload t = Some "payload".
Proof.
  assert (exists x, fst (commit_task "tsk_2" (Some "usr_alice") "user" "usr_alice" "payload"
    "env-worker" "env-reader" "hpke" demo_prepared) = Ok x) as [[t pos] Hx]
    by (eexists; vm_compute; reflexivity).
  apply (run_ok (commit_task _ _ _ _ _ _ _ _)) in Hx. unfold demo_committed.
  destruct (commit_queues_complete_task _ _ _ _ _ _ _ _ _ _ _ _ Hx)
    as (t0 & e & wid & _ & _ & _ & _ & _ & H1 & H2 & H3 & H4 & _).
  exists t. exact (conj H1 (conj H2 (conj H3 H4))).
Defined.

(** Ten minutes after the preparation the reservation has lapsed. *)
Definition demo_late : world := demo_prepared <| wd_ticks := 900%nat |>.

Definition demo_prepared_task : task_row :=
  Eval vm_compute in demo_task demo_late "tsk_2".

Lemma lapsed_commit_leaves_prepared_witness :
  t_state demo_prepared_task = TPrepared /\
  find_by t_id "tsk_2" (tasks (wd_db (run (commit_task "tsk_2" (Some "usr_alice") "user" "usr_alice" "payload"
    "env-worker" "env-reader" "hpke") demo_late))) = Some demo_prepared_task.
Proof.
  split; [vm_compute; reflexivity|].
  destruct (lapsed_commit_leaves_prepared "tsk_2" (Some "usr_alice") "user" "usr_alice" "payload"
    "env-worker" "env-reader" "hpke" demo_late demo_prepared_task (seconds 1603)) as [_ H];
    [vm_compute; reflexivity..|vm_compute; discriminate|].
  exact H.
Defined.

Definition demo_cancelled : world :=
  run (cancel_task "tsk_2" (Some "usr_alice") "user" "usr_alice") demo_running.

Lemma cancel_stops_unstarted_witness :
  In demo_attempt (task_attempts (wd_db demo_cancelled)) /\
  exists l, In l (leases (wd_db demo_cancelled)) /\ l_attempt_id l = a_id demo_attempt /\
            l_released_at l = None.
Proof.
  assert (exists s, fst (cancel_task "tsk_2" (Some "usr_alice") "user" "usr_alice" demo_running) = Ok s)
    as [s Hs] by (eexists; vm_compute; reflexivity).
  apply (run_ok (cancel_task "tsk_2" (Some "usr_alice") "user" "usr_alice")) in Hs.
  unfold demo_cancelled. destruct (cancel_stops_unstarted _ _ _ _ _ _ _ demo_running_reachable Hs) as (t0 & Hf & H).
  assert (task_terminal (t_state t0) = false) as Ht
    by (vm_compute in Hf; injection Hf as <-; vm_compute; reflexivity).
  rewrite Ht in H. destruct H as (_ & _ & _ & _ & H).
  exact (H demo_attempt demo_attempt_in eq_refl).
Defined.

Lemma demo_cancelled_reachable : reachable demo_cancelled.
Proof.
  apply (reachable_step demo_running); [apply demo_running_reachable|].
  unfold demo_cancelled, run. apply StepCancel.
Qed.

Definition demo_cancelled_task : task_row :=
  Eval vm_compute in demo_task demo_cancelled "tsk_2".

Lemma cancellation_reaches_worker_witness :
  exists expires, fst (heartbeat_attempt "atm_3" "wrk_0" 2 30 false None demo_cancelled) =
                  Ok (MkHeartbeat true expires).
Proof.
  destruct (cancellation_reaches_worker demo_cancelled demo_attempt demo_cancelled_task 30 false None)
    as [H _].
  - apply demo_cancelled_reachable.
  - vm_compute. by left.
  - vm_compute. by left.
  - vm_compute. reflexivity.
  - vm_compute. reflexivity.
  - exact H.
Defined.

(** A second worker [wrk_6] joins after the first fell silent; the consumer
    retries the task there and wraps its key for it. *)
Definition demo_second : world :=
  run (worker_heartbeat "wrk_6" (Some demo_report))
    (modify wd_db (approve_demo "wrk_6")
       (run (offer_worker "wrk_6" "usr_owner" "pol_1")
          (run (create_worker (demo_registration "B")) demo_swept))).

Definition demo_retry : world -> world :=
  run (prepare_retry "tsk_2" (Some "usr_alice") "user" "usr_alice" 600).
Definition demo_retried : world := demo_retry demo_second.
Definition demo_rekeyed : world :=
  run (commit_rekey "tsk_2" (Some "usr_alice") "wrk_6" "env-second" "hpke" "user" "usr_alice")
    demo_retried.

Lemma retry_reserves_elsewhere_witness :
  exists p worker, rp_worker p = worker /\ w_id worker <> "wrk_0" /\
    find_by t_id "tsk_2" (tasks (wd_db demo_retried)) =
      Some (retried (w_id worker) (clock (wd_ticks demo_second) + seconds 600)
              (clock (wd_ticks demo_second)) (rp_task p)).
Proof.
  assert (exists p, fst (prepare_retry "tsk_2" (Some "usr_alice") "user" "usr_alice" 600 demo_second)
    = Ok p /\ t_assigned_worker_id (rp_task p) = Some "wrk_0") as (p & Hp & Ea)
    by (eexists; split; vm_compute; reflexivity).
  apply (run_ok (prepare_retry _ _ _ _ _)) in Hp. exists p, (rp_worker p).
  destruct (retry_reserves_elsewhere _ _ _ _ _ _ _ _ Hp)
    as (w1 & st & req & a & at' & assigned & _ & _ & _ & Eas & Hne & _ & _ & _ & _ & _ & _ & _ & H & _).
  split; [reflexivity|]. split; [|exact H]. rewrite Ea in Eas. injection Eas as <-. exact Hne.
Defined.

Lemma rekey_leaves_one_key_witness :
  exists k, In k (key_envelopes (wd_db demo_rekeyed)) /\ ke_recipient_id k = "wrk_6" /\
            ke_envelope k = "env-second".
Proof.
  assert (exists pos, fst (commit_rekey "tsk_2" (Some "usr_alice") "wrk_6" "env-second" "hpke" "user"
    "usr_alice" demo_retried) = Ok pos) as (pos & Hp) by (eexists; vm_compute; reflexivity).
  apply (run_ok (commit_rekey _ _ _ _ _ _ _)) in Hp. unfold demo_rekeyed.
  destruct (rekey_leaves_one_key _ _ _ _ _ _ _ _ _ _ Hp)
    as (t0 & ex & _ & _ & _ & _ & _ & _ & _ & (k & H1 & _ & H2 & H3 & _) & _).
  exists k. exact (conj H1 (conj H2 H3)).
Defined.

(** The crash of [rekey_without_reservation_crashes] needs no unusual state: the
    lease of a running task has lapsed and the consumer names the old worker. *)
Lemma rekey_crash_example :
  fst (commit_rekey "tsk_2" (Some "usr_alice") "wrk_0" "env" "hpke" "user" "usr_alice" demo_swept) =
  Raise TypeError.
Proof.
  apply (rekey_without_reservation_crashes _ _ _ _ _ _ _ _ (demo_task demo_swept "tsk_2"));
    vm_compute; reflexivity.
Qed.

(** Two retries before one rekey: the first replacement's attempt stays reserved
    although the task is queued for another worker, and no later sweep frees the
    slot it takes. *)
Lemma abandoned_retry_keeps_its_slot :
  let again := demo_retry (run (worker_heartbeat "wrk_0" (Some demo_report)) demo_retried) in
  let w := run (commit_rekey "tsk_2" (Some "usr_alice") "wrk_0" "env" "hpke" "user" "usr_alice")
             again in
  let later := run sweep_expired (w <| wd_ticks := 50000%nat |>) in
  map t_assigned_worker_id (tasks (wd_db w)) = [Some "wrk_0"] /\
  map t_state (tasks (wd_db w)) = [TQueued] /\
  queued_load (wd_db later) "wrk_6" = 1 /\
  reserved_load (wd_db later) "wrk_6" (clock 50000) = 1.
Proof. vm_compute. repeat split. Qed.
