(* ===== verification/Release.v ===== *)
(** * What the broker lets out

    Whatever the gateway answers, a broker sends the key of a task only to a worker whose
    certificate and allocation it has verified under keys it had pinned, wrapped so that
    this worker can open it; it completes commands in order, and reuses the idempotency key
    of a retry until the gateway says the reservation has expired. *)

From stdpp Require Import relations.
From S2P Require Import Prelude Python Bytes Errors Effects Schema Store Capability Access Encoding Signing.
From S2P Require Import Envelope Recipients Rotation Provenance Scheduler Broker Commands Pins Rekey.

Open Scope Z_scope.

Section Release.
Context {E : Env} {S : Sealing} {O : Outside} {K : Keyring}.

(** ** Requests of a run *)

(** The state after extends the requests sent, each new one satisfying [P]. *)
Definition sends (P : request -> Prop) : relation process := fun s s' =>
  exists l, pr_sent s' = pr_sent s ++ l /\ Forall (fun x => P (fst x)) l.

#[local] Instance sends_preorder P : PreOrder (sends P).
Proof.
  split.
  - intros s. exists []. by rewrite app_nil_r.
  - intros s1 s2 s3 (l1 & H1 & F1) (l2 & H2 & F2). exists (l1 ++ l2). rewrite H2, H1, <- app_assoc.
    split; [done|]. by apply Forall_app.
Qed.

Lemma sends_nothing P {A} (m : Action process A) :
  (forall s, pr_sent (snd (m s)) = pr_sent s) -> follows (sends P) m.
Proof. intros H s. exists []. by rewrite H, app_nil_r. Qed.

Lemma sends_one (P : request -> Prop) rq : P rq -> follows (sends P) (send rq).
Proof.
  intros HP s. unfold send. exists [(rq, gateway (pr_sent s) rq)].
  destruct (gateway _ _); simpl; (split; [done|]; by constructor).
Qed.

Lemma sends_drawing P {A} (m : Draw A) : follows (sends P) (drawing m).
Proof. by apply sends_nothing. Qed.
Lemma sends_time P : follows (sends P) time_now.
Proof. by apply sends_nothing. Qed.
Lemma sends_state P k v : follows (sends P) (set_state k v).
Proof. by apply sends_nothing. Qed.
Lemma sends_reading P {A} (f : process -> A) : follows (sends P) (reading f).
Proof. by apply sends_nothing. Qed.
Lemma sends_lift P {A} (r : res A) : follows (sends P) (lift r).
Proof. by apply sends_nothing. Qed.
Lemma sends_ret P {A} (a : A) : follows (sends P) (mret a).
Proof. by apply sends_nothing. Qed.
Lemma sends_fail P {A} e : follows (sends P) (fail e : Action process A).
Proof. by apply sends_nothing. Qed.
Hint Resolve sends_drawing sends_time sends_state sends_reading sends_lift sends_ret sends_fail : sends.

(** ** What the checks establish *)

(** The owner's root key signed a certificate with this digest that names the encryption
    key of the worker. *)
Definition certified (worker : dict) (encryption digest : string) : Prop :=
  exists certificate root manifest,
    loaded (jget_or "certificate" JNull worker) = Ok (JObj certificate) /\
    presented_digest (jget_or "certificate" JNull worker) = Ok digest /\
    jget "manifest" certificate = Some (JObj manifest) /\ manifest_signed root manifest /\
    jget_or "worker_encryption_public_key" JNull manifest = JStr encryption.

(** An authority pinned for the workspace signed a statement that allocates the worker,
    with its keys and certificate, to the workspace. *)
Definition allocated (ring : keyring) (workspace_id worker_id encryption digest : string) : Prop :=
  exists user p root payload signature text,
    load ring workspace_id user = Ok (Some p) /\
    b64url_decode (pin_root_signing_public_key p) (Some 32) = Ok root /\
    canonical_json (JObj payload) = Ok text /\
    ed_verify root signature (ALLOCATION_PROOF_CONTEXT ++ [x00] ++ text) = true /\
    jget_or "workspace_id" JNull payload = JStr workspace_id /\
    jget_or "worker_id" JNull payload = JStr worker_id /\
    jget_or "worker_encryption_public_key" JNull payload = JStr encryption /\
    jget_or "worker_certificate_digest" JNull payload = JStr digest.

Lemma or_refuse_ok {A} (r : res A) a : or_refuse r = Ok a -> r = Ok a.
Proof. destruct r as [x|[]]; by try intros [= ->]. Qed.

Lemma refuse_ok b u : refuse_unless b = Ok u -> b = true.
Proof. by destruct b. Qed.

Lemma required_string_ok d k s : _required_string d k = Ok s -> jget k d = Some (JStr s) /\ s <> "".
Proof.
  unfold _required_string. destruct (jget k d) as [[]|]; try done.
  destruct (String.eqb_spec s0 "") as [|Hne]; [done|]. by intros [= ->].
Qed.

Lemma certificate_checked worker encryption digest :
  _verify_worker_certificate worker = Ok tt -> jget "encryption_public_key" worker = Some (JStr encryption) ->
  presented_digest (jget_or "certificate" JNull worker) = Ok digest -> certified worker encryption digest.
Proof.
  unfold _verify_worker_certificate. intros H Henc Hdig.
  apply res_bind_ok in H as ([[[certificate root] signing] manifest] & Hp & H). apply or_refuse_ok in Hp.
  apply res_bind_ok in H as (signed & Hs & H). apply res_bind_ok in H as ([] & ->%refuse_ok & H).
  apply res_bind_ok in H as (expected & He & H). apply refuse_ok in H.
  destruct manifest as [| | | | | |m]; try done.
  unfold certificate_parts in Hp. apply res_bind_ok in Hp as (v & Hl & Hp).
  apply res_bind_ok in Hp as (rt & _ & Hp). apply res_bind_ok in Hp as (rk & _ & Hp).
  apply res_bind_ok in Hp as (sg & _ & Hp). apply res_bind_ok in Hp as (members & Hm & Hp).
  apply res_bind_ok in Hp as (mf & Hi & Hp). injection Hp as -> -> -> ->.
  destruct v as [| | | | | |d]; try done. injection Hm as ->. unfold jitem in Hi.
  destruct (jget "manifest" certificate) as [x|] eqn:Hg; [injection Hi as ->|done].
  assert (certificate_expected certificate worker signing = Ok expected) as Hx
    by (destruct (certificate_expected _ _ _) as [|[]]; done).
  unfold certificate_expected in Hx. apply res_bind_ok in Hx as (key & _ & Hx).
  apply res_bind_ok in Hx as (id & _ & [= <-]). unfold binds_all in H. rewrite forallb_forall in H.
  exists certificate, root, m. split_and!; try done; [by eapply key_manifest_run|].
  assert (jget_or "encryption_public_key" JNull worker = JStr encryption) as Hj by (unfold jget_or; by rewrite Henc).
  rewrite Hj in H. apply json_eqb_str, (H ("worker_encryption_public_key", JStr encryption)). simpl. auto 10.
Qed.

Lemma require_authority_ok ring w u key id p :
  require_authority ring w u key id = Ok p -> load ring w u = Ok (Some p) /\ pin_root_signing_public_key p = key.
Proof.
  unfold require_authority. intros H. apply res_bind_ok in H as ([q|] & Hl & H); [|done].
  destruct (String.eqb_spec (pin_root_signing_public_key q) key); [|done]. cbn in H.
  destruct id as [id|]; [destruct (negb _); [done|]|]; by injection H as <-.
Qed.

Lemma allocation_checked ring retry worker s s' encryption worker_id :
  _verify_allocation ring retry worker s = (Ok tt, s') ->
  jget "encryption_public_key" worker = Some (JStr encryption) -> jget "id" worker = Some (JStr worker_id) ->
  exists workspace_id digest, jget "workspace_id" retry = Some (JStr workspace_id) /\
    presented_digest (jget_or "certificate" JNull worker) = Ok digest /\
    allocated ring workspace_id worker_id encryption digest.
Proof.
  unfold _verify_allocation. intros H Henc Hwid.
  apply action_bind_ok in H as (allocation & s1 & _ & H). apply action_bind_ok in H as (proof & s2 & _ & H).
  apply action_bind_ok in H as (x & s3 & Hx & H). apply lift_ok in Hx as [Hx ->].
  apply action_bind_ok in H as (current & s4 & _ & H). apply action_bind_ok in H as (valid & s5 & Hv & H).
  apply lift_ok in Hv as [Hv ->]. apply lift_ok in H as [->%refuse_ok _].
  assert (allocation_expected ring retry worker allocation proof = Ok x) as He.
  { destruct (allocation_expected _ _ _ _ _) as [|[]] eqn:Ha; try done; by apply or_refuse_ok in Hx. }
  clear Hx. unfold allocation_expected in He. apply res_bind_ok in He as (user & _ & He).
  apply res_bind_ok in He as (rt & _ & He). apply res_bind_ok in He as (root & Hroot & He).
  apply res_bind_ok in He as (p & _ & He). apply res_bind_ok in He as (ws & Hws & He).
  apply res_bind_ok in He as (payload0 & _ & He). apply res_bind_ok in He as (approver & _ & He).
  apply res_bind_ok in He as (pin & Hpin & He). apply res_bind_ok in He as (aid & _ & He).
  apply res_bind_ok in He as (pool & _ & He). apply res_bind_ok in He as (wid & Hid & He).
  apply res_bind_ok in He as (signing & _ & He). apply res_bind_ok in He as (enc & He1 & He).
  apply res_bind_ok in He as (cert & Hcert & He). apply res_bind_ok in He as (c & _ & He).
  apply res_bind_ok in He as (consent & _ & He). apply res_bind_ok in He as (i & _ & He).
  apply res_bind_ok in He as (issued & _ & He). apply res_bind_ok in He as ([] & _ & He).
  apply res_bind_ok in He as (digest & Hdig & He). apply res_bind_ok in He as (ms & _ & He). injection He as <-.
  apply required_string_ok in Hws as [Hws _], Hid as [Hid _], He1 as [He1 _].
  rewrite Hwid in Hid. injection Hid as <-. rewrite Henc in He1. injection He1 as <-.
  apply require_authority_ok in Hpin as [Hload Hkey].
  apply allocation_proof_accepted in Hv as (payload & signature & text & _ & Hf & Ht & Hs).
  exists ws, digest. split; [done|]. split.
  { unfold jitem in Hcert. unfold jget_or. destruct (jget "certificate" worker); [by injection Hcert as ->|done]. }
  exists user, pin, root, payload, signature, text. rewrite Hkey. cbn [fst snd] in *.
  split_and!; try done; apply json_eqb_str, Hf; simpl; auto 12.
Qed.

(** ** The only request that carries a key *)

Definition carries_nothing (rq : request) : Prop := rq_body rq = None \/ rq_body rq = Some (JObj []).

(** The request commits, for a task of the workspace, the task key that the workspace key
    opens, wrapped for the certified key of the allocated worker. *)
Definition key_release (ring : keyring) (rq : request) : Prop :=
  exists task_id workspace_id attempt_id worker_id encryption digest worker key_version wk reader reader_aad tdk pk
         aad k c k' idempotency_key,
    rq = post (task_path task_id +:+ "/rekey")
           [("replacement_worker_id", JStr worker_id); ("worker_tdk_envelope", JStr (hpke_dumps c));
            ("key_algorithm", JStr HPKE_ALGORITHM)] idempotency_key /\
    certified worker encryption digest /\ allocated ring workspace_id worker_id encryption digest /\
    load_key ring workspace_id key_version = Ok wk /\ unwrapped_task_key wk reader reader_aad = Ok tdk /\
    b64url_decode encryption (Some 32) = Ok pk /\ task_context workspace_id task_id attempt_id key_version = Ok aad /\
    wrap_task_key pk tdk aad k = (Ok c, k').

Lemma wrapped_for_worker_ok worker tdk ws task attempt kv k c k' :
  wrapped_for_worker worker tdk ws task attempt kv k = (Ok c, k') ->
  exists encryption pk aad k0, jget "encryption_public_key" worker = Some (JStr encryption) /\
    b64url_decode encryption (Some 32) = Ok pk /\ task_context ws task attempt kv = Ok aad /\
    wrap_task_key pk tdk aad k0 = (Ok c, k').
Proof.
  unfold wrapped_for_worker. intros H.
  match type of H with match ?m with _ => _ end = _ => assert (m = (Ok c, k')) as Hm by
    (destruct m as [[x|[]] y]; by try (injection H as -> ->)) end.
  clear H. apply draw_bind_ok in Hm as (encryption & k1 & He & Hm). apply of_res_ok in He as [He ->].
  apply draw_bind_ok in Hm as (pk & k2 & Hpk & Hm). apply of_res_ok in Hpk as [Hpk ->].
  apply draw_bind_ok in Hm as (aad & k3 & Ha & Hm). apply of_res_ok in Ha as [Ha ->].
  apply required_string_ok in He as [He _]. by exists encryption, pk, aad, k.
Qed.

Lemma reserved_replacement ring cid task ws kv g s retry worker s' :
  reserve_replacement ring cid task ws kv g s = (Ok (retry, worker), s') ->
  _verify_retry retry task ws kv worker = Ok tt /\ _verify_worker_certificate worker = Ok tt /\
  exists s1 s2, _verify_allocation ring retry worker s1 = (Ok tt, s2).
Proof.
  unfold reserve_replacement. intros H. apply action_bind_ok in H as (v & s1 & _ & H).
  apply action_bind_ok in H as (r & s2 & _ & H). apply action_bind_ok in H as (w & s3 & _ & H).
  apply action_bind_ok in H as ([] & s4 & Hr & H). apply action_bind_ok in H as ([] & s5 & Hc & H).
  apply action_bind_ok in H as ([] & s6 & Ha & H). apply action_ret_ok in H as [[= -> ->] ->].
  apply lift_ok in Hr as [Hr ->], Hc as [Hc ->]. eauto.
Qed.

Lemma text_of_string d k t s : text_or_empty d k = t -> jget k d = Some (JStr s) -> s <> "" -> s = t.
Proof.
  unfold text_or_empty, jget_or. intros H Hj Hs. rewrite Hj in H. cbn in H. destruct (String.eqb_spec s ""); [done|]. exact H.
Qed.

Lemma release_justified ring cid task ws kv g wk reader reader_aad tdk attempt worker_id c retry worker s s' k k' idem :
  reserve_replacement ring cid task ws kv g s = (Ok (retry, worker), s') ->
  load_key ring ws kv = Ok wk -> unwrapped_task_key wk reader reader_aad = Ok tdk ->
  _required_string worker "id" = Ok worker_id ->
  wrapped_for_worker worker tdk ws task attempt kv k = (Ok c, k') ->
  key_release ring (post (task_path task +:+ "/rekey")
    [("replacement_worker_id", JStr worker_id); ("worker_tdk_envelope", JStr (hpke_dumps c));
     ("key_algorithm", JStr HPKE_ALGORITHM)] idem).
Proof.
  intros Hr Hk Hu Hid Hw. apply reserved_replacement in Hr as (Hv & Hc & s1 & s2 & Ha).
  apply wrapped_for_worker_ok in Hw as (encryption & pk & aad & k0 & Henc & Hpk & Haad & Hwrap).
  apply required_string_ok in Hid as [Hid _].
  destruct (allocation_checked _ _ _ _ _ _ _ Ha Henc Hid) as (ws' & digest & Hws & Hdig & Halloc).
  unfold _verify_retry in Hv. apply refuse_ok in Hv. split_bools.
  assert (ws' = ws) as ->.
  { eapply text_of_string; [by apply String.eqb_eq|exact Hws|]. intros ->.
    destruct Halloc as (user & p & _ & _ & _ & _ & Hload & _). done. }
  pose proof (certificate_checked _ _ _ Hc Henc Hdig) as Hcert. unfold key_release. eauto 30.
Qed.

Lemma rekey_sends ring cid payload :
  follows (sends (fun rq => carries_nothing rq \/ key_release ring rq)) (rekey_task ring cid payload).
Proof.
  set (P := fun rq => _). unfold rekey_task.
  do 5 (apply follows_lift; [apply _|]; intros ? ?).
  apply follows_bind; [apply _|apply sends_one; by left; left|]. intros t.
  apply follows_lift; [apply _|]. intros tk _. destruct (_ ∈? _); [auto with sends|].
  do 2 (apply follows_lift; [apply _|]; intros ? _). apply follows_lift; [apply _|]. intros wk Hwk.
  apply follows_bind; [apply _|apply sends_one; by left; left|]. intros r.
  do 2 (apply follows_lift; [apply _|]; intros ? _).
  apply follows_bind; [apply _|auto with sends|]. intros st.
  apply follows_bind_ok; [apply _| |].
  { unfold reserve_replacement, _verify_allocation. apply follows_bind; [apply _|apply sends_one; by left; right|].
    intros v. solve_follows ltac:(auto with sends). }
  intros [retry worker] s s' Hres. do 2 (apply follows_lift; [apply _|]; intros ? _).
  apply follows_lift; [apply _|]. intros tdk Htdk. apply follows_lift; [apply _|]. intros attempt _.
  apply follows_lift; [apply _|]. intros wid Hwid. apply follows_bind_ok; [apply _|auto with sends|].
  intros c s1 s2 Hc. unfold drawing in Hc.
  destruct (wrapped_for_worker worker tdk _ _ attempt _ (pr_draws s1)) as [x k'] eqn:Hw. injection Hc as -> _.
  apply follows_bind; [apply _| |auto with sends]. unfold commit_replacement.
  apply follows_bind; [apply _| |intros; solve_follows ltac:(auto with sends)].
  apply follows_catching; [apply _| |intros; solve_follows ltac:(auto with sends)].
  apply sends_one. right. by eapply release_justified.
Qed.

Lemma handle_sends ring command :
  follows (sends (fun rq => carries_nothing rq \/ key_release ring rq)) (handle_command ring command).
Proof.
  unfold handle_command. destruct (negb _); [auto with sends|].
  do 2 (apply follows_lift; [apply _|]; intros ? _). apply rekey_sends.
Qed.

(** C19: keys reach only verified workers.  Whatever the gateway answers, every request a broker
    sends while it handles a command either carries no data at all, or commits the key of a
    task wrapped for a worker that the pinned authority of the task's workspace allocated,
    under the encryption key its owner certified. *)
Theorem key_released_only_to_verified_worker ring command s :
  exists l, pr_sent (snd (handle_command ring command s)) = pr_sent s ++ l /\
    forall rq rp, In (rq, rp) l -> carries_nothing rq \/ key_release ring rq.
Proof.
  destruct (handle_sends ring command s) as (l & Hl & Hf). exists l. split; [done|]. intros rq rp Hin.
  rewrite Forall_forall in Hf. apply (Hf (rq, rp)). by apply list_elem_of_In.
Qed.
End Release.
