(* ===== verification/Delivery.v ===== *)
(** * How the broker works through its commands

    Retries of a command reuse one idempotency key until the gateway reports that the
    reservation has expired; commands complete in the order the gateway listed them; and
    the report the broker makes of a committed rekey is one the gateway refuses. *)

From stdpp Require Import relations.
From S2P Require Import Prelude Python Bytes Errors Effects Schema Store Capability Access Encoding Signing.
From S2P Require Import Envelope Recipients Rotation Provenance Scheduler Invariant Broker Commands Pins Rekey Release.

Open Scope Z_scope.

Section Retries.
Context {E : Env} {S : Sealing} {O : Outside} {K : Keyring}.

(** ** One idempotency key per generation *)

Definition generation (s : process) (command_id : string) : Z :=
  generation_of (get_state (command_state_key command_id) (JObj []) s).

Lemma command_key_inj a b : command_state_key a = command_state_key b -> a = b.
Proof. unfold command_state_key. intros H. by apply (inj (String.append "command:")) in H. Qed.

Lemma generation_nonneg v : 0 <= generation_of v.
Proof.
  unfold generation_of. destruct v as [| | | | | |d]; try lia. destruct (jget _ d) as [[| |z| | | |]|]; try lia.
  destruct (Z.ltb_spec z 0); lia.
Qed.

Lemma generation_set s cid id d g :
  0 <= g -> jget "retry_generation" d = Some (JInt g) ->
  generation (s <| pr_state := jset (command_state_key cid) (JObj d) (pr_state s) |>) id =
  if decide (id = cid) then g else generation s id.
Proof.
  intros Hg Hd. unfold generation, get_state, jget_or. cbn.
  destruct (decide (id = cid)) as [->|Hne].
  - rewrite jget_jset_eq. cbn. rewrite Hd. destruct (Z.ltb_spec g 0); [lia|done].
  - rewrite jget_jset_ne; [done|]. intros Heq. by apply Hne, eq_sym, command_key_inj.
Qed.

(** The request that reserves a replacement is the one with an empty object; its key is
    that of the command and its generation. *)
Definition retry_keyed (cid : string) (g : Z) (rq : request) : Prop :=
  rq_body rq = Some (JObj []) -> rq_idempotency_key rq = Some ("broker-retry:" +:+ cid +:+ ":" +:+ pretty g).

(** The requests sent since [s0]. *)
Definition sent_since (s0 : process) (P : request -> Prop) (s : process) : Prop :=
  exists l, pr_sent s = pr_sent s0 ++ l /\ Forall (fun x => P (fst x)) l.

Lemma sent_since_start s0 P : sent_since s0 P s0.
Proof. exists []. by rewrite app_nil_r. Qed.

(** Before the commit: the journal is as it was. *)
Definition before_commit (s0 : process) (cid : string) (s : process) : Prop :=
  sent_since s0 (retry_keyed cid (generation s0 cid)) s /\ pr_state s = pr_state s0.

(** The reply to the last request is an expired reservation. *)
Definition reservation_expired (s : process) : Prop :=
  exists rq name action, last (pr_sent s) = Some (rq, Failed (VgenClientError 310003 name action)).

Definition after_commit (s0 : process) (cid : string) (s : process) : Prop :=
  sent_since s0 (retry_keyed cid (generation s0 cid)) s /\
  (forall id, generation s id = generation s0 id \/
              id = cid /\ generation s id = generation s0 id + 1 /\ reservation_expired s).

Lemma before_after s0 cid s : before_commit s0 cid s -> after_commit s0 cid s.
Proof. intros [Hs Hst]. split; [done|]. intros id. left. unfold generation, get_state. by rewrite Hst. Qed.

Lemma sending s0 cid rq :
  retry_keyed cid (generation s0 cid) rq ->
  during (before_commit s0 cid) (send rq) (fun _ => before_commit s0 cid) (after_commit s0 cid).
Proof.
  intros Hrq s [(l & Hl & Hf) Hst]. unfold send.
  assert (before_commit s0 cid (s <| pr_sent := pr_sent s ++ [(rq, gateway (pr_sent s) rq)] |>)) as Hb.
  { split; [|done]. exists (l ++ [(rq, gateway (pr_sent s) rq)]). cbn. rewrite Hl, <- app_assoc. split; [done|].
    apply Forall_app. split; [done|]. by constructor. }
  destruct (gateway _ _); [done|by apply before_after].
Qed.

Lemma commits s0 cid task attempt wid c :
  during (before_commit s0 cid) (commit_replacement cid task attempt wid (generation s0 cid) c)
    (fun _ => after_commit s0 cid) (after_commit s0 cid).
Proof.
  intros s Hb. unfold commit_replacement, bind at 1, mbind, action_bind, catching.
  set (rq := post _ _ _). unfold send. set (r := gateway (pr_sent s) rq).
  assert (forall st, sent_since s0 (retry_keyed cid (generation s0 cid))
            (s <| pr_sent := pr_sent s ++ [(rq, r)] |> <| pr_state := st |>)) as Hsent.
  { intros st. destruct Hb as [(l & Hl & Hf) _]. exists (l ++ [(rq, r)]). cbn. rewrite Hl, <- app_assoc.
    split; [done|]. apply Forall_app. split; [done|]. by constructor. }
  assert (forall id, generation s id = generation s0 id) as Hg
    by (intros id; unfold generation, get_state; destruct Hb as [_ Hst]; by rewrite Hst).
  pose proof (generation_nonneg (get_state (command_state_key cid) (JObj []) s0)) as Hnn. fold (generation s0 cid) in Hnn.
  assert (forall id d g, 0 <= g -> jget "retry_generation" d = Some (JInt g) ->
    generation (s <| pr_sent := pr_sent s ++ [(rq, r)] |>
                  <| pr_state := jset (command_state_key cid) (JObj d) (pr_state s) |>) id =
    if decide (id = cid) then g else generation s0 id) as Hset.
  { intros id d g H0 Hd. rewrite <- (Hg id). pose (s1 := s <| pr_sent := pr_sent s ++ [(rq, r)] |>). exact (generation_set s1 cid id d g H0 Hd). }
  pose proof (Hsent (pr_state s)) as Hsame.
  destruct r as [v|e] eqn:Hr.
  - destruct v; cbn; try (split; [exact Hsame|]; intros id; left; apply Hg).
    split; [apply Hsent|]. intros id. left. rewrite (Hset id _ (generation s0 cid)) by done.
    by destruct (decide (id = cid)) as [->|].
  - destruct e; cbn; try (split; [exact Hsame|]; intros id; left; apply Hg).
    destruct (Z.eqb_spec code 310003) as [->|Hne]; cbn; [|split; [exact Hsame|]; intros id; left; apply Hg].
    split; [apply Hsent|]. intros id. rewrite (Hset id _ (generation s0 cid + 1)) by (done || lia).
    destruct (decide (id = cid)) as [->|]; [|by left]. right. split_and!; [done..|].
    exists rq, name, retry_action. cbn. by rewrite last_snoc.
Qed.

Lemma quiet s0 cid {A} (m : Action process A) :
  (forall s, pr_sent (snd (m s)) = pr_sent s /\ pr_state (snd (m s)) = pr_state s) ->
  during (before_commit s0 cid) m (fun _ => before_commit s0 cid) (after_commit s0 cid).
Proof.
  intros H s [(l & Hl & Hf) Hst]. specialize (H s).
  assert (before_commit s0 cid (snd (m s))) as Hb.
  { destruct H as [H1 H2]. split; [exists l; by rewrite H1|by rewrite H2]. }
  destruct (m s) as [[a|e] s']; [done|by apply before_after].
Qed.

Lemma reserves s0 cid ring task ws kv :
  during (before_commit s0 cid) (reserve_replacement ring cid task ws kv (generation s0 cid))
    (fun _ => before_commit s0 cid) (after_commit s0 cid).
Proof.
  unfold reserve_replacement. eapply during_bind; [by apply sending|]. intros v.
  do 4 (apply during_lift; [apply before_after|]; intros ? _).
  eapply during_bind; [apply quiet|intros; by apply during_ret]. intros s. unfold _verify_allocation.
  unfold bind, mbind, action_bind, lift, time_now. by repeat case_match.
Qed.

Lemma rekey_during s0 ring cid payload :
  during (before_commit s0 cid) (rekey_task ring cid payload) (fun _ => after_commit s0 cid) (after_commit s0 cid).
Proof.
  unfold rekey_task. do 5 (apply during_lift; [apply before_after|]; intros ? _).
  eapply during_bind; [by apply sending|]. intros t. apply during_lift; [apply before_after|]. intros tk _.
  destruct (_ ∈? _); [apply during_ret; apply before_after|].
  do 3 (apply during_lift; [apply before_after|]; intros ? _).
  eapply during_bind; [by apply sending|]. intros r. do 2 (apply during_lift; [apply before_after|]; intros ? _).
  eapply (during_bind _ _ _ (fun st s => before_commit s0 cid s /\ generation_of st = generation s0 cid)).
  { intros s Hs. cbn. split; [done|]. unfold generation, get_state. by destruct Hs as [_ ->]. }
  intros st s [Hs Hgen]. revert s Hs. cbv zeta. rewrite Hgen.
  eapply during_bind; [apply reserves|]. intros [retry worker].
  do 5 (apply during_lift; [apply before_after|]; intros ? _).
  eapply during_bind; [by apply quiet|]. intros c. eapply during_bind; [apply commits|]. intros d.
  by apply during_ret.
Qed.

(** C20: a restarted broker resumes the same reservation.  Whatever the gateway answers while a
    command is handled, the request that reserves a replacement carries the key of the
    command's generation in the journal, and a generation changes only for that command, by
    one, and only when the gateway has just answered that the reservation expired. *)
Theorem retry_key_changes_only_on_expiry ring command s :
  let cid := text_or_empty command "id" in
  let s' := snd (handle_command ring command s) in
  (exists l, pr_sent s' = pr_sent s ++ l /\
     forall rq rp, In (rq, rp) l -> rq_body rq = Some (JObj []) ->
       rq_idempotency_key rq = Some ("broker-retry:" +:+ cid +:+ ":" +:+ pretty (generation s cid))) /\
  forall id, generation s' id = generation s id \/
             id = cid /\ generation s' id = generation s id + 1 /\ reservation_expired s'.
Proof.
  intros cid s'. assert (after_commit s cid s') as [(l & Hl & Hf) Hg].
  { assert (before_commit s cid s) as Hb by (split; [apply sent_since_start|done]).
    unfold s', handle_command. destruct (negb _); [by apply before_after|].
    unfold bind, mbind, action_bind, lift.
    destruct (_required_string command "id") as [id|] eqn:Hid; [|by apply before_after].
    assert (cid = id) as Hc. { apply required_string_ok in Hid as [Hj Hne]. symmetry. by eapply text_of_string. }
    destruct (as_mapping _) as [payload|]; [|by apply before_after]. rewrite <- Hc.
    pose proof (rekey_during s ring cid payload s Hb) as H. by destruct (rekey_task _ _ _ s) as [[|] ?]. }
  split; [|done]. exists l. split; [done|]. intros rq rp Hin. rewrite Forall_forall in Hf.
  by apply (Hf (rq, rp)), list_elem_of_In.
Qed.
End Retries.

(** ** Commands in order *)

Section Order.
Context {E : Env} {S : Sealing} {O : Outside} {K : Keyring}.

(** The requests [seg] end with the completion of [item], which the gateway accepted. *)
Definition completes (config : BrokerDaemonConfig) (item : json) (seg : list (request * reply)) : Prop :=
  exists d result v before, item = JObj d /\ text_or_empty d "id" <> "" /\
    seg = before ++ [(completion config (text_or_empty d "id") result, Answer v)].

Definition cursor (s : process) : json := get_state "last_command" (JStr "") s.

Definition keeps_cursor : relation process := fun s s' => cursor s' = cursor s.
#[local] Instance keeps_cursor_preorder : PreOrder keeps_cursor.
Proof. split; unfold keeps_cursor; [by intros s|]. intros a b c H1 H2. by rewrite H2. Qed.

Lemma cursor_same {A} (m : Action process A) :
  (forall s, pr_state (snd (m s)) = pr_state s) -> follows keeps_cursor m.
Proof. intros H s. unfold keeps_cursor, cursor, get_state. by rewrite H. Qed.
Lemma cursor_state cid v : follows keeps_cursor (set_state (command_state_key cid) v).
Proof. intros s. unfold keeps_cursor, cursor, get_state, jget_or. cbn. by rewrite jget_jset_ne. Qed.
Lemma cursor_send rq : follows keeps_cursor (send rq).
Proof. apply cursor_same. intros s. unfold send. by destruct (gateway _ _). Qed.
Lemma cursor_drawing {A} (m : Draw A) : follows keeps_cursor (drawing m).
Proof. by apply cursor_same. Qed.
Lemma cursor_pure {A} (r : process -> res A) : follows keeps_cursor (fun s => (r s, s)).
Proof. by apply cursor_same. Qed.
Lemma cursor_time : follows keeps_cursor time_now.
Proof. by apply cursor_same. Qed.
Lemma cursor_append k p : follows keeps_cursor (append k p).
Proof. by apply cursor_same. Qed.
Hint Resolve cursor_state cursor_send cursor_drawing cursor_time cursor_append : cursor.
Hint Extern 2 (follows keeps_cursor (lift _)) => (apply cursor_same; done) : cursor.
Hint Extern 2 (follows keeps_cursor (reading _)) => (apply cursor_same; done) : cursor.
Hint Extern 2 (follows keeps_cursor (mret _)) => (apply cursor_same; done) : cursor.
Hint Extern 2 (follows keeps_cursor (fail _)) => (apply cursor_same; done) : cursor.

Lemma cursor_handle ring command : follows keeps_cursor (handle_command ring command).
Proof.
  unfold handle_command, rekey_task, reserve_replacement, _verify_allocation, commit_replacement.
  solve_follows ltac:(auto with cursor).
Qed.

(** One command: completed, with the cursor on it, or left, with the cursor unmoved. *)
Lemma execute_run config ring item s r s' :
  _execute config ring item s = (r, s') ->
  exists seg, pr_sent s' = pr_sent s ++ seg /\
    match r with
    | Ok true => completes config item seg /\ exists d, item = JObj d /\ cursor s' = JStr (text_or_empty d "id")
    | _ => cursor s' = cursor s
    end.
Proof.
  unfold _execute, bind at 1, mbind, action_bind, lift.
  destruct item as [| | | | | |d]; try (intros [= <- <-]; exists []; by rewrite app_nil_r).
  destruct (String.eqb_spec (text_or_empty d "id") "") as [|Hid]; [intros [= <- <-]; exists []; by rewrite app_nil_r|].
  unfold catching, bind at 1 2, mbind, action_bind.
  destruct (handle_sends ring d s) as (l & Hl & _). pose proof (cursor_handle ring d s) as Hc.
  destruct (handle_command ring d s) as [[result|e] s1]; cbn in Hl, Hc.
  2: { destruct e; intros [= <- <-]; exists l; (split; [exact Hl|exact Hc]). }
  set (rq := completion _ _ _). unfold send. destruct (gateway (pr_sent s1) rq) as [v|e] eqn:Hr.
  - intros [= <- <-]. exists (l ++ [(rq, Answer v)]). cbn. rewrite Hl, <- app_assoc. split; [done|]. split; [by exists d, result, v, l|].
    exists d. split; [done|]. unfold cursor, get_state, jget_or. cbn. by rewrite jget_jset_eq.
  - intros Hx. exists (l ++ [(rq, Failed e)]).
    destruct e; injection Hx as <- <-; cbn; rewrite Hl, <- app_assoc; (split; [done|exact Hc]).
Qed.

(** Commands complete in the order of the queue.  Whatever the gateway answers, the
    commands a poll works through split into those completed, one accepted completion each
    and in order, and the rest, of which only the first was tried; the cursor in the journal
    is the last completed command. *)
Theorem commands_complete_in_order config ring items s :
  let s' := snd (execute_all config ring items s) in
  exists done rest segs tail,
    items = done ++ rest /\ pr_sent s' = pr_sent s ++ concat segs ++ tail /\
    Forall2 (completes config) done segs /\
    (match last done with
     | Some c => exists d, c = JObj d /\ cursor s' = JStr (text_or_empty d "id")
     | None => cursor s' = cursor s
     end) /\
    match rest with
    | [] => tail = []
    | c :: _ => exists s1, pr_sent (snd (_execute config ring c s1)) = pr_sent s1 ++ tail /\
                           fst (_execute config ring c s1) <> Ok true
    end.
Proof.
  revert s. induction items as [|c items IH]; intros s; cbv zeta in *.
  { exists [], [], [], []. cbn. by rewrite app_nil_r. }
  assert (snd (execute_all config ring (c :: items) s) =
    match _execute config ring c s with
    | (Ok true, s1) => snd (execute_all config ring items s1)
    | (_, s1) => s1
    end) as ->.
  { cbn [execute_all]. unfold bind at 1, mbind, action_bind. by destruct (_execute config ring c s) as [[[]|e] s1]. }
  destruct (_execute config ring c s) as [[[]|e] s1] eqn:Hex;
    destruct (execute_run _ _ _ _ _ _ Hex) as (seg & Hseg & Hx).
  - destruct Hx as [Hcomp (d & -> & Hcur)]. destruct (IH s1) as (done & rest & segs & tail & -> & Hs & Hf & Hl & Ht).
    exists (JObj d :: done), rest, (seg :: segs), tail. cbn. split_and!; [done| |by constructor| |done].
    + rewrite Hs, Hseg. by rewrite <- !app_assoc.
    + destruct done as [|c' done]; [exists d; split; [done|exact (eq_trans Hl Hcur)]|].
      change (last (JObj d :: c' :: done)) with (last (c' :: done)).
      destruct (last (c' :: done)) eqn:Hlast; [exact Hl|]. by apply last_None in Hlast.
  - exists [], (c :: items), [], seg. cbn. split_and!; try done. exists s. by rewrite Hex.
  - exists [], (c :: items), [], seg. cbn. split_and!; try done. exists s. by rewrite Hex.
Qed.
End Order.

(** ** The report of a rekey *)

Section Report.
Context {E : Env} {S : Sealing} {O : Outside} {K : Keyring}.

(** What [commit_rekey] answers. *)
Definition commit_rekey_reply (task_id replacement_worker_id : string) (queue_position : option Z) : dict :=
  [("task_id", JStr task_id); ("state", JStr "queued"); ("worker_id", JStr replacement_worker_id);
   ("queue_position", match queue_position with Some n => JInt n | None => JNull end)].

Definition rekeyed_report (task_id attempt_id worker_id task_state : string) : dict :=
  [("status", JStr "rekeyed"); ("task_id", JStr task_id); ("attempt_id", JStr attempt_id);
   ("worker_id", JStr worker_id); ("task_state", JStr task_state)].

Lemma commit_returns cid task attempt wid g c s d s' :
  commit_replacement cid task attempt wid g c s = (Ok d, s') ->
  exists rq, last (pr_sent s') = Some (rq, Answer (JObj d)).
Proof.
  unfold commit_replacement. intros H. apply action_bind_ok in H as (v & s1 & Hs & H).
  apply action_bind_ok in H as (d' & s2 & Hm & H). apply lift_ok in Hm as [Hm ->].
  apply action_bind_ok in H as ([] & s3 & Hw & H). apply action_ret_ok in H as [-> ->].
  destruct v as [| | | | | |x]; try done. injection Hm as ->. injection Hw as <-.
  apply catching_ok in Hs as [Hs|(e & s4 & _ & Hs)];
    [|apply action_bind_ok in Hs as (? & ? & _ & Hs); by apply fail_ok in Hs].
  unfold send in Hs. set (rq := post _ _ _) in Hs. destruct (gateway (pr_sent s) rq) as [v|e] eqn:Hr; [|done].
  injection Hs as -> <-. exists rq. cbn. by rewrite last_snoc.
Qed.

(** The report of a rekey repeats the state the gateway answered. *)
Lemma rekey_reports ring cid payload s result s' rq reply :
  rekey_task ring cid payload s = (Ok result, s') -> jget "status" result = Some (JStr "rekeyed") ->
  last (pr_sent s') = Some (rq, Answer (JObj reply)) -> jget "state" reply = Some (JStr "queued") ->
  exists task attempt wid, result = rekeyed_report task attempt wid "queued".
Proof.
  intros H Hst Hlast Hq. unfold rekey_task in H.
  do 5 (apply action_bind_ok in H as (? & ? & _ & H)). apply action_bind_ok in H as (t & s6 & _ & H).
  apply action_bind_ok in H as (tk & s7 & _ & H).
  destruct (_ ∈? _); [apply action_ret_ok in H as [-> _]; discriminate Hst|].
  do 7 (apply action_bind_ok in H as (? & ? & _ & H)). apply action_bind_ok in H as ([retry worker] & ? & _ & H).
  do 3 (apply action_bind_ok in H as (? & ? & _ & H)). apply action_bind_ok in H as (attempt & ? & _ & H).
  apply action_bind_ok in H as (wid & ? & _ & H). apply action_bind_ok in H as (c & ? & _ & H).
  apply action_bind_ok in H as (d & s9 & Hc & H). apply action_ret_ok in H as [-> ->].
  apply commit_returns in Hc as (rq' & Hc). rewrite Hlast in Hc. injection Hc as <- <-.
  unfold jget_or. rewrite Hq. by eexists _, attempt, wid.
Qed.

Lemma queued_report_invalid d p task attempt wid :
  invalid_rekey_result d p (rekeyed_report task attempt wid "queued") = Ok true.
Proof.
  unfold invalid_rekey_result. cbv zeta. set (same := json_eqb _ (jget_or "task_id" JNull p)). clearbody same.
  by destruct same.
Qed.

(** C21: the gateway refuses the broker's report of a rekey it has just committed.  When a
    handled rekey ends with the reply [commit_rekey] gives, the report the broker makes of
    it says the task is queued; completing the command with that report, from its own active
    device, is refused as invalid and changes nothing, so the command stays pending. *)
Theorem rekeyed_report_refused ring cid payload s result s' rq task worker position i u ok w bd b c p :
  rekey_task ring cid payload s = (Ok result, s') -> jget "status" result = Some (JStr "rekeyed") ->
  last (pr_sent s') = Some (rq, Answer (JObj (commit_rekey_reply task worker position))) ->
  attached (wd_db w) -> broker_device_named (wd_db w) i = Some (bd, b) -> br_owner_user_id b = u ->
  bd_status bd = SActive ->
  head (select (fun c => (bc_id c =d cid) && (bc_broker_device_id c =d bd_id bd)) (broker_commands (wd_db w))) = Some c ->
  bc_command_type c = "task_rekey" -> command_payload c = Ok p ->
  exists w', complete_broker_command i cid u ok result w = (Raise rekey_result_invalid, w') /\ wd_db w' = wd_db w.
Proof.
  intros Hrun Hst Hlast Ha Hn <- Hact Hc Hty Hp.
  destruct (rekey_reports _ _ _ _ _ _ _ _ Hrun Hst Hlast eq_refl) as (t & a & wid & ->).
  destruct (named_first _ _ _ _ Ha Hn) as [Hfst _].
  eexists. unfold complete_broker_command, broker_commands_for, bind, mbind, M_bind, query, require, check, lift_res, now.
  rewrite Hn. cbn -[select invalid_rekey_result rekeyed_report]. rewrite Hact, !bool_decide_true by done.
  cbn -[select invalid_rekey_result rekeyed_report].
  rewrite Hfst. cbn -[select invalid_rekey_result rekeyed_report].
  rewrite Hc. cbn -[select invalid_rekey_result rekeyed_report]. rewrite Hty, Hp.
  cbn -[select invalid_rekey_result rekeyed_report].
  rewrite queued_report_invalid. done.
Qed.
End Report.
