(* ===== verification/Home.v ===== *)
(** * A home broker at work

    A concrete keyring, a gateway that answers as the repository does, and one rekey
    command carried through: the run on which the theorems about the broker are
    instantiated. *)

From S2P Require Import Prelude Python Bytes Errors Effects Schema Store Capability Access Encoding Signing.
From S2P Require Import Envelope Recipients Rotation Scheduler Invariant Broker Commands Pins Rekey Release Delivery.

Open Scope Z_scope.

Module Home.
Import Envelope.Sealed Pins.Ring.

(** Stand-ins that read the last 32 bytes of a message. *)
Definition tail32 (m : bytes) : bytes := be_bytes 32 (be_value (skipn (length m - 32) m)).
Definition short_ed25519 : Ed25519 := {|
  ed_public sk := be_bytes 32 (be_value sk);
  ed_sign sk m := be_bytes 32 (be_value sk) ++ tail32 m;
  ed_verify pk sig m := sig =d pk ++ tail32 m;
  sha256_digest := tail32
|}.

#[local] Instance draft_env : Env := {|
  clock n := seconds (1000 + Z.of_nat n); uuid n := pretty n; sha256_json v := "sha"; version_lt _ _ := Some false;
  py_repr _ := "?"; json_loads s := JBad s;
  alnum_beyond_ascii _ := false; env_ed25519 := short_ed25519
|}.

Definition or_nil (r : res dict) : dict := match r with Ok d => d | Raise _ => [] end.
Definition or_empty (r : res string) : string := match r with Ok s => s | Raise _ => "" end.
Definition or_none (r : res bytes) : bytes := match r with Ok b => b | Raise _ => [] end.

Definition admin_key : bytes := be_bytes 32 5.
Definition owner_key : bytes := be_bytes 32 9.
Definition admin_text : string := Eval vm_compute in b64url_encode (ed_public admin_key).
Definition owner_text : string := Eval vm_compute in b64url_encode (ed_public owner_key).
Definition signing_text : string := Eval vm_compute in b64url_encode (be_bytes 32 21).
Definition worker_private : bytes := be_bytes 32 11.
Definition encryption_text : string := Eval vm_compute in b64url_encode (x25519_public worker_private).
Definition data_key : bytes := be_bytes 32 13.
Definition task_key : bytes := be_bytes 32 17.

Definition admin_pin : WorkspaceAuthorityPin :=
  Eval vm_compute in MkPin "wsp_1" (JStr "usr_admin") admin_text (or_empty (root_signing_key_id admin_key))
                       (JStr "signed_invite_fragment").
Definition pin_text : string := Eval vm_compute in or_empty (json_dump (JObj (pin_to_dict admin_pin))).

#[local] Instance home_env : Env := {|
  clock n := seconds (1000 + Z.of_nat n); uuid n := pretty n; sha256_json v := "sha"; version_lt _ _ := Some false;
  py_repr _ := "?"; json_loads s := if String.eqb s pin_text then JDoc (JObj (pin_to_dict admin_pin)) else JBad s;
  alnum_beyond_ascii _ := false;
  env_ed25519 := short_ed25519
|}.

Definition ring : list (string * string * string) :=
  Eval vm_compute in
    snd (save_key "wsp_1" 1 data_key
           (snd (pin "wsp_1" "usr_admin" admin_text None "signed_invite_fragment" ([] : keyring)))).

Definition certificate : dict :=
  Eval vm_compute in or_nil (sign_key_manifest owner_key
    [("kind", JStr "vgen-worker-owner-certificate");
     ("owner_root_key_id", JStr (or_empty (root_signing_key_id owner_key)));
     ("worker_key_id", JStr (or_empty (device_key_id (be_bytes 32 21))));
     ("worker_signing_public_key", JStr signing_text); ("worker_encryption_public_key", JStr encryption_text)]).

Definition proof : dict :=
  Eval vm_compute in or_nil (sign_allocation_proof admin_key
    (allocation_statement "wal_1" "wsp_1" "pol_1" "wrk_1" signing_text encryption_text "sha256:sha" 900500
       (or_empty (root_signing_key_id admin_key)) 950)).

Definition reader_envelope : dict :=
  Eval vm_compute in
    match fst (wrap_task_key_for_workspace data_key task_key
                 (or_none (task_context "wsp_1" "tsk_1" "atm_1" 1)) 0%nat) with
    | Ok c => payload_to_dict c
    | Raise _ => []
    end.

Definition replacement : dict :=
  [("task_id", JStr "tsk_1"); ("workspace_id", JStr "wsp_1"); ("pool_id", JStr "pol_1"); ("key_version", JInt 1);
   ("attempt_id", JStr "atm_2");
   ("worker", JObj [("id", JStr "wrk_1"); ("signing_public_key", JStr signing_text);
                    ("encryption_public_key", JStr encryption_text);
                    ("owner_root_signing_public_key", JStr owner_text); ("certificate", JObj certificate)]);
   ("allocation", JObj [("id", JStr "wal_1"); ("owner_consent_at", JFloat (FFin 1801 (-1))); ("proof", JObj proof);
                        ("admin_user_id", JStr "usr_admin"); ("admin_root_signing_public_key", JStr admin_text)])].

(** The gateway's answers, by path. *)
#[local] Instance home_outside : Outside := {|
  gateway sent rq :=
    if String.eqb (rq_path rq) "/api/v1/tasks/tsk_1" then
      Answer (JObj [("id", JStr "tsk_1"); ("workspace_id", JStr "wsp_1"); ("state", JStr "rekey_required")])
    else if String.eqb (rq_path rq) "/api/v1/tasks/tsk_1/reader-envelope" then
      Answer (JObj [("task_id", JStr "tsk_1"); ("workspace_id", JStr "wsp_1"); ("key_version", JInt 1);
                    ("content_attempt_id", JStr "atm_1"); ("reader_envelope", JObj reader_envelope)])
    else if String.eqb (rq_path rq) "/api/v1/tasks/tsk_1/retry" then Answer (JObj replacement)
    else if String.eqb (rq_path rq) "/api/v1/tasks/tsk_1/rekey" then
      Answer (JObj (commit_rekey_reply "tsk_1" "wrk_1" (Some 1)))
    else Failed (VgenClientError 700001 "GATEWAY_UNREACHABLE" "later");
  float_of_text s := None
|}.

Definition started : process := MkProcess [] [] [] 0 0.
Definition command_payload_doc : dict :=
  [("version", JInt 1); ("task_id", JStr "tsk_1"); ("workspace_id", JStr "wsp_1"); ("key_version", JInt 1);
   ("source_attempt_id", JStr "atm_1"); ("reason", JStr "lease_expired")].

Definition outcome := Eval vm_compute in rekey_task (ring : keyring) "bcm_1" command_payload_doc started.

Lemma carried_through : rekey_task (ring : keyring) "bcm_1" command_payload_doc started = outcome.
Proof. vm_compute. reflexivity. Qed.

(** The key the worker finds in the last request is the task's. *)
Definition sent_envelope : HpkeCiphertext :=
  Eval vm_compute in
    match fst (wrapped_for_worker (match jget "worker" replacement with Some (JObj d) => d | _ => [] end) task_key
                 "wsp_1" "tsk_1" "atm_2" 1 0%nat) with
    | Ok c => c
    | Raise _ => MkHpke [] []
    end.

Lemma worker_finds_key :
  last (pr_sent (snd outcome)) =
    Some (post "/api/v1/tasks/tsk_1/rekey"
            [("replacement_worker_id", JStr "wrk_1"); ("worker_tdk_envelope", JStr (hpke_dumps sent_envelope));
             ("key_algorithm", JStr HPKE_ALGORITHM)] "broker-rekey:bcm_1:atm_2",
          Answer (JObj (commit_rekey_reply "tsk_1" "wrk_1" (Some 1)))) /\
  unwrap_task_key worker_private sent_envelope (or_none (task_context "wsp_1" "tsk_1" "atm_2" 1)) = Ok task_key.
Proof. vm_compute. split; reflexivity. Qed.

(** The gateway's side: the broker's device, its pending command and the new attempt. *)
Definition broker : broker_row := Mk_broker_row "brk_1" "usr_1" "Home" SActive 0 0.
Definition desk : broker_device_row :=
  Mk_broker_device_row "bdev_1" "brk_1" "dev_1" SActive "usr_1" None None None None None 0 None.
Definition queued_command : broker_command_row :=
  Mk_broker_command_row "bcm_1" "bdev_1" (Some "task_rekey:tsk_1:atm_1") "task_rekey"
    (JDoc (JObj command_payload_doc)) CPending None 0 None None.
Definition replacement_attempt : attempt_row :=
  Mk_attempt_row "atm_2" "tsk_1" 2 "wrk_1" "usr_2" None "comfyui" "1" AReserved None None None (JDoc JNull)
    (JDoc JNull) 2 0 None None None None None.
Definition office : world :=
  MkWorld (empty_db <| brokers := [broker] |> <| broker_devices := [desk] |>
             <| broker_commands := [queued_command] |> <| task_attempts := [replacement_attempt] |>) 0 0.

Lemma office_attached : attached (wd_db office).
Proof. intros bd [<-|[]]. exists broker. split; [by left|done]. Qed.

Lemma rekeyed_report_refused_witness :
  exists w', complete_broker_command "dev_1" "bcm_1" "usr_1" true
               (rekeyed_report "tsk_1" "atm_2" "wrk_1" "queued") office = (Raise rekey_result_invalid, w') /\
             wd_db w' = wd_db office.
Proof.
  refine (rekeyed_report_refused (K := listed_keyring) ring "bcm_1" command_payload_doc started
    (rekeyed_report "tsk_1" "atm_2" "wrk_1" "queued") (snd outcome)
    (post "/api/v1/tasks/tsk_1/rekey"
       [("replacement_worker_id", JStr "wrk_1"); ("worker_tdk_envelope", JStr (hpke_dumps sent_envelope));
        ("key_algorithm", JStr HPKE_ALGORITHM)] "broker-rekey:bcm_1:atm_2")
    "tsk_1" "wrk_1" (Some 1) "dev_1" "usr_1" true office desk broker queued_command command_payload_doc
    carried_through _ (proj1 worker_finds_key) office_attached _ _ _ _ _ _); reflexivity.
Defined.

Lemma accepted_rekey_report_witness :
  exists a, In a (task_attempts (wd_db office)) /\ a_worker_id a = "wrk_1".
Proof.
  destruct (complete_broker_command "dev_1" "bcm_1" "usr_1" true
              (rekeyed_report "tsk_1" "atm_2" "wrk_1" "committed") office) as [[c|e] w'] eqn:Hrun.
  2: { exfalso. vm_compute in Hrun. discriminate Hrun. }
  pose proof (accepted_rekey_report "dev_1" "bcm_1" "usr_1" true
    (rekeyed_report "tsk_1" "atm_2" "wrk_1" "committed") office c w' office_attached) as H.
  destruct H as (bd & b & c0 & p & stamp & H); [|exact Hrun| |].
  - apply (bool_decide_eq_true_1 (NoDup ["bcm_1"])). vm_compute. reflexivity.
  - vm_compute in Hrun. injection Hrun as <- _. reflexivity.
  - destruct H as (_ & _ & _ & _ & _ & _ & _ & _ & _ & _ & _ & _ & [(_ & _ & a & Ha & _ & _ & Hw)|[Hn _]]).
    + exists a. split; [exact Ha|]. injection Hw as <-. reflexivity.
    + discriminate Hn.
Defined.
End Home.
