(* ===== verification/Work.v ===== *)
(** * The data of the worker process

    ([worker/models.py], [executors/base.py], [executors/registry.py], [artifacts/base.py],
    [artifacts/names.py], [protocol/media.py])

    A class with a [__post_init__] check is a record and a function that builds it or raises.
    Paths are those of a POSIX system.  A fraction of progress, a float in the code, is a
    rational, and a time in seconds is an integer of microseconds. *)

From Stdlib Require Import QArith.
From S2P Require Import Prelude Python Bytes Errors Metadata.

Open Scope Z_scope.

Definition value_unless (bad : bool) {A} (v : A) : res A := if bad then Raise ValueError else Ok v.

Definition blank (s : string) : bool := String.eqb s "".

(** ** Artifacts and transfers *)

(** [Path(name).name == name]. *)
Definition is_basename (name : string) : bool :=
  str_forall (fun c => negb (Ascii.eqb c "/")) name && negb (String.eqb name ".").

Record ArtifactDescriptor := MkArtifact {
  ad_artifact_id : string;
  ad_filename : string;
  ad_media_type : string;
  ad_size_bytes : option Z;
  ad_sha256 : option string;
  ad_metadata : dict
}.

Definition artifact_descriptor (artifact_id filename media_type : string) (size_bytes : option Z)
    (sha256 : option string) (metadata : dict) : res ArtifactDescriptor :=
  let digest := str_lower <$> sha256 in
  value_unless
    (blank artifact_id || blank filename || negb (is_basename filename) ||
     match size_bytes with Some n => n <? 0 | None => false end ||
     match digest with Some d => negb ((str_len d =? 64) && str_forall is_lower_hex d) | None => false end)
    (MkArtifact artifact_id filename media_type size_bytes digest metadata).

Record TransferTicket := MkTicket {
  tk_url : string;
  tk_method : string;
  tk_headers : list (string * string);
  tk_endpoint : option string;
  tk_credentials : list (string * string);
  tk_expires_at : option Z;
  tk_expected_size : option Z;
  tk_expected_sha256 : option string;
  tk_media_type : option string
}.

Record TransferReceipt := MkReceipt {
  rc_size_bytes : Z;
  rc_sha256 : string;
  rc_media_type : option string
}.

(** [Path(name).suffix]: from the last dot, unless it is the first or the last character. *)
Fixpoint split_at_dot (l : list ascii) : option (list ascii * list ascii) :=
  match l with
  | [] => None
  | c :: l => if Ascii.eqb c "." then Some ([], l)
              else '(a, b) ← split_at_dot l; Some (c :: a, b)
  end.

Definition path_suffix (name : string) : string :=
  match split_at_dot (rev (String.list_ascii_of_string name)) with
  | Some (_ :: _ as ext, _ :: _) => String "." (String.string_of_list_ascii (rev ext))
  | _ => ""
  end.

(** [s[:-n]]. *)
Definition drop_last (n : Z) (s : string) : string :=
  String.string_of_list_ascii
    (take (Z.to_nat (str_len s - n)) (String.list_ascii_of_string s)).

(** [s.rstrip(".")]. *)
Definition rstrip_dots (s : string) : string := str_rev (str_lstrip "." (str_rev s)).

Definition with_safe_media_extension (filename media_type : string) : res string :=
  if blank filename || negb (is_basename filename) then Raise ValueError
  else
    let suffix := path_suffix filename in
    if negb (blank suffix) && negb (String.eqb (str_lower suffix) ".bin") then Ok filename
    else
      match (if blank media_type then None
             else List.find (fun kv => String.eqb (fst kv) (str_lower media_type)) MEDIA_TYPE_EXTENSIONS) with
      | None => Ok filename
      | Some (_, extension) =>
          let stem := if blank suffix then rstrip_dots filename else drop_last (str_len suffix) filename in
          Ok ((if blank stem then "output" else stem) +:+ extension)
      end.

(** [canonical_media_probes]: exact integers in range, and nulls. *)
Definition canonical_media_probes (value : dict) : dict :=
  List.fold_left
    (fun result limit =>
       let '(name, (minimum, maximum)) := limit in
       match jget name value with
       | Some JNull => jset name JNull result
       | Some (JInt z) => if (minimum <=? z) && (z <=? maximum) then jset name (JInt z) result else result
       | _ => result
       end)
    MEDIA_PROBE_LIMITS [].

(** ** Executors *)

Record ExecutorDescriptor := MkDescriptor {
  xd_executor_type : string;
  xd_version : string;
  xd_payload_formats : list string;
  xd_operations : list string;
  xd_max_concurrency : Z;
  xd_metadata : dict
}.

Record UsageMetrics := MkUsage {
  um_executor_wall_ms : Z;
  um_gpu_active_ms : option Z;
  um_gpu_count : Z;
  um_input_bytes : Z;
  um_output_bytes : Z;
  um_frames : option Z;
  um_duration_ms : option Z;
  um_denoise_steps : option Z;
  um_native : dict
}.

Definition no_usage : UsageMetrics := MkUsage 0 None 1 0 0 None None None [].

Definition negative (o : option Z) : bool := match o with Some z => z <? 0 | None => false end.

Definition usage_metrics (u : UsageMetrics) : res UsageMetrics :=
  if (um_executor_wall_ms u <? 0) || (um_gpu_count u <? 0) || (um_input_bytes u <? 0) || (um_output_bytes u <? 0) ||
     (um_gpu_count u <? 1) || negative (um_gpu_active_ms u) || negative (um_frames u) ||
     negative (um_duration_ms u) || negative (um_denoise_steps u) then Raise ValueError
  else if existsb (fun kv => match snd kv with JNull | JBool _ | JInt _ | JFloat _ => false | _ => true end)
            (um_native u) then Raise TypeError
  else Ok u.

Record ProgressEvent := MkProgress {
  pe_fraction : Q;
  pe_stage : string;
  pe_message : option string
}.

Definition progress_event (fraction : Q) (stage : string) (message : option string) : res ProgressEvent :=
  value_unless (negb (Qle_bool 0 fraction && Qle_bool fraction 1) || blank stage)
    (MkProgress fraction stage message).

Record ExecutionInput := MkExecInput {
  ei_name : string;
  ei_content : bytes;
  ei_artifact : ArtifactDescriptor
}.

Record ExecutionRequest := MkExecRequest {
  eq_task_id : string;
  eq_attempt_id : string;
  eq_workflow_digest : string;
  eq_operation : string;
  eq_payload_format : string;
  eq_payload : bytes;
  eq_inputs : list ExecutionInput;
  eq_timeout : Z
}.

Definition execution_request (r : ExecutionRequest) : res ExecutionRequest :=
  value_unless (blank (eq_task_id r) || blank (eq_attempt_id r) || (eq_timeout r <=? 0)) r.

(** An artifact the executor left at a path: its content, if the file is there. *)
Record ExecutionArtifact := MkExecArtifact {
  ea_name : string;
  ea_content : option bytes;
  ea_media_type : string;
  ea_metadata : dict
}.

Record ExecutionResult := MkExecResult {
  er_artifacts : list ExecutionArtifact;
  er_usage : UsageMetrics;
  er_executor_run_id : option string;
  er_metadata : dict
}.

(** ** Leases and results *)

Record LeaseReference := MkReference {
  lr_lease_id : string;
  lr_task_id : string;
  lr_attempt_id : string;
  lr_worker_id : string;
  lr_fencing_token : Z
}.

Definition lease_reference (r : LeaseReference) : res LeaseReference :=
  value_unless (blank (lr_lease_id r) || blank (lr_task_id r) || blank (lr_attempt_id r) ||
                blank (lr_worker_id r) || (lr_fencing_token r <? 1)) r.

Record ExecutorPayload := MkPayload {
  xp_executor_type : string;
  xp_payload_format : string;
  xp_operation : string;
  xp_workflow_digest : string;
  xp_data : bytes
}.

Record ArtifactInput := MkInput {
  in_name : string;
  in_artifact : ArtifactDescriptor;
  in_download : TransferTicket
}.

Record ArtifactOutputTarget := MkTarget {
  ot_name : string;
  ot_artifact : ArtifactDescriptor;
  ot_upload : TransferTicket;
  ot_kind : string;
  ot_store_type : string;
  ot_object_ref : option string
}.

Record LeaseCryptoContext := MkCrypto {
  lc_workspace_id : string;
  lc_content_attempt_id : string;
  lc_key_version : Z;
  lc_task_data_key : bytes
}.

Record ExecutionLease := MkLease {
  el_reference : LeaseReference;
  el_payload : ExecutorPayload;
  el_inputs : list ArtifactInput;
  el_outputs : list ArtifactOutputTarget;
  el_crypto : option LeaseCryptoContext;
  el_expires_at : option Z;
  el_timeout : Z
}.

(** [ExecutionLease.__post_init__]. *)
Definition execution_lease (l : ExecutionLease) : res ExecutionLease :=
  value_unless ((el_timeout l <=? 0) || match el_outputs l with [] => true | _ => false end ||
                negb (str_distinct (map in_name (el_inputs l))) || negb (str_distinct (map ot_name (el_outputs l)))) l.

Record HeartbeatDirective := MkDirective {
  hd_cancelled : bool;
  hd_lease_expires_at : option Z
}.

Record WorkerResultArtifact := MkResultArtifact {
  ra_artifact_id : string;
  ra_name : string;
  ra_filename : string;
  ra_media_type : string;
  ra_size_bytes : Z;
  ra_sha256 : string;
  ra_kind : string;
  ra_store_type : string;
  ra_object_ref : option string;
  ra_metadata : dict
}.

Record WorkerResult := MkResult {
  wr_artifacts : list WorkerResultArtifact;
  wr_usage : UsageMetrics;
  wr_executor_type : string;
  wr_executor_version : string;
  wr_executor_run_id : option string;
  wr_metadata : dict
}.

Definition worker_result (r : WorkerResult) : res WorkerResult :=
  value_unless (match wr_artifacts r with [] => true | _ => false end) r.

Record WorkerFailureReport := MkFailure {
  wf_code : Z;
  wf_name : string;
  wf_message : string;
  wf_retry_action : string;
  wf_responsibility : string;
  wf_occurred_after_start : bool;
  wf_details : dict;
  wf_usage : UsageMetrics
}.

Definition worker_failure (code : Z) (name message : string) (retry_action responsibility : string)
    (occurred_after_start : bool) (details : dict) (usage : UsageMetrics) : res WorkerFailureReport :=
  value_unless ((code <? 100000) || (999999 <? code))
    (MkFailure code name message retry_action responsibility occurred_after_start
       (sanitize_details (Some details) 0) usage).

(** Exactly one of a result and a failure. *)
Inductive WorkerOutcome :=
| Succeeded (result : WorkerResult)
| FailedWith (failure : WorkerFailureReport).
