(* ===== verification/Spool.v ===== *)
(** * The upload spool of a worker ([worker/spool.py])

    Encrypted outputs wait on disk, one directory per attempt, until they are uploaded.  The
    disk is a map of directories; every call into the operating system may fail or be the
    last thing the process does.  A file that holds a JSON document is represented by the
    document, and the modification time of a directory by the number of the call that
    changed it. *)

From stdpp Require Import gmap.
From S2P Require Import Prelude Python Bytes Effects Errors Metadata Schema Store Capability Encoding Signing Envelope Work.

Open Scope Z_scope.

(** ** The disk *)

Inductive entry :=
| Cipher (b : bytes)
| Document (t : jtext)
(** A symbolic link or a directory. *)
| Special.

Record directory := MkDirectory { d_mtime : nat; d_entries : gmap string entry }.

(** What stands under a name of the spool's root. *)
Inductive place :=
| Dir (d : directory)
| NotDir.

Record disk := MkDisk {
  dk_root : gmap string place;
  dk_quarantine : list (string * place);
  dk_quarantine_safe : bool;
  dk_calls : nat
}.
#[export] Instance disk_eta : Eta disk := fun r =>
  MkDisk (dk_root r) (dk_quarantine r) (dk_quarantine_safe r) (dk_calls r).

Inductive os_reply := OsDone | OsFails (class : string) | OsKills.

Class Platform := {
  os_answer : nat -> os_reply;
  windows : bool;
  (** The name [mkstemp] picks, after its prefix. *)
  temp_suffix : gmap string entry -> nat -> string;
  (** The size of a file that holds a document. *)
  text_size : jtext -> Z
}.

(** [mkstemp] picks a name that is not in use. *)
Class PlatformLaws `{Platform} :=
  temp_fresh : forall entries n, entries !! ("manifest-" +:+ temp_suffix entries n) = None.

Definition _MANIFEST : string := "upload-manifest.json".
Definition _VERSION : Z := 1.

(** A path: in a directory of the spool, or anywhere else. *)
Inductive path := InSpool (directory name : string) | Elsewhere.

Record PendingUpload := MkPending {
  pu_reference : LeaseReference;
  pu_result : WorkerResult;
  pu_files : list (string * path);
  pu_pending : list string
}.

Section Spool.
Context {E : Env} {P : Platform}.

Definition os_call : Action disk unit := fun s =>
  (match os_answer (dk_calls s) with
   | OsDone => Ok tt
   | OsFails c => Raise (OSError c)
   | OsKills => Raise Killed
   end, s <| dk_calls := Datatypes.S (dk_calls s) |>).

Definition chmod : Action disk unit := if windows then mret tt else os_call.

Definition dir_at (name : string) (s : disk) : option directory :=
  match dk_root s !! name with Some (Dir d) => Some d | _ => None end.

Definition entries_at (name : string) (s : disk) : gmap string entry :=
  match dir_at name s with Some d => d_entries d | None => ∅ end.

(** Change the entries of a directory. *)
Definition edit (name : string) (f : gmap string entry -> gmap string entry) : Action disk unit :=
  writing (fun s =>
    match dir_at name s with
    | Some d => s <| dk_root := <[name := Dir (MkDirectory (dk_calls s) (f (d_entries d)))]> (dk_root s) |>
    | None => s
    end).

Definition is_regular (e : option entry) : bool :=
  match e with Some (Cipher _ | Document _) => true | _ => false end.

(** [except OSError: raise UploadJournalError]. *)
Definition os_guarded {A} (m : Action disk A) : Action disk A :=
  catching m (fun e => match e with OSError _ => fail UploadJournalError | e => fail e end).

(** ** Names *)

(** [hashlib.sha256(b).hexdigest()]. *)
Definition hexdigest (b : bytes) : string := String.string_of_list_ascii (hexlify (sha256_digest b)).

Definition _directory (attempt_id : string) : string := hexdigest (Bytes.encode attempt_id).

Definition ciphertext_name (artifact_id : string) : string :=
  hexdigest (Bytes.encode artifact_id) +:+ ".ciphertext".

(** [directory.mkdir(exist_ok=True)]. *)
Definition make_directory (directory : string) : Action disk unit := fun s =>
  match dk_root s !! directory with
  | Some (Dir _) => (Ok tt, s)
  | Some NotDir => (Raise (OSError "FileExistsError"), s)
  | None => (Ok tt, s <| dk_root := <[directory := Dir (MkDirectory (dk_calls s) ∅)]> (dk_root s) |>)
  end.

Definition output_path (reference : LeaseReference) (artifact_id : string) : Action disk path :=
  let directory := _directory (lr_attempt_id reference) in
  _ ← os_call;
  _ ← make_directory directory;
  _ ← chmod;
  mret (InSpool directory (ciphertext_name artifact_id)).

(** ** The manifest *)

Definition json_opt_int (z : option Z) : json := match z with Some z => JInt z | None => JNull end.

Definition artifact_to_dict (a : WorkerResultArtifact) : json :=
  JObj [("artifact_id", JStr (ra_artifact_id a)); ("name", JStr (ra_name a)); ("filename", JStr (ra_filename a));
        ("media_type", JStr (ra_media_type a)); ("size_bytes", JInt (ra_size_bytes a));
        ("sha256", JStr (ra_sha256 a)); ("kind", JStr (ra_kind a)); ("store_type", JStr (ra_store_type a));
        ("object_ref", json_opt_str (ra_object_ref a)); ("metadata", JObj (ra_metadata a))].

Definition usage_to_dict (u : UsageMetrics) : json :=
  JObj [("executor_wall_ms", JInt (um_executor_wall_ms u)); ("gpu_active_ms", json_opt_int (um_gpu_active_ms u));
        ("gpu_count", JInt (um_gpu_count u)); ("input_bytes", JInt (um_input_bytes u));
        ("output_bytes", JInt (um_output_bytes u)); ("frames", json_opt_int (um_frames u));
        ("duration_ms", json_opt_int (um_duration_ms u)); ("denoise_steps", json_opt_int (um_denoise_steps u))].

Definition _result_to_dict (r : WorkerResult) : json :=
  JObj [("artifacts", JList (map artifact_to_dict (wr_artifacts r))); ("usage", usage_to_dict (wr_usage r));
        ("executor_type", JStr (wr_executor_type r)); ("executor_version", JStr (wr_executor_version r));
        ("metadata", JObj (wr_metadata r))].

Definition reference_to_dict (r : LeaseReference) : json :=
  JObj [("lease_id", JStr (lr_lease_id r)); ("task_id", JStr (lr_task_id r)); ("attempt_id", JStr (lr_attempt_id r));
        ("worker_id", JStr (lr_worker_id r)); ("fencing_token", JInt (lr_fencing_token r))].

(** [sorted(ids)] of a set. *)
Definition sorted_ids (ids : list string) : list string :=
  order_by (fun x y => negb (str_ltb y x)) (remove_dups ids).

Definition path_name (p : path) : string := match p with InSpool _ n => n | Elsewhere => "" end.

Definition manifest_document (reference : LeaseReference) (result : WorkerResult) (files : list (string * path))
    (pending : list string) : json :=
  JObj [("version", JInt _VERSION); ("reference", reference_to_dict reference); ("result", _result_to_dict result);
        ("files", JObj (map (fun f => (fst f, JStr (path_name (snd f))))
                         (order_by (fun x y => negb (str_ltb (fst y) (fst x))) files)));
        ("pending_artifact_ids", JList (map JStr (sorted_ids pending)))].

Definition _fsync_directory : Action disk unit :=
  if windows then mret tt else _ ← os_call; os_call.

(** [Path(temporary).unlink(missing_ok=True)]. *)
Definition unlink (directory name : string) : Action disk unit :=
  _ ← os_call;
  edit directory (delete name).

Definition mkstemp (directory : string) : Action disk string :=
  _ ← os_call;
  entries ← reading (entries_at directory);
  n ← reading dk_calls;
  let name := "manifest-" +:+ temp_suffix entries n in
  _ ← edit directory (insert name (Cipher []));
  mret name.

Definition _write_manifest (directory : string) (value : json) : Action disk unit :=
  temporary ← mkstemp directory;
  catching
    (_ ← os_call;
     _ ← edit directory (insert temporary (Document (JDoc value)));
     _ ← os_call;
     _ ← chmod;
     _ ← os_call;
     _ ← edit directory (fun m => <[_MANIFEST := Document (JDoc value)]> (delete temporary m));
     _fsync_directory)
    (fun e => _ ← unlink directory temporary; fail e).

(** ** Saving *)

Definition same_set (xs ys : list string) : bool :=
  forallb (fun x => x ∈? ys) xs && forallb (fun y => y ∈? xs) ys.
Definition subset (xs ys : list string) : bool := forallb (fun x => x ∈? ys) xs.

(** One turn of the loop over the files: checked, made private and synchronized. *)
Definition sync_file (directory : string) (p : path) : Action disk unit :=
  entries ← reading (entries_at directory);
  _ ← ensure (match p with
              | InSpool d name => String.eqb d directory && is_regular (entries !! name)
              | Elsewhere => false
              end) UploadJournalError;
  _ ← chmod;
  os_guarded os_call.

Fixpoint sync_files (directory : string) (files : list (string * path)) : Action disk unit :=
  match files with
  | [] => mret tt
  | f :: files => _ ← sync_file directory (snd f); sync_files directory files
  end.

Definition save_upload (reference : LeaseReference) (result : WorkerResult) (files : list (string * path))
    (pending_artifact_ids : option (list string)) : Action disk PendingUpload :=
  let directory := _directory (lr_attempt_id reference) in
  let expected_ids := map ra_artifact_id (wr_artifacts result) in
  _ ← ensure (same_set (map fst files) expected_ids) UploadJournalError;
  _ ← sync_files directory files;
  let pending := default expected_ids pending_artifact_ids in
  _ ← ensure (subset pending expected_ids) UploadJournalError;
  _ ← _write_manifest directory (manifest_document reference result files pending);
  mret (MkPending reference result files pending).

(** ** Loading *)

(** [v[k]]. *)
Definition jsub (k : string) (v : json) : res json :=
  match v with JObj d => jitem k d | _ => Raise TypeError end.

Definition text_at (k : string) (v : json) : res string := x ← jsub k v; Ok (py_str x).
Definition int_at (k : string) (v : json) : res Z := x ← jsub k v; json_int x.

Definition reference_from_dict (v : json) : res LeaseReference :=
  lease_id ← text_at "lease_id" v;
  task_id ← text_at "task_id" v;
  attempt_id ← text_at "attempt_id" v;
  worker_id ← text_at "worker_id" v;
  fencing_token ← int_at "fencing_token" v;
  lease_reference (MkReference lease_id task_id attempt_id worker_id fencing_token).

(** [canonical_media_probes(v.get("metadata", {}) if isinstance(.., Mapping) else {})]. *)
Definition probes_of (d : dict) : dict :=
  match jget_or "metadata" (JObj []) d with JObj m => canonical_media_probes m | _ => [] end.

Definition artifact_from_dict (v : json) : res WorkerResultArtifact :=
  artifact_id ← text_at "artifact_id" v;
  name ← text_at "name" v;
  filename ← text_at "filename" v;
  media_type ← text_at "media_type" v;
  size_bytes ← int_at "size_bytes" v;
  sha256 ← text_at "sha256" v;
  kind ← text_at "kind" v;
  store_type ← text_at "store_type" v;
  d ← mapping v;
  Ok (MkResultArtifact artifact_id name filename media_type size_bytes sha256 kind store_type
        (match jget_or "object_ref" JNull d with JNull => None | x => Some (py_str x) end) (probes_of d)).

(** [None if usage.get(k) is None else int(usage[k])]. *)
Definition optional_int (k : string) (d : dict) : res (option Z) :=
  match jget_or k JNull d with JNull => Ok None | v => z ← json_int v; Ok (Some z) end.

Definition usage_from_dict (v : json) : res UsageMetrics :=
  d ← (match v with JObj d => Ok d | _ => Raise AttributeError end);
  executor_wall_ms ← json_int (jget_or "executor_wall_ms" (JInt 0) d);
  gpu_active_ms ← optional_int "gpu_active_ms" d;
  gpu_count ← json_int (jget_or "gpu_count" (JInt 1) d);
  input_bytes ← json_int (jget_or "input_bytes" (JInt 0) d);
  output_bytes ← json_int (jget_or "output_bytes" (JInt 0) d);
  frames ← optional_int "frames" d;
  duration_ms ← optional_int "duration_ms" d;
  denoise_steps ← optional_int "denoise_steps" d;
  usage_metrics (MkUsage executor_wall_ms gpu_active_ms gpu_count input_bytes output_bytes frames duration_ms
                   denoise_steps []).

Definition _result_from_dict (v : json) : res WorkerResult :=
  usage ← jsub "usage" v;
  listed ← jsub "artifacts" v;
  items ← iterated listed;
  artifacts ← res_map artifact_from_dict items;
  usage ← usage_from_dict usage;
  executor_type ← text_at "executor_type" v;
  executor_version ← text_at "executor_version" v;
  d ← mapping v;
  worker_result (MkResult artifacts usage executor_type executor_version None (probes_of d)).

Definition size_of (e : entry) : Z :=
  match e with Cipher b => blen b | Document t => text_size t | Special => 0 end.

(** The file of one artifact, as the manifest names it. *)
Definition checked_file (directory : string) (file_names : dict) (a : WorkerResultArtifact)
    : Action disk (string * path) :=
  named ← lift (jitem (ra_artifact_id a) file_names);
  let name := py_str named in
  entries ← reading (entries_at directory);
  _ ← ensure (is_basename name && is_regular (entries !! name)) UploadJournalError;
  _ ← os_guarded os_call;
  _ ← ensure (match entries !! name with Some e => size_of e =? ra_size_bytes a | None => false end)
        UploadJournalError;
  mret (ra_artifact_id a, InSpool directory name).

(** [files[artifact_id] = path]. *)
Fixpoint file_set (id : string) (p : path) (files : list (string * path)) : list (string * path) :=
  match files with
  | [] => [(id, p)]
  | (k, q) :: files => if String.eqb k id then (id, p) :: files else (k, q) :: file_set id p files
  end.

Fixpoint checked_files (directory : string) (file_names : dict) (l : list WorkerResultArtifact)
    (files : list (string * path)) : Action disk (list (string * path)) :=
  match l with
  | [] => mret files
  | a :: l => f ← checked_file directory file_names a;
              checked_files directory file_names l (file_set (fst f) (snd f) files)
  end.

(** [json.loads((directory / _MANIFEST).read_text())]. *)
Definition read_manifest (directory : string) : Action disk json :=
  entries ← reading (entries_at directory);
  _ ← ensure (is_regular (entries !! _MANIFEST)) UploadJournalError;
  _ ← os_call;
  lift (match entries !! _MANIFEST with
        | Some (Document (JDoc v)) => Ok v
        | _ => Raise JSONDecodeError
        end).

Definition load_body (attempt_id : string) : Action disk PendingUpload :=
  let directory := _directory attempt_id in
  d ← reading (dir_at directory);
  _ ← ensure (match d with Some _ => true | None => false end) UploadJournalError;
  raw ← read_manifest directory;
  members ← lift (match raw with JObj d => Ok d | _ => Raise AttributeError end);
  _ ← ensure (json_eqb (jget_or "version" JNull members) (JInt _VERSION)) UploadJournalError;
  reference_value ← lift (jitem "reference" members);
  reference ← lift (reference_from_dict reference_value);
  _ ← ensure (String.eqb (lr_attempt_id reference) attempt_id) UploadJournalError;
  result_value ← lift (jitem "result" members);
  result ← lift (_result_from_dict result_value);
  listed ← lift (jitem "files" members);
  file_names ← lift (match listed with JObj d => Ok d | _ => Raise UploadJournalError end);
  files ← checked_files directory file_names (wr_artifacts result) [];
  _ ← ensure (same_set (map fst file_names) (map fst files)) UploadJournalError;
  _ ← os_guarded os_call;
  entries ← reading (entries_at directory);
  _ ← ensure (same_set (map fst (map_to_list entries)) (_MANIFEST :: map (fun f => path_name (snd f)) files) &&
              forallb (fun kv => is_regular (Some (snd kv))) (map_to_list entries)) UploadJournalError;
  waiting ← lift (jitem "pending_artifact_ids" members);
  items ← lift (iterated waiting);
  let pending_ids := map py_str items in
  _ ← ensure (subset pending_ids (map fst files)) UploadJournalError;
  mret (MkPending reference result files pending_ids).

(** [except (KeyError, TypeError, ValueError, OSError, json.JSONDecodeError)]. *)
Definition malformed (e : exc) : bool :=
  match e with
  | KeyError | TypeError | ValueError | OSError _ | JSONDecodeError => true
  | _ => false
  end.

Definition load_upload (attempt_id : string) : Action disk PendingUpload :=
  catching (load_body attempt_id) (fun e => if malformed e then fail UploadJournalError else fail e).

Definition mark_uploaded (attempt_id artifact_id : string) : Action disk PendingUpload :=
  pending ← load_upload attempt_id;
  save_upload (pu_reference pending) (pu_result pending) (pu_files pending)
    (Some (filter (fun i => i <> artifact_id) (pu_pending pending))).

(** ** Quarantine and removal *)

Definition _quarantine_directory (directory : string) : Action disk unit :=
  os_guarded
    (found ← reading (fun s => dk_root s !! directory);
     found ← (match found with Some p => mret p | None => fail UploadJournalError end);
     _ ← os_call;
     safe ← reading dk_quarantine_safe;
     _ ← ensure safe UploadJournalError;
     _ ← chmod;
     _ ← os_call;
     writing (fun s => s <| dk_root := delete directory (dk_root s) |>
                         <| dk_quarantine := dk_quarantine s ++ [(directory, found)] |>)).

Definition quarantine (attempt_id : string) : Action disk unit := _quarantine_directory (_directory attempt_id).

Fixpoint unlink_files (directory : string) (files : list (string * path)) : Action disk unit :=
  match files with
  | [] => mret tt
  | f :: files => _ ← unlink directory (path_name (snd f)); unlink_files directory files
  end.

Definition remove_upload (attempt_id : string) : Action disk unit :=
  pending ← load_upload attempt_id;
  let directory := _directory attempt_id in
  _ ← unlink_files directory (pu_files pending);
  _ ← unlink directory _MANIFEST;
  os_guarded
    (_ ← os_call;
     entries ← reading (entries_at directory);
     _ ← ensure (bool_decide (entries = ∅)) (OSError "OSError");
     writing (fun s => s <| dk_root := delete directory (dk_root s) |>)).

(** ** The queue of pending uploads *)

(** The directories of the root, oldest first. *)
Definition directories (s : disk) : list (string * directory) :=
  order_by (fun x y => (d_mtime (snd x) <=? d_mtime (snd y))%nat)
    (omap (fun kv => match snd kv with Dir d => Some (fst kv, d) | NotDir => None end) (map_to_list (dk_root s))).

(** One turn of the loop: a valid attempt, or one moved out of the way. *)
Definition list_one (directory : string) : Action disk (option PendingUpload) :=
  catching
    (raw ← read_manifest directory;
     attempt_id ← lift (r ← jsub "reference" raw; text_at "attempt_id" r);
     pending ← load_upload attempt_id;
     mret (Some pending))
    (fun e =>
       if malformed e || match e with UploadJournalError => true | _ => false end then
         catching (_ ← _quarantine_directory directory; mret None)
           (fun e => match e with UploadJournalError => mret None | e => fail e end)
       else fail e).

Fixpoint list_all (names : list string) : Action disk (list PendingUpload) :=
  match names with
  | [] => mret []
  | n :: names =>
      found ← list_one n;
      rest ← list_all names;
      mret (match found with Some p => p :: rest | None => rest end)
  end.

Definition list_pending : Action disk (list PendingUpload) :=
  _ ← os_guarded os_call;
  dirs ← reading directories;
  list_all (map fst dirs).

Definition oldest_pending : Action disk (option PendingUpload) :=
  values ← list_pending;
  mret (head values).
End Spool.
