(* ===== verification/Worker.v ===== *)
(** * The worker's execution of a lease ([worker/core.py])

    A worker fetches the inputs of a lease, runs the executor, encrypts and uploads its
    outputs and reports one terminal event, while a second thread keeps the lease alive.
    The gateway, the transports and the executor are not trusted: each is an arbitrary
    function of everything that happened before, and the executor and the transports may
    call back at any time.  The keeper thread runs between the steps of the main thread as an
    arbitrary schedule says; what the main thread does under the heartbeat lock is one step. *)

From stdpp Require Import gmap.
From Stdlib Require Import QArith Qminmax.
From S2P Require Import Prelude Python Bytes Effects Errors Metadata Schema Store Capability Encoding Signing Envelope.
From S2P Require Import Stream Work Spool.

Open Scope Z_scope.

(** ** What the worker can see of its surroundings *)

Inductive event :=
| Beat (r : LeaseReference) (p : ProgressEvent) (a : res HeartbeatDirective)
| Start (r : LeaseReference) (a : res HeartbeatDirective)
| Renew (r : LeaseReference) (ids : list string) (a : res (list (string * TransferTicket)))
| Complete (r : LeaseReference) (result : WorkerResult) (a : res unit)
| Report (r : LeaseReference) (failure : WorkerFailureReport) (a : res unit)
| Fetch (t : TransferTicket) (a : res (TransferReceipt * bytes))
| Push (t : TransferTicket) (content : bytes) (a : res TransferReceipt)
| Executing (request : ExecutionRequest)
| Executed (request : ExecutionRequest) (a : res ExecutionResult).

(** A computation that calls back: each callback answers or raises, and the computation
    goes on either way. *)
Inductive script (X Y R : Type) :=
| Ask (x : X) (k : res Y -> script X Y R)
| Done (r : R)
| Throw (e : exc).
Arguments Ask {X Y R} x k.
Arguments Done {X Y R} r.
Arguments Throw {X Y R} e.

(** What a transport calls back with: the bytes moved, and of how many. *)
Definition transfer (R : Type) : Type := script (Z * option Z) unit R.

(** What an executor calls back with. *)
Inductive executor_call := OnProgress (e : ProgressEvent) | IsCancelled.
Definition execution : Type := script executor_call bool ExecutionResult.

Class Site := {
  gw_heartbeat : list event -> LeaseReference -> ProgressEvent -> res HeartbeatDirective;
  gw_mark_started : list event -> LeaseReference -> res HeartbeatDirective;
  gw_renew : list event -> LeaseReference -> list string -> res (list (string * TransferTicket));
  gw_complete : list event -> LeaseReference -> WorkerResult -> res unit;
  gw_fail : list event -> LeaseReference -> WorkerFailureReport -> res unit;
  download_script : list event -> TransferTicket -> transfer (TransferReceipt * bytes);
  upload_script : list event -> TransferTicket -> bytes -> transfer TransferReceipt;
  executor_script : list event -> ExecutionRequest -> execution;
  (** The steps of the keeper thread at the n-th point where it may run. *)
  keeper_steps : nat -> nat;
  (** The randomness of the n-th encrypted stream. *)
  stream_seed : nat -> bytes
}.

(** The keeper thread: not started, between heartbeats, with an exception it has not yet
    recorded, with one it has not yet followed by a cancellation, ended. *)
Inductive keeper := KIdle | KWaiting | KFailed (e : exc) | KRecorded | KStopped.

Record machine := MkMachine {
  mc_log : list event;
  mc_disk : disk;
  mc_keeper : keeper;
  mc_error : option exc;
  mc_cancelled : bool;
  mc_last : ProgressEvent;
  mc_points : nat;
  mc_ticks : nat;
  mc_streams : nat;
  (** The variables of [process] its handlers read. *)
  mc_started : bool;
  mc_phase : string;
  mc_journaled : bool;
  mc_execution_started : option Z;
  mc_input_bytes : Z
}.
#[export] Instance machine_eta : Eta machine := fun r =>
  MkMachine (mc_log r) (mc_disk r) (mc_keeper r) (mc_error r) (mc_cancelled r) (mc_last r) (mc_points r) (mc_ticks r)
    (mc_streams r) (mc_started r) (mc_phase r) (mc_journaled r) (mc_execution_started r) (mc_input_bytes r).

(** A worker: its executors, and whether it has a work directory with a spool. *)
Record WorkerCore := MkCore {
  wc_executors : list ExecutorDescriptor;
  wc_journal : bool
}.

Section Worker.
Context {E : Env} {SS : Secretstream} {P : Platform} {W : Site}.

Definition calling {A} (ask : list event -> res A) (tag : res A -> event) : Action machine A := fun s =>
  let a := ask (mc_log s) in (a, s <| mc_log := mc_log s ++ [tag a] |>).

Definition on_disk {A} (m : Action disk A) : Action machine A := fun s =>
  let r := m (mc_disk s) in (fst r, s <| mc_disk := snd r |>).

Definition worker_time : Action machine Z := fun s =>
  (Ok (clock (mc_ticks s)), s <| mc_ticks := Datatypes.S (mc_ticks s) |>).

Definition heartbeat (r : LeaseReference) (p : ProgressEvent) : Action machine HeartbeatDirective :=
  calling (fun h => gw_heartbeat h r p) (Beat r p).

(** ** The keeper thread *)

(** [listens] tells [process], whose keeper obeys cancellations, from [resume_pending]. *)
Definition keep_lease_alive (r : LeaseReference) (listens : bool) (s : machine) : machine :=
  match mc_keeper s with
  | KWaiting =>
      match heartbeat r (mc_last s) s with
      | (Ok d, s) => s <| mc_cancelled := mc_cancelled s || (listens && hd_cancelled d) |>
      | (Raise Killed, s) => s <| mc_keeper := KStopped |>
      | (Raise e, s) => s <| mc_keeper := KFailed e |>
      end
  | KFailed e => s <| mc_error := Some (default e (mc_error s)) |> <| mc_keeper := KRecorded |>
  | KRecorded => s <| mc_cancelled := mc_cancelled s || listens |> <| mc_keeper := KStopped |>
  | KIdle | KStopped => s
  end.

(** The keeper runs while the main thread waits. *)
Definition interleave (r : LeaseReference) (listens : bool) : Action machine unit :=
  writing (fun s => Nat.iter (keeper_steps (mc_points s)) (keep_lease_alive r listens)
                      (s <| mc_points := Datatypes.S (mc_points s) |>)).

(** [with heartbeat_lock: if heartbeat_error: raise heartbeat_error[0]; m]. *)
Definition heartbeat_locked {A} (r : LeaseReference) (listens : bool) (m : Action machine A) : Action machine A :=
  _ ← interleave r listens;
  failed ← reading mc_error;
  match failed with Some e => fail e | None => m end.

Definition report (r : LeaseReference) (listens : bool) (event : ProgressEvent) : Action machine unit :=
  heartbeat_locked r listens
    (directive ← heartbeat r event;
     writing (fun s => s <| mc_last := event |>
                         <| mc_cancelled := mc_cancelled s || (listens && hd_cancelled directive) |>)).

Definition start_keeper : Action machine unit := writing (fun s => s <| mc_keeper := KWaiting |>).

(** [heartbeat_stop.set()] and [join]: an exception already raised is still recorded. *)
Definition stop_keeper (r : LeaseReference) (listens : bool) : Action machine unit :=
  _ ← interleave r listens;
  writing (fun s =>
    let step := keep_lease_alive r listens in
    match mc_keeper s with
    | KFailed _ => step (step s)
    | KRecorded => step s
    | KWaiting => s <| mc_keeper := KStopped |>
    | KIdle | KStopped => s
    end).

(** [cancelled], read by the main thread. *)
Definition is_cancelled (r : LeaseReference) : Action machine bool :=
  _ ← interleave r true;
  reading mc_cancelled.

(** ** Transports and the executor *)

Fixpoint run_script {X Y R} (callback : X -> Action machine Y) (t : script X Y R) : Action machine R :=
  match t with
  | Ask x k => fun s => match callback x s with
                        | (Raise Killed, s) => (Raise Killed, s)
                        | (a, s) => run_script callback (k a) s
                        end
  | Done r => mret r
  | Throw e => fail e
  end.

(** Run a script and note how it ended. *)
Definition scripted {X Y R} (callback : X -> Action machine Y) (t : list event -> script X Y R)
    (tag : res R -> event) : Action machine R := fun s =>
  let r := run_script callback (t (mc_log s)) s in
  (fst r, (snd r) <| mc_log := mc_log (snd r) ++ [tag (fst r)] |>).

Definition _transfer_fraction (item_index item_count consumed : Z) (total : option Z) (weight : Q) : Q :=
  if item_count <=? 0 then weight
  else
    let current := match total with
                   | Some t => if t =? 0 then 0%Q else Qmin (inject_Z consumed / inject_Z t) 1
                   | None => 0%Q
                   end in
    Qmin ((inject_Z item_index + current) / inject_Z item_count * weight) weight.

(** The callback of a transport. *)
Definition on_transfer (r : LeaseReference) (listens : bool) (base : Q) (stage : string) (index count : Z)
    (moved : Z * option Z) : Action machine unit :=
  event ← lift (progress_event (base + _transfer_fraction index count (fst moved) (snd moved) (1 # 10)) stage None);
  report r listens event.

Definition download (r : LeaseReference) (index count : Z) (t : TransferTicket)
    : Action machine (TransferReceipt * bytes) :=
  scripted (on_transfer r true 0 "downloading_inputs" index count) (fun h => download_script h t) (Fetch t).

Definition upload (r : LeaseReference) (listens : bool) (stage : string) (index count : Z) (t : TransferTicket)
    (content : bytes) : Action machine TransferReceipt :=
  scripted (on_transfer r listens (9 # 10) stage index count) (fun h => upload_script h t content) (Push t content).

Definition executor_callback (r : LeaseReference) (c : executor_call) : Action machine bool :=
  match c with
  | OnProgress e =>
      event ← lift (progress_event ((1 # 10) + pe_fraction e * (8 # 10)) (pe_stage e) (pe_message e));
      _ ← report r true event;
      mret true
  | IsCancelled => is_cancelled r
  end.

Definition execute (r : LeaseReference) (request : ExecutionRequest) : Action machine ExecutionResult :=
  _ ← writing (fun s => s <| mc_log := mc_log s ++ [Executing request] |>);
  scripted (executor_callback r) (fun h => executor_script h request) (Executed request).

(** ** Failures *)

Definition executor_failure (code : ErrorCode.t) (message : string) (retry : RetryAction.t) (responsibility : string)
    (details : dict) : exc :=
  ExecutorFailure (ErrorCode.to_int code) (ErrorCode.name code) message (RetryAction.value retry) responsibility
    (sanitize_details (Some details) 0).

Definition failure_of (code : ErrorCode.t) (message : string) (retry : RetryAction.t) (responsibility : string)
    (after_start : bool) (details : dict) (usage : UsageMetrics) : Action machine WorkerFailureReport :=
  lift (worker_failure (ErrorCode.to_int code) (ErrorCode.name code) message (RetryAction.value retry) responsibility
          after_start details usage).

Definition lease_lost (after_start : bool) : Action machine WorkerFailureReport :=
  failure_of ErrorCode.LEASE_LOST "The worker lease is no longer valid." RetryAction.NONE "platform" after_start []
    no_usage.

Definition _report_failure (r : LeaseReference) (failure : WorkerFailureReport) : Action machine WorkerOutcome :=
  catching
    (_ ← calling (fun h => gw_fail h r failure) (Report r failure);
     mret (FailedWith failure))
    (fun e => match e with
              | LeaseLostError => f ← lease_lost (wf_occurred_after_start failure); mret (FailedWith f)
              | e => fail e
              end).

(** [except UploadJournalError]. *)
Definition on_journal_error {A} (m : Action machine A) (h : Action machine A) : Action machine A :=
  catching m (fun e => match e with UploadJournalError => h | e => fail e end).

Definition _discard_pending_attempt (core : WorkerCore) (attempt_id : string) : Action machine unit :=
  if wc_journal core then
    on_journal_error (on_disk (remove_upload attempt_id))
      (on_journal_error (on_disk (quarantine attempt_id)) (mret tt))
  else mret tt.

Definition discard_if_journaled (core : WorkerCore) (r : LeaseReference) : Action machine unit :=
  journaled ← reading mc_journaled;
  if journaled : bool then _discard_pending_attempt core (lr_attempt_id r) else mret tt.

(** ** Before the execution *)

Definition _input_artifact_aad (lease : ExecutionLease) (crypto : LeaseCryptoContext) (artifact_id : string) : res bytes :=
  task_aad (lc_workspace_id crypto) (lr_task_id (el_reference lease)) (lc_content_attempt_id crypto) artifact_id
    (lc_key_version crypto).

Definition _output_artifact_aad (lease : ExecutionLease) (crypto : LeaseCryptoContext) (artifact_id : string) : res bytes :=
  task_aad (lc_workspace_id crypto) (lr_task_id (el_reference lease)) (lr_attempt_id (el_reference lease)) artifact_id
    (lc_key_version crypto).

(** The checks on the lease, which send nothing. *)
Definition accept_lease (core : WorkerCore) (lease : ExecutionLease) : Action machine ExecutorDescriptor :=
  _ ← (match el_expires_at lease with
       | Some t =>
           current ← worker_time;
           ensure (current <? t)
             (executor_failure ErrorCode.RESERVATION_EXPIRED
                "The worker reservation expired before execution started." RetryAction.ANOTHER_WORKER "platform" [])
       | None => mret tt
       end);
  let payload := el_payload lease in
  descriptor ← (match List.find (fun d => String.eqb (xd_executor_type d) (xp_executor_type payload))
                        (wc_executors core) with
                | Some d => mret d
                | None => fail (executor_failure ErrorCode.EXECUTOR_UNAVAILABLE
                                  "The requested executor is not installed on this worker."
                                  RetryAction.ANOTHER_WORKER "provider"
                                  [("executor_type", JStr (xp_executor_type payload))])
                end);
  _ ← ensure (xp_payload_format payload ∈? xd_payload_formats descriptor)
        (executor_failure ErrorCode.UNSUPPORTED_PAYLOAD "The selected executor does not support this payload format."
           RetryAction.ANOTHER_WORKER "provider" [("payload_format", JStr (xp_payload_format payload))]);
  _ ← ensure (xp_operation payload ∈? xd_operations descriptor)
        (executor_failure ErrorCode.UNSUPPORTED_PAYLOAD "The selected executor does not support this operation."
           RetryAction.ANOTHER_WORKER "provider" [("operation", JStr (xp_operation payload))]);
  mret descriptor.

(** The outcome of a stream; the bound of its loops is never exhausted. *)
Definition stream_result {A} (o : outcome A) : res bytes :=
  match snd o with
  | Some (Ok _) => Ok (fst o)
  | Some (Raise e) => Raise e
  | None => Raise StructError
  end.

Definition fetch_input (lease : ExecutionLease) (index : Z) (item : ArtifactInput) : Action machine ExecutionInput :=
  received ← download (el_reference lease) index (Z.of_nat (length (el_inputs lease))) (in_download item);
  let (receipt, content) := received : TransferReceipt * bytes in
  _ ← writing (fun s => s <| mc_input_bytes := mc_input_bytes s + rc_size_bytes receipt |>);
  plaintext ← (match el_crypto lease with
               | None => mret content
               | Some crypto =>
                   aad ← lift (_input_artifact_aad lease crypto (ad_artifact_id (in_artifact item)));
                   lift (stream_result (decrypt_stream aad MAX_FRAME_SIZE (file content) [] (lc_task_data_key crypto)))
               end);
  mret (MkExecInput (in_name item) plaintext (in_artifact item)).

Fixpoint fetch_inputs (lease : ExecutionLease) (index : Z) (l : list ArtifactInput)
    : Action machine (list ExecutionInput) :=
  match l with
  | [] => mret []
  | item :: l =>
      input ← fetch_input lease index item;
      rest ← fetch_inputs lease (index + 1) l;
      mret (input :: rest)
  end.

Definition cancelled_before (message : string) : exc :=
  executor_failure ErrorCode.EXECUTION_CANCELLED message RetryAction.NONE "consumer" [].

(** The start boundary: nothing is executed unless the gateway acknowledged the start. *)
Definition begin_execution (r : LeaseReference) : Action machine Z :=
  cancelled ← is_cancelled r;
  _ ← ensure (negb cancelled) (cancelled_before "Execution was cancelled before it started.");
  _ ← heartbeat_locked r true
        (directive ← calling (fun h => gw_mark_started h r) (Start r);
         writing (fun s => s <| mc_cancelled := mc_cancelled s || hd_cancelled directive |>));
  cancelled ← is_cancelled r;
  _ ← ensure (negb cancelled) (cancelled_before "Execution was cancelled at the start boundary.");
  _ ← writing (fun s => s <| mc_started := true |> <| mc_phase := "executing" |>);
  wall_started ← worker_time;
  _ ← writing (fun s => s <| mc_execution_started := Some wall_started |>);
  mret wall_started.

(** [max(1, round(1000 * seconds))], ties to even. *)
Definition wall_ms (started stopped : Z) : Z :=
  let d := stopped - started in
  let q := d / 1000 in
  let r := d mod 1000 in
  Z.max 1 (if r <? 500 then q else if 500 <? r then q + 1 else if Z.even q then q else q + 1).

(** ** Outputs *)

(** Where an output waits: in the spool, or as a file of the work directory. *)
Inductive staged := Spooled (directory name : string) | Loose (content : bytes).

Definition staged_path (f : staged) : path :=
  match f with Spooled d n => InSpool d n | Loose _ => Elsewhere end.

Definition staged_content (f : staged) (s : machine) : res bytes :=
  match f with
  | Loose b => Ok b
  | Spooled d n => match entries_at d (mc_disk s) !! n with
                   | Some (Cipher b) => Ok b
                   | _ => Raise (OSError "FileNotFoundError")
                   end
  end.

(** Read the content of a staged file. *)
Definition read_staged (f : staged) : Action machine bytes := fun s => (staged_content f s, s).

(** [upload_source.open("wb")]. *)
Definition open_ciphertext (p : path) : Action machine unit :=
  match p with
  | InSpool d n => _ ← on_disk os_call; on_disk (edit d (insert n (Cipher [])))
  | Elsewhere => mret tt
  end.

(** What [encrypt_stream] writes. *)
Definition write_ciphertext (p : path) (o : outcome StreamStats) : Action machine staged :=
  match p with
  | InSpool d n =>
      _ ← on_disk os_call;
      _ ← on_disk (edit d (insert n (Cipher (fst o))));
      _ ← lift (stream_result o);
      mret (Spooled d n)
  | Elsewhere => b ← lift (stream_result o); mret (Loose b)
  end.

(** The file an output is uploaded from: its own, or its encryption. *)
Definition stage_output (core : WorkerCore) (lease : ExecutionLease) (target : ArtifactOutputTarget)
    (artifact : ExecutionArtifact) : Action machine staged :=
  let content := match ea_content artifact with Some b => Ok b | None => Raise (OSError "FileNotFoundError") end in
  match el_crypto lease with
  | None => b ← lift content; mret (Loose b)
  | Some crypto =>
      p ← (if wc_journal core
           then on_disk (output_path (el_reference lease) (ad_artifact_id (ot_artifact target)))
           else mret Elsewhere);
      b ← lift content;
      _ ← open_ciphertext p;
      aad ← lift (_output_artifact_aad lease crypto (ad_artifact_id (ot_artifact target)));
      n ← reading mc_streams;
      _ ← writing (fun s => s <| mc_streams := Datatypes.S n |>);
      write_ciphertext p (encrypt_stream aad DEFAULT_CHUNK_SIZE (file b) [] (lc_task_data_key crypto) (stream_seed n))
  end.

Definition normalized_artifact (target : ArtifactOutputTarget) (artifact : ExecutionArtifact) (content : bytes)
    : res WorkerResultArtifact :=
  filename ← with_safe_media_extension (ad_filename (ot_artifact target)) (ea_media_type artifact);
  Ok (MkResultArtifact (ad_artifact_id (ot_artifact target)) (ea_name artifact) filename (ea_media_type artifact)
        (blen content) (hexdigest content) (ot_kind target) (ot_store_type target) (ot_object_ref target)
        (canonical_media_probes (ea_metadata artifact))).

(** [staged_files[artifact_id] = upload_source]. *)
Fixpoint staged_set (id : string) (f : staged) (l : list (string * staged)) : list (string * staged) :=
  match l with
  | [] => [(id, f)]
  | (k, g) :: l => if String.eqb k id then (id, f) :: l else (k, g) :: staged_set id f l
  end.

Record outputs := MkOutputs {
  ou_artifacts : list WorkerResultArtifact;
  ou_files : list (string * staged);
  ou_bytes : Z
}.

Fixpoint stage_outputs (core : WorkerCore) (lease : ExecutionLease) (l : list ExecutionArtifact) (acc : outputs)
    : Action machine outputs :=
  match l with
  | [] => mret acc
  | artifact :: l =>
      target ← (match List.find (fun t => String.eqb (ot_name t) (ea_name artifact)) (el_outputs lease) with
                | Some t => mret t
                | None => fail (ArtifactTransferError "upload" false None)
                end);
      source ← stage_output core lease target artifact;
      content ← read_staged source;
      normalized ← lift (normalized_artifact target artifact content);
      stage_outputs core lease l
        (MkOutputs (ou_artifacts acc ++ [normalized])
           (staged_set (ra_artifact_id normalized) source (ou_files acc)) (ou_bytes acc + blen content))
  end.

Definition receipt_matches (receipt : TransferReceipt) (a : WorkerResultArtifact) : bool :=
  (rc_size_bytes receipt =? ra_size_bytes a) && String.eqb (rc_sha256 receipt) (ra_sha256 a).

Definition find_staged (id : string) (files : list (string * staged)) : res staged :=
  match List.find (fun kv => String.eqb (fst kv) id) files with Some (_, f) => Ok f | None => Raise KeyError end.

Definition find_target (id : string) (lease : ExecutionLease) : res ArtifactOutputTarget :=
  match List.find (fun t => String.eqb (ad_artifact_id (ot_artifact t)) id) (rev (el_outputs lease)) with
  | Some t => Ok t
  | None => Raise KeyError
  end.

Fixpoint upload_outputs (lease : ExecutionLease) (files : list (string * staged)) (count index : Z)
    (l : list WorkerResultArtifact) : Action machine unit :=
  match l with
  | [] => mret tt
  | a :: l =>
      target ← lift (find_target (ra_artifact_id a) lease);
      source ← lift (find_staged (ra_artifact_id a) files);
      content ← read_staged source;
      receipt ← upload (el_reference lease) true "uploading_outputs" index count (ot_upload target) content;
      _ ← ensure (receipt_matches receipt a) (VGenError (ErrorCode.to_int ErrorCode.ARTIFACT_INTEGRITY_FAILED) []);
      journaled ← reading mc_journaled;
      _ ← (if journaled : bool
           then _ ← on_disk (mark_uploaded (lr_attempt_id (el_reference lease)) (ra_artifact_id a)); mret tt
           else mret tt);
      upload_outputs lease files count (index + 1) l
  end.

(** ** Processing a lease *)

Definition execution_cancelled (usage : UsageMetrics) : Action machine WorkerFailureReport :=
  failure_of ErrorCode.EXECUTION_CANCELLED "Execution was cancelled after it started." RetryAction.NONE "consumer" true []
    usage.

Definition stop_and_report (r : LeaseReference) (failure : WorkerFailureReport) : Action machine WorkerOutcome :=
  _ ← stop_keeper r true;
  _report_failure r failure.

(** Upload what was staged and report the result. *)
Definition deliver (core : WorkerCore) (lease : ExecutionLease) (staged : outputs) (usage : UsageMetrics)
    (result : WorkerResult) : Action machine WorkerOutcome :=
  let r := el_reference lease in
  let encrypted := match el_crypto lease with Some _ => true | None => false end in
  _ ← (if wc_journal core && encrypted then
         _ ← on_disk (save_upload r result (map (fun kv => (fst kv, staged_path (snd kv))) (ou_files staged)) None);
         writing (fun s => s <| mc_journaled := true |>)
       else mret tt);
  _ ← upload_outputs lease (ou_files staged) (Z.of_nat (length (wr_artifacts result))) 0 (wr_artifacts result);
  cancelled_after_upload ← heartbeat_locked r true (reading mc_cancelled);
  if cancelled_after_upload : bool then
    _ ← discard_if_journaled core r;
    _ ← writing (fun s => s <| mc_journaled := false |>);
    failure ← execution_cancelled usage;
    stop_and_report r failure
  else
    _ ← stop_keeper r true;
    _ ← calling (fun h => gw_complete h r result) (Complete r result);
    _ ← discard_if_journaled core r;
    mret (Succeeded result).

Definition process_body (core : WorkerCore) (lease : ExecutionLease) : Action machine WorkerOutcome :=
  let r := el_reference lease in
  let payload := el_payload lease in
  descriptor ← accept_lease core lease;
  _ ← report r true (MkProgress 0 "preparing" None);
  _ ← (match el_expires_at lease with Some _ => _ ← worker_time; mret tt | None => mret tt end);
  _ ← start_keeper;
  _ ← on_disk os_call;
  _ ← on_disk os_call;
  inputs ← fetch_inputs lease 0 (el_inputs lease);
  wall_started ← begin_execution r;
  request ← lift (execution_request
                    (MkExecRequest (lr_task_id r) (lr_attempt_id r) (xp_workflow_digest payload) (xp_operation payload)
                       (xp_payload_format payload) (xp_data payload) inputs (el_timeout lease)));
  result ← execute r request;
  _ ← heartbeat_locked r true (mret tt);
  stopped ← worker_time;
  let measured := wall_ms wall_started stopped in
  _ ← writing (fun s => s <| mc_phase := "uploading" |>);
  staged ← stage_outputs core lease (er_artifacts result) (MkOutputs [] [] 0);
  input_bytes ← reading mc_input_bytes;
  let u := er_usage result in
  usage ← lift (usage_metrics
                  (MkUsage (if um_executor_wall_ms u =? 0 then measured else um_executor_wall_ms u) (um_gpu_active_ms u)
                     (um_gpu_count u) input_bytes (ou_bytes staged) (um_frames u) (um_duration_ms u)
                     (um_denoise_steps u) (um_native u)));
  cancelled ← is_cancelled r;
  if cancelled : bool then
    failure ← execution_cancelled usage;
    stop_and_report r failure
  else
    normalized ← lift (worker_result
                         (MkResult (ou_artifacts staged) usage (xd_executor_type descriptor) (xd_version descriptor)
                            (er_executor_run_id result) (canonical_media_probes (er_metadata result))));
    deliver core lease staged usage normalized.

(** The [except] clauses of [process], in order. *)
Definition process_failed (core : WorkerCore) (lease : ExecutionLease) (e : exc) : Action machine WorkerOutcome :=
  let r := el_reference lease in
  started ← reading mc_started;
  phase ← reading mc_phase;
  journaled ← reading mc_journaled;
  match e with
  | GatewayUnavailableError => fail e
  | GatewayRequestError _ _ => _ ← discard_if_journaled core r; fail e
  | LeaseLostError =>
      _ ← discard_if_journaled core r;
      failure ← lease_lost started;
      mret (FailedWith failure)
  | ArtifactTransferError operation retryable status_code =>
      let is_upload := String.eqb phase "uploading" in
      if is_upload && journaled && retryable then fail (UploadPendingError (lr_attempt_id r))
      else
        _ ← (if is_upload then
               _ ← discard_if_journaled core r; writing (fun s => s <| mc_journaled := false |>)
             else mret tt);
        failure ← failure_of
                    (if is_upload then ErrorCode.OUTPUT_UPLOAD_FAILED else ErrorCode.INPUT_DOWNLOAD_FAILED)
                    (if is_upload then "An output artifact could not be uploaded."
                     else "An input artifact could not be downloaded.")
                    (if is_upload then RetryAction.RESUME_UPLOAD else RetryAction.SAME_WORKER) "platform" started
                    [("operation", JStr operation); ("status_code", json_opt_int status_code);
                     ("retryable", JBool retryable)] no_usage;
        stop_and_report r failure
  | VGenError code details =>
      spec ← lift (get_error_spec code);
      _ ← (if journaled && (code =? ErrorCode.to_int ErrorCode.ARTIFACT_INTEGRITY_FAILED) then
             _ ← discard_if_journaled core r; writing (fun s => s <| mc_journaled := false |>)
           else mret tt);
      failure ← lift (worker_failure code (ErrorCode.name (s_code spec)) (s_message spec)
                        (RetryAction.value (s_retry_action spec))
                        (if s_responsibility spec =d Responsibility.UNKNOWN then "platform"
                         else Responsibility.value (s_responsibility spec)) started details no_usage);
      stop_and_report r failure
  | ExecutorFailure code name message retry_action responsibility details =>
      execution_started ← reading mc_execution_started;
      input_bytes ← reading mc_input_bytes;
      usage ← (match started, execution_started with
               | true, Some t =>
                   current ← worker_time;
                   lift (usage_metrics (MkUsage (wall_ms t current) None 1 input_bytes 0 None None None []))
               | _, _ => mret no_usage
               end);
      failure ← lift (worker_failure code name message retry_action responsibility started details usage);
      stop_and_report r failure
  | e =>
      failure ← failure_of ErrorCode.INTERNAL_ERROR "The worker encountered an unexpected internal error."
                  RetryAction.SAME_WORKER "provider" started
                  [("error_type", JStr (exc_name e)); ("phase", JStr phase)] no_usage;
      stop_and_report r failure
  end.

(** [WorkerCore.process]. *)
Definition process_lease (core : WorkerCore) (lease : ExecutionLease) : Action machine WorkerOutcome :=
  _ ← writing (fun s => s <| mc_started := false |> <| mc_phase := "preparing" |> <| mc_journaled := false |>
                          <| mc_execution_started := None |> <| mc_input_bytes := 0 |> <| mc_keeper := KIdle |>
                          <| mc_error := None |> <| mc_cancelled := false |>);
  finally (catching (process_body core lease) (process_failed core lease)) (stop_keeper (el_reference lease) true).

(** ** Resuming an upload *)

Definition durable_failure (code : ErrorCode.t) (message : string) (usage : UsageMetrics)
    : Action machine WorkerFailureReport :=
  failure_of code message RetryAction.NONE "platform" true [] usage.

Definition resumed_report (r : LeaseReference) (failure : WorkerFailureReport) : Action machine WorkerOutcome :=
  _ ← stop_keeper r false;
  _report_failure r failure.

(** A receipt that does not match: the attempt is moved out of the way and failed. *)
Definition corrupt_output (pending : PendingUpload) : Action machine WorkerOutcome :=
  _ ← on_journal_error (on_disk (quarantine (lr_attempt_id (pu_reference pending)))) (mret tt);
  failure ← durable_failure ErrorCode.ARTIFACT_INTEGRITY_FAILED "A durable output failed integrity verification."
              (wr_usage (pu_result pending));
  resumed_report (pu_reference pending) failure.

Definition find_artifact (id : string) (result : WorkerResult) : res WorkerResultArtifact :=
  match List.find (fun a => String.eqb (ra_artifact_id a) id) (rev (wr_artifacts result)) with
  | Some a => Ok a
  | None => Raise KeyError
  end.

Definition find_ticket (id : string) (tickets : list (string * TransferTicket)) : res TransferTicket :=
  match List.find (fun kv => String.eqb (fst kv) id) tickets with Some (_, t) => Ok t | None => Raise KeyError end.

Definition pending_file (id : string) (pending : PendingUpload) : res staged :=
  match List.find (fun kv => String.eqb (fst kv) id) (pu_files pending) with
  | Some (_, InSpool d n) => Ok (Spooled d n)
  | _ => Raise KeyError
  end.

(** The loop over the pending artifacts; an outcome ends it early. *)
Fixpoint resume_uploads (pending : PendingUpload) (tickets : list (string * TransferTicket)) (total index : Z)
    (ids : list string) : Action machine (option WorkerOutcome) :=
  match ids with
  | [] => mret None
  | id :: ids =>
      artifact ← lift (find_artifact id (pu_result pending));
      ticket ← lift (find_ticket id tickets);
      source ← lift (pending_file id pending);
      content ← read_staged source;
      receipt ← upload (pu_reference pending) false "resuming_output_upload" index total ticket content;
      if receipt_matches receipt artifact then
        _ ← on_disk (mark_uploaded (lr_attempt_id (pu_reference pending)) id);
        resume_uploads pending tickets total (index + 1) ids
      else
        ended ← corrupt_output pending;
        mret (Some ended)
  end.

Definition resume_body (core : WorkerCore) (pending : PendingUpload) : Action machine WorkerOutcome :=
  let r := pu_reference pending in
  let ids := sorted_ids (pu_pending pending) in
  _ ← report r false (MkProgress (9 # 10) "resuming_output_upload" None);
  _ ← start_keeper;
  tickets ← heartbeat_locked r false
              (match ids with
               | [] => mret []
               | _ => calling (fun h => gw_renew h r ids) (Renew r ids)
               end);
  let renewed_ids := map fst (tickets : list (string * TransferTicket)) in
  _ ← ensure (subset renewed_ids ids) (ArtifactTransferError "renew" false None);
  _ ← ensure (subset ids renewed_ids) (ArtifactTransferError "renew" true None);
  ended ← resume_uploads pending tickets (Z.max (Z.of_nat (length ids)) 1) 0 ids;
  match ended : option WorkerOutcome with
  | Some o => mret o
  | None =>
      _ ← stop_keeper r false;
      _ ← heartbeat_locked r false (calling (fun h => gw_complete h r (pu_result pending)) (Complete r (pu_result pending)));
      _ ← _discard_pending_attempt core (lr_attempt_id r);
      mret (Succeeded (pu_result pending))
  end.

Definition resume_failed (core : WorkerCore) (pending : PendingUpload) (e : exc) : Action machine WorkerOutcome :=
  let r := pu_reference pending in
  match e with
  | ArtifactTransferError _ retryable _ =>
      if retryable then fail (UploadPendingError (lr_attempt_id r))
      else
        _ ← _discard_pending_attempt core (lr_attempt_id r);
        failure ← durable_failure ErrorCode.OUTPUT_UPLOAD_FAILED
                    "A durable output cannot be uploaded with the renewed capability." (wr_usage (pu_result pending));
        resumed_report r failure
  | LeaseLostError =>
      _ ← _discard_pending_attempt core (lr_attempt_id r);
      failure ← lease_lost true;
      mret (FailedWith failure)
  | GatewayRequestError _ _ => _ ← _discard_pending_attempt core (lr_attempt_id r); fail e
  | e => fail e
  end.

Definition resume_pending (core : WorkerCore) : Action machine (option WorkerOutcome) :=
  if negb (wc_journal core) then mret None
  else
    found ← on_disk oldest_pending;
    match found : option PendingUpload with
    | None => mret None
    | Some pending =>
        _ ← writing (fun s => s <| mc_keeper := KIdle |> <| mc_error := None |>
                                <| mc_last := MkProgress (9 # 10) "resuming_output_upload" None |>);
        ended ← finally (catching (resume_body core pending) (resume_failed core pending))
                  (stop_keeper (pu_reference pending) false);
        mret (Some ended)
    end.
End Worker.
