(* ===== verification/Local.v ===== *)
(** * What the worker's own code raises

    The exceptions that end an attempt come from outside: no computation of the worker and no
    action on its spool raises that the lease is lost, that a transfer failed, that the
    gateway is away or that an upload stays pending. *)

From stdpp Require Import gmap.
From S2P Require Import Prelude Python Bytes Effects Errors Metadata Schema Store Capability Encoding Signing Envelope.
From S2P Require Import Stream Work Spool Worker.

Open Scope Z_scope.

(** The exceptions only the gateway, a transport or the executor raises, and the verdict
    that an upload stays pending. *)
Definition foreign (e : exc) : bool :=
  match e with
  | LeaseLostError | GatewayUnavailableError | GatewayRequestError _ _ | ArtifactTransferError _ _ _
  | UploadPendingError _ => true
  | _ => false
  end.

Definition tame {A} (v : res A) : Prop := forall e, v = Raise e -> foreign e = false.

Lemma tame_ok {A} (a : A) : tame (Ok a).
Proof. done. Qed.

Lemma tame_raise {A} e : foreign e = false -> tame (Raise e : res A).
Proof. by intros H e' [= <-]. Qed.

Lemma tame_bind {A B} (v : res A) (f : A -> res B) : tame v -> (forall a, tame (f a)) -> tame (bind v f).
Proof. intros Hv Hf e. unfold bind, mbind, res_bind. destruct v as [a|e']; [apply Hf|]. intros [= <-]. by apply Hv. Qed.

Lemma tame_map {A B} (f : A -> res B) l : (forall a, tame (f a)) -> tame (res_map f l).
Proof.
  intros Hf. induction l as [|a l IH]; [done|]. cbn [res_map]. intros e. destruct (f a) eqn:Ha.
  - destruct (res_map f l); [done|]. intros [= <-]. by apply IH.
  - intros [= <-]. by apply (Hf a).
Qed.

Ltac solve_tame :=
  repeat first
    [ progress intros
    | apply tame_ok
    | apply tame_raise; reflexivity
    | apply tame_bind
    | apply tame_map
    | match goal with
      | |- tame (if ?b then _ else _) => destruct b
      | |- tame (match ?v with _ => _ end) => destruct v
      end ].

Section Local.
Context {E : Env} {SS : Secretstream} {P : Platform} {W : Site}.

Lemma tame_item k d : tame (jitem k d).
Proof. unfold jitem. solve_tame. Qed.
Lemma tame_text k v : tame (text_at k v).
Proof. unfold text_at, jsub, jitem. solve_tame. Qed.
Lemma tame_json_int v : tame (json_int v).
Proof. unfold json_int. solve_tame. Qed.
Lemma tame_int k v : tame (int_at k v).
Proof. apply tame_bind; [unfold jsub, jitem; solve_tame|]. intros a. apply tame_json_int. Qed.
Lemma tame_mapping v : tame (mapping v).
Proof. unfold mapping. solve_tame. Qed.
Lemma tame_optional k d : tame (optional_int k d).
Proof. unfold optional_int. destruct (jget_or k JNull d); try apply tame_ok; (apply tame_bind; [apply tame_json_int|done]). Qed.

Lemma tame_reference v : tame (reference_from_dict v).
Proof.
  unfold reference_from_dict, lease_reference, value_unless. repeat (apply tame_bind; [apply tame_text || apply tame_int|intros ?]).
  solve_tame.
Qed.

Lemma tame_artifact v : tame (artifact_from_dict v).
Proof.
  unfold artifact_from_dict.
  repeat (apply tame_bind; [first [apply tame_text|apply tame_int|apply tame_mapping]|intros ?]). solve_tame.
Qed.

Lemma tame_usage v : tame (usage_from_dict v).
Proof.
  unfold usage_from_dict. apply tame_bind; [solve_tame|]. intros d.
  repeat (apply tame_bind; [first [apply tame_json_int|apply tame_optional]|intros ?]). unfold usage_metrics. solve_tame.
Qed.

Lemma tame_result v : tame (_result_from_dict v).
Proof.
  unfold _result_from_dict, worker_result, value_unless. apply tame_bind; [unfold jsub, jitem; solve_tame|]. intros u.
  apply tame_bind; [unfold jsub, jitem; solve_tame|]. intros l. apply tame_bind; [unfold iterated; solve_tame|]. intros items.
  apply tame_bind; [apply tame_map, tame_artifact|]. intros a. apply tame_bind; [apply tame_usage|]. intros u'.
  do 2 (apply tame_bind; [apply tame_text|intros ?]). apply tame_bind; [apply tame_mapping|]. intros d. solve_tame.
Qed.

(** ** The spool *)

(** Actions on the disk that raise no foreign exception. *)
Definition local {A} (m : Action disk A) : Prop :=
  runs (fun _ => True) m (fun _ _ => True) (fun e _ => foreign e = false).

Lemma local_bind {A B} (m : Action disk A) (f : A -> Action disk B) : local m -> (forall a, local (f a)) -> local (bind m f).
Proof. intros Hm Hf. eapply runs_bind; [exact Hm|]. intros a. apply Hf. Qed.

Lemma local_lift {A} (v : res A) : tame v -> local (lift v).
Proof. intros Hv d _. unfold lift. destruct v as [a|e]; [done|]. by apply Hv. Qed.

Lemma local_catching {A} (m : Action disk A) h :
  local m -> (forall e, foreign e = false -> local (h e)) -> local (catching m h).
Proof.
  intros Hm Hh. eapply runs_catching; [exact Hm|done|]. intros e He d Hd. by apply (Hh e Hd d).
Qed.

Lemma local_fail {A} e : foreign e = false -> local (fail e : Action disk A).
Proof. by intros H d _. Qed.

Lemma local_os_call : local os_call.
Proof. intros d _. unfold os_call. by destruct (os_answer _). Qed.

Lemma local_chmod : local chmod.
Proof. unfold chmod. destruct windows; [done|apply local_os_call]. Qed.

Lemma local_writing f : local (writing f).
Proof. done. Qed.
Lemma local_reading {A} (f : disk -> A) : local (reading f).
Proof. done. Qed.
Lemma local_ret {A} (a : A) : local (mret a).
Proof. done. Qed.
Lemma local_ensure b e : foreign e = false -> local (ensure b e).
Proof. destruct b; [done|apply local_fail]. Qed.

Lemma local_guarded {A} (m : Action disk A) : local m -> local (os_guarded m).
Proof. intros Hm. apply local_catching; [done|]. intros e He. destruct e; by apply local_fail. Qed.

Hint Resolve local_os_call local_chmod local_writing local_reading local_ret tame_item tame_reference tame_result : local.
Hint Extern 1 (local (lift _)) => apply local_lift : local.
Hint Extern 1 (local (ensure _ _)) => (apply local_ensure; reflexivity) : local.
Hint Extern 1 (local (os_guarded _)) => apply local_guarded : local.
Hint Extern 1 (local (edit _ _)) => done : local.

Ltac solve_local :=
  repeat first
    [ progress intros
    | solve [auto with local]
    | apply local_lift; solve [solve_tame]
    | apply local_fail; assumption || reflexivity
    | apply local_bind
    | apply local_catching
    | match goal with
      | |- local (if ?b then _ else _) => destruct b
      | |- local (match ?v with _ => _ end) => destruct v
      end ].

Lemma local_load att : local (load_upload att).
Proof.
  assert (forall dir table l files, local (checked_files dir table l files)) as Hf.
  { intros dir table l. induction l as [|a l IH]; intros files; cbn [checked_files]; [done|]. unfold checked_file. solve_local. }
  unfold load_upload, load_body, read_manifest, iterated. solve_local.
Qed.

Lemma local_save reference result files pending : local (save_upload reference result files pending).
Proof.
  assert (forall dir fs, local (sync_files dir fs)) as Hf.
  { intros dir fs. induction fs as [|f fs IH]; cbn [sync_files]; [done|]. unfold sync_file. solve_local. }
  unfold save_upload, _write_manifest, mkstemp, unlink, _fsync_directory. solve_local.
Qed.

Lemma local_mark att id : local (mark_uploaded att id).
Proof. apply local_bind; [apply local_load|]. intros p. apply local_save. Qed.
Lemma local_discard att : local (remove_upload att) /\ local (quarantine att).
Proof.
  assert (forall dir fs, local (unlink_files dir fs)) as Hu.
  { intros dir fs. induction fs as [|f fs IH]; cbn [unlink_files]; [done|]. apply local_bind; [|intros _; exact IH].
    unfold unlink. apply local_bind; [apply local_os_call|done]. }
  split.
  - unfold remove_upload. apply local_bind; [apply local_load|]. intros p. apply local_bind; [apply Hu|]. intros _.
    apply local_bind; [unfold unlink; apply local_bind; [apply local_os_call|done]|]. intros _.
    apply local_guarded. apply local_bind; [apply local_os_call|]. intros _. apply local_bind; [done|]. intros m.
    apply local_bind; [by apply local_ensure|done].
  - unfold quarantine, _quarantine_directory. apply local_guarded. apply local_bind; [done|]. intros f.
    apply local_bind; [by destruct f|]. intros p. apply local_bind; [apply local_os_call|]. intros _.
    apply local_bind; [done|]. intros b. apply local_bind; [by apply local_ensure|]. intros _.
    apply local_bind; [apply local_chmod|]. intros _. apply local_bind; [apply local_os_call|done].
Qed.


Lemma local_make_directory dir : local (make_directory dir).
Proof. intros d _. unfold make_directory. by destruct (dk_root d !! dir) as [[]|]. Qed.

Lemma local_output_path reference id : local (output_path reference id).
Proof. unfold output_path. pose proof local_make_directory. solve_local. Qed.

(** ** What the worker computes *)

Lemma tame_json v : tame (canonical_json v).
Proof.
  apply tame_bind; [|done]. intros e He. by rewrite (json_dump_error _ _ He).
Qed.

Lemma tame_aad ws task att id n : tame (task_aad ws task att id n).
Proof. unfold task_aad. destruct (_ <? _); [by apply tame_raise|apply tame_json]. Qed.

Lemma tame_progress f s m : tame (progress_event f s m).
Proof. unfold progress_event, value_unless. solve_tame. Qed.

Lemma tame_usage_metrics u : tame (usage_metrics u).
Proof. unfold usage_metrics. solve_tame. Qed.

Lemma tame_request q : tame (execution_request q).
Proof. unfold execution_request, value_unless. solve_tame. Qed.

Lemma tame_worker_result x : tame (worker_result x).
Proof. unfold worker_result, value_unless. solve_tame. Qed.

Lemma tame_failure code name message retry resp after details usage :
  tame (worker_failure code name message retry resp after details usage).
Proof. unfold worker_failure, value_unless. solve_tame. Qed.

Lemma tame_spec n : tame (get_error_spec n).
Proof. unfold get_error_spec. solve_tame. Qed.

Lemma tame_normalized target a content : tame (normalized_artifact target a content).
Proof. unfold normalized_artifact, with_safe_media_extension. solve_tame. Qed.

Lemma tame_staged f s : tame (staged_content f s).
Proof. unfold staged_content. solve_tame. Qed.

Lemma tame_find {A} k (l : list (string * A)) e : foreign e = false ->
  tame (match List.find (fun kv => String.eqb (fst kv) k) l with Some (_, f) => Ok f | None => Raise e end).
Proof. intros He. destruct (List.find _ _) as [[]|]; [done|]. by apply tame_raise. Qed.

(** The encryption of a stream raises no foreign exception. *)
Definition tame_outcome {A} (o : outcome A) : Prop := forall e, snd o = Some (Raise e) -> foreign e = false.

Lemma tame_stream {A} (o : outcome A) : tame_outcome o -> tame (stream_result o).
Proof.
  unfold stream_result, tame_outcome. intros H. destruct (snd o) as [[a|e]|]; [done| |by apply tame_raise].
  apply tame_raise. by apply H.
Qed.

Lemma tame_encrypt_loop aad n fuel st s current dest stats :
  tame_outcome (encrypt_loop aad n fuel st s current dest stats).
Proof.
  revert st s current dest stats. induction fuel as [|fuel IH]; intros st s current dest stats; [done|].
  cbn [encrypt_loop]. destruct (if nonempty current then _ else _) as [following s']. cbv zeta.
  unfold _chunk_aad. destruct (_ && _); [|by intros e [= <-]]. destruct (push _ _ _ _) as [st' encrypted].
  unfold pack_u32. destruct (_ && _); [|by intros e [= <-]]. destruct (negb _); [done|apply IH].
Qed.

Lemma tame_encrypt aad n s dest key seed : tame_outcome (encrypt_stream aad n s dest key seed).
Proof.
  unfold encrypt_stream. destruct (negb _); [by intros e [= <-]|]. destruct (_ || _); [by intros e [= <-]|].
  destruct (init_push key seed) as [st header]. destruct (read n s) as [current s']. apply tame_encrypt_loop.
Qed.

Lemma read_exact_raises s n e : _read_exact s n = Some (Raise e) -> e = ARTIFACT_INTEGRITY_FAILED.
Proof.
  unfold _read_exact. generalize (S (S (length (src_bytes s)))) ([] : bytes). intros fuel. revert s.
  induction fuel as [|fuel IH]; intros s value; [done|]. cbn [read_loop]. destruct (_ <? _); [|done].
  destruct (read _ s) as [[|x part] s']; [by intros [= <-]|apply IH].
Qed.

Lemma tame_decrypt_loop aad n fuel st s dest stats : tame_outcome (decrypt_loop aad n fuel st s dest stats).
Proof.
  revert st s dest stats. induction fuel as [|fuel IH]; intros st s dest stats; [done|].
  cbn [decrypt_loop]. destruct (read 4 s) as [lb s']. destruct (negb _); [by intros e [= <-]|]. cbv zeta.
  destruct (_ || _); [by intros e [= <-]|].
  destruct (_read_exact s' _) as [[[encrypted s'']|e]|] eqn:Hr; [| |done].
  2: { apply read_exact_raises in Hr as ->. by intros e [= <-]. }
  unfold _chunk_aad. destruct (_ && _); [|by intros e [= <-]].
  destruct (pull _ _ _) as [[st' [plaintext tag]]|]; [|by intros e [= <-]].
  destruct (tag =? _); [destruct (nonempty _); [by intros e [= <-]|done]|].
  destruct (negb _); [by intros e [= <-]|apply IH].
Qed.

Lemma tame_decrypt aad n s dest key : tame_outcome (decrypt_stream aad n s dest key).
Proof.
  unfold decrypt_stream. destruct (negb _); [by intros e [= <-]|]. destruct (_ <? _); [by intros e [= <-]|].
  destruct (_read_exact s _) as [[[magic s']|e]|] eqn:Hr; [| |done].
  2: { apply read_exact_raises in Hr as ->. by intros e [= <-]. }
  destruct (negb _); [by intros e [= <-]|].
  destruct (_read_exact s' _) as [[[header s'']|e]|] eqn:Hr'; [| |done].
  2: { apply read_exact_raises in Hr' as ->. by intros e [= <-]. }
  destruct (init_pull _ _); [apply tame_decrypt_loop|by intros e [= <-]].
Qed.
End Local.

Create HintDb tame.
#[export] Hint Resolve tame_aad tame_progress tame_usage_metrics tame_request tame_worker_result tame_failure tame_spec
  tame_normalized tame_staged tame_stream tame_encrypt tame_decrypt tame_ok : tame.
#[export] Hint Extern 2 (tame (Raise _)) => (apply tame_raise; reflexivity) : tame.
#[export] Hint Resolve local_os_call local_output_path local_load local_save local_mark : local.
#[export] Hint Extern 1 (local (edit _ _)) => done : local.
