(* ===== verification/Loss.v ===== *)
(** * Who says that a lease is lost

    The worker gives up a lease without a word only when it was told to: an answer of the
    gateway about that lease, a transport or the executor raised [LeaseLostError] before.
    Nothing the worker computes, and nothing its spool does, raises it. *)

From S2P Require Import Prelude Python Bytes Effects Errors Metadata Schema Store Capability Encoding Signing Envelope.
From S2P Require Import Stream Work Spool Worker Local.

Open Scope Z_scope.

(** The gateway refused a request for the lease as lost, or a transport or the executor
    ended that way. *)
Definition loses (r : LeaseReference) (e : event) : Prop :=
  match e with
  | Beat r' _ (Raise LeaseLostError) | Start r' (Raise LeaseLostError) | Renew r' _ (Raise LeaseLostError)
  | Complete r' _ (Raise LeaseLostError) | Report r' _ (Raise LeaseLostError) => r' = r
  | Fetch _ (Raise LeaseLostError) | Push _ _ (Raise LeaseLostError) | Executed _ (Raise LeaseLostError) => True
  | _ => False
  end.

Definition lost (r : LeaseReference) (l : list event) : Prop := exists e, In e l /\ loses r e.

Lemma lost_app r l1 l2 l3 : lost r l2 -> lost r (l1 ++ l2 ++ l3).
Proof. intros (e & He & Hr). exists e. split; [|exact Hr]. rewrite !in_app_iff. auto. Qed.

Section Loss.
Context {E : Env} {SS : Secretstream} {P : Platform} {W : Site}.
Context (r : LeaseReference) (l0 : list event).

(** Since [l0] the lease was lost. *)
Definition lostly (s : machine) : Prop := exists l, mc_log s = l0 ++ l /\ lost r l.

(** The keeper holds that exception only for a reason. *)
Definition sound (s : machine) : Prop :=
  (exists l, mc_log s = l0 ++ l) /\
  (mc_error s = Some LeaseLostError \/ mc_keeper s = KFailed LeaseLostError -> lostly s).

Definition blamed (e : exc) (s : machine) : Prop := sound s /\ (e = LeaseLostError -> lostly s).

(** An action that raises [LeaseLostError] only for a reason. *)
Definition blames {A} (m : Action machine A) : Prop := runs sound m (fun _ => sound) blamed.

Lemma lostly_grows s s' l : lostly s -> mc_log s' = mc_log s ++ l -> lostly s'.
Proof.
  intros (k & Hk & Hl) H. exists (k ++ l). split; [by rewrite H, Hk, app_assoc|]. by apply (lost_app r []).
Qed.

Lemma lostly_last s s' e : sound s -> loses r e -> mc_log s' = mc_log s ++ [e] -> lostly s'.
Proof.
  intros [(k & Hk) _] He H. exists (k ++ [e]). split; [by rewrite H, Hk, app_assoc|].
  exists e. split; [|exact He]. rewrite in_app_iff. cbn. auto.
Qed.

Lemma sound_grows s s' l :
  sound s -> mc_log s' = mc_log s ++ l -> mc_error s' = mc_error s -> mc_keeper s' = mc_keeper s -> sound s'.
Proof.
  intros [(k & Hk) Hs] H He Hp. split; [exists (k ++ l); by rewrite H, Hk, app_assoc|].
  rewrite He, Hp. intros Hl. eapply lostly_grows; [by apply Hs|exact H].
Qed.

(** *** Steps *)

Lemma blames_bind {A B} (m : Action machine A) (f : A -> Action machine B) :
  blames m -> (forall a, blames (f a)) -> blames (bind m f).
Proof. intros Hm Hf. eapply runs_bind; [exact Hm|exact Hf]. Qed.

(** What is said, and what the keeper holds. *)
Definition voice (s : machine) : list event * option exc * keeper := (mc_log s, mc_error s, mc_keeper s).

Lemma sound_voice s s' : sound s -> voice s' = voice s -> sound s'.
Proof.
  intros Hs H. unfold voice in H. injection H as H1 H2 H3. eapply (sound_grows s s' []); try done. by rewrite app_nil_r.
Qed.

Lemma blames_still {A} (m : Action machine A) :
  (forall s, voice (snd (m s)) = voice s) -> (forall s, fst (m s) <> Raise LeaseLostError) -> blames m.
Proof.
  intros Hv Hr s Hs. specialize (Hv s). specialize (Hr s). pose proof (sound_voice _ _ Hs Hv) as Hs'.
  destruct (m s) as [[a|e] s']; [exact Hs'|]. split; [exact Hs'|]. intros ->. by destruct Hr.
Qed.

Lemma blames_lift {A} (v : res A) : tame v -> blames (lift v).
Proof. intros Hv. apply blames_still; [done|]. intros s H. by specialize (Hv _ H). Qed.

Lemma blames_fail {A} e : foreign e = false -> blames (fail e : Action machine A).
Proof. intros He. apply blames_still; [done|]. by intros s [= ->]. Qed.

Lemma blames_ensure b e : e <> LeaseLostError -> blames (ensure b e).
Proof. intros He. apply blames_still; [by destruct b|]. intros s. destruct b; [done|]. by intros [= ->]. Qed.

Lemma blames_on_disk {A} (m : Action disk A) : local m -> blames (on_disk m).
Proof.
  intros Hm. apply blames_still; [done|]. intros s. cbn. specialize (Hm (mc_disk s) I).
  destruct (m (mc_disk s)) as [[a|e] d]; [done|]. cbn. by intros [= ->].
Qed.

Lemma blames_calling {A} ask (tag : res A -> event) :
  loses r (tag (Raise LeaseLostError)) -> blames (calling ask tag).
Proof.
  intros Ht s Hs. unfold calling. cbv zeta. generalize (ask (mc_log s)). intros a. set (s' := s <| mc_log := _ |>).
  assert (mc_log s' = mc_log s ++ [tag a]) as Hl by done.
  assert (sound s') as Hs' by exact (sound_grows _ _ _ Hs Hl eq_refl eq_refl). destruct a as [a|e]; [exact Hs'|].
  split; [exact Hs'|]. intros ->. exact (lostly_last _ _ _ Hs Ht Hl).
Qed.

Lemma blames_heartbeat p : blames (heartbeat r p).
Proof. by apply blames_calling. Qed.

(** *** The keeper *)

Lemma sound_keeper listens s : sound s -> sound (keep_lease_alive r listens s).
Proof.
  intros Hs. unfold keep_lease_alive. destruct (mc_keeper s) as [| |e| |] eqn:Hk; try exact Hs.
  - pose proof (blames_heartbeat (mc_last s) s Hs) as Hb. unfold heartbeat, calling in *. cbv zeta in *.
    destruct (gw_heartbeat _ _ _) as [d|e]; [exact (sound_voice _ _ Hb eq_refl)|]. destruct Hb as [[Hb1 Hb2] Hl].
    destruct e; split; first [exact Hb1 | intros [He|He]; [apply Hb2; by left|] ]; first [by apply Hl | done].
  - destruct Hs as [Hs1 Hs2]. split; [exact Hs1|]. cbn. intros [He|He]; [|done].
    destruct (mc_error s) as [e'|] eqn:He'; cbn in He; injection He as ->; apply Hs2; [by left|by right].
  - destruct Hs as [Hs1 Hs2]. split; [exact Hs1|]. cbn. intros [He|He]; [|done]. apply Hs2. by left.
Qed.

Lemma keeps_sound_interleave listens : keeps sound (interleave r listens).
Proof.
  intros s Hs. unfold interleave, writing. cbn. set (s0 := s <| mc_points := _ |>).
  assert (sound s0) as H0 by exact (sound_voice _ _ Hs eq_refl). generalize (keeper_steps (mc_points s)). intros n.
  induction n as [|n IH]; [exact H0|]. by apply sound_keeper.
Qed.

Lemma blames_interleave listens : blames (interleave r listens).
Proof.
  intros s Hs. pose proof (keeps_sound_interleave listens s Hs) as H. exact H.
Qed.

Lemma blames_locked {A} listens (m : Action machine A) : blames m -> blames (heartbeat_locked r listens m).
Proof.
  intros Hm. unfold heartbeat_locked. apply blames_bind; [apply blames_interleave|]. intros [].
  eapply (runs_bind _ _ _ (fun o s => sound s /\ mc_error s = o)); [done|]. intros [e|].
  - intros s [Hs He]. split; [exact Hs|]. intros ->. apply Hs. by left.
  - eapply runs_weaken; [exact Hm|by intros s [Hs _]|done|done].
Qed.

Lemma blames_stop listens : blames (stop_keeper r listens).
Proof.
  apply blames_bind; [apply blames_interleave|]. intros []. intros s Hs. cbn.
  destruct (mc_keeper s) eqn:Hk; try exact Hs; [|by do 2 apply sound_keeper|by apply sound_keeper].
  destruct Hs as [Hs1 Hs2]. split; [exact Hs1|]. cbn. intros [He|He]; [|done]. apply Hs2. by left.
Qed.

(** *** Scripts *)

Lemma sound_script {X Y R} (callback : X -> Action machine Y) (t : script X Y R) :
  (forall x, blames (callback x)) -> keeps sound (run_script callback t).
Proof.
  intros Hc. induction t as [x k IH|v|e]; [|by intros s Hs..]. intros s Hs. cbn [run_script].
  specialize (Hc x s Hs). destruct (callback x s) as [[y|e] s']; [by apply IH|]. destruct Hc as [Hc _].
  destruct e; first [exact Hc|by apply IH].
Qed.

Lemma blames_scripted {X Y R} (callback : X -> Action machine Y) (t : list event -> script X Y R) tag :
  (forall x, blames (callback x)) -> loses r (tag (Raise LeaseLostError)) -> blames (scripted callback t tag).
Proof.
  intros Hc Ht s Hs. unfold scripted. cbv zeta. pose proof (sound_script callback (t (mc_log s)) Hc s Hs) as Hr.
  destruct (run_script callback _ s) as [a s1]. cbn [fst snd].
  assert (sound s1) as H1 by (by destruct a). set (s' := s1 <| mc_log := _ |>).
  assert (mc_log s' = mc_log s1 ++ [tag a]) as Hl by done. assert (sound s') as Hs' by exact (sound_grows _ _ _ H1 Hl eq_refl eq_refl).
  destruct a as [a|e]; [exact Hs'|]. split; [exact Hs'|]. intros ->. exact (lostly_last _ _ _ H1 Ht Hl).
Qed.

(** *** Handlers *)

Lemma blames_on_journal_error {A} (m h : Action machine A) :
  blames m -> blames h -> blames (on_journal_error m h).
Proof.
  intros Hm Hh. eapply runs_catching; [exact Hm|done|]. intros e _.
  assert (runs (blamed e) (fail e) (fun _ : A => sound) blamed) as Hf by (intros s Hs; exact Hs).
  destruct e; try exact Hf. eapply runs_weaken; [exact Hh|by intros s [Hs _]|done|done].
Qed.
End Loss.

Create HintDb blames.
#[export] Hint Resolve blames_heartbeat blames_interleave blames_locked blames_stop blames_on_disk blames_lift : blames.
#[export] Hint Extern 1 (blames _ _ (calling _ _)) => (apply blames_calling; exact eq_refl) : blames.
#[export] Hint Extern 2 (blames _ _ (fail _)) => (apply blames_fail; reflexivity) : blames.
#[export] Hint Extern 2 (blames _ _ (ensure _ _)) => (apply blames_ensure; discriminate) : blames.
#[export] Hint Extern 3 (blames _ _ _) => (apply blames_still; [intros; reflexivity|intros; discriminate]) : blames.

Ltac solve_blames :=
  repeat first
    [ progress intros
    | solve [auto with blames tame local]
    | apply blames_lift; solve [solve_tame]
    | apply blames_locked
    | apply blames_on_journal_error
    | apply blames_bind
    | match goal with
      | |- blames _ _ (if ?b then _ else _) => destruct b
      | |- blames _ _ (match ?v with _ => _ end) => destruct v
      end ].

(** ** The worker's steps *)

Section Steps.
Context {E : Env} {SS : Secretstream} {P : Platform} {W : Site}.
Context (r : LeaseReference) (l0 : list event).
Notation blames := (blames r l0).

Lemma blames_report listens p : blames (report r listens p).
Proof. unfold report. solve_blames. Qed.

Lemma blames_transfer listens base stage index count moved : blames (on_transfer r listens base stage index count moved).
Proof. unfold on_transfer. pose proof blames_report. solve_blames. Qed.

Lemma blames_download index count t : blames (download r index count t).
Proof. apply blames_scripted; [intros; apply blames_transfer|exact I]. Qed.

Lemma blames_upload listens stage index count t c : blames (upload r listens stage index count t c).
Proof. apply blames_scripted; [intros; apply blames_transfer|exact I]. Qed.

Lemma blames_start : blames start_keeper.
Proof. intros s [Hs1 Hs2]. split; [exact Hs1|]. cbn. intros [He|He]; [|done]. apply Hs2. by left. Qed.

Lemma blames_is_cancelled : blames (is_cancelled r).
Proof. unfold is_cancelled. solve_blames. Qed.

Lemma blames_execute q : blames (execute r q).
Proof.
  unfold execute. apply blames_bind.
  - intros s Hs. eapply (sound_grows _ _ _ _ [Executing q]); [exact Hs|reflexivity..].
  - intros _. apply blames_scripted; [|exact I]. intros c. unfold executor_callback.
    pose proof blames_report. pose proof blames_is_cancelled. solve_blames.
Qed.

Lemma blames_read f : blames (read_staged f).
Proof.
  apply blames_still; [done|]. intros s. unfold read_staged. cbn. intros H. by apply tame_staged in H.
Qed.

Lemma blames_discard core id : blames (_discard_pending_attempt core id).
Proof.
  unfold _discard_pending_attempt. destruct (local_discard id). destruct (wc_journal core); solve_blames.
Qed.

Lemma blames_fetch lease index l : el_reference lease = r -> blames (fetch_inputs lease index l).
Proof.
  intros Hr. revert index. induction l as [|item l IH]; intros index; cbn [fetch_inputs]; [solve_blames|].
  pose proof blames_download. unfold fetch_input, _input_artifact_aad. rewrite Hr. solve_blames.
Qed.

Lemma blames_stage_outputs core lease l acc : blames (stage_outputs core lease l acc).
Proof.
  pose proof blames_read. pose proof local_output_path. revert acc.
  induction l as [|a l IH]; intros acc; cbn [stage_outputs]; [solve_blames|].
  unfold stage_output, open_ciphertext, write_ciphertext, _output_artifact_aad. solve_blames.
Qed.

Lemma blames_report_failure f : blames (_report_failure r f).
Proof.
  unfold _report_failure. eapply runs_catching with (Y := blamed r l0); [|done|].
  - change (blames (bind (calling (fun h => gw_fail h r f) (Report r f)) (fun _ => mret (FailedWith f)))). solve_blames.
  - intros e _. assert (runs (blamed r l0 e) (fail e) (fun _ : WorkerOutcome => sound r l0) (blamed r l0)) as Hf
      by (intros s Hs; exact Hs).
    destruct e; first [exact Hf | idtac].
    assert (blames (bind (lease_lost (wf_occurred_after_start f)) (fun f => mret (FailedWith f)))) as Hl;
      [|intros s [Hs _]; exact (Hl s Hs)].
    unfold lease_lost, failure_of. solve_blames.
Qed.

Lemma blames_stop_report f : blames (stop_and_report r f).
Proof. unfold stop_and_report. pose proof blames_report_failure. solve_blames. Qed.

Lemma blames_upload_outputs lease files count index l :
  el_reference lease = r -> blames (upload_outputs lease files count index l).
Proof.
  intros Hr. pose proof blames_read. pose proof blames_upload. revert index.
  induction l as [|a l IH]; intros index; cbn [upload_outputs]; [solve_blames|].
  unfold find_target, find_staged. rewrite Hr. solve_blames.
Qed.

Lemma blames_discard_journaled core : blames (discard_if_journaled core r).
Proof. unfold discard_if_journaled. pose proof blames_discard. solve_blames. Qed.

Lemma blames_deliver core lease staged usage result :
  el_reference lease = r -> blames (deliver core lease staged usage result).
Proof.
  intros Hr. unfold deliver, execution_cancelled, failure_of. cbv zeta. rewrite Hr.
  pose proof blames_stop_report. pose proof blames_discard_journaled.
  assert (forall files count index l, blames (upload_outputs lease files count index l))
    by (intros; by apply blames_upload_outputs).
  solve_blames.
Qed.

Lemma blames_begin : blames (begin_execution r).
Proof. unfold begin_execution. pose proof blames_is_cancelled. solve_blames. Qed.

Lemma blames_accept core lease : blames (accept_lease core lease).
Proof. unfold accept_lease. cbv zeta. solve_blames. Qed.

(** The body of [process] ends with [LeaseLostError] only for a reason. *)
Lemma blames_body core lease : el_reference lease = r -> blames (process_body core lease).
Proof.
  intros Hr. unfold process_body, execution_cancelled, failure_of. cbv zeta. rewrite Hr.
  pose proof blames_start. pose proof blames_accept. pose proof blames_begin. pose proof blames_report. pose proof blames_execute.
  pose proof blames_stage_outputs. pose proof blames_is_cancelled. pose proof blames_stop_report.
  assert (forall index l, blames (fetch_inputs lease index l)) by (intros; by apply blames_fetch).
  assert (forall staged usage result, blames (deliver core lease staged usage result))
    by (intros; by apply blames_deliver).
  solve_blames.
Qed.

(** And so does the body of [resume_pending]. *)
Lemma blames_resume core p : pu_reference p = r -> blames (resume_body core p).
Proof.
  intros Hr. unfold resume_body. cbv zeta. rewrite Hr. pose proof blames_start. pose proof blames_report. pose proof blames_discard.
  assert (forall tickets total index ids, blames (resume_uploads p tickets total index ids)) as Hu.
  { intros tickets total index ids. revert index. induction ids as [|id ids IH]; intros index; cbn [resume_uploads];
      [solve_blames|].
    pose proof blames_read. pose proof blames_upload. pose proof blames_report_failure.
    destruct (local_discard (lr_attempt_id r)).
    unfold corrupt_output, durable_failure, failure_of, resumed_report, find_artifact, find_ticket, pending_file.
    rewrite Hr. solve_blames. }
  solve_blames.
Qed.
End Steps.
