(* ===== verification/Conduct.v ===== *)
(** * How a worker conducts a lease

    The protocol of a lease as an abstract machine over the events a worker exchanges with
    its surroundings, and the proof that every run of [process_lease] follows it, whatever
    the gateway, the transports, the executor, the operating system and the keeper thread
    do. *)

From S2P Require Import Prelude Python Bytes Effects Errors Metadata Schema Store Capability Encoding Signing Envelope.
From S2P Require Import Stream Work Spool Worker.

Open Scope Z_scope.

#[export] Instance lease_reference_eq_dec : EqDecision LeaseReference.
Proof. solve_decision. Defined.

(** ** The protocol *)

Inductive stage := Preparing | Acknowledged | Running | Ended | Accepted | Refused | Closed.

Definition live (st : stage) : bool :=
  match st with Preparing | Acknowledged | Running | Ended => true | _ => false end.

(** The exceptions after which a terminal report is not repeated. *)
Definition final_exc (e : exc) : bool :=
  match e with
  | LeaseLostError | GatewayUnavailableError | GatewayRequestError _ _ | Killed => true
  | _ => false
  end.

Definition settled_by {A} (a : res A) : stage :=
  match a with Ok _ => Closed | Raise e => if final_exc e then Closed else Refused end.

Lemma settled_cases {A} (a : res A) : settled_by a = Closed \/ settled_by a = Refused.
Proof. destruct a as [|e]; cbn; [auto|]. destruct (final_exc e); auto. Qed.

(** One event of the lease [r]; [durable] when outputs wait in a spool. *)
Definition lease_step (r : LeaseReference) (durable : bool) (st : stage) (e : event) : option stage :=
  match e, st with
  | Beat r' _ _, _ => if (r' =d r) && live st then Some st else None
  | Start r' a, Preparing =>
      if r' =d r
      then Some (match a with Ok d => if hd_cancelled d then Preparing else Acknowledged | Raise _ => Preparing end)
      else None
  | Fetch _ _, Preparing => Some Preparing
  | Executing q, Acknowledged => if String.eqb (eq_attempt_id q) (lr_attempt_id r) then Some Running else None
  | Executed _ _, Running => Some Ended
  | Push _ _ _, Ended => Some Ended
  | Complete r' _ a, Ended =>
      if r' =d r then Some (match a with Ok _ => Accepted | Raise _ => settled_by a end) else None
  | Report r' _ a, (Preparing | Acknowledged | Running | Ended) => if r' =d r then Some (settled_by a) else None
  | Report r' _ _, Refused => if r' =d r then Some Closed else None
  | Report r' _ _, Accepted => if (r' =d r) && durable then Some Closed else None
  | _, _ => None
  end.

Definition stage_after (r : LeaseReference) (durable : bool) (l : list event) : option stage :=
  foldl (fun o e => st ← o; lease_step r durable st e) (Some Preparing) l.

Lemma stage_snoc r b l e : stage_after r b (l ++ [e]) = (st ← stage_after r b l; lease_step r b st e).
Proof. unfold stage_after. by rewrite foldl_app. Qed.

(** ** What the machine allows *)

Section Machine.
Context (r : LeaseReference) (b : bool).

(** Progress through the stages. *)
Definition rank (st : stage) : nat :=
  match st with
  | Preparing => 0
  | Acknowledged => 1
  | Running => 2
  | Ended => 3
  | Accepted => 4
  | Refused => 5
  | Closed => 6
  end.

Lemma step_rank st e st' :
  lease_step r b st e = Some st' ->
  (rank st <= rank st')%nat /\
  match e with
  | Executing _ => st = Acknowledged /\ st' = Running
  | Complete _ _ _ => st = Ended
  | Report _ _ _ => (rank st < rank st')%nat
  | Beat _ _ _ => live st = true
  | _ => True
  end.
Proof.
  destruct e, st; cbn [lease_step]; repeat case_match; intros [= <-];
    try match goal with |- context [settled_by ?a] => destruct (settled_cases a) as [-> | ->] end;
    split_bools; split; cbn; try (destruct (final_exc _); cbn); try lia; done.
Qed.

Lemma stage_app l1 l2 st :
  stage_after r b (l1 ++ l2) = Some st ->
  exists st1, stage_after r b l1 = Some st1 /\ (rank st1 <= rank st)%nat.
Proof.
  revert st. induction l2 as [|e l2 IH] using rev_ind; intros st.
  - rewrite app_nil_r. intros ->. by exists st.
  - rewrite app_assoc, stage_snoc. unfold bind, mbind, option_bind.
    destruct (stage_after r b (l1 ++ l2)) as [st2|]; [|done]. intros [Hr _]%step_rank.
    destruct (IH st2 eq_refl) as (st1 & H1 & H2). exists st1. split; [done|lia].
Qed.

Lemma stage_split l1 e l2 st :
  stage_after r b (l1 ++ e :: l2) = Some st ->
  exists st1 st2, stage_after r b l1 = Some st1 /\ lease_step r b st1 e = Some st2 /\ (rank st2 <= rank st)%nat.
Proof.
  rewrite cons_middle, app_assoc. intros H. destruct (stage_app _ _ _ H) as (st2 & H2 & Hle).
  rewrite stage_snoc in H2. unfold bind, mbind, option_bind in H2.
  destruct (stage_after r b l1) as [st1|]; [|done]. by exists st1, st2.
Qed.

(** A start was acknowledged before any stage beyond the preparation. *)
Lemma acknowledged l st :
  stage_after r b l = Some st -> st = Acknowledged \/ st = Running ->
  exists a, In (Start r (Ok a)) l /\ hd_cancelled a = false.
Proof.
  revert st. induction l as [|e l IH] using rev_ind; intros st; [intros [= <-]; naive_solver|].
  rewrite stage_snoc. unfold bind, mbind, option_bind.
  destruct (stage_after r b l) as [st1|] eqn:Hl; [|done]. intros Hs Hst.
  assert (st1 = Acknowledged \/ st1 = Running -> exists a, In (Start r (Ok a)) (l ++ [e]) /\ hd_cancelled a = false)
    as Hold.
  { intros H. destruct (IH st1 eq_refl H) as (a & Ha & Hc). exists a. split; [|done]. apply in_or_app. by left. }
  destruct e, st1; cbn [lease_step] in Hs; repeat case_match; simplify_eq; try (by apply Hold; auto);
    try match goal with H : context [settled_by ?a] |- _ => destruct (settled_cases a) as [Hx|Hx]; rewrite Hx in H end;
    try naive_solver.
  split_bools; subst. eexists. split; [|done]. apply in_or_app. right. by left.
Qed.
End Machine.

(** ** The worker follows it *)

Section Conduct.
Context {E : Env} {SS : Secretstream} {P : Platform} {W : Site}.
Context (core : WorkerCore) (lease : ExecutionLease) (l0 : list event).
Notation r := (el_reference lease).
Notation b := (wc_journal core).

Definition quiet (s : machine) : Prop := mc_keeper s = KIdle \/ mc_keeper s = KStopped.

(** The events since [l0] have led to the stage [st]; the keeper runs only while the lease
    is live. *)
Definition at_stage (st : stage) (s : machine) : Prop :=
  (exists l, mc_log s = l0 ++ l /\ stage_after r b l = Some st) /\ (live st = true \/ quiet s).

(** An exception that leaves the worker where [process_failed] may go on. *)
Definition failing (e : exc) (s : machine) : Prop :=
  exists st, at_stage st s /\ (st = Closed -> final_exc e = true) /\ (st = Accepted -> b = true).

Definition conforms (s : machine) : Prop := exists st, at_stage st s.

Lemma at_stage_event st st' s s' e :
  at_stage st s -> mc_log s' = mc_log s ++ [e] -> lease_step r b st e = Some st' -> live st' = true \/ quiet s' ->
  at_stage st' s'.
Proof.
  intros [(l & Hl & Hst) _] Hs He Hq. split; [|done]. exists (l ++ [e]).
  rewrite Hs, Hl, app_assoc, stage_snoc, Hst. done.
Qed.

Lemma at_stage_same st s s' :
  at_stage st s -> mc_log s' = mc_log s -> (quiet s -> quiet s') -> at_stage st s'.
Proof. intros [(l & Hl & Hst) Hq] Hs Hk. split; [exists l; by rewrite Hs|]. destruct Hq; auto. Qed.

Lemma keeper_stage listens st s : at_stage st s -> at_stage st (keep_lease_alive r listens s).
Proof.
  intros H. unfold keep_lease_alive, heartbeat, calling. destruct (mc_keeper s) as [| |e'| |] eqn:Hk; try done.
  - destruct H as [Hr [Hl|[Hq|Hq]]]; try congruence.
    assert (forall a, lease_step r b st (Beat r (mc_last s) a) = Some st) as Hb.
    { intros a. cbn. by rewrite bool_decide_eq_true_2, Hl. }
    destruct (gw_heartbeat _ _ _) as [d|e']; [|destruct e'];
      (eapply at_stage_event; [split; [exact Hr|by left]|done|apply Hb|by left]).
  - eapply at_stage_same; [exact H|done|]. unfold quiet. rewrite Hk. naive_solver.
  - eapply at_stage_same; [exact H|done|]. unfold quiet. rewrite Hk. naive_solver.
Qed.

Lemma keeper_cancelled listens s : mc_cancelled s = true -> mc_cancelled (keep_lease_alive r listens s) = true.
Proof.
  intros H. unfold keep_lease_alive, heartbeat, calling. destruct (mc_keeper s); try done.
  - destruct (gw_heartbeat _ _ _) as [d|e']; [|by destruct e']. cbn. by rewrite H.
  - cbn. by rewrite H.
Qed.

(** Preserved by the keeper's step, preserved by any number of them. *)
Lemma keeps_interleave (I : machine -> Prop) listens :
  (forall s, I s -> I (keep_lease_alive r listens s)) -> (forall s n, I s -> I (s <| mc_points := n |>)) ->
  keeps I (interleave r listens).
Proof.
  intros Hk Hp s Hs. unfold interleave, writing.
  generalize (keeper_steps (mc_points s)). intros n. induction n as [|n IH]; [by apply Hp|]. by apply Hk.
Qed.

Lemma keeps_points st listens : keeps (at_stage st) (interleave r listens).
Proof.
  apply keeps_interleave; [intros s; apply keeper_stage|]. intros s n Hs. by eapply at_stage_same.
Qed.

Lemma keeps_local st f :
  (forall s, mc_log (f s) = mc_log s) -> (forall s, mc_keeper (f s) = mc_keeper s) -> keeps (at_stage st) (writing f).
Proof. intros Hl Hk s Hs. eapply at_stage_same; [done|apply Hl|]. unfold quiet. by rewrite Hk. Qed.

Lemma keeps_on_disk st {A} (m : Action disk A) : keeps (at_stage st) (on_disk m).
Proof.
  intros s Hs. unfold on_disk. cbv zeta. destruct (m (mc_disk s)) as [[a|e] d]; cbn; by eapply at_stage_same.
Qed.

Lemma keeps_time st : keeps (at_stage st) worker_time.
Proof. intros s Hs. by eapply at_stage_same. Qed.

Lemma keeps_locked st {A} listens (m : Action machine A) :
  keeps (at_stage st) m -> keeps (at_stage st) (heartbeat_locked r listens m).
Proof.
  intros Hm. unfold heartbeat_locked. apply keeps_bind; [apply keeps_points|]. intros [].
  apply keeps_bind; [by apply keeps_pure|]. intros [e|]; [by apply keeps_pure|done].
Qed.

Lemma keeps_report st listens p : live st = true -> keeps (at_stage st) (report r listens p).
Proof.
  intros Hl. apply keeps_locked, keeps_bind.
  - intros s Hs. unfold heartbeat, calling. cbn.
    assert (forall a, at_stage st (s <| mc_log := mc_log s ++ [Beat r p a] |>)).
    { intros a. eapply at_stage_event; [done|done|cbn; by rewrite bool_decide_eq_true_2, Hl|by left]. }
    destruct (gw_heartbeat _ _ _); auto.
  - intros d. by apply keeps_local.
Qed.

Lemma keeps_is_cancelled st : keeps (at_stage st) (is_cancelled r).
Proof. apply keeps_bind; [apply keeps_points|]. intros []. by apply keeps_pure. Qed.

Lemma keeps_script (I : machine -> Prop) {X Y R} (callback : X -> Action machine Y) (t : script X Y R) :
  (forall x, keeps I (callback x)) -> keeps I (run_script callback t).
Proof.
  intros Hc. induction t as [x k IH|v|e]; [|by apply keeps_pure|by apply keeps_pure].
  intros s Hs. cbn. specialize (Hc x s Hs). destruct (callback x s) as [[y|e] s'].
  - by apply IH.
  - destruct e; by try apply IH.
Qed.

(** A script and its note lead from one live stage to another. *)
Lemma scripted_runs st st' {X Y R} (callback : X -> Action machine Y) (t : list event -> script X Y R) tag :
  live st' = true -> (forall x, keeps (at_stage st) (callback x)) ->
  (forall a, lease_step r b st (tag a) = Some st') ->
  runs (at_stage st) (scripted callback t tag) (fun _ => at_stage st') (fun _ => at_stage st').
Proof.
  intros Hl Hc Ht s Hs. unfold scripted. cbv zeta.
  pose proof (keeps_script (at_stage st) callback (t (mc_log s)) Hc s Hs) as Hk.
  destruct (run_script _ _ s) as [[v|e] s1]; cbn; (eapply at_stage_event; [exact Hk|done|apply Ht|by left]).
Qed.

Lemma stop_runs st listens :
  runs (at_stage st) (stop_keeper r listens) (fun _ s => at_stage st s /\ quiet s) (fun _ _ => False).
Proof.
  eapply (runs_bind _ _ _ (fun _ => at_stage st)).
  - intros s Hs. exact (keeps_points st listens s Hs).
  - intros []. apply runs_writing. intros s Hs.
    pose proof (keeper_stage listens st s Hs) as H1. pose proof (keeper_stage listens st _ H1) as H2.
    destruct (mc_keeper s) as [| |e| |] eqn:Hk.
    + split; [done|by left].
    + split; [|by right]. eapply at_stage_same; [exact Hs|done|intros _; by right].
    + split; [done|]. right. unfold keep_lease_alive. rewrite Hk. done.
    + split; [done|]. unfold keep_lease_alive. rewrite Hk. by right.
    + split; [done|by right].
Qed.

Lemma keeps_stop st listens : keeps (at_stage st) (stop_keeper r listens).
Proof. eapply runs_weaken; [apply stop_runs|done|by intros ? ? []|done]. Qed.
End Conduct.

Create HintDb conduct.
#[export] Hint Resolve keeps_points keeps_on_disk keeps_time keeps_is_cancelled keeps_stop keeps_report keeps_locked
  : conduct.
#[export] Hint Extern 3 (keeps _ (writing _)) => (apply keeps_local; intros; reflexivity) : conduct.
#[export] Hint Extern 3 (keeps _ (lift _)) => (apply keeps_pure; intros; reflexivity) : conduct.
#[export] Hint Extern 3 (keeps _ (reading _)) => (apply keeps_pure; intros; reflexivity) : conduct.
#[export] Hint Extern 3 (keeps _ (mret _)) => (apply keeps_pure; intros; reflexivity) : conduct.
#[export] Hint Extern 3 (keeps _ (fail _)) => (apply keeps_pure; intros; reflexivity) : conduct.
#[export] Hint Extern 3 (keeps _ (read_staged _)) => (apply keeps_pure; intros; reflexivity) : conduct.
#[export] Hint Resolve keeps_ensure : conduct.

Section Process.
Context {E : Env} {SS : Secretstream} {P : Platform} {W : Site}.
Context (core : WorkerCore) (lease : ExecutionLease) (l0 : list event).
Notation r := (el_reference lease).
Notation b := (wc_journal core).
Notation stage_is := (at_stage core lease l0).
Notation failing := (failing core lease l0).
Notation conforms := (conforms core lease l0).

Lemma live_failing st e s : live st = true -> stage_is st s -> failing e s.
Proof. intros Hl Hs. exists st. split; [done|]. by destruct st. Qed.

Ltac still_live :=
  intros; match goal with H : _ |- _ => solve [eapply live_failing; [|exact H]; reflexivity] end.

Lemma keeps_transfer st listens base stage index count moved :
  live st = true -> keeps (stage_is st) (on_transfer r listens base stage index count moved).
Proof. intros Hl. unfold on_transfer. solve_keeps ltac:(auto with conduct). Qed.

Lemma keeps_executor_callback c : keeps (stage_is Running) (executor_callback r c).
Proof. unfold executor_callback. destruct c; solve_keeps ltac:(auto with conduct). Qed.

Lemma keeps_download index count t : keeps (stage_is Preparing) (download r index count t).
Proof. apply scripted_runs; [done| |done]. intros x. by apply keeps_transfer. Qed.

Lemma keeps_upload listens stage index count t content :
  keeps (stage_is Ended) (upload r listens stage index count t content).
Proof. apply scripted_runs; [done| |done]. intros x. by apply keeps_transfer. Qed.

Hint Resolve keeps_download keeps_upload : conduct.

Lemma keeps_fetch_inputs index l : keeps (stage_is Preparing) (fetch_inputs lease index l).
Proof.
  revert index. induction l as [|item l IH]; intros index; cbn [fetch_inputs]; [auto with conduct|].
  apply keeps_bind; [unfold fetch_input|]; solve_keeps ltac:(auto with conduct).
Qed.

Lemma keeps_accept st : keeps (stage_is st) (accept_lease core lease).
Proof. unfold accept_lease. solve_keeps ltac:(auto with conduct). Qed.

Lemma keeps_stage_outputs st l acc : keeps (stage_is st) (stage_outputs core lease l acc).
Proof.
  revert acc. induction l as [|a l IH]; intros acc; cbn [stage_outputs]; [auto with conduct|].
  unfold stage_output, open_ciphertext, write_ciphertext. solve_keeps ltac:(auto with conduct).
Qed.

Lemma keeps_upload_outputs files count index l : keeps (stage_is Ended) (upload_outputs lease files count index l).
Proof.
  revert index. induction l as [|a l IH]; intros index; cbn [upload_outputs]; [auto with conduct|].
  solve_keeps ltac:(auto with conduct).
Qed.

Lemma keeps_discard st : keeps (stage_is st) (discard_if_journaled core r).
Proof.
  unfold discard_if_journaled, _discard_pending_attempt, on_journal_error. solve_keeps ltac:(auto with conduct).
Qed.

(** The start boundary. *)
Lemma begin_runs : runs (stage_is Preparing) (begin_execution r) (fun _ => stage_is Acknowledged) failing.
Proof.
  apply runs_step; [auto with conduct|still_live|]. intros c.
  apply runs_step; [auto with conduct|still_live|]. intros [].
  set (J s := stage_is Acknowledged s \/ stage_is Preparing s /\ mc_cancelled s = true).
  assert (keeps J (interleave r true)) as Hk.
  { apply keeps_interleave.
    - intros s [Hs|[Hs Hc]]; [left|right; split]; auto using keeper_stage, keeper_cancelled.
    - intros s n [Hs|[Hs Hc]]; [left|right; split; [|done]]; by eapply at_stage_same. }
  eapply (runs_bind _ _ _ (fun _ => J)).
  - unfold heartbeat_locked. apply runs_step; [auto with conduct|still_live|]. intros [].
    apply runs_step; [auto with conduct|still_live|]. intros [e|]; [apply runs_fail; still_live|].
    eapply (runs_bind _ _ _ (fun d s => if hd_cancelled d then stage_is Preparing s else stage_is Acknowledged s)).
    + intros s Hs. unfold calling. cbv zeta.
      assert (forall a st, lease_step r b Preparing (Start r a) = Some st -> live st = true ->
                stage_is st (s <| mc_log := mc_log s ++ [Start r a] |>)) as He.
      { intros a st Hst Hl. eapply at_stage_event; [exact Hs|done|exact Hst|by left]. }
      cbn [lease_step] in He. rewrite bool_decide_eq_true_2 in He by done.
      destruct (gw_mark_started (mc_log s) r) as [d|e]; [|by apply (live_failing Preparing), (He (Raise e))].
      destruct (hd_cancelled d) eqn:Hc; (apply (He (Ok d)); [by rewrite Hc|done]).
    + intros d. apply runs_writing. intros s Hs. destruct (hd_cancelled d).
      * right. split; [by eapply at_stage_same|]. cbn. by rewrite orb_true_r.
      * left. by eapply at_stage_same.
  - intros []. eapply (runs_bind _ _ _ (fun (c : bool) s => J s /\ (c = false -> stage_is Acknowledged s))).
    + eapply runs_bind with (J := fun _ => J); [intros s Hs; exact (Hk s Hs)|].
      intros []. intros s Hs. split; [exact Hs|]. destruct Hs as [Hs|[Hs Hc]]; cbn; [done|]. by rewrite Hc.
    + intros c'. destruct c'; cbn [negb ensure].
      * intros s [[Hs|[Hs _]] _]; (eapply live_failing; [|exact Hs]; done).
      * eapply (runs_bind _ _ _ (fun _ => stage_is Acknowledged)); [intros s [_ Hs]; by apply Hs|]. intros [].
        repeat (apply runs_step; [auto with conduct|still_live|]; intros). apply runs_ret. done.
Qed.

Lemma execute_runs request :
  eq_attempt_id request = lr_attempt_id r ->
  runs (stage_is Acknowledged) (execute r request) (fun _ => stage_is Ended) failing.
Proof.
  intros Hq. eapply (runs_bind _ _ _ (fun _ => stage_is Running)).
  - apply runs_writing. intros s Hs. eapply at_stage_event; [exact Hs|done| |by left].
    cbn [lease_step]. by rewrite Hq, String.eqb_refl.
  - intros []. eapply runs_weaken; [apply (scripted_runs core lease l0 Running Ended)|done|done|still_live].
    + done.
    + intros x. apply keeps_executor_callback.
    + done.
Qed.

Lemma lease_lost_is after : exists f, lease_lost after = lift (Ok f).
Proof. eexists. reflexivity. Qed.

(** A terminal report from any stage that still allows one. *)
Lemma report_runs st failure :
  (st = Closed -> False) -> (st = Accepted -> b = true) ->
  runs (stage_is st) (stop_and_report r failure) (fun _ => conforms)
    (fun e s => conforms s /\ (live st = true -> failing e s)).
Proof.
  intros HC HA. unfold stop_and_report. eapply (runs_bind _ _ _ (fun _ s => stage_is st s /\ quiet s)).
  { by eapply runs_weaken; [apply (stop_runs core lease l0 st true)|..]. }
  intros []. unfold _report_failure.
  set (after a s := stage_is (if live st then settled_by (a : res unit) else Closed) s).
  eapply runs_catching with (Y := fun e => after (Raise e)).
  - eapply (runs_bind _ _ _ (fun u => after (Ok u))).
    + intros s [Hs Hq]. unfold calling. cbv zeta.
      assert (forall a, after a (s <| mc_log := mc_log s ++ [Report r failure a] |>)) as Ha.
      { intros a. eapply at_stage_event; [exact Hs|done| |by right].
        destruct st; try done; cbn [lease_step live]; rewrite bool_decide_eq_true_2 by done; try done.
        by rewrite HA. }
      destruct (gw_fail _ _ _); apply Ha.
    + intros u. apply runs_ret. intros s Hs. eexists. exact Hs.
  - intros s Hs. split; [eexists; exact Hs|]. intros Hl. eexists. split; [exact Hs|]. by rewrite Hl.
  - intros e Hk. destruct e; try (apply runs_fail; intros s Hs; (split; [eexists; exact Hs|]); intros Hl;
      eexists; (split; [exact Hs|]); rewrite Hl; done).
    destruct (lease_lost_is (wf_occurred_after_start failure)) as [f ->]. apply runs_ret. intros s Hs. eexists. exact Hs.
Qed.

Lemma failure_is code message retry responsibility after details usage :
  exists f, failure_of code message retry responsibility after details usage = lift (Ok f).
Proof. unfold failure_of, worker_failure, value_unless. destruct code; eexists; reflexivity. Qed.

Lemma report_live st failure :
  live st = true -> runs (stage_is st) (stop_and_report r failure) (fun _ => conforms) failing.
Proof.
  intros Hl. eapply runs_weaken; [apply (report_runs st); by destruct st|done|done|]. intros e s [_ H]. by apply H.
Qed.

Lemma deliver_runs staged usage result :
  runs (stage_is Ended) (deliver core lease staged usage result) (fun _ => conforms) failing.
Proof.
  unfold deliver. apply runs_step; [solve_keeps ltac:(auto with conduct)|still_live|]. intros [].
  apply runs_step; [apply keeps_upload_outputs|still_live|]. intros [].
  apply runs_step; [auto with conduct|still_live|]. intros c. destruct c.
  - apply runs_step; [apply keeps_discard|still_live|]. intros [].
    apply runs_step; [auto with conduct|still_live|]. intros [].
    unfold execution_cancelled. destruct (failure_is ErrorCode.EXECUTION_CANCELLED
      "Execution was cancelled after it started." RetryAction.NONE "consumer" true [] usage) as [f ->].
    apply runs_lift; [still_live|]. intros f' _. by apply report_live.
  - eapply (runs_bind _ _ _ (fun _ s => stage_is Ended s /\ quiet s)).
    { by eapply runs_weaken; [apply (stop_runs core lease l0 Ended true)|..]. }
    intros [].
    set (after (a : res unit) s := stage_is (match a with Ok _ => Accepted | Raise _ => settled_by a end) s).
    eapply (runs_bind _ _ _ (fun u => after (Ok u))).
    + intros s [Hs Hq]. unfold calling. cbv zeta.
      assert (forall a, after a (s <| mc_log := mc_log s ++ [Complete r result a] |>)) as Ha.
      { intros a. eapply at_stage_event; [exact Hs|done| |by right]. cbn [lease_step].
        by rewrite bool_decide_eq_true_2. }
      destruct (gw_complete _ _ _) as [u|e]; [apply Ha|]. eexists. split; [apply (Ha (Raise e))|].
      cbn. by destruct (final_exc e).
    + intros u. cbn. unfold discard_if_journaled, _discard_pending_attempt.
      destruct b eqn:Hb.
      * apply runs_step; [|intros e s Hs; exists Accepted; by rewrite Hb|intros []; apply runs_ret; intros s Hs; by eexists].
        pose proof (keeps_discard Accepted) as H. unfold discard_if_journaled, _discard_pending_attempt in H.
        by rewrite Hb in H.
      * intros s Hs. unfold bind, mbind, action_bind, reading. by destruct (mc_journaled s); cbn; eexists.
Qed.

Lemma body_runs : runs (stage_is Preparing) (process_body core lease) (fun _ => conforms) failing.
Proof.
  unfold process_body. cbv zeta. apply runs_step; [apply keeps_accept|still_live|]. intros d.
  apply runs_step; [auto with conduct|still_live|]. intros [].
  apply runs_step; [solve_keeps ltac:(auto with conduct)|still_live|]. intros [].
  eapply (runs_bind _ _ _ (fun _ => stage_is Preparing)).
  { apply runs_writing. intros s [Hs _]. split; [exact Hs|by left]. }
  intros []. do 2 (apply runs_step; [auto with conduct|still_live|]; intros []).
  apply runs_step; [apply keeps_fetch_inputs|still_live|]. intros inputs.
  eapply runs_bind; [apply begin_runs|]. intros t. cbv beta. apply runs_lift; [still_live|]. intros q Hq.
  eapply (runs_bind _ _ _ (fun _ => stage_is Ended)); [apply execute_runs|].
  { unfold execution_request, value_unless in Hq. destruct (_ || _); [done|]. by injection Hq as <-. }
  intros result. apply runs_step; [apply keeps_locked; auto with conduct|still_live|]. intros [].
  do 2 (apply runs_step; [auto with conduct|still_live|]; intros ?).
  apply runs_step; [apply keeps_stage_outputs|still_live|]. intros staged.
  apply runs_step; [auto with conduct|still_live|]. intros n. apply runs_lift; [still_live|]. intros u _.
  apply runs_step; [auto with conduct|still_live|]. intros c. destruct c.
  - unfold execution_cancelled. destruct (failure_is ErrorCode.EXECUTION_CANCELLED
      "Execution was cancelled after it started." RetryAction.NONE "consumer" true [] u) as [f ->].
    apply runs_lift; [still_live|]. intros f' _. by apply report_live.
  - apply runs_lift; [still_live|]. intros v _. apply deliver_runs.
Qed.

Ltac conforming :=
  intros; match goal with H : _ |- _ => solve [eexists; exact H] end.

Lemma report_after st failure :
  st <> Closed -> (st = Accepted -> b = true) ->
  runs (stage_is st) (stop_and_report r failure) (fun _ => conforms) (fun _ => conforms).
Proof.
  intros HC HA. eapply runs_weaken; [by apply (report_runs st)|done|done|]. intros e s [H _]. exact H.
Qed.

Hint Resolve keeps_discard : conduct.
Hint Extern 3 (keeps _ (failure_of _ _ _ _ _ _ _)) => (apply keeps_pure; intros; reflexivity) : conduct.

(** Each handler ends where the protocol allows. *)
Lemma failed_runs st e :
  e <> Killed -> (st = Closed -> final_exc e = true) -> (st = Accepted -> b = true) ->
  runs (stage_is st) (process_failed core lease e) (fun _ => conforms) (fun _ => conforms).
Proof.
  intros HK HC HA. unfold process_failed. cbv zeta.
  do 3 (apply runs_step; [auto with conduct|conforming|]; intros ?).
  destruct (final_exc e) eqn:Hf.
  - destruct e; try discriminate Hf; try done.
    + apply runs_step; [auto with conduct|conforming|]. intros []. destruct (lease_lost_is a) as [f ->].
      apply runs_ret. conforming.
    + apply runs_fail. conforming.
    + apply runs_step; [auto with conduct|conforming|]. intros []. apply runs_fail. conforming.
  - assert (st <> Closed) as Hn by (intros ->; by specialize (HC eq_refl)).
    assert (forall f, runs (stage_is st) (stop_and_report r f) (fun _ => conforms) (fun _ => conforms)) as Hr
      by (intros f; by apply report_after).
    destruct e; try discriminate Hf;
      repeat first
        [ apply Hr
        | apply runs_fail; conforming
        | apply runs_step; [solve [solve_keeps ltac:(auto with conduct)]|conforming|intros ?]
        | match goal with |- runs _ (if ?x then _ else _) _ _ => destruct x end ].
Qed.

Lemma process_runs :
  runs (fun s => mc_log s = l0) (process_lease core lease) (fun _ => conforms) (fun _ => conforms).
Proof.
  eapply (runs_bind _ _ _ (fun _ => stage_is Preparing)).
  { apply runs_writing. intros s <-. split; [exists []; by rewrite app_nil_r|by left]. }
  intros []. eapply runs_finally with (Q' := fun _ => conforms) (X' := fun _ => conforms); [|done|..].
  - eapply runs_catching; [apply body_runs| |].
    + intros s (st & Hs & _). by exists st.
    + intros e He s (st & Hs & HC & HA). by apply (failed_runs st).
  - intros o s (st & Hs). pose proof (keeps_stop core lease l0 st true s Hs) as H.
    destruct (stop_keeper r true s) as [[] ?]; by exists st.
  - intros e s (st & Hs). pose proof (keeps_stop core lease l0 st true s Hs) as H.
    destruct (stop_keeper r true s) as [[] ?]; by exists st.
Qed.
End Process.

(** ** What a run of a lease can and cannot do *)

(** A terminal report the gateway answered for good. *)
Definition terminal (e : event) : bool :=
  match e with
  | Complete _ _ (Ok _) => true
  | Complete _ _ (Raise e) | Report _ _ (Raise e) => final_exc e
  | Report _ _ (Ok _) => true
  | _ => false
  end.

(** An execution of the lease. *)
Definition executing (e : event) : bool := match e with Executing _ => true | _ => false end.

(** A request that keeps the lease alive, starts it or ends it. *)
Definition about (e : event) : option LeaseReference :=
  match e with
  | Beat r _ _ | Start r _ | Renew r _ _ | Complete r _ _ | Report r _ _ => Some r
  | _ => None
  end.

Section Consequences.
Context (r : LeaseReference) (b : bool).

Definition stages (o : option stage) (l : list event) : option stage :=
  foldl (fun o e => st ← o; lease_step r b st e) o l.

Lemma stages_cons st e l : stages (Some st) (e :: l) = stages (lease_step r b st e) l.
Proof. done. Qed.

Lemma stage_from l1 l2 st :
  stage_after r b (l1 ++ l2) = Some st ->
  exists st1, stage_after r b l1 = Some st1 /\ stages (Some st1) l2 = Some st.
Proof.
  intros H. destruct (stage_app _ _ _ _ _ H) as (st1 & H1 & _). exists st1. split; [done|].
  unfold stage_after in *. by rewrite foldl_app, H1 in H.
Qed.

Lemma stuck l : stages None l = None.
Proof. by induction l. Qed.

Lemma own_requests l st e r' : stage_after r b l = Some st -> In e l -> about e = Some r' -> r' = r.
Proof.
  intros Hl Hin Ha. apply in_split in Hin as (l1 & l2 & ->).
  destruct (stage_split _ _ _ _ _ _ Hl) as (st1 & st2 & _ & Hs & _).
  destruct e, st1; cbn in Hs, Ha; repeat case_match; simplify_eq; by split_bools.
Qed.

Lemma executed_once l st l1 q l2 :
  stage_after r b l = Some st -> l = l1 ++ Executing q :: l2 ->
  (exists d, In (Start r (Ok d)) l1 /\ hd_cancelled d = false) /\ eq_attempt_id q = lr_attempt_id r /\
  forall e, In e (l1 ++ l2) -> executing e = false.
Proof.
  intros Hl ->. destruct (stage_split _ _ _ _ _ _ Hl) as (st1 & st2 & H1 & Hs & _).
  destruct (step_rank _ _ _ _ _ Hs) as [_ [-> ->]]. split; [|split].
  - eapply acknowledged; [exact H1|by left].
  - cbn in Hs. destruct (String.eqb_spec (eq_attempt_id q) (lr_attempt_id r)); done.
  - intros e Hin. destruct e; try done. exfalso. apply in_app_or in Hin as [Hin|Hin].
    + apply in_split in Hin as (l3 & l4 & ->). destruct (stage_split _ _ _ _ _ _ H1) as (st3 & st4 & _ & Hs' & Hle).
      destruct (step_rank _ _ _ _ _ Hs') as [_ [-> ->]]. cbn in Hle. lia.
    + apply in_split in Hin as (l3 & l4 & ->).
      replace (l1 ++ Executing q :: l3 ++ Executing request :: l4)
        with (((l1 ++ [Executing q]) ++ l3) ++ Executing request :: l4) in Hl by (by rewrite <- !app_assoc).
      destruct (stage_split _ _ _ _ _ _ Hl) as (st3 & st4 & H3 & Hs' & _).
      destruct (step_rank _ _ _ _ _ Hs') as [_ [-> ->]].
      destruct (stage_app _ _ _ _ _ H3) as (st5 & H5 & Hle). rewrite stage_snoc, H1 in H5. cbn in H5.
      rewrite (proj2 (String.eqb_eq _ _)) in H5; [injection H5 as <-; cbn in Hle; lia|].
      cbn in Hs. destruct (String.eqb_spec (eq_attempt_id q) (lr_attempt_id r)); done.
Qed.

Lemma closed_ends l st : stages (Some Closed) l = Some st -> l = [].
Proof.
  destruct l as [|e l]; [done|]. rewrite stages_cons.
  replace (lease_step r b Closed e) with (@None stage) by (destruct e; cbn; rewrite ?andb_false_r; done).
  by rewrite stuck.
Qed.

Lemma terminal_last l st l1 t l2 :
  stage_after r b l = Some st -> l = l1 ++ t :: l2 -> terminal t = true ->
  l2 = [] \/ b = true /\ exists result f a, t = Complete r result (Ok tt) /\ l2 = [Report r f a].
Proof.
  intros Hl -> Ht. rewrite cons_middle, app_assoc in Hl. destruct (stage_from _ _ _ Hl) as (st2 & H2 & Hf).
  rewrite stage_snoc in H2. destruct (stage_after r b l1) as [st1|]; [|done]. cbn in H2.
  assert (st2 = Closed \/ st2 = Accepted /\ exists result, t = Complete r result (Ok tt)) as [->|[-> [result ->]]].
  { destruct t as [| | |r' result a|r' f a| | | |]; try done; destruct st1; cbn in H2; try done;
      destruct (bool_decide_reflect (r' = r)) as [->|]; cbn in H2; try done;
      destruct a as [[]|e]; cbn in H2, Ht; rewrite ?Ht in H2; try (destruct b; cbn in H2); simplify_eq; eauto. }
  - left. by eapply closed_ends.
  - destruct l2 as [|e l2]; [by left|right]. rewrite stages_cons in Hf.
    destruct e as [| | | |r' f a| | | |]; cbn [lease_step live] in Hf; rewrite ?andb_false_r in Hf;
      try (rewrite stuck in Hf; done).
    destruct (bool_decide_reflect (r' = r)) as [->|]; [|by rewrite stuck in Hf].
    destruct b; cbn in Hf; [|by rewrite stuck in Hf]. split; [done|]. exists result, f, a. split; [done|].
    f_equal. by eapply closed_ends.
Qed.
End Consequences.

