(* ===== verification/Receipts.v ===== *)
(** * What a worker's outcome says

    An outcome of [process_lease] tells what was reported: a success was accepted by the
    gateway after every output had been received whole, and a failure was accepted unless
    the worker was told that the lease is lost. *)

From S2P Require Import Prelude Python Bytes Effects Errors Metadata Schema Store Capability Encoding Signing Envelope.
From S2P Require Import Stream Work Spool Worker Local Loss.

Open Scope Z_scope.

(** ** The log only grows *)

Section Log.
Context {E : Env} {P : Platform} {W : Site} (ok : event -> Prop).

(** What is new in the log is [ok]. *)
Definition adds (s s' : machine) : Prop := exists l, mc_log s' = mc_log s ++ l /\ Forall ok l.

#[export] Instance adds_preorder : PreOrder adds.
Proof.
  split; [intros s; exists []; by rewrite app_nil_r|].
  intros s1 s2 s3 (l1 & H1 & Hl1) (l2 & H2 & Hl2). exists (l1 ++ l2). rewrite H2, H1, app_assoc. split; [done|].
  by apply Forall_app.
Qed.

Lemma adds_nothing s s' : mc_log s' = mc_log s -> adds s s'.
Proof. intros H. exists []. by rewrite H, app_nil_r. Qed.

Lemma adds_one e s s' : ok e -> mc_log s' = mc_log s ++ [e] -> adds s s'.
Proof. intros He H. exists [e]. auto. Qed.

Lemma grows_same {A} (m : Action machine A) : (forall s, mc_log (snd (m s)) = mc_log s) -> follows adds m.
Proof. intros H s. by apply adds_nothing. Qed.

Lemma grows_calling {A} ask (tag : res A -> event) : (forall a, ok (tag a)) -> follows adds (calling ask tag).
Proof. intros H s. by eapply adds_one. Qed.

Lemma grows_on_disk {A} (m : Action disk A) : follows adds (on_disk m).
Proof. by apply grows_same. Qed.

Lemma grows_script {X Y R} (callback : X -> Action machine Y) (t : script X Y R) :
  (forall x, follows adds (callback x)) -> follows adds (run_script callback t).
Proof.
  intros Hc. induction t as [x k IH|v|e]; [|by apply grows_same|by apply grows_same].
  intros s. cbn. specialize (Hc x s). destruct (callback x s) as [[y|e] s'].
  - etransitivity; [exact Hc|apply IH].
  - destruct e; solve [exact Hc|etransitivity; [exact Hc|apply IH]].
Qed.

Lemma grows_scripted {X Y R} (callback : X -> Action machine Y) (t : list event -> script X Y R) tag :
  (forall x, follows adds (callback x)) -> (forall a, ok (tag a)) -> follows adds (scripted callback t tag).
Proof.
  intros Hc Ht s. etransitivity; [apply (grows_script callback (t (mc_log s)) Hc)|]. by eapply adds_one.
Qed.

Context (r : LeaseReference) (Hbeat : forall p a, ok (Beat r p a)).

Lemma grows_heartbeat p : follows adds (heartbeat r p).
Proof. by apply grows_calling. Qed.

Lemma keeper_adds listens s : adds s (keep_lease_alive r listens s).
Proof.
  unfold keep_lease_alive. destruct (mc_keeper s); try (by apply adds_nothing).
  pose proof (grows_heartbeat (mc_last s) s) as H. unfold heartbeat, calling in *. cbv zeta in *.
  destruct (gw_heartbeat _ _ _) as [d|e]; [exact H|]. by destruct e.
Qed.

Lemma grows_interleave listens : follows adds (interleave r listens).
Proof.
  intros s. unfold interleave, writing. cbn [snd]. set (s0 := s <| mc_points := _ |>).
  transitivity s0; [by apply adds_nothing|]. generalize (keeper_steps (mc_points s)). intros n.
  induction n as [|n IH]; [reflexivity|]. etransitivity; [exact IH|]. apply keeper_adds.
Qed.

Lemma grows_stop listens : follows adds (stop_keeper r listens).
Proof.
  apply follows_bind; [apply _|apply grows_interleave|]. intros []. apply grows_same. intros s. cbn.
  destruct (mc_keeper s) eqn:Hk; try done; unfold keep_lease_alive; rewrite Hk; done.
Qed.

Lemma grows_ensure c e : follows adds (ensure c e).
Proof. apply grows_same. intros s. by destruct c. Qed.

Lemma grows_locked {A} listens (m : Action machine A) : follows adds m -> follows adds (heartbeat_locked r listens m).
Proof.
  intros Hm. unfold heartbeat_locked.
  solve_follows ltac:(first [exact Hm | apply grows_interleave | apply grows_same; intros; reflexivity]).
Qed.

Lemma grows_report listens p : follows adds (report r listens p).
Proof.
  apply grows_locked. solve_follows ltac:(first [apply grows_heartbeat | apply grows_same; intros; reflexivity]).
Qed.

Lemma grows_transfer listens base stage index count moved :
  follows adds (on_transfer r listens base stage index count moved).
Proof.
  unfold on_transfer. solve_follows ltac:(first [apply grows_report | apply grows_same; intros; reflexivity]).
Qed.

Lemma grows_upload listens stage index count t c :
  (forall a, ok (Push t c a)) -> follows adds (upload r listens stage index count t c).
Proof. intros Ht. apply grows_scripted; [|exact Ht]. intros. apply grows_transfer. Qed.
End Log.

Definition anything (e : event) : Prop := True.
Notation extends := (adds anything).

Lemma extends_by s s' l : mc_log s' = mc_log s ++ l -> extends s s'.
Proof. intros H. exists l. split; [exact H|]. by apply Forall_true. Qed.

Lemma follows_run {R : machine -> machine -> Prop} {A} (m : Action machine A) s a s' : follows R m -> m s = (a, s') -> R s s'.
Proof. intros Hm H. specialize (Hm s). by rewrite H in Hm. Qed.

Create HintDb grows.
#[export] Hint Resolve grows_calling grows_interleave grows_stop grows_heartbeat grows_ensure grows_locked grows_report
  grows_upload grows_on_disk grows_script grows_scripted grows_transfer : grows.
#[export] Hint Extern 1 (anything _) => (exact I) : grows.
#[export] Hint Extern 3 (follows (adds _) _) => (apply grows_same; intros; reflexivity) : grows.

Section Receipts.
Context {E : Env} {SS : Secretstream} {P : Platform} {W : Site}.

Lemma grows_fetch_inputs lease index l : follows extends (fetch_inputs lease index l).
Proof.
  revert index. induction l as [|item l IH]; intros index; cbn [fetch_inputs]; [auto with grows|].
  unfold fetch_input, download. solve_follows ltac:(auto with grows).
Qed.

Lemma grows_execute r q : follows extends (execute r q).
Proof.
  unfold execute. apply follows_bind; [apply _|intros s; by eapply (adds_one _ (Executing q))|]. intros []. apply grows_scripted; [|done].
  intros c. unfold executor_callback, is_cancelled. solve_follows ltac:(auto with grows).
Qed.

Lemma grows_stage_outputs core lease l acc : follows extends (stage_outputs core lease l acc).
Proof.
  revert acc. induction l as [|a l IH]; intros acc; cbn [stage_outputs]; [auto with grows|].
  unfold stage_output, open_ciphertext, write_ciphertext. solve_follows ltac:(auto with grows).
Qed.

Lemma grows_discard core r : follows extends (discard_if_journaled core r).
Proof.
  unfold discard_if_journaled, _discard_pending_attempt, on_journal_error. solve_follows ltac:(auto with grows).
Qed.
Hint Resolve grows_fetch_inputs grows_execute grows_stage_outputs grows_discard : grows.

(** ** What an outcome tells *)

Definition received (l : list event) (a : WorkerResultArtifact) : Prop :=
  exists t content receipt, In (Push t content (Ok receipt)) l /\ receipt_matches receipt a = true.

Definition told (r : LeaseReference) (l0 : list event) (o : WorkerOutcome) (s : machine) : Prop :=
  exists l, mc_log s = l0 ++ l /\
    match o with
    | Succeeded result => exists l1 l2, l = l1 ++ Complete r result (Ok tt) :: l2 /\
        forall a, In a (wr_artifacts result) -> received l1 a
    | FailedWith f => In (Report r f (Ok tt)) l \/
        (wf_code f = ErrorCode.to_int ErrorCode.LEASE_LOST /\ lost r l)
    end.

Definition tells (r : LeaseReference) (m : Action machine WorkerOutcome) : Prop :=
  forall s o s', m s = (Ok o, s') -> told r (mc_log s) o s'.

Lemma received_app l1 l2 l3 a : received l2 a -> received (l1 ++ l2 ++ l3) a.
Proof. intros (t & c & rc & Hin & Hm). exists t, c, rc. split; [|done]. rewrite !in_app_iff. auto. Qed.

Lemma told_from r l0 l1 s s1 s' o : mc_log s = l0 ++ l1 -> told r (mc_log s) o s1 -> extends s1 s' -> told r l0 o s'.
Proof.
  intros H1 (l2 & H2 & Ho) (l3 & H3 & _). exists (l1 ++ l2 ++ l3). split; [by rewrite H3, H2, H1, <- !app_assoc|].
  destruct o as [result|f].
  - destruct Ho as (k1 & k2 & -> & Ha). exists (l1 ++ k1), (k2 ++ l3). split; [by rewrite <- !app_assoc|].
    intros a Hin. rewrite <- (app_nil_r k1). by apply received_app, Ha.
  - destruct Ho as [Hr|[Hf Hl]]; [left; rewrite !in_app_iff; auto|right]. split; [exact Hf|]. by apply lost_app.
Qed.

Lemma told_between r s0 s s1 s' o : extends s0 s -> told r (mc_log s) o s1 -> extends s1 s' -> told r (mc_log s0) o s'.
Proof. intros (l1 & H1 & _). by eapply told_from. Qed.

Lemma tells_bind r {A} (m : Action machine A) f :
  follows extends m -> (forall a, tells r (f a)) -> tells r (bind m f).
Proof.
  intros Hm Hf s o s' H. apply action_bind_ok in H as (a & s1 & H1 & H). specialize (Hm s). rewrite H1 in Hm.
  eapply told_between; [exact Hm|by eapply Hf|reflexivity].
Qed.

Lemma tells_fail r e : tells r (fail e).
Proof. intros s o s' H. done. Qed.

(** An action that can only return a failure, and tells of it. *)
Definition fails (r : LeaseReference) (m : Action machine WorkerOutcome) : Prop :=
  forall s o s', m s = (Ok o, s') -> (exists f, o = FailedWith f) /\ told r (mc_log s) o s'.

Lemma fails_tells r m : fails r m -> tells r m.
Proof. intros H s o s' Hm. by apply H. Qed.

Lemma fails_fail r e : fails r (fail e).
Proof. intros s o s' H. done. Qed.

Lemma fails_bind r {A} (m : Action machine A) f : follows extends m -> (forall a, fails r (f a)) -> fails r (bind m f).
Proof.
  intros Hm Hf s o s' H. split; [|by eapply (tells_bind r m f Hm); [intros a; apply fails_tells, Hf|]].
  apply action_bind_ok in H as (a & s1 & H1 & H). by eapply Hf.
Qed.

(** Giving up without a report, once the lease is lost. *)
Lemma lost_told r l0 after s o s' :
  lostly r l0 s -> (f ← lease_lost after; mret (FailedWith f)) s = (Ok o, s') ->
  (exists f, o = FailedWith f) /\ told r l0 o s'.
Proof. intros (l & Hl & Hr) [= <- <-]. split; [by eexists|]. exists l. auto. Qed.

Lemma fails_report_failure r f : fails r (_report_failure r f).
Proof.
  intros s o s' H. unfold _report_failure in H. set (sent := bind (calling _ _) _) in H.
  assert (follows extends sent) as Hs by (unfold sent; solve_follows ltac:(auto with grows)).
  apply catching_ok in H as [H|(e & s1 & H1 & H)].
  - apply action_bind_ok in H as ([] & s1 & H1 & [= <- <-]). unfold calling in H1. injection H1 as Ha <-.
    split; [by eexists|]. eexists. split; [done|]. left. rewrite Ha. by left.
  - destruct e; try done. apply (lost_told r (mc_log s)) in H; [exact H|]. clear Hs. unfold sent, calling in H1.
    unfold bind, mbind, action_bind in H1. cbv zeta in H1. destruct (gw_fail _ _ _) as [[]|e]; [done|].
    injection H1 as -> <-. eexists. split; [done|]. eexists. split; [by left|]. done.
Qed.

Lemma fails_report r f : fails r (stop_and_report r f).
Proof. apply fails_bind; [auto with grows|]. intros []. apply fails_report_failure. Qed.

(** ** Uploads *)

Lemma upload_noted r listens stage index count t c s receipt s' :
  upload r listens stage index count t c s = (Ok receipt, s') ->
  exists l, mc_log s' = mc_log s ++ l ++ [Push t c (Ok receipt)].
Proof.
  unfold upload, scripted. cbv zeta. set (run := run_script _ _ s). intros [= Hr <-].
  assert (extends s (snd run)) as (l & Hl & _) by (apply grows_script; auto with grows).
  exists l. cbn. by rewrite Hl, Hr, <- app_assoc.
Qed.

Lemma outputs_received lease files count index l s s' :
  upload_outputs lease files count index l s = (Ok tt, s') ->
  exists ext, mc_log s' = mc_log s ++ ext /\ forall a, In a l -> received ext a.
Proof.
  revert index s. induction l as [|a l IH]; intros index s H; cbn [upload_outputs] in H.
  - injection H as <-. exists []. by rewrite app_nil_r.
  - apply action_bind_ok in H as (t & s1 & H1 & H). apply lift_ok in H1 as [_ ->].
    apply action_bind_ok in H as (f & s2 & H2 & H). apply lift_ok in H2 as [_ ->].
    apply action_bind_ok in H as (c & s3 & H3 & H). injection H3 as _ <-.
    apply action_bind_ok in H as (rc & s4 & H4 & H). apply upload_noted in H4 as [l4 H4].
    apply action_bind_ok in H as ([] & s5 & H5 & H). apply ensure_ok in H5 as [Hm ->].
    apply action_bind_ok in H as (j & s6 & H6 & H). apply reading_ok in H6 as [_ ->].
    apply action_bind_ok in H as ([] & s7 & H7 & H).
    assert (extends s4 s7) as (l7 & Hl7 & _)
      by (eapply follows_run; [|exact H7]; solve_follows ltac:(auto with grows)).
    destruct (IH _ _ H) as (l8 & H8 & Hall). exists ((l4 ++ [Push (ot_upload t) c (Ok rc)]) ++ l7 ++ l8).
    split; [by rewrite H8, Hl7, H4, <- !app_assoc|]. intros a' [<-|Hin].
    + exists (ot_upload t), c, rc. split; [|done]. rewrite !in_app_iff. left. right. by left.
    + destruct (Hall a' Hin) as (t' & c' & rc' & Hi & Hm'). exists t', c', rc'. split; [|done]. rewrite !in_app_iff. auto.
Qed.

Lemma grows_upload_outputs lease files count index l : follows extends (upload_outputs lease files count index l).
Proof.
  revert index. induction l as [|a l IH]; intros index; cbn [upload_outputs]; [auto with grows|].
  solve_follows ltac:(auto with grows).
Qed.

(** ** Processing *)

Lemma tells_cancelled r usage : tells r (f ← execution_cancelled usage; stop_and_report r f).
Proof. apply tells_bind; [by apply grows_same|]. intros f. apply fails_tells, fails_report. Qed.

Lemma tells_deliver core lease staged usage result :
  tells (el_reference lease) (deliver core lease staged usage result).
Proof.
  unfold deliver. cbv zeta. apply tells_bind; [solve_follows ltac:(auto with grows)|]. intros [].
  intros s o s' H. apply action_bind_ok in H as ([] & s1 & H1 & H). destruct (outputs_received _ _ _ _ _ _ _ H1) as (l1 & Hl1 & Hr).
  apply action_bind_ok in H as (c & s2 & H2 & H). assert (extends s1 s2) as He2 by (eapply follows_run; [|exact H2]; auto with grows).
  destruct c.
  - eapply told_between; [by eapply extends_by| |reflexivity]. eapply told_between; [exact He2| |reflexivity].
    match type of H with ?m _ = _ => assert (tells (el_reference lease) m) as Ht end; [|by apply Ht].
    apply tells_bind; [auto with grows|]. intros []. apply tells_bind; [auto with grows|]. intros [].
    apply tells_cancelled.
  - apply action_bind_ok in H as ([] & s3 & H3 & H). assert (extends s2 s3) as He3
      by (eapply follows_run; [|exact H3]; auto with grows).
    apply action_bind_ok in H as ([] & s4 & H4 & H). unfold calling in H4. injection H4 as Ha H4.
    apply action_bind_ok in H as ([] & s5 & H5 & H). injection H as <- <-. assert (extends s4 s5) as (l5 & He5 & _)
      by (eapply follows_run; [|exact H5]; auto with grows).
    destruct He2 as (l2 & He2 & _), He3 as (l3 & He3 & _).
    exists ((l1 ++ l2 ++ l3) ++ Complete (el_reference lease) result (Ok tt) :: l5). split.
    + rewrite He5, <- H4. cbn. by rewrite Ha, He3, He2, Hl1, <- !app_assoc.
    + eexists _, l5. split; [done|]. intros a Hin. by apply (received_app [] l1), Hr.
Qed.

Lemma grows_report_failure r f : follows extends (stop_and_report r f).
Proof. unfold stop_and_report, _report_failure, lease_lost, failure_of. solve_follows ltac:(auto with grows). Qed.
Hint Resolve grows_report_failure grows_upload_outputs : grows.

Lemma grows_body core lease : follows extends (process_body core lease).
Proof.
  unfold process_body, accept_lease, begin_execution, is_cancelled, deliver. cbv zeta.
  solve_follows ltac:(auto with grows).
Qed.

Lemma grows_failed core lease e : follows extends (process_failed core lease e).
Proof.
  unfold process_failed, lease_lost, failure_of. cbv zeta. solve_follows ltac:(auto with grows).
Qed.

Lemma grows_process core lease : follows extends (process_lease core lease).
Proof.
  unfold process_lease. apply follows_bind; [apply _|by apply grows_same|]. intros [].
  apply follows_finally; [apply _| |by apply grows_stop].
  apply follows_catching; [apply _|apply grows_body|intros; apply grows_failed].
Qed.

Ltac tells_step :=
  apply tells_bind; [solve [auto with grows|solve_follows ltac:(auto with grows)]|intros ?].

Lemma tells_body core lease : tells (el_reference lease) (process_body core lease).
Proof.
  unfold process_body, accept_lease, begin_execution, is_cancelled. cbv zeta.
  repeat first
    [ apply tells_deliver
    | apply tells_cancelled
    | tells_step
    | match goal with |- tells _ (if ?c then _ else _) => destruct c end ].
Qed.

Lemma tells_failed core lease e :
  e <> LeaseLostError -> tells (el_reference lease) (process_failed core lease e).
Proof.
  intros He. unfold process_failed. cbv zeta. do 3 tells_step.
  destruct e; try done; repeat first
    [ apply fails_tells, fails_report
    | apply tells_fail
    | tells_step
    | match goal with |- tells _ (if ?c then _ else _) => destruct c end ].
Qed.

Lemma failed_told core lease e l0 s o s' :
  blamed (el_reference lease) l0 e s -> process_failed core lease e s = (Ok o, s') ->
  told (el_reference lease) l0 o s'.
Proof.
  intros [[(l & Hl) _] Hb] H. assert (e = LeaseLostError \/ e <> LeaseLostError) as [->|He] by (destruct e; auto).
  - unfold process_failed in H. cbv zeta in H. do 3 (apply action_bind_ok in H as (? & ? & [= _ <-] & H)).
    apply action_bind_ok in H as ([] & s1 & H1 & H).
    assert (extends s s1) as (k & Hk & _) by (eapply follows_run; [|exact H1]; auto with grows).
    apply (lost_told (el_reference lease) l0) in H; [apply H|]. eapply lostly_grows; [by apply Hb|exact Hk].
  - eapply told_from; [exact Hl|by apply (tells_failed core lease e He)|reflexivity].
Qed.

(** C24: an outcome is what was reported.  Whatever its surroundings do, a worker that returns a
    success has had it accepted by the gateway, and before that for every artifact of the
    result a transport had returned a receipt with its exact size and digest; a worker that
    returns a failure has had that failure accepted by the gateway, or the failure says that
    the lease is lost and an answer of the gateway for that lease, a transport or the executor
    had raised [LeaseLostError]. *)
Theorem outcome_is_reported core lease s o s' :
  process_lease core lease s = (Ok o, s') -> told (el_reference lease) (mc_log s) o s'.
Proof.
  unfold process_lease. intros H. apply action_bind_ok in H as ([] & s1 & H1 & H). injection H1 as H1.
  apply finally_ok in H as (s2 & H & Hs'). assert (extends s2 s') as Hg by (rewrite <- Hs'; by apply grows_stop).
  assert (extends s s1) as He by (rewrite <- H1; by apply adds_nothing).
  eapply told_between; [exact He| |exact Hg]. apply catching_ok in H as [H|(e & s3 & H3 & H)].
  - by apply (tells_body core lease).
  - apply (failed_told core lease e _ s3); [|exact H].
    assert (sound (el_reference lease) (mc_log s1) s1) as Hs.
    { split; [exists []; by rewrite app_nil_r|]. rewrite <- H1. by intros []. }
    pose proof (blames_body (el_reference lease) (mc_log s1) core lease eq_refl s1 Hs) as Hb. by rewrite H3 in Hb.
Qed.
End Receipts.
