(* ===== verification/Durable.v ===== *)
(** * Durability of the upload spool

    What an attempt's directory holds survives failures: a manifest is replaced whole or not
    at all, what was saved is what is loaded, and an upload left pending is still there. *)

From stdpp Require Import gmap.
From S2P Require Import Prelude Python Bytes Effects Errors Metadata Schema Store Capability Encoding Signing Envelope.
From S2P Require Import Stream Work Spool Worker.

Open Scope Z_scope.

(** ** Replacing the manifest *)

Section Atomic.
Context {E : Env} {P : Platform}.

Definition is_temporary (name : string) : bool := str_startswith "manifest-" name.

(** In the directory [dir], only the manifest and temporary files may differ from [before],
    and the manifest is the one of [before] or [value]. *)
Definition replacing (dir : string) (before : gmap string entry) (value : json) (d : disk) : Prop :=
  (entries_at dir d !! _MANIFEST = before !! _MANIFEST \/
   entries_at dir d !! _MANIFEST = Some (Document (JDoc value))) /\
  forall name, name <> _MANIFEST -> is_temporary name = false -> entries_at dir d !! name = before !! name.

(** Nothing else on the disk changes. *)
Definition elsewhere (dir : string) (d0 d : disk) : Prop :=
  forall name, name <> dir -> dk_root d !! name = dk_root d0 !! name.

Lemma os_call_root d : dk_root (snd (os_call d)) = dk_root d.
Proof. done. Qed.

Definition on_root (I : disk -> Prop) : Prop := forall d d', I d -> dk_root d' = dk_root d -> I d'.

Lemma keeps_os_call (I : disk -> Prop) : on_root I -> keeps I os_call.
Proof. intros HI d Hd. unfold os_call. destruct (os_answer _); by eapply HI. Qed.

Lemma keeps_chmod (I : disk -> Prop) : on_root I -> keeps I chmod.
Proof. intros HI. unfold chmod. destruct windows; [by apply keeps_pure|by apply keeps_os_call]. Qed.

Lemma keeps_fsync (I : disk -> Prop) : on_root I -> keeps I _fsync_directory.
Proof.
  intros HI. unfold _fsync_directory. destruct windows; [by apply keeps_pure|].
  apply keeps_bind; [by apply keeps_os_call|]. intros _. by apply keeps_os_call.
Qed.

Lemma entries_edit dir f d d' :
  edit dir f d = (Ok tt, d') ->
  entries_at dir d' = match dir_at dir d with Some x => f (d_entries x) | None => ∅ end /\ elsewhere dir d d'.
Proof.
  unfold edit, writing. intros [= <-]. unfold entries_at, dir_at, elsewhere.
  destruct (dk_root d !! dir) as [[x|]|] eqn:Hd; rewrite ?Hd; [|done..].
  cbn. rewrite lookup_insert. split; [by rewrite decide_True|]. intros name Hn. by rewrite lookup_insert_ne.
Qed.

Section Replace.
Context (dir : string) (before : gmap string entry) (value : json) (d0 : disk).

Definition replaces (d : disk) : Prop := replacing dir before value d /\ elsewhere dir d0 d.

Lemma replaces_root : on_root replaces.
Proof. intros d d' [H1 H2] Hr. unfold replaces, replacing, elsewhere, entries_at, dir_at in *. by rewrite Hr. Qed.

Lemma keeps_edit f :
  (forall m : gmap string entry, (f m !! _MANIFEST = m !! _MANIFEST \/ f m !! _MANIFEST = Some (Document (JDoc value))) /\
     forall name, name <> _MANIFEST -> is_temporary name = false -> f m !! name = m !! name) ->
  keeps replaces (edit dir f).
Proof.
  intros Hf d [[Hm Ho] He]. destruct (edit dir f d) as [[[]|] d'] eqn:Hd; [|by unfold edit, writing in Hd].
  destruct (entries_edit _ _ _ _ Hd) as [Hent Hels]. unfold entries_at in Hm, Ho. split.
  - unfold replacing. rewrite Hent. destruct (dir_at dir d) as [x|]; [|by split]. destruct (Hf (d_entries x)) as [H1 H2].
    split; [destruct H1 as [->|]; auto|]. intros name Hn Ht. rewrite H2 by done. by apply Ho.
  - intros name Hn. by rewrite Hels, He.
Qed.

Lemma keeps_edit_temporary temporary (f : gmap string entry -> gmap string entry) :
  is_temporary temporary = true -> (forall m name, name <> temporary -> f m !! name = m !! name) ->
  keeps replaces (edit dir f).
Proof.
  intros Ht Hf. apply keeps_edit. intros m. split.
  - left. apply Hf. intros <-. discriminate Ht.
  - intros name _ Hn. apply Hf. congruence.
Qed.

Lemma temporary_name suffix : is_temporary ("manifest-" +:+ suffix) = true.
Proof. done. Qed.

Hint Resolve replaces_root keeps_os_call keeps_chmod keeps_fsync : durable.

Lemma keeps_write_manifest : keeps replaces (_write_manifest dir value).
Proof.
  unfold _write_manifest. eapply (runs_bind _ _ _ (fun t d => is_temporary t = true /\ replaces d)).
  - unfold mkstemp. apply runs_step; [auto with durable|done|]. intros [].
    do 2 (apply runs_step; [by apply keeps_pure|done|]; intros ?). apply runs_step; [|done|intros []; by apply runs_ret].
    eapply keeps_edit_temporary; [by apply temporary_name|]. intros m name Hn. by rewrite lookup_insert_ne.
  - intros t. intros d [Ht Hd]. revert d Hd. change (keeps replaces
      (catching (_ ← os_call; _ ← edit dir (insert t (Document (JDoc value))); _ ← os_call; _ ← chmod; _ ← os_call;
                 _ ← edit dir (fun m => <[_MANIFEST:=Document (JDoc value)]> (delete t m)); _fsync_directory)
         (fun e => _ ← unlink dir t; fail e))).
    unfold unlink. solve_keeps ltac:(first [solve [auto with durable] | by apply keeps_pure |
      (eapply keeps_edit_temporary; [exact Ht|]; intros m name Hn; by rewrite ?lookup_insert_ne, ?lookup_delete_ne) |
      (apply keeps_edit; intros m; (split; [right; by rewrite lookup_insert, decide_True|]);
       intros name Hn Hx; rewrite lookup_insert_ne, lookup_delete_ne by congruence; done)]).
Qed.

Lemma keeps_sync_files files : keeps replaces (sync_files dir files).
Proof.
  induction files as [|f files IH]; cbn [sync_files]; [by apply keeps_pure|]. unfold sync_file, os_guarded.
  solve_keeps ltac:(first [solve [auto with durable] | apply keeps_ensure | by apply keeps_pure]).
Qed.
End Replace.

(** *** What a successful replacement leaves *)

Definition same_root {A} (m : Action disk A) : Prop := forall d r d', m d = (r, d') -> dk_root d' = dk_root d.

Lemma root_os_call : same_root os_call.
Proof. intros d r d' [= _ <-]. done. Qed.
Lemma root_chmod : same_root chmod.
Proof. unfold chmod. intros d r d'. destruct windows; [by intros [= _ <-]|apply root_os_call]. Qed.
Lemma root_fsync : same_root _fsync_directory.
Proof.
  intros d r d' H. pose proof (keeps_fsync (fun x => dk_root x = dk_root d)) as Hk.
  specialize (Hk ltac:(intros ? ? ? ?; congruence) d eq_refl). rewrite H in Hk. by destruct r.
Qed.

Lemma entries_root dir d d' : dk_root d' = dk_root d -> entries_at dir d' = entries_at dir d /\ dir_at dir d' = dir_at dir d.
Proof. unfold entries_at, dir_at. by intros ->. Qed.

Lemma edit_dir dir f d d' :
  edit dir f d = (Ok tt, d') -> is_Some (dir_at dir d) ->
  is_Some (dir_at dir d') /\ entries_at dir d' = f (entries_at dir d).
Proof.
  unfold edit, writing. intros [= <-] [x Hx]. rewrite Hx. unfold entries_at, dir_at in *. cbn.
  destruct (dk_root d !! dir) as [[y|]|]; try done. injection Hx as ->. by rewrite lookup_insert, decide_True.
Qed.

Lemma write_manifest_ok dir value d d' :
  _write_manifest dir value d = (Ok tt, d') -> is_Some (dir_at dir d) ->
  is_Some (dir_at dir d') /\ exists n,
    entries_at dir d' = <[_MANIFEST := Document (JDoc value)]>
                          (delete ("manifest-" +:+ temp_suffix (entries_at dir d) n) (entries_at dir d)).
Proof.
  unfold _write_manifest, mkstemp. intros H Hd. apply action_bind_ok in H as (t & d1 & H1 & H).
  apply action_bind_ok in H1 as ([] & d2 & H2 & H1). apply root_os_call, (entries_root dir) in H2 as [He2 Hd2].
  apply action_bind_ok in H1 as (m & d3 & H3 & H1). apply reading_ok in H3 as [-> ->].
  apply action_bind_ok in H1 as (n & d4 & H4 & H1). apply reading_ok in H4 as [-> ->].
  apply action_bind_ok in H1 as ([] & d5 & H5 & H1). apply action_ret_ok in H1 as [-> ->].
  rewrite <- Hd2 in Hd. apply edit_dir in H5 as [Hd5 He5]; [|done]. rewrite He2 in He5, H.
  set (t := "manifest-" +:+ _) in *.
  apply catching_ok in H as [H|(e & d6 & _ & H)];
    [|apply action_bind_ok in H as (? & ? & _ & H); by apply fail_ok in H].
  apply action_bind_ok in H as ([] & d6 & H6 & H). apply root_os_call, (entries_root dir) in H6 as [He6 Hd6].
  apply action_bind_ok in H as ([] & d7 & H7 & H). rewrite <- Hd6 in Hd5. apply edit_dir in H7 as [Hd7 He7]; [|done].
  apply action_bind_ok in H as ([] & d8 & H8 & H). apply root_os_call, (entries_root dir) in H8 as [He8 Hd8].
  apply action_bind_ok in H as ([] & d9 & H9 & H). apply root_chmod, (entries_root dir) in H9 as [He9 Hd9].
  apply action_bind_ok in H as ([] & d10 & H10 & H). apply root_os_call, (entries_root dir) in H10 as [He10 Hd10].
  apply action_bind_ok in H as ([] & d11 & H11 & H). rewrite <- Hd8, <- Hd9, <- Hd10 in Hd7.
  apply edit_dir in H11 as [Hd11 He11]; [|done]. apply root_fsync, (entries_root dir) in H as [He Hd'].
  rewrite Hd'. split; [done|]. eexists. rewrite He, He11, He10, He9, He8, He7, He6, He5. f_equal.
  by rewrite insert_insert, decide_True, delete_insert_eq.
Qed.

Lemma sync_files_root dir files d d' : sync_files dir files d = (Ok tt, d') -> dk_root d' = dk_root d.
Proof.
  revert d. induction files as [|f files IH]; intros d H; cbn [sync_files] in H; [by injection H as <-|].
  apply action_bind_ok in H as ([] & d1 & H1 & H). apply IH in H as ->. unfold sync_file in H1.
  apply action_bind_ok in H1 as (m & d2 & H2 & H1). apply reading_ok in H2 as [_ ->].
  apply action_bind_ok in H1 as ([] & d3 & H3 & H1). apply ensure_ok in H3 as [_ ->].
  apply action_bind_ok in H1 as ([] & d4 & H4 & H1). apply root_chmod in H4 as <-.
  unfold os_guarded in H1. apply catching_ok in H1 as [H1|(e & d5 & _ & H1)]; [by eapply root_os_call|].
  destruct e; by apply fail_ok in H1.
Qed.

(** The manifest is the saved one, and nothing else changed but temporary files. *)
Lemma save_ok reference result files pending d p d' :
  let dir := _directory (lr_attempt_id reference) in
  let pend := default (map ra_artifact_id (wr_artifacts result)) pending in
  save_upload reference result files pending d = (Ok p, d') -> is_Some (dir_at dir d) ->
  p = MkPending reference result files pend /\
  same_set (map fst files) (map ra_artifact_id (wr_artifacts result)) = true /\
  subset pend (map ra_artifact_id (wr_artifacts result)) = true /\ is_Some (dir_at dir d') /\
  exists n, entries_at dir d' = <[_MANIFEST := Document (JDoc (manifest_document reference result files pend))]>
                                  (delete ("manifest-" +:+ temp_suffix (entries_at dir d) n) (entries_at dir d)).
Proof.
  intros dir pend H Hd. unfold save_upload in H. cbv zeta in H. fold dir in H. fold pend in H.
  apply action_bind_ok in H as ([] & d1 & H1 & H). apply ensure_ok in H1 as [Hs ->].
  apply action_bind_ok in H as ([] & d2 & H2 & H). apply sync_files_root, (entries_root dir) in H2 as [He2 Hd2].
  apply action_bind_ok in H as ([] & d3 & H3 & H). apply ensure_ok in H3 as [Hp ->].
  apply action_bind_ok in H as ([] & d4 & H4 & H). apply action_ret_ok in H as [-> ->].
  rewrite <- Hd2 in Hd. destruct (write_manifest_ok _ _ _ _ H4 Hd) as (Hd4 & n & Hn). rewrite He2 in Hn.
  split_and!; try done. by exists n.
Qed.

(** C26: a manifest is replaced whole.  Whatever the operating system does during a save, even if
    the process ends at any call, the attempt's manifest is afterwards the one before or
    exactly the new one, the new one when the save returns; every other file but temporary
    ones is as before, and no other directory is touched. *)
Theorem save_is_atomic reference result files pending d :
  let dir := _directory (lr_attempt_id reference) in
  let value := manifest_document reference result files (default (map ra_artifact_id (wr_artifacts result)) pending) in
  let d' := snd (save_upload reference result files pending d) in
  replacing dir (entries_at dir d) value d' /\ elsewhere dir d d' /\
  (forall p, fst (save_upload reference result files pending d) = Ok p -> is_Some (dir_at dir d) ->
     entries_at dir d' !! _MANIFEST = Some (Document (JDoc value))).
Proof.
  intros dir value d'. assert (replaces dir (entries_at dir d) value d d) as H0 by (split; [split; [by left|done]|done]).
  assert (keeps (replaces dir (entries_at dir d) value d) (save_upload reference result files pending)) as Hk.
  { unfold save_upload. cbv zeta. fold dir. apply keeps_bind; [apply keeps_ensure|]. intros [].
    apply keeps_bind; [apply keeps_sync_files|]. intros []. apply keeps_bind; [apply keeps_ensure|]. intros [].
    apply keeps_bind; [apply keeps_write_manifest|]. intros []. by apply keeps_pure. }
  specialize (Hk d H0). split_and!; [by unfold d'; destruct (save_upload _ _ _ _ d) as [[] ?]; destruct Hk..|].
  intros p Hp Hd. unfold d'. destruct (save_upload reference result files pending d) as [x d1] eqn:Hs. cbn in Hp. subst x.
  destruct (save_ok _ _ _ _ _ _ _ Hs Hd) as (_ & _ & _ & _ & n & Hn). cbn. fold dir in Hn.
  by rewrite Hn, lookup_insert, decide_True.
Qed.
End Atomic.

(** ** What was saved is what is loaded *)

(** A result as its manifest keeps it: without the executor's run and native measurements. *)
Definition stored_usage (u : UsageMetrics) : UsageMetrics :=
  MkUsage (um_executor_wall_ms u) (um_gpu_active_ms u) (um_gpu_count u) (um_input_bytes u) (um_output_bytes u)
    (um_frames u) (um_duration_ms u) (um_denoise_steps u) [].

Definition stored_artifact (a : WorkerResultArtifact) : WorkerResultArtifact :=
  MkResultArtifact (ra_artifact_id a) (ra_name a) (ra_filename a) (ra_media_type a) (ra_size_bytes a) (ra_sha256 a)
    (ra_kind a) (ra_store_type a) (ra_object_ref a) (canonical_media_probes (ra_metadata a)).

Definition stored_result (r : WorkerResult) : WorkerResult :=
  MkResult (map stored_artifact (wr_artifacts r)) (stored_usage (wr_usage r)) (wr_executor_type r)
    (wr_executor_version r) None (canonical_media_probes (wr_metadata r)).

(** *** Media facts are canonical once *)

Definition probe (m : dict) (limit : string * (Z * Z)) : option (string * json) :=
  let '(name, (minimum, maximum)) := limit in
  match jget name m with
  | Some JNull => Some (name, JNull)
  | Some (JInt z) => if (minimum <=? z) && (z <=? maximum) then Some (name, JInt z) else None
  | _ => None
  end.

Lemma jset_fresh k v (d : dict) : ~ In k (map fst d) -> jset k v d = d ++ [(k, v)].
Proof.
  induction d as [|[k' v'] d IH]; [done|]. cbn [map fst jset]. intros Hn.
  destruct (String.eqb_spec k' k) as [->|]; [exfalso; apply Hn; by left|]. rewrite IH; [done|]. intros H. apply Hn. by right.
Qed.

Lemma probe_name m limit kv : probe m limit = Some kv -> fst kv = fst limit.
Proof. destruct limit as [n [lo hi]]. cbn. repeat case_match; intros [= <-]; done. Qed.

Lemma canonical_probes m : canonical_media_probes m = omap (probe m) MEDIA_PROBE_LIMITS.
Proof.
  unfold canonical_media_probes. rewrite <- (app_nil_l (omap _ _)).
  assert (NoDup (map fst MEDIA_PROBE_LIMITS)) as Hd by (by apply (bool_decide_unpack _); vm_compute).
  assert (forall x, In x (map fst MEDIA_PROBE_LIMITS) -> ~ In x (map fst ([] : dict))) as Hf by (intros ? ? []).
  revert Hd Hf. generalize (@nil (string * json)). induction MEDIA_PROBE_LIMITS as [|[n [lo hi]] l IH]; intros acc Hd Hf.
  { by rewrite app_nil_r. }
  cbn [map fst] in Hd, Hf. inversion_clear Hd as [|? ? Hn Hd']. cbn [List.fold_left omap list_omap].
  assert (forall x, In x (map fst l) -> ~ In x (map fst acc)) as Hl by (intros x Hx; apply Hf; by right).
  assert (forall v, In n (map fst (acc ++ [(n, v)])) /\ forall x, In x (map fst l) -> ~ In x (map fst (acc ++ [(n, v)]))) as Hv.
  { intros v. rewrite map_app. split; [apply in_or_app; right; by left|]. intros x Hx [Hi|[<-|[]]]%in_app_or; [by apply (Hl x)|].
    apply Hn. by apply list_elem_of_In. }
  cbn [probe]. destruct (jget n m) as [[| |z| | | |]|]; try (by apply IH).
  - rewrite jset_fresh by (apply Hf; by left). rewrite IH; [by rewrite <- app_assoc|done|apply Hv].
  - destruct (_ && _); [|by apply IH]. rewrite jset_fresh by (apply Hf; by left).
    rewrite IH; [by rewrite <- app_assoc|done|apply Hv].
Qed.

Lemma jget_in k v (d : dict) : In (k, v) d -> NoDup (map fst d) -> jget k d = Some v.
Proof.
  induction d as [|[k' v'] d IH]; [done|]. cbn [map fst]. intros [[= -> ->]|Hin] Hd; inversion_clear Hd;
    unfold jget in *; cbn [List.find fst].
  - by rewrite String.eqb_refl.
  - destruct (String.eqb_spec k' k) as [->|]; [|by apply IH].
    exfalso. apply H. apply list_elem_of_In, in_map_iff. by exists (k, v).
Qed.

Lemma probed m (l : list (string * (Z * Z))) limit :
  NoDup (map fst l) -> In limit l -> jget (fst limit) (omap (probe m) l) = snd <$> probe m limit.
Proof.
  intros Hd Hin. assert (NoDup (map fst (omap (probe m) l)) /\
    forall x, In x (map fst (omap (probe m) l)) -> In x (map fst l)) as [Hn Hsub].
  { clear Hin. induction l as [|y l IH]; [by split; [constructor|]|]. cbn [map] in Hd. inversion_clear Hd as [|? ? Hy Hl].
    destruct (IH Hl) as [Hn Hs]. cbn [omap list_omap map]. destruct (probe m y) as [kv|] eqn:Hp.
    - pose proof (probe_name _ _ _ Hp) as Hk. cbn [map]. rewrite Hk. split.
      + constructor; [|done]. rewrite list_elem_of_In. intros Hx. apply Hy. by apply list_elem_of_In, Hs.
      + intros x [<-|Hx]; [by left|right; auto].
    - split; [done|]. intros x Hx. right. auto. }
  destruct (probe m limit) as [[k v]|] eqn:Hp; cbn.
  - pose proof (probe_name _ _ _ Hp) as <-. apply jget_in; [|done]. apply list_elem_of_In, list_elem_of_omap.
    exists limit. by rewrite list_elem_of_In.
  - destruct (jget (fst limit) (omap (probe m) l)) as [v|] eqn:Hj; [|done]. exfalso.
    unfold jget in Hj. destruct (List.find _ _) as [[k w]|] eqn:Hf; [|done]. apply find_some in Hf as [Hk He].
    apply String.eqb_eq in He. cbn in He. subst k. apply list_elem_of_In, list_elem_of_omap in Hk as (y & Hy & Hpy).
    apply list_elem_of_In in Hy. pose proof (probe_name _ _ _ Hpy) as Hname. cbn in Hname.
    assert (y = limit) as -> by (by apply (NoDup_map_inj fst l)). congruence.
Qed.

Lemma canonical_idem m : canonical_media_probes (canonical_media_probes m) = canonical_media_probes m.
Proof.
  rewrite (canonical_probes (canonical_media_probes m)), !canonical_probes.
  assert (NoDup (map fst MEDIA_PROBE_LIMITS)) as Hd by (by apply (bool_decide_unpack _); vm_compute).
  assert (forall l, (forall x, In x l -> In x MEDIA_PROBE_LIMITS) ->
    omap (probe (omap (probe m) MEDIA_PROBE_LIMITS)) l = omap (probe m) l) as H; [|by apply H].
  intros l. induction l as [|y l IH]; intros Hl; [done|]. cbn [omap list_omap]. rewrite IH by (intros; apply Hl; by right).
  assert (probe (omap (probe m) MEDIA_PROBE_LIMITS) y = probe m y) as ->; [|done].
  pose proof (probed m MEDIA_PROBE_LIMITS y Hd ltac:(apply Hl; by left)) as Hp.
  destruct y as [n [lo hi]]. cbn [fst] in Hp. unfold probe at 1. rewrite Hp. unfold probe.
  destruct (jget n m) as [[| |z| | | |]|]; try done. destruct (_ && _) eqn:Hr; [|done]. cbn. by rewrite Hr.
Qed.

Lemma stored_idem r : stored_result (stored_result r) = stored_result r.
Proof.
  unfold stored_result. cbn [wr_artifacts wr_usage wr_executor_type wr_executor_version wr_metadata].
  rewrite canonical_idem, map_map. f_equal. apply map_ext. intros a. unfold stored_artifact.
  cbn [ra_artifact_id ra_name ra_filename ra_media_type ra_size_bytes ra_sha256 ra_kind ra_store_type ra_object_ref
       ra_metadata]. by rewrite canonical_idem.
Qed.

Section Loading.
Context {E : Env} {P : Platform}.

Lemma artifact_roundtrip a : artifact_from_dict (artifact_to_dict a) = Ok (stored_artifact a).
Proof. destruct a as [? ? ? ? ? ? ? ? [] ?]; reflexivity. Qed.

Lemma artifacts_roundtrip l : res_map artifact_from_dict (map artifact_to_dict l) = Ok (map stored_artifact l).
Proof. induction l as [|a l IH]; [done|]. cbn [map res_map]. by rewrite artifact_roundtrip, IH. Qed.

Lemma usage_roundtrip u : usage_from_dict (usage_to_dict u) = usage_metrics (stored_usage u).
Proof. by destruct u as [? [] ? ? ? [] [] [] ?]. Qed.

Lemma reference_roundtrip r : reference_from_dict (reference_to_dict r) = lease_reference r.
Proof. by destruct r. Qed.

Lemma result_roundtrip r :
  usage_metrics (stored_usage (wr_usage r)) = Ok (stored_usage (wr_usage r)) -> wr_artifacts r <> [] ->
  _result_from_dict (_result_to_dict r) = Ok (stored_result r).
Proof.
  intros Hu Hn. rewrite <- usage_roundtrip in Hu. pose proof (artifacts_roundtrip (wr_artifacts r)) as Ha.
  unfold _result_from_dict, _result_to_dict. revert Hu Ha.
  generalize (usage_to_dict (wr_usage r)), (map artifact_to_dict (wr_artifacts r)). intros u l Hu Ha.
  unfold bind, mbind, res_bind, jitem. cbn -[res_map usage_from_dict probes_of worker_result].
  rewrite Ha, Hu. set (m := probes_of _). change m with (canonical_media_probes (wr_metadata r)). clear m.
  unfold worker_result, stored_result, value_unless. cbn [wr_artifacts]. destruct (wr_artifacts r); [done|reflexivity].
Qed.

(** *** Lookups in the table of files *)

Definition file_table (files : list (string * path)) : dict :=
  map (fun f => (fst f, JStr (path_name (snd f)))) (order_by (fun x y => negb (str_ltb (fst y) (fst x))) files).

Lemma table_keys files : map fst (file_table files) ≡ₚ map fst files.
Proof. unfold file_table. rewrite map_map. cbn. apply Permutation_map, order_by_perm. Qed.

Lemma table_name files f :
  In f files -> NoDup (map fst files) -> jget (fst f) (file_table files) = Some (JStr (path_name (snd f))).
Proof.
  intros Hin Hd. apply jget_in.
  - unfold file_table. apply in_map_iff. exists f. split; [done|]. by apply in_order_by.
  - by rewrite table_keys.
Qed.

Lemma in_set_true (x : string) l : (x ∈? l) = true <-> In x l.
Proof. rewrite elem_b_spec. apply list_elem_of_In. Qed.

Lemma same_set_true xs ys : (forall x, In x xs <-> In x ys) -> same_set xs ys = true.
Proof.
  intros H. unfold same_set. apply andb_true_iff. rewrite !forallb_forall. setoid_rewrite in_set_true. naive_solver.
Qed.

Lemma subset_true xs ys : subset xs ys = true <-> forall x, In x xs -> In x ys.
Proof. unfold subset. rewrite forallb_forall. by setoid_rewrite in_set_true. Qed.

(** *** An attempt on disk *)

(** The file of an artifact, in its attempt's directory and of its size. *)
Definition file_kept (dir : string) (entries : gmap string entry) (a : WorkerResultArtifact) (f : string * path) : Prop :=
  fst f = ra_artifact_id a /\ exists name b, snd f = InSpool dir name /\ is_basename name = true /\ name <> _MANIFEST /\
    entries !! name = Some (Cipher b) /\ blen b = ra_size_bytes a.

(** The directory of an attempt: its manifest, the files of its artifacts, nothing else. *)
Definition holds (p : PendingUpload) (d : disk) : Prop :=
  let dir := _directory (lr_attempt_id (pu_reference p)) in
  let result := pu_result p in
  let ids := map ra_artifact_id (wr_artifacts result) in
  is_Some (dir_at dir d) /\
  entries_at dir d !! _MANIFEST =
    Some (Document (JDoc (manifest_document (pu_reference p) result (pu_files p) (pu_pending p)))) /\
  Forall2 (file_kept dir (entries_at dir d)) (wr_artifacts result) (pu_files p) /\
  (forall name e, entries_at dir d !! name = Some e ->
     name = _MANIFEST \/ exists f, In f (pu_files p) /\ path_name (snd f) = name) /\
  NoDup ids /\ subset (pu_pending p) ids = true /\ wr_artifacts result <> [] /\
  lease_reference (pu_reference p) = Ok (pu_reference p) /\
  usage_metrics (stored_usage (wr_usage result)) = Ok (stored_usage (wr_usage result)).

Lemma file_set_fresh id p files : ~ In id (map fst files) -> file_set id p files = files ++ [(id, p)].
Proof.
  induction files as [|[k q] files IH]; cbn; [done|]. intros Hn.
  destruct (String.eqb_spec k id) as [->|]; [naive_solver|]. rewrite IH; naive_solver.
Qed.

Lemma kept_ids dir entries l fs : Forall2 (file_kept dir entries) l fs -> map fst fs = map ra_artifact_id l.
Proof. induction 1 as [|a f l fs [Hf _] _ IH]; [done|]. cbn. by rewrite Hf, IH. Qed.

(** The directory has no other entries, and all of them are regular files. *)
Lemma only_kept p d dir v :
  entries_at dir d !! _MANIFEST = Some (Document v) ->
  Forall2 (file_kept dir (entries_at dir d)) (wr_artifacts (pu_result p)) (pu_files p) ->
  (forall name e, entries_at dir d !! name = Some e ->
     name = _MANIFEST \/ exists f, In f (pu_files p) /\ path_name (snd f) = name) ->
  same_set (map fst (map_to_list (entries_at dir d))) (_MANIFEST :: map (fun f => path_name (snd f)) (pu_files p)) &&
  forallb (fun kv => is_regular (Some (snd kv))) (map_to_list (entries_at dir d)) = true.
Proof.
  intros Hm Hf Hdom.
  assert (forall f, In f (pu_files p) -> exists b, entries_at dir d !! path_name (snd f) = Some (Cipher b)) as Hk.
  { intros f Hin. apply list_elem_of_In in Hin. apply list_elem_of_lookup in Hin as [i Hi].
    destruct (Forall2_lookup_r _ _ _ _ _ Hf Hi) as (a & _ & _ & name & c & -> & _ & _ & He & _). by exists c. }
  apply andb_true_iff. split.
  - apply same_set_true. intros y. rewrite in_map_iff. split.
    + intros ([k e] & <- & Hin). apply list_elem_of_In, elem_of_map_to_list in Hin. cbn.
      destruct (Hdom _ _ Hin) as [->|(f & Hf' & <-)]; [by left|right]. apply in_map_iff. by exists f.
    + intros Hy. assert (exists e, entries_at dir d !! y = Some e) as [e He].
      { destruct Hy as [<-|Hy]; [eauto|]. apply in_map_iff in Hy as (f & <- & Hin). destruct (Hk f Hin). eauto. }
      exists (y, e). split; [done|]. by apply list_elem_of_In, elem_of_map_to_list.
  - apply forallb_forall. intros [k e] Hin. apply list_elem_of_In, elem_of_map_to_list in Hin. cbn.
    destruct (Hdom _ _ Hin) as [->|(f & Hf' & <-)]; [|destruct (Hk f Hf')]; by simplify_eq.
Qed.

Section Calm.
Context (calm : forall n, os_answer n = OsDone).

Lemma calm_call d : os_call d = (Ok tt, d <| dk_calls := Datatypes.S (dk_calls d) |>).
Proof. unfold os_call. by rewrite calm. Qed.

Lemma calm_guarded d : os_guarded os_call d = (Ok tt, d <| dk_calls := Datatypes.S (dk_calls d) |>).
Proof. unfold os_guarded, catching. by rewrite calm_call. Qed.

Lemma files_checked dir files l fs acc d :
  Forall2 (file_kept dir (entries_at dir d)) l fs -> (forall f, In f fs -> In f files) -> NoDup (map fst files) ->
  NoDup (map fst (acc ++ fs)) ->
  exists d', checked_files dir (file_table files) (map stored_artifact l) acc d = (Ok (acc ++ fs), d') /\
             dk_root d' = dk_root d.
Proof.
  intros Hk Hin Hd. revert acc d Hk. induction l as [|a l IH] in fs, Hin |- *; intros acc d Hk Hn.
  - apply Forall2_nil_inv_l in Hk as ->. rewrite app_nil_r. by exists d.
  - apply Forall2_cons_inv_l in Hk as (f & fs' & Hf & Hk & ->). destruct Hf as (Hid & name & c & Hp & Hb & _ & He & Hs).
    destruct f as [id p]. cbn in Hid, Hp. subst id p. cbn [map checked_files].
    assert (jget (ra_artifact_id a) (file_table files) = Some (JStr name)) as Hj.
    { apply (table_name files (ra_artifact_id a, InSpool dir name)); [|done]. apply Hin. by left. }
    unfold checked_file, bind, mbind, action_bind, lift, reading, jitem, ensure. cbn [ra_artifact_id stored_artifact].
    rewrite Hj. cbn [py_str]. rewrite Hb, He. cbn [is_regular andb]. cbn -[os_guarded checked_files file_table].
    rewrite calm_guarded, Hs, Z.eqb_refl. cbn -[os_guarded checked_files file_table].
    rewrite file_set_fresh.
    2: { rewrite map_app in Hn. apply NoDup_app in Hn as (_ & Hn & _). intros Hx. apply (Hn (ra_artifact_id a)); [|by left].
         by apply list_elem_of_In. }
    set (d1 := d <| dk_calls := _ |>). destruct (IH fs' ltac:(intros; apply Hin; by right)
      (acc ++ [(ra_artifact_id a, InSpool dir name)]) d1) as (d' & H & Hr); [done| |].
    + by rewrite <- app_assoc.
    + exists d'. rewrite <- app_assoc in H. by rewrite H.
Qed.

Lemma bind_run {A B} (m : Action disk A) (f : A -> Action disk B) d a d1 :
  m d = (Ok a, d1) -> bind m f d = f a d1.
Proof. unfold bind, mbind, action_bind. by intros ->. Qed.

Lemma ensure_run b e (d : disk) : b = true -> ensure b e d = (Ok tt, d).
Proof. by intros ->. Qed.

Lemma in_sorted_ids x l : In x (sorted_ids l) <-> In x l.
Proof. unfold sorted_ids. rewrite in_order_by, <- !list_elem_of_In. apply elem_of_remove_dups. Qed.

Lemma texts l : map py_str (map JStr l) = l.
Proof. rewrite map_map. apply map_id. Qed.

Lemma manifest_read dir v d :
  entries_at dir d !! _MANIFEST = Some (Document (JDoc v)) ->
  read_manifest dir d = (Ok v, d <| dk_calls := Datatypes.S (dk_calls d) |>).
Proof.
  intros H. unfold read_manifest. erewrite bind_run by reflexivity. rewrite H.
  erewrite bind_run by (by apply ensure_run). erewrite bind_run by apply calm_call. done.
Qed.

Definition reloaded (p : PendingUpload) : PendingUpload :=
  MkPending (pu_reference p) (stored_result (pu_result p)) (pu_files p) (sorted_ids (pu_pending p)).

(** What an attempt's directory holds is what [load] returns. *)
Lemma load_holds p d :
  holds p d -> exists d', load_upload (lr_attempt_id (pu_reference p)) d = (Ok (reloaded p), d') /\ dk_root d' = dk_root d.
Proof.
  intros (Hd & Hm & Hf & Hdom & Hnd & Hsub & Hne & Href & Hu). destruct Hd as [x Hd].
  set (dir := _directory (lr_attempt_id (pu_reference p))) in *. pose proof (kept_ids _ _ _ _ Hf) as Hids.
  set (d1 := d <| dk_calls := Datatypes.S (dk_calls d) |>).
  destruct (files_checked dir (pu_files p) (wr_artifacts (pu_result p)) (pu_files p) [] d1) as (d2 & Hc & Hr2);
    [exact Hf|done|by rewrite Hids|by rewrite app_nil_l, Hids|].
  set (d3 := d2 <| dk_calls := Datatypes.S (dk_calls d2) |>).
  exists d3. split; [|exact Hr2].
  assert (entries_at dir d3 = entries_at dir d) as He by (by apply entries_root).
  unfold load_upload, catching. enough (load_body (lr_attempt_id (pu_reference p)) d = (Ok (reloaded p), d3)) as -> by done.
  unfold load_body. cbv zeta. fold dir. erewrite bind_run by reflexivity. rewrite Hd.
  erewrite bind_run by reflexivity. erewrite bind_run by (by apply manifest_read). fold d1.
  set (table := file_table (pu_files p)) in *. set (waiting := map JStr (sorted_ids (pu_pending p))).
  set (members := [("version", JInt _VERSION); ("reference", reference_to_dict (pu_reference p));
                   ("result", _result_to_dict (pu_result p)); ("files", JObj table);
                   ("pending_artifact_ids", JList waiting)]).
  change (manifest_document _ _ _ _) with (JObj members).
  rewrite (bind_run _ _ _ members d1) by reflexivity. rewrite (bind_run _ _ _ tt d1) by reflexivity.
  rewrite (bind_run _ _ _ (reference_to_dict (pu_reference p)) d1) by reflexivity.
  rewrite (bind_run _ _ _ (pu_reference p) d1) by (unfold lift; by rewrite reference_roundtrip, Href).
  rewrite (bind_run _ _ _ tt d1) by (apply ensure_run, String.eqb_refl).
  rewrite (bind_run _ _ _ (_result_to_dict (pu_result p)) d1) by reflexivity.
  rewrite (bind_run _ _ _ (stored_result (pu_result p)) d1) by (unfold lift; by rewrite result_roundtrip).
  rewrite (bind_run _ _ _ (JObj table) d1) by reflexivity. rewrite (bind_run _ _ _ table d1) by reflexivity.
  rewrite (bind_run _ _ _ (pu_files p) d2) by exact Hc.
  rewrite (bind_run _ _ _ tt d2).
  2: { apply ensure_run, same_set_true. intros y. split; apply Permutation_in; [|symmetry]; apply table_keys. }
  rewrite (bind_run _ _ _ tt d3) by apply calm_guarded.
  rewrite (bind_run _ _ _ (entries_at dir d) d3) by (unfold reading; by rewrite He).
  rewrite (bind_run _ _ _ tt d3) by (apply ensure_run; by eapply (only_kept p d dir)).
  rewrite (bind_run _ _ _ (JList waiting) d3) by reflexivity. rewrite (bind_run _ _ _ waiting d3) by reflexivity.
  unfold waiting. rewrite texts. rewrite (bind_run _ _ _ tt d3); [reflexivity|].
  apply ensure_run, subset_true. intros y Hy. rewrite Hids. rewrite in_sorted_ids in Hy.
  by apply (proj1 (subset_true _ _) Hsub).
Qed.
End Calm.
End Loading.

(** ** Saving and loading *)

Section Saving.
Context {E : Env} {P : Platform} {L : PlatformLaws}.

(** The files of a result are staged in its attempt's directory, with at most a manifest
    beside them. *)
Definition laid_out (reference : LeaseReference) (result : WorkerResult) (files : list (string * path)) (d : disk) : Prop :=
  let dir := _directory (lr_attempt_id reference) in
  is_Some (dir_at dir d) /\
  Forall2 (file_kept dir (entries_at dir d)) (wr_artifacts result) files /\
  (forall name e, entries_at dir d !! name = Some e ->
     name = _MANIFEST \/ exists f, In f files /\ path_name (snd f) = name) /\
  NoDup (map ra_artifact_id (wr_artifacts result)) /\ wr_artifacts result <> [] /\
  lease_reference reference = Ok reference /\
  usage_metrics (stored_usage (wr_usage result)) = Ok (stored_usage (wr_usage result)).

Lemma save_holds reference result files pending d p d' :
  laid_out reference result files d -> save_upload reference result files pending d = (Ok p, d') ->
  p = MkPending reference result files (default (map ra_artifact_id (wr_artifacts result)) pending) /\ holds p d'.
Proof.
  intros (Hd & Hf & Hdom & Hnd & Hne & Href & Hu) H.
  destruct (save_ok _ _ _ _ _ _ _ H Hd) as (-> & _ & Hsub & Hd' & n & He). split; [done|].
  rewrite delete_id in He by apply temp_fresh. unfold holds. cbn [pu_reference pu_result pu_files pu_pending].
  rewrite He. split_and!; try done.
  - by rewrite lookup_insert, decide_True.
  - eapply Forall2_impl; [exact Hf|]. intros a f (Hid & name & b & Hp & Hb & Hn & Hl & Hs).
    split; [done|]. exists name, b. rewrite lookup_insert_ne by done. done.
  - intros name e. rewrite lookup_insert. case_decide; [by left|]. apply Hdom.
Qed.

Lemma holds_laid_out p d : holds p d -> laid_out (pu_reference p) (pu_result p) (pu_files p) d.
Proof. intros (Hd & _ & Hf & Hdom & Hnd & _ & Hne & Href & Hu). by split_and!. Qed.

(** *** A save that is not disturbed returns *)

Section Undisturbed.
Context (calm : forall n, os_answer n = OsDone).

Lemma calm_chmod d : exists d', chmod d = (Ok tt, d') /\ dk_root d' = dk_root d.
Proof. unfold chmod. destruct windows; [by exists d|]. rewrite calm_call by done. by eexists. Qed.

Lemma calm_fsync d : exists d', _fsync_directory d = (Ok tt, d').
Proof.
  unfold _fsync_directory. destruct windows; [by exists d|].
  rewrite (bind_run _ _ _ _ _ (calm_call calm d)), calm_call by done. by eexists.
Qed.

Lemma calm_sync dir files d :
  (forall f, In f files -> exists name, snd f = InSpool dir name /\ is_regular (entries_at dir d !! name) = true) ->
  exists d', sync_files dir files d = (Ok tt, d') /\ dk_root d' = dk_root d.
Proof.
  revert d. induction files as [|f files IH]; intros d Hf; [by exists d|]. cbn [sync_files].
  destruct (Hf f (or_introl eq_refl)) as (name & Hp & Hr). destruct (calm_chmod d) as (d1 & H1 & Hr1).
  set (d2 := d1 <| dk_calls := Datatypes.S (dk_calls d1) |>).
  destruct (IH d2) as (d' & H' & Hr').
  { intros g Hg. destruct (Hf g (or_intror Hg)) as (n & Hn & Hreg). exists n. split; [done|].
    assert (entries_at dir d2 = entries_at dir d) as -> by (by apply entries_root). done. }
  exists d'. split; [|by rewrite Hr']. rewrite (bind_run _ _ _ tt d2); [done|]. unfold sync_file.
  rewrite (bind_run _ _ _ (entries_at dir d) d) by done. rewrite Hp, String.eqb_refl, Hr.
  rewrite (bind_run _ _ _ tt d) by done. rewrite (bind_run _ _ _ tt d1) by done. by apply calm_guarded.
Qed.

Lemma calm_write dir value d : exists d', _write_manifest dir value d = (Ok tt, d').
Proof.
  unfold _write_manifest. erewrite bind_run; cycle 1.
  { unfold mkstemp. rewrite (bind_run _ _ _ _ _ (calm_call calm d)). reflexivity. }
  unfold catching. set (body := bind os_call _).
  assert (forall d1, exists d', body d1 = (Ok tt, d')) as Hb; [|match goal with |- context [body ?x] => destruct (Hb x) as [d' ->] end; by exists d'].
  intros d1. unfold body. rewrite (bind_run _ _ _ _ _ (calm_call calm _)). erewrite bind_run by reflexivity.
  rewrite (bind_run _ _ _ _ _ (calm_call calm _)). match goal with |- context [bind chmod ?f ?d] =>
    destruct (calm_chmod d) as (d2 & H2 & _); rewrite (bind_run _ f _ _ _ H2) end.
  rewrite (bind_run _ _ _ _ _ (calm_call calm _)). erewrite bind_run by reflexivity. apply calm_fsync.
Qed.

(** C27: what is saved is what is loaded.  If the operating system does not disturb it, saving the
    staged files of a result returns, and loading the attempt then returns the same lease
    reference and files, the artifacts still pending in order, and the result as the manifest
    keeps it. *)
Theorem save_load_roundtrip reference result files pending d :
  laid_out reference result files d ->
  subset (default (map ra_artifact_id (wr_artifacts result)) pending) (map ra_artifact_id (wr_artifacts result)) = true ->
  exists p d1 d2, save_upload reference result files pending d = (Ok p, d1) /\
    load_upload (lr_attempt_id reference) d1 =
      (Ok (MkPending reference (stored_result result) files
             (sorted_ids (default (map ra_artifact_id (wr_artifacts result)) pending))), d2).
Proof.
  intros Hl Hsub. pose proof Hl as (_ & Hf & _). set (dir := _directory (lr_attempt_id reference)) in *.
  pose proof (kept_ids _ _ _ _ Hf) as Hids. destruct (calm_sync dir files d) as (d1 & H1 & Hr1).
  { intros f Hin. apply list_elem_of_In, list_elem_of_lookup in Hin as [i Hi].
    destruct (Forall2_lookup_r _ _ _ _ _ Hf Hi) as (a & _ & _ & name & c & Hp & _ & _ & He & _).
    exists name. by rewrite He. }
  set (pend := default _ pending) in *. set (value := manifest_document reference result files pend).
  destruct (calm_write dir value d1) as (d2 & H2). set (p := MkPending reference result files pend).
  assert (save_upload reference result files pending d = (Ok p, d2)) as Hs.
  { unfold save_upload. cbv zeta. rewrite (bind_run _ _ _ tt d) by (apply ensure_run, same_set_true; by rewrite Hids).
    fold dir. rewrite (bind_run _ _ _ tt d1) by done. fold pend. rewrite (bind_run _ _ _ tt d1) by (by apply ensure_run).
    by rewrite (bind_run _ _ _ tt d2). }
  destruct (save_holds _ _ _ _ _ _ _ Hl Hs) as [_ Hh]. destruct (load_holds calm p d2 Hh) as (d3 & H3 & _).
  by exists p, d2, d3.
Qed.
End Undisturbed.
End Saving.
