(* ===== verification/Staging.v ===== *)
(** * Staging the outputs of an attempt

    What the loop over an executor's artifacts leaves in the spool of a worker that keeps a
    journal: the directory of the attempt with one encrypted file for each artifact so far,
    of the size and digest the result will name, and nothing else. *)

From stdpp Require Import gmap.
From S2P Require Import Prelude Python Bytes Effects Errors Metadata Schema Store Capability Encoding Signing Envelope.
From S2P Require Import Stream Work Spool Worker Local Durable.

Open Scope Z_scope.

(** ** Names of ciphertexts *)

Lemma hex_digit_in n : In (hex_digit n) (String.list_ascii_of_string "0123456789abcdef").
Proof.
  unfold hex_digit. generalize (Z.to_nat n). intros k. do 16 (destruct k as [|k]; [cbn; tauto|]). cbn. tauto.
Qed.

Lemma hexlify_in b c : In c (hexlify b) -> In c (String.list_ascii_of_string "0123456789abcdef").
Proof. induction b as [|x b IH]; [done|]. intros [<-|[<-|H]]; [apply hex_digit_in..|by apply IH]. Qed.

Lemma chars_append a b :
  String.list_ascii_of_string (a +:+ b) = String.list_ascii_of_string a ++ String.list_ascii_of_string b.
Proof. induction a as [|c a IH]; [done|]. simpl. f_equal. exact IH. Qed.

Section Staging.
Context {E : Env} {SS : Secretstream} {P : Platform} {W : Site}.

Lemma ciphertext_chars id :
  String.list_ascii_of_string (ciphertext_name id) =
  hexlify (sha256_digest (Bytes.encode id)) ++ String.list_ascii_of_string ".ciphertext".
Proof.
  unfold ciphertext_name, hexdigest. by rewrite chars_append, String.list_ascii_of_string_of_list_ascii.
Qed.

Lemma ciphertext_basename id : is_basename (ciphertext_name id) = true.
Proof.
  unfold is_basename. apply andb_true_iff. split.
  - unfold str_forall. rewrite ciphertext_chars, forallb_app. apply andb_true_iff. split; [|done].
    apply forallb_forall. intros c Hc%hexlify_in. cbn in Hc. naive_solver.
  - destruct (String.eqb_spec (ciphertext_name id) ".") as [H|]; [|done].
    pose proof (ciphertext_chars id) as Hc. rewrite H in Hc. apply (f_equal length) in Hc.
    rewrite length_app in Hc. cbn in Hc. lia.
Qed.

Lemma ciphertext_manifest id : ciphertext_name id <> _MANIFEST.
Proof.
  intros H. pose proof (ciphertext_chars id) as Hc. rewrite H in Hc. cbn in Hc.
  destruct (hexlify _) as [|c l] eqn:Hh; [done|]. injection Hc as <- _.
  assert (In "u"%char (hexlify (sha256_digest (Bytes.encode id)))) as Hin by (rewrite Hh; by left).
  apply hexlify_in in Hin. cbn in Hin. naive_solver.
Qed.

(** ** Runs on the disk *)

Lemma on_disk_ok {A} (m : Action disk A) s a s' :
  on_disk m s = (Ok a, s') -> exists d, m (mc_disk s) = (Ok a, d) /\ s' = s <| mc_disk := d |>.
Proof. unfold on_disk. cbv zeta. destruct (m (mc_disk s)) as [x d]. intros [= -> <-]. eauto. Qed.

Lemma make_directory_ok dir d d' :
  make_directory dir d = (Ok tt, d') -> is_Some (dir_at dir d') /\ entries_at dir d' = entries_at dir d.
Proof.
  unfold make_directory, entries_at, dir_at. destruct (dk_root d !! dir) as [[x|]|] eqn:Hd; [|done|];
    intros [= <-]; [by rewrite Hd|]. cbn. by rewrite lookup_insert, decide_True.
Qed.

Lemma output_path_ok r id d p d' :
  output_path r id d = (Ok p, d') ->
  let dir := _directory (lr_attempt_id r) in
  p = InSpool dir (ciphertext_name id) /\ is_Some (dir_at dir d') /\ entries_at dir d' = entries_at dir d.
Proof.
  unfold output_path. cbv zeta. set (dir := _directory _). intros H.
  apply action_bind_ok in H as ([] & d1 & H1 & H). apply root_os_call, (entries_root dir) in H1 as [He1 _].
  apply action_bind_ok in H as ([] & d2 & H2 & H). apply make_directory_ok in H2 as [Hd2 He2].
  apply action_bind_ok in H as ([] & d3 & H3 & H). apply root_chmod, (entries_root dir) in H3 as [He3 Hd3].
  apply action_ret_ok in H as [-> ->]. rewrite Hd3, He3, He2, He1. done.
Qed.

(** One output of an encrypted lease. *)
Lemma stage_output_ok core lease crypto target artifact s src s' :
  wc_journal core = true -> el_crypto lease = Some crypto ->
  stage_output core lease target artifact s = (Ok src, s') ->
  let dir := _directory (lr_attempt_id (el_reference lease)) in
  let name := ciphertext_name (ad_artifact_id (ot_artifact target)) in
  exists b, src = Spooled dir name /\ is_Some (dir_at dir (mc_disk s')) /\
    entries_at dir (mc_disk s') = <[name := Cipher b]> (entries_at dir (mc_disk s)).
Proof.
  unfold stage_output. intros -> ->. set (dir := _directory _). set (name := ciphertext_name _). cbv zeta. intros H.
  apply action_bind_ok in H as (p & s1 & H1 & H). apply on_disk_ok in H1 as (d1 & H1 & ->).
  apply output_path_ok in H1 as (-> & Hd1 & He1). fold dir in Hd1, He1. fold dir name in H.
  apply action_bind_ok in H as (content & s2 & H2 & H). apply lift_ok in H2 as [_ ->]. cbn [open_ciphertext] in H.
  apply action_bind_ok in H as ([] & s3 & H3 & H). apply action_bind_ok in H3 as ([] & s4 & H4 & H3).
  apply on_disk_ok in H4 as (d4 & H4 & ->). apply root_os_call, (entries_root dir) in H4 as [He4 Hd4].
  apply on_disk_ok in H3 as (d3 & H3 & ->). apply edit_dir in H3 as [Hd3 He3]; [|cbn in *; by rewrite Hd4].
  apply action_bind_ok in H as (aad & s5 & H5 & H). apply lift_ok in H5 as [_ ->].
  apply action_bind_ok in H as (n & s6 & H6 & H). apply reading_ok in H6 as [-> ->].
  apply action_bind_ok in H as ([] & s7 & H7 & H). injection H7 as <-. cbn [write_ciphertext] in H.
  apply action_bind_ok in H as ([] & s8 & H8 & H). apply on_disk_ok in H8 as (d8 & H8 & ->).
  apply root_os_call, (entries_root dir) in H8 as [He8 Hd8].
  apply action_bind_ok in H as ([] & s9 & H9 & H). apply on_disk_ok in H9 as (d9 & H9 & ->).
  apply edit_dir in H9 as [Hd9 He9]; [|cbn in *; by rewrite Hd8].
  apply action_bind_ok in H as (z & s10 & H10 & H). apply lift_ok in H10 as [_ ->].
  apply action_ret_ok in H as [-> ->]. cbn in *.
  eexists. split; [done|]. split; [exact Hd9|]. rewrite He9, He8, He3, He4, He1. apply insert_insert_eq.
Qed.

(** ** The loop *)

Section Loop.
Context (core : WorkerCore) (lease : ExecutionLease).
Notation dir := (_directory (lr_attempt_id (el_reference lease))).

(** An output encrypted in the spool: its file, of the size and digest of the result. *)
Definition encrypted (entries : gmap string entry) (a : WorkerResultArtifact) (f : string * path) : Prop :=
  fst f = ra_artifact_id a /\ snd f = InSpool dir (ciphertext_name (ra_artifact_id a)) /\
  exists b, entries !! ciphertext_name (ra_artifact_id a) = Some (Cipher b) /\
    blen b = ra_size_bytes a /\ hexdigest b = ra_sha256 a.

Definition staged_files (acc : outputs) : list (string * path) :=
  map (fun kv => (fst kv, staged_path (snd kv))) (ou_files acc).

(** The output a lease grants to an artifact. *)
Definition granted (a : WorkerResultArtifact) : Prop :=
  exists t, In t (el_outputs lease) /\ ot_name t = ra_name a /\ ad_artifact_id (ot_artifact t) = ra_artifact_id a.

Record staging (acc : outputs) (d : disk) : Prop := {
  stg_dir : ou_artifacts acc = [] \/ is_Some (dir_at dir d);
  stg_files : Forall2 (encrypted (entries_at dir d)) (ou_artifacts acc) (staged_files acc);
  stg_only : forall name e, entries_at dir d !! name = Some e ->
    exists f, In f (staged_files acc) /\ path_name (snd f) = name;
  stg_granted : Forall granted (ou_artifacts acc)
}.

Lemma encrypted_kept entries a f : encrypted entries a f -> file_kept dir entries a f.
Proof.
  intros (Hid & Hp & b & Hb & Hs & _). split; [exact Hid|]. exists (ciphertext_name (ra_artifact_id a)), b.
  split_and!; try done; [apply ciphertext_basename|apply ciphertext_manifest].
Qed.

Lemma encrypted_ids entries l fs : Forall2 (encrypted entries) l fs -> map fst fs = map ra_artifact_id l.
Proof. induction 1 as [|a f l fs [Hf _] _ IH]; [done|]. cbn. by rewrite Hf, IH. Qed.

Lemma staged_set_fresh id f l : ~ In id (map fst l) -> staged_set id f l = l ++ [(id, f)].
Proof.
  induction l as [|[k g] l IH]; cbn; [done|]. intros Hn.
  destruct (String.eqb_spec k id) as [->|]; [naive_solver|]. rewrite IH; naive_solver.
Qed.

Context (Hnames : NoDup (map (fun t => ciphertext_name (ad_artifact_id (ot_artifact t))) (el_outputs lease))).

(** Outputs with different names have different files. *)
Lemma granted_apart a t :
  granted a -> In t (el_outputs lease) -> ra_name a <> ot_name t ->
  ciphertext_name (ra_artifact_id a) <> ciphertext_name (ad_artifact_id (ot_artifact t)).
Proof.
  intros (u & Hu & Hn & Hid) Ht Hne Heq. rewrite <- Hid in Heq. apply Hne. rewrite <- Hn. f_equal.
  set (f := fun t => ciphertext_name (ad_artifact_id (ot_artifact t))) in *. change (f u = f t) in Heq.
  clear Hn Hid Hne. induction (el_outputs lease) as [|x l IH]; [done|].
  cbn in Hnames. apply NoDup_cons in Hnames as [Hx Hl]. rewrite list_elem_of_In in Hx.
  destruct Hu as [->|Hu], Ht as [->|Ht]; [done| | |by apply IH].
  - destruct Hx. rewrite Heq. by apply in_map.
  - destruct Hx. rewrite <- Heq. by apply in_map.
Qed.

Context (crypto : LeaseCryptoContext) (Hj : wc_journal core = true) (Hc : el_crypto lease = Some crypto).

Lemma normalized_ok t a content n :
  normalized_artifact t a content = Ok n ->
  ra_artifact_id n = ad_artifact_id (ot_artifact t) /\ ra_name n = ea_name a /\
  ra_size_bytes n = blen content /\ ra_sha256 n = hexdigest content.
Proof.
  unfold normalized_artifact. unfold bind, mbind, res_bind. destruct (with_safe_media_extension _ _); [|done].
  by intros [= <-].
Qed.

Lemma encrypted_apart entries name e l fs :
  Forall2 (encrypted entries) l fs -> (forall x, In x l -> ciphertext_name (ra_artifact_id x) <> name) ->
  Forall2 (encrypted (<[name := e]> entries)) l fs.
Proof.
  induction 1 as [|a f l fs (Hid & Hp & b & Hb & H) _ IH]; intros Hn; [constructor|]. constructor.
  - split; [exact Hid|]. split; [exact Hp|]. exists b. rewrite lookup_insert_ne; [by split|].
    apply not_eq_sym, Hn. by left.
  - apply IH. intros x Hx. apply Hn. by right.
Qed.

(** One more output. *)
Lemma staging_grows acc d d' a t b n :
  staging acc d -> In t (el_outputs lease) -> ot_name t = ea_name a ->
  (forall x, In x (ou_artifacts acc) -> ra_name x <> ea_name a) ->
  let name := ciphertext_name (ad_artifact_id (ot_artifact t)) in
  is_Some (dir_at dir d') -> entries_at dir d' = <[name := Cipher b]> (entries_at dir d) ->
  normalized_artifact t a b = Ok n ->
  staging (MkOutputs (ou_artifacts acc ++ [n]) (staged_set (ra_artifact_id n) (Spooled dir name) (ou_files acc))
             (ou_bytes acc + blen b)) d'.
Proof.
  intros [_ Hf Ho Hg] Ht Hn Hx name Hd He (Hid & Hname & Hsize & Hsha)%normalized_ok.
  assert (forall x, In x (ou_artifacts acc) -> ciphertext_name (ra_artifact_id x) <> name) as Hap.
  { intros x Hin. apply granted_apart; [|exact Ht|rewrite Hn; by apply Hx].
    rewrite Forall_forall in Hg. apply Hg. by apply list_elem_of_In. }
  rewrite staged_set_fresh.
  2: { assert (map fst (ou_files acc) = map fst (staged_files acc)) as -> by (unfold staged_files; by rewrite map_map).
       rewrite (encrypted_ids _ _ _ Hf). intros (x & Hxi & Hin)%in_map_iff. apply (Hap x Hin). by rewrite Hxi, Hid. }
  assert (staged_files (MkOutputs (ou_artifacts acc ++ [n]) (ou_files acc ++ [(ra_artifact_id n, Spooled dir name)])
                          (ou_bytes acc + blen b)) = staged_files acc ++ [(ra_artifact_id n, InSpool dir name)]) as Hs
    by (unfold staged_files; cbn [ou_files]; by rewrite map_app).
  split; rewrite ?Hs; cbn [ou_artifacts].
  - by right.
  - rewrite He. apply Forall2_app; [by apply encrypted_apart|]. constructor; [|constructor].
    split; [done|]. rewrite Hid. split; [done|]. exists b. by rewrite lookup_insert, decide_True.
  - rewrite He. intros k e [[<- <-]|[Hk Hl]]%lookup_insert_Some.
    + eexists. rewrite in_app_iff. split; [right; by left|done].
    + destruct (Ho _ _ Hl) as (f & Hfi & Hp). exists f. rewrite in_app_iff. auto.
  - apply Forall_app. split; [exact Hg|]. constructor; [|constructor]. exists t. by rewrite Hid, Hname.
Qed.

(** What the loop returns is staged. *)
Lemma stage_run l acc s acc' s' :
  NoDup (map ra_name (ou_artifacts acc) ++ map ea_name l) -> staging acc (mc_disk s) ->
  stage_outputs core lease l acc s = (Ok acc', s') ->
  staging acc' (mc_disk s') /\ map ra_name (ou_artifacts acc') = map ra_name (ou_artifacts acc) ++ map ea_name l.
Proof.
  revert acc s. induction l as [|a l IH]; intros acc s Hnd Hs H; cbn [stage_outputs] in H.
  - apply action_ret_ok in H as [-> ->]. by rewrite app_nil_r.
  - apply action_bind_ok in H as (t & s1 & H1 & H).
    destruct (List.find _ _) as [t'|] eqn:Ht in H1; [|done]. apply action_ret_ok in H1 as [<- ->].
    apply List.find_some in Ht as [Ht Hn%String.eqb_eq].
    apply action_bind_ok in H as (src & s2 & H2 & H). apply (stage_output_ok _ _ crypto) in H2 as (b & -> & Hd & He); [|done..].
    apply action_bind_ok in H as (c & s3 & H3 & H). injection H3 as Hb <-.
    cbn [staged_content] in Hb. rewrite He, lookup_insert, decide_True in Hb by done. injection Hb as <-.
    apply action_bind_ok in H as (n & s4 & H4 & H). apply lift_ok in H4 as [H4 ->].
    assert (forall x, In x (ou_artifacts acc) -> ra_name x <> ea_name a) as Hx.
    { intros x Hin Heq. apply NoDup_app in Hnd as (_ & Hnd & _).
      apply (Hnd (ra_name x)); [apply list_elem_of_In; by apply in_map|]. rewrite Heq. by left. }
    pose proof (staging_grows _ _ _ _ _ _ _ Hs Ht Hn Hx Hd He H4) as Hs'.
    pose proof (normalized_ok _ _ _ _ H4) as (_ & Hname & _).
    apply IH in H as [H1 H2]; [|cbn [ou_artifacts]; rewrite map_app, <- app_assoc; cbn; by rewrite Hname|exact Hs'].
    split; [exact H1|]. rewrite H2. cbn [ou_artifacts]. rewrite map_app, <- app_assoc. cbn. by rewrite Hname.
Qed.

Lemma staging_start d : entries_at dir d = ∅ -> staging (MkOutputs [] [] 0) d.
Proof. intros He. split; [by left|constructor| |constructor]. rewrite He. intros name e H. by rewrite lookup_empty in H. Qed.

(** What was staged can be saved. *)
Lemma staging_laid_out acc result d :
  staging acc d -> wr_artifacts result = ou_artifacts acc -> wr_artifacts result <> [] ->
  NoDup (map ra_name (ou_artifacts acc)) -> lease_reference (el_reference lease) = Ok (el_reference lease) ->
  usage_metrics (stored_usage (wr_usage result)) = Ok (stored_usage (wr_usage result)) ->
  laid_out (el_reference lease) result (staged_files acc) d.
Proof.
  intros [Hd Hf Ho Hg] Ha Hne Hnd Href Hu. unfold laid_out. rewrite Ha in *. split_and!; try done.
  - by destruct Hd.
  - eapply Forall2_impl; [exact Hf|]. apply encrypted_kept.
  - intros name e He. right. by apply (Ho name e).
  - clear Hf Ho Hd Ha Hne. induction (ou_artifacts acc) as [|a l IH]; [constructor|]. cbn in *.
    apply NoDup_cons in Hnd as [Hn Hnd]. apply Forall_cons in Hg as [Ga Hg]. constructor; [|by apply IH].
    rewrite list_elem_of_In in Hn |- *. intros (x & Hx & Hin)%in_map_iff.
    destruct Ga as (t & Ht & Htn & Hti). rewrite Forall_forall in Hg.
    specialize (Hg x ltac:(by apply list_elem_of_In)). apply (granted_apart x t Hg Ht).
    + rewrite Htn. intros Heq. apply Hn. rewrite <- Heq. by apply in_map.
    + by rewrite Hx, Hti.
Qed.
End Loop.
End Staging.
