(* ===== verification/Pending.v ===== *)
(** * An upload left pending is durable

    A worker that gives up an upload for now has its outputs in the spool, whatever else went
    wrong before, and an upload that a transport could not finish for now is never given up
    for good. *)

From stdpp Require Import gmap.
From S2P Require Import Prelude Python Bytes Effects Errors Metadata Schema Store Capability Encoding Signing Envelope.
From S2P Require Import Stream Work Spool Worker Local Receipts Durable Staging.

Open Scope Z_scope.

(** ** Uploading keeps the attempt *)

Definition calm_platform (P : Platform) : Platform := {|
  os_answer := fun _ => OsDone;
  windows := windows;
  temp_suffix := temp_suffix;
  text_size := text_size
|}.

(** What the first action returns, the second returns too. *)
Definition agrees {A} (m m' : Action disk A) : Prop := forall d a d', m d = (Ok a, d') -> m' d = (Ok a, d').

Lemma agrees_bind {A B} (m m' : Action disk A) (f f' : A -> Action disk B) :
  agrees m m' -> (forall a, agrees (f a) (f' a)) -> agrees (bind m f) (bind m' f').
Proof.
  intros Hm Hf d b d' H. apply action_bind_ok in H as (a & d1 & H1 & H). rewrite (bind_run _ _ _ _ _ (Hm _ _ _ H1)).
  by apply Hf.
Qed.

Section Uploading.
Context {E : Env} {P : Platform} {L : PlatformLaws}.

Lemma agrees_os_call : agrees os_call (@os_call (calm_platform P)).
Proof. intros d [] d' H. unfold os_call in *. by destruct (os_answer (dk_calls d)); simplify_eq. Qed.

Lemma agrees_guarded : agrees (os_guarded os_call) (os_guarded (@os_call (calm_platform P))).
Proof.
  intros d [] d' H. unfold os_guarded in *. apply catching_ok in H as [H|(e & d1 & _ & H)]; [|by destruct e].
  unfold catching. by rewrite (agrees_os_call _ _ _ H).
Qed.

Lemma agrees_same {A} (m : Action disk A) : agrees m m.
Proof. intros d a d' H. exact H. Qed.

Ltac solve_agrees :=
  repeat first [ apply agrees_same | apply agrees_os_call | apply agrees_guarded | apply agrees_bind; [|intros ?] ].

Lemma agrees_load att : agrees (@load_body E P att) (@load_body E (calm_platform P) att).
Proof.
  assert (forall dir table l files,
    agrees (@checked_files E P dir table l files) (@checked_files E (calm_platform P) dir table l files)) as Hf.
  { intros dir table l. induction l as [|a l IH]; intros files; cbn [checked_files]; [apply agrees_same|].
    apply agrees_bind; [unfold checked_file; solve_agrees|]. intros f. apply IH. }
  unfold load_body, read_manifest. repeat first [apply Hf | progress solve_agrees].
Qed.

Lemma load_inv p d q d' :
  holds p d -> load_upload (lr_attempt_id (pu_reference p)) d = (Ok q, d') -> q = reloaded p /\ dk_root d' = dk_root d.
Proof.
  intros Hh H. unfold load_upload in H. apply catching_ok in H as [H|(e & d1 & _ & H)]; [|by destruct (malformed e)].
  apply agrees_load in H. destruct (@load_holds E (calm_platform P) (fun _ => eq_refl) p d Hh) as (d2 & H2 & Hr).
  unfold load_upload, catching in H2. rewrite H in H2. by injection H2 as -> ->.
Qed.

Lemma stored_ids result : map ra_artifact_id (wr_artifacts (stored_result result)) = map ra_artifact_id (wr_artifacts result).
Proof. cbn. by rewrite map_map. Qed.

Lemma laid_out_stored reference result files d d' :
  laid_out reference result files d -> dk_root d' = dk_root d -> laid_out reference (stored_result result) files d'.
Proof.
  intros (Hd & Hf & Hdom & Hnd & Hne & Href & Hu) Hr. unfold laid_out.
  destruct (entries_root (_directory (lr_attempt_id reference)) _ _ Hr) as [-> ->]. rewrite stored_ids.
  split_and!; try done.
  - cbn. apply Forall2_fmap_l. eapply Forall2_impl; [exact Hf|]. done.
  - cbn. by destruct (wr_artifacts result).
Qed.

(** Saving changes the manifest only. *)
Lemma save_entries reference result files pending d p d' :
  laid_out reference result files d -> save_upload reference result files pending d = (Ok p, d') ->
  let dir := _directory (lr_attempt_id reference) in
  forall name, name <> _MANIFEST -> entries_at dir d' !! name = entries_at dir d !! name.
Proof.
  intros (Hd & _) H. destruct (save_ok _ _ _ _ _ _ _ H Hd) as (_ & _ & _ & _ & n & He).
  intros dir name Hn. fold dir in He. rewrite delete_id in He by apply temp_fresh. by rewrite He, lookup_insert_ne.
Qed.

(** Marking an artifact keeps the attempt, with its reference, result and files. *)
Lemma mark_holds p id d q d' :
  holds p d -> mark_uploaded (lr_attempt_id (pu_reference p)) id d = (Ok q, d') ->
  let dir := _directory (lr_attempt_id (pu_reference p)) in
  holds q d' /\ pu_reference q = pu_reference p /\ pu_result q = stored_result (pu_result p) /\
  pu_files q = pu_files p /\
  forall name, name <> _MANIFEST -> entries_at dir d' !! name = entries_at dir d !! name.
Proof.
  intros Hh H. unfold mark_uploaded in H. apply action_bind_ok in H as (x & d1 & H1 & H).
  destruct (load_inv _ _ _ _ Hh H1) as [-> Hr]. cbn [reloaded pu_reference pu_result pu_files pu_pending] in H.
  pose proof (laid_out_stored _ _ _ _ _ (holds_laid_out _ _ Hh) Hr) as Hl.
  destruct (save_holds _ _ _ _ _ _ _ Hl H) as [-> Hq]. split; [done|]. split_and!; [done..|].
  intros name Hn. rewrite (save_entries _ _ _ _ _ _ _ Hl H name Hn).
  by destruct (entries_root (_directory (lr_attempt_id (pu_reference p))) _ _ Hr) as [-> _].
Qed.
End Uploading.

(** ** The worker *)

Section Pending.
Context {E : Env} {SS : Secretstream} {P : Platform} {L : PlatformLaws} {W : Site}.

(** The spool and what was journaled stay as they are, and the log grows. *)
Definition undisturbed (s s' : machine) : Prop :=
  dk_root (mc_disk s') = dk_root (mc_disk s) /\ mc_journaled s' = mc_journaled s /\ extends s s'.

#[local] Instance undisturbed_preorder : PreOrder undisturbed.
Proof.
  split; [intros s; split_and!; [done..|by apply adds_nothing]|]. intros s1 s2 s3 (H1 & H2 & H3) (H4 & H5 & H6).
  split_and!; [congruence..|exact (transitivity H3 H6)].
Qed.

Lemma stays_same {A} (m : Action machine A) :
  (forall s, let s' := snd (m s) in
     dk_root (mc_disk s') = dk_root (mc_disk s) /\ mc_journaled s' = mc_journaled s /\ mc_log s' = mc_log s) ->
  follows undisturbed m.
Proof. intros H s. destruct (H s) as (H1 & H2 & H3). split_and!; try done. by apply adds_nothing. Qed.

Lemma stays_keeper r listens s : undisturbed s (keep_lease_alive r listens s).
Proof.
  split_and!; [| |by apply keeper_adds]; unfold keep_lease_alive, heartbeat, calling; destruct (mc_keeper s); try done;
    cbv zeta; (destruct (gw_heartbeat _ _ _) as [d|e]; [done|]; by destruct e).
Qed.

Lemma stays_interleave r listens : follows undisturbed (interleave r listens).
Proof.
  intros s. unfold interleave, writing. cbn [snd]. set (s0 := s <| mc_points := _ |>).
  transitivity s0; [by split_and!; try done; apply adds_nothing|]. generalize (keeper_steps (mc_points s)). intros n.
  induction n as [|n IH]; [reflexivity|]. etransitivity; [exact IH|]. apply stays_keeper.
Qed.

Lemma stays_calling {A} ask (tag : res A -> event) : follows undisturbed (calling ask tag).
Proof. intros s. split_and!; [done..|by apply grows_calling]. Qed.

Lemma stays_os_call : follows undisturbed (on_disk os_call).
Proof. by apply stays_same. Qed.

Lemma stays_ensure b e : follows undisturbed (ensure b e).
Proof. apply stays_same. intros s. by destruct b. Qed.

Create HintDb stays.
Hint Resolve stays_interleave stays_calling stays_os_call stays_ensure : stays.
Hint Extern 2 (follows undisturbed _) => (apply stays_same; intros; done) : stays.

Lemma stays_report r listens p : follows undisturbed (report r listens p).
Proof. unfold report, heartbeat_locked, heartbeat. solve_follows ltac:(auto with stays). Qed.

Lemma stays_script {X Y R} (callback : X -> Action machine Y) (t : script X Y R) :
  (forall x, follows undisturbed (callback x)) -> follows undisturbed (run_script callback t).
Proof.
  intros Hc. induction t as [x k IH|v|e]; [|intros s; reflexivity..]. intros s. cbn [run_script].
  specialize (Hc x s). destruct (callback x s) as [[y|e] s'].
  - etransitivity; [exact Hc|apply IH].
  - destruct e; solve [exact Hc|etransitivity; [exact Hc|apply IH]].
Qed.

Lemma stays_scripted {X Y R} (callback : X -> Action machine Y) (t : list event -> script X Y R) tag :
  (forall x, follows undisturbed (callback x)) -> follows undisturbed (scripted callback t tag).
Proof.
  intros Hc s. unfold scripted. cbv zeta. pose proof (stays_script callback (t (mc_log s)) Hc s) as Hr.
  etransitivity; [exact Hr|]. split_and!; [done..|]. by eapply extends_by.
Qed.

Lemma stays_transfer r listens base stage index count moved :
  follows undisturbed (on_transfer r listens base stage index count moved).
Proof. unfold on_transfer. solve_follows ltac:(auto using stays_report with stays). Qed.

Lemma stays_stop r listens : follows undisturbed (stop_keeper r listens).
Proof.
  apply follows_bind; [apply _|apply stays_interleave|]. intros []. intros s. cbn.
  destruct (mc_keeper s); try reflexivity; [by split_and!; try done; apply adds_nothing| |apply stays_keeper].
  etransitivity; apply stays_keeper.
Qed.

Lemma stays_locked {A} r listens (m : Action machine A) :
  follows undisturbed m -> follows undisturbed (heartbeat_locked r listens m).
Proof. intros Hm. unfold heartbeat_locked. solve_follows ltac:(first [exact Hm|auto with stays]). Qed.
Hint Resolve stays_report stays_scripted stays_transfer stays_stop stays_locked : stays.

Lemma stays_begin r : follows undisturbed (begin_execution r).
Proof. unfold begin_execution, is_cancelled, heartbeat_locked. solve_follows ltac:(auto with stays). Qed.

Lemma stays_execute r q : follows undisturbed (execute r q).
Proof.
  unfold execute. apply follows_bind; [apply _| |].
  - intros s. split_and!; [done..|]. by eapply extends_by.
  - intros []. apply stays_scripted. intros c. unfold executor_callback, is_cancelled.
    solve_follows ltac:(auto with stays).
Qed.

Lemma stays_fetch lease index l : follows undisturbed (fetch_inputs lease index l).
Proof.
  revert index. induction l as [|item l IH]; intros index; cbn [fetch_inputs]; [auto with stays|].
  unfold fetch_input, download. solve_follows ltac:(auto with stays).
Qed.

Lemma stays_accept core lease : follows undisturbed (accept_lease core lease).
Proof. unfold accept_lease. cbv zeta. solve_follows ltac:(auto with stays). Qed.
Hint Resolve stays_begin stays_execute stays_fetch stays_accept : stays.

(** Staging writes to the spool, without journaling yet. *)
Definition recorded (s s' : machine) : Prop := mc_journaled s' = mc_journaled s /\ extends s s'.

#[local] Instance recorded_preorder : PreOrder recorded.
Proof.
  split; [intros s; split; [done|by apply adds_nothing]|]. intros s1 s2 s3 [H1 H2] [H3 H4].
  split; [congruence|exact (transitivity H2 H4)].
Qed.

Lemma records_stage core lease l acc : follows recorded (stage_outputs core lease l acc).
Proof.
  assert (forall A (m : Action machine A),
    (forall s, mc_journaled (snd (m s)) = mc_journaled s /\ mc_log (snd (m s)) = mc_log s) -> follows recorded m) as Hs.
  { intros A m Hm s. destruct (Hm s). split; [done|by apply adds_nothing]. }
  revert acc. induction l as [|a l IH]; intros acc; cbn [stage_outputs]; [by apply Hs|].
  unfold stage_output, open_ciphertext, write_ciphertext. solve_follows ltac:(first [apply IH | by apply Hs]).
Qed.

Lemma usage_stored u v : usage_metrics u = Ok v -> usage_metrics (stored_usage v) = Ok (stored_usage v).
Proof.
  unfold usage_metrics. destruct (_ || _) eqn:Hb; [done|]. destruct (existsb _ _); [done|]. intros [= <-].
  cbn [stored_usage um_executor_wall_ms um_gpu_active_ms um_gpu_count um_input_bytes um_output_bytes um_frames
       um_duration_ms um_denoise_steps um_native existsb]. by rewrite Hb.
Qed.

Lemma result_ok x y : worker_result x = Ok y -> y = x /\ wr_artifacts x <> [].
Proof. unfold worker_result, value_unless. destruct (wr_artifacts x); [done|]. by intros [= <-]. Qed.

Lemma holds_root p d d' : dk_root d' = dk_root d -> holds p d -> holds p d'.
Proof.
  intros Hr. unfold holds. cbv zeta. destruct (entries_root (_directory (lr_attempt_id (pu_reference p))) _ _ Hr) as [-> ->].
  done.
Qed.

(** ** An attempt *)

Section Attempt.
Context (core : WorkerCore) (lease : ExecutionLease) (crypto : LeaseCryptoContext).
Context (Hj : wc_journal core = true) (Hc : el_crypto lease = Some crypto).
Context (Href : lease_reference (el_reference lease) = Ok (el_reference lease)).
Context (Hnames : NoDup (map (fun t => ciphertext_name (ad_artifact_id (ot_artifact t))) (el_outputs lease))).
Notation r := (el_reference lease).
Notation dir := (_directory (lr_attempt_id r)).

Definition executed (ex : ExecutionResult) (s : machine) : Prop := exists q, In (Executed q (Ok ex)) (mc_log s).

(** The spool holds the attempt with an encrypted file for each artifact the executor made. *)
Definition durable (ex : ExecutionResult) (s : machine) : Prop :=
  exists p, holds p (mc_disk s) /\ pu_reference p = r /\
    map ra_name (wr_artifacts (pu_result p)) = map ea_name (er_artifacts ex) /\
    Forall2 (encrypted lease (entries_at dir (mc_disk s))) (wr_artifacts (pu_result p)) (pu_files p).

Definition distinct_names (ex : ExecutionResult) : Prop := NoDup (map ea_name (er_artifacts ex)).

Definition spooled (s : machine) : Prop := exists ex, executed ex s /\ (distinct_names ex -> durable ex s).

Definition is_transfer (e : exc) : bool := match e with ArtifactTransferError _ _ _ => true | _ => false end.

(** A transfer error leaves what was journaled in the spool. *)
Definition kept (e : exc) (s : machine) : Prop := is_transfer e = true -> mc_journaled s = true -> spooled s.

Definition spooling (s : machine) : Prop := mc_journaled s = true /\ spooled s.

Lemma executed_extends ex s s' : extends s s' -> executed ex s -> executed ex s'.
Proof. intros (l & Hl & _) [q Hq]. exists q. rewrite Hl, in_app_iff. auto. Qed.

Lemma spooled_undisturbed s s' : undisturbed s s' -> spooled s -> spooled s'.
Proof.
  intros (Hd & _ & Hl) (ex & Hex & Hdur). exists ex. split; [by eapply executed_extends|]. intros Hn.
  destruct (Hdur Hn) as (p & Hp & Hr & Ha & Hf). exists p. split; [by eapply holds_root|].
  destruct (entries_root dir _ _ Hd) as [-> _]. done.
Qed.

Lemma keeps_undisturbed (I : machine -> Prop) {A} (m : Action machine A) :
  (forall s s', undisturbed s s' -> I s -> I s') -> follows undisturbed m -> keeps I m.
Proof. intros HI Hm s Hs. specialize (Hm s). destruct (m s) as [[] s']; by eapply HI. Qed.

Lemma spooling_undisturbed s s' : undisturbed s s' -> spooling s -> spooling s'.
Proof. intros H [Hjs Hs]. split; [by destruct H as (_ & -> & _)|by eapply spooled_undisturbed]. Qed.

Lemma spooling_kept e s : spooling s -> kept e s.
Proof. by intros [_ H] _ _. Qed.

Lemma unsaved_kept e s : mc_journaled s = false -> kept e s.
Proof. intros H _. congruence. Qed.

Lemma local_kept e s : foreign e = false -> kept e s.
Proof. intros H Ht. by destruct e. Qed.

Lemma encrypted_stored entries l fs :
  Forall2 (encrypted lease entries) l fs -> Forall2 (encrypted lease entries) (map stored_artifact l) fs.
Proof. intros H. apply Forall2_fmap_l. eapply Forall2_impl; [exact H|]. done. Qed.

Lemma encrypted_entries entries entries' l fs :
  (forall name, name <> _MANIFEST -> entries' !! name = entries !! name) ->
  Forall2 (encrypted lease entries) l fs -> Forall2 (encrypted lease entries') l fs.
Proof.
  intros He H. eapply Forall2_impl; [exact H|]. intros a f (Hid & Hp & b & Hb & Hs).
  split; [exact Hid|]. split; [exact Hp|]. exists b. rewrite He by apply ciphertext_manifest. done.
Qed.

Lemma mark_runs id :
  runs spooling (_ ← on_disk (mark_uploaded (lr_attempt_id r) id); mret tt) (fun _ => spooling) kept.
Proof.
  intros s [Hjs (ex & Hex & Hs)]. unfold bind, mbind, action_bind, on_disk. cbv zeta.
  pose proof (local_mark (lr_attempt_id r) id (mc_disk s) I) as Hl.
  destruct (mark_uploaded _ id (mc_disk s)) as [[q|e] d] eqn:Hm; cbn in *; [|by apply local_kept].
  split; [exact Hjs|]. exists ex. split; [exact Hex|]. intros Hn. destruct (Hs Hn) as (p & Hp & Hr & Ha & Hf).
  rewrite <- Hr in Hm. destruct (mark_holds _ _ _ _ _ Hp Hm) as (Hq & Hqr & Hqs & Hqf & Hqe). rewrite Hr in Hqe.
  exists q. rewrite Hqr, Hqs, Hqf. split_and!; [exact Hq|exact Hr| |].
  - cbn. by rewrite map_map.
  - apply encrypted_stored. by eapply encrypted_entries.
Qed.

Lemma stays_upload listens stage index count tk c : follows undisturbed (upload r listens stage index count tk c).
Proof. apply stays_scripted. intros x. apply stays_transfer. Qed.

Lemma uploads_run files count index l :
  runs spooling (upload_outputs lease files count index l) (fun _ => spooling) kept.
Proof.
  assert (forall e s, spooling s -> kept e s) as HX by (intros; by apply spooling_kept).
  revert index. induction l as [|a l IH]; intros index; cbn [upload_outputs]; [by apply runs_ret|].
  apply runs_lift; [apply HX|]. intros t _. apply runs_lift; [apply HX|]. intros f _.
  apply runs_step; [by apply keeps_pure|apply HX|]. intros c.
  apply runs_step; [apply keeps_undisturbed; [apply spooling_undisturbed|apply stays_upload]|apply HX|]. intros rc.
  apply runs_step; [apply keeps_ensure|apply HX|]. intros [].
  eapply (runs_bind _ _ _ (fun j s => j = true /\ spooling s)); [intros s Hs; by split; [apply Hs|]|].
  intros j s [-> Hs]. revert s Hs. change (runs spooling
    (bind (bind (on_disk (mark_uploaded (lr_attempt_id r) (ra_artifact_id a))) (fun _ => mret tt))
       (fun _ => upload_outputs lease files count (index + 1) l)) (fun _ => spooling) kept).
  eapply runs_bind; [apply mark_runs|]. intros []. apply IH.
Qed.

(** Discarding raises no transfer error. *)
Lemma discard_runs (I : machine -> Prop) :
  runs I (discard_if_journaled core r) (fun _ _ => True) (fun e _ => foreign e = false).
Proof.
  assert (forall m : Action disk unit, local m ->
    runs (fun _ => True) (on_disk m) (fun _ _ => True) (fun e _ => foreign e = false)) as Hd.
  { intros m Hm s _. specialize (Hm (mc_disk s) Logic.I). unfold on_disk. cbv zeta. by destruct (m (mc_disk s)) as [[] ?]. }
  destruct (local_discard (lr_attempt_id r)) as [H1 H2].
  apply (runs_weaken I (fun _ => True) _ (fun _ _ => True) (fun _ _ => True)
           (fun e _ => foreign e = false) (fun e _ => foreign e = false)); [|done|done|done].
  unfold discard_if_journaled. eapply (runs_bind _ _ _ (fun _ _ => True)); [done|]. intros j. destruct j; [|by apply runs_ret].
  unfold _discard_pending_attempt. destruct (wc_journal core); [|by apply runs_ret]. unfold on_journal_error.
  eapply runs_catching; [by apply Hd|done|]. intros e He. destruct e; try (intros s H; exact H).
  eapply runs_catching with (Y := fun e _ => foreign e = false); [|done|].
  - eapply runs_weaken; [by apply Hd|done|done|done].
  - intros e _. destruct e; try (intros s H; exact H). done.
Qed.

Lemma stays_report_failure f : follows undisturbed (stop_and_report r f).
Proof.
  unfold stop_and_report, _report_failure, lease_lost, failure_of. solve_follows ltac:(auto with stays).
Qed.

Lemma stays_report_cancelled usage :
  follows undisturbed (failure ← execution_cancelled usage; stop_and_report r failure).
Proof.
  unfold execution_cancelled, failure_of. apply follows_bind; [apply _|auto with stays|]. intros f. apply stays_report_failure.
Qed.

(** Before the manifest is saved: the outputs are staged. *)
Definition unsaved (ex : ExecutionResult) (staged : outputs) (s : machine) : Prop :=
  mc_journaled s = false /\ executed ex s /\
  (distinct_names ex -> staging lease staged (mc_disk s) /\ map ra_name (ou_artifacts staged) = map ea_name (er_artifacts ex)).

Lemma unsaved_undisturbed ex staged s s' : undisturbed s s' -> unsaved ex staged s -> unsaved ex staged s'.
Proof.
  intros (Hd & Hjs & Hl) (H1 & H2 & H3). split; [congruence|]. split; [by eapply executed_extends|].
  intros Hn. destruct (H3 Hn) as [[G1 G2 G3 G4] Hm]. split; [|exact Hm].
  destruct (entries_root dir _ _ Hd) as [He Hdir]. by split; rewrite ?He, ?Hdir.
Qed.

Lemma reported_kept (I : machine -> Prop) usage :
  (forall s, I s -> mc_journaled s = false) ->
  runs I (failure ← execution_cancelled usage; stop_and_report r failure) (fun _ _ => True) kept.
Proof.
  intros HI s Hs. destruct (stays_report_cancelled usage s) as (_ & Hjs & _). apply HI in Hs.
  destruct (bind (execution_cancelled usage) _ s) as [[o|e] s']; [done|]. cbn in Hjs. apply unsaved_kept. congruence.
Qed.

Lemma save_runs ex staged result :
  wr_artifacts result = ou_artifacts staged -> wr_artifacts result <> [] ->
  usage_metrics (stored_usage (wr_usage result)) = Ok (stored_usage (wr_usage result)) ->
  runs (unsaved ex staged)
    (_ ← on_disk (save_upload r result (staged_files staged) None); writing (fun s => s <| mc_journaled := true |>))
    (fun _ => spooling) kept.
Proof.
  intros Ha Hne Hu s (Hjs & Hex & Hs). unfold bind, mbind, action_bind, on_disk, writing. cbv zeta.
  pose proof (local_save r result (staged_files staged) None (mc_disk s) Logic.I) as Hloc.
  destruct (save_upload r result (staged_files staged) None (mc_disk s)) as [[p|e] d] eqn:Hsave; cbn in *; [|by apply local_kept].
  split; [done|]. exists ex. split; [exact Hex|]. intros Hn. destruct (Hs Hn) as [Hst Hnm].
  pose proof (staging_laid_out lease Hnames staged result _ Hst Ha Hne ltac:(by rewrite Hnm) Href Hu) as Hl.
  destruct (save_holds _ _ _ _ _ _ _ Hl Hsave) as [-> Hh]. eexists. split; [exact Hh|]. cbn [pu_reference pu_result pu_files mc_disk].
  split; [done|]. split; [by rewrite Ha|]. eapply encrypted_entries; [by eapply save_entries|].
  rewrite Ha. by destruct Hst.
Qed.

Lemma attempt_deliver_runs ex staged usage result :
  wr_artifacts result = ou_artifacts staged -> wr_artifacts result <> [] ->
  usage_metrics (stored_usage (wr_usage result)) = Ok (stored_usage (wr_usage result)) ->
  runs (unsaved ex staged) (deliver core lease staged usage result) (fun _ _ => True) kept.
Proof.
  intros Ha Hne Hu. unfold deliver. cbv zeta. rewrite Hj, Hc. cbn [andb].
  eapply (runs_bind _ _ _ (fun _ => spooling)); [by apply save_runs|].
  intros []. eapply runs_bind; [apply uploads_run|]. intros []. cbv beta.
  assert (forall (e : exc) s, spooling s -> kept e s) as HX by (intros; by apply spooling_kept).
  assert (forall A (m : Action machine A), follows undisturbed m -> keeps spooling m) as HK
    by (intros; apply keeps_undisturbed; [apply spooling_undisturbed|done]).
  assert (forall (I : machine -> Prop), runs I (discard_if_journaled core r) (fun _ _ => True) kept) as HD.
  { intros I. eapply runs_weaken; [apply discard_runs|done|done|]. intros e s He. by apply local_kept. }
  apply runs_step; [apply HK; auto with stays|done|]. intros cancelled. destruct cancelled.
  - eapply (runs_bind _ _ _ (fun _ _ => True)); [apply HD|].
    intros []. eapply (runs_bind _ _ _ (fun _ s => mc_journaled s = false)); [done|]. intros []. by apply reported_kept.
  - apply runs_step; [apply HK, stays_stop|done|]. intros [].
    apply runs_step; [apply HK; auto with stays|done|]. intros [].
    eapply (runs_bind _ _ _ (fun _ _ => True)); [apply HD|done].
Qed.

(** Before the execution: nothing of the attempt is in the spool. *)
Definition fresh (s : machine) : Prop := mc_journaled s = false /\ entries_at dir (mc_disk s) = ∅.

Lemma fresh_undisturbed s s' : undisturbed s s' -> fresh s -> fresh s'.
Proof.
  intros (Hd & Hjs & _) [H1 H2]. split; [congruence|]. destruct (entries_root dir _ _ Hd) as [He _]. congruence.
Qed.

Lemma attempt_execute_runs q : runs fresh (execute r q) (fun ex s => fresh s /\ executed ex s) kept.
Proof.
  intros s Hs. pose proof (fresh_undisturbed _ _ (stays_execute r q s) Hs) as Hf.
  destruct (execute r q s) as [[ex|e] s'] eqn:He; [|by apply unsaved_kept, Hf]. split; [exact Hf|].
  unfold execute, bind, mbind, action_bind, writing, scripted in He. cbv zeta in He. injection He as Ha <-.
  exists q. cbn. rewrite Ha, in_app_iff. right. by left.
Qed.

Lemma stage_runs ex :
  runs (fun s => fresh s /\ executed ex s) (stage_outputs core lease (er_artifacts ex) (MkOutputs [] [] 0))
    (unsaved ex) kept.
Proof.
  intros s [[Hjs He] Hex]. pose proof (records_stage core lease (er_artifacts ex) (MkOutputs [] [] 0) s) as [Hr Hl].
  destruct (stage_outputs _ _ _ _ s) as [[acc|e] s'] eqn:Hrun; cbn in Hr, Hl; [|apply unsaved_kept; congruence].
  split; [congruence|]. split; [by eapply executed_extends|]. intros Hn.
  apply (stage_run core lease Hnames crypto Hj Hc) in Hrun; [exact Hrun|exact Hn|by apply staging_start].
Qed.

Lemma attempt_body_runs : runs fresh (process_body core lease) (fun _ _ => True) kept.
Proof.
  assert (forall e s, fresh s -> kept e s) as HF by (intros e s [H _]; by apply unsaved_kept).
  assert (forall A (m : Action machine A), follows undisturbed m -> keeps fresh m) as HK
    by (intros; apply keeps_undisturbed; [apply fresh_undisturbed|done]).
  assert (forall e s ex staged, unsaved ex staged s -> kept e s) as HU by (intros e s ex staged [H _]; by apply unsaved_kept).
  assert (forall A (m : Action machine A) ex staged, follows undisturbed m -> keeps (unsaved ex staged) m) as HS
    by (intros; apply keeps_undisturbed; [apply unsaved_undisturbed|done]).
  unfold process_body. cbv zeta. do 8 (apply runs_step;
    [apply HK; solve [auto with stays|solve_follows ltac:(auto with stays)]|apply HF|intros ?]).
  apply runs_lift; [apply HF|]. intros q _.
  eapply runs_bind; [apply attempt_execute_runs|]. intros ex.
  assert (forall e s, fresh s /\ executed ex s -> kept e s) as HE by (intros e s [H _]; by apply HF).
  assert (forall A (m : Action machine A), follows undisturbed m -> keeps (fun s => fresh s /\ executed ex s) m) as HX.
  { intros A m Hm. apply keeps_undisturbed; [|exact Hm]. intros s s' Hu [H1 H2].
    split; [by eapply fresh_undisturbed|]. eapply executed_extends; [apply Hu|exact H2]. }
  do 3 (apply runs_step; [apply HX; auto with stays|apply HE|intros ?]).
  eapply runs_bind; [apply stage_runs|]. intros staged. cbv beta.
  apply runs_step; [apply HS; auto with stays|intros; by eapply HU|intros input_bytes].
  apply runs_lift; [intros; by eapply HU|]. intros usage Husage%usage_stored.
  apply runs_step; [apply HS; unfold is_cancelled; solve_follows ltac:(auto with stays)|intros; by eapply HU|].
  intros [|]; [by apply reported_kept; intros s []|].
  apply runs_lift; [intros; by eapply HU|]. intros result [-> Hne]%result_ok. by apply attempt_deliver_runs.
Qed.

(** *** The handlers *)

Context (Hfail : forall h f att, gw_fail h r f <> Raise (UploadPendingError att)).

(** An action that does not leave the upload pending. *)
Definition settles {A} (m : Action machine A) : Prop :=
  runs (fun _ => True) m (fun _ _ => True) (fun e _ => forall att, e <> UploadPendingError att).

Lemma settles_bind {A B} (m : Action machine A) (f : A -> Action machine B) :
  settles m -> (forall a, settles (f a)) -> settles (bind m f).
Proof. intros Hm Hf. eapply runs_bind; [exact Hm|exact Hf]. Qed.

Lemma settles_lift {A} (v : res A) : tame v -> settles (lift v).
Proof. intros Hv s _. unfold lift. destruct v as [a|e]; [done|]. specialize (Hv e eq_refl). intros att ->. done. Qed.

Lemma settles_fail {A} e : (forall att, e <> UploadPendingError att) -> settles (fail e : Action machine A).
Proof. by intros H s _. Qed.

Lemma settles_discard : settles (discard_if_journaled core r).
Proof. eapply runs_weaken; [apply (discard_runs (fun _ => True))|done|done|]. intros e s He att ->. done. Qed.

Lemma settles_report f : settles (stop_and_report r f).
Proof.
  unfold stop_and_report. apply settles_bind; [done|]. intros []. unfold _report_failure.
  eapply runs_catching with (Y := fun e _ => forall att, e <> UploadPendingError att); [|done|].
  - eapply (runs_bind _ _ _ (fun _ _ => True)); [|done]. intros s _. unfold calling. cbv zeta.
    pose proof (Hfail (mc_log s) f) as H. destruct (gw_fail _ _ _) as [[]|e]; [done|]. intros att ->. by apply (H att).
  - intros e _ s He. destruct e; try exact He. done.
Qed.

Ltac solve_settles :=
  repeat first
    [ progress intros
    | apply settles_report
    | apply settles_discard
    | apply settles_lift; solve [auto with tame]
    | apply settles_fail; discriminate
    | solve [intros ? ?; exact I]
    | apply settles_bind
    | match goal with
      | |- settles (if ?b then _ else _) => destruct b
      | |- settles (match ?v with _ => _ end) => destruct v
      end ].

(** Only a retryable transfer error leaves an upload pending, and nothing is touched then. *)
Lemma failed_pending e s att s' :
  process_failed core lease e s = (Raise (UploadPendingError att), s') ->
  att = lr_attempt_id r /\ is_transfer e = true /\ mc_journaled s = true /\ s' = s.
Proof.
  intros H. destruct (is_transfer e) eqn:He.
  - destruct e as [| | | | | | | | | | | | | | | | | | | | | |op retryable code| | |]; try done.
    unfold process_failed in H. cbv zeta in H. unfold bind at 1, mbind at 1, action_bind at 1, reading at 1 in H.
    unfold bind at 1, mbind at 1, action_bind at 1, reading at 1 in H.
    unfold bind at 1, mbind at 1, action_bind at 1, reading at 1 in H. cbn beta iota in H.
    destruct (String.eqb (mc_phase s) "uploading" && mc_journaled s && retryable) eqn:Hb.
    + injection H as <- <-. apply andb_true_iff in Hb as [Hb _]. apply andb_true_iff in Hb as [_ Hb]. done.
    + exfalso. match type of H with ?m s = _ => assert (settles m) as Hset end.
      { unfold failure_of. solve_settles. }
      specialize (Hset s I). rewrite H in Hset. by apply (Hset att).
  - exfalso. assert (settles (process_failed core lease e)) as Hset.
    { unfold process_failed, lease_lost, failure_of. cbv zeta. do 3 (apply settles_bind; [done|intros ?]).
      destruct e; try discriminate He; solve_settles. }
    specialize (Hset s I). rewrite H in Hset. by apply (Hset att).
Qed.

(** *** An interrupted upload *)

(** A transport could not finish an upload for now. *)
Definition interrupted (e : event) : bool :=
  match e with Push _ _ (Raise (ArtifactTransferError _ true _)) => true | _ => false end.
Definition quiet (e : event) : Prop := interrupted e = false.

(** No upload is interrupted, and the handlers' variables stay. *)
Definition onward (s s' : machine) : Prop :=
  adds quiet s s' /\ mc_phase s' = mc_phase s /\ mc_journaled s' = mc_journaled s.

#[local] Instance onward_preorder : PreOrder onward.
Proof.
  split; [intros s; by split_and!; try done; apply adds_nothing|]. intros s1 s2 s3 (H1 & H2 & H3) (H4 & H5 & H6).
  split_and!; [exact (transitivity H1 H4)|congruence..].
Qed.

Lemma onward_same {A} (m : Action machine A) :
  (forall s, let s' := snd (m s) in
     mc_log s' = mc_log s /\ mc_phase s' = mc_phase s /\ mc_journaled s' = mc_journaled s) -> follows onward m.
Proof. intros H s. destruct (H s) as (H1 & H2). split; [by apply adds_nothing|done]. Qed.

Lemma onward_calling {A} ask (tag : res A -> event) : (forall a, quiet (tag a)) -> follows onward (calling ask tag).
Proof. intros H s. split; [by apply grows_calling|done]. Qed.

Lemma onward_keeper listens s : onward s (keep_lease_alive r listens s).
Proof.
  split; [by apply keeper_adds|]. unfold keep_lease_alive, heartbeat, calling. destruct (mc_keeper s); try done.
  cbv zeta. destruct (gw_heartbeat _ _ _) as [d|e]; [done|]. by destruct e.
Qed.

Lemma onward_interleave listens : follows onward (interleave r listens).
Proof.
  intros s. unfold interleave, writing. cbn [snd]. set (s0 := s <| mc_points := _ |>).
  transitivity s0; [by split; [apply adds_nothing|]|]. generalize (keeper_steps (mc_points s)). intros n.
  induction n as [|n IH]; [reflexivity|]. etransitivity; [exact IH|]. apply onward_keeper.
Qed.

Lemma onward_ensure b e : follows onward (ensure b e).
Proof. apply onward_same. intros s. by destruct b. Qed.

Create HintDb onward.
Hint Resolve onward_interleave onward_ensure : onward.
Hint Extern 1 (follows onward (calling _ _)) => (apply onward_calling; intros; reflexivity) : onward.
Hint Extern 2 (follows onward (on_disk _)) => (apply onward_same; intros; done) : onward.
Hint Extern 3 (follows onward _) => (apply onward_same; intros; done) : onward.

Lemma onward_report listens p : follows onward (report r listens p).
Proof. unfold report, heartbeat_locked, heartbeat. solve_follows ltac:(auto with onward). Qed.

Lemma onward_script {X Y R} (callback : X -> Action machine Y) (t : script X Y R) :
  (forall x, follows onward (callback x)) -> follows onward (run_script callback t).
Proof.
  intros Hcb. induction t as [x k IH|v|e]; [|intros s; reflexivity..]. intros s. cbn [run_script].
  specialize (Hcb x s). destruct (callback x s) as [[y|e] s'].
  - etransitivity; [exact Hcb|apply IH].
  - destruct e; solve [exact Hcb|etransitivity; [exact Hcb|apply IH]].
Qed.

Lemma onward_scripted {X Y R} (callback : X -> Action machine Y) (t : list event -> script X Y R) tag :
  (forall x, follows onward (callback x)) -> (forall a, quiet (tag a)) -> follows onward (scripted callback t tag).
Proof.
  intros Hcb Ht s. unfold scripted. cbv zeta. etransitivity; [apply (onward_script callback (t (mc_log s)) Hcb)|].
  split; [by eapply adds_one|done].
Qed.

Lemma onward_transfer listens base stage index count moved :
  follows onward (on_transfer r listens base stage index count moved).
Proof. unfold on_transfer. solve_follows ltac:(auto using onward_report with onward). Qed.
Hint Resolve onward_report onward_transfer : onward.

Lemma onward_stop listens : follows onward (stop_keeper r listens).
Proof.
  apply follows_bind; [apply _|apply onward_interleave|]. intros []. intros s. cbn.
  destruct (mc_keeper s); try reflexivity; [by split; [apply adds_nothing|]| |apply onward_keeper].
  etransitivity; apply onward_keeper.
Qed.

Lemma onward_cancelled : follows onward (is_cancelled r).
Proof. unfold is_cancelled. solve_follows ltac:(auto with onward). Qed.
Hint Resolve onward_stop onward_cancelled : onward.

Lemma onward_execute q : follows onward (execute r q).
Proof.
  unfold execute. apply follows_bind; [apply _| |].
  - intros s. split; [by eapply (adds_one _ (Executing q))|done].
  - intros []. apply onward_scripted; [|done]. intros c. unfold executor_callback. solve_follows ltac:(auto with onward).
Qed.

Lemma onward_fetch index l : follows onward (fetch_inputs lease index l).
Proof.
  revert index. induction l as [|item l IH]; intros index; cbn [fetch_inputs]; [auto with onward|].
  unfold fetch_input, download. solve_follows ltac:(first
    [apply IH | apply onward_scripted; [intros; apply onward_transfer|done] | auto with onward]).
Qed.

Lemma onward_accept : follows onward (accept_lease core lease).
Proof. unfold accept_lease. cbv zeta. solve_follows ltac:(auto with onward). Qed.

Lemma onward_stage l acc : follows onward (stage_outputs core lease l acc).
Proof.
  revert acc. induction l as [|a l IH]; intros acc; cbn [stage_outputs]; [auto with onward|].
  unfold stage_output, open_ciphertext, write_ciphertext. solve_follows ltac:(auto with onward).
Qed.

Lemma onward_discard : follows onward (discard_if_journaled core r).
Proof.
  unfold discard_if_journaled, _discard_pending_attempt, on_journal_error. solve_follows ltac:(auto with onward).
Qed.

Lemma onward_stop_report f : follows onward (stop_and_report r f).
Proof. unfold stop_and_report, _report_failure, lease_lost, failure_of. solve_follows ltac:(auto with onward). Qed.
Hint Resolve onward_execute onward_fetch onward_accept onward_stage onward_discard onward_stop_report : onward.

Section Interruption.
Context (s0 : machine).

Definition clear (s : machine) : Prop := adds quiet s0 s.
Definition ready (s : machine) : Prop := clear s /\ mc_phase s = "uploading".
Definition uploading (s : machine) : Prop := ready s /\ mc_journaled s = true.

Definition resumable (e : exc) : Prop := exists op code, e = ArtifactTransferError op true code.

(** An upload was interrupted only if that exception is the one that is raised. *)
Definition pendable (e : exc) (s : machine) : Prop :=
  clear s \/ (mc_phase s = "uploading" /\ mc_journaled s = true /\ resumable e).

Lemma clear_onward s s' : onward s s' -> clear s -> clear s'.
Proof. intros [H _] Hs. exact (transitivity Hs H). Qed.

Lemma ready_onward s s' : onward s s' -> ready s -> ready s'.
Proof. intros H [Hs Hp]. split; [by eapply clear_onward|]. destruct H as (_ & -> & _). done. Qed.

Lemma uploading_onward s s' : onward s s' -> uploading s -> uploading s'.
Proof. intros H [Hs Hjs]. split; [by eapply ready_onward|]. destruct H as (_ & _ & ->). done. Qed.

Lemma keeps_onward (I : machine -> Prop) {A} (m : Action machine A) :
  (forall s s', onward s s' -> I s -> I s') -> follows onward m -> keeps I m.
Proof. intros HI Hm s Hs. specialize (Hm s). destruct (m s) as [[] s']; by eapply HI. Qed.

Lemma clear_pendable e s : clear s -> pendable e s.
Proof. by left. Qed.

Lemma upload_step index count t c :
  runs uploading (upload r true "uploading_outputs" index count t c) (fun _ => uploading) pendable.
Proof.
  intros s Hs. unfold upload, scripted. cbv zeta.
  match goal with |- context [run_script ?cb ?sc s] =>
    pose proof (onward_script cb sc (onward_transfer _ _ _ _ _) s) as Ho end.
  apply uploading_onward in Ho; [|exact Hs]. destruct (run_script _ _ s) as [a s1]. cbn [fst snd] in *.
  assert (interrupted (Push t c a) = false -> uploading (s1 <| mc_log := mc_log s1 ++ [Push t c a] |>)) as Hq.
  { intros Hi. eapply uploading_onward; [|exact Ho]. split; [by eapply adds_one|done]. }
  destruct a as [receipt|e]; [by apply Hq|]. destruct Ho as [[_ Hp] Hjs].
  destruct e; try (left; by apply Hq). destruct retryable; [|left; by apply Hq]. right. split_and!; try done. by do 2 eexists.
Qed.

Lemma uploads_pendable files count index l :
  runs uploading (upload_outputs lease files count index l) (fun _ => uploading) pendable.
Proof.
  assert (forall e s, uploading s -> pendable e s) as HX by (intros e s [[H _] _]; by left).
  assert (forall A (m : Action machine A), follows onward m -> keeps uploading m) as HK
    by (intros; apply keeps_onward; [apply uploading_onward|done]).
  revert index. induction l as [|a l IH]; intros index; cbn [upload_outputs]; [by apply runs_ret|].
  apply runs_lift; [apply HX|]. intros t _. apply runs_lift; [apply HX|]. intros f _.
  apply runs_step; [by apply keeps_pure|apply HX|]. intros c.
  eapply runs_bind; [apply upload_step|]. intros rc.
  apply runs_step; [apply keeps_ensure|apply HX|]. intros [].
  apply runs_step; [apply HK; auto with onward|apply HX|]. intros j.
  apply runs_step; [apply HK; solve_follows ltac:(auto with onward)|apply HX|]. intros []. apply IH.
Qed.

Lemma reported_clear (I : machine -> Prop) usage :
  (forall s, I s -> clear s) ->
  runs I (failure ← execution_cancelled usage; stop_and_report r failure) (fun _ => clear) pendable.
Proof.
  intros HI. eapply (runs_weaken _ clear _ _ (fun _ => clear) _ (fun _ => clear)); [|exact HI|done|by left].
  apply keeps_onward; [apply clear_onward|]. unfold execution_cancelled, failure_of. solve_follows ltac:(auto with onward).
Qed.

Lemma deliver_pendable staged usage result :
  runs ready (deliver core lease staged usage result) (fun _ => clear) pendable.
Proof.
  assert (forall A (m : Action machine A), follows onward m -> runs uploading m (fun _ => uploading) pendable) as HK.
  { intros A m Hm. eapply runs_weaken; [by apply (keeps_onward uploading); [apply uploading_onward|]|done|done|].
    intros e s [[H _] _]. by left. }
  unfold deliver. cbv zeta. rewrite Hj, Hc. cbn [andb].
  eapply (runs_bind _ _ _ (fun _ => uploading)).
  { eapply (runs_bind _ _ _ (fun _ => ready)).
    - eapply runs_weaken; [apply (keeps_onward ready); [apply ready_onward|auto with onward]|done|done|]. intros e s [H _]. by left.
    - intros p. apply runs_writing. intros s Hs. done. }
  intros []. eapply runs_bind; [apply uploads_pendable|]. intros [].
  eapply runs_bind; [apply HK; unfold heartbeat_locked; solve_follows ltac:(auto with onward)|]. intros [|].
  - eapply runs_bind; [apply HK; auto with onward|]. intros [].
    eapply (runs_bind _ _ _ (fun _ => clear)); [intros s [[H _] _]; exact H|]. intros []. by apply reported_clear.
  - eapply runs_bind; [apply HK; auto with onward|]. intros [].
    eapply runs_bind; [apply HK; auto with onward|]. intros [].
    eapply runs_bind; [apply HK; auto with onward|]. intros []. apply runs_ret. by intros s [[H _] _].
Qed.

Lemma begin_clear : keeps clear (begin_execution r).
Proof.
  assert (forall A (m : Action machine A), follows onward m -> keeps clear m) as HK
    by (intros; apply keeps_onward; [apply clear_onward|done]).
  unfold begin_execution, heartbeat_locked. solve_keeps ltac:(first [apply HK; solve [auto with onward] | solve [intros ? Hs; exact Hs]]).
Qed.

Lemma body_pendable : runs clear (process_body core lease) (fun _ => clear) pendable.
Proof.
  assert (forall A (m : Action machine A), follows onward m -> keeps clear m) as HK
    by (intros; apply keeps_onward; [apply clear_onward|done]).
  assert (forall A (m : Action machine A), follows onward m -> keeps ready m) as HR
    by (intros; apply keeps_onward; [apply ready_onward|done]).
  assert (forall e s, ready s -> pendable e s) as HX by (intros e s [H _]; by left).
  unfold process_body. cbv zeta. do 8 (apply runs_step;
    [first [apply begin_clear | apply HK; solve [auto with onward|solve_follows ltac:(auto with onward)]]
    |intros; by left|intros ?]).
  apply runs_lift; [intros; by left|]. intros q _.
  apply runs_step; [apply HK; auto with onward|intros; by left|]. intros ex.
  apply runs_step; [apply HK; unfold heartbeat_locked; solve_follows ltac:(auto with onward)|intros; by left|]. intros [].
  apply runs_step; [apply HK; auto with onward|intros; by left|]. intros stopped.
  eapply (runs_bind _ _ _ (fun _ => ready)); [by apply runs_writing|]. intros [].
  apply runs_step; [apply HR; auto with onward|apply HX|]. intros staged.
  apply runs_step; [apply HR; auto with onward|apply HX|]. intros input_bytes.
  apply runs_lift; [apply HX|]. intros usage _.
  apply runs_step; [apply HR; auto with onward|apply HX|]. intros [|]; [by apply reported_clear; intros s []|].
  apply runs_lift; [apply HX|]. intros result _. apply deliver_pendable.
Qed.

Lemma failed_clear e : keeps clear (process_failed core lease e).
Proof.
  assert (forall A (m : Action machine A), follows onward m -> keeps clear m) as HK
    by (intros; apply keeps_onward; [apply clear_onward|done]).
  unfold process_failed, lease_lost, failure_of. cbv zeta.
  solve_keeps ltac:(first [apply HK; solve [auto with onward] | solve [intros ? Hs; exact Hs]]).
Qed.

(** The handlers keep an interrupted upload pending. *)
Lemma attempt_failed_runs e :
  runs (pendable e) (process_failed core lease e) (fun _ => clear)
    (fun e' s => clear s \/ e' = UploadPendingError (lr_attempt_id r)).
Proof.
  intros s [Hs|(Hp & Hjs & op & code & ->)].
  - pose proof (failed_clear e s Hs) as H. destruct (process_failed core lease e s) as [[] s']; [exact H|by left].
  - unfold process_failed, bind, mbind, action_bind, reading. rewrite Hp, Hjs. by right.
Qed.

Lemma attempt_clear :
  runs clear (catching (process_body core lease) (process_failed core lease)) (fun _ => clear)
    (fun e s => clear s \/ e = UploadPendingError (lr_attempt_id r)).
Proof.
  eapply runs_catching; [apply body_pendable| |intros e _; apply attempt_failed_runs].
  intros s [Hs|(_ & _ & op & code & He)]; [by left|done].
Qed.
End Interruption.

Lemma attempt_spooled :
  runs fresh (catching (process_body core lease) (process_failed core lease)) (fun _ _ => True)
    (fun e s => forall att, e = UploadPendingError att -> att = lr_attempt_id r /\ spooled s).
Proof.
  eapply runs_catching; [apply attempt_body_runs|done|]. intros e _ s Hk.
  destruct (process_failed core lease e s) as [[o|e'] s'] eqn:Hf; [done|]. intros att ->.
  apply failed_pending in Hf as (Ha & Ht & Hjs & ->). split; [exact Ha|]. by apply Hk.
Qed.

Lemma spooled_loads s :
  (forall q ex, In (Executed q (Ok ex)) (mc_log s) -> NoDup (map ea_name (er_artifacts ex))) -> spooled s ->
  exists q ex p d, In (Executed q (Ok ex)) (mc_log s) /\
    @load_upload E (calm_platform P) (lr_attempt_id r) (mc_disk s) = (Ok p, d) /\
    pu_reference p = r /\ map ra_name (wr_artifacts (pu_result p)) = map ea_name (er_artifacts ex) /\
    Forall2 (encrypted lease (entries_at dir (mc_disk s))) (wr_artifacts (pu_result p)) (pu_files p).
Proof.
  intros Hd (ex & [q Hq] & Hs). destruct (Hs (Hd _ _ Hq)) as (p & Hp & Hr & Ha & Hf).
  destruct (@load_holds E (calm_platform P) (fun _ => eq_refl) p _ Hp) as (d & Hl & _). rewrite Hr in Hl.
  exists q, ex, (reloaded p), d. split_and!; [exact Hq|exact Hl|exact Hr| |].
  - cbn. by rewrite map_map.
  - by apply encrypted_stored.
Qed.
End Attempt.

End Pending.
