(* ===== verification/Resume.v ===== *)
(** * Resuming an upload

    What a worker says when it resumes an upload: it never executes again, it speaks only for
    the lease of the oldest attempt of the spool, and it completes that attempt only with the
    stored result, once every output still pending has been received whole. *)

From S2P Require Import Prelude Python Bytes Effects Errors Metadata Schema Store Capability Encoding Signing Envelope.
From S2P Require Import Stream Work Spool Worker Local Loss Receipts Durable.

Open Scope Z_scope.

Section Resume.
Context {E : Env} {SS : Secretstream} {P : Platform} {W : Site}.

(** What may be said for a pending upload. *)
Definition resuming (p : PendingUpload) (e : event) : Prop :=
  let r := pu_reference p in
  match e with
  | Beat r' _ _ => r' = r
  | Renew r' ids _ => r' = r /\ ids = sorted_ids (pu_pending p)
  | Push _ _ _ => True
  | Complete r' result _ => r' = r /\ result = pu_result p
  | Report r' _ _ => r' = r
  | Start _ _ | Fetch _ _ | Executing _ | Executed _ _ => False
  end.

Section Pending.
Context (core : WorkerCore) (p : PendingUpload).
Notation r := (pu_reference p).
Notation speaks := (follows (adds (resuming p))).

Hint Extern 1 (resuming _ _) => (by cbn) : grows.

Lemma speaks_discard id : speaks (_discard_pending_attempt core id).
Proof. unfold _discard_pending_attempt, on_journal_error. solve_follows ltac:(auto with grows). Qed.

Lemma speaks_report f : speaks (resumed_report r f).
Proof. unfold resumed_report, _report_failure, lease_lost, failure_of. solve_follows ltac:(auto with grows). Qed.
Hint Resolve speaks_discard speaks_report : grows.

Lemma speaks_corrupt : speaks (corrupt_output p).
Proof. unfold corrupt_output, on_journal_error, durable_failure, failure_of. solve_follows ltac:(auto with grows). Qed.
Hint Resolve speaks_corrupt : grows.

Lemma speaks_uploads tickets total index ids : speaks (resume_uploads p tickets total index ids).
Proof.
  revert index. induction ids as [|id ids IH]; intros index; cbn [resume_uploads]; [auto with grows|].
  solve_follows ltac:(auto with grows).
Qed.
Hint Resolve speaks_uploads : grows.

Lemma speaks_renew :
  speaks (match sorted_ids (pu_pending p) with
          | [] => mret []
          | _ => calling (fun h => gw_renew h r (sorted_ids (pu_pending p))) (Renew r (sorted_ids (pu_pending p)))
          end).
Proof. generalize (eq_refl (sorted_ids (pu_pending p))). destruct (sorted_ids _) at 2 3; auto with grows. Qed.
Hint Resolve speaks_renew : grows.

Lemma speaks_body : speaks (resume_body core p).
Proof. unfold resume_body. cbv zeta. solve_follows ltac:(auto with grows). Qed.

Lemma speaks_failed e : speaks (resume_failed core p e).
Proof.
  unfold resume_failed, durable_failure, lease_lost, failure_of. cbv zeta. destruct e; solve_follows ltac:(auto with grows).
Qed.

Lemma speaks_extends {A} (m : Action machine A) : speaks m -> follows extends m.
Proof. intros H s. destruct (H s) as (l & Hl & _). by eapply extends_by. Qed.

(** ** Failures *)

Hint Resolve speaks_extends : grows.

Lemma fails_resumed f : fails r (resumed_report r f).
Proof. apply fails_bind; [auto with grows|]. intros []. apply fails_report_failure. Qed.

Lemma fails_corrupt : fails r (corrupt_output p).
Proof.
  apply fails_bind; [unfold on_journal_error; solve_follows ltac:(auto with grows)|]. intros [].
  apply fails_bind; [auto with grows|]. intros f. apply fails_resumed.
Qed.

Lemma fails_failed e : e <> LeaseLostError -> fails r (resume_failed core p e).
Proof.
  intros He. unfold resume_failed. cbv zeta.
  destruct e; try done; repeat first
    [ apply fails_resumed
    | apply fails_fail
    | apply fails_bind; [solve [auto with grows]|intros ?]
    | match goal with |- fails _ (if ?c then _ else _) => destruct c end ].
Qed.

Lemma failed_retold e l0 s o s' :
  blamed r l0 e s -> resume_failed core p e s = (Ok o, s') -> (exists f, o = FailedWith f) /\ told r l0 o s'.
Proof.
  intros [[(l & Hl) _] Hb] H. assert (e = LeaseLostError \/ e <> LeaseLostError) as [->|He] by (destruct e; auto).
  - unfold resume_failed in H. cbv zeta in H. apply action_bind_ok in H as ([] & s1 & H1 & H).
    assert (extends s s1) as (k & Hk & _) by (eapply follows_run; [|exact H1]; auto with grows).
    apply (lost_told r l0) in H; [exact H|]. eapply lostly_grows; [by apply Hb|exact Hk].
  - destruct (fails_failed e He _ _ _ H) as [Ho Ht]. split; [exact Ho|]. eapply told_from; [exact Hl|exact Ht|reflexivity].
Qed.

(** ** Uploads *)

(** An output still pending was received whole. *)
Definition resent (l : list event) (id : string) : Prop :=
  exists a, find_artifact id (pu_result p) = Ok a /\ received l a.

Lemma resent_app l1 l2 l3 id : resent l2 id -> resent (l1 ++ l2 ++ l3) id.
Proof. intros (a & Ha & Hr). exists a. split; [exact Ha|]. by apply received_app. Qed.

Definition ended (l0 : list event) (ids : list string) (o : option WorkerOutcome) (s : machine) : Prop :=
  match o with
  | Some o => (exists f, o = FailedWith f) /\ told r l0 o s
  | None => exists l, mc_log s = l0 ++ l /\ forall id, In id ids -> resent l id
  end.

Lemma uploads_end tickets total index ids s o s' :
  resume_uploads p tickets total index ids s = (Ok o, s') -> ended (mc_log s) ids o s'.
Proof.
  revert index s. induction ids as [|id ids IH]; intros index s H; cbn [resume_uploads] in H.
  - injection H as <- <-. exists []. by rewrite app_nil_r.
  - apply action_bind_ok in H as (a & s1 & H1 & H). apply lift_ok in H1 as [Ha ->].
    apply action_bind_ok in H as (t & s2 & H2 & H). apply lift_ok in H2 as [_ ->].
    apply action_bind_ok in H as (f & s3 & H3 & H). apply lift_ok in H3 as [_ ->].
    apply action_bind_ok in H as (c & s4 & H4 & H). injection H4 as _ <-.
    apply action_bind_ok in H as (rc & s5 & H5 & H). apply upload_noted in H5 as [l5 H5].
    destruct (receipt_matches rc a) eqn:Hm.
    + apply action_bind_ok in H as (q & s6 & H6 & H). injection H6 as _ H6.
      assert (mc_log s6 = mc_log s5) as Hl6 by (by rewrite <- H6). apply IH in H. rewrite Hl6 in H.
      destruct o as [o|].
      * destruct H as [Ho Ht]. split; [exact Ho|]. eapply told_between; [|exact Ht|reflexivity].
        by eapply extends_by.
      * destruct H as (l & Hl & Hr). exists ((l5 ++ [Push t c (Ok rc)]) ++ l). split; [by rewrite Hl, H5, <- !app_assoc|].
        intros i [<-|Hi].
        -- exists a. split; [exact Ha|]. exists t, c, rc. split; [|exact Hm]. rewrite !in_app_iff. cbn. auto.
        -- rewrite <- (app_nil_r l). by apply resent_app, Hr.
    + apply action_bind_ok in H as (x & s6 & H6 & H). injection H as <- <-.
      destruct (fails_corrupt _ _ _ H6) as [Ho Ht]. split; [exact Ho|].
      eapply told_between; [|exact Ht|reflexivity]. by eapply extends_by.
Qed.

(** ** The outcome *)

Definition retold (l0 : list event) (o : WorkerOutcome) (s : machine) : Prop :=
  exists l, mc_log s = l0 ++ l /\
    match o with
    | Succeeded result => result = pu_result p /\ exists l1 l2, l = l1 ++ Complete r result (Ok tt) :: l2 /\
        forall id, In id (pu_pending p) -> resent l1 id
    | FailedWith f => In (Report r f (Ok tt)) l \/
        (wf_code f = ErrorCode.to_int ErrorCode.LEASE_LOST /\ lost r l)
    end.

Lemma retold_between s0 s s1 s' o : extends s0 s -> retold (mc_log s) o s1 -> extends s1 s' -> retold (mc_log s0) o s'.
Proof.
  intros (l1 & H1 & _) (l2 & H2 & Ho) (l3 & H3 & _). exists (l1 ++ l2 ++ l3).
  split; [by rewrite H3, H2, H1, <- !app_assoc|]. destruct o as [result|f].
  - destruct Ho as (Hr & k1 & k2 & -> & Ha). split; [exact Hr|]. exists (l1 ++ k1), (k2 ++ l3).
    split; [by rewrite <- !app_assoc|]. intros id Hin. rewrite <- (app_nil_r k1). by apply resent_app, Ha.
  - destruct Ho as [Hr|[Hf Hl]]; [left; rewrite !in_app_iff; auto|right]. split; [exact Hf|]. by apply lost_app.
Qed.

Lemma told_retold l0 o s : (exists f, o = FailedWith f) /\ told r l0 o s -> retold l0 o s.
Proof. by intros [[f ->] Ht]. Qed.

Lemma body_retold s o s' : resume_body core p s = (Ok o, s') -> retold (mc_log s) o s'.
Proof.
  unfold resume_body. cbv zeta. intros H.
  apply action_bind_ok in H as ([] & s1 & H1 & H). apply action_bind_ok in H as ([] & s2 & H2 & H).
  apply action_bind_ok in H as (tickets & s3 & H3 & H).
  apply action_bind_ok in H as ([] & s4 & H4 & H). apply ensure_ok in H4 as [_ ->].
  apply action_bind_ok in H as ([] & s5 & H5 & H). apply ensure_ok in H5 as [_ ->].
  apply action_bind_ok in H as (e & s6 & H6 & H). apply uploads_end in H6.
  assert (extends s s1) as E1 by (eapply follows_run; [|exact H1]; auto with grows).
  assert (extends s1 s2) as E2 by (eapply follows_run; [|exact H2]; auto with grows).
  assert (extends s2 s3) as E3.
  { eapply follows_run; [|exact H3]. apply grows_locked; [done|]. destruct (sorted_ids _); auto with grows. }
  eapply retold_between; [by etransitivity; [exact E1|]; etransitivity; [exact E2|exact E3]| |reflexivity].
  clear E1 E2 E3 H1 H2 H3. destruct e as [x|].
  - injection H as <- <-. by apply told_retold.
  - destruct H6 as (l6 & Hl6 & Hr).
    apply action_bind_ok in H as ([] & s7 & H7 & H). apply action_bind_ok in H as ([] & s8 & H8 & H).
    apply action_bind_ok in H as ([] & s9 & H9 & H). injection H as <- <-.
    assert (extends s6 s7) as (l7 & Hl7 & _) by (eapply follows_run; [|exact H7]; auto with grows).
    assert (extends s8 s9) as (l9 & Hl9 & _) by (eapply follows_run; [|exact H9]; auto with grows).
    assert (exists l8, mc_log s8 = mc_log s7 ++ l8 ++ [Complete r (pu_result p) (Ok tt)]) as (l8 & Hl8).
    { unfold heartbeat_locked in H8. apply action_bind_ok in H8 as ([] & t1 & T1 & H8).
      apply action_bind_ok in H8 as (x & t2 & T2 & H8). injection T2 as <- <-.
      assert (extends s7 t1) as (k1 & K1 & _) by (eapply follows_run; [|exact T1]; auto with grows).
      destruct (mc_error t1); [done|]. unfold calling in H8. injection H8 as Ha <-. rewrite Ha.
      exists k1. cbn. by rewrite K1, <- app_assoc. }
    exists ((l6 ++ l7 ++ l8) ++ Complete r (pu_result p) (Ok tt) :: l9).
    split; [by rewrite Hl9, Hl8, Hl7, Hl6, <- !app_assoc|]. split; [done|]. eexists _, l9. split; [done|].
    intros id Hid. apply (resent_app [] l6), Hr. by rewrite in_sorted_ids.
Qed.
End Pending.

(** C25: what resuming says.  Whatever the surroundings do, a worker that resumes an upload takes
    the oldest attempt of its spool, executes nothing, and sends requests for that attempt's
    lease only; a success is the stored result, accepted by the gateway after every output
    still pending was received with its size and digest; a failure was accepted by the
    gateway, unless it says that the lease is lost and an answer of the gateway for that
    lease or a transport had raised [LeaseLostError]. *)
Theorem resume_is_reported core s o s' :
  resume_pending core s = (Ok (Some o), s') ->
  exists p, fst (oldest_pending (mc_disk s)) = Ok (Some p) /\
    (exists l, mc_log s' = mc_log s ++ l /\ Forall (resuming p) l) /\ retold p (mc_log s) o s'.
Proof.
  unfold resume_pending. intros H. destruct (wc_journal core); [|done]. cbn [negb] in H.
  apply action_bind_ok in H as (found & s1 & H1 & H). injection H1 as Hp Hs1. destruct found as [p|]; [|done].
  exists p. split; [exact Hp|]. apply action_bind_ok in H as ([] & s2 & H2 & H). injection H2 as Hs2.
  assert (mc_log s2 = mc_log s) as Hl by (by rewrite <- Hs2, <- Hs1).
  apply action_bind_ok in H as (x & s3 & H3 & H). injection H as <- <-. rewrite <- Hl. split.
  - assert (follows (adds (resuming p)) (finally (catching (resume_body core p) (resume_failed core p))
                                           (stop_keeper (pu_reference p) false))) as Hf; [|exact (follows_run _ _ _ _ Hf H3)].
    solve_follows ltac:(first [apply speaks_body | apply speaks_failed | by apply grows_stop]).
  - apply finally_ok in H3 as (s4 & H4 & Hs').
    assert (extends s4 s3) as Hg by (rewrite <- Hs'; by apply grows_stop).
    eapply retold_between; [reflexivity| |exact Hg]. apply catching_ok in H4 as [H4|(e & s5 & H5 & H4)].
    + by apply (body_retold core).
    + apply told_retold, (failed_retold core p e _ s5); [|exact H4].
      assert (sound (pu_reference p) (mc_log s2) s2) as Hs.
      { split; [exists []; by rewrite app_nil_r|]. rewrite <- Hs2. by intros []. }
      pose proof (blames_resume (pu_reference p) (mc_log s2) core p eq_refl s2 Hs) as Hb. by rewrite H5 in Hb.
Qed.
End Resume.
