(* ===== verification/Bench.v ===== *)
(** * A worker on the bench

    A worker with one executor, on a disk, a gateway and transports that can be made to fail:
    runs that satisfy the hypotheses of the theorems about the worker, and runs that show
    where its code does not do what its comments say. *)

From stdpp Require Import gmap.
From Stdlib Require Import QArith.
From S2P Require Import Prelude Python Bytes Effects Errors Metadata Schema Store Capability Encoding Signing Envelope.
From S2P Require Import Stream Work Spool Worker Local Loss Receipts Durable Staging Pending Resume.

Open Scope Z_scope.

Module Bench.
Import Signing.Toy Stream.Plain.

(** ** The surroundings *)

(** A name longer than every name in use. *)
Definition unused (entries : gmap string entry) : string :=
  String.string_of_list_ascii (repeat "x"%char (max_list (String.length <$> (map_to_list entries).*1))).

Lemma length_of_list l : String.length (String.string_of_list_ascii l) = length l.
Proof. induction l as [|c l IH]; cbn; [done|by rewrite IH]. Qed.

Lemma unused_fresh (entries : gmap string entry) : entries !! ("manifest-" +:+ unused entries) = None.
Proof.
  destruct (entries !! _) as [e|] eqn:He; [|done]. exfalso.
  assert (String.length ("manifest-" +:+ unused entries) ∈ String.length <$> (map_to_list entries).*1) as Hin.
  { apply list_elem_of_fmap_2, list_elem_of_fmap. exists ("manifest-" +:+ unused entries, e). split; [done|].
    by apply elem_of_map_to_list. }
  apply max_list_elem_of_le in Hin. change (9 + String.length (unused entries) <= max_list (String.length <$>
    (map_to_list entries).*1))%nat in Hin. unfold unused in Hin. rewrite length_of_list, repeat_length in Hin. lia.
Qed.

(** An operating system that does what it is asked but where [answer] says otherwise. *)
Definition platform (answer : nat -> os_reply) : Platform := {|
  os_answer := answer;
  windows := false;
  temp_suffix entries _ := unused entries;
  text_size _ := 0
|}.

Lemma platform_laws answer : @PlatformLaws (platform answer).
Proof. intros entries n. apply unused_fresh. Qed.

Definition reference : LeaseReference := MkReference "lse_1" "tsk_1" "att_1" "wrk_1" 1.
Definition ticket : TransferTicket := MkTicket "https://store/out" "PUT" [] None [] None None None None.
Definition target : ArtifactOutputTarget :=
  MkTarget "out" (MkArtifact "art_1" "out.bin" "image/png" None None []) ticket "output" "s3" None.
Definition bench_lease : ExecutionLease :=
  MkLease reference (MkPayload "echo" "json" "run" "digest" []) [] [target]
    (Some (MkCrypto "wsp_1" "att_1" 1 Stream.Plain.key)) None 60.
Definition core : WorkerCore := MkCore [MkDescriptor "echo" "1.0" ["json"] ["run"] 1 []] true.

Definition image : bytes := [x0a; x0b; x0c].
Definition produced : ExecutionResult :=
  MkExecResult [MkExecArtifact "out" (Some image) "image/png" [("width", JInt 8)]] no_usage None [].

(** An executor that asks whether it was cancelled, and says so if it was. *)
Definition obedient : execution :=
  Ask IsCancelled (fun a => match a with
                            | Ok true => Throw (executor_failure ErrorCode.EXECUTION_CANCELLED "Execution was cancelled."
                                                  RetryAction.NONE "consumer" [])
                            | _ => Done produced
                            end).

Definition going : res HeartbeatDirective := Ok (MkDirective false None).

(** A gateway that accepts everything but where [beat] says otherwise, transports that end an
    upload as [sent] says, and a keeper that runs as [steps] says. *)
Definition site (beat : list event -> res HeartbeatDirective) (sent : bytes -> transfer TransferReceipt)
    (steps : nat -> nat) : Site := {|
  gw_heartbeat h _ _ := beat h;
  gw_mark_started _ _ := going;
  gw_renew _ _ ids := Ok (map (fun i => (i, ticket)) ids);
  gw_complete _ _ _ := Ok tt;
  gw_fail _ _ _ := Ok tt;
  download_script _ _ := Throw (ArtifactTransferError "download" true None);
  upload_script _ _ content := sent content;
  executor_script _ _ := obedient;
  keeper_steps := steps;
  stream_seed n := be_bytes 3 (Z.of_nat n)
|}.

Definition received_whole (content : bytes) : transfer TransferReceipt :=
  Ask (blen content, Some (blen content)) (fun _ => Done (MkReceipt (blen content) (hexdigest content) None)).

Definition blank_disk : disk := MkDisk ∅ [] true 0.
Definition machine_on (d : disk) : machine :=
  MkMachine [] d KIdle None false (MkProgress 0 "preparing" None) 0 0 0 false "preparing" false None 0.

Definition calm (_ : nat) : os_reply := OsDone.
Definition fair : Site := site (fun _ => going) received_whole (fun _ => 1%nat).

(** ** A lease processed to its end *)

Definition fair_run : res WorkerOutcome * machine :=
  @process_lease toy_env plain (platform calm) fair core bench_lease (machine_on blank_disk).

Definition bench_outcome : WorkerOutcome :=
  Eval vm_compute in match fst fair_run with Ok o => o | Raise _ => FailedWith (MkFailure 0 "" "" "" "" true [] no_usage) end.

Lemma outcome_is_reported_witness :
  @process_lease toy_env plain (platform calm) fair core bench_lease (machine_on blank_disk) = (Ok bench_outcome, snd fair_run) /\
  told reference [] bench_outcome (snd fair_run).
Proof.
  assert (@process_lease toy_env plain (platform calm) fair core bench_lease (machine_on blank_disk) = (Ok bench_outcome, snd fair_run))
    as H by (vm_compute; reflexivity).
  split; [exact H|].
  exact (@outcome_is_reported toy_env plain (platform calm) fair core bench_lease (machine_on blank_disk) bench_outcome
           (snd fair_run) H).
Defined.

(** ** An upload left pending *)

Definition result : WorkerResult :=
  Eval vm_compute in match bench_outcome with Succeeded r => r | FailedWith _ => MkResult [] no_usage "" "" None [] end.

(** The encrypted image, as the run above staged it. *)
Definition ciphertext : bytes :=
  Eval vm_compute in
    match List.find (fun e => match e with Push _ _ _ => true | _ => false end) (mc_log (snd fair_run)) with
    | Some (Push _ c _) => c
    | _ => []
    end.

Definition attempt_dir : string := Eval vm_compute in @_directory toy_env "att_1".
Definition output_name : string := Eval vm_compute in @ciphertext_name toy_env "art_1".

Definition staged_disk : disk :=
  MkDisk {[ attempt_dir := Dir (MkDirectory 0 {[ output_name := Cipher ciphertext ]}) ]} [] true 0.

Lemma staged_laid_out :
  @laid_out toy_env reference result [("art_1", InSpool attempt_dir output_name)] staged_disk.
Proof.
  unfold laid_out. change (@_directory toy_env (lr_attempt_id reference)) with attempt_dir.
  assert (entries_at attempt_dir staged_disk = {[ output_name := Cipher ciphertext ]}) as -> by reflexivity.
  split_and!; [by eexists| | | |done|reflexivity|reflexivity].
  - constructor; [|constructor]. split; [done|]. exists output_name, ciphertext. rewrite lookup_singleton_eq. done.
  - intros name e [<- _]%lookup_singleton_Some. right. eexists. split; [by left|done].
  - apply NoDup_singleton.
Qed.

Lemma save_load_roundtrip_witness :
  @laid_out toy_env reference result [("art_1", InSpool attempt_dir output_name)] staged_disk /\
  exists p d1 d2,
    @save_upload toy_env (platform calm) reference result [("art_1", InSpool attempt_dir output_name)] None staged_disk =
      (Ok p, d1) /\
    @load_upload toy_env (platform calm) "att_1" d1 =
      (Ok (MkPending reference (stored_result result) [("art_1", InSpool attempt_dir output_name)] ["art_1"]), d2).
Proof.
  split; [exact staged_laid_out|].
  exact (@save_load_roundtrip toy_env (platform calm) (platform_laws calm) (fun _ => eq_refl) reference result
           [("art_1", InSpool attempt_dir output_name)] None staged_disk staged_laid_out eq_refl).
Defined.

(** The store cannot be reached. *)
Definition unreachable : Site :=
  site (fun _ => going) (fun _ => Throw (ArtifactTransferError "upload" true None)) (fun _ => 1%nat).

Definition unreachable_run : res WorkerOutcome * machine :=
  @process_lease toy_env plain (platform calm) unreachable core bench_lease (machine_on blank_disk).

(** The executor named its artifacts apart. *)
Definition named_apart (e : event) : bool :=
  match e with Executed _ (Ok ex) => bool_decide (NoDup (map ea_name (er_artifacts ex))) | _ => true end.

Lemma unreachable_apart q ex :
  In (Executed q (Ok ex)) (mc_log (snd unreachable_run)) -> NoDup (map ea_name (er_artifacts ex)).
Proof.
  assert (forallb named_apart (mc_log (snd unreachable_run)) = true) as H by (vm_compute; reflexivity).
  intros Hin. rewrite forallb_forall in H. specialize (H _ Hin). cbn in H. by apply bool_decide_eq_true in H.
Qed.

Lemma unreachable_pending :
  @process_lease toy_env plain (platform calm) unreachable core bench_lease (machine_on blank_disk) =
  (Raise (UploadPendingError "att_1"), snd unreachable_run).
Proof. vm_compute. reflexivity. Qed.


(** ** Resuming it *)

Definition saved : disk :=
  snd (@save_upload toy_env (platform calm) reference result [("art_1", InSpool attempt_dir output_name)] None staged_disk).

Definition resumed_run : res (option WorkerOutcome) * machine :=
  @resume_pending toy_env (platform calm) fair core (machine_on saved).

Lemma resume_is_reported_witness :
  resumed_run = (Ok (Some (Succeeded (stored_result result))), snd resumed_run) /\
  exists p, fst (@oldest_pending toy_env (platform calm) saved) = Ok (Some p) /\
    (exists l, mc_log (snd resumed_run) = [] ++ l /\ Forall (resuming p) l) /\
    retold p [] (Succeeded (stored_result result)) (snd resumed_run).
Proof.
  assert (resumed_run = (Ok (Some (Succeeded (stored_result result))), snd resumed_run)) as H by (vm_compute; reflexivity).
  split; [exact H|].
  exact (@resume_is_reported toy_env (platform calm) fair core (machine_on saved) (Succeeded (stored_result result))
           (snd resumed_run) H).
Defined.

(** ** Where the code does something else *)

Definition terminals (log : list event) : list (string + Z) :=
  flat_map (fun e => match e with
                     | Complete _ _ (Ok _) => [inl "completed"]
                     | Report _ f (Ok _) => [inr (wf_code f)]
                     | _ => []
                     end) log.

(** A heartbeat that cannot reach the gateway while the executor runs. *)
Definition flaky (h : list event) : res HeartbeatDirective :=
  match last h with Some (Executing _) => Raise GatewayUnavailableError | _ => going end.

Definition flaky_run : res WorkerOutcome * machine :=
  @process_lease toy_env plain (platform calm) (site flaky received_whole (fun _ => 3%nat)) core bench_lease
    (machine_on blank_disk).

(** The gateway cancelled nothing, and is told that the consumer's cancellation was obeyed. *)
Lemma lost_heartbeat_reported_as_cancelled :
  terminals (mc_log (snd flaky_run)) = [inr (ErrorCode.to_int ErrorCode.EXECUTION_CANCELLED)] /\
  forallb (fun e => match e with Beat _ _ (Ok d) | Start _ (Ok d) => negb (hd_cancelled d) | _ => true end)
    (mc_log (snd flaky_run)) = true.
Proof. vm_compute. done. Qed.

(** The [answer] of an operating system whose n-th call goes wrong. *)
Definition wrong_at (n : nat) (reply : os_reply) (i : nat) : os_reply := if Nat.eqb i n then reply else OsDone.

(** The ciphertext cannot be removed after its attempt was completed. *)
Definition locked_run : res WorkerOutcome * machine :=
  @process_lease toy_env plain (platform (wrong_at 30 (OsFails "PermissionError"))) fair core bench_lease (machine_on blank_disk).

Lemma completed_then_failed :
  terminals (mc_log (snd locked_run)) = [inl "completed"; inr (ErrorCode.to_int ErrorCode.INTERNAL_ERROR)].
Proof. vm_compute. reflexivity. Qed.

(** A process that ends while it marks its output uploaded. *)
Definition interrupted (n : nat) : disk :=
  snd (@mark_uploaded toy_env (platform (wrong_at (dk_calls saved + n) OsKills)) "att_1" "art_1" saved).

(** The manifest is whole, and its temporary copy beside it makes the attempt unreadable. *)
Lemma interrupted_save_is_quarantined :
  entries_at attempt_dir (interrupted 6) !! _MANIFEST = entries_at attempt_dir saved !! _MANIFEST /\
  fst (@load_upload toy_env (platform calm) "att_1" (interrupted 6)) = Raise UploadJournalError /\
  fst (@list_pending toy_env (platform calm) (interrupted 6)) = Ok [] /\
  length (dk_quarantine (snd (@list_pending toy_env (platform calm) (interrupted 6)))) = 1%nat.
Proof. vm_compute. done. Qed.

(** A manifest whose usage is not an object. *)
Definition crooked_disk : disk :=
  MkDisk {[ attempt_dir := Dir (MkDirectory 0 {[ _MANIFEST := Document (JDoc (JObj
    [("version", JInt 1); ("reference", reference_to_dict reference);
     ("result", JObj [("artifacts", JList []); ("usage", JList [])])])) ]}) ]} [] true 0.

(** Listing the attempts raises instead of moving it out of the way. *)
Lemma crooked_usage_escapes :
  fst (@list_pending toy_env (platform calm) crooked_disk) = Raise AttributeError.
Proof. vm_compute. reflexivity. Qed.
End Bench.
